(* ===== verification/_CoqProject ===== *)
-Q . S2P
Prelude.v
SimpleBuffer.v
ByteStream.v
Pdu.v
NetLib.v
ImConn.v
EventDispatch.v
Timeouts.v
NativeByteBuffer.v
BuffersStorage.v
ConfigStore.v
Helpers.v
ConfigFile.v
ConnPool.v
Server.v
Broadcast.v
Cache.v
Pools.v
ServInfo.v
ServerConfig.v
Business.v
Base64.v
Words.v
Aes.v
Hash.v
Sha2.v
Hmac.v
WordList.v
WordLists.v
Bip39.v
AccountManager.v
ClientConn.v
Base58.v
Bignum.v
Primality.v
BignumMod.v
Ecdsa.v
Secp256k1.v
Curve.v
CurveGroup.v
EcPoints.v
EcMultiply.v
EcTable.v
EcSign.v
EcSignature.v
Keccak.v
CryptoHelpers.v
BytesData.v
Strings.v
HDKey.v
Token.v
Signing.v
