(* ===== verification/Prelude.v ===== *)
(** * Verification of the PTP instant-messaging server

    PTP is a C++ messaging system.  Clients and servers exchange packets (a
    16-byte header and a protobuf body) over TCP connections driven by an event
    loop.  A message server accepts clients, logs them in by a signature over a
    captcha, and keeps a registry of users; it handles a request itself or, when
    so configured, passes it on to a business server, which runs it on worker
    threads and sends the response back.  The client library serialises its data
    with its own pooled byte buffers, keeps its configuration in a file with a
    backup, and keeps the secret of an account there, encrypted: sixteen random
    bytes that the user sees as a mnemonic of twelve words.

    This library models those parts of src/src as executable definitions and
    proves what makes them correct.  Paths below are relative to src/src.

    ** Conventions

    - A C++ integer is a [Z]; an assignment to a w-bit variable goes through
      [wrap_u w] or [wrap_s w] ([u32], [i32], ...).  Bytes are [Z] from 0 to 255.
    - Code that may throw or do something undefined returns an [outcome]:
      [Ret], [Throw], [UB] (access outside an allocation, null or deleted
      object, uninitialised pointer), or [NoFuel].  [NoFuel] only marks that the
      bound given to the model of a loop was too small; theorems about loops
      give a bound with which it does not occur.
    - New memory holds arbitrary bytes, given by a [junk] argument over which
      statements quantify.  Objects reached through pointers live in a heap
      ([gmap nat]), so that sharing and deletion are visible.
    - System calls, redis, MySQL, protobuf-generated code, libsecp256k1, the
      ciphers and the MD5 of OpenSSL and random numbers are parameters: classes
      ([OS], [NetLib], [Protobuf], [Crypto], [Handlers], [AES], [GCM], [MD5],
      [libsecp256k1], [Hiredis], [Redis], [MySQL]) or function arguments.  Each
      class with laws has a concrete instance in a witness.

    ** Files

    - [Prelude]: integers, outcomes, memory blocks, list lemmas, the tactics
      [zlia], [mstep], [forall_list], [no_fuel] and the databases [zlen] and
      [no_fuel].
    - [SimpleBuffer]: [CSimpleBuffer] (ptp_global/UtilPdu.cpp), the byte queue
      under connections and packets.  With its peeks it refines a first-in
      first-out queue while sizes fit 32 bits; the bound is needed.
    - [ByteStream]: [CByteStream] and the attach records (UtilPdu.cpp,
      AttachData.cpp).  Round trip; the exact effect of the length check.
    - [Pdu]: [CImPdu], [ImPdu] (ImPduBase.cpp, ptp_protobuf/ImPdu.cpp).  Packet
      round trip; every case of a declared length; uninitialised header bytes.
    - [NetLib]: [CBaseSocket], its registry and reference counts (BaseSocket.cpp,
      NetLib.cpp, Utils.cpp), listening, connecting and accepting, and one round of
      the epoll loop (EventDispatch.cpp) with its up to four handlers and their
      callbacks.  No socket is used after deletion or leaked, but for an option
      with a null value.  It implements the [NetLib] class that [ImConn] is proved
      against.
    - [ImConn]: [CImConn] (ImConn.cpp).  The outgoing stream loses, repeats and
      reorders nothing; delivery does not depend on how the network cuts the
      stream.  The loops run on fuel larger than the bytes involved, which is
      enough since every round moves at least one byte.
    - [EventDispatch]: the timers of the event loop.  What a pass fires; which
      callbacks its iterator survives.
    - [Timeouts]: the [OnTimer] handlers of connections.  When exactly a client
      is closed; that heartbeats keep server connections alive.
    - [NativeByteBuffer]: [NativeByteBuffer], [ByteArray] (ptp_net).  Round trip,
      exact size calculation, memory safety on arbitrary contents for sources
      below 2^31 bytes; longer ones overflow.
    - [BuffersStorage]: the buffer pool (ptp_net/BuffersStorage.cpp).  Buffers in
      use do not alias as long as clients use only what they hold; a notified
      buffer is not held; nested buffers.
    - [ConfigStore]: [Config] (ptp_net/Config.cpp).  Crash consistency with calls
      that fail in writes and starts, except for an old file that does not open; and
      the stale backup that undoes a write.
    - [Helpers]: text codecs (ptp_global/Helpers.cpp, UtilPdu.cpp) and their
      round trips.
    - [ConfigFile]: [CStrExplode] (Utils.cpp) and [CConfigFileReader].
    - [ConnPool]: the algorithm of [CachePool] and [CDBPool]
      (ptp_server/CachePool.cpp, DBPool.cpp) as steps of threads.
    - [Server]: the message server (ptp_server: MsgSrvConn.cpp, ImUser.cpp,
      HandlerMap.cpp, actions/AuthAction.cpp, actions/OtherAction.cpp,
      services/InterLogin.cpp).  A login takes a signature by the address unless
      a client sends server packets; an honest login succeeds; a forged one
      succeeds too; refused logins exhaust the cache pool; a packet whose handler
      throws closes its connection, and no exception goes further; the registry
      matches the connections; the chain of handlers ends, for which four rounds of
      fuel are enough.
    - [Broadcast]: the rest of ImUser.cpp.  A packet for a user goes once to each of its
      open connections, after any history of the server.
    - [Cache]: [CacheConn] (ptp_server/CachePool.cpp), a connection to redis over the
      classes [Hiredis] and [Redis].  Its contexts are neither leaked nor used after
      they are freed, except after a lost [isExists], up to an [mget] that misreads
      its format or its reply; a connection implements the cache that [Server] has as
      a map.
    - [Pools]: [CacheManager] and [CDBManager], and rows and escaping of DBPool.cpp over
      the class [MySQL].  The pools are those the configuration names; escaping stays
      in its buffer; which reads of rows are undefined.
    - [ServInfo]: the connections to business servers (ptp_global/ServInfo.h,
      ptp_server/BusinessClientConn.cpp).  The reconnection delays; a failed
      connect is never retried; the choice of an open connection.
    - [ServerConfig]: the list of servers that the configuration names
      (ptp_global/ServInfo.cpp).  Reading it ends, after one round more than there are
      servers, and finds the servers up to the first gap.
    - [Business]: the business server (BusinessSrvConn.cpp, ProxyTask.cpp,
      ptp_global/ThreadPool.cpp) as a step relation of threads.  Every request
      is answered once, on its connection; one worker keeps the order.
    - [Base64]: the three codecs of ptp_crypto/Base64.cpp, Base64Utils.cpp and
      ptp_toolbox/data/base64.cpp.  They agree with RFC 4648 and are inverted by
      their decoders.
    - [Words]: bits of machine words, shared by the files below.
    - [Aes]: [CAes] (ptp_crypto/AesSimple.cpp) and the GCM wrappers
      (aes_encryption.cpp).  Round trip; decryption accepts every tag.
    - [Hash], [Sha2]: streaming hashes, and SHA-1, SHA-256 and SHA-512 of
      ptp_crypto/sha2.cpp.  SHA-256 and SHA-512 are those of FIPS 180-4, whatever
      pieces the message comes in.
    - [Hmac]: ptp_crypto/hmac.cpp and pbkdf2.cpp.  HMAC of RFC 2104 and PBKDF2
      of RFC 8018.
    - [WordList], [WordLists]: ptp_wallet/word_list.cpp, mnemonic.cpp and the
      seven lists under ptp_wallet/data.  The tables point at the words, and lookups
      by index and by word are exact in every list.
    - [Bip39]: ptp_wallet/bip39.cpp, MnemonicHelper.cpp, utils.cpp.  Entropy and
      words are inverse; validation is exact; the seed is that of BIP39.
    - [AccountManager]: the secret of an account (ptp_net/AccountManager.cpp).
      It survives a restart; the words shown are not those given; a damaged
      file makes two functions call each other for ever.  Fuel bounds the depth
      of those calls, and one level is enough when the file is intact.
    - [ClientConn]: the client's connection and its timer
      (ptp_net/ClientConn.cpp).  No use of a freed connection; a closed client
      reconnects on the tick its delay says; giving up an attempt hangs.  Fuel
      bounds loops whose iterator never moves: they end in the first round or
      never.
    - [Base58]: ptp_crypto/base58.cpp and hasher.cpp.  Encoder and decoder are
      exactly inverse; texts with a checksum are read back, and so are texts
      with a checksum that is too small.
    - [Bignum], [BignumMod]: ptp_crypto/bignum.cpp.  Conversions and carries are
      exact; multiplication, inverses and roots are right modulo a prime near
      2^256.
    - [Primality]: Pocklington's criterion, and that the modulus of secp256k1 and
      the order of its base point are prime; it models no code.
    - [Ecdsa]: ptp_crypto/ecdsa.cpp, points, multiples, public keys and
      signatures; [random32] gives the words of a list, and an exhausted list is
      [NoFuel].  [Secp256k1]: crypto_secp256k1.cpp and secp256k1.table.
    - [Curve]: the group law of a curve, the specification of the next files, and
      [CurveGroup]: it is commutative and associative, so multiples add up; they
      model no code.  [EcPoints]: the point operations are the group law.
      [EcMultiply]: [scalar_multiply] sums signed digits.  [EcTable]: the table
      has the multiples it should have, and the base point has its order.  [EcSign]:
      for secp256k1 the sum is the number times the base point; public keys.
      [EcSignature]: signing is the scheme of the standard, in every round, and its
      signatures verify.
    - [Keccak]: ptp_crypto/keccak.cpp is the Keccak-256 of the standard; the
      overload for strings is not, beyond ASCII.
    - [CryptoHelpers]: ptp_crypto/secp256k1_helpers.cpp, crypto_helpers.cpp and the
      address of a key, over a class of the operations of libsecp256k1.  Recovery
      returns the signer; a recovery id out of range ends the process.
    - [BytesData]: the byte containers of ptp_toolbox/data.  Writes in range are
      writes to memory, numbers are read back, arrays keep their size; and where
      conversions and comparisons go wrong.
    - [Strings]: ptp_toolbox/strings.cpp and strings/decimal_formatter.cpp.
      Splitting inverts joining; when replacing ends; grouping of numbers.  The
      length of the text is enough fuel where a loop ends.
    - [HDKey]: ptp_wallet/HDKey.cpp with uint256_t.h and wallet.h.  Child keys, paths, extended keys and the
      address of a mnemonic are those of BIP32 and BIP39.  Fuel bounds the
      attempts to find a valid key, and the specification has the same bound.
    - [Signing]: addresses, signatures and shared keys of an account
      (ptp_net/AccountManager.cpp) over [Bip39], [HDKey] and [CryptoHelpers].  What an
      account signs recovers to its address, which is what the login of the server
      compares.
    - [Token]: ptp_global/TokenValidator.cpp.  Its MD5 is that of RFC 1321; a
      token is valid for its user and about an hour.

    ** Limits

    One login handler runs at a time, as in the message server without business
    connections.  In asynchronous mode the packets a business server returns are
    not events of [Server.run].  Time is the tick given to an operation.  The
    signal handlers and [main] functions, HTTP, the JNI code, logging and prepared
    MySQL statements are left out, as library calls or I/O.

    Of ptp_net/AccountManager.cpp, the packet handler, the invocations from the
    app and the socket callbacks are not modelled.  The address of a mnemonic is an
    arbitrary function over which the theorems of [AccountManager] quantify;
    [Signing] computes it.

    Not modelled: the hash classes that nothing uses (ptp_global/sha1.cpp and
    ptp_crypto/sha1.cpp, sha256.cpp, sha512.cpp, ripemd160.cpp); the stream
    operators, regular expressions and terminal output of the toolbox; and the
    older servers under src/else, which the build leaves out. *)

From Stdlib Require Export ZArith Lia.
From stdpp Require Export base numbers list strings gmap option.

#[global] Open Scope Z_scope.

(** ** Machine integers

    A C++ integer is a [Z]; every assignment to a w-bit variable goes through
    the wrap-around of its type. *)

Definition wrap_u (w z : Z) : Z := z mod 2 ^ w.

Definition wrap_s (w z : Z) : Z := (z + 2 ^ (w - 1)) mod 2 ^ w - 2 ^ (w - 1).

Abbreviation u8 := (wrap_u 8).
Abbreviation u16 := (wrap_u 16).
Abbreviation u32 := (wrap_u 32).
Abbreviation u64 := (wrap_u 64).
Abbreviation i8 := (wrap_s 8).
Abbreviation i16 := (wrap_s 16).
Abbreviation i32 := (wrap_s 32).
Abbreviation i64 := (wrap_s 64).

Definition is_u (w z : Z) : Prop := 0 <= z < 2 ^ w.

Definition is_s (w z : Z) : Prop := - 2 ^ (w - 1) <= z < 2 ^ (w - 1).

#[global] Instance is_u_dec w z : Decision (is_u w z).
Proof. unfold is_u. apply _. Defined.

#[global] Instance is_s_dec w z : Decision (is_s w z).
Proof. unfold is_s. apply _. Defined.

Abbreviation bytes_ok := (Forall (is_u 8)).

(** ** Outcomes

    The result of running C++ code: a value, an exception that was thrown, or
    undefined behaviour (an access outside an allocation, a read through a
    null pointer, a use of a deleted object).  [NoFuel] is not a behaviour of
    the code: it marks that the bound given to the model of a loop was too
    small, and the theorems about loops show that it does not occur. *)

Inductive exn :=
| CPduException (service_id command_id error_code : Z) (error_msg : string)
| invalid_argument (what : string)
| runtime_error (what : string)
| out_of_range (what : string)
| assertion_failed (what : string)
| terminated.

Inductive outcome (A : Type) :=
| Ret (a : A)
| Throw (e : exn)
| UB
| NoFuel.

Arguments Ret {A} a.
Arguments Throw {A} e.
Arguments UB {A}.
Arguments NoFuel {A}.

#[global] Instance outcome_ret : MRet outcome := fun A a => Ret a.

#[global] Instance outcome_bind : MBind outcome := fun A B f m =>
  match m with
  | Ret a => f a
  | Throw e => Throw e
  | UB => UB
  | NoFuel => NoFuel
  end.

(** Run a bind whose first computation has become a value. *)
Ltac mstep := cbn [mbind outcome_bind mret outcome_ret].

(** [assert]: the program is built without [NDEBUG], so that a failing check
    ends it; nothing in the code catches that. *)
Definition cassert (b : bool) (what : string) : outcome unit :=
  if b then Ret () else Throw (assertion_failed what).

#[global] Instance exn_eq_dec : EqDecision exn.
Proof. solve_decision. Defined.

(** ** Characters

    The bytes of a string literal; [isalnum] of the C locale. *)

Definition bytes_of (s : string) : list Z :=
  map (fun a => Z.of_nat (Ascii.nat_of_ascii a)) (String.list_ascii_of_string s).

(** A C string ends at its first null byte. *)
Fixpoint c_str (s : list Z) : list Z :=
  match s with
  | [] => []
  | c :: s => if c =? 0 then [] else c :: c_str s
  end.

Definition isdigit (x : Z) : bool := (48 <=? x) && (x <=? 57).

Definition isalnum (x : Z) : bool :=
  isdigit x || ((65 <=? x) && (x <=? 90)) || ((97 <=? x) && (x <=? 122)).

(** ** Memory blocks

    An allocation is the list of its bytes.  Offsets and lengths are [Z], as
    in the code; an access outside the block is undefined behaviour. *)

Definition zlen {A} (l : list A) : Z := Z.of_nat (length l).

Definition ztake {A} (n : Z) (l : list A) : list A := take (Z.to_nat n) l.

Definition zdrop {A} (n : Z) (l : list A) : list A := drop (Z.to_nat n) l.

Definition mem_read (m : list Z) (off len : Z) : outcome (list Z) :=
  if decide (0 <= off /\ 0 <= len /\ off + len <= zlen m)
  then Ret (ztake len (zdrop off m)) else UB.

Definition mem_write (m : list Z) (off : Z) (bs : list Z) : outcome (list Z) :=
  if decide (0 <= off /\ off + zlen bs <= zlen m)
  then Ret (ztake off m ++ bs ++ zdrop (off + zlen bs) m) else UB.

Definition mem_get (m : list Z) (off : Z) : outcome Z :=
  if decide (0 <= off) then
    match m !! Z.to_nat off with Some b => Ret b | None => UB end
  else UB.

(** [realloc]: the old contents are kept up to the new size, the bytes beyond
    them are indeterminate.  [junk] supplies those; statements quantify over
    it. *)

Definition realloc (junk : nat -> Z) (m : list Z) (n : Z) : list Z :=
  ztake n m ++ map junk (seq (length m) (Z.to_nat n - length m)).

#[global] Arguments mem_read : simpl never.
#[global] Arguments mem_write : simpl never.
#[global] Arguments mem_get : simpl never.
#[global] Arguments realloc : simpl never.
#[global] Arguments wrap_u : simpl never.
#[global] Arguments wrap_s : simpl never.
#[global] Arguments ztake : simpl never.
#[global] Arguments zdrop : simpl never.
#[global] Arguments zlen : simpl never.

(** ** Arithmetic lemmas *)

Ltac pow2 :=
  change (2 ^ 8) with 256 in *; change (2 ^ 16) with 65536 in *;
  change (2 ^ 24) with 16777216 in *;
  change (2 ^ 32) with 4294967296 in *;
  change (2 ^ (8 - 1)) with 128 in *;
  change (2 ^ (16 - 1)) with 32768 in *;
  change (2 ^ (32 - 1)) with 2147483648 in *;
  change (2 ^ 64) with 18446744073709551616 in *;
  change (2 ^ (64 - 1)) with 9223372036854775808 in *.

Lemma wrap_u_small w z : is_u w z -> wrap_u w z = z.
Proof. intros H. by apply Z.mod_small. Qed.

Lemma wrap_u_range w z : 0 <= w -> is_u w (wrap_u w z).
Proof. intros. apply Z.mod_pos_bound. lia. Qed.

Lemma wrap_s_small w z : 0 < w -> is_s w z -> wrap_s w z = z.
Proof.
  intros Hw [H1 H2]. unfold wrap_s.
  assert (2 ^ w = 2 * 2 ^ (w - 1)).
  { rewrite <- Z.pow_succ_r by lia. f_equal. lia. }
  rewrite Z.mod_small; lia.
Qed.

Lemma wrap_s_range w z : 0 < w -> is_s w (wrap_s w z).
Proof.
  intros Hw. unfold wrap_s, is_s.
  assert (2 ^ w = 2 * 2 ^ (w - 1)).
  { rewrite <- Z.pow_succ_r by lia. f_equal. lia. }
  pose proof (Z.mod_pos_bound (z + 2 ^ (w - 1)) (2 ^ w)).
  assert (0 < 2 ^ w) by (apply Z.pow_pos_nonneg; lia). lia.
Qed.

Lemma wrap_u_wrap_s w z : 0 < w -> wrap_u w (wrap_s w z) = wrap_u w z.
Proof.
  intros Hw. unfold wrap_u, wrap_s.
  rewrite Zminus_mod_idemp_l. f_equal. lia.
Qed.

Lemma wrap_u_idem w z : 0 <= w -> wrap_u w (wrap_u w z) = wrap_u w z.
Proof. intros. apply wrap_u_small. by apply wrap_u_range. Qed.

Lemma wrap_s_wrap_u w z : 0 < w -> wrap_s w (wrap_u w z) = wrap_s w z.
Proof.
  intros Hw. unfold wrap_u, wrap_s. by rewrite Zplus_mod_idemp_l.
Qed.

(** A field or-ed in below an already shifted field is an addition. *)
Lemma lor_shiftl_add a b n :
  0 <= n -> 0 <= b < 2 ^ n -> Z.lor (Z.shiftl a n) b = a * 2 ^ n + b.
Proof.
  intros Hn Hb.
  pose proof (Z.add_lor_land (Z.shiftl a n) b) as Hsum.
  assert (Z.land (Z.shiftl a n) b = 0) as Hl.
  { apply Z.bits_inj'. intros i Hi.
    rewrite Z.land_spec, Z.bits_0.
    destruct (decide (i < n)) as [Hlt|Hge].
    - by rewrite Z.shiftl_spec_low.
    - rewrite <- (Z.mod_small b (2 ^ n)) by lia.
      rewrite Z.mod_pow2_bits_high by lia. apply andb_false_r. }
  rewrite Z.shiftl_mul_pow2 in * by lia. lia.
Qed.

Lemma lor_shiftl_shiftl a b n k :
  0 <= n -> 0 <= k -> 0 <= b < 2 ^ k ->
  Z.lor (Z.shiftl a (n + k)) (Z.shiftl b n) = Z.shiftl (a * 2 ^ k + b) n.
Proof.
  intros. rewrite (Z.add_comm n k), <- Z.shiftl_shiftl, <- Z.shiftl_lor by lia.
  by rewrite lor_shiftl_add.
Qed.

(** The four bytes of a 32-bit word, most significant first. *)
Lemma be32_bytes x :
  u8 (Z.shiftr x 24) * 2 ^ 24 + u8 (Z.shiftr x 16) * 2 ^ 16 +
  u8 (Z.shiftr x 8) * 2 ^ 8 + u8 x = u32 x.
Proof.
  rewrite !Z.shiftr_div_pow2 by lia. unfold wrap_u. pow2.
  Z.div_mod_to_equations. lia.
Qed.

Lemma be32_lor b0 b1 b2 b3 :
  is_u 8 b1 -> is_u 8 b2 -> is_u 8 b3 ->
  Z.lor (Z.lor (Z.lor (Z.shiftl b0 24) (Z.shiftl b1 16)) (Z.shiftl b2 8)) b3 =
  b0 * 2 ^ 24 + b1 * 2 ^ 16 + b2 * 2 ^ 8 + b3.
Proof.
  intros H1 H2 H3. unfold is_u in *.
  rewrite (lor_shiftl_shiftl _ b1 16 8), (lor_shiftl_shiftl _ b2 8 8) by (simpl; lia).
  rewrite lor_shiftl_add by (simpl; lia). pow2. lia.
Qed.

Lemma be16_bytes x : u8 (Z.shiftr x 8) * 2 ^ 8 + u8 x = u16 x.
Proof.
  rewrite !Z.shiftr_div_pow2 by lia. unfold wrap_u. pow2.
  Z.div_mod_to_equations. lia.
Qed.

Lemma land_ff x : Z.land x 255 = u8 x.
Proof. change 255 with (Z.ones 8). by rewrite Z.land_ones. Qed.

Lemma be64_bytes x :
  u8 (Z.shiftr x 56) * 2 ^ 56 + u8 (Z.shiftr x 48) * 2 ^ 48 +
  u8 (Z.shiftr x 40) * 2 ^ 40 + u8 (Z.shiftr x 32) * 2 ^ 32 +
  u8 (Z.shiftr x 24) * 2 ^ 24 + u8 (Z.shiftr x 16) * 2 ^ 16 +
  u8 (Z.shiftr x 8) * 2 ^ 8 + u8 x = u64 x.
Proof.
  assert (u32 (Z.shiftr x 32) * 2 ^ 32 + u32 x = u64 x) as <-.
  { rewrite !Z.shiftr_div_pow2 by lia. unfold wrap_u. pow2.
    Z.div_mod_to_equations. lia. }
  rewrite <- (be32_bytes x), <- (be32_bytes (Z.shiftr x 32)).
  rewrite !Z.shiftr_shiftr by lia.
  change (32 + 24) with 56. change (32 + 16) with 48. change (32 + 8) with 40.
  change (2 ^ 56) with (2 ^ 24 * 2 ^ 32). change (2 ^ 48) with (2 ^ 16 * 2 ^ 32).
  change (2 ^ 40) with (2 ^ 8 * 2 ^ 32). ring.
Qed.

(** ** Lists and memory blocks *)

Lemma zlen_nonneg {A} (l : list A) : 0 <= zlen l.
Proof. unfold zlen. lia. Qed.

Lemma zlen_nil {A} : zlen (@nil A) = 0.
Proof. done. Qed.

Lemma zlen_cons {A} (x : A) l : zlen (x :: l) = 1 + zlen l.
Proof. unfold zlen. simpl length. lia. Qed.

Lemma zlen_app {A} (l1 l2 : list A) : zlen (l1 ++ l2) = zlen l1 + zlen l2.
Proof. unfold zlen. rewrite length_app. lia. Qed.

Lemma zlen_ztake {A} n (l : list A) : zlen (ztake n l) = Z.max 0 (Z.min n (zlen l)).
Proof. unfold zlen, ztake. rewrite length_take. lia. Qed.

Lemma zlen_zdrop {A} n (l : list A) : zlen (zdrop n l) = Z.max 0 (zlen l - Z.max 0 n).
Proof. unfold zlen, zdrop. rewrite length_drop. lia. Qed.

Lemma zlen_map {A B} (f : A -> B) l : zlen (map f l) = zlen l.
Proof. unfold zlen. by rewrite length_map. Qed.

Lemma zlen_seq s n : zlen (seq s n) = Z.of_nat n.
Proof. unfold zlen. by rewrite length_seq. Qed.

Lemma zlen_replicate {A} n (x : A) : zlen (replicate n x) = Z.of_nat n.
Proof. unfold zlen. by rewrite length_replicate. Qed.

Lemma zlen_0_nil {A} (l : list A) : zlen l = 0 -> l = [].
Proof. destruct l; [done|]. rewrite zlen_cons. pose proof (zlen_nonneg l). lia. Qed.

Create Rewrite HintDb zlen.

#[export] Hint Rewrite @zlen_nil @zlen_cons @zlen_app @zlen_ztake @zlen_zdrop
  @zlen_map @zlen_seq @zlen_replicate : zlen.

(** Arithmetic goals about lengths of lists. *)
Ltac zlia := autorewrite with zlen in *; unfold zlen in *; lia.

Lemma zlen_snoc {A} (l : list A) x : zlen l + 1 = zlen (l ++ [x]).
Proof. zlia. Qed.

(** Split a [Forall] over an explicit list into its elements. *)
Ltac forall_list :=
  repeat match goal with
  | |- Forall _ [] => apply Forall_nil_2
  | |- Forall _ (_ :: _) => apply Forall_cons_2
  | |- Forall _ (_ ++ _) => apply Forall_app; split
  end.

Lemma ztake_app_exact {A} n (l1 l2 : list A) : n = zlen l1 -> ztake n (l1 ++ l2) = l1.
Proof. intros ->. unfold ztake, zlen. rewrite Nat2Z.id. apply take_app_length. Qed.

Lemma zdrop_app_exact {A} n (l1 l2 : list A) : n = zlen l1 -> zdrop n (l1 ++ l2) = l2.
Proof. intros ->. unfold zdrop, zlen. rewrite Nat2Z.id. apply drop_app_length. Qed.

Lemma ztake_all {A} n (l : list A) : zlen l <= n -> ztake n l = l.
Proof. unfold ztake, zlen. intros. apply take_ge. lia. Qed.

Lemma zdrop_all {A} n (l : list A) : zlen l <= n -> zdrop n l = [].
Proof. unfold zdrop, zlen. intros. apply drop_ge. lia. Qed.

Lemma zdrop_0 {A} (l : list A) : zdrop 0 l = l.
Proof. done. Qed.

Lemma ztake_0 {A} (l : list A) : ztake 0 l = [].
Proof. done. Qed.

Lemma ztake_zdrop {A} n (l : list A) : ztake n l ++ zdrop n l = l.
Proof. apply take_drop. Qed.

Lemma ztake_app_l {A} n (l1 l2 : list A) : n <= zlen l1 -> ztake n (l1 ++ l2) = ztake n l1.
Proof. unfold ztake, zlen. intros. apply take_app_le. lia. Qed.

Lemma ztake_app_r {A} n (l1 l2 : list A) :
  zlen l1 <= n -> ztake n (l1 ++ l2) = l1 ++ ztake (n - zlen l1) l2.
Proof.
  unfold ztake, zlen. intros. rewrite take_app_ge by lia. do 2 f_equal. lia.
Qed.

Lemma zdrop_app_l {A} n (l1 l2 : list A) : n <= zlen l1 -> zdrop n (l1 ++ l2) = zdrop n l1 ++ l2.
Proof. unfold zdrop, zlen. intros. apply drop_app_le. lia. Qed.

Lemma zdrop_app_r {A} n (l1 l2 : list A) :
  zlen l1 <= n -> zdrop n (l1 ++ l2) = zdrop (n - zlen l1) l2.
Proof. unfold zdrop, zlen. intros. rewrite drop_app_ge by lia. f_equal. lia. Qed.

Lemma ztake_ztake {A} n m (l : list A) : ztake n (ztake m l) = ztake (Z.min n m) l.
Proof. unfold ztake. rewrite take_take. f_equal. lia. Qed.

Lemma zdrop_zdrop {A} n m (l : list A) :
  0 <= n -> 0 <= m -> zdrop n (zdrop m l) = zdrop (m + n) l.
Proof. unfold zdrop. intros. rewrite drop_drop. f_equal. lia. Qed.

Lemma ztake_zdrop_comm {A} n m (l : list A) :
  0 <= n -> 0 <= m -> ztake n (zdrop m l) = zdrop m (ztake (m + n) l).
Proof.
  unfold ztake, zdrop. intros. rewrite take_drop_commute. do 2 f_equal. lia.
Qed.

Lemma mem_read_ok m off len :
  0 <= off -> 0 <= len -> off + len <= zlen m ->
  mem_read m off len = Ret (ztake len (zdrop off m)).
Proof. intros. unfold mem_read. by rewrite decide_True. Qed.

Lemma mem_write_ok m off bs :
  0 <= off -> off + zlen bs <= zlen m ->
  mem_write m off bs = Ret (ztake off m ++ bs ++ zdrop (off + zlen bs) m).
Proof. intros. unfold mem_write. by rewrite decide_True. Qed.

Lemma mem_write_out m off bs : zlen m < off + zlen bs -> mem_write m off bs = UB.
Proof. intros. unfold mem_write. by rewrite decide_False by lia. Qed.

(** A write into a block that is already split at the place written. *)
Lemma mem_write_app pre mid post bs off :
  off = zlen pre -> zlen bs = zlen mid ->
  mem_write (pre ++ mid ++ post) off bs = Ret (pre ++ bs ++ post).
Proof.
  intros -> Hl. rewrite mem_write_ok by zlia.
  rewrite ztake_app_exact by done. do 3 f_equal.
  rewrite app_assoc. apply zdrop_app_exact. zlia.
Qed.

Lemma mem_write_here mid post bs :
  zlen bs = zlen mid -> mem_write (mid ++ post) 0 bs = Ret (bs ++ post).
Proof. intros. by apply (mem_write_app []). Qed.

Lemma mem_write_skip x m off bs :
  zlen x <= off ->
  mem_write (x ++ m) off bs = (m' ← mem_write m (off - zlen x) bs; Ret (x ++ m')).
Proof.
  intros Hx. unfold mem_write.
  destruct (decide (0 <= off - zlen x /\ off - zlen x + zlen bs <= zlen m)).
  - rewrite decide_True by zlia. mstep. f_equal.
    rewrite ztake_app_r, <- app_assoc by done. do 3 f_equal.
    rewrite zdrop_app_r by zlia. f_equal. lia.
  - rewrite decide_False by zlia. done.
Qed.

(** Two writes side by side. *)
Lemma mem_write_seq m off a c :
  0 <= off -> mem_write m off (a ++ c) = (m ← mem_write m off a; mem_write m (off + zlen a) c).
Proof.
  intros Ho. pose proof (zlen_nonneg c). destruct (Z.le_gt_cases (off + zlen (a ++ c)) (zlen m)) as [Hle|Hgt].
  - rewrite zlen_app in Hle. pose proof (zlen_nonneg a).
    assert (exists pre x y post, m = pre ++ (x ++ y) ++ post /\ zlen pre = off /\ zlen x = zlen a /\ zlen y = zlen c)
      as (pre & x & y & post & -> & Hp & Hx & Hy).
    { exists (ztake off m), (ztake (zlen a) (zdrop off m)), (ztake (zlen c) (zdrop (zlen a) (zdrop off m))),
        (zdrop (zlen c) (zdrop (zlen a) (zdrop off m))).
      rewrite <- app_assoc, !ztake_zdrop. split_and!; try done; zlia. }
    rewrite mem_write_app by zlia. rewrite <- (app_assoc x y post), (mem_write_app pre x) by lia. mstep.
    rewrite (app_assoc pre a), mem_write_app by zlia. by rewrite <- !app_assoc.
  - rewrite mem_write_out by lia. rewrite zlen_app in Hgt. destruct (Z.le_gt_cases (off + zlen a) (zlen m)).
    + rewrite (mem_write_ok m off a) by lia. mstep. rewrite mem_write_out; [done|]. pose proof (zlen_nonneg a). zlia.
    + by rewrite (mem_write_out m off a) by lia.
Qed.

Lemma mem_read_app pre mid post off len :
  off = zlen pre -> len = zlen mid ->
  mem_read (pre ++ mid ++ post) off len = Ret mid.
Proof.
  intros -> ->. rewrite mem_read_ok by zlia.
  by rewrite zdrop_app_exact, ztake_app_exact.
Qed.

Lemma mem_write_len m off bs m' : mem_write m off bs = Ret m' -> zlen m' = zlen m.
Proof. unfold mem_write. case_decide; [|done]. intros [= <-]. zlia. Qed.

Lemma mem_get_app pre b post off :
  off = zlen pre -> mem_get (pre ++ b :: post) off = Ret b.
Proof.
  intros ->. unfold mem_get. rewrite decide_True by apply zlen_nonneg.
  unfold zlen. rewrite Nat2Z.id. by rewrite list_lookup_middle.
Qed.

Lemma zlen_realloc junk m n : 0 <= n -> zlen (realloc junk m n) = n.
Proof. intros. unfold realloc. zlia. Qed.

Lemma ztake_realloc junk m n k : k <= n -> k <= zlen m -> ztake k (realloc junk m n) = ztake k m.
Proof.
  intros. unfold realloc. rewrite ztake_app_l by zlia.
  rewrite ztake_ztake. f_equal. lia.
Qed.

Lemma c_str_text (s : list Z) : Forall (fun c => c <> 0) s -> c_str s = s.
Proof.
  induction 1 as [|c s Hc _ IH]; [done|]. cbn [c_str].
  rewrite (proj2 (Z.eqb_neq c 0)) by done. by rewrite IH.
Qed.

Lemma c_str_app (s : list Z) : Forall (fun c => c <> 0) s -> forall post, c_str (s ++ 0 :: post) = s.
Proof.
  induction 1 as [|c s Hc _ IH]; intros post; [done|]. cbn [app c_str].
  rewrite (proj2 (Z.eqb_neq c 0)) by done. by rewrite IH.
Qed.

(** Code without loops never runs out of fuel. *)
(** As a rewrite, for binds whose reduction would evaluate too much. *)
Lemma bind_Ret {A B} (a : A) (f : A -> outcome B) : (x ← Ret a; f x) = f a.
Proof. reflexivity. Qed.

Lemma bind_no_fuel {A B} (m : outcome A) (f : A -> outcome B) :
  m <> NoFuel -> (forall a, f a <> NoFuel) -> (m ≫= f) <> NoFuel.
Proof. intros Hm Hf. destruct m; mstep; [apply Hf|done..]. Qed.

Lemma mem_read_no_fuel m off len : mem_read m off len <> NoFuel.
Proof. unfold mem_read. by case_decide. Qed.

Lemma mem_write_no_fuel m off bs : mem_write m off bs <> NoFuel.
Proof. unfold mem_write. by case_decide. Qed.

Lemma mem_get_no_fuel m off : mem_get m off <> NoFuel.
Proof. unfold mem_get. by repeat case_match. Qed.

Create HintDb no_fuel.

#[export] Hint Resolve bind_no_fuel mem_read_no_fuel mem_write_no_fuel mem_get_no_fuel : no_fuel.

(** Straight-line code: split the binds and the branches. *)
Ltac no_fuel :=
  repeat first
  [ done
  | solve [eauto with no_fuel]
  | match goal with
    | |- (_ ≫= _) <> NoFuel => apply bind_no_fuel; [|intros ?]
    | |- (match ?x with _ => _ end) <> NoFuel => destruct x
    end ].
