(* ===== verification/SimpleBuffer.v ===== *)
(** * CSimpleBuffer: the growable byte buffer under every packet

    Models [CSimpleBuffer] of src/src/ptp_global/UtilPdu.{h,cpp}: a heap block
    [m_buffer] of [m_alloc_size] bytes of which the first [m_write_offset] are
    in use.  [Write] appends and grows the block, [Read] removes from the front.
    The theorems show that, below the point where the 32-bit sizes overflow,
    the class implements a FIFO byte queue and never accesses memory outside
    its block. *)

From S2P Require Import Prelude.

Module CSimpleBuffer.

(** The null pointer of a fresh buffer is the empty block. *)
Record t := mk {
  m_buffer : list Z;
  m_alloc_size : Z;
  m_write_offset : Z;
}.

Definition init : t := mk [] 0 0.

Definition GetBuffer (sb : t) : list Z := m_buffer sb.

Definition GetAllocSize (sb : t) : Z := m_alloc_size sb.

Definition GetWriteOffset (sb : t) : Z := m_write_offset sb.

Definition IncWriteOffset (sb : t) (len : Z) : t :=
  mk (m_buffer sb) (m_alloc_size sb) (u32 (m_write_offset sb + len)).

Definition Position (sb : t) (offset : Z) : t :=
  mk (m_buffer sb) (m_alloc_size sb) offset.

(** [junk] is what [realloc] leaves in the bytes it adds. *)
Definition Extend (junk : nat -> Z) (sb : t) (len : Z) : t :=
  let alloc := u32 (m_write_offset sb + len) in
  let alloc := u32 (alloc + Z.shiftr alloc 2) in
  mk (realloc junk (m_buffer sb) alloc) alloc (m_write_offset sb).

(** [buf = None] is a null source pointer: the offset advances, nothing is
    copied.  The value returned by the C++ method is always [len]. *)
Definition Write (junk : nat -> Z) (sb : t) (buf : option (list Z)) (len : Z)
  : outcome t :=
  let sb :=
    if m_alloc_size sb <? u32 (m_write_offset sb + len)
    then Extend junk sb len else sb in
  m ← match buf with
      | Some src =>
          bs ← mem_read src 0 len;
          mem_write (m_buffer sb) (m_write_offset sb) bs
      | None => Ret (m_buffer sb)
      end;
  Ret (mk m (m_alloc_size sb) (u32 (m_write_offset sb + len))).

Definition ReadBuffer (sb : t) (len offset : Z) : outcome (list Z) :=
  mem_read (m_buffer sb) offset len.

(** Returns the buffer and the bytes copied to the destination; a null
    destination ([want = false]) receives none.  The C++ return value is the
    clamped length, [zlen] of the removed prefix. *)
Definition Read (sb : t) (want : bool) (len : Z) : outcome (t * list Z * Z) :=
  let len := if m_write_offset sb <? len then m_write_offset sb else len in
  got ← (if want then mem_read (m_buffer sb) 0 len else Ret []);
  let off := u32 (m_write_offset sb - len) in
  tail ← mem_read (m_buffer sb) len off;
  m ← mem_write (m_buffer sb) 0 tail;
  Ret (mk m (m_alloc_size sb) off, got, len).

(** ** Well-formedness *)

Definition wf (sb : t) : Prop :=
  zlen (m_buffer sb) = m_alloc_size sb /\
  0 <= m_write_offset sb <= m_alloc_size sb /\
  m_alloc_size sb < 2 ^ 32.

#[export] Instance wf_dec sb : Decision (wf sb).
Proof. unfold wf. apply _. Defined.

(** The bytes in use. *)
Definition contents (sb : t) : list Z := ztake (m_write_offset sb) (m_buffer sb).

(** The sizes that do not overflow: [off + len] bytes and a quarter on top. *)
Definition fits (sb : t) (len : Z) : Prop :=
  0 <= len /\ 5 * (m_write_offset sb + len) < 4 * 2 ^ 32.

#[export] Instance fits_dec sb len : Decision (fits sb len).
Proof. unfold fits. apply _. Defined.

Lemma wf_init : wf init.
Proof. by vm_compute. Qed.

Lemma zlen_contents sb : wf sb -> zlen (contents sb) = m_write_offset sb.
Proof. intros (?&?&?). unfold contents. zlia. Qed.

Lemma split_contents sb :
  wf sb -> m_buffer sb = contents sb ++ zdrop (m_write_offset sb) (m_buffer sb).
Proof. intros _. symmetry. apply ztake_zdrop. Qed.

Lemma extend_spec junk sb len :
  wf sb -> fits sb len ->
  wf (Extend junk sb len) /\
  contents (Extend junk sb len) = contents sb /\
  m_write_offset sb + len <= m_alloc_size (Extend junk sb len) /\
  m_write_offset (Extend junk sb len) = m_write_offset sb.
Proof.
  intros (Hl&Ho&Ha) [? Hf]. unfold Extend. pow2.
  rewrite (wrap_u_small 32 (_ + len)) by (split; pow2; lia).
  rewrite Z.shiftr_div_pow2 by lia. change (2 ^ 2) with 4.
  pose proof (Z.div_mod (m_write_offset sb + len) 4).
  pose proof (Z.mod_pos_bound (m_write_offset sb + len) 4).
  rewrite wrap_u_small by (split; pow2; lia).
  split; [|split; [|split]]; simpl; try lia.
  - repeat split; simpl; pow2; try lia. rewrite zlen_realloc by lia. done.
  - unfold contents; simpl. apply ztake_realloc; lia.
Qed.

(** After the growth check of [Write] there is room for [len] more bytes. *)
Lemma reserve_spec junk sb len :
  wf sb -> fits sb len ->
  let sb1 :=
    if m_alloc_size sb <? u32 (m_write_offset sb + len)
    then Extend junk sb len else sb in
  wf sb1 /\ contents sb1 = contents sb /\
  m_write_offset sb + len <= m_alloc_size sb1 /\
  m_write_offset sb1 = m_write_offset sb.
Proof.
  intros Hwf Hf sb1. subst sb1. case_match eqn:E; [by apply extend_spec|].
  destruct Hwf as (?&?&?), Hf. apply Z.ltb_ge in E.
  rewrite wrap_u_small in E by (split; pow2; lia).
  repeat split; pow2; lia.
Qed.

(** [Write] from a source of at least [len] bytes appends them. *)
Lemma write_spec junk sb src len :
  wf sb -> fits sb len -> len <= zlen src ->
  exists sb', Write junk sb (Some src) len = Ret sb' /\ wf sb' /\
    contents sb' = contents sb ++ ztake len src.
Proof.
  intros Hwf Hf Hsrc. unfold Write.
  destruct (reserve_spec junk sb len Hwf Hf) as (Hwf1&Hc&Hcap&Ho).
  set (sb1 := if _ <? _ then _ else _) in *.
  destruct Hf as [Hlen Hf].
  rewrite mem_read_ok by lia. simpl.
  destruct Hwf1 as (Hl1&Ho1&Ha1).
  rewrite mem_write_ok by (rewrite ?Ho; zlia). simpl.
  rewrite zdrop_0, Ho.
  assert (zlen (ztake len src) = len) as Hlt by zlia.
  rewrite wrap_u_small by (split; pow2; lia).
  eexists; split; [done|]. split.
  - repeat split; simpl; try lia. rewrite !zlen_app, Hlt. zlia.
  - rewrite <- Hc. unfold contents at 1; simpl. unfold contents.
    rewrite app_assoc. rewrite Ho. apply ztake_app_exact.
    rewrite zlen_app, Hlt. zlia.
Qed.

(** With a null source the new bytes are whatever the block held. *)
Lemma write_null_spec junk sb len :
  wf sb -> fits sb len ->
  exists sb' gap, Write junk sb None len = Ret sb' /\ wf sb' /\
    contents sb' = contents sb ++ gap /\ zlen gap = len.
Proof.
  intros Hwf Hf. unfold Write.
  destruct (reserve_spec junk sb len Hwf Hf) as (Hwf1&Hc&Hcap&Ho).
  set (sb1 := if _ <? _ then _ else _) in *.
  destruct Hf as [Hlen Hf], Hwf1 as (Hl1&Ho1&Ha1). simpl. rewrite Ho.
  rewrite wrap_u_small by (split; pow2; lia).
  eexists _, (ztake len (zdrop (m_write_offset sb) (m_buffer sb1))).
  split; [done|]. split; [repeat split; simpl; lia|]. split; [|zlia].
  rewrite <- Hc. unfold contents; simpl. rewrite Ho.
  rewrite <- (ztake_zdrop (m_write_offset sb) (m_buffer sb1)) at 1.
  rewrite ztake_app_r by zlia. do 2 f_equal. zlia.
Qed.

(** [Read] removes a prefix of the bytes in use, clamped to what there is. *)
Lemma read_spec sb want len :
  wf sb -> 0 <= len ->
  exists sb', Read sb want len =
      Ret (sb', if want then ztake len (contents sb) else [],
           Z.min len (m_write_offset sb)) /\
    wf sb' /\ contents sb' = zdrop len (contents sb) /\
    m_alloc_size sb' = m_alloc_size sb.
Proof.
  intros Hwf Hlen. pose proof (zlen_contents sb Hwf) as Hzc.
  destruct Hwf as (Hl&Ho&Ha). unfold Read.
  set (n := if _ <? _ then _ else _).
  assert (n = Z.min len (m_write_offset sb)) as ->.
  { subst n. case_match; lia. }
  set (n := Z.min len (m_write_offset sb)).
  rewrite wrap_u_small by (split; pow2; lia).
  assert (ztake len (contents sb) = ztake n (contents sb)) as ->.
  { destruct (decide (len <= m_write_offset sb)).
    - f_equal. lia.
    - rewrite !ztake_all by lia. done. }
  assert (zdrop len (contents sb) = zdrop n (contents sb)) as ->.
  { destruct (decide (len <= m_write_offset sb)).
    - f_equal. lia.
    - rewrite !zdrop_all by lia. done. }
  assert (ztake n (m_buffer sb) = ztake n (contents sb)) as Hpre.
  { unfold contents. rewrite ztake_ztake. f_equal. lia. }
  assert (ztake (m_write_offset sb - n) (zdrop n (m_buffer sb)) = zdrop n (contents sb)) as Hmid.
  { unfold contents. rewrite ztake_zdrop_comm by lia. do 2 f_equal. lia. }
  eexists (mk _ _ _). split.
  - destruct want; rewrite ?mem_read_ok by lia; simpl;
      rewrite mem_write_ok by zlia; simpl;
      rewrite ?zdrop_0, ?Hpre; done.
  - rewrite Hmid. simpl.
    assert (zlen (zdrop n (contents sb)) = m_write_offset sb - n) by zlia.
    split; [|split]; try done.
    + repeat split; simpl; try lia. zlia.
    + unfold contents at 1; simpl. apply ztake_app_exact. done.
Qed.

(** ** Refinement of a byte queue *)

(** Bytes are appended, removed to a destination, thrown away (the null
    destination of [Read]), or looked at where they are ([ReadBuffer]). *)
Inductive op :=
| OpWrite (bs : list Z)
| OpRead (len : Z)
| OpDiscard (len : Z)
| OpPeek (len offset : Z).

(** The queue the class stands for. *)
Definition queue_step (q : list Z) (o : op) : list Z * list Z :=
  match o with
  | OpWrite bs => (q ++ bs, [])
  | OpRead len => (zdrop len q, ztake len q)
  | OpDiscard len => (zdrop len q, [])
  | OpPeek len offset => (q, ztake len (zdrop offset q))
  end.

(** The lengths are unsigned, and a peek stays within the queue: [ReadBuffer]
    does not check. *)
Definition op_ok (q : list Z) (o : op) : Prop :=
  match o with
  | OpWrite _ => True
  | OpRead len | OpDiscard len => 0 <= len
  | OpPeek len offset => 0 <= len /\ 0 <= offset /\ offset + len <= zlen q
  end.

Fixpoint queue_run (q : list Z) (os : list op) : list Z * list (list Z) :=
  match os with
  | [] => (q, [])
  | o :: os =>
      let '(q1, out) := queue_step q o in
      let '(q2, outs) := queue_run q1 os in (q2, out :: outs)
  end.

Fixpoint ops_ok (q : list Z) (os : list op) : Prop :=
  match os with
  | [] => True
  | o :: os => op_ok q o /\ ops_ok (queue_step q o).1 os
  end.

(** The class, with the allocator's junk for each call. *)
Definition step (sb : t) (oj : op * (nat -> Z)) : outcome (t * list Z) :=
  match oj with
  | (OpWrite bs, junk) => sb' ← Write junk sb (Some bs) (zlen bs); Ret (sb', [])
  | (OpRead len, _) => '(sb', got, _) ← Read sb true len; Ret (sb', got)
  | (OpDiscard len, _) => '(sb', got, _) ← Read sb false len; Ret (sb', got)
  | (OpPeek len offset, _) => got ← ReadBuffer sb len offset; Ret (sb, got)
  end.

Fixpoint run (sb : t) (os : list (op * (nat -> Z))) : outcome (t * list (list Z)) :=
  match os with
  | [] => Ret (sb, [])
  | o :: os =>
      '(sb1, out) ← step sb o;
      '(sb2, outs) ← run sb1 os;
      Ret (sb2, out :: outs)
  end.

Definition written (o : op) : Z :=
  match o with OpWrite bs => zlen bs | _ => 0 end.

Fixpoint total_written (os : list op) : Z :=
  match os with [] => 0 | o :: os => written o + total_written os end.

Lemma total_written_nonneg os : 0 <= total_written os.
Proof. induction os as [|[bs|len|len|len offset] os IH]; simpl; zlia. Qed.

(** [ReadBuffer] gives bytes in use. *)
Lemma peek_spec sb len offset :
  wf sb -> 0 <= len -> 0 <= offset -> offset + len <= zlen (contents sb) ->
  ReadBuffer sb len offset = Ret (ztake len (zdrop offset (contents sb))).
Proof.
  intros Hwf Hlen Ho Hin. rewrite (zlen_contents sb Hwf) in Hin. destruct Hwf as (Hl&Hw&_).
  unfold ReadBuffer. rewrite mem_read_ok by lia. f_equal. unfold contents.
  rewrite <- (ztake_zdrop (m_write_offset sb) (m_buffer sb)) at 1.
  rewrite zdrop_app_l by zlia. apply ztake_app_l. zlia.
Qed.

Lemma step_refines sb o junk :
  wf sb -> op_ok (contents sb) o -> 5 * (m_write_offset sb + written o) < 4 * 2 ^ 32 ->
  exists sb', step sb (o, junk) = Ret (sb', (queue_step (contents sb) o).2) /\
    wf sb' /\ contents sb' = (queue_step (contents sb) o).1.
Proof.
  intros Hwf Hok Hfit. destruct o as [bs|len|len|len offset]; simpl in *.
  - destruct (write_spec junk sb bs (zlen bs)) as (sb'&->&Hwf'&Hc); try done.
    { split; [apply zlen_nonneg|done]. }
    exists sb'. rewrite ztake_all in Hc by done. done.
  - destruct (read_spec sb true len) as (sb'&->&Hwf'&Hc&_); try done.
    exists sb'. done.
  - destruct (read_spec sb false len) as (sb'&->&Hwf'&Hc&_); try done.
    exists sb'. done.
  - destruct Hok as (?&?&?). rewrite peek_spec by done. by exists sb.
Qed.

#[local] Arguments step : simpl never.

Lemma run_refines os : forall sb,
  wf sb -> ops_ok (contents sb) (map fst os) ->
  5 * (m_write_offset sb + total_written (map fst os)) < 4 * 2 ^ 32 ->
  exists sb', run sb os = Ret (sb', (queue_run (contents sb) (map fst os)).2) /\
    wf sb' /\ contents sb' = (queue_run (contents sb) (map fst os)).1.
Proof.
  induction os as [|[o junk] os IH]; intros sb Hwf Hok Hfit; simpl in *.
  { by exists sb. }
  destruct Hok as [Hok Hoks].
  pose proof (total_written_nonneg (map fst os)).
  destruct (step_refines sb o junk) as (sb1&->&Hwf1&Hc1); [done..|lia|].
  assert (m_write_offset sb1 <= m_write_offset sb + written o) as Hoff.
  { rewrite <- (zlen_contents sb1) by done. rewrite Hc1.
    pose proof (zlen_contents sb Hwf). destruct o; simpl; zlia. }
  destruct (IH sb1) as (sb2&Hrun&Hwf2&Hc2); [done|by rewrite Hc1|lia|].
  simpl. rewrite Hrun. exists sb2. rewrite Hc1 in *.
  destruct (queue_step (contents sb) o) as [q1 out]; simpl in *.
  by destruct (queue_run q1 (map fst os)).
Qed.

(** C15. Any sequence of writes, reads, discarding reads and peeks on a fresh
    [CSimpleBuffer], whatever the allocator leaves in new memory, runs without
    touching memory outside the block and gives exactly the bytes a FIFO queue
    would give, a peek changing nothing, as long as peeks stay within the bytes
    queued and the total written stays below 4/5 of the 32-bit range. *)
Theorem simple_buffer_refines_queue os :
  ops_ok [] (map fst os) -> 5 * total_written (map fst os) < 4 * 2 ^ 32 ->
  exists sb, run init os = Ret (sb, (queue_run [] (map fst os)).2) /\
    wf sb /\ contents sb = (queue_run [] (map fst os)).1.
Proof. intros. apply (run_refines os init); [apply wf_init|done|done]. Qed.

Definition sample : list (op * (nat -> Z)) :=
  [(OpWrite [1;2;3], fun _ => 7); (OpPeek 2 1, fun _ => 0); (OpRead 2, fun _ => 0);
   (OpWrite [4;5], fun _ => 9); (OpPeek 2 0, fun _ => 0); (OpDiscard 1, fun _ => 0)].

Lemma simple_buffer_refines_queue_witness :
  exists sb, run init sample = Ret (sb, [[]; [2;3]; [1;2]; []; [3;4]; []]) /\ wf sb /\ contents sb = [4;5].
Proof. apply (simple_buffer_refines_queue sample); [repeat split; by vm_compute|by vm_compute]. Defined.

(** ** Overflow

    Beyond the bound the 32-bit sum wraps and [Write] copies into a block that
    is too small. *)

(** The bound of the queue refinement is needed: when the offset plus the
    length passes 2^32, [Write] does not grow the block and its copy runs out
    of it. *)
Theorem simple_buffer_write_overflow junk sb src len :
  wf sb -> 0 <= len < 2 ^ 32 -> len <= zlen src ->
  2 ^ 32 <= m_write_offset sb + len ->
  Write junk sb (Some src) len = UB.
Proof.
  intros (Hl&Ho&Ha) Hlen Hsrc Hov. unfold Write.
  assert (u32 (m_write_offset sb + len) = m_write_offset sb + len - 2 ^ 32) as Hw.
  { unfold wrap_u. symmetry. apply Z.mod_unique_pos with 1; lia. }
  assert ((m_alloc_size sb <? u32 (m_write_offset sb + len)) = false) as ->.
  { rewrite Hw. apply Z.ltb_ge. lia. }
  rewrite mem_read_ok by lia. simpl.
  unfold mem_write. rewrite decide_False; [done|].
  intros [_ Hbad]. revert Hbad. rewrite zlen_ztake, zdrop_0. lia.
Qed.

Lemma simple_buffer_write_overflow_witness :
  let big := replicate (Z.to_nat (2 ^ 31)) 0 in
  Write (fun _ => 0) (mk big (2 ^ 31) (2 ^ 31)) (Some big) (2 ^ 31) = UB.
Proof.
  intros big.
  assert (zlen big = 2 ^ 31) as Hbig
    by (unfold big; rewrite zlen_replicate; apply Z2Nat.id; lia).
  apply simple_buffer_write_overflow.
  - split; [exact Hbig|]. simpl m_alloc_size. simpl m_write_offset. lia.
  - lia.
  - rewrite Hbig. lia.
  - simpl m_write_offset. lia.
Defined.

End CSimpleBuffer.
