(* ===== verification/ByteStream.v ===== *)
(** * CByteStream: big-endian encoding over a buffer

    Models [CByteStream] of src/src/ptp_global/UtilPdu.{h,cpp} and its users
    [CDbAttachData] and [CPduAttachData] (AttachData.{h,cpp}), the opaque
    context a message server sends along with a request to the business server
    and gets back with the response.

    A stream writes either into a [CSimpleBuffer] it points to or into a raw
    block; it reads from a raw block.  The theorems give the round trip of the
    attach data and what the 32-bit bounds checks do on hostile lengths. *)

From S2P Require Import Prelude SimpleBuffer.

Module CByteStream.

(** ** Static word access *)

Definition ReadInt16 (buf : list Z) (p : Z) : outcome Z :=
  b0 ← mem_get buf p; b1 ← mem_get buf (p + 1);
  Ret (i16 (Z.lor (Z.shiftl b0 8) b1)).

Definition ReadUint16 (buf : list Z) (p : Z) : outcome Z :=
  b0 ← mem_get buf p; b1 ← mem_get buf (p + 1);
  Ret (u16 (Z.lor (Z.shiftl b0 8) b1)).

(** [buf[0] << 24] is computed in [int], so its top bit is the sign. *)
Definition int32_of_bytes (b0 b1 b2 b3 : Z) : Z :=
  Z.lor (Z.lor (Z.lor (i32 (Z.shiftl b0 24)) (Z.shiftl b1 16)) (Z.shiftl b2 8)) b3.

Definition ReadInt32 (buf : list Z) (p : Z) : outcome Z :=
  b0 ← mem_get buf p; b1 ← mem_get buf (p + 1);
  b2 ← mem_get buf (p + 2); b3 ← mem_get buf (p + 3);
  Ret (i32 (int32_of_bytes b0 b1 b2 b3)).

Definition ReadUint32 (buf : list Z) (p : Z) : outcome Z :=
  b0 ← mem_get buf p; b1 ← mem_get buf (p + 1);
  b2 ← mem_get buf (p + 2); b3 ← mem_get buf (p + 3);
  Ret (u32 (int32_of_bytes b0 b1 b2 b3)).

(** The bytes a write of [data] stores, for the signed and the unsigned
    variants alike ([>>] on a negative [int] is arithmetic). *)
Definition bytes16 (data : Z) : list Z :=
  [u8 (Z.shiftr data 8); u8 (Z.land data 255)].

Definition bytes32 (data : Z) : list Z :=
  [u8 (Z.shiftr data 24); u8 (Z.land (Z.shiftr data 16) 255);
   u8 (Z.land (Z.shiftr data 8) 255); u8 (Z.land data 255)].

Definition WriteInt16 (buf : list Z) (p data : Z) : outcome (list Z) :=
  mem_write buf p (bytes16 data).

Definition WriteUint16 (buf : list Z) (p data : Z) : outcome (list Z) :=
  mem_write buf p (bytes16 data).

Definition WriteInt32 (buf : list Z) (p data : Z) : outcome (list Z) :=
  mem_write buf p (bytes32 data).

Definition WriteUint32 (buf : list Z) (p data : Z) : outcome (list Z) :=
  mem_write buf p (bytes32 data).

#[global] Arguments bytes16 : simpl never.
#[global] Arguments bytes32 : simpl never.
#[global] Arguments ReadInt16 : simpl never.
#[global] Arguments ReadUint16 : simpl never.
#[global] Arguments ReadInt32 : simpl never.
#[global] Arguments ReadUint32 : simpl never.

(** ** The stream *)

(** What the stream points to: a simple buffer, or a raw block. *)
Inductive target :=
| SimpBuf (sb : CSimpleBuffer.t)
| RawBuf (buf : list Z).

Record t := mk {
  m_target : target;
  m_len : Z;
  m_pos : Z;
}.

Definition of_raw (buf : list Z) (len : Z) : t := mk (RawBuf buf) len 0.

Definition of_simple (sb : CSimpleBuffer.t) (pos : Z) : t := mk (SimpBuf sb) 0 pos.

Definition GetBuf (s : t) : list Z :=
  match m_target s with
  | SimpBuf sb => CSimpleBuffer.GetBuffer sb
  | RawBuf buf => buf
  end.

Definition parse_failed : exn := CPduException 0 0 1 "parase packet failed!".

Definition Skip (s : t) (len : Z) : outcome t :=
  let s := mk (m_target s) (m_len s) (u32 (m_pos s + len)) in
  if m_len s <? m_pos s then Throw parse_failed else Ret s.

Definition _ReadByte (s : t) (len : Z) : outcome (t * list Z) :=
  if m_len s <? u32 (m_pos s + len) then Throw parse_failed else
  match m_target s with
  | SimpBuf sb =>
      '(sb, got, _) ← CSimpleBuffer.Read sb true len;
      Ret (mk (SimpBuf sb) (m_len s) (u32 (m_pos s + len)), got)
  | RawBuf buf =>
      got ← mem_read buf (m_pos s) len;
      Ret (mk (RawBuf buf) (m_len s) (u32 (m_pos s + len)), got)
  end.

(** A write that does not fit into a raw block is dropped without an error. *)
Definition _WriteByte (junk : nat -> Z) (s : t) (src : list Z) (len : Z) : outcome t :=
  match m_target s with
  | SimpBuf sb =>
      sb ← CSimpleBuffer.Write junk sb (Some src) len;
      Ret (mk (SimpBuf sb) (m_len s) (u32 (m_pos s + len)))
  | RawBuf buf =>
      if m_len s <? u32 (m_pos s + len) then Ret s else
      bs ← mem_read src 0 len;
      buf ← mem_write buf (m_pos s) bs;
      Ret (mk (RawBuf buf) (m_len s) (u32 (m_pos s + len)))
  end.

Definition put8 junk s data := _WriteByte junk s [u8 data] 1.
Definition put16 junk s data := _WriteByte junk s (bytes16 data) 2.
Definition put32 junk s data := _WriteByte junk s (bytes32 data) 4.

Definition get_uint8 (s : t) : outcome (t * Z) :=
  '(s, bs) ← _ReadByte s 1; b ← mem_get bs 0; Ret (s, b).
Definition get_int8 (s : t) : outcome (t * Z) :=
  '(s, bs) ← _ReadByte s 1; b ← mem_get bs 0; Ret (s, i8 b).
Definition get_int16 (s : t) : outcome (t * Z) :=
  '(s, bs) ← _ReadByte s 2; v ← ReadInt16 bs 0; Ret (s, v).
Definition get_uint16 (s : t) : outcome (t * Z) :=
  '(s, bs) ← _ReadByte s 2; v ← ReadUint16 bs 0; Ret (s, v).
Definition get_int32 (s : t) : outcome (t * Z) :=
  '(s, bs) ← _ReadByte s 4; v ← ReadInt32 bs 0; Ret (s, v).
Definition get_uint32 (s : t) : outcome (t * Z) :=
  '(s, bs) ← _ReadByte s 4; v ← ReadUint32 bs 0; Ret (s, v).

(** [WriteString(str, len)] and [WriteData(data, len)] have the same body. *)
Definition WriteData (junk1 junk2 : nat -> Z) (s : t) (data : list Z) (len : Z) : outcome t :=
  s ← put32 junk1 s len;
  _WriteByte junk2 s data len.

(** Returns the length read and the pointer to the data, as an offset into
    [GetBuf]; the data itself is not copied. *)
Definition ReadData (s : t) : outcome (t * Z * Z) :=
  '(s, len) ← get_uint32 s;
  let pData := m_pos s in
  s ← Skip s len;
  Ret (s, pData, len).

(** ** Words *)

Lemma int32_of_bytes_u32 b0 b1 b2 b3 :
  is_u 8 b0 -> is_u 8 b1 -> is_u 8 b2 -> is_u 8 b3 ->
  u32 (int32_of_bytes b0 b1 b2 b3) =
  b0 * 2 ^ 24 + b1 * 2 ^ 16 + b2 * 2 ^ 8 + b3.
Proof.
  unfold is_u, int32_of_bytes. intros. pow2.
  assert (exists k, i32 (Z.shiftl b0 24) = Z.shiftl (b0 - 256 * k) 24) as [k ->].
  { exists (if b0 <? 128 then 0 else 1).
    rewrite !Z.shiftl_mul_pow2 by lia. unfold wrap_s. pow2.
    destruct (Z.ltb_spec b0 128).
    - rewrite Z.mod_small; lia.
    - rewrite <- (Z.mod_unique_pos _ _ 1 (b0 * 16777216 + 2147483648 - 4294967296)); lia. }
  rewrite (lor_shiftl_shiftl _ b1 16 8), (lor_shiftl_shiftl _ b2 8 8) by (simpl; lia).
  rewrite lor_shiftl_add by (simpl; lia). pow2.
  unfold wrap_u. pow2.
  symmetry. apply (Z.mod_unique_pos _ _ (- k)); lia.
Qed.

Lemma bytes32_u32 data : exists b0 b1 b2 b3, bytes32 data = [b0; b1; b2; b3] /\
  is_u 8 b0 /\ is_u 8 b1 /\ is_u 8 b2 /\ is_u 8 b3 /\
  b0 * 2 ^ 24 + b1 * 2 ^ 16 + b2 * 2 ^ 8 + b3 = u32 data.
Proof.
  unfold bytes32. rewrite !land_ff, !wrap_u_idem by lia.
  do 4 eexists. split; [done|]. do 4 (split; [apply wrap_u_range; lia|]).
  apply be32_bytes.
Qed.

Lemma bytes16_u16 data : exists b0 b1, bytes16 data = [b0; b1] /\
  is_u 8 b0 /\ is_u 8 b1 /\ b0 * 2 ^ 8 + b1 = u16 data.
Proof.
  unfold bytes16. rewrite !land_ff, !wrap_u_idem by lia.
  do 2 eexists. split; [done|]. do 2 (split; [apply wrap_u_range; lia|]).
  apply be16_bytes.
Qed.

(** The stored bytes depend on the word modulo its width only. *)
Lemma bytes32_wrap x y : u32 x = u32 y -> bytes32 x = bytes32 y.
Proof.
  intros H. assert (exists k, x = y + k * 2 ^ 32) as [k ->].
  { exists (x / 2 ^ 32 - y / 2 ^ 32). unfold wrap_u in H.
    pose proof (Z.div_mod x (2 ^ 32)). pose proof (Z.div_mod y (2 ^ 32)). lia. }
  clear H. unfold bytes32. rewrite !land_ff, !wrap_u_idem by lia.
  rewrite !Z.shiftr_div_pow2 by lia. unfold wrap_u.
  assert (forall n m, 0 < n -> 2 ^ 32 = n * (m * 256) ->
    ((y + k * 2 ^ 32) / n) mod 2 ^ 8 = (y / n) mod 2 ^ 8) as Hd.
  { intros n m Hn ->. replace (y + k * (n * (m * 256))) with (y + (k * m * 256) * n) by ring.
    rewrite Z.div_add by lia. by rewrite Z.mod_add. }
  rewrite (Hd (2 ^ 24) 1), (Hd (2 ^ 16) 256), (Hd (2 ^ 8) 65536) by lia.
  pose proof (Hd 1 16777216) as H1. rewrite !Z.div_1_r in H1.
  by rewrite H1 by lia.
Qed.

Lemma bytes32_of_bytes b0 b1 b2 b3 :
  is_u 8 b0 -> is_u 8 b1 -> is_u 8 b2 -> is_u 8 b3 ->
  bytes32 (b0 * 2 ^ 24 + b1 * 2 ^ 16 + b2 * 2 ^ 8 + b3) = [b0; b1; b2; b3].
Proof.
  unfold is_u. intros. unfold bytes32. rewrite !land_ff, !wrap_u_idem by lia.
  rewrite !Z.shiftr_div_pow2 by lia. unfold wrap_u. pow2.
  repeat f_equal; Z.div_mod_to_equations; lia.
Qed.

Lemma bytes16_of_bytes b0 b1 :
  is_u 8 b0 -> is_u 8 b1 -> bytes16 (b0 * 2 ^ 8 + b1) = [b0; b1].
Proof.
  unfold is_u. intros. unfold bytes16. rewrite !land_ff, !wrap_u_idem by lia.
  rewrite !Z.shiftr_div_pow2 by lia. unfold wrap_u. pow2.
  repeat f_equal; Z.div_mod_to_equations; lia.
Qed.

Lemma mem_get_middle pre bs post i p b :
  bs !! i = Some b -> p = zlen pre + Z.of_nat i ->
  mem_get (pre ++ bs ++ post) p = Ret b.
Proof.
  intros Hb ->. unfold mem_get. rewrite decide_True by zlia.
  rewrite lookup_app_r by zlia.
  replace (_ - _)%nat with i by zlia.
  by rewrite lookup_app_l, Hb by (by eapply lookup_lt_Some).
Qed.

Lemma read_uint32_bytes32 pre post data p :
  p = zlen pre -> ReadUint32 (pre ++ bytes32 data ++ post) p = Ret (u32 data).
Proof.
  intros ->. destruct (bytes32_u32 data) as (b0&b1&b2&b3&->&?&?&?&?&<-).
  unfold ReadUint32.
  rewrite (mem_get_middle pre _ post 0 (zlen pre) b0), (mem_get_middle pre _ post 1 (zlen pre + 1) b1),
    (mem_get_middle pre _ post 2 (zlen pre + 2) b2), (mem_get_middle pre _ post 3 (zlen pre + 3) b3) by (done || lia).
  simpl. by rewrite int32_of_bytes_u32.
Qed.

Lemma read_int32_bytes32 pre post data p :
  p = zlen pre -> ReadInt32 (pre ++ bytes32 data ++ post) p = Ret (i32 data).
Proof.
  intros ->. destruct (bytes32_u32 data) as (b0&b1&b2&b3&->&?&?&?&?&Hd).
  unfold ReadInt32.
  rewrite (mem_get_middle pre _ post 0 (zlen pre) b0), (mem_get_middle pre _ post 1 (zlen pre + 1) b1),
    (mem_get_middle pre _ post 2 (zlen pre + 2) b2), (mem_get_middle pre _ post 3 (zlen pre + 3) b3) by (done || lia).
  simpl. f_equal.
  rewrite <- (wrap_s_wrap_u 32 data), <- (wrap_s_wrap_u 32 (int32_of_bytes _ _ _ _)) by lia.
  by rewrite int32_of_bytes_u32, Hd.
Qed.

Lemma read_uint16_bytes16 pre post data p :
  p = zlen pre -> ReadUint16 (pre ++ bytes16 data ++ post) p = Ret (u16 data).
Proof.
  intros ->. destruct (bytes16_u16 data) as (b0&b1&->&H0&H1&Hd).
  unfold ReadUint16.
  rewrite (mem_get_middle pre _ post 0 (zlen pre) b0), (mem_get_middle pre _ post 1 (zlen pre + 1) b1)
    by (done || lia).
  simpl. rewrite lor_shiftl_add, Hd by (unfold is_u in *; lia).
  by rewrite wrap_u_idem.
Qed.

(** ** Writing to a simple buffer, reading from a raw block *)

#[local] Arguments _WriteByte : simpl never.
#[local] Arguments _ReadByte : simpl never.

Lemma zlen_bytes32 data : zlen (bytes32 data) = 4.
Proof. done. Qed.

Lemma zlen_bytes16 data : zlen (bytes16 data) = 2.
Proof. done. Qed.

Lemma write_simple_spec junk sb len pos src n :
  CSimpleBuffer.wf sb -> CSimpleBuffer.fits sb n -> n = zlen src ->
  exists sb', _WriteByte junk (mk (SimpBuf sb) len pos) src n =
      Ret (mk (SimpBuf sb') len (u32 (pos + n))) /\
    CSimpleBuffer.wf sb' /\
    CSimpleBuffer.contents sb' = CSimpleBuffer.contents sb ++ src.
Proof.
  intros Hwf Hf ->. unfold _WriteByte; simpl.
  destruct (CSimpleBuffer.write_spec junk sb src (zlen src)) as (sb'&->&Hwf'&Hc);
    [done..|lia|].
  exists sb'. rewrite ztake_all in Hc by lia. done.
Qed.

(** A raw stream whose position is at the boundary of [pre] and [bs]. *)
Lemma read_raw_spec pre bs post len :
  zlen pre + zlen bs <= len -> is_u 32 len ->
  _ReadByte (mk (RawBuf (pre ++ bs ++ post)) len (zlen pre)) (zlen bs) =
  Ret (mk (RawBuf (pre ++ bs ++ post)) len (zlen pre + zlen bs), bs).
Proof.
  intros Hl [? ?]. unfold _ReadByte; simpl.
  rewrite (wrap_u_small 32 (_ + _)) by (split; zlia).
  destruct (Z.ltb_spec len (zlen pre + zlen bs)); [lia|].
  by rewrite mem_read_app.
Qed.

Lemma get_uint32_raw pre v post len :
  zlen pre + 4 <= len -> is_u 32 len ->
  get_uint32 (mk (RawBuf (pre ++ bytes32 v ++ post)) len (zlen pre)) =
  Ret (mk (RawBuf (pre ++ bytes32 v ++ post)) len (zlen pre + 4), u32 v).
Proof.
  intros. unfold get_uint32.
  rewrite <- (zlen_bytes32 v), read_raw_spec by (rewrite ?zlen_bytes32; done).
  mstep. pose proof (read_uint32_bytes32 [] [] v 0 eq_refl) as Hr.
  rewrite app_nil_l, app_nil_r in Hr. by rewrite Hr.
Qed.

Lemma get_uint16_raw pre v post len :
  zlen pre + 2 <= len -> is_u 32 len ->
  get_uint16 (mk (RawBuf (pre ++ bytes16 v ++ post)) len (zlen pre)) =
  Ret (mk (RawBuf (pre ++ bytes16 v ++ post)) len (zlen pre + 2), u16 v).
Proof.
  intros. unfold get_uint16.
  rewrite <- (zlen_bytes16 v), read_raw_spec by (rewrite ?zlen_bytes16; done).
  mstep. pose proof (read_uint16_bytes16 [] [] v 0 eq_refl) as Hr.
  rewrite app_nil_l, app_nil_r in Hr. by rewrite Hr.
Qed.

(** A raw read throws when the block is too short. *)
Lemma read_raw_short tgt len pos n :
  is_u 32 (pos + n) -> len < pos + n ->
  _ReadByte (mk tgt len pos) n = Throw parse_failed.
Proof.
  intros. unfold _ReadByte; simpl. rewrite wrap_u_small by done.
  by destruct (Z.ltb_spec len (pos + n)); [|lia].
Qed.

End CByteStream.

(** ** Attach data *)

Module AttachData.
Import CByteStream.

(** The serialising constructor of [CDbAttachData]: three words into
    [m_buf].  [junk k] is what the k-th growth of the buffer leaves in new
    memory. *)
Definition CDbAttachData_encode (junk : nat -> nat -> Z) (type handle service_type : Z)
  : outcome CByteStream.t :=
  let os := of_simple CSimpleBuffer.init 0 in
  os ← put32 (junk 0%nat) os type;
  os ← put32 (junk 1%nat) os handle;
  put32 (junk 2%nat) os service_type.

Record CDbAttachData := mkDb { db_type : Z; db_handle : Z; db_service_type : Z }.

Definition CDbAttachData_decode (attach_data : list Z) (attach_len : Z)
  : outcome CDbAttachData :=
  let s := of_raw attach_data attach_len in
  '(s, m_type) ← get_uint32 s;
  '(s, m_handle) ← get_uint32 s;
  '(s, m_service_type) ← get_uint32 s;
  Ret (mkDb m_type m_handle m_service_type).

Definition CPduAttachData_encode (junk : nat -> nat -> Z)
    (type handle pduLength : Z) (pdu : list Z) (service_type : Z)
  : outcome CByteStream.t :=
  let os := of_simple CSimpleBuffer.init 0 in
  os ← put32 (junk 0%nat) os type;
  os ← put32 (junk 1%nat) os handle;
  os ← put32 (junk 2%nat) os service_type;
  WriteData (junk 3%nat) (junk 4%nat) os pdu pduLength.

(** [pa_pdu] is the pointer [m_pdu] as an offset into the attach data. *)
Record CPduAttachData := mkPdu {
  pa_type : Z; pa_handle : Z; pa_service_type : Z; pa_pduLength : Z; pa_pdu : Z;
}.

Definition CPduAttachData_decode (attach_data : list Z) (attach_len : Z)
  : outcome CPduAttachData :=
  let s := of_raw attach_data attach_len in
  '(s, m_type) ← get_uint32 s;
  '(s, m_handle) ← get_uint32 s;
  '(s, m_service_type) ← get_uint32 s;
  '(s, m_pdu, m_pduLength) ← ReadData s;
  Ret (mkPdu m_type m_handle m_service_type m_pduLength m_pdu).

(** [GetBuffer]/[GetLength] of the serialised object: the bytes in use. *)
Definition serialised (o : outcome CByteStream.t) : outcome (list Z) :=
  os ← o;
  match m_target os with
  | SimpBuf sb => Ret (CSimpleBuffer.contents sb)
  | RawBuf buf => Ret buf
  end.

Lemma put32_spec junk sb pos v :
  CSimpleBuffer.wf sb -> CSimpleBuffer.fits sb 4 ->
  exists sb', put32 junk (mk (SimpBuf sb) 0 pos) v = Ret (mk (SimpBuf sb') 0 (u32 (pos + 4))) /\
    CSimpleBuffer.wf sb' /\
    CSimpleBuffer.contents sb' = CSimpleBuffer.contents sb ++ bytes32 v.
Proof. intros. by apply write_simple_spec. Qed.

Lemma fits_contents sb bs n :
  CSimpleBuffer.wf sb -> CSimpleBuffer.contents sb = bs -> 0 <= n ->
  5 * (zlen bs + n) < 4 * 2 ^ 32 -> CSimpleBuffer.fits sb n.
Proof.
  intros Hwf <- ??. split; [done|]. by rewrite <- CSimpleBuffer.zlen_contents.
Qed.

(** The three leading words, shared by both kinds of attach data. *)
Lemma encode_head junk ty hd sv :
  exists sb pos, CDbAttachData_encode junk ty hd sv = Ret (mk (SimpBuf sb) 0 pos) /\
    CSimpleBuffer.wf sb /\
    CSimpleBuffer.contents sb = bytes32 ty ++ bytes32 hd ++ bytes32 sv.
Proof.
  unfold CDbAttachData_encode, of_simple.
  destruct (put32_spec (junk 0%nat) CSimpleBuffer.init 0 ty) as (s1&->&W1&C1);
    [apply CSimpleBuffer.wf_init|by vm_compute|]. mstep.
  destruct (put32_spec (junk 1%nat) s1 (u32 (0 + 4)) hd) as (s2&->&W2&C2);
    [done|eapply fits_contents; [done..|vm_compute; done]|]. mstep.
  destruct (put32_spec (junk 2%nat) s2 (u32 (u32 (0 + 4) + 4)) sv) as (s3&->&W3&C3);
    [done|eapply fits_contents; [done| |done|]; [exact C2|rewrite C1; vm_compute; done]|].
  eexists _, _. split; [done|]. split; [done|].
  rewrite C3, C2, C1. by rewrite <- !app_assoc.
Qed.

Lemma encode_pdu junk ty hd sv pdu :
  5 * (16 + zlen pdu) < 4 * 2 ^ 32 ->
  serialised (CPduAttachData_encode junk ty hd (zlen pdu) pdu sv) =
  Ret (bytes32 ty ++ bytes32 hd ++ bytes32 sv ++ bytes32 (zlen pdu) ++ pdu).
Proof.
  intros Hb.
  destruct (encode_head junk ty hd sv) as (sb&pos&He&Hwf&Hc).
  assert (CPduAttachData_encode junk ty hd (zlen pdu) pdu sv =
    (os ← CDbAttachData_encode junk ty hd sv;
     WriteData (junk 3%nat) (junk 4%nat) os pdu (zlen pdu))) as ->.
  { unfold CPduAttachData_encode, CDbAttachData_encode.
    by repeat (destruct (put32 _ _ _); simpl). }
  rewrite He. mstep. unfold WriteData.
  destruct (put32_spec (junk 3%nat) sb pos (zlen pdu)) as (s1&->&W1&C1); [done| |].
  { eapply fits_contents; [done..|]. rewrite !zlen_app, !zlen_bytes32. zlia. }
  mstep.
  destruct (write_simple_spec (junk 4%nat) s1 0 (u32 (pos + 4)) pdu (zlen pdu))
    as (s2&->&W2&C2); [done| |done|].
  { eapply fits_contents; [done|exact C1|zlia|].
    rewrite Hc, !zlen_app, !zlen_bytes32. zlia. }
  unfold serialised. mstep. cbn [m_target].
  by rewrite C2, C1, Hc, <- !app_assoc.
Qed.

Definition head (ty hd sv : Z) : list Z := bytes32 ty ++ bytes32 hd ++ bytes32 sv.

(** Both decoders read the same three words first. *)
Lemma decode_head {A} (k : CByteStream.t -> Z -> Z -> Z -> outcome A) ty hd sv rest len :
  12 <= len -> is_u 32 len ->
  ('(s, m_type) ← get_uint32 (of_raw (head ty hd sv ++ rest) len);
   '(s, m_handle) ← get_uint32 s;
   '(s, m_service_type) ← get_uint32 s;
   k s m_type m_handle m_service_type) =
  k (mk (RawBuf (head ty hd sv ++ rest)) len 12) (u32 ty) (u32 hd) (u32 sv).
Proof.
  intros Hl Hu. unfold of_raw, head. rewrite <- !app_assoc.
  pose proof (get_uint32_raw [] ty (bytes32 hd ++ bytes32 sv ++ rest) len) as H1.
  pose proof (get_uint32_raw (bytes32 ty) hd (bytes32 sv ++ rest) len) as H2.
  pose proof (get_uint32_raw (bytes32 ty ++ bytes32 hd) sv rest len) as H3.
  rewrite <- !app_assoc in H3. rewrite app_nil_l in H1.
  rewrite !zlen_app, !zlen_bytes32 in *. rewrite zlen_nil in H1.
  rewrite H1 by (done || lia). mstep. change (0 + 4) with 4.
  rewrite H2 by (done || lia). mstep. rewrite H3 by (done || lia). done.
Qed.

Lemma zlen_head ty hd sv : zlen (head ty hd sv) = 12.
Proof. done. Qed.

Lemma decode_pdu ty hd sv n rest len :
  16 <= len -> is_u 32 len -> is_u 32 n ->
  CPduAttachData_decode (head ty hd sv ++ bytes32 n ++ rest) len =
  if len <? u32 (16 + n) then Throw parse_failed
  else Ret (mkPdu (u32 ty) (u32 hd) (u32 sv) n 16).
Proof.
  intros Hl Hu Hn. unfold CPduAttachData_decode.
  rewrite (decode_head (fun s ty hd sv =>
    '(s, m_pdu, m_pduLength) ← ReadData s; Ret (mkPdu ty hd sv m_pduLength m_pdu)))
    by (done || lia).
  unfold ReadData.
  pose proof (get_uint32_raw (head ty hd sv) n rest len) as H1.
  rewrite zlen_head in H1. rewrite H1 by (done || lia). mstep.
  unfold Skip. cbn [m_pos m_len]. rewrite (wrap_u_small 32 n) by done.
  change (12 + 4) with 16. by destruct (len <? u32 (16 + n)).
Qed.

(** Attach data of the login decodes; so does any block of three words. *)
Lemma db_attach_encode junk ty hd sv :
  serialised (CDbAttachData_encode junk ty hd sv) = Ret (head ty hd sv).
Proof.
  destruct (encode_head junk ty hd sv) as (sb&pos&->&_&Hc). unfold serialised. mstep.
  cbn [m_target]. by rewrite Hc.
Qed.

Lemma db_attach_decode ty hd sv :
  CDbAttachData_decode (head ty hd sv) (zlen (head ty hd sv)) =
  Ret (mkDb (u32 ty) (u32 hd) (u32 sv)).
Proof.
  rewrite zlen_head. rewrite <- (app_nil_r (head ty hd sv)). unfold CDbAttachData_decode.
  by rewrite (decode_head (fun _ ty hd sv => Ret (mkDb ty hd sv))).
Qed.

Lemma db_decode_no_fuel d len : CDbAttachData_decode d len <> NoFuel.
Proof.
  unfold CDbAttachData_decode, get_uint32, _ReadByte, ReadUint32, CSimpleBuffer.Read. no_fuel.
Qed.

(** Encoding a PDU with its context as attach data and decoding the bytes
    gives back the three words, the length, and a pointer to the PDU's
    bytes. *)
Theorem pdu_attach_roundtrip junk ty hd sv pdu :
  is_u 32 ty -> is_u 32 hd -> is_u 32 sv -> 5 * (16 + zlen pdu) < 4 * 2 ^ 32 ->
  exists data d,
    serialised (CPduAttachData_encode junk ty hd (zlen pdu) pdu sv) = Ret data /\
    CPduAttachData_decode data (zlen data) = Ret d /\
    pa_type d = ty /\ pa_handle d = hd /\ pa_service_type d = sv /\
    mem_read data (pa_pdu d) (pa_pduLength d) = Ret pdu.
Proof.
  intros Ht Hh Hs Hb. rewrite encode_pdu by done.
  assert (zlen (head ty hd sv ++ bytes32 (zlen pdu) ++ pdu) = 16 + zlen pdu) as Hz.
  { rewrite !zlen_app, zlen_head, zlen_bytes32. lia. }
  pose proof (zlen_nonneg pdu).
  eexists (head ty hd sv ++ bytes32 (zlen pdu) ++ pdu), _.
  split; [unfold head; by rewrite <- !app_assoc|].
  rewrite decode_pdu by (rewrite ?Hz; unfold is_u; lia).
  rewrite Hz, wrap_u_small by (unfold is_u; lia).
  rewrite Z.ltb_irrefl. split; [done|]. cbn.
  rewrite !wrap_u_small by done. split_and!; try done.
  rewrite app_assoc. rewrite <- (app_nil_r pdu) at 2.
  rewrite <- app_assoc, app_assoc. by apply mem_read_app.
Qed.

Lemma pdu_attach_roundtrip_witness :
  exists data d,
    serialised (CPduAttachData_encode (fun _ _ => 205) 2 77 (zlen [10;20;30]) [10;20;30] 4294967295)
      = Ret data /\
    CPduAttachData_decode data (zlen data) = Ret d /\
    pa_type d = 2 /\ pa_handle d = 77 /\ pa_service_type d = 4294967295 /\
    mem_read data (pa_pdu d) (pa_pduLength d) = Ret [10;20;30].
Proof. apply pdu_attach_roundtrip; vm_compute; split; congruence. Defined.

(** The length check of [ReadData] on received attach data, exactly: below
    [2^32 - 16] a declared length is accepted only when its bytes are present,
    and from there on the 32-bit sum wraps and every length is accepted, with
    a pointer whose bytes lie outside the block. *)
Theorem pdu_attach_length_check ty hd sv n rest :
  is_u 32 n -> 16 + zlen rest < 2 ^ 32 ->
  let data := head ty hd sv ++ bytes32 n ++ rest in
  let d := mkPdu (u32 ty) (u32 hd) (u32 sv) n 16 in
  (n <= zlen rest ->
     CPduAttachData_decode data (zlen data) = Ret d /\
     mem_read data (pa_pdu d) (pa_pduLength d) = Ret (ztake n rest)) /\
  (zlen rest < n < 2 ^ 32 - 16 ->
     CPduAttachData_decode data (zlen data) = Throw parse_failed) /\
  (2 ^ 32 - 16 <= n ->
     CPduAttachData_decode data (zlen data) = Ret d /\
     mem_read data (pa_pdu d) (pa_pduLength d) = UB).
Proof.
  intros Hn Hr data d. unfold is_u in Hn.
  assert (zlen data = 16 + zlen rest) as Hz.
  { unfold data. rewrite !zlen_app, zlen_head, zlen_bytes32. lia. }
  pose proof (zlen_nonneg rest) as H0.
  assert (CPduAttachData_decode data (zlen data) =
    if zlen data <? u32 (16 + n) then Throw parse_failed else Ret d) as ->.
  { apply decode_pdu; unfold is_u; lia. }
  rewrite Hz. split; [|split]; intros Hcase.
  - rewrite wrap_u_small by (unfold is_u; lia).
    destruct (Z.ltb_spec (16 + zlen rest) (16 + n)); [lia|]. split; [done|].
    rewrite mem_read_ok by (cbn; lia). cbn. unfold data.
    by rewrite app_assoc, zdrop_app_exact.
  - rewrite wrap_u_small by (unfold is_u; lia).
    by destruct (Z.ltb_spec (16 + zlen rest) (16 + n)); [|lia].
  - assert (u32 (16 + n) = 16 + n - 2 ^ 32) as ->.
    { unfold wrap_u. symmetry. apply Z.mod_unique_pos with 1; lia. }
    destruct (Z.ltb_spec (16 + zlen rest) (16 + n - 2 ^ 32)); [lia|].
    split; [done|]. unfold mem_read. rewrite decide_False; [done|]. cbn. lia.
Qed.

Lemma pdu_attach_length_check_witness :
  CPduAttachData_decode (head 1 2 3 ++ bytes32 4294967290 ++ [5]) 17 =
    Ret (mkPdu 1 2 3 4294967290 16) /\
  mem_read (head 1 2 3 ++ bytes32 4294967290 ++ [5]) 16 4294967290 = UB.
Proof.
  apply (pdu_attach_length_check 1 2 3 4294967290 [5]); vm_compute; try split; congruence.
Defined.

End AttachData.
