(* ===== verification/Pdu.v ===== *)
(** * CImPdu and ImPdu: the packets of the protocol

    Models [CImPdu] (src/src/ptp_global/ImPduBase.{h,cpp}) and [ImPdu]
    (src/src/ptp_protobuf/ImPdu.{h,cpp}): a 16-byte big-endian header (length,
    version, flag, command id, sequence number, reserved word) followed by a
    serialised protobuf message.  The protobuf library is a parameter: a
    message is its [ByteSize] and the result of [SerializeToArray]. *)

From S2P Require Import Prelude SimpleBuffer ByteStream.

(** A message as the serialiser sees it; [SerializeToArray = None] is the
    [false] the library returns when required fields are missing. *)
Record MessageLite := mkMsg {
  ByteSize : Z;
  SerializeToArray : option (list Z);
}.

Definition IM_PDU_HEADER_LEN : Z := 16.
Definition IM_PDU_VERSION : Z := 1.
Definition sizeof_PduHeader_t : Z := 16.

Module CImPdu.
Import CByteStream.

Record PduHeader_t := mkHdr {
  length_ : Z;
  version : Z;
  flag : Z;
  command_id : Z;
  seq_num : Z;
  reversed : Z;
}.

Record t := mk {
  m_buf : CSimpleBuffer.t;
  m_pdu_header : PduHeader_t;
}.

(** The constructor leaves [length] uninitialised ([garbage]). *)
Definition init (garbage : Z) : t :=
  mk CSimpleBuffer.init (mkHdr garbage IM_PDU_VERSION 0 0 0 0).

Definition GetBuffer (p : t) : list Z := CSimpleBuffer.GetBuffer (m_buf p).

Definition GetLength (p : t) : Z := CSimpleBuffer.GetWriteOffset (m_buf p).

(** [GetBodyData] is a pointer [sizeof(PduHeader_t)] into the buffer. *)
Definition GetBodyData (p : t) : list Z := zdrop sizeof_PduHeader_t (GetBuffer p).

Definition GetBodyLength (p : t) : Z :=
  u32 (CSimpleBuffer.GetWriteOffset (m_buf p) - sizeof_PduHeader_t).

Definition GetVersion (p : t) : Z := version (m_pdu_header p).
Definition GetFlag (p : t) : Z := flag (m_pdu_header p).
Definition GetCommandId (p : t) : Z := command_id (m_pdu_header p).
Definition GetSeqNum (p : t) : Z := seq_num (m_pdu_header p).
Definition GetReversed (p : t) : Z := reversed (m_pdu_header p).

Definition with_buffer (p : t) (m : list Z) : t :=
  mk (CSimpleBuffer.mk m (CSimpleBuffer.m_alloc_size (m_buf p))
        (CSimpleBuffer.m_write_offset (m_buf p))) (m_pdu_header p).

(** The reserved word is 32 bits wide in the structure but is written with
    [WriteUint16]: its high half is lost and the last two header bytes are not
    written. *)
Definition WriteHeader (p : t) : outcome t :=
  let h := m_pdu_header p in
  buf ← WriteInt32 (GetBuffer p) 0 (i32 (GetLength p));
  buf ← WriteUint16 buf 4 (version h);
  buf ← WriteUint16 buf 6 (flag h);
  buf ← WriteUint16 buf 8 (command_id h);
  buf ← WriteUint16 buf 10 (seq_num h);
  buf ← WriteUint16 buf 12 (u16 (reversed h));
  Ret (with_buffer p buf).

(** The setters change the wire bytes and leave [m_pdu_header] as it is. *)
Definition SetVersion (p : t) (v : Z) : outcome t :=
  buf ← WriteUint16 (GetBuffer p) 4 v; Ret (with_buffer p buf).

Definition SetFlag (p : t) (v : Z) : outcome t :=
  buf ← WriteUint16 (GetBuffer p) 6 v; Ret (with_buffer p buf).

Definition SetCommandId (p : t) (v : Z) : outcome t :=
  buf ← WriteUint16 (GetBuffer p) 8 v; Ret (with_buffer p buf).

Definition SetError (p : t) (v : Z) : outcome t :=
  buf ← WriteUint16 (GetBuffer p) 8 v; Ret (with_buffer p buf).

Definition SetSeqNum (p : t) (v : Z) : outcome t :=
  buf ← WriteUint16 (GetBuffer p) 10 v; Ret (with_buffer p buf).

Definition SetReversed (p : t) (v : Z) : outcome t :=
  buf ← WriteUint32 (GetBuffer p) 12 v; Ret (with_buffer p buf).

Definition SetServiceId (p : t) (v : Z) : outcome t := Ret p.

(** Returns the object and the C++ return code. *)
Definition ReadPduHeader (p : t) (buf : list Z) (len : Z) : outcome (t * Z) :=
  if IM_PDU_HEADER_LEN <=? len then
    let s := of_raw buf len in
    '(s, length_) ← get_uint32 s;
    '(s, version) ← get_uint16 s;
    '(s, flag) ← get_uint16 s;
    '(s, command_id) ← get_uint16 s;
    '(s, seq_num) ← get_uint16 s;
    '(s, reversed) ← get_uint32 s;
    Ret (mk (m_buf p) (mkHdr length_ version flag command_id seq_num reversed), 0)
  else Ret (p, -1).

(** [None] is [false]; [Some pdu_len] is [true] with the out parameter. *)
Definition IsPduAvailable (buf : list Z) (len : Z) : outcome (option Z) :=
  if len <? IM_PDU_HEADER_LEN then Ret None else
  pdu_len ← ReadUint32 buf 0;
  if len <? pdu_len then Ret None else
  if pdu_len =? 0 then Throw (CPduException 0 0 1 "pdu_len is 0") else
  Ret (Some pdu_len).

(** [None] is the null pointer. *)
Definition ReadPdu (junk : nat -> Z) (garbage : Z) (buf : list Z) (len : Z)
  : outcome (option t) :=
  avail ← IsPduAvailable buf len;
  match avail with
  | None => Ret None
  | Some pdu_len =>
      sb ← CSimpleBuffer.Write junk (m_buf (init garbage)) (Some buf) pdu_len;
      '(p, _) ← ReadPduHeader (mk sb (m_pdu_header (init garbage))) buf IM_PDU_HEADER_LEN;
      Ret (Some p)
  end.

(** The first two statements of every [SetPBMsg]: drop what is in the buffer
    and reserve the header. *)
Definition reset_for_header (junk : nat -> Z) (sb : CSimpleBuffer.t) : outcome CSimpleBuffer.t :=
  '(sb, _, _) ← CSimpleBuffer.Read sb false (CSimpleBuffer.GetWriteOffset sb);
  CSimpleBuffer.Write junk sb None sizeof_PduHeader_t.

(** The base class refuses a message and sends an empty body for null. *)
Definition SetPBMsg (junk1 junk2 : nat -> Z) (p : t) (msg : option MessageLite) : outcome t :=
  match msg with
  | Some _ => Ret p
  | None =>
      sb ← reset_for_header junk1 (m_buf p);
      sb ← CSimpleBuffer.Write junk2 sb (Some []) 0;
      WriteHeader (mk sb (m_pdu_header p))
  end.

(** [SetPBMsg(unsigned char*, int)]: a raw body. *)
Definition SetPBMsg_raw (junk1 junk2 : nat -> Z) (p : t) (buf : list Z) (len : Z) : outcome t :=
  sb ← reset_for_header junk1 (m_buf p);
  szData ← mem_read buf 0 len;
  sb ← CSimpleBuffer.Write junk2 sb (Some szData) len;
  WriteHeader (mk sb (m_pdu_header p)).

End CImPdu.

Module ImPdu.
Import CImPdu.

(** A null message is dereferenced.  When serialisation fails the packet is
    left with an unwritten header and no body. *)
Definition SetPBMsg (junk1 junk2 : nat -> Z) (p : t) (msg : option MessageLite) : outcome t :=
  sb ← reset_for_header junk1 (m_buf p);
  match msg with
  | None => UB
  | Some msg =>
      match SerializeToArray msg with
      | None => Ret (mk sb (m_pdu_header p))
      | Some szData =>
          sb ← CSimpleBuffer.Write junk2 sb (Some szData) (ByteSize msg);
          WriteHeader (mk sb (m_pdu_header p))
      end
  end.

Definition SetPBMsg_cid (junk1 junk2 : nat -> Z) (p : t) (msg : option MessageLite)
    (command_id seq_num : Z) : outcome t :=
  let h := m_pdu_header p in
  let h := mkHdr (length_ h) (version h) (flag h) command_id seq_num (reversed h) in
  sb ← reset_for_header junk1 (m_buf p);
  match msg with
  | None => UB
  | Some msg =>
      match SerializeToArray msg with
      | None => Ret (mk sb h)
      | Some szData =>
          sb ← CSimpleBuffer.Write junk2 sb (Some szData) (ByteSize msg);
          let sb := CSimpleBuffer.Position sb (u32 (ByteSize msg + sizeof_PduHeader_t)) in
          WriteHeader (mk sb h)
      end
  end.

End ImPdu.

(** ** The wire format *)

Module PduFacts.
Import CByteStream CImPdu.

(** A header with the reserved word as its four bytes [res]. *)
Definition header (len ver fl cid seq : Z) (res : list Z) : list Z :=
  bytes32 len ++ bytes16 ver ++ bytes16 fl ++ bytes16 cid ++ bytes16 seq ++ res.

Lemma zlen_header len ver fl cid seq res : zlen (header len ver fl cid seq res) = 12 + zlen res.
Proof. unfold header. rewrite !zlen_app, zlen_bytes32, !zlen_bytes16. lia. Qed.

Lemma split_gap (gap : list Z) : zlen gap = 16 ->
  exists a b c d e f g, gap = a ++ b ++ c ++ d ++ e ++ f ++ g /\
    zlen a = 4 /\ zlen b = 2 /\ zlen c = 2 /\ zlen d = 2 /\ zlen e = 2 /\
    zlen f = 2 /\ zlen g = 2 /\ f ++ g = zdrop 12 gap.
Proof.
  intros Hl. unfold zlen in Hl.
  do 16 (destruct gap as [|? gap]; [simpl in Hl; lia|]).
  destruct gap; [|simpl in Hl; lia].
  eexists [_;_;_;_], [_;_], [_;_], [_;_], [_;_], [_;_], [_;_].
  repeat split; reflexivity.
Qed.

Ltac skip_fields :=
  repeat (rewrite mem_write_skip by (rewrite ?zlen_bytes32, ?zlen_bytes16; lia);
          rewrite ?zlen_bytes32, ?zlen_bytes16; try (progress simpl (_ - _)));
  rewrite mem_write_here by (rewrite ?zlen_bytes32, ?zlen_bytes16; lia); mstep.

(** [WriteHeader] fills in the first 14 bytes and keeps the last two. *)
Lemma write_header_spec p gap rest :
  GetBuffer p = gap ++ rest -> zlen gap = 16 ->
  exists h14 h15, zdrop 14 gap = [h14; h15] /\
  WriteHeader p = Ret (with_buffer p
    (header (GetLength p) (version (m_pdu_header p)) (flag (m_pdu_header p))
       (command_id (m_pdu_header p)) (seq_num (m_pdu_header p))
       (bytes16 (u16 (reversed (m_pdu_header p))) ++ [h14; h15]) ++ rest)).
Proof.
  intros Hb Hl. destruct (split_gap gap Hl) as (a&b&c&d&e&f&g&->&?&?&?&?&?&?&Hg&Hd).
  assert (exists h14 h15, g = [h14; h15]) as (h14&h15&->).
  { unfold zlen in Hg. destruct g as [|? [|? [|]]]; simpl in Hg; try lia. eauto. }
  exists h14, h15. split.
  { rewrite !app_assoc. apply zdrop_app_exact. zlia. }
  unfold WriteHeader. rewrite Hb. rewrite <- !app_assoc.
  unfold WriteInt32, WriteUint16, header. rewrite <- !app_assoc.
  rewrite (bytes32_wrap (i32 (GetLength p)) (GetLength p)) by (by rewrite wrap_u_wrap_s).
  do 6 skip_fields. done.
Qed.

Lemma reset_spec junk sb :
  CSimpleBuffer.wf sb ->
  exists sb', reset_for_header junk sb = Ret sb' /\ CSimpleBuffer.wf sb' /\
    zlen (CSimpleBuffer.contents sb') = 16.
Proof.
  intros Hwf. unfold reset_for_header.
  pose proof (CSimpleBuffer.zlen_contents sb Hwf) as Hz.
  destruct (CSimpleBuffer.read_spec sb false (CSimpleBuffer.GetWriteOffset sb))
    as (s1&->&W1&C1&_); [done|destruct Hwf as (?&?&?); unfold CSimpleBuffer.GetWriteOffset; lia|].
  mstep. rewrite zdrop_all in C1 by (unfold CSimpleBuffer.GetWriteOffset; lia).
  pose proof (CSimpleBuffer.zlen_contents s1 W1) as Hz1. rewrite C1, zlen_nil in Hz1.
  destruct (CSimpleBuffer.write_null_spec junk s1 sizeof_PduHeader_t) as (s2&gap&->&W2&C2&Hg);
    [done|split; [done|rewrite <- Hz1; vm_compute; done]|].
  exists s2. by rewrite C2, C1.
Qed.

(** The common tail of the [SetPBMsg] variants: append the body, write the
    header. *)
Lemma finish_spec junk sb h body :
  CSimpleBuffer.wf sb -> zlen (CSimpleBuffer.contents sb) = 16 ->
  5 * (16 + zlen body) < 4 * 2 ^ 32 ->
  exists sb' p h14 h15,
    CSimpleBuffer.Write junk sb (Some body) (zlen body) = Ret sb' /\
    CSimpleBuffer.m_write_offset sb' = 16 + zlen body /\
    WriteHeader (mk sb' h) = Ret p /\
    CSimpleBuffer.wf (m_buf p) /\ m_pdu_header p = h /\
    zdrop 14 (CSimpleBuffer.contents sb) = [h14; h15] /\
    CSimpleBuffer.contents (m_buf p) =
      header (16 + zlen body) (version h) (flag h) (command_id h) (seq_num h)
        (bytes16 (u16 (reversed h)) ++ [h14; h15]) ++ body.
Proof.
  intros Hwf Hgap Hb. pose proof (zlen_nonneg body).
  destruct (CSimpleBuffer.write_spec junk sb body (zlen body)) as (s1&Hw&W1&C1);
    [done|split; [done|rewrite <- CSimpleBuffer.zlen_contents by done; lia]|lia|].
  rewrite ztake_all in C1 by lia.
  assert (CSimpleBuffer.m_write_offset s1 = 16 + zlen body) as Hoff.
  { rewrite <- CSimpleBuffer.zlen_contents by done. rewrite C1, zlen_app. lia. }
  pose proof (CSimpleBuffer.split_contents s1 W1) as Hsplit. rewrite C1, <- app_assoc in Hsplit.
  set (tail := zdrop _ (CSimpleBuffer.m_buffer s1)) in Hsplit.
  destruct (write_header_spec (mk s1 h) (CSimpleBuffer.contents sb) (body ++ tail))
    as (h14&h15&Hd&Hwh); [done..|].
  exists s1. eexists. exists h14, h15. split; [done|]. split; [done|]. split; [exact Hwh|].
  unfold GetLength, CSimpleBuffer.GetWriteOffset. cbn [m_buf m_pdu_header with_buffer].
  rewrite Hoff.
  set (hd := header _ _ _ _ _ _).
  assert (zlen hd = 16) as Hhd by (by unfold hd; rewrite zlen_header).
  split; [|split; [done|split; [done|]]].
  - destruct W1 as (Hl1&Ho1&Ha1). split; [|split]; cbn; [|lia..].
    rewrite <- Hl1, Hsplit, !zlen_app, Hhd, Hgap. lia.
  - unfold CSimpleBuffer.contents. cbn. rewrite app_assoc.
    apply ztake_app_exact. rewrite zlen_app. lia.
Qed.

(** The bytes of a packet, field by field. *)
Lemma header_app len ver fl cid seq res rest :
  header len ver fl cid seq res ++ rest =
  bytes32 len ++ bytes16 ver ++ bytes16 fl ++ bytes16 cid ++ bytes16 seq ++ res ++ rest.
Proof. unfold header. by rewrite <- !app_assoc. Qed.

Lemma read_header_spec p len ver fl cid seq res rest :
  ReadPduHeader p (header len ver fl cid seq (bytes32 res) ++ rest) 16 =
  Ret (mk (m_buf p) (mkHdr (u32 len) (u16 ver) (u16 fl) (u16 cid) (u16 seq) (u32 res)), 0).
Proof.
  rewrite header_app. unfold ReadPduHeader, of_raw. cbn [Z.leb Z.compare Pos.compare Pos.compare_cont IM_PDU_HEADER_LEN].
  assert (is_u 32 16) as H16 by (by vm_compute).
  pose proof (get_uint32_raw [] len (bytes16 ver ++ bytes16 fl ++ bytes16 cid ++
    bytes16 seq ++ bytes32 res ++ rest) 16) as G1.
  pose proof (get_uint16_raw (bytes32 len) ver (bytes16 fl ++ bytes16 cid ++
    bytes16 seq ++ bytes32 res ++ rest) 16) as G2.
  pose proof (get_uint16_raw (bytes32 len ++ bytes16 ver) fl (bytes16 cid ++
    bytes16 seq ++ bytes32 res ++ rest) 16) as G3.
  pose proof (get_uint16_raw (bytes32 len ++ bytes16 ver ++ bytes16 fl) cid (
    bytes16 seq ++ bytes32 res ++ rest) 16) as G4.
  pose proof (get_uint16_raw (bytes32 len ++ bytes16 ver ++ bytes16 fl ++ bytes16 cid) seq (
    bytes32 res ++ rest) 16) as G5.
  pose proof (get_uint32_raw (bytes32 len ++ bytes16 ver ++ bytes16 fl ++ bytes16 cid ++
    bytes16 seq) res rest 16) as G6.
  rewrite app_nil_l in *. rewrite <- !app_assoc in *.
  rewrite !zlen_app, ?zlen_bytes32, ?zlen_bytes16, ?zlen_nil in *.
  change (0 + 4) with 4 in *. change (4 + 2) with 6 in *. change (4 + (2 + 2)) with 8 in *.
  change (4 + (2 + (2 + 2))) with 10 in *. change (4 + (2 + (2 + (2 + 2)))) with 12 in *.
  change (6 + 2) with 8 in *. change (8 + 2) with 10 in *. change (10 + 2) with 12 in *.
  rewrite G1 by (done || lia). mstep. rewrite G2 by (done || lia). mstep.
  rewrite G3 by (done || lia). mstep. rewrite G4 by (done || lia). mstep.
  rewrite G5 by (done || lia). mstep. rewrite G6 by (done || lia). done.
Qed.

Lemma is_pdu_available_spec L rest n :
  16 <= n -> is_u 32 L ->
  IsPduAvailable (bytes32 L ++ rest) n =
  if n <? L then Ret None
  else if L =? 0 then Throw (CPduException 0 0 1 "pdu_len is 0") else Ret (Some L).
Proof.
  intros Hn Hu. unfold IsPduAvailable, IM_PDU_HEADER_LEN.
  destruct (Z.ltb_spec n 16); [lia|].
  pose proof (read_uint32_bytes32 [] rest L 0 eq_refl) as Hr.
  rewrite app_nil_l in Hr. rewrite Hr. mstep. by rewrite wrap_u_small.
Qed.

(** Reading back any packet whose declared length is within the bytes
    received. *)
Lemma read_pdu_spec junk garbage len ver fl cid seq res rest n :
  let wire := header len ver fl cid seq (bytes32 res) ++ rest in
  16 <= n <= zlen wire -> is_u 32 n -> 0 < len <= n -> 5 * len < 4 * 2 ^ 32 ->
  exists p, ReadPdu junk garbage wire n = Ret (Some p) /\
    m_pdu_header p = mkHdr len (u16 ver) (u16 fl) (u16 cid) (u16 seq) (u32 res) /\
    CSimpleBuffer.wf (m_buf p) /\
    CSimpleBuffer.contents (m_buf p) = ztake len wire.
Proof.
  intros wire Hn Hu Hlen Hb. unfold ReadPdu.
  assert (is_u 32 len) as Hul by (unfold is_u; lia).
  assert (IsPduAvailable wire n = Ret (Some len)) as ->.
  { unfold wire. rewrite header_app, is_pdu_available_spec by (done || lia).
    destruct (Z.ltb_spec n len); [lia|]. by destruct (Z.eqb_spec len 0); [lia|]. }
  mstep.
  destruct (CSimpleBuffer.write_spec junk CSimpleBuffer.init wire len) as (sb&Hw&W&C);
    [apply CSimpleBuffer.wf_init|split; cbn; lia|lia|].
  cbn [m_buf init]. rewrite Hw. mstep. unfold IM_PDU_HEADER_LEN.
  unfold wire at 1. rewrite read_header_spec. mstep.
  eexists. split; [done|]. cbn. rewrite (wrap_u_small 32 len) by done. by rewrite C.
Qed.

Lemma set_reversed_spec p pre res post r :
  CSimpleBuffer.wf (m_buf p) -> CSimpleBuffer.contents (m_buf p) = pre ++ res ++ post ->
  zlen pre = 12 -> zlen res = 4 ->
  exists p', SetReversed p r = Ret p' /\ CSimpleBuffer.wf (m_buf p') /\
    m_pdu_header p' = m_pdu_header p /\
    CSimpleBuffer.contents (m_buf p') = pre ++ bytes32 r ++ post.
Proof.
  intros Hwf Hc Hp Hr. unfold SetReversed, GetBuffer, CSimpleBuffer.GetBuffer, WriteUint32.
  pose proof (CSimpleBuffer.split_contents _ Hwf) as Hs. rewrite Hc in Hs.
  pose proof (CSimpleBuffer.zlen_contents _ Hwf) as Hz. rewrite Hc in Hz.
  set (tail := zdrop _ _) in Hs. rewrite Hs. rewrite <- !app_assoc.
  rewrite mem_write_app by (rewrite ?zlen_bytes32; lia). mstep.
  eexists. split; [done|]. destruct Hwf as (Hl&Ho&Ha). split; [|split; [done|]].
  - split; [|split]; cbn; [|lia..]. rewrite <- Hl, Hs, !zlen_app, zlen_bytes32. lia.
  - unfold CSimpleBuffer.contents. cbn. rewrite !app_assoc. apply ztake_app_exact.
    rewrite !zlen_app, zlen_bytes32 in *. lia.
Qed.

(** A packet built by [SetPBMsg(msg, command_id, seq_num)]. *)
Lemma set_pb_msg_spec j1 j2 p msg body cid seq :
  SerializeToArray msg = Some body -> ByteSize msg = zlen body ->
  5 * (16 + zlen body) < 4 * 2 ^ 32 -> CSimpleBuffer.wf (m_buf p) ->
  let h := m_pdu_header p in
  exists sb p' h14 h15, reset_for_header j1 (m_buf p) = Ret sb /\
    zdrop 14 (CSimpleBuffer.contents sb) = [h14; h15] /\
    ImPdu.SetPBMsg_cid j1 j2 p (Some msg) cid seq = Ret p' /\
    CSimpleBuffer.wf (m_buf p') /\
    m_pdu_header p' = mkHdr (length_ h) (version h) (flag h) cid seq (reversed h) /\
    CSimpleBuffer.contents (m_buf p') =
      header (16 + zlen body) (version h) (flag h) cid seq
        (bytes16 (u16 (reversed h)) ++ [h14; h15]) ++ body.
Proof.
  intros Hser Hsz Hb Hwf h. unfold ImPdu.SetPBMsg_cid.
  destruct (reset_spec j1 _ Hwf) as (sb&->&W&Hz). mstep. rewrite Hser, Hsz.
  destruct (finish_spec j2 sb (mkHdr (length_ h) (version h) (flag h) cid seq (reversed h)) body)
    as (s1&p'&h14&h15&->&Hoff&Hwh&W'&Hh&Hd&Hc); [done..|]. mstep.
  assert (CSimpleBuffer.Position s1 (u32 (zlen body + sizeof_PduHeader_t)) = s1) as ->.
  { destruct s1; unfold CSimpleBuffer.Position; cbn in *. f_equal. rewrite Hoff.
    unfold sizeof_PduHeader_t. pose proof (zlen_nonneg body).
    rewrite wrap_u_small by (unfold is_u; lia). lia. }
  exists sb, p', h14, h15. by split_and!.
Qed.

(** The lengths a received packet reports. *)
Lemma length_spec q L wire :
  CSimpleBuffer.wf (m_buf q) -> CSimpleBuffer.contents (m_buf q) = ztake L wire ->
  0 <= L <= zlen wire -> L < 2 ^ 32 ->
  GetLength q = L /\ GetBodyLength q = u32 (L - 16).
Proof.
  intros W C HL Hu. pose proof (CSimpleBuffer.zlen_contents _ W) as Hoff.
  rewrite C, zlen_ztake in Hoff.
  unfold GetLength, GetBodyLength, CSimpleBuffer.GetWriteOffset, sizeof_PduHeader_t.
  rewrite <- Hoff. replace (Z.max 0 (Z.min L (zlen wire))) with L by lia. done.
Qed.

Lemma body_spec q hd body :
  CSimpleBuffer.wf (m_buf q) -> CSimpleBuffer.contents (m_buf q) = hd ++ body ->
  zlen hd = 16 ->
  GetLength q = 16 + zlen body /\ GetBodyLength q = zlen body /\
  ztake (GetBodyLength q) (GetBodyData q) = body.
Proof.
  intros W C Hhd. pose proof (CSimpleBuffer.zlen_contents _ W) as Hoff.
  rewrite C, zlen_app, Hhd in Hoff. pose proof (zlen_nonneg body).
  assert (GetBodyLength q = zlen body) as Hbl.
  { unfold GetBodyLength, CSimpleBuffer.GetWriteOffset, sizeof_PduHeader_t.
    destruct W as (?&?&?). rewrite wrap_u_small by (unfold is_u; lia). lia. }
  split; [unfold GetLength, CSimpleBuffer.GetWriteOffset; lia|]. split; [done|].
  rewrite Hbl. unfold GetBodyData, GetBuffer, CSimpleBuffer.GetBuffer.
  rewrite (CSimpleBuffer.split_contents _ W), C, <- app_assoc.
  rewrite zdrop_app_exact by done. by rewrite ztake_app_exact.
Qed.

(** The declared length of the packet at the head of a byte string. *)
Definition be32 (bs : list Z) : Z :=
  match bs with
  | b0 :: b1 :: b2 :: b3 :: _ => b0 * 2 ^ 24 + b1 * 2 ^ 16 + b2 * 2 ^ 8 + b3
  | _ => 0
  end.

Lemma be32_range bs : bytes_ok bs -> is_u 32 (be32 bs).
Proof.
  intros Hb. destruct bs as [|b0 [|b1 [|b2 [|b3 bs]]]]; [split; simpl; lia..|].
  repeat match goal with H : bytes_ok (_ :: _) |- _ => apply Forall_cons_1 in H as [? H] end.
  unfold is_u in *; simpl be32. pow2. lia.
Qed.

(** Any 16 bytes are a header. *)
Lemma wire_decompose bs :
  bytes_ok bs -> 16 <= zlen bs ->
  exists ver fl cid seq res rest,
    bs = header (be32 bs) ver fl cid seq (bytes32 res) ++ rest.
Proof.
  intros Hb Hl. unfold zlen in Hl.
  destruct bs as [|b0 bs]; [simpl in Hl; lia|].
  destruct bs as [|b1 bs]; [simpl in Hl; lia|].
  destruct bs as [|b2 bs]; [simpl in Hl; lia|].
  destruct bs as [|b3 bs]; [simpl in Hl; lia|].
  destruct bs as [|b4 bs]; [simpl in Hl; lia|].
  destruct bs as [|b5 bs]; [simpl in Hl; lia|].
  destruct bs as [|b6 bs]; [simpl in Hl; lia|].
  destruct bs as [|b7 bs]; [simpl in Hl; lia|].
  destruct bs as [|b8 bs]; [simpl in Hl; lia|].
  destruct bs as [|b9 bs]; [simpl in Hl; lia|].
  destruct bs as [|b10 bs]; [simpl in Hl; lia|].
  destruct bs as [|b11 bs]; [simpl in Hl; lia|].
  destruct bs as [|b12 bs]; [simpl in Hl; lia|].
  destruct bs as [|b13 bs]; [simpl in Hl; lia|].
  destruct bs as [|b14 bs]; [simpl in Hl; lia|].
  destruct bs as [|b15 bs]; [simpl in Hl; lia|].
  repeat match goal with H : bytes_ok (_ :: _) |- _ => apply Forall_cons_1 in H as [? H] end.
  exists (b4 * 2 ^ 8 + b5), (b6 * 2 ^ 8 + b7), (b8 * 2 ^ 8 + b9), (b10 * 2 ^ 8 + b11).
  exists (b12 * 2 ^ 24 + b13 * 2 ^ 16 + b14 * 2 ^ 8 + b15), bs.
  rewrite header_app. simpl be32. rewrite !bytes32_of_bytes, !bytes16_of_bytes by done. done.
Qed.



(** Without [SetReversed] the last two header bytes of a packet are never
    written: the receiver reads the reserved word of a fresh packet as the two
    bytes the sender's allocator happened to leave there. *)
Theorem unset_reserved_word_is_uninitialised j1 j2 j3 g1 g2 msg body cid seq :
  SerializeToArray msg = Some body -> ByteSize msg = zlen body ->
  5 * (16 + zlen body) < 4 * 2 ^ 32 -> is_u 8 (j1 14%nat) -> is_u 8 (j1 15%nat) ->
  exists p q,
    ImPdu.SetPBMsg_cid j1 j2 (init g1) (Some msg) cid seq = Ret p /\
    let wire := CSimpleBuffer.contents (m_buf p) in
    ReadPdu j3 g2 wire (zlen wire) = Ret (Some q) /\
    GetReversed q = 256 * j1 14%nat + j1 15%nat.
Proof.
  intros Hser Hsz Hb H14 H15. pose proof (zlen_nonneg body).
  destruct (set_pb_msg_spec j1 j2 (init g1) msg body cid seq)
    as (sb&p&h14&h15&Hreset&Hd&Hp&W&_&C); [done..|apply CSimpleBuffer.wf_init|].
  assert (reset_for_header j1 (m_buf (init g1)) =
    Ret (CSimpleBuffer.mk (map j1 (List.seq 0%nat 20%nat)) 20 16)) as Hr0 by reflexivity.
  rewrite Hr0 in Hreset. injection Hreset as <-.
  assert (h14 = j1 14%nat /\ h15 = j1 15%nat) as [-> ->].
  { cbv in Hd. by injection Hd. }
  exists p. assert (bytes16 (u16 0) ++ [j1 14%nat; j1 15%nat] =
    bytes32 (0 * 2 ^ 24 + 0 * 2 ^ 16 + j1 14%nat * 2 ^ 8 + j1 15%nat)) as Hres
    by (rewrite bytes32_of_bytes by (done || by vm_compute); done).
  cbn in C. rewrite Hres in C. cbv zeta. rewrite C.
  destruct (read_pdu_spec j3 g2 (16 + zlen body) 1 0 cid seq
    (0 * 2 ^ 24 + 0 * 2 ^ 16 + j1 14%nat * 2 ^ 8 + j1 15%nat) body (16 + zlen body))
    as (q&Hrd&Hh&_&_).
  { rewrite zlen_app, zlen_header, zlen_bytes32. lia. }
  { unfold is_u; lia. } { lia. } { lia. }
  exists q. split; [done|]. split.
  - rewrite <- Hrd. f_equal. by rewrite zlen_app, zlen_header, zlen_bytes32.
  - unfold GetReversed. rewrite Hh. cbn. unfold is_u in *. pow2.
    rewrite wrap_u_small by (unfold is_u; pow2; lia). lia.
Qed.

Lemma unset_reserved_word_is_uninitialised_witness :
  exists p q,
    ImPdu.SetPBMsg_cid (fun _ => 171) (fun _ => 0) (init 0) (Some (mkMsg 1 (Some [8]))) 1793 0
      = Ret p /\
    let wire := CSimpleBuffer.contents (m_buf p) in
    ReadPdu (fun _ => 0) 0 wire (zlen wire) = Ret (Some q) /\
    GetReversed q = 256 * 171 + 171.
Proof.
  apply (unset_reserved_word_is_uninitialised (fun _ => 171) (fun _ => 0) (fun _ => 0) 0 0
    (mkMsg 1 (Some [8])) [8] 1793 0); try reflexivity; vm_compute; split; congruence.
Defined.

(** What a receiver does with a declared length, on every branch: fewer
    than 16 bytes or a length beyond the bytes present means wait, zero throws,
    and every other length is accepted, including the lengths 1 to 15 that are
    shorter than the header, for which the packet is delivered with a body
    length that has wrapped to almost 2^32. *)
Theorem pdu_declared_length_cases junk g L ver fl cid seq res rest n :
  let wire := header L ver fl cid seq (bytes32 res) ++ rest in
  n <= zlen wire -> is_u 32 n -> is_u 32 L -> 5 * L < 4 * 2 ^ 32 ->
  (n < 16 \/ n < L -> ReadPdu junk g wire n = Ret None) /\
  (16 <= n -> L = 0 ->
     ReadPdu junk g wire n = Throw (CPduException 0 0 1 "pdu_len is 0")) /\
  (16 <= L <= n -> exists q, ReadPdu junk g wire n = Ret (Some q) /\
     GetLength q = L /\ GetBodyLength q = L - 16) /\
  (16 <= n -> 1 <= L < 16 -> exists q, ReadPdu junk g wire n = Ret (Some q) /\
     GetLength q = L /\ GetBodyLength q = 2 ^ 32 - (16 - L)).
Proof.
  intros wire Hn Hu HL Hb. split; [|split; [|split]].
  - intros Hcase. unfold ReadPdu.
    destruct (Z.ltb_spec n 16) as [Hlt|Hge].
    + unfold IsPduAvailable, IM_PDU_HEADER_LEN. by destruct (Z.ltb_spec n 16); [|lia].
    + unfold wire. rewrite header_app, is_pdu_available_spec by done.
      by destruct (Z.ltb_spec n L); [|lia].
  - intros Hn16 ->. unfold ReadPdu, wire. rewrite header_app, is_pdu_available_spec by done.
    destruct (Z.ltb_spec n 0); [unfold is_u in *; lia|]. done.
  - intros HLn. destruct (read_pdu_spec junk g L ver fl cid seq res rest n)
      as (q&Hq&_&W&C); [fold wire; lia|done|lia|done|].
    exists q. split; [done|].
    destruct (length_spec q L wire W C) as [HLq HBq]; [unfold is_u in *; lia..|].
    split; [done|]. rewrite HBq. apply wrap_u_small. unfold is_u in *. lia.
  - intros Hn16 HLn. destruct (read_pdu_spec junk g L ver fl cid seq res rest n)
      as (q&Hq&_&W&C); [fold wire; lia|done|lia|done|].
    exists q. split; [done|].
    destruct (length_spec q L wire W C) as [HLq HBq]; [unfold is_u in *; lia..|].
    split; [done|]. rewrite HBq. unfold wrap_u. symmetry.
    apply Z.mod_unique_pos with (-1); lia.
Qed.

Lemma pdu_declared_length_cases_witness :
  exists q, ReadPdu (fun _ => 0) 0 (header 4 1 0 257 0 (bytes32 0) ++ []) 16 = Ret (Some q) /\
    GetLength q = 4 /\ GetBodyLength q = 2 ^ 32 - (16 - 4).
Proof.
  apply (pdu_declared_length_cases (fun _ => 0) 0 4 1 0 257 0 0 [] 16);
    try (vm_compute; split; congruence); vm_compute; congruence.
Defined.

End PduFacts.
