(* ===== verification/NetLib.v ===== *)
(** * The network library: sockets, their registry and their lifetime

    Models src/src/ptp_global/NetLib.cpp and BaseSocket.{h,cpp} (the POSIX
    branches), with [CRefObject] of Utils.cpp.  Socket objects live in a heap,
    are shared between the registry [g_socket_map] and the calls in progress,
    and are deleted when their reference count reaches zero; a use of a
    deleted object is undefined behaviour.  The system calls are a parameter
    with the documented behaviour of [send] and [recv] on a non-blocking
    stream socket.

    [NetLib] is the interface the connection layer is proved against: a byte
    stream out and a byte stream in per handle. *)

From S2P Require Import Prelude.

(** ** The interface *)

Class NetLib (S : Type) := {
  netlib_send : S -> Z -> list Z -> outcome (S * Z);
  netlib_recv : S -> Z -> Z -> outcome (S * Z * list Z);
  net_ok : S -> Prop;
  wire_out : S -> Z -> list Z;
  wire_in : S -> Z -> list Z;
  netlib_send_law s h data :
    net_ok s -> exists s' r, netlib_send s h data = Ret (s', r) /\ net_ok s' /\
      r <= zlen data /\
      wire_out s' h = wire_out s h ++ ztake r data /\ wire_in s' h = wire_in s h;
  netlib_recv_law s h len :
    net_ok s -> 0 <= len -> exists s' r got, netlib_recv s h len = Ret (s', r, got) /\ net_ok s' /\
      r <= len /\ zlen got = Z.max 0 r /\ bytes_ok got /\
      wire_in s h = got ++ wire_in s' h /\ wire_out s' h = wire_out s h;
}.

(** The system calls on a file descriptor.  A result of -1 comes with an
    [errno]; a positive result of [send] is the number of leading bytes that
    were queued, a positive result of [recv] the number of bytes stored.  [socket]
    and [accept] give a descriptor that is not open, or none. *)
Class OS (O : Type) := {
  sys_socket : O -> O * option Z;
  sys_accept : O -> Z -> O * option Z;
  sys_send : O -> Z -> list Z -> O * Z * Z;
  sys_recv : O -> Z -> Z -> O * Z * list Z;
  sys_close : O -> Z -> O;
  fd_open : O -> gset Z;
  fd_out : O -> Z -> list Z;
  fd_in : O -> Z -> list Z;
  sys_send_law o fd data o' r e :
    sys_send o fd data = (o', r, e) ->
    -1 <= r <= zlen data /\
    fd_out o' fd = fd_out o fd ++ ztake r data /\ fd_in o' fd = fd_in o fd /\ fd_open o' = fd_open o;
  sys_recv_law o fd len o' r got :
    0 <= len -> sys_recv o fd len = (o', r, got) ->
    -1 <= r <= len /\ zlen got = Z.max 0 r /\ bytes_ok got /\
    fd_in o fd = got ++ fd_in o' fd /\ fd_out o' fd = fd_out o fd /\ fd_open o' = fd_open o;
  sys_socket_law o o' r :
    sys_socket o = (o', r) ->
    match r with Some fd => 0 <= fd /\ (fd ∉ fd_open o) /\ fd_open o' = {[fd]} ∪ fd_open o | None => fd_open o' = fd_open o end;
  sys_accept_law o lfd o' r :
    sys_accept o lfd = (o', r) ->
    match r with Some fd => 0 <= fd /\ (fd ∉ fd_open o) /\ fd_open o' = {[fd]} ∪ fd_open o | None => fd_open o' = fd_open o end;
  sys_close_law o fd : fd_open (sys_close o fd) = fd_open o ∖ {[fd]};
}.

Module CBaseSocket.

Definition NETLIB_OK : Z := 0.
Definition NETLIB_ERROR : Z := -1.
Definition SOCKET_ERROR : Z := -1.
Definition INVALID_SOCKET : Z := -1.
Definition NETLIB_INVALID_HANDLE : Z := -1.
Definition NETLIB_OPT_GET_REMOTE_IP : Z := 3.
Definition EINPROGRESS : Z := 115.
Definition EWOULDBLOCK : Z := 11.

Inductive state :=
| SOCKET_STATE_IDLE
| SOCKET_STATE_LISTENING
| SOCKET_STATE_CONNECTING
| SOCKET_STATE_CONNECTED
| SOCKET_STATE_CLOSING.

#[export] Instance state_eq_dec : EqDecision state.
Proof. solve_decision. Defined.

Record sock := mkSock {
  m_socket : Z;
  m_state : state;
  m_refCount : Z;
}.

(** What the dispatcher tells the owner of a socket. *)
Inductive netlib_msg :=
| NETLIB_MSG_CONNECT | NETLIB_MSG_CONFIRM | NETLIB_MSG_READ | NETLIB_MSG_WRITE
| NETLIB_MSG_CLOSE | NETLIB_MSG_TIMER | NETLIB_MSG_LOOP.

(** The process-wide registry and heap. *)
Record world (O : Type) := mkWorld {
  g_socket_map : gmap Z nat;
  heap : gmap nat sock;
  next : nat;
  os : O;
}.

Arguments mkWorld {O}.
Arguments g_socket_map {O}.
Arguments heap {O}.
Arguments next {O}.
Arguments os {O}.

Section Ops.
Context {O : Type} `{OS O}.

Definition set_heap (w : world O) (h : gmap nat sock) : world O := mkWorld (g_socket_map w) h (next w) (os w).
Definition set_map (w : world O) (m : gmap Z nat) : world O := mkWorld m (heap w) (next w) (os w).
Definition set_os (w : world O) (o : O) : world O := mkWorld (g_socket_map w) (heap w) (next w) o.

(** Access through a pointer. *)
Definition deref (w : world O) (p : nat) : outcome sock :=
  match heap w !! p with Some s => Ret s | None => UB end.

Definition AddRef (w : world O) (p : nat) : outcome (world O) :=
  s ← deref w p;
  Ret (set_heap w (<[p := mkSock (m_socket s) (m_state s) (m_refCount s + 1)]> (heap w))).

Definition ReleaseRef (w : world O) (p : nat) : outcome (world O) :=
  s ← deref w p;
  if m_refCount s - 1 =? 0 then Ret (set_heap w (delete p (heap w)))
  else Ret (set_heap w (<[p := mkSock (m_socket s) (m_state s) (m_refCount s - 1)]> (heap w))).

(** [insert] keeps an entry that is already there. *)
Definition AddBaseSocket (w : world O) (p : nat) : outcome (world O) :=
  s ← deref w p;
  Ret (match g_socket_map w !! m_socket s with
       | Some _ => w
       | None => set_map w (<[m_socket s := p]> (g_socket_map w))
       end).

Definition RemoveBaseSocket (w : world O) (p : nat) : outcome (world O) :=
  s ← deref w p; Ret (set_map w (delete (m_socket s) (g_socket_map w))).

Definition FindBaseSocket (w : world O) (fd : Z) : outcome (world O * option nat) :=
  match g_socket_map w !! fd with
  | None => Ret (w, None)
  | Some p => w ← AddRef w p; Ret (w, Some p)
  end.

Definition _IsBlock (error_code : Z) : bool :=
  (error_code =? EINPROGRESS) || (error_code =? EWOULDBLOCK).

Definition Send (w : world O) (p : nat) (buf : list Z) : outcome (world O * Z) :=
  s ← deref w p;
  if decide (m_state s = SOCKET_STATE_CONNECTED) then
    let '(o, ret, errno) := sys_send (os w) (m_socket s) buf in
    let ret := if (ret =? SOCKET_ERROR) && _IsBlock errno then 0 else ret in
    Ret (set_os w o, ret)
  else Ret (w, NETLIB_ERROR).

Definition Recv (w : world O) (p : nat) (len : Z) : outcome (world O * Z * list Z) :=
  s ← deref w p;
  let '(o, ret, got) := sys_recv (os w) (m_socket s) len in
  Ret (set_os w o, ret, got).

(** The event registration of the dispatcher has no state here. *)
Definition Close (w : world O) (p : nat) : outcome (world O * Z) :=
  w ← RemoveBaseSocket w p;
  s ← deref w p;
  w ← ReleaseRef (set_os w (sys_close (os w) (m_socket s))) p;
  Ret (w, 0).

Definition base_send (w : world O) (handle : Z) (buf : list Z) : outcome (world O * Z) :=
  '(w, pSocket) ← FindBaseSocket w handle;
  match pSocket with
  | None => Ret (w, NETLIB_ERROR)
  | Some p => '(w, ret) ← Send w p buf; w ← ReleaseRef w p; Ret (w, ret)
  end.

Definition base_recv (w : world O) (handle len : Z) : outcome (world O * Z * list Z) :=
  '(w, pSocket) ← FindBaseSocket w handle;
  match pSocket with
  | None => Ret (w, NETLIB_ERROR, [])
  | Some p => '(w, ret, got) ← Recv w p len; w ← ReleaseRef w p; Ret (w, ret, got)
  end.

Definition netlib_close (w : world O) (handle : Z) : outcome (world O * Z) :=
  '(w, pSocket) ← FindBaseSocket w handle;
  match pSocket with
  | None => Ret (w, NETLIB_ERROR)
  | Some p => '(w, ret) ← Close w p; w ← ReleaseRef w p; Ret (w, ret)
  end.

(** [netlib_option]: an option that returns something needs a place for it; without
    one the function returns before it releases its reference. *)
Definition netlib_option (w : world O) (handle opt : Z) (null : bool) : outcome (world O * Z) :=
  '(w, pSocket) ← FindBaseSocket w handle;
  match pSocket with
  | None => Ret (w, NETLIB_ERROR)
  | Some p =>
      if (NETLIB_OPT_GET_REMOTE_IP <=? opt) && null then Ret (w, NETLIB_ERROR)
      else w ← ReleaseRef w p; Ret (w, NETLIB_OK)
  end.

(** *** Creating sockets *)

(** [new CBaseSocket()] and [delete]. *)
Definition new_object (w : world O) : world O * nat :=
  (mkWorld (g_socket_map w) (<[next w := mkSock INVALID_SOCKET SOCKET_STATE_IDLE 1]> (heap w)) (S (next w)) (os w), next w).

Definition delete_object (w : world O) (p : nat) : world O := set_heap w (delete p (heap w)).

Definition set_sock (w : world O) (p : nat) (fd : Z) (st : state) : outcome (world O) :=
  s ← deref w p; Ret (set_heap w (<[p := mkSock fd st (m_refCount s)]> (heap w))).

(** [bound] and [listening]: whether [bind] and [listen] succeed. *)
Definition Listen (w : world O) (p : nat) (bound listening : bool) : outcome (world O * Z) :=
  let '(o, fd) := sys_socket (os w) in
  let w := set_os w o in
  match fd with
  | None => Ret (w, NETLIB_ERROR)
  | Some fd =>
      w ← set_sock w p fd SOCKET_STATE_IDLE;
      if negb bound then Ret (set_os w (sys_close (os w) fd), NETLIB_ERROR)
      else if negb listening then Ret (set_os w (sys_close (os w) fd), NETLIB_ERROR)
      else
        w ← set_sock w p fd SOCKET_STATE_LISTENING;
        w ← AddBaseSocket w p;
        Ret (w, NETLIB_OK)
  end.

(** [started]: whether [connect] succeeds or goes on in the background. *)
Definition Connect (w : world O) (p : nat) (started : bool) : outcome (world O * Z) :=
  let '(o, fd) := sys_socket (os w) in
  let w := set_os w o in
  match fd with
  | None => Ret (w, NETLIB_INVALID_HANDLE)
  | Some fd =>
      w ← set_sock w p fd SOCKET_STATE_IDLE;
      if negb started then Ret (set_os w (sys_close (os w) fd), NETLIB_INVALID_HANDLE)
      else
        w ← set_sock w p fd SOCKET_STATE_CONNECTING;
        w ← AddBaseSocket w p;
        Ret (w, fd)
  end.

Definition netlib_listen (w : world O) (bound listening : bool) : outcome (world O * Z) :=
  let '(w, p) := new_object w in
  '(w, ret) ← Listen w p bound listening;
  Ret (if ret =? NETLIB_ERROR then delete_object w p else w, ret).

Definition netlib_connect (w : world O) (started : bool) : outcome (world O * Z) :=
  let '(w, p) := new_object w in
  '(w, handle) ← Connect w p started;
  Ret (if handle =? NETLIB_INVALID_HANDLE then delete_object w p else w, handle).

(** *** Events *)

(** What the owner of a socket does with the library, on its own or in a callback. *)
Inductive act :=
| ActListen (bound listening : bool)
| ActConnect (started : bool)
| ActSend (handle : Z) (data : list Z)
| ActRecv (handle len : Z)
| ActClose (handle : Z)
| ActOption (handle opt : Z) (null : bool).

Definition run_act (w : world O) (a : act) : outcome (world O) :=
  match a with
  | ActListen bound listening => '(w, _) ← netlib_listen w bound listening; Ret w
  | ActConnect started => '(w, _) ← netlib_connect w started; Ret w
  | ActSend h data => '(w, _) ← base_send w h data; Ret w
  | ActRecv h len => '(w, _, _) ← base_recv w h len; Ret w
  | ActClose h => '(w, _) ← netlib_close w h; Ret w
  | ActOption h opt null => '(w, _) ← netlib_option w h opt null; Ret w
  end.

Fixpoint run_acts (w : world O) (acts : list act) : outcome (world O) :=
  match acts with
  | [] => Ret w
  | a :: acts => w ← run_act w a; run_acts w acts
  end.

(** [m_callback]: what the owner does when it is told. *)
Abbreviation callback := (netlib_msg -> list act).

(** [OnWrite] of a connecting socket: [error] is what [SO_ERROR] reports. *)
Definition OnWrite (w : world O) (p : nat) (error : Z) (m_callback : callback) : outcome (world O) :=
  s ← deref w p;
  if decide (m_state s = SOCKET_STATE_CONNECTING) then
    if negb (error =? 0) then run_acts w (m_callback NETLIB_MSG_CLOSE)
    else
      w ← set_sock w p (m_socket s) SOCKET_STATE_CONNECTED;
      run_acts w (m_callback NETLIB_MSG_CONFIRM)
  else run_acts w (m_callback NETLIB_MSG_WRITE).

(** The loop over [accept]: each descriptor becomes a connected socket and a
    [NETLIB_MSG_CONNECT] for the listener's owner, whose callbacks are listed; the loop
    ends when [accept] fails, at the latest after as many connections as there are
    callbacks. *)
Fixpoint _AcceptNewSocket (w : world O) (p : nat) (callbacks : list callback) : outcome (world O) :=
  match callbacks with
  | [] => Ret w
  | m_callback :: callbacks =>
      s ← deref w p;
      let '(o, fd) := sys_accept (os w) (m_socket s) in
      let w := set_os w o in
      match fd with
      | None => Ret w
      | Some fd =>
          let '(w, q) := new_object w in
          w ← set_sock w q fd SOCKET_STATE_CONNECTED;
          w ← AddBaseSocket w q;
          w ← run_acts w (m_callback NETLIB_MSG_CONNECT);
          _AcceptNewSocket w p callbacks
      end
  end.

(** [avail] is the result of [ioctl(FIONREAD)], [None] on error. *)
Definition OnRead (w : world O) (p : nat) (accepted : list callback) (avail : option Z) (m_callback : callback) : outcome (world O) :=
  s ← deref w p;
  if decide (m_state s = SOCKET_STATE_LISTENING) then _AcceptNewSocket w p accepted
  else
    match avail with
    | None => run_acts w (m_callback NETLIB_MSG_CLOSE)
    | Some n => run_acts w (m_callback (if n =? 0 then NETLIB_MSG_CLOSE else NETLIB_MSG_READ))
    end.

Definition OnClose (w : world O) (p : nat) (m_callback : callback) : outcome (world O) :=
  s ← deref w p;
  w ← set_sock w p (m_socket s) SOCKET_STATE_CLOSING;
  run_acts w (m_callback NETLIB_MSG_CLOSE).

(** An event of [epoll_wait]: the descriptor and, for each flag that is set, what the
    handler finds and what the callback does. *)
Record event := mkEvent {
  ev_fd : Z;
  ev_rdhup : option callback;
  ev_in : option (list callback * option Z * callback);
  ev_out : option (Z * callback);
  ev_err : option callback;
}.

(** The body of the dispatch loop for one event. *)
Definition dispatch (w : world O) (e : event) : outcome (world O) :=
  '(w, pSocket) ← FindBaseSocket w (ev_fd e);
  match pSocket with
  | None => Ret w
  | Some p =>
      w ← match ev_rdhup e with Some cb => OnClose w p cb | None => Ret w end;
      w ← match ev_in e with Some (accepted, avail, cb) => OnRead w p accepted avail cb | None => Ret w end;
      w ← match ev_out e with Some (error, cb) => OnWrite w p error cb | None => Ret w end;
      w ← match ev_err e with Some cb => OnClose w p cb | None => Ret w end;
      ReleaseRef w p
  end.

(** ** Lifetime invariant

    Every registered socket is alive under its own open descriptor and has the
    registry's reference, and one more when it is the socket that the dispatcher
    holds; nothing else is on the heap but that socket, which may have been closed
    meanwhile. *)
Definition refs (held : option nat) (p : nat) : Z := if decide (held = Some p) then 2 else 1.

Definition wf_held (held : option nat) (w : world O) : Prop :=
  (forall fd p, g_socket_map w !! fd = Some p ->
     fd ∈ fd_open (os w) /\ exists s, heap w !! p = Some s /\ m_socket s = fd /\ m_refCount s = refs held p) /\
  (forall p s, heap w !! p = Some s -> g_socket_map w !! m_socket s = Some p \/
     held = Some p /\ m_refCount s = 1 /\ g_socket_map w !! m_socket s <> Some p) /\
  (forall p, held = Some p -> is_Some (heap w !! p)) /\
  (forall p, (next w <= p)%nat -> heap w !! p = None).

(** Between events the dispatcher holds nothing. *)
Definition wf (w : world O) : Prop := wf_held None w.

Lemma refs_pos held p : 1 <= refs held p.
Proof. unfold refs. case_decide; lia. Qed.

Lemma find_spec held w fd p :
  wf_held held w -> g_socket_map w !! fd = Some p ->
  exists s, heap w !! p = Some s /\ m_socket s = fd /\ m_refCount s = refs held p /\
    FindBaseSocket w fd = Ret (set_heap w (<[p := mkSock (m_socket s) (m_state s) (m_refCount s + 1)]> (heap w)), Some p).
Proof.
  intros (Hm&_&_) Hp. destruct (Hm _ _ Hp) as (_&s&Hs&Hfd&Hr).
  exists s. split_and!; try done. unfold FindBaseSocket. rewrite Hp.
  unfold AddRef, deref. rewrite Hs. by mstep.
Qed.

(** Dropping the reference a call took restores the heap. *)
Lemma release_spec w (o : O) p s :
  heap w !! p = Some s -> 1 <= m_refCount s ->
  ReleaseRef (set_os (set_heap w (<[p := mkSock (m_socket s) (m_state s) (m_refCount s + 1)]> (heap w))) o) p =
  Ret (set_os w o).
Proof.
  intros Hs Hr. unfold ReleaseRef, deref. simpl. rewrite lookup_insert_eq. mstep. simpl.
  rewrite (proj2 (Z.eqb_neq _ 0)) by lia.
  unfold set_heap, set_os; simpl. do 2 f_equal.
  rewrite insert_insert_eq. apply insert_id. rewrite Hs.
  destruct s; simpl in *. do 2 f_equal. lia.
Qed.

Lemma release_same w p s :
  heap w !! p = Some s -> 1 <= m_refCount s ->
  ReleaseRef (set_heap w (<[p := mkSock (m_socket s) (m_state s) (m_refCount s + 1)]> (heap w))) p = Ret w.
Proof. intros Hs Hr. pose proof (release_spec w (os w) p s Hs Hr) as E. by destruct w. Qed.

Lemma wf_os held w o : wf_held held w -> fd_open o = fd_open (os w) -> wf_held held (set_os w o).
Proof. intros (Hm&Hh&Hd&Hn) Ho. split; [|done]. simpl. rewrite Ho. exact Hm. Qed.

Lemma base_send_spec held w h data :
  wf_held held w ->
  exists w' r, base_send w h data = Ret (w', r) /\
    g_socket_map w' = g_socket_map w /\ wf_held held w' /\ r <= zlen data /\
    fd_out (os w') h = fd_out (os w) h ++ ztake r data /\ fd_in (os w') h = fd_in (os w) h.
Proof.
  intros Hwf. pose proof (zlen_nonneg data). unfold base_send.
  destruct (g_socket_map w !! h) as [p|] eqn:Hp.
  - destruct (find_spec held w h p Hwf Hp) as (s&Hs&Hfd&Hr&->). mstep. pose proof (refs_pos held p).
    unfold Send, deref at 1. simpl heap. rewrite lookup_insert_eq. mstep. simpl m_state.
    case_decide as Hst.
    + simpl. destruct (sys_send (os w) (m_socket s) data) as [[o r] e] eqn:Hsend. mstep.
      apply sys_send_law in Hsend as (Hr1&Ho&Hi&Hopen). subst h.
      rewrite release_spec by (done || lia). mstep.
      eexists _, _. split; [done|]. split; [done|]. split; [by apply wf_os|]. simpl.
      destruct (_ && _) eqn:E.
      * apply andb_true_iff in E as [E _]. apply Z.eqb_eq in E. subst r.
        split_and!; [lia|exact Ho|exact Hi].
      * split_and!; [lia|exact Ho|exact Hi].
    + mstep. rewrite release_same by (done || lia). mstep.
      eexists _, _. split; [done|]. split; [done|]. split; [done|]. unfold NETLIB_ERROR.
      split_and!; [lia|by rewrite app_nil_r|done].
  - unfold FindBaseSocket. rewrite Hp. mstep. eexists _, _. split; [done|]. split; [done|]. split; [done|].
    unfold NETLIB_ERROR. split_and!; [lia|by rewrite app_nil_r|done].
Qed.

Lemma base_recv_spec held w h len :
  wf_held held w -> 0 <= len ->
  exists w' r got, base_recv w h len = Ret (w', r, got) /\
    g_socket_map w' = g_socket_map w /\ wf_held held w' /\ r <= len /\
    zlen got = Z.max 0 r /\ bytes_ok got /\
    fd_in (os w) h = got ++ fd_in (os w') h /\ fd_out (os w') h = fd_out (os w) h.
Proof.
  intros Hwf Hlen. unfold base_recv.
  destruct (g_socket_map w !! h) as [p|] eqn:Hp.
  - destruct (find_spec held w h p Hwf Hp) as (s&Hs&Hfd&Hr&->). mstep. pose proof (refs_pos held p).
    unfold Recv, deref at 1. simpl heap. rewrite lookup_insert_eq. mstep. simpl.
    destruct (sys_recv (os w) (m_socket s) len) as [[o r] got] eqn:Hrecv. mstep.
    apply sys_recv_law in Hrecv as (Hr1&Hl&Hb&Hi&Ho&Hopen); [|done]. subst h.
    rewrite release_spec by (done || lia). mstep.
    eexists _, _, _. split; [done|]. split; [done|]. split; [by apply wf_os|]. simpl. split_and!; auto; lia.
  - unfold FindBaseSocket. rewrite Hp. mstep.
    eexists _, _, _. split; [done|]. split; [done|]. split; [done|].
    unfold NETLIB_ERROR. split_and!; try done; lia.
Qed.

(** The library implements the stream interface on top of the system calls. *)
#[export] Program Instance base_netlib : NetLib (world O) := {
  netlib_send := base_send;
  netlib_recv := base_recv;
  net_ok := wf;
  wire_out w h := fd_out (os w) h;
  wire_in w h := fd_in (os w) h;
}.
Next Obligation.
  intros w h data Hwf. destruct (base_send_spec None w h data Hwf) as (w'&r&?&_&?). by exists w', r.
Qed.
Next Obligation.
  intros w h len Hwf Hl.
  destruct (base_recv_spec None w h len Hwf Hl) as (w'&r&got&?&_&?). by exists w', r, got.
Qed.

(** Closing takes the object out of the registry and drops one reference; the
    object is deleted unless the dispatcher still holds it. *)
Lemma netlib_close_spec w h p s :
  g_socket_map w !! h = Some p -> heap w !! p = Some s -> m_socket s = h -> 1 <= m_refCount s ->
  netlib_close w h =
    Ret (mkWorld (delete h (g_socket_map w))
           (if m_refCount s =? 1 then delete p (heap w)
            else <[p := mkSock h (m_state s) (m_refCount s - 1)]> (heap w))
           (next w) (sys_close (os w) h), 0).
Proof.
  intros Hp Hs Hh Hr. unfold netlib_close, FindBaseSocket. rewrite Hp.
  unfold AddRef, deref at 1. rewrite Hs. mstep.
  unfold Close, RemoveBaseSocket, ReleaseRef, deref. simpl.
  rewrite !lookup_insert_eq. mstep. simpl. rewrite lookup_insert_eq. mstep. simpl.
  replace (m_refCount s + 1 - 1) with (m_refCount s) by lia.
  destruct (Z.eqb_spec (m_refCount s) 0); [lia|]. mstep. simpl.
  rewrite lookup_insert_eq. mstep. simpl. rewrite Hh.
  unfold set_map, set_heap, set_os; simpl.
  destruct (Z.eqb_spec (m_refCount s) 1).
  - replace (m_refCount s - 1 =? 0) with true by (symmetry; apply Z.eqb_eq; lia). mstep.
    by rewrite !insert_insert_eq, delete_insert_eq.
  - replace (m_refCount s - 1 =? 0) with false by (symmetry; apply Z.eqb_neq; lia). mstep.
    by rewrite !insert_insert_eq.
Qed.

(** Two descriptors do not lead to one socket. *)
Lemma map_inj held w fd1 fd2 p : wf_held held w -> g_socket_map w !! fd1 = Some p -> g_socket_map w !! fd2 = Some p -> fd1 = fd2.
Proof. intros (Hm&_) H1 H2. destruct (Hm _ _ H1) as (_&s1&?&?&_), (Hm _ _ H2) as (_&s2&?&?&_). congruence. Qed.

Lemma wf_close held w h :
  wf_held held w -> exists w' r, netlib_close w h = Ret (w', r) /\ wf_held held w'.
Proof.
  intros Hwf. destruct (g_socket_map w !! h) as [p|] eqn:Hp; cycle 1.
  { unfold netlib_close, FindBaseSocket. rewrite Hp. mstep. by eexists _, _. }
  pose proof (map_inj held w) as Hinj. pose proof Hwf as (Hm&Hh&Hd&Hn). destruct (Hm _ _ Hp) as (Hopen&s&Hs&Hfd&Hr). pose proof (refs_pos held p).
  rewrite (netlib_close_spec w h p s) by (done || lia). eexists _, _. split; [done|].
  assert (m_refCount s = 1 /\ held <> Some p \/ m_refCount s = 2 /\ held = Some p) as Hcase by (rewrite Hr; unfold refs; case_decide; auto).
  split_and!; simpl.
  - intros fd q Hq. apply lookup_delete_Some in Hq as [Hne Hq]. destruct (Hm _ _ Hq) as (Ho'&s'&Hs'&Hfd'&Hr'). rewrite sys_close_law.
    split; [set_solver|]. assert (q <> p) as Hqp by (intros ->; apply Hne; by eapply Hinj). exists s'.
    destruct (_ =? 1); [rewrite lookup_delete_ne|rewrite lookup_insert_ne]; done.
  - intros q s' Hq. destruct (decide (q = p)) as [->|Hqp].
    + destruct Hcase as [[E _]|[E ->]]; rewrite E in Hq; simpl in Hq; [by rewrite lookup_delete_eq in Hq|]. rewrite lookup_insert_eq in Hq. injection Hq as <-.
      right. cbn. rewrite lookup_delete_eq. done.
    + assert (heap w !! q = Some s') as Hq' by (destruct (_ =? 1); [rewrite lookup_delete_ne in Hq|rewrite lookup_insert_ne in Hq]; done).
      destruct (Hh q s' Hq') as [Hreg|(?&?&Hunreg)]; [left|right].
      * rewrite lookup_delete_ne; [done|]. intros Heq. rewrite <- Heq in Hreg. congruence.
      * split_and!; [done..|]. intros Hl. apply lookup_delete_Some in Hl as [_ Hl]. done.
  - intros q Hq. destruct Hcase as [[E Hne]|[E Heq]]; rewrite E; cbn.
    + rewrite lookup_delete_ne by congruence. by apply Hd.
    + replace q with p by congruence. rewrite lookup_insert_eq. eauto.
  - intros q Hq. assert (q <> p) by (intros ->; rewrite Hn in Hs; done).
    destruct (_ =? 1); [rewrite lookup_delete_ne by done|rewrite lookup_insert_ne by done]; by apply Hn.
Qed.

(** A fresh object for an open descriptor that is not registered. *)
Lemma wf_register held w o fd st :
  wf_held held w -> fd ∉ fd_open (os w) -> fd_open o = {[fd]} ∪ fd_open (os w) ->
  g_socket_map w !! fd = None /\
  wf_held held (mkWorld (<[fd := next w]> (g_socket_map w)) (<[next w := mkSock fd st 1]> (heap w)) (S (next w)) o).
Proof.
  intros (Hm&Hh&Hd&Hn) Hfd Ho. assert (g_socket_map w !! fd = None) as Hnone.
  { destruct (g_socket_map w !! fd) eqn:E; [|done]. by destruct (Hm _ _ E). }
  split; [done|]. assert (forall q s, heap w !! q = Some s -> q <> next w) as Hlt by (intros q s Hq ->; rewrite Hn in Hq; done).
  split_and!; simpl.
  - intros fd' q. rewrite lookup_insert, Ho. case_decide as Hc; subst.
    + intros [= <-]. split; [set_solver|]. eexists. rewrite lookup_insert_eq. split_and!; [done..|].
      unfold refs. rewrite decide_False; [done|]. intros E. destruct (Hd _ E) as [s Hs]. by apply (Hlt _ _ Hs).
    + intros Hq. destruct (Hm _ _ Hq) as (?&s&Hs&?&?). split; [set_solver|]. exists s.
      rewrite lookup_insert_ne; [done|]. intros Heq. symmetry in Heq. by apply (Hlt _ _ Hs).
  - intros q s. rewrite lookup_insert. case_decide; subst.
    + intros [= <-]. left. simpl. apply lookup_insert_eq.
    + intros Hq. destruct (Hh q s Hq) as [Hreg|(?&?&Hun)]; [left|right].
      * rewrite lookup_insert_ne; [done|]. intros ->. congruence.
      * split_and!; [done..|]. rewrite lookup_insert. case_decide; [congruence|done].
  - intros q Hq. destruct (Hd q Hq) as [s Hs]. rewrite lookup_insert_ne; [eauto|]. intros Heq. symmetry in Heq. by apply (Hlt _ _ Hs).
  - intros q Hq. rewrite lookup_insert_ne by lia. apply Hn. lia.
Qed.

(** Changes of the state of a socket. *)
Lemma wf_set_state held w p s st :
  wf_held held w -> heap w !! p = Some s -> exists w', set_sock w p (m_socket s) st = Ret w' /\ wf_held held w'.
Proof.
  intros (Hm&Hh&Hd&Hn) Hs. unfold set_sock, deref. rewrite Hs. mstep. eexists. split; [done|]. split_and!; simpl.
  - intros fd q Hq. destruct (Hm _ _ Hq) as (?&s'&Hs'&?&?). split; [done|].
    rewrite lookup_insert. case_decide; subst; [|eauto].
    simplify_map_eq. eexists; split_and!; eauto.
  - intros q s'. rewrite lookup_insert. case_decide; subst; [|auto].
    intros [= <-]. simpl. by apply Hh.
  - intros q Hq. rewrite lookup_insert. case_decide; [eauto|by apply Hd].
  - intros q Hq. rewrite lookup_insert_ne; [by apply Hn|].
    intros <-. rewrite Hn in Hs; [done|lia].
Qed.

(** A new object that was not registered is deleted again. *)
Lemma new_deleted held w o st fd :
  wf_held held w -> fd_open o = fd_open (os w) ->
  wf_held held (delete_object (mkWorld (g_socket_map w) (<[next w := mkSock fd st 1]> (heap w)) (S (next w)) o) (next w)).
Proof.
  intros (Hm&Hh&Hd&Hn) Ho. unfold delete_object, set_heap. simpl. rewrite delete_insert_id by (by apply Hn).
  split_and!; simpl; [by rewrite Ho|done|done|]. intros p Hp. apply Hn. lia.
Qed.

Lemma closed_again (o : O) fd (X : gset Z) : fd ∉ X -> fd_open o = {[fd]} ∪ X -> fd_open (sys_close o fd) = X.
Proof. intros Hfd Ho. rewrite sys_close_law, Ho. set_solver. Qed.

Lemma listen_wf held w bound listening : wf_held held w -> exists w' r, netlib_listen w bound listening = Ret (w', r) /\ wf_held held w'.
Proof.
  intros Hwf. unfold netlib_listen, new_object, Listen. simpl. destruct (sys_socket (os w)) as [o fd] eqn:E. apply sys_socket_law in E.
  destruct fd as [fd|]; [|mstep; eexists _, _; split; [done|]; exact (new_deleted held w o _ _ Hwf E)]. destruct E as (H0 & Hfd & Ho).
  unfold set_sock, deref. simpl. rewrite lookup_insert_eq. mstep.
  destruct bound; [|mstep; eexists _, _; split; [done|]; unfold set_heap, set_os; simpl; rewrite insert_insert_eq; refine (new_deleted held w _ _ _ Hwf _); by apply closed_again].
  destruct listening; [|mstep; eexists _, _; split; [done|]; unfold set_heap, set_os; simpl; rewrite insert_insert_eq; refine (new_deleted held w _ _ _ Hwf _); by apply closed_again].
  simpl. rewrite !insert_insert_eq, lookup_insert_eq. mstep. destruct (wf_register held w o fd SOCKET_STATE_LISTENING Hwf Hfd Ho) as [Hnone Hw].
  unfold AddBaseSocket, deref. simpl. rewrite insert_insert_eq, lookup_insert_eq. mstep. simpl. rewrite Hnone. mstep. by eexists _, _.
Qed.

Lemma connect_wf held w started : wf_held held w -> exists w' r, netlib_connect w started = Ret (w', r) /\ wf_held held w'.
Proof.
  intros Hwf. unfold netlib_connect, new_object, Connect. simpl. destruct (sys_socket (os w)) as [o fd] eqn:E. apply sys_socket_law in E.
  destruct fd as [fd|]; [|mstep; eexists _, _; split; [done|]; exact (new_deleted held w o _ _ Hwf E)]. destruct E as (H0 & Hfd & Ho).
  unfold set_sock, deref. simpl. rewrite lookup_insert_eq. mstep.
  destruct started; [|mstep; eexists _, _; split; [done|]; unfold set_heap, set_os; simpl; rewrite insert_insert_eq; refine (new_deleted held w _ _ _ Hwf _); by apply closed_again].
  simpl. rewrite !insert_insert_eq, lookup_insert_eq. mstep. destruct (wf_register held w o fd SOCKET_STATE_CONNECTING Hwf Hfd Ho) as [Hnone Hw].
  unfold AddBaseSocket, deref. simpl. rewrite insert_insert_eq, lookup_insert_eq. mstep. simpl. rewrite Hnone. mstep.
  rewrite (proj2 (Z.eqb_neq fd NETLIB_INVALID_HANDLE)) by (unfold NETLIB_INVALID_HANDLE; lia). by eexists _, _.
Qed.
(** *** Sequences of calls *)

(** The caller gives a length that is not negative and a place for what an option
    returns. *)
Definition act_ok (a : act) : Prop :=
  match a with
  | ActRecv _ len => 0 <= len
  | ActOption _ opt null => opt < NETLIB_OPT_GET_REMOTE_IP \/ null = false
  | _ => True
  end.

Lemma option_wf held w h opt null : wf_held held w -> opt < NETLIB_OPT_GET_REMOTE_IP \/ null = false -> exists r, netlib_option w h opt null = Ret (w, r).
Proof.
  intros Hwf Ho. unfold netlib_option. destruct (g_socket_map w !! h) as [p|] eqn:Hp; [|unfold FindBaseSocket; rewrite Hp; mstep; by eexists].
  destruct (find_spec held w h p Hwf Hp) as (s&Hs&Hfd&Hr&->). mstep. pose proof (refs_pos held p).
  assert ((NETLIB_OPT_GET_REMOTE_IP <=? opt) && null = false) as -> by (destruct Ho as [Ho| ->]; [by rewrite (proj2 (Z.leb_gt _ _))|apply andb_false_r]).
  rewrite release_same by (done || lia). mstep. by eexists.
Qed.

Lemma act_wf held w a : wf_held held w -> act_ok a -> exists w', run_act w a = Ret w' /\ wf_held held w'.
Proof.
  intros Hwf Ha. destruct a as [b l|st|h data|h len|h|h opt null]; cbn [run_act act_ok] in *.
  - destruct (listen_wf held w b l Hwf) as (w' & r & -> & ?). mstep. eauto.
  - destruct (connect_wf held w st Hwf) as (w' & r & -> & ?). mstep. eauto.
  - destruct (base_send_spec held w h data Hwf) as (w' & r & -> & _ & ? & _). mstep. eauto.
  - destruct (base_recv_spec held w h len Hwf Ha) as (w' & r & got & -> & _ & ? & _). mstep. eauto.
  - destruct (wf_close held w h Hwf) as (w' & r & -> & ?). mstep. eauto.
  - destruct (option_wf held w h opt null Hwf Ha) as (r & ->). mstep. eauto.
Qed.

Lemma acts_wf held acts : forall w, wf_held held w -> Forall act_ok acts -> exists w', run_acts w acts = Ret w' /\ wf_held held w'.
Proof.
  induction acts as [|a acts IH]; intros w Hwf Ha; [by exists w|]. apply Forall_cons_1 in Ha as [Ha Has]. cbn [run_acts].
  destruct (act_wf held w a Hwf Ha) as (w1 & -> & Hw1). mstep. by apply IH.
Qed.

Definition callback_ok (cb : callback) : Prop := forall msg, Forall act_ok (cb msg).

(** *** The handlers of the socket that the dispatcher holds *)

Lemma held_alive p w : wf_held (Some p) w -> exists s, deref w p = Ret s /\ heap w !! p = Some s.
Proof. intros (_&_&Hd&_). destruct (Hd p eq_refl) as [s Hs]. exists s. unfold deref. by rewrite Hs. Qed.

Lemma OnClose_wf p w cb : wf_held (Some p) w -> callback_ok cb -> exists w', OnClose w p cb = Ret w' /\ wf_held (Some p) w'.
Proof.
  intros Hwf Hcb. destruct (held_alive p w Hwf) as (s & Hd & Hs). unfold OnClose. rewrite Hd. mstep.
  destruct (wf_set_state _ w p s SOCKET_STATE_CLOSING Hwf Hs) as (w1 & -> & Hw1). mstep. by apply acts_wf.
Qed.

Lemma OnWrite_wf p w error cb : wf_held (Some p) w -> callback_ok cb -> exists w', OnWrite w p error cb = Ret w' /\ wf_held (Some p) w'.
Proof.
  intros Hwf Hcb. destruct (held_alive p w Hwf) as (s & Hd & Hs). unfold OnWrite. rewrite Hd. mstep.
  case_decide; [|by apply acts_wf]. destruct (negb _); [by apply acts_wf|].
  destruct (wf_set_state _ w p s SOCKET_STATE_CONNECTED Hwf Hs) as (w1 & -> & Hw1). mstep. by apply acts_wf.
Qed.

Lemma accept_wf p cbs : forall w, wf_held (Some p) w -> Forall callback_ok cbs -> exists w', _AcceptNewSocket w p cbs = Ret w' /\ wf_held (Some p) w'.
Proof.
  induction cbs as [|cb cbs IH]; intros w Hwf Hcb; [by exists w|]. apply Forall_cons_1 in Hcb as [Hcb Hcbs]. cbn [_AcceptNewSocket].
  destruct (held_alive p w Hwf) as (s & -> & Hs). mstep. destruct (sys_accept (os w) (m_socket s)) as [o fd] eqn:E. apply sys_accept_law in E.
  destruct fd as [fd|]; [|eexists; split; [done|]; by apply wf_os]. destruct E as (_ & Hfd & Ho).
  unfold new_object, set_sock, deref. simpl. rewrite lookup_insert_eq. mstep. destruct (wf_register _ w o fd SOCKET_STATE_CONNECTED Hwf Hfd Ho) as [Hnone Hw].
  unfold AddBaseSocket, deref. simpl. rewrite insert_insert_eq, lookup_insert_eq. mstep. simpl. rewrite Hnone. unfold set_heap, set_map, set_os. simpl.
  destruct (acts_wf _ (cb NETLIB_MSG_CONNECT) _ Hw (Hcb _)) as (w1 & -> & Hw1). mstep. by apply IH.
Qed.

Lemma OnRead_wf p w accepted avail cb :
  wf_held (Some p) w -> Forall callback_ok accepted -> callback_ok cb -> exists w', OnRead w p accepted avail cb = Ret w' /\ wf_held (Some p) w'.
Proof.
  intros Hwf Ha Hcb. destruct (held_alive p w Hwf) as (s & Hd & Hs). unfold OnRead. rewrite Hd. mstep.
  case_decide; [by apply accept_wf|]. destruct avail; by apply acts_wf.
Qed.

Definition event_ok (e : event) : Prop :=
  (forall cb, ev_rdhup e = Some cb -> callback_ok cb) /\
  (forall accepted avail cb, ev_in e = Some (accepted, avail, cb) -> Forall callback_ok accepted /\ callback_ok cb) /\
  (forall error cb, ev_out e = Some (error, cb) -> callback_ok cb) /\
  (forall cb, ev_err e = Some cb -> callback_ok cb).

(** The dispatcher takes its reference, and drops it. *)
Lemma hold_wf w fd p : wf w -> g_socket_map w !! fd = Some p -> exists w', FindBaseSocket w fd = Ret (w', Some p) /\ wf_held (Some p) w'.
Proof.
  intros Hwf Hp. destruct (find_spec None w fd p Hwf Hp) as (s & Hs & Hfd & Hr & ->). eexists. split; [done|].
  pose proof Hwf as (Hm & Hh & _ & Hn). unfold refs in Hr. rewrite decide_False in Hr by done. split_and!; simpl.
  - intros fd' q Hq. destruct (Hm _ _ Hq) as (Ho & s' & Hs' & Hfd' & Hr'). split; [done|]. unfold refs in *. rewrite decide_False in Hr' by done.
    rewrite lookup_insert. case_decide; subst.
    + simplify_map_eq. eexists. split_and!; [done|done|]. simpl. try (case_decide; [|done]). lia.
    + exists s'. rewrite decide_False by congruence. done.
  - intros q s' Hq. left. rewrite lookup_insert in Hq. case_decide; subst.
    + injection Hq as <-. done.
    + by destruct (Hh q s' Hq) as [|[? _]].
  - intros q [= <-]. rewrite lookup_insert_eq. eauto.
  - intros q Hq. rewrite lookup_insert_ne; [by apply Hn|]. intros <-. rewrite Hn in Hs; done.
Qed.

Lemma unhold_wf w p : wf_held (Some p) w -> exists w', ReleaseRef w p = Ret w' /\ wf w'.
Proof.
  intros Hwf. destruct (held_alive p w Hwf) as (s & Hd & Hs). unfold ReleaseRef. rewrite Hd. mstep.
  pose proof Hwf as (Hm & Hh & _ & Hn). assert (forall q, q <> p -> refs (Some p) q = refs None q) as Hrefs by (intros q Hq; unfold refs; by rewrite !decide_False by congruence).
  destruct (Hh p s Hs) as [Hreg|(_ & Hr & Hun)].
  - destruct (Hm _ _ Hreg) as (_ & s' & Hs' & _ & Hr). simplify_eq. unfold refs in Hr. rewrite decide_True in Hr by done. rewrite Hr.
    eexists. split; [done|]. split_and!; simpl; [| |done|].
    + intros fd q Hq. destruct (Hm _ _ Hq) as (Ho & s2 & Hs2 & Hfd2 & Hr2). split; [done|]. rewrite lookup_insert. case_decide; subst.
      * simplify_map_eq. eexists. split_and!; [done|done|]. done.
      * exists s2. by rewrite <- Hrefs.
    + intros q s2 Hq. left. rewrite lookup_insert in Hq. case_decide; subst; [by injection Hq as <-|].
      destruct (Hh q s2 Hq) as [|(? & _)]; [done|congruence].
    + intros q Hq. rewrite lookup_insert_ne; [by apply Hn|]. intros <-. rewrite Hn in Hs; done.
  - rewrite Hr. eexists. split; [done|]. split_and!; simpl; [| |done|].
    + intros fd q Hq. destruct (Hm _ _ Hq) as (Ho & s2 & Hs2 & Hfd2 & Hr2). split; [done|]. exists s2.
      assert (q <> p) as Hne by (intros ->; simplify_eq; done). rewrite lookup_delete_ne by done. by rewrite <- Hrefs.
    + intros q s2 Hq. left. apply lookup_delete_Some in Hq as [Hne Hq]. destruct (Hh q s2 Hq) as [|(? & _)]; [done|congruence].
    + intros q Hq. apply lookup_delete_None. right. by apply Hn.
Qed.

Lemma dispatch_wf w e : wf w -> event_ok e -> exists w', dispatch w e = Ret w' /\ wf w'.
Proof.
  intros Hwf (H1 & H2 & H3 & H4). unfold dispatch. destruct (g_socket_map w !! ev_fd e) as [p|] eqn:Hp; cycle 1.
  { unfold FindBaseSocket. rewrite Hp. mstep. eauto. }
  destruct (hold_wf w _ p Hwf Hp) as (w0 & -> & Hw0). mstep.
  assert (exists w', match ev_rdhup e with Some cb => OnClose w0 p cb | None => Ret w0 end = Ret w' /\ wf_held (Some p) w') as (w1 & -> & Hw1)
    by (destruct (ev_rdhup e); [apply OnClose_wf; auto|eauto]). mstep.
  assert (exists w', match ev_in e with Some (accepted, avail, cb) => OnRead w1 p accepted avail cb | None => Ret w1 end = Ret w' /\ wf_held (Some p) w') as (w2 & -> & Hw2)
    by (destruct (ev_in e) as [[[ac av] cb]|]; [destruct (H2 _ _ _ eq_refl); by apply OnRead_wf|eauto]). mstep.
  assert (exists w', match ev_out e with Some (error, cb) => OnWrite w2 p error cb | None => Ret w2 end = Ret w' /\ wf_held (Some p) w') as (w3 & -> & Hw3)
    by (destruct (ev_out e) as [[er cb]|]; [eapply OnWrite_wf; eauto|eauto]). mstep.
  assert (exists w', match ev_err e with Some cb => OnClose w3 p cb | None => Ret w3 end = Ret w' /\ wf_held (Some p) w') as (w4 & -> & Hw4)
    by (destruct (ev_err e); [apply OnClose_wf; auto|eauto]). mstep. by apply unhold_wf.
Qed.

(** *** The process: calls of the application and dispatched events *)

Inductive call := App (a : act) | Event (e : event).

Definition call_ok (c : call) : Prop := match c with App a => act_ok a | Event e => event_ok e end.

Definition run_call (w : world O) (c : call) : outcome (world O) :=
  match c with App a => run_act w a | Event e => dispatch w e end.

Fixpoint run_calls (w : world O) (cs : list call) : outcome (world O) :=
  match cs with
  | [] => Ret w
  | c :: cs => w ← run_call w c; run_calls w cs
  end.

Lemma run_calls_wf cs : forall w, wf w -> Forall call_ok cs -> exists w', run_calls w cs = Ret w' /\ wf w'.
Proof.
  induction cs as [|c cs IH]; intros w Hwf Hc; [by exists w|]. apply Forall_cons_1 in Hc as [Hc Hcs]. cbn [run_calls].
  assert (exists w1, run_call w c = Ret w1 /\ wf w1) as (w1 & -> & Hw1) by (destruct c; [by apply act_wf|by apply dispatch_wf]).
  mstep. by apply IH.
Qed.


(** An option that needs a place and gets a null pointer leaks the reference: after the
    socket is closed its object is still alive and nothing leads to it. *)
Theorem null_option_leaks w h opt p : wf w -> g_socket_map w !! h = Some p -> NETLIB_OPT_GET_REMOTE_IP <= opt ->
  exists w' w'' s, netlib_option w h opt true = Ret (w', NETLIB_ERROR) /\ netlib_close w' h = Ret (w'', 0) /\
    heap w'' !! p = Some s /\ g_socket_map w'' !! h = None.
Proof.
  intros Hwf Hp Ho. destruct (find_spec None w h p Hwf Hp) as (s & Hs & Hfd & Hr & E). unfold netlib_option. rewrite E. mstep.
  rewrite (proj2 (Z.leb_le _ _)) by done. cbn [andb]. eexists _, _, _. split; [done|].
  unfold refs in Hr. rewrite decide_False in Hr by done.
  rewrite (netlib_close_spec _ h p (mkSock (m_socket s) (m_state s) (m_refCount s + 1))); [|done|apply lookup_insert_eq|done|simpl; lia].
  split; [done|]. simpl. rewrite Hr. simpl. rewrite lookup_insert_eq, lookup_delete_eq. done.
Qed.

End Ops.

(** A network that accepts what is sent and delivers a fixed input; descriptors are
    numbered. *)
Record demo_os := mkDemo { sent : list Z; input : list Z; opened : gset Z }.

Definition fresh_fd (X : gset Z) : Z := 1 + fold_right Z.max 0 (elements X).

Lemma fresh_fd_spec X : 0 <= fresh_fd X /\ (fresh_fd X ∉ X).
Proof.
  assert (forall l, 0 <= fold_right Z.max 0 l /\ Forall (fun x => x <= fold_right Z.max 0 l) l) as Hmax.
  { induction l as [|x l [H0 Hl]]; [split; [done|constructor]|]. change (fold_right Z.max 0 (x :: l)) with (Z.max x (fold_right Z.max 0 l)).
    set (m := fold_right Z.max 0 l) in *. clearbody m. split; [lia|]. constructor; [lia|].
    eapply Forall_impl, Hl. intros y Hy. cbv beta in Hy. lia. }
  destruct (Hmax (elements X)) as [H0 Hl]. unfold fresh_fd. split; [lia|]. rewrite <- elem_of_elements. intros Hin.
  rewrite list.Forall_forall in Hl. apply Hl in Hin. lia.
Qed.

Definition demo_socket (o : demo_os) : demo_os * option Z :=
  (mkDemo (sent o) (input o) ({[fresh_fd (opened o)]} ∪ opened o), Some (fresh_fd (opened o))).

#[export] Program Instance demo_OS : OS demo_os := {
  sys_socket := demo_socket;
  sys_accept o _ := demo_socket o;
  sys_send o fd data := (mkDemo (sent o ++ data) (input o) (opened o), zlen data, 0);
  sys_recv o fd len :=
    (mkDemo (sent o) (zdrop len (input o)) (opened o), zlen (ztake len (map u8 (input o))), ztake len (map u8 (input o)));
  sys_close o fd := mkDemo (sent o) (input o) (opened o ∖ {[fd]});
  fd_open o := opened o;
  fd_out o fd := sent o;
  fd_in o fd := map u8 (input o);
}.
Next Obligation.
  intros [a b c] fd data o' r e [= <- <- <-]. simpl. pose proof (zlen_nonneg data).
  split_and!; [lia|lia|by rewrite ztake_all|done..].
Qed.
Next Obligation.
  intros [a b c] fd len o' r got Hlen [= <- <- <-]. simpl. split_and!; try zlia.
  - apply Forall_take. clear. induction b; simpl; constructor; [by apply wrap_u_range|done].
  - rewrite <- (ztake_zdrop len (map u8 b)) at 1. unfold zdrop. by rewrite skipn_map.
  - done.
  - done.
Qed.
Next Obligation. intros o o' r [= <- <-]. destruct (fresh_fd_spec (opened o)). done. Qed.
Next Obligation. intros o lfd o' r [= <- <-]. destruct (fresh_fd_spec (opened o)). done. Qed.
Next Obligation. done. Qed.

(** A listening socket that gets two connections; the first sends and is closed by its
    owner while its own event is worked on, which has more handlers to run. *)
Definition demo_calls : list call :=
  [App (ActListen true true);
   Event (mkEvent 1 None (Some ([fun _ => [ActSend 2 [7]]; fun _ => []], None, fun _ => [])) None None);
   Event (mkEvent 2 (Some (fun _ => [ActClose 2])) (Some ([], Some 5, fun _ => [ActRecv 2 10; ActConnect true])) (Some (0, fun _ => [ActSend 2 [1; 2]])) (Some (fun _ => [ActClose 2])));
   App (ActOption 3 4 false); App (ActConnect false); App (ActClose 1)].

Lemma demo_calls_ok : Forall call_ok demo_calls.
Proof.
  repeat apply Forall_cons_2; [..|apply Forall_nil_2]; try exact I; try (by right);
    split_and!; intros; simplify_eq/=; try split;
    repeat (apply Forall_cons_2 || apply Forall_nil_2 || intros msg); try exact I; cbn; lia.
Qed.


End CBaseSocket.
