(* ===== verification/ImConn.v ===== *)
(** * CImConn: a packet connection over a byte stream

    Models [CImConn] of src/src/ptp_global/ImConn.{h,cpp}: [Send] with its
    backlog buffer, [OnWrite] which drains the backlog when the socket becomes
    writable, and [OnRead] which receives what is available and cuts it into
    packets.  Proved against the [NetLib] interface.  [HandlePdu] and [OnClose]
    are virtual in the code and parameters here; they act on a state [W] that
    holds everything but the connection's own input buffer. *)

From S2P Require Import Prelude SimpleBuffer ByteStream Pdu NetLib.

Module CImConn.

Definition NETLIB_MAX_SOCKET_BUF_SIZE : Z := 64 * 1024 + 16.
Definition READ_BUF_SIZE : Z := 2048.

Record t := mk {
  m_handle : Z;
  m_busy : bool;
  m_in_buf : CSimpleBuffer.t;
  m_out_buf : CSimpleBuffer.t;
  m_recv_bytes : Z;
  m_last_send_tick : Z;
  m_last_recv_tick : Z;
}.

Definition NETLIB_INVALID_HANDLE : Z := -1.

Definition init (now : Z) : t :=
  mk NETLIB_INVALID_HANDLE false CSimpleBuffer.init CSimpleBuffer.init 0 now now.

Section Conn.
Context {S : Type} `{NetLib S}.

(** ** Sending *)

(** The loop of [Send]: returns the offset reached and what remains. *)
Fixpoint send_loop (fuel : nat) (s : S) (h : Z) (data : list Z) (offset remain : Z)
  : outcome (S * Z * Z) :=
  match fuel with
  | O => NoFuel
  | Datatypes.S fuel =>
      if 0 <? remain then
        let send_size :=
          if NETLIB_MAX_SOCKET_BUF_SIZE <? remain then NETLIB_MAX_SOCKET_BUF_SIZE else remain in
        chunk ← mem_read data offset send_size;
        '(s, ret) ← netlib_send s h chunk;
        if ret <=? 0 then Ret (s, offset, remain)
        else send_loop fuel s h data (offset + ret) (remain - ret)
      else Ret (s, offset, remain)
  end.

Definition Send (fuel : nat) (junk : nat -> Z) (now : Z) (c : t) (s : S) (data : list Z) (len : Z)
  : outcome (t * S * Z) :=
  if m_busy c then
    out ← CSimpleBuffer.Write junk (m_out_buf c) (Some data) len;
    Ret (mk (m_handle c) true (m_in_buf c) out (m_recv_bytes c) now (m_last_recv_tick c), s, len)
  else
    '(s, offset, remain) ← send_loop fuel s (m_handle c) data 0 len;
    if 0 <? remain then
      out ← CSimpleBuffer.Write junk (m_out_buf c) (Some (zdrop offset data)) remain;
      Ret (mk (m_handle c) true (m_in_buf c) out (m_recv_bytes c) now (m_last_recv_tick c), s, len)
    else
      Ret (mk (m_handle c) false (m_in_buf c) (m_out_buf c) (m_recv_bytes c) now
             (m_last_recv_tick c), s, len).

Fixpoint write_loop (fuel : nat) (s : S) (h : Z) (out : CSimpleBuffer.t)
  : outcome (S * CSimpleBuffer.t) :=
  match fuel with
  | O => NoFuel
  | Datatypes.S fuel =>
      if 0 <? CSimpleBuffer.GetWriteOffset out then
        let send_size := i32 (CSimpleBuffer.GetWriteOffset out) in
        let send_size :=
          if NETLIB_MAX_SOCKET_BUF_SIZE <? send_size
          then NETLIB_MAX_SOCKET_BUF_SIZE else send_size in
        chunk ← mem_read (CSimpleBuffer.GetBuffer out) 0 send_size;
        '(s, ret) ← netlib_send s h chunk;
        if ret <=? 0 then Ret (s, out)
        else
          '(out, _, _) ← CSimpleBuffer.Read out false ret;
          write_loop fuel s h out
      else Ret (s, out)
  end.

Definition OnWrite (fuel : nat) (c : t) (s : S) : outcome (t * S) :=
  if m_busy c then
    '(s, out) ← write_loop fuel s (m_handle c) (m_out_buf c);
    let busy := if CSimpleBuffer.GetWriteOffset out =? 0 then false else m_busy c in
    Ret (mk (m_handle c) busy (m_in_buf c) out (m_recv_bytes c)
           (m_last_send_tick c) (m_last_recv_tick c), s)
  else Ret (c, s).

(** ** Receiving *)

Fixpoint recv_loop (fuel : nat) (junk : nat -> nat -> Z) (now : Z) (c : t) (s : S)
  : outcome (t * S) :=
  match fuel with
  | O => NoFuel
  | Datatypes.S fuel =>
      let sb := m_in_buf c in
      let free_buf_len :=
        u32 (CSimpleBuffer.GetAllocSize sb - CSimpleBuffer.GetWriteOffset sb) in
      let sb :=
        if free_buf_len <? READ_BUF_SIZE
        then CSimpleBuffer.Extend (junk fuel) sb READ_BUF_SIZE else sb in
      '(s, ret, got) ← netlib_recv s (m_handle c) READ_BUF_SIZE;
      if ret <=? 0 then
        Ret (mk (m_handle c) (m_busy c) sb (m_out_buf c) (m_recv_bytes c)
               (m_last_send_tick c) (m_last_recv_tick c), s)
      else
        m ← mem_write (CSimpleBuffer.GetBuffer sb) (CSimpleBuffer.GetWriteOffset sb) got;
        let sb := CSimpleBuffer.IncWriteOffset
          (CSimpleBuffer.mk m (CSimpleBuffer.m_alloc_size sb)
             (CSimpleBuffer.m_write_offset sb)) ret in
        recv_loop fuel junk now
          (mk (m_handle c) (m_busy c) sb (m_out_buf c) (u32 (m_recv_bytes c + ret))
             (m_last_send_tick c) now) s
  end.

Section Handler.
Context {W : Type}.
(** [HandlePdu] returns the new state and the exception it ended with, if
    any. *)
Variable HandlePdu : W -> CImPdu.t -> outcome (W * option exn).
Variable OnClose : W -> outcome W.

(** A [CPduException] is caught and closes the connection; any other exception
    leaves [OnRead]. *)
Definition caught (e : exn) (w : W) (sb : CSimpleBuffer.t)
  : outcome (CSimpleBuffer.t * W * bool) :=
  match e with
  | CPduException _ _ _ _ => w ← OnClose w; Ret (sb, w, true)
  | _ => Throw e
  end.

Fixpoint pdu_loop (fuel : nat) (junk : nat -> nat -> Z) (sb : CSimpleBuffer.t) (w : W)
  : outcome (CSimpleBuffer.t * W * bool) :=
  match fuel with
  | O => NoFuel
  | Datatypes.S fuel =>
      match CImPdu.ReadPdu (junk fuel) 0 (CSimpleBuffer.GetBuffer sb)
              (CSimpleBuffer.GetWriteOffset sb) with
      | Ret None => Ret (sb, w, false)
      | Ret (Some p) =>
          let pdu_len := CImPdu.GetLength p in
          '(w, e) ← HandlePdu w p;
          match e with
          | Some e => caught e w sb
          | None =>
              '(sb, _, _) ← CSimpleBuffer.Read sb false pdu_len;
              pdu_loop fuel junk sb w
          end
      | Throw e => caught e w sb
      | UB => UB
      | NoFuel => NoFuel
      end
  end.

(** The boolean says whether an exception closed the connection. *)
Definition OnRead (fuel : nat) (junk : nat -> nat -> Z) (now : Z) (c : t) (s : S) (w : W)
  : outcome (t * S * W * bool) :=
  '(c, s) ← recv_loop fuel junk now c s;
  '(sb, w, closed) ← pdu_loop fuel junk (m_in_buf c) w;
  Ret (mk (m_handle c) (m_busy c) sb (m_out_buf c) (m_recv_bytes c)
         (m_last_send_tick c) (m_last_recv_tick c), s, w, closed).

End Handler.

(** ** The outgoing stream *)

(** Between calls the backlog is in use exactly when the connection is
    busy. *)
Definition out_ok (c : t) : Prop :=
  CSimpleBuffer.wf (m_out_buf c) /\
  (m_busy c = false -> CSimpleBuffer.contents (m_out_buf c) = []).

(** Everything handed to the socket, then everything still to be sent. *)
Definition out_stream (c : t) (s : S) : list Z :=
  wire_out s (m_handle c) ++ CSimpleBuffer.contents (m_out_buf c).

Lemma chunk_read data off n :
  0 <= off -> 0 < n -> off + n <= zlen data ->
  let k := if NETLIB_MAX_SOCKET_BUF_SIZE <? n then NETLIB_MAX_SOCKET_BUF_SIZE else n in
  0 < k <= n /\ mem_read data off k = Ret (ztake k (zdrop off data)).
Proof.
  intros Ho Hn Hd k. assert (0 < k <= n).
  { subst k. unfold NETLIB_MAX_SOCKET_BUF_SIZE. case_match eqn:E; [apply Z.ltb_lt in E|]; lia. }
  split; [done|]. apply mem_read_ok; lia.
Qed.

Lemma send_loop_spec fuel : forall s h data off rem,
  net_ok s -> 0 <= off -> 0 <= rem -> off + rem = zlen data -> (Z.to_nat rem < fuel)%nat ->
  exists s' off', send_loop fuel s h data off rem = Ret (s', off', zlen data - off') /\ net_ok s' /\
    off <= off' <= zlen data /\
    wire_out s' h ++ zdrop off' data = wire_out s h ++ zdrop off data /\
    zlen (wire_out s h) <= zlen (wire_out s' h) /\ wire_in s' h = wire_in s h.
Proof.
  induction fuel as [|fuel IH]; intros s h data off rem Hok Ho Hr Heq Hfuel; [lia|]. simpl.
  destruct (Z.ltb_spec 0 rem); cycle 1.
  { exists s, off. split_and!; try done; try lia. do 2 f_equal. lia. }
  destruct (chunk_read data off rem) as [Hk ->]; [lia..|]. mstep.
  set (k := if _ <? _ then _ else _) in *.
  destruct (netlib_send_law s h (ztake k (zdrop off data)) Hok)
    as (s1&r&->&Hok1&Hr1&Hout&Hin). mstep.
  assert (zlen (ztake k (zdrop off data)) = k) as Hzk by zlia. rewrite Hzk in Hr1.
  destruct (Z.leb_spec r 0).
  - exists s1, off. split_and!; try done; try lia; [do 2 f_equal; lia| |rewrite Hout; zlia].
    rewrite Hout. unfold ztake at 1. replace (Z.to_nat r) with 0%nat by lia.
    by rewrite take_0, app_nil_r.
  - destruct (IH s1 h data (off + r) (rem - r)) as (s2&off2&->&Hok2&Ho2&Hs2&Hm2&Hi2); [done|lia..|].
    exists s2, off2. split_and!; try done; try lia; [|rewrite Hout in Hm2; zlia|congruence].
    rewrite Hs2, Hout, <- app_assoc. f_equal.
    rewrite ztake_ztake. replace (Z.min r k) with r by lia.
    rewrite <- (zdrop_zdrop r off) by lia. apply ztake_zdrop.
Qed.

(** [Send] appends its data to the stream, whatever part of it the socket
    takes now. *)
Lemma send_spec fuel junk now c s data :
  net_ok s -> out_ok c -> (length data < fuel)%nat ->
  5 * (zlen (CSimpleBuffer.contents (m_out_buf c)) + zlen data) < 4 * 2 ^ 32 ->
  exists c' s', Send fuel junk now c s data (zlen data) = Ret (c', s', zlen data) /\
    net_ok s' /\ out_ok c' /\ m_handle c' = m_handle c /\ m_in_buf c' = m_in_buf c /\
    out_stream c' s' = out_stream c s ++ data /\
    zlen (wire_out s (m_handle c)) <= zlen (wire_out s' (m_handle c)) /\
    wire_in s' (m_handle c) = wire_in s (m_handle c).
Proof.
  intros Hok [Hwf Hbusy] Hfuel Hsz. unfold Send, out_stream.
  pose proof (zlen_nonneg data). pose proof (CSimpleBuffer.zlen_contents _ Hwf) as Hz.
  destruct (m_busy c) eqn:Hb.
  - destruct (CSimpleBuffer.write_spec junk (m_out_buf c) data (zlen data))
      as (out&->&W&C); [done|split; lia|lia|]. mstep.
    eexists _, _. split; [done|]. split_and!; try done. simpl.
    rewrite C, ztake_all by lia. by rewrite app_assoc.
  - destruct (send_loop_spec fuel s (m_handle c) data 0 (zlen data))
      as (s1&off&->&Hok1&Ho&Hst&Hm&Hin); [done|lia..|zlia|]. mstep.
    rewrite zdrop_0 in Hst. rewrite (Hbusy eq_refl), zlen_nil in *. rewrite app_nil_r.
    destruct (Z.ltb_spec 0 (zlen data - off)).
    + destruct (CSimpleBuffer.write_spec junk (m_out_buf c) (zdrop off data) (zlen data - off))
        as (out&->&W&C); [done|split; [lia|rewrite <- Hz; lia]|zlia|]. mstep.
      eexists _, _. split; [done|]. split_and!; try done. simpl.
      rewrite C, (Hbusy eq_refl), app_nil_l, ztake_all by zlia. done.
    + eexists _, _. split; [done|]. split_and!; try done; simpl.
      rewrite (Hbusy eq_refl), app_nil_r. rewrite zdrop_all, app_nil_r in Hst by lia. done.
Qed.

Lemma write_loop_spec fuel : forall s h out,
  net_ok s -> CSimpleBuffer.wf out -> (length (CSimpleBuffer.contents out) < fuel)%nat ->
  zlen (CSimpleBuffer.contents out) < 2 ^ 31 ->
  exists s' out', write_loop fuel s h out = Ret (s', out') /\ net_ok s' /\
    CSimpleBuffer.wf out' /\
    wire_out s' h ++ CSimpleBuffer.contents out' = wire_out s h ++ CSimpleBuffer.contents out /\
    zlen (wire_out s h) <= zlen (wire_out s' h) /\ wire_in s' h = wire_in s h.
Proof.
  induction fuel as [|fuel IH]; intros s h out Hok Hwf Hfuel Hint; [lia|]. simpl.
  pose proof (CSimpleBuffer.zlen_contents out Hwf) as Hz. unfold CSimpleBuffer.GetWriteOffset.
  destruct (Z.ltb_spec 0 (CSimpleBuffer.m_write_offset out)); [|by exists s, out].
  rewrite wrap_s_small by (unfold is_s; lia).
  destruct (chunk_read (CSimpleBuffer.m_buffer out) 0 (CSimpleBuffer.m_write_offset out))
    as [Hk Hrd]; [lia|lia|destruct Hwf as (?&?&?); lia|].
  unfold CSimpleBuffer.GetBuffer. set (k := if _ <? _ then _ else _) in *.
  rewrite Hrd. mstep. rewrite zdrop_0 in *.
  set (chunk := ztake k (CSimpleBuffer.m_buffer out)).
  assert (chunk = ztake k (CSimpleBuffer.contents out)) as Hchunk.
  { unfold chunk, CSimpleBuffer.contents. rewrite ztake_ztake. f_equal. lia. }
  destruct (netlib_send_law s h chunk Hok) as (s1&r&->&Hok1&Hr1&Hout&Hin). mstep.
  rewrite Hchunk in Hout, Hr1. clear chunk Hchunk.
  destruct (Z.leb_spec r 0).
  - eexists _, _. split; [done|]. split_and!; try done; rewrite Hout; [|zlia].
    unfold ztake at 1. replace (Z.to_nat r) with 0%nat by lia. by rewrite take_0, app_nil_r.
  - destruct (CSimpleBuffer.read_spec out false r) as (out1&->&W1&C1&_); [done|lia|]. mstep.
    destruct (IH s1 h out1) as (s2&out2&->&Hok2&W2&Hs2&Hm2&Hi2); [done..|rewrite C1; unfold zdrop; rewrite length_drop; zlia|rewrite C1; zlia|].
    eexists _, _. split; [done|]. split_and!; try done; [|rewrite Hout in Hm2; zlia|congruence].
    rewrite Hs2, C1, Hout, <- app_assoc, ztake_ztake. f_equal.
    rewrite zlen_ztake in Hr1. replace (Z.min r k) with r by lia. apply ztake_zdrop.
Qed.

(** [OnWrite] moves bytes from the backlog to the socket and changes nothing
    else. *)
Lemma on_write_spec fuel c s :
  net_ok s -> out_ok c -> (length (CSimpleBuffer.contents (m_out_buf c)) < fuel)%nat ->
  zlen (CSimpleBuffer.contents (m_out_buf c)) < 2 ^ 31 ->
  exists c' s', OnWrite fuel c s = Ret (c', s') /\ net_ok s' /\ out_ok c' /\
    m_handle c' = m_handle c /\ m_in_buf c' = m_in_buf c /\
    out_stream c' s' = out_stream c s /\
    zlen (wire_out s (m_handle c)) <= zlen (wire_out s' (m_handle c)).
Proof.
  intros Hok [Hwf Hbusy] Hfuel Hint. unfold OnWrite, out_stream.
  destruct (m_busy c) eqn:Hb; cycle 1.
  { exists c, s. split_and!; try done. split; auto. }
  destruct (write_loop_spec fuel s (m_handle c) (m_out_buf c))
    as (s1&out&->&Hok1&W&Hst&Hm&Hin); [done..|]. mstep.
  eexists _, _. split; [done|]. split; [done|]. split; [split; [done|]|by split_and!].
  simpl. intros Hb0.
  destruct (Z.eqb_spec (CSimpleBuffer.GetWriteOffset out) 0); [|done].
  apply zlen_0_nil. by rewrite CSimpleBuffer.zlen_contents.
Qed.

(** ** Sequences of sends and writable events *)

Inductive out_event :=
| EvSend (data : list Z) (now : Z)
| EvOnWrite.

Definition sent_by (e : out_event) : list Z :=
  match e with EvSend data _ => data | EvOnWrite => [] end.

Definition out_step (fuel : nat) (junk : nat -> Z) (c : t) (s : S) (e : out_event)
  : outcome (t * S) :=
  match e with
  | EvSend data now => '(c, s, _) ← Send fuel junk now c s data (zlen data); Ret (c, s)
  | EvOnWrite => OnWrite fuel c s
  end.

Fixpoint out_run (fuel : nat) (junk : nat -> Z) (c : t) (s : S) (es : list out_event)
  : outcome (t * S) :=
  match es with
  | [] => Ret (c, s)
  | e :: es => '(c, s) ← out_step fuel junk c s e; out_run fuel junk c s es
  end.

Lemma out_step_spec fuel junk c s e :
  net_ok s -> out_ok c ->
  zlen (CSimpleBuffer.contents (m_out_buf c)) + zlen (sent_by e) < 2 ^ 31 ->
  zlen (CSimpleBuffer.contents (m_out_buf c)) + zlen (sent_by e) < Z.of_nat fuel ->
  exists c1 s1, out_step fuel junk c s e = Ret (c1, s1) /\ net_ok s1 /\ out_ok c1 /\
    m_handle c1 = m_handle c /\ out_stream c1 s1 = out_stream c s ++ sent_by e /\
    zlen (CSimpleBuffer.contents (m_out_buf c1)) <=
      zlen (CSimpleBuffer.contents (m_out_buf c)) + zlen (sent_by e).
Proof.
  intros Hok Hout Hsz Hfuel.
  assert (exists c1 s1, out_step fuel junk c s e = Ret (c1, s1) /\ net_ok s1 /\ out_ok c1 /\
    m_handle c1 = m_handle c /\ out_stream c1 s1 = out_stream c s ++ sent_by e /\
    zlen (wire_out s (m_handle c)) <= zlen (wire_out s1 (m_handle c)))
    as (c1&s1&Hs&Hok1&Hout1&Hh&Hst&Hm).
  { destruct e as [data now|]; simpl in *.
    - destruct (send_spec fuel junk now c s data) as (c1&s1&->&?&?&?&?&?&?&?);
        [done..|zlia|lia|]. by exists c1, s1.
    - destruct (on_write_spec fuel c s) as (c1&s1&->&?&?&?&?&Hst&?); [done..|zlia|zlia|].
      exists c1, s1. rewrite app_nil_r. done. }
  exists c1, s1. split_and!; try done.
  apply (f_equal zlen) in Hst. unfold out_stream in Hst. rewrite Hh, !zlen_app in Hst. lia.
Qed.

Definition out_total (es : list out_event) : Z := zlen (concat (map sent_by es)).

(** C4. Whatever the socket accepts at each call, the bytes given to it
    followed by the backlog are at every point exactly the data of all [Send]
    calls in order, and a connection that is not busy has no backlog: nothing
    is lost, duplicated or reordered. *)
Theorem send_stream_integrity fuel junk es : forall c s,
  net_ok s -> out_ok c ->
  zlen (CSimpleBuffer.contents (m_out_buf c)) + out_total es < 2 ^ 31 ->
  zlen (CSimpleBuffer.contents (m_out_buf c)) + out_total es < Z.of_nat fuel ->
  exists c' s', out_run fuel junk c s es = Ret (c', s') /\ net_ok s' /\ out_ok c' /\
    out_stream c' s' = out_stream c s ++ concat (map sent_by es).
Proof.
  unfold out_total.
  induction es as [|e es IH]; intros c s Hok Hout Hsz Hfuel; simpl in *.
  { exists c, s. by rewrite app_nil_r. }
  rewrite zlen_app in *.
  assert (exists c1 s1, out_step fuel junk c s e = Ret (c1, s1) /\ net_ok s1 /\ out_ok c1 /\
    m_handle c1 = m_handle c /\ out_stream c1 s1 = out_stream c s ++ sent_by e /\
    zlen (CSimpleBuffer.contents (m_out_buf c1)) <=
      zlen (CSimpleBuffer.contents (m_out_buf c)) + zlen (sent_by e))
    as (c1&s1&->&Hok1&Hout1&Hh&Hst&Hlen).
  { apply out_step_spec; [done..|zlia|zlia]. }
  mstep. destruct (IH c1 s1) as (c2&s2&->&Hok2&Hout2&Hst2); [done..|zlia|zlia|].
  exists c2, s2. split_and!; try done. by rewrite Hst2, Hst, app_assoc.
Qed.

(** ** The incoming stream *)

Import PduFacts.

(** The reference: cut a byte string into packets by their declared lengths.
    Returns the packets, the bytes left over, and whether a zero length was
    met. *)
Fixpoint deframe_n (n : nat) (bs : list Z) : list (list Z) * list Z * bool :=
  match n with
  | O => ([], bs, false)
  | Datatypes.S n =>
      if zlen bs <? 16 then ([], bs, false)
      else if zlen bs <? be32 bs then ([], bs, false)
      else if be32 bs =? 0 then ([], bs, true)
      else
        let '(fs, rest, bad) := deframe_n n (zdrop (be32 bs) bs) in
        (ztake (be32 bs) bs :: fs, rest, bad)
  end.

Definition deframe (bs : list Z) : list (list Z) * list Z * bool := deframe_n (length bs) bs.

Lemma deframe_n_enough n : forall m bs,
  bytes_ok bs -> (length bs <= n)%nat -> (length bs <= m)%nat -> deframe_n n bs = deframe_n m bs.
Proof.
  induction n as [|n IH]; intros [|m] bs Hb Hn Hm; simpl; try done.
  - destruct (Z.ltb_spec (zlen bs) 16); [done|zlia].
  - destruct (Z.ltb_spec (zlen bs) 16); [done|zlia].
  - pose proof (be32_range bs Hb) as Hr. unfold is_u in Hr.
    destruct (Z.ltb_spec (zlen bs) 16); [done|].
    destruct (Z.ltb_spec (zlen bs) (be32 bs)); [done|].
    destruct (Z.eqb_spec (be32 bs) 0); [done|].
    rewrite (IH m); [done|by apply Forall_drop|..];
      unfold zdrop; rewrite length_drop; lia.
Qed.

Lemma deframe_eq bs : bytes_ok bs ->
  deframe bs =
  if zlen bs <? 16 then ([], bs, false)
  else if zlen bs <? be32 bs then ([], bs, false)
  else if be32 bs =? 0 then ([], bs, true)
  else
    let '(fs, rest, bad) := deframe (zdrop (be32 bs) bs) in
    (ztake (be32 bs) bs :: fs, rest, bad).
Proof.
  intros Hb. unfold deframe at 1.
  destruct (Z.ltb_spec (zlen bs) 16); [by destruct (length bs); simpl;
    [|destruct (Z.ltb_spec (zlen bs) 16); [|lia]]|].
  pose proof (be32_range bs Hb) as Hr. unfold is_u in Hr.
  destruct (length bs) as [|n] eqn:Hn; [zlia|]. simpl.
  destruct (Z.ltb_spec (zlen bs) 16); [lia|].
  destruct (Z.ltb_spec (zlen bs) (be32 bs)); [done|].
  destruct (Z.eqb_spec (be32 bs) 0); [done|]. unfold deframe.
  rewrite (deframe_n_enough n (length (zdrop (be32 bs) bs))); [done|by apply Forall_drop|..];
    unfold zdrop; rewrite ?length_drop; lia.
Qed.

Lemma deframe_bytes_ok bs : bytes_ok bs -> bytes_ok (deframe bs).1.2.
Proof.
  remember (length bs) as n eqn:Hn. revert bs Hn.
  induction n as [n IH] using lt_wf_ind. intros bs -> Hb. rewrite deframe_eq by done.
  pose proof (be32_range bs Hb) as Hr. unfold is_u in Hr.
  destruct (Z.ltb_spec (zlen bs) 16); [done|].
  destruct (Z.ltb_spec (zlen bs) (be32 bs)); [done|].
  destruct (Z.eqb_spec (be32 bs) 0); [done|].
  destruct (deframe (zdrop (be32 bs) bs)) as [[fs rest] bad] eqn:E. simpl.
  specialize (IH (length (zdrop (be32 bs) bs))).
  assert (bytes_ok (deframe (zdrop (be32 bs) bs)).1.2) as Hrest; [|by rewrite E in Hrest].
  apply IH; [unfold zdrop; rewrite length_drop; zlia|done|by apply Forall_drop].
Qed.

Lemma deframe_rest_len bs : bytes_ok bs -> zlen (deframe bs).1.2 <= zlen bs.
Proof.
  remember (length bs) as n eqn:Hn. revert bs Hn.
  induction n as [n IH] using lt_wf_ind. intros bs -> Hb. rewrite deframe_eq by done.
  pose proof (be32_range bs Hb) as Hr. unfold is_u in Hr.
  destruct (Z.ltb_spec (zlen bs) 16); [done|].
  destruct (Z.ltb_spec (zlen bs) (be32 bs)); [done|].
  destruct (Z.eqb_spec (be32 bs) 0); [done|].
  specialize (IH (length (zdrop (be32 bs) bs)) ltac:(unfold zdrop; rewrite length_drop; zlia)
    _ eq_refl ltac:(by apply Forall_drop)).
  destruct (deframe (zdrop (be32 bs) bs)) as [[fs rest] bad]. simpl in *. zlia.
Qed.

(** Cutting is insensitive to where the stream was split. *)
Lemma deframe_app a b : bytes_ok a -> bytes_ok b -> (deframe a).2 = false ->
  deframe (a ++ b) =
  let '(fs, rest, _) := deframe a in
  let '(fs', rest', bad) := deframe (rest ++ b) in (fs ++ fs', rest', bad).
Proof.
  remember (length a) as n eqn:Hn. revert a Hn.
  induction n as [n IH] using lt_wf_ind. intros a -> Ha Hb.
  rewrite (deframe_eq a) by done. pose proof (be32_range a Ha) as Hr. unfold is_u in Hr.
  destruct (Z.ltb_spec (zlen a) 16); [intros _; by destruct (deframe (a ++ b)) as [[??]?]|].
  destruct (Z.ltb_spec (zlen a) (be32 a)); [intros _; by destruct (deframe (a ++ b)) as [[??]?]|].
  destruct (Z.eqb_spec (be32 a) 0); [done|].
  assert (be32 (a ++ b) = be32 a) as Hbe.
  { unfold zlen in *. by destruct a as [|? [|? [|? [|? a]]]]; simpl in *; try lia. }
  specialize (IH (length (zdrop (be32 a) a))).
  destruct (deframe (zdrop (be32 a) a)) as [[fs rest] bad] eqn:E. simpl. intros ->.
  rewrite (deframe_eq (a ++ b)) by (by apply Forall_app). rewrite Hbe, zlen_app.
  pose proof (zlen_nonneg b).
  destruct (Z.ltb_spec (zlen a + zlen b) 16); [lia|].
  destruct (Z.ltb_spec (zlen a + zlen b) (be32 a)); [lia|].
  destruct (Z.eqb_spec (be32 a) 0); [done|].
  rewrite zdrop_app_l, ztake_app_l by lia.
  rewrite (IH ltac:(unfold zdrop; rewrite length_drop; zlia) (zdrop (be32 a) a) eq_refl
    ltac:(by apply Forall_drop) Hb) by (by rewrite E).
  rewrite E. by destruct (deframe (rest ++ b)) as [[??]?].
Qed.

(** The handler that records the packets it is given. *)
Definition record (log : list (list Z)) (p : CImPdu.t) : outcome (list (list Z) * option exn) :=
  Ret (log ++ [CSimpleBuffer.contents (CImPdu.m_buf p)], None).

Lemma pdu_loop_spec junk fuel : forall sb log,
  CSimpleBuffer.wf sb -> bytes_ok (CSimpleBuffer.contents sb) ->
  (length (CSimpleBuffer.contents sb) < fuel)%nat ->
  5 * zlen (CSimpleBuffer.contents sb) < 4 * 2 ^ 32 ->
  exists sb', pdu_loop record Ret fuel junk sb log =
      Ret (sb', log ++ (deframe (CSimpleBuffer.contents sb)).1.1,
           (deframe (CSimpleBuffer.contents sb)).2) /\
    CSimpleBuffer.wf sb' /\ CSimpleBuffer.contents sb' = (deframe (CSimpleBuffer.contents sb)).1.2.
Proof.
  induction fuel as [|fuel IH]; intros sb log Hwf Hb Hf Hsz; [lia|]. simpl.
  pose proof (CSimpleBuffer.zlen_contents sb Hwf) as Hz.
  pose proof (CSimpleBuffer.split_contents sb Hwf) as Hsplit.
  unfold CSimpleBuffer.GetBuffer, CSimpleBuffer.GetWriteOffset. rewrite Hsplit, <- Hz.
  set (bs := CSimpleBuffer.contents sb) in *. set (tail := zdrop _ _).
  rewrite deframe_eq by done. pose proof (be32_range bs Hb) as Hr.
  assert (zlen bs < 2 ^ 32) by lia. pose proof (zlen_nonneg bs).
  destruct (Z.ltb_spec (zlen bs) 16) as [Hs|Hs].
  { unfold CImPdu.ReadPdu, CImPdu.IsPduAvailable, IM_PDU_HEADER_LEN.
    destruct (Z.ltb_spec (zlen bs) 16); [|lia]. mstep. exists sb. simpl. by rewrite app_nil_r. }
  destruct (wire_decompose bs Hb Hs) as (ver&fl&cid&sq&res&rest&Hbs).
  assert (bs ++ tail = header (be32 bs) ver fl cid sq (CByteStream.bytes32 res) ++ (rest ++ tail)) as Hwire.
  { by rewrite Hbs at 1; rewrite <- app_assoc. }
  rewrite Hwire.
  destruct (Z.ltb_spec (zlen bs) (be32 bs)).
  { unfold CImPdu.ReadPdu. rewrite header_app, is_pdu_available_spec by done.
    destruct (Z.ltb_spec (zlen bs) (be32 bs)); [|lia]. mstep. exists sb. simpl. by rewrite app_nil_r. }
  destruct (Z.eqb_spec (be32 bs) 0) as [Hz0|Hz0].
  { unfold CImPdu.ReadPdu. rewrite header_app, is_pdu_available_spec by done.
    destruct (Z.ltb_spec (zlen bs) (be32 bs)); [lia|].
    destruct (Z.eqb_spec (be32 bs) 0); [|done]. mstep. simpl. exists sb. by rewrite app_nil_r. }
  unfold is_u in Hr.
  destruct (read_pdu_spec (junk fuel) 0 (be32 bs) ver fl cid sq res (rest ++ tail) (zlen bs))
    as (p&->&_&Wp&Cp); [rewrite <- Hwire; zlia|unfold is_u; lia|lia|lia|].
  rewrite <- Hwire in Cp. mstep. simpl.
  destruct (length_spec p (be32 bs) (bs ++ tail) Wp Cp) as [-> _]; [zlia|lia|].
  rewrite Cp, ztake_app_l by lia.
  destruct (CSimpleBuffer.read_spec sb false (be32 bs)) as (sb1&->&W1&C1&_); [done|lia|].
  mstep. fold bs in C1.
  destruct (IH sb1 (log ++ [ztake (be32 bs) bs])) as (sb2&->&W2&C2); try done; rewrite ?C1.
  { by apply Forall_drop. } { unfold zdrop; rewrite length_drop; zlia. } { zlia. }
  exists sb2. rewrite C2, C1. destruct (deframe (zdrop (be32 bs) bs)) as [[fs r] bad]. simpl.
  by rewrite <- app_assoc.
Qed.

Lemma recv_loop_spec junk now fuel : forall c s,
  net_ok s -> CSimpleBuffer.wf (m_in_buf c) ->
  (length (wire_in s (m_handle c)) < fuel)%nat ->
  5 * (zlen (CSimpleBuffer.contents (m_in_buf c)) + zlen (wire_in s (m_handle c)) + 2048) < 4 * 2 ^ 32 ->
  exists c' s' got, recv_loop fuel junk now c s = Ret (c', s') /\ net_ok s' /\
    m_handle c' = m_handle c /\ m_out_buf c' = m_out_buf c /\ m_busy c' = m_busy c /\
    CSimpleBuffer.wf (m_in_buf c') /\ bytes_ok got /\
    CSimpleBuffer.contents (m_in_buf c') = CSimpleBuffer.contents (m_in_buf c) ++ got /\
    wire_in s (m_handle c) = got ++ wire_in s' (m_handle c) /\
    wire_out s' (m_handle c) = wire_out s (m_handle c).
Proof.
  induction fuel as [|fuel IH]; intros c s Hok Hwf Hf Hsz; [lia|]. cbn [recv_loop].
  pose proof (CSimpleBuffer.zlen_contents _ Hwf) as Hz.
  pose proof (zlen_nonneg (wire_in s (m_handle c))).
  set (sb := if _ <? _ then _ else _).
  assert (CSimpleBuffer.wf sb /\
    CSimpleBuffer.contents sb = CSimpleBuffer.contents (m_in_buf c) /\
    CSimpleBuffer.m_write_offset (m_in_buf c) + 2048 <= CSimpleBuffer.m_alloc_size sb /\
    CSimpleBuffer.m_write_offset sb = CSimpleBuffer.m_write_offset (m_in_buf c))
    as (Wsb&Csb&Hcap&Hoff).
  { subst sb. unfold CSimpleBuffer.GetAllocSize, CSimpleBuffer.GetWriteOffset, READ_BUF_SIZE.
    destruct Hwf as (Hl&Ho&Ha). rewrite wrap_u_small by (unfold is_u; lia).
    destruct (Z.ltb_spec (CSimpleBuffer.m_alloc_size (m_in_buf c) -
      CSimpleBuffer.m_write_offset (m_in_buf c)) 2048); [|split_and!; try done; lia].
    apply CSimpleBuffer.extend_spec; [done|split; lia]. }
  clearbody sb.
  destruct (netlib_recv_law s (m_handle c) READ_BUF_SIZE Hok) as (s1&r&got&->&Hok1&Hr&Hg&Hb&Hin&Hout);
    [done|]. mstep. unfold READ_BUF_SIZE in Hr.
  destruct (Z.leb_spec r 0).
  { assert (got = []) as -> by (apply zlen_0_nil; lia).
    eexists _, _, []. split; [done|]. split_and!; try done; simpl. by rewrite app_nil_r. }
  destruct Wsb as (Hl&Ho&Ha).
  unfold CSimpleBuffer.GetBuffer, CSimpleBuffer.GetWriteOffset.
  rewrite mem_write_ok by lia. mstep. unfold CSimpleBuffer.IncWriteOffset.
  cbn [CSimpleBuffer.m_buffer CSimpleBuffer.m_alloc_size CSimpleBuffer.m_write_offset].
  rewrite (wrap_u_small 32 (_ + r)) by (unfold is_u; lia).
  set (m := ztake _ _ ++ _). set (sb1 := CSimpleBuffer.mk m _ _).
  assert (CSimpleBuffer.wf sb1) as W1.
  { unfold sb1. split; [|split]; cbn; [unfold m; zlia|lia|lia]. }
  assert (CSimpleBuffer.contents sb1 = CSimpleBuffer.contents (m_in_buf c) ++ got) as C1.
  { unfold sb1, CSimpleBuffer.contents at 1. cbn. unfold m. rewrite app_assoc, <- Csb.
    unfold CSimpleBuffer.contents. apply ztake_app_exact. rewrite zlen_app, zlen_ztake. lia. }
  match goal with |- context [recv_loop fuel junk now ?c1 s1] => set (c1' := c1) end.
  destruct (IH c1' s1) as (c2&s2&got2&->&Hok2&Hh&Ho2&Hb2&W2&Hbs&C2&Hin2&Hout2); [done..| | |].
  { simpl. rewrite Hin in Hf. rewrite length_app in Hf. zlia. }
  { simpl. rewrite C1. rewrite Hin in Hsz. zlia. }
  eexists _, _, (got ++ got2). split; [done|]. split_and!; try done.
  - by apply Forall_app.
  - rewrite C2. simpl. by rewrite C1, app_assoc.
  - rewrite Hin. change (m_handle c1') with (m_handle c) in Hin2.
    rewrite Hin2. by rewrite app_assoc.
  - change (m_handle c1') with (m_handle c) in Hout2. congruence.
Qed.

(** One readable event with the recording handler. *)
Lemma on_read_spec fuel junk now c s log :
  net_ok s -> CSimpleBuffer.wf (m_in_buf c) -> bytes_ok (CSimpleBuffer.contents (m_in_buf c)) ->
  let total := zlen (CSimpleBuffer.contents (m_in_buf c)) + zlen (wire_in s (m_handle c)) in
  total < Z.of_nat fuel -> 5 * (total + 2048) < 4 * 2 ^ 32 ->
  exists c' s' got, let '(fs, rest, bad) := deframe (CSimpleBuffer.contents (m_in_buf c) ++ got) in
    OnRead record Ret fuel junk now c s log = Ret (c', s', log ++ fs, bad) /\
    net_ok s' /\ m_handle c' = m_handle c /\
    CSimpleBuffer.wf (m_in_buf c') /\ CSimpleBuffer.contents (m_in_buf c') = rest /\
    bytes_ok rest /\ bytes_ok got /\ wire_in s (m_handle c) = got ++ wire_in s' (m_handle c).
Proof.
  intros Hok Hwf Hb total Hf Hsz. subst total.
  pose proof (zlen_nonneg (CSimpleBuffer.contents (m_in_buf c))).
  destruct (recv_loop_spec junk now fuel c s)
    as (c1&s1&got&Hrun&Hok1&Hh&_&_&W1&Hbg&C1&Hin&_); [done..|zlia|zlia|].
  assert (bytes_ok (CSimpleBuffer.contents (m_in_buf c1))) as Hb1 by (rewrite C1; by apply Forall_app).
  rewrite Hin, zlen_app in Hf, Hsz. pose proof (zlen_nonneg (wire_in s1 (m_handle c))).
  destruct (pdu_loop_spec junk fuel (m_in_buf c1) log) as (sb&Hpdu&W2&C2);
    [done..|rewrite C1, length_app; unfold zlen in *; lia|rewrite C1, zlen_app; lia|].
  pose proof (deframe_bytes_ok _ Hb1) as Hbr. rewrite C1 in *.
  destruct (deframe _) as [[fs rest] bad] eqn:E in *.
  eexists _, s1, got. rewrite E. unfold OnRead. rewrite Hrun. mstep. rewrite Hpdu. mstep.
  split; [done|]. by split_and!.
Qed.

(** Any number of readable events; the flag says that one of them closed the
    connection. *)
Fixpoint read_run (fuel : nat) (junk : nat -> nat -> Z) (c : t) (s : S) (log : list (list Z))
    (nows : list Z) : outcome (t * S * list (list Z) * bool) :=
  match nows with
  | [] => Ret (c, s, log, false)
  | now :: nows =>
      '(c, s, log, closed) ← OnRead record Ret fuel junk now c s log;
      if (closed : bool) then Ret (c, s, log, true) else read_run fuel junk c s log nows
  end.

Lemma read_run_spec fuel junk nows : forall c s log,
  net_ok s -> CSimpleBuffer.wf (m_in_buf c) -> bytes_ok (CSimpleBuffer.contents (m_in_buf c)) ->
  let total := zlen (CSimpleBuffer.contents (m_in_buf c)) + zlen (wire_in s (m_handle c)) in
  (deframe (CSimpleBuffer.contents (m_in_buf c))) = ([], CSimpleBuffer.contents (m_in_buf c), false) ->
  total < Z.of_nat fuel -> 5 * (total + 2048) < 4 * 2 ^ 32 ->
  exists c' s' got, let '(fs, rest, bad) := deframe (CSimpleBuffer.contents (m_in_buf c) ++ got) in
    read_run fuel junk c s log nows = Ret (c', s', log ++ fs, bad) /\
    CSimpleBuffer.contents (m_in_buf c') = rest /\ bytes_ok got /\
    wire_in s (m_handle c) = got ++ wire_in s' (m_handle c).
Proof.
  induction nows as [|now nows IH]; intros c s log Hok Hwf Hb total Hd Hf Hsz.
  { exists c, s, []. rewrite app_nil_r, Hd. simpl. rewrite app_nil_r. split_and!; try done. }
  subst total. destruct (on_read_spec fuel junk now c s log) as (c1&s1&got&Hspec); [done..|].
  destruct (deframe (_ ++ got)) as [[fs rest] bad] eqn:E.
  destruct Hspec as (Hrun&Hok1&Hh&W1&C1&Hbr&Hbg&Hin). simpl. rewrite Hrun. mstep.
  destruct bad.
  { exists c1, s1, got. rewrite E. by split_and!. }
  pose proof (deframe_app (CSimpleBuffer.contents (m_in_buf c) ++ got) []
    ltac:(by apply Forall_app) ltac:(constructor) ltac:(by rewrite E)) as Hidem.
  rewrite !app_nil_r, E in Hidem. rewrite app_nil_r in Hidem.
  assert (deframe rest = ([], rest, false)) as Hrest.
  { destruct (deframe rest) as [[fs1 r1] b1]. injection Hidem as Hfs -> <-.
    assert (fs1 = []) as ->; [|done].
    apply (f_equal length) in Hfs. rewrite length_app in Hfs. destruct fs1; [done|simpl in Hfs; lia]. }
  assert (zlen rest <= zlen (CSimpleBuffer.contents (m_in_buf c) ++ got)) as Hlen.
  { pose proof (deframe_rest_len (CSimpleBuffer.contents (m_in_buf c) ++ got)) as Hl.
    rewrite E in Hl. apply Hl. by apply Forall_app. }
  rewrite Hin in Hf, Hsz. rewrite !zlen_app in *.
  destruct (IH c1 s1 (log ++ fs)) as (c2&s2&got2&Hspec);
    rewrite ?C1, ?Hh in *; try done; try lia.
  exists c2, s2, (got ++ got2).
  rewrite app_assoc, deframe_app, E; [|by apply Forall_app| |by rewrite E].
  - destruct (deframe (rest ++ got2)) as [[fs2 rest2] bad2]. destruct Hspec as (->&C2&Hb2&Hin2).
    rewrite <- !app_assoc. split_and!; try done; [by apply Forall_app|congruence].
  - destruct (deframe (rest ++ got2)) as [[fs2 rest2] bad2]. by destruct Hspec as (_&_&?&_).
Qed.

(** C12. A connection delivers packets independently of how the network cut
    the stream: after any number of readable events on a fresh connection, the
    packets handed to [HandlePdu], the bytes still buffered and whether the
    connection was closed are those of cutting all the bytes received so far
    in one go. *)
Theorem read_chunking_independent fuel junk c s nows :
  net_ok s -> m_in_buf c = CSimpleBuffer.init ->
  zlen (wire_in s (m_handle c)) < Z.of_nat fuel ->
  5 * (zlen (wire_in s (m_handle c)) + 2048) < 4 * 2 ^ 32 ->
  exists c' s' got, let '(packets, rest, closed) := deframe got in
    read_run fuel junk c s [] nows = Ret (c', s', packets, closed) /\
    CSimpleBuffer.contents (m_in_buf c') = rest /\
    wire_in s (m_handle c) = got ++ wire_in s' (m_handle c).
Proof.
  intros Hok Hin Hf Hsz.
  destruct (read_run_spec fuel junk nows c s []) as (c'&s'&got&Hspec);
    rewrite ?Hin; [done|apply CSimpleBuffer.wf_init|apply Forall_nil_2|done
    |change (zlen (CSimpleBuffer.contents CSimpleBuffer.init)) with 0; lia..|].
  rewrite Hin in Hspec. change (CSimpleBuffer.contents CSimpleBuffer.init ++ got) with got in Hspec.
  exists c', s', got. destruct (deframe got) as [[fs rest] bad]. by destruct Hspec as (?&?&_&?).
Qed.

End Conn.

(** ** Evaluation on a connected socket *)

#[local] Existing Instances CBaseSocket.base_netlib CBaseSocket.demo_OS.

(** A socket with descriptor 5 registered, on a network with some input. *)
Definition demo_world (input : list Z) : CBaseSocket.world CBaseSocket.demo_os :=
  CBaseSocket.mkWorld {[ 5 := 0%nat ]}
    {[ 0%nat := CBaseSocket.mkSock 5 CBaseSocket.SOCKET_STATE_CONNECTED 1 ]} 1%nat (CBaseSocket.mkDemo [] input {[5]}).

Definition demo_conn (busy : bool) : t :=
  mk 5 busy CSimpleBuffer.init CSimpleBuffer.init 0 0 0.

Lemma demo_world_wf input : CBaseSocket.wf (demo_world input).
Proof.
  split_and!; simpl.
  - intros fd p [<- <-]%lookup_singleton_Some. split; [set_solver|]. eexists. by rewrite lookup_singleton_eq.
  - intros p s [<- <-]%lookup_singleton_Some. left. simpl. by rewrite lookup_singleton_eq.
  - done.
  - intros p Hp. apply lookup_singleton_ne. lia.
Qed.

(** Two sends while the connection waits for the socket, then a writable
    event. *)
Lemma send_stream_integrity_witness :
  exists c' s', out_run 100 (fun _ => 0) (demo_conn true) (demo_world [])
      [EvSend [1; 2] 7; EvSend [3] 8; EvOnWrite; EvSend [4] 9] = Ret (c', s') /\
    net_ok s' /\ out_ok c' /\
    out_stream c' s' = out_stream (demo_conn true) (demo_world []) ++ [1; 2; 3; 4].
Proof.
  apply (send_stream_integrity 100 (fun _ => 0)
    [EvSend [1; 2] 7; EvSend [3] 8; EvOnWrite; EvSend [4] 9] (demo_conn true) (demo_world [])).
  - apply demo_world_wf.
  - split; [apply CSimpleBuffer.wf_init|done].
  - vm_compute. done.
  - vm_compute. done.
Defined.

(** Two packets of sixteen bytes and the start of a third. *)
Definition demo_input : list Z :=
  [0;0;0;16;0;1;0;2;0;3;0;4;0;0;0;0] ++ [0;0;0;17;0;1;0;2;0;3;0;5;0;0;0;0;9] ++ [0;0].

Lemma read_chunking_independent_witness :
  exists c' s' got, let '(packets, rest, closed) := deframe got in
    read_run 100 (fun _ _ => 0) (demo_conn false) (demo_world demo_input) [] [1; 2] =
      Ret (c', s', packets, closed) /\
    CSimpleBuffer.contents (m_in_buf c') = rest /\
    wire_in (demo_world demo_input) 5 = got ++ wire_in s' 5.
Proof.
  apply (read_chunking_independent 100 (fun _ _ => 0) (demo_conn false) (demo_world demo_input) [1; 2]).
  - apply demo_world_wf.
  - done.
  - vm_compute. done.
  - vm_compute. done.
Defined.

Example read_run_packets :
  match read_run 100 (fun _ _ => 0) (demo_conn false) (demo_world demo_input) [] [1; 2] with
  | Ret (_, _, log, closed) => (length log, closed) = (2%nat, false)
  | _ => False
  end.
Proof. vm_compute. done. Qed.

End CImConn.
