(* ===== verification/EventDispatch.v ===== *)
(** * Timers of the event loop

    Models the timer list of [CEventDispatch]
    (src/src/ptp_global/EventDispatch.cpp): [AddTimer], [RemoveTimer] and
    [_CheckTimer], which walks the list with an iterator that it advances
    before it calls a timer's callback, because the callback may remove its own
    timer.  List nodes have identities, so that an iterator to a node that a
    callback has erased is seen as what it is: dangling.

    A callback is known by the pair of its function and its argument; what
    callbacks do to the timer list is an argument.  The socket side of the loop
    is in [NetLib]. *)

From S2P Require Import Prelude.

Module EventDispatch.

Definition key : Type := nat * nat.

Record TimerItem := mkItem { callback : key; interval : Z; next_tick : Z }.

Record t := mk { m_timer_list : list (nat * TimerItem); next_node : nat }.

Definition is_for (k : key) (x : nat * TimerItem) : bool := bool_decide (callback x.2 = k).

(** Update the first timer of the key, if there is one. *)
Fixpoint update_first (k : key) (item : TimerItem) (l : list (nat * TimerItem))
  : option (list (nat * TimerItem)) :=
  match l with
  | [] => None
  | x :: l =>
      if is_for k x then Some ((x.1, item) :: l)
      else match update_first k item l with Some l => Some (x :: l) | None => None end
  end.

Definition AddTimer (d : t) (k : key) (interval tick : Z) : t :=
  let item := mkItem k interval (u64 (tick + interval)) in
  match update_first k item (m_timer_list d) with
  | Some l => mk l (next_node d)
  | None => mk (m_timer_list d ++ [(next_node d, item)]) (S (next_node d))
  end.

Fixpoint remove_first (k : key) (l : list (nat * TimerItem)) : list (nat * TimerItem) :=
  match l with
  | [] => []
  | x :: l => if is_for k x then l else x :: remove_first k l
  end.

Definition RemoveTimer (d : t) (k : key) : t := mk (remove_first k (m_timer_list d)) (next_node d).

(** What a callback does to the timers. *)
Inductive action :=
| Add (k : key) (interval tick : Z)
| Remove (k : key).

Definition act (d : t) (a : action) : t :=
  match a with
  | Add k interval tick => AddTimer d k interval tick
  | Remove k => RemoveTimer d k
  end.

(** The node at an iterator and the one after it; [None] when the iterator
    dangles.  The end of the list is no node. *)
Fixpoint at_node (n : nat) (l : list (nat * TimerItem)) : option (TimerItem * option nat) :=
  match l with
  | [] => None
  | x :: l => if decide (x.1 = n) then Some (x.2, fst <$> head l) else at_node n l
  end.

Definition set_node (n : nat) (item : TimerItem) (l : list (nat * TimerItem))
  : list (nat * TimerItem) :=
  map (fun x => if decide (x.1 = n) then (n, item) else x) l.

Section Loop.
Variable effect : key -> list action.

(** The loop, from the iterator [it]; also gives the callbacks called. *)
Fixpoint check_from (fuel : nat) (curr_tick : Z) (it : option nat) (d : t)
  : outcome (t * list key) :=
  match fuel with
  | O => NoFuel
  | S fuel =>
      match it with
      | None => Ret (d, [])
      | Some n =>
          match at_node n (m_timer_list d) with
          | None => UB
          | Some (item, it) =>
              if next_tick item <=? curr_tick then
                let item' := mkItem (callback item) (interval item)
                  (u64 (next_tick item + interval item)) in
                let d := mk (set_node n item' (m_timer_list d)) (next_node d) in
                let d := foldl act d (effect (callback item)) in
                '(d, called) ← check_from fuel curr_tick it d;
                Ret (d, callback item :: called)
              else check_from fuel curr_tick it d
          end
      end
  end.

Definition _CheckTimer (fuel : nat) (curr_tick : Z) (d : t) : outcome (t * list key) :=
  check_from fuel curr_tick (fst <$> head (m_timer_list d)) d.

(** ** What a pass over the timers does *)

Definition wf (d : t) : Prop :=
  NoDup (map fst (m_timer_list d)) /\ NoDup (map (fun x => callback x.2) (m_timer_list d)) /\
  Forall (fun x => (x.1 < next_node d)%nat) (m_timer_list d).

(** The callbacks that the program's timers have: they leave the timers alone,
    or remove their own. *)
Definition tame (k : key) : Prop := effect k = [] \/ effect k = [Remove k].

Definition due (curr_tick : Z) (x : nat * TimerItem) : bool := next_tick x.2 <=? curr_tick.

(** A due timer moves on by exactly one interval, or is gone if its callback
    removed it. *)
Definition passed (curr_tick : Z) (x : nat * TimerItem) : list (nat * TimerItem) :=
  if due curr_tick x then
    match effect (callback x.2) with
    | [] => [(x.1, mkItem (callback x.2) (interval x.2) (u64 (next_tick x.2 + interval x.2)))]
    | _ => []
    end
  else [x].

Lemma at_node_split n item l1 l2 :
  n ∉ map fst l1 -> at_node n (l1 ++ (n, item) :: l2) = Some (item, fst <$> head l2).
Proof.
  induction l1 as [|x l1 IH]; cbn [map app at_node]; intros Hn.
  - by rewrite decide_True.
  - apply not_elem_of_cons in Hn as [Hne Hn]. rewrite decide_False by done. by apply IH.
Qed.

Lemma set_node_split n item item' l1 l2 :
  n ∉ map fst l1 -> n ∉ map fst l2 ->
  set_node n item' (l1 ++ (n, item) :: l2) = l1 ++ (n, item') :: l2.
Proof.
  intros H1 H2. unfold set_node. rewrite map_app. cbn [map]. rewrite decide_True by done.
  assert (forall l : list (nat * TimerItem), n ∉ map fst l ->
    map (fun x => if decide (x.1 = n) then (n, item') else x) l = l) as Hid.
  { induction l as [|x l IH]; cbn [map]; [done|]. intros [Hne Hl]%not_elem_of_cons.
    rewrite decide_False by done. by rewrite IH. }
  by rewrite !Hid.
Qed.

Lemma remove_first_split k n item l1 l2 :
  callback item = k -> k ∉ map (fun x => callback x.2) l1 ->
  remove_first k (l1 ++ (n, item) :: l2) = l1 ++ l2.
Proof.
  intros Hk. induction l1 as [|x l1 IH]; cbn [map app remove_first]; intros Hn.
  - unfold is_for. by rewrite bool_decide_eq_true_2.
  - apply not_elem_of_cons in Hn as [Hne Hn]. unfold is_for.
    rewrite bool_decide_eq_false_2 by done. by rewrite IH.
Qed.

(** The loop over the rest [l2] of a list, the nodes [l1] being behind it. *)
Lemma check_from_spec curr_tick l2 : forall fuel l1 n,
  (length l2 < fuel)%nat ->
  NoDup (map fst (l1 ++ l2)) -> NoDup (map (fun x => callback x.2) (l1 ++ l2)) ->
  Forall (fun x => tame (callback x.2)) l2 ->
  check_from fuel curr_tick (fst <$> head l2) (mk (l1 ++ l2) n) =
  Ret (mk (l1 ++ concat (map (passed curr_tick) l2)) n,
       map (fun x => callback x.2) (List.filter (due curr_tick) l2)).
Proof.
  induction l2 as [|[m item] l2 IH]; intros [|fuel] l1 n Hf Hn Hk Ht; cbn [length] in Hf; try lia.
  { done. }
  apply Forall_cons_1 in Ht as [Htame Ht]. cbn [snd] in Htame.
  rewrite map_app in Hn. rewrite map_app in Hk. pose proof Hn as Hn0. pose proof Hk as Hk0.
  apply list.NoDup_app in Hn as (Hn1&Hn2&Hn3). cbn [map] in Hn2, Hn3.
  apply list.NoDup_cons in Hn3 as [Hm3 Hn3].
  apply list.NoDup_app in Hk as (Hk1&Hk2&Hk3). cbn [map] in Hk2, Hk3.
  assert (m ∉ map fst l1) as Hm1 by (intros Hin; apply (Hn2 m Hin); by left).
  assert (callback item ∉ map (fun x => callback x.2) l1) as Hc1
    by (intros Hin; apply (Hk2 _ Hin); by left).
  cbn [head fmap option_fmap option_map fst check_from m_timer_list].
  rewrite at_node_split by done. cbn [map concat List.filter].
  assert (forall y, NoDup (map fst (l1 ++ (m, y) :: l2))) as Hn'
    by (intros y; rewrite map_app; exact Hn0).
  assert (forall y, callback y = callback item ->
    NoDup (map (fun x => callback x.2) (l1 ++ (m, y) :: l2))) as Hk'
    by (intros y Hy; rewrite map_app; cbn; rewrite Hy; exact Hk0).
  unfold passed at 1, due at 1 2. cbn [fst snd].
  destruct (next_tick item <=? curr_tick).
  - set (item' := mkItem _ _ _). cbn [next_node]. rewrite set_node_split by done.
    destruct Htame as [He|He]; rewrite He; cbn [foldl act].
    + specialize (IH fuel (l1 ++ [(m, item')]) n). rewrite <- app_assoc in IH. cbn [app] in IH.
      rewrite IH; [|lia|apply Hn'|by apply Hk'|done].
      mstep. cbn [map]. by rewrite <- app_assoc.
    + unfold RemoveTimer. cbn [m_timer_list next_node].
      rewrite remove_first_split by done. rewrite IH; [done|lia| | |done].
      * rewrite map_app. apply list.NoDup_app. split; [done|]. split; [|done].
        intros x Hx Hin. apply (Hn2 x Hx). by right.
      * rewrite map_app. apply list.NoDup_app. apply list.NoDup_cons in Hk3 as [_ Hk3].
        split; [done|]. split; [|done]. intros x Hx Hin. apply (Hk2 x Hx). by right.
  - specialize (IH fuel (l1 ++ [(m, item)]) n). rewrite <- app_assoc in IH. cbn [app] in IH.
    rewrite IH; [by rewrite <- app_assoc|lia|apply Hn'|by apply Hk'|done].
Qed.

Lemma update_first_spec k item l :
  callback item = k ->
  match update_first k item l with
  | Some l' => map fst l' = map fst l /\
      map (fun x => callback x.2) l' = map (fun x => callback x.2) l
  | None => k ∉ map (fun x => callback x.2) l
  end.
Proof.
  intros Hk. induction l as [|x l IH]; cbn [update_first map]; [apply not_elem_of_nil|].
  unfold is_for. case_bool_decide as Hx; [split; cbn; [done|by rewrite Hk, Hx]|].
  destruct (update_first k item l) as [l'|].
  - destruct IH as [H1 H2]. cbn [map]. by rewrite H1, H2.
  - apply not_elem_of_cons. auto.
Qed.

Lemma remove_first_sublist k l : remove_first k l `sublist_of` l.
Proof.
  induction l as [|x l IH]; cbn [remove_first]; [constructor|].
  destruct (is_for k x); [by apply sublist_cons|by apply sublist_skip].
Qed.

Lemma wf_sublist l l' n : l' `sublist_of` l -> wf (mk l n) -> wf (mk l' n).
Proof.
  intros Hl (H1&H2&H3). split_and!.
  - eapply sublist_NoDup; [exact H1|]. by apply fmap_sublist.
  - eapply sublist_NoDup; [exact H2|]. by apply fmap_sublist.
  - cbn in *. rewrite list.Forall_forall in H3 |- *. intros x Hx. apply H3.
    by eapply elem_of_sublist.
Qed.

Lemma wf_act d a : wf d -> wf (act d a).
Proof.
  destruct d as [l n]. intros Hwf. destruct a as [k i tick|k]; cbn [act].
  - unfold AddTimer. cbn [m_timer_list next_node]. set (item := mkItem k i _).
    pose proof (update_first_spec k item l eq_refl) as Hu.
    destruct (update_first k item l) as [l'|].
    + destruct Hu as [Hf Hc]. destruct Hwf as (H1&H2&H3). unfold wf in *. cbn in *.
      rewrite Hf, Hc. split_and!; try done.
      apply (List.Forall_map fst (fun x => (x < n)%nat)). rewrite Hf.
      by apply (List.Forall_map fst (fun x => (x < n)%nat)).
    + destruct Hwf as (H1&H2&H3). unfold wf in *. cbn in *. rewrite !map_app. cbn. split_and!.
      * apply list.NoDup_app. split; [done|]. split; [|apply NoDup_singleton].
        intros x (y&Hxy&Hy)%list_elem_of_fmap_1 Hx%list_elem_of_singleton.
        rewrite list.Forall_forall in H3. specialize (H3 _ Hy). cbn in *. lia.
      * apply list.NoDup_app. split; [done|]. split; [|apply NoDup_singleton].
        intros x Hx Heq%list_elem_of_singleton. by subst x.
      * apply Forall_app. split; [|forall_list; cbn; lia].
        eapply Forall_impl; [|exact H3]. intros x Hx. cbn in *. lia.
  - eapply wf_sublist; [apply remove_first_sublist|done].
Qed.

Lemma wf_acts acts : forall d, wf d -> wf (foldl act d acts).
Proof. induction acts as [|a acts IH]; intros d Hd; [done|]. by apply IH, wf_act. Qed.

(** A pass over the timers calls exactly the callbacks that are due, each
    once and in the order in which they were added, and moves each of those on
    by exactly one interval, so that they do not drift; the others are as
    before.  For the timers of any history of additions and removals, when the
    callbacks leave the timers alone or remove their own timer. *)
Theorem timers_fire_once curr_tick acts :
  let d := foldl act (mk [] 0) acts in
  Forall (fun x => tame (callback x.2)) (m_timer_list d) ->
  exists d', _CheckTimer (S (length (m_timer_list d))) curr_tick d =
      Ret (d', map (fun x => callback x.2) (List.filter (due curr_tick) (m_timer_list d))) /\
    m_timer_list d' = concat (map (passed curr_tick) (m_timer_list d)).
Proof.
  intros d Ht. assert (wf d) as (Hn&Hk&_).
  { apply wf_acts. split_and!; [apply NoDup_nil_2|apply NoDup_nil_2|apply Forall_nil_2]. }
  destruct d as [l n]. cbn [m_timer_list] in *. unfold _CheckTimer. cbn [m_timer_list].
  pose proof (check_from_spec curr_tick l (S (length l)) [] n) as Hspec. cbn [app] in Hspec.
  rewrite Hspec by (done || lia). by eexists.
Qed.

(** The iterator is safe only against a callback that removes its own
    timer: one that removes the timer after it leaves the loop with a dangling
    iterator. *)
Theorem removing_next_timer_dangles curr_tick fuel x y l n :
  wf (mk (x :: y :: l) n) -> due curr_tick x = true ->
  effect (callback x.2) = [Remove (callback y.2)] ->
  _CheckTimer (S (S fuel)) curr_tick (mk (x :: y :: l) n) = UB.
Proof.
  intros (Hn&Hk&_) Hd He. cbn [m_timer_list map] in Hn, Hk.
  apply list.NoDup_cons in Hn as [Hx Hn]. apply list.NoDup_cons in Hn as [Hy _].
  apply list.NoDup_cons in Hk as [Hxk _].
  unfold _CheckTimer. cbn [m_timer_list head fmap option_fmap option_map check_from at_node].
  rewrite decide_True by done. unfold due in Hd. rewrite Hd. cbn [head fmap option_fmap option_map].
  cbn [next_node].
  set (item' := mkItem _ _ _).
  pose proof (set_node_split x.1 x.2 item' [] (y :: l) (not_elem_of_nil _) Hx) as Hset.
  rewrite <- surjective_pairing in Hset. cbn [app] in Hset. rewrite Hset, He. cbn [foldl act].
  unfold RemoveTimer. cbn [m_timer_list next_node remove_first]. unfold is_for. cbn [snd callback item'].
  rewrite bool_decide_eq_false_2 by (intros Heq; apply Hxk; rewrite Heq; by left).
  rewrite bool_decide_eq_true_2 by done. cbn [check_from m_timer_list at_node fst].
  rewrite decide_False by (intros Heq; apply Hx; rewrite Heq; by left).
  assert (at_node y.1 l = None) as ->; [|done].
  clear -Hy. induction l as [|z l IH]; [done|]. cbn [map] in Hy. apply not_elem_of_cons in Hy as [Hne Hy].
  cbn [at_node]. rewrite decide_False by done. by apply IH.
Qed.

End Loop.

(** Timer (1, 0) removes itself when it fires. *)
Definition demo_effect (k : key) : list action :=
  if decide (k = (1, 0)%nat) then [Remove k] else [].

Definition demo_acts : list action :=
  [Add (1, 0)%nat 100 0; Add (2, 0)%nat 1000 0; Add (3, 0)%nat 250 0].

Lemma timers_fire_once_witness :
  let d := foldl act (mk [] 0) demo_acts in
  exists d', _CheckTimer demo_effect 4 300 d = Ret (d', [(1, 0); (3, 0)]%nat) /\
    m_timer_list d' = [(1%nat, mkItem (2, 0)%nat 1000 1000); (2%nat, mkItem (3, 0)%nat 250 500)].
Proof.
  apply (timers_fire_once demo_effect 300 demo_acts).
  change (m_timer_list _) with [(0%nat, mkItem (1, 0)%nat 100 100);
    (1%nat, mkItem (2, 0)%nat 1000 1000); (2%nat, mkItem (3, 0)%nat 250 250)].
  forall_list; [by right|by left|by left].
Defined.

Lemma removing_next_timer_dangles_witness :
  _CheckTimer (fun k => if decide (k = (1, 0)%nat) then [Remove (2, 0)%nat] else []) 2 300
    (mk [(0%nat, mkItem (1, 0)%nat 100 100); (1%nat, mkItem (2, 0)%nat 1000 1000)] 2) = UB.
Proof.
  apply (removing_next_timer_dangles (fun k => if decide (k = (1, 0)%nat) then [Remove (2, 0)%nat]
    else [])); [|done|done].
  split; [apply (bool_decide_unpack _); by vm_compute|].
  split; [apply (bool_decide_unpack _); by vm_compute|]. cbn. forall_list; cbn; lia.
Defined.

End EventDispatch.
