(* ===== verification/Timeouts.v ===== *)
(** * Timeouts of connections

    Models the [OnTimer] handlers that the one-second timers call:
    [CMsgSrvConn::OnTimer] (src/src/ptp_server/MsgSrvConn.cpp),
    [CBusinessClientConn::OnTimer] (BusinessClientConn.cpp) and
    [CBusinessSrvConn::OnTimer] (BusinessSrvConn.cpp).  Ticks are 64-bit
    milliseconds. *)

From Stdlib Require Import Sorted.
From S2P Require Import Prelude.

Definition SERVER_HEARTBEAT_INTERVAL : Z := 5000.
Definition SERVER_TIMEOUT : Z := 30000.
Definition CLIENT_TIMEOUT : Z := 120000.
Definition MOBILE_CLIENT_TIMEOUT : Z := 60000 * 5.
Definition TIMEOUT_WATI_LOGIN_RESPONSE : Z := 15000.
Definition TIMEOUT_WAITING_MSG_DATA_ACK : Z := 15000.

Definition CHECK_CLIENT_TYPE_MOBILE (type : Z) : bool := Z.land type 16 =? 16.

Module MsgSrvTimer.

Record msg_ack_t := mkAck { msg_id : Z; from_id : Z; timestamp : Z }.

Record t := mk {
  m_client_type : Z;
  m_bOpen : bool;
  m_last_recv_tick : Z;
  m_connected_time : Z;
  m_msg_cnt_per_sec : Z;
  m_send_msg_list : list msg_ack_t;
}.

(** The messages at the front whose acknowledgement is overdue are dropped and
    counted. *)
Fixpoint drop_missed (curr_tick : Z) (l : list msg_ack_t) (missed : Z) : list msg_ack_t * Z :=
  match l with
  | [] => ([], missed)
  | m :: rest =>
      if u64 (timestamp m + TIMEOUT_WAITING_MSG_DATA_ACK) <=? curr_tick
      then drop_missed curr_tick rest (u32 (missed + 1))
      else (l, missed)
  end.

(** [None] when the connection is closed. *)
Definition OnTimer (c : t) (curr_tick g_down_msg_miss_cnt : Z) : option (t * Z) :=
  let timeout :=
    if CHECK_CLIENT_TYPE_MOBILE (m_client_type c) then MOBILE_CLIENT_TIMEOUT else CLIENT_TIMEOUT in
  if u64 (m_last_recv_tick c + timeout) <? curr_tick then None
  else if negb (m_bOpen c) &&
    (u64 (m_connected_time c + TIMEOUT_WATI_LOGIN_RESPONSE) <? curr_tick) then None
  else
    let '(l, missed) := drop_missed curr_tick (m_send_msg_list c) g_down_msg_miss_cnt in
    Some (mk (m_client_type c) (m_bOpen c) (m_last_recv_tick c) (m_connected_time c) 0 l, missed).

Definition timeout_of (c : t) : Z :=
  if CHECK_CLIENT_TYPE_MOBILE (m_client_type c) then 300000 else 120000.

(** The acknowledgement is not overdue. *)
Definition fresh (curr_tick : Z) (m : msg_ack_t) : bool := curr_tick <? timestamp m + 15000.

Definition tick_ok (z : Z) : Prop := 0 <= z < 2 ^ 63.

Lemma fresh_all curr_tick l m :
  fresh curr_tick m = true -> Sorted (fun a b => timestamp a <= timestamp b) (m :: l) ->
  List.filter (fresh curr_tick) l = l.
Proof.
  intros Hm Hs. apply Sorted_StronglySorted in Hs; [|intros x y z; lia].
  apply StronglySorted_inv in Hs as [_ Hall]. induction Hall as [|x l Hx _ IH]; [done|].
  cbn [List.filter]. unfold fresh in *. rewrite (proj2 (Z.ltb_lt _ _)) by lia. by rewrite IH.
Qed.

Lemma drop_missed_spec curr_tick l : forall missed,
  Forall (fun m => tick_ok (timestamp m)) l ->
  Sorted (fun a b => timestamp a <= timestamp b) l -> is_u 32 missed ->
  drop_missed curr_tick l missed =
  (List.filter (fresh curr_tick) l,
   u32 (missed + zlen l - zlen (List.filter (fresh curr_tick) l))).
Proof.
  induction l as [|m l IH]; intros missed Hok Hs Hu; cbn [drop_missed].
  { cbn. rewrite zlen_nil. f_equal. rewrite wrap_u_small; [lia|]. by replace (missed + 0 - 0) with missed by lia. }
  apply Forall_cons_1 in Hok as [Hm Hok]. unfold tick_ok in Hm.
  rewrite wrap_u_small by (unfold is_u, TIMEOUT_WAITING_MSG_DATA_ACK; lia).
  cbn [List.filter]. unfold TIMEOUT_WAITING_MSG_DATA_ACK.
  destruct (Z.leb_spec (timestamp m + 15000) curr_tick) as [Hle|Hgt].
  - assert (fresh curr_tick m = false) as -> by (apply Z.ltb_ge; lia).
    rewrite IH; [|done|by apply Sorted_inv in Hs as [? _]|apply wrap_u_range; lia].
    f_equal. rewrite zlen_cons. unfold wrap_u. rewrite <- Zminus_mod_idemp_l.
    rewrite Zplus_mod_idemp_l, Zminus_mod_idemp_l. f_equal. lia.
  - assert (fresh curr_tick m = true) as Hf by (apply Z.ltb_lt; lia).
    rewrite Hf, (fresh_all curr_tick l m Hf Hs). f_equal.
    rewrite wrap_u_small; unfold is_u in *; lia.
Qed.

(** The timer of a client connection closes it exactly when the client has
    been silent for longer than its kind allows (five minutes for mobile
    clients, two for others), or has not logged in fifteen seconds after it
    connected; otherwise it resets the message counter, and of the messages
    sent in order it keeps exactly those whose acknowledgement is not overdue
    and counts the others as missed. *)
Theorem client_timeout_exact c curr_tick missed :
  tick_ok (m_last_recv_tick c) -> tick_ok (m_connected_time c) -> is_u 32 missed ->
  Forall (fun m => tick_ok (timestamp m)) (m_send_msg_list c) ->
  Sorted (fun a b => timestamp a <= timestamp b) (m_send_msg_list c) ->
  (OnTimer c curr_tick missed = None <->
     m_last_recv_tick c + timeout_of c < curr_tick \/
     m_bOpen c = false /\ m_connected_time c + 15000 < curr_tick) /\
  (forall c' missed', OnTimer c curr_tick missed = Some (c', missed') ->
     m_msg_cnt_per_sec c' = 0 /\ m_bOpen c' = m_bOpen c /\
     m_send_msg_list c' = List.filter (fresh curr_tick) (m_send_msg_list c) /\
     missed' = u32 (missed + zlen (m_send_msg_list c) - zlen (m_send_msg_list c'))).
Proof.
  intros Hr Hc Hu Hok Hs. unfold OnTimer, timeout_of, tick_ok in *.
  set (timeout := if CHECK_CLIENT_TYPE_MOBILE _ then MOBILE_CLIENT_TIMEOUT else _).
  assert (timeout = if CHECK_CLIENT_TYPE_MOBILE (m_client_type c) then 300000 else 120000) as <-
    by (unfold timeout; by destruct (CHECK_CLIENT_TYPE_MOBILE _)).
  assert (0 < timeout <= 300000) as Ht.
  { unfold timeout, MOBILE_CLIENT_TIMEOUT, CLIENT_TIMEOUT. destruct (CHECK_CLIENT_TYPE_MOBILE _); lia. }
  clearbody timeout. rewrite !wrap_u_small by (unfold is_u, TIMEOUT_WATI_LOGIN_RESPONSE; lia).
  unfold TIMEOUT_WATI_LOGIN_RESPONSE. rewrite drop_missed_spec by done.
  destruct (Z.ltb_spec (m_last_recv_tick c + timeout) curr_tick) as [H1|H1].
  { split; [split; [by left|done]|done]. }
  destruct (m_bOpen c); cbn [negb andb].
  - split; [|by intros c' missed' [= <- <-]]. split; [done|]. intros [?|[? _]]; [lia|done].
  - destruct (Z.ltb_spec (m_connected_time c + 15000) curr_tick) as [H2|H2].
    + split; [split; [by right|done]|done].
    + split; [|by intros c' missed' [= <- <-]]. split; [done|]. intros [?|[_ ?]]; lia.
Qed.

Definition demo : t :=
  mk 17 true 1000 0 12 [mkAck 1 5 1000; mkAck 2 5 20000; mkAck 3 5 30000].

Lemma client_timeout_exact_witness :
  (OnTimer demo 33000 7 = None <-> 1000 + 300000 < 33000 \/ true = false /\ 0 + 15000 < 33000) /\
  (forall c' missed', OnTimer demo 33000 7 = Some (c', missed') ->
     m_msg_cnt_per_sec c' = 0 /\ m_bOpen c' = true /\
     m_send_msg_list c' = List.filter (fresh 33000) (m_send_msg_list demo) /\
     missed' = u32 (7 + zlen (m_send_msg_list demo) - zlen (m_send_msg_list c'))).
Proof.
  apply (client_timeout_exact demo 33000 7).
  - by vm_compute.
  - by vm_compute.
  - by vm_compute.
  - unfold demo. cbn [m_send_msg_list]. forall_list; by vm_compute.
  - unfold demo. cbn [m_send_msg_list]. repeat constructor; by vm_compute.
Defined.

End MsgSrvTimer.

(** ** Connections between servers

    [CBusinessClientConn::OnTimer] and [CBusinessSrvConn::OnTimer] do the same:
    a heartbeat when nothing was sent for a while, and [Close] when nothing was
    received for long.  Sending sets the tick of the last send. *)

Module ServerTimer.

Record t := mk { m_last_send_tick : Z; m_last_recv_tick : Z }.

(** The new state, whether a heartbeat was sent, and whether the connection was
    closed. *)
Definition OnTimer (c : t) (curr_tick : Z) : t * bool * bool :=
  let beat := u64 (m_last_send_tick c + SERVER_HEARTBEAT_INTERVAL) <? curr_tick in
  let c := if beat then mk curr_tick (m_last_recv_tick c) else c in
  (c, beat, u64 (m_last_recv_tick c + SERVER_TIMEOUT) <? curr_tick).

(** The ticks at which heartbeats are sent, when the timer runs at the ticks of
    a list. *)
Fixpoint beats (c : t) (ticks : list Z) : list Z :=
  match ticks with
  | [] => []
  | now :: ticks =>
      let '(c, beat, _) := OnTimer c now in
      (if (beat : bool) then [now] else []) ++ beats c ticks
  end.

(** Ticks at most [period] apart, from a tick on. *)
Fixpoint regular (period from : Z) (ticks : list Z) : Prop :=
  match ticks with
  | [] => True
  | now :: ticks => from <= now <= from + period /\ now < 2 ^ 63 /\ regular period now ticks
  end.

Fixpoint last_of (from : Z) (ticks : list Z) : Z :=
  match ticks with
  | [] => from
  | now :: ticks => last_of now ticks
  end.

(** At every time there was a send not long ago. *)
Lemma beats_dense period ticks : forall c from time,
  0 <= period <= 2 ^ 32 -> 0 <= m_last_send_tick c <= from -> from <= m_last_send_tick c + 5000 ->
  from < 2 ^ 63 -> regular period from ticks ->
  m_last_send_tick c <= time <= last_of from ticks ->
  exists b, b ∈ m_last_send_tick c :: beats c ticks /\ b <= time <= b + 5000 + period.
Proof.
  induction ticks as [|now ticks IH]; intros c from time Hp Hs Hf Hm Hreg Ht; cbn [last_of] in Ht.
  { exists (m_last_send_tick c). split; [by left|lia]. }
  destruct Hreg as (Hnow&Hmax&Hreg). cbn [beats]. unfold OnTimer, SERVER_HEARTBEAT_INTERVAL.
  rewrite (wrap_u_small 64 (m_last_send_tick c + 5000)) by (unfold is_u; lia).
  destruct (Z.ltb_spec (m_last_send_tick c + 5000) now) as [Hbeat|Hquiet]; cbn [app].
  - destruct (decide (time < now)) as [Hlt|Hge].
    { exists (m_last_send_tick c). split; [by left|lia]. }
    destruct (IH (mk now (m_last_recv_tick c)) now time) as (b&Hb&Hbt);
      cbn [m_last_send_tick] in *; [done|lia|lia|done|done|lia|].
    exists b. split; [by right|done].
  - destruct (IH c now time) as (b&Hb&Hbt); [done|lia|done|done|done|lia|].
    exists b. done.
Qed.

(** Heartbeats keep a connection between servers alive: when one end's
    timer runs at least every [period] and what it sends arrives within
    [delay], with 5 seconds, the period and the delay together at most 30
    seconds, then the other end's timer does not close the connection, however
    little else is sent. *)
Theorem heartbeats_keep_alive c period delay ticks time r s :
  0 <= m_last_send_tick c < 2 ^ 63 -> 0 <= period -> 0 <= delay -> 5000 + period + delay <= 30000 ->
  regular period (m_last_send_tick c) ticks ->
  m_last_send_tick c + delay <= time <= last_of (m_last_send_tick c) ticks + delay ->
  0 <= r < 2 ^ 63 ->
  (forall b, b ∈ m_last_send_tick c :: beats c ticks -> b + delay <= time -> b <= r) ->
  (OnTimer (mk s r) time).2 = false.
Proof.
  intros Hs Hp Hd Hsum Hreg Ht Hr Harrived.
  destruct (beats_dense period ticks c (m_last_send_tick c) (time - delay)) as (b&Hb&Hbt);
    [lia|lia|lia|lia|done|lia|].
  pose proof (Harrived b Hb ltac:(lia)). unfold OnTimer. cbn [snd].
  match goal with |- (u64 (m_last_recv_tick ?c' + _) <? _) = _ =>
    assert (m_last_recv_tick c' = r) as -> by (by case_match) end.
  unfold SERVER_TIMEOUT. rewrite wrap_u_small by (unfold is_u; lia). apply Z.ltb_ge. lia.
Qed.

Lemma heartbeats_keep_alive_witness :
  (OnTimer (mk 0 18050) 19100).2 = false.
Proof.
  apply (heartbeats_keep_alive (mk 1000 0) 6000 100 [6000; 12000; 18000; 24000] 19100 18050 0);
    try (vm_compute; split; congruence); try (vm_compute; congruence).
  - cbn. lia.
  - intros b Hb Hle. change (beats (mk 1000 0) [6000; 12000; 18000; 24000]) with [12000; 18000; 24000] in Hb.
    rewrite !list.elem_of_cons in Hb.
    destruct Hb as [->|[->|[->|[->|Hb%not_elem_of_nil]]]]; cbn in *; try lia; done.
Defined.

End ServerTimer.
