(* ===== verification/NativeByteBuffer.v ===== *)
(** * NativeByteBuffer: typed serialisation into a bounded buffer

    Models src/src/ptp_net/NativeByteBuffer.{h,cpp} (the branches compiled
    without ANDROID) and ByteArray.{h,cpp}.  A buffer has a position, a limit
    and a capacity; a buffer made with [calculateSizeOnly] has no memory and
    only adds up what would be written.  The [bool *error] parameter of the
    code is an [option bool]: [None] is a null pointer. *)

From S2P Require Import Prelude.

(** ** Memory given out by [new uint8_t[n]] *)

Definition alloc_bytes (junk : nat -> Z) (n : Z) : list Z :=
  map (fun i => u8 (junk i)) (seq 0 (Z.to_nat n)).

Lemma alloc_bytes_len junk n : 0 <= n -> zlen (alloc_bytes junk n) = n.
Proof. intros. unfold alloc_bytes. zlia. Qed.

Lemma alloc_bytes_ok junk n : bytes_ok (alloc_bytes junk n).
Proof. apply List.Forall_map, Forall_true. intros. by apply wrap_u_range. Qed.

Module ByteArray.

Record t := mk { length : Z; bytes : list Z }.

Definition empty : t := mk 0 [].

Definition new_len (junk : nat -> Z) (len : Z) : t := mk len (alloc_bytes junk len).

Definition of_buffer (junk : nat -> Z) (buffer : list Z) (len : Z) : outcome t :=
  src ← mem_read buffer 0 len;
  m ← mem_write (alloc_bytes junk len) 0 src;
  Ret (mk len m).

Definition copy (junk : nat -> Z) (byteArray : t) : outcome t :=
  of_buffer junk (bytes byteArray) (length byteArray).

Definition alloc (junk : nat -> Z) (b : t) (len : Z) : t := mk len (alloc_bytes junk len).

Definition isEqualTo (b byteArray : t) : outcome bool :=
  if length byteArray =? length b then
    x ← mem_read (bytes byteArray) 0 (length b);
    y ← mem_read (bytes b) 0 (length b);
    Ret (bool_decide (x = y))
  else Ret false.

Definition wf (b : t) : Prop := length b = zlen (bytes b).

(** A copy compares equal to its source. *)
Lemma copy_spec junk b : wf b -> copy junk b = Ret b.
Proof.
  intros Hwf. unfold copy, of_buffer. destruct b as [n bs]. unfold wf in Hwf. simpl in *. subst n.
  pose proof (zlen_nonneg bs). rewrite mem_read_ok, zdrop_0 by lia. mstep.
  rewrite (ztake_all _ bs) by lia. rewrite <- (app_nil_r (alloc_bytes junk (zlen bs))).
  rewrite mem_write_here by (by rewrite alloc_bytes_len). mstep. by rewrite app_nil_r.
Qed.

Lemma isEqualTo_spec a b : wf a -> wf b -> isEqualTo a b = Ret (bool_decide (bytes a = bytes b)).
Proof.
  unfold wf. intros Ha Hb. unfold isEqualTo. pose proof (zlen_nonneg (bytes a)).
  destruct (Z.eqb_spec (length b) (length a)) as [He|He].
  - rewrite !mem_read_ok, !zdrop_0 by lia. mstep. rewrite !ztake_all by lia.
    f_equal. apply bool_decide_ext. naive_solver.
  - rewrite bool_decide_eq_false_2; [done|congruence].
Qed.

End ByteArray.

Module NativeByteBuffer.

Record t := mk {
  buffer : list Z;
  calculateSizeOnly : bool;
  sliced : bool;
  _position : Z;
  _limit : Z;
  _capacity : Z;
  bufferOwner : bool;
}.

Abbreviation err := (option bool).

Definition set_error (error : err) : err := option_map (fun _ => true) error.

Definition set_buffer (b : t) (m : list Z) : t :=
  mk m (calculateSizeOnly b) (sliced b) (_position b) (_limit b) (_capacity b) (bufferOwner b).

Definition set_pos (b : t) (p : Z) : t :=
  mk (buffer b) (calculateSizeOnly b) (sliced b) p (_limit b) (_capacity b) (bufferOwner b).

Definition set_lim (b : t) (l : Z) : t :=
  mk (buffer b) (calculateSizeOnly b) (sliced b) (_position b) l (_capacity b) (bufferOwner b).

Definition set_cap (b : t) (c : Z) : t :=
  mk (buffer b) (calculateSizeOnly b) (sliced b) (_position b) (_limit b) c (bufferOwner b).

(** ** Constructors *)

Definition new_size (junk : nat -> Z) (size : Z) : t :=
  mk (alloc_bytes junk size) false false 0 size size true.

Definition new_calculate (calculate : bool) : t := mk [] calculate false 0 0 0 true.

Definition new_slice (buff : list Z) (length : Z) : t := mk buff false true 0 length length true.

(** ** Position, limit and capacity *)

Definition position (b : t) : Z := _position b.

Definition position_set (b : t) (position : Z) : t :=
  if _limit b <? position then b else set_pos b position.

Definition capacity (b : t) : Z := _capacity b.

Definition limit (b : t) : Z := _limit b.

Definition remaining (b : t) : Z := u32 (_limit b - _position b).

Definition clearCapacity (b : t) : t :=
  if calculateSizeOnly b then set_cap b 0 else b.

Definition limit_set (b : t) (limit : Z) : t :=
  if _capacity b <? limit then b
  else
    let b := if limit <? _position b then set_pos b limit else b in
    set_lim b limit.

Definition flip (b : t) : t := set_pos (set_lim b (_position b)) 0.

Definition clear (b : t) : t := set_lim (set_pos b 0) (_capacity b).

Definition rewind (b : t) : t := set_pos b 0.

Definition compact (b : t) : outcome t :=
  if _position b =? _limit b then Ret b
  else
    bs ← mem_read (buffer b) (_position b) (u32 (_limit b - _position b));
    m ← mem_write (buffer b) 0 bs;
    Ret (set_lim (set_pos (set_buffer b m) (u32 (_limit b - _position b))) (_capacity b)).

Definition hasRemaining (b : t) : bool := _position b <? _limit b.

Definition skip (b : t) (length : Z) : t :=
  if negb (calculateSizeOnly b) then
    if _limit b <? u32 (_position b + length) then b
    else set_pos b (u32 (_position b + length))
  else set_cap b (u32 (_capacity b + length)).

(** ** Writing *)

(** [buffer[_position++] = x] for each [x] in turn. *)
Fixpoint put_bytes (b : t) (xs : list Z) : outcome t :=
  match xs with
  | [] => Ret b
  | x :: xs =>
      m ← mem_write (buffer b) (_position b) [x];
      put_bytes (set_pos (set_buffer b m) (u32 (_position b + 1))) xs
  end.

Definition le32 (x : Z) : list Z :=
  [u8 x; u8 (Z.shiftr x 8); u8 (Z.shiftr x 16); u8 (Z.shiftr x 24)].

Definition le64 (x : Z) : list Z :=
  [u8 x; u8 (Z.shiftr x 8); u8 (Z.shiftr x 16); u8 (Z.shiftr x 24);
   u8 (Z.shiftr x 32); u8 (Z.shiftr x 40); u8 (Z.shiftr x 48); u8 (Z.shiftr x 56)].

Definition writeInt32 (b : t) (x : Z) (error : err) : outcome (t * err) :=
  if negb (calculateSizeOnly b) then
    if _limit b <? u32 (_position b + 4) then Ret (b, set_error error)
    else b ← put_bytes b (le32 x); Ret (b, error)
  else Ret (set_cap b (u32 (_capacity b + 4)), error).

Definition writeInt64 (b : t) (x : Z) (error : err) : outcome (t * err) :=
  if negb (calculateSizeOnly b) then
    if _limit b <? u32 (_position b + 8) then Ret (b, set_error error)
    else b ← put_bytes b (le64 x); Ret (b, error)
  else Ret (set_cap b (u32 (_capacity b + 8)), error).

Definition bool_true : Z := 0x997275b5.
Definition bool_false : Z := 0xbc799737.

Definition writeBool (b : t) (value : bool) (error : err) : outcome (t * err) :=
  if negb (calculateSizeOnly b) then
    if value then writeInt32 b (i32 bool_true) error else writeInt32 b (i32 bool_false) error
  else Ret (set_cap b (u32 (_capacity b + 4)), error).

Definition writeBytesInternal (b : t) (src : list Z) (offset length : Z) : outcome t :=
  bs ← mem_read src offset length;
  m ← mem_write (buffer b) (_position b) bs;
  Ret (set_pos (set_buffer b m) (u32 (_position b + length))).

Definition writeBytes_off (b : t) (src : list Z) (offset length : Z) (error : err)
  : outcome (t * err) :=
  if negb (calculateSizeOnly b) then
    if _limit b <? u32 (_position b + length) then Ret (b, set_error error)
    else b ← writeBytesInternal b src offset length; Ret (b, error)
  else Ret (set_cap b (u32 (_capacity b + length)), error).

Definition writeBytes (b : t) (src : list Z) (length : Z) (error : err) : outcome (t * err) :=
  if negb (calculateSizeOnly b) then
    if _limit b <? u32 (_position b + length) then Ret (b, set_error error)
    else b ← writeBytesInternal b src 0 length; Ret (b, error)
  else Ret (set_cap b (u32 (_capacity b + length)), error).

Definition writeBytes_array (b : t) (src : ByteArray.t) (error : err) : outcome (t * err) :=
  if negb (calculateSizeOnly b) then
    if _limit b <? u32 (_position b + ByteArray.length src) then Ret (b, set_error error)
    else b ← writeBytesInternal b (ByteArray.bytes src) 0 (ByteArray.length src); Ret (b, error)
  else Ret (set_cap b (u32 (_capacity b + ByteArray.length src)), error).

(** The source is another buffer, whose unread bytes are consumed. *)
Definition writeBytes_buffer (b src : t) (error : err) : outcome (t * t * err) :=
  let length := u32 (_limit src - _position src) in
  if length =? 0 then Ret (b, src, error)
  else if negb (calculateSizeOnly b) then
    if _limit b <? u32 (_position b + length) then Ret (b, src, set_error error)
    else
      b ← writeBytesInternal b (zdrop (_position src) (buffer src)) 0 length;
      Ret (b, position_set src (limit src), error)
  else Ret (set_cap b (u32 (_capacity b + length)), src, error).

Definition writeByte (b : t) (i : Z) (error : err) : outcome (t * err) :=
  if negb (calculateSizeOnly b) then
    if _limit b <? u32 (_position b + 1) then Ret (b, set_error error)
    else b ← put_bytes b [i]; Ret (b, error)
  else Ret (set_cap b (u32 (_capacity b + 1)), error).

(** The length prefix of a byte array; the flag says that it did not fit. *)
Definition write_length (b : t) (length : Z) : outcome (t * bool) :=
  if length <=? 253 then
    if negb (calculateSizeOnly b) then
      if _limit b <? u32 (_position b + 1) then Ret (b, true)
      else b ← put_bytes b [u8 length]; Ret (b, false)
    else Ret (set_cap b (u32 (_capacity b + 1)), false)
  else
    if negb (calculateSizeOnly b) then
      if _limit b <? u32 (_position b + 4) then Ret (b, true)
      else
        b ← put_bytes b [254; u8 length; u8 (Z.shiftr length 8); u8 (Z.shiftr length 16)];
        Ret (b, false)
    else Ret (set_cap b (u32 (_capacity b + 4)), false).

Definition addition_of (length prefix : Z) : Z :=
  let addition := u32 (length + prefix) mod 4 in
  if negb (addition =? 0) then 4 - addition else addition.

Fixpoint pad_loop (n : nat) (b : t) : outcome t :=
  match n with
  | O => Ret b
  | S n =>
      b ← (if negb (calculateSizeOnly b) then put_bytes b [0]
           else Ret (set_cap b (u32 (_capacity b + 1))));
      pad_loop n b
  end.

Definition writeByteArray (b : t) (src : list Z) (offset length : Z) (error : err)
  : outcome (t * err) :=
  '(b, stop) ← write_length b length;
  if (stop : bool) then Ret (b, set_error error)
  else
    '(b, stop) ←
      (if negb (calculateSizeOnly b) then
         if _limit b <? u32 (_position b + length) then Ret (b, true)
         else b ← writeBytesInternal b src offset length; Ret (b, false)
       else Ret (set_cap b (u32 (_capacity b + length)), false));
    if (stop : bool) then Ret (b, set_error error)
    else
      let addition := addition_of length (if length <=? 253 then 1 else 4) in
      if negb (calculateSizeOnly b) && (_limit b <? u32 (_position b + addition))
      then Ret (b, set_error error)
      else b ← pad_loop (Z.to_nat addition) b; Ret (b, error).

Definition writeString (b : t) (s : list Z) (error : err) : outcome (t * err) :=
  writeByteArray b s 0 (u32 (zlen s)) error.

Definition writeByteArray_array (b : t) (src : ByteArray.t) (error : err) : outcome (t * err) :=
  writeByteArray b (ByteArray.bytes src) 0 (ByteArray.length src) error.

Definition writeByteArray_buffer (b src : t) (error : err) : outcome (t * t * err) :=
  let src := rewind src in
  '(b, error) ← writeByteArray b (buffer src) 0 (limit src) error;
  Ret (b, src, error).

(** A [double] is its 64-bit pattern. *)
Definition writeDouble (b : t) (d : Z) (error : err) : outcome (t * err) :=
  writeInt64 b (i64 d) error.

(** ** Reading *)

Definition get_byte (b : t) (k : Z) : outcome Z := mem_get (buffer b) (u32 (_position b + k)).

Definition readInt32 (b : t) (error : err) : outcome (t * Z * err) :=
  if _limit b <? u32 (_position b + 4) then Ret (b, 0, set_error error)
  else
    b0 ← get_byte b 0; b1 ← get_byte b 1; b2 ← get_byte b 2; b3 ← get_byte b 3;
    let result := i32 (Z.lor (Z.lor (Z.lor (Z.land b0 255) (Z.shiftl (Z.land b1 255) 8))
      (Z.shiftl (Z.land b2 255) 16)) (Z.shiftl (Z.land b3 255) 24)) in
    Ret (set_pos b (u32 (_position b + 4)), result, error).

Definition readUint32 (b : t) (error : err) : outcome (t * Z * err) :=
  '(b, x, error) ← readInt32 b error; Ret (b, u32 x, error).

Definition readBigInt32 (b : t) (error : err) : outcome (t * Z * err) :=
  if _limit b <? u32 (_position b + 4) then Ret (b, 0, set_error error)
  else
    b0 ← get_byte b 0; b1 ← get_byte b 1; b2 ← get_byte b 2; b3 ← get_byte b 3;
    let result := i32 (Z.lor (Z.lor (Z.lor (Z.shiftl (Z.land b0 255) 24)
      (Z.shiftl (Z.land b1 255) 16)) (Z.shiftl (Z.land b2 255) 8)) (Z.land b3 255)) in
    Ret (set_pos b (u32 (_position b + 4)), result, error).

Definition readInt64 (b : t) (error : err) : outcome (t * Z * err) :=
  if _limit b <? u32 (_position b + 8) then Ret (b, 0, set_error error)
  else
    b0 ← get_byte b 0; b1 ← get_byte b 1; b2 ← get_byte b 2; b3 ← get_byte b 3;
    b4 ← get_byte b 4; b5 ← get_byte b 5; b6 ← get_byte b 6; b7 ← get_byte b 7;
    let result := i64 (Z.lor (Z.lor (Z.lor (Z.lor (Z.lor (Z.lor (Z.lor
      (Z.land b0 255) (Z.shiftl (Z.land b1 255) 8))
      (Z.shiftl (Z.land b2 255) 16)) (Z.shiftl (Z.land b3 255) 24))
      (Z.shiftl (Z.land b4 255) 32)) (Z.shiftl (Z.land b5 255) 40))
      (Z.shiftl (Z.land b6 255) 48)) (Z.shiftl (Z.land b7 255) 56)) in
    Ret (set_pos b (u32 (_position b + 8)), result, error).

Definition readUint64 (b : t) (error : err) : outcome (t * Z * err) :=
  '(b, x, error) ← readInt64 b error; Ret (b, u64 x, error).

Definition readByte (b : t) (error : err) : outcome (t * Z * err) :=
  if _limit b <? u32 (_position b + 1) then Ret (b, 0, set_error error)
  else
    x ← get_byte b 0;
    Ret (set_pos b (u32 (_position b + 1)), x, error).

Definition readBool (b : t) (error : err) : outcome (t * bool * err) :=
  '(b, consructor, error) ← readUint32 b error;
  if consructor =? bool_true then Ret (b, true, error)
  else if consructor =? bool_false then Ret (b, false, error)
  else Ret (b, false, set_error error).

(** Bytes into memory [dst] of the caller. *)
Definition readBytes_into (b : t) (dst : list Z) (length : Z) (error : err)
  : outcome (t * list Z * err) :=
  if u32 (_limit b - _position b) <? length then Ret (b, dst, set_error error)
  else
    bs ← mem_read (buffer b) (_position b) length;
    dst ← mem_write dst 0 bs;
    Ret (set_pos b (u32 (_position b + length)), dst, error).

Definition readBytes (junk : nat -> Z) (b : t) (length : Z) (error : err)
  : outcome (t * option ByteArray.t * err) :=
  if u32 (_limit b - _position b) <? length then Ret (b, None, set_error error)
  else
    let byteArray := ByteArray.new_len junk length in
    bs ← mem_read (buffer b) (_position b) length;
    m ← mem_write (ByteArray.bytes byteArray) 0 bs;
    Ret (set_pos b (u32 (_position b + length)), Some (ByteArray.mk length m), error).

(** The length prefix and the padding that [readString], [readByteArray] and
    [readByteBuffer] start with; [None] is their error return. *)
Definition read_length (b : t) : outcome (t * option (Z * Z)) :=
  if _limit b <? u32 (_position b + 1) then Ret (b, None)
  else
    l ← get_byte b 0;
    let b := set_pos b (u32 (_position b + 1)) in
    '(b, header) ←
      (if 254 <=? l then
         if _limit b <? u32 (_position b + 3) then Ret (b, None)
         else
           b0 ← get_byte b 0; b1 ← get_byte b 1; b2 ← get_byte b 2;
           Ret (set_pos b (u32 (_position b + 3)),
                Some (Z.lor (Z.lor b0 (Z.shiftl b1 8)) (Z.shiftl b2 16), 4))
       else Ret (b, Some (l, 1)));
    match header with
    | None => Ret (b, None)
    | Some (l, sl) =>
        let addition := addition_of l sl in
        if _limit b <? u32 (_position b + l + addition) then Ret (b, None)
        else Ret (b, Some (l, addition))
    end.

Definition readString (b : t) (error : err) : outcome (t * list Z * err) :=
  '(b, header) ← read_length b;
  match header with
  | None => Ret (b, [], set_error error)
  | Some (l, addition) =>
      result ← mem_read (buffer b) (_position b) l;
      Ret (set_pos b (u32 (_position b + u32 (l + addition))), result, error)
  end.

Definition readByteArray (junk : nat -> Z) (b : t) (error : err)
  : outcome (t * option ByteArray.t * err) :=
  '(b, header) ← read_length b;
  match header with
  | None => Ret (b, None, set_error error)
  | Some (l, addition) =>
      let result := ByteArray.new_len junk l in
      bs ← mem_read (buffer b) (_position b) l;
      m ← mem_write (ByteArray.bytes result) 0 bs;
      Ret (set_pos b (u32 (_position b + u32 (l + addition))), Some (ByteArray.mk l m), error)
  end.

Definition readDouble (b : t) (error : err) : outcome (t * Z * err) :=
  '(b, x, error) ← readInt64 b error; Ret (b, u64 x, error).

Definition copyBuffer (b : t) (offset length : Z) (buf : list Z) : outcome (list Z) :=
  bs ← mem_read (buffer b) offset length; mem_write buf 0 bs.

(** ** Well-formed buffers

    A buffer with memory, whose capacity is below 2^31; the arithmetic on
    positions then never wraps. *)

Definition wf (b : t) : Prop :=
  calculateSizeOnly b = false /\
  0 <= _position b <= _limit b /\ _limit b <= _capacity b /\
  _capacity b <= zlen (buffer b) /\ _capacity b < 2 ^ 31 /\ bytes_ok (buffer b).

(** What has been written, and what is there to be read. *)
Definition written (b : t) : list Z := ztake (_position b) (buffer b).

Definition unread (b : t) : list Z := zdrop (_position b) (ztake (_limit b) (buffer b)).

Definition append (b : t) (bs : list Z) : t :=
  set_pos (set_buffer b (ztake (_position b) (buffer b) ++ bs ++
    zdrop (_position b + zlen bs) (buffer b))) (_position b + zlen bs).

Definition advance (b : t) (n : Z) : t := set_pos b (_position b + n).

Ltac wf_lia := unfold wf, is_u in *; cbn in *; lia.

Lemma u32_pos b n : wf b -> 0 <= n < 2 ^ 31 -> u32 (_position b + n) = _position b + n.
Proof. intros. apply wrap_u_small. wf_lia. Qed.

Lemma remaining_eq b : wf b -> u32 (_limit b - _position b) = _limit b - _position b.
Proof. intros. apply wrap_u_small. wf_lia. Qed.

Lemma wf_append b bs :
  wf b -> bytes_ok bs -> _position b + zlen bs <= _limit b -> wf (append b bs).
Proof.
  intros (Hc&Hp&Hl&Hcap&Hs&Hb) Hbs Hr. pose proof (zlen_nonneg bs).
  unfold wf, append; cbn. split_and!; try done; try zlia.
  apply Forall_app. split; [by apply Forall_take|]. apply Forall_app. split; [done|].
  by apply Forall_drop.
Qed.

Lemma wf_advance b n : wf b -> 0 <= n -> _position b + n <= _limit b -> wf (advance b n).
Proof. intros (?&?&?&?&?&?) ??. unfold wf, advance; cbn. split_and!; done || lia. Qed.

Lemma append_nil b : wf b -> append b [] = b.
Proof.
  intros Hwf. unfold append. rewrite app_nil_l, zlen_nil, Z.add_0_r, ztake_zdrop. by destruct b.
Qed.

Lemma append_append b xs ys :
  wf b -> _position b + zlen xs <= _limit b -> append (append b xs) ys = append b (xs ++ ys).
Proof.
  intros Hwf Hr. pose proof (zlen_nonneg xs). pose proof (zlen_nonneg ys).
  assert (zlen (ztake (_position b) (buffer b)) = _position b) as Hl.
  { rewrite zlen_ztake. wf_lia. }
  unfold append, set_pos, set_buffer; cbn. f_equal; [|zlia].
  rewrite (app_assoc (ztake _ _) xs), ztake_app_exact by (rewrite zlen_app, Hl; done).
  rewrite <- !app_assoc. do 3 f_equal.
  rewrite app_assoc, zdrop_app_r by (rewrite zlen_app, Hl; lia).
  rewrite zlen_app, Hl, zdrop_zdrop by (unfold wf in Hwf; lia). f_equal. rewrite zlen_app. lia.
Qed.

Lemma written_append b bs : wf b -> _position b + zlen bs <= _limit b ->
  written (append b bs) = written b ++ bs.
Proof.
  intros Hwf Hr. unfold written, append; cbn. rewrite app_assoc.
  apply ztake_app_exact. rewrite zlen_app, zlen_ztake. wf_lia.
Qed.

Lemma unread_advance b n bs tail :
  wf b -> unread b = bs ++ tail -> n = zlen bs -> unread (advance b n) = tail.
Proof.
  intros Hwf Hu ->. unfold unread, advance in *; cbn. pose proof (zlen_nonneg bs).
  rewrite <- zdrop_zdrop by (wf_lia || lia). rewrite Hu. by apply zdrop_app_exact.
Qed.

Lemma unread_room b bs tail : wf b -> unread b = bs ++ tail -> _position b + zlen bs <= _limit b.
Proof.
  intros Hwf Hu. apply (f_equal zlen) in Hu. unfold unread in Hu.
  rewrite zlen_zdrop, zlen_ztake, zlen_app in Hu. pose proof (zlen_nonneg tail). wf_lia.
Qed.

Lemma flip_spec b : wf b -> wf (flip b) /\ unread (flip b) = written b.
Proof.
  intros Hwf. split; [|by unfold unread; cbn; rewrite zdrop_0].
  destruct Hwf as (?&?&?&?&?&?). unfold wf; cbn. split_and!; done || lia.
Qed.

(** ** What the writers do *)

Lemma put_bytes_spec xs : forall b,
  wf b -> bytes_ok xs -> _position b + zlen xs <= _limit b -> put_bytes b xs = Ret (append b xs).
Proof.
  induction xs as [|x xs IH]; intros b Hwf Hb Hr; cbn [put_bytes]; [by rewrite append_nil|].
  apply Forall_cons_1 in Hb as [Hx Hb]. rewrite zlen_cons in Hr. pose proof (zlen_nonneg xs).
  rewrite mem_write_ok by (rewrite ?zlen_cons, ?zlen_nil; wf_lia). mstep.
  rewrite u32_pos by (done || lia).
  replace (set_pos _ _) with (append b [x]) by done.
  assert (zlen [x] = 1) as H1 by done.
  rewrite IH; [|apply wf_append; [done|by constructor|lia]|done|cbn; lia].
  by rewrite append_append by (done || lia).
Qed.

Lemma write_internal_spec b src off len :
  wf b -> 0 <= off -> 0 <= len -> off + len <= zlen src ->
  _position b + len <= _limit b ->
  writeBytesInternal b src off len = Ret (append b (ztake len (zdrop off src))).
Proof.
  intros Hwf Ho Hl Hs Hr. unfold writeBytesInternal. rewrite mem_read_ok by lia. mstep.
  assert (zlen (ztake len (zdrop off src)) = len) as Hz by zlia.
  rewrite mem_write_ok by (rewrite ?Hz; wf_lia). mstep.
  rewrite u32_pos by (done || wf_lia). unfold append. by rewrite Hz.
Qed.

(** Where a fixed-size write goes: appended when there is room, refused with
    the error flag otherwise. *)
Definition put_result (b : t) (bs : list Z) (e : err) : outcome (t * err) :=
  if _limit b <? _position b + zlen bs then Ret (b, set_error e) else Ret (append b bs, e).

Lemma le32_ok x : bytes_ok (le32 x).
Proof. repeat constructor; by apply wrap_u_range. Qed.

Lemma le64_ok x : bytes_ok (le64 x).
Proof. repeat constructor; by apply wrap_u_range. Qed.

Lemma writeInt32_spec b x e : wf b -> writeInt32 b x e = put_result b (le32 x) e.
Proof.
  intros Hwf. unfold writeInt32, put_result. rewrite (proj1 Hwf). cbn [negb].
  rewrite u32_pos by (done || lia). change (zlen (le32 x)) with 4.
  destruct (Z.ltb_spec (_limit b) (_position b + 4)); [done|].
  by rewrite put_bytes_spec by (done || apply le32_ok).
Qed.

Lemma writeInt64_spec b x e : wf b -> writeInt64 b x e = put_result b (le64 x) e.
Proof.
  intros Hwf. unfold writeInt64, put_result. rewrite (proj1 Hwf). cbn [negb].
  rewrite u32_pos by (done || lia). change (zlen (le64 x)) with 8.
  destruct (Z.ltb_spec (_limit b) (_position b + 8)); [done|].
  by rewrite put_bytes_spec by (done || apply le64_ok).
Qed.

Lemma writeByte_spec b x e : wf b -> is_u 8 x -> writeByte b x e = put_result b [x] e.
Proof.
  intros Hwf Hx. unfold writeByte, put_result. rewrite (proj1 Hwf). cbn [negb].
  rewrite u32_pos by (done || lia). change (zlen [x]) with 1.
  destruct (Z.ltb_spec (_limit b) (_position b + 1)); [done|].
  rewrite put_bytes_spec; [done|done|by constructor|done].
Qed.

Lemma writeBool_spec b v e :
  wf b -> writeBool b v e = put_result b (le32 (i32 (if v then bool_true else bool_false))) e.
Proof.
  intros Hwf. unfold writeBool. rewrite (proj1 Hwf). cbn [negb].
  by destruct v; rewrite writeInt32_spec.
Qed.

Lemma writeBytes_off_spec b src off len e :
  wf b -> 0 <= off -> 0 <= len < 2 ^ 31 -> off + len <= zlen src ->
  writeBytes_off b src off len e = put_result b (ztake len (zdrop off src)) e.
Proof.
  intros Hwf Ho Hl Hs. unfold writeBytes_off, put_result. rewrite (proj1 Hwf). cbn [negb].
  rewrite u32_pos by (done || lia).
  assert (zlen (ztake len (zdrop off src)) = len) as -> by zlia.
  destruct (Z.ltb_spec (_limit b) (_position b + len)); [done|].
  by rewrite write_internal_spec by (done || lia).
Qed.

Lemma writeBytes_spec b src len e :
  wf b -> 0 <= len < 2 ^ 31 -> len <= zlen src ->
  writeBytes b src len e = put_result b (ztake len src) e.
Proof.
  intros Hwf Hl Hs. rewrite <- (writeBytes_off_spec b src 0) by (done || lia).
  done.
Qed.

(** ** Byte arrays: length prefix, data, zero padding to a multiple of four *)

Definition prefix_of (len : Z) : list Z :=
  if len <=? 253 then [u8 len] else [254; u8 len; u8 (Z.shiftr len 8); u8 (Z.shiftr len 16)].

Definition pad_of (len : Z) : list Z :=
  replicate (Z.to_nat (addition_of len (if len <=? 253 then 1 else 4))) 0.

Definition enc_array (l : list Z) : list Z := prefix_of (zlen l) ++ l ++ pad_of (zlen l).

Lemma prefix_ok len : bytes_ok (prefix_of len).
Proof.
  unfold prefix_of. case_match; repeat apply Forall_cons_2; try apply Forall_nil_2;
    first [by apply wrap_u_range|done].
Qed.

Lemma pad_ok len : bytes_ok (pad_of len).
Proof. unfold pad_of. apply Forall_replicate. unfold is_u. lia. Qed.

Lemma addition_range len p : 0 <= addition_of len p < 4.
Proof.
  unfold addition_of. pose proof (Z.mod_pos_bound (u32 (len + p)) 4).
  destruct (Z.eqb_spec (u32 (len + p) mod 4) 0); cbn [negb]; lia.
Qed.

Lemma prefix_len len : zlen (prefix_of len) = if len <=? 253 then 1 else 4.
Proof. unfold prefix_of. by case_match. Qed.

Lemma pad_len len : zlen (pad_of len) = addition_of len (if len <=? 253 then 1 else 4).
Proof. unfold pad_of. rewrite zlen_replicate. pose proof (addition_range len (if len <=? 253 then 1 else 4)). lia. Qed.

(** The encoding is a whole number of words. *)
Lemma enc_array_aligned l : zlen l < 2 ^ 31 -> zlen (enc_array l) mod 4 = 0.
Proof.
  intros Hl. pose proof (zlen_nonneg l). unfold enc_array.
  rewrite !zlen_app, prefix_len, pad_len. unfold addition_of.
  set (p := if _ <=? _ then _ else _). assert (0 <= p <= 4) by (subst p; case_match; lia).
  rewrite wrap_u_small by (unfold is_u; lia).
  destruct (Z.eqb_spec ((zlen l + p) mod 4) 0); cbn [negb]; Z.div_mod_to_equations; lia.
Qed.

Lemma write_length_spec b len :
  wf b -> 0 <= len < 2 ^ 31 ->
  write_length b len =
  if _limit b <? _position b + zlen (prefix_of len) then Ret (b, true)
  else Ret (append b (prefix_of len), false).
Proof.
  intros Hwf Hl. pose proof (prefix_ok len) as Hok. rewrite prefix_len.
  unfold write_length, prefix_of in *. rewrite (proj1 Hwf). cbn [negb].
  destruct (len <=? 253); rewrite u32_pos by (done || lia);
    (case_match eqn:E; [done|]); apply Z.ltb_ge in E; by rewrite put_bytes_spec.
Qed.

Lemma pad_loop_spec n : forall b,
  wf b -> _position b + Z.of_nat n <= _limit b -> pad_loop n b = Ret (append b (replicate n 0)).
Proof.
  induction n as [|n IH]; intros b Hwf Hr; cbn [pad_loop replicate]; [by rewrite append_nil|].
  rewrite (proj1 Hwf). cbn [negb].
  assert (zlen [0] = 1) as H1 by done. assert (bytes_ok [0]) by (apply Forall_cons_2; [done|apply Forall_nil_2]).
  rewrite put_bytes_spec by (done || lia). mstep.
  rewrite IH; [|apply wf_append; done || lia|cbn; lia].
  by rewrite append_append by (done || lia).
Qed.

(** A byte array is written whole, or the error flag is raised; what was
    written before is kept in both cases. *)
Lemma writeByteArray_spec b src off len e :
  wf b -> bytes_ok src -> 0 <= off -> 0 <= len < 2 ^ 31 -> off + len <= zlen src ->
  let bs := enc_array (ztake len (zdrop off src)) in
  exists b' k, writeByteArray b src off len e =
      Ret (b', if _limit b <? _position b + zlen bs then set_error e else e) /\
    wf b' /\ b' = append b (ztake k bs) /\ _position b + zlen (ztake k bs) <= _limit b /\
    (_position b + zlen bs <= _limit b -> b' = append b bs).
Proof.
  intros Hwf Hsb Ho Hl Hs bs.
  assert (zlen (ztake len (zdrop off src)) = len) as Hz by zlia.
  assert (bytes_ok (ztake len (zdrop off src))) as Hdb by (apply Forall_take; by apply Forall_drop).
  subst bs. unfold enc_array. rewrite Hz. set (data := ztake len (zdrop off src)) in *.
  pose proof (addition_range len (if len <=? 253 then 1 else 4)).
  pose proof (zlen_nonneg (prefix_of len)).
  unfold writeByteArray. rewrite write_length_spec by done. rewrite !zlen_app, Hz.
  destruct (Z.ltb_spec (_limit b) (_position b + zlen (prefix_of len))) as [H1|H1]; mstep.
  { exists b, 0. rewrite ztake_0, append_nil, pad_len by done.
    destruct (Z.ltb_spec (_limit b) (_position b +
      (zlen (prefix_of len) + (len + addition_of len (if len <=? 253 then 1 else 4))))); [|lia].
    rewrite zlen_nil. split_and!; try done; [wf_lia|intros; lia]. }
  assert (wf (append b (prefix_of len))) as W1 by (apply wf_append; done || apply prefix_ok).
  rewrite (proj1 W1). cbn [negb].
  rewrite (u32_pos (append b _)) by done. change (_limit (append b (prefix_of len))) with (_limit b).
  change (_position (append b (prefix_of len))) with (_position b + zlen (prefix_of len)).
  destruct (Z.ltb_spec (_limit b) (_position b + zlen (prefix_of len) + len)) as [H2|H2]; mstep.
  { exists (append b (prefix_of len)), (zlen (prefix_of len)). rewrite pad_len.
    destruct (Z.ltb_spec (_limit b) (_position b +
      (zlen (prefix_of len) + (len + addition_of len (if len <=? 253 then 1 else 4))))); [|lia].
    rewrite ztake_app_exact by done. split_and!; try done. intros; lia. }
  rewrite write_internal_spec by (done || cbn; lia). mstep. fold data.
  rewrite append_append by done.
  assert (wf (append b (prefix_of len ++ data))) as W2.
  { apply wf_append; [done|apply Forall_app; split; [apply prefix_ok|done]|rewrite zlen_app; lia]. }
  rewrite (proj1 W2). cbn [negb andb].
  rewrite (u32_pos (append b _)) by (done || lia).
  change (_limit (append b (prefix_of len ++ data))) with (_limit b).
  change (_position (append b (prefix_of len ++ data))) with (_position b + zlen (prefix_of len ++ data)).
  rewrite zlen_app, Hz, pad_len, !Z.add_assoc.
  set (a := addition_of _ _) in *.
  destruct (Z.ltb_spec (_limit b) (_position b + zlen (prefix_of len) + len + a)) as [H3|H3].
  { exists (append b (prefix_of len ++ data)), (zlen (prefix_of len ++ data)).
    rewrite (app_assoc (prefix_of len) data), ztake_app_exact by done. rewrite zlen_app, Hz.
    split_and!; try done; [lia|intros; lia]. }
  rewrite pad_loop_spec by (done || cbn; rewrite zlen_app; lia). mstep. fold (pad_of len).
  rewrite append_append by (done || rewrite zlen_app; lia). rewrite <- app_assoc.
  exists (append b (prefix_of len ++ data ++ pad_of len)), (zlen (prefix_of len ++ data ++ pad_of len)).
  assert (_position b + zlen (prefix_of len ++ data ++ pad_of len) <= _limit b) as Hfit.
  { rewrite !zlen_app, pad_len, Hz. fold a. lia. }
  rewrite ztake_all by done. split_and!; try done.
  apply wf_append; [done| |done]. repeat (apply Forall_app; split); done || apply prefix_ok || apply pad_ok.
Qed.

(** ** What the readers do *)

Definition peek (b : t) (k : Z) : Z := nth (Z.to_nat (_position b + k)) (buffer b) 0.

Lemma get_byte_spec b k :
  wf b -> 0 <= k < 2 ^ 31 -> _position b + k < _limit b ->
  get_byte b k = Ret (peek b k) /\ is_u 8 (peek b k).
Proof.
  intros Hwf Hk Hr. unfold get_byte, peek, mem_get. rewrite u32_pos by done.
  destruct Hwf as (_&Hp&Hl&Hc&_&Hb). rewrite decide_True by lia.
  unfold zlen in Hc.
  destruct (buffer b !! Z.to_nat (_position b + k)) as [x|] eqn:E.
  - erewrite nth_lookup_Some by done. split; [done|]. by eapply Forall_lookup_1.
  - apply lookup_ge_None in E. lia.
Qed.

Lemma peek_unread b k bs tail :
  wf b -> unread b = bs ++ tail -> 0 <= k < zlen bs -> peek b k = nth (Z.to_nat k) bs 0.
Proof.
  intros Hwf Hu Hk. pose proof (unread_room _ _ _ Hwf Hu) as Hr. unfold peek.
  rewrite <- (app_nth1 bs tail) by (unfold zlen in *; lia). rewrite <- Hu. unfold unread, zdrop, ztake.
  rewrite !nth_lookup, lookup_drop. unfold wf in Hwf.
  rewrite lookup_take_lt by lia. do 2 f_equal. lia.
Qed.

Lemma le32_word x0 x1 x2 x3 :
  is_u 8 x0 -> is_u 8 x1 -> is_u 8 x2 -> is_u 8 x3 ->
  Z.lor (Z.lor (Z.lor (Z.land x0 255) (Z.shiftl (Z.land x1 255) 8))
    (Z.shiftl (Z.land x2 255) 16)) (Z.shiftl (Z.land x3 255) 24) =
  x3 * 2 ^ 24 + x2 * 2 ^ 16 + x1 * 2 ^ 8 + x0.
Proof.
  intros H0 H1 H2 H3. rewrite !land_ff, !wrap_u_small by done. unfold is_u in *. pow2.
  rewrite (Z.lor_comm x0), lor_shiftl_add by (pow2; lia).
  rewrite (Z.lor_comm _ (Z.shiftl x2 16)), lor_shiftl_add by (pow2; lia).
  rewrite (Z.lor_comm _ (Z.shiftl x3 24)), lor_shiftl_add by (pow2; lia). pow2. lia.
Qed.

Lemma le64_word x0 x1 x2 x3 x4 x5 x6 x7 :
  is_u 8 x0 -> is_u 8 x1 -> is_u 8 x2 -> is_u 8 x3 ->
  is_u 8 x4 -> is_u 8 x5 -> is_u 8 x6 -> is_u 8 x7 ->
  Z.lor (Z.lor (Z.lor (Z.lor (Z.lor (Z.lor (Z.lor
      (Z.land x0 255) (Z.shiftl (Z.land x1 255) 8))
      (Z.shiftl (Z.land x2 255) 16)) (Z.shiftl (Z.land x3 255) 24))
      (Z.shiftl (Z.land x4 255) 32)) (Z.shiftl (Z.land x5 255) 40))
      (Z.shiftl (Z.land x6 255) 48)) (Z.shiftl (Z.land x7 255) 56) =
  x7 * 2 ^ 56 + x6 * 2 ^ 48 + x5 * 2 ^ 40 + x4 * 2 ^ 32 +
  x3 * 2 ^ 24 + x2 * 2 ^ 16 + x1 * 2 ^ 8 + x0.
Proof.
  intros H0 H1 H2 H3 H4 H5 H6 H7. rewrite le32_word by done.
  rewrite !land_ff, !wrap_u_small by done. unfold is_u in *.
  assert (2 ^ 40 = 1099511627776) by done. assert (2 ^ 48 = 281474976710656) by done.
  assert (2 ^ 56 = 72057594037927936) by done. pow2.
  rewrite (Z.lor_comm _ (Z.shiftl x4 32)), lor_shiftl_add by (pow2; lia).
  rewrite (Z.lor_comm _ (Z.shiftl x5 40)), lor_shiftl_add by (pow2; lia).
  rewrite (Z.lor_comm _ (Z.shiftl x6 48)), lor_shiftl_add by (pow2; lia).
  rewrite (Z.lor_comm _ (Z.shiftl x7 56)), lor_shiftl_add by (pow2; lia). pow2. lia.
Qed.

Ltac get b k :=
  let H := fresh "G" in let U := fresh "U" in
  destruct (get_byte_spec b k) as [H U]; [done|lia|lia|]; rewrite H; mstep; clear H.

Lemma readInt32_spec b e :
  wf b ->
  readInt32 b e =
  if _limit b <? _position b + 4 then Ret (b, 0, set_error e)
  else Ret (advance b 4,
    i32 (peek b 3 * 2 ^ 24 + peek b 2 * 2 ^ 16 + peek b 1 * 2 ^ 8 + peek b 0), e).
Proof.
  intros Hwf. unfold readInt32. rewrite u32_pos by (done || lia).
  destruct (Z.ltb_spec (_limit b) (_position b + 4)); [done|].
  get b 0. get b 1. get b 2. get b 3. by rewrite le32_word.
Qed.

Lemma readInt64_spec b e :
  wf b ->
  readInt64 b e =
  if _limit b <? _position b + 8 then Ret (b, 0, set_error e)
  else Ret (advance b 8,
    i64 (peek b 7 * 2 ^ 56 + peek b 6 * 2 ^ 48 + peek b 5 * 2 ^ 40 + peek b 4 * 2 ^ 32 +
      peek b 3 * 2 ^ 24 + peek b 2 * 2 ^ 16 + peek b 1 * 2 ^ 8 + peek b 0), e).
Proof.
  intros Hwf. unfold readInt64. rewrite u32_pos by (done || lia).
  destruct (Z.ltb_spec (_limit b) (_position b + 8)); [done|].
  get b 0. get b 1. get b 2. get b 3. get b 4. get b 5. get b 6. get b 7. by rewrite le64_word.
Qed.

(** Reading back a written word. *)
Lemma readInt32_le32 b x tail e :
  wf b -> unread b = le32 x ++ tail -> readInt32 b e = Ret (advance b 4, i32 x, e).
Proof.
  intros Hwf Hu. rewrite readInt32_spec by done.
  pose proof (unread_room _ _ _ Hwf Hu) as Hr. change (zlen (le32 x)) with 4 in Hr.
  destruct (Z.ltb_spec (_limit b) (_position b + 4)); [lia|].
  rewrite !(peek_unread b _ (le32 x) tail) by (done || change (zlen (le32 x)) with 4; lia).
  change (nth (Z.to_nat 3) (le32 x) 0) with (u8 (Z.shiftr x 24)).
  change (nth (Z.to_nat 2) (le32 x) 0) with (u8 (Z.shiftr x 16)).
  change (nth (Z.to_nat 1) (le32 x) 0) with (u8 (Z.shiftr x 8)).
  change (nth (Z.to_nat 0) (le32 x) 0) with (u8 x).
  rewrite be32_bytes. by rewrite wrap_s_wrap_u.
Qed.

Lemma readInt64_le64 b x tail e :
  wf b -> unread b = le64 x ++ tail -> readInt64 b e = Ret (advance b 8, i64 x, e).
Proof.
  intros Hwf Hu. rewrite readInt64_spec by done.
  pose proof (unread_room _ _ _ Hwf Hu) as Hr. change (zlen (le64 x)) with 8 in Hr.
  destruct (Z.ltb_spec (_limit b) (_position b + 8)); [lia|].
  rewrite !(peek_unread b _ (le64 x) tail) by (done || change (zlen (le64 x)) with 8; lia).
  change (nth (Z.to_nat 7) (le64 x) 0) with (u8 (Z.shiftr x 56)).
  change (nth (Z.to_nat 6) (le64 x) 0) with (u8 (Z.shiftr x 48)).
  change (nth (Z.to_nat 5) (le64 x) 0) with (u8 (Z.shiftr x 40)).
  change (nth (Z.to_nat 4) (le64 x) 0) with (u8 (Z.shiftr x 32)).
  change (nth (Z.to_nat 3) (le64 x) 0) with (u8 (Z.shiftr x 24)).
  change (nth (Z.to_nat 2) (le64 x) 0) with (u8 (Z.shiftr x 16)).
  change (nth (Z.to_nat 1) (le64 x) 0) with (u8 (Z.shiftr x 8)).
  change (nth (Z.to_nat 0) (le64 x) 0) with (u8 x).
  rewrite be64_bytes. by rewrite wrap_s_wrap_u.
Qed.

Lemma mem_read_unread b bs tail :
  wf b -> unread b = bs ++ tail -> mem_read (buffer b) (_position b) (zlen bs) = Ret bs.
Proof.
  intros Hwf Hu. pose proof (unread_room _ _ _ Hwf Hu). pose proof (zlen_nonneg bs).
  rewrite mem_read_ok by wf_lia. f_equal. unfold unread in Hu.
  rewrite <- (ztake_app_exact (zlen bs) bs tail) at 2 by done. rewrite <- Hu.
  rewrite !ztake_zdrop_comm by wf_lia. rewrite ztake_ztake. do 2 f_equal. lia.
Qed.

Lemma readBytes_spec junk b bs tail e :
  wf b -> unread b = bs ++ tail ->
  readBytes junk b (zlen bs) e = Ret (advance b (zlen bs), Some (ByteArray.mk (zlen bs) bs), e).
Proof.
  intros Hwf Hu. pose proof (unread_room _ _ _ Hwf Hu). pose proof (zlen_nonneg bs).
  unfold readBytes. rewrite remaining_eq by done.
  destruct (Z.ltb_spec (_limit b - _position b) (zlen bs)); [lia|].
  erewrite mem_read_unread by done. mstep. cbn [ByteArray.bytes ByteArray.new_len].
  rewrite <- (app_nil_r (alloc_bytes _ _)), mem_write_here by (by rewrite alloc_bytes_len). mstep.
  rewrite app_nil_r, u32_pos; [done|done|wf_lia].
Qed.

(** The prefix of an array shorter than 2^24 is read back. *)
Lemma read_length_spec b len tail :
  wf b -> 0 <= len < 2 ^ 24 -> unread b = prefix_of len ++ tail ->
  let a := addition_of len (if len <=? 253 then 1 else 4) in
  len + a <= zlen tail ->
  read_length b = Ret (advance b (zlen (prefix_of len)), Some (len, a)).
Proof.
  intros Hwf Hl Hu a Ht. pose proof (unread_room _ _ _ Hwf Hu) as Hr.
  assert (_position b + zlen (prefix_of len) + zlen tail = _limit b) as Hend.
  { apply (f_equal zlen) in Hu. unfold unread in Hu.
    rewrite zlen_zdrop, zlen_ztake, zlen_app in Hu. wf_lia. }
  pose proof (addition_range len (if len <=? 253 then 1 else 4)) as Ha. fold a in Ha.
  rewrite prefix_len in *. unfold read_length.
  rewrite u32_pos by (done || lia).
  pose proof (peek_unread b 0 _ _ Hwf Hu) as Hp0. rewrite prefix_len in Hp0.
  destruct (Z.leb_spec len 253) as [Hs|Hs].
  - destruct (Z.ltb_spec (_limit b) (_position b + 1)); [lia|]. get b 0.
    rewrite Hp0 by lia. unfold prefix_of. destruct (Z.leb_spec len 253); [|lia].
    change (Z.to_nat 0) with 0%nat. cbn [nth].
    rewrite wrap_u_small by (unfold is_u; lia).
    destruct (Z.leb_spec 254 len); [lia|]. mstep. cbn [set_pos _limit _position]. fold a.
    rewrite (wrap_u_small 32) by (wf_lia).
    destruct (Z.ltb_spec (_limit b) (_position b + 1 + len + a)); [lia|done].
  - destruct (Z.ltb_spec (_limit b) (_position b + 1)); [lia|]. get b 0.
    rewrite Hp0 by lia. unfold prefix_of at 1. destruct (Z.leb_spec len 253); [lia|].
    change (Z.to_nat 0) with 0%nat. cbn [nth]. destruct (Z.leb_spec 254 254); [|lia]. mstep.
    assert (wf (advance b 1)) as W1 by (apply wf_advance; done || lia).
    change (set_pos b (_position b + 1)) with (advance b 1).
    rewrite (u32_pos (advance b 1)) by (done || lia).
    change (_position (advance b 1)) with (_position b + 1). change (_limit (advance b 1)) with (_limit b).
    destruct (Z.ltb_spec (_limit b) (_position b + 1 + 3)); [lia|].
    assert (unread (advance b 1) = [u8 len; u8 (Z.shiftr len 8); u8 (Z.shiftr len 16)] ++ tail) as Hu1.
    { apply (unread_advance b 1 [254]); [done| |done]. rewrite Hu. unfold prefix_of.
      destruct (Z.leb_spec len 253); [lia|done]. }
    destruct (get_byte_spec (advance b 1) 0) as [-> _]; [done|lia|cbn; lia|]. mstep.
    destruct (get_byte_spec (advance b 1) 1) as [-> _]; [done|lia|cbn; lia|]. mstep.
    destruct (get_byte_spec (advance b 1) 2) as [-> _]; [done|lia|cbn; lia|]. mstep.
    rewrite !(peek_unread (advance b 1) _ _ _ W1 Hu1) by (done || unfold zlen; cbn [length]; lia).
    change (Z.to_nat 1) with 1%nat. change (Z.to_nat 2) with 2%nat.
    change (Z.to_nat 0) with 0%nat. cbn [nth].
    assert (Z.lor (Z.lor (u8 len) (Z.shiftl (u8 (Z.shiftr len 8)) 8))
      (Z.shiftl (u8 (Z.shiftr len 16)) 16) = len) as ->.
    { pose proof (be32_bytes len) as Hbe. rewrite (wrap_u_small 32) in Hbe by (unfold is_u; lia).
      assert (u8 (Z.shiftr len 24) = 0) as H24.
      { rewrite Z.shiftr_div_pow2 by lia. rewrite Z.div_small by lia. done. }
      pose proof (wrap_u_range 8 len). pose proof (wrap_u_range 8 (Z.shiftr len 8)).
      unfold is_u in *. pow2.
      rewrite (Z.lor_comm (u8 len)), lor_shiftl_add by (pow2; lia).
      rewrite (Z.lor_comm _ (Z.shiftl _ 16)), lor_shiftl_add by (pow2; lia). pow2. lia. }
    fold a. cbn [set_pos _limit _position advance].
    rewrite (wrap_u_small 32 (_ + len + a)) by (wf_lia).
    destruct (Z.ltb_spec (_limit b) (_position b + 1 + 3 + len + a)); [lia|].
    unfold advance, set_pos; cbn.
    by replace (_position b + 1 + 3) with (_position b + 4) by lia.
Qed.

Lemma readByteArray_spec junk b l tail e :
  wf b -> zlen l < 2 ^ 24 -> unread b = enc_array l ++ tail ->
  readByteArray junk b e =
    Ret (advance b (zlen (enc_array l)), Some (ByteArray.mk (zlen l) l), e) /\
  readString b e = Ret (advance b (zlen (enc_array l)), l, e).
Proof.
  intros Hwf Hl Hu. pose proof (unread_room _ _ _ Hwf Hu) as Hr. pose proof (zlen_nonneg l).
  unfold enc_array in *. rewrite <- !app_assoc in Hu.
  pose proof (pad_len (zlen l)) as Hp. set (a := addition_of _ _) in Hp.
  pose proof (addition_range (zlen l) (if zlen l <=? 253 then 1 else 4)) as Ha. fold a in Ha.
  unfold readByteArray, readString.
  rewrite (read_length_spec b (zlen l) (l ++ pad_of (zlen l) ++ tail))
    by (done || lia || rewrite !zlen_app, Hp; fold a; pose proof (zlen_nonneg tail); lia).
  fold a. mstep. rewrite !zlen_app in Hr |- *. pose proof (zlen_nonneg (prefix_of (zlen l))).
  assert (wf (advance b (zlen (prefix_of (zlen l))))) as W1 by (apply wf_advance; done || lia).
  erewrite (mem_read_unread (advance b _) l) by (done || by eapply unread_advance). mstep.
  cbn [ByteArray.bytes ByteArray.new_len].
  rewrite <- (app_nil_r (alloc_bytes _ _)), mem_write_here by (by rewrite alloc_bytes_len). mstep.
  rewrite app_nil_r, (wrap_u_small 32 (_ + a)) by (unfold is_u; lia).
  rewrite (u32_pos (advance b _)) by (done || lia).
  unfold advance, set_pos; cbn. rewrite Hp, !Z.add_assoc. done.
Qed.

(** ** Sequences of typed values *)

Inductive value :=
| VInt32 (x : Z)
| VInt64 (x : Z)
| VBool (v : bool)
| VByte (x : Z)
| VBytes (l : list Z)
| VArray (l : list Z)
| VString (l : list Z)
| VDouble (d : Z).

Inductive shape :=
| SInt32 | SInt64 | SBool | SByte | SBytes (n : Z) | SArray | SString | SDouble.

Definition shape_of (v : value) : shape :=
  match v with
  | VInt32 _ => SInt32 | VInt64 _ => SInt64 | VBool _ => SBool | VByte _ => SByte
  | VBytes l => SBytes (zlen l) | VArray _ => SArray | VString _ => SString | VDouble _ => SDouble
  end.

Definition value_ok (v : value) : Prop :=
  match v with
  | VInt32 x => is_s 32 x
  | VInt64 x => is_s 64 x
  | VBool _ => True
  | VByte x => is_u 8 x
  | VBytes l => bytes_ok l /\ zlen l < 2 ^ 31
  | VArray l | VString l => bytes_ok l /\ zlen l < 2 ^ 24
  | VDouble d => is_u 64 d
  end.

Definition encode (v : value) : list Z :=
  match v with
  | VInt32 x => le32 x
  | VInt64 x => le64 x
  | VBool v => le32 (i32 (if v then bool_true else bool_false))
  | VByte x => [x]
  | VBytes l => l
  | VArray l | VString l => enc_array l
  | VDouble d => le64 (i64 d)
  end.

Definition write_value (b : t) (v : value) (e : err) : outcome (t * err) :=
  match v with
  | VInt32 x => writeInt32 b x e
  | VInt64 x => writeInt64 b x e
  | VBool v => writeBool b v e
  | VByte x => writeByte b x e
  | VBytes l => writeBytes b l (zlen l) e
  | VArray l => writeByteArray b l 0 (zlen l) e
  | VString l => writeString b l e
  | VDouble d => writeDouble b d e
  end.

Definition read_shape (junk : nat -> Z) (b : t) (s : shape) (e : err)
  : outcome (t * option value * err) :=
  match s with
  | SInt32 => '(b, x, e) ← readInt32 b e; Ret (b, Some (VInt32 x), e)
  | SInt64 => '(b, x, e) ← readInt64 b e; Ret (b, Some (VInt64 x), e)
  | SBool => '(b, x, e) ← readBool b e; Ret (b, Some (VBool x), e)
  | SByte => '(b, x, e) ← readByte b e; Ret (b, Some (VByte x), e)
  | SBytes n =>
      '(b, x, e) ← readBytes junk b n e; Ret (b, option_map (fun a => VBytes (ByteArray.bytes a)) x, e)
  | SArray =>
      '(b, x, e) ← readByteArray junk b e; Ret (b, option_map (fun a => VArray (ByteArray.bytes a)) x, e)
  | SString => '(b, x, e) ← readString b e; Ret (b, Some (VString x), e)
  | SDouble => '(b, x, e) ← readDouble b e; Ret (b, Some (VDouble x), e)
  end.

Fixpoint write_all (b : t) (vs : list value) (e : err) : outcome (t * err) :=
  match vs with
  | [] => Ret (b, e)
  | v :: vs => '(b, e) ← write_value b v e; write_all b vs e
  end.

Fixpoint read_all (junk : nat -> Z) (b : t) (ss : list shape) (e : err)
  : outcome (t * list (option value) * err) :=
  match ss with
  | [] => Ret (b, [], e)
  | s :: ss =>
      '(b, v, e) ← read_shape junk b s e;
      '(b, vs, e) ← read_all junk b ss e;
      Ret (b, v :: vs, e)
  end.

Definition encode_all (vs : list value) : list Z := concat (map encode vs).

Lemma encode_ok v : value_ok v -> bytes_ok (encode v).
Proof.
  destruct v; simpl; intros Hv; try apply le32_ok; try apply le64_ok;
    try (by destruct Hv).
  - apply Forall_cons_2; [done|apply Forall_nil_2].
  - repeat (apply Forall_app; split); [apply prefix_ok|apply Hv|apply pad_ok].
  - repeat (apply Forall_app; split); [apply prefix_ok|apply Hv|apply pad_ok].
Qed.

Lemma set_error_idem e : set_error (set_error e) = set_error e.
Proof. by destruct e. Qed.

Lemma put_result_cases b bs e :
  wf b -> bytes_ok bs ->
  exists b' k, put_result b bs e =
      Ret (b', if _limit b <? _position b + zlen bs then set_error e else e) /\
    wf b' /\ b' = append b (ztake k bs) /\ _position b + zlen (ztake k bs) <= _limit b /\
    (_position b + zlen bs <= _limit b -> b' = append b bs).
Proof.
  intros Hwf Hb. unfold put_result.
  destruct (Z.ltb_spec (_limit b) (_position b + zlen bs)).
  - exists b, 0. rewrite ztake_0, append_nil, zlen_nil by done.
    split_and!; try done; [wf_lia|intros; lia].
  - exists (append b bs), (zlen bs). rewrite ztake_all by done.
    split_and!; try done. by apply wf_append.
Qed.

(** Every typed write appends its encoding, or raises the flag having appended
    a part of it. *)
Lemma write_value_spec b v e :
  wf b -> value_ok v ->
  exists b' k, write_value b v e =
      Ret (b', if _limit b <? _position b + zlen (encode v) then set_error e else e) /\
    wf b' /\ b' = append b (ztake k (encode v)) /\
    _position b + zlen (ztake k (encode v)) <= _limit b /\
    (_position b + zlen (encode v) <= _limit b -> b' = append b (encode v)).
Proof.
  intros Hwf Hv. pose proof (encode_ok v Hv) as Hb.
  destruct v as [x|x|v|x|l|l|l|d]; cbn [write_value encode value_ok] in *.
  - rewrite writeInt32_spec by done. by apply put_result_cases.
  - rewrite writeInt64_spec by done. by apply put_result_cases.
  - rewrite writeBool_spec by done. by apply put_result_cases.
  - rewrite writeByte_spec by done. by apply put_result_cases.
  - pose proof (zlen_nonneg l). rewrite writeBytes_spec, (ztake_all _ l) by (done || lia).
    by apply put_result_cases.
  - pose proof (zlen_nonneg l).
    destruct (writeByteArray_spec b l 0 (zlen l) e) as (b'&k&Hs); try done; try lia; [apply Hv|].
    rewrite zdrop_0, ztake_all in Hs by lia. by exists b', k.
  - pose proof (zlen_nonneg l). unfold writeString. rewrite wrap_u_small by (unfold is_u; lia).
    destruct (writeByteArray_spec b l 0 (zlen l) e) as (b'&k&Hs); try done; try lia; [apply Hv|].
    rewrite zdrop_0, ztake_all in Hs by lia. by exists b', k.
  - unfold writeDouble. rewrite writeInt64_spec by done. by apply put_result_cases.
Qed.

Lemma read_value_spec junk b v tail e :
  wf b -> value_ok v -> unread b = encode v ++ tail ->
  read_shape junk b (shape_of v) e = Ret (advance b (zlen (encode v)), Some v, e).
Proof.
  intros Hwf Hv Hu. destruct v as [x|x|v|x|l|l|l|d]; cbn [read_shape shape_of encode value_ok] in *.
  - erewrite readInt32_le32 by done. mstep. by rewrite wrap_s_small.
  - erewrite readInt64_le64 by done. mstep. by rewrite wrap_s_small.
  - unfold readBool, readUint32. erewrite readInt32_le32 by done. mstep.
    by destruct v.
  - unfold readByte. rewrite u32_pos by (done || lia).
    pose proof (unread_room _ _ _ Hwf Hu) as Hr. change (zlen [x]) with 1 in *.
    destruct (Z.ltb_spec (_limit b) (_position b + 1)); [lia|]. get b 0.
    by rewrite (peek_unread b 0 [x] tail) by (done || lia).
  - by erewrite readBytes_spec by done.
  - destruct (readByteArray_spec junk b l tail e) as [-> _]; [done|apply Hv|done|done].
  - destruct (readByteArray_spec junk b l tail e) as [_ ->]; [done|apply Hv|done|done].
  - unfold readDouble. erewrite readInt64_le64 by done. mstep. do 4 f_equal.
    rewrite (wrap_s_small 64 (i64 d)) by (lia || by apply wrap_s_range).
    by rewrite wrap_u_wrap_s, wrap_u_small.
Qed.

Lemma encode_all_cons v vs : encode_all (v :: vs) = encode v ++ encode_all vs.
Proof. done. Qed.

Lemma write_all_spec vs : forall b e,
  wf b -> Forall value_ok vs ->
  exists b', write_all b vs e =
      Ret (b', if _limit b <? _position b + zlen (encode_all vs) then set_error e else e) /\
    wf b' /\ _limit b' = _limit b /\ _capacity b' = _capacity b /\
    (_position b + zlen (encode_all vs) <= _limit b -> b' = append b (encode_all vs)).
Proof.
  induction vs as [|v vs IH]; intros b e Hwf Hvs; cbn [write_all].
  - exists b. change (encode_all []) with (@nil Z). rewrite zlen_nil, append_nil by done.
    destruct (Z.ltb_spec (_limit b) (_position b + 0)); [wf_lia|by split_and!].
  - apply Forall_cons_1 in Hvs as [Hv Hvs]. rewrite encode_all_cons, zlen_app.
    pose proof (zlen_nonneg (encode_all vs)).
    destruct (write_value_spec b v e Hwf Hv) as (b1&k&->&W1&Hb1&Hk&Hfit). mstep.
    destruct (IH b1 (if _limit b <? _position b + zlen (encode v) then set_error e else e) W1 Hvs)
      as (b2&->&W2&Hl2&Hc2&Hfit2).
    exists b2. rewrite Hl2, Hc2, Hb1.
    change (_limit (append b _)) with (_limit b). change (_capacity (append b _)) with (_capacity b).
    split_and!; try done.
    + destruct (Z.ltb_spec (_limit b) (_position b + zlen (encode v))) as [Hlt|Hge].
      * destruct (Z.ltb_spec (_limit b) (_position b + (zlen (encode v) + zlen (encode_all vs)))); [|lia].
        rewrite set_error_idem. by case_match.
      * rewrite <- Hb1, Hfit by done.
        change (_position (append b (encode v))) with (_position b + zlen (encode v)).
        by rewrite Z.add_assoc.
    + intros Htot. rewrite Hfit2, Hfit by (rewrite ?Hfit; cbn; lia).
      apply append_append; [done|lia].
Qed.

Lemma read_all_spec junk vs : forall b e tail,
  wf b -> Forall value_ok vs -> unread b = encode_all vs ++ tail ->
  read_all junk b (map shape_of vs) e =
    Ret (advance b (zlen (encode_all vs)), map Some vs, e).
Proof.
  induction vs as [|v vs IH]; intros b e tail Hwf Hvs Hu; cbn [read_all map].
  - change (zlen (encode_all [])) with 0. unfold advance. rewrite Z.add_0_r. by destruct b.
  - apply Forall_cons_1 in Hvs as [Hv Hvs]. rewrite encode_all_cons, <- app_assoc in Hu.
    erewrite read_value_spec by done. mstep.
    pose proof (unread_room _ _ _ Hwf Hu). pose proof (zlen_nonneg (encode v)).
    rewrite (IH (advance b (zlen (encode v))) e tail);
      [|by apply wf_advance|done|by eapply unread_advance]. mstep.
    rewrite encode_all_cons, zlen_app. unfold advance, set_pos; cbn. by rewrite Z.add_assoc.
Qed.

Lemma wf_new junk size : 0 <= size < 2 ^ 31 -> wf (new_size junk size).
Proof.
  intros. unfold wf, new_size; cbn. rewrite alloc_bytes_len by lia.
  split_and!; try lia; try done. apply alloc_bytes_ok.
Qed.

(** What is written to a buffer with enough room is what is read back:
    after [flip], the readers matching the writers return the same values, in
    order, raise no error and consume exactly what was written. *)
Theorem buffer_roundtrip junk junk' size vs :
  Forall value_ok vs -> zlen (encode_all vs) <= size < 2 ^ 31 ->
  exists b b', write_all (new_size junk size) vs (Some false) = Ret (b, Some false) /\
    read_all junk' (flip b) (map shape_of vs) (Some false) = Ret (b', map Some vs, Some false) /\
    hasRemaining b' = false.
Proof.
  intros Hvs Hsz. pose proof (zlen_nonneg (encode_all vs)).
  assert (wf (new_size junk size)) as Hwf by (apply wf_new; lia).
  destruct (write_all_spec vs _ (Some false) Hwf Hvs) as (b&Hw&Wb&_&_&Hb).
  cbn [_limit _position new_size] in Hw, Hb. rewrite Hb in * by lia.
  destruct (Z.ltb_spec size (0 + zlen (encode_all vs))); [lia|].
  destruct (flip_spec _ Wb) as [Wf Uf].
  rewrite written_append in Uf by (done || cbn; lia).
  eexists _, _. split; [done|]. split.
  - apply (read_all_spec junk' vs _ _ []); [done|done|]. rewrite Uf, app_nil_r. done.
  - apply Z.ltb_ge. cbn. lia.
Qed.

(** ** Calculating sizes *)

Lemma wrap_u_add_l w x y : wrap_u w (wrap_u w x + y) = wrap_u w (x + y).
Proof. unfold wrap_u. by rewrite Zplus_mod_idemp_l. Qed.

Lemma pad_loop_calc n : forall b,
  calculateSizeOnly b = true -> is_u 32 (_capacity b) ->
  pad_loop n b = Ret (set_cap b (u32 (_capacity b + Z.of_nat n))).
Proof.
  induction n as [|n IH]; intros b Hc Hu; cbn [pad_loop].
  - rewrite Z.add_0_r, wrap_u_small by done. by destruct b.
  - rewrite Hc. cbn [negb]. mstep. rewrite IH by (done || by apply wrap_u_range).
    unfold set_cap; cbn. rewrite wrap_u_add_l. do 3 f_equal. lia.
Qed.

Lemma writeByteArray_calc b src off len e :
  calculateSizeOnly b = true -> 0 <= len ->
  writeByteArray b src off len e =
  Ret (set_cap b (u32 (_capacity b + ((if len <=? 253 then 1 else 4) + (len +
    addition_of len (if len <=? 253 then 1 else 4))))), e).
Proof.
  intros Hc Hl. unfold writeByteArray, write_length. rewrite Hc. cbn [negb].
  pose proof (addition_range len (if len <=? 253 then 1 else 4)).
  destruct (len <=? 253); mstep; cbn; rewrite Hc; cbn [negb andb]; mstep;
    rewrite pad_loop_calc by (done || by apply wrap_u_range); mstep; unfold set_cap; cbn;
    rewrite Hc; cbn [negb andb];
    rewrite wrap_u_add_l, <- (Z.add_assoc (u32 _)), wrap_u_add_l, <- Hc;
    apply (f_equal (fun c => Ret (set_cap b (u32 c), e))); lia.
Qed.

Lemma write_value_calc b v e :
  calculateSizeOnly b = true -> value_ok v ->
  write_value b v e = Ret (set_cap b (u32 (_capacity b + zlen (encode v))), e).
Proof.
  intros Hc Hv. destruct v as [x|x|v|x|l|l|l|d]; cbn [write_value encode value_ok] in *;
    unfold writeInt32, writeInt64, writeBool, writeByte, writeBytes, writeDouble, writeString,
      writeInt64; rewrite ?Hc; cbn [negb]; try done.
  - pose proof (zlen_nonneg l). rewrite writeByteArray_calc by done. unfold enc_array.
    by rewrite !zlen_app, prefix_len, pad_len.
  - pose proof (zlen_nonneg l). rewrite wrap_u_small by (unfold is_u; lia).
    rewrite writeByteArray_calc by done. unfold enc_array.
    by rewrite !zlen_app, prefix_len, pad_len.
Qed.

Lemma write_all_calc vs : forall b e,
  calculateSizeOnly b = true -> Forall value_ok vs -> is_u 32 (_capacity b) ->
  write_all b vs e = Ret (set_cap b (u32 (_capacity b + zlen (encode_all vs))), e).
Proof.
  induction vs as [|v vs IH]; intros b e Hc Hvs Hu; cbn [write_all].
  - change (zlen (encode_all [])) with 0. rewrite Z.add_0_r, wrap_u_small by done. by destruct b.
  - apply Forall_cons_1 in Hvs as [Hv Hvs]. rewrite write_value_calc by done. mstep.
    rewrite IH by (done || by apply wrap_u_range). rewrite encode_all_cons, zlen_app.
    unfold set_cap; cbn [_capacity calculateSizeOnly buffer sliced _position _limit bufferOwner].
    by rewrite wrap_u_add_l, Z.add_assoc.
Qed.

(** The size calculator is exact: the same writes on a calculating buffer
    give a capacity with which the real writes succeed and fill the buffer to
    its limit, while on any smaller buffer they raise the error flag. *)
Theorem calculated_size_is_exact vs :
  Forall value_ok vs -> zlen (encode_all vs) < 2 ^ 31 ->
  exists c, write_all (new_calculate true) vs None = Ret (c, None) /\
    (forall junk, exists b, write_all (new_size junk (capacity c)) vs (Some false) =
        Ret (b, Some false) /\ hasRemaining b = false /\ written b = encode_all vs) /\
    (forall junk size, 0 <= size < capacity c -> exists b,
        write_all (new_size junk size) vs (Some false) = Ret (b, Some true) /\ wf b).
Proof.
  intros Hvs Hsz. pose proof (zlen_nonneg (encode_all vs)).
  rewrite write_all_calc by (done || unfold is_u; cbn; lia). eexists. split; [done|].
  change (capacity _) with (u32 (0 + zlen (encode_all vs))).
  rewrite Z.add_0_l, wrap_u_small by (unfold is_u; lia). split.
  - intros junk.
    assert (wf (new_size junk (zlen (encode_all vs)))) as Hwf by (apply wf_new; lia).
    destruct (write_all_spec vs _ (Some false) Hwf Hvs) as (b&->&Wb&_&_&Hb).
    rewrite Hb by (cbn; lia). cbn [_limit _position new_size].
    destruct (Z.ltb_spec (zlen (encode_all vs)) (0 + zlen (encode_all vs))); [lia|].
    eexists. split; [done|]. split; [apply Z.ltb_ge; cbn; lia|].
    by rewrite written_append by (done || cbn; lia).
  - intros junk size Hs.
    assert (wf (new_size junk size)) as Hwf by (apply wf_new; lia).
    destruct (write_all_spec vs _ (Some false) Hwf Hvs) as (b&->&Wb&_).
    cbn [_limit _position new_size].
    destruct (Z.ltb_spec size (0 + zlen (encode_all vs))); [|lia]. eauto.
Qed.

(** ** Any sequence of operations *)

Inductive op :=
| OPosition (n : Z) | OLimit (n : Z) | OFlip | OClear | ORewind | OCompact | OSkip (n : Z)
| OClearCapacity
| OWrite (v : value)
| OWriteBytes (src : list Z) (offset length : Z)
| OWriteByteArray (src : list Z) (offset length : Z)
| ORead (s : shape)
| OReadBigInt32
| OReadInto (dst : list Z) (length : Z)
| OWriteBuffer (src : t)
| OWriteArrayBuffer (src : t)
| OWriteArray (src : ByteArray.t)
| OCopyBuffer (offset length : Z) (dst : list Z).

Definition src_ok (src : list Z) (offset length : Z) : Prop :=
  bytes_ok src /\ 0 <= offset /\ 0 <= length < 2 ^ 31 /\ offset + length <= zlen src.

(** What the caller must see to: sources and destinations have the bytes that are
    named, sources of less than 2^31 bytes, so that the sum with a position does
    not wrap; [copyBuffer], which checks nothing, stays within the capacity. *)
Definition op_ok (b : t) (o : op) : Prop :=
  match o with
  | OPosition n | OLimit n | OSkip n => is_u 32 n
  | OWrite v => value_ok v
  | OWriteBytes src off len | OWriteByteArray src off len => src_ok src off len
  | ORead (SBytes n) => is_u 32 n
  | OReadInto dst n => is_u 32 n /\ n <= zlen dst
  | OWriteBuffer src | OWriteArrayBuffer src => wf src
  | OWriteArray src => ByteArray.wf src /\ bytes_ok (ByteArray.bytes src) /\ ByteArray.length src < 2 ^ 31
  | OCopyBuffer off len dst => 0 <= off /\ 0 <= len <= zlen dst /\ off + len <= _capacity b
  | _ => True
  end.

Definition step (junk : nat -> Z) (b : t) (o : op) (e : err) : outcome (t * err) :=
  match o with
  | OPosition n => Ret (position_set b n, e)
  | OLimit n => Ret (limit_set b n, e)
  | OFlip => Ret (flip b, e)
  | OClear => Ret (clear b, e)
  | ORewind => Ret (rewind b, e)
  | OCompact => b ← compact b; Ret (b, e)
  | OSkip n => Ret (skip b n, e)
  | OClearCapacity => Ret (clearCapacity b, e)
  | OWrite v => write_value b v e
  | OWriteBytes src off len => writeBytes_off b src off len e
  | OWriteByteArray src off len => writeByteArray b src off len e
  | ORead s => '(b, _, e) ← read_shape junk b s e; Ret (b, e)
  | OReadBigInt32 => '(b, _, e) ← readBigInt32 b e; Ret (b, e)
  | OReadInto dst n => '(b, _, e) ← readBytes_into b dst n e; Ret (b, e)
  | OWriteBuffer src => '(b, _, e) ← writeBytes_buffer b src e; Ret (b, e)
  | OWriteArrayBuffer src => '(b, _, e) ← writeByteArray_buffer b src e; Ret (b, e)
  | OWriteArray src => writeBytes_array b src e
  | OCopyBuffer off len dst => _ ← copyBuffer b off len dst; Ret (b, e)
  end.

Fixpoint run (junk : nat -> Z) (b : t) (os : list op) (e : err) : outcome (t * err) :=
  match os with
  | [] => Ret (b, e)
  | o :: os => '(b, e) ← step junk b o e; run junk b os e
  end.

(** What every operation preserves. *)
Definition kept (b b' : t) : Prop :=
  wf b' /\ _capacity b' = _capacity b /\ zlen (buffer b') = zlen (buffer b).

Lemma kept_refl b : wf b -> kept b b.
Proof. intros. by split. Qed.

Lemma kept_advance b n : wf b -> 0 <= n -> _position b + n <= _limit b -> kept b (advance b n).
Proof. intros. split; [by apply wf_advance|done]. Qed.

Lemma kept_append b bs :
  wf (append b bs) -> wf b -> _position b + zlen bs <= _limit b -> kept b (append b bs).
Proof.
  intros. split; [done|split; [done|]]. unfold append; cbn. pose proof (zlen_nonneg bs).
  rewrite !zlen_app, zlen_ztake, zlen_zdrop. wf_lia.
Qed.

Lemma read_word_kept b e :
  wf b ->
  (exists b' x e', readInt32 b e = Ret (b', x, e') /\ kept b b') /\
  (exists b' x e', readInt64 b e = Ret (b', x, e') /\ kept b b') /\
  (exists b' x e', readByte b e = Ret (b', x, e') /\ kept b b') /\
  (exists b' x e', readBigInt32 b e = Ret (b', x, e') /\ kept b b').
Proof.
  intros Hwf. rewrite readInt32_spec, readInt64_spec by done. split_and!.
  - destruct (Z.ltb_spec (_limit b) (_position b + 4)); [eauto 6 using kept_refl|].
    eexists _, _, _. split; [done|]. by apply kept_advance.
  - destruct (Z.ltb_spec (_limit b) (_position b + 8)); [eauto 6 using kept_refl|].
    eexists _, _, _. split; [done|]. by apply kept_advance.
  - unfold readByte. rewrite u32_pos by (done || lia).
    destruct (Z.ltb_spec (_limit b) (_position b + 1)); [eauto 6 using kept_refl|]. get b 0.
    eexists _, _, _. split; [done|]. by apply kept_advance.
  - unfold readBigInt32. rewrite u32_pos by (done || lia).
    destruct (Z.ltb_spec (_limit b) (_position b + 4)); [eauto 6 using kept_refl|].
    get b 0. get b 1. get b 2. get b 3.
    eexists _, _, _. split; [done|]. by apply kept_advance.
Qed.

(** The length prefix of arbitrary data: refused, or an array that lies within
    the limit. *)
Lemma read_length_safe b :
  wf b ->
  exists b', kept b b' /\
    (read_length b = Ret (b', None) \/
     exists l a, read_length b = Ret (b', Some (l, a)) /\ 0 <= l < 2 ^ 24 /\ 0 <= a < 4 /\
       _position b' + l + a <= _limit b').
Proof.
  intros Hwf. unfold read_length. rewrite u32_pos by (done || lia).
  destruct (Z.ltb_spec (_limit b) (_position b + 1)); [eauto using kept_refl|].
  destruct (get_byte_spec b 0) as [-> U]; [done|lia|lia|]. mstep.
  change (set_pos b (_position b + 1)) with (advance b 1).
  assert (wf (advance b 1)) as W1 by (apply wf_advance; done || lia).
  assert (forall b1 l sl, kept b b1 -> 0 <= l < 2 ^ 24 ->
    exists b', kept b b' /\
    ((if _limit b1 <? u32 (_position b1 + l + addition_of l sl) then Ret (b1, None)
      else Ret (b1, Some (l, addition_of l sl))) = Ret (b', None) \/
     exists l0 a, (if _limit b1 <? u32 (_position b1 + l + addition_of l sl) then Ret (b1, None)
      else Ret (b1, Some (l, addition_of l sl))) = Ret (b', Some (l0, a)) /\
      0 <= l0 < 2 ^ 24 /\ 0 <= a < 4 /\ _position b' + l0 + a <= _limit b')) as Hend.
  { intros b1 l sl Hk Hl. pose proof (addition_range l sl).
    rewrite wrap_u_small by (destruct Hk as [Hk _]; wf_lia).
    exists b1. split; [done|].
    destruct (Z.ltb_spec (_limit b1) (_position b1 + l + addition_of l sl)); [by left|right].
    eexists _, _. split; [done|]. done. }
  destruct (Z.leb_spec 254 (peek b 0)); cycle 1.
  { mstep. apply Hend; [apply kept_advance; done || lia|unfold is_u in U; lia]. }
  rewrite (u32_pos (advance b 1)) by (done || lia).
  destruct (Z.ltb_spec (_limit (advance b 1)) (_position (advance b 1) + 3)) as [|Hr].
  { mstep. exists (advance b 1). split; [apply kept_advance; done || lia|by left]. }
  change (_limit (advance b 1)) with (_limit b) in Hr.
  change (_position (advance b 1)) with (_position b + 1) in *.
  destruct (get_byte_spec (advance b 1) 0) as [-> U0]; [done|lia|cbn; lia|]. mstep.
  destruct (get_byte_spec (advance b 1) 1) as [-> U1]; [done|lia|cbn; lia|]. mstep.
  destruct (get_byte_spec (advance b 1) 2) as [-> U2]; [done|lia|cbn; lia|]. mstep.
  apply Hend.
  - change (set_pos (advance b 1) (_position b + 1 + 3)) with (advance (advance b 1) 3).
    replace (advance (advance b 1) 3) with (advance b 4) by (unfold advance, set_pos; cbn; f_equal; lia).
    apply kept_advance; done || lia.
  - unfold is_u in *. pow2.
    rewrite (Z.lor_comm (peek _ 0)), lor_shiftl_add by (pow2; lia).
    rewrite (Z.lor_comm _ (Z.shiftl _ 16)), lor_shiftl_add by (pow2; lia). pow2. lia.
Qed.

Lemma kept_trans b1 b2 b3 : kept b1 b2 -> kept b2 b3 -> kept b1 b3.
Proof. unfold kept. intros (?&?&?) (?&?&?). split_and!; [done|congruence..]. Qed.

Lemma mem_write_alloc junk n bs :
  zlen bs = n -> mem_write (alloc_bytes junk n) 0 bs = Ret bs.
Proof.
  intros <-. pose proof (zlen_nonneg bs).
  rewrite <- (app_nil_r (alloc_bytes _ _)), mem_write_here by (by rewrite alloc_bytes_len).
  by rewrite app_nil_r.
Qed.

Lemma read_array_kept junk b e :
  wf b ->
  (exists b' x e', readByteArray junk b e = Ret (b', x, e') /\ kept b b') /\
  (exists b' x e', readString b e = Ret (b', x, e') /\ kept b b').
Proof.
  intros Hwf. unfold readByteArray, readString.
  destruct (read_length_safe b Hwf) as (b1&Hk&[->|(l&a&->&Hl&Ha&Hr)]); mstep.
  { split; eexists _, _, _; split; done. }
  pose proof (proj1 Hk) as W1. rewrite mem_read_ok by wf_lia. mstep.
  assert (zlen (ztake l (zdrop (_position b1) (buffer b1))) = l) as Hz.
  { rewrite zlen_ztake, zlen_zdrop. wf_lia. }
  cbn [ByteArray.bytes ByteArray.new_len]. rewrite mem_write_alloc by done. mstep.
  rewrite (wrap_u_small 32 (l + a)) by (unfold is_u; lia). rewrite u32_pos by (done || lia).
  split; eexists _, _, _; (split; [done|]); (eapply kept_trans; [done|]);
    apply kept_advance; done || lia.
Qed.

Lemma read_shape_kept junk b s e :
  wf b -> op_ok b (ORead s) -> exists b' x e', read_shape junk b s e = Ret (b', x, e') /\ kept b b'.
Proof.
  intros Hwf Hok. destruct (read_word_kept b e Hwf) as (H32&H64&H8&_).
  destruct (read_array_kept junk b e Hwf) as (HA&HS).
  destruct s as [| | | |n| | |]; cbn [read_shape].
  - destruct H32 as (b'&x&e'&->&?). mstep. eauto.
  - destruct H64 as (b'&x&e'&->&?). mstep. eauto.
  - unfold readBool, readUint32. destruct H32 as (b'&x&e'&->&?). mstep.
    repeat case_match; mstep; eauto.
  - destruct H8 as (b'&x&e'&->&?). mstep. eauto.
  - unfold readBytes. rewrite remaining_eq by done. cbn in Hok. unfold is_u in Hok.
    destruct (Z.ltb_spec (_limit b - _position b) n); mstep; [by eauto 8 using kept_refl|].
    rewrite mem_read_ok by wf_lia. mstep. cbn [ByteArray.bytes ByteArray.new_len].
    rewrite mem_write_alloc by (rewrite zlen_ztake, zlen_zdrop; wf_lia). mstep.
    rewrite u32_pos by (done || wf_lia). eexists _, _, _. split; [done|].
    apply kept_advance; done || lia.
  - destruct HA as (b'&x&e'&->&?). mstep. eauto.
  - destruct HS as (b'&x&e'&->&?). mstep. eauto.
  - unfold readDouble. destruct H64 as (b'&x&e'&->&?). mstep. eauto.
Qed.

Lemma compact_spec b :
  wf b -> exists b', compact b = Ret b' /\ kept b b' /\
    (hasRemaining b = true -> written b' = unread b /\ _limit b' = _capacity b).
Proof.
  intros Hwf. unfold compact. destruct (Z.eqb_spec (_position b) (_limit b)) as [He|He].
  { exists b. split_and!; try done; unfold hasRemaining; intros H%Z.ltb_lt; lia. }
  rewrite remaining_eq by done. rewrite mem_read_ok by wf_lia. mstep.
  set (bs := ztake _ _). assert (zlen bs = _limit b - _position b) as Hz.
  { subst bs. rewrite zlen_ztake, zlen_zdrop. wf_lia. }
  rewrite mem_write_ok by (rewrite ?Hz; wf_lia). mstep. rewrite ztake_0, app_nil_l.
  eexists. split; [done|].
  assert (bytes_ok (bs ++ zdrop (0 + zlen bs) (buffer b))) as Hb.
  { destruct Hwf as (_&_&_&_&_&Hb). apply Forall_app. split; [|by apply Forall_drop].
    apply Forall_take. by apply Forall_drop. }
  split.
  - unfold kept, wf. cbn. rewrite zlen_app, zlen_zdrop, Hz.
    destruct Hwf as (?&?&?&?&?&?). split_and!; try done; try lia. by rewrite <- Hz.
  - intros _. split; [|done]. unfold written; cbn. rewrite ztake_app_exact by done.
    unfold bs, unread. rewrite ztake_zdrop_comm by wf_lia. do 2 f_equal. lia.
Qed.

Lemma position_ops_kept b n :
  wf b -> is_u 32 n ->
  kept b (position_set b n) /\ kept b (limit_set b n) /\ kept b (flip b) /\
  kept b (clear b) /\ kept b (rewind b) /\ kept b (clearCapacity b).
Proof.
  intros (Hc&Hp&Hl&Hcap&Hs&Hb) Hn. unfold is_u in Hn.
  unfold position_set, limit_set, clearCapacity. rewrite Hc.
  split_and!; repeat case_match;
    repeat match goal with H : (_ <? _) = _ |- _ => first [apply Z.ltb_lt in H|apply Z.ltb_ge in H] end;
    unfold kept, wf; cbn; split_and!; done || lia.
Qed.

(** A skip of any length, also one that wraps around to a smaller position. *)
Lemma skip_kept b n : wf b -> is_u 32 n -> kept b (skip b n).
Proof.
  intros Hwf Hn. unfold skip. rewrite (proj1 Hwf). cbn [negb].
  destruct (Z.ltb_spec (_limit b) (u32 (_position b + n))); [by apply kept_refl|].
  pose proof (wrap_u_range 32 (_position b + n) ltac:(lia)) as [Hr _]. destruct Hwf as (?&?&?&?&?&?).
  unfold kept, wf. cbn. split_and!; done || lia.
Qed.

Lemma put_bytes_kept b src len e : wf b -> bytes_ok src -> 0 <= len < 2 ^ 31 -> len <= zlen src ->
  exists b' e', writeBytes b src len e = Ret (b', e') /\ kept b b'.
Proof.
  intros Hwf Hb Hl Hs. rewrite writeBytes_spec by (done || lia).
  destruct (put_result_cases b (ztake len src) e) as (b'&k&->&W&->&Hr&_); [done|by apply Forall_take|].
  eexists _, _. split; [done|]. by apply kept_append.
Qed.

Lemma write_buffer_kept b src e : wf b -> wf src -> exists b' e', ('(b, _, e) ← writeBytes_buffer b src e; Ret (b, e)) = Ret (b', e') /\ kept b b'.
Proof.
  intros Hwf Hsrc. unfold writeBytes_buffer. rewrite remaining_eq by done. set (len := _limit src - _position src).
  destruct (len =? 0); [mstep; eauto using kept_refl|]. pose proof Hsrc as (_ & Hp & Hl & Hc & Hm & Hb).
  destruct (put_bytes_kept b (zdrop (_position src) (buffer src)) len e Hwf) as (b' & e' & E & K);
    [by apply Forall_drop|unfold len; lia|unfold len; rewrite zlen_zdrop; lia|].
  unfold writeBytes in E. rewrite (proj1 Hwf) in *. cbn [negb] in *. destruct (_ <? _); [injection E as <- <-; mstep; eauto|].
  destruct (writeBytesInternal b _ 0 len) as [b1| | |]; [|done..]. mstep. injection E as <- <-. eauto.
Qed.

Lemma write_array_buffer_kept b src e : wf b -> wf src -> exists b' e', ('(b, _, e) ← writeByteArray_buffer b src e; Ret (b, e)) = Ret (b', e') /\ kept b b'.
Proof.
  intros Hwf (_ & Hp & Hl & Hc & Hm & Hb). unfold writeByteArray_buffer.
  destruct (writeByteArray_spec b (buffer (rewind src)) 0 (limit (rewind src)) e) as (b'&k&->&W&->&Hr&_); [done|done|unfold limit; cbn; lia..|].
  mstep. eexists _, _. split; [done|]. by apply kept_append.
Qed.

Lemma step_kept junk b o e :
  wf b -> op_ok b o -> exists b' e', step junk b o e = Ret (b', e') /\ kept b b'.
Proof.
  intros Hwf Hok.
  destruct o as [n|n| | | | |n| |v|src off len|src off len|s| |dst n|src|src|src|off len dst]; cbn [step op_ok] in *.
  1,2,3,4,5,8: destruct (position_ops_kept b 0) as (H1&H2&H3&H4&H5&H6); [done|done|].
  1,2: destruct (position_ops_kept b n) as (?&?&_); [done|done|]; eauto.
  1,2,3,4: eauto.
  - destruct (compact_spec b Hwf) as (b'&->&?&_). mstep. eauto.
  - eexists _, _. split; [done|]. by apply skip_kept.
  - destruct (write_value_spec b v e Hwf Hok) as (b'&k&->&W&->&Hr&_).
    eexists _, _. split; [done|]. by apply kept_append.
  - destruct Hok as (Hb&?&?&?). rewrite writeBytes_off_spec by done.
    destruct (put_result_cases b (ztake len (zdrop off src)) e) as (b'&k&->&W&->&Hr&_);
      [done|apply Forall_take; by apply Forall_drop|].
    eexists _, _. split; [done|]. by apply kept_append.
  - destruct Hok as (Hb&?&?&?).
    destruct (writeByteArray_spec b src off len e) as (b'&k&->&W&->&Hr&_); [done..|].
    eexists _, _. split; [done|]. by apply kept_append.
  - destruct (read_shape_kept junk b s e Hwf Hok) as (b'&x&e'&->&?). mstep. eauto.
  - destruct (read_word_kept b e Hwf) as (_&_&_&b'&x&e'&->&?). mstep. eauto.
  - destruct Hok as [Hn Hd]. unfold is_u in Hn. unfold readBytes_into. rewrite remaining_eq by done.
    destruct (Z.ltb_spec (_limit b - _position b) n); mstep; [by eauto 8 using kept_refl|].
    rewrite mem_read_ok by wf_lia. mstep.
    rewrite mem_write_ok by (rewrite ?zlen_ztake, ?zlen_zdrop; wf_lia). mstep.
    rewrite u32_pos by (done || wf_lia). eexists _, _. split; [done|].
    apply kept_advance; done || lia.
  - by apply write_buffer_kept.
  - by apply write_array_buffer_kept.
  - destruct Hok as (Ha & Hb & Hl). unfold ByteArray.wf in Ha. unfold writeBytes_array.
    destruct (put_bytes_kept b (ByteArray.bytes src) (ByteArray.length src) e Hwf) as (b' & e' & E & K); [done|rewrite Ha; pose proof (zlen_nonneg (ByteArray.bytes src)); lia|lia|].
    unfold writeBytes in E. eauto.
  - destruct Hok as (? & ? & ?). unfold copyBuffer. rewrite mem_read_ok by wf_lia. mstep.
    rewrite mem_write_ok by (rewrite ?zlen_ztake, ?zlen_zdrop; wf_lia). mstep. eauto using kept_refl.
Qed.

(** The sequences: each operation is allowed where it comes. *)
Fixpoint ops_ok (junk : nat -> Z) (b : t) (os : list op) (e : err) : Prop :=
  match os with
  | [] => True
  | o :: os => op_ok b o /\ match step junk b o e with Ret (b', e') => ops_ok junk b' os e' | _ => True end
  end.

(** C31. No sequence of the operations that move the position and the limit, read
    and write values, write the bytes of arrays and of other buffers and copy bytes
    out accesses memory outside the buffer, whatever bytes it holds: every operation
    returns, and position, limit and capacity stay ordered.  The caller must give
    sources of less than 2^31 bytes and destinations that have the bytes named, and
    keep [copyBuffer] within the capacity. *)
Theorem buffer_ops_safe junk os : forall b e,
  wf b -> ops_ok junk b os e ->
  exists b' e', run junk b os e = Ret (b', e') /\ wf b' /\ capacity b' = capacity b.
Proof.
  induction os as [|o os IH]; intros b e Hwf Hos; cbn [run]; [eauto|]. destruct Hos as [Ho Hos].
  destruct (step_kept junk b o e Hwf Ho) as (b1&e1&E&W1&Hc1&_). rewrite E in *. mstep.
  destruct (IH b1 e1 W1 Hos) as (b2&e2&->&W2&Hc2). unfold capacity in *.
  eexists _, _. split; [done|]. split; [done|congruence].
Qed.

(** The bound on the length of sources is needed: a length that wraps the sum with
    the position around passes the check, and the copy runs out of the buffer. *)
Theorem long_write_overflows b src len e : wf b -> 2 ^ 32 - _position b <= len < 2 ^ 32 -> len <= zlen src ->
  zlen (buffer b) < 2 ^ 31 -> writeBytes b src len e = UB.
Proof.
  intros Hwf Hl Hs Hz. unfold writeBytes. rewrite (proj1 Hwf). cbn [negb]. destruct Hwf as (_ & Hp & Hlim & Hcap & Hm & _).
  assert (u32 (_position b + len) = _position b + len - 2 ^ 32) as -> by (unfold wrap_u; symmetry; apply Z.mod_unique_pos with 1; lia).
  rewrite (proj2 (Z.ltb_ge _ _)) by lia. unfold writeBytesInternal. rewrite mem_read_ok by lia. mstep.
  unfold mem_write. rewrite decide_False; [done|]. intros [_ Hbad]. revert Hbad. rewrite zlen_ztake, zdrop_0. lia.
Qed.

Definition demo_values : list value :=
  [VInt32 (-2); VBool true; VString [104; 105]; VInt64 (2 ^ 40); VArray (replicate 254 7);
   VBytes [1; 2; 3]; VByte 9; VDouble (2 ^ 63)].

#[export] Instance value_ok_dec v : Decision (value_ok v).
Proof. destruct v; simpl; apply _. Defined.

Lemma demo_values_ok : Forall value_ok demo_values.
Proof. apply (bool_decide_unpack _). by vm_compute. Qed.

Lemma buffer_roundtrip_witness :
  exists b b', write_all (new_size (fun _ => 0) 300) demo_values (Some false) = Ret (b, Some false) /\
    read_all (fun _ => 0) (flip b) (map shape_of demo_values) (Some false) =
      Ret (b', map Some demo_values, Some false) /\ hasRemaining b' = false.
Proof. apply (buffer_roundtrip _ _ 300); [apply demo_values_ok|by vm_compute]. Defined.

Lemma calculated_size_is_exact_witness :
  exists c, write_all (new_calculate true) demo_values None = Ret (c, None) /\
    (forall junk, exists b, write_all (new_size junk (capacity c)) demo_values (Some false) =
        Ret (b, Some false) /\ hasRemaining b = false /\ written b = encode_all demo_values) /\
    (forall junk size, 0 <= size < capacity c -> exists b,
        write_all (new_size junk size) demo_values (Some false) = Ret (b, Some true) /\ wf b).
Proof. apply calculated_size_is_exact; [apply demo_values_ok|by vm_compute]. Defined.

Definition demo_ops : list op :=
  [OSkip 3; OWrite (VInt64 1); ORewind; ORead SString; OCompact; OLimit 5; ORead SArray; OClear;
   OWriteBuffer (new_size (fun _ => 1) 3); OSkip (2 ^ 32 - 2); OCopyBuffer 2 6 (replicate 6 0)].

Lemma buffer_ops_safe_witness :
  exists b' e', run (fun _ => 0) (new_size (fun _ => 255) 8) demo_ops (Some false) = Ret (b', e') /\ wf b' /\ capacity b' = 8.
Proof.
  apply (buffer_ops_safe (fun _ => 0) demo_ops (new_size (fun _ => 255) 8) (Some false)).
  - by apply wf_new.
  - vm_compute. repeat split; done || (repeat constructor; done).
Defined.

End NativeByteBuffer.
