(* ===== verification/BuffersStorage.v ===== *)
(** * BuffersStorage: the pool of reusable buffers

    Models src/src/ptp_net/BuffersStorage.{h,cpp} and the members of
    [NativeByteBuffer] that use it.  Buffers live in a heap and are passed by
    pointer, as in the code: the pool, the code that was given a buffer and a
    deleted object can then be told apart, and using a deleted buffer is
    undefined behaviour.  The code takes a mutex around each access to the
    vectors; the operations are modelled as atomic. *)

From S2P Require Import Prelude NativeByteBuffer.

Module BuffersStorage.

Module NBB := NativeByteBuffer.

(** One constructor per vector of free buffers. *)
Inductive cls :=
| freeBuffers8 | freeBuffers128 | freeBuffers1024 | freeBuffers4096
| freeBuffers16384 | freeBuffers32768 | freeBuffersBig.

#[export] Instance cls_eq_dec : EqDecision cls.
Proof. solve_decision. Defined.

Definition class_size (c : cls) : Z :=
  match c with
  | freeBuffers8 => 8
  | freeBuffers128 => 128
  | freeBuffers1024 => 1024 + 200
  | freeBuffers4096 => 4096 + 200
  | freeBuffers16384 => 16384 + 200
  | freeBuffers32768 => 40000
  | freeBuffersBig => 160000
  end.

Record t := mk {
  free : cls -> list nat;
  heap : gmap nat NBB.t;
  next : nat;
}.

Definition set_free (st : t) (c : cls) (l : list nat) : t :=
  mk (fun c' => if decide (c' = c) then l else free st c') (heap st) (next st).

Definition set_heap (st : t) (h : gmap nat NBB.t) : t := mk (free st) h (next st).

Definition deref (st : t) (p : nat) : outcome NBB.t :=
  match heap st !! p with Some b => Ret b | None => UB end.

Definition new_buffer (st : t) (b : NBB.t) : t * nat :=
  (mk (free st) (<[next st := b]> (heap st)) (S (next st)), next st).

Fixpoint fill (junk : nat -> Z) (n : nat) (c : cls) (st : t) : t :=
  match n with
  | O => st
  | S n =>
      let '(st, p) := new_buffer st (NBB.new_size junk (class_size c)) in
      fill junk n c (set_free st c (free st c ++ [p]))
  end.

(** The constructor: four buffers of 8 bytes and five of 128. *)
Definition init (junk : nat -> Z) : t :=
  fill junk 5 freeBuffers128 (fill junk 4 freeBuffers8 (mk (fun _ => []) ∅ 0)).

Definition class_for (size : Z) : option cls :=
  if size <=? 8 then Some freeBuffers8
  else if size <=? 128 then Some freeBuffers128
  else if size <=? 1024 + 200 then Some freeBuffers1024
  else if size <=? 4096 + 200 then Some freeBuffers4096
  else if size <=? 16384 + 200 then Some freeBuffers16384
  else if size <=? 40000 then Some freeBuffers32768
  else if size <=? 160000 then Some freeBuffersBig
  else None.

Definition getFreeBuffer (junk : nat -> Z) (st : t) (size : Z) : outcome (t * nat) :=
  let '(st, p) :=
    match class_for size with
    | None => new_buffer st (NBB.new_size junk size)
    | Some c =>
        match free st c with
        | p :: rest => (set_free st c rest, p)
        | [] => new_buffer st (NBB.new_size junk (class_size c))
        end
    end in
  b ← deref st p;
  Ret (set_heap st (<[p := NBB.rewind (NBB.limit_set b size)]> (heap st)), p).

Definition class_of_capacity (capacity : Z) : option (cls * Z) :=
  if capacity =? 8 then Some (freeBuffers8, 80)
  else if capacity =? 128 then Some (freeBuffers128, 80)
  else if capacity =? 1024 + 200 then Some (freeBuffers1024, 10)
  else if capacity =? 4096 + 200 then Some (freeBuffers4096, 10)
  else if capacity =? 16384 + 200 then Some (freeBuffers16384, 10)
  else if capacity =? 40000 then Some (freeBuffers32768, 10)
  else if capacity =? 160000 then Some (freeBuffersBig, 10)
  else None.

Definition reuseFreeBuffer (st : t) (buffer : option nat) : outcome t :=
  match buffer with
  | None => Ret st
  | Some p =>
      b ← deref st p;
      match class_of_capacity (NBB.capacity b) with
      | Some (c, maxCount) =>
          if zlen (free st c) <? maxCount then Ret (set_free st c (free st c ++ [p]))
          else Ret (set_heap st (delete p (heap st)))
      | None => Ret (set_heap st (delete p (heap st)))
      end
  end.

(** [NativeByteBuffer::reuse]. *)
Definition reuse (st : t) (p : nat) : outcome t :=
  b ← deref st p;
  if NBB.sliced b then Ret st else reuseFreeBuffer st (Some p).

(** [NativeByteBuffer::copy]. *)
Definition copy (junk : nat -> Z) (st : t) (p : nat) (length : Z) : outcome (t * nat) :=
  b ← deref st p;
  '(st, q) ← getFreeBuffer junk st length;
  r ← deref st q;
  bs ← mem_read (NBB.buffer b) 0 length;
  m ← mem_write (NBB.buffer r) 0 bs;
  Ret (set_heap st (<[q := NBB.set_buffer r m]> (heap st)), q).

(** What [NativeByteBuffer::readByteBuffer] returns: a buffer of the pool, or a
    slice that shares the bytes at an offset of the buffer read from. *)
Inductive read_buffer :=
| Copied (q : nat)
| Slice (offset length : Z).

Definition readByteBuffer (junk : nat -> Z) (st : t) (p : nat) (cp : bool) (error : option bool)
  : outcome (t * option read_buffer * option bool) :=
  b ← deref st p;
  '(b, header) ← NBB.read_length b;
  match header with
  | None => Ret (set_heap st (<[p := b]> (heap st)), None, NBB.set_error error)
  | Some (l, addition) =>
      '(st, result) ←
        (if cp : bool then
           '(st, q) ← getFreeBuffer junk st l;
           r ← deref st q;
           bs ← mem_read (NBB.buffer b) (NBB._position b) l;
           m ← mem_write (NBB.buffer r) 0 bs;
           Ret (set_heap st (<[q := NBB.set_buffer r m]> (heap st)), Copied q)
         else Ret (st, Slice (NBB._position b) l));
      Ret (set_heap st
             (<[p := NBB.set_pos b (u32 (NBB._position b + u32 (l + addition)))]> (heap st)),
           Some result, error)
  end.

(** ** The invariant

    Every pooled buffer is alive, has the capacity of its class, and is in one
    place of one pool only; no pool exceeds its bound. *)

Definition max_count (c : cls) : Z :=
  match c with freeBuffers8 | freeBuffers128 => 80 | _ => 10 end.

Definition pooled (st : t) (p : nat) : Prop := exists c, p ∈ free st c.

Definition wf (st : t) : Prop :=
  (forall c p, p ∈ free st c ->
     exists b, heap st !! p = Some b /\ NBB.wf b /\ NBB._capacity b = class_size c) /\
  (forall c, NoDup (free st c)) /\
  (forall c, zlen (free st c) <= max_count c) /\
  (forall p, (next st <= p)%nat -> heap st !! p = None).

(** The classes partition the pooled buffers, since a buffer has one
    capacity. *)
Lemma class_size_inj c1 c2 : class_size c1 = class_size c2 -> c1 = c2.
Proof. by destruct c1, c2. Qed.

Lemma pool_disjoint st c1 c2 p : wf st -> p ∈ free st c1 -> p ∈ free st c2 -> c1 = c2.
Proof.
  intros [Hp _] H1 H2. destruct (Hp _ _ H1) as (b&Hb&_&Hc1), (Hp _ _ H2) as (b'&Hb'&_&Hc2).
  simplify_eq. apply class_size_inj. congruence.
Qed.

Lemma class_for_spec size :
  match class_for size with
  | Some c => size <= class_size c <= 160000
  | None => 160000 < size
  end.
Proof.
  unfold class_for.
  repeat match goal with |- context [?x <=? ?y] => destruct (Z.leb_spec x y) end; cbn; lia.
Qed.

Lemma class_of_capacity_spec cap c n :
  class_of_capacity cap = Some (c, n) -> cap = class_size c /\ n = max_count c.
Proof.
  unfold class_of_capacity.
  repeat match goal with |- context [?x =? ?y] => destruct (Z.eqb_spec x y) end;
    intros [= <- <-]; by split.
Qed.

Lemma pooled_alive st p : wf st -> pooled st p -> is_Some (heap st !! p).
Proof. intros [Hp _] [c Hc]. destruct (Hp _ _ Hc) as (b&->&_). eauto. Qed.

Lemma wf_new_buffer st b :
  wf st -> wf (new_buffer st b).1 /\ ~ pooled (new_buffer st b).1 (next st) /\
  heap st !! next st = None.
Proof.
  intros Hwf. destruct (Hwf) as (Hp&Hnd&Hmax&Hnext).
  assert (heap st !! next st = None) as Hfresh by (by apply Hnext).
  split; [|split; [|done]].
  - split; [|split; [done|split; [done|]]]; simpl.
    + intros c p Hin. destruct (Hp c p Hin) as (b'&Hb'&?). exists b'.
      rewrite lookup_insert_ne by congruence. done.
    + intros p Hle. rewrite lookup_insert_ne by lia. apply Hnext. lia.
  - intros [c Hin]. destruct (Hp c _ Hin) as (b'&Hb'&_). congruence.
Qed.

Lemma wf_pop st c p rest :
  wf st -> free st c = p :: rest ->
  wf (set_free st c rest) /\ ~ pooled (set_free st c rest) p.
Proof.
  intros Hwf Hf. destruct (Hwf) as (Hp&Hnd&Hmax&Hnext).
  pose proof (Hnd c) as Hndc. rewrite Hf in Hndc. apply list.NoDup_cons in Hndc as [Hnin Hndr].
  split.
  - split_and!; simpl; intros c'; try destruct (decide (c' = c)) as [->|]; try done.
    + intros q Hq. apply Hp. rewrite Hf. by right.
    + by apply Hp.
    + pose proof (Hmax c) as Hm. rewrite Hf, zlen_cons in Hm. lia.
    + apply Hnext.
  - intros [c' Hin]. simpl in Hin. destruct (decide (c' = c)) as [->|Hne]; [done|].
    apply Hne. apply (pool_disjoint st c' c p); [done|done|]. rewrite Hf. by left.
Qed.

(** Changing a buffer that is not pooled keeps the invariant. *)
Lemma wf_update st p b :
  wf st -> ~ pooled st p -> (p < next st)%nat -> wf (set_heap st (<[p := b]> (heap st))).
Proof.
  intros (Hp&Hnd&Hmax&Hnext) Hnp Hlt. split_and!; simpl; try done.
  - intros c q Hq. destruct (Hp c q Hq) as (b'&Hb'&?). exists b'.
    rewrite lookup_insert_ne; [done|]. intros ->. apply Hnp. by exists c.
  - intros q Hle. rewrite lookup_insert_ne by lia. by apply Hnext.
Qed.

Lemma wf_delete st p : wf st -> ~ pooled st p -> wf (set_heap st (delete p (heap st))).
Proof.
  intros (Hp&Hnd&Hmax&Hnext) Hnp. split_and!; simpl; try done.
  - intros c q Hq. destruct (Hp c q Hq) as (b'&Hb'&?). exists b'.
    rewrite lookup_delete_ne; [done|]. intros ->. apply Hnp. by exists c.
  - intros q Hle. rewrite lookup_delete_None. right. by apply Hnext.
Qed.

Lemma alive_lt st p b : wf st -> heap st !! p = Some b -> (p < next st)%nat.
Proof.
  intros (_&_&_&Hnext) Hb. destruct (decide (p < next st)%nat) as [|Hge]; [done|].
  rewrite Hnext in Hb by lia. done.
Qed.

(** A buffer taken from the pool: empty, with the limit asked for, and no
    longer pooled; nothing else changes. *)
Lemma getFreeBuffer_spec junk st size :
  wf st -> 0 <= size < 2 ^ 31 ->
  exists st' p b, getFreeBuffer junk st size = Ret (st', p) /\ wf st' /\
    heap st' !! p = Some b /\ NBB.wf b /\ NBB._position b = 0 /\ NBB._limit b = size /\
    ~ pooled st' p /\ (forall q, pooled st' q -> pooled st q) /\
    (pooled st p \/ heap st !! p = None) /\
    (forall q, q <> p -> heap st' !! q = heap st !! q).
Proof.
  intros Hwf Hsz. unfold getFreeBuffer. pose proof (class_for_spec size) as Hc.
  assert (forall n, size <= n < 2 ^ 31 ->
    exists st' p b,
      (let '(st, p) := new_buffer st (NBB.new_size junk n) in
       b ← deref st p;
       Ret (set_heap st (<[p := NBB.rewind (NBB.limit_set b size)]> (heap st)), p)) = Ret (st', p) /\
      wf st' /\ heap st' !! p = Some b /\ NBB.wf b /\ NBB._position b = 0 /\ NBB._limit b = size /\
      ~ pooled st' p /\ (forall q, pooled st' q -> pooled st q) /\
      (pooled st p \/ heap st !! p = None) /\
      (forall q, q <> p -> heap st' !! q = heap st !! q)) as Hnew.
  { intros n Hn. destruct (wf_new_buffer st (NBB.new_size junk n) Hwf) as (W&Hnp&Hfresh).
    unfold new_buffer, deref in *. simpl. rewrite lookup_insert_eq. mstep.
    eexists _, _, _. split; [done|]. simpl. rewrite lookup_insert_eq.
    assert (NBB.wf (NBB.new_size junk n)) as Wb by (apply NBB.wf_new; lia).
    unfold NBB.limit_set. cbn. destruct (Z.ltb_spec n size); [lia|].
    destruct (Z.ltb_spec size 0); [lia|].
    split_and!; try done.
    - apply (wf_update _ _ _ W); [done|simpl; lia].
    - destruct Wb as (?&?&?&?&?&?). unfold NBB.wf. cbn in *. split_and!; done || lia.
    - by right.
    - intros q Hq. by rewrite !lookup_insert_ne by done. }
  destruct (class_for size) as [c|] eqn:Ecls; [|apply Hnew; lia].
  destruct (free st c) as [|p rest] eqn:Hf; [apply Hnew; destruct Hc; lia|].
  destruct (wf_pop st c p rest Hwf Hf) as [W Hnp].
  destruct Hwf as (Hp&Hnd&Hmax&Hnext).
  destruct (Hp c p) as (b&Hb&Wb&Hcap); [rewrite Hf; by left|].
  unfold deref. simpl. rewrite Hb. mstep.
  eexists _, _, _. split; [done|]. simpl. rewrite lookup_insert_eq.
  assert (NBB.wf (NBB.rewind (NBB.limit_set b size)) /\
    NBB._limit (NBB.rewind (NBB.limit_set b size)) = size) as [W' Hl].
  { destruct Wb as (?&?&?&?&?&?). unfold NBB.limit_set.
    destruct (Z.ltb_spec (NBB._capacity b) size); [lia|].
    split; [|by case_match]. unfold NBB.wf. by case_match; cbn; split_and!; done || lia. }
  assert (forall q, pooled (set_free st c rest) q -> pooled st q) as Hsub.
  { intros q [c' Hq]. simpl in Hq. exists c'. destruct (decide (c' = c)) as [->|]; [|done].
    rewrite Hf. by right. }
  split_and!; try done.
  - apply (wf_update _ _ _ W); [done|]. simpl. apply (alive_lt st p b); [|done]. by split_and!.
  - left. exists c. rewrite Hf. by left.
  - intros q Hq. by rewrite lookup_insert_ne by done.
Qed.

(** A buffer given back goes to its pool or is deleted. *)
Lemma reuseFreeBuffer_spec st p b :
  wf st -> ~ pooled st p -> heap st !! p = Some b -> NBB.wf b ->
  exists st', reuseFreeBuffer st (Some p) = Ret st' /\ wf st' /\
    (pooled st' p \/ heap st' !! p = None) /\
    (forall q, q <> p -> heap st' !! q = heap st !! q) /\
    (forall q, pooled st' q -> q = p \/ pooled st q).
Proof.
  intros Hwf Hnp Hb Wb. unfold reuseFreeBuffer, deref. rewrite Hb. mstep.
  assert (exists st', Ret (set_heap st (delete p (heap st))) = Ret st' /\ wf st' /\
    (pooled st' p \/ heap st' !! p = None) /\
    (forall q, q <> p -> heap st' !! q = heap st !! q) /\
    (forall q, pooled st' q -> q = p \/ pooled st q)) as Hdel.
  { eexists. split; [done|]. split; [by apply wf_delete|]. simpl. split_and!.
    - right. apply lookup_delete_eq.
    - intros q Hq. by rewrite lookup_delete_ne.
    - intros q [c Hc]. right. by exists c. }
  destruct (class_of_capacity (NBB.capacity b)) as [[c n]|] eqn:Ec; [|done].
  apply class_of_capacity_spec in Ec as [Hcap ->].
  destruct (Z.ltb_spec (zlen (free st c)) (max_count c)); [|done].
  destruct (Hwf) as (Hp&Hnd&Hmax&Hnext).
  eexists. split; [done|]. split; [|split; [|split]].
  - split_and!; simpl; try done; intros c'; destruct (decide (c' = c)) as [->|]; try done.
    + intros q [Hq|Hq]%elem_of_app; [by apply Hp|]. apply list_elem_of_singleton in Hq as ->. eauto.
    + by apply Hp.
    + apply list.NoDup_app. split; [done|].
      split; [|apply NoDup_singleton]. intros q Hq ->%list_elem_of_singleton. apply Hnp. by exists c.
    + zlia.
  - left. exists c. simpl. rewrite decide_True by done. apply elem_of_app. right. by left.
  - done.
  - intros q [c' Hq]. simpl in Hq. destruct (decide (c' = c)) as [->|]; [|right; by exists c'].
    apply elem_of_app in Hq as [Hq| ->%list_elem_of_singleton]; [right; by exists c|by left].
Qed.

(** ** Clients of the pool

    The pool together with the set of pointers its clients hold.  The clients
    keep a discipline: they use only buffers they hold, and give each back once.
    The code that saves and reads a configuration does; the notification below
    does not. *)

Lemma wf_fill junk n c : forall st,
  wf st -> zlen (free st c) + Z.of_nat n <= max_count c -> wf (fill junk n c st).
Proof.
  induction n as [|n IH]; intros st Hwf Hn; cbn [fill]; [done|].
  destruct (wf_new_buffer st (NBB.new_size junk (class_size c)) Hwf) as (W&Hnp&_).
  destruct (reuseFreeBuffer_spec (new_buffer st (NBB.new_size junk (class_size c))).1
    (next st) (NBB.new_size junk (class_size c))) as (st'&Hr&W'&_); [done|done| | |].
  - simpl. apply lookup_insert_eq.
  - apply NBB.wf_new. by destruct c.
  - unfold reuseFreeBuffer, deref in Hr. simpl in Hr. rewrite lookup_insert_eq in Hr. mstep.
    cbn [mbind outcome_bind] in Hr.
    assert (class_of_capacity (NBB.capacity (NBB.new_size junk (class_size c))) =
      Some (c, max_count c)) as Hcls by (by destruct c). rewrite Hcls in Hr.
    destruct (Z.ltb_spec (zlen (free st c)) (max_count c)); [|lia].
    injection Hr as <-. apply IH; [done|]. simpl. rewrite decide_True by done. zlia.
Qed.

Lemma wf_storage_init junk : wf (init junk).
Proof.
  apply wf_fill; [apply wf_fill|]; [|by vm_compute|by vm_compute].
  split_and!; simpl; try done.
  - intros c p Hp. by apply not_elem_of_nil in Hp.
  - intros. constructor.
  - intros c. by destruct c.
Qed.

Inductive reach : t -> gset nat -> Prop :=
| reach_init junk : reach (init junk) ∅
| reach_get junk st live size st' p :
    reach st live -> 0 <= size < 2 ^ 31 ->
    getFreeBuffer junk st size = Ret (st', p) -> reach st' ({[p]} ∪ live)
| reach_use junk st live p b o e b' e' :
    reach st live -> p ∈ live -> heap st !! p = Some b -> NBB.op_ok b o ->
    NBB.step junk b o e = Ret (b', e') -> reach (set_heap st (<[p := b']> (heap st))) live
| reach_copy junk st live p b length st' q :
    reach st live -> p ∈ live -> heap st !! p = Some b -> 0 <= length <= NBB.capacity b ->
    copy junk st p length = Ret (st', q) -> reach st' ({[q]} ∪ live)
| reach_reuse st live p st' :
    reach st live -> p ∈ live -> reuse st p = Ret st' -> reach st' (live ∖ {[p]}).

Definition inv (st : t) (live : gset nat) : Prop :=
  wf st /\ forall p, p ∈ live -> ~ pooled st p /\ exists b, heap st !! p = Some b /\ NBB.wf b.

Lemma get_fresh st live p : inv st live -> pooled st p \/ heap st !! p = None -> p ∉ live.
Proof. intros [_ Hl] Hp Hin. destruct (Hl p Hin) as (Hnp&b&Hb&_). destruct Hp; congruence. Qed.

Lemma reuse_spec st p b :
  wf st -> ~ pooled st p -> heap st !! p = Some b -> NBB.wf b ->
  exists st', reuse st p = Ret st' /\ wf st' /\
    (forall q, q <> p -> heap st' !! q = heap st !! q) /\
    (forall q, pooled st' q -> q = p \/ pooled st q).
Proof.
  intros Hwf Hnp Hb Wb. unfold reuse, deref. rewrite Hb. mstep. destruct (NBB.sliced b).
  - exists st. split_and!; try done; [apply Hwf..|]. auto.
  - destruct (reuseFreeBuffer_spec st p b) as (st'&->&W&_&?&?); [done..|]. by exists st'.
Qed.

(** A copy is a buffer that nobody held, with the bytes copied. *)
Lemma pool_copy_spec junk st live p b n :
  inv st live -> p ∈ live -> heap st !! p = Some b -> 0 <= n <= NBB.capacity b ->
  exists st' q r, copy junk st p n = Ret (st', q) /\ inv st' ({[q]} ∪ live) /\ (q ∉ live) /\
    heap st' !! q = Some r /\ NBB.limit r = n /\ ztake n (NBB.buffer r) = ztake n (NBB.buffer b) /\
    (forall q', q' ∈ live -> heap st' !! q' = heap st !! q').
Proof.
  intros Hi Hp Hb Hn. pose proof Hi as [Hwf Hl]. destruct (Hl p Hp) as (Hnp&b0&Hb0&Wb). simplify_eq.
  pose proof Wb as (_ & ? & ? & Hcap & Hmax & Hok). unfold NBB.capacity in Hn.
  destruct (getFreeBuffer_spec junk st n Hwf ltac:(lia)) as (st1&q&r&Hget&W1&Hr&Wr&Hpos&Hlim&Hnq&Hsub&Hwas&Hother).
  pose proof (get_fresh st live q Hi Hwas) as Hql. unfold copy, deref. rewrite Hb. mstep. rewrite Hget. mstep. rewrite Hr. mstep.
  rewrite mem_read_ok by lia. mstep. pose proof Wr as (Hc0 & ? & ? & ? & ? & Hrok).
  assert (zlen (ztake n (zdrop 0 (NBB.buffer b))) = n) as Hz by (rewrite zlen_ztake, zdrop_0; lia).
  rewrite mem_write_ok by (rewrite ?Hz; lia). mstep. rewrite ztake_0. cbn [app].
  eexists _, q, _. split; [done|]. split; [split|].
  - apply wf_update; [done|done|by eapply alive_lt].
  - intros q' Hq'. simpl. destruct (decide (q' = q)) as [->|Hne].
    + rewrite lookup_insert_eq. split; [done|]. eexists. split; [done|]. unfold NBB.wf. cbn. rewrite zlen_app, zlen_zdrop, Hz.
      split_and!; try done; try lia. apply Forall_app. split; [apply Forall_take; by apply Forall_drop|by apply Forall_drop].
    + rewrite lookup_insert_ne by done. assert (q' ∈ live) as Hin by set_solver. destruct (Hl q' Hin) as [Hn' Hb']. rewrite Hother by done.
      split; [|done]. intros Hpq. by apply Hn', Hsub.
  - split; [done|]. simpl. rewrite lookup_insert_eq. split; [done|]. cbn. split; [done|]. split.
    + rewrite zdrop_0 in *. by rewrite ztake_app_exact.
    + intros q' Hq'. rewrite lookup_insert_ne by congruence. apply Hother. congruence.
Qed.

Lemma storage_reach_inv st live : reach st live -> inv st live.
Proof.
  induction 1 as [junk|junk st live size st' p _ IH Hsz Hget|junk st live p b o e b' e' _ IH Hp Hb Ho Hw
    |junk st live p b n st' q _ IH Hp Hb Hn Hcp|st live p st' _ IH Hp Hre].
  - split; [apply wf_storage_init|]. set_solver.
  - destruct IH as [Hwf Hl].
    destruct (getFreeBuffer_spec junk st size Hwf Hsz)
      as (st1&p1&b&Hget'&W1&Hb&Wb&_&_&Hnp&Hsub&_&Hother).
    rewrite Hget in Hget'. injection Hget' as <- <-. split; [done|].
    intros q [->%elem_of_singleton|Hq]%elem_of_union; [eauto|].
    destruct (decide (q = p)) as [->|Hne]; [eauto|].
    destruct (Hl q Hq) as [Hnq Hbq]. rewrite Hother by done. naive_solver.
  - destruct IH as [Hwf Hl]. destruct (Hl p Hp) as (Hnp&b0&Hb0&Wb0). simplify_eq.
    destruct (NBB.step_kept junk b o e Wb0 Ho) as (b1&e1&Hw1&W1&_). rewrite Hw in Hw1.
    injection Hw1 as <- _. split; [apply wf_update; [done|done|by eapply alive_lt]|].
    intros q Hq. simpl. destruct (decide (q = p)) as [->|Hne].
    + rewrite lookup_insert_eq. split; [done|eauto].
    + rewrite lookup_insert_ne by done. by apply Hl.
  - destruct (pool_copy_spec junk st live p b n IH Hp Hb Hn) as (st1&q1&r&Hcp1&Hi&_).
    rewrite Hcp in Hcp1. by injection Hcp1 as <- <-.
  - destruct IH as [Hwf Hl]. destruct (Hl p Hp) as (Hnp&b&Hb&Wb).
    destruct (reuse_spec st p b) as (st1&Hre1&W1&Hother&Hsub); [done..|].
    rewrite Hre in Hre1. injection Hre1 as <-. split; [done|].
    intros q [Hq Hne%not_elem_of_singleton]%elem_of_difference.
    destruct (Hl q Hq) as [Hnq Hbq]. rewrite Hother by done. split; [|done].
    intros Hpq. destruct (Hsub q Hpq); congruence.
Qed.

(** C32. Buffers in use never alias, as long as the clients use only buffers they
    hold and give each back once: in every state such clients can bring the pool to,
    asking for a buffer returns one that no client holds, empty and with exactly the
    limit asked for, and leaves the contents of every held buffer alone; so does
    copying a held buffer, which gives the bytes copied; giving a held buffer back
    always succeeds, and no pool grows beyond its bound. *)
Theorem pool_no_alias st live :
  reach st live ->
  (forall junk size, 0 <= size < 2 ^ 31 ->
     exists st' p b, getFreeBuffer junk st size = Ret (st', p) /\ (p ∉ live) /\
       heap st' !! p = Some b /\ NBB.position b = 0 /\ NBB.limit b = size /\ NBB.wf b /\
       (forall q, q ∈ live -> heap st' !! q = heap st !! q)) /\
  (forall junk p b length, p ∈ live -> heap st !! p = Some b -> 0 <= length <= NBB.capacity b ->
     exists st' q r, copy junk st p length = Ret (st', q) /\ (q ∉ live) /\ heap st' !! q = Some r /\
       NBB.limit r = length /\ ztake length (NBB.buffer r) = ztake length (NBB.buffer b) /\
       (forall q', q' ∈ live -> heap st' !! q' = heap st !! q')) /\
  (forall p, p ∈ live -> exists st', reuse st p = Ret st' /\
     (forall q, q ∈ live -> q <> p -> heap st' !! q = heap st !! q)) /\
  (forall c, zlen (free st c) <= max_count c).
Proof.
  intros Hreach%storage_reach_inv. pose proof Hreach as [Hwf Hl]. split_and!; [| | |apply Hwf].
  - intros junk size Hsz.
    destruct (getFreeBuffer_spec junk st size Hwf Hsz)
      as (st'&p&b&Hget&_&Hb&Wb&Hpos&Hlim&_&_&Hwas&Hother).
    pose proof (get_fresh st live p Hreach Hwas) as Hnl.
    exists st', p, b. split_and!; try done; [apply Wb..|].
    intros q Hq. apply Hother. congruence.
  - intros junk p b n Hp Hb Hn. destruct (pool_copy_spec junk st live p b n Hreach Hp Hb Hn) as (st'&q&r&E&_&H1). by exists st', q, r.
  - intros p Hp. destruct (Hl p Hp) as (Hnp&b&Hb&Wb).
    destruct (reuse_spec st p b) as (st'&->&_&Hother&_); [done..|]. eauto.
Qed.

(** A client with a buffer of 4 bytes that it has written to. *)
Definition held_state : t :=
  match getFreeBuffer (fun _ => 7) (init (fun _ => 7)) 4 with
  | Ret (st, p) => set_heap st (<[0%nat := NBB.mk [42; 0; 0; 0; 7; 7; 7; 7] false false 4 4 8 true]> (heap st))
  | _ => init (fun _ => 7)
  end.

Lemma held_reach : reach held_state ({[0%nat]} ∪ ∅).
Proof.
  eapply (reach_use (fun _ => 0) _ _ 0 (NBB.mk [7; 7; 7; 7; 7; 7; 7; 7] false false 0 4 8 true) (NBB.OWrite (NBB.VInt32 42)) None _ None).
  - by apply (reach_get (fun _ => 7) (init (fun _ => 7)) ∅ 4); [constructor| |vm_compute].
  - set_solver.
  - by vm_compute.
  - by vm_compute.
  - by vm_compute.
Qed.

Lemma pool_no_alias_witness :
  (exists st' p b, getFreeBuffer (fun _ => 0) held_state 8 = Ret (st', p) /\ p <> 0%nat /\ heap st' !! p = Some b /\
     NBB.limit b = 8 /\ heap st' !! 0%nat = heap held_state !! 0%nat) /\
  (exists st' q r, copy (fun _ => 0) held_state 0 4 = Ret (st', q) /\ heap st' !! q = Some r /\ ztake 4 (NBB.buffer r) = [42; 0; 0; 0]) /\
  (exists st', reuse held_state 0 = Ret st').
Proof.
  destruct (pool_no_alias held_state ({[0%nat]} ∪ ∅) held_reach) as (H1 & H2 & H3 & _).
  destruct (H1 (fun _ => 0) 8) as (st1 & p & b & E1 & Hp & Hb & _ & Hlim & _ & Hq); [lia|].
  destruct (H2 (fun _ => 0) 0%nat (NBB.mk [42; 0; 0; 0; 7; 7; 7; 7] false false 4 4 8 true) 4) as (st2 & q & r & E2 & _ & Hr & _ & Hby & _);
    [set_solver|by vm_compute|cbn; lia|].
  destruct (H3 0%nat) as (st3 & E3 & _); [set_solver|]. split; [|split].
  - exists st1, p, b. split; [exact E1|]. split; [set_solver|]. split; [exact Hb|]. split; [exact Hlim|]. apply Hq. set_solver.
  - exists st2, q, r. split; [exact E2|]. split; [exact Hr|exact Hby].
  - exists st3. exact E3.
Defined.

(** ** Notifications

    [onNotify] of [AccountManager] and [CClientConn] gives the buffer back before it
    passes it to the delegate. *)

Definition onNotify (delegate : option (t -> nat -> outcome t)) (st : t) (buffer : nat) : outcome t :=
  match delegate with
  | None => Ret st
  | Some notify =>
      b ← deref st buffer;
      st ← reuse (set_heap st (<[buffer := NBB.position_set b 0]> (heap st))) buffer;
      notify st buffer
  end.

(** A delegate that looks at its buffer, and one that takes a buffer for a copy of it
    and hangs up unless that is the same one. *)
Definition look (st : t) (q : nat) : outcome t := b ← deref st q; Ret st.

Definition take_same (junk : nat -> Z) (size : Z) (st : t) (q : nat) : outcome t :=
  '(st, r) ← getFreeBuffer junk st size; if decide (r = q) then Ret st else NoFuel.

(** A notification hands the delegate a buffer it does not hold: a buffer too large for
    the pools is deleted, so that a delegate that looks at it uses a deleted object; and
    a buffer whose pool was empty is the next one that the pool hands out, so that a
    delegate that takes a buffer of its own to copy it to gets the same one. *)
Theorem notified_buffer_not_held st p b size :
  heap st !! p = Some b -> NBB.sliced b = false ->
  (class_of_capacity (NBB.capacity b) = None -> onNotify (Some look) st p = UB) /\
  (forall c n, class_of_capacity (NBB.capacity b) = Some (c, n) -> 0 < n -> free st c = [] -> class_for size = Some c ->
   forall junk, exists st', onNotify (Some (take_same junk size)) st p = Ret st').
Proof.
  intros Hb Hs. unfold onNotify. assert (deref st p = Ret b) as -> by (unfold deref; by rewrite Hb). mstep.
  set (st0 := set_heap st _). assert (heap st0 !! p = Some (NBB.position_set b 0)) as H0 by (apply lookup_insert_eq).
  assert (NBB.sliced (NBB.position_set b 0) = false /\ NBB.capacity (NBB.position_set b 0) = NBB.capacity b) as [Hs0 Hc0]
    by (unfold NBB.position_set; by destruct (_ <? _)).
  assert (deref st0 p = Ret (NBB.position_set b 0)) as Hd by (unfold deref; by rewrite H0).
  assert (reuse st0 p = match class_of_capacity (NBB.capacity b) with
    | Some (c, n) => if zlen (free st0 c) <? n then Ret (set_free st0 c (free st0 c ++ [p])) else Ret (set_heap st0 (delete p (heap st0)))
    | None => Ret (set_heap st0 (delete p (heap st0))) end) as ->
    by (unfold reuse; rewrite Hd; mstep; rewrite Hs0; unfold reuseFreeBuffer; rewrite Hd; mstep; by rewrite Hc0).
  split.
  - intros ->. mstep. unfold look, deref. cbn [heap set_heap]. by rewrite lookup_delete_eq.
  - intros c n -> Hn Hf Hcl junk. change (free st0 c) with (free st c). rewrite Hf, (proj2 (Z.ltb_lt _ _)) by done. mstep.
    unfold take_same, getFreeBuffer. rewrite Hcl. cbn [free set_free app]. rewrite decide_True by done. unfold deref. cbn [heap set_free]. rewrite H0. mstep.
    rewrite decide_True by done. by eexists.
Qed.

(** ** Reading a nested buffer *)

Lemma read_length_array b l tail :
  NBB.wf b -> zlen l < 2 ^ 24 -> NBB.unread b = NBB.enc_array l ++ tail ->
  exists b1 a, NBB.read_length b = Ret (b1, Some (zlen l, a)) /\ NBB.wf b1 /\
    NBB.unread b1 = l ++ (NBB.pad_of (zlen l) ++ tail) /\
    NBB.buffer b1 = NBB.buffer b /\ 0 <= a < 4 /\
    NBB.set_pos b1 (u32 (NBB._position b1 + u32 (zlen l + a))) =
      NBB.advance b (zlen (NBB.enc_array l)).
Proof.
  intros Hwf Hl Hu. pose proof (NBB.unread_room _ _ _ Hwf Hu) as Hr. pose proof (zlen_nonneg l).
  unfold NBB.enc_array in *. rewrite <- !app_assoc in Hu.
  pose proof (NBB.pad_len (zlen l)) as Hp.
  pose proof (NBB.addition_range (zlen l) (if zlen l <=? 253 then 1 else 4)) as Ha.
  rewrite !zlen_app in Hr |- *. pose proof (zlen_nonneg (NBB.prefix_of (zlen l))).
  eexists _, _. split; [apply (NBB.read_length_spec b (zlen l) (l ++ NBB.pad_of (zlen l) ++ tail));
    [done|lia|done|rewrite !zlen_app, Hp; pose proof (zlen_nonneg tail); lia]|].
  assert (NBB.wf (NBB.advance b (zlen (NBB.prefix_of (zlen l))))) as W1
    by (apply NBB.wf_advance; done || lia).
  split_and!; try done; try lia; [by eapply NBB.unread_advance|].
  rewrite (wrap_u_small 32 (zlen l + _)) by (unfold is_u; lia).
  rewrite NBB.u32_pos by (done || lia). rewrite Hp.
  unfold NBB.advance, NBB.set_pos; cbn. by rewrite !Z.add_assoc.
Qed.

(** A nested byte array is read as a buffer holding exactly its bytes,
    whichever way it is read: copied into a buffer that no one holds, or as a
    slice of the buffer it is read from; the source is left after the
    array. *)
Theorem read_nested_buffer junk st live p b l tail e :
  reach st live -> p ∈ live -> heap st !! p = Some b -> zlen l < 2 ^ 24 ->
  NBB.unread b = NBB.enc_array l ++ tail ->
  (exists st' q b' r, readByteBuffer junk st p true e = Ret (st', Some (Copied q), e) /\
     (q ∉ live) /\ heap st' !! q = Some r /\ NBB.unread r = l /\
     heap st' !! p = Some b' /\ NBB.unread b' = tail) /\
  (exists st' b' off, readByteBuffer junk st p false e = Ret (st', Some (Slice off (zlen l)), e) /\
     heap st' !! p = Some b' /\ NBB.unread b' = tail /\
     mem_read (NBB.buffer b') off (zlen l) = Ret l).
Proof.
  intros Hreach%storage_reach_inv Hp Hb Hl Hu. pose proof Hreach as [Hwf Hlive].
  destruct (Hlive p Hp) as (Hnp&b0&Hb0&Wb). simplify_eq. pose proof (zlen_nonneg l).
  destruct (read_length_array b l tail Wb Hl Hu) as (b1&a&Hlen&W1&Hu1&Hbuf&Ha&Hadv).
  pose proof (NBB.unread_advance b _ _ _ Wb Hu eq_refl) as Htail.
  unfold readByteBuffer, deref. rewrite Hb. mstep. rewrite Hlen. mstep. rewrite Hadv. split.
  - destruct (getFreeBuffer_spec junk st (zlen l) Hwf ltac:(lia))
      as (st1&q&r&->&Wst&Hr&Wr&Hrp&Hrl&Hnq&_&Hwas&Hother). mstep.
    pose proof (get_fresh st live q Hreach Hwas) as Hql.
    assert (q <> p) as Hne by congruence.
    unfold deref. rewrite Hr. mstep. rewrite (NBB.mem_read_unread b1 l _ W1 Hu1). mstep.
    destruct Wr as (?&?&?&?&?&?). rewrite mem_write_ok by lia. mstep.
    eexists _, q, _, _. split; [done|]. split; [done|]. simpl.
    rewrite lookup_insert_ne, !lookup_insert_eq by done. split; [done|]. split; [|done].
    unfold NBB.unread; cbn. rewrite Hrp, Hrl, zdrop_0. by apply ztake_app_exact.
  - mstep. eexists _, _, _. split; [done|]. simpl. rewrite lookup_insert_eq.
    split; [done|]. split; [done|]. unfold NBB.advance; cbn. rewrite <- Hbuf.
    apply (NBB.mem_read_unread b1 l _ W1 Hu1).
Qed.

(** A buffer just taken from a pool whose memory happens to start with a
    two-byte string. *)
Definition demo_junk (i : nat) : Z := nth i [2; 104; 105] 0.

Definition demo_state : t :=
  match getFreeBuffer demo_junk (init demo_junk) 4 with Ret (st, _) => st | _ => init demo_junk end.

Definition demo_nbb : NBB.t := NBB.mk [2; 104; 105; 0; 0; 0; 0; 0] false false 0 4 8 true.

Lemma demo_reach : reach demo_state ({[0%nat]} ∪ ∅).
Proof. by apply (reach_get demo_junk (init demo_junk) ∅ 4); [constructor| |vm_compute]. Qed.

Lemma read_nested_buffer_witness :
  (exists st' q b' r, readByteBuffer demo_junk demo_state 0 true (Some false) =
       Ret (st', Some (Copied q), Some false) /\
     (q ∉ ({[0%nat]} ∪ ∅ : gset nat)) /\ heap st' !! q = Some r /\ NBB.unread r = [104; 105] /\
     heap st' !! 0%nat = Some b' /\ NBB.unread b' = []) /\
  (exists st' b' off, readByteBuffer demo_junk demo_state 0 false (Some false) =
       Ret (st', Some (Slice off 2), Some false) /\
     heap st' !! 0%nat = Some b' /\ NBB.unread b' = [] /\
     mem_read (NBB.buffer b') off 2 = Ret [104; 105]).
Proof.
  apply (read_nested_buffer demo_junk demo_state ({[0%nat]} ∪ ∅) 0 demo_nbb [104; 105] []).
  - apply demo_reach.
  - set_solver.
  - by vm_compute.
  - done.
  - by vm_compute.
Defined.

End BuffersStorage.
