(* ===== verification/ConfigStore.v ===== *)
(** * Config: a configuration file with a backup

    Models src/src/ptp_net/Config.cpp.  The file system is the contents of the
    configuration file and of its backup.  Which system calls fail is an
    argument of the constructor and of [writeConfig]; a crash may happen between any two changes of
    the file system and in the middle of the write, so [writeConfig] also
    yields every state it goes through. *)

From S2P Require Import Prelude NativeByteBuffer BuffersStorage.

Module Config.

Module NBB := NativeByteBuffer.

Record fs := mkFs {
  configPath : option (list Z);
  backupPath : option (list Z);
}.

(** The calls of the constructor that fail. *)
Record start_faults := mkStart {
  start_open_fails : bool;
  start_remove_fails : bool;
  start_rename_fails : bool;
}.

Definition start_ok : start_faults := mkStart false false false.

(** The constructor: a backup that is still there replaces the file. *)
Definition Config (f : start_faults) (d : fs) : fs :=
  match backupPath d with
  | Some old =>
      if start_open_fails f then d
      else
        let d := if start_remove_fails f then d else mkFs None (backupPath d) in
        if start_rename_fails f then d else mkFs (Some old) None
  | None => d
  end.

(** A [uint32_t] as it lies in memory on a little-endian host. *)
Definition size_bytes (size : Z) : list Z := NBB.le32 size.

Definition size_of_bytes (bs : list Z) : Z :=
  match bs with
  | [b0; b1; b2; b3] => b3 * 2 ^ 24 + b2 * 2 ^ 16 + b1 * 2 ^ 8 + b0
  | _ => 0
  end.

(** [fread(&size, 4, 1, file)] delivers one item or none and leaves [size] at
    0.  The calls on a file that is there are taken to succeed. *)
Definition readConfig (junk : nat -> Z) (st : BuffersStorage.t) (d : fs)
  : outcome (BuffersStorage.t * option nat) :=
  match configPath d with
  | None => Ret (st, None)
  | Some file =>
      let fileSize := zlen file in
      let bytesRead := if 4 <=? fileSize then 1 else 0 in
      let size := if 0 <? bytesRead then size_of_bytes (ztake 4 file) else 0 in
      if (0 <? bytesRead) && (0 <? size) && (i32 size <? fileSize) then
        '(st, p) ← BuffersStorage.getFreeBuffer junk st size;
        b ← BuffersStorage.deref st p;
        let got := ztake size (zdrop 4 file) in
        m ← mem_write (NBB.buffer b) 0 got;
        let st := BuffersStorage.set_heap st
          (<[p := NBB.set_buffer b m]> (BuffersStorage.heap st)) in
        if negb (zlen got =? size) then
          st ← BuffersStorage.reuse st p; Ret (st, None)
        else Ret (st, Some p)
      else Ret (st, None)
  end.

(** Which calls fail, and how much of the data reaches the file when one
    does.  The first three are the calls on the old file and its backup: opening
    them to see whether they exist, and the [remove] of the file when both do. *)
Record faults := mkFaults {
  open_config_fails : bool;
  open_backup_fails : bool;
  remove_old_fails : bool;
  rename_fails : bool;
  open_fails : bool;
  write_size_fails : bool;
  write_data_fails : bool;
  fflush_fails : bool;
  fileno_fails : bool;
  fsync_fails : bool;
  fclose_fails : bool;
  remove_config_fails : bool;
  remove_backup_fails : bool;
  persisted : nat;
}.

Definition no_faults : faults :=
  mkFaults false false false false false false false false false false false false false 0.

(** The states of the file while a write of [bs] is in progress. *)
Definition partial_writes (d : fs) (bs : list Z) : list fs :=
  map (fun k => mkFs (Some (take k bs)) (backupPath d)) (seq 0 (S (length bs))).

(** Returns the states passed through and the final state. *)
Definition writeConfig (f : faults) (d : fs) (buffer : NBB.t) : list fs * fs :=
  let d0 := d in
  let '(d, error, hasBackupFile) :=
    match configPath d with
    | Some file =>
        if open_config_fails f then (d, false, false)
        else if bool_decide (is_Some (backupPath d)) && negb (open_backup_fails f) then
          (if remove_old_fails f then d else mkFs None (backupPath d), false, false)
        else if rename_fails f then (d, true, false)
        else (mkFs None (Some file), false, true)
    | None => (d, false, false)
    end in
  if (error : bool) then ([d0], d)
  else if open_fails f then ([d0; d], d)
  else
    let size := NBB.position buffer in
    let bs := size_bytes size ++ ztake size (NBB.buffer buffer) in
    let error := write_size_fails f || write_data_fails f || fflush_fails f ||
      fileno_fails f || (negb (fileno_fails f) && fsync_fails f) || fclose_fails f in
    let during := d0 :: d :: partial_writes d bs in
    if error then
      let d1 := mkFs (Some (take (persisted f) bs)) (backupPath d) in
      let d2 := if remove_config_fails f then d1 else mkFs None (backupPath d) in
      (during ++ [d1; d2], d2)
    else
      let d1 := mkFs (Some bs) (backupPath d) in
      let d2 := if hasBackupFile && negb (remove_backup_fails f)
        then mkFs (configPath d1) None else d1 in
      (during ++ [d1; d2], d2).

(** ** What a configuration file holds *)

Definition file_data (file : list Z) : option (list Z) :=
  let size := size_of_bytes (ztake 4 file) in
  let got := ztake size (zdrop 4 file) in
  if (4 <=? zlen file) && (0 <? size) && (zlen got =? size) then Some got else None.

Definition stored (d : fs) : option (list Z) :=
  match configPath d with Some file => file_data file | None => None end.

(** The file [writeConfig] means to produce. *)
Definition file_of (data : list Z) : list Z := size_bytes (zlen data) ++ data.

Lemma size_of_size_bytes n : is_u 32 n -> size_of_bytes (size_bytes n) = n.
Proof. intros Hn. cbn [size_of_bytes size_bytes NBB.le32]. rewrite be32_bytes. by apply wrap_u_small. Qed.

Lemma size_of_bytes_range bs : bytes_ok bs -> is_u 32 (size_of_bytes bs).
Proof.
  intros Hb. unfold size_of_bytes. repeat case_match; subst; try done.
  repeat match goal with H : Forall _ (_ :: _) |- _ => apply Forall_cons_1 in H as [? H] end.
  unfold is_u in *. pow2. lia.
Qed.

(** A prefix of a configuration file holds nothing or the whole of it. *)
Lemma file_data_prefix k data :
  0 < zlen data < 2 ^ 31 ->
  file_data (take k (file_of data)) = None \/ file_data (take k (file_of data)) = Some data.
Proof.
  intros Hd. unfold file_data. assert (is_u 32 (zlen data)) as Hu by (unfold is_u; lia).
  destruct (Z.leb_spec 4 (zlen (take k (file_of data)))) as [H4|]; [|by left]. cbn [andb].
  assert (zlen (size_bytes (zlen data)) = 4) as Hs by done.
  assert (4 <= k)%nat as Hk by (unfold zlen in *; rewrite length_take in H4; lia).
  assert (take k (file_of data) = size_bytes (zlen data) ++ take (k - 4) data) as ->.
  { unfold file_of. by rewrite take_app_ge. }
  rewrite ztake_app_exact, zdrop_app_exact, size_of_size_bytes by done.
  destruct (Z.ltb_spec 0 (zlen data)); [|lia]. cbn [andb].
  destruct (Z.eqb_spec (zlen (ztake (zlen data) (take (k - 4) data))) (zlen data)) as [He|]; [|by left].
  right. f_equal. unfold ztake in *. rewrite take_take in *. unfold zlen in *.
  rewrite length_take in He. apply take_ge. lia.
Qed.

Lemma file_data_of data : 0 < zlen data < 2 ^ 31 -> file_data (file_of data) = Some data.
Proof.
  intros Hd. unfold file_data, file_of.
  rewrite ztake_app_exact, zdrop_app_exact, size_of_size_bytes by (done || unfold is_u; lia).
  rewrite ztake_all by done. rewrite zlen_app. change (zlen (size_bytes _)) with 4.
  destruct (Z.leb_spec 4 (4 + zlen data)); [|lia].
  destruct (Z.ltb_spec 0 (zlen data)); [|lia]. by rewrite Z.eqb_refl.
Qed.

(** [readConfig] returns a buffer exactly when the file holds something, and
    the buffer has exactly that to read. *)
Lemma readConfig_spec junk st d :
  BuffersStorage.wf st ->
  (forall file, configPath d = Some file -> bytes_ok file /\ size_of_bytes (ztake 4 file) < 2 ^ 31) ->
  match stored d with
  | Some data => exists st' p b, readConfig junk st d = Ret (st', Some p) /\
      BuffersStorage.heap st' !! p = Some b /\ NBB.wf b /\ NBB.unread b = data /\
      BuffersStorage.wf st' /\ ~ BuffersStorage.pooled st' p
  | None => exists st', readConfig junk st d = Ret (st', None)
  end.
Proof.
  intros Hwf Hfile. unfold stored, readConfig.
  destruct (configPath d) as [file|]; [|eauto].
  destruct (Hfile file eq_refl) as [Hb Hsz]. unfold file_data.
  set (size := size_of_bytes (ztake 4 file)) in *. set (got := ztake size (zdrop 4 file)).
  assert (is_u 32 size) as Hu.
  { apply size_of_bytes_range. by apply Forall_take. }
  destruct (Z.leb_spec 4 (zlen file)); cbn [andb]; [|eauto]. cbn [Z.ltb Z.compare andb].
  destruct (Z.ltb_spec 0 size); cbn [andb]; [|eauto]. unfold is_u in Hu.
  rewrite wrap_s_small by (unfold is_s; lia).
  assert (zlen got = Z.min size (zlen file - 4)) as Hgot.
  { unfold got. rewrite zlen_ztake, zlen_zdrop. lia. }
  destruct (Z.ltb_spec size (zlen file)); cycle 1.
  { destruct (Z.eqb_spec (zlen got) size); [lia|]. eauto. }
  destruct (BuffersStorage.getFreeBuffer_spec junk st size Hwf ltac:(lia))
    as (st1&p&b&->&W1&Hp&Wb&Hpos&Hlim&Hnp&_). mstep.
  assert (BuffersStorage.deref st1 p = Ret b) as -> by (unfold BuffersStorage.deref; by rewrite Hp).
  mstep. fold got. destruct (Wb) as (?&?&?&?&?&?).
  rewrite mem_write_ok by lia. mstep. rewrite ztake_0, app_nil_l.
  set (b1 := NBB.set_buffer b _).
  assert (NBB.wf b1) as Wb1.
  { unfold NBB.wf, b1; cbn. split_and!; try done; try zlia.
    apply Forall_app. split; [|by apply Forall_drop]. apply Forall_take. by apply Forall_drop. }
  destruct (Z.eqb_spec (zlen got) size) as [He|He]; cbn [negb].
  - exists (BuffersStorage.set_heap st1 (<[p := b1]> (BuffersStorage.heap st1))), p, b1.
    split; [done|]. simpl. rewrite lookup_insert_eq. split_and!; try done.
    + unfold NBB.unread, b1; cbn. rewrite Hpos, Hlim, zdrop_0. apply ztake_app_exact. lia.
    + apply BuffersStorage.wf_update; [done|done|by eapply BuffersStorage.alive_lt].
  - destruct (BuffersStorage.reuse_spec (BuffersStorage.set_heap st1
      (<[p := b1]> (BuffersStorage.heap st1))) p b1) as (st2&->&_); try done.
    + apply BuffersStorage.wf_update; [done|done|by eapply BuffersStorage.alive_lt].
    + simpl. apply lookup_insert_eq.
    + mstep. eauto.
Qed.

(** A write without failing calls replaces the file. *)
Lemma write_clean d buffer :
  NBB.wf buffer -> backupPath d = None ->
  (writeConfig no_faults d buffer).2 =
  mkFs (Some (file_of (NBB.written buffer))) None.
Proof.
  intros Hwf Hb. unfold writeConfig.
  assert (size_bytes (NBB.position buffer) ++ ztake (NBB.position buffer) (NBB.buffer buffer) =
    file_of (NBB.written buffer)) as ->.
  { unfold file_of, NBB.written, NBB.position. do 2 f_equal. rewrite zlen_ztake. unfold NBB.wf in Hwf. lia. }
  destruct d as [[file|] bak]; cbn in Hb; subst bak; done.
Qed.

(** ** Crash consistency *)

(** The bytes a buffer hands to [writeConfig]. *)
Definition payload (buffer : NBB.t) : list Z := NBB.written buffer.

Lemma written_file buffer :
  NBB.wf buffer ->
  size_bytes (NBB.position buffer) ++ ztake (NBB.position buffer) (NBB.buffer buffer) =
  file_of (payload buffer).
Proof.
  intros Hwf. unfold file_of, payload, NBB.written, NBB.position. do 2 f_equal.
  rewrite zlen_ztake. unfold NBB.wf in Hwf. lia.
Qed.

(** What a start without failing calls finds. *)
Definition recovered (d : fs) : option (list Z) := stored (Config start_ok d).

Lemma restored_config d : recovered d =
  match backupPath d with Some old => file_data old | None => stored d end.
Proof. unfold recovered, Config. by destruct (backupPath d). Qed.

(** A start in which calls fail loses nothing: a later one recovers the same. *)
Lemma start_recovers g d : recovered (Config g d) = recovered d.
Proof.
  rewrite !restored_config. unfold Config. destruct d as [c [old|]]; [|done]. cbn [backupPath].
  by destruct (start_open_fails g), (start_remove_fails g), (start_rename_fails g).
Qed.

(** What a later start may find, after any starts in which calls fail. *)
Definition survives (d : fs) (data : list Z) (s : fs) : Prop :=
  recovered s = stored d \/ recovered s = Some data.

Lemma survives_moved d data : survives d data (mkFs None (configPath d)).
Proof. left. rewrite restored_config. unfold stored. by destruct (configPath d). Qed.

Lemma survives_partial d data k :
  0 < zlen data < 2 ^ 31 -> survives d data (mkFs (Some (take k (file_of data))) (configPath d)).
Proof.
  intros Hl. unfold survives. rewrite restored_config. unfold stored. simpl.
  destruct (configPath d); [by left|]. by apply file_data_prefix.
Qed.

Lemma survives_new data :
  0 < zlen data < 2 ^ 31 -> recovered (mkFs (Some (file_of data)) None) = Some data.
Proof. intros. rewrite restored_config. by apply file_data_of. Qed.

(** The write itself, once the old file has been moved out of the way. *)
Lemma survives_write d data :
  0 < zlen data < 2 ^ 31 ->
  Forall (survives d data) (partial_writes (mkFs None (configPath d)) (file_of data)).
Proof.
  intros Hl. apply List.Forall_map, Forall_true. intros k. by apply survives_partial.
Qed.

Lemma write_survives f d buffer :
  NBB.wf buffer -> 0 < zlen (payload buffer) < 2 ^ 31 -> backupPath d = None -> open_config_fails f = false ->
  let '(states, final) := writeConfig f d buffer in
  Forall (survives d (payload buffer)) (states ++ [final]) /\ (f = no_faults -> recovered final = Some (payload buffer)).
Proof.
  intros Hwf Hlen Hbak Hoc. unfold writeConfig. rewrite written_file by done. set (data := payload buffer) in *.
  assert (survives d data d) as Pd by (left; by rewrite restored_config, Hbak).
  pose proof (survives_moved d data) as Pm. pose proof (survives_write d data Hlen) as Pw.
  pose proof (fun k => survives_partial d data k Hlen) as Pp.
  pose proof (survives_new data Hlen) as Pn.
  assert (survives d data (mkFs (Some (file_of data)) (configPath d))) as Pf.
  { specialize (Pp (length (file_of data))). by rewrite firstn_all in Pp. }
  assert (survives d data (mkFs (Some (file_of data)) None)) as Pf' by (by right).
  destruct d as [cfg bak]. simpl in Hbak. subst bak. cbn [configPath backupPath] in *. rewrite Hoc. change (bool_decide (is_Some None)) with false. cbn [andb].
  set (err := _ || fclose_fails f).
  assert (f = no_faults -> err = false) as Herr by (by intros ->).
  destruct cfg as [file|]; [destruct (rename_fails f) eqn:Hr|]; cbn [fst snd];
    [split; [forall_list; done|by intros ->]|..];
    (destruct (open_fails f) eqn:Ho; [split; [forall_list; done|by intros ->]|]);
    destruct err; cbn [andb backupPath configPath];
    (split; [|intros Hf; first [by specialize (Herr Hf)|rewrite ?Hf; done]]);
    forall_list; try done; try apply Pp; try (case_match; done || apply Pp).
Qed.

(** C34. An interrupted or failing write never corrupts the configuration, as long
    as the old file, if there is one, opens for reading: starting without a backup,
    whichever of the other calls fail and wherever [writeConfig] is interrupted, the
    first start in which no call fails finds the old configuration or the new one,
    whatever calls failed in the starts before it; and when no call of [writeConfig]
    fails and nothing interrupts it, the new one. *)
Theorem config_crash_consistent f d buffer :
  NBB.wf buffer -> 0 < NBB.position buffer -> backupPath d = None -> open_config_fails f = false ->
  let '(states, final) := writeConfig f d buffer in
  Forall (fun s => forall starts : list start_faults,
    let s' := foldl (fun s g => Config g s) s starts in
    stored (Config start_ok s') = stored d \/ stored (Config start_ok s') = Some (payload buffer)) (states ++ [final]) /\
  (f = no_faults -> stored (Config start_ok final) = Some (payload buffer)).
Proof.
  intros Hwf Hpos Hbak Hoc.
  assert (0 < zlen (payload buffer) < 2 ^ 31) as Hlen.
  { unfold payload, NBB.written, NBB.position in *. rewrite zlen_ztake. unfold NBB.wf in Hwf. lia. }
  pose proof (write_survives f d buffer Hwf Hlen Hbak Hoc) as H1. destruct (writeConfig f d buffer) as [states final]. destruct H1 as [H1 H2].
  split; [|exact H2]. eapply Forall_impl, H1. intros s Hs starts. cbv zeta. fold (recovered (foldl (fun s g => Config g s) s starts)).
  assert (recovered (foldl (fun s g => Config g s) s starts) = recovered s) as ->; [|exact Hs].
  clear. revert s. induction starts as [|g starts IH]; intros s; [done|]. cbn [foldl]. by rewrite IH, start_recovers.
Qed.

(** When the old file cannot be opened for reading, for instance because the process
    has no descriptors left at that moment, it is taken to be absent: the write goes
    over it without a backup, and when that fails the configuration is lost. *)
Theorem unopened_config_lost f d old buffer :
  configPath d = Some old -> backupPath d = None -> open_config_fails f = true -> open_fails f = false ->
  fsync_fails f = true -> fileno_fails f = false -> remove_config_fails f = false ->
  stored (Config start_ok (writeConfig f d buffer).2) = None.
Proof.
  intros Hc Hb Ho Hw Hs Hn Hr. unfold writeConfig. rewrite Hc, Ho, Hw, Hs, Hn, Hr, Hb. cbn [negb andb].
  by destruct (write_size_fails f), (write_data_fails f), (fflush_fails f).
Qed.

(** A successful write can be lost: after a write that failed once the old
    file had become the backup, a later write that reports no error leaves
    the backup in place, and the next start restores the configuration from
    before both writes. *)
Theorem stale_backup_loses_update d f b1 b2 :
  backupPath d = None -> (exists old, configPath d = Some old) ->
  open_config_fails f = false -> rename_fails f = false -> open_fails f = false -> fsync_fails f = true ->
  remove_config_fails f = false -> NBB.wf b2 ->
  let d1 := (writeConfig f d b1).2 in
  let d2 := (writeConfig no_faults d1 b2).2 in
  configPath d2 = Some (file_of (payload b2)) /\ stored (Config start_ok d2) = stored d.
Proof.
  intros Hbak [old Hcfg] Hoc Hr Ho Hs Hrm Hwf d1 d2.
  assert (d1 = mkFs None (Some old)) as Hd1.
  { subst d1. unfold writeConfig. rewrite Hcfg, Hbak, Hoc, Hr, Ho, Hs, Hrm. cbn [bool_decide].
    by destruct (write_size_fails f), (write_data_fails f), (fflush_fails f), (fileno_fails f). }
  subst d2. rewrite Hd1. unfold writeConfig. rewrite written_file by done. split; [done|].
  unfold stored. by rewrite Hcfg.
Qed.

Definition demo_old : fs := mkFs (Some (file_of [7; 7])) None.

Definition demo_buffer : NBB.t := NBB.mk [1; 2; 3; 0] false false 3 4 4 true.

Lemma demo_buffer_wf : NBB.wf demo_buffer.
Proof. split_and!; try done. apply (bool_decide_unpack _). by vm_compute. Qed.

Definition demo_fault : faults :=
  mkFaults false false false false false false false false false true false false false 5.

Lemma config_crash_consistent_witness :
  let '(states, final) := writeConfig demo_fault demo_old demo_buffer in
  Forall (fun s => forall starts : list start_faults,
    let s' := foldl (fun s g => Config g s) s starts in
    stored (Config start_ok s') = Some [7; 7] \/ stored (Config start_ok s') = Some [1; 2; 3]) (states ++ [final]) /\
  (demo_fault = no_faults -> stored (Config start_ok final) = Some [1; 2; 3]).
Proof. by apply (config_crash_consistent demo_fault demo_old demo_buffer demo_buffer_wf). Defined.

Lemma stale_backup_loses_update_witness :
  configPath (writeConfig no_faults (writeConfig demo_fault demo_old demo_buffer).2 demo_buffer).2 =
    Some (file_of [1; 2; 3]) /\
  stored (Config start_ok (writeConfig no_faults (writeConfig demo_fault demo_old demo_buffer).2
    demo_buffer).2) = Some [7; 7].
Proof.
  apply (stale_backup_loses_update demo_old demo_fault demo_buffer demo_buffer);
    try done; [by eexists|apply demo_buffer_wf].
Defined.

End Config.
