(* ===== verification/Helpers.v ===== *)
(** * Text helpers

    Models the hexadecimal and URL codecs of src/src/ptp_global/Helpers.cpp and
    the base-36 identifiers of UtilPdu.cpp.  A string is the list of its bytes;
    [char] is signed, as on the platforms the program is built for. *)

From S2P Require Import Prelude.

Module Helpers.

(** ** Hexadecimal *)

Definition hexdigit (d : Z) : Z := if d <? 10 then d + 48 else d - 10 + 97.

(** [hex << setfill('0') << setw(2) << nouppercase]. *)
Definition hex_byte (b : Z) : list Z := [hexdigit (b / 16); hexdigit (b mod 16)].

Definition bytes_to_hex_string (str : list Z) (s : Z) : outcome (list Z) :=
  bs ← mem_read str 0 s;
  Ret ([48; 120] ++ concat (map hex_byte bs)).

(** "0123456789abcdef"; reading the element past the last gives the terminating
    null character. *)
Definition lut : list Z := [48;49;50;51;52;53;54;55;56;57;97;98;99;100;101;102].

Fixpoint lower_bound (l : list Z) (a : Z) : nat :=
  match l with
  | [] => 0
  | x :: l => if x <? a then S (lower_bound l a) else 0
  end.

Definition hex_index (a : Z) : option Z :=
  let p := lower_bound lut (i8 a) in
  if nth p lut 0 =? i8 a then Some (Z.of_nat p) else None.

Fixpoint hex_pairs (input : list Z) : outcome (list Z) :=
  match input with
  | a :: b :: rest =>
      match hex_index a with
      | None => Throw (invalid_argument "not a hex digit")
      | Some p =>
          match hex_index b with
          | None => Throw (invalid_argument "not a hex digit")
          | Some q => out ← hex_pairs rest; Ret (u8 (Z.lor (Z.shiftl p 4) q) :: out)
          end
      end
  | _ => Ret []
  end.

Definition hex_to_string (input : list Z) : outcome (list Z) :=
  if Z.odd (zlen input) then Throw (invalid_argument "odd length") else hex_pairs input.

(** ** URL encoding *)

Definition toHex (x : Z) : Z := u8 (if 9 <? x then x - 10 + 65 else x + 48).

Definition fromHex (x : Z) : Z := u8 (if isdigit x then x - 48 else x - 65 + 10).

Definition url_byte (c : Z) : list Z :=
  if isalnum c then [c] else [37; toHex (Z.shiftr c 4); toHex (c mod 16)].

Definition URLEncode (sIn : list Z) : list Z := concat (map url_byte sIn).

(** [sIn[sIn.size()]] is the null character; an index beyond it is undefined
    behaviour. *)
Fixpoint URLDecode (sIn : list Z) : outcome (list Z) :=
  match sIn with
  | [] => Ret []
  | c :: rest =>
      if c =? 37 then
        match rest with
        | [] => UB
        | [x] =>
            let ch := u8 (Z.shiftl (fromHex x) 4) in
            Ret [u8 (Z.lor ch (fromHex 0))]
        | x :: y :: rest =>
            let ch := u8 (Z.shiftl (fromHex x) 4) in
            out ← URLDecode rest; Ret (u8 (Z.lor ch (fromHex y)) :: out)
        end
      else
        let ch := if c =? 43 then 32 else c in
        out ← URLDecode rest; Ret (ch :: out)
  end.

(** ** Base-36 identifiers *)

Definition digit36 (d : Z) : Z := if d <? 10 then d + 48 else d - 10 + 97.

(** The do-while loop; [room] is the distance from [buf] to [ptr]. *)
Fixpoint idtourl_loop (room : nat) (value : Z) (acc : list Z) : outcome (nat * list Z) :=
  match room with
  | O => UB
  | S room =>
      let acc := digit36 (value mod 36) :: acc in
      let value := value / 36 in
      match room with
      | O => Ret (room, acc)
      | S _ => if value =? 0 then Ret (room, acc) else idtourl_loop room value acc
      end
  end.

Definition idtourl (id : Z) : outcome (list Z) :=
  let value := u32 (id * 2 + 56) in
  '(room, acc) ← idtourl_loop 63 value [];
  match room with
  | O => UB
  | S _ => Ret (49 :: acc)
  end.

Definition url_digit (c : Z) : option Z :=
  if (48 <=? c) && (c <=? 57) then Some (c - 48)
  else if (97 <=? c) && (c <=? 122) then Some (c - (97 - 10))
  else if (65 <=? c) && (c <=? 90) then Some (c - (65 - 10))
  else None.

Fixpoint url_number (number : Z) (url : list Z) : Z :=
  match url with
  | [] => number
  | c :: url =>
      match url_digit (i8 c) with
      | Some d => url_number (u32 (number * 36 + d)) url
      | None => url_number number url
      end
  end.

(** The first character, the version, is skipped. *)
Definition urltoid (url : list Z) : Z :=
  Z.shiftr (u32 (url_number 0 (tl url) - 56)) 1.

(** ** Properties *)

(** A check over all byte values. *)
Lemma byte_cases (P : Z -> bool) :
  forallb (fun n => P (Z.of_nat n)) (seq 0 256) = true -> forall b, is_u 8 b -> P b = true.
Proof.
  intros H b Hb. unfold is_u in Hb. rewrite forallb_forall in H.
  specialize (H (Z.to_nat b)). rewrite Z2Nat.id in H by lia. apply H, in_seq. pow2. lia.
Qed.

Definition hex_byte_ok (b : Z) : bool :=
  match hex_pairs (hex_byte b) with Ret [b'] => b' =? b | _ => false end.

Lemma hex_byte_step b rest :
  is_u 8 b -> hex_pairs (hex_byte b ++ rest) = (out ← hex_pairs rest; Ret (b :: out)).
Proof.
  intros Hb. pose proof (byte_cases hex_byte_ok eq_refl b Hb) as Hok. unfold hex_byte_ok in Hok.
  cbn [hex_byte app hex_pairs] in *.
  destruct (hex_index (hexdigit (b / 16))); [|done].
  destruct (hex_index (hexdigit (b mod 16))); [|done]. cbn in Hok.
  by apply Z.eqb_eq in Hok as ->.
Qed.

Lemma hex_pairs_digits bs : bytes_ok bs -> hex_pairs (concat (map hex_byte bs)) = Ret bs.
Proof.
  induction 1 as [|b bs Hb _ IH]; [done|]. cbn [map concat].
  rewrite hex_byte_step by done. by rewrite IH.
Qed.

Lemma hex_digits_even bs : Z.odd (zlen (concat (map hex_byte bs))) = false.
Proof.
  induction bs as [|b bs IH]; [done|]. cbn [map concat]. rewrite zlen_app, Z.odd_add, IH. done.
Qed.

(** The hexadecimal decoder inverts the digits the encoder produces, and
    refuses the encoder's own output, because of its "0x" prefix. *)
Theorem hex_roundtrip bs :
  bytes_ok bs ->
  exists digits, bytes_to_hex_string bs (zlen bs) = Ret ([48; 120] ++ digits) /\
    hex_to_string digits = Ret bs /\
    hex_to_string ([48; 120] ++ digits) = Throw (invalid_argument "not a hex digit").
Proof.
  intros Hb. exists (concat (map hex_byte bs)). pose proof (zlen_nonneg bs).
  unfold bytes_to_hex_string, hex_to_string. rewrite mem_read_ok, zdrop_0, ztake_all by lia. mstep.
  rewrite zlen_app, Z.odd_add, hex_digits_even. split_and!; [done| |done].
  by rewrite hex_pairs_digits.
Qed.

Definition url_byte_ok (b : Z) : bool :=
  match URLDecode (url_byte b) with Ret [b'] => b' =? b | _ => false end.

Lemma url_byte_step b rest :
  is_u 8 b -> URLDecode (url_byte b ++ rest) = (out ← URLDecode rest; Ret (b :: out)).
Proof.
  intros Hb. pose proof (byte_cases url_byte_ok ltac:(by vm_compute) b Hb) as Hok.
  unfold url_byte_ok, url_byte in *. destruct (isalnum b) eqn:Ha; cbn [app URLDecode] in *.
  - assert ((b =? 37) = false) as Hp by (apply Z.eqb_neq; intros ->; done).
    assert ((b =? 43) = false) as Hq by (apply Z.eqb_neq; intros ->; done).
    by rewrite Hp, Hq.
  - cbn in Hok. by apply Z.eqb_eq in Hok as ->.
Qed.

(** URL decoding inverts URL encoding, for every byte string. *)
Theorem url_roundtrip s : bytes_ok s -> URLDecode (URLEncode s) = Ret s.
Proof.
  unfold URLEncode. induction 1 as [|b s Hb _ IH]; [done|]. cbn [map concat].
  rewrite url_byte_step by done. by rewrite IH.
Qed.

Definition digit_ok (d : Z) : bool :=
  (35 <? d) || match url_digit (i8 (digit36 d)) with Some d' => d' =? d | None => false end.

Lemma url_digit36 d : 0 <= d < 36 -> url_digit (i8 (digit36 d)) = Some d.
Proof.
  intros Hd. pose proof (byte_cases digit_ok ltac:(by vm_compute) d ltac:(unfold is_u; lia)) as Hok.
  unfold digit_ok in Hok. destruct (Z.ltb_spec 35 d); [lia|]. cbn [orb] in Hok.
  destruct (url_digit _); [|done]. by apply Z.eqb_eq in Hok as ->.
Qed.

Lemma idtourl_loop_S room v acc :
  idtourl_loop (S (S room)) v acc =
  if v / 36 =? 0 then Ret (S room, digit36 (v mod 36) :: acc)
  else idtourl_loop (S room) (v / 36) (digit36 (v mod 36) :: acc).
Proof. done. Qed.

(** The digits produced for a number are read back as that number, and a
    number below 36^k takes at most k places. *)
Lemma idtourl_loop_spec room : forall v acc k,
  0 <= v < 36 ^ Z.of_nat (S k) -> is_u 32 v -> (k <= room)%nat ->
  exists room' ds, idtourl_loop (S room) v acc = Ret (room', ds) /\
    url_number 0 ds = url_number v acc /\ (room <= room' + k)%nat.
Proof.
  induction room as [|room IH]; intros v acc k Hv Hu Hk.
  all: pose proof (Z.div_mod v 36 ltac:(lia)); pose proof (Z.mod_pos_bound v 36 ltac:(lia)).
  all: unfold is_u in Hu.
  - assert (k = 0%nat) as -> by lia. cbn [idtourl_loop]. eexists _, _. split; [done|]. split; [|lia].
    cbn [url_number]. rewrite url_digit36 by lia. change (36 ^ Z.of_nat 1) with 36 in Hv.
    rewrite (Z.mod_small v 36), wrap_u_small by (lia || unfold is_u; lia). done.
  - rewrite idtourl_loop_S. destruct (Z.eqb_spec (v / 36) 0) as [Hz|Hz].
    + eexists _, _. split; [done|]. split; [|lia]. cbn [url_number].
      rewrite url_digit36 by lia. rewrite wrap_u_small by (unfold is_u; lia). f_equal. lia.
    + destruct k as [|k].
      { change (36 ^ Z.of_nat 1) with 36 in Hv. rewrite Z.div_small in Hz by lia. done. }
      destruct (IH (v / 36) (digit36 (v mod 36) :: acc) k) as (room'&ds&->&Hds&Hroom).
      * rewrite Nat2Z.inj_succ, Z.pow_succ_r in Hv by lia. split; [apply Z.div_pos; lia|].
        apply Z.div_lt_upper_bound; lia.
      * unfold is_u. split; [apply Z.div_pos; lia|]. apply Z.div_lt_upper_bound; lia.
      * lia.
      * eexists _, _. split; [done|]. split; [|lia]. rewrite Hds. cbn [url_number].
        rewrite url_digit36 by lia. rewrite wrap_u_small by (unfold is_u; lia). f_equal. lia.
Qed.

(** An identifier survives the trip through its URL form up to its top
    bit: [urltoid] after [idtourl] gives the identifier modulo 2^31, for every
    32-bit identifier, and stays within the static buffer. *)
Theorem id_url_roundtrip id :
  is_u 32 id -> exists url, idtourl id = Ret url /\ urltoid url = id mod 2 ^ 31.
Proof.
  intros Hid. unfold idtourl. pose proof (wrap_u_range 32 (id * 2 + 56) ltac:(lia)) as Hv.
  destruct (idtourl_loop_spec 62 (u32 (id * 2 + 56)) [] 6) as (room&ds&->&Hds&Hroom);
    [unfold is_u in Hv; change (36 ^ Z.of_nat 7) with 78364164096; lia|done|lia|]. mstep.
  destruct room as [|room]; [lia|]. eexists. split; [done|].
  unfold urltoid. cbn [tl]. rewrite Hds. cbn [url_number].
  rewrite Z.shiftr_div_pow2 by lia. unfold wrap_u, is_u in *. pow2.
  change (2 ^ 1) with 2. change (2 ^ 31) with 2147483648.
  Z.div_mod_to_equations. lia.
Qed.

Lemma hex_roundtrip_witness :
  exists digits, bytes_to_hex_string [0; 171; 255] 3 = Ret ([48; 120] ++ digits) /\
    hex_to_string digits = Ret [0; 171; 255] /\
    hex_to_string ([48; 120] ++ digits) = Throw (invalid_argument "not a hex digit").
Proof. apply (hex_roundtrip [0; 171; 255]). apply (bool_decide_unpack _). by vm_compute. Defined.

Lemma url_roundtrip_witness : URLDecode (URLEncode [97; 37; 32; 0; 255]) = Ret [97; 37; 32; 0; 255].
Proof. apply url_roundtrip. apply (bool_decide_unpack _). by vm_compute. Defined.

Lemma id_url_roundtrip_witness :
  exists url, idtourl (2 ^ 31 + 5) = Ret url /\ urltoid url = (2 ^ 31 + 5) mod 2 ^ 31.
Proof. by apply id_url_roundtrip. Defined.

(** ** Decimal numbers *)

(** [stringstream << user_id]: a 32-bit number has at most ten digits. *)
Fixpoint dec_loop (room : nat) (n : Z) (acc : list Z) : list Z :=
  match room with
  | O => acc
  | S room =>
      let acc := (48 + n mod 10) :: acc in
      if n <? 10 then acc else dec_loop room (n / 10) acc
  end.

Definition int2string (user_id : Z) : list Z := dec_loop 10 (u32 user_id) [].

Definition isspace (c : Z) : bool := (c =? 32) || ((9 <=? c) && (c <=? 13)).

Fixpoint skip_spaces (s : list Z) : list Z :=
  match s with
  | c :: rest => if isspace c then skip_spaces rest else s
  | [] => []
  end.

Fixpoint digits_value (acc : Z) (s : list Z) : Z :=
  match s with
  | c :: rest => if isdigit c then digits_value (acc * 10 + (c - 48)) rest else acc
  | [] => acc
  end.

(** [atoi]: [strtol], which saturates, converted to [int]. *)
Definition atoi (s : list Z) : Z :=
  let v :=
    match skip_spaces s with
    | 45 :: rest => - digits_value 0 rest
    | 43 :: rest => digits_value 0 rest
    | rest => digits_value 0 rest
    end in
  i32 (Z.max (- 2 ^ 63) (Z.min (2 ^ 63 - 1) v)).

Definition string2int (value : list Z) : Z := u32 (atoi value).

Definition is_digit (c : Z) : Prop := 48 <= c <= 57.

Lemma digits_value_app ds tl : Forall is_digit ds ->
  forall acc, digits_value acc (ds ++ tl) = digits_value (digits_value acc ds) tl.
Proof.
  induction 1 as [|c ds Hc _ IH]; intros acc; [done|]. cbn [digits_value app].
  unfold is_digit in Hc. assert (isdigit c = true) as -> by (unfold isdigit; lia). apply IH.
Qed.

Lemma dec_loop_spec room : forall n tl, 0 <= n < 10 ^ Z.of_nat room -> (0 < room)%nat ->
  exists d ds, dec_loop room n tl = (d :: ds) ++ tl /\ Forall is_digit (d :: ds) /\
    digits_value 0 (d :: ds) = n.
Proof.
  induction room as [|room IH]; intros n tl Hn Hpos; [lia|]. cbn [dec_loop].
  assert (Forall is_digit [48 + n mod 10]) as Hd.
  { forall_list. unfold is_digit. pose proof (Z.mod_pos_bound n 10). lia. }
  assert (isdigit (48 + n mod 10) = true) as Hdig.
  { apply Forall_cons_1 in Hd as [Hd _]. unfold is_digit in Hd. unfold isdigit. lia. }
  destruct (Z.ltb_spec n 10) as [Hlt|Hge].
  - exists (48 + n mod 10), []. split_and!; [done..|]. cbn [digits_value]. rewrite Hdig.
    rewrite Z.mod_small by lia. lia.
  - rewrite Nat2Z.inj_succ, Z.pow_succ_r in Hn by lia.
    assert (0 <= n / 10 < 10 ^ Z.of_nat room) as Hq.
    { split; [apply Z.div_pos; lia|]. apply Z.div_lt_upper_bound; lia. }
    destruct room as [|room]; [simpl in Hn; lia|].
    destruct (IH (n / 10) (48 + n mod 10 :: tl) Hq) as (d&ds&->&Hds&Hv); [lia|].
    exists d, (ds ++ [48 + n mod 10]). split_and!.
    + simpl. by rewrite <- app_assoc.
    + apply (Forall_app_2 _ (d :: ds)); done.
    + rewrite (app_comm_cons ds). rewrite digits_value_app, Hv by done. cbn [digits_value].
      rewrite Hdig. pose proof (Z.div_mod n 10). lia.
Qed.

(** [%d] and [%u] of a number that is not negative. *)
Definition decimal (n : Z) : list Z := dec_loop 10 n [].

Lemma decimal_spec n : 0 <= n < 10 ^ 10 ->
  Forall is_digit (decimal n) /\ digits_value 0 (decimal n) = n /\ 0 < zlen (decimal n) <= 10.
Proof.
  intros Hn. unfold decimal. destruct (dec_loop_spec 10 n []) as (d & ds & E & Hd & Hv); [done|lia|].
  assert (forall room m acc, zlen (dec_loop room m acc) <= Z.of_nat room + zlen acc) as Hl.
  { induction room as [|room IH]; intros m acc; cbn [dec_loop]; [lia|]. pose proof (zlen_cons (48 + m mod 10) acc).
    case_match; [lia|]. pose proof (IH (m / 10) (48 + m mod 10 :: acc)). lia. }
  pose proof (Hl 10%nat n []) as L. rewrite E, app_nil_r in *. split_and!; [done|done|zlia|done].
Qed.

Lemma int2string_spec n : is_u 32 n ->
  string2int (int2string n) = n /\ Forall is_digit (int2string n) /\ int2string n <> [].
Proof.
  intros Hn. unfold is_u in Hn. unfold int2string. rewrite wrap_u_small by done.
  destruct (dec_loop_spec 10 n []) as (d&ds&->&Hds&Hv); [pow2; simpl; lia|lia|].
  rewrite app_nil_r. split_and!; [|done..].
  pose proof Hds as [Hd _]%Forall_cons_1. unfold is_digit in Hd.
  unfold string2int, atoi. cbn [skip_spaces].
  assert (isspace d = false) as -> by (unfold isspace; lia).
  assert (match d :: ds with
    | 45 :: rest => - digits_value 0 rest
    | 43 :: rest => digits_value 0 rest
    | rest => digits_value 0 rest end = n) as ->.
  { rewrite <- Hv. assert (d = 48 \/ d = 49 \/ d = 50 \/ d = 51 \/ d = 52 \/ d = 53 \/ d = 54 \/
      d = 55 \/ d = 56 \/ d = 57) as Hcases by lia.
    by repeat destruct Hcases as [->|Hcases]; subst. }
  pow2. rewrite Z.min_r, Z.max_r by lia. rewrite wrap_u_wrap_s by lia. by apply wrap_u_small.
Qed.

End Helpers.
