(* ===== verification/ConfigFile.v ===== *)
(** * Configuration files and separated lists

    Models [CStrExplode] of src/src/ptp_global/Utils.cpp and
    [CConfigFileReader] of ConfigFileReader.cpp.  A C string is the list of
    its bytes without the terminating null. *)

From stdpp Require Import sorting.
From S2P Require Import Prelude.

Module CStrExplode.

(** An entry of [m_item_list] is [None] until it is assigned: the array is
    allocated without initialising its pointers. *)
Record t := mk {
  m_item_cnt : Z;
  m_item_list : list (option (list Z));
}.

Fixpoint count (seperator : Z) (str : list Z) : Z :=
  match str with
  | [] => 0
  | c :: str => (if c =? seperator then 1 else 0) + count seperator str
  end.

(** [m_item_list[idx] = item]. *)
Definition set_item (l : list (option (list Z))) (idx : nat) (item : list Z)
  : outcome (list (option (list Z))) :=
  if decide (idx < length l)%nat then Ret (<[idx := Some item]> l) else UB.

(** The second loop: [cur] is the text from [start] to [pos], reversed. *)
Fixpoint explode (seperator : Z) (str cur : list Z) (idx : nat) (l : list (option (list Z)))
  : outcome (list (option (list Z))) :=
  match str with
  | [] => match cur with [] => Ret l | _ => set_item l idx (rev cur) end
  | c :: str =>
      match cur with
      | [] => explode seperator str [c] idx l
      | _ =>
          if c =? seperator then
            l ← set_item l idx (rev cur);
            explode seperator str [] (S idx) l
          else explode seperator str (c :: cur) idx l
      end
  end.

Definition CStrExplode (str : list Z) (seperator : Z) : outcome t :=
  let cnt := 1 + count seperator str in
  l ← explode seperator str [] 0 (replicate (Z.to_nat cnt) None);
  Ret (mk cnt l).

Definition GetItemCnt (e : t) : Z := m_item_cnt e.

(** Reading an entry that was never assigned yields an indeterminate pointer;
    using it is undefined behaviour. *)
Definition GetItem (e : t) (idx : nat) : outcome (list Z) :=
  match m_item_list e !! idx with Some (Some s) => Ret s | _ => UB end.

(** The destructor deletes every entry. *)
Definition destroy (e : t) : outcome unit :=
  if decide (Forall is_Some (m_item_list e)) then Ret () else UB.

(** ** The pieces of a string *)

Fixpoint join (sep : Z) (pieces : list (list Z)) : list Z :=
  match pieces with
  | [] => []
  | [p] => p
  | p :: pieces => p ++ sep :: join sep pieces
  end.

Definition piece_ok (sep : Z) (p : list Z) : Prop := p <> [] /\ sep ∉ p.

Lemma count_app sep a b : count sep (a ++ b) = count sep a + count sep b.
Proof. induction a as [|c a IH]; simpl; lia. Qed.

Lemma count_piece sep p : sep ∉ p -> count sep p = 0.
Proof.
  induction p as [|c p IH]; [done|]. intros [Hc Hp]%not_elem_of_cons. simpl.
  rewrite IH by done. destruct (Z.eqb_spec c sep); [congruence|lia].
Qed.

Lemma count_join sep p pieces :
  Forall (piece_ok sep) (p :: pieces) -> count sep (join sep (p :: pieces)) = zlen pieces.
Proof.
  revert p. induction pieces as [|q pieces IH]; intros p Hall.
  - apply Forall_cons_1 in Hall as [[_ Hp] _]. simpl. by apply count_piece.
  - apply Forall_cons_1 in Hall as [[_ Hp] Hall]. change (join sep (p :: q :: pieces))
      with (p ++ sep :: join sep (q :: pieces)).
    rewrite count_app, (count_piece sep p) by done. cbn [count]. rewrite Z.eqb_refl, IH by done.
    rewrite zlen_cons. lia.
Qed.

(** Scanning a piece without separators only accumulates it. *)
Lemma explode_piece sep p : forall rest cur idx l,
  sep ∉ p -> (cur <> [] \/ p <> []) ->
  explode sep (p ++ rest) cur idx l = explode sep rest (rev p ++ cur) idx l.
Proof.
  induction p as [|c p IH]; intros rest cur idx l Hp Hne; [done|].
  apply not_elem_of_cons in Hp as [Hc Hp]. cbn [app explode rev].
  rewrite <- app_assoc. cbn [app]. destruct cur as [|x cur].
  - rewrite IH; [done|done|by left].
  - destruct (Z.eqb_spec c sep); [congruence|]. rewrite IH; [done|done|by left].
Qed.

Lemma rev_nonempty (p : list Z) : p <> [] -> exists x l, rev p ++ [] = x :: l.
Proof.
  intros Hp. destruct (rev p ++ []) as [|x l] eqn:E; [|eauto].
  rewrite app_nil_r in E. apply (f_equal (@rev Z)) in E. rewrite rev_involutive in E. done.
Qed.

Lemma set_item_next (items : list (list Z)) item rest :
  set_item (map Some items ++ None :: rest) (length items) item =
  Ret (map Some (items ++ [item]) ++ rest).
Proof.
  unfold set_item. rewrite decide_True by (rewrite length_app, length_map; simpl; lia).
  rewrite insert_app_r_alt by (rewrite length_map; lia).
  rewrite length_map, Nat.sub_diag, map_app, <- app_assoc. done.
Qed.

(** Entries beyond the pieces found stay as they were. *)
Lemma explode_join sep tail rest pieces : forall p items,
  Forall (piece_ok sep) (p :: pieces) -> tail = [] \/ tail = [sep] ->
  explode sep (join sep (p :: pieces) ++ tail) [] (length items)
    (map Some items ++ replicate (S (length pieces)) None ++ rest) =
  Ret (map Some (items ++ p :: pieces) ++ rest).
Proof.
  induction pieces as [|q pieces IH]; intros p items Hall Htail.
  - apply Forall_cons_1 in Hall as [[Hne Hp] _]. cbn [join].
    rewrite explode_piece by auto. destruct (rev_nonempty p Hne) as (x&l&E). rewrite E.
    destruct Htail as [-> | ->]; cbn [explode]; rewrite ?Z.eqb_refl, <- E, app_nil_r, rev_involutive;
      cbn [length replicate app]; rewrite set_item_next; done.
  - apply Forall_cons_1 in Hall as [[Hne Hp] Hall].
    change (join sep (p :: q :: pieces)) with (p ++ sep :: join sep (q :: pieces)).
    rewrite <- app_assoc. rewrite explode_piece by auto.
    destruct (rev_nonempty p Hne) as (x&l&E). rewrite E. cbn [app explode].
    rewrite Z.eqb_refl, <- E, app_nil_r, rev_involutive. cbn [length replicate app].
    rewrite set_item_next. mstep.
    specialize (IH q (items ++ [p]) Hall Htail). rewrite length_app, <- app_assoc in IH.
    cbn [length replicate app] in IH. rewrite Nat.add_1_r in IH. done.
Qed.

(** A separated list of non-empty pieces is split into exactly those
    pieces, every entry is initialised and the destructor is safe; a
    trailing separator leaves an entry unassigned, which the destructor then
    deletes. *)
Theorem explode_pieces sep p pieces :
  Forall (piece_ok sep) (p :: pieces) ->
  (exists e, CStrExplode (join sep (p :: pieces)) sep = Ret e /\
     GetItemCnt e = zlen (p :: pieces) /\ m_item_list e = map Some (p :: pieces) /\
     destroy e = Ret ()) /\
  (exists e, CStrExplode (join sep (p :: pieces) ++ [sep]) sep = Ret e /\ destroy e = UB).
Proof.
  intros Hall. pose proof (count_join sep p pieces Hall) as Hcnt. pose proof (zlen_nonneg pieces).
  split.
  - unfold CStrExplode. rewrite Hcnt.
    replace (Z.to_nat (1 + zlen pieces)) with (S (length pieces)) by (unfold zlen; lia).
    pose proof (explode_join sep [] [] pieces p [] Hall (or_introl eq_refl)) as Hex.
    rewrite !app_nil_r in Hex. cbn [map app length] in Hex. rewrite Hex. mstep.
    eexists. split; [done|]. split_and!; [cbn; by rewrite zlen_cons|done|].
    unfold destroy. rewrite decide_True; [done|]. 
    change (Forall is_Some (map Some (p :: pieces))). rewrite List.Forall_map.
    apply Forall_true. by eexists.
  - unfold CStrExplode. rewrite count_app, Hcnt. cbn [count]. rewrite Z.eqb_refl.
    replace (Z.to_nat (1 + (zlen pieces + (1 + 0)))) with (S (length pieces) + 1)%nat
      by (unfold zlen; lia).
    rewrite replicate_add.
    pose proof (explode_join sep [sep] [None] pieces p [] Hall (or_intror eq_refl)) as Hex.
    cbn [map app length] in Hex. change (replicate 1 None) with [@None (list Z)]. rewrite Hex. mstep.
    eexists. split; [done|]. unfold destroy. rewrite decide_False; [done|]. cbn [m_item_list].
    change (~ Forall is_Some (map Some (p :: pieces) ++ [None])).
    intros [_ [[? HN] _]%Forall_cons_1]%Forall_app. done.
Qed.

Lemma explode_pieces_witness :
  (exists e, CStrExplode [49; 59; 50; 51] 59 = Ret e /\ GetItemCnt e = 2 /\
     m_item_list e = [Some [49]; Some [50; 51]] /\ destroy e = Ret ()) /\
  (exists e, CStrExplode [49; 59; 50; 51; 59] 59 = Ret e /\ destroy e = UB).
Proof.
  apply (explode_pieces 59 [49] [[50; 51]]).
  forall_list; split; try done; set_solver.
Defined.

End CStrExplode.

Module CConfigFileReader.

Abbreviation str := (list Z).

Record t := mk {
  m_load_ok : bool;
  m_config_map : gmap str str;
}.

Definition is_blank (c : Z) : bool := (c =? 32) || (c =? 9).

Fixpoint skip_blank (s : str) : str :=
  match s with
  | c :: rest => if is_blank c then skip_blank rest else s
  | [] => []
  end.

Definition _TrimSpace (name : str) : option str :=
  match skip_blank name with
  | [] => None
  | start => Some (rev (skip_blank (rev start)))
  end.

(** The text before the first occurrence of a character, and what follows it
    when there is one: [strchr]. *)
Fixpoint strchr (c : Z) (s : str) : str * option str :=
  match s with
  | [] => ([], None)
  | x :: rest =>
      if x =? c then ([], Some rest)
      else let '(before, after) := strchr c rest in (x :: before, after)
  end.

(** [insert] keeps an entry that is already there. *)
Definition map_insert (m : gmap str str) (key value : str) : gmap str str :=
  match m !! key with Some _ => m | None => <[key := value]> m end.

Definition _ParseLine (m : gmap str str) (line : str) : gmap str str :=
  match strchr 61 line with
  | (_, None) => m
  | (before, Some after) =>
      match _TrimSpace before, _TrimSpace after with
      | Some key, Some value => map_insert m key value
      | _, _ => m
      end
  end.

(** [fgets] with room for [n] characters: what it stores and what is left. *)
Fixpoint fgets (n : nat) (s : str) : str * str :=
  match n, s with
  | S n, c :: rest =>
      if c =? 10 then ([c], rest)
      else let '(line, remain) := fgets n rest in (c :: line, remain)
  | _, _ => ([], s)
  end.

(** A line as it was read; [buf[len - 1]] of an empty string is an access
    outside the array. *)
Definition load_line (m : gmap str str) (buf : str) : outcome (gmap str str) :=
  let '(s, _) := strchr 0 buf in
  match rev s with
  | [] => UB
  | last :: front =>
      let s := if last =? 10 then rev front else s in
      let '(s, _) := strchr 35 s in
      match s with
      | [] => Ret m
      | _ => Ret (_ParseLine m s)
      end
  end.

Fixpoint load_loop (fuel : nat) (m : gmap str str) (file : str) : outcome (gmap str str) :=
  match fuel with
  | O => NoFuel
  | S fuel =>
      match file with
      | [] => Ret m
      | _ =>
          let '(buf, file) := fgets 255 file in
          m ← load_line m buf;
          load_loop fuel m file
      end
  end.

(** The constructor; [garbage] is the value of [m_load_ok] when the file could
    not be opened, which no code sets. *)
Definition CConfigFileReader (garbage : bool) (file : option str) : outcome t :=
  match file with
  | None => Ret (mk garbage ∅)
  | Some file => m ← load_loop (S (length file)) ∅ file; Ret (mk true m)
  end.

Definition GetConfigName (r : t) (name : str) : option str :=
  if m_load_ok r then m_config_map r !! name else None.

(** [std::map] iterates in the order of its keys, compared byte by byte. *)
Fixpoint str_le (a b : str) : bool :=
  match a, b with
  | [], _ => true
  | _ :: _, [] => false
  | x :: a, y :: b => (x <? y) || ((x =? y) && str_le a b)
  end.

Definition entry_le (e1 e2 : str * str) : Prop := str_le (fst e1) (fst e2) = true.

#[export] Instance entry_le_dec e1 e2 : Decision (entry_le e1 e2).
Proof. unfold entry_le. apply _. Defined.

Definition entries (m : gmap str str) : list (str * str) := merge_sort entry_le (map_to_list m).

(** [snprintf] into 128 bytes keeps the first 127 characters. *)
Definition format_entry (e : str * str) : str := take 127 (fst e ++ [61] ++ snd e ++ [10]).

(** [writable] says whether the file can be opened, [ok] how many [fwrite]
    calls succeed; the result is what the call returns and the file
    afterwards. *)
Definition _WriteFIle (writable : bool) (ok : nat) (r : t) (file : option str) : Z * option str :=
  if writable then
    let es := entries (m_config_map r) in
    let out := concat (map format_entry (take ok es)) in
    (if decide (length es <= ok)%nat then 0 else -1, Some out)
  else (-1, file).

Definition SetConfigValue (writable : bool) (ok : nat) (r : t) (file : option str)
    (name value : str) : t * Z * option str :=
  if m_load_ok r then
    let r := mk true (<[name := value]> (m_config_map r)) in
    let '(ret, file) := _WriteFIle writable ok r file in (r, ret, file)
  else (r, -1, file).

(** ** Reading back what was written *)

(** Text that neither the line splitting nor the trimming changes. *)
Definition clean (s : str) : Prop :=
  s <> [] /\ Forall (fun c => c <> 0 /\ c <> 10 /\ c <> 35) s /\
  (forall c, head s = Some c -> is_blank c = false) /\
  (forall c, head (rev s) = Some c -> is_blank c = false).

Definition entry_ok (e : str * str) : Prop :=
  clean (fst e) /\ clean (snd e) /\ (61 ∉ fst e) /\ (length (fst e) + length (snd e) + 2 <= 127)%nat.

Lemma strchr_none c s : c ∉ s -> strchr c s = (s, None).
Proof.
  induction s as [|x s IH]; [done|]. intros [Hx Hs]%not_elem_of_cons. simpl.
  destruct (Z.eqb_spec x c); [congruence|]. by rewrite IH.
Qed.

Lemma strchr_some c s rest : c ∉ s -> strchr c (s ++ c :: rest) = (s, Some rest).
Proof.
  induction s as [|x s IH]; simpl; [by rewrite Z.eqb_refl|]. intros [Hx Hs]%not_elem_of_cons.
  destruct (Z.eqb_spec x c); [congruence|]. by rewrite IH.
Qed.

Lemma fgets_line s rest : forall n,
  10 ∉ s -> (length s < n)%nat -> fgets n (s ++ 10 :: rest) = (s ++ [10], rest).
Proof.
  induction s as [|c s IH]; intros n Hs Hn; destruct n as [|n]; simpl in *; try lia; [done|].
  apply not_elem_of_cons in Hs as [Hc Hs]. destruct (Z.eqb_spec c 10); [congruence|].
  by rewrite IH by (done || lia).
Qed.

Lemma skip_blank_clean s : (forall c, head s = Some c -> is_blank c = false) -> skip_blank s = s.
Proof. destruct s as [|c s]; [done|]. simpl. intros H. by rewrite H. Qed.

Lemma trim_clean s : clean s -> _TrimSpace s = Some s.
Proof.
  intros (Hne&_&Hh&Hl). unfold _TrimSpace. rewrite skip_blank_clean by done.
  destruct s as [|c s]; [done|]. rewrite skip_blank_clean by done.
  by rewrite rev_involutive.
Qed.

Lemma clean_notin s c : clean s -> c = 0 \/ c = 10 \/ c = 35 -> c ∉ s.
Proof.
  intros (_&Hf&_) Hc Hin. rewrite list.Forall_forall in Hf. specialize (Hf c Hin). lia.
Qed.

Lemma load_loop_S fuel m file buf remain :
  file <> [] -> fgets 255 file = (buf, remain) ->
  load_loop (S fuel) m file = (m ← load_line m buf; load_loop fuel m remain).
Proof. intros Hne Hf. destruct file as [|c file]; [done|]. cbn [load_loop]. by rewrite Hf. Qed.

Lemma load_entry m e rest fuel :
  entry_ok e -> load_loop (S fuel) m (format_entry e ++ rest) =
  load_loop fuel (map_insert m (fst e) (snd e)) rest.
Proof.
  destruct e as [k v]. intros (Hk&Hv&He&Hlen). unfold format_entry. cbn [fst snd] in *.
  rewrite take_ge by (rewrite !length_app; simpl; lia).
  set (s := k ++ [61] ++ v).
  assert (k ++ [61] ++ v ++ [10] = s ++ [10]) as -> by (unfold s; by rewrite <- !app_assoc).
  assert (forall c, c = 0 \/ c = 10 \/ c = 35 -> c ∉ s) as Hnot.
  { intros c Hc. unfold s. rewrite !not_elem_of_app, list_elem_of_singleton.
    split_and!; [by apply clean_notin|lia|by apply clean_notin]. }
  assert (s <> []) as Hs by (unfold s; by destruct k).
  rewrite <- app_assoc. cbn [app].
  rewrite (load_loop_S _ _ _ (s ++ [10]) rest); [|by destruct s|apply fgets_line; [apply Hnot; auto|
    unfold s; rewrite !length_app; simpl; lia]].
  unfold load_line. rewrite strchr_none; cycle 1.
  { rewrite not_elem_of_app, list_elem_of_singleton. split; [apply Hnot; auto|lia]. }
  rewrite rev_app_distr. cbn [rev app Z.eqb Pos.eqb]. rewrite rev_involutive.
  rewrite strchr_none by (apply Hnot; auto).
  replace (match s with [] => Ret m | _ :: _ => Ret (_ParseLine m s) end)
    with (Ret (_ParseLine m s)) by (by clearbody s; destruct s).
  mstep. f_equal. unfold _ParseLine, s. cbn [app]. rewrite strchr_some by done.
  by rewrite !trim_clean.
Qed.

Lemma load_entries es : forall m fuel,
  Forall entry_ok es -> (length es < fuel)%nat ->
  load_loop fuel m (concat (map format_entry es)) =
  Ret (foldl (fun m e => map_insert m (fst e) (snd e)) m es).
Proof.
  induction es as [|e es IH]; intros m fuel Hes Hf; (destruct fuel as [|fuel]; [simpl in Hf; lia|]).
  - done.
  - apply Forall_cons_1 in Hes as [He Hes]. cbn [map concat]. rewrite load_entry by done.
    rewrite IH; [done|done|simpl in Hf; lia].
Qed.

Lemma foldl_insert es : forall m,
  NoDup (map fst es) -> (forall e, e ∈ es -> m !! fst e = None) ->
  foldl (fun m e => map_insert m (fst e) (snd e)) m es = list_to_map es ∪ m.
Proof.
  induction es as [|[k v] es IH]; intros m Hnd Hfresh; simpl.
  - by rewrite (left_id_L ∅ (∪)).
  - apply list.NoDup_cons in Hnd as [Hk Hnd].
    assert (m !! k = None) as Hm by (apply (Hfresh (k, v)); by left).
    assert (map_insert m k v = <[k := v]> m) as -> by (unfold map_insert; by rewrite Hm).
    rewrite IH; [|done|].
    + rewrite <- insert_union_l, <- insert_union_r; [done|]. by apply not_elem_of_list_to_map_1.
    + intros [k' v'] He. cbn [fst]. rewrite lookup_insert_ne.
      * apply (Hfresh (k', v')). by right.
      * intros <-. apply Hk. apply list_elem_of_In, in_map_iff. exists (k, v').
        split; [done|]. by apply list_elem_of_In.
Qed.

Lemma entries_perm m : entries m ≡ₚ map_to_list m.
Proof. apply merge_sort_Permutation. Qed.

Lemma entries_length m : Forall entry_ok (entries m) ->
  (length (entries m) <= length (concat (map format_entry (entries m))))%nat.
Proof.
  induction 1 as [|e es He _ IH]; [done|]. simpl. rewrite length_app.
  assert (1 <= length (format_entry e))%nat; [|lia].
  unfold format_entry. rewrite length_take, !length_app. cbn [length]. lia.
Qed.

(** A configuration survives being written and read again: when every
    entry is trimmed text without reserved characters whose line fits the
    127 characters of the writer's buffer, a reader of the written file holds
    the same map, whatever order it was written in; in particular it returns
    the value just set. *)
Theorem config_file_roundtrip garbage r file name value ok :
  m_load_ok r = true -> Forall entry_ok (map_to_list (<[name := value]> (m_config_map r))) ->
  (size (<[name := value]> (m_config_map r)) <= ok)%nat ->
  exists r' file' r2, SetConfigValue true ok r file name value = (r', 0, Some file') /\
    CConfigFileReader garbage (Some file') = Ret r2 /\ m_config_map r2 = m_config_map r' /\
    GetConfigName r2 name = Some value.
Proof.
  intros Hok Hes Hsize. unfold SetConfigValue, _WriteFIle. rewrite Hok. cbn [m_config_map].
  set (m := <[name := value]> (m_config_map r)) in *.
  assert (length (entries m) = size m) as Hlen.
  { rewrite entries_perm. apply length_map_to_list. }
  rewrite decide_True by lia. rewrite take_ge by lia.
  assert (Forall entry_ok (entries m)) as Hes' by (by rewrite entries_perm).
  eexists _, _, _. split; [done|]. unfold CConfigFileReader.
  pose proof (entries_length m Hes').
  rewrite load_entries by (done || lia). mstep.
  rewrite foldl_insert; [|rewrite entries_perm; apply NoDup_fst_map_to_list|intros; apply lookup_empty].
  split; [done|]. cbn [m_config_map].
  assert (list_to_map (entries m) = m) as Hm.
  { rewrite <- (list_to_map_to_list m) at 2. apply list_to_map_proper; [|apply entries_perm].
    rewrite entries_perm. apply NoDup_fst_map_to_list. }
  rewrite Hm, (right_id_L ∅ (∪)). split; [done|].
  unfold GetConfigName. cbn [m_load_ok m_config_map]. apply lookup_insert_eq.
Qed.

#[export] Instance clean_dec s : Decision (clean s).
Proof.
  unfold clean. apply and_dec; [apply _|]. apply and_dec; [apply _|].
  apply and_dec; (destruct (head _) as [c|]; [|left; by intros]);
    (destruct (is_blank c) eqn:E; [right|left]; [intros H; specialize (H c eq_refl); congruence|
      intros c' [= <-]; done]).
Defined.

Lemma config_file_roundtrip_witness :
  exists r' file' r2, SetConfigValue true 9 (mk true {[ [97] := [49; 32; 50] ]}) None [98] [61] =
      (r', 0, Some file') /\
    CConfigFileReader false (Some file') = Ret r2 /\ m_config_map r2 = m_config_map r' /\
    GetConfigName r2 [98] = Some [61].
Proof.
  apply (config_file_roundtrip false (mk true {[ [97] := [49; 32; 50] ]}) None [98] [61] 9).
  - done.
  - apply (bool_decide_unpack _). by vm_compute.
  - vm_compute. lia.
Defined.

(** An entry whose line does not fit loses its end of line, and the entry after
    it is read as part of its value. *)
Example long_entry_swallows_next :
  match CConfigFileReader false (snd (_WriteFIle true 2
    (mk true {[ [97] := replicate 130 49; [98] := [50] ]}) None)) with
  | Ret r => GetConfigName r [98] = None
  | _ => False
  end.
Proof. by vm_compute. Qed.

End CConfigFileReader.
