(* ===== verification/ConnPool.v ===== *)
(** * Connection pools

    Models [CachePool] of src/src/ptp_server/CachePool.cpp and [CDBPool] of
    DBPool.cpp, which share one algorithm: a list of free connections, a count
    of existing ones and a bound on it, under a mutex with a condition
    variable.  A call runs with the mutex held, so it is one step, except that
    a call that finds no free connection and may not open one waits.  Whether
    opening a connection succeeds is an argument. *)

From S2P Require Import Prelude.

Module ConnPool.

Definition MIN_CONN_CNT : Z := 2.

Record t := mk {
  m_free_list : list nat;
  m_cur_conn_cnt : Z;
  m_max_conn_cnt : Z;
  next_conn : nat;
}.

(** [new CacheConn(this)]: connections are numbered as they are created. *)
Definition new_conn (p : t) : t * nat :=
  (mk (m_free_list p) (m_cur_conn_cnt p) (m_max_conn_cnt p) (S (next_conn p)), next_conn p).

Definition construct (max_conn_cnt : Z) : t := mk [] MIN_CONN_CNT max_conn_cnt 0.

(** [Init]: open the initial connections; 0 on success. *)
Fixpoint init_loop (n : nat) (opens : nat -> bool) (p : t) : t * Z :=
  match n with
  | O => (p, 0)
  | S n =>
      let '(p, c) := new_conn p in
      if opens c then
        init_loop n opens (mk (m_free_list p ++ [c]) (m_cur_conn_cnt p) (m_max_conn_cnt p)
          (next_conn p))
      else (p, 1)
  end.

Definition Init (opens : nat -> bool) (p : t) : t * Z :=
  init_loop (Z.to_nat (m_cur_conn_cnt p)) opens p.

(** What a request for a connection ends with. *)
Inductive got :=
| Conn (c : nat)
| Null
| Waits.

Definition GetConn (opens : nat -> bool) (p : t) : t * got :=
  match m_free_list p with
  | c :: rest => (mk rest (m_cur_conn_cnt p) (m_max_conn_cnt p) (next_conn p), Conn c)
  | [] =>
      if m_max_conn_cnt p <=? m_cur_conn_cnt p then (p, Waits)
      else
        let '(p, c) := new_conn p in
        if opens c then
          (** pushed to the free list, counted, and taken from its front *)
          (mk [] (m_cur_conn_cnt p + 1) (m_max_conn_cnt p) (next_conn p), Conn c)
        else (p, Null)
  end.

Definition RelConn (p : t) (c : nat) : t :=
  if decide (c ∈ m_free_list p) then p
  else mk (m_free_list p ++ [c]) (m_cur_conn_cnt p) (m_max_conn_cnt p) (next_conn p).

(** ** Threads using a pool

    [used] is the set of connections that threads hold, [waiting] the number
    of threads in [Wait].  A thread releases what it holds; the signal of a
    release lets one waiting thread run its loop again. *)

Record state := mkState {
  pool : t;
  used : gset nat;
  waiting : nat;
}.

Inductive step (opens : nat -> bool) : state -> state -> Prop :=
| step_get s p c :
    GetConn opens (pool s) = (p, Conn c) ->
    step opens s (mkState p ({[c]} ∪ used s) (waiting s))
| step_fail s p :
    GetConn opens (pool s) = (p, Null) -> step opens s (mkState p (used s) (waiting s))
| step_wait s p :
    GetConn opens (pool s) = (p, Waits) -> step opens s (mkState p (used s) (S (waiting s)))
| step_release s c :
    c ∈ used s ->
    step opens s (mkState (RelConn (pool s) c) (used s ∖ {[c]}) (pred (waiting s))).

Definition started (opens : nat -> bool) (max : Z) (s : state) : Prop :=
  exists p, Init opens (construct max) = (p, 0) /\ s = mkState p ∅ 0.

Inductive reach (opens : nat -> bool) (max : Z) : state -> Prop :=
| reach_start s : started opens max s -> reach opens max s
| reach_step s s' : reach opens max s -> step opens s s' -> reach opens max s'.

(** Every existing connection is free or held by one thread, and the count is
    exact. *)
Definition inv (max : Z) (s : state) : Prop :=
  NoDup (m_free_list (pool s)) /\
  (forall c, c ∈ m_free_list (pool s) -> c ∉ used s) /\
  m_cur_conn_cnt (pool s) = zlen (m_free_list (pool s)) + Z.of_nat (size (used s)) /\
  MIN_CONN_CNT <= m_cur_conn_cnt (pool s) <= Z.max MIN_CONN_CNT max /\
  m_max_conn_cnt (pool s) = max /\
  (forall c, c ∈ m_free_list (pool s) \/ c ∈ used s -> (c < next_conn (pool s))%nat).

Lemma init_inv opens max s : started opens max s -> inv max s.
Proof.
  intros (p&Hp&->). unfold Init, construct in Hp. cbn [m_cur_conn_cnt Z.to_nat] in Hp.
  change (Z.to_nat MIN_CONN_CNT) with 2%nat in Hp. cbn in Hp.
  destruct (opens 0%nat); [|done]. cbn in Hp. destruct (opens 1%nat); [|done].
  injection Hp as <-. unfold inv. simpl. split_and!.
  - apply (bool_decide_unpack _). by vm_compute.
  - set_solver.
  - done.
  - unfold MIN_CONN_CNT. lia.
  - unfold MIN_CONN_CNT. lia.
  - done.
  - intros c [Hc|Hc]; [|set_solver].
    rewrite !list.elem_of_cons in Hc. destruct Hc as [->|[->|Hc%not_elem_of_nil]]; [lia|lia|done].
Qed.

Lemma get_inv opens max s p c :
  inv max s -> GetConn opens (pool s) = (p, Conn c) ->
  (c ∉ used s) /\ inv max (mkState p ({[c]} ∪ used s) (waiting s)).
Proof.
  intros (Hnd&Hdis&Hcnt&Hle&Hmax&Hlt) Hget. unfold GetConn in Hget.
  destruct (m_free_list (pool s)) as [|c' rest] eqn:Hf.
  - destruct (Z.leb_spec (m_max_conn_cnt (pool s)) (m_cur_conn_cnt (pool s))); [done|]. simpl in Hget.
    destruct (opens (next_conn (pool s))); [|done]. injection Hget as <- <-.
    assert (next_conn (pool s) ∉ used s) as Hfresh.
    { intros Hin. specialize (Hlt (next_conn (pool s)) (or_intror Hin)). lia. }
    split; [done|]. unfold inv. simpl. split_and!.
    + constructor.
    + set_solver.
    + rewrite Hcnt, size_union, size_singleton by set_solver. zlia.
    + lia.
    + lia.
    + done.
    + intros c [Hc|Hc]; [set_solver|]. apply elem_of_union in Hc as [->%elem_of_singleton|Hc]; [lia|].
      specialize (Hlt c (or_intror Hc)). lia.
  - injection Hget as <- <-. apply list.NoDup_cons in Hnd as [Hnin Hnd].
    assert (c' ∉ used s) as Hfresh by (apply Hdis; by left).
    split; [done|]. unfold inv. simpl. split_and!; try done; try lia.
    + intros c Hc. rewrite not_elem_of_union, elem_of_singleton.
      split; [intros ->; done|]. apply Hdis. by right.
    + rewrite Hcnt, size_union, size_singleton by set_solver. zlia.
    + intros c [Hc|Hc]; apply Hlt; [left; by right|].
      apply elem_of_union in Hc as [->%elem_of_singleton|Hc]; [left; by left|by right].
Qed.

Lemma release_inv max s c :
  inv max s -> c ∈ used s ->
  inv max (mkState (RelConn (pool s) c) (used s ∖ {[c]}) (pred (waiting s))) /\
  m_free_list (RelConn (pool s) c) = m_free_list (pool s) ++ [c].
Proof.
  intros (Hnd&Hdis&Hcnt&Hle&Hmax&Hlt) Hc.
  assert (c ∉ m_free_list (pool s)) as Hnf by (intros Hin; by apply (Hdis c Hin)).
  unfold RelConn. rewrite decide_False by done. split; [|done]. unfold inv. simpl. split_and!; try done; try lia.
  - apply list.NoDup_app. split; [done|]. split; [|apply NoDup_singleton]. set_solver.
  - set_solver.
  - rewrite Hcnt, size_difference, size_singleton by set_solver.
    assert (size (used s) <> 0)%nat by (intros Hz%size_empty_inv; set_solver). zlia.
  - intros c' [Hc'|Hc']; apply Hlt; [|right; set_solver].
    apply elem_of_app in Hc' as [| ->%list_elem_of_singleton]; [by left|by right].
Qed.

Lemma pool_reach_inv opens max s : reach opens max s -> inv max s.
Proof.
  induction 1 as [s Hs|s s' _ IH Hstep]; [by eapply init_inv|].
  destruct Hstep as [s p c Hget|s p Hget|s p Hget|s c Hc].
  - by eapply get_inv.
  - unfold GetConn in Hget. destruct (m_free_list (pool s)) eqn:Hf; [|done].
    destruct (_ <=? _); [done|]. simpl in Hget. destruct (opens _); [done|]. injection Hget as <-.
    destruct IH as (Hnd&Hdis&Hcnt&Hle&Hmax&Hlt). unfold inv. simpl. split_and!; try done; try lia.
    intros c Hc. specialize (Hlt c Hc). lia.
  - unfold GetConn in Hget. destruct (m_free_list (pool s)) eqn:Hf; [|done].
    destruct (_ <=? _); [by injection Hget as <-|]. simpl in Hget. by destruct (opens _).
  - by apply release_inv.
Qed.

(** C36. In every state that threads can bring a pool to: a connection is handed
    out only if no thread holds it; the pool has at least the two connections that
    [Init] opens, and never more than the larger of two and its maximum, so that a
    maximum below two is exceeded by the initial two and a maximum of two or more is
    kept; a thread is made to wait only when every connection is held by some
    thread; and after any release the next request succeeds. *)
Theorem conn_pool_correct opens max s :
  reach opens max s ->
  (forall p c, GetConn opens (pool s) = (p, Conn c) -> c ∉ used s) /\
  Z.of_nat (size (used s)) <= m_cur_conn_cnt (pool s) /\
  (2 <= max -> 2 <= m_cur_conn_cnt (pool s) <= max) /\ (max < 2 -> m_cur_conn_cnt (pool s) = 2) /\
  (forall p, GetConn opens (pool s) = (p, Waits) ->
     Z.of_nat (size (used s)) = m_cur_conn_cnt (pool s) /\ max <= m_cur_conn_cnt (pool s)) /\
  (forall c, c ∈ used s -> exists p c', GetConn opens (RelConn (pool s) c) = (p, Conn c')).
Proof.
  intros Hinv%pool_reach_inv. pose proof Hinv as (Hnd&Hdis&Hcnt&Hle&Hmax&Hlt). split_and!.
  - intros p c Hget. by eapply get_inv.
  - pose proof (zlen_nonneg (m_free_list (pool s))). lia.
  - unfold MIN_CONN_CNT in Hle. lia.
  - unfold MIN_CONN_CNT in Hle. lia.
  - intros p Hget. unfold GetConn in Hget. destruct (m_free_list (pool s)) eqn:Hf; [|done].
    destruct (Z.leb_spec (m_max_conn_cnt (pool s)) (m_cur_conn_cnt (pool s))).
    + rewrite zlen_nil in Hcnt. lia.
    + simpl in Hget. by destruct (opens _).
  - intros c Hc. destruct (release_inv max s c Hinv Hc) as [_ Hf]. unfold GetConn. rewrite Hf.
    destruct (m_free_list (pool s)); simpl; eauto.
Qed.

Lemma conn_pool_correct_witness :
  exists s, reach (fun _ => true) 3 s /\
    (forall p c, GetConn (fun _ => true) (pool s) = (p, Conn c) -> c ∉ used s) /\
    Z.of_nat (size (used s)) <= m_cur_conn_cnt (pool s) /\
    (2 <= 3 -> 2 <= m_cur_conn_cnt (pool s) <= 3) /\ (3 < 2 -> m_cur_conn_cnt (pool s) = 2) /\
    (forall p, GetConn (fun _ => true) (pool s) = (p, Waits) ->
       Z.of_nat (size (used s)) = m_cur_conn_cnt (pool s) /\ 3 <= m_cur_conn_cnt (pool s)) /\
    (forall c, c ∈ used s -> exists p c',
       GetConn (fun _ => true) (RelConn (pool s) c) = (p, Conn c')).
Proof.
  assert (reach (fun _ => true) 3 (mkState (mk [1%nat] 2 3 2) ({[0%nat]} ∪ ∅) 0)) as Hr.
  { eapply (reach_step _ _ (mkState (mk [0%nat; 1%nat] 2 3 2) ∅ 0)).
    - constructor. by exists (mk [0%nat; 1%nat] 2 3 2).
    - by apply (step_get _ (mkState (mk [0%nat; 1%nat] 2 3 2) ∅ 0)). }
  eexists. split; [exact Hr|]. apply (conn_pool_correct _ 3 _ Hr).
Defined.

End ConnPool.
