(* ===== verification/Server.v ===== *)
(** * The message server: connections, users and the login

    Models src/src/ptp_server: the connection registry and [CMsgSrvConn] of
    MsgSrvConn.cpp, [CImUser] and [CImUserManager] of ImUser.cpp, the handler
    table of HandlerMap.cpp, the handlers of actions/AuthAction.cpp and
    actions/OtherAction.cpp, and [CInterLoginStrategy] of
    services/InterLogin.cpp.

    A packet is its header fields and body; its wire form is the subject of
    [Pdu].  The generated protobuf code, libsecp256k1 with the helpers around
    it, and the random sources are parameters.  [CImUser] objects live in a
    heap, since two maps and the connections refer to them by pointer. *)

From S2P Require Import Prelude SimpleBuffer ByteStream ConnPool Helpers.

Abbreviation str := (list Z).

(** ** Messages *)

Definition CID_AuthLoginReq : Z := 0x0101.
Definition CID_AuthLoginRes : Z := 0x0102.
Definition CID_AuthCaptchaReq : Z := 0x0105.
Definition CID_AuthCaptchaRes : Z := 0x0106.
Definition CID_ServerLoginReq : Z := 0x0601.
Definition CID_ServerLoginRes : Z := 0x0602.
Definition CID_HeartBeatNotify : Z := 0x0701.

Definition NO_ERROR : Z := 0.
Definition E_SYSTEM : Z := 1.
Definition E_REASON_NO_DB_SERVER : Z := 7.
Definition E_LOGIN_ERROR : Z := 8.
Definition E_PB_PARSE_ERROR : Z := 9.

Definition USER_STAT_ONLINE : Z := 1.
Definition ATTACH_TYPE_HANDLE : Z := 1.

(** A field that the message definition requires is [None] until it is set. *)
Record UserInfo := mkUser {
  u_uid : option Z;
  u_address : option str;
  u_pub_key : option str;
  u_avatar : option str;
  u_status : option Z;
  u_user_name : str;
  u_nick_name : str;
  u_sign_info : str;
  u_first_name : str;
  u_last_name : str;
  u_login_time : Z;
}.

Definition empty_user : UserInfo := mkUser None None None None None [] [] [] [] [] 0.

Definition IsInitialized (u : UserInfo) : bool :=
  bool_decide (is_Some (u_uid u)) && bool_decide (is_Some (u_address u)) &&
  bool_decide (is_Some (u_pub_key u)) && bool_decide (is_Some (u_avatar u)) &&
  bool_decide (is_Some (u_status u)).

Record AuthLoginReq_t := mkAuthLoginReq {
  al_address : str;
  al_captcha : str;
  al_client_type : Z;
  al_client_version : str;
  al_sign : str;
}.

Record AuthLoginRes_t := mkAuthLoginRes { ar_error : Z; ar_user_info : option UserInfo }.

Record AuthCaptchaRes_t := mkAuthCaptchaRes {
  ac_error : Z; ac_captcha : str; ac_sign : str; ac_address : str; ac_iv : str; ac_aad : str;
}.

Record ServerLoginReq_t := mkServerLoginReq {
  sq_address : str; sq_captcha : str; sq_sign : str; sq_attach_data : str;
}.

Record ServerLoginRes_t := mkServerLoginRes {
  sr_error : Z; sr_user_info : option UserInfo; sr_attach_data : str;
}.

(** The generated message classes.  Parsing what was serialised gives the
    message back, unless a required field was never set. *)
Class Protobuf := {
  parse_AuthCaptchaReq : str -> bool;
  parse_AuthLoginReq : str -> option AuthLoginReq_t;
  parse_ServerLoginReq : str -> option ServerLoginReq_t;
  parse_ServerLoginRes : str -> option ServerLoginRes_t;
  ser_AuthCaptchaRes : AuthCaptchaRes_t -> str;
  ser_AuthLoginRes : AuthLoginRes_t -> str;
  ser_ServerLoginReq : ServerLoginReq_t -> str;
  ser_ServerLoginRes : ServerLoginRes_t -> str;
  ServerLoginReq_law m : parse_ServerLoginReq (ser_ServerLoginReq m) = Some m;
  ServerLoginRes_law m :
    parse_ServerLoginRes (ser_ServerLoginRes m) =
    if match sr_user_info m with Some u => IsInitialized u | None => true end
    then Some m else None;
}.

(** What [AuthCaptchaReq] draws for a connection: the captcha, a fresh key pair
    and the server's signature with it. *)
Record session := mkSession {
  s_captcha : str; s_iv : str; s_aad : str; s_prv_key : str; s_address : str; s_sign : str;
}.

(** Signatures: [recover] gives the public key and address a 65-byte signature
    of a message was made with; an address is a hexadecimal text and never
    empty. *)
Class Crypto := {
  format_sign_msg_data : str -> str;
  recover_pub_key_and_address_from_sig : str -> str -> option (str * str);
  ec_pubkey_parse : str -> bool;
  ecdh_create_share_key : str -> str -> option str;
  random_session : nat -> session;
  recovered_address_text sig msg pub address :
    recover_pub_key_and_address_from_sig sig msg = Some (pub, address) ->
    address <> [] /\ Forall (fun c => c <> 0) address;
}.

(** ** State *)

Record conn := mkConn {
  m_user_id : Z;
  m_bOpen : bool;
  m_captcha : str;
  m_address_hex : str;
  m_prv_key : str;
  m_share_key : str;
  m_iv : str;
  m_aad : str;
  m_client_type : Z;
  m_client_version : str;
  m_login_time : Z;
  m_online_status : Z;
}.

(** [CMsgSrvConn::CMsgSrvConn]. *)
Definition new_conn : conn := mkConn 0 false [] [] [] [] [] [] 0 [] 0 USER_STAT_ONLINE.

Record CImUser := mkImUser {
  iu_user_id : Z;
  iu_address_hex : str;
  iu_handle : Z;
  m_conn_map : gset Z;
}.

Definition new_user (address_hex : str) : CImUser := mkImUser 0 address_hex 0 ∅.

(** The cache server: a key-value store, and the counter of account numbers. *)
Record cache := mkCache { kv : gmap str str; user_id_incr : Z }.

Record pdu := mkPdu { command_id : Z; seq_num : Z; flag : Z; reversed : Z; body : str }.

(** Where a packet was sent. *)
Inductive sent :=
| ToClient (handle : Z) (p : pdu)
| ToBusiness (p : pdu).

Record world := mkWorld {
  g_msg_conn_map : gmap Z conn;
  users : gmap nat CImUser;
  next_user : nat;
  m_im_user_id_map : gmap Z nat;
  m_im_user_address_map : gmap str nat;
  auth_cache : cache;
  auth_pool : ConnPool.t;
  drawn : nat;
  out : list sent;
  business_async : bool;
  business_open : bool;
}.

Definition set_conns (w : world) (m : gmap Z conn) : world :=
  mkWorld m (users w) (next_user w) (m_im_user_id_map w) (m_im_user_address_map w)
    (auth_cache w) (auth_pool w) (drawn w) (out w) (business_async w) (business_open w).

Definition set_conn (w : world) (h : Z) (c : conn) : world :=
  set_conns w (<[h := c]> (g_msg_conn_map w)).

Definition set_users (w : world) (u : gmap nat CImUser) : world :=
  mkWorld (g_msg_conn_map w) u (next_user w) (m_im_user_id_map w) (m_im_user_address_map w)
    (auth_cache w) (auth_pool w) (drawn w) (out w) (business_async w) (business_open w).

Definition set_maps (w : world) (ids : gmap Z nat) (adrs : gmap str nat) : world :=
  mkWorld (g_msg_conn_map w) (users w) (next_user w) ids adrs
    (auth_cache w) (auth_pool w) (drawn w) (out w) (business_async w) (business_open w).

Definition set_cache (w : world) (c : cache) (p : ConnPool.t) : world :=
  mkWorld (g_msg_conn_map w) (users w) (next_user w) (m_im_user_id_map w)
    (m_im_user_address_map w) c p (drawn w) (out w) (business_async w) (business_open w).

Definition send (w : world) (s : sent) : world :=
  mkWorld (g_msg_conn_map w) (users w) (next_user w) (m_im_user_id_map w)
    (m_im_user_address_map w) (auth_cache w) (auth_pool w) (drawn w) (out w ++ [s])
    (business_async w) (business_open w).

Definition draw (w : world) : world :=
  mkWorld (g_msg_conn_map w) (users w) (next_user w) (m_im_user_id_map w)
    (m_im_user_address_map w) (auth_cache w) (auth_pool w) (S (drawn w)) (out w)
    (business_async w) (business_open w).

Definition FindMsgSrvConnByHandle (w : world) (h : Z) : option conn := g_msg_conn_map w !! h.

(** [bytes_to_hex_string] of a whole array. *)
Definition hex_string (bs : str) : str := [48; 120] ++ concat (map Helpers.hex_byte bs).

(** ** [CImUserManager] *)

Definition GetImUserById (w : world) (user_id : Z) : option nat := m_im_user_id_map w !! user_id.

Definition GetImUserByAddress (w : world) (address : str) : option nat :=
  m_im_user_address_map w !! address.

Definition deref_user (w : world) (p : nat) : outcome CImUser :=
  match users w !! p with Some u => Ret u | None => UB end.

Definition AddImUserById (w : world) (user_id : Z) (p : nat) : world :=
  match GetImUserById w user_id with
  | None => set_maps w (<[user_id := p]> (m_im_user_id_map w)) (m_im_user_address_map w)
  | Some _ => w
  end.

Definition AddImUserByAddress (w : world) (address : str) (p : nat) : world :=
  match GetImUserByAddress w address with
  | None => set_maps w (m_im_user_id_map w) (<[address := p]> (m_im_user_address_map w))
  | Some _ => w
  end.

Definition RemoveImUser (w : world) (p : nat) : outcome world :=
  u ← deref_user w p;
  let w := set_maps w (delete (iu_user_id u) (m_im_user_id_map w))
    (delete (iu_address_hex u) (m_im_user_address_map w)) in
  Ret (set_users w (delete p (users w))).

(** [new CImUser(address)]. *)
Definition alloc_user (w : world) (address : str) : world * nat :=
  (mkWorld (g_msg_conn_map w) (<[next_user w := new_user address]> (users w)) (S (next_user w))
     (m_im_user_id_map w) (m_im_user_address_map w) (auth_cache w) (auth_pool w) (drawn w) (out w)
     (business_async w) (business_open w), next_user w).

Definition AddMsgConn (w : world) (p : nat) (handle : Z) : outcome world :=
  u ← deref_user w p;
  Ret (set_users w (<[p := mkImUser (iu_user_id u) (iu_address_hex u) (iu_handle u)
    ({[handle]} ∪ m_conn_map u)]> (users w))).

Definition DelMsgConn (w : world) (p : nat) (handle : Z) : outcome world :=
  u ← deref_user w p;
  Ret (set_users w (<[p := mkImUser (iu_user_id u) (iu_address_hex u) (iu_handle u)
    (m_conn_map u ∖ {[handle]})]> (users w))).

(** ** Connections *)

Definition OnConnect (w : world) (h : Z) : world :=
  match g_msg_conn_map w !! h with
  | Some _ => w
  | None => set_conn w h new_conn
  end.

Definition Close (w : world) (h : Z) (c : conn) : outcome world :=
  let w := set_conns w (delete h (g_msg_conn_map w)) in
  match GetImUserByAddress w (m_address_hex c) with
  | None => Ret w
  | Some p =>
      w ← DelMsgConn w p h;
      u ← deref_user w p;
      if decide (m_conn_map u = ∅) then RemoveImUser w p else Ret w
  end.

(** What the handlers find around them: the garbage of new buffer memory, which
    connections to the cache server can be opened, whether it answers, and the
    clock. *)
Record env := mkEnv {
  junk : nat -> nat -> Z;
  opens : nat -> bool;
  redis_up : bool;
  now : Z;
}.

Definition lit (s : string) : str := bytes_of s.

Section Handlers.
Context `{Protobuf} `{Crypto}.
Variable e : env.

(** A response: a packet, and whether it is to be handled next rather than
    sent. *)
Definition response : Type := option (pdu * bool).

Definition SendMsg (msg : str) (cid seq : Z) : response := Some (mkPdu cid seq 0 0 msg, false).

Definition Next (msg : str) (cid seq : Z) : response := Some (mkPdu cid seq 0 0 msg, true).

(** A handler ends with a response, or blocks for ever ([None]). *)
Definition handled : Type := option (world * response).

Definition AuthCaptchaReq (w : world) (h : Z) (req : pdu) : outcome handled :=
  match FindMsgSrvConnByHandle w h with
  | None => Ret (Some (w, None))
  | Some c =>
      if parse_AuthCaptchaReq (body req) then
        let s := random_session (drawn w) in
        let c := mkConn (m_user_id c) (m_bOpen c) (s_captcha s) (m_address_hex c) (s_prv_key s)
          (m_share_key c) (hex_string (s_iv s)) (hex_string (s_aad s)) (m_client_type c) (m_client_version c)
          (m_login_time c) (m_online_status c) in
        Ret (Some (set_conn (draw w) h c,
          SendMsg (ser_AuthCaptchaRes (mkAuthCaptchaRes NO_ERROR (s_captcha s) (s_sign s)
            (s_address s) (s_iv s) (s_aad s))) CID_AuthCaptchaRes (seq_num req)))
      else
        Ret (Some (w, SendMsg (ser_AuthCaptchaRes
          (mkAuthCaptchaRes E_PB_PARSE_ERROR [] [] [] [] [])) CID_AuthCaptchaRes (seq_num req)))
  end.

Definition login_error (w : world) (error : Z) (req : pdu) : outcome handled :=
  Ret (Some (w, SendMsg (ser_AuthLoginRes (mkAuthLoginRes error None))
    CID_AuthLoginRes (seq_num req))).

Definition AuthLoginReq (w : world) (h : Z) (req : pdu) : outcome handled :=
  match FindMsgSrvConnByHandle w h with
  | None => Ret (Some (w, None))
  | Some c =>
      if negb (zlen (m_address_hex c) =? 0) then login_error w E_LOGIN_ERROR req
      else if zlen (m_captcha c) =? 0 then login_error w E_LOGIN_ERROR req
      else
        match parse_AuthLoginReq (body req) with
        | None => login_error w E_PB_PARSE_ERROR req
        | Some msg =>
            if negb (bool_decide (al_captcha msg = m_captcha c)) then
              login_error w E_LOGIN_ERROR req
            else
              let c := mkConn (m_user_id c) (m_bOpen c) [] (al_address msg) (m_prv_key c)
                (m_share_key c) (m_iv c) (m_aad c) (al_client_type msg) (al_client_version msg)
                (u32 (now e)) USER_STAT_ONLINE in
              let w := set_conn w h c in
              let '(w, p) :=
                match GetImUserByAddress w (m_address_hex c) with
                | Some p => (w, p)
                | None =>
                    let '(w, p) := alloc_user w (m_address_hex c) in
                    (AddImUserByAddress w (m_address_hex c) p, p)
                end in
              w ← AddMsgConn w p h;
              attach ← AttachData.serialised
                (AttachData.CDbAttachData_encode (junk e) ATTACH_TYPE_HANDLE h 0);
              Ret (Some (w, Next (ser_ServerLoginReq (mkServerLoginReq (al_address msg)
                (al_captcha msg) (al_sign msg) attach)) CID_ServerLoginReq (seq_num req)))
        end
  end.

(** ** Commands to the cache server

    Each fails in its own way when the server does not answer. *)

Definition cache_get (ca : cache) (key : str) : str :=
  if redis_up e then default [] (kv ca !! c_str key) else [].

Definition incrBy (ca : cache) (value : Z) : cache * Z :=
  if redis_up e then (mkCache (kv ca) (user_id_incr ca + value), user_id_incr ca + value)
  else (ca, -1).

Definition incr (ca : cache) : cache * Z := incrBy ca 1.

(** [exec] of MSET and of MGET: the arguments go as C strings; a key that is
    absent is answered with an empty string. *)
Definition exec_MSET (ca : cache) (kvs : list (str * str)) : cache :=
  if redis_up e then
    mkCache (foldl (fun m '(k, v) => <[c_str k := c_str v]> m) (kv ca) kvs) (user_id_incr ca)
  else ca.

Definition exec_MGET (ca : cache) (keys : list str) : list str :=
  if redis_up e then map (fun k => default [] (kv ca !! c_str k)) keys else [].

Definition CACHE_USER_ADR_ID_PREFIX := lit "user_adr_id_prefix:".
Definition CACHE_USER_ID_PUB_KEY_PREFIX := lit "user_id_pub_key_prefix:".
Definition CACHE_USER_ID_ADR_PREFIX := lit "user_id_adr_prefix:".
Definition CACHE_USER_ID_AVATAR_PREFIX := lit "user_id_avatar_prefix:".
Definition CACHE_USER_ID_NICKNAME_PREFIX := lit "user_id_nickname_prefix:".
Definition CACHE_USER_ID_USERNAME_PREFIX := lit "user_id_username_prefix:".
Definition CACHE_USER_ID_SIGN_INFO_PREFIX := lit "user_id_sign_info_prefix:".
Definition CACHE_USER_ID_FIRST_NAME_PREFIX := lit "user_id_first_name_prefix:".
Definition CACHE_USER_ID_LAST_NAME_PREFIX := lit "user_id_last_name_prefix:".
Definition CACHE_USER_ID_STATUS_PREFIX := lit "user_id_status_prefix:".
Definition CACHE_USER_ID_LOGIN_TIME_PREFIX := lit "user_id_login_time_prefix:".

(** The account number of an address: looked up, or created with the next
    number; the first account gets number 100000. *)
Definition account (ca : cache) (address_hex pub_key_33 : str) : cache * Z :=
  let user_id_str := cache_get ca (CACHE_USER_ADR_ID_PREFIX ++ address_hex) in
  if zlen user_id_str =? 0 then
    let '(ca, user_id_long) := incr ca in
    let '(ca, user_id_long) :=
      if user_id_long =? 1 then incrBy ca 99999 else (ca, user_id_long) in
    let user_id_str1 := Helpers.int2string user_id_long in
    let ca := exec_MSET ca
      [(CACHE_USER_ADR_ID_PREFIX ++ address_hex, user_id_str1);
       (CACHE_USER_ID_PUB_KEY_PREFIX ++ user_id_str1, hex_string pub_key_33);
       (CACHE_USER_ID_ADR_PREFIX ++ user_id_str1, address_hex);
       (CACHE_USER_ID_LOGIN_TIME_PREFIX ++ user_id_str1, Helpers.int2string (now e))] in
    (ca, Helpers.string2int user_id_str1)
  else (ca, Helpers.string2int user_id_str).

(** The user's data: eight values in the order asked for.  When the server
    does not answer the list of values is empty and its end is dereferenced. *)
Definition fill_user (ca : cache) (user_id : Z) (address_hex pub_key_33 : str)
  : outcome UserInfo :=
  let id := Helpers.int2string user_id in
  match exec_MGET ca
    [CACHE_USER_ID_AVATAR_PREFIX ++ id; CACHE_USER_ID_NICKNAME_PREFIX ++ id;
     CACHE_USER_ID_USERNAME_PREFIX ++ id; CACHE_USER_ID_SIGN_INFO_PREFIX ++ id;
     CACHE_USER_ID_FIRST_NAME_PREFIX ++ id; CACHE_USER_ID_LAST_NAME_PREFIX ++ id;
     CACHE_USER_ID_LOGIN_TIME_PREFIX ++ id; CACHE_USER_ID_STATUS_PREFIX ++ id]
  with
  | [avatar; nick; username; sign_info; first; last; login_time; status] =>
      Ret (mkUser (Some user_id) (Some address_hex) (Some pub_key_33) (Some (c_str avatar))
        (Some (if zlen status =? 0 then 0 else Helpers.string2int (c_str status)))
        (c_str username) (c_str nick) (c_str sign_info) (c_str first) (c_str last)
        (Helpers.string2int (c_str login_time)))
  | _ => UB
  end.

(** [CInterLoginStrategy::ServerLogin]: fills in the user, or gives an error;
    [None] when the thread waits for a connection that nobody returns.  The
    signature is read as 65 bytes whatever its length. *)
Definition ServerLogin (w : world) (msg : ServerLoginReq_t)
  : outcome (option (world * UserInfo * Z)) :=
  let '(pool, g) := ConnPool.GetConn (opens e) (auth_pool w) in
  let w := set_cache w (auth_cache w) pool in
  match g with
  | ConnPool.Waits => Ret None
  | ConnPool.Null => Ret (Some (w, empty_user, E_SYSTEM))
  | ConnPool.Conn pCacheConn =>
      sig ← mem_read (sq_sign msg ++ [0]) 0 65;
      let msg_data := format_sign_msg_data (sq_captcha msg) in
      match recover_pub_key_and_address_from_sig sig msg_data with
      | None => Ret (Some (w, empty_user, E_LOGIN_ERROR))
      | Some (pub_key_33, address_hex) =>
          if negb (bool_decide (address_hex = sq_address msg)) then
            Ret (Some (w, empty_user, E_LOGIN_ERROR))
          else
            let '(ca, user_id) := account (auth_cache w) address_hex pub_key_33 in
            user ← fill_user ca user_id address_hex pub_key_33;
            Ret (Some (set_cache w ca (ConnPool.RelConn (auth_pool w) pCacheConn), user, NO_ERROR))
      end
  end.

Definition ServerLoginReq (w : world) (h : Z) (req : pdu) : outcome handled :=
  match parse_ServerLoginReq (body req) with
  | None =>
      Ret (Some (w, Next (ser_ServerLoginRes (mkServerLoginRes E_PB_PARSE_ERROR None []))
        CID_ServerLoginRes (seq_num req)))
  | Some msg =>
      r ← ServerLogin w msg;
      match r with
      | None => Ret None
      | Some (w, user, error) =>
          Ret (Some (w, Next (ser_ServerLoginRes
            (mkServerLoginRes error (Some user) (sq_attach_data msg)))
            CID_ServerLoginRes (seq_num req)))
      end
  end.

(** The error of the message is read before the message is parsed, so it is
    always [NO_ERROR]. *)
Definition ServerLoginRes (w : world) (h : Z) (req : pdu) : outcome handled :=
  match parse_ServerLoginRes (body req) with
  | None => login_error w E_PB_PARSE_ERROR req
  | Some msg =>
      _ ← AttachData.CDbAttachData_decode (sr_attach_data msg) (zlen (sr_attach_data msg));
      let user := default empty_user (sr_user_info msg) in
      let user_id := default 0 (u_uid user) in
      let address := default [] (u_address user) in
      match GetImUserByAddress w address with
      | None => login_error w E_LOGIN_ERROR req
      | Some p =>
          let pub_key := default [] (u_pub_key user) in
          let info := Some (mkUser (Some user_id) (Some address) (Some pub_key)
            (Some (default [] (u_avatar user))) (Some (default 0 (u_status user)))
            (u_user_name user) (u_nick_name user) (u_sign_info user) [] [] 0) in
          let fail w := Ret (Some (w, SendMsg (ser_AuthLoginRes (mkAuthLoginRes E_LOGIN_ERROR info))
            CID_AuthLoginRes (seq_num req))) in
          match FindMsgSrvConnByHandle w h with
          | None => UB
          | Some c =>
              if zlen (m_prv_key c) =? 0 then fail w
              else
                pub_key_33 ← mem_read (pub_key ++ [0]) 0 33;
                if negb (ec_pubkey_parse pub_key_33) then fail w
                else
                  match ecdh_create_share_key pub_key_33 (m_prv_key c) with
                  | None => fail w
                  | Some shared_secret =>
                      let c := mkConn user_id true (m_captcha c) (m_address_hex c) (m_prv_key c)
                        (hex_string shared_secret) (m_iv c) (m_aad c) (m_client_type c) (m_client_version c)
                        (m_login_time c) (m_online_status c) in
                      u ← deref_user w p;
                      let w := set_users w (<[p := mkImUser user_id (iu_address_hex u) h
                        (m_conn_map u)]> (users w)) in
                      let w := AddImUserById w user_id p in
                      let w := set_conn w h c in
                      Ret (Some (w, SendMsg (ser_AuthLoginRes (mkAuthLoginRes NO_ERROR info))
                        CID_AuthLoginRes (seq_num req)))
                  end
          end
      end
  end.

Definition HeartBeatNotify (w : world) (h : Z) (req : pdu) : outcome handled := Ret (Some (w, None)).

(** ** Dispatch *)

Definition GetHandler (cid : Z) : option (world -> Z -> pdu -> outcome handled) :=
  if cid =? CID_AuthCaptchaReq then Some AuthCaptchaReq
  else if cid =? CID_AuthLoginReq then Some AuthLoginReq
  else if cid =? CID_ServerLoginReq then Some ServerLoginReq
  else if cid =? CID_ServerLoginRes then Some ServerLoginRes
  else if cid =? CID_HeartBeatNotify then Some HeartBeatNotify
  else None.

(** The [try] block of [CImConn::OnRead] around the handling of a packet: a
    [CPduException] that leaves a handler goes up to it, and it closes the
    connection.  A handler that throws does so before it changes anything, so
    the connection is closed in the state in which that handler was called,
    which has the changes of the handlers before it. *)
Definition caught (w : world) (h : Z) (r : outcome handled) : outcome handled :=
  match r with
  | Throw (CPduException _ _ _ _) =>
      match g_msg_conn_map w !! h with
      | None => Ret (Some (w, None))
      | Some c => w ← Close w h c; Ret (Some (w, None))
      end
  | r => r
  end.

(** [None] when a handler blocks. *)
Fixpoint HandleNextResponse (fuel : nat) (w : world) (h : Z) (p : pdu) : outcome (option world) :=
  match fuel with
  | O => NoFuel
  | S fuel =>
      match GetHandler (command_id p) with
      | None => Ret (Some (send w (ToClient h p)))
      | Some handler =>
          if business_async w && (command_id p =? CID_AuthLoginReq) && negb (business_open w) then
            Ret (Some (send w (ToClient h (mkPdu CID_AuthLoginRes (seq_num p) 0 0
              (ser_AuthLoginRes (mkAuthLoginRes E_REASON_NO_DB_SERVER None))))))
          else
            r ← caught w h (handler w h p);
            match r with
            | None => Ret None
            | Some (w, None) => Ret (Some w)
            | Some (w, Some (q, false)) => Ret (Some (send w (ToClient h q)))
            | Some (w, Some (q, true)) =>
                if negb (business_async w) then HandleNextResponse fuel w h q
                else if business_open w then
                  Ret (Some (send w (ToBusiness (mkPdu (command_id q) (seq_num q) (flag q) h (body q)))))
                else
                  Ret (Some (send w (ToClient h
                    (mkPdu (command_id q) (seq_num q) E_REASON_NO_DB_SERVER 0 []))))
            end
      end
  end.

(** A packet that [OnRead] has cut out of the stream: it goes through at most
    three handlers. *)
Definition HandlePdu (w : world) (h : Z) (p : pdu) : outcome (option world) :=
  HandleNextResponse 4 w h p.

Inductive event :=
| EvConnect (h : Z)
| EvPdu (h : Z) (p : pdu)
| EvClose (h : Z).

Definition event_step (w : world) (ev : event) : outcome (option world) :=
  match ev with
  | EvConnect h => Ret (Some (OnConnect w h))
  | EvPdu h p =>
      match g_msg_conn_map w !! h with
      | None => Ret (Some w)
      | Some _ => HandlePdu w h p
      end
  | EvClose h =>
      match g_msg_conn_map w !! h with
      | None => Ret (Some w)
      | Some c => w ← Close w h c; Ret (Some w)
      end
  end.

End Handlers.

(** Events one after the other, each in the surroundings of its time. *)
Fixpoint run `{Protobuf} `{Crypto} (w : world) (es : list (env * event)) : outcome (option world) :=
  match es with
  | [] => Ret (Some w)
  | (e, ev) :: es =>
      r ← event_step e w ev;
      match r with
      | None => Ret None
      | Some w => run w es
      end
  end.

(** ** Who can log in *)

(** On connection [h] a login was sent for the address with a signature that
    was made with its key over one of the first [n] captchas issued. *)
Definition presented `{Protobuf} `{Crypto} (hist : list event) (n : nat) (h : Z) (address : str)
  : Prop :=
  exists k p msg pub,
    (k < n)%nat /\ EvPdu h p ∈ hist /\ parse_AuthLoginReq (body p) = Some msg /\
    al_address msg = address /\ al_captcha msg = s_captcha (random_session k) /\
    recover_pub_key_and_address_from_sig (ztake 65 (al_sign msg ++ [0]))
      (format_sign_msg_data (al_captcha msg)) = Some (pub, address).

Definition conn_ok `{Protobuf} `{Crypto} (hist : list event) (n : nat) (h : Z) (c : conn) : Prop :=
  (m_bOpen c = true -> presented hist n h (m_address_hex c)) /\
  (m_captcha c <> [] -> exists k, (k < n)%nat /\ m_captcha c = s_captcha (random_session k)).

Definition conns_ok `{Protobuf} `{Crypto} (hist : list event) (w : world) : Prop :=
  forall h c, g_msg_conn_map w !! h = Some c -> conn_ok hist (drawn w) h c.

(** Packets that clients are meant to send. *)
Definition client_pdu (p : pdu) : Prop :=
  command_id p <> CID_ServerLoginReq /\ command_id p <> CID_ServerLoginRes.

Definition client_event (ev : event) : Prop :=
  match ev with EvPdu _ p => client_pdu p | _ => True end.

(** What the handlers of a login leave alone. *)
Definition same_frame (w w' : world) : Prop :=
  business_async w' = business_async w /\ drawn w' = drawn w.

(** What holds of a world and survives the closing of the connection holds
    after a packet, if the return of its handler sees to it. *)
Lemma caught_bind (P : world -> Prop) w h (r : outcome handled) f w' :
  (forall w1, f (Some (w1, None)) = Ret (Some w1)) -> P w ->
  (forall c w1, g_msg_conn_map w !! h = Some c -> Close w h c = Ret w1 -> P w1) ->
  (x ← caught w h r; f x) = Ret (Some w') ->
  P w' \/ exists x, r = Ret x /\ f x = Ret (Some w').
Proof.
  intros Hf HP Hcl. destruct r as [a|[]| |]; cbn [caught]; mstep; try done; [by right; eauto|].
  destruct (g_msg_conn_map w !! h) as [c|]; mstep.
  - destruct (Close w h c) as [w1| | |] eqn:Hw1; mstep; try done. rewrite Hf. intros [= <-]. left. eauto.
  - rewrite Hf. intros [= <-]. by left.
Qed.

Section Auth.
Context `{Protobuf} `{Crypto}.
Variable hist : list event.
Variable e : env.

Lemma conns_ok_set w h c :
  conns_ok hist w -> conn_ok hist (drawn w) h c -> conns_ok hist (set_conn w h c).
Proof.
  intros Hw Hc h' c'. simpl. destruct (decide (h' = h)) as [->|Hne].
  - rewrite lookup_insert_eq. by intros [= <-].
  - rewrite lookup_insert_ne by done. apply Hw.
Qed.

Lemma conns_ok_conns w w' :
  g_msg_conn_map w' = g_msg_conn_map w -> drawn w' = drawn w -> conns_ok hist w -> conns_ok hist w'.
Proof. intros He Hd Hw h c. rewrite He, Hd. apply Hw. Qed.

Lemma Close_conns w h c w' :
  Close w h c = Ret w' ->
  g_msg_conn_map w' = delete h (g_msg_conn_map w) /\ drawn w' = drawn w.
Proof.
  unfold Close, DelMsgConn, RemoveImUser, deref_user.
  destruct (GetImUserByAddress _ _) as [p|]; [|by intros [= <-]].
  destruct (users _ !! p) as [u|]; [|done]. mstep. cbn.
  rewrite lookup_insert_eq. mstep. case_decide; [|by intros [= <-]].
  by intros [= <-].
Qed.

Lemma Close_ok w h c w' : conns_ok hist w -> Close w h c = Ret w' -> conns_ok hist w'.
Proof.
  intros Hok [Hcs Hdr]%Close_conns h' c'. rewrite Hcs, Hdr.
  intros [_ Hl]%lookup_delete_Some. by apply (Hok h').
Qed.

Lemma handled_conns w h r f w' :
  (x ← caught w h r; f x) = Ret (Some w') ->
  (forall w1, f (Some (w1, None)) = Ret (Some w1)) -> conns_ok hist w ->
  conns_ok hist w' \/ exists x, r = Ret x /\ f x = Ret (Some w').
Proof. intros Hr Hf Hok. eapply caught_bind; [done|done| |done]. eauto using Close_ok. Qed.

Lemma presented_nonempty n h address : presented hist n h address -> address <> [].
Proof. intros (k&p&msg&pub&_&_&_&_&_&Hr). by eapply recovered_address_text. Qed.

Lemma fill_user_spec ca id adr pub user :
  fill_user e ca id adr pub = Ret user ->
  u_uid user = Some id /\ u_address user = Some adr /\ u_pub_key user = Some pub /\
  IsInitialized user = true.
Proof.
  unfold fill_user, exec_MGET. destruct (redis_up e); [|done]. cbn [map]. by intros [= <-].
Qed.

(** The account is created or found; connections are not touched. *)
Lemma ServerLogin_spec w msg r :
  ServerLogin e w msg = Ret (Some r) ->
  let '(w', user, error) := r in
  g_msg_conn_map w' = g_msg_conn_map w /\ same_frame w w' /\
  (user = empty_user /\ error <> NO_ERROR \/
   exists pub, recover_pub_key_and_address_from_sig (ztake 65 (sq_sign msg ++ [0]))
       (format_sign_msg_data (sq_captcha msg)) = Some (pub, sq_address msg) /\
     u_address user = Some (sq_address msg) /\ error = NO_ERROR).
Proof.
  unfold ServerLogin. destruct (ConnPool.GetConn (opens e) (auth_pool w)) as [pool g].
  destruct g as [c| |]; [| |done].
  - unfold mem_read. case_decide; [|done]. mstep. rewrite zdrop_0.
    destruct (recover_pub_key_and_address_from_sig _ _) as [[pub adr]|] eqn:Hr; cycle 1.
    { intros [= <-]. split_and!; try done. by left. }
    case_bool_decide as Hadr; cbn [negb]; cycle 1.
    { intros [= <-]. split_and!; try done. by left. }
    subst adr. destruct (account _ _ _ _) as [ca id].
    destruct (fill_user _ _ _ _ _) as [user| | |] eqn:Hfill; try done. mstep. intros [= <-].
    apply fill_user_spec in Hfill as (_&Ha&_). split_and!; try done. right. eauto.
  - intros [= <-]. split_and!; try done. by left.
Qed.

Lemma AddImUserById_frame w id p :
  g_msg_conn_map (AddImUserById w id p) = g_msg_conn_map w /\ same_frame w (AddImUserById w id p).
Proof. unfold AddImUserById. by destruct (GetImUserById w id). Qed.

(** The last step changes at most the connection it is for, and keeps its
    address. *)
Lemma ServerLoginRes_spec w h req r :
  ServerLoginRes w h req = Ret (Some r) ->
  let '(w', resp) := r in
  (exists q, resp = Some (q, false)) /\ same_frame w w' /\
  (g_msg_conn_map w' = g_msg_conn_map w \/
   exists c c', g_msg_conn_map w !! h = Some c /\
     g_msg_conn_map w' = <[h := c']> (g_msg_conn_map w) /\
     m_address_hex c' = m_address_hex c /\ m_captcha c' = m_captcha c).
Proof.
  unfold ServerLoginRes, login_error, SendMsg.
  assert (forall q : pdu, (exists q', Some (q, false) = Some (q', false)) /\ same_frame w w /\
    (g_msg_conn_map w = g_msg_conn_map w \/
     exists c c', g_msg_conn_map w !! h = Some c /\
     g_msg_conn_map w = <[h := c']> (g_msg_conn_map w) /\
     m_address_hex c' = m_address_hex c /\ m_captcha c' = m_captcha c)) as Hnone.
  { intros q. split; [eauto|]. split; [done|]. by left. }
  destruct (parse_ServerLoginRes (body req)) as [msg|]; [|intros [= <-]; apply Hnone].
  destruct (AttachData.CDbAttachData_decode _ _); [|done..]. mstep.
  destruct (GetImUserByAddress w _) as [p|]; [|intros [= <-]; apply Hnone].
  destruct (FindMsgSrvConnByHandle w h) as [c|] eqn:Hc; [|done].
  destruct (_ =? 0); [intros [= <-]; apply Hnone|].
  destruct (mem_read _ 0 33); [|done..]. mstep.
  destruct (negb _); [intros [= <-]; apply Hnone|].
  destruct (ecdh_create_share_key _ _) as [k|]; [|intros [= <-]; apply Hnone].
  unfold deref_user. destruct (users w !! p); [|done]. mstep. intros [= <-].
  set (w1 := set_users w _). set (id := default 0 _).
  destruct (AddImUserById_frame w1 id p) as [Hcs Hf].
  split; [eauto|]. split; [done|]. right. eexists c, _. split; [done|].
  cbn [g_msg_conn_map set_conn set_conns]. by rewrite Hcs.
Qed.

(** The first step binds the connection to the claimed address, not open, and
    hands over to the verification with the captcha that was issued. *)
Lemma AuthLoginReq_spec w h req r :
  conns_ok hist w -> AuthLoginReq e w h req = Ret (Some r) ->
  let '(w', resp) := r in
  (w' = w /\ (resp = None \/ exists q, resp = Some (q, false))) \/
  exists msg c k attach,
    parse_AuthLoginReq (body req) = Some msg /\
    resp = Next (ser_ServerLoginReq (mkServerLoginReq (al_address msg) (al_captcha msg)
      (al_sign msg) attach)) CID_ServerLoginReq (seq_num req) /\
    g_msg_conn_map w' = <[h := c]> (g_msg_conn_map w) /\ same_frame w w' /\
    m_bOpen c = false /\ m_captcha c = [] /\ m_address_hex c = al_address msg /\
    (k < drawn w)%nat /\ al_captcha msg = s_captcha (random_session k).
Proof.
  intros Hok. unfold AuthLoginReq, login_error, SendMsg, FindMsgSrvConnByHandle.
  destruct (g_msg_conn_map w !! h) as [c|] eqn:Hc; [|intros [= <-]; auto].
  destruct (Z.eqb_spec (zlen (m_address_hex c)) 0) as [Ha|Ha]; cbn [negb]; [|intros [= <-]; eauto].
  destruct (Z.eqb_spec (zlen (m_captcha c)) 0) as [Hcap|Hcap]; [intros [= <-]; eauto|].
  destruct (parse_AuthLoginReq (body req)) as [msg|]; [|intros [= <-]; eauto].
  case_bool_decide as Hm; cbn [negb]; [|intros [= <-]; eauto].
  destruct (Hok h c Hc) as [Hopen Hissued].
  destruct Hissued as [k [Hlt Hk]]; [intros E; by rewrite E in Hcap|].
  assert (m_bOpen c = false) as Hclosed.
  { destruct (m_bOpen c); [|done]. exfalso. apply (presented_nonempty _ _ _ (Hopen eq_refl)).
    by apply zlen_0_nil. }
  destruct (AttachData.encode_head (junk e) ATTACH_TYPE_HANDLE h 0) as (sb&pos&Henc&_&_).
  cbn [m_address_hex]. unfold GetImUserByAddress. cbn [m_im_user_address_map set_conn set_conns].
  destruct (m_im_user_address_map w !! al_address msg) as [p|] eqn:Hu.
  - unfold AddMsgConn, deref_user. cbn [users set_conn set_conns].
    destruct (users w !! p); [|done]. mstep. rewrite Henc. unfold AttachData.serialised. mstep.
    cbn. intros [= <-]. right.
    eexists msg, _, k, _. split; [done|]. split; [done|]. cbn. split_and!; try done. congruence.
  - unfold AddMsgConn, deref_user, alloc_user, AddImUserByAddress, GetImUserByAddress.
    cbn [m_im_user_address_map set_conn set_conns]. rewrite Hu. cbn [users set_maps next_user].
    rewrite lookup_insert_eq. mstep. rewrite Henc. unfold AttachData.serialised. mstep.
    cbn. intros [= <-]. right.
    eexists msg, _, k, _. split; [done|]. split; [done|]. cbn. split_and!; try done. congruence.
Qed.

(** Verification and the last step, run on what the first step hands over. *)
Lemma login_chain fuel w h c k p msg attach seq w' :
  conns_ok hist w -> g_msg_conn_map w !! h = Some c -> m_captcha c = [] ->
  m_address_hex c = al_address msg -> EvPdu h p ∈ hist -> parse_AuthLoginReq (body p) = Some msg ->
  (k < drawn w)%nat -> al_captcha msg = s_captcha (random_session k) ->
  HandleNextResponse e (S (S fuel)) w h
    (mkPdu CID_ServerLoginReq seq 0 0 (ser_ServerLoginReq
      (mkServerLoginReq (al_address msg) (al_captcha msg) (al_sign msg) attach))) = Ret (Some w') ->
  conns_ok hist w'.
Proof.
  intros Hok Hc Hcap Hadr Hin Hparse Hlt Hk. cbn [HandleNextResponse command_id GetHandler].
  change (GetHandler e CID_ServerLoginReq) with (Some (ServerLoginReq e)).
  change (CID_ServerLoginReq =? CID_AuthLoginReq) with false. rewrite andb_false_r. cbn [andb].
  intros [?|(x&Hx&Hrun)]%handled_conns; [done| |done..]. revert Hx Hrun.
  unfold ServerLoginReq. cbn [body]. rewrite ServerLoginReq_law.
  destruct (ServerLogin e w _) as [[r|]| | |] eqn:Hlogin; mstep; try done; [|by intros [= <-]].
  apply ServerLogin_spec in Hlogin. destruct r as [[w1 user] error].
  destruct Hlogin as (Hconns&[Hasync Hdr]&Hres). intros [= <-]. unfold Next.
  assert (conns_ok hist w1) as Hok1 by (by eapply conns_ok_conns).
  destruct (negb (business_async w1)) eqn:Hsync; cycle 1.
  { case_match; intros [= <-]; done. }
  cbn [command_id seq_num sq_attach_data].
  change (GetHandler e CID_ServerLoginRes) with (Some ServerLoginRes).
  change (CID_ServerLoginRes =? CID_AuthLoginReq) with false. rewrite andb_false_r. cbn [andb].
  intros [?|(x&Hfinal&Hrun)]%handled_conns; [done| |done..]. destruct x as [r|]; [|done].
  revert Hrun. destruct Hres as [[-> Herr]|(pub&Hrec&Huser&->)].
  - unfold ServerLoginRes in Hfinal. cbn [body] in Hfinal. rewrite ServerLoginRes_law in Hfinal.
    cbn in Hfinal. injection Hfinal as <-. by intros [= <-].
  - apply ServerLoginRes_spec in Hfinal. destruct r as [w2 resp].
    destruct Hfinal as ([q ->]&[_ Hdr2]&[He|(c0&c'&Hc0&He&Ha&Hcp)]); intros [= <-].
    + by eapply conns_ok_conns.
    + eapply (conns_ok_conns (set_conn w1 h c')); [done|done|].
      apply conns_ok_set; [done|].
      rewrite Hconns, Hc in Hc0. injection Hc0 as <-. split.
      * intros _. rewrite Ha, Hadr, Hdr. exists k, p, msg, pub. done.
      * by rewrite Hcp, Hcap.
Qed.

Lemma AuthCaptchaReq_ok w h p w' resp :
  conns_ok hist w -> AuthCaptchaReq w h p = Ret (Some (w', resp)) ->
  conns_ok hist w' /\ (resp = None \/ exists q, resp = Some (q, false)).
Proof.
  intros Hok. unfold AuthCaptchaReq, FindMsgSrvConnByHandle, SendMsg.
  destruct (g_msg_conn_map w !! h) as [c|] eqn:Hc; [|intros [= <- <-]; auto].
  destruct (parse_AuthCaptchaReq (body p)); intros [= <- <-]; [|eauto].
  split; [|eauto]. assert (conns_ok hist (draw w)) as Hd.
  { intros h' c' Hl. destruct (Hok h' c' Hl) as [Ho Hcap]. split.
    - intros Hopen. destruct (Ho Hopen) as (k&p'&msg&pub&Hlt&Hrest). exists k, p', msg, pub.
      split; [simpl; lia|done].
    - intros Hne. destruct (Hcap Hne) as (k&Hlt&Hk). exists k. split; [simpl; lia|done]. }
  apply conns_ok_set; [done|]. destruct (Hd h c Hc) as [Ho _]. split; cbn; [done|].
  intros _. exists (drawn w). split; [lia|done].
Qed.

Lemma HandlePdu_ok w h p w' :
  conns_ok hist w -> client_pdu p -> EvPdu h p ∈ hist ->
  HandlePdu e w h p = Ret (Some w') -> conns_ok hist w'.
Proof.
  intros Hok [Hq Hs] Hin. unfold HandlePdu. cbn [HandleNextResponse]. unfold GetHandler.
  destruct (Z.eqb_spec (command_id p) CID_AuthCaptchaReq) as [Hcid|Hcid].
  { rewrite Hcid. change (CID_AuthCaptchaReq =? CID_AuthLoginReq) with false.
    rewrite andb_false_r. cbn [andb].
    intros [?|(x&Hreq&Hrun)]%handled_conns; [done| |done..]. destruct x as [[w1 resp]|]; [|done].
    revert Hrun. apply AuthCaptchaReq_ok in Hreq as [Hok1 [->|[q ->]]]; [|by intros [= <-]..|done].
    by intros [= <-]. }
  destruct (Z.eqb_spec (command_id p) CID_AuthLoginReq) as [Hl|Hl].
  { case_match; [by intros [= <-]|].
    intros [?|(x&Hreq&Hrun)]%handled_conns; [done| |done..]. destruct x as [r|]; [|done].
    revert Hrun. apply AuthLoginReq_spec in Hreq; [|done]. destruct r as [w1 resp].
    destruct Hreq as
      [[-> [->|[q ->]]]|(msg&c&k&attach&Hp&->&Hconns&[Hasync Hdr]&Hopen&Hcap&Hadr&Hlt&Hk)];
      [by intros [= <-]|by intros [= <-]|].
    assert (conns_ok hist w1) as Hok1.
    { eapply (conns_ok_conns (set_conn w h c)); [by rewrite Hconns|done|].
      apply conns_ok_set; [done|]. split; [by rewrite Hopen|by rewrite Hcap]. }
    unfold Next. case_match; [|case_match; intros [= <-]; done].
    apply (login_chain 1 w1 h c k p); try done; [|by rewrite Hdr].
    rewrite Hconns. apply lookup_insert_eq. }
  destruct (Z.eqb_spec (command_id p) CID_ServerLoginReq); [done|].
  destruct (Z.eqb_spec (command_id p) CID_ServerLoginRes); [done|].
  rewrite andb_false_r. cbn [andb].
  destruct (Z.eqb_spec (command_id p) CID_HeartBeatNotify); [|by intros [= <-]].
  unfold HeartBeatNotify. mstep. by intros [= <-].
Qed.

Lemma event_step_ok w ev w' :
  conns_ok hist w -> client_event ev -> ev ∈ hist ->
  event_step e w ev = Ret (Some w') -> conns_ok hist w'.
Proof.
  intros Hok Hev Hin. destruct ev as [h|h p|h]; cbn [event_step].
  - intros [= <-]. unfold OnConnect. case_match; [done|]. apply conns_ok_set; [done|]. by split.
  - destruct (g_msg_conn_map w !! h); [|by intros [= <-]]. by apply HandlePdu_ok.
  - destruct (g_msg_conn_map w !! h) as [c|] eqn:Hc; [|by intros [= <-]].
    destruct (Close w h c) as [w2| | |] eqn:Hcl; try done. intros [= <-]. by eapply Close_ok.
Qed.

End Auth.

Section Runs.
Context `{Protobuf} `{Crypto}.

Lemma run_ok hist es : forall w w',
  conns_ok hist w -> Forall client_event (map snd es) -> map snd es ⊆ hist ->
  run w es = Ret (Some w') -> conns_ok hist w'.
Proof.
  induction es as [|[e ev] es IH]; intros w w' Hok Hes Hin; cbn [run]; [by intros [= <-]|].
  cbn [map snd] in Hes, Hin. apply Forall_cons_1 in Hes as [Hev Hes].
  destruct (event_step e w ev) as [[w1|]| | |] eqn:Hstep; try done. mstep.
  apply IH; [|done|intros x Hx; apply Hin; by right].
  eapply event_step_ok; [done|done|apply Hin; by left|done].
Qed.

(** C1. Logging in takes the key of the address: whatever clients connect,
    send and close, in whatever order, as long as none of them sends a packet
    of the server-to-server kind, a connection is open only if a login was sent
    on it, for the address it carries, with a signature that recovers to that
    address over a captcha that this server issued. *)
Theorem login_requires_signature es w w' h c :
  g_msg_conn_map w = ∅ -> Forall client_event (map snd es) -> run w es = Ret (Some w') ->
  g_msg_conn_map w' !! h = Some c -> m_bOpen c = true ->
  presented (map snd es) (drawn w') h (m_address_hex c).
Proof.
  intros Hw Hes Hr Hc Ho. refine (proj1 (run_ok (map snd es) es w w' _ Hes _ Hr h c Hc) Ho); [|done].
  intros h' c'. by rewrite Hw.
Qed.

End Runs.

(** ** A login with the right key *)

Section Login.
Context `{Protobuf} `{Crypto}.
Variable e : env.
Hypothesis up : redis_up e = true.

Lemma c_str_prefix a s :
  Forall (fun c => c <> 0) a -> c_str (a ++ s) = a ++ c_str s.
Proof.
  induction 1 as [|c a Hc _ IH]; [done|]. cbn [c_str app]. rewrite IH.
  by rewrite (proj2 (Z.eqb_neq c 0) Hc).
Qed.

Lemma c_str_int2string n : is_u 32 n -> c_str (Helpers.int2string n) = Helpers.int2string n.
Proof.
  intros Hn. apply c_str_text. destruct (Helpers.int2string_spec n Hn) as (_&Hd&_).
  eapply Forall_impl; [|exact Hd]. intros x Hx. unfold Helpers.is_digit in Hx. lia.
Qed.

(** Once an address has an account, every later login of it gets that
    account, and the cache does not change. *)
Lemma account_after_MSET ca adr n rest pub :
  Forall (fun c => c <> 0) adr ->
  Forall (fun kv => exists a s, kv.1 = lit "user_id_" ++ a /\ kv.2 = s) rest ->
  let ca' := exec_MSET e ca
    ((CACHE_USER_ADR_ID_PREFIX ++ adr, Helpers.int2string n) :: rest) in
  account e ca' adr pub = (ca', Helpers.string2int (Helpers.int2string n)).
Proof.
  intros Hadr Hrest ca'. unfold account, cache_get. rewrite up.
  assert (Helpers.int2string n = Helpers.int2string (u32 n)) as Hn.
  { unfold Helpers.int2string. by rewrite wrap_u_idem. }
  assert (is_u 32 (u32 n)) as Hu by (apply wrap_u_range; lia).
  assert (kv ca' !! c_str (CACHE_USER_ADR_ID_PREFIX ++ adr) = Some (Helpers.int2string n)) as ->.
  { subst ca'. unfold exec_MSET. rewrite up. cbn [kv foldl]. rewrite Hn, (c_str_int2string (u32 n)) by done.
    generalize (Helpers.int2string (u32 n)) as v. intros v.
    assert (forall m, m !! c_str (CACHE_USER_ADR_ID_PREFIX ++ adr) = Some v ->
      foldl (fun (m : gmap str str) '(k, v) => <[c_str k := c_str v]> m) m rest !!
        c_str (CACHE_USER_ADR_ID_PREFIX ++ adr) = Some v) as Hfold; [|by apply Hfold, lookup_insert_eq].
    clear -Hrest. induction Hrest as [|[k v'] rest (a&s&Hk&_) _ IH]; intros m Hm; [done|].
    cbn [foldl]. apply IH. cbn [fst] in Hk. subst k. rewrite lookup_insert_ne; [done|].
    rewrite !c_str_prefix by (apply (bool_decide_unpack _); by vm_compute). by cbn. }
  cbn [from_option]. unfold id. destruct (Helpers.int2string_spec (u32 n) Hu) as (_&_&Hne).
  destruct (Z.eqb_spec (zlen (Helpers.int2string n)) 0) as [Hz|_]; [|done].
  rewrite Hn in Hz. by apply zlen_0_nil in Hz.
Qed.

Lemma account_stable ca adr pub ca' id pub' :
  Forall (fun c => c <> 0) adr -> account e ca adr pub = (ca', id) ->
  account e ca' adr pub' = (ca', id).
Proof.
  intros Hadr. unfold account at 1. unfold cache_get at 1. rewrite up.
  destruct (Z.eqb_spec (zlen (default [] (kv ca !! c_str (CACHE_USER_ADR_ID_PREFIX ++ adr)))) 0)
    as [Hz|Hz]; cycle 1.
  { intros [= <- <-]. unfold account, cache_get. rewrite up. by rewrite (proj2 (Z.eqb_neq _ _) Hz). }
  destruct (incr e ca) as [ca1 n1]. destruct (if n1 =? 1 then incrBy e ca1 99999 else (ca1, n1)) as [ca2 n].
  intros [= <- <-]. apply account_after_MSET; [done|]. forall_list; eexists _, _; split; try done;
    cbn [fst]; [exact (app_assoc _ _ _)..].
Qed.

Lemma fill_user_total ca id adr pub : exists user, fill_user e ca id adr pub = Ret user.
Proof. unfold fill_user, exec_MGET. rewrite up. cbn [map]. eauto. Qed.

(** A verified login ends with the user filled in and the connection to the
    cache returned. *)
Lemma ServerLogin_ok w msg pool c pub ca id :
  ConnPool.GetConn (opens e) (auth_pool w) = (pool, ConnPool.Conn c) ->
  64 <= zlen (sq_sign msg) ->
  recover_pub_key_and_address_from_sig (ztake 65 (sq_sign msg ++ [0]))
    (format_sign_msg_data (sq_captcha msg)) = Some (pub, sq_address msg) ->
  account e (auth_cache w) (sq_address msg) pub = (ca, id) ->
  exists user, fill_user e ca id (sq_address msg) pub = Ret user /\
    ServerLogin e w msg =
    Ret (Some (set_cache w ca (ConnPool.RelConn pool c), user, NO_ERROR)).
Proof.
  intros Hget Hlen Hrec Hacc. destruct (fill_user_total ca id (sq_address msg) pub) as [user Hu].
  exists user. split; [done|]. unfold ServerLogin. rewrite Hget. rewrite mem_read_ok by zlia.
  mstep. rewrite zdrop_0, Hrec. rewrite bool_decide_eq_true_2 by done. cbn [negb].
  cbn [auth_cache set_cache]. rewrite Hacc, Hu. done.
Qed.

Lemma mem_read_text pub n : zlen pub = n -> mem_read (pub ++ [0]) 0 n = Ret pub.
Proof. intros <-. rewrite mem_read_ok by zlia. by rewrite zdrop_0, ztake_app_exact. Qed.

(** The last step, when everything it needs is there. *)
Lemma ServerLoginRes_ok w h c req err user id adr pub p u secret ty hd sv :
  g_msg_conn_map w !! h = Some c -> m_prv_key c <> [] ->
  parse_ServerLoginRes (body req) =
    Some (mkServerLoginRes err (Some user) (AttachData.head ty hd sv)) ->
  u_uid user = Some id -> u_address user = Some adr -> u_pub_key user = Some pub ->
  m_im_user_address_map w !! adr = Some p -> users w !! p = Some u ->
  zlen pub = 33 -> ec_pubkey_parse pub = true ->
  ecdh_create_share_key pub (m_prv_key c) = Some secret ->
  exists w' info,
    ServerLoginRes w h req = Ret (Some (w', SendMsg (ser_AuthLoginRes
      (mkAuthLoginRes NO_ERROR (Some info))) CID_AuthLoginRes (seq_num req))) /\
    u_uid info = Some id /\ u_address info = Some adr /\
    g_msg_conn_map w' = <[h := mkConn id true (m_captcha c) (m_address_hex c) (m_prv_key c)
      (hex_string secret) (m_iv c) (m_aad c) (m_client_type c) (m_client_version c)
      (m_login_time c) (m_online_status c)]> (g_msg_conn_map w) /\
    (auth_cache w' = auth_cache w /\ auth_pool w' = auth_pool w /\ out w' = out w).
Proof.
  intros Hc Hprv Hparse Hid Hadr Hpub Hp Hu Hlen Hec Hdh. unfold ServerLoginRes. rewrite Hparse.
  cbn [sr_attach_data sr_user_info]. rewrite AttachData.db_attach_decode. mstep.
  cbn [from_option]. unfold Datatypes.id. rewrite Hid, Hadr, Hpub. cbn [from_option].
  unfold GetImUserByAddress, FindMsgSrvConnByHandle. rewrite Hp, Hc.
  destruct (Z.eqb_spec (zlen (m_prv_key c)) 0) as [Hz%zlen_0_nil|_]; [done|].
  rewrite mem_read_text by done. mstep. rewrite Hec, Hdh. cbn [negb]. unfold deref_user.
  rewrite Hu. mstep. unfold AddImUserById. eexists _, _. split; [done|].
  split; [done|]. split; [done|]. by case_match.
Qed.

(** The first step, for a connection that has been given a captcha. *)
Lemma AuthLoginReq_ok w h c req msg :
  g_msg_conn_map w !! h = Some c -> m_address_hex c = [] -> m_captcha c <> [] ->
  (forall p, m_im_user_address_map w !! al_address msg = Some p -> is_Some (users w !! p)) ->
  parse_AuthLoginReq (body req) = Some msg -> al_captcha msg = m_captcha c ->
  exists w' p u,
    AuthLoginReq e w h req = Ret (Some (w', Next (ser_ServerLoginReq
      (mkServerLoginReq (al_address msg) (al_captcha msg) (al_sign msg)
        (AttachData.head ATTACH_TYPE_HANDLE h 0))) CID_ServerLoginReq (seq_num req))) /\
    g_msg_conn_map w' = <[h := mkConn (m_user_id c) (m_bOpen c) [] (al_address msg) (m_prv_key c)
      (m_share_key c) (m_iv c) (m_aad c) (al_client_type msg) (al_client_version msg)
      (u32 (now e)) USER_STAT_ONLINE]> (g_msg_conn_map w) /\
    m_im_user_address_map w' !! al_address msg = Some p /\ users w' !! p = Some u /\
    h ∈ m_conn_map u /\
    (auth_cache w' = auth_cache w /\ auth_pool w' = auth_pool w /\ out w' = out w /\
     business_async w' = business_async w).
Proof.
  intros Hc Hadr Hcap Hlive Hparse Hm. unfold AuthLoginReq, FindMsgSrvConnByHandle. rewrite Hc, Hadr.
  cbn [zlen length Z.of_nat negb].
  change (negb (zlen [] =? 0)) with false. cbn match.
  destruct (Z.eqb_spec (zlen (m_captcha c)) 0) as [Hz%zlen_0_nil|_]; [done|].
  rewrite Hparse, bool_decide_eq_true_2 by done. cbn [negb m_address_hex].
  unfold GetImUserByAddress. cbn [m_im_user_address_map set_conn set_conns].
  destruct (m_im_user_address_map w !! al_address msg) as [p|] eqn:Hp.
  - destruct (Hlive p eq_refl) as [u Hu]. unfold AddMsgConn, deref_user.
    cbn [users set_conn set_conns]. rewrite Hu. mstep. rewrite AttachData.db_attach_encode. mstep.
    eexists _, p, _. split; [done|]. split; [done|]. cbn [m_im_user_address_map set_users set_conn
      set_conns users]. rewrite lookup_insert_eq. split_and!; try done. set_solver.
  - unfold AddMsgConn, deref_user, alloc_user, AddImUserByAddress, GetImUserByAddress.
    cbn [m_im_user_address_map set_conn set_conns]. rewrite Hp. cbn [users set_maps next_user].
    rewrite lookup_insert_eq. mstep. rewrite AttachData.db_attach_encode. mstep.
    eexists _, (next_user w), _. split; [done|]. split; [done|].
    cbn [m_im_user_address_map set_maps set_users users]. rewrite !lookup_insert_eq.
    split_and!; try done. set_solver.
Qed.

(** C2. A client that signs the captcha it was given with the key of its
    address is logged in: the three handlers of a login run to the end, the
    connection is open with the account number of the address, the share key is
    the one agreed on, the connection to the cache is given back, the client is
    answered without error, and every later login of that address gets the same
    account number. *)
Theorem honest_login_succeeds w h c req msg pool cc pub secret ca id :
  business_async w = false -> g_msg_conn_map w !! h = Some c ->
  m_address_hex c = [] -> m_captcha c <> [] -> m_prv_key c <> [] ->
  (forall p, m_im_user_address_map w !! al_address msg = Some p -> is_Some (users w !! p)) ->
  command_id req = CID_AuthLoginReq -> parse_AuthLoginReq (body req) = Some msg ->
  al_captcha msg = m_captcha c -> 64 <= zlen (al_sign msg) ->
  recover_pub_key_and_address_from_sig (ztake 65 (al_sign msg ++ [0]))
    (format_sign_msg_data (al_captcha msg)) = Some (pub, al_address msg) ->
  zlen pub = 33 -> ec_pubkey_parse pub = true ->
  ecdh_create_share_key pub (m_prv_key c) = Some secret ->
  ConnPool.GetConn (opens e) (auth_pool w) = (pool, ConnPool.Conn cc) ->
  account e (auth_cache w) (al_address msg) pub = (ca, id) ->
  exists w' c' info, HandlePdu e w h req = Ret (Some w') /\
    g_msg_conn_map w' = <[h := c']> (g_msg_conn_map w) /\
    m_bOpen c' = true /\ m_user_id c' = id /\ m_address_hex c' = al_address msg /\
    m_captcha c' = [] /\ m_share_key c' = hex_string secret /\
    auth_pool w' = ConnPool.RelConn pool cc /\ auth_cache w' = ca /\
    out w' = out w ++ [ToClient h (mkPdu CID_AuthLoginRes (seq_num req) 0 0
      (ser_AuthLoginRes (mkAuthLoginRes NO_ERROR (Some info))))] /\
    u_uid info = Some id /\ (forall pub', account e ca (al_address msg) pub' = (ca, id)).
Proof.
  intros Hsync Hc Hadr Hcap Hprv Hlive Hcid Hparse Hm Hlen Hrec Hpub Hec Hdh Hget Hacc.
  destruct (AuthLoginReq_ok w h c req msg) as (w1&p&u&Hreq&Hcs1&Hp&Hu&_&Hca1&Hpl1&Hout1&Hsync1);
    [done..|].
  destruct (ServerLogin_ok w1 (mkServerLoginReq (al_address msg) (al_captcha msg) (al_sign msg)
    (AttachData.head ATTACH_TYPE_HANDLE h 0)) pool cc pub ca id) as (user&Hfill&Hlogin);
    [by rewrite Hpl1|done..|by rewrite Hca1|].
  apply fill_user_spec in Hfill as (Huid&Huadr&Hupub&Hinit).
  match type of Hcs1 with _ = <[_ := ?x]> _ => set (c1 := x) in Hcs1 end.
  destruct (ServerLoginRes_ok (set_cache w1 ca (ConnPool.RelConn pool cc)) h c1
    (mkPdu CID_ServerLoginRes (seq_num req) 0 0 (ser_ServerLoginRes (mkServerLoginRes NO_ERROR
      (Some user) (AttachData.head ATTACH_TYPE_HANDLE h 0))))
    NO_ERROR user id (al_address msg) pub p u secret ATTACH_TYPE_HANDLE h 0)
    as (w2&info&Hres&Hi&_&Hcs2&Hca2&Hpl2&Hout2); try done.
  { cbn [g_msg_conn_map set_cache]. rewrite Hcs1. apply lookup_insert_eq. }
  { cbn [body]. rewrite ServerLoginRes_law. cbn [sr_user_info]. by rewrite Hinit. }
  eexists (send w2 _), _, info.
  split.
  { unfold HandlePdu. cbn [HandleNextResponse]. rewrite Hcid.
    change (GetHandler e CID_AuthLoginReq) with (Some (AuthLoginReq e)). rewrite Hsync. cbn [andb].
    rewrite Hreq. cbn [caught]. mstep. unfold Next. rewrite Hsync1, Hsync. cbn [negb command_id].
    change (GetHandler e CID_ServerLoginReq) with (Some (ServerLoginReq e)).
    cbn [andb]. unfold ServerLoginReq. cbn [body seq_num].
    rewrite ServerLoginReq_law, Hlogin. mstep. cbn [caught]. mstep. unfold Next. cbn [business_async set_cache sq_attach_data].
    rewrite Hsync1, Hsync. cbn [negb command_id andb].
    change (GetHandler e CID_ServerLoginRes) with (Some ServerLoginRes).
    cbn match. rewrite Hres. cbn [caught]. mstep. unfold SendMsg. reflexivity. }
  cbn [send g_msg_conn_map auth_pool auth_cache out seq_num]. rewrite Hcs2, Hca2, Hpl2, Hout2.
  cbn [g_msg_conn_map auth_cache auth_pool set_cache out]. rewrite Hcs1, insert_insert_eq, Hout1.
  split; [reflexivity|]. split_and!; try done.
  intros pub'. eapply account_stable; [|done]. by eapply recovered_address_text.
Qed.

End Login.

(** ** What goes wrong *)

Section Flaws.
Context `{Protobuf} `{Crypto}.
Variable e : env.

(** C38. The packet with which the business server reports a verified login is
    accepted from clients as well: a client that has asked for a captcha, and
    has never signed anything, sends it with a user number of its choice, any
    address that is registered and a public key of its own, and its connection
    is open as that user. *)
Theorem forged_login_opens w h c p u uid address pub secret ty hd sv seq :
  g_msg_conn_map w !! h = Some c -> m_prv_key c <> [] ->
  m_im_user_address_map w !! address = Some p -> users w !! p = Some u ->
  zlen pub = 33 -> ec_pubkey_parse pub = true ->
  ecdh_create_share_key pub (m_prv_key c) = Some secret ->
  exists w' c',
    HandlePdu e w h (mkPdu CID_ServerLoginRes seq 0 0 (ser_ServerLoginRes
      (mkServerLoginRes NO_ERROR
        (Some (mkUser (Some uid) (Some address) (Some pub) (Some []) (Some 0) [] [] [] [] [] 0))
        (AttachData.head ty hd sv)))) = Ret (Some w') /\
    g_msg_conn_map w' !! h = Some c' /\ m_bOpen c' = true /\ m_user_id c' = uid /\
    m_share_key c' = hex_string secret.
Proof.
  intros Hc Hprv Hp Hu Hlen Hec Hdh.
  set (user := mkUser (Some uid) (Some address) (Some pub) (Some []) (Some 0) [] [] [] [] [] 0).
  destruct (ServerLoginRes_ok w h c (mkPdu CID_ServerLoginRes seq 0 0 (ser_ServerLoginRes
      (mkServerLoginRes NO_ERROR (Some user) (AttachData.head ty hd sv))))
    NO_ERROR user uid address pub p u secret ty hd sv) as (w'&info&Hres&_&_&Hcs&_); try done.
  { cbn [body]. by rewrite ServerLoginRes_law. }
  eexists (send w' _), _. split.
  { unfold HandlePdu. cbn [HandleNextResponse command_id].
    change (GetHandler e CID_ServerLoginRes) with (Some ServerLoginRes).
    change (CID_ServerLoginRes =? CID_AuthLoginReq) with false. rewrite andb_false_r. cbn [andb].
    rewrite Hres. cbn [caught]. mstep. reflexivity. }
  cbn [g_msg_conn_map send]. rewrite Hcs, lookup_insert_eq. done.
Qed.

(** A request whose signature is not by the address it claims. *)
Definition refused (msg : ServerLoginReq_t) : Prop :=
  64 <= zlen (sq_sign msg) /\
  forall pub, recover_pub_key_and_address_from_sig (ztake 65 (sq_sign msg ++ [0]))
    (format_sign_msg_data (sq_captcha msg)) <> Some (pub, sq_address msg).

(** Connections a pool can still hand out. *)
Definition available (p : ConnPool.t) : nat :=
  length (ConnPool.m_free_list p) +
  Z.to_nat (ConnPool.m_max_conn_cnt p - ConnPool.m_cur_conn_cnt p).

Fixpoint ServerLogins (w : world) (msgs : list ServerLoginReq_t) : outcome (option world) :=
  match msgs with
  | [] => Ret (Some w)
  | m :: msgs =>
      r ← ServerLogin e w m;
      match r with
      | None => Ret None
      | Some (w, _, _) => ServerLogins w msgs
      end
  end.

Lemma GetConn_available p n :
  (forall c, opens e c = true) -> available p = S n ->
  exists p' c, ConnPool.GetConn (opens e) p = (p', ConnPool.Conn c) /\ available p' = n.
Proof.
  intros Hopen. unfold available, ConnPool.GetConn. destruct (ConnPool.m_free_list p) as [|c rest].
  - cbn [length Nat.add]. intros Hn. destruct (Z.leb_spec (ConnPool.m_max_conn_cnt p)
      (ConnPool.m_cur_conn_cnt p)); [lia|]. cbn. rewrite Hopen. eexists _, _. split; [done|].
    cbn. lia.
  - cbn [length]. intros Hn. eexists _, _. split; [done|]. cbn. lia.
Qed.

Lemma ServerLogin_refused w msg n :
  (forall c, opens e c = true) -> refused msg -> available (auth_pool w) = S n ->
  exists w', ServerLogin e w msg = Ret (Some (w', empty_user, E_LOGIN_ERROR)) /\
    available (auth_pool w') = n.
Proof.
  intros Hopen [Hlen Href] Hav. destruct (GetConn_available _ _ Hopen Hav) as (p'&c&Hget&Hn).
  unfold ServerLogin. rewrite Hget, mem_read_ok by zlia. mstep. rewrite zdrop_0.
  destruct (recover_pub_key_and_address_from_sig _ _) as [[pub adr]|]; [|eauto].
  rewrite bool_decide_eq_false_2 by (intros ->; by apply (Href pub)). eauto.
Qed.

(** C39. A login that is refused keeps the connection to the cache that it
    took: after as many refused logins as the pool has connections to give, the
    next login, by whomever, waits for ever. *)
Theorem refused_logins_block_server msgs : forall w,
  (forall c, opens e c = true) -> Forall refused msgs ->
  length msgs = available (auth_pool w) ->
  exists w', ServerLogins w msgs = Ret (Some w') /\ forall msg, ServerLogin e w' msg = Ret None.
Proof.
  induction msgs as [|m msgs IH]; intros w Hopen Hm Hlen; cbn [ServerLogins].
  - exists w. split; [done|]. intros msg. unfold ServerLogin, ConnPool.GetConn.
    unfold available in Hlen. destruct (ConnPool.m_free_list (auth_pool w)); [|done].
    cbn [length] in Hlen. by rewrite (proj2 (Z.leb_le _ _)) by lia.
  - apply Forall_cons_1 in Hm as [Hm Hms].
    destruct (ServerLogin_refused w m (length msgs) Hopen Hm) as (w1&->&Hn); [done|]. mstep.
    by apply IH.
Qed.

End Flaws.

(** ** The registry of users

    Abstractly: the address of each connection ([A]), the address and the
    connections of each user object ([U]), and the address map ([B]).  An
    empty address stands for a connection that has not sent a login. *)

Record registered (A : gmap Z str) (U : gmap nat (str * gset Z)) (B : gmap str nat) (n : nat)
  : Prop := {
  reg_live a p : B !! a = Some p -> exists S, U !! p = Some (a, S) /\ S <> ∅;
  reg_known p a S : U !! p = Some (a, S) -> B !! a = Some p /\ (p < n)%nat;
  reg_conns p a S h : U !! p = Some (a, S) -> h ∈ S -> a <> [] -> A !! h = Some a;
  reg_users h a : A !! h = Some a -> a <> [] ->
    exists p S, B !! a = Some p /\ U !! p = Some (a, S) /\ h ∈ S;
}.

(** A connection without an address may come and take one; a connection may
    go. *)
Lemma registered_enter A U B n h :
  registered A U B n -> A !! h = None -> registered (<[h := []]> A) U B n.
Proof.
  intros [R1 R2 R3 R4] Hh. split; [done|done| |].
  - intros p a S h' Hp Hin Ha. specialize (R3 p a S h' Hp Hin Ha).
    rewrite lookup_insert_ne; [done|]. intros ->. congruence.
  - intros h' a. rewrite lookup_insert_Some. intros [[<- <-]|[_ Hl]] Ha; [done|]. by apply R4.
Qed.

Lemma registered_join A U B n h a p S :
  registered A U B n -> A !! h = Some [] -> B !! a = Some p -> U !! p = Some (a, S) ->
  registered (<[h := a]> A) (<[p := (a, {[h]} ∪ S)]> U) B n.
Proof.
  intros [R1 R2 R3 R4] Hh Ha Hp. split.
  - intros a' p' Hl. destruct (decide (p' = p)) as [->|Hne].
    + rewrite lookup_insert_eq. destruct (R1 _ _ Hl) as (S'&Hp'&_). rewrite Hp in Hp'.
      injection Hp' as <- <-. eexists. split; [done|]. set_solver.
    + rewrite lookup_insert_ne by done. by apply R1.
  - intros p' a' S'. rewrite lookup_insert_Some. intros [[<- [= <- <-]]|[_ Hl]]; [|by eapply R2].
    split; [done|]. by eapply R2.
  - intros p' a' S' h'. rewrite lookup_insert_Some. intros [[<- [= <- <-]]|[Hne Hl]] Hin Hna.
    + destruct (decide (h' = h)) as [->|Hneh]; [apply lookup_insert_eq|].
      rewrite lookup_insert_ne by done. eapply R3; [exact Hp| |done]. set_solver.
    + rewrite lookup_insert_ne; [by eapply R3|]. intros <-. pose proof (R3 _ _ _ _ Hl Hin Hna).
      congruence.
  - intros h' a'. rewrite lookup_insert_Some. intros [[<- <-]|[Hneh Hl]] Hna.
    + exists p, ({[h]} ∪ S). rewrite lookup_insert_eq. split_and!; [done..|set_solver].
    + destruct (R4 h' a' Hl Hna) as (p'&S'&Hb&Hu&Hin). destruct (decide (p' = p)) as [->|Hne].
      * rewrite Hp in Hu. injection Hu as <- <-. exists p, ({[h]} ∪ S).
        rewrite lookup_insert_eq. split_and!; [done..|set_solver].
      * exists p', S'. by rewrite lookup_insert_ne.
Qed.

Lemma registered_create A U B n a S :
  registered A U B n -> B !! a = None -> U !! n = None /\
  (forall h, A !! h = Some [] -> S = ∅ ->
   registered (<[h := a]> A) (<[n := (a, {[h]} ∪ S)]> (<[n := (a, S)]> U)) (<[a := n]> B) (Datatypes.S n)).
Proof.
  intros [R1 R2 R3 R4] Ha. assert (U !! n = None) as Hn.
  { destruct (U !! n) as [[a' S']|] eqn:Hu; [|done]. destruct (R2 _ _ _ Hu). lia. }
  split; [done|]. intros h Hh ->. rewrite insert_insert_eq. split.
  - intros a' p'. rewrite lookup_insert_Some. intros [[<- <-]|[Hne Hl]].
    + rewrite lookup_insert_eq. eexists. split; [done|]. set_solver.
    + destruct (R1 _ _ Hl) as (S'&Hu&HS). exists S'. rewrite lookup_insert_ne; [done|congruence].
  - intros p' a' S'. rewrite lookup_insert_Some. intros [[<- [= <- <-]]|[Hne Hl]].
    + rewrite lookup_insert_eq. split; [done|lia].
    + destruct (R2 _ _ _ Hl) as [Hb Hlt]. rewrite lookup_insert_ne by congruence. split; [done|lia].
  - intros p' a' S' h'. rewrite lookup_insert_Some. intros [[<- [= <- <-]]|[Hne Hl]] Hin Hna.
    + assert (h' = h) as -> by set_solver. apply lookup_insert_eq.
    + pose proof (R3 _ _ _ _ Hl Hin Hna). rewrite lookup_insert_ne; [done|congruence].
  - intros h' a'. rewrite lookup_insert_Some. intros [[<- <-]|[Hneh Hl]] Hna.
    + exists n, ({[h]} ∪ ∅). rewrite !lookup_insert_eq. split_and!; [done..|set_solver].
    + destruct (R4 h' a' Hl Hna) as (p'&S'&Hb&Hu&Hin). exists p', S'.
      rewrite !lookup_insert_ne by congruence. done.
Qed.

Lemma registered_leave A U B n h a p S :
  registered A U B n -> A !! h = Some a -> B !! a = Some p -> U !! p = Some (a, S) ->
  (S ∖ {[h]} <> ∅ -> registered (delete h A) (<[p := (a, S ∖ {[h]})]> U) B n) /\
  (S ∖ {[h]} = ∅ -> registered (delete h A) (delete p U) (delete a B) n).
Proof.
  intros [R1 R2 R3 R4] Hh Ha Hp.
  assert (forall p' a' S', p <> p' -> U !! p' = Some (a', S') -> a <> a') as Hdiff.
  { intros p' a' S' Hne Hu <-. destruct (R2 _ _ _ Hu). congruence. }
  assert (forall p' a' S' h', p <> p' -> U !! p' = Some (a', S') -> h' ∈ S' -> a' <> [] ->
    delete h A !! h' = Some a') as Hothers.
  { intros p' a' S' h' Hne Hu Hin Hna. pose proof (R3 _ _ _ _ Hu Hin Hna) as Hl.
    rewrite lookup_delete_ne; [done|]. intros <-. apply (Hdiff _ _ _ Hne Hu). congruence. }
  split; intros HS; split.
  - intros a' p' Hl. destruct (decide (p' = p)) as [->|Hne].
    + rewrite lookup_insert_eq. destruct (R1 _ _ Hl) as (S'&Hp'&_). rewrite Hp in Hp'.
      injection Hp' as <- <-. eauto.
    + rewrite lookup_insert_ne by done. by apply R1.
  - intros p' a' S'. rewrite lookup_insert_Some. intros [[<- [= <- <-]]|[_ Hl]]; [|by eapply R2].
    split; [done|]. by eapply R2.
  - intros p' a' S' h'. rewrite lookup_insert_Some. intros [[<- [= <- <-]]|[Hne Hl]] Hin Hna.
    + rewrite lookup_delete_ne by set_solver. eapply R3; [exact Hp| |done]. set_solver.
    + by eapply Hothers.
  - intros h' a' [Hneh Hl]%lookup_delete_Some Hna.
    destruct (R4 h' a' Hl Hna) as (p'&S'&Hb&Hu&Hin). destruct (decide (p' = p)) as [->|Hne].
    + rewrite Hp in Hu. injection Hu as <- <-. eexists p, _. rewrite lookup_insert_eq.
      split_and!; [done..|set_solver].
    + exists p', S'. by rewrite lookup_insert_ne.
  - intros a' p' [Hne Hl]%lookup_delete_Some. destruct (R1 _ _ Hl) as (S'&Hu&HS'). exists S'.
    rewrite lookup_delete_ne; [done|congruence].
  - intros p' a' S' [Hne Hl]%lookup_delete_Some. destruct (R2 _ _ _ Hl) as [Hb Hlt].
    rewrite lookup_delete_ne; [done|]. by eapply Hdiff.
  - intros p' a' S' h' [Hne Hl]%lookup_delete_Some. by eapply Hothers.
  - intros h' a' [Hneh Hl]%lookup_delete_Some Hna.
    destruct (R4 h' a' Hl Hna) as (p'&S'&Hb&Hu&Hin).
    assert (p <> p') as Hne by (intros <-; set_solver).
    exists p', S'. rewrite !lookup_delete_ne; [done|done|by eapply Hdiff].
Qed.

Definition conn_addresses (w : world) : gmap Z str := m_address_hex <$> g_msg_conn_map w.

Definition user_conns (w : world) : gmap nat (str * gset Z) :=
  (fun u => (iu_address_hex u, m_conn_map u)) <$> users w.

Definition registry_ok (w : world) : Prop :=
  registered (conn_addresses w) (user_conns w) (m_im_user_address_map w) (next_user w).

Lemma conn_addresses_set w h c c0 :
  g_msg_conn_map w !! h = Some c0 -> m_address_hex c = m_address_hex c0 ->
  conn_addresses (set_conn w h c) = conn_addresses w.
Proof.
  intros Hc Ha. unfold conn_addresses. cbn [g_msg_conn_map set_conn set_conns].
  rewrite fmap_insert, Ha. apply insert_id. by rewrite lookup_fmap, Hc.
Qed.

Lemma user_conns_set w p u u0 :
  users w !! p = Some u0 -> iu_address_hex u = iu_address_hex u0 -> m_conn_map u = m_conn_map u0 ->
  user_conns (set_users w (<[p := u]> (users w))) = user_conns w.
Proof.
  intros Hu Ha Hm. unfold user_conns. cbn [users set_users]. rewrite fmap_insert, Ha, Hm.
  apply insert_id. by rewrite lookup_fmap, Hu.
Qed.

Lemma lookup_address w h c :
  g_msg_conn_map w !! h = Some c -> conn_addresses w !! h = Some (m_address_hex c).
Proof. intros Hc. unfold conn_addresses. by rewrite lookup_fmap, Hc. Qed.

Lemma lookup_user_conns w p u :
  users w !! p = Some u -> user_conns w !! p = Some (iu_address_hex u, m_conn_map u).
Proof. intros Hu. unfold user_conns. by rewrite lookup_fmap, Hu. Qed.

Section Registry.
Context `{Protobuf} `{Crypto}.
Variable e : env.

Lemma AuthCaptchaReq_registry w h req w' r :
  registry_ok w -> AuthCaptchaReq w h req = Ret (Some (w', r)) -> registry_ok w'.
Proof.
  intros Hw. unfold AuthCaptchaReq, FindMsgSrvConnByHandle.
  destruct (g_msg_conn_map w !! h) as [c|] eqn:Hc; [|by intros [= <- _]].
  destruct (parse_AuthCaptchaReq (body req)); intros [= <- _]; [|done].
  unfold registry_ok. by rewrite (conn_addresses_set _ _ _ c).
Qed.

Lemma AuthLoginReq_registry w h req w' r :
  registry_ok w -> AuthLoginReq e w h req = Ret (Some (w', r)) -> registry_ok w'.
Proof.
  intros Hw. unfold AuthLoginReq, FindMsgSrvConnByHandle, login_error.
  destruct (g_msg_conn_map w !! h) as [c|] eqn:Hc; [|by intros [= <- _]].
  destruct (Z.eqb_spec (zlen (m_address_hex c)) 0) as [Ha%zlen_0_nil|Ha]; cbn [negb];
    [|by intros [= <- _]].
  destruct (_ =? 0); [by intros [= <- _]|].
  destruct (parse_AuthLoginReq (body req)) as [msg|]; [|by intros [= <- _]].
  destruct (negb _); [by intros [= <- _]|]. cbn [m_address_hex].
  pose proof (lookup_address w h c Hc) as Hh. rewrite Ha in Hh.
  unfold GetImUserByAddress. cbn [m_im_user_address_map set_conn set_conns].
  destruct (m_im_user_address_map w !! al_address msg) as [p|] eqn:Hp.
  - unfold AddMsgConn, deref_user. cbn [users set_conn set_conns].
    destruct (reg_live _ _ _ _ Hw _ _ Hp) as (S&HS&_).
    destruct (users w !! p) as [u|] eqn:Hu; [|done]. mstep.
    rewrite AttachData.db_attach_encode. mstep. intros [= <- _].
    pose proof (lookup_user_conns w p u Hu) as Hu'. rewrite Hu' in HS. injection HS as Hadr _.
    unfold registry_ok, conn_addresses, user_conns. cbn [g_msg_conn_map users set_users set_conn
      set_conns m_im_user_address_map next_user]. rewrite !fmap_insert.
    cbn [iu_address_hex m_conn_map m_address_hex]. rewrite Hadr. rewrite Hadr in Hu'.
    by apply registered_join.
  - unfold AddMsgConn, deref_user, alloc_user, AddImUserByAddress, GetImUserByAddress.
    cbn [m_im_user_address_map set_conn set_conns]. rewrite Hp. cbn [users set_maps next_user].
    rewrite lookup_insert_eq. mstep. rewrite AttachData.db_attach_encode. mstep. intros [= <- _].
    unfold registry_ok, conn_addresses, user_conns. cbn [g_msg_conn_map users set_users set_conn
      set_conns set_maps m_im_user_address_map next_user]. rewrite !fmap_insert.
    cbn [iu_address_hex m_conn_map m_address_hex new_user].
    by apply (registered_create _ _ _ _ (al_address msg) ∅ Hw Hp).
Qed.

Lemma ServerLogin_registry w msg w' u err :
  registry_ok w -> ServerLogin e w msg = Ret (Some (w', u, err)) -> registry_ok w'.
Proof.
  intros Hw. unfold ServerLogin. destruct (ConnPool.GetConn _ _) as [pool g].
  destruct g as [c| |]; [|by intros [= <- _ _]|done].
  destruct (mem_read _ 0 65); [|done..]. mstep.
  destruct (recover_pub_key_and_address_from_sig _ _) as [[pub adr]|]; [|by intros [= <- _ _]].
  destruct (negb _); [by intros [= <- _ _]|]. destruct (account _ _ _ _) as [ca id].
  destruct (fill_user _ _ _ _ _); [|done..]. mstep. by intros [= <- _ _].
Qed.

Lemma ServerLoginReq_registry w h req w' r :
  registry_ok w -> ServerLoginReq e w h req = Ret (Some (w', r)) -> registry_ok w'.
Proof.
  intros Hw. unfold ServerLoginReq.
  destruct (parse_ServerLoginReq (body req)) as [msg|]; [|by intros [= <- _]].
  destruct (ServerLogin e w msg) as [[[[w1 user] err]|]| | |] eqn:Hl; try done. mstep.
  intros [= <- _]. by eapply ServerLogin_registry.
Qed.

Lemma ServerLoginRes_registry w h req w' r :
  registry_ok w -> ServerLoginRes w h req = Ret (Some (w', r)) -> registry_ok w'.
Proof.
  intros Hw. unfold ServerLoginRes, login_error.
  destruct (parse_ServerLoginRes (body req)) as [msg|]; [|by intros [= <- _]].
  destruct (AttachData.CDbAttachData_decode _ _); [|done..]. mstep.
  destruct (GetImUserByAddress w _) as [p|]; [|by intros [= <- _]].
  unfold FindMsgSrvConnByHandle. destruct (g_msg_conn_map w !! h) as [c|] eqn:Hc; [|done].
  destruct (_ =? 0); [by intros [= <- _]|].
  destruct (mem_read _ 0 33); [|done..]. mstep.
  destruct (negb _); [by intros [= <- _]|].
  destruct (ecdh_create_share_key _ _) as [k|]; [|by intros [= <- _]].
  unfold deref_user. destruct (users w !! p) as [u|] eqn:Hu; [|done]. mstep. intros [= <- _].
  unfold registry_ok. rewrite (conn_addresses_set _ _ _ c); [| |done].
  - unfold AddImUserById. unfold GetImUserById.
    pose proof (user_conns_set w p (mkImUser (default 0 (u_uid (default empty_user
      (sr_user_info msg)))) (iu_address_hex u) h (m_conn_map u)) u Hu eq_refl eq_refl) as HU.
    case_match; unfold user_conns in *; cbn [users set_conn set_conns set_maps set_users] in *;
      rewrite HU; exact Hw.
  - by rewrite (proj1 (AddImUserById_frame _ _ _)).
Qed.

Lemma handler_registry cid f w h req w' r :
  GetHandler e cid = Some f -> registry_ok w -> f w h req = Ret (Some (w', r)) -> registry_ok w'.
Proof.
  unfold GetHandler. intros Hf Hw.
  repeat (destruct (_ =? _) in Hf; [injection Hf as <-|]); try done;
    eauto using AuthCaptchaReq_registry, AuthLoginReq_registry, ServerLoginReq_registry,
      ServerLoginRes_registry.
  unfold HeartBeatNotify. by intros [= <- _].
Qed.

Lemma Close_registry w h c w' :
  registry_ok w -> g_msg_conn_map w !! h = Some c -> Close w h c = Ret w' -> registry_ok w'.
Proof.
  intros Hw Hc. pose proof (lookup_address w h c Hc) as Hh.
  unfold Close, GetImUserByAddress. cbn [m_im_user_address_map set_conns].
  destruct (m_im_user_address_map w !! m_address_hex c) as [p|] eqn:Hp; cycle 1.
  { intros [= <-]. unfold registry_ok, conn_addresses. cbn [g_msg_conn_map set_conns].
    rewrite fmap_delete. destruct Hw as [R1 R2 R3 R4]. split; [done|done| |].
    - intros p a S h' Hu Hin Ha. pose proof (R3 _ _ _ _ Hu Hin Ha) as Hl.
      rewrite lookup_delete_ne; [done|]. intros <-. destruct (R2 _ _ _ Hu) as [Hb _].
      unfold conn_addresses in *. congruence.
    - intros h' a [_ Hl]%lookup_delete_Some. by apply R4. }
  destruct (reg_live _ _ _ _ Hw _ _ Hp) as (S&HS&_). unfold DelMsgConn, RemoveImUser, deref_user.
  cbn [users set_conns]. destruct (users w !! p) as [u|] eqn:Hu; [|done]. mstep.
  pose proof (lookup_user_conns w p u Hu) as Hu'. rewrite Hu' in HS. injection HS as Hadr <-.
  rewrite Hadr in Hu'. destruct (registered_leave _ _ _ _ _ _ _ _ Hw Hh Hp Hu') as [Hstay Hgone].
  cbn [users set_users set_conns]. rewrite lookup_insert_eq. mstep. cbn [m_conn_map].
  case_decide as HS; intros [= <-]; unfold registry_ok, conn_addresses, user_conns;
    cbn [g_msg_conn_map users set_users set_maps set_conns m_im_user_address_map next_user];
    rewrite ?delete_insert_eq, ?fmap_delete, ?fmap_insert; cbn [iu_address_hex m_conn_map];
    rewrite ?Hadr; auto.
Qed.

Lemma HandleNextResponse_registry fuel : forall w h p w',
  registry_ok w -> HandleNextResponse e fuel w h p = Ret (Some w') -> registry_ok w'.
Proof.
  induction fuel as [|fuel IH]; intros w h p w' Hw; [done|]. cbn [HandleNextResponse].
  destruct (GetHandler e (command_id p)) as [f|] eqn:Hf; [|by intros [= <-]].
  case_match; [by intros [= <-]|].
  intros Hrun. apply (caught_bind registry_ok) in Hrun as [?|(x&Hr&Hrun)]; [done| |done|done|].
  2: { intros c w1. by apply Close_registry. }
  revert Hrun. destruct x as [[w1 r]|]; [|done].
  pose proof (handler_registry _ _ _ _ _ _ _ Hf Hw Hr) as Hw1.
  destruct r as [[q []]|]; [|by intros [= <-]..].
  destruct (business_async w1); cbn [negb]; [|by apply IH]. case_match; by intros [= <-].
Qed.

Lemma event_step_registry w ev w' :
  registry_ok w -> event_step e w ev = Ret (Some w') -> registry_ok w'.
Proof.
  intros Hw. destruct ev as [h|h p|h]; cbn [event_step].
  - intros [= <-]. unfold OnConnect. destruct (g_msg_conn_map w !! h) eqn:Hh; [done|].
    unfold registry_ok, conn_addresses. cbn [g_msg_conn_map set_conn set_conns].
    rewrite fmap_insert. apply registered_enter; [exact Hw|].
    unfold conn_addresses. by rewrite lookup_fmap, Hh.
  - destruct (g_msg_conn_map w !! h); [|by intros [= <-]]. by apply HandleNextResponse_registry.
  - destruct (g_msg_conn_map w !! h) as [c|] eqn:Hc; [|by intros [= <-]].
    destruct (Close w h c) as [w1| | |] eqn:Hcl; try done. mstep. intros [= <-].
    by eapply Close_registry.
Qed.

End Registry.

Lemma run_registry `{Protobuf} `{Crypto} es : forall w w',
  registry_ok w -> run w es = Ret (Some w') -> registry_ok w'.
Proof.
  induction es as [|[e ev] es IH]; intros w w' Hw; cbn [run]; [by intros [= <-]|].
  destruct (event_step e w ev) as [[w1|]| | |] eqn:Hstep; try done. mstep.
  apply IH. by eapply event_step_registry.
Qed.

(** ** The chain of handlers ends *)

Section Chain.
Context `{Protobuf} `{Crypto}.
Variable e : env.

(** A handler ends, and throws nothing that [OnRead] does not catch. *)
Definition settled {A} (r : outcome A) : Prop :=
  match r with
  | Throw (CPduException _ _ _ _) | Ret _ | UB => True
  | Throw _ | NoFuel => False
  end.

Lemma bind_settled {A B} (m : outcome A) (f : A -> outcome B) :
  settled m -> (forall a, settled (f a)) -> settled (x ← m; f x).
Proof. by destruct m as [a|[]| |]; intros Hm Hf; mstep. Qed.

Lemma mem_read_settled m off len : settled (mem_read m off len).
Proof. unfold mem_read. by case_decide. Qed.

Lemma get_uint32_settled s : settled (CByteStream.get_uint32 s).
Proof.
  assert (forall n, settled (CByteStream._ReadByte s n)) as Hr.
  { intros n. unfold CByteStream._ReadByte. case_match; [done|]. case_match.
    - unfold CSimpleBuffer.Read. repeat (apply bind_settled; [|intros ?]); repeat case_match;
        try done; try apply mem_read_settled. unfold mem_write. by case_decide.
    - apply bind_settled; [apply mem_read_settled|done]. }
  unfold CByteStream.get_uint32, CByteStream.ReadUint32.
  apply bind_settled; [apply Hr|intros [s' bs]].
  repeat (apply bind_settled; [|intros ?]); try done; unfold mem_get; by repeat case_match.
Qed.

Lemma db_decode_settled d len : settled (AttachData.CDbAttachData_decode d len).
Proof.
  unfold AttachData.CDbAttachData_decode.
  repeat (apply bind_settled; [apply get_uint32_settled|intros [? ?]]). done.
Qed.

(** What a handler passes on to be handled next. *)
Definition passes (r : outcome handled) (cid : Z) : Prop :=
  settled r /\ forall w q, r = Ret (Some (w, Some (q, true))) -> command_id q = cid.

Lemma passes_end (w : world) (q : pdu) cid : passes (Ret (Some (w, Some (q, false)))) cid.
Proof. by split. Qed.

Lemma passes_none (w : world) cid : passes (Ret (Some (w, None))) cid.
Proof. by split. Qed.

Lemma AuthCaptchaReq_passes w h p cid : passes (AuthCaptchaReq w h p) cid.
Proof. unfold AuthCaptchaReq, SendMsg. repeat case_match; auto using passes_end, passes_none. Qed.

Lemma AuthLoginReq_passes w h p : passes (AuthLoginReq e w h p) CID_ServerLoginReq.
Proof.
  unfold AuthLoginReq, login_error, SendMsg.
  destruct (FindMsgSrvConnByHandle w h) as [c|]; [|apply passes_none].
  do 2 (case_match; [apply passes_end|]). destruct (parse_AuthLoginReq (body p)); [|apply passes_end].
  case_match; [apply passes_end|]. case_match.
  unfold AddMsgConn, deref_user. destruct (users _ !! _); mstep; [|by split].
  rewrite AttachData.db_attach_encode. mstep. split; [done|]. by intros w' q [= _ <-].
Qed.

Lemma ServerLogin_settled w msg : settled (ServerLogin e w msg).
Proof.
  unfold ServerLogin. repeat case_match; try done. apply bind_settled; [apply mem_read_settled|].
  intros sig. repeat case_match; try done. apply bind_settled; [|done].
  unfold fill_user, exec_MGET. by destruct (redis_up e).
Qed.

Lemma ServerLoginReq_passes w h p : passes (ServerLoginReq e w h p) CID_ServerLoginRes.
Proof.
  unfold ServerLoginReq, Next. destruct (parse_ServerLoginReq (body p)) as [msg|].
  - pose proof (ServerLogin_settled w msg) as Hl.
    destruct (ServerLogin e w msg) as [[[[w1 u] err]|]| | |]; mstep; try by split.
    split; [done|]. by intros w' q [= _ <-].
  - split; [done|]. by intros w' q [= _ <-].
Qed.

Lemma ServerLoginRes_passes w h p cid : passes (ServerLoginRes w h p) cid.
Proof.
  unfold ServerLoginRes, login_error, SendMsg.
  destruct (parse_ServerLoginRes (body p)) as [msg|]; [|apply passes_end].
  pose proof (db_decode_settled (sr_attach_data msg) (zlen (sr_attach_data msg))) as Hd.
  destruct (AttachData.CDbAttachData_decode _ _); [|by split..]. mstep.
  case_match; [|apply passes_end]. case_match; [|by split]. case_match; [apply passes_end|].
  pose proof (mem_read_settled (default [] (u_pub_key (default empty_user (sr_user_info msg)))
    ++ [0]) 0 33) as Hm.
  destruct (mem_read _ 0 33); [|by split..]. mstep.
  case_match; [apply passes_end|]. case_match; [|apply passes_end].
  unfold deref_user. case_match; mstep; [apply passes_end|by split].
Qed.

(** How many handlers a packet can go through. *)
Definition chain_length (cid : Z) : nat :=
  if cid =? CID_AuthLoginReq then 3 else if cid =? CID_ServerLoginReq then 2 else 1.

Lemma handler_passes cid f w h p :
  GetHandler e cid = Some f ->
  exists cid', passes (f w h p) cid' /\
    (chain_length cid' < chain_length cid \/ forall c, passes (f w h p) c)%nat.
Proof.
  unfold GetHandler. intros Hf.
  destruct (Z.eqb_spec cid CID_AuthCaptchaReq) as [->|_]; [injection Hf as <-|].
  { exists 0. auto using AuthCaptchaReq_passes. }
  destruct (Z.eqb_spec cid CID_AuthLoginReq) as [->|_]; [injection Hf as <-|].
  { exists CID_ServerLoginReq. split; [apply AuthLoginReq_passes|]. left. by vm_compute; lia. }
  destruct (Z.eqb_spec cid CID_ServerLoginReq) as [->|_]; [injection Hf as <-|].
  { exists CID_ServerLoginRes. split; [apply ServerLoginReq_passes|]. left. by vm_compute; lia. }
  destruct (Z.eqb_spec cid CID_ServerLoginRes) as [->|_]; [injection Hf as <-|].
  { exists 0. auto using ServerLoginRes_passes. }
  destruct (cid =? CID_HeartBeatNotify); [injection Hf as <-|done].
  exists 0. unfold HeartBeatNotify. auto using passes_none.
Qed.

(** A value, or undefined behaviour. *)
Definition returns {A} (r : outcome A) : Prop :=
  match r with Ret _ | UB => True | Throw _ | NoFuel => False end.

Lemma Close_returns w h c : returns (Close w h c).
Proof.
  unfold Close, DelMsgConn, RemoveImUser, deref_user.
  destruct (GetImUserByAddress _ _) as [p|]; [|done]. destruct (users _ !! p); [|done]. mstep.
  cbn [users set_users set_conns]. rewrite lookup_insert_eq. mstep. by case_decide.
Qed.

Lemma caught_returns w h (r : outcome handled) : settled r -> returns (caught w h r).
Proof.
  destruct r as [a|[]| |]; cbn [caught settled]; try done. intros _.
  destruct (g_msg_conn_map w !! h) as [c|]; [|done]. pose proof (Close_returns w h c) as Hc.
  by destruct (Close w h c).
Qed.

(** A response to be handled next is the handler's own. *)
Lemma caught_next w h (r : outcome handled) w1 q :
  caught w h r = Ret (Some (w1, Some (q, true))) -> r = Ret (Some (w1, Some (q, true))).
Proof.
  destruct r as [a|[]| |]; cbn [caught]; try done.
  destruct (g_msg_conn_map w !! h) as [c|]; [|done]. by destruct (Close w h c).
Qed.

Lemma chain_returns fuel : forall w h p,
  (chain_length (command_id p) <= fuel)%nat -> returns (HandleNextResponse e fuel w h p).
Proof.
  induction fuel as [|fuel IH]; intros w h p Hfuel.
  { exfalso. revert Hfuel. unfold chain_length. repeat case_match; lia. }
  cbn [HandleNextResponse]. destruct (GetHandler e (command_id p)) as [f|] eqn:Hf; [|done].
  case_match; [done|].
  destruct (handler_passes _ _ w h p Hf) as (cid'&[Hset Hpass]&Hlt).
  pose proof (caught_returns w h _ Hset) as Hc.
  destruct (caught w h (f w h p)) as [[[w1 [[q []]|]]|]| | |] eqn:Hr; try done. mstep.
  apply caught_next in Hr.
  destruct (negb (business_async w1)); [|by case_match]. apply IH.
  destruct Hlt as [Hlt|Hany].
  - rewrite (Hpass w1 q Hr). lia.
  - exfalso. pose proof (proj2 (Hany 0) w1 q Hr) as Hzero.
    pose proof (proj2 (Hany 1) w1 q Hr). lia.
Qed.

(** The recursion of [HandleNextResponse] ends, and no exception leaves
    [OnRead]: no packet makes the handlers hand responses to each other for
    more than three rounds, so the bound of the model is never reached. *)
Theorem handling_returns w h p : returns (HandlePdu e w h p).
Proof.
  apply chain_returns. unfold chain_length. repeat case_match; lia.
Qed.

Lemma event_step_returns w ev : returns (event_step e w ev).
Proof.
  destruct ev as [h|h p|h]; cbn [event_step]; [done| |]; destruct (g_msg_conn_map w !! h) as [c|];
    try done; [apply handling_returns|].
  pose proof (Close_returns w h c) as Hc. by destruct (Close w h c).
Qed.

End Chain.

Lemma run_returns `{Protobuf} `{Crypto} es : forall w, returns (run w es).
Proof.
  induction es as [|[e ev] es IH]; intros w; cbn [run]; [done|].
  pose proof (event_step_returns e w ev) as Hs.
  destruct (event_step e w ev) as [[w1|]| | |]; try done. mstep. apply IH.
Qed.

(** The registry and the connections of a world say the same. *)
Definition registry_matches (w : world) : Prop :=
  (forall a p, m_im_user_address_map w !! a = Some p ->
     exists u, users w !! p = Some u /\ iu_address_hex u = a /\ m_conn_map u <> ∅) /\
  (forall p u, users w !! p = Some u -> m_im_user_address_map w !! iu_address_hex u = Some p) /\
  (forall a h, a <> [] ->
     (exists c, g_msg_conn_map w !! h = Some c /\ m_address_hex c = a) <->
     (exists p u, m_im_user_address_map w !! a = Some p /\ users w !! p = Some u /\
        h ∈ m_conn_map u)).

Lemma registry_ok_matches w : registry_ok w -> registry_matches w.
Proof.
  intros [R1 R2 R3 R4].
  assert (forall a p, m_im_user_address_map w !! a = Some p ->
    exists u, users w !! p = Some u /\ iu_address_hex u = a /\ m_conn_map u <> ∅) as Hlive.
  { intros a p Hp. destruct (R1 a p Hp) as (S&HS&Hne). unfold user_conns in HS.
    rewrite lookup_fmap in HS. destruct (users w !! p) as [u|]; [|done].
    injection HS as <- <-. eauto. }
  split; [done|]. split.
  { intros p u Hp. by eapply R2, lookup_user_conns. }
  intros a h Ha. split.
  - intros (c&Hl&<-). destruct (R4 h _ (lookup_address _ _ _ Hl) Ha) as (p&S&Hp&HS&Hin).
    destruct (Hlive _ _ Hp) as (u&Hpu&_). rewrite (lookup_user_conns _ _ _ Hpu) in HS.
    injection HS as _ <-. eauto.
  - intros (p&u&Hp&Hpu&Hin). destruct (Hlive _ _ Hp) as (u'&Hpu'&Hadr&_).
    rewrite Hpu in Hpu'. injection Hpu' as <-. pose proof (lookup_user_conns _ _ _ Hpu) as HU.
    rewrite Hadr in HU. pose proof (R3 _ _ _ _ HU Hin Ha) as HA. unfold conn_addresses in HA.
    rewrite lookup_fmap in HA. destruct (g_msg_conn_map w !! h) as [c|]; [|done].
    injection HA as <-. eauto.
Qed.

(** C25. Whatever clients connect, send and close, forged packets and packets
    whose handler throws included, from a server with no connections, users
    or registered addresses: no exception leaves the handling of a packet, and
    as long as no handler reads out of bounds or waits for good, the registry
    of users matches the connections.  That is, every registered address leads
    to an existing user object with that address and at least one connection,
    every existing user object is registered, and for a non-empty address the
    connections of its user are exactly the live connections that logged in
    with it. *)
Theorem registry_consistent `{Protobuf} `{Crypto} es w :
  g_msg_conn_map w = ∅ -> users w = ∅ -> m_im_user_address_map w = ∅ ->
  match run w es with
  | Ret (Some w') => registry_matches w'
  | Ret None | UB => True
  | Throw _ | NoFuel => False
  end.
Proof.
  intros Hc Hu Hb. pose proof (run_returns es w) as Hr.
  destruct (run w es) as [[w'|]| | |] eqn:Hrun; try done.
  apply registry_ok_matches. eapply run_registry; [|done].
  unfold registry_ok, conn_addresses, user_conns. rewrite Hc, Hu, Hb, !fmap_empty.
  split; intros *; by rewrite lookup_empty.
Qed.

(** ** A concrete codec and signature scheme

    For witnesses only: a message is the list of its fields, each preceded by
    its length; a signature is the signer's byte followed by the sum of the
    message. *)

Module Toy.

Definition enc (fs : list str) : str := concat (map (fun f => zlen f :: f) fs).

Fixpoint dec (fuel : nat) (s : str) : list str :=
  match fuel, s with
  | S fuel, n :: s => ztake n s :: dec fuel (zdrop n s)
  | _, _ => []
  end.

Lemma dec_enc fs : forall fuel, (length (enc fs) <= fuel)%nat -> dec fuel (enc fs) = fs.
Proof.
  induction fs as [|f fs IH]; intros [|fuel] Hf; try done; [simpl in Hf; lia|].
  change (enc (f :: fs)) with (zlen f :: f ++ enc fs) in *. cbn [dec].
  rewrite ztake_app_exact, zdrop_app_exact by done. f_equal. apply IH.
  cbn [length] in Hf. rewrite length_app in Hf. lia.
Qed.

Definition parse {A} (f : list str -> option A) (s : str) : option A := f (dec (length s) s).

Lemma parse_enc {A} (f : list str -> option A) fs : parse f (enc fs) = f fs.
Proof. unfold parse. by rewrite dec_enc. Qed.

Definition of_num (n : option Z) : str := match n with Some n => [n] | None => [] end.
Definition to_num (s : str) : option Z := match s with [n] => Some n | _ => None end.
Definition of_opt (s : option str) : str := match s with Some s => 1 :: s | None => [] end.
Definition to_opt (s : str) : option str := match s with _ :: s => Some s | [] => None end.

Definition user_fields (u : UserInfo) : list str :=
  [of_num (u_uid u); of_opt (u_address u); of_opt (u_pub_key u); of_opt (u_avatar u);
   of_num (u_status u); u_user_name u; u_nick_name u; u_sign_info u; u_first_name u;
   u_last_name u; [u_login_time u]].

Definition fields_user (fs : list str) : option UserInfo :=
  match fs with
  | [uid; adr; pub; av; st; un; nn; si; fn; ln; [t]] =>
      Some (mkUser (to_num uid) (to_opt adr) (to_opt pub) (to_opt av) (to_num st) un nn si fn ln t)
  | _ => None
  end.

Lemma fields_user_fields u : fields_user (user_fields u) = Some u.
Proof. by destruct u as [[] [] [] [] []]. Qed.

Definition login_fields (m : AuthLoginReq_t) : list str :=
  [al_address m; al_captcha m; [al_client_type m]; al_client_version m; al_sign m].

Definition fields_login (fs : list str) : option AuthLoginReq_t :=
  match fs with
  | [a; c; [t]; v; s] => Some (mkAuthLoginReq a c t v s)
  | _ => None
  end.

Definition req_fields (m : ServerLoginReq_t) : list str :=
  [sq_address m; sq_captcha m; sq_sign m; sq_attach_data m].

Definition fields_req (fs : list str) : option ServerLoginReq_t :=
  match fs with
  | [a; c; s; d] => Some (mkServerLoginReq a c s d)
  | _ => None
  end.

Definition res_fields (m : ServerLoginRes_t) : list str :=
  [[sr_error m]; sr_attach_data m] ++
  match sr_user_info m with Some u => user_fields u | None => [] end.

Definition fields_res (fs : list str) : option ServerLoginRes_t :=
  match fs with
  | [[e]; d] => Some (mkServerLoginRes e None d)
  | [e] :: d :: us =>
      match fields_user us with
      | Some u => if IsInitialized u then Some (mkServerLoginRes e (Some u) d) else None
      | None => None
      end
  | _ => None
  end.

#[export] Instance toy_protobuf : Protobuf.
Proof.
  refine {|
    parse_AuthCaptchaReq := fun _ => true;
    parse_AuthLoginReq := parse fields_login;
    parse_ServerLoginReq := parse fields_req;
    parse_ServerLoginRes := parse fields_res;
    ser_AuthCaptchaRes := fun m => ac_captcha m;
    ser_AuthLoginRes := fun m => [ar_error m];
    ser_ServerLoginReq := fun m => enc (req_fields m);
    ser_ServerLoginRes := fun m => enc (res_fields m) |}.
  - intros m. rewrite parse_enc. by destruct m.
  - intros [e u d]. rewrite parse_enc. unfold res_fields. cbn [sr_error sr_user_info sr_attach_data].
    destruct u as [u|]; [|done]. cbn [app fields_res].
    change (match user_fields u with [] => Some (mkServerLoginRes e None d) | _ =>
      match fields_user (user_fields u) with
      | Some u => if IsInitialized u then Some (mkServerLoginRes e (Some u) d) else None
      | None => None end end = if IsInitialized u then Some (mkServerLoginRes e (Some u) d) else None).
    rewrite fields_user_fields. done.
Defined.

Definition sum (s : str) : Z := foldr Z.add 0 s.

Definition sign (key : Z) (msg : str) : str := key :: sum msg :: replicate 63 0.

Definition address (key : Z) : str := [48; 120; 1 + Z.abs key].

#[export] Instance toy_crypto : Crypto.
Proof.
  refine {|
    format_sign_msg_data := fun s => s;
    recover_pub_key_and_address_from_sig := fun sig msg =>
      match sig with
      | key :: s :: _ =>
          if s =? sum msg then Some (key :: replicate 32 2, address key) else None
      | _ => None
      end;
    ec_pubkey_parse := fun _ => true;
    ecdh_create_share_key := fun pub prv => Some (pub ++ prv);
    random_session := fun k => mkSession [65; Z.of_nat k] [1] [2] [3] [4] [5] |}.
  intros [|key [|s sig]] msg pub adr; [done..|]. case_match; [|done]. intros [= _ <-].
  split; [done|]. unfold address. forall_list; lia.
Defined.

Definition cache0 : cache := mkCache ∅ 0.

Definition pool0 : ConnPool.t := ConnPool.mk [0; 1]%nat 2 2 2.

Definition world0 : world := mkWorld ∅ ∅ 0 ∅ ∅ cache0 pool0 0 [] false false.

Definition env0 : env := mkEnv (fun _ _ => 0) (fun _ => true) true 1700000000.

Definition captcha_pdu : pdu := mkPdu CID_AuthCaptchaReq 1 0 0 [].

(** The login of a client whose address is that of [claimed], signed by [key]. *)
Definition login_pdu (claimed key k : Z) : pdu :=
  mkPdu CID_AuthLoginReq 2 0 0
    (enc (login_fields (mkAuthLoginReq (address claimed) [65; k] 1 [] (sign key [65; k])))).

End Toy.

#[local] Existing Instance Toy.toy_protobuf.
#[local] Existing Instance Toy.toy_crypto.

Definition toy_login : list event :=
  [EvConnect 7; EvPdu 7 Toy.captcha_pdu; EvPdu 7 (Toy.login_pdu 9 9 0)].

Definition toy_run (es : list event) : outcome (option world) :=
  run Toy.world0 (map (pair Toy.env0) es).

(** The world a run ends in, and whether it ends. *)
Definition final (r : outcome (option world)) : world :=
  match r with Ret (Some w) => w | _ => Toy.world0 end.

Definition ends (r : outcome (option world)) : bool :=
  match r with Ret (Some _) => true | _ => false end.

Lemma ends_final r : ends r = true -> r = Ret (Some (final r)).
Proof. by destruct r as [[]| | |]. Qed.

(** Connection [h] of a world. *)
Definition conn_of (w : world) (h : Z) : conn := default new_conn (g_msg_conn_map w !! h).

Lemma conn_of_lookup w h :
  bool_decide (is_Some (g_msg_conn_map w !! h)) = true -> g_msg_conn_map w !! h = Some (conn_of w h).
Proof. intros [c Hc]%bool_decide_eq_true_1. unfold conn_of. by rewrite Hc. Qed.

Lemma toy_login_client : Forall client_event (map snd (map (pair Toy.env0) toy_login)).
Proof.
  unfold toy_login. cbn [map snd].
  repeat apply Forall_cons_2; [exact I|split; discriminate..|apply Forall_nil_2].
Qed.

Lemma login_requires_signature_witness :
  let w' := final (toy_run toy_login) in let c := conn_of w' 7 in
  toy_run toy_login = Ret (Some w') /\ g_msg_conn_map w' !! 7 = Some c /\
  m_bOpen c = true /\ m_user_id c = 100000 /\ presented toy_login (drawn w') 7 (m_address_hex c).
Proof.
  intros w' c.
  assert (toy_run toy_login = Ret (Some w')) as Hr by (apply ends_final; by vm_compute).
  assert (g_msg_conn_map w' !! 7 = Some c) as Hc by (apply conn_of_lookup; by vm_compute).
  assert (m_bOpen c = true) as Ho by (by vm_compute).
  assert (m_user_id c = 100000) as Hid by (by vm_compute).
  clearbody c w'. split_and!; try assumption.
  apply (login_requires_signature (map (pair Toy.env0) toy_login) Toy.world0 w' 7 c eq_refl);
    [|assumption..].
  exact toy_login_client.
Defined.

(** The world in which client 7 has asked for its captcha. *)
Definition toy_asked : world := final (toy_run [EvConnect 7; EvPdu 7 Toy.captcha_pdu]).

Definition toy_msg : AuthLoginReq_t :=
  mkAuthLoginReq (Toy.address 9) [65; 0] 1 [] (Toy.sign 9 [65; 0]).

Lemma honest_login_succeeds_witness :
  exists w' c', HandlePdu Toy.env0 toy_asked 7 (Toy.login_pdu 9 9 0) = Ret (Some w') /\
    g_msg_conn_map w' = <[7 := c']> (g_msg_conn_map toy_asked) /\
    m_bOpen c' = true /\ m_user_id c' = 100000 /\ m_address_hex c' = Toy.address 9.
Proof.
  destruct (account Toy.env0 (auth_cache toy_asked) (al_address toy_msg) (9 :: replicate 32 2))
    as [ca id] eqn:Hacc.
  assert (id = 100000) as ->.
  { change id with (ca, id).2. rewrite <- Hacc. by vm_compute. }
  destruct (honest_login_succeeds Toy.env0 eq_refl toy_asked 7 (conn_of toy_asked 7)
    (Toy.login_pdu 9 9 0) toy_msg (ConnPool.mk [1%nat] 2 2 2) 0%nat (9 :: replicate 32 2)
    ((9 :: replicate 32 2) ++ [3]) ca 100000)
    as (w'&c'&info&Hr&Hcs&Ho&Hid&Ha&_);
    [..|exact Hacc|exists w', c'; split_and!; assumption].
  all: try (vm_compute; reflexivity).
  - vm_compute; discriminate.
  - vm_compute; discriminate.
  - intros p. vm_compute. discriminate.
  - vm_compute; discriminate.
Defined.

(** The victim is user 100000, logged in on connection 7; the attacker on
    connection 8 has asked for a captcha. *)
Definition toy_victim : world :=
  final (toy_run (toy_login ++ [EvConnect 8; EvPdu 8 Toy.captcha_pdu])).

Lemma forged_login_opens_witness :
  exists w' c',
    HandlePdu Toy.env0 toy_victim 8 (mkPdu CID_ServerLoginRes 3 0 0 (ser_ServerLoginRes
      (mkServerLoginRes NO_ERROR (Some (mkUser (Some 100000) (Some (Toy.address 9))
        (Some (5 :: replicate 32 2)) (Some []) (Some 0) [] [] [] [] [] 0))
        (AttachData.head 0 0 0)))) = Ret (Some w') /\
    g_msg_conn_map w' !! 8 = Some c' /\ m_bOpen c' = true /\ m_user_id c' = 100000 /\
    m_share_key c' = hex_string ((5 :: replicate 32 2) ++ [3]).
Proof.
  apply (forged_login_opens Toy.env0 toy_victim 8 (conn_of toy_victim 8) 0%nat
    (mkImUser 100000 (Toy.address 9) 7 {[7]})).
  - apply conn_of_lookup. by vm_compute.
  - vm_compute. discriminate.
  - by vm_compute.
  - by vm_compute.
  - by vm_compute.
  - by vm_compute.
  - by vm_compute.
Defined.

Definition toy_refused (key : Z) : ServerLoginReq_t :=
  mkServerLoginReq (Toy.address 9) [65; 0] (Toy.sign key [65; 0]) [].

Lemma refused_logins_block_server_witness :
  exists w', ServerLogins Toy.env0 Toy.world0 [toy_refused 1; toy_refused 2] = Ret (Some w') /\
    forall msg, ServerLogin Toy.env0 w' msg = Ret None.
Proof.
  apply refused_logins_block_server; [done| |done].
  forall_list; (split; [vm_compute; discriminate|intros pub; vm_compute; discriminate]).
Defined.

(** Two clients with a wrong key, and then the rightful one: its login never
    ends. *)
Example two_wrong_keys_lock_out :
  toy_run ([EvConnect 1; EvPdu 1 Toy.captcha_pdu; EvPdu 1 (Toy.login_pdu 9 5 0);
            EvConnect 2; EvPdu 2 Toy.captcha_pdu; EvPdu 2 (Toy.login_pdu 9 6 1);
            EvConnect 3; EvPdu 3 Toy.captcha_pdu; EvPdu 3 (Toy.login_pdu 9 9 2)]) = Ret None.
Proof. by vm_compute. Qed.

(** A response of the business server with no attach data: its handler
    throws. *)
Definition toy_bad_pdu : pdu :=
  mkPdu CID_ServerLoginRes 3 0 0 (ser_ServerLoginRes (mkServerLoginRes NO_ERROR None [])).

(** Two connections of one user; the second is closed for what it sends. *)
Definition toy_thrown : list event :=
  toy_login ++ [EvConnect 8; EvPdu 8 Toy.captcha_pdu; EvPdu 8 (Toy.login_pdu 9 9 1);
    EvPdu 8 toy_bad_pdu].

Example bad_pdu_throws :
  ServerLoginRes (final (toy_run toy_login)) 7 toy_bad_pdu = Throw CByteStream.parse_failed.
Proof. by vm_compute. Qed.

Lemma registry_consistent_witness :
  let w' := final (toy_run toy_thrown) in
  toy_run toy_thrown = Ret (Some w') /\ g_msg_conn_map w' !! 8 = None /\
  m_im_user_address_map w' !! Toy.address 9 = Some 0%nat /\
  (forall h, (exists c, g_msg_conn_map w' !! h = Some c /\ m_address_hex c = Toy.address 9) <->
     (exists p u, m_im_user_address_map w' !! Toy.address 9 = Some p /\ users w' !! p = Some u /\
        h ∈ m_conn_map u)).
Proof.
  intros w'. assert (toy_run toy_thrown = Ret (Some w')) as Hr by (apply ends_final; by vm_compute).
  assert (g_msg_conn_map w' !! 8 = None) as H8 by (by vm_compute).
  assert (m_im_user_address_map w' !! Toy.address 9 = Some 0%nat) as Ha by (by vm_compute).
  clearbody w'. split; [exact Hr|]. split; [exact H8|]. split; [exact Ha|]. intros h.
  pose proof (registry_consistent (map (pair Toy.env0) toy_thrown) Toy.world0
    eq_refl eq_refl eq_refl) as Hm.
  change (run Toy.world0 (map (pair Toy.env0) toy_thrown)) with (toy_run toy_thrown) in Hm.
  rewrite Hr in Hm. apply Hm. discriminate.
Defined.
