(* ===== verification/Broadcast.v ===== *)
(** * Sending to all connections of a user

    Models the rest of [CImUser] and [CImUserManager] (src/src/ptp_server/ImUser.cpp):
    packets to every connection of a user or of all users, and the statistics of open
    connections, on the registry of [Server].  The maps iterate in the order of their
    keys.

    The theorems: after any history, a packet for a registered address goes to exactly the
    open connections that logged in with it, except the sender's, once each and in order,
    and the count of the user is the number of those connections. *)

From stdpp Require Import sorting.
From S2P Require Import Prelude Server.

Module ImUser.
Import Server.

(** The keys of a map in their order. *)
Definition in_order (s : gset Z) : list Z := merge_sort Z.le (elements s).

(** [pConn->...]: the connections of a user are pointers to live objects or dangling. *)
Definition deref_conn (w : world) (h : Z) : outcome conn :=
  match g_msg_conn_map w !! h with Some c => Ret c | None => UB end.

Definition GetMsgConn (u : CImUser) (handle : Z) : option Z := if decide (handle ∈ m_conn_map u) then Some handle else None.

Fixpoint count_open (w : world) (handles : list Z) (conn_cnt : Z) : outcome Z :=
  match handles with
  | [] => Ret conn_cnt
  | h :: handles => c ← deref_conn w h; count_open w handles (if m_bOpen c then u32 (conn_cnt + 1) else conn_cnt)
  end.

(** The number of the user and of its open connections. *)
Definition GetUserConn (w : world) (u : CImUser) : outcome (Z * Z) :=
  conn_cnt ← count_open w (in_order (m_conn_map u)) 0;
  Ret (iu_user_id u, conn_cnt).

(** [pFromConn] may be a null pointer. *)
Fixpoint broadcast_loop (w : world) (handles : list Z) (p : pdu) (pFromConn : option Z) : outcome world :=
  match handles with
  | [] => Ret w
  | h :: handles =>
      if decide (pFromConn = Some h) then broadcast_loop w handles p pFromConn else
      c ← deref_conn w h;
      broadcast_loop (if m_bOpen c then send w (ToClient h p) else w) handles p pFromConn
  end.

Definition BroadcastPdu (w : world) (u : CImUser) (p : pdu) (pFromConn : option Z) : outcome world :=
  broadcast_loop w (in_order (m_conn_map u)) p pFromConn.

Definition GetMsgConnByHandle (w : world) (user_id handle : Z) : outcome (option Z) :=
  match GetImUserById w user_id with
  | None => Ret None
  | Some q => u ← deref_user w q; Ret (GetMsgConn u handle)
  end.

(** The loops over all users, by number. *)
Fixpoint counts_loop (w : world) (ids : list Z) (user_conn_list : list (Z * Z)) (total_conn_cnt : Z) : outcome (list (Z * Z) * Z) :=
  match ids with
  | [] => Ret (user_conn_list, total_conn_cnt)
  | i :: ids =>
      match m_im_user_id_map w !! i with
      | None => UB
      | Some q =>
          u ← deref_user w q;
          user_conn_cnt ← GetUserConn w u;
          counts_loop w ids (user_conn_list ++ [user_conn_cnt]) (u32 (total_conn_cnt + user_conn_cnt.2))
      end
  end.

Definition GetUserConnCnt (w : world) (user_conn_list : list (Z * Z)) : outcome (list (Z * Z) * Z) :=
  counts_loop w (in_order (dom (m_im_user_id_map w))) user_conn_list 0.

Fixpoint online_conns (w : world) (user_id : Z) (handles : list Z) (online_user_info : list (Z * Z * Z)) : outcome (list (Z * Z * Z)) :=
  match handles with
  | [] => Ret online_user_info
  | h :: handles =>
      c ← deref_conn w h;
      online_conns w user_id handles (if m_bOpen c then online_user_info ++ [(user_id, m_client_type c, m_online_status c)] else online_user_info)
  end.

Fixpoint online_loop (w : world) (ids : list Z) (online_user_info : list (Z * Z * Z)) : outcome (list (Z * Z * Z)) :=
  match ids with
  | [] => Ret online_user_info
  | i :: ids =>
      match m_im_user_id_map w !! i with
      | None => UB
      | Some q =>
          u ← deref_user w q;
          info ← online_conns w (iu_user_id u) (in_order (m_conn_map u)) online_user_info;
          online_loop w ids info
      end
  end.

Definition GetOnlineUserInfo (w : world) (online_user_info : list (Z * Z * Z)) : outcome (list (Z * Z * Z)) :=
  online_loop w (in_order (dom (m_im_user_id_map w))) online_user_info.

Fixpoint broadcast_all (w : world) (ids : list Z) (p : pdu) : outcome world :=
  match ids with
  | [] => Ret w
  | i :: ids =>
      match m_im_user_id_map w !! i with
      | None => UB
      | Some q => u ← deref_user w q; w ← BroadcastPdu w u p None; broadcast_all w ids p
      end
  end.

Definition Manager_BroadcastPdu (w : world) (p : pdu) : outcome world := broadcast_all w (in_order (dom (m_im_user_id_map w))) p.

(** [delete] of each user in the registry of numbers. *)
Fixpoint delete_users (us : gmap nat CImUser) (ps : list nat) : outcome (gmap nat CImUser) :=
  match ps with
  | [] => Ret us
  | q :: ps => match us !! q with Some _ => delete_users (delete q us) ps | None => UB end
  end.

Definition RemoveAll (w : world) : outcome world :=
  us ← delete_users (users w) (map snd (map_to_list (m_im_user_id_map w)));
  Ret (set_maps (set_users w us) ∅ ∅).

(** ** Open connections *)

Definition is_open (w : world) (h : Z) : bool := match g_msg_conn_map w !! h with Some c => m_bOpen c | None => false end.

Lemma in_order_elem s h : h ∈ in_order s <-> h ∈ s.
Proof. unfold in_order. rewrite merge_sort_Permutation. apply elem_of_elements. Qed.

Lemma in_order_NoDup s : NoDup (in_order s).
Proof. unfold in_order. rewrite merge_sort_Permutation. apply NoDup_elements. Qed.

Lemma in_order_sorted s : StronglySorted Z.le (in_order s).
Proof. apply StronglySorted_merge_sort; [intros x y z; lia|intros x y; lia]. Qed.

Lemma sorted_filter (P : Z -> Prop) `{forall x, Decision (P x)} l : StronglySorted Z.le l -> StronglySorted Z.le (base.filter P l).
Proof.
  induction 1 as [|x l Hs IH Hx]; [constructor|]. destruct (decide (P x)); [rewrite filter_cons_True by done|by rewrite filter_cons_False].
  constructor; [done|]. rewrite list.Forall_forall in *. intros y [_ Hy]%list_elem_of_filter. by apply Hx.
Qed.

(** The packets of a broadcast. *)
Definition receivers (w : world) (s : gset Z) (from : option Z) : list Z :=
  base.filter (fun h => is_open w h = true /\ from <> Some h) (in_order s).

Lemma broadcast_loop_spec from p : forall hs w, (forall h, h ∈ hs -> is_Some (g_msg_conn_map w !! h)) ->
  exists w', broadcast_loop w hs p from = Ret w' /\ g_msg_conn_map w' = g_msg_conn_map w /\
    out w' = out w ++ map (fun h => ToClient h p) (base.filter (fun h => is_open w h = true /\ from <> Some h) hs).
Proof.
  induction hs as [|h hs IH]; intros w Hl; cbn [broadcast_loop]; [exists w; by rewrite app_nil_r|]. destruct (decide (from = Some h)) as [Hf|Hf].
  - destruct (IH w) as (w' & E & Hm & Ho); [set_solver|]. exists w'. split_and!; [done..|]. rewrite filter_cons_False by naive_solver. done.
  - destruct (Hl h) as [c Hc]; [set_solver|]. unfold deref_conn. rewrite Hc. mstep. destruct (m_bOpen c) eqn:Eo.
    + destruct (IH (send w (ToClient h p))) as (w' & E & Hm & Ho); [intros h' Hh'; apply Hl; set_solver|]. exists w'. split_and!; [done..|].
      rewrite Ho. rewrite filter_cons_True by (unfold is_open; by rewrite Hc). cbn [map]. cbn [send out]. rewrite <- app_assoc. done.
    + destruct (IH w) as (w' & E & Hm & Ho); [intros h' Hh'; apply Hl; set_solver|]. exists w'. split_and!; [done..|].
      rewrite filter_cons_False by (unfold is_open; rewrite Hc, Eo; intuition congruence). done.
Qed.

Lemma count_open_spec w : forall hs n, (forall h, h ∈ hs -> is_Some (g_msg_conn_map w !! h)) -> 0 <= n -> n + zlen hs < 2 ^ 32 ->
  count_open w hs n = Ret (n + zlen (base.filter (fun h => is_open w h = true) hs)).
Proof.
  induction hs as [|h hs IH]; intros n Hl Hn Hb; cbn [count_open]; [f_equal; zlia|]. destruct (Hl h) as [c Hc]; [set_solver|]. rewrite zlen_cons in Hb.
  unfold deref_conn. rewrite Hc. mstep. pose proof (zlen_nonneg hs). destruct (m_bOpen c) eqn:Eo.
  - rewrite wrap_u_small by (unfold is_u; lia). rewrite IH by (set_solver || lia). rewrite filter_cons_True by (unfold is_open; by rewrite Hc). f_equal. zlia.
  - rewrite IH by (set_solver || lia). rewrite filter_cons_False by (unfold is_open; rewrite Hc, Eo; intuition congruence). done.
Qed.

(** The connections of a registered user, after any history. *)
Lemma user_conns_live w q u : registry_ok w -> users w !! q = Some u -> iu_address_hex u <> [] -> forall h, h ∈ m_conn_map u ->
  exists c, g_msg_conn_map w !! h = Some c /\ m_address_hex c = iu_address_hex u.
Proof.
  intros [_ _ R3 _] Hq Ha h Hh. assert (user_conns w !! q = Some (iu_address_hex u, m_conn_map u)) as E by (unfold user_conns; by rewrite lookup_fmap, Hq).
  specialize (R3 _ _ _ h E Hh Ha). unfold conn_addresses in R3. rewrite lookup_fmap in R3. destruct (g_msg_conn_map w !! h) as [c|]; [|done].
  injection R3 as <-. by exists c.
Qed.

Lemma conn_registered w a q u h c : registry_ok w -> m_im_user_address_map w !! a = Some q -> users w !! q = Some u -> a <> [] ->
  g_msg_conn_map w !! h = Some c -> m_address_hex c = a -> h ∈ m_conn_map u.
Proof.
  intros [R1 _ _ R4] Hb Hq Ha Hc Ea. destruct (R4 h a) as (p & S' & Hb' & Hu & Hin); [unfold conn_addresses; rewrite lookup_fmap, Hc; by rewrite <- Ea|done|].
  rewrite Hb in Hb'. injection Hb' as <-. unfold user_conns in Hu. rewrite lookup_fmap, Hq in Hu. by injection Hu as _ <-.
Qed.

(** After any history of the server, a packet broadcast to a registered user of
    address [a] is sent exactly once to each open connection that logged in with [a],
    except the one it comes from, in the order of the handles, and to nobody else; the
    user's connection count is the number of its open connections. *)
Theorem broadcast_reaches_open `{Protobuf} `{Crypto} es w0 w a q u p from :
  g_msg_conn_map w0 = ∅ -> users w0 = ∅ -> m_im_user_address_map w0 = ∅ -> run w0 es = Ret (Some w) ->
  a <> [] -> m_im_user_address_map w !! a = Some q -> users w !! q = Some u -> Z.of_nat (size (m_conn_map u)) < 2 ^ 32 ->
  exists w' hs, BroadcastPdu w u p from = Ret w' /\ out w' = out w ++ map (fun h => ToClient h p) hs /\
    NoDup hs /\ StronglySorted Z.le hs /\
    (forall h, h ∈ hs <-> from <> Some h /\ exists c, g_msg_conn_map w !! h = Some c /\ m_address_hex c = a /\ m_bOpen c = true) /\
    GetUserConn w u = Ret (iu_user_id u, zlen (base.filter (fun h => is_open w h = true) (in_order (m_conn_map u)))).
Proof.
  intros Hc0 Hu0 Hb0 Hrun Ha Hb Hq Hsz.
  assert (registry_ok w) as Hok.
  { apply (run_registry es w0 w); [|done]. unfold registry_ok, conn_addresses, user_conns. rewrite Hc0, Hu0, Hb0, !fmap_empty. split; intros *; by rewrite lookup_empty. }
  assert (iu_address_hex u = a) as Eu.
  { destruct Hok as [R1 _ _ _]. destruct (R1 a q Hb) as (S' & HS & _). unfold user_conns in HS. rewrite lookup_fmap, Hq in HS. by injection HS as <- _. }
  pose proof (user_conns_live w q u Hok Hq ltac:(congruence)) as Hl.
  assert (forall h, h ∈ in_order (m_conn_map u) -> is_Some (g_msg_conn_map w !! h)) as Hs.
  { intros h Hh%in_order_elem. destruct (Hl h Hh) as (c & Hc & _). by exists c. }
  destruct (broadcast_loop_spec from p (in_order (m_conn_map u)) w Hs) as (w' & E & _ & Ho).
  exists w', (receivers w (m_conn_map u) from). unfold receivers. split_and!; [done|done| | | |].
  - apply list.NoDup_filter, in_order_NoDup.
  - apply sorted_filter, in_order_sorted.
  - intros h. rewrite list_elem_of_filter, in_order_elem. unfold is_open. split.
    + intros [[Hop Hf] Hh]. split; [done|]. destruct (Hl h Hh) as (c & Hc & Ec). rewrite Hc in Hop. exists c. by rewrite Ec.
    + intros (Hf & c & Hc & Ec & Hop). rewrite Hc. split; [done|]. by eapply conn_registered.
  - unfold GetUserConn. rewrite count_open_spec; [done|done|lia|]. unfold in_order, zlen. rewrite merge_sort_Permutation. exact Hsz.
Qed.

End ImUser.
