(* ===== verification/Cache.v ===== *)
(** * Connections to the cache server

    Models [CacheConn] of src/src/ptp_server/CachePool.cpp: one connection to a redis
    server, opened when a command needs it, with one function per command.

    hiredis is the class [Hiredis]: the network and the servers are a state that
    connecting and commands change.  Its contexts are heap objects; [live] are those not
    yet freed, and a command on another one is undefined.  [Redis] adds the documented
    effect of the commands the login uses.

    The theorems: which commands are safe and that no context is leaked; what happens
    after a lost [EXISTS] and after a refused [AUTH]; and that a connection implements
    the cache of [Server]. *)

From S2P Require Import Prelude Helpers Server.

(** [redisReply]. *)
#[warnings="-register-all"]
Inductive reply :=
| REPLY_STATUS (s : list Z)
| REPLY_ERROR (s : list Z)
| REPLY_STRING (s : list Z)
| REPLY_INTEGER (n : Z)
| REPLY_NIL
| REPLY_ARRAY (l : list reply).

(** [connect n p ip port]: a null pointer, or context [p] with its [err].
    [command n p argv]: a null pointer when the connection is lost.  [format]: the
    arguments that a format without arguments of its own stands for. *)
Class Hiredis (net : Type) := {
  connect : net -> nat -> list Z -> Z -> net * option bool;
  command : net -> nat -> list (list Z) -> net * option reply;
  hangup : net -> nat -> net;
  format : list Z -> outcome (list (list Z));
}.

Module CacheConn.

(** The pool's settings. *)
Record pool := mkPool { m_server_ip : list Z; m_server_port : Z; m_auth : list Z; m_db_num : Z }.

Record t := mk { m_pContext : option nat; m_last_connect_time : Z }.

Definition new : t := mk None 0.

(** [reply->integer], [reply->str] with [reply->len], which hiredis sets to zero and
    null where the type has none. *)
Definition integer (r : reply) : Z := match r with REPLY_INTEGER n => n | _ => 0 end.
Definition text (r : reply) : list Z := match r with REPLY_STATUS s | REPLY_ERROR s | REPLY_STRING s => s | _ => [] end.

(** [%ld]. *)
Definition print_long (n : Z) : list Z := if 0 <=? n then Helpers.dec_loop 20 n [] else 45 :: Helpers.dec_loop 20 (- n) [].

Section CacheConn.
Context `{Hiredis net} (m_pCachePool : pool).

Record world := mkW { wire : net; live : gset nat; next : nat }.

Definition redisCommand (w : world) (p : nat) (argv : list (list Z)) : outcome (world * option reply) :=
  if bool_decide (p ∈ live w) then let '(n, r) := command (wire w) p argv in Ret (mkW n (live w) (next w), r) else UB.

Definition redisFree (w : world) (p : nat) : outcome world :=
  if bool_decide (p ∈ live w) then Ret (mkW (hangup (wire w) p) (live w ∖ {[p]}) (next w)) else UB.

(** [reply && reply->type == REDIS_REPLY_STATUS && strncmp(reply->str, "OK", 2) == 0]. *)
Definition is_ok (r : option reply) : bool :=
  match r with Some (REPLY_STATUS s) => bool_decide (take 2 (c_str s) = bytes_of "OK") | _ => false end.

(** [cur_time] is what [time] gives. *)
Definition Init (cur_time : Z) (w : world) (c : t) : outcome (world * t * Z) :=
  match m_pContext c with
  | Some _ => Ret (w, c, 0)
  | None =>
      if cur_time <? u64 (m_last_connect_time c + 4) then Ret (w, c, 1) else
      let '(n, err) := connect (wire w) (next w) (m_server_ip m_pCachePool) (m_server_port m_pCachePool) in
      match err with
      | None => Ret (mkW n (live w) (next w), mk None cur_time, 1)
      | Some true =>
          w ← redisFree (mkW n ({[next w]} ∪ live w) (S (next w))) (next w);
          Ret (w, mk None cur_time, 1)
      | Some false =>
          let p := next w in
          let c := mk (Some p) cur_time in
          '(w, reply1) ← redisCommand (mkW n ({[p]} ∪ live w) (S p)) p [bytes_of "AUTH"; c_str (m_auth m_pCachePool)];
          if is_ok reply1 then
            '(w, reply) ← redisCommand w p [bytes_of "SELECT"; print_long (m_db_num m_pCachePool)];
            if is_ok reply then Ret (w, c, 0) else Ret (w, c, 2)
          else Ret (w, c, 2)
      end
  end.

(** What every command does: [Init], the command itself, and the end of the connection
    when there is no reply. *)
Definition with_reply {A} (cur_time : Z) (w : world) (c : t) (argv : list (list Z)) (failed : A) (k : reply -> outcome A) :
    outcome (world * t * A) :=
  '(w, c, err) ← Init cur_time w c;
  if negb (err =? 0) then Ret (w, c, failed) else
  match m_pContext c with
  | None => UB
  | Some p =>
      '(w, r) ← redisCommand w p argv;
      match r with
      | None => w ← redisFree w p; Ret (w, mk None (m_last_connect_time c), failed)
      | Some r => x ← k r; Ret (w, c, x)
      end
  end.

Definition get (cur_time : Z) (w : world) (c : t) (key : list Z) : outcome (world * t * list Z) :=
  with_reply cur_time w c [bytes_of "GET"; c_str key] [] (fun r => Ret (match r with REPLY_STRING s => s | _ => [] end)).

Definition setex (cur_time : Z) (w : world) (c : t) (key : list Z) (timeout : Z) (value : list Z) : outcome (world * t * list Z) :=
  with_reply cur_time w c [bytes_of "SETEX"; c_str key; print_long timeout; c_str value] [] (fun r => Ret (text r)).

Definition set (cur_time : Z) (w : world) (c : t) (key value : list Z) : outcome (world * t * list Z) :=
  with_reply cur_time w c [bytes_of "SET"; c_str key; c_str value] [] (fun r => Ret (text r)).

Fixpoint join_keys (keys : list (list Z)) : list Z :=
  match keys with
  | [] => []
  | [k] => k
  | k :: keys => k ++ [32] ++ join_keys keys
  end.

(** [ret_value\[keys\[i\]\] = child_reply->str] for each string. *)
Fixpoint mget_loop (elements : list reply) (keys : list (list Z)) (ret_value : gmap (list Z) (list Z)) : outcome (gmap (list Z) (list Z)) :=
  match elements with
  | [] => Ret ret_value
  | REPLY_STRING s :: elements =>
      match keys with
      | [] => UB
      | k :: keys => mget_loop elements keys (<[k := c_str s]> ret_value)
      end
  | _ :: elements => mget_loop elements (tail keys) ret_value
  end.

(** [redisCommand] reads the format before it sends the command; a format it cannot
    read is an error it sets in the context. *)
Definition redisFormat (w : world) (c : t) (text : list Z) : outcome (list (list Z)) :=
  match m_pContext c with
  | Some p => if bool_decide (p ∈ live w) then format text else UB
  | None => UB
  end.

Definition mget (cur_time : Z) (w : world) (c : t) (keys : list (list Z)) (ret_value : gmap (list Z) (list Z)) :
    outcome (world * t * (bool * gmap (list Z) (list Z))) :=
  '(w, c, err) ← Init cur_time w c;
  if negb (err =? 0) then Ret (w, c, (false, ret_value)) else
  if decide (keys = []) then Ret (w, c, (false, ret_value)) else
  if decide (join_keys keys = []) then Ret (w, c, (false, ret_value)) else
  argv ← redisFormat w c (c_str (bytes_of "MGET " ++ join_keys keys));
  with_reply cur_time w c argv (false, ret_value)
    (fun r => ret_value ← (match r with REPLY_ARRAY l => mget_loop l keys ret_value | _ => Ret ret_value end); Ret (true, ret_value)).

(** A lost connection is freed but its pointer is kept. *)
Definition isExists (cur_time : Z) (w : world) (c : t) (key : list Z) : outcome (world * t * bool) :=
  '(w, c, err) ← Init cur_time w c;
  if negb (err =? 0) then Ret (w, c, false) else
  match m_pContext c with
  | None => UB
  | Some p =>
      '(w, r) ← redisCommand w p [bytes_of "EXISTS"; c_str key];
      match r with
      | None => w ← redisFree w p; Ret (w, c, false)
      | Some r => Ret (w, c, negb (integer r =? 0))
      end
  end.

Definition hdel (cur_time : Z) (w : world) (c : t) (key field : list Z) : outcome (world * t * Z) :=
  with_reply cur_time w c [bytes_of "HDEL"; c_str key; c_str field] 0 (fun r => Ret (integer r)).

Definition hget (cur_time : Z) (w : world) (c : t) (key field : list Z) : outcome (world * t * list Z) :=
  with_reply cur_time w c [bytes_of "HGET"; c_str key; c_str field] [] (fun r => Ret (match r with REPLY_STRING s => s | _ => [] end)).

(** [insert] keeps what is there. *)
Fixpoint hgetAll_loop (elements : list reply) (ret_value : gmap (list Z) (list Z)) : gmap (list Z) (list Z) :=
  match elements with
  | field :: value :: elements => hgetAll_loop elements (match ret_value !! text field with Some _ => ret_value | None => <[text field := text value]> ret_value end)
  | _ => ret_value
  end.

Definition hgetAll (cur_time : Z) (w : world) (c : t) (key : list Z) (ret_value : gmap (list Z) (list Z)) : outcome (world * t * (bool * gmap (list Z) (list Z))) :=
  with_reply cur_time w c [bytes_of "HGETALL"; c_str key] (false, ret_value)
    (fun r => Ret (true, match r with REPLY_ARRAY l => if Nat.even (length l) then hgetAll_loop l ret_value else ret_value | _ => ret_value end)).

Definition hset (cur_time : Z) (w : world) (c : t) (key field value : list Z) : outcome (world * t * Z) :=
  with_reply cur_time w c [bytes_of "HSET"; c_str key; c_str field; c_str value] (-1) (fun r => Ret (integer r)).

Definition hincrBy (cur_time : Z) (w : world) (c : t) (key field : list Z) (value : Z) : outcome (world * t * Z) :=
  with_reply cur_time w c [bytes_of "HINCRBY"; c_str key; c_str field; print_long value] (-1) (fun r => Ret (integer r)).

Definition incrBy (cur_time : Z) (w : world) (c : t) (key : list Z) (value : Z) : outcome (world * t * Z) :=
  with_reply cur_time w c [bytes_of "INCRBY"; c_str key; print_long value] (-1) (fun r => Ret (integer r)).

(** [hash] lists the entries in the order of the map. *)
Definition hmset (cur_time : Z) (w : world) (c : t) (key : list Z) (hash : list (list Z * list Z)) : outcome (world * t * list Z) :=
  with_reply cur_time w c (bytes_of "HMSET" :: c_str key :: concat (map (fun '(f, v) => [c_str f; c_str v]) hash)) [] (fun r => Ret (text r)).

(** The texts of an array. *)
Definition push_elements (r : reply) (ret_value : list (list Z)) : list (list Z) :=
  match r with REPLY_ARRAY l => ret_value ++ map text l | _ => ret_value end.

Definition hmget (cur_time : Z) (w : world) (c : t) (key : list Z) (fields ret_value : list (list Z)) : outcome (world * t * (bool * list (list Z))) :=
  with_reply cur_time w c (bytes_of "HMGET" :: c_str key :: map c_str fields) (false, ret_value) (fun r => Ret (true, push_elements r ret_value)).

(** [ret_list] may be a null pointer. *)
Definition exec (cur_time : Z) (w : world) (c : t) (argv_list : list (list Z)) (ret_list : option (list (list Z))) : outcome (world * t * (bool * option (list (list Z)))) :=
  '(w, c, err) ← Init cur_time w c;
  if negb (err =? 0) || (zlen argv_list =? 0) then Ret (w, c, (false, ret_list)) else
  with_reply cur_time w c (map c_str argv_list) (false, ret_list) (fun r => Ret (true, push_elements r <$> ret_list)).

Definition cmd (cur_time : Z) (w : world) (c : t) (cmd_name key : list Z) (argv_list : option (list (list Z))) (ret_list : option (list (list Z))) :
    outcome (world * t * (bool * option (list (list Z)))) :=
  with_reply cur_time w c (c_str cmd_name :: c_str key :: map c_str (default [] argv_list)) (false, ret_list)
    (fun r => Ret (true, push_elements r <$> ret_list)).

Definition incr (cur_time : Z) (w : world) (c : t) (key : list Z) : outcome (world * t * Z) :=
  with_reply cur_time w c [bytes_of "INCR"; c_str key] (-1) (fun r => Ret (integer r)).

Definition decr (cur_time : Z) (w : world) (c : t) (key : list Z) : outcome (world * t * Z) :=
  with_reply cur_time w c [bytes_of "DECR"; c_str key] (-1) (fun r => Ret (integer r)).

Definition lpush (cur_time : Z) (w : world) (c : t) (key value : list Z) : outcome (world * t * Z) :=
  with_reply cur_time w c [bytes_of "LPUSH"; c_str key; c_str value] (-1) (fun r => Ret (integer r)).

Definition rpush (cur_time : Z) (w : world) (c : t) (key value : list Z) : outcome (world * t * Z) :=
  with_reply cur_time w c [bytes_of "RPUSH"; c_str key; c_str value] (-1) (fun r => Ret (integer r)).

Definition llen (cur_time : Z) (w : world) (c : t) (key : list Z) : outcome (world * t * Z) :=
  with_reply cur_time w c [bytes_of "LLEN"; c_str key] (-1) (fun r => Ret (integer r)).

(** The bounds are of type [long] and printed with [%d]. *)
Definition lrange (cur_time : Z) (w : world) (c : t) (key : list Z) (start end_ : Z) (ret_value : list (list Z)) : outcome (world * t * (bool * list (list Z))) :=
  with_reply cur_time w c [bytes_of "LRANGE"; c_str key; print_long (i32 start); print_long (i32 end_)] (false, ret_value)
    (fun r => Ret (true, push_elements r ret_value)).

(** The destructor. *)
Definition destroy (w : world) (c : t) : outcome world :=
  match m_pContext c with Some p => redisFree w p | None => Ret w end.

End CacheConn.

Arguments world : clear implicits.
Arguments mkW {net}.

End CacheConn.

(** ** Sequences of commands *)

Module Commands.
Import CacheConn.

Inductive op :=
| Get (key : list Z)
| Setex (key : list Z) (timeout : Z) (value : list Z)
| Set_ (key value : list Z)
| Mget (keys : list (list Z)) (ret : gmap (list Z) (list Z))
| IsExists (key : list Z)
| Hdel (key field : list Z)
| Hget (key field : list Z)
| HgetAll (key : list Z) (ret : gmap (list Z) (list Z))
| Hset (key field value : list Z)
| HincrBy (key field : list Z) (value : Z)
| IncrBy (key : list Z) (value : Z)
| Hmset (key : list Z) (hash : list (list Z * list Z))
| Hmget (key : list Z) (fields ret : list (list Z))
| Exec (argv : list (list Z)) (ret : option (list (list Z)))
| Cmd (name key : list Z) (argv ret : option (list (list Z)))
| Incr (key : list Z)
| Decr (key : list Z)
| Lpush (key value : list Z)
| Rpush (key value : list Z)
| Llen (key : list Z)
| Lrange (key : list Z) (start end_ : Z) (ret : list (list Z)).

Section Commands.
Context `{Hiredis net} (pl : pool).

Definition state_of {A} (r : outcome (world net * t * A)) : outcome (world net * t) := '(w, c, _) ← r; Ret (w, c).

Definition step (now : Z) (w : world net) (c : t) (o : op) : outcome (world net * t) :=
  match o with
  | Get k => state_of (get pl now w c k)
  | Setex k n v => state_of (setex pl now w c k n v)
  | Set_ k v => state_of (set pl now w c k v)
  | Mget ks m => state_of (mget pl now w c ks m)
  | IsExists k => state_of (isExists pl now w c k)
  | Hdel k f => state_of (hdel pl now w c k f)
  | Hget k f => state_of (hget pl now w c k f)
  | HgetAll k m => state_of (hgetAll pl now w c k m)
  | Hset k f v => state_of (hset pl now w c k f v)
  | HincrBy k f v => state_of (hincrBy pl now w c k f v)
  | IncrBy k v => state_of (incrBy pl now w c k v)
  | Hmset k h => state_of (hmset pl now w c k h)
  | Hmget k fs l => state_of (hmget pl now w c k fs l)
  | Exec a l => state_of (exec pl now w c a l)
  | Cmd n k a l => state_of (cmd pl now w c n k a l)
  | Incr k => state_of (incr pl now w c k)
  | Decr k => state_of (decr pl now w c k)
  | Lpush k v => state_of (lpush pl now w c k v)
  | Rpush k v => state_of (rpush pl now w c k v)
  | Llen k => state_of (llen pl now w c k)
  | Lrange k a b l => state_of (lrange pl now w c k a b l)
  end.

Fixpoint run (w : world net) (c : t) (ops : list (Z * op)) : outcome (world net * t) :=
  match ops with
  | [] => Ret (w, c)
  | (now, o) :: ops => '(w, c) ← step now w c o; run w c ops
  end.

(** The context a connection owns, beside those [F] of others. *)
Definition own (c : t) : gset nat := match m_pContext c with Some p => {[p]} | None => ∅ end.

Definition wf (F : gset nat) (w : world net) (c : t) : Prop :=
  live w = F ∪ own c /\ own c ## F /\ forall p, p ∈ live w -> (p < next w)%nat.

Lemma wf_live F w c p : wf F w c -> m_pContext c = Some p -> p ∈ live w.
Proof. intros (-> & _ & _) E. unfold own. rewrite E. set_solver. Qed.

Lemma wf_wire F w c n : wf F w c -> wf F (mkW n (live w) (next w)) c.
Proof. done. Qed.

Lemma wf_free F w c p s : wf F w c -> m_pContext c = Some p -> exists w', redisFree w p = Ret w' /\ wf F w' (mk None s) /\ (p ∉ live w') /\ live w' = F.
Proof.
  intros Hw E. pose proof (wf_live F w c p Hw E). unfold redisFree. rewrite bool_decide_eq_true_2 by done. eexists. split; [done|].
  destruct Hw as (Hl & Hd & Hn). unfold own in Hl, Hd. rewrite E in Hl, Hd. unfold wf, own. cbn [live next m_pContext].
  assert (live w ∖ {[p]} = F) by set_solver. split_and!; [set_solver|set_solver|intros q Hq; apply Hn; set_solver|set_solver|done].
Qed.

Lemma wf_command F w c p argv : wf F w c -> m_pContext c = Some p ->
  exists n r, command (wire w) p argv = (n, r) /\ redisCommand w p argv = Ret (mkW n (live w) (next w), r) /\ wf F (mkW n (live w) (next w)) c.
Proof.
  intros Hw E. pose proof (wf_live F w c p Hw E). unfold redisCommand. rewrite bool_decide_eq_true_2 by done.
  destruct (command _ p argv) as [n r]. by exists n, r.
Qed.

(** A new context. *)
Lemma wf_fresh F w c s n : wf F w c -> m_pContext c = None -> wf F (mkW n ({[next w]} ∪ live w) (S (next w))) (mk (Some (next w)) s).
Proof.
  intros (Hl & Hd & Hn) E. unfold own in Hl. rewrite E in Hl. unfold wf, own. cbn [live next m_pContext]. split_and!.
  - set_solver.
  - assert (next w ∉ live w) by (intros Hi; apply Hn in Hi; lia). set_solver.
  - intros p Hp. assert (p = next w \/ p ∈ live w) as [->|Hp'] by set_solver; [lia|]. apply Hn in Hp'. lia.
Qed.

Lemma Init_wf F now w c : wf F w c ->
  exists w' c' r, Init pl now w c = Ret (w', c', r) /\ wf F w' c' /\ (r = 0 -> is_Some (m_pContext c')).
Proof.
  intros Hw. unfold Init. destruct (m_pContext c) as [p|] eqn:E; [by exists w, c, 0; rewrite E|].
  destruct (now <? _); [by exists w, c, 1|]. destruct (connect _ _ _ _) as [n [[|]|]].
  - destruct (wf_free F (mkW n ({[next w]} ∪ live w) (S (next w))) (mk (Some (next w)) now) (next w) now) as (w' & -> & Hw' & _);
      [by apply (wf_fresh F w c)|done|]. mstep. by exists w', (mk None now), 1.
  - pose proof (wf_fresh F w c now n Hw E) as Hn. set (w1 := mkW n _ _) in *. set (c1 := mk (Some (next w)) now) in *.
    destruct (wf_command F w1 c1 (next w) [bytes_of "AUTH"; c_str (m_auth pl)] Hn eq_refl) as (n2 & r2 & _ & -> & Hn2). mstep.
    destruct (is_ok r2); [|by do 3 eexists].
    destruct (wf_command F _ c1 (next w) [bytes_of "SELECT"; print_long (m_db_num pl)] Hn2 eq_refl) as (n3 & r3 & _ & -> & Hn3). mstep.
    destruct (is_ok r3); by do 3 eexists.
  - exists (mkW n (live w) (next w)), (mk None now), 1. split; [done|]. split; [|done]. destruct Hw as (Hl & Hd & Hn). unfold wf, own in *. by rewrite E in *.
Qed.

Lemma with_reply_wf {A} F now w c argv (failed : A) k : wf F w c ->
  (forall n p r, (command n p argv).2 = Some r -> exists x, k r = Ret x) ->
  exists w' c' x, with_reply pl now w c argv failed k = Ret (w', c', x) /\ wf F w' c'.
Proof.
  intros Hw Hk. unfold with_reply. destruct (Init_wf F now w c Hw) as (w1 & c1 & r & -> & Hw1 & Hs). mstep.
  destruct (Z.eqb_spec r 0) as [->|]; cbn [negb]; [|by do 3 eexists]. destruct (Hs eq_refl) as [p E]. rewrite E.
  destruct (wf_command F w1 c1 p argv Hw1 E) as (n & rp & Ec & -> & Hw2). mstep. destruct rp as [rp|].
  - destruct (Hk (wire w1) p rp) as [x ->]; [by rewrite Ec|]. mstep. by do 3 eexists.
  - destruct (wf_free F _ c1 p (m_last_connect_time c1) Hw2 E) as (w3 & -> & Hw3 & _). mstep. by do 3 eexists.
Qed.

Lemma mget_loop_ok l : forall keys m, (length l <= length keys)%nat -> exists m', mget_loop l keys m = Ret m'.
Proof.
  induction l as [|r l IH]; intros keys m Hl; [by eexists|]. destruct keys as [|k keys]; [cbn in Hl; lia|]. cbn [length] in Hl.
  destruct r; cbn [mget_loop tail]; apply IH; lia.
Qed.

Definition is_exists (o : op) : bool := match o with IsExists _ => true | _ => false end.

(** What the code of [mget] does not expect: a text that is no format, or a reply with
    more elements than there are keys. *)
Definition misread (o : op) : Prop :=
  match o with
  | Mget keys _ =>
      let text := c_str (bytes_of "MGET " ++ join_keys keys) in
      (forall argv, format text <> Ret argv) \/
      exists argv n p l, format text = Ret argv /\ (command n p argv).2 = Some (REPLY_ARRAY l) /\ (length keys < length l)%nat
  | _ => False
  end.

Lemma state_of_Ret {A} (r : outcome (world net * t * A)) F :
  (exists w c x, r = Ret (w, c, x) /\ wf F w c) -> exists w c, state_of r = Ret (w, c) /\ wf F w c.
Proof. intros (w & c & x & -> & Hw). by exists w, c. Qed.

Lemma format_live F w c text : wf F w c -> is_Some (m_pContext c) -> redisFormat w c text = format text.
Proof. intros Hw [p E]. unfold redisFormat. rewrite E, bool_decide_eq_true_2; [done|]. by eapply wf_live. Qed.

(** The reply of [mget] is read, or there are more elements than keys. *)
Lemma mget_read (r : reply) keys ret : (exists m, (match r with REPLY_ARRAY l => mget_loop l keys ret | _ => Ret ret end) = Ret m) \/
  exists l, r = REPLY_ARRAY l /\ (length keys < length l)%nat.
Proof.
  destruct r; try (left; by eexists). destruct (decide (length l <= length keys)%nat) as [Hl|Hl]; [left|right; exists l; split; [done|lia]].
  destruct (mget_loop_ok l keys ret Hl) as [m E]. by exists m.
Qed.

Lemma mget_wf F now w c keys ret : wf F w c ->
  (exists w' c' x, mget pl now w c keys ret = Ret (w', c', x) /\ wf F w' c') \/ misread (Mget keys ret).
Proof.
  intros Hw. unfold mget. destruct (Init_wf F now w c Hw) as (w1 & c1 & r & -> & Hw1 & Hs). mstep.
  destruct (Z.eqb_spec r 0) as [->|]; cbn [negb]; [|left; by do 3 eexists].
  destruct (decide (keys = [])); [left; by do 3 eexists|]. destruct (decide (join_keys keys = [])); [left; by do 3 eexists|].
  rewrite (format_live F w1 c1) by auto. cbn [misread]. set (text := c_str _). destruct (format text) as [argv| | |] eqn:Ef; try (right; by left).
  mstep. unfold with_reply, Init. destruct (Hs eq_refl) as [p E]. rewrite E. mstep. cbn [Z.eqb negb]. rewrite E.
  destruct (wf_command F w1 c1 p argv Hw1 E) as (n' & rp & Ec & -> & Hw2). mstep. destruct rp as [rp|].
  - destruct (mget_read rp keys ret) as [[m ->]|(l & -> & Hl)]; [left; mstep; by do 3 eexists|].
    right; right. exists argv, (wire w1), p, l. by rewrite Ec.
  - destruct (wf_free F _ c1 p (m_last_connect_time c1) Hw2 E) as (w3 & -> & Hw3 & _). mstep. left; by do 3 eexists.
Qed.

Lemma step_wf F now w c o : wf F w c -> is_exists o = false -> (exists w' c', step now w c o = Ret (w', c') /\ wf F w' c') \/ misread o.
Proof.
  intros Hw Ho. destruct o; cbn [step]; try done; try (left; apply state_of_Ret; apply with_reply_wf; [done|]; intros; by eexists).
  - destruct (mget_wf F now w c keys ret Hw) as [H1|H1]; [left; by apply state_of_Ret|by right].
  - left; apply state_of_Ret. unfold exec. destruct (Init_wf F now w c Hw) as (w1 & c1 & r & -> & Hw1 & _). mstep. destruct (_ || _); [by do 3 eexists|].
    apply with_reply_wf; [done|]. intros; by eexists.
Qed.

Lemma run_wf F ops : forall w c, wf F w c -> Forall (fun x => is_exists x.2 = false) ops ->
  (exists w' c', run w c ops = Ret (w', c') /\ wf F w' c') \/
  exists pre now o post w1 c1, ops = pre ++ (now, o) :: post /\ run w c pre = Ret (w1, c1) /\ wf F w1 c1 /\ misread o.
Proof.
  induction ops as [|[now o] ops IH]; intros w c Hw Ho; [left; by exists w, c|]. apply Forall_cons_1 in Ho as [Ho Hs].
  destruct (step_wf F now w c o Hw Ho) as [(w1 & c1 & E & Hw1)|Hm]; [|right; by exists [], now, o, ops, w, c].
  destruct (IH w1 c1 Hw1 Hs) as [(w' & c' & E' & Hw')|(pre & now' & o' & post & w2 & c2 & -> & E2 & H2)].
  - left. cbn [run]. rewrite E. by exists w', c'.
  - right. exists ((now, o) :: pre), now', o', post, w2, c2. split; [done|]. cbn [run]. rewrite E. done.
Qed.

(** A command that reaches the server: all but an [mget] of no text and an [exec] of no
    arguments. *)
Definition sends (o : op) : bool :=
  match o with
  | Mget keys _ => negb (bool_decide (join_keys keys = []))
  | Exec argv _ => negb (bool_decide (argv = []))
  | _ => true
  end.

Lemma with_reply_dangling {A} now w c p argv (failed : A) k : m_pContext c = Some p -> p ∉ live w -> with_reply pl now w c argv failed k = UB.
Proof. intros E Hp. unfold with_reply, Init. rewrite E. mstep. cbn [Z.eqb negb]. rewrite E. unfold redisCommand. by rewrite bool_decide_eq_false_2. Qed.

Lemma step_dangling now w c p o : m_pContext c = Some p -> p ∉ live w -> step now w c o = if sends o then UB else Ret (w, c).
Proof.
  intros E Hp. destruct o; cbn [step sends]; try done; unfold state_of; try (unfold get, setex, set, hdel, hget, hgetAll, hset, hincrBy, incrBy, hmset, hmget, cmd, incr, decr, lpush, rpush, llen, lrange; by erewrite with_reply_dangling).
  - unfold mget, Init. rewrite E. mstep. cbn [Z.eqb negb]. destruct (decide (keys = [])) as [->|]; [done|].
    destruct (decide (join_keys keys = [])) as [->|Hj]; [done|]. rewrite bool_decide_eq_false_2 by done. cbn [negb].
    unfold redisFormat. rewrite E. by rewrite bool_decide_eq_false_2.
  - unfold isExists, Init. rewrite E. mstep. cbn [Z.eqb negb]. rewrite E. unfold redisCommand. by rewrite bool_decide_eq_false_2.
  - unfold exec, Init. rewrite E. mstep. cbn [Z.eqb negb orb]. destruct argv as [|a argv]; [done|].
    rewrite (proj2 (Z.eqb_neq _ 0)) by zlia. rewrite bool_decide_eq_false_2 by done. cbn [negb]. by erewrite with_reply_dangling.
Qed.

(** C33. A sequence of commands other than [isExists], whatever the server replies and
    whenever connections fail: either it runs without using a freed context, leaves the
    contexts of others alone and leaks none, so that the connection owns at most one at
    the end and the destructor frees it; or it runs that way up to an [mget] whose text
    hiredis refuses as a format or whose reply has more elements than there are keys. *)
Theorem contexts_managed F w c ops : wf F w c -> Forall (fun x => is_exists x.2 = false) ops ->
  (exists w' c' w'', run w c ops = Ret (w', c') /\ wf F w' c' /\ destroy w' c' = Ret w'' /\ live w'' = F) \/
  (exists pre now o post w' c', ops = pre ++ (now, o) :: post /\ run w c pre = Ret (w', c') /\ wf F w' c' /\ misread o).
Proof.
  intros Hw Ho. destruct (run_wf F ops w c Hw Ho) as [(w' & c' & E & Hw')|H1]; [left|by right]. exists w', c'. unfold destroy. destruct (m_pContext c') as [p|] eqn:Ep.
  - destruct (wf_free F w' c' p 0 Hw' Ep) as (w'' & -> & _ & _ & Hl). by exists w''.
  - exists w'. split_and!; [done..|]. destruct Hw' as (-> & _ & _). unfold own. rewrite Ep. set_solver.
Qed.

(** C40. On an open connection, an [isExists] that loses it frees the context and keeps
    its pointer: the next command, at whatever time, uses the freed context, and so does
    the destructor.  The only commands that do not are those that return false before
    they send anything, an [mget] of no text and an [exec] of no arguments; they leave
    the connection as it is. *)
Theorem lost_exists_dangles F now now' w c p key o : wf F w c -> m_pContext c = Some p ->
  (command (wire w) p [bytes_of "EXISTS"; c_str key]).2 = None ->
  exists w', isExists pl now w c key = Ret (w', c, false) /\ step now' w' c o = (if sends o then UB else Ret (w', c)) /\ destroy w' c = UB.
Proof.
  intros Hw E El. unfold isExists, Init. rewrite E. mstep. cbn [Z.eqb negb]. rewrite E.
  destruct (wf_command F w c p [bytes_of "EXISTS"; c_str key] Hw E) as (n & r & Ec & -> & Hw2). rewrite Ec in El. cbn [snd] in El. subst r. mstep.
  destruct (wf_free F _ c p 0 Hw2 E) as (w3 & -> & _ & Hp & _). mstep. exists w3. split; [done|]. split; [by apply (step_dangling _ _ _ p)|].
  unfold destroy, redisFree. rewrite E. by rewrite bool_decide_eq_false_2.
Qed.

(** A server that refuses the password is used all the same: the command that opened
    the connection fails, but the context stays, and from then on [Init] reports success
    without asking again. *)
Theorem refused_login_forgotten now now' w c n n' r : m_pContext c = None -> u64 (m_last_connect_time c + 4) <= now ->
  connect (wire w) (next w) (m_server_ip pl) (m_server_port pl) = (n, Some false) ->
  command n (next w) [bytes_of "AUTH"; c_str (m_auth pl)] = (n', r) -> is_ok r = false ->
  exists w' c', Init pl now w c = Ret (w', c', 2) /\ Init pl now' w' c' = Ret (w', c', 0) /\ m_pContext c' = Some (next w) /\ next w ∈ live w'.
Proof.
  intros E Ht Ec Ea Er. unfold Init at 1. rewrite E. rewrite (proj2 (Z.ltb_ge _ _)) by done. rewrite Ec. unfold redisCommand. cbn [live wire next].
  rewrite bool_decide_eq_true_2 by set_solver. rewrite Ea. mstep. rewrite Er. do 2 eexists. split; [done|]. split; [done|]. split; [done|].
  cbn [live]. set_solver.
Qed.

(** A key with a space stands for two keys in the text of MGET; when both have values,
    the second one is stored under a key after the last. *)
Theorem mget_space_undefined now w c p k argv n s1 s2 ret : m_pContext c = Some p -> p ∈ live w -> k <> [] ->
  format (c_str (bytes_of "MGET " ++ k)) = Ret argv -> command (wire w) p argv = (n, Some (REPLY_ARRAY [REPLY_STRING s1; REPLY_STRING s2])) ->
  mget pl now w c [k] ret = UB.
Proof.
  intros E Hp Hk Ef Ec. unfold mget, Init. rewrite E. mstep. cbn [Z.eqb negb join_keys]. rewrite decide_False by done. rewrite decide_False by done.
  unfold redisFormat at 1. rewrite E, bool_decide_eq_true_2 by done. rewrite Ef. mstep. unfold with_reply, Init. rewrite E. mstep. cbn [Z.eqb negb]. rewrite E. unfold redisCommand. rewrite bool_decide_eq_true_2 by done.
  rewrite Ec. mstep. done.
Qed.

End Commands.
End Commands.

(** ** The commands of the login *)

(** The number a text stands for, when it is one as redis prints it. *)
Definition int_value (v : list Z) : Z :=
  match v with 45 :: ds => - Helpers.digits_value 0 ds | ds => Helpers.digits_value 0 ds end.

Definition int_of (v : list Z) : option Z :=
  let z := int_value v in
  if bool_decide (CacheConn.print_long z = v) && bool_decide (is_s 64 z) then Some z else None.

(** A database of texts.  [session]: the context is connected, has given the password and
    selected the database. *)
Class Redis (net : Type) `{Hiredis net} := {
  session : net -> nat -> Prop;
  strings : net -> gmap (list Z) (list Z);
  GET_law n p k : session n p -> exists n',
    command n p [bytes_of "GET"; k] = (n', Some (match strings n !! k with Some v => REPLY_STRING v | None => REPLY_NIL end)) /\
    session n' p /\ strings n' = strings n;
  INCRBY_law n p k v z : session n p -> is_s 64 v -> int_of (default (bytes_of "0") (strings n !! k)) = Some z -> is_s 64 (z + v) -> exists n',
    command n p [bytes_of "INCRBY"; k; CacheConn.print_long v] = (n', Some (REPLY_INTEGER (z + v))) /\
    session n' p /\ strings n' = <[k := CacheConn.print_long (z + v)]> (strings n);
  INCR_law n p k z : session n p -> int_of (default (bytes_of "0") (strings n !! k)) = Some z -> is_s 64 (z + 1) -> exists n',
    command n p [bytes_of "INCR"; k] = (n', Some (REPLY_INTEGER (z + 1))) /\
    session n' p /\ strings n' = <[k := CacheConn.print_long (z + 1)]> (strings n);
  MSET_law n p (kvs : list (list Z * list Z)) : session n p -> kvs <> [] -> exists n',
    command n p (bytes_of "MSET" :: concat (map (fun '(k, v) => [k; v]) kvs)) = (n', Some (REPLY_STATUS (bytes_of "OK"))) /\
    session n' p /\ strings n' = foldl (fun m '(k, v) => <[k := v]> m) (strings n) kvs;
  MGET_law n p ks : session n p -> ks <> [] -> exists n',
    command n p (bytes_of "MGET" :: ks) = (n', Some (REPLY_ARRAY (map (fun k => match strings n !! k with Some v => REPLY_STRING v | None => REPLY_NIL end) ks))) /\
    session n' p /\ strings n' = strings n;
}.

Module AuthCache.
Import CacheConn.

Definition CACHE_INCR_USER_ID : list Z := bytes_of "user_id_incr:".

Section AuthCache.
Context `{Redis net} (pl : pool).

(** The account number of an address, as in [Server.account], with the commands sent
    over a connection. *)
Definition account (cur_time : Z) (w : world net) (c : t) (e : Server.env) (address_hex pub_key_33 : list Z) : outcome (world net * t * Z) :=
  '(w, c, user_id_str) ← get pl cur_time w c (Server.CACHE_USER_ADR_ID_PREFIX ++ address_hex);
  if zlen user_id_str =? 0 then
    '(w, c, user_id_long) ← incr pl cur_time w c CACHE_INCR_USER_ID;
    '(w, c, user_id_long) ← (if user_id_long =? 1 then incrBy pl cur_time w c CACHE_INCR_USER_ID 99999 else Ret (w, c, user_id_long));
    let user_id_str1 := Helpers.int2string user_id_long in
    '(w, c, _) ← exec pl cur_time w c
      [bytes_of "MSET";
       Server.CACHE_USER_ADR_ID_PREFIX ++ address_hex; user_id_str1;
       Server.CACHE_USER_ID_PUB_KEY_PREFIX ++ user_id_str1; Server.hex_string pub_key_33;
       Server.CACHE_USER_ID_ADR_PREFIX ++ user_id_str1; address_hex;
       Server.CACHE_USER_ID_LOGIN_TIME_PREFIX ++ user_id_str1; Helpers.int2string (Server.now e)] None;
    Ret (w, c, Helpers.string2int user_id_str1)
  else Ret (w, c, Helpers.string2int user_id_str).

(** The cache of the model is what the database holds. *)
Definition Rep (n : net) (ca : Server.cache) : Prop :=
  (forall k, k <> CACHE_INCR_USER_ID -> strings n !! k = Server.kv ca !! k) /\
  int_of (default (bytes_of "0") (strings n !! CACHE_INCR_USER_ID)) = Some (Server.user_id_incr ca).

Definition connected (w : world net) (c : t) (ca : Server.cache) : Prop :=
  exists p, m_pContext c = Some p /\ p ∈ live w /\ session (wire w) p /\ Rep (wire w) ca.

(** An open connection sends the command at once. *)
Lemma with_reply_open {A} now w c p argv (failed : A) k n r : m_pContext c = Some p -> p ∈ live w -> command (wire w) p argv = (n, Some r) ->
  with_reply pl now w c argv failed k = (x ← k r; Ret (mkW n (live w) (next w), c, x)).
Proof.
  intros E Hp Ec. unfold with_reply, Init. rewrite E. mstep. cbn [Z.eqb negb]. rewrite E. unfold redisCommand.
  rewrite bool_decide_eq_true_2 by done. by rewrite Ec.
Qed.

Lemma print_long_int z : is_s 64 z -> int_of (print_long z) = Some z.
Proof.
  intros Hz. assert (int_value (print_long z) = z) as E.
  { unfold is_s in Hz. unfold print_long. destruct (Z.leb_spec 0 z).
    - destruct (Helpers.dec_loop_spec 20 z []) as (d & ds & -> & Hd & Hv); [cbn in *; lia|lia|]. rewrite app_nil_r.
      apply Forall_cons_1 in Hd as [Hd _]. unfold Helpers.is_digit in Hd. unfold int_value.
      assert (d <> 45) by lia. repeat (case_match; try done; try lia).
    - destruct (Helpers.dec_loop_spec 20 (- z) []) as (d & ds & -> & _ & Hv); [cbn in *; lia|lia|]. rewrite app_nil_r. cbn [int_value].
      change (- Helpers.digits_value 0 (d :: ds) = z). rewrite Hv. lia. }
  unfold int_of. rewrite E, !bool_decide_eq_true_2 by done. done.
Qed.

Lemma get_open now w c ca e key : Server.redis_up e = true -> connected w c ca -> c_str key <> CACHE_INCR_USER_ID ->
  exists w', get pl now w c key = Ret (w', c, Server.cache_get e ca key) /\ connected w' c ca.
Proof.
  intros Hup (p & E & Hp & Hs & Hr & Hc) Hk. destruct (GET_law (wire w) p (c_str key) Hs) as (n & Ec & Hs' & Hst). unfold get.
  erewrite with_reply_open by done. mstep. unfold Server.cache_get. rewrite Hup, <- (Hr _ Hk). eexists. split; [by destruct (strings (wire w) !! c_str key)|].
  exists p. cbn [live wire]. split_and!; [done..|]. unfold Rep. by rewrite Hst.
Qed.

Lemma Rep_counter n n' ca z : Rep n ca -> is_s 64 z -> strings n' = <[CACHE_INCR_USER_ID := print_long z]> (strings n) ->
  Rep n' (Server.mkCache (Server.kv ca) z).
Proof.
  intros [Hr _] Hz E. split; cbn [Server.kv Server.user_id_incr].
  - intros k Hk. rewrite E, lookup_insert_ne by done. by apply Hr.
  - rewrite E, lookup_insert_eq. cbn [default]. by apply print_long_int.
Qed.

Lemma incrBy_open now w c ca e v : Server.redis_up e = true -> connected w c ca -> is_s 64 v -> is_s 64 (Server.user_id_incr ca + v) ->
  exists w', incrBy pl now w c CACHE_INCR_USER_ID v = Ret (w', c, (Server.incrBy e ca v).2) /\ connected w' c (Server.incrBy e ca v).1.
Proof.
  intros Hup (p & E & Hp & Hs & Hr) Hv Hz. destruct (INCRBY_law (wire w) p CACHE_INCR_USER_ID v _ Hs Hv (proj2 Hr) Hz) as (n & Ec & Hs' & Hst).
  unfold incrBy. change (c_str CACHE_INCR_USER_ID) with CACHE_INCR_USER_ID. erewrite with_reply_open by done. mstep. cbn [integer].
  unfold Server.incrBy. rewrite Hup. cbn [fst snd]. eexists. split; [done|]. exists p. cbn [live wire]. split_and!; [done..|]. by eapply Rep_counter.
Qed.

Lemma incr_open now w c ca e : Server.redis_up e = true -> connected w c ca -> is_s 64 (Server.user_id_incr ca + 1) ->
  exists w', incr pl now w c CACHE_INCR_USER_ID = Ret (w', c, (Server.incr e ca).2) /\ connected w' c (Server.incr e ca).1.
Proof.
  intros Hup (p & E & Hp & Hs & Hr) Hz. destruct (INCR_law (wire w) p CACHE_INCR_USER_ID _ Hs (proj2 Hr) Hz) as (n & Ec & Hs' & Hst).
  unfold incr. change (c_str CACHE_INCR_USER_ID) with CACHE_INCR_USER_ID. erewrite with_reply_open by done. mstep. cbn [integer].
  unfold Server.incr, Server.incrBy. rewrite Hup. cbn [fst snd]. eexists. split; [done|]. exists p. cbn [live wire]. split_and!; [done..|]. by eapply Rep_counter.
Qed.

Lemma exec_open now w c p argv ret n r : m_pContext c = Some p -> p ∈ live w -> argv <> [] -> command (wire w) p (map c_str argv) = (n, Some r) ->
  exec pl now w c argv ret = Ret (mkW n (live w) (next w), c, (true, push_elements r <$> ret)).
Proof.
  intros E Hp Ha Ec. unfold exec, Init. rewrite E. mstep. cbn [Z.eqb negb orb]. destruct argv as [|a argv]; [done|].
  rewrite (proj2 (Z.eqb_neq _ 0)) by zlia. by erewrite with_reply_open.
Qed.

(** The arguments of MSET. *)
Definition pairs (kvs : list (list Z * list Z)) : list (list Z) := concat (map (fun '(k, v) => [k; v]) kvs).
Definition c_strs (kvs : list (list Z * list Z)) : list (list Z * list Z) := map (fun '(k, v) => (c_str k, c_str v)) kvs.

Lemma c_str_pairs kvs : map c_str (pairs kvs) = pairs (c_strs kvs).
Proof. unfold pairs, c_strs. induction kvs as [|[k v] kvs IH]; [done|]. cbn [map concat]. by rewrite map_app, IH. Qed.

Lemma Rep_mset kvs : forall n n' ca, Rep n ca -> Forall (fun x => c_str x.1 <> CACHE_INCR_USER_ID) kvs ->
  strings n' = foldl (fun m '(k, v) => <[k := v]> m) (strings n) (c_strs kvs) ->
  Rep n' (Server.mkCache (foldl (fun m '(k, v) => <[c_str k := c_str v]> m) (Server.kv ca) kvs) (Server.user_id_incr ca)).
Proof.
  assert (forall kvs (s m : gmap (list Z) (list Z)), Forall (fun x => c_str x.1 <> CACHE_INCR_USER_ID) kvs ->
    (forall k, k <> CACHE_INCR_USER_ID -> s !! k = m !! k) ->
    let s' := foldl (fun m '(k, v) => <[k := v]> m) s (c_strs kvs) in
    (forall k, k <> CACHE_INCR_USER_ID -> s' !! k = foldl (fun m '(k, v) => <[c_str k := c_str v]> m) m kvs !! k) /\
    s' !! CACHE_INCR_USER_ID = s !! CACHE_INCR_USER_ID) as Hf.
  { clear. induction kvs as [|[k v] kvs IH]; intros s m Hk Hs; [done|]. apply Forall_cons_1 in Hk as [Hk1 Hk]. cbn [c_strs map foldl].
    destruct (IH (<[c_str k := c_str v]> s) (<[c_str k := c_str v]> m) Hk) as [H1 H2].
    - intros k' Hk'. destruct (decide (c_str k = k')) as [->|]; [by rewrite !lookup_insert_eq|]. rewrite !lookup_insert_ne by done. by apply Hs.
    - split; [done|]. etrans; [exact H2|]. by rewrite lookup_insert_ne. }
  intros n n' ca [Hr Hc] Hk E. destruct (Hf kvs _ _ Hk Hr) as [H1 H2]. split; cbn [Server.kv Server.user_id_incr]; rewrite E; [exact H1|]. by rewrite H2.
Qed.

Lemma mset_open now w c ca e kvs : Server.redis_up e = true -> connected w c ca -> kvs <> [] -> Forall (fun x => c_str x.1 <> CACHE_INCR_USER_ID) kvs ->
  exists w', exec pl now w c (bytes_of "MSET" :: pairs kvs) None = Ret (w', c, (true, None)) /\ connected w' c (Server.exec_MSET e ca kvs).
Proof.
  intros Hup (p & E & Hp & Hs & Hr) Hn Hk. destruct (MSET_law (wire w) p (c_strs kvs) Hs) as (n & Ec & Hs' & Hst); [by destruct kvs|].
  erewrite exec_open; [|done|done|done|]; [|cbn [map]; rewrite c_str_pairs; exact Ec]. eexists. split; [done|]. exists p. cbn [live wire].
  split_and!; [done..|]. unfold Server.exec_MSET. rewrite Hup. by eapply Rep_mset.
Qed.

Lemma mget_open now w c ca e keys : Server.redis_up e = true -> connected w c ca -> keys <> [] -> Forall (fun k => c_str k <> CACHE_INCR_USER_ID) keys ->
  exists w', exec pl now w c (bytes_of "MGET" :: keys) (Some []) = Ret (w', c, (true, Some (Server.exec_MGET e ca keys))) /\ connected w' c ca.
Proof.
  intros Hup (p & E & Hp & Hs & Hr) Hn Hk. destruct (MGET_law (wire w) p (map c_str keys) Hs) as (n & Ec & Hs' & Hst); [by destruct keys|].
  erewrite exec_open; [|done|done|done|exact Ec]. eexists. split.
  - do 3 f_equal. cbn [fmap option_fmap option_map push_elements app]. f_equal. unfold Server.exec_MGET. rewrite Hup, !map_map.
    apply map_ext_in. intros k Hi. rewrite list.Forall_forall in Hk. rewrite <- (proj1 Hr) by (by apply Hk, list_elem_of_In).
    by destruct (strings (wire w) !! c_str k).
  - exists p. cbn [live wire]. split_and!; [done..|]. unfold Rep. by rewrite Hst.
Qed.

(** No key of a user is the one of the counter. *)
Lemma not_counter prefix k : prefix ∈ [Server.CACHE_USER_ADR_ID_PREFIX; Server.CACHE_USER_ID_PUB_KEY_PREFIX; Server.CACHE_USER_ID_ADR_PREFIX;
    Server.CACHE_USER_ID_LOGIN_TIME_PREFIX; Server.CACHE_USER_ID_AVATAR_PREFIX; Server.CACHE_USER_ID_NICKNAME_PREFIX; Server.CACHE_USER_ID_USERNAME_PREFIX;
    Server.CACHE_USER_ID_SIGN_INFO_PREFIX; Server.CACHE_USER_ID_FIRST_NAME_PREFIX; Server.CACHE_USER_ID_LAST_NAME_PREFIX; Server.CACHE_USER_ID_STATUS_PREFIX] ->
  c_str (prefix ++ k) <> CACHE_INCR_USER_ID.
Proof.
  intros Hp E. rewrite c_str_prefix in E.
  - repeat (apply elem_of_cons in Hp as [->|Hp]; [discriminate E|]). by apply not_elem_of_nil in Hp.
  - revert Hp. clear. intros Hp. repeat (apply elem_of_cons in Hp as [->|Hp]; [apply (bool_decide_unpack _); by vm_compute|]). by apply not_elem_of_nil in Hp.
Qed.

(** C26. Over an open connection to a redis server, the account number of an address is
    the one the model of the message server gives, with the same entries left in the
    cache; the values of the user are read as there. *)
Theorem account_over_connection now w c ca e address_hex pub_key_33 keys :
  Server.redis_up e = true -> connected w c ca -> 0 <= Server.user_id_incr ca < 2 ^ 62 ->
  keys <> [] -> Forall (fun k => c_str k <> CACHE_INCR_USER_ID) keys ->
  exists w' w'', account now w c e address_hex pub_key_33 = Ret (w', c, (Server.account e ca address_hex pub_key_33).2) /\
    exec pl now w' c (bytes_of "MGET" :: keys) (Some []) =
      Ret (w'', c, (true, Some (Server.exec_MGET e (Server.account e ca address_hex pub_key_33).1 keys))) /\
    connected w'' c (Server.account e ca address_hex pub_key_33).1.
Proof.
  intros Hup Hcn Hz Hn Hk.
  assert (exists w', account now w c e address_hex pub_key_33 = Ret (w', c, (Server.account e ca address_hex pub_key_33).2) /\
    connected w' c (Server.account e ca address_hex pub_key_33).1) as (w' & E & Hcn').
  { unfold account, Server.account. destruct (get_open now w c ca e (Server.CACHE_USER_ADR_ID_PREFIX ++ address_hex) Hup Hcn) as (w1 & -> & Hc1);
      [apply not_counter; set_solver|]. mstep. destruct (zlen _ =? 0); [|by exists w1].
    destruct (incr_open now w1 c ca e Hup Hc1) as (w2 & -> & Hc2); [unfold is_s; cbn in *; lia|]. mstep.
    assert (Server.incr e ca = (Server.mkCache (Server.kv ca) (Server.user_id_incr ca + 1), Server.user_id_incr ca + 1)) as Ei
      by (unfold Server.incr, Server.incrBy; by rewrite Hup). rewrite Ei in *. cbn [fst snd] in *.
    assert (exists w3 ca3 id, (if Server.user_id_incr ca + 1 =? 1 then incrBy pl now w2 c CACHE_INCR_USER_ID 99999 else Ret (w2, c, Server.user_id_incr ca + 1)) =
        Ret (w3, c, id) /\ connected w3 c ca3 /\
        (if Server.user_id_incr ca + 1 =? 1 then Server.incrBy e (Server.mkCache (Server.kv ca) (Server.user_id_incr ca + 1)) 99999
         else (Server.mkCache (Server.kv ca) (Server.user_id_incr ca + 1), Server.user_id_incr ca + 1)) = (ca3, id)) as (w3 & ca3 & id & -> & Hc3 & ->).
    { destruct (Server.user_id_incr ca + 1 =? 1); [|by do 3 eexists].
      destruct (incrBy_open now w2 c _ e 99999 Hup Hc2) as (w3 & -> & Hc3); [unfold is_s; cbn in *; lia..|].
      do 3 eexists. split; [done|]. split; [exact Hc3|]. by destruct (Server.incrBy e _ 99999). }
    mstep. match goal with |- context [Server.exec_MSET e ca3 ?kvs] => destruct (mset_open now w3 c ca3 e kvs Hup Hc3) as (w4 & E4 & Hc4) end; [done| |].
    { repeat apply Forall_cons_2; [apply not_counter; set_solver..|apply Forall_nil_2]. }
    cbn [pairs map concat app] in E4. rewrite E4. mstep. by exists w4. }
  destruct (mget_open now w' c _ e keys Hup Hcn' Hn Hk) as (w'' & E' & Hcn''). by exists w', w''.
Qed.

(** While a lost connection waits for its next attempt, nothing is sent and each
    command gives what the model gives for a cache that does not answer. *)
Theorem closed_connection_answers now w c ca e address_hex pub_key_33 keys :
  Server.redis_up e = false -> m_pContext c = None -> now < u64 (m_last_connect_time c + 4) ->
  account now w c e address_hex pub_key_33 = Ret (w, c, (Server.account e ca address_hex pub_key_33).2) /\
  exec pl now w c (bytes_of "MGET" :: keys) (Some []) = Ret (w, c, (false, Some (Server.exec_MGET e ca keys))) /\
  (Server.account e ca address_hex pub_key_33).1 = ca.
Proof.
  intros Hup E Ht. assert (Init pl now w c = Ret (w, c, 1)) as Ei by (unfold Init; rewrite E; by rewrite (proj2 (Z.ltb_lt _ _)) by done).
  assert (forall A argv (x : A) k, with_reply pl now w c argv x k = Ret (w, c, x)) as Hw by (intros; unfold with_reply; by rewrite Ei).
  unfold account, Server.account, get, incr, exec, Server.cache_get, Server.incr, Server.incrBy, Server.exec_MSET, Server.exec_MGET. rewrite Hup, Hw. mstep.
  change (zlen [] =? 0) with true. cbn [Z.eqb]. rewrite Hw. mstep. change (-1 =? 1) with false. mstep. rewrite Ei. mstep. done.
Qed.

(** A connection that is lost by the command for a new number and opened again by the
    next command: the address is stored with the number of the failure, as every other
    address that this happens to. *)
Theorem lost_incr_shares_account now w c e address_hex pub_key_33 w1 p n2 w2 w3 q n4 r :
  get pl now w c (Server.CACHE_USER_ADR_ID_PREFIX ++ address_hex) = Ret (w1, c, []) ->
  m_pContext c = Some p -> p ∈ live w1 -> command (wire w1) p [bytes_of "INCR"; CACHE_INCR_USER_ID] = (n2, None) ->
  redisFree (mkW n2 (live w1) (next w1)) p = Ret w2 ->
  Init pl now w2 (mk None (m_last_connect_time c)) = Ret (w3, mk (Some q) now, 0) -> q ∈ live w3 ->
  (exists kvs, command (wire w3) q (bytes_of "MSET" :: c_str (Server.CACHE_USER_ADR_ID_PREFIX ++ address_hex) :: bytes_of "4294967295" :: kvs) = (n4, Some r) /\
    kvs = map c_str [Server.CACHE_USER_ID_PUB_KEY_PREFIX ++ bytes_of "4294967295"; Server.hex_string pub_key_33;
      Server.CACHE_USER_ID_ADR_PREFIX ++ bytes_of "4294967295"; address_hex;
      Server.CACHE_USER_ID_LOGIN_TIME_PREFIX ++ bytes_of "4294967295"; Helpers.int2string (Server.now e)]) ->
  account now w c e address_hex pub_key_33 = Ret (mkW n4 (live w3) (next w3), mk (Some q) now, Helpers.string2int (bytes_of "4294967295")).
Proof.
  intros Eg E Hp Ei Ef Eo Hq (kvs & Em & ->). unfold account. rewrite Eg. mstep. change (zlen [] =? 0) with true. cbn [Z.eqb].
  unfold incr, with_reply at 1, Init at 1. rewrite E. mstep. cbn [Z.eqb negb]. rewrite E. unfold redisCommand. rewrite bool_decide_eq_true_2 by done.
  change (c_str CACHE_INCR_USER_ID) with CACHE_INCR_USER_ID. rewrite Ei. mstep. rewrite Ef. mstep. change (-1 =? 1) with false. mstep.
  change (Helpers.int2string (-1)) with (bytes_of "4294967295"). unfold exec. rewrite Eo. mstep. cbn [Z.eqb negb orb].
  rewrite (proj2 (Z.eqb_neq _ 0)) by zlia. erewrite with_reply_open; [|done|done|exact Em]. done.
Qed.

End AuthCache.
End AuthCache.

(** ** Witnesses: a small redis server *)

Module ToyRedis.
Import CacheConn.

Definition look (n : gmap (list Z) (list Z)) (k : list Z) : reply := match n !! k with Some v => REPLY_STRING v | None => REPLY_NIL end.

Fixpoint mset (n : gmap (list Z) (list Z)) (args : list (list Z)) : gmap (list Z) (list Z) :=
  match args with
  | k :: v :: args => mset (<[k := v]> n) args
  | _ => n
  end.

Definition add (n : gmap (list Z) (list Z)) (k : list Z) (v : Z) : gmap (list Z) (list Z) * option reply :=
  match int_of (default (bytes_of "0") (n !! k)) with
  | Some z => (<[k := print_long (z + v)]> n, Some (REPLY_INTEGER (z + v)))
  | None => (n, Some (REPLY_ERROR (bytes_of "ERR")))
  end.

(** An unknown command closes the connection. *)
Definition serve (n : gmap (list Z) (list Z)) (argv : list (list Z)) : gmap (list Z) (list Z) * option reply :=
  match argv with
  | [] => (n, None)
  | c :: args =>
      if bool_decide (c = bytes_of "MSET") then (mset n args, Some (REPLY_STATUS (bytes_of "OK")))
      else if bool_decide (c = bytes_of "MGET") then (n, Some (REPLY_ARRAY (map (look n) args)))
      else match args with
           | [k] =>
               if bool_decide (c = bytes_of "GET") then (n, Some (look n k))
               else if bool_decide (c = bytes_of "INCR") then add n k 1
               else if bool_decide (c = bytes_of "AUTH") then
                 (n, Some (if bool_decide (k = bytes_of "pw") then REPLY_STATUS (bytes_of "OK") else REPLY_ERROR (bytes_of "ERR")))
               else if bool_decide (c = bytes_of "SELECT") then (n, Some (REPLY_STATUS (bytes_of "OK")))
               else (n, None)
           | [k; v] =>
               if bool_decide (c = bytes_of "INCRBY") then add n k (int_value v)
               else if bool_decide (c = bytes_of "SET") then (<[k := v]> n, Some (REPLY_STATUS (bytes_of "OK")))
               else (n, None)
           | _ => (n, None)
           end
  end.

#[local] Instance toy_hiredis : Hiredis (gmap (list Z) (list Z)) := {
  connect n _ _ _ := (n, Some false);
  command n _ argv := serve n argv;
  hangup n _ := n;
  format s := Ret [s];
}.

Lemma mset_pairs kvs : forall n, mset n (concat (map (fun '(k, v) => [k; v]) kvs)) = foldl (fun m '(k, v) => <[k := v]> m) n kvs.
Proof. induction kvs as [|[k v] kvs IH]; intros n; [done|]. cbn [map concat app mset foldl]. apply IH. Qed.

Lemma int_value_print z : is_s 64 z -> int_value (print_long z) = z.
Proof. intros Hz. pose proof (AuthCache.print_long_int z Hz) as E. unfold int_of in E. destruct (_ && _); [by injection E|done]. Qed.

#[local] Instance toy_redis : Redis (gmap (list Z) (list Z)).
Proof.
  refine {| session _ _ := True; strings n := n |}.
  - intros n p k _. by exists n.
  - intros n p k v z _ Hv Hi Hz. eexists. split; [|done].
    change (add n k (int_value (print_long v)) = (<[k := print_long (z + v)]> n, Some (REPLY_INTEGER (z + v)))).
    rewrite int_value_print by done. unfold add. by rewrite Hi.
  - intros n p k z _ Hi Hz. eexists. split; [|done].
    change (add n k 1 = (<[k := print_long (z + 1)]> n, Some (REPLY_INTEGER (z + 1)))). unfold add. by rewrite Hi.
  - intros n p kvs _ _. eexists. split; [done|]. split; [done|]. apply mset_pairs.
  - intros n p ks _ _. by exists n.
Defined.

Definition toy_pool : pool := mkPool (bytes_of "127.0.0.1") 6379 (bytes_of "pw") 1.
Definition wrong_pool : pool := mkPool (bytes_of "127.0.0.1") 6379 (bytes_of "wrong") 1.
Definition world0 : world (gmap (list Z) (list Z)) := mkW ∅ ∅ 0.
Definition world1 : world (gmap (list Z) (list Z)) := mkW ∅ {[0%nat]} 1.
Definition conn1 : t := mk (Some 0%nat) 10.
Definition toy_env (up : bool) : Server.env := Server.mkEnv (fun _ _ => 0) (fun _ => true) up 0.

Lemma wf1 : Commands.wf ∅ world1 conn1.
Proof. unfold Commands.wf, Commands.own. cbn. split_and!; [set_solver..|]. intros p Hp%elem_of_singleton. lia. Qed.

Lemma contexts_managed_witness : exists w' c' w'',
  Commands.run toy_pool world0 new [(10, Commands.Set_ [97] [98]); (11, Commands.Get [97]); (12, Commands.Mget [[97]; [99]] ∅)] = Ret (w', c') /\
  Commands.wf ∅ w' c' /\ destroy w' c' = Ret w'' /\ live w'' = ∅.
Proof.
  destruct (Commands.contexts_managed toy_pool ∅ world0 new [(10, Commands.Set_ [97] [98]); (11, Commands.Get [97]); (12, Commands.Mget [[97]; [99]] ∅)])
    as [H1|(pre & now & o & post & w' & c' & E & _ & _ & Hm)]; [by split_and!|repeat constructor|exact H1|exfalso].
  assert ((now, o) ∈ [(10, Commands.Set_ [97] [98]); (11, Commands.Get [97]); (12, Commands.Mget [[97]; [99]] ∅)]) as Hi by (rewrite E; set_solver).
  rewrite !elem_of_cons in Hi. destruct Hi as [[= -> ->]|[[= -> ->]|[[= -> ->]|Hi]]]; [done|done| |by apply not_elem_of_nil in Hi].
  destruct Hm as [Hf|(argv & n & p & l & Ef & Ec & Hl)]; [by eapply Hf|]. vm_compute in Ef. injection Ef as <-. by vm_compute in Ec.
Defined.

Lemma lost_exists_dangles_witness : exists w',
  isExists toy_pool 20 world1 conn1 [97] = Ret (w', conn1, false) /\ Commands.step toy_pool 30 w' conn1 (Commands.Get [97]) = UB /\ destroy w' conn1 = UB.
Proof. apply (Commands.lost_exists_dangles toy_pool ∅ 20 30 world1 conn1 0 [97] (Commands.Get [97])); [apply wf1|done..]. Defined.

Lemma refused_login_forgotten_witness : exists w' c',
  Init wrong_pool 20 world0 new = Ret (w', c', 2) /\ Init wrong_pool 21 w' c' = Ret (w', c', 0) /\ m_pContext c' = Some 0%nat /\ 0%nat ∈ live w'.
Proof. by apply (Commands.refused_login_forgotten wrong_pool 20 21 world0 new ∅ ∅ (Some (REPLY_ERROR (bytes_of "ERR")))). Defined.

Lemma account_over_connection_witness : exists w' w'',
  AuthCache.account toy_pool 20 world1 conn1 (toy_env true) [48; 120] [2] = Ret (w', conn1, (Server.account (toy_env true) (Server.mkCache ∅ 0) [48; 120] [2]).2) /\
  exec toy_pool 20 w' conn1 [bytes_of "MGET"; [97]] (Some []) =
    Ret (w'', conn1, (true, Some (Server.exec_MGET (toy_env true) (Server.account (toy_env true) (Server.mkCache ∅ 0) [48; 120] [2]).1 [[97]]))) /\
  AuthCache.connected w'' conn1 (Server.account (toy_env true) (Server.mkCache ∅ 0) [48; 120] [2]).1.
Proof.
  apply (AuthCache.account_over_connection toy_pool 20 world1 conn1 (Server.mkCache ∅ 0) (toy_env true) [48; 120] [2] [[97]]); [done| |done|done|].
  - exists 0%nat. split_and!; [done|set_solver|done|]. split; [done|by vm_compute].
  - by apply Forall_cons_2; [|apply Forall_nil_2].
Defined.

Lemma closed_connection_answers_witness :
  AuthCache.account toy_pool 12 world0 (mk None 10) (toy_env false) [48; 120] [2] =
    Ret (world0, mk None 10, (Server.account (toy_env false) (Server.mkCache ∅ 0) [48; 120] [2]).2) /\
  exec toy_pool 12 world0 (mk None 10) [bytes_of "MGET"; [97]] (Some []) = Ret (world0, mk None 10, (false, Some [])) /\
  (Server.account (toy_env false) (Server.mkCache ∅ 0) [48; 120] [2]).1 = Server.mkCache ∅ 0.
Proof. by apply (AuthCache.closed_connection_answers toy_pool 12 world0 (mk None 10) (Server.mkCache ∅ 0) (toy_env false) [48; 120] [2] [[97]]). Defined.

End ToyRedis.
