(* ===== verification/Pools.v ===== *)
(** * Managers of connection pools, and results of queries

    Models [CacheManager] (src/src/ptp_server/CachePool.cpp) and [CDBManager]
    (DBPool.cpp), which make a pool for every name in the configuration, and of DBPool.cpp
    the sets of rows a query returns and the escaping of texts.

    The pools are those of [ConnPool].  MySQL is a class: a query gives columns and rows,
    and escaping writes a text no longer than its documentation says.

    The theorems: a complete configuration gives exactly the pools it names, an incomplete
    one is refused; escaping stays within its buffer; a row is read by column name, and
    which reads are undefined. *)

From S2P Require Import Prelude Helpers ConfigFile ConnPool Cache.

(** ** Pools by name *)

Module PoolManager.

(** The pools by name: settings, and the state of the pool. *)
Abbreviation pools settings := (gmap (list Z) (settings * ConnPool.t)).

Section PoolManager.

(** [settings]: those of one kind of pool.  [read] takes them from the configuration,
    with the greatest number of connections. *)
Context {settings : Type} (read : CConfigFileReader.t -> list Z -> option (settings * Z)).

(** [snprintf(host, 64, "%s_host", pool_name)]. *)
Definition key (pool_name suffix : list Z) : list Z := ztake 63 (c_str pool_name ++ suffix).

(** [opens name i]: whether connection [i] of the pool can be opened. *)
Fixpoint init_loop (n i : nat) (config_file : CConfigFileReader.t) (instances_name : CStrExplode.t) (opens : list Z -> nat -> bool) (m : pools settings) :
    outcome (pools settings * Z) :=
  match n with
  | O => Ret (m, 0)
  | S n =>
      pool_name ← CStrExplode.GetItem instances_name i;
      match read config_file pool_name with
      | None => Ret (m, 2)
      | Some (s, max_conn_cnt) =>
          let '(p, ret) := ConnPool.Init (opens pool_name) (ConnPool.construct max_conn_cnt) in
          if negb (ret =? 0) then Ret (m, 3)
          else init_loop n (S i) config_file instances_name opens (match m !! pool_name with Some _ => m | None => <[pool_name := (s, p)]> m end)
      end
  end.

(** The part of [Init] after the reader has read its file; the destructor of the names
    runs at every return. *)
Definition configure (instances : list Z) (config_file : CConfigFileReader.t) (opens : list Z -> nat -> bool) (m : pools settings) : outcome (pools settings * Z) :=
  match CConfigFileReader.GetConfigName config_file instances with
  | None => Ret (m, 1)
  | Some names =>
      instances_name ← CStrExplode.CStrExplode names 44;
      r ← init_loop (Z.to_nat (CStrExplode.GetItemCnt instances_name)) 0 config_file instances_name opens m;
      _ ← CStrExplode.destroy instances_name;
      Ret r
  end.

(** [getInstance]: made by the first call, and deleted when [Init] fails. *)
Definition getInstance (init : pools settings -> outcome (pools settings * Z)) (s_manager : option (pools settings)) : outcome (option (pools settings)) :=
  match s_manager with
  | Some m => Ret (Some m)
  | None => '(m, ret) ← init ∅; Ret (if ret =? 0 then Some m else None)
  end.

(** A connection is the name of its pool and its number. *)
Definition GetConn (opens : list Z -> nat -> bool) (m : pools settings) (pool_name : list Z) : pools settings * ConnPool.got :=
  match m !! pool_name with
  | Some (s, p) => let '(p, g) := ConnPool.GetConn (opens pool_name) p in (<[pool_name := (s, p)]> m, g)
  | None => (m, ConnPool.Null)
  end.

Definition RelConn (m : pools settings) (conn : option (list Z * nat)) : pools settings :=
  match conn with
  | None => m
  | Some (pool_name, c) =>
      match m !! pool_name with
      | Some (s, p) => <[pool_name := (s, ConnPool.RelConn p c)]> m
      | None => m
      end
  end.

End PoolManager.
End PoolManager.

Module CacheManager.

Definition setting (config_file : CConfigFileReader.t) (pool_name : list Z) (suffix : string) : option (list Z) :=
  CConfigFileReader.GetConfigName config_file (PoolManager.key pool_name (bytes_of suffix)).

Definition read (config_file : CConfigFileReader.t) (pool_name : list Z) : option (CacheConn.pool * Z) :=
  match setting config_file pool_name "_host", setting config_file pool_name "_port", setting config_file pool_name "_auth",
        setting config_file pool_name "_db", setting config_file pool_name "_maxconncnt" with
  | Some host, Some port, Some auth, Some db, Some maxconncnt =>
      Some (CacheConn.mkPool host (Helpers.atoi port) auth (Helpers.atoi db), Helpers.atoi maxconncnt)
  | _, _, _, _, _ => None
  end.

(** [files]: the contents of the files. *)
Definition Init (garbage : bool) (files : list Z -> option (list Z)) (opens : list Z -> nat -> bool) (m_config_path : list Z)
    (m : PoolManager.pools CacheConn.pool) : outcome (PoolManager.pools CacheConn.pool * Z) :=
  if zlen m_config_path =? 0 then Ret (m, 1) else
  config_file ← CConfigFileReader.CConfigFileReader garbage (files (c_str m_config_path));
  PoolManager.configure read (bytes_of "CacheInstances") config_file opens m.

End CacheManager.

Module CDBManager.

Record CDBPool := mkPool {
  m_db_server_ip : list Z;
  m_db_server_port : Z;
  m_username : list Z;
  m_password : list Z;
  m_db_name : list Z;
}.

Definition read (config_file : CConfigFileReader.t) (pool_name : list Z) : option (CDBPool * Z) :=
  match CacheManager.setting config_file pool_name "_host", CacheManager.setting config_file pool_name "_port",
        CacheManager.setting config_file pool_name "_dbname", CacheManager.setting config_file pool_name "_username",
        CacheManager.setting config_file pool_name "_password", CacheManager.setting config_file pool_name "_maxconncnt" with
  | Some host, Some port, Some dbname, Some username, Some password, Some maxconncnt =>
      Some (mkPool host (u16 (Helpers.atoi port)) username password dbname, Helpers.atoi maxconncnt)
  | _, _, _, _, _, _ => None
  end.

Definition Init (garbage : bool) (files : list Z -> option (list Z)) (opens : list Z -> nat -> bool) (filename : list Z)
    (m : PoolManager.pools CDBPool) : outcome (PoolManager.pools CDBPool * Z) :=
  config_file ← CConfigFileReader.CConfigFileReader garbage (files (c_str filename));
  PoolManager.configure read (bytes_of "DBInstances") config_file opens m.

End CDBManager.

(** ** Rows *)

Module CResultSet.

(** A column of a row may be a null pointer. *)
Abbreviation row := (list (option (list Z))).

(** [m_row] is uninitialised before the first [Next] and null after the last. *)
Inductive row_ptr :=
| Uninitialised
| NullRow
| Row (r : row).

Record t := mk { m_res : list row; m_row : row_ptr; m_key_map : gmap (list Z) nat }.

Fixpoint key_map (names : list (list Z)) (i : nat) (m : gmap (list Z) nat) : gmap (list Z) nat :=
  match names with
  | [] => m
  | n :: names => key_map names (S i) (match m !! n with Some _ => m | None => <[n := i]> m end)
  end.

Definition new (fields : list (list Z)) (rows : list row) : t := mk rows Uninitialised (key_map fields 0 ∅).

Definition Next (s : t) : t * bool :=
  match m_res s with
  | [] => (mk [] NullRow (m_key_map s), false)
  | r :: rows => (mk rows (Row r) (m_key_map s), true)
  end.

Definition _GetIndex (s : t) (key : list Z) : option nat := m_key_map s !! key.

(** [m_row\[idx\]]. *)
Definition column (s : t) (idx : nat) : outcome (option (list Z)) :=
  match m_row s with
  | Row r => match r !! idx with Some x => Ret x | None => UB end
  | _ => UB
  end.

(** [atoi] of a null pointer is undefined. *)
Definition GetInt (s : t) (key : list Z) : outcome Z :=
  match _GetIndex s key with
  | None => Ret 0
  | Some idx => x ← column s idx; match x with Some v => Ret (Helpers.atoi v) | None => UB end
  end.

Definition GetString (s : t) (key : list Z) : outcome (option (list Z)) :=
  match _GetIndex s key with
  | None => Ret None
  | Some idx => column s idx
  end.

End CResultSet.

(** ** Queries *)

(** [mysql_real_query] fails or changes the database; [mysql_store_result] gives a
    result or a null pointer.  The escaped text has at most two bytes for each one. *)
Class MySQL (db : Type) := {
  real_query : db -> list Z -> option db;
  store_result : db -> option (list (list Z) * list CResultSet.row);
  affected_rows : db -> Z;
  escape : list Z -> list Z;
  escape_len s : zlen (escape s) <= 2 * zlen s;
}.

Module CDBConn.
Section CDBConn.
Context `{MySQL db}.

Definition MAX_ESCAPE_STRING_LEN : Z := 10240.

Definition ExecuteQuery (d : db) (sql_query : list Z) : db * option CResultSet.t :=
  match real_query d (c_str sql_query) with
  | None => (d, None)
  | Some d =>
      match store_result d with
      | None => (d, None)
      | Some (fields, rows) => (d, Some (CResultSet.new fields rows))
      end
  end.

Definition ExecuteUpdate (d : db) (sql_query : list Z) : db * bool :=
  match real_query d (c_str sql_query) with
  | None => (d, false)
  | Some d => (d, 0 <? affected_rows d)
  end.

(** The buffer [m_escape_string] after the call, which returns its address. *)
Definition EscapeString (m_escape_string content : list Z) (content_len : Z) : outcome (list Z) :=
  if Z.shiftr MAX_ESCAPE_STRING_LEN 1 <? content_len then mem_write m_escape_string 0 [0]
  else
    bs ← mem_read content 0 content_len;
    mem_write m_escape_string 0 (escape bs ++ [0]).

End CDBConn.
End CDBConn.

(** ** Configured pools *)

Section Managers.
Context {settings : Type} (read : CConfigFileReader.t -> list Z -> option (settings * Z)).
Context (r : CConfigFileReader.t) (opens : list Z -> nat -> bool).
Import PoolManager.

(** A new pool with its two connections. *)
Definition opened (max_conn_cnt : Z) : ConnPool.t := ConnPool.mk [0%nat; 1%nat] ConnPool.MIN_CONN_CNT max_conn_cnt 2.

Lemma pool_opened name max : (forall i, opens name i = true) -> ConnPool.Init (opens name) (ConnPool.construct max) = (opened max, 0).
Proof. intros Ho. unfold ConnPool.Init, ConnPool.construct. cbn [ConnPool.m_cur_conn_cnt]. change (Z.to_nat ConnPool.MIN_CONN_CNT) with 2%nat. cbn [ConnPool.init_loop ConnPool.new_conn ConnPool.next_conn]. by rewrite !Ho. Qed.

(** What the configuration says about a pool. *)
Definition entry (name : list Z) : option (settings * ConnPool.t) :=
  '(s, max) ← read r name; Some (s, opened max).

Lemma get_item e names i name : CStrExplode.m_item_list e = map Some names -> names !! i = Some name -> CStrExplode.GetItem e i = Ret name.
Proof. intros He Hi. unfold CStrExplode.GetItem. rewrite He, list_lookup_fmap, Hi. done. Qed.

Lemma loop_configured e (names l : list (list Z)) : forall done_ (m : gmap (list Z) (settings * ConnPool.t)), CStrExplode.m_item_list e = map Some names -> names = done_ ++ l ->
  Forall (fun name => is_Some (read r name)) l -> (forall name i, name ∈ l -> opens name i = true) -> NoDup l -> (forall name, name ∈ l -> m !! name = None) ->
  exists m', init_loop read (length l) (length done_) r e opens m = Ret (m', 0) /\
    forall name, m' !! name = if decide (name ∈ l) then entry name else m !! name.
Proof.
  induction l as [|name l IH]; intros dn m He Hn Hr Ho Hd Hm; cbn [init_loop length].
  - exists m. split; [done|]. intros name. rewrite decide_False by apply not_elem_of_nil. done.
  - rewrite (get_item e names _ name) by (done || (rewrite Hn; by apply list_lookup_middle)). mstep.
    apply Forall_cons_1 in Hr as [[[s max] Hs] Hr]. apply list.NoDup_cons in Hd as [Hnl Hd]. rewrite Hs, pool_opened by (intros; apply Ho; set_solver).
    cbn [Z.eqb negb]. rewrite (Hm name) by set_solver.
    destruct (IH (dn ++ [name]) (<[name := (s, opened max)]> m)) as (m' & E & Hm'); [done|by rewrite <- app_assoc|done|intros; apply Ho; set_solver|done| |].
    { intros n' Hn'. rewrite lookup_insert_ne by (intros ->; done). apply Hm. set_solver. }
    rewrite length_app, Nat.add_1_r in E. exists m'. split; [done|]. intros n'. rewrite Hm'. destruct (decide (n' ∈ l)) as [Hi|Hi].
    + rewrite decide_True by set_solver. done.
    + destruct (decide (name = n')) as [->|Hne].
      * rewrite decide_True, lookup_insert_eq by set_solver. unfold entry. by rewrite Hs.
      * rewrite decide_False, lookup_insert_ne by set_solver. done.
Qed.

Lemma loop_missing e (names l : list (list Z)) : forall done_ (m : gmap (list Z) (settings * ConnPool.t)), CStrExplode.m_item_list e = map Some names -> names = done_ ++ l ->
  Exists (fun name => read r name = None) l -> (forall name i, name ∈ l -> opens name i = true) ->
  exists m', init_loop read (length l) (length done_) r e opens m = Ret (m', 2).
Proof.
  induction l as [|name l IH]; intros dn m He Hn Hr Ho; [by inversion Hr|]. cbn [init_loop length].
  rewrite (get_item e names _ name) by (done || (rewrite Hn; by apply list_lookup_middle)). mstep.
  destruct (read r name) as [[s max]|] eqn:Hs; [|by eexists]. rewrite pool_opened by (intros; apply Ho; set_solver). cbn [Z.eqb negb].
  assert (Exists (fun name => read r name = None) l) as Hr' by (inversion Hr as [? ? Hx|]; [congruence|done]).
  assert (S (length dn) = length (dn ++ [name])) as -> by (rewrite length_app; cbn; lia).
  apply IH; [done|by rewrite <- app_assoc|done|]. intros; apply Ho; set_solver.
Qed.

Lemma configure_spec instances name names : Forall (CStrExplode.piece_ok 44) (name :: names) ->
  CConfigFileReader.GetConfigName r instances = Some (CStrExplode.join 44 (name :: names)) ->
  (forall n i, n ∈ name :: names -> opens n i = true) ->
  (Forall (fun n => is_Some (read r n)) (name :: names) -> NoDup (name :: names) ->
    exists m, configure read instances r opens ∅ = Ret (m, 0) /\ forall n, m !! n = if decide (n ∈ name :: names) then entry n else None) /\
  (Exists (fun n => read r n = None) (name :: names) -> exists m, configure read instances r opens ∅ = Ret (m, 2)).
Proof.
  intros Hp Hi Ho. unfold configure. rewrite Hi. destruct (proj1 (CStrExplode.explode_pieces 44 name names Hp)) as (e & -> & Hc & Hl & Hd). mstep.
  rewrite Hc. unfold zlen. rewrite Nat2Z.id. cbn [length]. split.
  - intros Hr Hn. destruct (loop_configured e (name :: names) (name :: names) [] ∅) as (m & E & Hm); [done..|].
    cbn [length] in E. rewrite E. mstep. rewrite Hd. mstep. exists m. split; [done|]. intros n. rewrite Hm. by destruct (decide _).
  - intros Hr. destruct (loop_missing e (name :: names) (name :: names) [] ∅) as (m & E); [done..|]. cbn [length] in E. rewrite E. mstep. rewrite Hd. by exists m.
Qed.
End Managers.

(** The managers of cache and database pools: with every setting of every name, and
    servers that accept connections, [Init] succeeds and there is exactly one pool for
    each name, with its settings and its two connections; when a setting of some name is
    missing it returns 2, and [getInstance] gives a null pointer. *)
Theorem managers_configured garbage files opens path r name names :
  path <> [] -> CConfigFileReader.CConfigFileReader garbage (files (c_str path)) = Ret r ->
  Forall (CStrExplode.piece_ok 44) (name :: names) -> (forall n i, n ∈ name :: names -> opens n i = true) -> NoDup (name :: names) ->
  (CConfigFileReader.GetConfigName r (bytes_of "CacheInstances") = Some (CStrExplode.join 44 (name :: names)) ->
    (Forall (fun n => is_Some (CacheManager.read r n)) (name :: names) ->
      exists m, PoolManager.getInstance (CacheManager.Init garbage files opens path) None = Ret (Some m) /\
        forall n, m !! n = if decide (n ∈ name :: names) then entry CacheManager.read r n else None) /\
    (Exists (fun n => CacheManager.read r n = None) (name :: names) ->
      PoolManager.getInstance (CacheManager.Init garbage files opens path) None = Ret None)) /\
  (CConfigFileReader.GetConfigName r (bytes_of "DBInstances") = Some (CStrExplode.join 44 (name :: names)) ->
    (Forall (fun n => is_Some (CDBManager.read r n)) (name :: names) ->
      exists m, PoolManager.getInstance (CDBManager.Init garbage files opens path) None = Ret (Some m) /\
        forall n, m !! n = if decide (n ∈ name :: names) then entry CDBManager.read r n else None) /\
    (Exists (fun n => CDBManager.read r n = None) (name :: names) ->
      PoolManager.getInstance (CDBManager.Init garbage files opens path) None = Ret None)).
Proof.
  intros Hpath Er Hp Ho Hn. unfold PoolManager.getInstance, CacheManager.Init, CDBManager.Init.
  rewrite (proj2 (Z.eqb_neq (zlen path) 0)) by (destruct path; [done|]; zlia). rewrite Er. mstep.
  split; intros Hi; [destruct (configure_spec CacheManager.read r opens _ name names Hp Hi Ho) as [H1 H2]|
    destruct (configure_spec CDBManager.read r opens _ name names Hp Hi Ho) as [H1 H2]];
    (split; [intros Hr; destruct (H1 Hr Hn) as (m & -> & Hm); by exists m|intros Hr; by destruct (H2 Hr) as (m & ->)]).
Qed.

(** ** Rows and escaped texts *)

Section Rows.
Import CResultSet.

Lemma key_map_spec names : forall i m, NoDup names -> (forall n, n ∈ names -> m !! n = None) -> forall n,
  key_map names i m !! n = match list_find (fun x => x = n) names with Some (j, _) => Some (i + j)%nat | None => m !! n end.
Proof.
  induction names as [|x names IH]; intros i m Hd Hm n; [done|]. apply list.NoDup_cons in Hd as [Hx Hd]. cbn [key_map list_find]. rewrite (Hm x) by set_solver.
  rewrite IH; [|done|intros y Hy; rewrite lookup_insert_ne by (intros ->; done); apply Hm; set_solver]. destruct (decide (x = n)) as [->|Hne].
  - destruct (list_find _ names) as [[j y]|] eqn:E; [|by rewrite lookup_insert_eq, Nat.add_0_r]. apply list_find_Some in E as (E & -> & _).
    destruct Hx. by eapply list_elem_of_lookup_2.
  - destruct (list_find _ names) as [[j y]|]; cbn; [f_equal; lia|]. by rewrite lookup_insert_ne.
Qed.

Lemma key_map_at names j n : NoDup names -> names !! j = Some n -> key_map names 0 ∅ !! n = Some j.
Proof.
  intros Hd Hj. rewrite key_map_spec by done. destruct (list_find (fun x => x = n) names) as [[i y]|] eqn:E.
  - apply list_find_Some in E as (E & -> & _). cbn. f_equal. by eapply NoDup_lookup.
  - rewrite list_find_None, list.Forall_forall in E. destruct (E n); [by eapply list_elem_of_lookup_2|done].
Qed.

(** [n] calls of [Next]. *)
Fixpoint nexts (n : nat) (s : t) : t := match n with O => s | S n => nexts n (Next s).1 end.

Lemma nexts_spec rows : forall m n row_, rows !! n = Some row_ -> forall p, nexts (S n) (mk rows p m) = mk (drop (S n) rows) (Row row_) m.
Proof.
  induction rows as [|x rows IH]; intros m n row_ Hr p; [done|]. destruct n as [|n]; [by injection Hr as ->|]. by apply (IH m n row_).
Qed.

Lemma nexts_end rows : forall m p, nexts (S (length rows)) (mk rows p m) = mk [] NullRow m.
Proof. induction rows as [|x rows IH]; intros m p; [done|]. cbn [length]. apply (IH m (Row x)). Qed.

(** After [n + 1] calls of [Next] the columns are those of row [n], read by the names
    of the query; a name that is not in the query gives 0 or a null pointer. *)
Theorem rows_by_name fields rows n row_ : NoDup fields -> rows !! n = Some row_ -> length row_ = length fields ->
  let s := nexts (S n) (new fields rows) in
  (forall j f, fields !! j = Some f -> exists x, row_ !! j = Some x /\ GetString s f = Ret x /\
    GetInt s f = match x with Some v => Ret (Helpers.atoi v) | None => UB end) /\
  (forall f, f ∉ fields -> GetString s f = Ret None /\ GetInt s f = Ret 0).
Proof.
  intros Hd Hr Hl. unfold new. rewrite (nexts_spec rows _ n row_ Hr). cbv zeta. unfold GetString, GetInt, _GetIndex, column. cbn [m_key_map m_row]. split.
  - intros j f Hj. destruct (lookup_lt_is_Some_2 row_ j) as [x Hx]; [rewrite Hl; by eapply lookup_lt_Some|]. exists x.
    split; [done|]. rewrite (key_map_at fields j f) by done. rewrite Hx. by destruct x.
  - intros f Hf. rewrite key_map_spec by done. destruct (list_find (fun x => x = f) fields) as [[i y]|] eqn:E; [|done].
    apply list_find_Some in E as (E & -> & _). destruct Hf. by eapply list_elem_of_lookup_2.
Qed.

(** A column read before the first row or after the last one is undefined. *)
Theorem no_row_undefined fields rows f j : NoDup fields -> fields !! j = Some f ->
  GetInt (new fields rows) f = UB /\ GetString (new fields rows) f = UB /\ GetInt (nexts (S (length rows)) (new fields rows)) f = UB.
Proof.
  intros Hd Hj. unfold new. rewrite nexts_end. unfold GetString, GetInt, _GetIndex, column. cbn [m_key_map m_row]. by rewrite (key_map_at fields j f).
Qed.
End Rows.

Section Escape.
Context `{MySQL db}.
Import CDBConn.

(** Escaping never leaves the buffer of the connection: a text of up to 5120 bytes is
    escaped into it with its end, and a longer one gives an empty text. *)
Theorem escape_in_bounds (buf content : list Z) (len : Z) : zlen buf = MAX_ESCAPE_STRING_LEN + 1 -> 0 <= len <= zlen content ->
  exists rest, EscapeString buf content len = Ret ((if len <=? 5120 then escape (ztake len content) else []) ++ 0 :: rest) /\
    zlen ((if len <=? 5120 then escape (ztake len content) else []) ++ 0 :: rest) = zlen buf.
Proof.
  intros Hb Hl. unfold MAX_ESCAPE_STRING_LEN in Hb. unfold EscapeString. change (Z.shiftr MAX_ESCAPE_STRING_LEN 1) with 5120. destruct (Z.leb_spec len 5120).
  - rewrite (proj2 (Z.ltb_ge _ _)) by lia. rewrite mem_read_ok by lia. mstep. rewrite zdrop_0. pose proof (escape_len (ztake len content)) as He.
    assert (zlen (ztake len content) = len) as Ht by zlia. rewrite Ht in He. pose proof (zlen_nonneg (escape (ztake len content))).
    rewrite mem_write_ok by (rewrite ?zlen_app; change (zlen [0]) with 1; lia). rewrite ztake_0. cbn [app]. rewrite <- app_assoc. cbn [app].
    eexists. split; [done|]. rewrite zlen_app, zlen_cons, zlen_zdrop; rewrite ?zlen_app; change (zlen [0]) with 1; lia.
  - rewrite (proj2 (Z.ltb_lt _ _)) by lia. rewrite mem_write_ok by (change (zlen [0]) with 1; lia). rewrite ztake_0. cbn [app].
    eexists. split; [done|]. rewrite zlen_cons, zlen_zdrop; change (zlen [0]) with 1; lia.
Qed.
End Escape.

(** ** Witnesses *)

Module ToyPools.

Definition file : list Z := bytes_of "CacheInstances=auth" ++ [10] ++ bytes_of "auth_host=h" ++ [10] ++ bytes_of "auth_port=6379" ++ [10] ++
  bytes_of "auth_auth=pw" ++ [10] ++ bytes_of "auth_db=1" ++ [10] ++ bytes_of "auth_maxconncnt=8" ++ [10].

Definition config : CConfigFileReader.t :=
  match CConfigFileReader.CConfigFileReader false (Some file) with Ret r => r | _ => CConfigFileReader.mk false ∅ end.

Lemma managers_configured_witness : exists m,
  PoolManager.getInstance (CacheManager.Init false (fun _ => Some file) (fun _ _ => true) [47]) None = Ret (Some m) /\
  forall n, m !! n = if decide (n ∈ [bytes_of "auth"]) then entry CacheManager.read config n else None.
Proof.
  apply (proj1 (managers_configured false (fun _ => Some file) (fun _ _ => true) [47] config (bytes_of "auth") []
    ltac:(done) ltac:(by vm_compute) ltac:(apply Forall_cons_2; [split; [done|apply (bool_decide_unpack _); by vm_compute]|apply Forall_nil_2]) ltac:(done)
    ltac:(apply NoDup_singleton))); [by vm_compute|].
  apply Forall_cons_2; [by vm_compute; eexists|apply Forall_nil_2].
Defined.

Lemma rows_by_name_witness : exists x, [Some [49]; None] !! 0%nat = Some x /\
  CResultSet.GetString (nexts 1 (CResultSet.new [[97]; [98]] [[Some [49]; None]])) [97] = Ret x /\
  CResultSet.GetInt (nexts 1 (CResultSet.new [[97]; [98]] [[Some [49]; None]])) [97] = match x with Some v => Ret (Helpers.atoi v) | None => UB end.
Proof.
  apply (proj1 (rows_by_name [[97]; [98]] [[Some [49]; None]] 0 [Some [49]; None] ltac:(apply (bool_decide_unpack _); by vm_compute) eq_refl eq_refl) 0%nat [97] eq_refl).
Defined.

(** A driver that changes nothing, and doubles no byte. *)
#[local] Instance toy_mysql : MySQL unit.
Proof.
  refine {| real_query _ _ := None; store_result _ := None; affected_rows _ := 0; escape s := s |}.
  intros s. pose proof (zlen_nonneg s). lia.
Defined.

Definition toy_buf : list Z := replicate (Z.to_nat 10241) 7.

Lemma escape_in_bounds_witness : exists rest, CDBConn.EscapeString toy_buf [97; 98] 2 = Ret (escape (ztake 2 [97; 98]) ++ 0 :: rest) /\
  zlen (escape (ztake 2 [97; 98]) ++ 0 :: rest) = zlen toy_buf.
Proof. apply (escape_in_bounds toy_buf [97; 98] 2); [by vm_compute|by vm_compute]. Defined.

End ToyPools.
