(* ===== verification/ServInfo.v ===== *)
(** * Connections to the business servers

    Models the reconnection of src/src/ptp_global/ServInfo.h and its user
    [CBusinessClientConn] (src/src/ptp_server/BusinessClientConn.cpp): the list
    of servers, the connection object each entry points to, the map of
    connections by handle, the timer that reconnects with a growing delay, and
    the choice of a connection for a request.

    Whether [netlib_connect] returns a handle for a connection object, and the
    numbers [rand] gives, are arguments. *)

From S2P Require Import Prelude.

Module ServInfo.

Definition MAX_RECONNECT_CNT : Z := 64.
Definition MIN_RECONNECT_CNT : Z := 4.

Record serv_info_t := mkServ {
  server_ip : list Z;
  server_port : Z;
  idle_cnt : Z;
  reconnect_cnt : Z;
  serv_conn : option nat;
}.

(** [CBusinessClientConn]: no handle stands for [NETLIB_INVALID_HANDLE]. *)
Record conn := mkConn { m_handle : option Z; m_bOpen : bool; m_serv_idx : nat }.

Record world := mkWorld {
  g_db_server_list : list serv_info_t;
  conns : gmap nat conn;
  g_business_server_conn_map : gmap Z nat;
  next_conn : nat;
}.

Definition set_list (w : world) (l : list serv_info_t) : world :=
  mkWorld l (conns w) (g_business_server_conn_map w) (next_conn w).

Definition deref (w : world) (p : nat) : outcome conn :=
  match conns w !! p with Some c => Ret c | None => UB end.

Definition server (w : world) (i : nat) : outcome serv_info_t :=
  match g_db_server_list w !! i with Some s => Ret s | None => UB end.

Definition set_server (w : world) (i : nat) (s : serv_info_t) : world :=
  set_list w (<[i := s]> (g_db_server_list w)).

(** [std::map::insert] keeps an entry that is there. *)
Definition map_insert (m : gmap Z nat) (h : Z) (p : nat) : gmap Z nat :=
  match m !! h with Some _ => m | None => <[h := p]> m end.

Section Client.
Variable netlib_connect : nat -> list Z -> Z -> option Z.

(** [new T()] followed by [Connect]. *)
Definition connect_new (w : world) (ip : list Z) (port : Z) (serv_idx : nat) : world * nat :=
  let p := next_conn w in
  let h := netlib_connect p ip port in
  let m := match h with
           | Some h => map_insert (g_business_server_conn_map w) h p
           | None => g_business_server_conn_map w
           end in
  (mkWorld (g_db_server_list w) (<[p := mkConn h false serv_idx]> (conns w)) m (S p), p).

Definition serv_init_one (w : world) (i : nat) : outcome world :=
  s ← server w i;
  let '(w, p) := connect_new w (server_ip s) (server_port s) i in
  Ret (set_server w i (mkServ (server_ip s) (server_port s) 0 (MIN_RECONNECT_CNT / 2) (Some p))).

Definition check_one (w : world) (i : nat) : outcome world :=
  s ← server w i;
  match serv_conn s with
  | Some _ => Ret w
  | None =>
      let s := mkServ (server_ip s) (server_port s) (u32 (idle_cnt s + 1)) (reconnect_cnt s) None in
      if reconnect_cnt s <=? idle_cnt s then
        let '(w, p) := connect_new w (server_ip s) (server_port s) i in
        Ret (set_server w i (mkServ (server_ip s) (server_port s) (idle_cnt s) (reconnect_cnt s)
          (Some p)))
      else Ret (set_server w i s)
  end.

(** [for (i = from; i < from + n; i++)]. *)
Fixpoint for_servers (f : world -> nat -> outcome world) (n from : nat) (w : world)
  : outcome world :=
  match n with
  | O => Ret w
  | S n => w ← f w from; for_servers f n (S from) w
  end.

Definition serv_init (w : world) (server_count : nat) : outcome world :=
  for_servers serv_init_one server_count 0 w.

Definition serv_check_reconnect (w : world) (server_count : nat) : outcome world :=
  for_servers check_one server_count 0 w.

Definition serv_reset (w : world) (server_count serv_idx : nat) : outcome world :=
  if (server_count <=? serv_idx)%nat then Ret w
  else
    s ← server w serv_idx;
    let cnt := u32 (reconnect_cnt s * 2) in
    let cnt := if MAX_RECONNECT_CNT <? cnt then MIN_RECONNECT_CNT else cnt in
    Ret (set_server w serv_idx (mkServ (server_ip s) (server_port s) 0 cnt None)).

(** ** [CBusinessClientConn] *)

(** [Close]: [ReleaseRef] gives up the last reference. *)
Definition Close (w : world) (server_count : nat) (p : nat) : outcome world :=
  c ← deref w p;
  w ← serv_reset w server_count (m_serv_idx c);
  let m := match m_handle c with
           | Some h => delete h (g_business_server_conn_map w)
           | None => g_business_server_conn_map w
           end in
  Ret (mkWorld (g_db_server_list w) (delete p (conns w)) m (next_conn w)).

Definition OnConfirm (w : world) (p : nat) : outcome world :=
  c ← deref w p;
  s ← server w (m_serv_idx c);
  let w := set_server w (m_serv_idx c) (mkServ (server_ip s) (server_port s) (idle_cnt s)
    (MIN_RECONNECT_CNT / 2) (serv_conn s)) in
  Ret (mkWorld (g_db_server_list w) (<[p := mkConn (m_handle c) true (m_serv_idx c)]> (conns w))
    (g_business_server_conn_map w) (next_conn w)).

(** The entry at an index is connected and open. *)
Definition open_at (w : world) (i : nat) : outcome (option nat) :=
  s ← server w i;
  match serv_conn s with
  | None => Ret None
  | Some p => c ← deref w p; Ret (if m_bOpen c then Some p else None)
  end.

Fixpoint any_open (w : world) (n from : nat) : outcome bool :=
  match n with
  | O => Ret false
  | S n =>
      o ← open_at w from;
      match o with Some _ => Ret true | None => any_open w n (S from) end
  end.

(** The loop that draws until it hits an open connection. *)
Fixpoint draw_open (fuel : nat) (rand : nat -> Z) (k : nat) (w : world) (start_pos stop_pos : nat)
  : outcome nat :=
  match fuel with
  | O => NoFuel
  | S fuel =>
      let i := Z.to_nat (rand k mod (Z.of_nat stop_pos - Z.of_nat start_pos) + Z.of_nat start_pos) in
      o ← open_at w i;
      match o with
      | Some p => Ret p
      | None => draw_open fuel rand (S k) w start_pos stop_pos
      end
  end.

Definition get_business_server_conn_in_range (fuel : nat) (rand : nat -> Z) (w : world)
    (start_pos stop_pos : nat) : outcome (option nat) :=
  b ← any_open w (stop_pos - start_pos) start_pos;
  if (b : bool) then
    p ← draw_open fuel rand 0 w start_pos stop_pos; Ret (Some p)
  else Ret None.

(** [for_login]: the login range first, then the other; [None] stands for the
    fresh, unconnected object the code allocates. *)
Definition get_business_serv_conn_for_login (fuel : nat) (rand : nat -> Z) (w : world)
    (login_count server_count : nat) : outcome (option nat) :=
  o ← get_business_server_conn_in_range fuel rand w 0 login_count;
  match o with
  | Some p => Ret (Some p)
  | None => get_business_server_conn_in_range fuel rand w login_count server_count
  end.

Definition get_business_serv_conn (fuel : nat) (rand : nat -> Z) (w : world)
    (login_count server_count : nat) : outcome (option nat) :=
  o ← get_business_server_conn_in_range fuel rand w login_count server_count;
  match o with
  | Some p => Ret (Some p)
  | None => get_business_server_conn_in_range fuel rand w 0 login_count
  end.

(** [init_business_serv_conn]: the number of entries for logins. *)
Definition g_db_server_login_count (server_count concur_conn_cnt : nat) : nat :=
  server_count / concur_conn_cnt / 2 * concur_conn_cnt.

(** ** The reconnection delay *)

Lemma server_set w i s s0 j :
  g_db_server_list w !! i = Some s0 ->
  g_db_server_list (set_server w i s) !! j =
  if decide (j = i) then Some s else g_db_server_list w !! j.
Proof.
  intros Hi. simpl. destruct (decide (j = i)) as [->|Hne].
  - apply list_lookup_insert_eq. by eapply lookup_lt_Some.
  - by apply list_lookup_insert_ne.
Qed.

(** What a tick does to an entry, given that it may connect. *)
Definition ticked (s s' : serv_info_t) : Prop :=
  match serv_conn s with
  | Some _ => s' = s
  | None =>
      let idle := u32 (idle_cnt s + 1) in
      server_ip s' = server_ip s /\ server_port s' = server_port s /\
      reconnect_cnt s' = reconnect_cnt s /\ idle_cnt s' = idle /\
      (if reconnect_cnt s <=? idle then is_Some (serv_conn s') else serv_conn s' = None)
  end.

Lemma check_one_spec w i s :
  g_db_server_list w !! i = Some s ->
  exists w' s', check_one w i = Ret w' /\ ticked s s' /\
    length (g_db_server_list w') = length (g_db_server_list w) /\
    (forall j, g_db_server_list w' !! j =
       if decide (j = i) then Some s' else g_db_server_list w !! j).
Proof.
  intros Hs. unfold check_one, server. rewrite Hs. mstep. unfold ticked.
  destruct (serv_conn s) as [p|].
  - exists w, s. split_and!; try done. intros j. by case_decide; subst.
  - cbn [reconnect_cnt idle_cnt server_ip server_port].
    destruct (reconnect_cnt s <=? u32 (idle_cnt s + 1)); unfold connect_new.
    + eexists _, (mkServ (server_ip s) (server_port s) (u32 (idle_cnt s + 1)) (reconnect_cnt s)
        (Some (next_conn w))).
      split; [done|]. split; [split_and!; (done || by eexists)|].
      split; [simpl; by rewrite length_insert|]. intros j. by rewrite (server_set _ _ _ s).
    + eexists _, (mkServ (server_ip s) (server_port s) (u32 (idle_cnt s + 1)) (reconnect_cnt s)
        None).
      split; [done|]. split; [done|].
      split; [simpl; by rewrite length_insert|]. intros j. by rewrite (server_set _ _ _ s).
Qed.

Lemma for_servers_check n : forall from w,
  (from + n <= length (g_db_server_list w))%nat ->
  exists w', for_servers check_one n from w = Ret w' /\
    length (g_db_server_list w') = length (g_db_server_list w) /\
    forall j s, g_db_server_list w !! j = Some s -> exists s', g_db_server_list w' !! j = Some s' /\
      if decide (from <= j < from + n)%nat then ticked s s' else s' = s.
Proof.
  induction n as [|n IH]; intros from w Hlen; cbn [for_servers].
  { exists w. split_and!; try done. intros j s Hj. exists s. split; [done|].
    rewrite decide_False; [done|lia]. }
  destruct (lookup_lt_is_Some_2 (g_db_server_list w) from) as [s0 Hs0]; [lia|].
  destruct (check_one_spec w from s0 Hs0) as (w1&s1&->&Ht&Hl1&Hw1). mstep.
  destruct (IH (S from) w1) as (w2&->&Hl2&Hw2); [lia|]. exists w2.
  split_and!; [done|congruence|]. intros j s Hj.
  destruct (decide (j = from)) as [->|Hne].
  - destruct (Hw2 from s1) as (s'&Hs'&Hrest); [by rewrite Hw1, decide_True|].
    rewrite decide_False in Hrest by lia. subst s'. exists s1. split; [done|].
    rewrite decide_True by lia. congruence.
  - destruct (Hw2 j s) as (s'&Hs'&Hrest); [by rewrite Hw1, decide_False|].
    exists s'. split; [done|]. destruct (decide (S from <= j < S from + n)%nat).
    + rewrite decide_True by lia. done.
    + rewrite decide_False by lia. done.
Qed.

(** [k] runs of the one-second timer. *)
Fixpoint ticks (k : nat) (w : world) : outcome world :=
  match k with
  | O => Ret w
  | S k => w ← ticks k w; serv_check_reconnect w (length (g_db_server_list w))
  end.

Lemma ticks_idle k : forall w i s,
  g_db_server_list w !! i = Some s -> serv_conn s = None -> idle_cnt s = 0 ->
  reconnect_cnt s < 2 ^ 32 -> Z.of_nat k < reconnect_cnt s ->
  exists w', ticks k w = Ret w' /\ length (g_db_server_list w') = length (g_db_server_list w) /\
    g_db_server_list w' !! i = Some (mkServ (server_ip s) (server_port s) (Z.of_nat k)
      (reconnect_cnt s) None).
Proof.
  induction k as [|k IH]; intros w i s Hs Hc Hi Hmax Hk; cbn [ticks].
  { exists w. split_and!; try done. rewrite Hs. f_equal. destruct s. simpl in *. by subst. }
  destruct (IH w i s) as (w1&->&Hl1&Hs1); try done; [lia|]. mstep.
  destruct (for_servers_check (length (g_db_server_list w1)) 0 w1) as (w2&Hw2&Hl2&Hall); [lia|].
  exists w2. split; [done|]. split; [congruence|].
  destruct (Hall i _ Hs1) as (s'&Hs'&Ht). pose proof (lookup_lt_Some _ _ _ Hs1).
  rewrite decide_True in Ht by lia. rewrite Hs'. unfold ticked in Ht. cbn [serv_conn] in Ht.
  cbn [idle_cnt reconnect_cnt server_ip server_port] in Ht.
  rewrite wrap_u_small in Ht by (unfold is_u; lia). destruct Ht as (Hip&Hport&Hrc&Hid&Hcon).
  destruct (Z.leb_spec (reconnect_cnt s) (Z.of_nat k + 1)); [lia|]. f_equal.
  destruct s'. simpl in *. subst. f_equal. lia.
Qed.

(** The delay after the next failure. *)
Definition next_delay (cnt : Z) : Z :=
  if MAX_RECONNECT_CNT <? cnt * 2 then MIN_RECONNECT_CNT else cnt * 2.

Lemma next_delay_cycle n :
  Nat.iter (S n) next_delay (MIN_RECONNECT_CNT / 2) = 4 * 2 ^ (Z.of_nat n mod 5).
Proof.
  assert (forall k, Nat.iter (5 * k) next_delay 4 = 4) as Hcycle.
  { induction k as [|k IH]; [done|]. replace (5 * S k)%nat with (5 + 5 * k)%nat by lia.
    rewrite Nat.iter_add, IH. done. }
  rewrite Nat.iter_succ_r. change (next_delay (MIN_RECONNECT_CNT / 2)) with 4.
  replace (Nat.iter n next_delay 4) with (Nat.iter (n mod 5 + 5 * (n / 5)) next_delay 4)
    by (f_equal; pose proof (Nat.div_mod n 5); lia).
  rewrite Nat.iter_add, Hcycle.
  replace (Z.of_nat n mod 5) with (Z.of_nat (n mod 5)) by (rewrite Nat2Z.inj_mod; done).
  pose proof (Nat.mod_upper_bound n 5).
  destruct (n mod 5)%nat as [|[|[|[|[|m]]]]]; [done..|lia].
Qed.

(** Reconnection backs off as announced: a connection that is lost is
    tried again on exactly the tick that its delay says and on none before;
    the delays of successive failures since the last established connection are
    4, 8, 16, 32, 64, 4, 8, ... ticks. *)
Theorem reconnect_backoff w i s p c n k :
  g_db_server_list w !! i = Some s -> serv_conn s = Some p ->
  conns w !! p = Some c -> m_serv_idx c = i ->
  reconnect_cnt s = Nat.iter n next_delay (MIN_RECONNECT_CNT / 2) ->
  exists w1, Close w (length (g_db_server_list w)) p = Ret w1 /\
    let delay := 4 * 2 ^ (Z.of_nat n mod 5) in
    (Z.of_nat k < delay -> exists w2 s2, ticks k w1 = Ret w2 /\
       g_db_server_list w2 !! i = Some s2 /\ serv_conn s2 = None) /\
    (Z.of_nat k = delay -> exists w2 s2, ticks k w1 = Ret w2 /\
       g_db_server_list w2 !! i = Some s2 /\ is_Some (serv_conn s2) /\
       reconnect_cnt s2 = Nat.iter (S n) next_delay (MIN_RECONNECT_CNT / 2)).
Proof.
  intros Hs Hp Hc Hidx Hcnt. pose proof (lookup_lt_Some _ _ _ Hs) as Hlt.
  assert (2 <= reconnect_cnt s <= 64) as Hrange.
  { rewrite Hcnt. destruct n as [|n]; [by vm_compute|]. rewrite next_delay_cycle.
    pose proof (Z.mod_pos_bound (Z.of_nat n) 5).
    assert (0 <= Z.of_nat n mod 5 <= 4) as Hm by lia.
    assert (2 ^ 0 <= 2 ^ (Z.of_nat n mod 5) <= 2 ^ 4); [|lia].
    split; apply Z.pow_le_mono_r; lia. }
  set (s1 := mkServ (server_ip s) (server_port s) 0 (next_delay (reconnect_cnt s)) None).
  unfold Close, deref. rewrite Hc. mstep. unfold serv_reset. rewrite Hidx.
  rewrite (proj2 (Nat.leb_gt _ _)) by lia. unfold server. rewrite Hs. mstep.
  rewrite (wrap_u_small 32 (reconnect_cnt s * 2)) by (unfold is_u; lia).
  change (if MAX_RECONNECT_CNT <? reconnect_cnt s * 2 then _ else _)
    with (next_delay (reconnect_cnt s)). fold s1.
  eexists. split; [done|]. cbn zeta. set (w1 := mkWorld _ _ _ _).
  assert (g_db_server_list w1 !! i = Some s1) as Hs1 by (by apply list_lookup_insert_eq).
  assert (reconnect_cnt s1 = 4 * 2 ^ (Z.of_nat n mod 5)) as Hd.
  { cbn [reconnect_cnt s1]. rewrite Hcnt. apply (next_delay_cycle n). }
  assert (0 < reconnect_cnt s1 <= 64) as Hr1.
  { cbn [reconnect_cnt s1]. unfold next_delay, MAX_RECONNECT_CNT, MIN_RECONNECT_CNT.
    destruct (Z.ltb_spec 64 (reconnect_cnt s * 2)); lia. }
  rewrite <- Hd. split.
  - intros Hk. destruct (ticks_idle k w1 i s1 Hs1) as (w2&Hw2&_&Hs2); [done|done|lia|done|].
    by eexists _, _.
  - intros Hk. destruct k as [|k]; [lia|].
    destruct (ticks_idle k w1 i s1 Hs1) as (w2&Hw2&_&Hs2); [done|done|lia|lia|].
    cbn [ticks]. rewrite Hw2. mstep.
    destruct (for_servers_check (length (g_db_server_list w2)) 0 w2) as (w3&Hw3&_&Hall); [lia|].
    destruct (Hall i _ Hs2) as (s'&Hs'&Ht). pose proof (lookup_lt_Some _ _ _ Hs2).
    rewrite decide_True in Ht by lia. unfold ticked in Ht.
    cbn [serv_conn idle_cnt reconnect_cnt server_ip server_port] in Ht.
    rewrite wrap_u_small in Ht by (unfold is_u; lia). destruct Ht as (_&_&Hrc&_&Hcon).
    rewrite (proj2 (Z.leb_le _ _)) in Hcon by lia. exists w3, s'. split; [exact Hw3|].
    split_and!; try done. rewrite Hrc. cbn [reconnect_cnt s1]. by rewrite Hcnt.
Qed.

(** ** A connection attempt that fails at once *)

(** No event can reach [p]: it is in no map, and its entry is taken. *)
Definition stuck (w : world) (i : nat) (s : serv_info_t) (p : nat) (c : conn) : Prop :=
  g_db_server_list w !! i = Some s /\ serv_conn s = Some p /\ conns w !! p = Some c /\
  (p < next_conn w)%nat /\ forall h, g_business_server_conn_map w !! h <> Some p.

Lemma check_one_stuck w i s p c j w' :
  stuck w i s p c -> check_one w j = Ret w' -> stuck w' i s p c.
Proof.
  intros (Hs&Hp&Hc&Hlt&Hmap). unfold check_one, server.
  destruct (g_db_server_list w !! j) as [sj|] eqn:Hj; [|done]. mstep.
  destruct (serv_conn sj) eqn:Hcj; [intros [= <-]; done|].
  assert (i <> j) as Hne by (intros ->; congruence).
  assert (forall s', <[j := s']> (g_db_server_list w) !! i = Some s) as Hi.
  { intros s'. by rewrite list_lookup_insert_ne. }
  cbn [reconnect_cnt idle_cnt server_ip server_port].
  destruct (_ <=? _); intros [= <-]; unfold stuck; simpl; [|done].
  split_and!; [done|done| |lia|].
  - rewrite lookup_insert_ne by lia. done.
  - intros h. destruct (netlib_connect _ _ _) as [h'|]; [|done]. unfold map_insert.
    destruct (g_business_server_conn_map w !! h') eqn:Hh'; [done|].
    rewrite lookup_insert_Some. intros [[_ He]|[_ He]]; [lia|by apply (Hmap h)].
Qed.

Lemma for_servers_stuck n : forall from w i s p c w',
  stuck w i s p c -> for_servers check_one n from w = Ret w' -> stuck w' i s p c.
Proof.
  induction n as [|n IH]; intros from w i s p c w' Hst; cbn [for_servers]; [by intros [= <-]|].
  destruct (check_one w from) as [w1| | |] eqn:H1; try done. mstep.
  apply IH. by eapply check_one_stuck.
Qed.

(** When [netlib_connect] fails at the call, the server is given up: the
    entry keeps pointing to the object without a handle, so that however often
    the timer runs the connection is not tried again, and since the object is in
    no connection map no event will ever close it. *)
Theorem failed_connect_is_final w i s ip port k :
  g_db_server_list w !! i = Some s -> netlib_connect (next_conn w) ip port = None ->
  (forall h, g_business_server_conn_map w !! h <> Some (next_conn w)) ->
  let '(w1, p) := connect_new w ip port i in
  let s1 := mkServ (server_ip s) (server_port s) (idle_cnt s) (reconnect_cnt s) (Some p) in
  exists w', ticks k (set_server w1 i s1) = Ret w' /\ g_db_server_list w' !! i = Some s1 /\
    conns w' !! p = Some (mkConn None false i) /\
    forall h, g_business_server_conn_map w' !! h <> Some p.
Proof.
  intros Hs Hnc Hmap. unfold connect_new. rewrite Hnc. cbn zeta.
  set (s1 := mkServ _ _ _ _ _). set (w1 := set_server _ i s1).
  assert (stuck w1 i s1 (next_conn w) (mkConn None false i)) as Hst.
  { split_and!; simpl; [|done|apply lookup_insert_eq|lia|done].
    apply list_lookup_insert_eq. by eapply lookup_lt_Some. }
  induction k as [|k (w'&Hw'&Hrest)].
  - exists w1. destruct Hst as (?&_&?&_&?). done.
  - cbn [ticks]. rewrite Hw'. mstep. clear Hrest.
    assert (stuck w' i s1 (next_conn w) (mkConn None false i)) as Hst'.
    { clear -Hst Hw'. revert w' Hw'. induction k as [|k IH]; cbn [ticks]; intros w'; [by intros [= <-]|].
      destruct (ticks k w1) as [w2| | |]; try done. mstep. apply for_servers_stuck. by apply IH. }
    destruct (for_servers_check (length (g_db_server_list w')) 0 w') as (w2&Hw2&_); [lia|].
    exists w2. split; [exact Hw2|]. by destruct (for_servers_stuck _ _ _ _ _ _ _ _ Hst' Hw2)
      as (?&_&?&_&?).
Qed.

(** ** Choosing a connection *)

(** Entries point to existing objects. *)
Definition live_entries (w : world) : Prop :=
  forall i s p, g_db_server_list w !! i = Some s -> serv_conn s = Some p -> is_Some (conns w !! p).

Definition opened (w : world) (i p : nat) : Prop :=
  exists s c, g_db_server_list w !! i = Some s /\ serv_conn s = Some p /\
    conns w !! p = Some c /\ m_bOpen c = true.

Lemma open_at_spec w i :
  live_entries w -> (i < length (g_db_server_list w))%nat ->
  exists o, open_at w i = Ret o /\ forall p, o = Some p <-> opened w i p.
Proof.
  intros Hl Hi. destruct (lookup_lt_is_Some_2 _ _ Hi) as [s Hs]. unfold open_at, server, opened.
  rewrite Hs. mstep. destruct (serv_conn s) as [p|] eqn:Hp.
  - destruct (Hl i s p Hs Hp) as [c Hc]. unfold deref. rewrite Hc. mstep. eexists. split; [done|].
    intros p'. split.
    + destruct (m_bOpen c) eqn:Ho; [|done]. intros [= <-]. by exists s, c.
    + intros (s'&c'&Hs'&Hp'&Hc'&Ho). simplify_eq. by rewrite Ho.
  - eexists. split; [done|]. intros p. split; [done|]. intros (s'&c'&Hs'&Hp'&_). congruence.
Qed.

Lemma any_open_spec w n : forall from,
  live_entries w -> (from + n <= length (g_db_server_list w))%nat ->
  exists b, any_open w n from = Ret b /\
    (b = true <-> exists i p, (from <= i < from + n)%nat /\ opened w i p).
Proof.
  induction n as [|n IH]; intros from Hl Hlen; cbn [any_open].
  { exists false. split; [done|]. split; [done|]. intros (i&p&Hi&_). lia. }
  destruct (open_at_spec w from Hl) as (o&->&Ho); [lia|]. mstep. destruct o as [p|].
  - exists true. split; [done|]. split; [|done]. intros _. exists from, p. split; [lia|]. by apply Ho.
  - destruct (IH (S from) Hl) as (b&->&Hb); [lia|]. exists b. split; [done|]. rewrite Hb.
    split; intros (i&p&Hi&Hop).
    + exists i, p. split; [lia|done].
    + exists i, p. split; [|done]. destruct (decide (i = from)) as [->|Hne]; [|lia].
      by apply Ho in Hop.
Qed.

Lemma draw_open_spec w rand start stop fuel : forall k,
  live_entries w -> (start < stop <= length (g_db_server_list w))%nat ->
  (exists m p, (k <= m < k + fuel)%nat /\
     opened w (Z.to_nat (rand m mod (Z.of_nat stop - Z.of_nat start) + Z.of_nat start)) p) ->
  exists i p, draw_open fuel rand k w start stop = Ret p /\ (start <= i < stop)%nat /\ opened w i p.
Proof.
  induction fuel as [|fuel IH]; intros k Hl Hr (m&p&Hm&Hop); [lia|]. cbn [draw_open].
  set (i := Z.to_nat (rand k mod (Z.of_nat stop - Z.of_nat start) + Z.of_nat start)).
  assert (start <= i < stop)%nat as Hi.
  { pose proof (Z.mod_pos_bound (rand k) (Z.of_nat stop - Z.of_nat start)). lia. }
  destruct (open_at_spec w i Hl) as (o&->&Ho); [lia|]. mstep. destruct o as [p'|].
  - exists i, p'. split; [done|]. split; [done|]. by apply Ho.
  - apply IH; [done|done|]. exists m, p. split; [|done].
    destruct (decide (m = k)) as [->|Hne]; [|lia]. fold i in Hop. by apply Ho in Hop.
Qed.

(** A request for a connection in a range of servers gives an open one of
    that range whenever there is one and the random numbers reach an open entry
    at all, and none when no entry of the range is open; objects that are not
    open are never handed out. *)
Theorem conn_in_range_open fuel rand w start stop :
  live_entries w -> (start <= stop <= length (g_db_server_list w))%nat ->
  ((forall i p, (start <= i < stop)%nat -> ~ opened w i p) ->
     get_business_server_conn_in_range fuel rand w start stop = Ret None) /\
  ((exists m p, (m < fuel)%nat /\ (start < stop)%nat /\
      opened w (Z.to_nat (rand m mod (Z.of_nat stop - Z.of_nat start) + Z.of_nat start)) p) ->
     exists i p, get_business_server_conn_in_range fuel rand w start stop = Ret (Some p) /\
       (start <= i < stop)%nat /\ opened w i p).
Proof.
  intros Hl Hr. unfold get_business_server_conn_in_range.
  destruct (any_open_spec w (stop - start) start Hl) as (b&->&Hb); [lia|]. mstep.
  replace (start + (stop - start))%nat with stop in Hb by lia. split.
  - intros Hnone. destruct b; [|done]. destruct (proj1 Hb eq_refl) as (i&p&Hi&Hop).
    by apply (Hnone i p) in Hop.
  - intros (m&p&Hm&Hlt&Hop).
    destruct (draw_open_spec w rand start stop fuel 0 Hl) as (i&p'&->&Hi&Hop'); [lia| |].
    { exists m, p. split; [lia|done]. }
    assert (b = true) as -> by (apply Hb; eauto). exists i, p'. done.
Qed.

End Client.

Definition demo_connect (p : nat) (ip : list Z) (port : Z) : option Z :=
  if Nat.even p then Some (100 + Z.of_nat p) else None.

Definition demo_serv (cnt : Z) (o : option nat) : serv_info_t := mkServ [49] 8000 0 cnt o.

Definition demo_world : world :=
  mkWorld [demo_serv 2 (Some 0%nat); demo_serv 2 (Some 2%nat)]
    {[0%nat := mkConn (Some 100) false 0; 2%nat := mkConn (Some 102) true 1]}
    {[100 := 0%nat; 102 := 2%nat]} 3.

Lemma reconnect_backoff_witness :
  exists w1, Close demo_world 2 0 = Ret w1 /\
    (exists w2 s2, ticks demo_connect 3 w1 = Ret w2 /\ g_db_server_list w2 !! 0%nat = Some s2 /\
       serv_conn s2 = None) /\
    (exists w2 s2, ticks demo_connect 4 w1 = Ret w2 /\ g_db_server_list w2 !! 0%nat = Some s2 /\
       is_Some (serv_conn s2)).
Proof.
  destruct (reconnect_backoff demo_connect demo_world 0 (demo_serv 2 (Some 0%nat)) 0
    (mkConn (Some 100) false 0) 0 3) as (w1&Hw1&Hbefore&_); [by vm_compute..|].
  destruct (reconnect_backoff demo_connect demo_world 0 (demo_serv 2 (Some 0%nat)) 0
    (mkConn (Some 100) false 0) 0 4) as (w1'&Hw1'&_&Hafter); [by vm_compute..|].
  change (length (g_db_server_list demo_world)) with 2%nat in *.
  rewrite Hw1' in Hw1. injection Hw1 as ->. exists w1. split; [exact Hw1'|].
  split; [by apply Hbefore; vm_compute|].
  destruct Hafter as (w2&s2&Ht&Hs&Hc&_); [by vm_compute|]. by exists w2, s2.
Defined.

Lemma failed_connect_is_final_witness :
  let '(w1, p) := connect_new demo_connect demo_world [49] 8000 0 in
  exists w', ticks demo_connect 1000 (set_server w1 0 (demo_serv 2 (Some p))) = Ret w' /\
    g_db_server_list w' !! 0%nat = Some (demo_serv 2 (Some p)) /\
    conns w' !! p = Some (mkConn None false 0) /\
    forall h, g_business_server_conn_map w' !! h <> Some p.
Proof.
  apply (failed_connect_is_final demo_connect demo_world 0 (demo_serv 2 (Some 0%nat)) [49] 8000 1000).
  - by vm_compute.
  - by vm_compute.
  - intros h. change (g_business_server_conn_map demo_world) with ({[100 := 0%nat; 102 := 2%nat]} : gmap Z nat).
    rewrite lookup_insert_Some, lookup_singleton_Some. change (next_conn demo_world) with 3%nat. naive_solver.
Defined.

Lemma conn_in_range_open_witness :
  (exists i p, get_business_server_conn_in_range 3 Z.of_nat demo_world 0 2 = Ret (Some p) /\
     (0 <= i < 2)%nat /\ opened demo_world i p) /\
  get_business_server_conn_in_range 3 Z.of_nat demo_world 0 1 = Ret None.
Proof.
  assert (live_entries demo_world) as Hl.
  { intros i s p Hs Hp. destruct i as [|[|i]]; [| |done]; injection Hs as <-; injection Hp as <-;
      by eexists. }
  split.
  - apply (conn_in_range_open 3 Z.of_nat demo_world 0 2 Hl ltac:(simpl; lia)).
    exists 1%nat, 2%nat. split; [lia|]. split; [lia|].
    exists (demo_serv 2 (Some 2%nat)), (mkConn (Some 102) true 1). by vm_compute.
  - apply (conn_in_range_open 3 Z.of_nat demo_world 0 1 Hl ltac:(simpl; lia)).
    intros i p Hi (s&c&Hs&Hp&Hc&Ho). assert (i = 0%nat) as -> by lia. injection Hs as <-.
    injection Hp as <-. vm_compute in Hc. by injection Hc as <-.
Defined.

End ServInfo.
