(* ===== verification/ServerConfig.v ===== *)
(** * The server list of the configuration

    Models [read_server_config] (src/src/ptp_global/ServInfo.cpp), which reads the
    addresses of numbered servers from the configuration: it counts how many are
    there and makes the list that [ServInfo] connects to.

    The theorem: it always ends, and gives exactly the servers from the first one up to
    the first number that is missing. *)

From S2P Require Import Prelude Helpers ConfigFile ServInfo.

Module ServerConfig.
Import ServInfo CConfigFileReader.

Section ServerConfig.
Variables (junk : nat -> Z) (config_file : t).

(** [%d] of an [int]. *)
Definition print_int (n : Z) : list Z := if 0 <=? n then Helpers.decimal n else [45] ++ Helpers.decimal (- n).

(** [sprintf(key, "%s%d", format, n)] into an array of 64 characters; the unsigned
    [n] is read as an [int]. *)
Definition make_key (format : list Z) (n : Z) : outcome (list Z) :=
  buf ← mem_write (realloc junk [] 64) 0 (c_str format ++ print_int (i32 n) ++ [0]);
  Ret (c_str buf).

Fixpoint count_loop (fuel : nat) (server_ip_format server_port_format : list Z) (server_count : Z) : outcome Z :=
  match fuel with
  | O => NoFuel
  | S fuel =>
      server_ip_key ← make_key server_ip_format (u32 (server_count + 1));
      server_port_key ← make_key server_port_format (u32 (server_count + 1));
      match GetConfigName config_file server_ip_key, GetConfigName config_file server_port_key with
      | Some _, Some _ => count_loop fuel server_ip_format server_port_format (u32 (server_count + 1))
      | _, _ => Ret server_count
      end
  end.

(** The loop over the new array; a missing value would be a null pointer.  [fresh] is
    the uninitialised part of an entry. *)
Fixpoint fill_loop (fresh : nat -> serv_info_t) (n : nat) (i : Z) (server_ip_format server_port_format : list Z) :
    outcome (list serv_info_t) :=
  match n with
  | O => Ret []
  | S n =>
      server_ip_key ← make_key server_ip_format (u32 (i + 1));
      server_port_key ← make_key server_port_format (u32 (i + 1));
      match GetConfigName config_file server_ip_key, GetConfigName config_file server_port_key with
      | Some ip, Some port =>
          let g := fresh (Z.to_nat i) in
          rest ← fill_loop fresh n (i + 1) server_ip_format server_port_format;
          Ret (mkServ ip (u16 (Helpers.atoi port)) (idle_cnt g) (reconnect_cnt g) (serv_conn g) :: rest)
      | _, _ => UB
      end
  end.

(** The list, or a null pointer, and the count.  [fuel] bounds the loop that
    counts. *)
Definition read_server_config (fresh : nat -> serv_info_t) (fuel : nat) (server_ip_format server_port_format : list Z) :
    outcome (option (list serv_info_t) * Z) :=
  server_count ← count_loop fuel server_ip_format server_port_format 0;
  if server_count =? 0 then Ret (None, 0) else
  server_list ← fill_loop fresh (Z.to_nat server_count) 0 server_ip_format server_port_format;
  Ret (Some server_list, server_count).

End ServerConfig.

(** ** Keys *)

(** A format whose keys fit the array. *)
Definition format_ok (format : list Z) : Prop := Forall (fun c => c <> 0) format /\ zlen format <= 53.

Definition key (format : list Z) (i : Z) : list Z := format ++ Helpers.decimal i.

Lemma key_inj format i j : 0 <= i < 2 ^ 31 -> 0 <= j < 2 ^ 31 -> key format i = key format j -> i = j.
Proof.
  intros Hi Hj E. apply app_inv_head in E. destruct (Helpers.decimal_spec i) as (_ & <- & _); [cbn in *; lia|].
  destruct (Helpers.decimal_spec j) as (_ & <- & _); [cbn in *; lia|]. by rewrite E.
Qed.

Lemma make_key_spec junk format i : format_ok format -> 0 <= i < 2 ^ 31 -> make_key junk format i = Ret (key format i).
Proof.
  intros [Hz Hl] Hi. unfold make_key, print_int, key. rewrite c_str_text by done.
  rewrite wrap_s_small by (unfold is_s; cbn in *; lia). rewrite (proj2 (Z.leb_le 0 i)) by lia.
  destruct (Helpers.decimal_spec i) as (D1 & _ & D2); [cbn in *; lia|]. pose proof (zlen_nonneg format). pose proof (zlen_nonneg (Helpers.decimal i)).
  rewrite mem_write_ok by (rewrite ?zlen_app, ?zlen_realloc by lia; change (zlen [0]) with 1; lia). mstep. rewrite ztake_0. cbn [app].
  rewrite app_assoc, <- app_assoc. rewrite <- !app_assoc, app_assoc. cbn [app]. rewrite c_str_app; [done|]. apply Forall_app. split; [done|].
  eapply Forall_impl; [|exact D1]. unfold Helpers.is_digit. cbn. lia.
Qed.

(** ** Counting *)

Section Count.
Context (junk : nat -> Z) (r : t) (ipf portf : list Z).
Context (Hip : format_ok ipf) (Hport : format_ok portf) (Hsize : Z.of_nat (size (m_config_map r)) < 2 ^ 30).

(** Both values of server [i], as they are in the configuration. *)
Definition server_values (i : Z) : option (list Z * list Z) :=
  ip ← GetConfigName r (key ipf i); port ← GetConfigName r (key portf i); Some (ip, port).

Lemma servers_bounded (n : nat) : Z.of_nat n < 2 ^ 31 ->
  (forall i, 1 <= i <= Z.of_nat n -> is_Some (server_values i)) -> (n <= size (m_config_map r))%nat.
Proof.
  intros Hn Hv. set (l := map (fun i => key ipf (Z.of_nat i)) (seq 1 n)).
  assert (NoDup l) as Hd.
  { apply NoDup_fmap_2_strong; [|apply NoDup_ListNoDup, seq_NoDup]. intros x y Hx Hy E.
    apply list_elem_of_In, in_seq in Hx. apply list_elem_of_In, in_seq in Hy. apply key_inj in E; lia. }
  assert (list_to_set l ⊆ (dom (m_config_map r) : gset (list Z))) as Hs.
  { intros k Hk. apply elem_of_list_to_set, list_elem_of_fmap in Hk as (i & -> & Hi). apply list_elem_of_In, in_seq in Hi.
    destruct (Hv (Z.of_nat i)) as [[ip port] E]; [lia|]. unfold server_values, GetConfigName in E. apply elem_of_dom.
    destruct (m_load_ok r); [|done]. apply bind_Some in E as (x & E & _). by exists x. }
  apply subseteq_size in Hs. rewrite size_dom, size_list_to_set in Hs by done. unfold l in Hs. by rewrite length_map, length_seq in Hs.
Qed.

(** A round of counting. *)
Lemma count_round fuel (c : nat) : Z.of_nat c < 2 ^ 31 - 1 ->
  count_loop junk r (S fuel) ipf portf (Z.of_nat c) =
    if server_values (Z.of_nat c + 1) is Some _ then count_loop junk r fuel ipf portf (Z.of_nat (S c)) else Ret (Z.of_nat c).
Proof.
  intros Hc. change (2 ^ 31) with 2147483648 in Hc. cbn [count_loop]. rewrite wrap_u_small by (unfold is_u; pow2; lia).
  rewrite !make_key_spec by (done || (cbn; lia)). mstep. unfold server_values.
  destruct (GetConfigName r (key ipf _)); [|done]. cbn [mbind option_bind]. destruct (GetConfigName r (key portf _)); [|done].
  cbn [mbind option_bind]. by replace (Z.of_nat c + 1) with (Z.of_nat (S c)) by lia.
Qed.

(** Counting goes on from [c] servers that are there, with one round for each of the
    others and one more. *)
Lemma count_loop_spec d : forall c : nat,
  (forall i, 1 <= i <= Z.of_nat c -> is_Some (server_values i)) -> size (m_config_map r) = (c + d)%nat ->
  exists n : nat, (c <= n <= size (m_config_map r))%nat /\
    (forall fuel, (n < c + fuel)%nat -> count_loop junk r fuel ipf portf (Z.of_nat c) = Ret (Z.of_nat n)) /\
    (forall i, 1 <= i <= Z.of_nat n -> is_Some (server_values i)) /\ server_values (Z.of_nat n + 1) = None.
Proof.
  change (2 ^ 30) with 1073741824 in Hsize.
  induction d as [|d IH]; intros c Hc Hd; (destruct (server_values (Z.of_nat c + 1)) as [v|] eqn:E;
    [|exists c; split; [lia|]; split; [|done]; intros [|fuel] Hf; [lia|]; by rewrite count_round, E by (cbn; lia)]).
  all: assert (forall i, 1 <= i <= Z.of_nat (S c) -> is_Some (server_values i)) as Hc'
    by (intros i Hi; destruct (Z.eq_dec i (Z.of_nat c + 1)) as [->|]; [by rewrite E|apply Hc; lia]).
  all: pose proof (servers_bounded (S c) ltac:(cbn; lia) Hc') as Hb.
  { lia. }
  destruct (IH (S c) Hc' ltac:(lia)) as (n & Hn & E2 & Hp). exists n. split; [lia|]. split; [|done].
  intros [|fuel] Hf; [lia|]. rewrite count_round, E by (cbn; lia). apply E2. lia.
Qed.

Lemma fill_loop_spec fresh n : forall i : nat,
  Z.of_nat (i + n) < 2 ^ 30 -> (forall j, Z.of_nat i + 1 <= j <= Z.of_nat (i + n) -> is_Some (server_values j)) ->
  exists l, fill_loop junk r fresh n (Z.of_nat i) ipf portf = Ret l /\ length l = n /\
    forall j, (j < n)%nat -> exists s ip port, l !! j = Some s /\ server_values (Z.of_nat (i + j) + 1) = Some (ip, port) /\
      server_ip s = ip /\ server_port s = u16 (Helpers.atoi port).
Proof.
  change (2 ^ 30) with 1073741824. induction n as [|n IH]; intros i Hi Hv; [exists []; split_and!; [done|done|intros j Hj; lia]|]. cbn [fill_loop].
  rewrite wrap_u_small by (unfold is_u; pow2; lia). rewrite !make_key_spec by (done || (cbn; lia)). mstep.
  destruct (Hv (Z.of_nat i + 1)) as [[ip port] E]; [lia|]. pose proof E as E'. unfold server_values in E'.
  apply bind_Some in E' as (x & -> & E'). apply bind_Some in E' as (y & -> & [= -> ->]).
  destruct (IH (S i)) as (l & El & Ll & Hl); [lia|intros j Hj; apply Hv; lia|].
  replace (Z.of_nat i + 1) with (Z.of_nat (S i)) by lia. rewrite El. mstep. eexists. split; [done|]. split; [by cbn; f_equal|].
  intros [|j] Hj.
  - rewrite Nat.add_0_r. by eexists _, ip, port.
  - destruct (Hl j) as (s & ip' & port' & H); [lia|]. rewrite <- Nat.add_succ_comm. by exists s, ip', port'.
Qed.

End Count.

(** ** Theorems *)

(** C37. Reading the server list ends and is exact, for names of at most 53
    characters (longer ones can overflow the array of 64 characters) and a
    configuration of fewer than 2^30 entries: the counting loop takes one round for
    each server and one more, and finds no more servers than the configuration has
    entries; the result has the servers from number 1 up to the first number for which
    the address or the port is missing, each with its address and its port, and is a
    null pointer when there is none. *)
Theorem server_list_read (junk : nat -> Z) (r : t) (ipf portf : list Z) (fresh : nat -> serv_info_t) :
  format_ok ipf -> format_ok portf -> Z.of_nat (size (m_config_map r)) < 2 ^ 30 ->
  exists (n : nat) (l : list serv_info_t),
    (n <= size (m_config_map r))%nat /\ length l = n /\
    (forall fuel, (n < fuel)%nat -> read_server_config junk r fresh fuel ipf portf = Ret (if (n =? 0)%nat then None else Some l, Z.of_nat n)) /\
    (forall i, (i < n)%nat -> exists s ip port, l !! i = Some s /\
      GetConfigName r (key ipf (Z.of_nat i + 1)) = Some ip /\ GetConfigName r (key portf (Z.of_nat i + 1)) = Some port /\
      server_ip s = ip /\ server_port s = u16 (Helpers.atoi port)) /\
    (GetConfigName r (key ipf (Z.of_nat n + 1)) = None \/ GetConfigName r (key portf (Z.of_nat n + 1)) = None).
Proof.
  intros Hip Hport Hs. destruct (count_loop_spec junk r ipf portf Hip Hport Hs (size (m_config_map r)) 0) as (n & Hn & E & Hp & Hm); [lia|lia|].
  destruct (fill_loop_spec junk r ipf portf Hip Hport fresh n 0) as (l & El & Ll & Hl).
  { cbn [Nat.add]. lia. } { intros j Hj. apply Hp. lia. }
  exists n, l. change (Z.of_nat 0) with 0 in E, El. split_and!; [lia|done|..].
  - intros fuel Hf. unfold read_server_config. rewrite E by lia. mstep. destruct n as [|n]; [done|]. rewrite (proj2 (Z.eqb_neq _ 0)) by lia. rewrite Nat2Z.id, El. done.
  - intros i Hi. destruct (Hl i Hi) as (s & ip & port & Hs' & Ev & E1 & E2). exists s, ip, port. cbn [Nat.add] in Ev. unfold server_values in Ev.
    apply bind_Some in Ev as (x & Ex & Ev). apply bind_Some in Ev as (y & Ey & [= -> ->]). by rewrite Ex, Ey.
  - unfold server_values in Hm. destruct (GetConfigName r (key ipf _)); [|by left]. cbn in Hm.
    by destruct (GetConfigName r (key portf _)); [|right].
Qed.

(** A name of more than 62 characters is written past the end of the array. *)
Theorem long_name_overflows (junk : nat -> Z) (format : list Z) (n : Z) :
  Forall (fun c => c <> 0) format -> 62 < zlen format -> 0 <= n < 2 ^ 31 -> make_key junk format n = UB.
Proof.
  intros Hz Hl Hn. unfold make_key, print_int. rewrite c_str_text by done. rewrite wrap_s_small by (unfold is_s; cbn in *; lia).
  rewrite (proj2 (Z.leb_le 0 n)) by lia. destruct (Helpers.decimal_spec n) as (_ & _ & L); [cbn in *; lia|].
  rewrite mem_write_out; [done|]. rewrite !zlen_app, zlen_realloc by lia. change (zlen [0]) with 1. lia.
Qed.

(** A configuration file with two servers, from its bytes. *)
Lemma two_servers :
  (r ← CConfigFileReader false (Some (bytes_of "ip_1=10.0.0.1" ++ [10] ++ bytes_of "port_1=80" ++ [10] ++ bytes_of "ip_2 = 10.0.0.2" ++ [10] ++ bytes_of "port_2=8080" ++ [10] ++ bytes_of "ip_3=10.0.0.3"));
   read_server_config (fun _ => 1) r (fun _ => mkServ [] 0 7 8 None) 10 (bytes_of "ip_") (bytes_of "port_")) =
  Ret (Some [mkServ (bytes_of "10.0.0.1") 80 7 8 None; mkServ (bytes_of "10.0.0.2") 8080 7 8 None], 2).
Proof. by vm_compute. Qed.

Lemma server_list_read_witness :
  exists n (l : list serv_info_t), n = 1%nat /\ length l = 1%nat /\
    read_server_config (fun _ => 0) (mk true {[bytes_of "ip_1" := bytes_of "10.0.0.1"; bytes_of "port_1" := bytes_of "80"]}) (fun _ => mkServ [] 0 0 0 None) 2 (bytes_of "ip_") (bytes_of "port_")
      = Ret (Some l, 1).
Proof.
  destruct (server_list_read (fun _ => 0) (mk true {[bytes_of "ip_1" := bytes_of "10.0.0.1"; bytes_of "port_1" := bytes_of "80"]}) (bytes_of "ip_") (bytes_of "port_") (fun _ => mkServ [] 0 0 0 None))
    as (n & l & Hn & L & E & Hi & Hm).
  - split; [apply (bool_decide_unpack _); by vm_compute|by vm_compute].
  - split; [apply (bool_decide_unpack _); by vm_compute|by vm_compute].
  - by vm_compute.
  - assert (n = 1%nat) as ->.
    { change (n <= 2)%nat in Hn. destruct n as [|[|[|n]]]; [by destruct Hm as [Hm|Hm]; vm_compute in Hm|done| |lia].
      destruct (Hi 1%nat) as (s & ip & port & _ & Hk & _); [lia|]. by vm_compute in Hk. }
    exists 1%nat, l. split; [done|]. split; [exact L|]. rewrite (E 2%nat) by lia. done.
Defined.

End ServerConfig.
