(* ===== verification/Business.v ===== *)
(** * The business server: worker threads and response routing

    Models [CBusinessSrvConn] (src/src/ptp_server/BusinessSrvConn.cpp),
    [CProxyTask] (ProxyTask.cpp) and the worker threads of
    src/src/ptp_global/ThreadPool.cpp.  The main thread turns each packet into
    a task for a random worker; a worker runs the packet's handler and queues
    the response with the number (uuid) of the connection; the main thread
    takes responses from that queue and sends each on the connection with the
    number, or closes it.

    The threads are a step relation: every critical section of a lock is one
    step, and steps of different threads interleave freely.  Packets and their
    handlers are an interface, so that the theorems hold for every handler
    table.  The packets of a connection are cut out of the stream as in
    [ImConn]. *)

From S2P Require Import Prelude.

(** A packet type with the fields that routing uses, and the handler table:
    a handler gives a valid response or none. *)
Class Handlers (pdu : Type) := {
  GetCommandId : pdu -> Z;
  GetReversed : pdu -> Z;
  SetReversed : pdu -> Z -> pdu;
  GetHandler : Z -> option (Z -> pdu -> option pdu);
  CID_HeartBeat : Z;
}.

Module Business.

Section Threads.
Context {pdu : Type} `{Handlers pdu}.

Record conn := mkConn { m_uuid : Z; m_handle : Z }.

(** [CProxyTask]; [origin] is the connection object the packet came from: no
    operation looks at it, it only serves to say where a response belongs. *)
Record task := mkTask {
  m_conn_uuid : Z;
  m_pdu_handler : Z -> pdu -> option pdu;
  m_pPdu : pdu;
  origin : nat;
}.

(** [ResponsePdu_t], with the task it answers. *)
Record response := mkResp { conn_uuid : Z; pPdu : option pdu; answers : task }.

(** A worker thread: its queue and the task it is running. *)
Record worker := mkWorker { m_task_list : list task; current : option task }.

Record state := mkState {
  s_uuid_alloctor : Z;
  objects : gmap nat conn;
  next_object : nat;
  g_proxy_conn_map : gmap Z nat;
  g_uuid_conn_map : gmap Z nat;
  m_worker_list : list worker;
  s_response_pdu_list : list response;
  received : list task;
  sent : list (option nat * response);
}.

Definition set_workers (s : state) (ws : list worker) : state :=
  mkState (s_uuid_alloctor s) (objects s) (next_object s) (g_proxy_conn_map s) (g_uuid_conn_map s)
    ws (s_response_pdu_list s) (received s) (sent s).

Definition set_responses (s : state) (rs : list response) : state :=
  mkState (s_uuid_alloctor s) (objects s) (next_object s) (g_proxy_conn_map s) (g_uuid_conn_map s)
    (m_worker_list s) rs (received s) (sent s).

Definition log_received (s : state) (t : task) : state :=
  mkState (s_uuid_alloctor s) (objects s) (next_object s) (g_proxy_conn_map s) (g_uuid_conn_map s)
    (m_worker_list s) (s_response_pdu_list s) (received s ++ [t]) (sent s).

Definition log_sent (s : state) (p : option nat) (r : response) : state :=
  mkState (s_uuid_alloctor s) (objects s) (next_object s) (g_proxy_conn_map s) (g_uuid_conn_map s)
    (m_worker_list s) (s_response_pdu_list s) (received s) (sent s ++ [(p, r)]).

(** [std::map::insert] keeps an entry that is there. *)
Definition map_insert (m : gmap Z nat) (k : Z) (p : nat) : gmap Z nat :=
  match m !! k with Some _ => m | None => <[k := p]> m end.

(** The constructor: the next number, never 0. *)
Definition next_uuid (alloctor : Z) : Z :=
  let u := u32 (alloctor + 1) in if u =? 0 then u32 (u + 1) else u.

Definition new_conn (s : state) : state * nat :=
  let u := next_uuid (s_uuid_alloctor s) in
  let p := next_object s in
  (mkState u (<[p := mkConn u 0]> (objects s)) (S p) (g_proxy_conn_map s)
     (map_insert (g_uuid_conn_map s) u p) (m_worker_list s) (s_response_pdu_list s) (received s)
     (sent s), p).

(** [proxy_serv_callback]: a new object, and its [OnConnect]. *)
Definition OnConnect (s : state) (handle : Z) : state :=
  let '(s, p) := new_conn s in
  match objects s !! p with
  | Some c =>
      mkState (s_uuid_alloctor s) (<[p := mkConn (m_uuid c) handle]> (objects s)) (next_object s)
        (map_insert (g_proxy_conn_map s) handle p) (g_uuid_conn_map s) (m_worker_list s)
        (s_response_pdu_list s) (received s) (sent s)
  | None => s
  end.

Definition Close (s : state) (p : nat) (c : conn) : state :=
  mkState (s_uuid_alloctor s) (delete p (objects s)) (next_object s)
    (delete (m_handle c) (g_proxy_conn_map s)) (delete (m_uuid c) (g_uuid_conn_map s))
    (m_worker_list s) (s_response_pdu_list s) (received s) (sent s).

(** [CWorkerThread::PushTask] and [CThreadPool::AddTask]. *)
Definition PushTask (w : worker) (t : task) : worker := mkWorker (m_task_list w ++ [t]) (current w).

Definition AddTask (s : state) (random : nat) (t : task) : state :=
  let thread_idx := (random mod length (m_worker_list s))%nat in
  match m_worker_list s !! thread_idx with
  | Some w => set_workers s (<[thread_idx := PushTask w t]> (m_worker_list s))
  | None => s
  end.

Definition HandlePduBuf (s : state) (p : nat) (c : conn) (q : pdu) (random : nat) : state :=
  if GetCommandId q =? CID_HeartBeat then s
  else
    match GetHandler (GetCommandId q) with
    | Some handler =>
        let t := mkTask (m_uuid c) handler q p in
        AddTask (log_received s t) random t
    | None => s
    end.

(** [CWorkerThread::Execute] up to [run]: take the front of the queue. *)
Definition TakeTask (w : worker) : option worker :=
  match current w, m_task_list w with
  | None, t :: rest => Some (mkWorker rest (Some t))
  | _, _ => None
  end.

(** [CProxyTask::run]. *)
Definition run (t : task) : response :=
  mkResp (m_conn_uuid t)
    (match m_pdu_handler t (m_conn_uuid t) (m_pPdu t) with
     | Some q => Some (SetReversed q (GetReversed (m_pPdu t)))
     | None => None
     end) t.

Definition AddResponsePdu (s : state) (r : response) : state :=
  set_responses s (s_response_pdu_list s ++ [r]).

(** One round of the loop of [SendResponsePduList]; [None] when the list is
    empty. *)
Definition SendResponsePdu (s : state) : outcome (option state) :=
  match s_response_pdu_list s with
  | [] => Ret None
  | r :: rest =>
      let s := set_responses s rest in
      match g_uuid_conn_map s !! conn_uuid r with
      | None => Ret (Some (log_sent s None r))
      | Some p =>
          match objects s !! p with
          | None => UB
          | Some c =>
              let s := log_sent s (Some p) r in
              Ret (Some (match pPdu r with Some _ => s | None => Close s p c end))
          end
      end
  end.

(** ** The threads *)

Inductive step : state -> state -> Prop :=
| step_connect s h : g_proxy_conn_map s !! h = None -> step s (OnConnect s h)
| step_close s p c : objects s !! p = Some c -> step s (Close s p c)
| step_packet s p c q random :
    objects s !! p = Some c -> step s (HandlePduBuf s p c q random)
| step_take s i w w' :
    m_worker_list s !! i = Some w -> TakeTask w = Some w' ->
    step s (set_workers s (<[i := w']> (m_worker_list s)))
| step_run s i w t :
    m_worker_list s !! i = Some w -> current w = Some t ->
    step s (AddResponsePdu (set_workers s (<[i := mkWorker (m_task_list w) None]>
      (m_worker_list s))) (run t))
| step_send s s' : SendResponsePdu s = Ret (Some s') -> step s s'.

Definition start (thread_num : nat) : state :=
  mkState 0 ∅ 0 ∅ ∅ (replicate thread_num (mkWorker [] None)) [] [] [].

Inductive reach (thread_num : nat) : state -> Prop :=
| reach_start : reach thread_num (start thread_num)
| reach_step s s' : reach thread_num s -> step s s' -> reach thread_num s'.

(** ** Every request is answered once, on its connection *)

Definition worker_tasks (w : worker) : list task := option_list (current w) ++ m_task_list w.

(** The requests that have been taken up, by how far they have come. *)
Definition stages (s : state) : list task :=
  map (fun x => answers (snd x)) (sent s) ++ map answers (s_response_pdu_list s) ++
  concat (map worker_tasks (m_worker_list s)).

Definition task_ok (s : state) (t : task) : Prop :=
  (origin t < next_object s)%nat /\ m_conn_uuid t = Z.of_nat (origin t) + 1.

Definition sent_ok (s : state) (x : option nat * response) : Prop :=
  x.2 = run (answers x.2) /\
  match x.1 with
  | Some p => p = origin (answers x.2)
  | None => objects s !! origin (answers x.2) = None
  end.

Record inv (s : state) : Prop := {
  inv_uuid : s_uuid_alloctor s = Z.of_nat (next_object s);
  inv_objects p c : objects s !! p = Some c ->
    (p < next_object s)%nat /\ m_uuid c = Z.of_nat p + 1 /\
    g_uuid_conn_map s !! (Z.of_nat p + 1) = Some p;
  inv_map u p : g_uuid_conn_map s !! u = Some p ->
    is_Some (objects s !! p) /\ u = Z.of_nat p + 1;
  inv_tasks : Forall (task_ok s) (stages s);
  inv_pending : Forall (fun r => r = run (answers r)) (s_response_pdu_list s);
  inv_sent : Forall (sent_ok s) (sent s);
  inv_once : received s ≡ₚ stages s;
}.

Lemma next_uuid_small n : 0 <= n < 2 ^ 32 - 1 -> next_uuid n = n + 1.
Proof.
  intros Hn. unfold next_uuid. rewrite wrap_u_small by (unfold is_u; lia).
  by rewrite (proj2 (Z.eqb_neq _ _)) by lia.
Qed.

Lemma concat_insert {A B} (f : A -> list B) (l : list A) i x :
  l !! i = Some x -> exists pre post, concat (map f l) = pre ++ f x ++ post /\
    forall y, concat (map f (<[i := y]> l)) = pre ++ f y ++ post.
Proof.
  intros Hi. exists (concat (map f (take i l))), (concat (map f (drop (S i) l))). split.
  - rewrite <- (take_drop_middle l i x Hi) at 1. by rewrite map_app, concat_app.
  - intros y. rewrite insert_take_drop by (by eapply lookup_lt_Some). by rewrite map_app, concat_app.
Qed.

(** The invariant speaks of the stages only up to their order. *)
Lemma inv_moved s s' :
  inv s -> objects s' = objects s -> next_object s' = next_object s ->
  s_uuid_alloctor s' = s_uuid_alloctor s -> g_uuid_conn_map s' = g_uuid_conn_map s ->
  sent s' = sent s -> received s' ≡ₚ stages s' -> Forall (task_ok s) (stages s') ->
  Forall (fun r => r = run (answers r)) (s_response_pdu_list s') -> inv s'.
Proof.
  intros [I1 I2 I3 I4 I5 I6 I7] Ho Hn Hu Hm Hs Hst Hok Hp. split.
  - by rewrite Hu, Hn.
  - by rewrite Ho, Hn, Hm.
  - by rewrite Ho, Hm.
  - unfold task_ok in *. by rewrite Hn.
  - done.
  - unfold sent_ok in *. by rewrite Ho, Hs.
  - done.
Qed.

Lemma inv_connect s h :
  inv s -> Z.of_nat (next_object s) < 2 ^ 32 - 1 -> inv (OnConnect s h).
Proof.
  intros [I1 I2 I3 I4 I5 I6 I7] Hb. unfold OnConnect, new_conn. rewrite I1.
  rewrite next_uuid_small by lia. cbn [objects]. rewrite lookup_insert_eq. cbn [m_uuid].
  set (n := next_object s) in *.
  assert (g_uuid_conn_map s !! (Z.of_nat n + 1) = None) as Hfree.
  { destruct (g_uuid_conn_map s !! (Z.of_nat n + 1)) as [p|] eqn:Hp; [|done].
    destruct (I3 _ _ Hp) as [[c Hc] He]. destruct (I2 _ _ Hc). lia. }
  assert (objects s !! n = None) as Hnew.
  { destruct (objects s !! n) as [c|] eqn:Hc; [|done]. destruct (I2 _ _ Hc). lia. }
  assert (map_insert (g_uuid_conn_map s) (Z.of_nat n + 1) n =
    <[Z.of_nat n + 1 := n]> (g_uuid_conn_map s)) as -> by (unfold map_insert; by rewrite Hfree).
  rewrite insert_insert_eq. split; cbn.
  - lia.
  - intros p c. rewrite lookup_insert_Some. intros [[<- <-]|[Hne Hc]].
    + cbn. rewrite lookup_insert_eq. split_and!; [lia|done..].
    + destruct (I2 p c Hc) as (Hlt&Hu&Hmap). rewrite lookup_insert_ne by lia. split_and!; [lia|done..].
  - intros u p. rewrite lookup_insert_Some. intros [[<- <-]|[Hne Hp]].
    + rewrite lookup_insert_eq. done.
    + destruct (I3 u p Hp) as [[c Hc] He]. rewrite lookup_insert_ne by congruence. by rewrite Hc.
  - eapply Forall_impl; [|exact I4]. unfold task_ok. cbn. intros t [Ho Hu]. split; [lia|done].
  - done.
  - rewrite list.Forall_forall in I6 |- *. intros [[p|] r] Hin; destruct (I6 _ Hin) as [Hr Ho];
      (split; [done|]); [done|]. cbn in *.
    assert (answers r ∈ stages s) as Hst.
    { unfold stages. apply elem_of_app. left.
      by apply (list_elem_of_fmap_2' _ (sent s) (None, r)). }
    rewrite list.Forall_forall in I4. destruct (I4 _ Hst) as [Hlt _]. fold n in Hlt.
    rewrite lookup_insert_ne by lia. done.
  - done.
Qed.

Lemma inv_close s p c : inv s -> objects s !! p = Some c -> inv (Close s p c).
Proof.
  intros [I1 I2 I3 I4 I5 I6 I7] Hp. destruct (I2 p c Hp) as (Hlt&Hu&Hmap).
  unfold Close. rewrite Hu. split; cbn; try done.
  - intros p' c' [Hne Hc']%lookup_delete_Some. rewrite lookup_delete_ne by lia. by apply I2.
  - intros u p' [Hne Hp']%lookup_delete_Some. destruct (I3 u p' Hp') as [Hl He].
    rewrite lookup_delete_ne by (intros ->; lia). done.
  - eapply Forall_impl; [|exact I6]. intros [[p'|] r] [Hr Ho]; (split; [done|]); [done|]. cbn in *.
    destruct (decide (p = origin (answers r))) as [->|Hne]; [apply lookup_delete_eq|].
    by rewrite lookup_delete_ne.
Qed.

Lemma inv_packet s p c q random :
  inv s -> (0 < length (m_worker_list s))%nat -> objects s !! p = Some c ->
  inv (HandlePduBuf s p c q random).
Proof.
  intros Hinv Hws Hp. unfold HandlePduBuf. destruct (_ =? _); [done|].
  destruct (GetHandler (GetCommandId q)) as [f|]; [|done]. unfold AddTask. cbn [m_worker_list log_received].
  set (i := (random mod length (m_worker_list s))%nat).
  destruct (lookup_lt_is_Some_2 (m_worker_list s) i) as [w Hw]; [apply Nat.mod_upper_bound; lia|].
  rewrite Hw. destruct (concat_insert worker_tasks _ _ _ Hw) as (pre&post&Hold&Hnew).
  set (t := mkTask (m_uuid c) f q p).
  assert (worker_tasks (PushTask w t) = worker_tasks w ++ [t]) as Hpush
    by (unfold worker_tasks; by rewrite <- app_assoc).
  pose proof Hinv as [I1 I2 I3 I4 I5 I6 I7].
  eapply (inv_moved s); try done; unfold stages in *; cbn in *.
  - rewrite I7, Hnew, Hold, Hpush. solve_Permutation.
  - rewrite Hnew, Hpush. rewrite Hold in I4. rewrite !Forall_app in I4 |- *.
    destruct (I2 p c Hp) as (Hlt&Hu&_). split_and!; try apply I4. apply Forall_app. split; [apply I4|]. forall_list. by split.
Qed.

Lemma inv_take s i w w' :
  inv s -> m_worker_list s !! i = Some w -> TakeTask w = Some w' ->
  inv (set_workers s (<[i := w']> (m_worker_list s))).
Proof.
  intros Hinv Hw Ht. destruct (concat_insert worker_tasks _ _ _ Hw) as (pre&post&Hold&Hnew).
  assert (worker_tasks w' = worker_tasks w) as Heq.
  { unfold TakeTask, worker_tasks in *. destruct (current w); [done|].
    destruct (m_task_list w); [done|]. by injection Ht as <-. }
  pose proof Hinv as [I1 I2 I3 I4 I5 I6 I7].
  eapply (inv_moved s); try done; unfold stages in *; cbn in *; by rewrite Hnew, Heq, <- Hold.
Qed.

Lemma inv_run s i w t :
  inv s -> m_worker_list s !! i = Some w -> current w = Some t ->
  inv (AddResponsePdu (set_workers s (<[i := mkWorker (m_task_list w) None]> (m_worker_list s)))
    (run t)).
Proof.
  intros Hinv Hw Ht. destruct (concat_insert worker_tasks _ _ _ Hw) as (pre&post&Hold&Hnew).
  assert (worker_tasks w = t :: worker_tasks (mkWorker (m_task_list w) None)) as Heq
    by (unfold worker_tasks; by rewrite Ht).
  pose proof Hinv as [I1 I2 I3 I4 I5 I6 I7].
  eapply (inv_moved s); try done; unfold stages in *; cbn in *.
  - rewrite I7, Hnew, Hold, Heq, map_app. cbn. solve_Permutation.
  - rewrite Hnew, map_app. cbn. rewrite Hold, Heq in I4.
    apply Forall_app in I4 as [Ia I4]. apply Forall_app in I4 as [Ib I4].
    apply Forall_app in I4 as [Ic I4]. apply (Forall_cons_1 _ t) in I4 as [It I4].
    apply Forall_app in I4 as [Id Ie]. forall_list; done.
  - rewrite Forall_app. split; [done|]. by repeat constructor.
Qed.

(** Handing the front response over, whatever becomes of it. *)
Lemma inv_logged s r rest p :
  inv s -> s_response_pdu_list s = r :: rest -> sent_ok s (p, r) ->
  inv (log_sent (set_responses s rest) p r).
Proof.
  intros [I1 I2 I3 I4 I5 I6 I7] Hrs Hok.
  assert (stages (log_sent (set_responses s rest) p r) = stages s) as Hst.
  { unfold stages. cbn. rewrite Hrs, map_app. cbn. by rewrite <- app_assoc. }
  split; rewrite ?Hst; try done; cbn.
  - rewrite Hrs in I5. by apply Forall_cons_1 in I5 as [_ I5].
  - apply Forall_app. split; [done|]. forall_list. done.
Qed.

Lemma inv_send s :
  inv s -> SendResponsePdu s <> UB /\ forall s', SendResponsePdu s = Ret (Some s') -> inv s'.
Proof.
  intros Hinv. unfold SendResponsePdu. destruct (s_response_pdu_list s) as [|r rest] eqn:Hrs; [done|].
  pose proof Hinv as [_ I2 I3 I4 I5 _ _].
  assert (r = run (answers r)) as Hr by (rewrite Hrs in I5; by apply Forall_cons_1 in I5 as [? _]).
  assert (task_ok s (answers r)) as [Hlt Hu].
  { rewrite list.Forall_forall in I4. apply I4. unfold stages. rewrite Hrs. set_solver. }
  assert (conn_uuid r = Z.of_nat (origin (answers r)) + 1) as Hcu by (rewrite Hr; done).
  cbn [g_uuid_conn_map objects set_responses].
  destruct (g_uuid_conn_map s !! conn_uuid r) as [p|] eqn:Hp.
  - destruct (I3 _ _ Hp) as [[c Hc] He]. rewrite Hc. split; [done|].
    assert (p = origin (answers r)) as -> by lia.
    assert (inv (log_sent (set_responses s rest) (Some (origin (answers r))) r)) as Hlog
      by (by apply inv_logged).
    intros s' [= <-]. destruct (pPdu r); [done|]. by apply inv_close.
  - split; [done|]. intros s' [= <-]. apply inv_logged; [done..|]. split; [done|]. cbn.
    destruct (objects s !! origin (answers r)) as [c|] eqn:Hc; [|done].
    destruct (I2 _ _ Hc) as (_&_&Hm). congruence.
Qed.

Lemma step_workers s s' : step s s' -> length (m_worker_list s') = length (m_worker_list s).
Proof.
  destruct 1 as [s h _|s p c _|s p c q random _|s i w w' Hw _|s i w t Hw _|s s' Hs]; cbn;
    rewrite ?length_insert; try done.
  - unfold OnConnect. cbn. by rewrite lookup_insert_eq.
  - unfold HandlePduBuf. destruct (_ =? _); [done|]. case_match; [|done]. unfold AddTask.
    case_match; [|done]. cbn. by rewrite length_insert.
  - unfold SendResponsePdu in Hs. by repeat (case_match; simplify_eq).
Qed.

Lemma step_objects s s' : step s s' -> (next_object s <= next_object s')%nat.
Proof.
  destruct 1 as [s h _|s p c _|s p c q random _|s i w w' Hw _|s i w t Hw _|s s' Hs]; cbn; try lia.
  - unfold OnConnect. cbn. rewrite lookup_insert_eq. cbn. lia.
  - unfold HandlePduBuf. destruct (_ =? _); [done|]. case_match; [|done]. unfold AddTask.
    case_match; done.
  - unfold SendResponsePdu in Hs. by repeat (case_match; simplify_eq).
Qed.

Lemma step_inv s s' :
  inv s -> (0 < length (m_worker_list s))%nat -> Z.of_nat (next_object s') < 2 ^ 32 ->
  step s s' -> inv s'.
Proof.
  intros Hinv Hws Hb Hstep. destruct Hstep as
    [s h _|s p c Hp|s p c q random Hp|s i w w' Hw Ht|s i w t Hw Ht|s s' Hs].
  - apply inv_connect; [done|]. unfold OnConnect in Hb. cbn in Hb. rewrite lookup_insert_eq in Hb.
    cbn in Hb. lia.
  - by apply inv_close.
  - by apply inv_packet.
  - by eapply inv_take.
  - by eapply inv_run.
  - by eapply (proj2 (inv_send s Hinv)).
Qed.

Lemma start_inv n : inv (start n).
Proof.
  assert (concat (map worker_tasks (replicate n (mkWorker [] None))) = []) as Hnil.
  { induction n as [|n IH]; [done|]. exact IH. }
  split; try done. unfold stages. cbn. by rewrite Hnil. unfold stages. cbn. by rewrite Hnil.
Qed.

Lemma threads_inv n s :
  reach n s -> (0 < n)%nat -> Z.of_nat (next_object s) < 2 ^ 32 ->
  inv s /\ length (m_worker_list s) = n.
Proof.
  induction 1 as [|s s' _ IH Hstep]; intros Hn Hb.
  - split; [apply start_inv|]. cbn. apply length_replicate.
  - pose proof (step_objects s s' Hstep). destruct IH as [Hinv Hlen]; [done|lia|].
    split; [eapply step_inv; [done|lia|done|done]|]. by rewrite (step_workers s s' Hstep).
Qed.

(** C23. Whatever the interleaving of the main thread and the workers, and
    whenever connections come and go: every request taken up is at exactly one
    stage (queued, running, waiting to be sent, or dealt with), a response is
    the handler's answer with the reserved word of its request, it is sent on
    the very connection the request came from, never on one that reuses its
    handle or on a deleted one, and it is thrown away only if that connection is
    gone.  As long as fewer than 2^32 connections were made, since numbers repeat
    after that. *)
Theorem responses_reach_requester n s :
  reach n s -> (0 < n)%nat -> Z.of_nat (next_object s) < 2 ^ 32 ->
  received s ≡ₚ stages s /\
  Forall (fun x => x.2 = run (answers x.2) /\
    match x.1 with
    | Some p => p = origin (answers x.2)
    | None => objects s !! origin (answers x.2) = None
    end) (sent s) /\
  SendResponsePdu s <> UB.
Proof.
  intros Hreach Hn Hb. destruct (threads_inv n s Hreach Hn Hb) as [Hinv _].
  split; [apply Hinv|]. split; [exact (inv_sent s Hinv)|]. by apply inv_send.
Qed.

(** ** One worker keeps the order *)

Lemma one_worker (s : state) w :
  m_worker_list s = [w] ->
  stages s = map (fun x => answers (snd x)) (sent s) ++ map answers (s_response_pdu_list s) ++
    option_list (current w) ++ m_task_list w.
Proof. intros Hw. unfold stages. rewrite Hw. cbn. by rewrite app_nil_r. Qed.

Lemma step_order s s' :
  step s s' -> length (m_worker_list s) = 1%nat -> received s = stages s -> received s' = stages s'.
Proof.
  intros Hstep Hlen Hrec. destruct (m_worker_list s) as [|w0 [|]] eqn:Hws; try done. clear Hlen.
  rewrite (one_worker s w0 Hws) in Hrec.
  destruct Hstep as [s h _|s p c Hp|s p c q random Hp|s i w w' Hw Ht|s i w t Hw Ht|s s' Hs].
  - unfold OnConnect. cbn. rewrite lookup_insert_eq. rewrite (one_worker _ w0); done.
  - rewrite (one_worker _ w0); done.
  - unfold HandlePduBuf. destruct (_ =? _); [by rewrite (one_worker _ w0)|].
    destruct (GetHandler _) as [f|]; [|by rewrite (one_worker _ w0)]. unfold AddTask. cbn. rewrite Hws.
    cbn [length]. rewrite Nat.mod_1_r. change ([w0] !! 0%nat) with (Some w0). cbn match.
    rewrite (one_worker _ (PushTask w0 (mkTask (m_uuid c) f q p))) by done.
    cbn [received sent s_response_pdu_list set_workers log_received PushTask current m_task_list].
    rewrite Hrec. by rewrite <- !app_assoc.
  - rewrite Hws in *. destruct i; [|done]. injection Hw as <-.
    rewrite (one_worker _ w') by done. cbn. rewrite Hrec. unfold TakeTask in Ht.
    destruct (current w0); [done|]. destruct (m_task_list w0); [done|]. by injection Ht as <-.
  - rewrite Hws in *. destruct i; [|done]. injection Hw as <-.
    rewrite (one_worker _ (mkWorker (m_task_list w0) None)) by done. cbn.
    rewrite Hrec, Ht, map_app. cbn. by rewrite <- !app_assoc.
  - unfold SendResponsePdu in Hs. destruct (s_response_pdu_list s) as [|r rest] eqn:Hrs; [done|].
    assert (forall s1, m_worker_list s1 = [w0] -> received s1 = received s ->
      s_response_pdu_list s1 = rest -> (exists p, sent s1 = sent s ++ [(p, r)]) ->
      received s1 = stages s1) as Hgen.
    { intros s1 H1 H2 H3 [p H4]. rewrite (one_worker s1 w0 H1), H2, H3, H4, Hrec, map_app. cbn.
      by rewrite <- app_assoc. }
    cbn [g_uuid_conn_map objects set_responses] in Hs.
    destruct (g_uuid_conn_map s !! conn_uuid r) as [p|];
      [|injection Hs as <-; apply Hgen; cbn; eauto].
    destruct (objects s !! p); [|done]. injection Hs as <-.
    destruct (pPdu r); apply Hgen; cbn; eauto.
Qed.

(** With a single worker, requests are answered in the order in which they
    arrived: what was dealt with, what waits to be sent, what is running and
    what is queued are, one after the other, the requests received. *)
Theorem one_worker_in_order s :
  reach 1 s -> received s = stages s.
Proof.
  intros Hreach. enough (length (m_worker_list s) = 1%nat /\ received s = stages s) by tauto.
  induction Hreach as [|s s' _ [Hlen Hrec] Hstep]; [done|].
  rewrite (step_workers s s' Hstep). split; [done|]. by eapply step_order.
Qed.

End Threads.

(** A packet is its command, its reserved word and its contents; command 1 is
    answered with its contents plus one, everything else with none. *)
#[export] Instance demo_handlers : Handlers (Z * Z * Z) := {
  GetCommandId q := q.1.1;
  GetReversed q := q.1.2;
  SetReversed q v := (q.1.1, v, q.2);
  GetHandler cid := if cid =? 0 then None else
    Some (fun _ q => if q.1.1 =? 1 then Some (2, 0, q.2 + 1) else None);
  CID_HeartBeat := 7;
}.

Definition demo_connected (n : nat) : @state (Z * Z * Z) := OnConnect (start n) 40.

Definition demo_request (n : nat) : state :=
  HandlePduBuf (demo_connected n) 0 (mkConn 1 40) (1, 99, 5) 0.

Lemma demo_request_reach n : reach n (demo_request n).
Proof.
  eapply reach_step; [eapply reach_step; [apply reach_start|]|].
  - by apply step_connect.
  - by apply step_packet.
Qed.

(** The state after the only worker has answered and the answer was sent. *)
Definition demo_sent : state :=
  let t := mkTask 1 (fun _ q => if q.1.1 =? 1 then Some (2, 0, q.2 + 1) else None) (1, 99, 5) 0%nat in
  mkState 1 {[0%nat := mkConn 1 40]} 1 {[40 := 0%nat]} {[1 := 0%nat]} [mkWorker [] None] []
    [t] [(Some 0%nat, mkResp 1 (Some (2, 99, 6)) t)].

Lemma demo_sent_reach : reach 1 demo_sent.
Proof.
  eapply reach_step; [eapply reach_step; [eapply reach_step; [apply (demo_request_reach 1)|]|]|].
  - by eapply (step_take _ 0).
  - by eapply (step_run _ 0).
  - apply step_send. by vm_compute.
Qed.

Lemma responses_reach_requester_witness :
  received demo_sent ≡ₚ stages demo_sent /\
  Forall (fun x => x.2 = run (answers x.2) /\
    match x.1 with
    | Some p => p = origin (answers x.2)
    | None => objects demo_sent !! origin (answers x.2) = None
    end) (sent demo_sent) /\
  SendResponsePdu demo_sent <> UB.
Proof. apply (responses_reach_requester 1 demo_sent demo_sent_reach); [lia|by vm_compute]. Defined.

Lemma one_worker_in_order_witness : received demo_sent = stages demo_sent.
Proof. apply (one_worker_in_order demo_sent demo_sent_reach). Defined.

End Business.
