(* ===== verification/Base64.v ===== *)
(** * Base64 codecs

    The program has three of them: src/src/ptp_crypto/Base64.cpp (a bit
    accumulator, used by [CAes]), ptp_crypto/Base64Utils.cpp and
    ptp_toolbox/data/base64.cpp (groups of three and four bytes).  A string is
    the list of its bytes.  [b64_ref] is the encoding of RFC 4648; all encoders
    compute it and all decoders invert it. *)

From S2P Require Import Prelude.

(** ** The reference encoding *)

Definition alphabet : list Z :=
  bytes_of "ABCDEFGHIJKLMNOPQRSTUVWXYZabcdefghijklmnopqrstuvwxyz0123456789+/".

Definition b64c (x : Z) : Z := nth (Z.to_nat x) alphabet 0.

Definition quad (a b c : Z) : list Z :=
  [b64c (a / 4); b64c (a mod 4 * 16 + b / 16); b64c (b mod 16 * 4 + c / 64); b64c (c mod 64)].

Fixpoint b64_ref (l : list Z) : list Z :=
  match l with
  | a :: b :: c :: l => quad a b c ++ b64_ref l
  | [a; b] => take 3 (quad a b 0) ++ [61]
  | [a] => take 2 (quad a 0 0) ++ [61; 61]
  | [] => []
  end.

(** ** Base64.cpp *)

Module Base64.

(** [char b64_table[65]]: the alphabet and the terminating null character. *)
Definition b64_table : list Z := alphabet ++ [0].

Definition reverse_table : list Z :=
  [64; 64; 64; 64; 64; 64; 64; 64; 64; 64; 64; 64; 64; 64; 64; 64;
   64; 64; 64; 64; 64; 64; 64; 64; 64; 64; 64; 64; 64; 64; 64; 64;
   64; 64; 64; 64; 64; 64; 64; 64; 64; 64; 64; 62; 64; 64; 64; 63;
   52; 53; 54; 55; 56; 57; 58; 59; 60; 61; 64; 64; 64; 64; 64; 64;
   64;  0;  1;  2;  3;  4;  5;  6;  7;  8;  9; 10; 11; 12; 13; 14;
   15; 16; 17; 18; 19; 20; 21; 22; 23; 24; 25; 64; 64; 64; 64; 64;
   64; 26; 27; 28; 29; 30; 31; 32; 33; 34; 35; 36; 37; 38; 39; 40;
   41; 42; 43; 44; 45; 46; 47; 48; 49; 50; 51; 64; 64; 64; 64; 64].

(** The inner [while (bits_collected >= 6)]; each round takes six bits. *)
Fixpoint emit (fuel : nat) (retval : list Z) (outpos bits_collected accumulator : Z) :
    outcome (list Z * Z * Z) :=
  if bits_collected <? 6 then Ret (retval, outpos, bits_collected) else
  match fuel with
  | O => NoFuel
  | S fuel =>
      let bits_collected := bits_collected - 6 in
      c ← mem_get b64_table (Z.land (Z.shiftr accumulator bits_collected) 0x3f);
      retval ← mem_write retval outpos [c];
      emit fuel retval (outpos + 1) bits_collected accumulator
  end.

Fixpoint encode_loop (bindata retval : list Z) (outpos bits_collected accumulator : Z) :
    outcome (list Z * Z * Z * Z) :=
  match bindata with
  | [] => Ret (retval, outpos, bits_collected, accumulator)
  | i :: bindata =>
      let accumulator := Z.lor (u32 (Z.shiftl accumulator 8)) (Z.land i 0xff) in
      let bits_collected := bits_collected + 8 in
      '(retval, outpos, bits_collected) ←
        emit (Z.to_nat bits_collected) retval outpos bits_collected accumulator;
      encode_loop bindata retval outpos bits_collected accumulator
  end.

Definition encode_tail (st : list Z * Z * Z * Z) : outcome (list Z * Z) :=
  let '(retval, outpos, bits_collected, accumulator) := st in
  if 0 <? bits_collected then
    cassert (bits_collected <? 6) "bits_collected < 6";;
    let accumulator := u32 (Z.shiftl accumulator (6 - bits_collected)) in
    c ← mem_get b64_table (Z.land accumulator 0x3f);
    retval ← mem_write retval outpos [c];
    Ret (retval, outpos + 1)
  else Ret (retval, outpos).

Definition max_size_type : Z := 2 ^ 64 - 1.

Definition base64_encode (bindata : list Z) : outcome (list Z) :=
  if max_size_type / 4 * 3 <? zlen bindata then Ret [] else
  let binlen := zlen bindata in
  let retval := replicate (Z.to_nat ((binlen + 2) / 3 * 4)) 61 in
  st ← encode_loop bindata retval 0 0 0;
  '(retval, outpos) ← encode_tail st;
  cassert (u64 (zlen retval - 2) <=? outpos) "outpos >= (retval.size() - 2)";;
  cassert (outpos <=? zlen retval) "outpos <= retval.size()";;
  Ret retval.

(** [isspace] in the C locale. *)
Definition isspace (c : Z) : bool := ((9 <=? c) && (c <=? 13)) || (c =? 32).

(** [retval] grows by appending; [char] is signed. *)
Fixpoint decode_loop (ascdata retval : list Z) (bits_collected accumulator : Z) : list Z :=
  match ascdata with
  | [] => retval
  | i :: ascdata =>
      let c := i8 i in
      if isspace c || (c =? 61) then decode_loop ascdata retval bits_collected accumulator
      else if (127 <? c) || (c <? 0) || (63 <? nth (Z.to_nat c) reverse_table 0) then []
      else
        let accumulator :=
          Z.lor (u32 (Z.shiftl accumulator 6)) (nth (Z.to_nat c) reverse_table 0) in
        let bits_collected := bits_collected + 6 in
        if 8 <=? bits_collected then
          let bits_collected := bits_collected - 8 in
          decode_loop ascdata
            (retval ++ [Z.land (Z.shiftr accumulator bits_collected) 0xff])
            bits_collected accumulator
        else decode_loop ascdata retval bits_collected accumulator
  end.

Definition base64_decode (ascdata : list Z) : list Z := decode_loop ascdata [] 0 0.

End Base64.

(** ** Base64Utils.cpp and the toolbox

    Both files hold the same algorithm; they differ in the type of the length
    of the decoder. *)

Module Base64Utils.

Definition is_base64 (c : Z) : bool := isalnum c || (c =? 43) || (c =? 47).

(** [char_array_4] from [char_array_3]. *)
Definition to_array_4 (a3 : list Z) : outcome (list Z) :=
  match a3 with
  | [a; b; c] =>
      Ret [u8 (Z.shiftr (Z.land a 0xfc) 2);
           u8 (Z.shiftl (Z.land a 0x03) 4 + Z.shiftr (Z.land b 0xf0) 4);
           u8 (Z.shiftl (Z.land b 0x0f) 2 + Z.shiftr (Z.land c 0xc0) 6);
           u8 (Z.land c 0x3f)]
  | _ => UB
  end.

(** [ret += base64_chars[x]] for each [x]; [operator[]] at the size gives the
    null character. *)
Fixpoint put_chars (xs : list Z) : outcome (list Z) :=
  match xs with
  | [] => Ret []
  | x :: xs =>
      c ← mem_get (alphabet ++ [0]) x;
      cs ← put_chars xs;
      Ret (c :: cs)
  end.

Fixpoint encode_loop (bytes a3 : list Z) (i : Z) (ret : list Z) :
    outcome (list Z * Z * list Z) :=
  match bytes with
  | [] => Ret (a3, i, ret)
  | x :: bytes =>
      a3 ← mem_write a3 i [x];
      let i := i + 1 in
      if i =? 3 then
        a4 ← to_array_4 a3;
        cs ← put_chars a4;
        encode_loop bytes a3 0 (ret ++ cs)
      else encode_loop bytes a3 i ret
  end.

Definition encode_rest (st : list Z * Z * list Z) : outcome (list Z) :=
  let '(a3, i, ret) := st in
  if i =? 0 then Ret ret else
  a3 ← mem_write a3 i (replicate (Z.to_nat (3 - i)) 0);
  a4 ← to_array_4 a3;
  cs ← put_chars (ztake (i + 1) a4);
  Ret (ret ++ cs ++ replicate (Z.to_nat (3 - i)) 61).

(** [junk] is the initial contents of [char_array_3]. *)
Definition base64_encode2 (junk : list Z) (bytes_to_encode : list Z) (in_len : Z) :
    outcome (list Z) :=
  bytes ← mem_read bytes_to_encode 0 in_len;
  st ← encode_loop bytes junk 0 [];
  encode_rest st.

(** [base64_chars.find(c)], narrowed to [unsigned char]; [npos] becomes 255. *)
Definition find_char (c : Z) : Z :=
  match list_find (eq c) alphabet with
  | Some (n, _) => Z.of_nat n
  | None => u8 (2 ^ 64 - 1)
  end.

Definition to_array_3 (a4 : list Z) : outcome (list Z) :=
  match a4 with
  | [a; b; c; d] =>
      Ret [u8 (Z.shiftl a 2 + Z.shiftr (Z.land b 0x30) 4);
           u8 (Z.shiftl (Z.land b 0xf) 4 + Z.shiftr (Z.land c 0x3c) 2);
           u8 (Z.shiftl (Z.land c 0x3) 6 + d)]
  | _ => UB
  end.

(** The [while]; [enc] is the rest of the string from [in_] on, beyond whose
    end [operator[]] gives the null character, which is not in the alphabet. *)
Fixpoint decode_loop (in_len : Z) (enc a4 : list Z) (i : Z) (ret : list Z) :
    outcome (list Z * Z * list Z) :=
  match enc with
  | [] => Ret (a4, i, ret)
  | c :: enc =>
      if (in_len =? 0) || (c =? 61) || negb (is_base64 c) then Ret (a4, i, ret) else
      a4 ← mem_write a4 i [c];
      let i := i + 1 in
      if i =? 4 then
        let a4 := map find_char a4 in
        a3 ← to_array_3 a4;
        decode_loop (in_len - 1) enc a4 0 (ret ++ a3)
      else decode_loop (in_len - 1) enc a4 i ret
  end.

Definition decode_rest (st : list Z * Z * list Z) : outcome (list Z) :=
  let '(a4, i, ret) := st in
  if i =? 0 then Ret ret else
  a4 ← mem_write a4 i (replicate (Z.to_nat (4 - i)) 0);
  let a4 := map find_char a4 in
  a3 ← to_array_3 a4;
  Ret (ret ++ ztake (i - 1) a3).

Definition base64_decode2 (junk : list Z) (encoded_string : list Z) : outcome (list Z) :=
  st ← decode_loop (zlen encoded_string) encoded_string junk 0 [];
  decode_rest st.

End Base64Utils.

Module ToolboxBase64.
Import Base64Utils.

Definition base64_encode (junk raw_string : list Z) : outcome (list Z) :=
  st ← encode_loop raw_string junk 0 [];
  encode_rest st.

(** The length of the string is narrowed to [int]. *)
Definition base64_decode (junk encoded_string : list Z) : outcome (list Z) :=
  st ← decode_loop (i32 (zlen encoded_string)) encoded_string junk 0 [];
  decode_rest st.

End ToolboxBase64.

(** ** Lemmas *)

(** Induction in steps of three bytes. *)
Lemma list_ind3 {A} (P : list A -> Prop) :
  P [] -> (forall a, P [a]) -> (forall a b, P [a; b]) ->
  (forall a b c l, P l -> P (a :: b :: c :: l)) -> forall l, P l.
Proof.
  intros H0 H1 H2 H3. fix IH 1. intros [|a [|b [|c l]]];
    [exact H0|apply H1|apply H2|apply H3, IH].
Qed.

Lemma b64_table_get x : 0 <= x < 64 -> mem_get (alphabet ++ [0]) x = Ret (b64c x).
Proof.
  intros Hx. unfold mem_get, b64c. rewrite decide_True by lia.
  assert (length alphabet = 64%nat) as Hl by (by vm_compute).
  destruct (lookup_lt_is_Some_2 alphabet (Z.to_nat x)) as [c Hc]; [lia|].
  rewrite (lookup_app_l_Some _ _ _ _ Hc). f_equal. symmetry. by apply nth_lookup_Some.
Qed.

(** Writing the next character of a string filled in from the left. *)
Lemma fill_next (done rest : list Z) c :
  mem_write (done ++ 61 :: rest) (zlen done) [c] = Ret ((done ++ [c]) ++ rest).
Proof.
  rewrite (mem_write_app done [61] rest [c]) by done. by rewrite <- app_assoc.
Qed.

(** Six bits of the accumulator are bits of the last bytes shifted in. *)
Lemma six_bits x k : 0 <= k -> k + 6 <= 32 ->
  Z.land (Z.shiftr (u32 x) k) 0x3f = x / 2 ^ k mod 64.
Proof.
  intros Hk H32. change 0x3f with (Z.ones 6). rewrite Z.land_ones by lia.
  rewrite Z.shiftr_div_pow2 by lia. unfold wrap_u.
  apply Z.bits_inj'. intros n Hn. change 64 with (2 ^ 6).
  destruct (decide (n < 6)).
  - rewrite !Z.mod_pow2_bits_low, !Z.div_pow2_bits by lia.
    by rewrite Z.mod_pow2_bits_low by lia.
  - by rewrite !Z.mod_pow2_bits_high by lia.
Qed.

Lemma eight_bits x k : 0 <= k -> k + 8 <= 32 ->
  Z.land (Z.shiftr (u32 x) k) 0xff = x / 2 ^ k mod 256.
Proof.
  intros Hk H32. rewrite land_ff. unfold wrap_u.
  rewrite Z.shiftr_div_pow2 by lia.
  apply Z.bits_inj'. intros n Hn.
  destruct (decide (n < 8)).
  - change 256 with (2 ^ 8). rewrite !Z.mod_pow2_bits_low, !Z.div_pow2_bits by lia.
    by rewrite Z.mod_pow2_bits_low by lia.
  - change 256 with (2 ^ 8). by rewrite !Z.mod_pow2_bits_high by lia.
Qed.

(** Shifting a field into the 32-bit accumulator. *)
Lemma shift_in acc b n : 0 <= n <= 32 -> 0 <= b < 2 ^ n ->
  Z.lor (u32 (Z.shiftl acc n)) b = u32 (acc * 2 ^ n + b).
Proof.
  intros Hn Hb.
  assert (u32 (Z.shiftl acc n) = Z.shiftl (acc mod 2 ^ (32 - n)) n) as ->.
  { unfold wrap_u. rewrite !Z.shiftl_mul_pow2 by lia.
    replace (2 ^ 32) with (2 ^ (32 - n) * 2 ^ n) by (rewrite <- Z.pow_add_r by lia; f_equal; lia).
    by rewrite Z.mul_mod_distr_r by lia. }
  rewrite lor_shiftl_add by lia.
  assert (2 ^ 32 = 2 ^ (32 - n) * 2 ^ n) as E by (rewrite <- Z.pow_add_r by lia; f_equal; lia).
  unfold wrap_u. rewrite E.
  pose proof (Z.mod_pos_bound acc (2 ^ (32 - n))).
  pose proof (Z.div_mod acc (2 ^ (32 - n))).
  assert (0 < 2 ^ (32 - n)) by (apply Z.pow_pos_nonneg; lia).
  apply (Z.mod_unique_pos _ _ (acc / 2 ^ (32 - n))); nia.
Qed.

(** A property of bytes checked on all of them. *)
Lemma byte_check (P : Z -> bool) :
  forallb P (seqZ 0 256) = true -> forall b, is_u 8 b -> P b = true.
Proof.
  intros H b Hb. rewrite forallb_forall in H. apply H, list_elem_of_In, elem_of_seqZ.
  unfold is_u in Hb. pow2. lia.
Qed.

Lemma sextet_check (P : Z -> bool) :
  forallb P (seqZ 0 64) = true -> forall x, 0 <= x < 64 -> P x = true.
Proof.
  intros H x Hx. rewrite forallb_forall in H. apply H, list_elem_of_In, elem_of_seqZ. lia.
Qed.

(** *** The accumulating encoder *)

Lemma emit_step fuel done rest bits acc :
  6 <= bits <= 32 ->
  Base64.emit (S fuel) (done ++ 61 :: rest) (zlen done) bits (u32 acc) =
  (let c := b64c (acc / 2 ^ (bits - 6) mod 64) in
   Base64.emit fuel ((done ++ [c]) ++ rest) (zlen (done ++ [c])) (bits - 6) (u32 acc)).
Proof.
  intros Hb. cbn [Base64.emit]. rewrite (proj2 (Z.ltb_ge _ _)) by lia.
  rewrite six_bits by lia. unfold Base64.b64_table.
  rewrite b64_table_get by (apply Z.mod_pos_bound; lia). mstep.
  rewrite fill_next. mstep. by rewrite zlen_snoc with (x := b64c (acc / 2 ^ (bits - 6) mod 64)).
Qed.

Lemma emit_stop fuel retval pos bits acc :
  bits < 6 -> Base64.emit fuel retval pos bits acc = Ret (retval, pos, bits).
Proof. intros Hb. destruct fuel; cbn [Base64.emit]; by rewrite (proj2 (Z.ltb_lt _ _)). Qed.

(** A byte that completes one character. *)
Lemma encode_loop_step1 b l done rest bits acc :
  is_u 8 b -> 0 <= bits < 4 ->
  Base64.encode_loop (b :: l) (done ++ 61 :: rest) (zlen done) bits acc =
  (let acc' := acc * 256 + b in
   let c := b64c (acc' / 2 ^ (bits + 2) mod 64) in
   Base64.encode_loop l ((done ++ [c]) ++ rest) (zlen (done ++ [c])) (bits + 2) (u32 acc')).
Proof.
  intros Hb Hbits. cbn [Base64.encode_loop]. rewrite land_ff, (wrap_u_small 8 b) by done.
  rewrite shift_in by (unfold is_u in *; lia). change (2 ^ 8) with 256.
  destruct (Z.to_nat (bits + 8)) eqn:E; [lia|]. rewrite emit_step by lia. cbv zeta.
  rewrite emit_stop by lia. mstep. by replace (bits + 8 - 6) with (bits + 2) by lia.
Qed.

(** A byte that completes two. *)
Lemma encode_loop_step2 b l done rest acc :
  is_u 8 b ->
  Base64.encode_loop (b :: l) (done ++ 61 :: 61 :: rest) (zlen done) 4 acc =
  (let acc' := acc * 256 + b in
   let cs := [b64c (acc' / 64 mod 64); b64c (acc' mod 64)] in
   Base64.encode_loop l ((done ++ cs) ++ rest) (zlen (done ++ cs)) 0 (u32 acc')).
Proof.
  intros Hb. cbn [Base64.encode_loop]. rewrite land_ff, (wrap_u_small 8 b) by done.
  rewrite shift_in by (unfold is_u in *; lia). change (2 ^ 8) with 256.
  change (Z.to_nat (4 + 8)) with 12%nat. rewrite emit_step by lia. cbv zeta.
  rewrite emit_step by lia. cbv zeta. rewrite emit_stop by lia. mstep.
  change (4 + 8 - 6) with 6. change (6 - 6) with 0. change (2 ^ 6) with 64.
  by rewrite Z.pow_0_r, Z.div_1_r, <- !app_assoc.
Qed.

(** The trailing bits. *)
Lemma encode_tail_char done rest bits acc :
  0 < bits < 6 ->
  Base64.encode_tail (done ++ 61 :: rest, zlen done, bits, u32 acc) =
  (let c := b64c (acc * 2 ^ (6 - bits) mod 64) in Ret ((done ++ [c]) ++ rest, zlen (done ++ [c]))).
Proof.
  intros Hb. unfold Base64.encode_tail. rewrite (proj2 (Z.ltb_lt 0 _)) by lia.
  rewrite (proj2 (Z.ltb_lt _ 6)) by lia. unfold cassert. mstep.
  assert (Z.land (u32 (Z.shiftl (u32 acc) (6 - bits))) 63 = acc * 2 ^ (6 - bits) mod 64) as ->.
  { assert (u32 (Z.shiftl (u32 acc) (6 - bits)) = u32 (acc * 2 ^ (6 - bits))) as ->.
    { rewrite Z.shiftl_mul_pow2 by lia. unfold wrap_u. by rewrite Z.mul_mod_idemp_l by lia. }
    rewrite <- (Z.shiftr_0_r (u32 _)), six_bits by lia. by rewrite Z.pow_0_r, Z.div_1_r. }
  unfold Base64.b64_table. rewrite b64_table_get by (apply Z.mod_pos_bound; lia). mstep.
  rewrite fill_next. mstep. by rewrite zlen_snoc with (x := b64c (acc * 2 ^ (6 - bits) mod 64)).
Qed.

Ltac sextets := unfold is_u, wrap_u in *; pow2; f_equal; Z.div_mod_to_equations; lia.

Definition b64_chars (l : list Z) : Z := (zlen l * 4 + 2) / 3.

(** The loop and the trailing bits compute the reference encoding. *)
Lemma encode_loop_ref l : forall done acc,
  bytes_ok l ->
  (Base64.encode_loop l (done ++ replicate (Z.to_nat ((zlen l + 2) / 3 * 4)) 61)
     (zlen done) 0 acc ≫= Base64.encode_tail) =
  Ret (done ++ b64_ref l, zlen done + b64_chars l).
Proof.
  induction l as [|a|a b|a b c l IH] using list_ind3; intros done acc Hl;
    repeat apply Forall_cons_1 in Hl as [?Hb Hl].
  - cbn. by rewrite Z.add_0_r.
  - change (replicate _ _) with [61; 61; 61; 61].
    rewrite encode_loop_step1 by (done || lia). cbn [Base64.encode_loop]. mstep.
    rewrite encode_tail_char by lia. cbv zeta. rewrite <- !app_assoc.
    change (0 + 2) with 2. change (6 - 2) with 4. change (2 ^ 2) with 4. change (2 ^ 4) with 16.
    replace (b64c ((acc * 256 + a) / 4 mod 64)) with (b64c (a / 4)) by sextets.
    replace (b64c ((acc * 256 + a) * 16 mod 64)) with (b64c (a mod 4 * 16 + 0 / 16)) by sextets.
    f_equal. f_equal. change (b64_chars [a]) with 2. zlia.
  - change (replicate _ _) with [61; 61; 61; 61].
    rewrite encode_loop_step1 by (done || lia). cbv zeta.
    rewrite encode_loop_step1 by (done || lia). cbn [Base64.encode_loop]. mstep.
    rewrite encode_tail_char by lia. cbv zeta. rewrite <- !app_assoc.
    change (0 + 2) with 2. change (2 + 2) with 4. change (6 - 4) with 2.
    change (2 ^ 2) with 4. change (2 ^ 4) with 16.
    replace (b64c ((acc * 256 + a) / 4 mod 64)) with (b64c (a / 4)) by sextets.
    replace (b64c ((u32 (acc * 256 + a) * 256 + b) / 16 mod 64))
      with (b64c (a mod 4 * 16 + b / 16)) by sextets.
    replace (b64c ((u32 (acc * 256 + a) * 256 + b) * 4 mod 64))
      with (b64c (b mod 16 * 4 + 0 / 64)) by sextets.
    f_equal. f_equal. change (b64_chars [a; b]) with 3. zlia.
  - replace (Z.to_nat ((zlen (a :: b :: c :: l) + 2) / 3 * 4))
      with (S (S (S (S (Z.to_nat ((zlen l + 2) / 3 * 4)))))).
    2:{ rewrite !zlen_cons. pose proof (zlen_nonneg l).
        replace (1 + (1 + (1 + zlen l)) + 2) with (zlen l + 2 + 1 * 3) by lia.
        rewrite Z.div_add by lia. assert (0 <= (zlen l + 2) / 3) by (apply Z.div_pos; lia). lia. }
    cbn [replicate].
    rewrite encode_loop_step1 by (done || lia). cbv zeta.
    rewrite encode_loop_step1 by (done || lia). cbv zeta.
    rewrite encode_loop_step2 by done. cbv zeta.
    rewrite IH by done. cbn [b64_ref quad]. rewrite <- !app_assoc. cbn [app].
    change (0 + 2) with 2. change (2 + 2) with 4. change (2 ^ 2) with 4. change (2 ^ 4) with 16.
    f_equal. f_equal; [unfold quad; cbn [app]; f_equal; repeat (f_equal; [sextets|]); f_equal; sextets|].
    unfold b64_chars. autorewrite with zlen. pose proof (zlen_nonneg l).
    replace ((1 + (1 + (1 + zlen l))) * 4 + 2) with (zlen l * 4 + 2 + 4 * 3) by lia.
    rewrite Z.div_add by lia. lia.
Qed.

Lemma b64_ref_len l : zlen (b64_ref l) = (zlen l + 2) / 3 * 4.
Proof.
  induction l as [|a|a b|a b c l IH] using list_ind3; [done..|].
  cbn [b64_ref]. rewrite zlen_app, IH. change (zlen (quad a b c)) with 4.
  rewrite !zlen_cons. replace (1 + (1 + (1 + zlen l)) + 2) with (zlen l + 2 + 1 * 3) by lia.
  rewrite Z.div_add by lia. lia.
Qed.

Lemma base64_encode_ref l :
  bytes_ok l -> l <> [] -> zlen l <= Base64.max_size_type / 4 * 3 ->
  Base64.base64_encode l = Ret (b64_ref l).
Proof.
  intros Hl Hne Hmax. unfold Base64.base64_encode. rewrite (proj2 (Z.ltb_ge _ _)) by lia.
  pose proof (encode_loop_ref l [] 0 Hl) as Hloop. cbn [app] in Hloop.
  change (zlen []) with 0 in Hloop.
  destruct (Base64.encode_loop _ _ _ _ _) as [st| | |]; [|done..].
  mstep. cbn [mbind outcome_bind] in Hloop. rewrite Hloop. mstep.
  assert (1 <= zlen l) by (destruct l; [done|rewrite zlen_cons; pose proof (zlen_nonneg l); lia]).
  assert (Base64.max_size_type / 4 * 3 = 13835058055282163709) as E by done. rewrite E in Hmax.
  unfold cassert. rewrite b64_ref_len, wrap_u_small.
  2:{ unfold is_u. pow2. Z.div_mod_to_equations. lia. }
  unfold b64_chars. rewrite !(proj2 (Z.leb_le _ _)) by (Z.div_mod_to_equations; lia). done.
Qed.

(** *** The accumulating decoder *)

Definition sextet_ok (x : Z) : bool :=
  let c := b64c x in
  (i8 c =? c) && negb (Base64.isspace c) && negb (c =? 61) &&
  negb ((127 <? c) || (c <? 0) || (63 <? nth (Z.to_nat c) Base64.reverse_table 0)) &&
  (nth (Z.to_nat c) Base64.reverse_table 0 =? x) &&
  Base64Utils.is_base64 c && (Base64Utils.find_char c =? x) && negb (c =? 0).

Lemma sextets_ok x : 0 <= x < 64 -> sextet_ok x = true.
Proof. apply sextet_check. by vm_compute. Qed.

Lemma decode_loop_char x l ret bits acc :
  0 <= x < 64 -> 0 <= bits <= 8 ->
  Base64.decode_loop (b64c x :: l) ret bits acc =
  (let acc' := acc * 64 + x in
   if 2 <=? bits
   then Base64.decode_loop l (ret ++ [acc' / 2 ^ (bits - 2) mod 256]) (bits - 2) (u32 acc')
   else Base64.decode_loop l ret (bits + 6) (u32 acc')).
Proof.
  intros Hx Hb. pose proof (sextets_ok x Hx) as Hok. unfold sextet_ok in Hok.
  rewrite !andb_true_iff, !negb_true_iff, !Z.eqb_eq in Hok.
  destruct Hok as [[[[[[[H1 H2] H3] H4] H5] _] _] _].
  cbn [Base64.decode_loop]. rewrite H1, H2, H3, H4, H5. cbv iota.
  rewrite shift_in by lia. change (2 ^ 6) with 64.
  destruct (Z.leb_spec 2 bits).
  - rewrite (proj2 (Z.leb_le 8 _)) by lia. rewrite eight_bits by lia.
    by replace (bits + 6 - 8) with (bits - 2) by lia.
  - by rewrite (proj2 (Z.leb_gt 8 _)) by lia.
Qed.

Ltac sextet_range := unfold is_u in *; pow2; Z.div_mod_to_equations; lia.

Lemma decode_loop_ref l : forall ret acc,
  bytes_ok l -> Base64.decode_loop (b64_ref l) ret 0 acc = ret ++ l.
Proof.
  induction l as [|a|a b|a b c l IH] using list_ind3; intros ret acc Hl;
    repeat apply Forall_cons_1 in Hl as [?Hb Hl];
    unfold b64_ref; fold b64_ref; unfold quad; cbn [app take];
    repeat (rewrite decode_loop_char by (lia || sextet_range); cbn [Z.leb Z.compare];
            change (2 <=? 0) with false; change (2 <=? 6) with true;
            change (2 <=? 4) with true; change (2 <=? 2) with true; cbv zeta iota;
            change (0 + 6) with 6; change (6 - 2) with 4; change (4 - 2) with 2;
            change (2 - 2) with 0).
  - by rewrite app_nil_r.
  - cbn. do 2 f_equal. sextets.
  - cbn. rewrite <- app_assoc. cbn. do 2 f_equal; [|f_equal]; sextets.
  - rewrite IH by done. rewrite <- !app_assoc. cbn [app]. f_equal.
    change (2 ^ 4) with 16. change (2 ^ 2) with 4. change (2 ^ 0) with 1.
    f_equal; [sextets|]. f_equal; [sextets|]. f_equal. sextets.
Qed.

Lemma base64_decode_ref l : bytes_ok l -> Base64.base64_decode (b64_ref l) = l.
Proof. intros. by apply (decode_loop_ref l []). Qed.

(** *** The codecs by groups *)

(** Stores into the arrays of three and four bytes. *)
Lemma store3 x y z v :
  mem_write [x; y; z] 0 [v] = Ret [v; y; z] /\
  mem_write [x; y; z] (0 + 1) [v] = Ret [x; v; z] /\
  mem_write [x; y; z] (0 + 1) [0; 0] = Ret [x; 0; 0] /\
  mem_write [x; y; z] (0 + 1 + 1) [v] = Ret [x; y; v].
Proof. done. Qed.

Lemma store4 x y z w v :
  mem_write [x; y; z; w] 0 [v] = Ret [v; y; z; w] /\
  mem_write [x; y; z; w] (0 + 1) [v] = Ret [x; v; z; w] /\
  mem_write [x; y; z; w] (0 + 1) [0; 0; 0] = Ret [x; 0; 0; 0] /\
  mem_write [x; y; z; w] (0 + 1 + 1) [v] = Ret [x; y; v; w] /\
  mem_write [x; y; z; w] (0 + 1 + 1) [0; 0] = Ret [x; y; 0; 0] /\
  mem_write [x; y; z; w] (0 + 1 + 1 + 1) [v] = Ret [x; y; z; v].
Proof. done. Qed.

Ltac arr_write :=
  match goal with
  | |- context [mem_write [?x; ?y; ?z] _ (?v :: _)] =>
      destruct (store3 x y z v) as (?S & ?S & ?S & ?S)
  | |- context [mem_write [?x; ?y; ?z; ?w] _ (?v :: _)] =>
      destruct (store4 x y z w v) as (?S & ?S & ?S & ?S & ?S & ?S)
  end;
  repeat match goal with
  | H : mem_write _ _ _ = Ret _ |- _ => try rewrite H; clear H
  end; mstep;
  change (0 + 1 =? 3) with false; change (0 + 1 + 1 =? 3) with false;
  change (0 + 1 + 1 + 1 =? 3) with true; change (0 + 1 =? 4) with false;
  change (0 + 1 + 1 =? 4) with false; change (0 + 1 + 1 + 1 =? 4) with false;
  change (0 + 1 + 1 + 1 + 1 =? 4) with true; cbv iota beta.

Definition masks_ok (b : Z) : bool :=
  (u8 (Z.shiftr (Z.land b 0xfc) 2) =? b / 4) && (Z.shiftl (Z.land b 0x03) 4 =? b mod 4 * 16) &&
  (Z.shiftr (Z.land b 0xf0) 4 =? b / 16) && (Z.shiftl (Z.land b 0x0f) 2 =? b mod 16 * 4) &&
  (Z.shiftr (Z.land b 0xc0) 6 =? b / 64) && (u8 (Z.land b 0x3f) =? b mod 64).

Lemma byte_masks b : is_u 8 b -> masks_ok b = true.
Proof. apply byte_check. by vm_compute. Qed.

Lemma put_chars_ok xs :
  Forall (fun x => 0 <= x < 64) xs -> Base64Utils.put_chars xs = Ret (map b64c xs).
Proof.
  induction 1 as [|x xs Hx _ IH]; cbn [Base64Utils.put_chars map]; [done|].
  rewrite b64_table_get by done. mstep. rewrite IH. by mstep.
Qed.

Lemma to_array_4_quad a b c :
  is_u 8 a -> is_u 8 b -> is_u 8 c ->
  exists a4, Base64Utils.to_array_4 [a; b; c] = Ret a4 /\
    map b64c a4 = quad a b c /\ Forall (fun x => 0 <= x < 64) a4.
Proof.
  intros Ha Hb Hc. eexists. split; [done|].
  pose proof (byte_masks a Ha) as Ma. pose proof (byte_masks b Hb) as Mb.
  pose proof (byte_masks c Hc) as Mc. unfold masks_ok in *.
  rewrite !andb_true_iff, !Z.eqb_eq in *.
  destruct Ma as [[[[[-> ->] _] _] _] _]. destruct Mb as [[[[_ ->] ->] _] _].
  destruct Mc as [[_ ->] ->].
  rewrite !wrap_u_small by sextet_range. split; [done|]. forall_list; sextet_range.
Qed.

Lemma encode_group a b c l junk ret :
  is_u 8 a -> is_u 8 b -> is_u 8 c -> length junk = 3%nat ->
  Base64Utils.encode_loop (a :: b :: c :: l) junk 0 ret =
  Base64Utils.encode_loop l [a; b; c] 0 (ret ++ quad a b c).
Proof.
  intros Ha Hb Hc Hj. destruct junk as [|? [|? [|? [|]]]]; try done.
  cbn [Base64Utils.encode_loop].
  arr_write.
  arr_write.
  arr_write.
  destruct (to_array_4_quad a b c) as (a4 & E & Hq & Hr); [done..|].
  rewrite E. mstep. rewrite put_chars_ok by done. mstep. by rewrite Hq.
Qed.

Lemma encode_groups_ref l : forall junk ret,
  bytes_ok l -> length junk = 3%nat ->
  (Base64Utils.encode_loop l junk 0 ret ≫= Base64Utils.encode_rest) = Ret (ret ++ b64_ref l).
Proof.
  induction l as [|a|a b|a b c l IH] using list_ind3; intros junk ret Hl Hj;
    repeat apply Forall_cons_1 in Hl as [?Hb Hl].
  - cbn. by rewrite app_nil_r.
  - destruct junk as [|? [|? [|? [|]]]]; try done.
    cbn [Base64Utils.encode_loop]. arr_write.
    unfold Base64Utils.encode_rest. mstep. change (0 + 1 =? 0) with false. cbv iota.
    change (Z.to_nat (3 - (0 + 1))) with 2%nat. cbn [replicate].
    arr_write.
    destruct (to_array_4_quad a 0 0) as (a4 & E & Hq & Hr); [done..|].
    rewrite E. mstep. rewrite put_chars_ok by (by apply Forall_take). mstep.
    cbn [b64_ref]. by rewrite <- Hq, firstn_map.
  - destruct junk as [|? [|? [|? [|]]]]; try done.
    cbn [Base64Utils.encode_loop]. arr_write.
    arr_write. unfold Base64Utils.encode_rest. mstep. change (0 + 1 + 1 =? 0) with false. cbv iota.
    change (Z.to_nat (3 - (0 + 1 + 1))) with 1%nat. cbn [replicate].
    arr_write.
    destruct (to_array_4_quad a b 0) as (a4 & E & Hq & Hr); [done..|].
    rewrite E. mstep. rewrite put_chars_ok by (by apply Forall_take). mstep.
    cbn [b64_ref]. by rewrite <- Hq, firstn_map.
  - rewrite encode_group by done. rewrite IH by done. cbn [b64_ref]. by rewrite app_assoc.
Qed.

Lemma b64c_facts x : 0 <= x < 64 ->
  (b64c x =? 61) || negb (Base64Utils.is_base64 (b64c x)) = false /\
  Base64Utils.find_char (b64c x) = x.
Proof.
  intros Hx. pose proof (sextets_ok x Hx) as Hok. unfold sextet_ok in Hok.
  rewrite !andb_true_iff, !negb_true_iff, !Z.eqb_eq in Hok.
  destruct Hok as [[[[[[[_ _] H3] _] _] H6] H7] _]. by rewrite H3, H6.
Qed.

(** One character of the input goes into the array. *)
Lemma decode_char x n l a4 i ret :
  0 <= x < 64 -> n <> 0 ->
  Base64Utils.decode_loop n (b64c x :: l) a4 i ret =
  (a4 ← mem_write a4 i [b64c x];
   if i + 1 =? 4 then
     a3 ← Base64Utils.to_array_3 (map Base64Utils.find_char a4);
     Base64Utils.decode_loop (n - 1) l (map Base64Utils.find_char a4) 0 (ret ++ a3)
   else Base64Utils.decode_loop (n - 1) l a4 (i + 1) ret).
Proof.
  intros Hx Hn. cbn [Base64Utils.decode_loop].
  rewrite (proj2 (Z.eqb_neq n 0)) by done. by rewrite <- orb_assoc, (proj1 (b64c_facts x Hx)).
Qed.

Definition unmask_ok (x : Z) : bool :=
  (Z.shiftr (Z.land x 0x30) 4 =? x / 16) && (Z.shiftl (Z.land x 0xf) 4 =? x mod 16 * 16) &&
  (Z.shiftr (Z.land x 0x3c) 2 =? x / 4) && (Z.shiftl (Z.land x 0x3) 6 =? x mod 4 * 64).

Lemma sextet_unmask x : 0 <= x < 64 ->
  Z.shiftr (Z.land x 0x30) 4 = x / 16 /\ Z.shiftl (Z.land x 0xf) 4 = x mod 16 * 16 /\
  Z.shiftr (Z.land x 0x3c) 2 = x / 4 /\ Z.shiftl (Z.land x 0x3) 6 = x mod 4 * 64.
Proof.
  intros Hx. assert (unmask_ok x = true) as M by (revert Hx; apply sextet_check; by vm_compute).
  unfold unmask_ok in M. rewrite !andb_true_iff, !Z.eqb_eq in M. tauto.
Qed.

Ltac find_chars := cbn [map]; rewrite !(fun x H => proj2 (b64c_facts x H)) by sextet_range.

Lemma decode_groups_ref l : forall n junk ret,
  bytes_ok l -> length junk = 4%nat -> zlen (b64_ref l) <= n ->
  (Base64Utils.decode_loop n (b64_ref l) junk 0 ret ≫= Base64Utils.decode_rest) = Ret (ret ++ l).
Proof.
  induction l as [|a|a b|a b c l IH] using list_ind3; intros n junk ret Hl Hj Hn;
    repeat apply Forall_cons_1 in Hl as [?Hb Hl];
    destruct junk as [|? [|? [|? [|? [|]]]]]; try done;
    unfold b64_ref in *; fold b64_ref in *; unfold quad in *; cbn [app take] in *;
    autorewrite with zlen in Hn.
  - cbn. by rewrite app_nil_r.
  - do 2 (rewrite decode_char by (sextet_range || lia); arr_write).
    cbn [Base64Utils.decode_loop]. change (61 =? 61) with true. rewrite orb_true_r. cbn [orb].
    mstep. unfold Base64Utils.decode_rest. change (0 + 1 + 1 =? 0) with false. cbv iota.
    change (replicate _ 0) with [0; 0]. arr_write. find_chars.
    unfold Base64Utils.to_array_3. mstep. 
    destruct (sextet_unmask (a mod 4 * 16 + 0 / 16)) as (U1 & U2 & U3 & U4); [sextet_range|].
    rewrite U1, Z.shiftl_mul_pow2 by lia.
    change (ztake _ (?x :: _)) with [x]. do 2 f_equal. sextets.
  - do 3 (rewrite decode_char by (sextet_range || lia); arr_write).
    cbn [Base64Utils.decode_loop]. change (61 =? 61) with true. rewrite orb_true_r. cbn [orb].
    mstep. unfold Base64Utils.decode_rest. change (0 + 1 + 1 + 1 =? 0) with false. cbv iota.
    change (replicate _ 0) with [0]. arr_write. find_chars.
    unfold Base64Utils.to_array_3. mstep.
    destruct (sextet_unmask (a mod 4 * 16 + b / 16)) as (U1 & U2 & U3 & U4); [sextet_range|].
    destruct (sextet_unmask (b mod 16 * 4 + 0 / 64)) as (V1 & V2 & V3 & V4); [sextet_range|].
    rewrite U1, U2, V3, Z.shiftl_mul_pow2 by lia.
    change (ztake _ (?x :: ?y :: _)) with [x; y]. f_equal. f_equal.
    f_equal; [|f_equal]; sextets.
  - pose proof (zlen_nonneg (b64_ref l)).
    do 4 (rewrite decode_char by (sextet_range || lia); arr_write).
    find_chars. unfold Base64Utils.to_array_3. mstep.
    destruct (sextet_unmask (a mod 4 * 16 + b / 16)) as (U1 & U2 & U3 & U4); [sextet_range|].
    destruct (sextet_unmask (b mod 16 * 4 + c / 64)) as (V1 & V2 & V3 & V4); [sextet_range|].
    rewrite IH by (done || lia). rewrite <- app_assoc. cbn [app].
    rewrite U1, U2, V3, V4, Z.shiftl_mul_pow2 by lia. f_equal. f_equal.
    f_equal; [sextets|]. f_equal; [sextets|]. f_equal. sextets.
Qed.

(** The text contains no null character, so that it survives as a C string. *)
Lemma b64_ref_no_nul l : bytes_ok l -> Forall (fun c => c <> 0) (b64_ref l).
Proof.
  assert (forall x, 0 <= x < 64 -> b64c x <> 0) as Hc.
  { intros x Hx. pose proof (sextets_ok x Hx) as Hok. unfold sextet_ok in Hok.
    rewrite !andb_true_iff, !negb_true_iff in Hok. destruct Hok as [_ H]. by apply Z.eqb_neq. }
  induction l as [|a|a b|a b c l IH] using list_ind3; intros Hl;
    repeat apply Forall_cons_1 in Hl as [?Hb Hl];
    unfold b64_ref; fold b64_ref; unfold quad; cbn [app take];
    forall_list; try (by apply Hc; sextet_range); try done. by apply IH.
Qed.

Lemma b64c_byte x : is_u 8 (b64c x).
Proof.
  unfold b64c. rewrite nth_lookup. destruct (alphabet !! Z.to_nat x) eqn:E; [|by vm_compute].
  eapply Forall_lookup_1; [|done]. apply (bool_decide_unpack _). by vm_compute.
Qed.

Lemma b64_ref_ok l : bytes_ok (b64_ref l).
Proof.
  induction l as [|a|a b|a b c l IH] using list_ind3; unfold b64_ref; fold b64_ref; unfold quad; cbn [app take];
    forall_list; try apply b64c_byte; by vm_compute.
Qed.

(** ** Theorems *)

(** On a non-empty string the three encoders produce the same text, of the
    length that RFC 4648 gives, and each of the three decoders turns it back
    into the string, whatever the uninitialised arrays held.  The strings are
    those whose text is shorter than 2^31, since the toolbox narrows lengths to
    [int]. *)
Theorem base64_codecs_roundtrip (data j3 j4 : list Z) :
  bytes_ok data -> data <> [] -> zlen (b64_ref data) < 2 ^ 31 ->
  length j3 = 3%nat -> length j4 = 4%nat ->
  exists s,
    Base64.base64_encode data = Ret s /\
    Base64Utils.base64_encode2 j3 data (zlen data) = Ret s /\
    ToolboxBase64.base64_encode j3 data = Ret s /\
    zlen s = (zlen data + 2) / 3 * 4 /\
    Base64.base64_decode s = data /\
    Base64Utils.base64_decode2 j4 s = Ret data /\
    ToolboxBase64.base64_decode j4 s = Ret data.
Proof.
  intros Hd Hne Hlen H3 H4. exists (b64_ref data).
  pose proof (b64_ref_len data) as Hl. pose proof (zlen_nonneg data).
  split_and!.
  - apply base64_encode_ref; [done..|]. change (Base64.max_size_type / 4 * 3) with 13835058055282163709.
    rewrite Hl in Hlen. change (2 ^ 31) with 2147483648 in Hlen. Z.div_mod_to_equations. lia.
  - unfold Base64Utils.base64_encode2. rewrite mem_read_ok by lia. mstep.
    rewrite zdrop_0, ztake_all by lia. by apply (encode_groups_ref data j3 []).
  - by apply (encode_groups_ref data j3 []).
  - done.
  - by apply base64_decode_ref.
  - by apply (decode_groups_ref data _ j4 []).
  - apply (decode_groups_ref data _ j4 []); [done..|].
    rewrite wrap_s_small; [lia|done|]. unfold is_s. change (2 ^ (32 - 1)) with (2 ^ 31).
    pose proof (zlen_nonneg (b64_ref data)). lia.
Qed.

Lemma base64_codecs_roundtrip_witness :
  exists s, Base64.base64_encode (bytes_of "PTP") = Ret s /\ s = bytes_of "UFRQ".
Proof.
  destruct (base64_codecs_roundtrip (bytes_of "PTP") [7; 7; 7] [7; 7; 7; 7]) as (s & H & _).
  - apply (bool_decide_unpack _). by vm_compute.
  - done.
  - by vm_compute.
  - done.
  - done.
  - exists s. split; [done|]. assert (Ret s = Ret (bytes_of "UFRQ")) as [= ->]; [|done].
    rewrite <- H. by vm_compute.
Defined.

(** On the empty string the accumulating encoder fails its own check: the size
    of the result minus two wraps around. *)
Lemma base64_encode_empty :
  Base64.base64_encode [] = Throw (assertion_failed "outpos >= (retval.size() - 2)").
Proof. by vm_compute. Qed.
