(* ===== verification/Words.v ===== *)
(** * Words and their bytes

    Little- and big-endian words as lists of bytes, the byte reversals of
    src/src/ptp_crypto/sha2.h, and cutting a block of memory into pieces. *)

From S2P Require Import Prelude.

Fixpoint le_bytes (n : nat) (z : Z) : list Z :=
  match n with O => [] | S n => u8 z :: le_bytes n (Z.shiftr z 8) end.

Fixpoint le_word (l : list Z) : Z :=
  match l with [] => 0 | b :: l => Z.lor b (Z.shiftl (le_word l) 8) end.

Definition be_bytes (n : nat) (z : Z) : list Z := rev (le_bytes n z).

Definition be_word (l : list Z) : Z := le_word (rev l).

(** The first [n] pieces of [k] elements. *)
Fixpoint chunks {A} (k n : nat) (l : list A) : list (list A) :=
  match n with O => [] | S n => take k l :: chunks k n (drop k l) end.

Definition REVERSE32 (w : Z) : Z :=
  let tmp := Z.lor (Z.shiftr w 16) (u32 (Z.shiftl w 16)) in
  Z.lor (Z.shiftr (Z.land tmp 0xff00ff00) 8) (u32 (Z.shiftl (Z.land tmp 0x00ff00ff) 8)).

Definition REVERSE64 (w : Z) : Z :=
  let tmp := Z.lor (Z.shiftr w 32) (u64 (Z.shiftl w 32)) in
  let tmp := Z.lor (Z.shiftr (Z.land tmp 0xff00ff00ff00ff00) 8)
                   (u64 (Z.shiftl (Z.land tmp 0x00ff00ff00ff00ff) 8)) in
  Z.lor (Z.shiftr (Z.land tmp 0xffff0000ffff0000) 16)
        (u64 (Z.shiftl (Z.land tmp 0x0000ffff0000ffff) 16)).

(** ** Bits of bytes *)

Lemma testbit_wrap_u w z i :
  0 <= i -> 0 <= w -> Z.testbit (wrap_u w z) i = (i <? w) && Z.testbit z i.
Proof.
  intros. unfold wrap_u. destruct (Z.ltb_spec i w).
  - by rewrite Z.mod_pow2_bits_low by lia.
  - by rewrite Z.mod_pow2_bits_high by lia.
Qed.

Lemma testbit_high w z i : 0 <= w -> is_u w z -> w <= i -> Z.testbit z i = false.
Proof.
  intros Hw Hz Hi. rewrite <- (wrap_u_small w z) by done. rewrite testbit_wrap_u by lia.
  by rewrite (proj2 (Z.ltb_ge _ _)) by lia.
Qed.

(** A bitwise operation that maps zeros to zero keeps words in range. *)
Lemma is_u_bits w z : 0 <= w -> (forall i, w <= i -> Z.testbit z i = false) -> is_u w z.
Proof.
  intros Hw Hb. assert (wrap_u w z = z) as <-; [|by apply wrap_u_range].
  apply Z.bits_inj'. intros i Hi. rewrite testbit_wrap_u by lia.
  destruct (Z.ltb_spec i w); [done|]. by rewrite Hb.
Qed.

Lemma is_u_lor w x y : 0 <= w -> is_u w x -> is_u w y -> is_u w (Z.lor x y).
Proof.
  intros Hw Hx Hy. apply is_u_bits; [done|]. intros i Hi.
  by rewrite Z.lor_spec, (testbit_high w x), (testbit_high w y).
Qed.

Lemma is_u_lxor w x y : 0 <= w -> is_u w x -> is_u w y -> is_u w (Z.lxor x y).
Proof.
  intros Hw Hx Hy. apply is_u_bits; [done|]. intros i Hi.
  by rewrite Z.lxor_spec, (testbit_high w x), (testbit_high w y).
Qed.

Lemma is_u_land w x y : 0 <= w -> is_u w x -> is_u w (Z.land x y).
Proof.
  intros Hw Hx. apply is_u_bits; [done|]. intros i Hi.
  by rewrite Z.land_spec, (testbit_high w x).
Qed.

(** ** Bytes of words *)

Lemma length_le_bytes n z : length (le_bytes n z) = n.
Proof. revert z. induction n; intros; cbn [le_bytes length]; auto. Qed.

Lemma length_be_bytes n z : length (be_bytes n z) = n.
Proof. unfold be_bytes. by rewrite length_rev, length_le_bytes. Qed.

Lemma zlen_be n v : zlen (be_bytes n v) = Z.of_nat n.
Proof. unfold zlen. by rewrite length_be_bytes. Qed.

Lemma le_bytes_ok n z : bytes_ok (le_bytes n z).
Proof.
  revert z. induction n; intros; cbn [le_bytes]; constructor; auto. by apply wrap_u_range.
Qed.

Lemma be_bytes_ok n z : bytes_ok (be_bytes n z).
Proof. apply Forall_rev, le_bytes_ok. Qed.

(** A word and the bytes below it. *)
Lemma testbit_low_high b h i :
  is_u 8 b -> 0 <= i ->
  Z.testbit (Z.lor b (Z.shiftl h 8)) i =
  if i <? 8 then Z.testbit b i else Z.testbit h (i - 8).
Proof.
  intros Hb Hi. rewrite Z.lor_spec, Z.shiftl_spec by lia.
  destruct (Z.ltb_spec i 8).
  - by rewrite (Z.testbit_neg_r h) by lia; rewrite orb_false_r.
  - by rewrite (testbit_high 8 b) by (done || lia).
Qed.

Lemma le_word_range l : bytes_ok l -> is_u (8 * zlen l) (le_word l).
Proof.
  induction 1 as [|b l Hb Hl IH]; [done|]. cbn [le_word]. rewrite zlen_cons.
  pose proof (zlen_nonneg l). apply is_u_bits; [lia|]. intros i Hi.
  rewrite testbit_low_high by (done || lia). rewrite (proj2 (Z.ltb_ge _ _)) by lia.
  apply (testbit_high (8 * zlen l)); [lia|done|lia].
Qed.

Lemma le_word_bytes n z : le_word (le_bytes n z) = wrap_u (8 * Z.of_nat n) z.
Proof.
  revert z. induction n as [|n IH]; intros z.
  - cbn. unfold wrap_u. by rewrite Z.pow_0_r, Z.mod_1_r.
  - cbn [le_bytes le_word]. rewrite IH. apply Z.bits_inj'. intros i Hi.
    rewrite testbit_low_high by (done || by apply wrap_u_range).
    destruct (Z.ltb_spec i 8); rewrite !testbit_wrap_u by lia.
    + rewrite !(proj2 (Z.ltb_lt _ _)) by lia. done.
    + rewrite Z.shiftr_spec by lia. replace (i - 8 + 8) with i by lia.
      f_equal. apply eq_true_iff_eq. rewrite !Z.ltb_lt. lia.
Qed.

Lemma le_bytes_word l : bytes_ok l -> le_bytes (length l) (le_word l) = l.
Proof.
  induction 1 as [|b l Hb Hl IH]; [done|]. cbn [length le_bytes le_word].
  f_equal.
  - apply Z.bits_inj'. intros i Hi. rewrite testbit_wrap_u, testbit_low_high by (done || lia).
    destruct (Z.ltb_spec i 8); [done|]. by rewrite (testbit_high 8 b) by (done || lia).
  - etransitivity; [|exact IH]. f_equal. apply Z.bits_inj'. intros i Hi.
    rewrite Z.shiftr_spec, testbit_low_high by (done || lia).
    rewrite (proj2 (Z.ltb_ge _ _)) by lia. f_equal. lia.
Qed.

Lemma be_bytes_word l : bytes_ok l -> be_bytes (length l) (be_word l) = l.
Proof.
  intros Hl. unfold be_bytes, be_word. rewrite <- (length_rev l), le_bytes_word.
  - apply rev_involutive.
  - by apply Forall_rev.
Qed.

Lemma be_word_bytes n z : be_word (be_bytes n z) = wrap_u (8 * Z.of_nat n) z.
Proof. unfold be_bytes, be_word. rewrite rev_involutive. apply le_word_bytes. Qed.

Lemma be_word_range l : bytes_ok l -> is_u (8 * zlen l) (be_word l).
Proof.
  intros Hl. unfold be_word. replace (zlen l) with (zlen (rev l)) by (unfold zlen; by rewrite length_rev).
  by apply le_word_range, Forall_rev.
Qed.

(** Bitwise operations act byte by byte. *)

Lemma le_word_lor l1 : forall l2, bytes_ok l1 -> bytes_ok l2 -> length l1 = length l2 ->
  Z.lor (le_word l1) (le_word l2) = le_word (zip_with Z.lor l1 l2).
Proof.
  induction l1 as [|a l1 IH]; intros [|b l2] H1 H2 Hl; try done.
  apply Forall_cons_1 in H1 as [Ha H1]. apply Forall_cons_1 in H2 as [Hb H2].
  cbn [le_word zip_with]. rewrite <- IH by (done || by injection Hl).
  apply Z.bits_inj'. intros i Hi.
  rewrite Z.lor_spec, !testbit_low_high by (done || by apply is_u_lor).
  by case_match; rewrite Z.lor_spec.
Qed.

Lemma le_word_land l1 : forall l2, bytes_ok l1 -> bytes_ok l2 -> length l1 = length l2 ->
  Z.land (le_word l1) (le_word l2) = le_word (zip_with Z.land l1 l2).
Proof.
  induction l1 as [|a l1 IH]; intros [|b l2] H1 H2 Hl; try done.
  apply Forall_cons_1 in H1 as [Ha H1]. apply Forall_cons_1 in H2 as [Hb H2].
  cbn [le_word zip_with]. rewrite <- IH by (done || by injection Hl).
  apply Z.bits_inj'. intros i Hi.
  rewrite Z.land_spec, !testbit_low_high by (done || by apply is_u_land).
  by case_match; rewrite Z.land_spec.
Qed.

Lemma le_word_lxor l1 : forall l2, bytes_ok l1 -> bytes_ok l2 -> length l1 = length l2 ->
  Z.lxor (le_word l1) (le_word l2) = le_word (zip_with Z.lxor l1 l2).
Proof.
  induction l1 as [|a l1 IH]; intros [|b l2] H1 H2 Hl; try done.
  apply Forall_cons_1 in H1 as [Ha H1]. apply Forall_cons_1 in H2 as [Hb H2].
  cbn [le_word zip_with]. rewrite <- IH by (done || by injection Hl).
  apply Z.bits_inj'. intros i Hi.
  rewrite Z.lxor_spec, !testbit_low_high by (done || by apply is_u_lxor).
  by case_match; rewrite Z.lxor_spec.
Qed.

Lemma le_word_shl n l : Z.shiftl (le_word l) (8 * Z.of_nat n) = le_word (replicate n 0 ++ l).
Proof.
  induction n as [|n IH]; [done|]. cbn [replicate app le_word]. rewrite <- IH, Z.lor_0_l.
  rewrite Z.shiftl_shiftl by lia. f_equal. lia.
Qed.

Lemma le_word_shr n : forall l, bytes_ok l ->
  Z.shiftr (le_word l) (8 * Z.of_nat n) = le_word (drop n l).
Proof.
  induction n as [|n IH]; intros l Hl; [done|].
  replace (8 * Z.of_nat (S n)) with (8 + 8 * Z.of_nat n) by lia. rewrite <- Z.shiftr_shiftr by lia.
  destruct l as [|b l]; [by rewrite !Z.shiftr_0_l|]. apply Forall_cons_1 in Hl as [Hb Hl].
  cbn [le_word drop]. rewrite <- IH by done. f_equal.
  apply Z.bits_inj'. intros i Hi. rewrite Z.shiftr_spec, testbit_low_high by (done || lia).
  rewrite (proj2 (Z.ltb_ge _ _)) by lia. f_equal. lia.
Qed.

Lemma le_word_app_0 n l : le_word (l ++ replicate n 0) = le_word l.
Proof.
  induction l as [|b l IH]; cbn [app le_word]; [|by rewrite IH].
  induction n as [|n IH]; [done|]. cbn [replicate le_word]. by rewrite IH.
Qed.

Lemma le_word_wrap n l : bytes_ok l -> wrap_u (8 * Z.of_nat n) (le_word l) = le_word (take n l).
Proof.
  revert n. induction l as [|b l IH]; intros n Hl.
  - rewrite take_nil. cbn [le_word]. unfold wrap_u. by rewrite Z.mod_0_l by lia.
  - apply Forall_cons_1 in Hl as [Hb Hl]. destruct n as [|n].
    { cbn. unfold wrap_u. by rewrite Z.pow_0_r, Z.mod_1_r. }
    cbn [take le_word]. rewrite <- IH by done. apply Z.bits_inj'. intros i Hi.
    rewrite testbit_wrap_u, !testbit_low_high by (done || lia).
    destruct (Z.ltb_spec i 8); [by rewrite (proj2 (Z.ltb_lt _ _)) by lia|].
    rewrite testbit_wrap_u by lia. f_equal. apply eq_true_iff_eq. rewrite !Z.ltb_lt. lia.
Qed.

(** ** The byte reversals *)

Lemma lor_0_byte b : Z.lor b 0 = b.
Proof. apply Z.lor_0_r. Qed.

Lemma land_ff_byte b : is_u 8 b -> Z.land b 255 = b.
Proof. intros. rewrite land_ff. by apply wrap_u_small. Qed.

(** One step of a reversal: two copies of the word, shifted apart. *)
Lemma swap_step n m k w l1 l2 :
  k = 8 * Z.of_nat n -> w = 8 * Z.of_nat m -> (n <= m)%nat ->
  bytes_ok l1 -> bytes_ok l2 -> length l1 = m -> length l2 = m ->
  Z.lor (Z.shiftr (le_word l1) k) (wrap_u w (Z.shiftl (le_word l2) k)) =
  le_word (zip_with Z.lor (drop n l1 ++ replicate n 0) (take m (replicate n 0 ++ l2))).
Proof.
  intros -> -> Hn H1 H2 L1 L2. rewrite le_word_shr, le_word_shl by done.
  assert (bytes_ok (replicate n 0)) by (by apply Forall_replicate).
  rewrite le_word_wrap by (by apply Forall_app).
  rewrite <- (le_word_app_0 n (drop n l1)). apply le_word_lor.
  - apply Forall_app. split; [by apply Forall_drop|done].
  - by apply Forall_take, Forall_app.
  - rewrite length_app, length_drop, length_take, length_app, !length_replicate. lia.
Qed.

Ltac byte_simpl :=
  cbn [replicate app drop take zip_with];
  rewrite ?Z.lor_0_r, ?Z.lor_0_l, ?Z.land_0_r, ?land_ff_byte by done.

Lemma REVERSE32_le b0 b1 b2 b3 :
  bytes_ok [b0; b1; b2; b3] -> REVERSE32 (le_word [b0; b1; b2; b3]) = le_word [b3; b2; b1; b0].
Proof.
  intros H. assert (bytes_ok [b2; b3; b0; b1]) by (repeat apply Forall_cons_1 in H as [?B H]; forall_list; done).
  assert (bytes_ok [b0; b1; b2; b3]) as H' by done. repeat apply Forall_cons_1 in H' as [?B H'].
  unfold REVERSE32. rewrite (swap_step 2 4) by (done || lia). byte_simpl.
  change 0xff00ff00 with (le_word [0; 255; 0; 255]).
  change 0x00ff00ff with (le_word [255; 0; 255; 0]).
  rewrite !le_word_land by (done || (forall_list; done)). byte_simpl.
  rewrite (swap_step 1 4) by (done || lia || (forall_list; done)). byte_simpl. done.
Qed.

Lemma REVERSE64_le b0 b1 b2 b3 b4 b5 b6 b7 :
  bytes_ok [b0; b1; b2; b3; b4; b5; b6; b7] ->
  REVERSE64 (le_word [b0; b1; b2; b3; b4; b5; b6; b7]) = le_word [b7; b6; b5; b4; b3; b2; b1; b0].
Proof.
  intros H. assert (bytes_ok [b0; b1; b2; b3; b4; b5; b6; b7]) as H' by done.
  repeat apply Forall_cons_1 in H' as [?B H'].
  unfold REVERSE64. rewrite (swap_step 4 8) by (done || lia). byte_simpl.
  change 0xff00ff00ff00ff00 with (le_word [0; 255; 0; 255; 0; 255; 0; 255]).
  change 0x00ff00ff00ff00ff with (le_word [255; 0; 255; 0; 255; 0; 255; 0]).
  rewrite !le_word_land by (done || (forall_list; done)). byte_simpl.
  rewrite (swap_step 1 8) by (done || lia || (forall_list; done)). byte_simpl.
  change 0xffff0000ffff0000 with (le_word [0; 0; 255; 255; 0; 0; 255; 255]).
  change 0x0000ffff0000ffff with (le_word [255; 255; 0; 0; 255; 255; 0; 0]).
  rewrite !le_word_land by (done || (forall_list; done)). byte_simpl.
  rewrite (swap_step 2 8) by (done || lia || (forall_list; done)). byte_simpl. done.
Qed.

(** Reversing the word of some memory reads it big-endian. *)
Lemma REVERSE32_be l : bytes_ok l -> length l = 4%nat -> REVERSE32 (le_word l) = be_word l.
Proof.
  intros Hl Hn. destruct l as [|b0 [|b1 [|b2 [|b3 [|]]]]]; try done. by apply REVERSE32_le.
Qed.

Lemma REVERSE64_be l : bytes_ok l -> length l = 8%nat -> REVERSE64 (le_word l) = be_word l.
Proof.
  intros Hl Hn. destruct l as [|b0 [|b1 [|b2 [|b3 [|b4 [|b5 [|b6 [|b7 [|]]]]]]]]]; try done.
  by apply REVERSE64_le.
Qed.

(** ** Pieces *)

Lemma length_chunks {A} k n (l : list A) : length (chunks k n l) = n.
Proof. revert l. induction n; intros; cbn [chunks length]; auto. Qed.

Lemma chunks_spec k n : forall l : list Z,
  length l = (k * n)%nat -> bytes_ok l ->
  concat (chunks k n l) = l /\ Forall (fun b => length b = k /\ bytes_ok b) (chunks k n l).
Proof.
  induction n as [|n IH]; intros l Hl Hok; cbn [chunks concat].
  - destruct l; [|cbn in Hl; lia]. split; [done|constructor].
  - destruct (IH (drop k l)) as [E HF].
    { rewrite length_drop. lia. } { by apply Forall_drop. }
    split; [by rewrite E, take_drop|]. constructor; [|done]. split; [|by apply Forall_take].
    rewrite length_take. lia.
Qed.

Lemma chunks_concat {A} k (bs : list (list A)) :
  Forall (fun b => length b = k) bs -> chunks k (length bs) (concat bs) = bs.
Proof.
  induction 1 as [|b bs Hb _ IH]; [done|]. cbn [length chunks concat].
  rewrite take_app_length', drop_app_length' by done. by rewrite IH.
Qed.

Lemma length_concat_chunks {A} k (bs : list (list A)) :
  Forall (fun b => length b = k) bs -> length (concat bs) = (k * length bs)%nat.
Proof. induction 1 as [|b bs Hb _ IH]; [cbn; lia|]. cbn [concat length]. rewrite length_app. lia. Qed.

Lemma chunks_app {A} k n m (l1 l2 : list A) :
  length l1 = (k * n)%nat -> chunks k (n + m) (l1 ++ l2) = chunks k n l1 ++ chunks k m l2.
Proof.
  revert l1. induction n as [|n IH]; intros l1 Hl.
  - destruct l1; [done|cbn in Hl; lia].
  - cbn [Nat.add chunks app]. rewrite take_app_le, drop_app_le by lia. f_equal.
    apply IH. rewrite length_drop. lia.
Qed.

(** ** Splitting the bytes of a number *)

Lemma le_bytes_app a b n : le_bytes (a + b) n = le_bytes a n ++ le_bytes b (Z.shiftr n (8 * Z.of_nat a)).
Proof.
  revert n. induction a as [|a IH]; intros n; [by rewrite Z.shiftr_0_r|].
  cbn [Nat.add le_bytes app]. rewrite IH, Z.shiftr_shiftr by lia. do 4 f_equal. lia.
Qed.

Lemma be_bytes_app a b n : be_bytes (a + b) n = be_bytes a (Z.shiftr n (8 * Z.of_nat b)) ++ be_bytes b n.
Proof. unfold be_bytes. by rewrite Nat.add_comm, le_bytes_app, rev_app_distr. Qed.

(** The two halves of a number of two words. *)
Lemma be_two_words k n :
  map be_word (chunks k 2 (be_bytes (2 * k) n)) =
  [wrap_u (8 * Z.of_nat k) (Z.shiftr n (8 * Z.of_nat k)); wrap_u (8 * Z.of_nat k) n].
Proof.
  replace (2 * k)%nat with (k + k)%nat by lia. rewrite be_bytes_app. cbn [chunks map].
  rewrite take_app_length', drop_app_length' by (by rewrite length_be_bytes).
  rewrite take_ge by (by rewrite length_be_bytes). by rewrite !be_word_bytes.
Qed.

(** ** Exclusive or *)

Lemma wrap_u_lxor w a b : 0 <= w -> wrap_u w (Z.lxor a b) = Z.lxor (wrap_u w a) (wrap_u w b).
Proof.
  intros Hw. apply Z.bits_inj'. intros i Hi. rewrite Z.lxor_spec, !testbit_wrap_u, Z.lxor_spec by lia.
  by destruct (i <? w).
Qed.

Lemma le_bytes_lxor n a b : le_bytes n (Z.lxor a b) = zip_with Z.lxor (le_bytes n a) (le_bytes n b).
Proof.
  revert a b. induction n as [|n IH]; intros a b; [done|]. cbn [le_bytes zip_with].
  by rewrite wrap_u_lxor, Z.shiftr_lxor, IH.
Qed.

Lemma rev_zip_with {A B C} (f : A -> B -> C) l1 l2 :
  length l1 = length l2 -> rev (zip_with f l1 l2) = zip_with f (rev l1) (rev l2).
Proof.
  revert l2. induction l1 as [|x l1 IH]; intros [|y l2] Hl; try done.
  cbn [zip_with rev]. injection Hl as Hl. rewrite IH by done.
  rewrite zip_with_app by (by rewrite !length_rev). done.
Qed.

Lemma be_bytes_lxor n a b : be_bytes n (Z.lxor a b) = zip_with Z.lxor (be_bytes n a) (be_bytes n b).
Proof.
  unfold be_bytes. rewrite le_bytes_lxor, rev_zip_with; [done|]. by rewrite !length_le_bytes.
Qed.

(** A word with the same byte added everywhere. *)
Lemma be_word_lxor_const c l :
  bytes_ok l -> is_u 8 c ->
  Z.lxor (be_word l) (be_word (replicate (length l) c)) = be_word (map (fun b => Z.lxor b c) l).
Proof.
  intros Hl Hc. unfold be_word. rewrite le_word_lxor.
  - rewrite <- rev_zip_with by (by rewrite length_replicate). f_equal. f_equal.
    clear Hl. induction l as [|b l IH]; [done|]. cbn [length replicate zip_with map]. by rewrite IH.
  - by apply Forall_rev.
  - apply Forall_rev. by apply Forall_replicate.
  - by rewrite !length_rev, length_replicate.
Qed.

Lemma chunks_map {A B} (f : A -> B) k n l : chunks k n (map f l) = map (map f) (chunks k n l).
Proof.
  revert l. induction n as [|n IH]; intros l; [done|]. cbn [chunks map].
  by rewrite firstn_map, skipn_map, IH.
Qed.
