(* ===== verification/Aes.v ===== *)
(** * AES: stored secrets and encrypted packets

    Models [CAes] (src/src/ptp_crypto/AesSimple.cpp), which protects the entropy
    of an account on disk, and [aes_gcm_encrypt] and [aes_gcm_decrypt]
    (ptp_crypto/aes_encryption.cpp), which protect the bodies of packets.  The
    block cipher and OpenSSL's GCM are parameters. *)

From S2P Require Import Prelude Words Base64.

(** ** The block cipher of OpenSSL *)

Class AES := {
  AES_KEY : Type;
  AES_set_encrypt_key : list Z -> AES_KEY;
  AES_set_decrypt_key : list Z -> AES_KEY;
  AES_encrypt : AES_KEY -> list Z -> list Z;
  AES_decrypt : AES_KEY -> list Z -> list Z;
}.

(** What AES promises: blocks of 16 bytes, and decryption under the schedule of
    the same user key inverts encryption. *)
Class AESLaws `{AES} := {
  AES_encrypt_block k b : zlen b = 16 -> bytes_ok b ->
    zlen (AES_encrypt k b) = 16 /\ bytes_ok (AES_encrypt k b);
  AES_decrypt_encrypt k b : zlen b = 16 -> bytes_ok b ->
    AES_decrypt (AES_set_decrypt_key k) (AES_encrypt (AES_set_encrypt_key k) b) = b;
}.

Module CAes.
Section CAes.
Context `{AES}.

Record t := mk { m_cEncKey : AES_KEY; m_cDecKey : AES_KEY }.

(** The key schedules read 256 bits of the key, whose [c_str] ends with a null
    character. *)
Definition init (strKey : list Z) : outcome t :=
  k ← mem_read (strKey ++ [0]) 0 32;
  Ret (mk (AES_set_encrypt_key k) (AES_set_decrypt_key k)).

Definition WriteUint32 (buf : list Z) (off data : Z) : outcome (list Z) :=
  mem_write buf off
    [u8 (Z.shiftr data 24); u8 (Z.land (Z.shiftr data 16) 0xff);
     u8 (Z.land (Z.shiftr data 8) 0xff); u8 (Z.land data 0xff)].

Definition ReadUint32 (buf : list Z) (off : Z) : outcome Z :=
  b ← mem_read buf off 4;
  match b with
  | [b0; b1; b2; b3] =>
      Ret (u32 (Z.lor (Z.lor (Z.lor (Z.shiftl b0 24) (Z.shiftl b1 16)) (Z.shiftl b2 8)) b3))
  | _ => UB
  end.

(** [for (i = 0; i < nBlocks; i++)] over blocks of 16 bytes. *)
Fixpoint blocks (f : list Z -> list Z) (n : nat) (pIn : list Z) (i : Z) (pOut : list Z) :
    outcome (list Z) :=
  match n with
  | O => Ret pOut
  | S n =>
      b ← mem_read pIn (i * 16) 16;
      pOut ← mem_write pOut (i * 16) (f b);
      blocks f n pIn (i + 1) pOut
  end.

(** The result is the returned code with, on success, the output and
    [nOutLen]. *)
Definition Encrypt (junk : nat -> Z) (a : t) (pInData : option (list Z)) (nInLen : Z) :
    outcome (Z * option (list Z * Z)) :=
  match pInData with
  | None => Ret (-1, None)
  | Some pInData =>
      if nInLen <=? 0 then Ret (-1, None) else
      let nRemain := nInLen mod 16 in
      let nBlocks := u32 (nInLen + 15) / 16 in
      let nBlocks :=
        if (12 <? nRemain) || (nRemain =? 0) then u32 (nBlocks + 1) else nBlocks in
      let nEncryptLen := u32 (nBlocks * 16) in
      let pData := replicate (Z.to_nat nEncryptLen) 0 in
      inp ← mem_read pInData 0 nInLen;
      pData ← mem_write pData 0 inp;
      let pEncData := map junk (seq 0 (Z.to_nat nEncryptLen)) in
      pData ← WriteUint32 pData (nEncryptLen - 4) nInLen;
      pEncData ← blocks (AES_encrypt (m_cEncKey a)) (Z.to_nat nBlocks) pData 0 pEncData;
      strDec ← Base64.base64_encode pEncData;
      let nOutLen := u32 (zlen strDec) in
      Ret (0, Some (ztake nOutLen strDec ++ [0], nOutLen))
  end.

Definition Decrypt (junk : nat -> Z) (a : t) (pInData : option (list Z)) (nInLen : Z) :
    outcome (Z * option (list Z * Z)) :=
  match pInData with
  | None => Ret (-1, None)
  | Some pInData =>
      if nInLen <=? 0 then Ret (-1, None) else
      strInData ← mem_read pInData 0 nInLen;
      let strResult := Base64.base64_decode strInData in
      let nLen := u32 (zlen strResult) in
      if nLen =? 0 then Ret (-2, None)
      else if negb (nLen mod 16 =? 0) then Ret (-3, None)
      else
        let pTmp := map junk (seq 0 (Z.to_nat (u32 (nLen + 1)))) in
        let nBlocks := nLen / 16 in
        pTmp ← blocks (AES_decrypt (m_cDecKey a)) (Z.to_nat nBlocks) strResult 0 pTmp;
        nOutLen ← ReadUint32 pTmp (nLen - 4);
        if nLen <? nOutLen then Ret (-4, None)
        else
          pTmp ← mem_write pTmp nOutLen [0];
          Ret (0, Some (pTmp, nOutLen))
  end.

End CAes.
End CAes.

(** ** GCM of OpenSSL

    [gcm_stream] is the counter-mode stream applied to a text (the same for both
    directions), [gcm_tag] the authentication tag of a ciphertext. *)

Class GCM := {
  gcm_stream : list Z -> list Z -> list Z -> list Z;
  gcm_tag : list Z -> list Z -> list Z -> list Z -> list Z;
}.

Class GCMLaws `{GCM} := {
  gcm_stream_len k iv p : zlen (gcm_stream k iv p) = zlen p;
  gcm_stream_inv k iv p : gcm_stream k iv (gcm_stream k iv p) = p;
  gcm_tag_len k iv aad c : zlen (gcm_tag k iv aad c) = 16;
}.

Module aes_encryption.
Section aes_encryption.
Context `{GCM}.

(** [evp i] is whether the [i]-th call into OpenSSL succeeds. *)
Variable evp : nat -> bool.

(** [EVP_EncryptUpdate] and [EVP_DecryptUpdate] read the additional data. *)
Definition read_aad (aad : option (list Z)) (n : Z) : outcome (list Z) :=
  match aad with None => Ret [] | Some a => mem_read a 0 n end.

(** The result and the contents of [ciphertext]. *)
Definition aes_gcm_encrypt (plaintext : list Z) (plaintext_len : Z) (key iv : list Z)
    (aad : option (list Z)) (ciphertext : list Z) : outcome (Z * list Z) :=
  let tag := replicate 16 0 in
  if negb (evp 0 && evp 1 && evp 2) then Ret (-1, ciphertext) else
  k ← mem_read key 0 32;
  v ← mem_read iv 0 16;
  if negb (evp 3) then Ret (-1, ciphertext) else
  a ← read_aad aad 16;
  if (match aad with None => false | Some _ => negb (evp 4) end) then Ret (-1, ciphertext) else
  p ← mem_read plaintext 0 plaintext_len;
  if negb (evp 5) then Ret (-1, ciphertext) else
  let outBuf := gcm_stream k v p in
  if 1024000 <? zlen outBuf then UB else
  let ret := if evp 6 then 1 else 0 in
  if negb (evp 7) then Ret (-1, ciphertext) else
  tag ← mem_write tag 0 (gcm_tag k v a outBuf);
  if 0 <? ret then
    (* std::copy_n(outBuf, ciphertext_len, tag + 16) *)
    tag ← mem_write tag 16 outBuf;
    let ciphertext_len := zlen outBuf + 16 in
    out ← mem_read tag 0 ciphertext_len;
    ciphertext ← mem_write ciphertext 0 out;
    Ret (ciphertext_len, ciphertext)
  else Ret (-1, ciphertext).

(** [EVP_DecryptFinal_ex] returns 1 when the tag is that of the text and 0
    otherwise.  The additional data is [sizeof(aad)] bytes, the size of a
    pointer. *)
Definition aes_gcm_decrypt (ciphertext : list Z) (ciphertext_len : Z) (key iv : list Z)
    (aad : option (list Z)) (plaintext : list Z) : outcome (Z * list Z) :=
  tag ← mem_read ciphertext 0 16;
  if negb (evp 0 && evp 1 && evp 2) then Ret (-1, plaintext) else
  k ← mem_read key 0 32;
  v ← mem_read iv 0 16;
  if negb (evp 3 && evp 4) then Ret (-1, plaintext) else
  a ← read_aad aad 8;
  if (match aad with None => false | Some _ => negb (evp 5) end) then Ret (-1, plaintext) else
  if (ciphertext_len - 16 <? 0) || negb (evp 6) then Ret (-1, plaintext) else
  c ← mem_read ciphertext 16 (ciphertext_len - 16);
  plaintext ← mem_write plaintext 0 (gcm_stream k v c);
  let plaintext_len := zlen c in
  let ret := if bool_decide (tag = gcm_tag k v a c) then 1 else 0 in
  if 0 <=? ret then Ret (plaintext_len, plaintext) else Ret (-1, plaintext).

End aes_encryption.
End aes_encryption.

(** ** Lemmas *)

Section Lemmas.
Context `{AESLaws}.

(** The block loop applies the cipher to each block. *)
Lemma blocks_run f n : forall done pre out rest,
  zlen pre = zlen done -> zlen done mod 16 = 0 ->
  (forall b, b ∈ chunks 16 n rest -> zlen (f b) = 16) ->
  zlen rest = 16 * Z.of_nat n -> 16 * Z.of_nat n <= zlen out ->
  CAes.blocks f n (pre ++ rest) (zlen done / 16) (done ++ out) =
  Ret (done ++ concat (map f (chunks 16 n rest)) ++ zdrop (16 * Z.of_nat n) out).
Proof.
  induction n as [|n IH]; intros done pre out rest Hp Hm Hf Hr Ho.
  - cbn [CAes.blocks chunks map concat]. by rewrite Z.mul_0_r, zdrop_0.
  - cbn [CAes.blocks chunks map concat].
    assert (zlen done / 16 * 16 = zlen done) as E by (Z.div_mod_to_equations; lia).
    rewrite E. set (b := take 16 rest).
    assert (zlen b = 16) as Hb by (unfold b, zlen in *; rewrite length_take; lia).
    replace rest with (b ++ drop 16 rest) at 1 by apply take_drop.
    rewrite mem_read_app by lia. mstep.
    assert (zlen (f b) = 16) as Hfb by (apply Hf; cbn [chunks]; left).
    set (o := ztake 16 out). assert (zlen o = 16) as Hlo by (unfold o; rewrite zlen_ztake; lia).
    replace out with (o ++ zdrop 16 out) at 1 by apply ztake_zdrop.
    rewrite mem_write_app by lia. mstep.
    replace (zlen done / 16 + 1) with (zlen (done ++ f b) / 16).
    2:{ rewrite zlen_app, Hfb. replace (zlen done + 16) with (zlen done + 1 * 16) by lia.
        by rewrite Z.div_add by lia. }
    replace (pre ++ rest) with ((pre ++ b) ++ drop 16 rest)
      by (unfold b; rewrite <- app_assoc, take_drop; done).
    rewrite app_assoc. rewrite IH.
    + rewrite <- !app_assoc. do 4 f_equal. rewrite zdrop_zdrop by lia. f_equal. lia.
    + zlia.
    + rewrite zlen_app, Hfb. Z.div_mod_to_equations. lia.
    + intros x Hx. apply Hf. by right.
    + unfold zlen in *. rewrite length_drop. lia.
    + rewrite zlen_zdrop. lia.
Qed.

Lemma blocks_all f n rest out :
  (forall b, b ∈ chunks 16 n rest -> zlen (f b) = 16) ->
  zlen rest = 16 * Z.of_nat n -> 16 * Z.of_nat n <= zlen out ->
  CAes.blocks f n rest 0 out =
  Ret (concat (map f (chunks 16 n rest)) ++ zdrop (16 * Z.of_nat n) out).
Proof. intros. by apply (blocks_run f n [] []). Qed.

Lemma chunks16_spec n l :
  zlen l = 16 * Z.of_nat n -> bytes_ok l ->
  concat (chunks 16 n l) = l /\ Forall (fun b => zlen b = 16 /\ bytes_ok b) (chunks 16 n l).
Proof.
  intros Hl Hok. destruct (chunks_spec 16 n l) as [E HF]; [unfold zlen in Hl; lia|done|].
  split; [done|]. eapply Forall_impl; [|exact HF]. unfold zlen. intros b [-> ?]. done.
Qed.

Lemma zlen16 (bs : list (list Z)) :
  Forall (fun b => zlen b = 16) bs -> Forall (fun b => length b = 16%nat) bs.
Proof. apply Forall_impl. unfold zlen. lia. Qed.

(** The four bytes that [WriteUint32] writes. *)
Lemma be_word4 n : be_bytes 4 n = [u8 (Z.shiftr n 24); u8 (Z.land (Z.shiftr n 16) 0xff); u8 (Z.land (Z.shiftr n 8) 0xff); u8 (Z.land n 0xff)].
Proof.
  unfold be_bytes. cbn [le_bytes rev app]. rewrite !land_ff, !wrap_u_idem, !Z.shiftr_div_pow2, !Z.div_div by lia. done.
Qed.

Lemma read_write_uint32 pre x0 x1 x2 x3 n :
  0 <= n < 2 ^ 32 ->
  exists w, w = be_bytes 4 n /\ CAes.WriteUint32 (pre ++ [x0; x1; x2; x3]) (zlen pre) n = Ret (pre ++ w) /\
    zlen w = 4 /\ bytes_ok w /\
    forall post, CAes.ReadUint32 ((pre ++ w) ++ post) (zlen pre) = Ret n.
Proof.
  intros Hn. eexists [_; _; _; _]. split; [symmetry; by apply be_word4|]. unfold CAes.WriteUint32, CAes.ReadUint32.
  rewrite (mem_write_app pre [x0; x1; x2; x3] []) by done. rewrite app_nil_r.
  split; [done|]. split; [done|]. split.
  { forall_list; by apply wrap_u_range. }
  intros post. rewrite <- app_assoc, mem_read_app by done. mstep.
  rewrite !land_ff, !wrap_u_idem by lia.
  rewrite be32_lor by (by apply wrap_u_range). rewrite be32_bytes, wrap_u_idem by lia.
  by rewrite wrap_u_small.
Qed.

(** The number of blocks of a plaintext: the length word fits behind it. *)
Definition n_blocks (n : Z) : Z :=
  let b := (n + 15) / 16 in if (12 <? n mod 16) || (n mod 16 =? 0) then b + 1 else b.

Lemma n_blocks_fits n : 0 < n -> 0 < n_blocks n /\ n <= 16 * n_blocks n - 4 /\ 16 * n_blocks n < n + 20.
Proof.
  intros Hn. unfold n_blocks.
  destruct (Z.ltb_spec 12 (n mod 16)); destruct (Z.eqb_spec (n mod 16) 0); cbn [orb];
    Z.div_mod_to_equations; lia.
Qed.

(** The encrypted blocks of a padded plaintext, and their decryption. *)
Definition cipher_blocks (k : list Z) (nb : Z) (pd : list Z) : list (list Z) :=
  map (AES_encrypt (AES_set_encrypt_key k)) (chunks 16 (Z.to_nat nb) pd).

Lemma cipher_blocks_ok k nb pd :
  0 <= nb -> zlen pd = 16 * nb -> bytes_ok pd ->
  Forall (fun b => zlen b = 16) (cipher_blocks k nb pd) /\
  zlen (concat (cipher_blocks k nb pd)) = 16 * nb /\ bytes_ok (concat (cipher_blocks k nb pd)).
Proof.
  intros Hnb Hl Hok. destruct (chunks16_spec (Z.to_nat nb) pd) as [_ HF]; [lia|done|].
  assert (Forall (fun b => zlen b = 16 /\ bytes_ok b) (cipher_blocks k nb pd)) as HE.
  { apply Forall_map. eapply Forall_impl; [|exact HF]. intros b [H16 Hbok].
    by apply AES_encrypt_block. }
  assert (Forall (fun b => zlen b = 16) (cipher_blocks k nb pd)) as H16
    by (eapply Forall_impl; [|exact HE]; naive_solver).
  split_and!; [done| |apply Forall_concat; eapply Forall_impl; [|exact HE]; naive_solver].
  unfold zlen. rewrite (length_concat_chunks 16) by (by apply zlen16). unfold cipher_blocks. rewrite length_map, length_chunks. lia.
Qed.

Lemma cipher_blocks_dec k nb pd :
  0 <= nb -> zlen pd = 16 * nb -> bytes_ok pd ->
  map (AES_decrypt (AES_set_decrypt_key k))
    (chunks 16 (Z.to_nat nb) (concat (cipher_blocks k nb pd))) = chunks 16 (Z.to_nat nb) pd.
Proof.
  intros Hnb Hl Hok. destruct (cipher_blocks_ok k nb pd) as (H16 & _ & _); [done..|].
  destruct (chunks16_spec (Z.to_nat nb) pd) as [_ HF]; [lia|done|].
  assert (length (cipher_blocks k nb pd) = Z.to_nat nb) as Hlen
    by (unfold cipher_blocks; rewrite length_map; apply length_chunks).
  rewrite <- Hlen at 1. rewrite chunks_concat by (by apply zlen16). unfold cipher_blocks.
  rewrite map_map. rewrite <- (map_id (chunks 16 (Z.to_nat nb) pd)) at 2.
  apply map_ext_in. intros b Hb. rewrite list.Forall_forall in HF.
  apply AES_decrypt_encrypt; apply HF, list_elem_of_In, Hb.
Qed.

(** The plaintext followed by zeros and the length word. *)
Record padded (data pd : list Z) : Prop := {
  padded_form : pd = data ++ replicate (Z.to_nat (16 * n_blocks (zlen data) - 4 - zlen data)) 0 ++ be_bytes 4 (zlen data);
  padded_len : zlen pd = 16 * n_blocks (zlen data);
  padded_ok : bytes_ok pd;
  padded_data : ztake (zlen data) pd = data;
  padded_word post : CAes.ReadUint32 (pd ++ post) (zlen pd - 4) = Ret (zlen data);
}.

Lemma pad_run data :
  bytes_ok data -> 0 < zlen data < 2 ^ 31 ->
  exists pd, padded data pd /\
    (p ← mem_write (replicate (Z.to_nat (16 * n_blocks (zlen data))) 0) 0 data;
     CAes.WriteUint32 p (16 * n_blocks (zlen data) - 4) (zlen data)) = Ret pd.
Proof.
  intros Hok Hn. change (2 ^ 31) with 2147483648 in Hn.
  destruct (n_blocks_fits (zlen data)) as (Hb & Hfit & Hmax); [lia|].
  set (nb := n_blocks (zlen data)) in *.
  set (zs := replicate (Z.to_nat (16 * nb - 4 - zlen data)) 0).
  assert (zlen zs = 16 * nb - 4 - zlen data) as Hzs by (unfold zs; rewrite zlen_replicate; lia).
  destruct (read_write_uint32 (data ++ zs) 0 0 0 0 (zlen data)) as (w & Hbe & Hw & Hw4 & Hwok & Hr);
    [lia|].
  exists ((data ++ zs) ++ w). split; [constructor|].
  - by rewrite <- app_assoc, Hbe.
  - fold nb. zlia.
  - apply Forall_app. split; [|done]. apply Forall_app. split; [done|by apply Forall_replicate].
  - by rewrite <- app_assoc, ztake_app_exact.
  - intros post. rewrite <- (Hr post). f_equal. rewrite (zlen_app (data ++ zs)). lia.
  - replace (replicate (Z.to_nat (16 * nb)) 0)
      with (replicate (length data) 0 ++ zs ++ [0; 0; 0; 0]).
    2:{ unfold zs. change [0; 0; 0; 0] with (replicate 4 0). rewrite <- !replicate_add. f_equal.
        unfold zlen in *. lia. }
    rewrite mem_write_here by (unfold zlen; rewrite length_replicate; done). mstep.
    rewrite (app_assoc data). replace (16 * nb - 4) with (zlen (data ++ zs)) by (rewrite zlen_app; lia).
    done.
Qed.

(** What [Encrypt] returns: the text of the encrypted blocks. *)
Lemma encrypt_run junk k data :
  bytes_ok data -> 0 < zlen data < 2 ^ 31 ->
  exists pd, padded data pd /\
    let text := b64_ref (concat (cipher_blocks k (n_blocks (zlen data)) pd)) in
    CAes.Encrypt junk (CAes.mk (AES_set_encrypt_key k) (AES_set_decrypt_key k))
      (Some data) (zlen data) = Ret (0, Some (text ++ [0], zlen text)).
Proof.
  intros Hok Hn. destruct (pad_run data Hok Hn) as (pd & Hpd & Hrun). exists pd. split; [done|].
  cbv zeta. change (2 ^ 31) with 2147483648 in Hn.
  destruct (n_blocks_fits (zlen data)) as (Hb & Hfit & Hmax); [lia|].
  destruct Hpd as [_ Hl Hpok _ _].
  destruct (cipher_blocks_ok k (n_blocks (zlen data)) pd) as (H16 & HEl & HEok); [lia|done..|].
  unfold CAes.Encrypt. rewrite (proj2 (Z.leb_gt _ _)) by lia.
  assert ((if (12 <? zlen data mod 16) || (zlen data mod 16 =? 0)
           then u32 (u32 (zlen data + 15) / 16 + 1) else u32 (zlen data + 15) / 16) =
          n_blocks (zlen data)) as ->.
  { rewrite (wrap_u_small 32 (zlen data + 15)), wrap_u_small; [done|..];
      unfold is_u; pow2; Z.div_mod_to_equations; lia. }
  set (nb := n_blocks (zlen data)) in *.
  replace (u32 (nb * 16)) with (16 * nb) by (rewrite wrap_u_small; unfold is_u; pow2; lia).
  rewrite mem_read_ok by lia. mstep. rewrite zdrop_0, ztake_all by lia.
  destruct (mem_write (replicate _ 0) 0 data) as [p| | |]; [|done..].
  mstep. cbn [mbind outcome_bind] in Hrun. rewrite Hrun. mstep. cbn [CAes.m_cEncKey].
  rewrite blocks_all.
  - mstep. fold (cipher_blocks k nb pd). rewrite zdrop_all by zlia. rewrite app_nil_r.
    rewrite base64_encode_ref; [|done|..].
    + mstep. rewrite wrap_u_small.
      2:{ unfold is_u. rewrite b64_ref_len, HEl. pow2. Z.div_mod_to_equations. lia. }
      by rewrite ztake_all by lia.
    + intros E0. rewrite E0 in HEl. change (zlen []) with 0 in HEl. lia.
    + change (Base64.max_size_type / 4 * 3) with 13835058055282163709. lia.
  - intros b Hin. rewrite list.Forall_forall in H16. apply H16.
    unfold cipher_blocks. apply list_elem_of_In, in_map, list_elem_of_In, Hin.
  - lia.
  - zlia.
Qed.

Lemma decrypt_run junk k data pd post :
  padded data pd -> 0 < zlen data < 2 ^ 31 ->
  let text := b64_ref (concat (cipher_blocks k (n_blocks (zlen data)) pd)) in
  exists out,
    CAes.Decrypt junk (CAes.mk (AES_set_encrypt_key k) (AES_set_decrypt_key k))
      (Some (text ++ post)) (zlen text) = Ret (0, Some (out, zlen data)) /\
    ztake (zlen data) out = data /\ mem_get out (zlen data) = Ret 0.
Proof.
  intros [_ Hl Hok Hdata Hr] Hn. cbv zeta. change (2 ^ 31) with 2147483648 in Hn.
  destruct (n_blocks_fits (zlen data)) as (Hb & Hfit & Hmax); [lia|].
  set (nb := n_blocks (zlen data)) in *.
  destruct (cipher_blocks_ok k nb pd) as (H16 & HEl & HEok); [lia|done..|].
  pose proof (cipher_blocks_dec k nb pd ltac:(lia) Hl Hok) as Hdec.
  destruct (chunks16_spec (Z.to_nat nb) pd) as [Hcat HF]; [lia|done|].
  set (E := concat (cipher_blocks k nb pd)) in *.
  pose proof (b64_ref_len E) as HEt.
  unfold CAes.Decrypt. rewrite (proj2 (Z.leb_gt _ 0)) by (Z.div_mod_to_equations; lia).
  rewrite mem_read_ok by zlia. mstep. rewrite zdrop_0, ztake_app_exact by done.
  rewrite base64_decode_ref by done.
  rewrite (wrap_u_small 32 (zlen E)) by (unfold is_u; pow2; lia).
  rewrite (proj2 (Z.eqb_neq _ 0)) by lia.
  rewrite (proj2 (Z.eqb_eq (zlen E mod 16) 0)) by (rewrite HEl; Z.div_mod_to_equations; lia).
  cbn [negb]. rewrite (wrap_u_small 32 (zlen E + 1)) by (unfold is_u; pow2; lia).
  replace (Z.to_nat (zlen E / 16)) with (Z.to_nat nb)
    by (f_equal; rewrite HEl; Z.div_mod_to_equations; lia).
  cbn [CAes.m_cDecKey]. rewrite blocks_all.
  - mstep. rewrite Hdec, Hcat.
    replace (zlen E - 4) with (zlen pd - 4) by lia. rewrite Hr. mstep.
    rewrite (proj2 (Z.ltb_ge _ _)) by lia.
    rewrite mem_write_ok by zlia. mstep. eexists. split; [done|].
    rewrite ztake_app_exact, ztake_app_l by zlia. split; [done|]. apply mem_get_app. zlia.
  - intros b Hin. assert (AES_decrypt (AES_set_decrypt_key k) b ∈ chunks 16 (Z.to_nat nb) pd) as Hin'.
    { rewrite <- Hdec. apply list_elem_of_In, in_map, list_elem_of_In, Hin. }
    rewrite list.Forall_forall in HF. by apply HF in Hin' as [].
  - lia.
  - zlia.
Qed.

(** A stored secret can be read back: the text is free of null characters, and
    decryption under the same key returns the length and the bytes. *)
Lemma encrypt_decrypt junk k data :
  bytes_ok data -> 0 < zlen data < 2 ^ 31 ->
  let a := CAes.mk (AES_set_encrypt_key k) (AES_set_decrypt_key k) in
  exists text,
    CAes.Encrypt junk a (Some data) (zlen data) = Ret (0, Some (text ++ [0], zlen text)) /\
    Forall (fun c => c <> 0) text /\ bytes_ok text /\ 0 < zlen text <= 2 * zlen data + 64 /\
    forall junk' post, exists out,
      CAes.Decrypt junk' a (Some (text ++ post)) (zlen text) = Ret (0, Some (out, zlen data)) /\
      ztake (zlen data) out = data.
Proof.
  intros Hok Hn a. destruct (encrypt_run junk k data Hok Hn) as (pd & Hpd & Henc).
  eexists. split; [exact Henc|].
  destruct (n_blocks_fits (zlen data)) as (?&?&?); [lia|].
  destruct (cipher_blocks_ok k (n_blocks (zlen data)) pd) as (_ & HEl & HEok); [lia|apply Hpd..|].
  split; [by apply b64_ref_no_nul|]. split; [apply b64_ref_ok|]. split.
  - rewrite b64_ref_len, HEl. Z.div_mod_to_equations. lia.
  - intros junk' post. destruct (decrypt_run junk' k data pd post Hpd Hn) as (out & ? & ? & _). by exists out.
Qed.

End Lemmas.

(** ** Theorems *)

(** What [Encrypt] encrypts: the data, zeros up to a multiple of 16 bytes with room
    for a word, and the length of the data in four bytes, the highest first. *)
Definition plaintext (data : list Z) : list Z :=
  data ++ replicate (Z.to_nat ((12 - zlen data) mod 16)) 0 ++ be_bytes 4 (zlen data).

Lemma zdrop_get l i b : mem_get l i = Ret b -> zdrop i l = b :: zdrop (i + 1) l.
Proof.
  unfold mem_get. intros H. case_decide; [|done]. destruct (l !! Z.to_nat i) as [x|] eqn:E; [|done]. injection H as ->.
  unfold zdrop. replace (Z.to_nat (i + 1)) with (S (Z.to_nat i)) by lia. by apply drop_S.
Qed.

Lemma padding_amount n : 0 < n -> 16 * n_blocks n - 4 - n = (12 - n) mod 16.
Proof.
  intros Hn. destruct (n_blocks_fits n Hn) as (_ & H1 & H2). apply Z.mod_unique with (1 - n_blocks n); lia.
Qed.

(** C30. A secret stored with [CAes] can be read back.  A key shorter than 31
    characters is read past its end; with any other key, encrypting or decrypting
    nothing returns -1, and encrypting between 1 and 2^31 - 1 bytes returns 0 and the
    base64 text, without a null character, of the blocks of the plaintext: the
    secret, less than 16 zeros and the length, a whole number of blocks.  Decrypting
    that text with the same key returns the secret, ended by a null character, and
    its length, whatever the allocations held before. *)
Theorem aes_roundtrip `{AESLaws} (junk : nat -> Z) (key data : list Z) :
  bytes_ok data -> zlen data < 2 ^ 31 ->
  (zlen key < 31 -> CAes.init key = UB) /\
  (31 <= zlen key -> exists a, CAes.init key = Ret a /\
    (data = [] -> CAes.Encrypt junk a (Some data) (zlen data) = Ret (-1, None) /\
      CAes.Decrypt junk a (Some data) (zlen data) = Ret (-1, None)) /\
    (data <> [] ->
      let plain := plaintext data in
      let text := b64_ref (concat (map (AES_encrypt (CAes.m_cEncKey a)) (chunks 16 (Z.to_nat (zlen plain / 16)) plain))) in
      zlen plain mod 16 = 0 /\
      CAes.Encrypt junk a (Some data) (zlen data) = Ret (0, Some (text ++ [0], zlen text)) /\
      c_str (text ++ [0]) = text /\
      forall junk', exists rest,
        CAes.Decrypt junk' a (Some (text ++ [0])) (zlen text) = Ret (0, Some (data ++ 0 :: rest, zlen data)))).
Proof.
  intros Hok Hn. unfold CAes.init. pose proof (zlen_nonneg data). split.
  { intros Hk. unfold mem_read. rewrite decide_False; [done|]. zlia. }
  intros Hk. rewrite mem_read_ok by zlia. mstep. set (k := ztake 32 _). eexists. split; [done|]. split; [by intros ->|]. intros Hne. cbv zeta.
  assert (0 < zlen data < 2 ^ 31) as Hr by (destruct data; [done|rewrite zlen_cons in *; pose proof (zlen_nonneg data); lia]).
  destruct (encrypt_run junk k data Hok Hr) as (pd & Hpd & Henc). pose proof (padded_form _ _ Hpd) as Hform. rewrite padding_amount in Hform by lia.
  fold (plaintext data) in Hform. rewrite <- Hform. pose proof (padded_len _ _ Hpd) as Hl. destruct (n_blocks_fits (zlen data)) as (?&?&?); [lia|].
  replace (zlen pd / 16) with (n_blocks (zlen data)) by (rewrite Hl, Z.mul_comm; by rewrite Z.div_mul). cbn [CAes.m_cEncKey]. fold (cipher_blocks k (n_blocks (zlen data)) pd).
  destruct (cipher_blocks_ok k (n_blocks (zlen data)) pd) as (_ & HEl & HEok); [lia|apply Hpd..|].
  split; [rewrite Hl, Z.mul_comm; by apply Z.mod_mul|]. split; [exact Henc|]. split; [by apply c_str_app, b64_ref_no_nul|].
  intros junk'. destruct (decrypt_run junk' k data pd [0] Hpd Hr) as (out & Hd & Ho & Hz). exists (zdrop (zlen data + 1) out). rewrite Hd.
  by rewrite <- (ztake_zdrop (zlen data) out) at 1; rewrite Ho, (zdrop_get _ _ _ Hz).
Qed.

(** A cipher for concrete runs: it reverses a block. *)
#[local] Instance ReverseAES : AES := {|
  AES_KEY := unit;
  AES_set_encrypt_key _ := ();
  AES_set_decrypt_key _ := ();
  AES_encrypt _ b := rev b;
  AES_decrypt _ b := rev b;
|}.

#[local] Instance ReverseAESLaws : AESLaws.
Proof.
  constructor.
  - intros k b Hl Hok. split; [unfold zlen in *; cbn; by rewrite length_rev|].
    by apply Forall_rev.
  - intros k b _ _. apply rev_involutive.
Qed.

Lemma aes_roundtrip_witness :
  exists a text rest, CAes.init (replicate 31 65) = Ret a /\
    CAes.Encrypt (fun _ => 7) a (Some (bytes_of "0x00ff")) 6 = Ret (0, Some (text ++ [0], zlen text)) /\
    CAes.Decrypt (fun _ => 9) a (Some (text ++ [0])) (zlen text) = Ret (0, Some (bytes_of "0x00ff" ++ 0 :: rest, 6)).
Proof.
  destruct (aes_roundtrip (fun _ => 7) (replicate 31 65) (bytes_of "0x00ff")) as [_ H].
  - apply (bool_decide_unpack _). by vm_compute.
  - by vm_compute.
  - destruct H as (a & Ha & _ & H); [by vm_compute|]. destruct H as (_ & He & _ & Hd); [done|]. destruct (Hd (fun _ => 9)) as [rest Hr].
    eexists a, _, rest. split; [exact Ha|]. split; [exact He|exact Hr].
Defined.

(** [aes_gcm_decrypt] does not authenticate: it treats the result 0 of
    [EVP_DecryptFinal_ex] as success, so that a packet body with any tag is
    accepted and decrypts to the same bytes. *)
Theorem gcm_decrypt_accepts_any_tag `{GCMLaws} (tag c key iv buf : list Z) (aad : option (list Z)) :
  zlen tag = 16 -> 32 <= zlen key -> 16 <= zlen iv -> zlen c <= zlen buf ->
  (forall a, aad = Some a -> 8 <= zlen a) ->
  aes_encryption.aes_gcm_decrypt (fun _ => true) (tag ++ c) (zlen (tag ++ c)) key iv aad buf =
  Ret (zlen c, gcm_stream (ztake 32 key) (ztake 16 iv) c ++ zdrop (zlen c) buf).
Proof.
  intros Ht Hk Hv Hb Ha. unfold aes_encryption.aes_gcm_decrypt.
  assert (exists a8, aes_encryption.read_aad aad 8 = Ret a8) as [a8 Ea].
  { destruct aad as [a|]; cbn; [|by eexists]. specialize (Ha a eq_refl). rewrite mem_read_ok by lia.
    by eexists. }
  pose proof (zlen_nonneg c).
  rewrite (mem_read_ok (tag ++ c) 0 16) by zlia. mstep. cbn [negb andb].
  rewrite (mem_read_ok key), (mem_read_ok iv) by lia. mstep. rewrite Ea. mstep.
  replace (match aad with Some _ => _ | None => _ end) with false by (by destruct aad).
  rewrite zlen_app, Ht. rewrite (proj2 (Z.ltb_ge _ 0)) by lia. cbn [orb].
  rewrite (mem_read_ok (tag ++ c) 16) by zlia. mstep.
  rewrite (zdrop_app_exact 16), (ztake_all (16 + _ - 16)) by lia.
  rewrite !zdrop_0, mem_write_ok by (rewrite ?gcm_stream_len; lia). mstep.
  rewrite gcm_stream_len, Z.add_0_l, ztake_0. cbn [app]. by destruct (bool_decide _).
Qed.

#[local] Instance ComplementGCM : GCM := {|
  gcm_stream _ _ p := map (fun x => 255 - x) p;
  gcm_tag _ _ _ _ := replicate 16 1;
|}.

#[local] Instance ComplementGCMLaws : GCMLaws.
Proof.
  constructor; cbn; [intros; apply zlen_map| |done].
  intros k iv p. rewrite map_map. rewrite <- (map_id p) at 2. apply map_ext. intros. lia.
Qed.

Lemma gcm_decrypt_accepts_any_tag_witness :
  aes_encryption.aes_gcm_decrypt (fun _ => true) (replicate 16 99 ++ [155; 154; 153]) 19
    (replicate 32 0) (replicate 16 0) (Some (replicate 8 0)) (replicate 4 0) =
  Ret (3, [100; 101; 102; 0]).
Proof.
  change 19 with (zlen (replicate 16 99 ++ [155; 154; 153])).
  rewrite gcm_decrypt_accepts_any_tag; [done|done|done|done|done|].
  intros a [= <-]. done.
Defined.

(** [aes_gcm_encrypt] copies the ciphertext behind the 16 bytes of its local
    array [tag]: on every non-empty text it writes outside the array. *)
Lemma gcm_encrypt_out_of_bounds `{GCMLaws} (p key iv buf : list Z) (aad : option (list Z)) :
  p <> [] -> 32 <= zlen key -> 16 <= zlen iv -> (forall a, aad = Some a -> 16 <= zlen a) ->
  aes_encryption.aes_gcm_encrypt (fun _ => true) p (zlen p) key iv aad buf = UB.
Proof.
  intros Hp Hk Hv Ha. unfold aes_encryption.aes_gcm_encrypt.
  assert (exists a16, aes_encryption.read_aad aad 16 = Ret a16) as [a16 Ea].
  { destruct aad as [a|]; cbn; [|by eexists]. specialize (Ha a eq_refl). rewrite mem_read_ok by lia.
    by eexists. }
  pose proof (zlen_nonneg p). cbn [negb andb].
  rewrite (mem_read_ok key), (mem_read_ok iv) by lia. mstep. rewrite Ea. mstep.
  replace (match aad with Some _ => _ | None => _ end) with false by (by destruct aad).
  rewrite (mem_read_ok p) by lia. mstep. rewrite !zdrop_0, (ztake_all (zlen p)) by lia.
  case_match; [done|]. rewrite mem_write_ok by (rewrite ?gcm_tag_len; done). mstep.
  rewrite ztake_0, zdrop_all by (rewrite gcm_tag_len; done). cbn [app]. rewrite app_nil_r.
  change (0 <? 1) with true. cbv iota. rewrite mem_write_out; [done|].
  rewrite gcm_tag_len, gcm_stream_len. destruct p; [done|]. rewrite zlen_cons.
  pose proof (zlen_nonneg p). lia.
Qed.
