(* ===== verification/Hash.v ===== *)
(** * Streaming hash functions

    SHA-1, SHA-256 and SHA-512 of src/src/ptp_crypto/sha2.cpp share their
    structure: a context holds the state, a bit count and a block buffer;
    [Update] absorbs data in pieces of any size and [Final] pads.  The functions
    are written here once, over the parts in which the algorithms differ
    ([hash_alg]); [Sha2] instantiates them.

    The abstract specification is the one-shot definition of FIPS 180: pad the
    whole message, cut it into blocks, fold the compression function.  [Update]
    refines appending to the message ([Update_absorbed]) and [Final] the
    one-shot hash ([Final_hash]). *)

From S2P Require Import Prelude Words.

(** What distinguishes the algorithms.  The count is an array of 64-bit words;
    [count_words] are the two last words of the final block. *)
Record hash_alg := mkAlg {
  wb : nat;
  initial_hash_value : list Z;
  Transform : list Z -> list Z -> list Z;
  REVERSE : Z -> Z;
  count_zero : list Z;
  count_add : list Z -> Z -> list Z;
  count_low : list Z -> Z;
  count_words : list Z -> list Z;
}.

Section Hash.
Variable A : hash_alg.

Definition BLOCK : nat := 16 * wb A.
Definition BLOCK_LENGTH : Z := Z.of_nat BLOCK.
Definition SHORT_BLOCK_LENGTH : Z := BLOCK_LENGTH - 2 * Z.of_nat (wb A).

(** The buffer is the memory of its sixteen words. *)
Record ctx := mkCtx {
  state : list Z;
  bitcount : list Z;
  buffer : list Z;
}.

(** [for (j = 0; j < n; j++) REVERSE(buffer[j], buffer[j])]. *)
Definition to_host (n : nat) (buf : list Z) : list Z :=
  concat (map (fun w => le_bytes (wb A) (REVERSE A (le_word w))) (chunks (wb A) n buf))
  ++ drop (wb A * n) buf.

Definition words_of (buf : list Z) : list Z := map le_word (chunks (wb A) 16 buf).

(** Convert the buffer to host byte order and compress it. *)
Definition compress (c : ctx) : ctx :=
  let buf := to_host 16 (buffer c) in
  mkCtx (Transform A (state c) (words_of buf)) (bitcount c) buf.

Definition Init : ctx := mkCtx (initial_hash_value A) (count_zero A) (replicate BLOCK 0).

Definition usedspace (c : ctx) : Z := Z.shiftr (count_low A (bitcount c)) 3 mod BLOCK_LENGTH.

Definition store (c : ctx) (off : Z) (bs : list Z) : outcome ctx :=
  buf ← mem_write (buffer c) off bs;
  Ret (mkCtx (state c) (bitcount c) buf).

Definition count (c : ctx) (n : Z) : ctx :=
  mkCtx (state c) (count_add A (bitcount c) (Z.shiftl n 3)) (buffer c).

(** [while (len >= BLOCK_LENGTH)]: whole blocks. *)
Fixpoint absorb (fuel : nat) (c : ctx) (data : list Z) : outcome (ctx * list Z) :=
  if zlen data <? BLOCK_LENGTH then Ret (c, data) else
  match fuel with
  | O => NoFuel
  | S fuel =>
      c ← store c 0 (ztake BLOCK_LENGTH data);
      absorb fuel (count (compress c) BLOCK_LENGTH) (zdrop BLOCK_LENGTH data)
  end.

(** The rest of [Update] once the buffer is empty. *)
Definition update_blocks (c : ctx) (data : list Z) : outcome ctx :=
  '(c, data) ← absorb (length data) c data;
  if 0 <? zlen data then
    c ← store c 0 data;
    Ret (count c (zlen data))
  else Ret c.

Definition Update (c : ctx) (data : list Z) (len : Z) : outcome ctx :=
  if len =? 0 then Ret c else
  data ← mem_read data 0 len;
  let used := usedspace c in
  if 0 <? used then
    let freespace := BLOCK_LENGTH - used in
    if freespace <=? len then
      c ← store c used (ztake freespace data);
      update_blocks (compress (count c freespace)) (zdrop freespace data)
    else
      c ← store c used data;
      Ret (count c len)
  else update_blocks c data.

(** The digest is the memory of the state in big-endian order; the context is
    zeroed. *)
Definition digest_of (st : list Z) : list Z :=
  concat (map (fun w => le_bytes (wb A) (REVERSE A w)) st).

Definition zero_ctx (c : ctx) : ctx :=
  mkCtx (map (fun _ => 0) (state c)) (map (fun _ => 0) (bitcount c)) (map (fun _ => 0) (buffer c)).

(** The last block, from the zeros before the count on. *)
Definition finish (c : ctx) (used : Z) : outcome (ctx * list Z) :=
  c ← store c used (replicate (Z.to_nat (SHORT_BLOCK_LENGTH - used)) 0);
  let c := mkCtx (state c) (bitcount c) (to_host 14 (buffer c)) in
  c ← store c SHORT_BLOCK_LENGTH (concat (map (le_bytes (wb A)) (count_words A (bitcount c))));
  let st := Transform A (state c) (words_of (buffer c)) in
  Ret (zero_ctx c, digest_of st).

Definition Final (c : ctx) : outcome (ctx * list Z) :=
  let used := usedspace c in
  c ← store c used [0x80];
  let used := used + 1 in
  if SHORT_BLOCK_LENGTH <? used then
    c ← store c used (replicate (Z.to_nat (BLOCK_LENGTH - used)) 0);
    finish (compress c) 0
  else finish c used.

Definition Raw (data : list Z) (len : Z) : outcome (list Z) :=
  c ← Update Init data len;
  '(_, d) ← Final c;
  Ret d.

(** ** The specification *)

Definition be_words (b : list Z) : list Z := map be_word (chunks (wb A) 16 b).

(** The compression function folded over the whole blocks of a text. *)
Definition compress_all (st : list Z) (m : list Z) : list Z :=
  fold_left (fun st b => Transform A st (be_words b)) (chunks BLOCK (length m / BLOCK) m) st.

(** The padding of FIPS 180 for a message of [n] bytes. *)
Definition padding (n : Z) : list Z :=
  0x80 :: replicate (Z.to_nat ((SHORT_BLOCK_LENGTH - 1 - n) mod BLOCK_LENGTH)) 0
  ++ be_bytes (2 * wb A) (8 * n).

Definition hash (m : list Z) : list Z :=
  concat (map (be_bytes (wb A)) (compress_all (initial_hash_value A) (m ++ padding (zlen m)))).

End Hash.

(** What the parts promise: [cnt n] is the representation of a count of [n]
    bits. *)
Class HashLaws (A : hash_alg) := {
  cnt : Z -> list Z;
  wb_pos : (wb A = 4 \/ wb A = 8)%nat;
  reverse_be l : bytes_ok l -> length l = wb A -> REVERSE A (le_word l) = be_word l;
  initial_ok : Forall (is_u (8 * Z.of_nat (wb A))) (initial_hash_value A);
  transform_ok st ws : Forall (is_u (8 * Z.of_nat (wb A))) (Transform A st ws);
  cnt_zero : count_zero A = cnt 0;
  cnt_add n k : 0 <= n -> 0 <= k < 2 ^ 32 -> count_add A (cnt n) k = cnt (n + k);
  cnt_low n : 0 <= n -> count_low A (cnt n) = u64 n;
  cnt_words n : 0 <= n ->
    count_words A (cnt n) = map be_word (chunks (wb A) 2 (be_bytes (2 * wb A) n));
}.

#[global] Arguments BLOCK : simpl never.
#[global] Arguments words_of : simpl never.
#[global] Arguments to_host : simpl never.
#[global] Arguments be_words : simpl never.
#[global] Arguments compress_all : simpl never.

Section Lemmas.
Context {A : hash_alg} `{HL : !HashLaws A}.

Abbreviation wbits := (8 * Z.of_nat (wb A)).

Lemma block_pos : (0 < BLOCK A)%nat.
Proof. unfold BLOCK. destruct wb_pos; lia. Qed.

Lemma block_length : BLOCK_LENGTH A = 64 \/ BLOCK_LENGTH A = 128.
Proof. unfold BLOCK_LENGTH, BLOCK. destruct wb_pos; lia. Qed.

(** Converted to host order, the words of the buffer are its big-endian words. *)
Lemma host_chunk w :
  bytes_ok w -> length w = wb A -> le_bytes (wb A) (REVERSE A (le_word w)) = rev w.
Proof.
  intros Hw Hl. rewrite reverse_be by done. unfold be_word.
  rewrite <- Hl, <- length_rev. apply le_bytes_word. by apply Forall_rev.
Qed.

Lemma to_host_rev n buf :
  bytes_ok buf -> (wb A * n <= length buf)%nat ->
  to_host A n buf = concat (map (@rev Z) (chunks (wb A) n buf)) ++ drop (wb A * n) buf.
Proof.
  intros Hok Hl. unfold to_host. f_equal. f_equal. apply map_ext_in. intros w Hw.
  destruct (chunks_spec (wb A) n (take (wb A * n) buf)) as [_ HF].
  { rewrite length_take. lia. } { by apply Forall_take. }
  assert (chunks (wb A) n (take (wb A * n) buf) = chunks (wb A) n buf) as E.
  { rewrite <- (take_drop (wb A * n) buf) at 2. rewrite <- (Nat.add_0_r n) at 3.
    rewrite chunks_app by (rewrite length_take; lia). by rewrite app_nil_r. }
  rewrite E, list.Forall_forall in HF. apply list_elem_of_In in Hw.
  apply host_chunk; by apply HF.
Qed.

Lemma chunks_rev k n bs :
  Forall (fun b : list Z => length b = k) bs -> length bs = n ->
  chunks k n (concat (map (@rev Z) bs)) = map (@rev Z) bs.
Proof.
  intros HF <-. rewrite <- (length_map (@rev Z)). apply chunks_concat.
  apply Forall_map. eapply Forall_impl; [|exact HF]. cbn. intros b ?. by rewrite length_rev.
Qed.

Lemma words_to_host buf :
  bytes_ok buf -> length buf = BLOCK A ->
  words_of A (to_host A 16 buf) = be_words A buf /\
  length (to_host A 16 buf) = BLOCK A /\ bytes_ok (to_host A 16 buf).
Proof.
  intros Hok Hl. rewrite to_host_rev by (done || (unfold BLOCK in *; lia)).
  rewrite (drop_ge buf) by (unfold BLOCK in *; lia). rewrite app_nil_r.
  destruct (chunks_spec (wb A) 16 buf) as [_ HF]; [unfold BLOCK in *; lia|done|].
  assert (Forall (fun b => length b = wb A) (chunks (wb A) 16 buf)) as HF'
    by (eapply Forall_impl; [|exact HF]; naive_solver).
  split_and!.
  - unfold words_of, be_words. rewrite chunks_rev; [|done|apply length_chunks].
    by rewrite map_map.
  - rewrite (length_concat_chunks (wb A)), length_map, length_chunks; [unfold BLOCK; lia|].
    apply Forall_map. eapply Forall_impl; [|exact HF']. cbn. intros b ?. by rewrite length_rev.
  - apply Forall_concat, Forall_map. eapply Forall_impl; [|exact HF]. cbn.
    intros b [_ ?]. by apply Forall_rev.
Qed.

(** *** The specification *)

Lemma compress_all_app st k m1 m2 :
  length m1 = (BLOCK A * k)%nat ->
  compress_all A st (m1 ++ m2) = compress_all A (compress_all A st m1) m2.
Proof.
  intros Hl. pose proof block_pos. unfold compress_all. rewrite length_app.
  replace ((length m1 + length m2) / BLOCK A)%nat with (k + length m2 / BLOCK A)%nat.
  2:{ rewrite Hl, Nat.mul_comm, Nat.div_add_l by lia. done. }
  rewrite chunks_app by done. rewrite fold_left_app.
  by rewrite Hl, (Nat.mul_comm (BLOCK A)), Nat.div_mul by lia.
Qed.

Lemma compress_all_block st b :
  length b = BLOCK A -> compress_all A st b = Transform A st (be_words A b).
Proof.
  intros Hl. pose proof block_pos. unfold compress_all. rewrite Hl, Nat.div_same by lia.
  cbn [chunks fold_left]. by rewrite take_ge by lia.
Qed.

Lemma compress_all_short st t : (length t < BLOCK A)%nat -> compress_all A st t = st.
Proof. intros Hl. unfold compress_all. by rewrite Nat.div_small. Qed.

Lemma compress_all_ok st m :
  Forall (is_u wbits) st -> Forall (is_u wbits) (compress_all A st m).
Proof.
  unfold compress_all. generalize (chunks (BLOCK A) (length m / BLOCK A) m) as bs.
  intros bs. revert st. induction bs as [|b bs IH]; intros st Hst; [done|].
  cbn [fold_left]. apply IH, transform_ok.
Qed.

(** *** Contexts and the messages they have absorbed *)

(** The context between blocks, and in general. *)
Definition at_block (c : ctx) (full : list Z) : Prop :=
  (exists k, length full = (BLOCK A * k)%nat) /\ bytes_ok full /\
  state c = compress_all A (initial_hash_value A) full /\ bitcount c = cnt (8 * zlen full) /\
  length (buffer c) = BLOCK A /\ bytes_ok (buffer c).

Definition absorbed (c : ctx) (m : list Z) : Prop :=
  exists full t,
    m = full ++ t /\ (exists k, length full = (BLOCK A * k)%nat) /\ (length t < BLOCK A)%nat /\
    bytes_ok m /\
    state c = compress_all A (initial_hash_value A) full /\ bitcount c = cnt (8 * zlen m) /\
    length (buffer c) = BLOCK A /\ bytes_ok (buffer c) /\ take (length t) (buffer c) = t.

Lemma at_block_absorbed c full : at_block c full -> absorbed c full.
Proof.
  intros (Hk & Hok & Hst & Hcnt & Hlb & Hbok). exists full, [].
  pose proof block_pos. by rewrite app_nil_r.
Qed.

Lemma Init_at_block : at_block (Init A) [].
Proof.
  unfold at_block. cbn. split_and!; [exists 0%nat; lia|constructor| |apply cnt_zero| |].
  - symmetry. apply compress_all_short, block_pos.
  - by rewrite length_replicate.
  - by apply Forall_replicate.
Qed.

Lemma usedspace_absorbed c (full t : list Z) :
  (exists k, length full = (BLOCK A * k)%nat) -> (length t < BLOCK A)%nat ->
  bitcount c = cnt (8 * zlen (full ++ t)) -> usedspace A c = zlen t.
Proof.
  intros [k Hk] Ht Hc. unfold usedspace. rewrite Hc, cnt_low by (pose proof (zlen_nonneg (full ++ t)); lia).
  rewrite Z.shiftr_div_pow2 by lia. unfold wrap_u, zlen. rewrite length_app, Hk.
  assert (Z.of_nat (length t) < BLOCK_LENGTH A) by (unfold BLOCK_LENGTH; lia).
  replace (Z.of_nat (BLOCK A * k + length t)) with (BLOCK_LENGTH A * Z.of_nat k + Z.of_nat (length t))
    by (unfold BLOCK_LENGTH; lia).
  change (2 ^ 3) with 8. pow2.
  destruct block_length as [E|E]; rewrite E in *; Z.div_mod_to_equations; lia.
Qed.

Lemma store_block c b :
  length (buffer c) = BLOCK A -> length b = BLOCK A ->
  store c 0 b = Ret (mkCtx (state c) (bitcount c) b).
Proof.
  intros Hl Hb. unfold store. rewrite <- (app_nil_r (buffer c)), mem_write_here by (unfold zlen; lia).
  by rewrite app_nil_r.
Qed.

(** Compressing a full buffer absorbs it. *)
Lemma compress_block c full b :
  (exists k, length full = (BLOCK A * k)%nat) -> bytes_ok full ->
  state c = compress_all A (initial_hash_value A) full ->
  bitcount c = cnt (8 * zlen (full ++ b)) ->
  buffer c = b -> length b = BLOCK A -> bytes_ok b ->
  at_block (compress A c) (full ++ b).
Proof.
  intros [k Hk] Hok Hst Hcnt Hb Hlb Hbok. unfold at_block, compress. cbn. rewrite Hb.
  destruct (words_to_host b Hbok Hlb) as (Hw & Hl' & Hok').
  split_and!; [exists (S k); rewrite length_app; lia|by apply Forall_app| |done|done|done].
  rewrite (compress_all_app _ k), compress_all_block by done. by rewrite Hw, Hst.
Qed.

Lemma count_cnt c n k :
  bitcount c = cnt (8 * n) -> 0 <= n -> 0 <= k < 2 ^ 29 ->
  count A c k = mkCtx (state c) (cnt (8 * (n + k))) (buffer c).
Proof.
  intros Hc Hn Hk. change (2 ^ 29) with 536870912 in Hk. unfold count.
  rewrite Hc, Z.shiftl_mul_pow2 by lia. change (2 ^ 3) with 8. rewrite cnt_add by (pow2; lia).
  do 2 f_equal. lia.
Qed.

Lemma absorb_run fuel : forall c full data,
  at_block c full -> bytes_ok data -> (length data <= fuel)%nat ->
  exists c' full' rest, absorb A fuel c data = Ret (c', rest) /\ at_block c' full' /\
    full ++ data = full' ++ rest /\ (length rest < BLOCK A)%nat /\ bytes_ok rest.
Proof.
  induction fuel as [|fuel IH]; intros c full data Hc Hok Hf; cbn [absorb];
    destruct (Z.ltb_spec (zlen data) (BLOCK_LENGTH A)) as [Hlt|Hge];
    try (exists c, full, data; unfold zlen, BLOCK_LENGTH in *; split_and!; (done || lia)).
  { pose proof block_pos. unfold zlen, BLOCK_LENGTH in *. lia. }
  destruct Hc as (Hk & Hfok & Hst & Hcnt & Hlb & Hbok).
  set (b := ztake (BLOCK_LENGTH A) data).
  assert (length b = BLOCK A) as Hb.
  { unfold b, ztake, zlen, BLOCK_LENGTH in *. rewrite length_take. lia. }
  assert (bytes_ok b) by (by apply Forall_take).
  rewrite store_block by done. mstep.
  set (c1 := mkCtx _ _ b). pose proof block_pos. pose proof (zlen_nonneg full).
  assert (count A (compress A c1) (BLOCK_LENGTH A) =
          compress A (count A c1 (BLOCK_LENGTH A))) as -> by done.
  assert (at_block (compress A (count A c1 (BLOCK_LENGTH A))) (full ++ b)) as Hc'.
  { rewrite (count_cnt _ (zlen full)); [|done|done|]; cycle 1.
    { destruct block_length as [->| ->]; lia. }
    apply compress_block; try done. cbn. do 2 f_equal. rewrite zlen_app.
    unfold zlen at 3. rewrite Hb. done. }
  destruct (IH _ _ (zdrop (BLOCK_LENGTH A) data) Hc') as (c' & full' & rest & E & Hat & Heq & Hr & Hrok).
  { by apply Forall_drop. }
  { unfold zdrop, BLOCK_LENGTH. rewrite length_drop. lia. }
  exists c', full', rest. split_and!; try done.
  rewrite <- Heq, <- app_assoc. f_equal. symmetry. apply ztake_zdrop.
Qed.

Lemma update_blocks_run c full data :
  at_block c full -> bytes_ok data ->
  exists c', update_blocks A c data = Ret c' /\ absorbed c' (full ++ data).
Proof.
  intros Hc Hok. unfold update_blocks.
  destruct (absorb_run (length data) c full data Hc Hok) as (c' & full' & rest & -> & Hat & Heq & Hr & Hrok);
    [done|].
  mstep. destruct (Z.ltb_spec 0 (zlen rest)) as [Hpos|Hz].
  - destruct Hat as (Hk & Hfok & Hst & Hcnt & Hlb & Hbok).
    unfold store. set (n := length rest).
    rewrite <- (take_drop n (buffer c')), mem_write_here by (unfold zlen, n; rewrite length_take; lia).
    mstep. eexists. split; [done|]. pose proof (zlen_nonneg full').
    rewrite (count_cnt _ (zlen full')); [|done|done|].
    2:{ unfold zlen. destruct block_length as [E|E]; unfold BLOCK_LENGTH in E; lia. }
    exists full', rest. split_and!; try done.
    + rewrite Heq. by apply Forall_app.
    + cbn. rewrite Heq. do 2 f_equal. zlia.
    + cbn. rewrite length_app, length_drop. lia.
    + cbn. apply Forall_app. split; [done|by apply Forall_drop].
    + cbn. by rewrite take_app_length.
  - exists c'. split; [done|]. rewrite Heq. rewrite (zlen_0_nil rest), app_nil_r by zlia.
    by apply at_block_absorbed.
Qed.

(** A partly filled buffer. *)
Section Tail.
Context (c : ctx) (full t bt : list Z).
Hypothesis Hk : exists k, length full = (BLOCK A * k)%nat.
Hypothesis Hok : bytes_ok (full ++ t).
Hypothesis Hst : state c = compress_all A (initial_hash_value A) full.
Hypothesis Hcnt : bitcount c = cnt (8 * zlen (full ++ t)).
Hypothesis Hbuf : buffer c = t ++ bt.
Hypothesis Hbt : bytes_ok bt.
Hypothesis Hlen : zlen t + zlen bt = BLOCK_LENGTH A.

(** Data that completes the block. *)
Lemma update_fill data :
  bytes_ok data -> zlen bt <= zlen data ->
  exists c',
    (c ← store c (zlen t) (ztake (zlen bt) data);
     update_blocks A (compress A (count A c (zlen bt))) (zdrop (zlen bt) data)) = Ret c' /\
    absorbed c' ((full ++ t) ++ data).
Proof using All.
  intros Hd Hfit. apply Forall_app in Hok as [Hfok Htok]. set (d1 := ztake (zlen bt) data).
  assert (zlen d1 = zlen bt) as Hd1 by (unfold d1; rewrite zlen_ztake; pose proof (zlen_nonneg bt); lia).
  assert (bytes_ok d1) as Hd1ok by (by apply Forall_take).
  assert (BLOCK_LENGTH A <= 128) by (destruct block_length as [-> | ->]; lia).
  pose proof (zlen_nonneg t). pose proof (zlen_nonneg bt). pose proof (zlen_nonneg (full ++ t)).
  unfold store. rewrite Hbuf, <- (app_nil_r bt), (mem_write_app t bt []), !app_nil_r by lia. mstep.
  rewrite (count_cnt _ (zlen (full ++ t))) by (done || lia).
  assert ((full ++ t) ++ data = (full ++ t ++ d1) ++ zdrop (zlen bt) data) as Ed
    by (rewrite <- !app_assoc; unfold d1; by rewrite ztake_zdrop).
  rewrite Ed. apply update_blocks_run; [|by apply Forall_drop].
  apply compress_block; try done; cbn.
  - do 2 f_equal. zlia.
  - unfold zlen, BLOCK_LENGTH in *. rewrite length_app. lia.
  - by apply Forall_app.
Qed.

(** Data that does not. *)
Lemma update_more data :
  bytes_ok data -> zlen data < zlen bt ->
  exists c', (c ← store c (zlen t) data; Ret (count A c (zlen data))) = Ret c' /\
    absorbed c' ((full ++ t) ++ data).
Proof using All.
  intros Hd Hsmall. pose proof (zlen_nonneg data). pose proof (zlen_nonneg (full ++ t)).
  assert (BLOCK_LENGTH A <= 128) by (destruct block_length as [-> | ->]; lia).
  pose proof (zlen_nonneg t). set (b1 := ztake (zlen data) bt).
  unfold store. rewrite Hbuf.
  replace bt with (b1 ++ zdrop (zlen data) bt) by apply ztake_zdrop.
  rewrite (mem_write_app t b1) by (unfold b1; rewrite ?zlen_ztake; lia). mstep.
  rewrite (count_cnt _ (zlen (full ++ t))) by (done || lia).
  eexists. split; [done|]. exists full, (t ++ data). apply Forall_app in Hok as [Hfok Htok].
  split_and!; cbn; try done.
  - by rewrite app_assoc.
  - rewrite length_app. unfold zlen, BLOCK_LENGTH in *. lia.
  - by repeat (apply Forall_app; split).
  - do 2 f_equal. zlia.
  - rewrite !length_app. pose proof (zlen_zdrop (zlen data) bt) as E. unfold zlen, BLOCK_LENGTH in *. lia.
  - repeat (apply Forall_app; split); try done. by apply Forall_drop.
  - by rewrite app_assoc, take_app_length.
Qed.

End Tail.

(** [Update] refines appending to the message. *)
Lemma Update_absorbed c m data post :
  absorbed c m -> bytes_ok data ->
  exists c', Update A c (data ++ post) (zlen data) = Ret c' /\ absorbed c' (m ++ data).
Proof.
  intros (full & t & -> & Hk & Ht & Hmok & Hst & Hcnt & Hlb & Hbok & Htb) Hok.
  unfold Update. destruct (Z.eqb_spec (zlen data) 0) as [Hz|Hnz].
  { exists c. split; [done|]. rewrite (zlen_0_nil data), app_nil_r by done. by exists full, t. }
  pose proof (zlen_nonneg data).
  rewrite mem_read_ok by zlia. mstep. rewrite zdrop_0, ztake_app_exact by done.
  rewrite (usedspace_absorbed c full t) by done.
  set (bt := drop (length t) (buffer c)).
  assert (buffer c = t ++ bt) as Eb.
  { rewrite <- (take_drop (length t) (buffer c)) at 1. by rewrite Htb. }
  assert (zlen t + zlen bt = BLOCK_LENGTH A) as Hbt
    by (unfold bt, zlen, BLOCK_LENGTH; rewrite length_drop; lia).
  assert (bytes_ok bt) as Hbtok by (by apply Forall_drop).
  replace (BLOCK_LENGTH A - zlen t) with (zlen bt) by lia.
  destruct (Z.ltb_spec 0 (zlen t)) as [Hu|Hu].
  - destruct (Z.leb_spec (zlen bt) (zlen data)) as [Hfit|Hsmall].
    + by apply (update_fill c full t bt).
    + by apply (update_more c full t bt).
  - assert (t = []) as Et by (apply zlen_0_nil; pose proof (zlen_nonneg t); lia).
    rewrite Et, app_nil_r in Hcnt, Hmok. rewrite Et, app_nil_r. apply update_blocks_run; [|done].
    by unfold at_block.
Qed.

(** *** The last block *)

Lemma digest_be st :
  Forall (is_u wbits) st -> digest_of A st = concat (map (be_bytes (wb A)) st).
Proof.
  intros Hst. unfold digest_of. f_equal. apply map_ext_in. intros w Hw.
  rewrite list.Forall_forall in Hst. apply list_elem_of_In, Hst in Hw.
  rewrite <- (wrap_u_small wbits w), <- le_word_bytes at 1 by done.
  apply host_chunk; [apply le_bytes_ok|apply length_le_bytes].
Qed.

Lemma words_of_app n m (bs : list (list Z)) l2 :
  (n + m = 16)%nat -> Forall (fun b => length b = wb A) bs -> length bs = n ->
  words_of A (concat bs ++ l2) = map le_word bs ++ map le_word (chunks (wb A) m l2).
Proof.
  intros E HF Hn. unfold words_of. rewrite <- E, chunks_app, map_app.
  - f_equal. f_equal. rewrite <- Hn. by apply chunks_concat.
  - rewrite (length_concat_chunks (wb A)) by done. by rewrite Hn.
Qed.

Lemma cnt_words_range n : 0 <= n ->
  Forall (is_u wbits) (count_words A (cnt n)) /\ length (count_words A (cnt n)) = 2%nat.
Proof.
  intros Hn. rewrite cnt_words by done. rewrite length_map, length_chunks. split; [|done].
  apply Forall_map. destruct (chunks_spec (wb A) 2 (be_bytes (2 * wb A) n)) as [_ HF].
  { rewrite length_be_bytes. lia. } { apply be_bytes_ok. }
  eapply Forall_impl; [|exact HF]. intros b [Hl Hb]. pose proof (be_word_range b Hb) as R.
  unfold zlen in R. by rewrite Hl in R.
Qed.

(** Fourteen converted words and the two words of the count. *)
Lemma last_block p last n st :
  bytes_ok p -> Z.of_nat (length p) = SHORT_BLOCK_LENGTH A -> bytes_ok last ->
  length last = (2 * wb A)%nat -> 0 <= n ->
  exists buf,
    store (mkCtx st (cnt n) (to_host A 14 (p ++ last))) (SHORT_BLOCK_LENGTH A)
      (concat (map (le_bytes (wb A)) (count_words A (cnt n)))) = Ret (mkCtx st (cnt n) buf) /\
    words_of A buf = be_words A (p ++ be_bytes (2 * wb A) n).
Proof.
  intros Hp Hpl Hlok Hll Hn. unfold SHORT_BLOCK_LENGTH, BLOCK_LENGTH, BLOCK in Hpl.
  assert (length p = (wb A * 14)%nat) as Hpl' by lia.
  destruct (cnt_words_range n Hn) as [Hwr Hwl].
  assert (Forall (fun b => length b = wb A) (map (le_bytes (wb A)) (count_words A (cnt n)))) as Hcw.
  { apply Forall_map, Forall_forall. intros w _. apply length_le_bytes. }
  destruct (chunks_spec (wb A) 14 p) as [Hcp HFp]; [lia|done|].
  assert (Forall (fun b => length b = wb A) (map (@rev Z) (chunks (wb A) 14 p))) as Hrp.
  { apply Forall_map. eapply Forall_impl; [|exact HFp]. cbn. intros b [? _]. by rewrite length_rev. }
  assert (to_host A 14 (p ++ last) = concat (map (@rev Z) (chunks (wb A) 14 p)) ++ last) as ->.
  { rewrite to_host_rev; [|by apply Forall_app|rewrite length_app; lia].
    rewrite drop_app_length' by done. f_equal. f_equal. f_equal.
    rewrite <- (Nat.add_0_r 14), chunks_app by lia. by rewrite app_nil_r. }
  unfold store. cbn [buffer state bitcount].
  rewrite <- (app_nil_r last), mem_write_app.
  - mstep. eexists. split; [done|]. rewrite app_nil_r.
    rewrite (words_of_app 14 2) by (done || (rewrite length_map; apply length_chunks)).
    unfold be_words. change 16%nat with (14 + 2)%nat. rewrite chunks_app, map_app, <- cnt_words by lia.
    rewrite map_map. f_equal.
    rewrite <- Hwl at 1. rewrite <- (length_map (le_bytes (wb A))), chunks_concat, map_map by done.
    rewrite <- (map_id (count_words A (cnt n))) at 2. apply map_ext_in. intros w Hw.
    rewrite list.Forall_forall in Hwr. rewrite le_word_bytes. by apply wrap_u_small, Hwr, list_elem_of_In.
  - unfold SHORT_BLOCK_LENGTH, BLOCK_LENGTH, BLOCK, zlen.
    rewrite (length_concat_chunks (wb A)), length_map, length_chunks by done. lia.
  - unfold zlen. rewrite (length_concat_chunks (wb A)), length_map, Hwl by done. lia.
Qed.

(** The tail of the message and its padding make one or two blocks. *)
Lemma padded_tail (full t : list Z) :
  (exists k, length full = (BLOCK A * k)%nat) -> (length t < BLOCK A)%nat ->
  let n := zlen (full ++ t) in
  padding A n =
    0x80 :: replicate (Z.to_nat (if zlen t + 1 <=? SHORT_BLOCK_LENGTH A
                                 then SHORT_BLOCK_LENGTH A - 1 - zlen t
                                 else SHORT_BLOCK_LENGTH A - 1 - zlen t + BLOCK_LENGTH A)) 0
    ++ be_bytes (2 * wb A) (8 * n).
Proof.
  intros [k Hk] Ht. cbv zeta. unfold padding. do 4 f_equal.
  assert (zlen t < BLOCK_LENGTH A) by (unfold zlen, BLOCK_LENGTH; lia).
  assert (zlen (full ++ t) = BLOCK_LENGTH A * Z.of_nat k + zlen t) as ->
    by (unfold zlen, BLOCK_LENGTH; rewrite length_app; lia).
  pose proof (zlen_nonneg t). pose proof block_pos.
  assert (0 < SHORT_BLOCK_LENGTH A <= BLOCK_LENGTH A)
    by (unfold SHORT_BLOCK_LENGTH, BLOCK_LENGTH, BLOCK in *; lia).
  destruct (Z.leb_spec (zlen t + 1) (SHORT_BLOCK_LENGTH A)).
  - symmetry. apply (Z.mod_unique_pos _ _ (- Z.of_nat k)); lia.
  - symmetry. apply (Z.mod_unique_pos _ _ (- Z.of_nat k - 1)); lia.
Qed.

(** Overwriting the tail of a block. *)
Lemma store_tail c (t x l bs : list Z) :
  buffer c = t ++ x ++ l -> zlen x = zlen bs ->
  store c (zlen t) bs = Ret (mkCtx (state c) (bitcount c) (t ++ bs ++ l)).
Proof. intros E Hl. unfold store. rewrite E, mem_write_app by lia. done. Qed.

Lemma cut {B} n (l : list B) : (n <= length l)%nat -> exists x y, l = x ++ y /\ length x = n.
Proof.
  intros. exists (take n l), (drop n l). rewrite take_drop, length_take. split; [done|lia].
Qed.

Lemma replicate_ok n : bytes_ok (replicate n 0).
Proof. by apply Forall_replicate. Qed.

(** The end of [Final], from a buffer that is complete up to [used]. *)
Lemma finish_run st p buf n :
  bytes_ok p -> bytes_ok buf -> length (p ++ buf) = BLOCK A -> zlen p <= SHORT_BLOCK_LENGTH A ->
  0 <= n ->
  exists c',
    finish A (mkCtx st (cnt n) (p ++ buf)) (zlen p) =
    Ret (c', concat (map (be_bytes (wb A))
               (compress_all A st
                  (p ++ replicate (Z.to_nat (SHORT_BLOCK_LENGTH A - zlen p)) 0
                     ++ be_bytes (2 * wb A) n)))).
Proof.
  intros Hp Hbuf Hlen Hshort Hn. unfold finish.
  set (zs := replicate _ 0). assert (zlen zs = SHORT_BLOCK_LENGTH A - zlen p) as Hzs
    by (unfold zs; rewrite zlen_replicate; lia).
  assert (SHORT_BLOCK_LENGTH A = Z.of_nat (BLOCK A) - 2 * Z.of_nat (wb A)) as HS by done.
  assert (BLOCK A = (16 * wb A)%nat) as HB by done.
  rewrite length_app in Hlen.
  destruct (cut (length zs) buf) as (y & last & -> & Hy); [unfold zlen in *; lia|].
  rewrite length_app in Hlen. apply Forall_app in Hbuf as [_ Hlast].
  rewrite (store_tail _ p y last zs) by (done || (unfold zlen; lia)). mstep.
  cbn [state bitcount buffer]. rewrite app_assoc.
  assert (Z.of_nat (length (p ++ zs)) = SHORT_BLOCK_LENGTH A) as Hpz
    by (rewrite length_app; unfold zlen in *; lia).
  destruct (last_block (p ++ zs) last n st) as (b & -> & Hw); [|done|done|unfold zlen in *; lia|done|].
  { apply Forall_app. split; [done|apply replicate_ok]. }
  mstep. eexists. do 2 f_equal. cbn [state buffer]. rewrite Hw, digest_be by apply transform_ok.
  rewrite (app_assoc p), compress_all_block; [done|].
  rewrite length_app, length_be_bytes. lia.
Qed.

(** [Final] computes the one-shot hash of everything absorbed. *)
Lemma Final_hash c m :
  absorbed c m -> exists c', Final A c = Ret (c', hash A m).
Proof.
  intros (full & t & -> & Hk & Ht & Hmok & Hst & Hcnt & Hlb & Hbok & Htb).
  apply Forall_app in Hmok as [Hfok Htok]. set (n := 8 * zlen (full ++ t)) in *.
  assert (0 <= n) by (unfold n; pose proof (zlen_nonneg (full ++ t)); lia).
  pose proof (usedspace_absorbed c full t Hk Ht Hcnt) as Hu. pose proof block_pos as HB.
  unfold hash. rewrite padded_tail by done. fold n. destruct Hk as [k Hk].
  rewrite <- app_assoc, (compress_all_app _ k), <- Hst by done.
  destruct (cut 1 (drop (length t) (buffer c))) as (x & bt & Ebt & Hx); [rewrite length_drop; lia|].
  assert (buffer c = t ++ x ++ bt) as Eb.
  { rewrite <- Ebt. rewrite <- (take_drop (length t) (buffer c)) at 1. by rewrite Htb. }
  assert (bytes_ok bt) as Hbt.
  { rewrite Eb in Hbok. by apply Forall_app in Hbok as [_ [_ Hbok]%Forall_app]. }
  assert (length bt = (BLOCK A - length t - 1)%nat) as Hlbt
    by (rewrite Eb, !length_app in Hlb; lia).
  assert (bytes_ok (t ++ [0x80])) as Hto by (apply Forall_app; split; [done|by repeat constructor]).
  unfold Final. rewrite Hu, (store_tail c t x bt [0x80]) by (done || (unfold zlen; by rewrite Hx)). mstep.
  rewrite (zlen_snoc t 0x80), Hcnt, app_assoc.
  assert (length ((t ++ [0x80]) ++ bt) = BLOCK A) as Hl1 by (rewrite !length_app; cbn [length]; lia).
  destruct (Z.ltb_spec (SHORT_BLOCK_LENGTH A) (zlen (t ++ [0x80]))) as [Hlong|Hshort].
  - rewrite (proj2 (Z.leb_gt _ _)) by zlia.
    set (zs := replicate (Z.to_nat (BLOCK_LENGTH A - _)) 0).
    assert (length zs = length bt) as Hzs
      by (unfold zs, BLOCK_LENGTH; rewrite length_replicate; zlia).
    rewrite (store_tail _ (t ++ [0x80]) bt [] zs);
      [|by rewrite app_nil_r|unfold zlen; lia].
    mstep. rewrite app_nil_r. set (b1 := (t ++ [0x80]) ++ zs).
    assert (length b1 = BLOCK A) as Hb1 by (unfold b1; rewrite length_app in *; lia).
    destruct (words_to_host b1) as (Hw & Hl2 & Hok2);
      [by apply Forall_app; split; [|apply replicate_ok]|done|].
    unfold compress. cbn [state bitcount buffer]. rewrite Hw, <- compress_all_block by done.
    destruct (finish_run (compress_all A (state c) b1) [] (to_host A 16 b1) n) as [c' E];
      [constructor|done|done|unfold SHORT_BLOCK_LENGTH, BLOCK_LENGTH, BLOCK; zlia|done|].
    cbn [app] in E. change (zlen []) with 0 in E. rewrite E. exists c'. do 4 f_equal.
    rewrite <- (compress_all_app _ 1) by lia. f_equal. unfold b1. rewrite <- !app_assoc. cbn [app].
    do 2 f_equal. rewrite app_assoc. f_equal. unfold zs. rewrite <- replicate_add. f_equal.
    unfold SHORT_BLOCK_LENGTH, BLOCK_LENGTH, BLOCK in *. zlia.
  - rewrite (proj2 (Z.leb_le _ _)) by zlia.
    destruct (finish_run (state c) (t ++ [0x80]) bt n) as [c' E]; [done..|].
    rewrite E. exists c'. do 4 f_equal. rewrite <- app_assoc. cbn [app]. do 3 f_equal.
    f_equal. f_equal. zlia.
Qed.

(** A message absorbed in pieces. *)
Fixpoint update_all (c : ctx) (pieces : list (list Z)) : outcome ctx :=
  match pieces with
  | [] => Ret c
  | d :: pieces => c ← Update A c d (zlen d); update_all c pieces
  end.

Lemma update_all_absorbed pieces : forall c m,
  absorbed c m -> Forall bytes_ok pieces ->
  exists c', update_all c pieces = Ret c' /\ absorbed c' (m ++ concat pieces).
Proof.
  induction pieces as [|d pieces IH]; intros c m Hc HF; cbn [update_all concat].
  - exists c. by rewrite app_nil_r.
  - apply Forall_cons_1 in HF as [Hd HF].
    destruct (Update_absorbed c m d [] Hc Hd) as (c1 & E & H1). rewrite app_nil_r in E.
    rewrite E. mstep. destruct (IH c1 (m ++ d) H1 HF) as (c2 & E2 & H2). exists c2.
    by rewrite app_assoc.
Qed.

Lemma update_all_final pieces :
  Forall bytes_ok pieces ->
  (c ← update_all (Init A) pieces; '(_, d) ← Final A c; Ret d) = Ret (hash A (concat pieces)).
Proof.
  intros HF. destruct (update_all_absorbed pieces (Init A) []) as (c & -> & Hc);
    [apply at_block_absorbed, Init_at_block|done|].
  mstep. destruct (Final_hash c _ Hc) as [c' ->]. by mstep.
Qed.

Lemma Raw_hash data post :
  bytes_ok data -> Raw A (data ++ post) (zlen data) = Ret (hash A data).
Proof.
  intros Hd. unfold Raw.
  destruct (Update_absorbed (Init A) [] data post) as (c & -> & Hc);
    [apply at_block_absorbed, Init_at_block|done|].
  mstep. destruct (Final_hash c _ Hc) as [c' ->]. by mstep.
Qed.

Lemma hash_len m : length (hash A m) = (wb A * length (compress_all A (initial_hash_value A) (m ++ padding A (zlen m))))%nat.
Proof.
  unfold hash. generalize (compress_all A (initial_hash_value A) (m ++ padding A (zlen m))) as st.
  intros st. induction st as [|w st IH]; [cbn; lia|].
  cbn [map concat length]. rewrite length_app, length_be_bytes, IH. lia.
Qed.

Lemma hash_ok m : bytes_ok (hash A m).
Proof. apply Forall_concat, Forall_map, Forall_forall. intros w _. apply be_bytes_ok. Qed.

End Lemmas.
