(* ===== verification/Sha2.v ===== *)
(** * SHA-1, SHA-256 and SHA-512

    The compression functions of src/src/ptp_crypto/sha2.cpp (the loops compiled
    when SHA2_UNROLL_TRANSFORM is not defined, as in the build) and the three
    instances of the streaming hash of [Hash]. *)

From S2P Require Import Prelude Words Hash.

(** ** Logical functions on [w]-bit words *)

Definition SHR (b x : Z) : Z := Z.shiftr x b.
Definition ROTR (w b x : Z) : Z := Z.lor (Z.shiftr x b) (wrap_u w (Z.shiftl x (w - b))).
Definition ROTL32 (b x : Z) : Z := Z.lor (u32 (Z.shiftl x b)) (Z.shiftr x (32 - b)).
Definition Ch (w x y z : Z) : Z := Z.lxor (Z.land x y) (Z.land (wrap_u w (Z.lnot x)) z).
Definition Maj (x y z : Z) : Z := Z.lxor (Z.lxor (Z.land x y) (Z.land x z)) (Z.land y z).
Definition Parity (x y z : Z) : Z := Z.lxor (Z.lxor x y) z.

Definition Sigma0_256 (x : Z) := Z.lxor (Z.lxor (ROTR 32 2 x) (ROTR 32 13 x)) (ROTR 32 22 x).
Definition Sigma1_256 (x : Z) := Z.lxor (Z.lxor (ROTR 32 6 x) (ROTR 32 11 x)) (ROTR 32 25 x).
Definition sigma0_256 (x : Z) := Z.lxor (Z.lxor (ROTR 32 7 x) (ROTR 32 18 x)) (SHR 3 x).
Definition sigma1_256 (x : Z) := Z.lxor (Z.lxor (ROTR 32 17 x) (ROTR 32 19 x)) (SHR 10 x).

Definition Sigma0_512 (x : Z) := Z.lxor (Z.lxor (ROTR 64 28 x) (ROTR 64 34 x)) (ROTR 64 39 x).
Definition Sigma1_512 (x : Z) := Z.lxor (Z.lxor (ROTR 64 14 x) (ROTR 64 18 x)) (ROTR 64 41 x).
Definition sigma0_512 (x : Z) := Z.lxor (Z.lxor (ROTR 64 1 x) (ROTR 64 8 x)) (SHR 7 x).
Definition sigma1_512 (x : Z) := Z.lxor (Z.lxor (ROTR 64 19 x) (ROTR 64 61 x)) (SHR 6 x).

(** ** Constants

    Tables of words, written as hexadecimal digits between blanks. *)

Fixpoint read_words (s : list Z) (pending : option Z) : list Z :=
  match s with
  | [] => match pending with Some v => [v] | None => [] end
  | c :: s =>
      if c <=? 32 then
        match pending with Some v => v :: read_words s None | None => read_words s None end
      else read_words s (Some (16 * default 0 pending + (if c <=? 57 then c - 48 else c - 87)))
  end.

Definition hex_words (s : string) : list Z := read_words (bytes_of s) None.

Definition sha1_initial_hash_value : list Z := Eval cbv in hex_words
    "67452301 efcdab89 98badcfe 10325476 c3d2e1f0".

Definition K256 : list Z := Eval cbv in hex_words
    "428a2f98 71374491 b5c0fbcf e9b5dba5 3956c25b 59f111f1 923f82a4 ab1c5ed5
     d807aa98 12835b01 243185be 550c7dc3 72be5d74 80deb1fe 9bdc06a7 c19bf174
     e49b69c1 efbe4786 0fc19dc6 240ca1cc 2de92c6f 4a7484aa 5cb0a9dc 76f988da
     983e5152 a831c66d b00327c8 bf597fc7 c6e00bf3 d5a79147 06ca6351 14292967
     27b70a85 2e1b2138 4d2c6dfc 53380d13 650a7354 766a0abb 81c2c92e 92722c85
     a2bfe8a1 a81a664b c24b8b70 c76c51a3 d192e819 d6990624 f40e3585 106aa070
     19a4c116 1e376c08 2748774c 34b0bcb5 391c0cb3 4ed8aa4a 5b9cca4f 682e6ff3
     748f82ee 78a5636f 84c87814 8cc70208 90befffa a4506ceb bef9a3f7 c67178f2".

Definition sha256_initial_hash_value : list Z := Eval cbv in hex_words
    "6a09e667 bb67ae85 3c6ef372 a54ff53a 510e527f 9b05688c 1f83d9ab 5be0cd19".

Definition K512 : list Z := Eval cbv in hex_words
    "428a2f98d728ae22 7137449123ef65cd b5c0fbcfec4d3b2f e9b5dba58189dbbc 3956c25bf348b538
     59f111f1b605d019 923f82a4af194f9b ab1c5ed5da6d8118 d807aa98a3030242 12835b0145706fbe
     243185be4ee4b28c 550c7dc3d5ffb4e2 72be5d74f27b896f 80deb1fe3b1696b1 9bdc06a725c71235
     c19bf174cf692694 e49b69c19ef14ad2 efbe4786384f25e3 0fc19dc68b8cd5b5 240ca1cc77ac9c65
     2de92c6f592b0275 4a7484aa6ea6e483 5cb0a9dcbd41fbd4 76f988da831153b5 983e5152ee66dfab
     a831c66d2db43210 b00327c898fb213f bf597fc7beef0ee4 c6e00bf33da88fc2 d5a79147930aa725
     06ca6351e003826f 142929670a0e6e70 27b70a8546d22ffc 2e1b21385c26c926 4d2c6dfc5ac42aed
     53380d139d95b3df 650a73548baf63de 766a0abb3c77b2a8 81c2c92e47edaee6 92722c851482353b
     a2bfe8a14cf10364 a81a664bbc423001 c24b8b70d0f89791 c76c51a30654be30 d192e819d6ef5218
     d69906245565a910 f40e35855771202a 106aa07032bbd1b8 19a4c116b8d2d0c8 1e376c085141ab53
     2748774cdf8eeb99 34b0bcb5e19b48a8 391c0cb3c5c95a63 4ed8aa4ae3418acb 5b9cca4f7763e373
     682e6ff3d6b2b8a3 748f82ee5defb2fc 78a5636f43172f60 84c87814a1f0ab72 8cc702081a6439ec
     90befffa23631e28 a4506cebde82bde9 bef9a3f7b2c67915 c67178f2e372532b ca273eceea26619c
     d186b8c721c0c207 eada7dd6cde0eb1e f57d4f7fee6ed178 06f067aa72176fba 0a637dc5a2c898a6
     113f9804bef90dae 1b710b35131c471b 28db77f523047d84 32caab7b40c72493 3c9ebe0a15c9bebc
     431d67c49c100d4c 4cc5d4becb3e42b6 597f299cfc657e2a 5fcb6fab3ad6faec 6c44198c4a475817".

Definition sha512_initial_hash_value : list Z := Eval cbv in hex_words
    "6a09e667f3bcc908 bb67ae8584caa73b 3c6ef372fe94f82b a54ff53a5f1d36f1
     510e527fade682d1 9b05688c2b3e6c1f 1f83d9abfb41bd6b 5be0cd19137e2179".

(** ** The compression functions *)

(** The array [W] is written before it is read: its first sixteen words are the
    block. *)
Definition at_ (l : list Z) (j : nat) : Z := nth j l 0.

Module SHA2.
Section SHA2.
Variables (w : Z) (Sigma0 Sigma1 sigma0 sigma1 : Z -> Z) (K : list Z) (rounds : nat).

Record regs := mkR { ra : Z; rb : Z; rc : Z; rd : Z; re : Z; rf : Z; rg : Z; rh : Z }.

Definition step (r : regs) (k x : Z) : regs :=
  let T1 := wrap_u w (rh r + Sigma1 (re r) + Ch w (re r) (rf r) (rg r) + k + x) in
  let T2 := wrap_u w (Sigma0 (ra r) + Maj (ra r) (rb r) (rc r)) in
  mkR (wrap_u w (T1 + T2)) (ra r) (rb r) (rc r) (wrap_u w (rd r + T1)) (re r) (rf r) (rg r).

(** [do { ... } while (j < 16)], which stores the words of the block in [W]. *)
Fixpoint data_rounds (n j : nat) (data W : list Z) (r : regs) : list Z * regs :=
  match n with
  | O => (W, r)
  | S n =>
      let x := at_ data j in
      data_rounds n (S j) data (<[j:=x]> W) (step r (at_ K j) x)
  end.

(** [do { ... } while (j < rounds)], which expands the block. *)
Fixpoint expand_rounds (n j : nat) (W : list Z) (r : regs) : regs :=
  match n with
  | O => r
  | S n =>
      let s0 := sigma0 (at_ W (Nat.land (j + 1) 15)) in
      let s1 := sigma1 (at_ W (Nat.land (j + 14) 15)) in
      let x := wrap_u w (at_ W (Nat.land j 15) + (s1 + at_ W (Nat.land (j + 9) 15) + s0)) in
      expand_rounds n (S j) (<[Nat.land j 15:=x]> W) (step r (at_ K j) x)
  end.

Definition transform (state_in data : list Z) : list Z :=
  match state_in with
  | [a; b; c; d; e; f; g; h] =>
      let '(W, r) := data_rounds 16 0 data (replicate 16 0) (mkR a b c d e f g h) in
      let r := expand_rounds (rounds - 16) 16 W r in
      [wrap_u w (a + ra r); wrap_u w (b + rb r); wrap_u w (c + rc r); wrap_u w (d + rd r);
       wrap_u w (e + re r); wrap_u w (f + rf r); wrap_u w (g + rg r); wrap_u w (h + rh r)]
  | _ => []
  end.

End SHA2.
End SHA2.

Definition sha256_Transform : list Z -> list Z -> list Z :=
  SHA2.transform 32 Sigma0_256 Sigma1_256 sigma0_256 sigma1_256 K256 64.

Definition sha512_Transform : list Z -> list Z -> list Z :=
  SHA2.transform 64 Sigma0_512 Sigma1_512 sigma0_512 sigma1_512 K512 80.

Module SHA1.

Record regs := mkR { ra : Z; rb : Z; rc : Z; rd : Z; re : Z }.

Definition step (r : regs) (f k x : Z) : regs :=
  mkR (u32 (ROTL32 5 (ra r) + f + re r + k + x)) (ra r) (ROTL32 30 (rb r)) (rc r) (rd r).

Fixpoint data_rounds (n j : nat) (data W : list Z) (r : regs) : list Z * regs :=
  match n with
  | O => (W, r)
  | S n =>
      let x := at_ data j in
      data_rounds n (S j) data (<[j:=x]> W) (step r (Ch 32 (rb r) (rc r) (rd r)) 0x5a827999 x)
  end.

(** The four loops up to 20, 40, 60 and 80 differ in the function and the
    constant. *)
Definition mix (j : nat) (r : regs) : Z * Z :=
  if (j <? 20)%nat then (Ch 32 (rb r) (rc r) (rd r), 0x5a827999)
  else if (j <? 40)%nat then (Parity (rb r) (rc r) (rd r), 0x6ed9eba1)
  else if (j <? 60)%nat then (Maj (rb r) (rc r) (rd r), 0x8f1bbcdc)
  else (Parity (rb r) (rc r) (rd r), 0xca62c1d6).

Fixpoint expand_rounds (n j : nat) (W : list Z) (r : regs) : regs :=
  match n with
  | O => r
  | S n =>
      let T1 := Z.lxor (Z.lxor (Z.lxor (at_ W (Nat.land (j + 13) 15)) (at_ W (Nat.land (j + 8) 15)))
                          (at_ W (Nat.land (j + 2) 15))) (at_ W (Nat.land j 15)) in
      let x := ROTL32 1 T1 in
      let '(f, k) := mix j r in
      expand_rounds n (S j) (<[Nat.land j 15:=x]> W) (step r f k x)
  end.

End SHA1.

Definition sha1_Transform (state_in data : list Z) : list Z :=
  match state_in with
  | [a; b; c; d; e] =>
      let '(W, r) := SHA1.data_rounds 16 0 data (replicate 16 0) (SHA1.mkR a b c d e) in
      let r := SHA1.expand_rounds 64 16 W r in
      [u32 (a + SHA1.ra r); u32 (b + SHA1.rb r); u32 (c + SHA1.rc r); u32 (d + SHA1.rd r);
       u32 (e + SHA1.re r)]
  | _ => []
  end.

(** ** The bit counts *)

Module count64.

Definition add (c : list Z) (n : Z) : list Z := map (fun c => u64 (c + n)) c.
Definition low (c : list Z) : Z := at_ c 0.
Definition words (c : list Z) : list Z :=
  [u32 (Z.shiftr (low c) 32); u32 (Z.land (low c) 0xffffffff)].

End count64.

(** ADDINC128 and the two words of the count of SHA-512. *)
Module count128.

Definition add (w : list Z) (n : Z) : list Z :=
  let w0 := u64 (at_ w 0 + n) in
  if w0 <? n then [w0; u64 (at_ w 1 + 1)] else [w0; at_ w 1].
Definition low (c : list Z) : Z := at_ c 0.
Definition words (c : list Z) : list Z := [at_ c 1; at_ c 0].

End count128.

Definition sha1 : hash_alg :=
  mkAlg 4 sha1_initial_hash_value sha1_Transform REVERSE32 [0]
    count64.add count64.low count64.words.

Definition sha256 : hash_alg :=
  mkAlg 4 sha256_initial_hash_value sha256_Transform REVERSE32 [0]
    count64.add count64.low count64.words.

Definition sha512 : hash_alg :=
  mkAlg 8 sha512_initial_hash_value sha512_Transform REVERSE64 [0; 0]
    count128.add count128.low count128.words.

Definition sha1_Init := Init sha1.
Definition sha1_Update := Update sha1.
Definition sha1_Final := Final sha1.
Definition sha1_Raw := Raw sha1.

Definition sha256_Init := Init sha256.
Definition sha256_Update := Update sha256.
Definition sha256_Final := Final sha256.
Definition sha256_Raw := Raw sha256.

Definition sha512_Init := Init sha512.
Definition sha512_Update := Update sha512.
Definition sha512_Final := Final sha512.
Definition sha512_Raw := Raw sha512.

(** [sha1_End], [sha256_End], [sha512_End]: the digest in hexadecimal and a
    null character. *)
Definition sha2_hex_digits : list Z := bytes_of "0123456789abcdef".

Definition hex_digest (digest : list Z) : list Z :=
  concat (map (fun d => [at_ sha2_hex_digits (Z.to_nat (Z.shiftr (Z.land d 0xf0) 4));
                         at_ sha2_hex_digits (Z.to_nat (Z.land d 0x0f))]) digest) ++ [0].

Definition End_ (A : hash_alg) (c : ctx) : outcome (ctx * list Z) :=
  '(c, digest) ← Final A c;
  Ret (c, hex_digest digest).

Definition Data_ (A : hash_alg) (data : list Z) (len : Z) : outcome (list Z) :=
  c ← Update A (Init A) data len;
  '(_, s) ← End_ A c;
  Ret s.

Definition sha1_End := End_ sha1.
Definition sha1_Data := Data_ sha1.
Definition sha256_End := End_ sha256.
Definition sha256_Data := Data_ sha256.
Definition sha512_End := End_ sha512.
Definition sha512_Data := Data_ sha512.

(** ** The laws of the streaming hash *)

Lemma sha2_transform_ok w S0 S1 s0 s1 K n st ws :
  0 <= w -> Forall (is_u w) (SHA2.transform w S0 S1 s0 s1 K n st ws).
Proof.
  intros Hw. unfold SHA2.transform.
  destruct st as [|a [|b [|c [|d [|e [|f [|g [|h [|]]]]]]]]]; try (by constructor).
  case_match; forall_list; by apply wrap_u_range.
Qed.

Lemma count64_words n :
  0 <= n -> count64.words [u64 n] = map be_word (chunks 4 2 (be_bytes 8 n)).
Proof.
  intros Hn. rewrite (be_two_words 4). change (8 * Z.of_nat 4) with 32.
  unfold count64.words, count64.low, at_. cbn [nth]. f_equal; [|f_equal].
  - apply Z.bits_inj'. intros i Hi. rewrite !testbit_wrap_u, !Z.shiftr_spec, testbit_wrap_u by lia.
    destruct (Z.ltb_spec i 32); [|done]. by rewrite (proj2 (Z.ltb_lt _ _)) by lia.
  - change 0xffffffff with (Z.ones 32). rewrite Z.land_ones by lia.
    fold (u32 (u64 n)). rewrite wrap_u_idem by lia. apply Z.bits_inj'. intros i Hi.
    rewrite !testbit_wrap_u by lia.
    destruct (Z.ltb_spec i 32); [|done]. by rewrite (proj2 (Z.ltb_lt _ _)) by lia.
Qed.

Lemma count64_add n k : count64.add [u64 n] k = [u64 (n + k)].
Proof. unfold count64.add. cbn [map]. f_equal. unfold wrap_u. by rewrite Z.add_mod_idemp_l by lia. Qed.

Lemma count128_add n k :
  0 <= n -> 0 <= k < 2 ^ 32 ->
  count128.add [u64 n; u64 (Z.shiftr n 64)] k = [u64 (n + k); u64 (Z.shiftr (n + k) 64)].
Proof.
  intros Hn Hk. unfold count128.add, at_. cbn [nth].
  assert (u64 (u64 n + k) = u64 (n + k)) as ->
    by (unfold wrap_u; by rewrite Z.add_mod_idemp_l by lia).
  assert (u64 (u64 (Z.shiftr n 64) + 1) = u64 (Z.shiftr n 64 + 1)) as ->
    by (unfold wrap_u; by rewrite Z.add_mod_idemp_l by lia).
  rewrite !Z.shiftr_div_pow2 by lia. unfold wrap_u. pow2.
  destruct (Z.ltb_spec ((n + k) mod 18446744073709551616) k).
  - f_equal. f_equal. f_equal. Z.div_mod_to_equations. lia.
  - f_equal. f_equal. f_equal. Z.div_mod_to_equations. lia.
Qed.

Lemma sha1_transform_ok st ws : Forall (is_u 32) (sha1_Transform st ws).
Proof.
  unfold sha1_Transform. destruct st as [|a [|b [|c [|d [|e [|]]]]]];
    [constructor..| |constructor].
  case_match. forall_list; by apply wrap_u_range.
Qed.

#[global] Instance sha1_laws : HashLaws sha1.
Proof.
  refine {| cnt n := [u64 n] |}.
  - by left.
  - intros l Hl Hn. by apply REVERSE32_be.
  - apply (bool_decide_unpack _). by vm_compute.
  - intros st ws. apply sha1_transform_ok.
  - done.
  - intros n k _ _. apply count64_add.
  - done.
  - intros n Hn. by apply count64_words.
Defined.

#[global] Instance sha256_laws : HashLaws sha256.
Proof.
  refine {| cnt n := [u64 n] |}.
  - by left.
  - intros l Hl Hn. by apply REVERSE32_be.
  - apply (bool_decide_unpack _). by vm_compute.
  - intros st ws. by apply sha2_transform_ok.
  - done.
  - intros n k _ _. apply count64_add.
  - done.
  - intros n Hn. by apply count64_words.
Defined.

#[global] Instance sha512_laws : HashLaws sha512.
Proof.
  refine {| cnt n := [u64 n; u64 (Z.shiftr n 64)] |}.
  - by right.
  - intros l Hl Hn. by apply REVERSE64_be.
  - apply (bool_decide_unpack _). by vm_compute.
  - intros st ws. by apply sha2_transform_ok.
  - done.
  - intros n k Hn Hk. by apply count128_add.
  - done.
  - intros n Hn. symmetry. apply (be_two_words 8).
Defined.

(** ** The message schedule

    The code keeps the sixteen latest words of the schedule in a ring.  FIPS
    180 defines the schedule as a sequence and the compression as a fold over
    it. *)

Section Schedule.
Variables (w : Z) (Sigma0 Sigma1 sigma0 sigma1 : Z -> Z) (K : list Z).

(** One more word of the schedule. *)
Definition next_word (W : list Z) : Z :=
  let t := length W in
  wrap_u w (sigma1 (at_ W (t - 2)) + at_ W (t - 7) + sigma0 (at_ W (t - 15)) + at_ W (t - 16)).

Fixpoint extend (n : nat) (W : list Z) : list Z :=
  match n with O => W | S n => extend n (W ++ [next_word W]) end.

Fixpoint fold_words (j : nat) (ws : list Z) (r : SHA2.regs) : SHA2.regs :=
  match ws with
  | [] => r
  | x :: ws => fold_words (S j) ws (SHA2.step w Sigma0 Sigma1 r (at_ K j) x)
  end.

Definition fips_transform (rounds : nat) (state_in data : list Z) : list Z :=
  match state_in with
  | [a; b; c; d; e; f; g; h] =>
      let r := fold_words 0 (extend (rounds - 16) (take 16 data)) (SHA2.mkR a b c d e f g h) in
      [wrap_u w (a + SHA2.ra r); wrap_u w (b + SHA2.rb r); wrap_u w (c + SHA2.rc r);
       wrap_u w (d + SHA2.rd r); wrap_u w (e + SHA2.re r); wrap_u w (f + SHA2.rf r);
       wrap_u w (g + SHA2.rg r); wrap_u w (h + SHA2.rh r)]
  | _ => []
  end.

Lemma fold_words_app j ws1 ws2 r :
  fold_words j (ws1 ++ ws2) r = fold_words (j + length ws1) ws2 (fold_words j ws1 r).
Proof.
  revert j r. induction ws1 as [|x ws1 IH]; intros j r; cbn [app fold_words length].
  - by rewrite Nat.add_0_r.
  - rewrite IH. f_equal. lia.
Qed.

Lemma data_rounds_fold n : forall j data W r,
  (j + n <= length data)%nat -> (j + n <= length W)%nat ->
  SHA2.data_rounds w Sigma0 Sigma1 K n j data W r =
  (take j W ++ take n (drop j data) ++ drop (j + n) W, fold_words j (take n (drop j data)) r).
Proof.
  induction n as [|n IH]; intros j data W r Hd HW; cbn [SHA2.data_rounds].
  - rewrite Nat.add_0_r, !firstn_O. cbn [app fold_words]. by rewrite take_drop.
  - rewrite IH; [|lia|by rewrite length_insert; lia].
    destruct (lookup_lt_is_Some_2 data j) as [x Hx]; [lia|].
    rewrite (drop_S data x j) by done. cbn [take fold_words].
    replace (at_ data j) with x by (symmetry; by apply nth_lookup_Some).
    f_equal. rewrite (take_S_r _ _ x) by (by apply list_lookup_insert_eq; lia).
    rewrite take_insert_ge by lia. rewrite drop_insert_lt by lia.
    rewrite <- app_assoc. cbn [app]. do 4 f_equal. lia.
Qed.

(** The ring [R] holds the latest sixteen words of the sequence [W]. *)
Definition ring (R W : list Z) : Prop :=
  length R = 16%nat /\
  forall t, (length W - 16 <= t < length W)%nat -> at_ R (Nat.land t 15) = at_ W t.

Lemma land15 j : Nat.land j 15 = (j mod 16)%nat.
Proof. change 15%nat with (Nat.ones 4). by rewrite Nat.land_ones. Qed.

Lemma at_insert_eq l i x : (i < length l)%nat -> at_ (<[i:=x]> l) i = x.
Proof. intros. apply nth_lookup_Some. by apply list_lookup_insert_eq. Qed.

Lemma at_insert_ne l i j x : i <> j -> at_ (<[i:=x]> l) j = at_ l j.
Proof. intros. unfold at_. rewrite !nth_lookup. by rewrite list_lookup_insert_ne. Qed.

Lemma ring_push R W :
  ring R W -> (16 <= length W)%nat ->
  let x := wrap_u w (at_ R (Nat.land (length W) 15) +
             (sigma1 (at_ R (Nat.land (length W + 14) 15)) + at_ R (Nat.land (length W + 9) 15) +
              sigma0 (at_ R (Nat.land (length W + 1) 15)))) in
  x = next_word W /\ ring (<[Nat.land (length W) 15:=x]> R) (W ++ [x]).
Proof.
  intros [HR Hr] HW x. set (j := length W) in *.
  assert (forall k, (1 <= k <= 16)%nat -> at_ R (Nat.land (j + (16 - k)) 15) = at_ W (j - k)) as Hk.
  { intros k Hk. rewrite <- Hr by lia. f_equal. rewrite !land15.
    replace (j + (16 - k))%nat with (j - k + 1 * 16)%nat by lia. apply Nat.Div0.mod_add. }
  assert (x = next_word W) as Hx.
  { unfold x, next_word. fold j.
    rewrite <- (Hk 2%nat), <- (Hk 7%nat), <- (Hk 15%nat), <- (Hk 16%nat) by lia.
    cbn [Nat.sub]. rewrite Nat.add_0_r. f_equal. lia. }
  split; [done|]. split; [by rewrite length_insert|].
  intros t Ht. rewrite length_app in Ht. cbn [length] in Ht. fold j in Ht.
  destruct (decide (t = j)) as [->|Hne].
  - rewrite at_insert_eq by (rewrite HR, land15; apply Nat.mod_upper_bound; lia).
    unfold at_. rewrite app_nth2 by lia. fold j. by rewrite Nat.sub_diag.
  - rewrite at_insert_ne.
    + rewrite Hr by lia. unfold at_. rewrite app_nth1 by lia. done.
    + rewrite !land15. intros E. pose proof (Nat.div_mod_eq t 16). pose proof (Nat.div_mod_eq j 16). lia.
Qed.

Lemma extend_prefix n : forall W, exists ws, extend n W = W ++ ws.
Proof.
  induction n as [|n IH]; intros W; cbn [extend].
  - exists []. by rewrite app_nil_r.
  - destruct (IH (W ++ [next_word W])) as [ws ->]. exists (next_word W :: ws).
    by rewrite <- app_assoc.
Qed.

Lemma ring_start data : length data = 16%nat -> ring data data.
Proof.
  intros Hd. split; [done|]. intros t Ht. rewrite land15, Nat.mod_small by lia. done.
Qed.

Lemma expand_rounds_fold n : forall R W r,
  ring R W -> (16 <= length W)%nat ->
  SHA2.expand_rounds w Sigma0 Sigma1 sigma0 sigma1 K n (length W) R r =
  fold_words (length W) (drop (length W) (extend n W)) r.
Proof.
  induction n as [|n IH]; intros R W r HR HW; cbn [SHA2.expand_rounds extend].
  - by rewrite drop_ge by lia.
  - destruct (ring_push R W HR HW) as [Hx HR']. rewrite Hx in HR' |- *.
    set (x := next_word W) in *.
    replace (S (length W)) with (length (W ++ [x])) by (rewrite length_app; cbn; lia).
    rewrite IH by (done || (rewrite length_app; lia)).
    destruct (extend_prefix n (W ++ [x])) as [ws ->]. rewrite <- (app_assoc W [x]). cbn [app].
    rewrite (drop_app_length W). change (W ++ x :: ws) with (W ++ [x] ++ ws). rewrite (app_assoc W [x] ws), drop_app_length.
    rewrite length_app. cbn [length fold_words]. by rewrite Nat.add_1_r.
Qed.

(** The ring computes the schedule: the compression function of the code is
    that of FIPS 180. *)
Lemma transform_fips rounds st data :
  length data = 16%nat ->
  SHA2.transform w Sigma0 Sigma1 sigma0 sigma1 K rounds st data = fips_transform rounds st data.
Proof.
  intros Hd. unfold SHA2.transform, fips_transform.
  destruct st as [|a [|b [|c [|d [|e [|f [|g [|h [|]]]]]]]]]; [done..| |done].
  rewrite data_rounds_fold by (rewrite ?length_replicate; lia).
  rewrite firstn_O, !drop_0, (drop_ge (replicate 16 0)) by (rewrite length_replicate; lia).
  rewrite app_nil_r, app_nil_l, !(take_ge data) by lia.
  assert (forall r, SHA2.expand_rounds w Sigma0 Sigma1 sigma0 sigma1 K (rounds - 16) 16 data
                      (fold_words 0 data r) = fold_words 0 (extend (rounds - 16) data) r) as E.
  { intros r. rewrite <- Hd at 2. rewrite expand_rounds_fold by (done || lia || by apply ring_start).
    destruct (extend_prefix (rounds - 16) data) as [ws ->]. rewrite drop_app_length.
    by rewrite fold_words_app. }
  by rewrite E.
Qed.

End Schedule.

(** The algorithms of FIPS 180: the compression over the written-out schedule. *)
Definition fips256 : hash_alg :=
  mkAlg 4 sha256_initial_hash_value
    (fips_transform 32 Sigma0_256 Sigma1_256 sigma0_256 sigma1_256 K256 64) REVERSE32 [0]
    count64.add count64.low count64.words.

Definition fips512 : hash_alg :=
  mkAlg 8 sha512_initial_hash_value
    (fips_transform 64 Sigma0_512 Sigma1_512 sigma0_512 sigma1_512 K512 80) REVERSE64 [0; 0]
    count128.add count128.low count128.words.

Lemma hash_ext A F m :
  wb A = wb F -> initial_hash_value A = initial_hash_value F ->
  (forall st ws, length ws = 16%nat -> Transform A st ws = Transform F st ws) ->
  hash A m = hash F m.
Proof.
  intros Hw Hi Ht.
  assert (forall bs st, fold_left (fun st b => Transform A st (be_words A b)) bs st =
                        fold_left (fun st b => Transform F st (be_words F b)) bs st) as Hf.
  { induction bs as [|b bs IH]; intros st; [done|]. cbn [fold_left]. rewrite Ht.
    - rewrite IH. unfold be_words. by rewrite Hw.
    - unfold be_words. by rewrite length_map, length_chunks. }
  unfold hash, padding, compress_all, SHORT_BLOCK_LENGTH, BLOCK_LENGTH, BLOCK.
  rewrite Hf, Hi, Hw. done.
Qed.

Lemma hash_fips256 m : hash sha256 m = hash fips256 m.
Proof. apply hash_ext; [done..|]. intros st ws Hl. by apply transform_fips. Qed.

Lemma hash_fips512 m : hash sha512 m = hash fips512 m.
Proof. apply hash_ext; [done..|]. intros st ws Hl. by apply transform_fips. Qed.

(** *** Lengths of digests *)

Lemma sha512_transform_len st ws : length st = 8%nat -> length (sha512_Transform st ws) = 8%nat.
Proof.
  intros Hl. unfold sha512_Transform, SHA2.transform.
  destruct st as [|a [|b [|c [|d [|e [|f [|g [|h [|]]]]]]]]]; [discriminate..| |discriminate].
  by case_match.
Qed.

Lemma sha256_transform_len st ws : length st = 8%nat -> length (sha256_Transform st ws) = 8%nat.
Proof.
  intros Hl. unfold sha256_Transform, SHA2.transform.
  destruct st as [|a [|b [|c [|d [|e [|f [|g [|h [|]]]]]]]]]; [discriminate..| |discriminate].
  by case_match.
Qed.

Lemma compress_all_len A st m n :
  (forall st ws, length st = n -> length (Transform A st ws) = n) -> length st = n ->
  length (compress_all A st m) = n.
Proof.
  intros Ht. unfold compress_all. generalize (chunks (BLOCK A) (length m / BLOCK A) m).
  intros bs. revert st. induction bs as [|b bs IH]; intros st Hl; [done|]. cbn [fold_left].
  by apply IH, Ht.
Qed.

Lemma sha256_digest_len m : length (hash sha256 m) = 32%nat.
Proof.
  rewrite hash_len, (compress_all_len _ _ _ 8); [done|apply sha256_transform_len|done].
Qed.

Lemma sha512_digest_len m : length (hash sha512 m) = 64%nat.
Proof.
  rewrite hash_len, (compress_all_len _ _ _ 8); [done|apply sha512_transform_len|done].
Qed.

(** ** Theorems *)

(** C16. SHA-256 and SHA-512 as the code computes them are FIPS 180: however a
    message is cut into pieces, absorbing the pieces and finishing gives the
    digest of the standard for the whole message (padding, blocks, and a
    compression over the written-out message schedule, which the code keeps in
    a ring of sixteen words), and so does the one-shot function. *)
Theorem sha2_is_fips180 (pieces : list (list Z)) :
  Forall bytes_ok pieces ->
  let m := concat pieces in
  (c ← update_all (A := sha256) sha256_Init pieces; '(_, d) ← sha256_Final c; Ret d) =
    Ret (hash fips256 m) /\
  sha256_Raw m (zlen m) = Ret (hash fips256 m) /\
  (c ← update_all (A := sha512) sha512_Init pieces; '(_, d) ← sha512_Final c; Ret d) =
    Ret (hash fips512 m) /\
  sha512_Raw m (zlen m) = Ret (hash fips512 m).
Proof.
  intros HF m. assert (bytes_ok m) as Hm by (by apply Forall_concat).
  rewrite <- hash_fips256, <- hash_fips512. split_and!.
  - by apply (update_all_final (A := sha256)).
  - pose proof (Raw_hash (A := sha256) m [] Hm) as E. by rewrite app_nil_r in E.
  - by apply (update_all_final (A := sha512)).
  - pose proof (Raw_hash (A := sha512) m [] Hm) as E. by rewrite app_nil_r in E.
Qed.

Lemma sha2_is_fips180_witness :
  Forall bytes_ok [bytes_of "a"; bytes_of "bc"] /\
  sha256_Raw (bytes_of "abc") 3 = Ret (hash fips256 (bytes_of "abc")).
Proof.
  assert (Forall bytes_ok [bytes_of "a"; bytes_of "bc"]) as H
    by (apply (bool_decide_unpack _); by vm_compute).
  split; [done|]. exact (proj1 (proj2 (sha2_is_fips180 _ H))).
Defined.

(** The digests of "abc" in the standard. *)
Lemma sha256_abc :
  sha256_Raw (bytes_of "abc") 3 =
  Ret [0xba; 0x78; 0x16; 0xbf; 0x8f; 0x01; 0xcf; 0xea; 0x41; 0x41; 0x40; 0xde; 0x5d; 0xae; 0x22;
       0x23; 0xb0; 0x03; 0x61; 0xa3; 0x96; 0x17; 0x7a; 0x9c; 0xb4; 0x10; 0xff; 0x61; 0xf2; 0x00;
       0x15; 0xad].
Proof. by vm_compute. Qed.
