(* ===== verification/Hmac.v ===== *)
(** * HMAC and PBKDF2

    Models src/src/ptp_crypto/hmac.cpp and pbkdf2.cpp.  The functions for
    SHA-256 and SHA-512 are the same code over two hash functions; they are
    written here once ([mac_alg]) and instantiated.

    The specification is RFC 2104 and RFC 8018: HMAC as two nested hashes, and
    PBKDF2 as the sum of iterated HMACs.  The code hashes the padded keys once
    and runs the bare compression function on a prepared block ([prepare],
    [pbkdf2_Update]); [pbkdf2_ref] says that this is the same. *)

From S2P Require Import Prelude Words Hash Sha2.

(** The hash function and the constants of its word size. *)
Record mac_alg := mkMac {
  alg : hash_alg;
  opad_word : Z;
  ipad_word : Z;
  one_bit : Z;
  one_block_count : list Z;
}.

Section Mac.
Variable M : mac_alg.
Abbreviation A := (alg M).
Abbreviation B := (BLOCK_LENGTH (alg M)).

(** Eight words. *)
Definition DIGEST_LENGTH : Z := 8 * Z.of_nat (wb A).

(** ** HMAC *)

Record hmac_ctx := mkHctx { o_key_pad : list Z; hctx : ctx }.

(** The key, or its digest when it is longer than a block, padded with zeros. *)
Definition key_block (key : list Z) (keylen : Z) : outcome (list Z) :=
  let i_key_pad := replicate (Z.to_nat B) 0 in
  if B <? keylen then
    d ← Raw A key keylen;
    mem_write i_key_pad 0 d
  else
    k ← mem_read key 0 keylen;
    mem_write i_key_pad 0 k.

Definition hmac_Init (key : list Z) (keylen : Z) : outcome hmac_ctx :=
  k ← key_block key keylen;
  let o_key_pad := map (fun b => Z.lxor b 0x5c) k in
  let i_key_pad := map (fun b => Z.lxor b 0x36) k in
  c ← Update A (Init A) i_key_pad B;
  Ret (mkHctx o_key_pad c).

Definition hmac_Update (h : hmac_ctx) (msg : list Z) (msglen : Z) : outcome hmac_ctx :=
  c ← Update A (hctx h) msg msglen;
  Ret (mkHctx (o_key_pad h) c).

Definition hmac_Final (h : hmac_ctx) : outcome (list Z) :=
  '(_, hmac) ← Final A (hctx h);
  c ← Update A (Init A) (o_key_pad h) B;
  c ← Update A c hmac DIGEST_LENGTH;
  '(_, hmac) ← Final A c;
  Ret hmac.

Definition hmac (key : list Z) (keylen : Z) (msg : list Z) (msglen : Z) : outcome (list Z) :=
  h ← hmac_Init key keylen;
  h ← hmac_Update h msg msglen;
  hmac_Final h.

(** [hmac_sha256_prepare], [hmac_sha512_prepare]: the states after the blocks of
    the padded keys. *)
Definition hmac_prepare (key : list Z) (keylen : Z) : outcome (list Z * list Z) :=
  k ← key_block key keylen;
  let key_pad := map (fun m => Z.lxor (REVERSE A (le_word m)) (opad_word M)) (chunks (wb A) 16 k) in
  let opad_digest := Transform A (initial_hash_value A) key_pad in
  let key_pad := map (fun x => Z.lxor (Z.lxor x (opad_word M)) (ipad_word M)) key_pad in
  let ipad_digest := Transform A (initial_hash_value A) key_pad in
  Ret (opad_digest, ipad_digest).

(** ** PBKDF2 *)

(** [g] has sixteen words: eight of a digest and the padding behind them. *)
Record pbkdf2_ctx := mkPctx {
  odig : list Z;
  idig : list Z;
  f : list Z;
  g : list Z;
  first : Z;
}.

(** [Transform(dig, g, g)] writes the first eight words of [g]. *)
Definition transform_g (dig g : list Z) : list Z := Transform A dig g ++ drop 8 g.

(** [junk] is the buffer of the local hash context. *)
Definition pbkdf2_Init (junk pass : list Z) (passlen : Z) (salt : list Z) (saltlen : Z) :
    outcome pbkdf2_ctx :=
  let blocknr := REVERSE32 1 in
  '(odig, idig) ← hmac_prepare pass passlen;
  let g := <[15%nat := (B + DIGEST_LENGTH) * 8]> (<[8%nat := one_bit M]> (replicate 16 0)) in
  let c := mkCtx idig (one_block_count M) junk in
  c ← Update A c salt saltlen;
  c ← Update A c (le_bytes 4 blocknr) 4;
  '(_, d) ← Final A c;
  let g := map (fun m => REVERSE A (le_word m)) (chunks (wb A) 8 d) ++ drop 8 g in
  let g := transform_g odig g in
  Ret (mkPctx odig idig (take 8 g) g 1).

Fixpoint pbkdf2_rounds (n : nat) (p : pbkdf2_ctx) : pbkdf2_ctx :=
  match n with
  | O => p
  | S n =>
      let g1 := transform_g (idig p) (g p) in
      let g2 := transform_g (odig p) g1 in
      pbkdf2_rounds n (mkPctx (odig p) (idig p) (zip_with Z.lxor (f p) g2) g2 (first p))
  end.

(** [for (i = first; i < iterations; i++)]. *)
Definition pbkdf2_Update (p : pbkdf2_ctx) (iterations : Z) : pbkdf2_ctx :=
  let p := pbkdf2_rounds (Z.to_nat (iterations - first p)) p in
  mkPctx (odig p) (idig p) (f p) (g p) 0.

Definition pbkdf2_Final (p : pbkdf2_ctx) : list Z := digest_of A (f p).

Definition pbkdf2_hmac (junk pass : list Z) (passlen : Z) (salt : list Z) (saltlen iterations : Z) :
    outcome (list Z) :=
  p ← pbkdf2_Init junk pass passlen salt saltlen;
  Ret (pbkdf2_Final (pbkdf2_Update p iterations)).

(** ** The specifications *)

(** RFC 2104. *)
Definition rfc_key (key : list Z) : list Z :=
  let k := if B <? zlen key then hash A key else key in
  k ++ replicate (BLOCK A - length k) 0.

Definition rfc_hmac (key msg : list Z) : list Z :=
  let k := rfc_key key in
  hash A (map (fun b => Z.lxor b 0x5c) k ++ hash A (map (fun b => Z.lxor b 0x36) k ++ msg)).

(** RFC 8018, the first block: [U_1 xor U_2 xor ... xor U_c]. *)
Fixpoint rfc_U (n : nat) (pass u acc : list Z) : list Z :=
  match n with
  | O => acc
  | S n => let u := rfc_hmac pass u in rfc_U n pass u (zip_with Z.lxor acc u)
  end.

Definition rfc_pbkdf2 (pass salt : list Z) (iterations : Z) : list Z :=
  let u := rfc_hmac pass (salt ++ [0; 0; 0; 1]) in
  rfc_U (Z.to_nat (iterations - 1)) pass u u.

End Mac.

Definition mac256 : mac_alg := mkMac sha256 0x5c5c5c5c 0x36363636 0x80000000 [512].

Definition mac512 : mac_alg :=
  mkMac sha512 0x5c5c5c5c5c5c5c5c 0x3636363636363636 0x8000000000000000 [1024; 0].

Definition hmac_sha256_Init := hmac_Init mac256.
Definition hmac_sha256_Update := hmac_Update mac256.
Definition hmac_sha256_Final := hmac_Final mac256.
Definition hmac_sha256_prepare := hmac_prepare mac256.
Definition hmac_sha512_Init := hmac_Init mac512.
Definition hmac_sha512_Update := hmac_Update mac512.
Definition hmac_sha512_Final := hmac_Final mac512.
Definition hmac_sha512_prepare := hmac_prepare mac512.
Definition pbkdf2_hmac_sha256_Init := pbkdf2_Init mac256.
Definition pbkdf2_hmac_sha256_Update := pbkdf2_Update mac256.
Definition pbkdf2_hmac_sha256_Final := pbkdf2_Final mac256.
Definition pbkdf2_hmac_sha512_Init := pbkdf2_Init mac512.
Definition pbkdf2_hmac_sha512_Update := pbkdf2_Update mac512.
Definition pbkdf2_hmac_sha512_Final := pbkdf2_Final mac512.
Definition hmac_sha256 := hmac mac256.
Definition hmac_sha512 := hmac mac512.
Definition pbkdf2_hmac_sha256 := pbkdf2_hmac mac256.
Definition pbkdf2_hmac_sha512 := pbkdf2_hmac mac512.

(** What the two algorithms share. *)
Class MacLaws (M : mac_alg) := {
  mac_hash :: HashLaws (alg M);
  mac_initial : length (initial_hash_value (alg M)) = 8%nat;
  mac_transform st ws : length st = 8%nat -> length (Transform (alg M) st ws) = 8%nat;
  mac_opad : opad_word M = be_word (replicate (wb (alg M)) 0x5c);
  mac_ipad : ipad_word M = be_word (replicate (wb (alg M)) 0x36);
  mac_count : one_block_count M = cnt (8 * BLOCK_LENGTH (alg M));
  mac_padding :
    map be_word (chunks (wb (alg M)) 8 (padding (alg M) (BLOCK_LENGTH (alg M) + DIGEST_LENGTH M))) =
    [one_bit M; 0; 0; 0; 0; 0; 0; (BLOCK_LENGTH (alg M) + DIGEST_LENGTH M) * 8];
}.

#[global] Instance mac256_laws : MacLaws mac256.
Proof.
  refine (Build_MacLaws mac256 sha256_laws _ _ _ _ _ _).
  - done.
  - apply sha256_transform_len.
  - by vm_compute.
  - by vm_compute.
  - by vm_compute.
  - by vm_compute.
Defined.

#[global] Instance mac512_laws : MacLaws mac512.
Proof.
  refine (Build_MacLaws mac512 sha512_laws _ _ _ _ _ _).
  - done.
  - apply sha512_transform_len.
  - by vm_compute.
  - by vm_compute.
  - by vm_compute.
  - by vm_compute.
Defined.

(** ** HMAC *)

Section Lemmas.
Context {M : mac_alg} `{ML : !MacLaws M}.
Abbreviation A := (alg M).
Abbreviation W8 := (fun st => length st = 8%nat /\ Forall (is_u (8 * Z.of_nat (wb A))) st).

(** The bytes of eight words. *)
Abbreviation bytes8 st := (concat (map (be_bytes (wb A)) st)).

Lemma compress_W8 m : W8 (compress_all A (initial_hash_value A) m).
Proof.
  split; [|apply compress_all_ok, initial_ok].
  apply compress_all_len; [apply mac_transform|apply mac_initial].
Qed.

Lemma transform_W8 st ws : length st = 8%nat -> W8 (Transform A st ws).
Proof. intros. split; [by apply mac_transform|apply transform_ok]. Qed.

Lemma length_bytes8 st : length st = 8%nat -> length (bytes8 st) = (8 * wb A)%nat.
Proof.
  intros Hl. rewrite (length_concat_chunks (wb A)), length_map, Hl; [lia|].
  apply Forall_map, Forall_forall. intros w _. apply length_be_bytes.
Qed.

Lemma bytes8_ok st : bytes_ok (bytes8 st).
Proof. apply Forall_concat, Forall_map, Forall_forall. intros w _. apply be_bytes_ok. Qed.

Lemma digest_len m : zlen (hash A m) = DIGEST_LENGTH M.
Proof.
  unfold zlen, DIGEST_LENGTH, hash. rewrite length_bytes8 by apply compress_W8. lia.
Qed.

Lemma write_zeros n d :
  zlen d <= Z.of_nat n ->
  mem_write (replicate n 0) 0 d = Ret (d ++ replicate (n - length d) 0).
Proof.
  intros Hd. replace n with (length d + (n - length d))%nat at 1 by zlia.
  rewrite replicate_add, mem_write_here; [done|]. unfold zlen. by rewrite length_replicate.
Qed.

Lemma rfc_key_ok key :
  bytes_ok key -> length (rfc_key M key) = BLOCK A /\ bytes_ok (rfc_key M key).
Proof.
  intros Hk. unfold rfc_key.
  assert (forall k : list Z, zlen k <= BLOCK_LENGTH A -> bytes_ok k ->
            length (k ++ replicate (BLOCK A - length k) 0) = BLOCK A /\
            bytes_ok (k ++ replicate (BLOCK A - length k) 0)) as Hpad.
  { intros k Hl Hok. split; [rewrite length_app, length_replicate; unfold zlen, BLOCK_LENGTH in *; lia|].
    apply Forall_app. split; [done|apply replicate_ok]. }
  destruct (Z.ltb_spec (BLOCK_LENGTH A) (zlen key)); apply Hpad; try done.
  - rewrite digest_len. unfold DIGEST_LENGTH, BLOCK_LENGTH, BLOCK. lia.
  - apply hash_ok.
Qed.

Lemma key_block_rfc key post :
  bytes_ok key -> key_block M (key ++ post) (zlen key) = Ret (rfc_key M key).
Proof.
  intros Hk. unfold key_block, rfc_key.
  replace (Z.to_nat (BLOCK_LENGTH A)) with (BLOCK A) by (unfold BLOCK_LENGTH; lia).
  destruct (Z.ltb_spec (BLOCK_LENGTH A) (zlen key)) as [Hlt|Hge].
  - rewrite Raw_hash by done. mstep. apply write_zeros. rewrite digest_len.
    unfold DIGEST_LENGTH, BLOCK. lia.
  - pose proof (zlen_nonneg key). rewrite mem_read_ok by zlia. mstep.
    rewrite zdrop_0, ztake_app_exact by done. by apply write_zeros.
Qed.

Lemma xor_pad_ok c k :
  is_u 8 c -> bytes_ok k -> bytes_ok (map (fun b => Z.lxor b c) k).
Proof.
  intros Hc Hk. apply Forall_map. eapply Forall_impl; [|exact Hk]. cbn. intros b Hb.
  by apply is_u_lxor.
Qed.

(** An update with exactly the bytes of a list. *)
Lemma Update_all c m d n :
  absorbed (A := A) c m -> bytes_ok d -> n = zlen d ->
  exists c', Update A c d n = Ret c' /\ absorbed (A := A) c' (m ++ d).
Proof.
  intros Hc Hd ->. destruct (Update_absorbed c m d [] Hc Hd) as (c' & E & H).
  rewrite app_nil_r in E. by exists c'.
Qed.

Lemma hmac_rfc key kpost msg mpost :
  bytes_ok key -> bytes_ok msg ->
  hmac M (key ++ kpost) (zlen key) (msg ++ mpost) (zlen msg) = Ret (rfc_hmac M key msg).
Proof.
  intros Hk Hm. unfold hmac, hmac_Init. rewrite key_block_rfc by done. mstep.
  destruct (rfc_key_ok key Hk) as [Hl Hok]. set (k := rfc_key M key) in *.
  assert (forall c, BLOCK_LENGTH A = zlen (map (fun b => Z.lxor b c) k)) as Hlen
    by (intros c; unfold zlen, BLOCK_LENGTH; by rewrite length_map, Hl).
  destruct (Update_all (Init A) [] (map (fun b => Z.lxor b 0x36) k) (BLOCK_LENGTH A))
    as (c1 & -> & H1); [apply at_block_absorbed, Init_at_block|by apply xor_pad_ok|apply Hlen|].
  mstep. unfold hmac_Update. cbn [hctx o_key_pad].
  destruct (Update_absorbed c1 _ msg mpost H1 Hm) as (c2 & -> & H2). mstep.
  unfold hmac_Final. cbn [hctx o_key_pad].
  destruct (Final_hash c2 _ H2) as [c2' ->]. mstep.
  destruct (Update_all (Init A) [] (map (fun b => Z.lxor b 0x5c) k) (BLOCK_LENGTH A))
    as (c3 & -> & H3); [apply at_block_absorbed, Init_at_block|by apply xor_pad_ok|apply Hlen|].
  mstep.
  destruct (Update_all c3 _ (hash A ([] ++ map (fun b => Z.lxor b 0x36) k ++ msg)) (DIGEST_LENGTH M) H3)
    as (c4 & E4 & H4); [apply hash_ok|by rewrite digest_len|].
  rewrite <- app_assoc, E4. mstep. destruct (Final_hash c4 _ H4) as [c4' ->]. by mstep.
Qed.

(** ** PBKDF2 *)

Lemma xor_words c w k :
  is_u 8 c -> w = be_word (replicate (wb A) c) -> bytes_ok k -> length k = BLOCK A ->
  map (fun m => Z.lxor (REVERSE A (le_word m)) w) (chunks (wb A) 16 k) =
  be_words A (map (fun b => Z.lxor b c) k).
Proof.
  intros Hc -> Hok Hl. unfold be_words. rewrite chunks_map, map_map.
  destruct (chunks_spec (wb A) 16 k) as [_ HF]; [unfold BLOCK in Hl; lia|done|].
  apply map_ext_in. intros m Hm. rewrite list.Forall_forall in HF.
  destruct (HF m) as [Hml Hmok]; [by apply list_elem_of_In|].
  rewrite reverse_be by done. rewrite <- Hml. by apply be_word_lxor_const.
Qed.

(** The prepared digests are the states after the padded keys. *)
Definition key_state (c : Z) (key : list Z) : list Z :=
  compress_all A (initial_hash_value A) (map (fun b => Z.lxor b c) (rfc_key M key)).

Lemma key_state_transform c key :
  bytes_ok key ->
  key_state c key =
  Transform A (initial_hash_value A) (be_words A (map (fun b => Z.lxor b c) (rfc_key M key))).
Proof.
  intros Hk. unfold key_state. apply compress_all_block. rewrite length_map. by apply rfc_key_ok.
Qed.

Lemma prepare_states key post :
  bytes_ok key ->
  hmac_prepare M (key ++ post) (zlen key) = Ret (key_state 0x5c key, key_state 0x36 key).
Proof.
  intros Hk. unfold hmac_prepare. rewrite key_block_rfc by done. mstep.
  destruct (rfc_key_ok key Hk) as [Hl Hok].
  rewrite map_map, !key_state_transform by done.
  rewrite <- (xor_words 0x5c (opad_word M)) by (done || apply mac_opad).
  rewrite <- (xor_words 0x36 (ipad_word M)) by (done || apply mac_ipad).
  do 3 f_equal. apply map_ext. intros m.
  by rewrite (Z.lxor_assoc _ (opad_word M) (opad_word M)), Z.lxor_nilpotent, Z.lxor_0_r.
Qed.

Definition pad_words : list Z :=
  [one_bit M; 0; 0; 0; 0; 0; 0; (BLOCK_LENGTH A + DIGEST_LENGTH M) * 8].

(** Eight words and the bytes of their digest. *)
Lemma words_of_bytes8 st : W8 st -> map be_word (chunks (wb A) 8 (bytes8 st)) = st.
Proof.
  intros [Hl Hr]. rewrite <- Hl at 1. rewrite <- (length_map (be_bytes (wb A))), chunks_concat.
  - rewrite map_map. rewrite <- (map_id st) at 2. apply map_ext_in. intros w Hw.
    rewrite be_word_bytes. apply wrap_u_small. rewrite list.Forall_forall in Hr.
    by apply Hr, list_elem_of_In.
  - apply Forall_map, Forall_forall. intros w _. apply length_be_bytes.
Qed.

(** Hashing a padded key and a digest is one compression from the prepared
    state. *)
Lemma hash_key_digest c key x :
  bytes_ok key -> W8 x ->
  hash A (map (fun b => Z.lxor b c) (rfc_key M key) ++ bytes8 x) =
  bytes8 (Transform A (key_state c key) (x ++ pad_words)).
Proof.
  intros Hk Hx. unfold hash. f_equal. f_equal.
  destruct (rfc_key_ok key Hk) as [Hl _].
  assert (length (map (fun b => Z.lxor b c) (rfc_key M key)) = BLOCK A) as Hl'
    by (by rewrite length_map).
  assert (zlen (map (fun b => Z.lxor b c) (rfc_key M key) ++ bytes8 x) =
          BLOCK_LENGTH A + DIGEST_LENGTH M) as ->.
  { unfold zlen, BLOCK_LENGTH, DIGEST_LENGTH.
    rewrite length_app, Hl', length_bytes8 by apply Hx. lia. }
  rewrite <- app_assoc, (compress_all_app _ 1) by lia. fold (key_state c key).
  set (p := padding A (BLOCK_LENGTH A + DIGEST_LENGTH M)).
  assert (length p = (8 * wb A)%nat) as Hp.
  { unfold p, padding. cbn [length]. rewrite length_app, length_replicate, length_be_bytes.
    unfold SHORT_BLOCK_LENGTH, BLOCK_LENGTH, DIGEST_LENGTH, BLOCK.
    destruct (wb_pos (A := A)) as [-> | ->]; by vm_compute. }
  rewrite compress_all_block.
  2:{ rewrite length_app, length_bytes8, Hp by apply Hx. unfold BLOCK. lia. }
  f_equal. unfold be_words. change 16%nat with (8 + 8)%nat.
  rewrite chunks_app, map_app by (rewrite length_bytes8 by apply Hx; lia).
  rewrite words_of_bytes8 by done. f_equal. apply mac_padding.
Qed.

(** One iteration of PBKDF2 on words. *)
Definition mac_words (key x : list Z) : list Z :=
  Transform A (key_state 0x5c key) (Transform A (key_state 0x36 key) (x ++ pad_words) ++ pad_words).

Lemma key_state_W8 c key : W8 (key_state c key).
Proof. apply compress_W8. Qed.

Lemma mac_words_hmac key x :
  bytes_ok key -> W8 x -> W8 (mac_words key x) /\ rfc_hmac M key (bytes8 x) = bytes8 (mac_words key x).
Proof.
  intros Hk Hx. destruct (key_state_W8 0x36 key) as [H6 _]. destruct (key_state_W8 0x5c key) as [H5 _].
  split; [by apply transform_W8|]. unfold rfc_hmac, mac_words.
  rewrite (hash_key_digest 0x36) by done. by apply hash_key_digest; [|apply transform_W8].
Qed.

Lemma bytes8_xor x y :
  length x = length y ->
  bytes8 (zip_with Z.lxor x y) = zip_with Z.lxor (bytes8 x) (bytes8 y).
Proof.
  revert y. induction x as [|a x IH]; intros [|b y] Hl; try done. injection Hl as Hl.
  cbn [zip_with map concat]. rewrite IH, be_bytes_lxor by done.
  rewrite zip_with_app; [done|]. by rewrite !length_be_bytes.
Qed.

Lemma xor_W8 x y : W8 x -> W8 y -> W8 (zip_with Z.lxor x y).
Proof.
  intros [Hx Hxr] [Hy Hyr]. split; [rewrite length_zip_with; lia|].
  clear Hx Hy. revert y Hyr. induction Hxr as [|a x Ha Hx IH]; intros y Hyr; [constructor|].
  destruct Hyr as [|b y Hb Hyr]; cbn [zip_with]; constructor; [|by apply IH].
  apply is_u_lxor; [lia|done..].
Qed.

Lemma transform_g_pad dig x : length x = 8%nat -> transform_g M dig (x ++ pad_words) = Transform A dig (x ++ pad_words) ++ pad_words.
Proof. intros Hx. unfold transform_g. by rewrite drop_app_length' by done. Qed.

Lemma rounds_rfc n : forall key x acc fst,
  bytes_ok key -> W8 x -> W8 acc ->
  let p := pbkdf2_rounds M n (mkPctx (key_state 0x5c key) (key_state 0x36 key) acc (x ++ pad_words) fst) in
  W8 (f p) /\ bytes8 (f p) = rfc_U M n key (bytes8 x) (bytes8 acc).
Proof.
  induction n as [|n IH]; intros key x acc fst Hk Hx Hacc; cbn [pbkdf2_rounds rfc_U f]; [done|].
  cbn [idig odig g first]. destruct (key_state_W8 0x36 key) as [H6 _].
  destruct (mac_words_hmac key x Hk Hx) as [Hw Eh].
  rewrite transform_g_pad by apply Hx.
  rewrite transform_g_pad by (by apply transform_W8). fold (mac_words key x).
  rewrite Eh. rewrite <- bytes8_xor by (rewrite (proj1 Hacc), (proj1 Hw); done).
  assert (zip_with Z.lxor acc (mac_words key x ++ pad_words) = zip_with Z.lxor acc (mac_words key x)) as ->.
  { rewrite <- (app_nil_r acc) at 1. rewrite zip_with_app by (rewrite (proj1 Hacc), (proj1 Hw); done).
    apply app_nil_r. }
  apply IH; [done|done|by apply xor_W8].
Qed.

(** The local context continues the hash of the inner padded key. *)
Lemma inner_absorbed key junk :
  bytes_ok key -> length junk = BLOCK A -> bytes_ok junk ->
  absorbed (A := A) (mkCtx (key_state 0x36 key) (one_block_count M) junk)
    (map (fun b => Z.lxor b 0x36) (rfc_key M key)).
Proof.
  intros Hk Hj Hjok. destruct (rfc_key_ok key Hk) as [Hl Hok].
  apply at_block_absorbed. unfold at_block. cbn [state bitcount buffer]. split_and!; try done.
  - exists 1%nat. rewrite length_map. lia.
  - by apply xor_pad_ok.
  - rewrite mac_count. do 2 f_equal. unfold zlen, BLOCK_LENGTH. by rewrite length_map, Hl.
Qed.

Lemma reverse_words8 d :
  bytes_ok d -> length d = (8 * wb A)%nat ->
  map (fun m => REVERSE A (le_word m)) (chunks (wb A) 8 d) = map be_word (chunks (wb A) 8 d).
Proof.
  intros Hok Hl. destruct (chunks_spec (wb A) 8 d) as [_ HF]; [lia|done|].
  apply map_ext_in. intros m Hm. rewrite list.Forall_forall in HF.
  apply list_elem_of_In, HF in Hm as [? ?]. by apply reverse_be.
Qed.

Lemma pbkdf2_rfc junk pass ppost salt spost iterations :
  length junk = BLOCK A -> bytes_ok junk -> bytes_ok pass -> bytes_ok salt ->
  pbkdf2_hmac M junk (pass ++ ppost) (zlen pass) (salt ++ spost) (zlen salt) iterations =
  Ret (rfc_pbkdf2 M pass salt iterations).
Proof.
  intros Hj Hjok Hp Hs. unfold pbkdf2_hmac, pbkdf2_Init. rewrite prepare_states by done. mstep.
  destruct (Update_absorbed _ _ salt spost (inner_absorbed pass junk Hp Hj Hjok) Hs) as (c1 & -> & H1).
  mstep. change (le_bytes 4 (REVERSE32 1)) with [0; 0; 0; 1].
  destruct (Update_all c1 _ [0; 0; 0; 1] 4 H1) as (c2 & -> & H2); [by repeat constructor|done|].
  mstep. destruct (Final_hash c2 _ H2) as [c2' ->]. mstep. rewrite <- app_assoc.
  set (m := map _ (rfc_key M pass) ++ salt ++ _).
  set (x := compress_all A (initial_hash_value A) (m ++ padding A (zlen m))).
  assert (W8 x) as Hx by apply compress_W8.
  assert (hash A m = bytes8 x) as Eh by done.
  rewrite Eh, reverse_words8 by (apply bytes8_ok || (apply length_bytes8; apply Hx)).
  rewrite words_of_bytes8 by done.
  change (drop 8 _) with pad_words.
  rewrite transform_g_pad by apply Hx.
  set (u := Transform A (key_state 0x5c pass) (x ++ pad_words)).
  assert (W8 u) as Hu by (apply transform_W8, key_state_W8).
  rewrite take_app_length' by (by rewrite (proj1 Hu)).
  assert (rfc_hmac M pass (salt ++ [0; 0; 0; 1]) = bytes8 u) as Eu.
  { unfold rfc_hmac. fold m. rewrite Eh. by apply hash_key_digest. }
  unfold pbkdf2_Update, pbkdf2_Final, rfc_pbkdf2. cbn [first f]. rewrite Eu.
  destruct (rounds_rfc (Z.to_nat (iterations - 1)) pass u u 1 Hp Hu Hu) as [[_ Hr] <-].
  by rewrite digest_be.
Qed.

End Lemmas.

(** ** Theorems *)

(** [hmac_sha256] and [hmac_sha512] compute the HMAC of RFC 2104, for keys
    shorter and longer than a block. *)
Theorem hmac_is_rfc2104 (key msg : list Z) :
  bytes_ok key -> bytes_ok msg ->
  hmac_sha256 key (zlen key) msg (zlen msg) = Ret (rfc_hmac mac256 key msg) /\
  hmac_sha512 key (zlen key) msg (zlen msg) = Ret (rfc_hmac mac512 key msg).
Proof.
  intros Hk Hm. split.
  - pose proof (hmac_rfc (M := mac256) key [] msg [] Hk Hm) as E. by rewrite !app_nil_r in E.
  - pose proof (hmac_rfc (M := mac512) key [] msg [] Hk Hm) as E. by rewrite !app_nil_r in E.
Qed.

Lemma hmac_is_rfc2104_witness :
  hmac_sha256 (bytes_of "key") 3 (bytes_of "message") 7 =
  Ret (rfc_hmac mac256 (bytes_of "key") (bytes_of "message")).
Proof.
  refine (proj1 (hmac_is_rfc2104 (bytes_of "key") (bytes_of "message") _ _));
    apply (bool_decide_unpack _); by vm_compute.
Defined.

(** C17. The optimised PBKDF2 is that of RFC 8018: with the states of the padded
    keys prepared once and the digests kept as words in front of a constant
    padding, [iterations] rounds of the compression function give the sum of the
    iterated HMACs, for any uninitialised memory in the local context. *)
Theorem pbkdf2_is_rfc8018 (j256 j512 pass salt : list Z) (iterations : Z) :
  length j256 = 64%nat -> bytes_ok j256 -> length j512 = 128%nat -> bytes_ok j512 ->
  bytes_ok pass -> bytes_ok salt ->
  pbkdf2_hmac_sha256 j256 pass (zlen pass) salt (zlen salt) iterations =
    Ret (rfc_pbkdf2 mac256 pass salt iterations) /\
  pbkdf2_hmac_sha512 j512 pass (zlen pass) salt (zlen salt) iterations =
    Ret (rfc_pbkdf2 mac512 pass salt iterations).
Proof.
  intros Hl2 Hj2 Hl5 Hj5 Hp Hs. split.
  - pose proof (pbkdf2_rfc (M := mac256) j256 pass [] salt [] iterations Hl2 Hj2 Hp Hs) as E.
    by rewrite !app_nil_r in E.
  - pose proof (pbkdf2_rfc (M := mac512) j512 pass [] salt [] iterations Hl5 Hj5 Hp Hs) as E.
    by rewrite !app_nil_r in E.
Qed.

Lemma pbkdf2_is_rfc8018_witness :
  pbkdf2_hmac_sha512 (replicate 128 7) (bytes_of "password") 8 (bytes_of "salt") 4 2 =
  Ret (rfc_pbkdf2 mac512 (bytes_of "password") (bytes_of "salt") 2).
Proof.
  refine (proj2 (pbkdf2_is_rfc8018 (replicate 64 7) (replicate 128 7)
                   (bytes_of "password") (bytes_of "salt") 2 _ _ _ _ _ _));
    first [done | apply (bool_decide_unpack _); by vm_compute].
Defined.
