(* ===== verification/WordList.v ===== *)
(** * Word lists and mnemonics

    Models src/src/ptp_wallet/word_list.cpp (word lists: tokenising a text and
    looking a word up) and mnemonic.cpp (bytes as words of a list).  A C string
    is the list of its bytes without the terminating null character.  [malloc]
    succeeds or not as the argument [alloc] says. *)

From S2P Require Import Prelude Words.

Definition MINTER_OK : Z := 0.
Definition MINTER_EINVAL : Z := -2.
Definition MINTER_ENOMEM : Z := -3.

(** [struct words]: [len] words representing [bits] bits each. *)
Record words := mkWords {
  len : Z;
  bits : Z;
  sorted : bool;
  indices : list (list Z);
}.

Module word_list.

(** [strcmp], and [operator<] of [std::string]: byte by byte, unsigned. *)
Fixpoint strcmp (a b : list Z) : comparison :=
  match a, b with
  | [], [] => Eq
  | [], _ :: _ => Lt
  | _ :: _, [] => Gt
  | x :: a, y :: b => match Z.compare x y with Eq => strcmp a b | c => c end
  end.

(** [while (n >>= 1u) ++bits]. *)
Fixpoint get_bits_loop (fuel : nat) (n bits : Z) : outcome Z :=
  match fuel with
  | O => NoFuel
  | S fuel =>
      let n := Z.shiftr n 1 in
      if n =? 0 then Ret bits else get_bits_loop fuel n (bits + 1)
  end.

(** Sixty-four rounds clear a [size_t]. *)
Definition get_bits (n : Z) : outcome Z := get_bits_loop 64 n 0.

Fixpoint wordlist_count (s : list Z) : Z :=
  match s with
  | [] => 1
  | c :: s => (if c =? 32 then 1 else 0) + wordlist_count s
  end.

(** The characters up to the next space, and what follows them. *)
Fixpoint token (p : list Z) : list Z * list Z :=
  match p with
  | [] => ([], [])
  | c :: p' => if c =? 32 then ([], p) else let '(t, r) := token p' in (c :: t, r)
  end.

Fixpoint tokens (n : nat) (p : list Z) : list (list Z) :=
  match n with
  | O => []
  | S n => let '(t, r) := token p in t :: tokens n (tail r)
  end.

(** [for (i = 1; i < len && sorted; ++i)]. *)
Fixpoint is_sorted (l : list (list Z)) : bool :=
  match l with
  | a :: (b :: _) as l' => match strcmp a b with Gt => false | _ => is_sorted l' end
  | _ => true
  end.

(** [None] when an allocation fails. *)
Definition wordlist_init (alloc : bool) (s : list Z) : outcome (option words) :=
  let n := wordlist_count s in
  if alloc then
    b ← get_bits n;
    let ts := tokens (Z.to_nat n) s in
    Ret (Some (mkWords n b (is_sorted ts) ts))
  else Ret None.

(** [std::lower_bound]: binary search for the first element not less than
    [data]; each round halves [n]. *)
Fixpoint lower_bound (fuel : nat) (v : list (list Z)) (data : list Z) (first n : nat) : outcome nat :=
  match n with
  | O => Ret first
  | S _ =>
      match fuel with
      | O => NoFuel
      | S fuel =>
          let half := Nat.div2 n in
          match v !! (first + half)%nat with
          | None => UB
          | Some x =>
              match strcmp x data with
              | Lt => lower_bound fuel v data (first + half + 1) (n - half - 1)
              | _ => lower_bound fuel v data first half
              end
          end
      end
  end.

Definition binary_search_find_index (v : list (list Z)) (data : list Z) : outcome Z :=
  it ← lower_bound (length v) v data 0 (length v);
  match v !! it with
  | None => Ret (-1)
  | Some x => if decide (x = data) then Ret (Z.of_nat it) else Ret (-1)
  end.

(** [for (i = 0; i < w->len && !found; ++i)]. *)
Fixpoint scan (l : list (list Z)) (word : list Z) (i : Z) : option Z :=
  match l with
  | [] => None
  | x :: l => if decide (word = x) then Some i else scan l word (i + 1)
  end.

(** The vector of the binary search ends before the last word. *)
Definition wordlist_lookup_word (w : words) (word : list Z) : outcome Z :=
  found ←
    (if sorted w then
       let v := ztake (len w - 1) (indices w) in
       idx ← binary_search_find_index v word;
       Ret (if decide (idx = -1) then None else Some idx)
     else Ret None);
  let found :=
    match found with
    | Some _ => found
    | None => scan (ztake (len w) (indices w)) (c_str word) 0
    end in
  Ret (match found with Some i => i + 1 | None => 0 end).

Definition wordlist_lookup_index (w : words) (idx : Z) : option (list Z) :=
  if len w <=? idx then None else indices w !! Z.to_nat idx.

End word_list.

Module mnemonic.
Import word_list.

(** [!!(U8_AT(bytes, pos) & U8_MASK(pos))]. *)
Definition bit_at (bytes : list Z) (pos : Z) : outcome bool :=
  b ← mem_get bytes (pos / 8);
  Ret (negb (Z.land b (Z.shiftl 1 (7 - pos mod 8)) =? 0)).

Fixpoint extract_loop (k : nat) (bytes : list Z) (pos value : Z) : outcome Z :=
  match k with
  | O => Ret value
  | S k =>
      b ← bit_at bytes pos;
      extract_loop k bytes (pos + 1) (Z.lor (Z.shiftl value 1) (Z.b2z b))
  end.

Definition extract_index (bits : Z) (bytes : list Z) (n : Z) : outcome Z :=
  extract_loop (Z.to_nat bits) bytes (n * bits) 0.

(** [k] is [bits - i]. *)
Fixpoint store_loop (k : nat) (bytes : list Z) (pos value : Z) : outcome (list Z) :=
  match k with
  | O => Ret bytes
  | S k =>
      bytes ←
        (if Z.land value (Z.shiftl 1 (Z.of_nat k)) =? 0 then Ret bytes
         else
           b ← mem_get bytes (pos / 8);
           mem_write bytes (pos / 8) [Z.lor b (Z.shiftl 1 (7 - pos mod 8))]);
      store_loop k bytes (pos + 1) value
  end.

Definition store_index (bits : Z) (bytes_out : list Z) (n value : Z) : outcome (list Z) :=
  store_loop (Z.to_nat bits) bytes_out (n * bits) value.

(** The words of the [n] indices from [i] on. *)
Fixpoint words_from (w : words) (bytes : list Z) (n : nat) (i : Z) : outcome (list (list Z)) :=
  match n with
  | O => Ret []
  | S n =>
      idx ← extract_index (bits w) bytes i;
      match indices w !! Z.to_nat idx with
      | None => UB
      | Some x => xs ← words_from w bytes n (i + 1); Ret (x :: xs)
      end
  end.

(** The words, separated by spaces: the last separator becomes the null
    character. *)
Fixpoint join (ws : list (list Z)) : list Z :=
  match ws with
  | [] => []
  | [x] => x
  | x :: ws => x ++ 32 :: join ws
  end.

Definition str_len (ws : list (list Z)) : Z := fold_right (fun x n => zlen x + 1 + n) 0 ws.

Definition mnemonic_from_bytes (alloc : bool) (w : words) (bytes : list Z) (bytes_len : Z) :
    outcome (option (list Z)) :=
  let total_mnemonics := bytes_len * 8 / bits w in
  ws ← words_from w bytes (Z.to_nat total_mnemonics) 0;
  Ret (if (0 <? str_len ws) && alloc then Some (join ws) else None).

(** [None] when a word is not in the list. *)
Fixpoint store_words (w : words) (ts : list (list Z)) (bytes_out : list Z) (i : Z) :
    outcome (option (list Z)) :=
  match ts with
  | [] => Ret (Some bytes_out)
  | t :: ts =>
      idx ← wordlist_lookup_word w t;
      if idx =? 0 then Ret None
      else
        bytes_out ← store_index (bits w) bytes_out i (idx - 1);
        store_words w ts bytes_out (i + 1)
  end.

(** The result, [bytes_out] and [*written]. *)
Definition mnemonic_to_bytes (alloc : bool) (w : words) (mnemonic : list Z)
    (bytes_out : list Z) (len_ : Z) : outcome (Z * list Z * Z) :=
  mw ← wordlist_init alloc mnemonic;
  match mw with
  | None => Ret (MINTER_ENOMEM, bytes_out, 0)
  | Some mw =>
      if len_ =? 0 then Ret (MINTER_EINVAL, bytes_out, 0) else
      let need := (len mw * bits w + 7) / 8 in
      if len_ <? need then Ret (MINTER_OK, bytes_out, need) else
      bytes_out ← mem_write bytes_out 0 (replicate (Z.to_nat len_) 0);
      r ← store_words w (indices mw) bytes_out 0;
      match r with
      | None =>
          bytes_out ← mem_write bytes_out 0 (replicate (Z.to_nat len_) 0);
          Ret (MINTER_EINVAL, bytes_out, 0)
      | Some bytes_out => Ret (MINTER_OK, bytes_out, need)
      end
  end.

End mnemonic.

(** ** Tokens *)

Section Tokens.
Import word_list mnemonic.

Definition no_space (x : list Z) : Prop := Forall (fun c => c <> 32) x.

Lemma token_app x r : no_space x -> (r = [] \/ exists r', r = 32 :: r') -> token (x ++ r) = (x, r).
Proof.
  intros Hx Hr. induction Hx as [|c x Hc Hx IH]; cbn [app token].
  - destruct Hr as [->|[r' ->]]; done.
  - rewrite (proj2 (Z.eqb_neq c 32)) by done. by rewrite IH.
Qed.

Lemma count_spaceless x r : no_space x -> wordlist_count (x ++ r) = wordlist_count r.
Proof.
  induction 1 as [|c x Hc Hx IH]; [done|]. cbn [app wordlist_count].
  rewrite (proj2 (Z.eqb_neq c 32)) by done. lia.
Qed.

(** Joined words are the tokens of the text. *)
Lemma tokens_join ws :
  ws <> [] -> Forall no_space ws ->
  wordlist_count (join ws) = zlen ws /\ tokens (length ws) (join ws) = ws.
Proof.
  induction ws as [|x ws IH]; [done|]. intros _ HF. apply Forall_cons_1 in HF as [Hx HF].
  destruct ws as [|y ws].
  - cbn [join length tokens]. rewrite <- (app_nil_r x), count_spaceless, token_app by (done || by left).
    by rewrite app_nil_r.
  - destruct IH as [IHc IHt]; [done|done|]. cbn [join].
    change (match ws with [] => y | _ => y ++ 32 :: join ws end) with (join (y :: ws)).
    rewrite count_spaceless by done. cbn [wordlist_count].
    change (length (x :: y :: ws)) with (S (length (y :: ws))).
    change (tokens (S (length (y :: ws)))) with (fun p => let '(t, r) := token p in t :: tokens (length (y :: ws)) (tail r)).
    cbv beta. rewrite token_app by (done || (right; by eexists)). cbn [tail].
    change (32 =? 32) with true. cbv iota. rewrite IHt, IHc. split; [|done].
    rewrite (zlen_cons x). done.
Qed.

Lemma get_bits_loop_ret fuel : forall n b,
  0 <= n < 2 ^ Z.of_nat fuel -> (0 < fuel)%nat -> exists r, get_bits_loop fuel n b = Ret r.
Proof.
  induction fuel as [|fuel IH]; intros n b Hn Hf; [lia|]. cbn [get_bits_loop].
  rewrite Z.shiftr_div_pow2 by lia. change (2 ^ 1) with 2.
  destruct (Z.eqb_spec (n / 2) 0) as [|Hne]; [by eexists|].
  rewrite Nat2Z.inj_succ, Z.pow_succ_r in Hn by lia.
  destruct fuel as [|fuel]; [cbn in Hn; Z.div_mod_to_equations; lia|].
  apply IH; [|lia]. Z.div_mod_to_equations. lia.
Qed.

Lemma wordlist_init_join ws :
  ws <> [] -> Forall no_space ws -> zlen ws < 2 ^ 64 ->
  exists b s, wordlist_init true (join ws) = Ret (Some (mkWords (zlen ws) b s ws)).
Proof.
  intros Hne HF Hl. destruct (tokens_join ws Hne HF) as [Hc Ht]. unfold wordlist_init, get_bits.
  rewrite Hc. destruct (get_bits_loop_ret 64 (zlen ws) 0) as [b ->]; [change (Z.of_nat 64) with 64; pose proof (zlen_nonneg ws); lia|lia|].
  mstep. unfold zlen at 2 3. rewrite Nat2Z.id, Ht. by eexists _, _.
Qed.

(** ** Looking words up *)

(** The binary search ends, inside the vector. *)
Lemma lower_bound_ret fuel : forall v data first n,
  (n <= fuel)%nat -> (first + n <= length v)%nat -> exists it, lower_bound fuel v data first n = Ret it.
Proof.
  induction fuel as [|fuel IH]; intros v data first n Hn Hl; destruct n as [|n]; cbn [lower_bound];
    try (by eexists); [lia|].
  pose proof (Nat.lt_div2 (S n) ltac:(lia)) as Hd. cbv zeta. set (h := Nat.div2 (S n)) in *.
  destruct (lookup_lt_is_Some_2 v (first + h)%nat) as [x ->]; [lia|].
  destruct (strcmp x data); apply IH; lia.
Qed.

Lemma binary_search_sound v data :
  exists idx, binary_search_find_index v data = Ret idx /\
    (idx = -1 \/ (0 <= idx /\ v !! Z.to_nat idx = Some data)).
Proof.
  unfold binary_search_find_index.
  destruct (lower_bound_ret (length v) v data 0 (length v)) as [it ->]; [lia..|]. mstep.
  destruct (v !! it) as [x|] eqn:E; [|by eexists; split; [done|left]].
  destruct (decide (x = data)) as [->|]; [|by eexists; split; [done|left]].
  eexists. split; [done|]. right. rewrite Nat2Z.id. split; [lia|done].
Qed.

Lemma scan_found l word : forall i k,
  NoDup l -> l !! i = Some word -> scan l word k = Some (k + Z.of_nat i).
Proof.
  induction l as [|x l IH]; intros i k Hnd Hi; [done|]. cbn [scan].
  apply list.NoDup_cons in Hnd as [Hx Hnd]. destruct i as [|i].
  - injection Hi as ->. rewrite decide_True by done. f_equal. lia.
  - rewrite decide_False.
    + rewrite (IH i) by done. f_equal. lia.
    + intros ->. apply Hx. by apply (list_elem_of_lookup_2 l i).
Qed.

Lemma scan_absent l word : forall k, word ∉ l -> scan l word k = None.
Proof.
  induction l as [|x l IH]; intros k Hn; [done|]. cbn [scan].
  apply list.not_elem_of_cons in Hn as [? ?]. rewrite decide_False by done. by apply IH.
Qed.

(** A lookup answers exactly: the position of the word plus one, or zero; the
    flag [sorted] and the vector that misses the last word do not matter. *)
Lemma lookup_word_found w word i :
  len w = zlen (indices w) -> NoDup (indices w) -> Forall (fun c => c <> 0) word ->
  indices w !! i = Some word -> wordlist_lookup_word w word = Ret (Z.of_nat i + 1).
Proof.
  intros Hl Hnd Hz Hi. unfold wordlist_lookup_word.
  rewrite c_str_text, (ztake_all (len w)) by (done || lia).
  rewrite (scan_found _ _ i 0 Hnd Hi), Z.add_0_l.
  destruct (sorted w); [|by mstep].
  destruct (binary_search_sound (ztake (len w - 1) (indices w)) word) as (idx & -> & [->|[H0 Hx]]);
    mstep; [done|].
  rewrite decide_False by lia. mstep. do 2 f_equal.
  unfold ztake in Hx. apply lookup_take_Some in Hx as [Hx _].
  rewrite (NoDup_lookup _ _ _ _ Hnd Hi Hx). lia.
Qed.

Lemma lookup_word_absent w word :
  len w = zlen (indices w) -> Forall (fun c => c <> 0) word ->
  word ∉ indices w -> wordlist_lookup_word w word = Ret 0.
Proof.
  intros Hl Hz Hn. unfold wordlist_lookup_word.
  rewrite c_str_text, (ztake_all (len w)), scan_absent by (done || lia).
  destruct (sorted w); [|by mstep].
  destruct (binary_search_sound (ztake (len w - 1) (indices w)) word) as (idx & -> & [->|[H0 Hx]]);
    mstep; [done|].
  exfalso. apply Hn. unfold ztake in Hx. apply lookup_take_Some in Hx as [Hx _].
  by eapply list_elem_of_lookup_2.
Qed.
(** Every text is its words joined. *)
Lemma text_words (P : Z -> Prop) s :
  Forall P s -> exists ts, ts <> [] /\ Forall no_space ts /\ Forall (Forall P) ts /\ join ts = s.
Proof.
  induction 1 as [|c s Hc Hs (ts & Hne & Hns & HP & <-)].
  - exists [[]]. split_and!; [done| | |done]; by repeat constructor.
  - destruct ts as [|t ts]; [done|]. apply Forall_cons_1 in Hns as [Ht Hns]. apply Forall_cons_1 in HP as [HPt HP].
    destruct (decide (c = 32)) as [->|Hc32].
    + exists ([] :: t :: ts). split_and!; [done| | |done]; by repeat constructor.
    + exists ((c :: t) :: ts). split_and!; [done| | |by destruct ts]; by repeat constructor.
Qed.

Lemma join_len ts : ts <> [] -> zlen ts <= zlen (join ts) + 1.
Proof.
  induction ts as [|x ts IH]; [done|]. intros _. destruct ts as [|y ts]; [cbn [join]; zlia|].
  change (join (x :: y :: ts)) with (x ++ 32 :: join (y :: ts)). rewrite zlen_app, !zlen_cons in *.
  pose proof (zlen_nonneg x). specialize (IH ltac:(done)). lia.
Qed.


End Tokens.

(** ** Bits *)

Section Bits.
Import word_list mnemonic.

(** Bit [pos] of a block, the most significant bit of a byte first. *)
Definition bitat (l : list Z) (pos : Z) : bool :=
  Z.testbit (nth (Z.to_nat (pos / 8)) l 0) (7 - pos mod 8).

Lemma land_bit b k : 0 <= k -> (Z.land b (Z.shiftl 1 k) =? 0) = negb (Z.testbit b k).
Proof.
  intros Hk. rewrite Z.shiftl_1_l. destruct (Z.testbit b k) eqn:E; cbn [negb].
  - apply Z.eqb_neq. intros H. apply (f_equal (fun z => Z.testbit z k)) in H.
    by rewrite Z.land_spec, Z.pow2_bits_true, E, Z.bits_0 in H.
  - apply Z.eqb_eq, Z.bits_inj'. intros i Hi. rewrite Z.land_spec, Z.bits_0.
    destruct (decide (i = k)) as [->|]; [by rewrite E|].
    by rewrite Z.pow2_bits_false, andb_false_r by lia.
Qed.

Lemma mem_get_nth (l : list Z) i : 0 <= i < zlen l -> mem_get l i = Ret (nth (Z.to_nat i) l 0).
Proof.
  intros Hi. unfold mem_get. rewrite decide_True by lia.
  destruct (lookup_lt_is_Some_2 l (Z.to_nat i)) as [x Hx]; [zlia|].
  by rewrite Hx, (nth_lookup_Some _ _ _ _ Hx).
Qed.

Lemma bit_at_bitat l pos : 0 <= pos < 8 * zlen l -> bit_at l pos = Ret (bitat l pos).
Proof.
  intros Hp. unfold bit_at. rewrite mem_get_nth by (Z.div_mod_to_equations; lia). mstep.
  rewrite land_bit, negb_involutive by (Z.div_mod_to_equations; lia). done.
Qed.

(** The value of the next [k] bits, appended to [v]. *)
Lemma extract_loop_spec l k : forall pos v,
  0 <= v -> 0 <= pos -> pos + Z.of_nat k <= 8 * zlen l ->
  exists r, extract_loop k l pos v = Ret r /\ v * 2 ^ Z.of_nat k <= r < (v + 1) * 2 ^ Z.of_nat k /\
    forall i, 0 <= i < Z.of_nat k -> Z.testbit r i = bitat l (pos + Z.of_nat k - 1 - i).
Proof.
  induction k as [|k IH]; intros pos v Hv Hp Hl; cbn [extract_loop].
  - eexists. split; [done|]. split; [cbn; lia|]. intros; lia.
  - rewrite bit_at_bitat by lia. mstep.
    set (b := bitat l pos). rewrite lor_shiftl_add by (destruct b; cbn; lia). change (2 ^ 1) with 2.
    assert (0 <= Z.b2z b <= 1) as Hb by (destruct b; cbn; lia).
    destruct (IH (pos + 1) (v * 2 + Z.b2z b)) as (r & -> & Hr & Hbits); [lia..|].
    rewrite Nat2Z.inj_succ, Z.pow_succ_r by lia. eexists. split; [done|].
    split; [nia|]. intros i Hi. destruct (decide (i = Z.of_nat k)) as [->|].
    + replace (pos + Z.succ (Z.of_nat k) - 1 - Z.of_nat k) with pos by lia.
      apply (Z.testbit_unique _ _ b (r - (v * 2 + Z.b2z b) * 2 ^ Z.of_nat k) v); nia.
    + rewrite Hbits by lia. f_equal. lia.
Qed.

(** One bit set in a block. *)
Lemma set_bit_spec l pos :
  0 <= pos < 8 * zlen l ->
  exists l', (b ← mem_get l (pos / 8); mem_write l (pos / 8) [Z.lor b (Z.shiftl 1 (7 - pos mod 8))]) = Ret l' /\
    zlen l' = zlen l /\ (bytes_ok l -> bytes_ok l') /\
    forall q, 0 <= q -> bitat l' q = bitat l q || bool_decide (q = pos).
Proof.
  intros Hp. assert (0 <= pos / 8 < zlen l) as Hi by (Z.div_mod_to_equations; lia).
  pose proof (Z.mod_pos_bound pos 8 ltac:(lia)) as Hm.
  rewrite mem_get_nth by done. mstep. set (b := nth _ l 0).
  rewrite mem_write_ok by zlia. eexists. split; [done|].
  assert (Z.to_nat (pos / 8) < length l)%nat as Hlt by (unfold zlen in Hi; lia).
  rewrite zlen_cons. change (zlen (@nil Z)) with 0. change (1 + 0) with 1.
  unfold ztake, zdrop. replace (Z.to_nat (pos / 8 + 1)) with (S (Z.to_nat (pos / 8))) by lia.
  cbn [app]. rewrite <- (insert_take_drop l _ (Z.lor b (Z.shiftl 1 (7 - pos mod 8)))) by done.
  split; [unfold zlen; by rewrite length_insert|]. split.
  - intros Hok. apply Forall_insert; [done|]. rewrite Z.shiftl_1_l. apply is_u_lor; [lia| |].
    + destruct (lookup_lt_is_Some_2 l (Z.to_nat (pos / 8)) Hlt) as [x Hx].
      unfold b. rewrite (nth_lookup_Some _ _ _ _ Hx). by eapply Forall_lookup_1.
    + split; [lia|]. apply Z.pow_lt_mono_r; lia.
  - intros q Hq. unfold bitat. rewrite !nth_lookup.
    destruct (decide (q / 8 = pos / 8)) as [E|E].
    + rewrite E, list_lookup_insert_eq, <- (nth_lookup l _ 0) by done. fold b.
      cbv [default from_option id]. rewrite Z.lor_spec, Z.shiftl_1_l. f_equal.
      rewrite Z.pow2_bits_eqb by lia.
      apply eq_true_iff_eq. rewrite Z.eqb_eq, bool_decide_eq_true.
      Z.div_mod_to_equations. lia.
    + rewrite list_lookup_insert_ne by (pose proof (Z.div_pos q 8); lia).
      rewrite bool_decide_eq_false_2 by congruence. by rewrite orb_false_r.
Qed.

(** Storing sets the bits of the value in the next [k] bits, and no others. *)
Lemma store_loop_spec k : forall l pos value,
  0 <= pos -> pos + Z.of_nat k <= 8 * zlen l ->
  exists l', store_loop k l pos value = Ret l' /\ zlen l' = zlen l /\ (bytes_ok l -> bytes_ok l') /\
    forall q, 0 <= q ->
      bitat l' q = bitat l q || (bool_decide (pos <= q < pos + Z.of_nat k) && Z.testbit value (pos + Z.of_nat k - 1 - q)).
Proof.
  induction k as [|k IH]; intros l pos value Hp Hl; cbn [store_loop].
  - eexists. split_and!; [done..|]. intros q Hq. rewrite bool_decide_eq_false_2 by lia. by rewrite orb_false_r.
  - rewrite land_bit by lia. rewrite Nat2Z.inj_succ.
    assert (exists l1, (if negb (Z.testbit value (Z.of_nat k)) then Ret l else
        b ← mem_get l (pos / 8); mem_write l (pos / 8) [Z.lor b (Z.shiftl 1 (7 - pos mod 8))]) = Ret l1 /\
        zlen l1 = zlen l /\ (bytes_ok l -> bytes_ok l1) /\
        forall q, 0 <= q -> bitat l1 q = bitat l q || (bool_decide (q = pos) && Z.testbit value (Z.of_nat k)))
      as (l1 & -> & Hl1 & Hok1 & Hb1).
    { destruct (Z.testbit value (Z.of_nat k)); cbn [negb].
      - destruct (set_bit_spec l pos) as (l1 & -> & ? & ? & Hb); [lia|]. exists l1. split_and!; [done..|].
        intros q Hq. by rewrite andb_true_r, Hb.
      - exists l. split_and!; [done..|]. intros q Hq. by rewrite andb_false_r, orb_false_r. }
    mstep. destruct (IH l1 (pos + 1) value) as (l2 & -> & Hl2 & Hok2 & Hb2); [lia..|].
    exists l2. split_and!; [done|lia|auto|]. intros q Hq. rewrite Hb2, Hb1 by done.
    rewrite <- orb_assoc. f_equal. replace (pos + 1 + Z.of_nat k - 1 - q) with (pos + Z.succ (Z.of_nat k) - 1 - q) by lia.
    destruct (decide (q = pos)) as [->|].
    + rewrite bool_decide_eq_true_2, bool_decide_eq_false_2, bool_decide_eq_true_2 by lia. cbn [andb].
      rewrite orb_false_r. f_equal. lia.
    + rewrite (bool_decide_eq_false_2 (q = pos)) by done. cbn [andb orb]. f_equal.
      apply bool_decide_ext. lia.
Qed.

(** ** Mnemonics

    A word list that encodes [bits w] bits a word. *)
Record words_ok (w : words) : Prop := {
  ok_len : len w = zlen (indices w);
  ok_bits : 0 < bits w;
  ok_pow : len w = 2 ^ bits w;
  ok_distinct : NoDup (indices w);
  ok_chars : Forall (fun x => no_space x /\ Forall (fun c => c <> 0) x) (indices w);
}.

(** Words taken from a block and stored in another one carry its bits there. *)
Lemma words_store w bytes n : forall i out,
  words_ok w -> 0 <= i -> (i + Z.of_nat n) * bits w <= 8 * zlen bytes ->
  (i + Z.of_nat n) * bits w <= 8 * zlen out ->
  exists xs out', words_from w bytes n i = Ret xs /\ length xs = n /\ Forall (fun x => x ∈ indices w) xs /\
    store_words w xs out i = Ret (Some out') /\ zlen out' = zlen out /\ (bytes_ok out -> bytes_ok out') /\
    forall q, 0 <= q ->
      bitat out' q = bitat out q || (bool_decide (i * bits w <= q < (i + Z.of_nat n) * bits w) && bitat bytes q).
Proof.
  induction n as [|n IH]; intros i out [Hlen Hbits Hpow Hnd Hch] Hi Hb Ho; cbn [words_from].
  - eexists [], out. split_and!; try done. intros q Hq.
    rewrite bool_decide_eq_false_2 by lia. by rewrite orb_false_r.
  - unfold extract_index. rewrite Nat2Z.inj_succ in Hb, Ho.
    assert (Z.of_nat (Z.to_nat (bits w)) = bits w) as Hk by lia.
    destruct (extract_loop_spec bytes (Z.to_nat (bits w)) (i * bits w) 0) as (r & -> & Hr & Hrb); [lia|nia|nia|].
    mstep. rewrite Hk in Hr, Hrb. destruct (lookup_lt_is_Some_2 (indices w) (Z.to_nat r)) as [x Hx];
      [unfold zlen in Hlen; lia|]. rewrite Hx.
    destruct (store_loop_spec (Z.to_nat (bits w)) out (i * bits w) r) as (o1 & Ho1 & Hl1 & Hok1 & Hb1); [nia|nia|].
    destruct (IH (i + 1) o1) as (xs & o2 & -> & Hlx & HF & Hst & Hl2 & Hok2 & Hb2); [done|lia|nia|nia|].
    mstep. exists (x :: xs), o2. split; [done|]. split; [cbn [length]; by rewrite Hlx|].
    split; [constructor; [by eapply list_elem_of_lookup_2|done]|].
    split. { cbn [store_words]. rewrite (lookup_word_found w x (Z.to_nat r)) by
        (done || by eapply (proj2 (Forall_lookup_1 _ _ _ _ Hch Hx))).
      mstep. rewrite (proj2 (Z.eqb_neq _ _)) by lia. unfold store_index.
      replace (Z.of_nat (Z.to_nat r) + 1 - 1) with r by lia. rewrite Ho1. by mstep. }
    split; [lia|]. split; [auto|]. intros q Hq. rewrite Hb2, Hb1, Hk, <- orb_assoc by done. f_equal.
    destruct (decide (i * bits w <= q < i * bits w + bits w)) as [Hin|Hin].
    + rewrite (bool_decide_eq_true_2 _ Hin), (bool_decide_eq_false_2 (_ <= q < _)), bool_decide_eq_true_2 by nia.
      cbn [andb orb]. rewrite orb_false_r, Hrb by lia. f_equal. lia.
    + rewrite (bool_decide_eq_false_2 _ Hin). cbn [andb orb]. f_equal. apply bool_decide_ext. nia.
Qed.

Lemma bitat_zeros n q : bitat (replicate n 0) q = false.
Proof.
  unfold bitat. rewrite nth_lookup. destruct (replicate n 0 !! Z.to_nat (q / 8)) as [x|] eqn:E.
  - apply lookup_replicate in E as [-> _]. apply Z.bits_0.
  - apply Z.bits_0.
Qed.

Lemma str_len_pos ws : ws <> [] -> 0 < str_len ws.
Proof.
  assert (forall l, 0 <= str_len l) as H by (induction l; cbn; [lia|]; fold (str_len l); zlia).
  destruct ws as [|x ws]; [done|]. intros _. specialize (H ws). cbn. fold (str_len ws). zlia.
Qed.

(** Clearing a block. *)
Lemma zeros_write (out : list Z) n :
  Z.of_nat n = zlen out -> mem_write out 0 (replicate n 0) = Ret (replicate n 0).
Proof.
  intros Hn. rewrite <- (app_nil_r out). rewrite mem_write_here by (unfold zlen; rewrite length_replicate; done).
  by rewrite app_nil_r.
Qed.

Lemma bits_fit a n : 0 <= a -> (a + 7) / 8 <= n -> a <= 8 * n.
Proof. intros Ha Hn. Z.div_mod_to_equations. lia. Qed.

(** What decoding joined words does when their number fits the output. *)
Lemma mnemonic_to_bytes_join w xs out :
  words_ok w -> xs <> [] -> Forall no_space xs -> zlen xs < 2 ^ 64 ->
  (zlen xs * bits w + 7) / 8 <= zlen out ->
  mnemonic_to_bytes true w (join xs) out (zlen out) =
    (r ← store_words w xs (replicate (Z.to_nat (zlen out)) 0) 0;
     match r with
     | None => Ret (MINTER_EINVAL, replicate (Z.to_nat (zlen out)) 0, 0)
     | Some out' => Ret (MINTER_OK, out', (zlen xs * bits w + 7) / 8)
     end).
Proof.
  intros Hw Hne Hns Hl Hneed. pose proof (ok_bits w Hw) as Hb. unfold mnemonic_to_bytes.
  destruct (wordlist_init_join xs Hne Hns Hl) as (b & so & ->). mstep. cbn [len indices].
  assert (0 < zlen xs) as Hp by (destruct xs; [done|zlia]).
  pose proof (Z.div_le_mono 8 (zlen xs * bits w + 7) 8 ltac:(lia) ltac:(nia)) as H8. change (8 / 8) with 1 in H8.
  rewrite (proj2 (Z.eqb_neq _ _)), (proj2 (Z.ltb_ge _ _)), zeros_write by zlia. mstep.
  destruct (store_words _ _ _ _) as [[out'|]| | |] ; mstep; try done.
  by rewrite zeros_write by (unfold zlen; rewrite length_replicate; done).
Qed.

(** Words for the first [n] bytes of a block and back: as many bits as the
    words carry return, the rest of the output is zero. *)
Lemma mnemonic_bits w bytes n out m :
  words_ok w -> 0 <= n <= zlen bytes -> m = n * 8 / bits w -> 0 < m < 2 ^ 64 ->
  (m * bits w + 7) / 8 <= zlen out ->
  exists xs out', mnemonic_from_bytes true w bytes n = Ret (Some (join xs)) /\ zlen xs = m /\
    Forall no_space xs /\ Forall (fun x => x ∈ indices w) xs /\
    mnemonic_to_bytes true w (join xs) out (zlen out) = Ret (MINTER_OK, out', (m * bits w + 7) / 8) /\
    zlen out' = zlen out /\ bytes_ok out' /\
    forall q, 0 <= q -> bitat out' q = bool_decide (q < m * bits w) && bitat bytes q.
Proof.
  intros Hw Hn -> Hm Hneed. set (m := n * 8 / bits w) in *.
  pose proof (ok_bits w Hw) as Hb. assert (m * bits w <= 8 * zlen bytes) as Hmb.
  { pose proof (Z.mul_div_le (n * 8) (bits w) Hb). unfold m. lia. }
  pose proof (bits_fit (m * bits w) (zlen out) ltac:(nia) Hneed) as Hmo.
  set (zs := replicate (Z.to_nat (zlen out)) 0).
  assert (zlen zs = zlen out) as Hzs by (unfold zs, zlen; rewrite length_replicate; lia).
  destruct (words_store w bytes (Z.to_nat m) 0 zs) as (xs & out' & Hws & Hlx & HF & Hst & Hlo & Hoko & Hbo);
    [done|lia|by rewrite Z2Nat.id by lia|by rewrite Z2Nat.id, Hzs by lia|].
  assert (xs <> []) as Hne by (intros ->; cbn in Hlx; lia).
  assert (Forall no_space xs) as Hns.
  { eapply Forall_impl, HF. intros x Hx. apply (proj1 (list.Forall_forall _ _) (ok_chars w Hw) x Hx). }
  assert (zlen xs = m) as Hzx by (unfold zlen; lia).
  exists xs, out'. unfold mnemonic_from_bytes. fold m. rewrite Hws. mstep.
  rewrite (proj2 (Z.ltb_lt _ _) (str_len_pos _ Hne)). split_and!; [done..| | | |].
  - rewrite mnemonic_to_bytes_join, Hzx by (done || lia || by rewrite Hzx). fold zs. by rewrite Hst.
  - lia.
  - apply Hoko. unfold zs. apply Forall_replicate. unfold is_u. lia.
  - intros q Hq. rewrite Hbo by done. unfold zs at 1. rewrite bitat_zeros. cbn [orb]. f_equal.
    apply bool_decide_ext. lia.
Qed.

(** Storing words: unless one of them is not in the list, the bits stored are
    those of the words, so that they can be read back from any block that has
    them. *)
Lemma store_words_spec w xs : forall i out,
  words_ok w -> Forall (Forall (fun c => c <> 0)) xs -> 0 <= i ->
  (i + zlen xs) * bits w <= 8 * zlen out -> (forall q, i * bits w <= q -> bitat out q = false) ->
  (store_words w xs out i = Ret None /\ ~ Forall (fun x => x ∈ indices w) xs) \/
  exists out', store_words w xs out i = Ret (Some out') /\ Forall (fun x => x ∈ indices w) xs /\
    zlen out' = zlen out /\ (bytes_ok out -> bytes_ok out') /\
    (forall q, 0 <= q < i * bits w \/ (i + zlen xs) * bits w <= q -> bitat out' q = bitat out q) /\
    forall bytes, (i + zlen xs) * bits w <= 8 * zlen bytes ->
      (forall q, i * bits w <= q < (i + zlen xs) * bits w -> bitat bytes q = bitat out' q) ->
      words_from w bytes (length xs) i = Ret xs.
Proof.
  induction xs as [|x xs IH]; intros i out Hw Hz Hi Ho Hzero; cbn [store_words].
  { right. exists out. by split_and!. }
  apply Forall_cons_1 in Hz as [Hx Hz]. rewrite zlen_cons in *. pose proof Hw as [Hlen Hbits Hpow Hnd _].
  pose proof (zlen_nonneg xs) as Hxs. assert (Z.of_nat (Z.to_nat (bits w)) = bits w) as Hk by lia.
  destruct (decide (x ∈ indices w)) as [Hin|Hout].
  2: { left. rewrite lookup_word_absent by done. mstep. split; [done|]. by intros [? _]%Forall_cons_1. }
  apply list_elem_of_lookup_1 in Hin as [k Hkx]. rewrite (lookup_word_found w x k) by done. mstep.
  rewrite (proj2 (Z.eqb_neq _ _)) by lia. replace (Z.of_nat k + 1 - 1) with (Z.of_nat k) by lia.
  unfold store_index.
  destruct (store_loop_spec (Z.to_nat (bits w)) out (i * bits w) (Z.of_nat k)) as (o1 & -> & Hl1 & Hok1 & Hb1);
    [nia|nia|]. rewrite Hk in Hb1. mstep.
  destruct (IH (i + 1) o1) as [[HN Hnot]|(out' & -> & HF & Hl & Hok & Hsame & Hread)]; [done|done|lia|nia| | |].
  { intros q Hq. rewrite Hb1, Hzero, bool_decide_eq_false_2 by nia. done. }
  { left. split; [done|]. by intros [_ ?]%Forall_cons_1. }
  right. exists out'. split; [done|]. split; [constructor; [by eapply list_elem_of_lookup_2|done]|].
  split; [lia|]. split; [auto|]. split.
  { intros q Hq. rewrite Hsame, Hb1, bool_decide_eq_false_2 by nia. by rewrite orb_false_r. }
  intros bytes Hlb Hsb. cbn [length words_from]. unfold extract_index.
  destruct (extract_loop_spec bytes (Z.to_nat (bits w)) (i * bits w) 0) as (r & -> & Hr & Hrb); [lia|nia|nia|].
  rewrite Hk in Hr, Hrb. mstep.
  assert (Z.of_nat k < 2 ^ bits w) as Hkl.
  { apply lookup_lt_Some in Hkx. unfold zlen in Hlen. lia. }
  assert (r = Z.of_nat k) as ->.
  { apply Z.bits_inj'. intros t Ht. destruct (decide (t < bits w)).
    - rewrite Hrb, Hsb, Hsame, Hb1, Hzero, bool_decide_eq_true_2 by nia. cbn [andb orb]. f_equal. lia.
    - by rewrite !(testbit_high (bits w)) by (unfold is_u; lia). }
  rewrite Nat2Z.id, Hkx, Hread; [by mstep|nia|]. intros q Hq. apply Hsb. nia.
Qed.
(** A text of too many words is only measured. *)
Lemma mnemonic_to_bytes_long w xs out :
  words_ok w -> xs <> [] -> Forall no_space xs -> zlen xs < 2 ^ 64 -> 0 < zlen out ->
  zlen out < (zlen xs * bits w + 7) / 8 ->
  mnemonic_to_bytes true w (join xs) out (zlen out) = Ret (MINTER_OK, out, (zlen xs * bits w + 7) / 8).
Proof.
  intros Hw Hne Hns Hl Ho Hneed. unfold mnemonic_to_bytes.
  destruct (wordlist_init_join xs Hne Hns Hl) as (b & so & ->). mstep. cbn [len indices].
  by rewrite (proj2 (Z.eqb_neq _ _)), (proj2 (Z.ltb_lt _ _)) by lia.
Qed.

(** Only the bits of the words are read. *)
Lemma extract_loop_ext b1 b2 k : forall pos v,
  (forall q, pos <= q < pos + Z.of_nat k -> bit_at b1 q = bit_at b2 q) ->
  extract_loop k b1 pos v = extract_loop k b2 pos v.
Proof.
  induction k as [|k IH]; intros pos v Hq; [done|]. cbn [extract_loop]. rewrite (Hq pos) by lia.
  destruct (bit_at b2 pos); mstep; try done. apply IH. intros q Hr. apply Hq. lia.
Qed.

Lemma words_from_ext w b1 b2 n : forall i,
  0 < bits w -> (forall q, i * bits w <= q < (i + Z.of_nat n) * bits w -> bit_at b1 q = bit_at b2 q) ->
  words_from w b1 n i = words_from w b2 n i.
Proof.
  induction n as [|n IH]; intros i Hb Hq; [done|]. cbn [words_from]. unfold extract_index.
  rewrite (extract_loop_ext b1 b2) by (intros q Hr; apply Hq; nia).
  rewrite (IH (i + 1)) by (done || (intros q Hr; apply Hq; nia)). done.
Qed.

Lemma bit_at_app (x r1 r2 : list Z) q : 0 <= q < 8 * zlen x -> bit_at (x ++ r1) q = bit_at (x ++ r2) q.
Proof.
  intros Hq. unfold bit_at, mem_get. assert (0 <= q / 8 < zlen x) as Hi by (Z.div_mod_to_equations; lia).
  by rewrite !lookup_app_l by (unfold zlen in Hi; lia).
Qed.

Lemma mnemonic_from_bytes_app alloc w (x r1 r2 : list Z) :
  0 < bits w -> mnemonic_from_bytes alloc w (x ++ r1) (zlen x) = mnemonic_from_bytes alloc w (x ++ r2) (zlen x).
Proof.
  intros Hb. unfold mnemonic_from_bytes. pose proof (zlen_nonneg x). pose proof (Z.mul_div_le (zlen x * 8) (bits w) Hb).
  assert (0 <= zlen x * 8 / bits w) by (apply Z.div_pos; lia).
  rewrite (words_from_ext w (x ++ r1) (x ++ r2)); [done|done|]. intros q Hq. apply bit_at_app. nia.
Qed.


End Bits.
