(* ===== verification/WordLists.v ===== *)
(** * The BIP39 word lists

    Models src/src/ptp_wallet/data/word_lists: for each language the array of
    the words ([en_list]), each ended by a null character ([en_]), the table of
    pointers to the words ([en_i], as offsets) and the structure over both
    ([en_words]).  The words are UTF-8 text. *)

From stdpp Require Import sorting.
From S2P Require Import Prelude Words WordList.

(** The bytes of an array of null-terminated words. *)
Definition cstrings (l : list string) : list Z := concat (map (fun s => bytes_of s ++ [0]) l).

(** The string at a pointer into an array; a pointer behind it has none. *)
Definition string_at (str : list Z) (o : Z) : option (list Z) :=
  if o <? zlen str then Some (c_str (zdrop o str)) else None.

(** A [struct words] over a constant array: [indices] are pointers into it, of
    which the functions read the first [n].  Each table ends with a pointer behind
    its array, the entry after the last word.  A table with a pointer outside the
    array among the first [n] gives no words at all. *)
Definition const_words (n b : Z) (s : bool) (str : list Z) (offsets : list Z) : words :=
  mkWords n b s (default [] (mapM (string_at str) (ztake n offsets))).

(** ** English *)

Definition en_list : list string := [
  "abandon"; "ability"; "able"; "about"; "above"; "absent"; "absorb"; "abstract"; "absurd";
  "abuse"; "access"; "accident"; "account"; "accuse"; "achieve"; "acid"; "acoustic"; "acquire";
  "across"; "act"; "action"; "actor"; "actress"; "actual"; "adapt"; "add"; "addict"; "address";
  "adjust"; "admit"; "adult"; "advance"; "advice"; "aerobic"; "affair"; "afford"; "afraid";
  "again"; "age"; "agent"; "agree"; "ahead"; "aim"; "air"; "airport"; "aisle"; "alarm"; "album";
  "alcohol"; "alert"; "alien"; "all"; "alley"; "allow"; "almost"; "alone"; "alpha"; "already";
  "also"; "alter"; "always"; "amateur"; "amazing"; "among"; "amount"; "amused"; "analyst";
  "anchor"; "ancient"; "anger"; "angle"; "angry"; "animal"; "ankle"; "announce"; "annual";
  "another"; "answer"; "antenna"; "antique"; "anxiety"; "any"; "apart"; "apology"; "appear";
  "apple"; "approve"; "april"; "arch"; "arctic"; "area"; "arena"; "argue"; "arm"; "armed";
  "armor"; "army"; "around"; "arrange"; "arrest"; "arrive"; "arrow"; "art"; "artefact"; "artist";
  "artwork"; "ask"; "aspect"; "assault"; "asset"; "assist"; "assume"; "asthma"; "athlete";
  "atom"; "attack"; "attend"; "attitude"; "attract"; "auction"; "audit"; "august"; "aunt";
  "author"; "auto"; "autumn"; "average"; "avocado"; "avoid"; "awake"; "aware"; "away"; "awesome";
  "awful"; "awkward"; "axis"; "baby"; "bachelor"; "bacon"; "badge"; "bag"; "balance"; "balcony";
  "ball"; "bamboo"; "banana"; "banner"; "bar"; "barely"; "bargain"; "barrel"; "base"; "basic";
  "basket"; "battle"; "beach"; "bean"; "beauty"; "because"; "become"; "beef"; "before"; "begin";
  "behave"; "behind"; "believe"; "below"; "belt"; "bench"; "benefit"; "best"; "betray"; "better";
  "between"; "beyond"; "bicycle"; "bid"; "bike"; "bind"; "biology"; "bird"; "birth"; "bitter";
  "black"; "blade"; "blame"; "blanket"; "blast"; "bleak"; "bless"; "blind"; "blood"; "blossom";
  "blouse"; "blue"; "blur"; "blush"; "board"; "boat"; "body"; "boil"; "bomb"; "bone"; "bonus";
  "book"; "boost"; "border"; "boring"; "borrow"; "boss"; "bottom"; "bounce"; "box"; "boy";
  "bracket"; "brain"; "brand"; "brass"; "brave"; "bread"; "breeze"; "brick"; "bridge"; "brief";
  "bright"; "bring"; "brisk"; "broccoli"; "broken"; "bronze"; "broom"; "brother"; "brown";
  "brush"; "bubble"; "buddy"; "budget"; "buffalo"; "build"; "bulb"; "bulk"; "bullet"; "bundle";
  "bunker"; "burden"; "burger"; "burst"; "bus"; "business"; "busy"; "butter"; "buyer"; "buzz";
  "cabbage"; "cabin"; "cable"; "cactus"; "cage"; "cake"; "call"; "calm"; "camera"; "camp"; "can";
  "canal"; "cancel"; "candy"; "cannon"; "canoe"; "canvas"; "canyon"; "capable"; "capital";
  "captain"; "car"; "carbon"; "card"; "cargo"; "carpet"; "carry"; "cart"; "case"; "cash";
  "casino"; "castle"; "casual"; "cat"; "catalog"; "catch"; "category"; "cattle"; "caught";
  "cause"; "caution"; "cave"; "ceiling"; "celery"; "cement"; "census"; "century"; "cereal";
  "certain"; "chair"; "chalk"; "champion"; "change"; "chaos"; "chapter"; "charge"; "chase";
  "chat"; "cheap"; "check"; "cheese"; "chef"; "cherry"; "chest"; "chicken"; "chief"; "child";
  "chimney"; "choice"; "choose"; "chronic"; "chuckle"; "chunk"; "churn"; "cigar"; "cinnamon";
  "circle"; "citizen"; "city"; "civil"; "claim"; "clap"; "clarify"; "claw"; "clay"; "clean";
  "clerk"; "clever"; "click"; "client"; "cliff"; "climb"; "clinic"; "clip"; "clock"; "clog";
  "close"; "cloth"; "cloud"; "clown"; "club"; "clump"; "cluster"; "clutch"; "coach"; "coast";
  "coconut"; "code"; "coffee"; "coil"; "coin"; "collect"; "color"; "column"; "combine"; "come";
  "comfort"; "comic"; "common"; "company"; "concert"; "conduct"; "confirm"; "congress";
  "connect"; "consider"; "control"; "convince"; "cook"; "cool"; "copper"; "copy"; "coral";
  "core"; "corn"; "correct"; "cost"; "cotton"; "couch"; "country"; "couple"; "course"; "cousin";
  "cover"; "coyote"; "crack"; "cradle"; "craft"; "cram"; "crane"; "crash"; "crater"; "crawl";
  "crazy"; "cream"; "credit"; "creek"; "crew"; "cricket"; "crime"; "crisp"; "critic"; "crop";
  "cross"; "crouch"; "crowd"; "crucial"; "cruel"; "cruise"; "crumble"; "crunch"; "crush"; "cry";
  "crystal"; "cube"; "culture"; "cup"; "cupboard"; "curious"; "current"; "curtain"; "curve";
  "cushion"; "custom"; "cute"; "cycle"; "dad"; "damage"; "damp"; "dance"; "danger"; "daring";
  "dash"; "daughter"; "dawn"; "day"; "deal"; "debate"; "debris"; "decade"; "december"; "decide";
  "decline"; "decorate"; "decrease"; "deer"; "defense"; "define"; "defy"; "degree"; "delay";
  "deliver"; "demand"; "demise"; "denial"; "dentist"; "deny"; "depart"; "depend"; "deposit";
  "depth"; "deputy"; "derive"; "describe"; "desert"; "design"; "desk"; "despair"; "destroy";
  "detail"; "detect"; "develop"; "device"; "devote"; "diagram"; "dial"; "diamond"; "diary";
  "dice"; "diesel"; "diet"; "differ"; "digital"; "dignity"; "dilemma"; "dinner"; "dinosaur";
  "direct"; "dirt"; "disagree"; "discover"; "disease"; "dish"; "dismiss"; "disorder"; "display";
  "distance"; "divert"; "divide"; "divorce"; "dizzy"; "doctor"; "document"; "dog"; "doll";
  "dolphin"; "domain"; "donate"; "donkey"; "donor"; "door"; "dose"; "double"; "dove"; "draft";
  "dragon"; "drama"; "drastic"; "draw"; "dream"; "dress"; "drift"; "drill"; "drink"; "drip";
  "drive"; "drop"; "drum"; "dry"; "duck"; "dumb"; "dune"; "during"; "dust"; "dutch"; "duty";
  "dwarf"; "dynamic"; "eager"; "eagle"; "early"; "earn"; "earth"; "easily"; "east"; "easy";
  "echo"; "ecology"; "economy"; "edge"; "edit"; "educate"; "effort"; "egg"; "eight"; "either";
  "elbow"; "elder"; "electric"; "elegant"; "element"; "elephant"; "elevator"; "elite"; "else";
  "embark"; "embody"; "embrace"; "emerge"; "emotion"; "employ"; "empower"; "empty"; "enable";
  "enact"; "end"; "endless"; "endorse"; "enemy"; "energy"; "enforce"; "engage"; "engine";
  "enhance"; "enjoy"; "enlist"; "enough"; "enrich"; "enroll"; "ensure"; "enter"; "entire";
  "entry"; "envelope"; "episode"; "equal"; "equip"; "era"; "erase"; "erode"; "erosion"; "error";
  "erupt"; "escape"; "essay"; "essence"; "estate"; "eternal"; "ethics"; "evidence"; "evil";
  "evoke"; "evolve"; "exact"; "example"; "excess"; "exchange"; "excite"; "exclude"; "excuse";
  "execute"; "exercise"; "exhaust"; "exhibit"; "exile"; "exist"; "exit"; "exotic"; "expand";
  "expect"; "expire"; "explain"; "expose"; "express"; "extend"; "extra"; "eye"; "eyebrow";
  "fabric"; "face"; "faculty"; "fade"; "faint"; "faith"; "fall"; "false"; "fame"; "family";
  "famous"; "fan"; "fancy"; "fantasy"; "farm"; "fashion"; "fat"; "fatal"; "father"; "fatigue";
  "fault"; "favorite"; "feature"; "february"; "federal"; "fee"; "feed"; "feel"; "female";
  "fence"; "festival"; "fetch"; "fever"; "few"; "fiber"; "fiction"; "field"; "figure"; "file";
  "film"; "filter"; "final"; "find"; "fine"; "finger"; "finish"; "fire"; "firm"; "first";
  "fiscal"; "fish"; "fit"; "fitness"; "fix"; "flag"; "flame"; "flash"; "flat"; "flavor"; "flee";
  "flight"; "flip"; "float"; "flock"; "floor"; "flower"; "fluid"; "flush"; "fly"; "foam";
  "focus"; "fog"; "foil"; "fold"; "follow"; "food"; "foot"; "force"; "forest"; "forget"; "fork";
  "fortune"; "forum"; "forward"; "fossil"; "foster"; "found"; "fox"; "fragile"; "frame";
  "frequent"; "fresh"; "friend"; "fringe"; "frog"; "front"; "frost"; "frown"; "frozen"; "fruit";
  "fuel"; "fun"; "funny"; "furnace"; "fury"; "future"; "gadget"; "gain"; "galaxy"; "gallery";
  "game"; "gap"; "garage"; "garbage"; "garden"; "garlic"; "garment"; "gas"; "gasp"; "gate";
  "gather"; "gauge"; "gaze"; "general"; "genius"; "genre"; "gentle"; "genuine"; "gesture";
  "ghost"; "giant"; "gift"; "giggle"; "ginger"; "giraffe"; "girl"; "give"; "glad"; "glance";
  "glare"; "glass"; "glide"; "glimpse"; "globe"; "gloom"; "glory"; "glove"; "glow"; "glue";
  "goat"; "goddess"; "gold"; "good"; "goose"; "gorilla"; "gospel"; "gossip"; "govern"; "gown";
  "grab"; "grace"; "grain"; "grant"; "grape"; "grass"; "gravity"; "great"; "green"; "grid";
  "grief"; "grit"; "grocery"; "group"; "grow"; "grunt"; "guard"; "guess"; "guide"; "guilt";
  "guitar"; "gun"; "gym"; "habit"; "hair"; "half"; "hammer"; "hamster"; "hand"; "happy";
  "harbor"; "hard"; "harsh"; "harvest"; "hat"; "have"; "hawk"; "hazard"; "head"; "health";
  "heart"; "heavy"; "hedgehog"; "height"; "hello"; "helmet"; "help"; "hen"; "hero"; "hidden";
  "high"; "hill"; "hint"; "hip"; "hire"; "history"; "hobby"; "hockey"; "hold"; "hole"; "holiday";
  "hollow"; "home"; "honey"; "hood"; "hope"; "horn"; "horror"; "horse"; "hospital"; "host";
  "hotel"; "hour"; "hover"; "hub"; "huge"; "human"; "humble"; "humor"; "hundred"; "hungry";
  "hunt"; "hurdle"; "hurry"; "hurt"; "husband"; "hybrid"; "ice"; "icon"; "idea"; "identify";
  "idle"; "ignore"; "ill"; "illegal"; "illness"; "image"; "imitate"; "immense"; "immune";
  "impact"; "impose"; "improve"; "impulse"; "inch"; "include"; "income"; "increase"; "index";
  "indicate"; "indoor"; "industry"; "infant"; "inflict"; "inform"; "inhale"; "inherit";
  "initial"; "inject"; "injury"; "inmate"; "inner"; "innocent"; "input"; "inquiry"; "insane";
  "insect"; "inside"; "inspire"; "install"; "intact"; "interest"; "into"; "invest"; "invite";
  "involve"; "iron"; "island"; "isolate"; "issue"; "item"; "ivory"; "jacket"; "jaguar"; "jar";
  "jazz"; "jealous"; "jeans"; "jelly"; "jewel"; "job"; "join"; "joke"; "journey"; "joy"; "judge";
  "juice"; "jump"; "jungle"; "junior"; "junk"; "just"; "kangaroo"; "keen"; "keep"; "ketchup";
  "key"; "kick"; "kid"; "kidney"; "kind"; "kingdom"; "kiss"; "kit"; "kitchen"; "kite"; "kitten";
  "kiwi"; "knee"; "knife"; "knock"; "know"; "lab"; "label"; "labor"; "ladder"; "lady"; "lake";
  "lamp"; "language"; "laptop"; "large"; "later"; "latin"; "laugh"; "laundry"; "lava"; "law";
  "lawn"; "lawsuit"; "layer"; "lazy"; "leader"; "leaf"; "learn"; "leave"; "lecture"; "left";
  "leg"; "legal"; "legend"; "leisure"; "lemon"; "lend"; "length"; "lens"; "leopard"; "lesson";
  "letter"; "level"; "liar"; "liberty"; "library"; "license"; "life"; "lift"; "light"; "like";
  "limb"; "limit"; "link"; "lion"; "liquid"; "list"; "little"; "live"; "lizard"; "load"; "loan";
  "lobster"; "local"; "lock"; "logic"; "lonely"; "long"; "loop"; "lottery"; "loud"; "lounge";
  "love"; "loyal"; "lucky"; "luggage"; "lumber"; "lunar"; "lunch"; "luxury"; "lyrics"; "machine";
  "mad"; "magic"; "magnet"; "maid"; "mail"; "main"; "major"; "make"; "mammal"; "man"; "manage";
  "mandate"; "mango"; "mansion"; "manual"; "maple"; "marble"; "march"; "margin"; "marine";
  "market"; "marriage"; "mask"; "mass"; "master"; "match"; "material"; "math"; "matrix";
  "matter"; "maximum"; "maze"; "meadow"; "mean"; "measure"; "meat"; "mechanic"; "medal"; "media";
  "melody"; "melt"; "member"; "memory"; "mention"; "menu"; "mercy"; "merge"; "merit"; "merry";
  "mesh"; "message"; "metal"; "method"; "middle"; "midnight"; "milk"; "million"; "mimic"; "mind";
  "minimum"; "minor"; "minute"; "miracle"; "mirror"; "misery"; "miss"; "mistake"; "mix"; "mixed";
  "mixture"; "mobile"; "model"; "modify"; "mom"; "moment"; "monitor"; "monkey"; "monster";
  "month"; "moon"; "moral"; "more"; "morning"; "mosquito"; "mother"; "motion"; "motor";
  "mountain"; "mouse"; "move"; "movie"; "much"; "muffin"; "mule"; "multiply"; "muscle"; "museum";
  "mushroom"; "music"; "must"; "mutual"; "myself"; "mystery"; "myth"; "naive"; "name"; "napkin";
  "narrow"; "nasty"; "nation"; "nature"; "near"; "neck"; "need"; "negative"; "neglect";
  "neither"; "nephew"; "nerve"; "nest"; "net"; "network"; "neutral"; "never"; "news"; "next";
  "nice"; "night"; "noble"; "noise"; "nominee"; "noodle"; "normal"; "north"; "nose"; "notable";
  "note"; "nothing"; "notice"; "novel"; "now"; "nuclear"; "number"; "nurse"; "nut"; "oak";
  "obey"; "object"; "oblige"; "obscure"; "observe"; "obtain"; "obvious"; "occur"; "ocean";
  "october"; "odor"; "off"; "offer"; "office"; "often"; "oil"; "okay"; "old"; "olive"; "olympic";
  "omit"; "once"; "one"; "onion"; "online"; "only"; "open"; "opera"; "opinion"; "oppose";
  "option"; "orange"; "orbit"; "orchard"; "order"; "ordinary"; "organ"; "orient"; "original";
  "orphan"; "ostrich"; "other"; "outdoor"; "outer"; "output"; "outside"; "oval"; "oven"; "over";
  "own"; "owner"; "oxygen"; "oyster"; "ozone"; "pact"; "paddle"; "page"; "pair"; "palace";
  "palm"; "panda"; "panel"; "panic"; "panther"; "paper"; "parade"; "parent"; "park"; "parrot";
  "party"; "pass"; "patch"; "path"; "patient"; "patrol"; "pattern"; "pause"; "pave"; "payment";
  "peace"; "peanut"; "pear"; "peasant"; "pelican"; "pen"; "penalty"; "pencil"; "people";
  "pepper"; "perfect"; "permit"; "person"; "pet"; "phone"; "photo"; "phrase"; "physical";
  "piano"; "picnic"; "picture"; "piece"; "pig"; "pigeon"; "pill"; "pilot"; "pink"; "pioneer";
  "pipe"; "pistol"; "pitch"; "pizza"; "place"; "planet"; "plastic"; "plate"; "play"; "please";
  "pledge"; "pluck"; "plug"; "plunge"; "poem"; "poet"; "point"; "polar"; "pole"; "police";
  "pond"; "pony"; "pool"; "popular"; "portion"; "position"; "possible"; "post"; "potato";
  "pottery"; "poverty"; "powder"; "power"; "practice"; "praise"; "predict"; "prefer"; "prepare";
  "present"; "pretty"; "prevent"; "price"; "pride"; "primary"; "print"; "priority"; "prison";
  "private"; "prize"; "problem"; "process"; "produce"; "profit"; "program"; "project"; "promote";
  "proof"; "property"; "prosper"; "protect"; "proud"; "provide"; "public"; "pudding"; "pull";
  "pulp"; "pulse"; "pumpkin"; "punch"; "pupil"; "puppy"; "purchase"; "purity"; "purpose";
  "purse"; "push"; "put"; "puzzle"; "pyramid"; "quality"; "quantum"; "quarter"; "question";
  "quick"; "quit"; "quiz"; "quote"; "rabbit"; "raccoon"; "race"; "rack"; "radar"; "radio";
  "rail"; "rain"; "raise"; "rally"; "ramp"; "ranch"; "random"; "range"; "rapid"; "rare"; "rate";
  "rather"; "raven"; "raw"; "razor"; "ready"; "real"; "reason"; "rebel"; "rebuild"; "recall";
  "receive"; "recipe"; "record"; "recycle"; "reduce"; "reflect"; "reform"; "refuse"; "region";
  "regret"; "regular"; "reject"; "relax"; "release"; "relief"; "rely"; "remain"; "remember";
  "remind"; "remove"; "render"; "renew"; "rent"; "reopen"; "repair"; "repeat"; "replace";
  "report"; "require"; "rescue"; "resemble"; "resist"; "resource"; "response"; "result";
  "retire"; "retreat"; "return"; "reunion"; "reveal"; "review"; "reward"; "rhythm"; "rib";
  "ribbon"; "rice"; "rich"; "ride"; "ridge"; "rifle"; "right"; "rigid"; "ring"; "riot"; "ripple";
  "risk"; "ritual"; "rival"; "river"; "road"; "roast"; "robot"; "robust"; "rocket"; "romance";
  "roof"; "rookie"; "room"; "rose"; "rotate"; "rough"; "round"; "route"; "royal"; "rubber";
  "rude"; "rug"; "rule"; "run"; "runway"; "rural"; "sad"; "saddle"; "sadness"; "safe"; "sail";
  "salad"; "salmon"; "salon"; "salt"; "salute"; "same"; "sample"; "sand"; "satisfy"; "satoshi";
  "sauce"; "sausage"; "save"; "say"; "scale"; "scan"; "scare"; "scatter"; "scene"; "scheme";
  "school"; "science"; "scissors"; "scorpion"; "scout"; "scrap"; "screen"; "script"; "scrub";
  "sea"; "search"; "season"; "seat"; "second"; "secret"; "section"; "security"; "seed"; "seek";
  "segment"; "select"; "sell"; "seminar"; "senior"; "sense"; "sentence"; "series"; "service";
  "session"; "settle"; "setup"; "seven"; "shadow"; "shaft"; "shallow"; "share"; "shed"; "shell";
  "sheriff"; "shield"; "shift"; "shine"; "ship"; "shiver"; "shock"; "shoe"; "shoot"; "shop";
  "short"; "shoulder"; "shove"; "shrimp"; "shrug"; "shuffle"; "shy"; "sibling"; "sick"; "side";
  "siege"; "sight"; "sign"; "silent"; "silk"; "silly"; "silver"; "similar"; "simple"; "since";
  "sing"; "siren"; "sister"; "situate"; "six"; "size"; "skate"; "sketch"; "ski"; "skill"; "skin";
  "skirt"; "skull"; "slab"; "slam"; "sleep"; "slender"; "slice"; "slide"; "slight"; "slim";
  "slogan"; "slot"; "slow"; "slush"; "small"; "smart"; "smile"; "smoke"; "smooth"; "snack";
  "snake"; "snap"; "sniff"; "snow"; "soap"; "soccer"; "social"; "sock"; "soda"; "soft"; "solar";
  "soldier"; "solid"; "solution"; "solve"; "someone"; "song"; "soon"; "sorry"; "sort"; "soul";
  "sound"; "soup"; "source"; "south"; "space"; "spare"; "spatial"; "spawn"; "speak"; "special";
  "speed"; "spell"; "spend"; "sphere"; "spice"; "spider"; "spike"; "spin"; "spirit"; "split";
  "spoil"; "sponsor"; "spoon"; "sport"; "spot"; "spray"; "spread"; "spring"; "spy"; "square";
  "squeeze"; "squirrel"; "stable"; "stadium"; "staff"; "stage"; "stairs"; "stamp"; "stand";
  "start"; "state"; "stay"; "steak"; "steel"; "stem"; "step"; "stereo"; "stick"; "still";
  "sting"; "stock"; "stomach"; "stone"; "stool"; "story"; "stove"; "strategy"; "street";
  "strike"; "strong"; "struggle"; "student"; "stuff"; "stumble"; "style"; "subject"; "submit";
  "subway"; "success"; "such"; "sudden"; "suffer"; "sugar"; "suggest"; "suit"; "summer"; "sun";
  "sunny"; "sunset"; "super"; "supply"; "supreme"; "sure"; "surface"; "surge"; "surprise";
  "surround"; "survey"; "suspect"; "sustain"; "swallow"; "swamp"; "swap"; "swarm"; "swear";
  "sweet"; "swift"; "swim"; "swing"; "switch"; "sword"; "symbol"; "symptom"; "syrup"; "system";
  "table"; "tackle"; "tag"; "tail"; "talent"; "talk"; "tank"; "tape"; "target"; "task"; "taste";
  "tattoo"; "taxi"; "teach"; "team"; "tell"; "ten"; "tenant"; "tennis"; "tent"; "term"; "test";
  "text"; "thank"; "that"; "theme"; "then"; "theory"; "there"; "they"; "thing"; "this";
  "thought"; "three"; "thrive"; "throw"; "thumb"; "thunder"; "ticket"; "tide"; "tiger"; "tilt";
  "timber"; "time"; "tiny"; "tip"; "tired"; "tissue"; "title"; "toast"; "tobacco"; "today";
  "toddler"; "toe"; "together"; "toilet"; "token"; "tomato"; "tomorrow"; "tone"; "tongue";
  "tonight"; "tool"; "tooth"; "top"; "topic"; "topple"; "torch"; "tornado"; "tortoise"; "toss";
  "total"; "tourist"; "toward"; "tower"; "town"; "toy"; "track"; "trade"; "traffic"; "tragic";
  "train"; "transfer"; "trap"; "trash"; "travel"; "tray"; "treat"; "tree"; "trend"; "trial";
  "tribe"; "trick"; "trigger"; "trim"; "trip"; "trophy"; "trouble"; "truck"; "true"; "truly";
  "trumpet"; "trust"; "truth"; "try"; "tube"; "tuition"; "tumble"; "tuna"; "tunnel"; "turkey";
  "turn"; "turtle"; "twelve"; "twenty"; "twice"; "twin"; "twist"; "two"; "type"; "typical";
  "ugly"; "umbrella"; "unable"; "unaware"; "uncle"; "uncover"; "under"; "undo"; "unfair";
  "unfold"; "unhappy"; "uniform"; "unique"; "unit"; "universe"; "unknown"; "unlock"; "until";
  "unusual"; "unveil"; "update"; "upgrade"; "uphold"; "upon"; "upper"; "upset"; "urban"; "urge";
  "usage"; "use"; "used"; "useful"; "useless"; "usual"; "utility"; "vacant"; "vacuum"; "vague";
  "valid"; "valley"; "valve"; "van"; "vanish"; "vapor"; "various"; "vast"; "vault"; "vehicle";
  "velvet"; "vendor"; "venture"; "venue"; "verb"; "verify"; "version"; "very"; "vessel";
  "veteran"; "viable"; "vibrant"; "vicious"; "victory"; "video"; "view"; "village"; "vintage";
  "violin"; "virtual"; "virus"; "visa"; "visit"; "visual"; "vital"; "vivid"; "vocal"; "voice";
  "void"; "volcano"; "volume"; "vote"; "voyage"; "wage"; "wagon"; "wait"; "walk"; "wall";
  "walnut"; "want"; "warfare"; "warm"; "warrior"; "wash"; "wasp"; "waste"; "water"; "wave";
  "way"; "wealth"; "weapon"; "wear"; "weasel"; "weather"; "web"; "wedding"; "weekend"; "weird";
  "welcome"; "west"; "wet"; "whale"; "what"; "wheat"; "wheel"; "when"; "where"; "whip";
  "whisper"; "wide"; "width"; "wife"; "wild"; "will"; "win"; "window"; "wine"; "wing"; "wink";
  "winner"; "winter"; "wire"; "wisdom"; "wise"; "wish"; "witness"; "wolf"; "woman"; "wonder";
  "wood"; "wool"; "word"; "work"; "world"; "worry"; "worth"; "wrap"; "wreck"; "wrestle"; "wrist";
  "write"; "wrong"; "yard"; "year"; "yellow"; "you"; "young"; "youth"; "zebra"; "zero"; "zone";
  "zoo"]%string.

Definition en_ : list Z := cstrings en_list.

Definition en_i : list Z := [
  0; 8; 16; 21; 27; 33; 40; 47; 56; 63; 69; 76; 85; 93; 100; 108; 113; 122; 130; 137; 141; 148;
  154; 162; 169; 175; 179; 186; 194; 201; 207; 213; 221; 228; 236; 243; 250; 257; 263; 267; 273;
  279; 285; 289; 293; 301; 307; 313; 319; 327; 333; 339; 343; 349; 355; 362; 368; 374; 382; 387;
  393; 400; 408; 416; 422; 429; 436; 444; 451; 459; 465; 471; 477; 484; 490; 499; 506; 514; 521;
  529; 537; 545; 549; 555; 563; 570; 576; 584; 590; 595; 602; 607; 613; 619; 623; 629; 635; 640;
  647; 655; 662; 669; 675; 679; 688; 695; 703; 707; 714; 722; 728; 735; 742; 749; 757; 762; 769;
  776; 785; 793; 801; 807; 814; 819; 826; 831; 838; 846; 854; 860; 866; 872; 877; 885; 891; 899;
  904; 909; 918; 924; 930; 934; 942; 950; 955; 962; 969; 976; 980; 987; 995; 1002; 1007; 1013;
  1020; 1027; 1033; 1038; 1045; 1053; 1060; 1065; 1072; 1078; 1085; 1092; 1100; 1106; 1111; 1117;
  1125; 1130; 1137; 1144; 1152; 1159; 1167; 1171; 1176; 1181; 1189; 1194; 1200; 1207; 1213; 1219;
  1225; 1233; 1239; 1245; 1251; 1257; 1263; 1271; 1278; 1283; 1288; 1294; 1300; 1305; 1310; 1315;
  1320; 1325; 1331; 1336; 1342; 1349; 1356; 1363; 1368; 1375; 1382; 1386; 1390; 1398; 1404; 1410;
  1416; 1422; 1428; 1435; 1441; 1448; 1454; 1461; 1467; 1473; 1482; 1489; 1496; 1502; 1510; 1516;
  1522; 1529; 1535; 1542; 1550; 1556; 1561; 1566; 1573; 1580; 1587; 1594; 1601; 1607; 1611; 1620;
  1625; 1632; 1638; 1643; 1651; 1657; 1663; 1670; 1675; 1680; 1685; 1690; 1697; 1702; 1706; 1712;
  1719; 1725; 1732; 1738; 1745; 1752; 1760; 1768; 1776; 1780; 1787; 1792; 1798; 1805; 1811; 1816;
  1821; 1826; 1833; 1840; 1847; 1851; 1859; 1865; 1874; 1881; 1888; 1894; 1902; 1907; 1915; 1922;
  1929; 1936; 1944; 1951; 1959; 1965; 1971; 1980; 1987; 1993; 2001; 2008; 2014; 2019; 2025; 2031;
  2038; 2043; 2050; 2056; 2064; 2070; 2076; 2084; 2091; 2098; 2106; 2114; 2120; 2126; 2132; 2141;
  2148; 2156; 2161; 2167; 2173; 2178; 2186; 2191; 2196; 2202; 2208; 2215; 2221; 2228; 2234; 2240;
  2247; 2252; 2258; 2263; 2269; 2275; 2281; 2287; 2292; 2298; 2306; 2313; 2319; 2325; 2333; 2338;
  2345; 2350; 2355; 2363; 2369; 2376; 2384; 2389; 2397; 2403; 2410; 2418; 2426; 2434; 2442; 2451;
  2459; 2468; 2476; 2485; 2490; 2495; 2502; 2507; 2513; 2518; 2523; 2531; 2536; 2543; 2549; 2557;
  2564; 2571; 2578; 2584; 2591; 2597; 2604; 2610; 2615; 2621; 2627; 2634; 2640; 2646; 2652; 2659;
  2665; 2670; 2678; 2684; 2690; 2697; 2702; 2708; 2715; 2721; 2729; 2735; 2742; 2750; 2757; 2763;
  2767; 2775; 2780; 2788; 2792; 2801; 2809; 2817; 2825; 2831; 2839; 2846; 2851; 2857; 2861; 2868;
  2873; 2879; 2886; 2893; 2898; 2907; 2912; 2916; 2921; 2928; 2935; 2942; 2951; 2958; 2966; 2975;
  2984; 2989; 2997; 3004; 3009; 3016; 3022; 3030; 3037; 3044; 3051; 3059; 3064; 3071; 3078; 3086;
  3092; 3099; 3106; 3115; 3122; 3129; 3134; 3142; 3150; 3157; 3164; 3172; 3179; 3186; 3194; 3199;
  3207; 3213; 3218; 3225; 3230; 3237; 3245; 3253; 3261; 3268; 3277; 3284; 3289; 3298; 3307; 3315;
  3320; 3328; 3337; 3345; 3354; 3361; 3368; 3376; 3382; 3389; 3398; 3402; 3407; 3415; 3422; 3429;
  3436; 3442; 3447; 3452; 3459; 3464; 3470; 3477; 3483; 3491; 3496; 3502; 3508; 3514; 3520; 3526;
  3531; 3537; 3542; 3547; 3551; 3556; 3561; 3566; 3573; 3578; 3584; 3589; 3595; 3603; 3609; 3615;
  3621; 3626; 3632; 3639; 3644; 3649; 3654; 3662; 3670; 3675; 3680; 3688; 3695; 3699; 3705; 3712;
  3718; 3724; 3733; 3741; 3749; 3758; 3767; 3773; 3778; 3785; 3792; 3800; 3807; 3815; 3822; 3830;
  3836; 3843; 3849; 3853; 3861; 3869; 3875; 3882; 3890; 3897; 3904; 3912; 3918; 3925; 3932; 3939;
  3946; 3953; 3959; 3966; 3972; 3981; 3989; 3995; 4001; 4005; 4011; 4017; 4025; 4031; 4037; 4044;
  4050; 4058; 4065; 4073; 4080; 4089; 4094; 4100; 4107; 4113; 4121; 4128; 4137; 4144; 4152; 4159;
  4167; 4176; 4184; 4192; 4198; 4204; 4209; 4216; 4223; 4230; 4237; 4245; 4252; 4260; 4267; 4273;
  4277; 4285; 4292; 4297; 4305; 4310; 4316; 4322; 4327; 4333; 4338; 4345; 4352; 4356; 4362; 4370;
  4375; 4383; 4387; 4393; 4400; 4408; 4414; 4423; 4431; 4440; 4448; 4452; 4457; 4462; 4469; 4475;
  4484; 4490; 4496; 4500; 4506; 4514; 4520; 4527; 4532; 4537; 4544; 4550; 4555; 4560; 4567; 4574;
  4579; 4584; 4590; 4597; 4602; 4606; 4614; 4618; 4623; 4629; 4635; 4640; 4647; 4652; 4659; 4664;
  4670; 4676; 4682; 4689; 4695; 4701; 4705; 4710; 4716; 4720; 4725; 4730; 4737; 4742; 4747; 4753;
  4760; 4767; 4772; 4780; 4786; 4794; 4801; 4808; 4814; 4818; 4826; 4832; 4841; 4847; 4854; 4861;
  4866; 4872; 4878; 4884; 4891; 4897; 4902; 4906; 4912; 4920; 4925; 4932; 4939; 4944; 4951; 4959;
  4964; 4968; 4975; 4983; 4990; 4997; 5005; 5009; 5014; 5019; 5026; 5032; 5037; 5045; 5052; 5058;
  5065; 5073; 5081; 5087; 5093; 5098; 5105; 5112; 5120; 5125; 5130; 5135; 5142; 5148; 5154; 5160;
  5168; 5174; 5180; 5186; 5192; 5197; 5202; 5207; 5215; 5220; 5225; 5231; 5239; 5246; 5253; 5260;
  5265; 5270; 5276; 5282; 5288; 5294; 5300; 5308; 5314; 5320; 5325; 5331; 5336; 5344; 5350; 5355;
  5361; 5367; 5373; 5379; 5385; 5392; 5396; 5400; 5406; 5411; 5416; 5423; 5431; 5436; 5442; 5449;
  5454; 5460; 5468; 5472; 5477; 5482; 5489; 5494; 5501; 5507; 5513; 5522; 5529; 5535; 5542; 5547;
  5551; 5556; 5563; 5568; 5573; 5578; 5582; 5587; 5595; 5601; 5608; 5613; 5618; 5626; 5633; 5638;
  5644; 5649; 5654; 5659; 5666; 5672; 5681; 5686; 5692; 5697; 5703; 5707; 5712; 5718; 5725; 5731;
  5739; 5746; 5751; 5758; 5764; 5769; 5777; 5784; 5788; 5793; 5798; 5807; 5812; 5819; 5823; 5831;
  5839; 5845; 5853; 5861; 5868; 5875; 5882; 5890; 5898; 5903; 5911; 5918; 5927; 5933; 5942; 5949;
  5958; 5965; 5973; 5980; 5987; 5995; 6003; 6010; 6017; 6024; 6030; 6039; 6045; 6053; 6060; 6067;
  6074; 6082; 6090; 6097; 6106; 6111; 6118; 6125; 6133; 6138; 6145; 6153; 6159; 6164; 6170; 6177;
  6184; 6188; 6193; 6201; 6207; 6213; 6219; 6223; 6228; 6233; 6241; 6245; 6251; 6257; 6262; 6269;
  6276; 6281; 6286; 6295; 6300; 6305; 6313; 6317; 6322; 6326; 6333; 6338; 6346; 6351; 6355; 6363;
  6368; 6375; 6380; 6385; 6391; 6397; 6402; 6406; 6412; 6418; 6425; 6430; 6435; 6440; 6449; 6456;
  6462; 6468; 6474; 6480; 6488; 6493; 6497; 6502; 6510; 6516; 6521; 6528; 6533; 6539; 6545; 6553;
  6558; 6562; 6568; 6575; 6583; 6589; 6594; 6601; 6606; 6614; 6621; 6628; 6634; 6639; 6647; 6655;
  6663; 6668; 6673; 6679; 6684; 6689; 6695; 6700; 6705; 6712; 6717; 6724; 6729; 6736; 6741; 6746;
  6754; 6760; 6765; 6771; 6778; 6783; 6788; 6796; 6801; 6808; 6813; 6819; 6825; 6833; 6840; 6846;
  6852; 6859; 6866; 6874; 6878; 6884; 6891; 6896; 6901; 6906; 6912; 6917; 6924; 6928; 6935; 6943;
  6949; 6957; 6964; 6970; 6977; 6983; 6990; 6997; 7004; 7013; 7018; 7023; 7030; 7036; 7045; 7050;
  7057; 7064; 7072; 7077; 7084; 7089; 7097; 7102; 7111; 7117; 7123; 7130; 7135; 7142; 7149; 7157;
  7162; 7168; 7174; 7180; 7186; 7191; 7199; 7205; 7212; 7219; 7228; 7233; 7241; 7247; 7252; 7260;
  7266; 7273; 7281; 7288; 7295; 7300; 7308; 7312; 7318; 7326; 7333; 7339; 7346; 7350; 7357; 7365;
  7372; 7380; 7386; 7391; 7397; 7402; 7410; 7419; 7426; 7433; 7439; 7448; 7454; 7459; 7465; 7470;
  7477; 7482; 7491; 7498; 7505; 7514; 7520; 7525; 7532; 7539; 7547; 7552; 7558; 7563; 7570; 7577;
  7583; 7590; 7597; 7602; 7607; 7612; 7621; 7629; 7637; 7644; 7650; 7655; 7659; 7667; 7675; 7681;
  7686; 7691; 7696; 7702; 7708; 7714; 7722; 7729; 7736; 7742; 7747; 7755; 7760; 7768; 7775; 7781;
  7785; 7793; 7800; 7806; 7810; 7814; 7819; 7826; 7833; 7841; 7849; 7856; 7864; 7870; 7876; 7884;
  7889; 7893; 7899; 7906; 7912; 7916; 7921; 7925; 7931; 7939; 7944; 7949; 7953; 7959; 7966; 7971;
  7976; 7982; 7990; 7997; 8004; 8011; 8017; 8025; 8031; 8040; 8046; 8053; 8062; 8069; 8077; 8083;
  8091; 8097; 8104; 8112; 8117; 8122; 8127; 8131; 8137; 8144; 8151; 8157; 8162; 8169; 8174; 8179;
  8186; 8191; 8197; 8203; 8209; 8217; 8223; 8230; 8237; 8242; 8249; 8255; 8260; 8266; 8271; 8279;
  8286; 8294; 8300; 8305; 8313; 8319; 8326; 8331; 8339; 8347; 8351; 8359; 8366; 8373; 8380; 8388;
  8395; 8402; 8406; 8412; 8418; 8425; 8434; 8440; 8447; 8455; 8461; 8465; 8472; 8477; 8483; 8488;
  8496; 8501; 8508; 8514; 8520; 8526; 8533; 8541; 8547; 8552; 8559; 8566; 8572; 8577; 8584; 8589;
  8594; 8600; 8606; 8611; 8618; 8623; 8628; 8633; 8641; 8649; 8658; 8667; 8672; 8679; 8687; 8695;
  8702; 8708; 8717; 8724; 8732; 8739; 8747; 8755; 8762; 8770; 8776; 8782; 8790; 8796; 8805; 8812;
  8820; 8826; 8834; 8842; 8850; 8857; 8865; 8873; 8881; 8887; 8896; 8904; 8912; 8918; 8926; 8933;
  8941; 8946; 8951; 8957; 8965; 8971; 8977; 8983; 8992; 8999; 9007; 9013; 9018; 9022; 9029; 9037;
  9045; 9053; 9061; 9070; 9076; 9081; 9086; 9092; 9099; 9107; 9112; 9117; 9123; 9129; 9134; 9139;
  9145; 9151; 9156; 9162; 9169; 9175; 9181; 9186; 9191; 9198; 9204; 9208; 9214; 9220; 9225; 9232;
  9238; 9246; 9253; 9261; 9268; 9275; 9283; 9290; 9298; 9305; 9312; 9319; 9326; 9334; 9341; 9347;
  9355; 9362; 9367; 9374; 9383; 9390; 9397; 9404; 9410; 9415; 9422; 9429; 9436; 9444; 9451; 9459;
  9466; 9475; 9482; 9491; 9500; 9507; 9514; 9522; 9529; 9537; 9544; 9551; 9558; 9565; 9569; 9576;
  9581; 9586; 9591; 9597; 9603; 9609; 9615; 9620; 9625; 9632; 9637; 9644; 9650; 9656; 9661; 9667;
  9673; 9680; 9687; 9695; 9700; 9707; 9712; 9717; 9724; 9730; 9736; 9742; 9748; 9755; 9760; 9764;
  9769; 9773; 9780; 9786; 9790; 9797; 9805; 9810; 9815; 9821; 9828; 9834; 9839; 9846; 9851; 9858;
  9863; 9871; 9879; 9885; 9893; 9898; 9902; 9908; 9913; 9919; 9927; 9933; 9940; 9947; 9955; 9964;
  9973; 9979; 9985; 9992; 9999; 10005; 10009; 10016; 10023; 10028; 10035; 10042; 10050; 10059;
  10064; 10069; 10077; 10084; 10089; 10097; 10104; 10110; 10119; 10126; 10134; 10142; 10149;
  10155; 10161; 10168; 10174; 10182; 10188; 10193; 10199; 10207; 10214; 10220; 10226; 10231;
  10238; 10244; 10249; 10255; 10260; 10266; 10275; 10281; 10288; 10294; 10302; 10306; 10314;
  10319; 10324; 10330; 10336; 10341; 10348; 10353; 10359; 10366; 10374; 10381; 10387; 10392;
  10398; 10405; 10413; 10417; 10422; 10428; 10435; 10439; 10445; 10450; 10456; 10462; 10467;
  10472; 10478; 10486; 10492; 10498; 10505; 10510; 10517; 10522; 10527; 10533; 10539; 10545;
  10551; 10557; 10564; 10570; 10576; 10581; 10587; 10592; 10597; 10604; 10611; 10616; 10621;
  10626; 10632; 10640; 10646; 10655; 10661; 10669; 10674; 10679; 10685; 10690; 10695; 10701;
  10706; 10713; 10719; 10725; 10731; 10739; 10745; 10751; 10759; 10765; 10771; 10777; 10784;
  10790; 10797; 10803; 10808; 10815; 10821; 10827; 10835; 10841; 10847; 10852; 10858; 10865;
  10872; 10876; 10883; 10891; 10900; 10907; 10915; 10921; 10927; 10934; 10940; 10946; 10952;
  10958; 10963; 10969; 10975; 10980; 10985; 10992; 10998; 11004; 11010; 11016; 11024; 11030;
  11036; 11042; 11048; 11057; 11064; 11071; 11078; 11087; 11095; 11101; 11109; 11115; 11123;
  11130; 11137; 11145; 11150; 11157; 11164; 11170; 11178; 11183; 11190; 11194; 11200; 11207;
  11213; 11220; 11228; 11233; 11241; 11247; 11256; 11265; 11272; 11280; 11288; 11296; 11302;
  11307; 11313; 11319; 11325; 11331; 11336; 11342; 11349; 11355; 11362; 11370; 11376; 11383;
  11389; 11396; 11400; 11405; 11412; 11417; 11422; 11427; 11434; 11439; 11445; 11452; 11457;
  11463; 11468; 11473; 11477; 11484; 11491; 11496; 11501; 11506; 11511; 11517; 11522; 11528;
  11533; 11540; 11546; 11551; 11557; 11562; 11570; 11576; 11583; 11589; 11595; 11603; 11610;
  11615; 11621; 11626; 11633; 11638; 11643; 11647; 11653; 11660; 11666; 11672; 11680; 11686;
  11694; 11698; 11707; 11714; 11720; 11727; 11736; 11741; 11748; 11756; 11761; 11767; 11771;
  11777; 11784; 11790; 11798; 11807; 11812; 11818; 11826; 11833; 11839; 11844; 11848; 11854;
  11860; 11868; 11875; 11881; 11890; 11895; 11901; 11908; 11913; 11919; 11924; 11930; 11936;
  11942; 11948; 11956; 11961; 11966; 11973; 11981; 11987; 11992; 11998; 12006; 12012; 12018;
  12022; 12027; 12035; 12042; 12047; 12054; 12061; 12066; 12073; 12080; 12087; 12093; 12098;
  12104; 12108; 12113; 12121; 12126; 12135; 12142; 12150; 12156; 12164; 12170; 12175; 12182;
  12189; 12197; 12205; 12212; 12217; 12226; 12234; 12241; 12247; 12255; 12262; 12269; 12277;
  12284; 12289; 12295; 12301; 12307; 12312; 12318; 12322; 12327; 12334; 12342; 12348; 12356;
  12363; 12370; 12376; 12382; 12389; 12395; 12399; 12406; 12412; 12420; 12425; 12431; 12439;
  12446; 12453; 12461; 12467; 12472; 12479; 12487; 12492; 12499; 12507; 12514; 12522; 12530;
  12538; 12544; 12549; 12557; 12565; 12572; 12580; 12586; 12591; 12597; 12604; 12610; 12616;
  12622; 12628; 12633; 12641; 12648; 12653; 12660; 12665; 12671; 12676; 12681; 12686; 12693;
  12698; 12706; 12711; 12719; 12724; 12729; 12735; 12741; 12746; 12750; 12757; 12764; 12769;
  12776; 12784; 12788; 12796; 12804; 12810; 12818; 12823; 12827; 12833; 12838; 12844; 12850;
  12855; 12861; 12866; 12874; 12879; 12885; 12890; 12895; 12900; 12904; 12911; 12916; 12921;
  12926; 12933; 12940; 12945; 12952; 12957; 12962; 12970; 12975; 12981; 12988; 12993; 12998;
  13003; 13008; 13014; 13020; 13026; 13031; 13037; 13045; 13051; 13057; 13063; 13068; 13073;
  13080; 13084; 13090; 13096; 13102; 13107; 13112; 13116].

Definition en_words : words := const_words 2048 11 true en_ en_i.

(** ** Spanish *)

Definition es_list : list string := [
  "ábaco"; "abdomen"; "abeja"; "abierto"; "abogado"; "abono"; "aborto"; "abrazo"; "abrir";
  "abuelo"; "abuso"; "acabar"; "academia"; "acceso"; "acción"; "aceite"; "acelga"; "acento";
  "aceptar"; "ácido"; "aclarar"; "acné"; "acoger"; "acoso"; "activo"; "acto"; "actriz";
  "actuar"; "acudir"; "acuerdo"; "acusar"; "adicto"; "admitir"; "adoptar"; "adorno"; "aduana";
  "adulto"; "aéreo"; "afectar"; "afición"; "afinar"; "afirmar"; "ágil"; "agitar"; "agonía";
  "agosto"; "agotar"; "agregar"; "agrio"; "agua"; "agudo"; "águila"; "aguja"; "ahogo"; "ahorro";
  "aire"; "aislar"; "ajedrez"; "ajeno"; "ajuste"; "alacrán"; "alambre"; "alarma"; "alba";
  "álbum"; "alcalde"; "aldea"; "alegre"; "alejar"; "alerta"; "aleta"; "alfiler"; "alga";
  "algodón"; "aliado"; "aliento"; "alivio"; "alma"; "almeja"; "almíbar"; "altar"; "alteza";
  "altivo"; "alto"; "altura"; "alumno"; "alzar"; "amable"; "amante"; "amapola"; "amargo";
  "amasar"; "ámbar"; "ámbito"; "ameno"; "amigo"; "amistad"; "amor"; "amparo"; "amplio";
  "ancho"; "anciano"; "ancla"; "andar"; "andén"; "anemia"; "ángulo"; "anillo"; "ánimo";
  "anís"; "anotar"; "antena"; "antiguo"; "antojo"; "anual"; "anular"; "anuncio"; "añadir";
  "añejo"; "año"; "apagar"; "aparato"; "apetito"; "apio"; "aplicar"; "apodo"; "aporte";
  "apoyo"; "aprender"; "aprobar"; "apuesta"; "apuro"; "arado"; "araña"; "arar"; "árbitro";
  "árbol"; "arbusto"; "archivo"; "arco"; "arder"; "ardilla"; "arduo"; "área"; "árido";
  "aries"; "armonía"; "arnés"; "aroma"; "arpa"; "arpón"; "arreglo"; "arroz"; "arruga"; "arte";
  "artista"; "asa"; "asado"; "asalto"; "ascenso"; "asegurar"; "aseo"; "asesor"; "asiento";
  "asilo"; "asistir"; "asno"; "asombro"; "áspero"; "astilla"; "astro"; "astuto"; "asumir";
  "asunto"; "atajo"; "ataque"; "atar"; "atento"; "ateo"; "ático"; "atleta"; "átomo"; "atraer";
  "atroz"; "atún"; "audaz"; "audio"; "auge"; "aula"; "aumento"; "ausente"; "autor"; "aval";
  "avance"; "avaro"; "ave"; "avellana"; "avena"; "avestruz"; "avión"; "aviso"; "ayer"; "ayuda";
  "ayuno"; "azafrán"; "azar"; "azote"; "azúcar"; "azufre"; "azul"; "baba"; "babor"; "bache";
  "bahía"; "baile"; "bajar"; "balanza"; "balcón"; "balde"; "bambú"; "banco"; "banda"; "baño";
  "barba"; "barco"; "barniz"; "barro"; "báscula"; "bastón"; "basura"; "batalla"; "batería";
  "batir"; "batuta"; "baúl"; "bazar"; "bebé"; "bebida"; "bello"; "besar"; "beso"; "bestia";
  "bicho"; "bien"; "bingo"; "blanco"; "bloque"; "blusa"; "boa"; "bobina"; "bobo"; "boca";
  "bocina"; "boda"; "bodega"; "boina"; "bola"; "bolero"; "bolsa"; "bomba"; "bondad"; "bonito";
  "bono"; "bonsái"; "borde"; "borrar"; "bosque"; "bote"; "botín"; "bóveda"; "bozal"; "bravo";
  "brazo"; "brecha"; "breve"; "brillo"; "brinco"; "brisa"; "broca"; "broma"; "bronce"; "brote";
  "bruja"; "brusco"; "bruto"; "buceo"; "bucle"; "bueno"; "buey"; "bufanda"; "bufón"; "búho";
  "buitre"; "bulto"; "burbuja"; "burla"; "burro"; "buscar"; "butaca"; "buzón"; "caballo";
  "cabeza"; "cabina"; "cabra"; "cacao"; "cadáver"; "cadena"; "caer"; "café"; "caída";
  "caimán"; "caja"; "cajón"; "cal"; "calamar"; "calcio"; "caldo"; "calidad"; "calle"; "calma";
  "calor"; "calvo"; "cama"; "cambio"; "camello"; "camino"; "campo"; "cáncer"; "candil";
  "canela"; "canguro"; "canica"; "canto"; "caña"; "cañón"; "caoba"; "caos"; "capaz";
  "capitán"; "capote"; "captar"; "capucha"; "cara"; "carbón"; "cárcel"; "careta"; "carga";
  "cariño"; "carne"; "carpeta"; "carro"; "carta"; "casa"; "casco"; "casero"; "caspa"; "castor";
  "catorce"; "catre"; "caudal"; "causa"; "cazo"; "cebolla"; "ceder"; "cedro"; "celda";
  "célebre"; "celoso"; "célula"; "cemento"; "ceniza"; "centro"; "cerca"; "cerdo"; "cereza";
  "cero"; "cerrar"; "certeza"; "césped"; "cetro"; "chacal"; "chaleco"; "champú"; "chancla";
  "chapa"; "charla"; "chico"; "chiste"; "chivo"; "choque"; "choza"; "chuleta"; "chupar";
  "ciclón"; "ciego"; "cielo"; "cien"; "cierto"; "cifra"; "cigarro"; "cima"; "cinco"; "cine";
  "cinta"; "ciprés"; "circo"; "ciruela"; "cisne"; "cita"; "ciudad"; "clamor"; "clan"; "claro";
  "clase"; "clave"; "cliente"; "clima"; "clínica"; "cobre"; "cocción"; "cochino"; "cocina";
  "coco"; "código"; "codo"; "cofre"; "coger"; "cohete"; "cojín"; "cojo"; "cola"; "colcha";
  "colegio"; "colgar"; "colina"; "collar"; "colmo"; "columna"; "combate"; "comer"; "comida";
  "cómodo"; "compra"; "conde"; "conejo"; "conga"; "conocer"; "consejo"; "contar"; "copa";
  "copia"; "corazón"; "corbata"; "corcho"; "cordón"; "corona"; "correr"; "coser"; "cosmos";
  "costa"; "cráneo"; "cráter"; "crear"; "crecer"; "creído"; "crema"; "cría"; "crimen";
  "cripta"; "crisis"; "cromo"; "crónica"; "croqueta"; "crudo"; "cruz"; "cuadro"; "cuarto";
  "cuatro"; "cubo"; "cubrir"; "cuchara"; "cuello"; "cuento"; "cuerda"; "cuesta"; "cueva";
  "cuidar"; "culebra"; "culpa"; "culto"; "cumbre"; "cumplir"; "cuna"; "cuneta"; "cuota";
  "cupón"; "cúpula"; "curar"; "curioso"; "curso"; "curva"; "cutis"; "dama"; "danza"; "dar";
  "dardo"; "dátil"; "deber"; "débil"; "década"; "decir"; "dedo"; "defensa"; "definir";
  "dejar"; "delfín"; "delgado"; "delito"; "demora"; "denso"; "dental"; "deporte"; "derecho";
  "derrota"; "desayuno"; "deseo"; "desfile"; "desnudo"; "destino"; "desvío"; "detalle";
  "detener"; "deuda"; "día"; "diablo"; "diadema"; "diamante"; "diana"; "diario"; "dibujo";
  "dictar"; "diente"; "dieta"; "diez"; "difícil"; "digno"; "dilema"; "diluir"; "dinero";
  "directo"; "dirigir"; "disco"; "diseño"; "disfraz"; "diva"; "divino"; "doble"; "doce";
  "dolor"; "domingo"; "don"; "donar"; "dorado"; "dormir"; "dorso"; "dos"; "dosis"; "dragón";
  "droga"; "ducha"; "duda"; "duelo"; "dueño"; "dulce"; "dúo"; "duque"; "durar"; "dureza";
  "duro"; "ébano"; "ebrio"; "echar"; "eco"; "ecuador"; "edad"; "edición"; "edificio"; "editor";
  "educar"; "efecto"; "eficaz"; "eje"; "ejemplo"; "elefante"; "elegir"; "elemento"; "elevar";
  "elipse"; "élite"; "elixir"; "elogio"; "eludir"; "embudo"; "emitir"; "emoción"; "empate";
  "empeño"; "empleo"; "empresa"; "enano"; "encargo"; "enchufe"; "encía"; "enemigo"; "enero";
  "enfado"; "enfermo"; "engaño"; "enigma"; "enlace"; "enorme"; "enredo"; "ensayo"; "enseñar";
  "entero"; "entrar"; "envase"; "envío"; "época"; "equipo"; "erizo"; "escala"; "escena";
  "escolar"; "escribir"; "escudo"; "esencia"; "esfera"; "esfuerzo"; "espada"; "espejo"; "espía";
  "esposa"; "espuma"; "esquí"; "estar"; "este"; "estilo"; "estufa"; "etapa"; "eterno"; "ética";
  "etnia"; "evadir"; "evaluar"; "evento"; "evitar"; "exacto"; "examen"; "exceso"; "excusa";
  "exento"; "exigir"; "exilio"; "existir"; "éxito"; "experto"; "explicar"; "exponer"; "extremo";
  "fábrica"; "fábula"; "fachada"; "fácil"; "factor"; "faena"; "faja"; "falda"; "fallo";
  "falso"; "faltar"; "fama"; "familia"; "famoso"; "faraón"; "farmacia"; "farol"; "farsa";
  "fase"; "fatiga"; "fauna"; "favor"; "fax"; "febrero"; "fecha"; "feliz"; "feo"; "feria";
  "feroz"; "fértil"; "fervor"; "festín"; "fiable"; "fianza"; "fiar"; "fibra"; "ficción";
  "ficha"; "fideo"; "fiebre"; "fiel"; "fiera"; "fiesta"; "figura"; "fijar"; "fijo"; "fila";
  "filete"; "filial"; "filtro"; "fin"; "finca"; "fingir"; "finito"; "firma"; "flaco"; "flauta";
  "flecha"; "flor"; "flota"; "fluir"; "flujo"; "flúor"; "fobia"; "foca"; "fogata"; "fogón";
  "folio"; "folleto"; "fondo"; "forma"; "forro"; "fortuna"; "forzar"; "fosa"; "foto"; "fracaso";
  "frágil"; "franja"; "frase"; "fraude"; "freír"; "freno"; "fresa"; "frío"; "frito"; "fruta";
  "fuego"; "fuente"; "fuerza"; "fuga"; "fumar"; "función"; "funda"; "furgón"; "furia"; "fusil";
  "fútbol"; "futuro"; "gacela"; "gafas"; "gaita"; "gajo"; "gala"; "galería"; "gallo"; "gamba";
  "ganar"; "gancho"; "ganga"; "ganso"; "garaje"; "garza"; "gasolina"; "gastar"; "gato";
  "gavilán"; "gemelo"; "gemir"; "gen"; "género"; "genio"; "gente"; "geranio"; "gerente";
  "germen"; "gesto"; "gigante"; "gimnasio"; "girar"; "giro"; "glaciar"; "globo"; "gloria"; "gol";
  "golfo"; "goloso"; "golpe"; "goma"; "gordo"; "gorila"; "gorra"; "gota"; "goteo"; "gozar";
  "grada"; "gráfico"; "grano"; "grasa"; "gratis"; "grave"; "grieta"; "grillo"; "gripe"; "gris";
  "grito"; "grosor"; "grúa"; "grueso"; "grumo"; "grupo"; "guante"; "guapo"; "guardia"; "guerra";
  "guía"; "guiño"; "guion"; "guiso"; "guitarra"; "gusano"; "gustar"; "haber"; "hábil";
  "hablar"; "hacer"; "hacha"; "hada"; "hallar"; "hamaca"; "harina"; "haz"; "hazaña"; "hebilla";
  "hebra"; "hecho"; "helado"; "helio"; "hembra"; "herir"; "hermano"; "héroe"; "hervir"; "hielo";
  "hierro"; "hígado"; "higiene"; "hijo"; "himno"; "historia"; "hocico"; "hogar"; "hoguera";
  "hoja"; "hombre"; "hongo"; "honor"; "honra"; "hora"; "hormiga"; "horno"; "hostil"; "hoyo";
  "hueco"; "huelga"; "huerta"; "hueso"; "huevo"; "huida"; "huir"; "humano"; "húmedo"; "humilde";
  "humo"; "hundir"; "huracán"; "hurto"; "icono"; "ideal"; "idioma"; "ídolo"; "iglesia";
  "iglú"; "igual"; "ilegal"; "ilusión"; "imagen"; "imán"; "imitar"; "impar"; "imperio";
  "imponer"; "impulso"; "incapaz"; "índice"; "inerte"; "infiel"; "informe"; "ingenio"; "inicio";
  "inmenso"; "inmune"; "innato"; "insecto"; "instante"; "interés"; "íntimo"; "intuir";
  "inútil"; "invierno"; "ira"; "iris"; "ironía"; "isla"; "islote"; "jabalí"; "jabón";
  "jamón"; "jarabe"; "jardín"; "jarra"; "jaula"; "jazmín"; "jefe"; "jeringa"; "jinete";
  "jornada"; "joroba"; "joven"; "joya"; "juerga"; "jueves"; "juez"; "jugador"; "jugo"; "juguete";
  "juicio"; "junco"; "jungla"; "junio"; "juntar"; "júpiter"; "jurar"; "justo"; "juvenil";
  "juzgar"; "kilo"; "koala"; "labio"; "lacio"; "lacra"; "lado"; "ladrón"; "lagarto"; "lágrima";
  "laguna"; "laico"; "lamer"; "lámina"; "lámpara"; "lana"; "lancha"; "langosta"; "lanza";
  "lápiz"; "largo"; "larva"; "lástima"; "lata"; "látex"; "latir"; "laurel"; "lavar"; "lazo";
  "leal"; "lección"; "leche"; "lector"; "leer"; "legión"; "legumbre"; "lejano"; "lengua";
  "lento"; "leña"; "león"; "leopardo"; "lesión"; "letal"; "letra"; "leve"; "leyenda";
  "libertad"; "libro"; "licor"; "líder"; "lidiar"; "lienzo"; "liga"; "ligero"; "lima";
  "límite"; "limón"; "limpio"; "lince"; "lindo"; "línea"; "lingote"; "lino"; "linterna";
  "líquido"; "liso"; "lista"; "litera"; "litio"; "litro"; "llaga"; "llama"; "llanto"; "llave";
  "llegar"; "llenar"; "llevar"; "llorar"; "llover"; "lluvia"; "lobo"; "loción"; "loco";
  "locura"; "lógica"; "logro"; "lombriz"; "lomo"; "lonja"; "lote"; "lucha"; "lucir"; "lugar";
  "lujo"; "luna"; "lunes"; "lupa"; "lustro"; "luto"; "luz"; "maceta"; "macho"; "madera"; "madre";
  "maduro"; "maestro"; "mafia"; "magia"; "mago"; "maíz"; "maldad"; "maleta"; "malla"; "malo";
  "mamá"; "mambo"; "mamut"; "manco"; "mando"; "manejar"; "manga"; "maniquí"; "manjar"; "mano";
  "manso"; "manta"; "mañana"; "mapa"; "máquina"; "mar"; "marco"; "marea"; "marfil"; "margen";
  "marido"; "mármol"; "marrón"; "martes"; "marzo"; "masa"; "máscara"; "masivo"; "matar";
  "materia"; "matiz"; "matriz"; "máximo"; "mayor"; "mazorca"; "mecha"; "medalla"; "medio";
  "médula"; "mejilla"; "mejor"; "melena"; "melón"; "memoria"; "menor"; "mensaje"; "mente";
  "menú"; "mercado"; "merengue"; "mérito"; "mes"; "mesón"; "meta"; "meter"; "método";
  "metro"; "mezcla"; "miedo"; "miel"; "miembro"; "miga"; "mil"; "milagro"; "militar"; "millón";
  "mimo"; "mina"; "minero"; "mínimo"; "minuto"; "miope"; "mirar"; "misa"; "miseria"; "misil";
  "mismo"; "mitad"; "mito"; "mochila"; "moción"; "moda"; "modelo"; "moho"; "mojar"; "molde";
  "moler"; "molino"; "momento"; "momia"; "monarca"; "moneda"; "monja"; "monto"; "moño";
  "morada"; "morder"; "moreno"; "morir"; "morro"; "morsa"; "mortal"; "mosca"; "mostrar";
  "motivo"; "mover"; "móvil"; "mozo"; "mucho"; "mudar"; "mueble"; "muela"; "muerte"; "muestra";
  "mugre"; "mujer"; "mula"; "muleta"; "multa"; "mundo"; "muñeca"; "mural"; "muro"; "músculo";
  "museo"; "musgo"; "música"; "muslo"; "nácar"; "nación"; "nadar"; "naipe"; "naranja";
  "nariz"; "narrar"; "nasal"; "natal"; "nativo"; "natural"; "náusea"; "naval"; "nave";
  "navidad"; "necio"; "néctar"; "negar"; "negocio"; "negro"; "neón"; "nervio"; "neto";
  "neutro"; "nevar"; "nevera"; "nicho"; "nido"; "niebla"; "nieto"; "niñez"; "niño"; "nítido";
  "nivel"; "nobleza"; "noche"; "nómina"; "noria"; "norma"; "norte"; "nota"; "noticia"; "novato";
  "novela"; "novio"; "nube"; "nuca"; "núcleo"; "nudillo"; "nudo"; "nuera"; "nueve"; "nuez";
  "nulo"; "número"; "nutria"; "oasis"; "obeso"; "obispo"; "objeto"; "obra"; "obrero";
  "observar"; "obtener"; "obvio"; "oca"; "ocaso"; "océano"; "ochenta"; "ocho"; "ocio"; "ocre";
  "octavo"; "octubre"; "oculto"; "ocupar"; "ocurrir"; "odiar"; "odio"; "odisea"; "oeste";
  "ofensa"; "oferta"; "oficio"; "ofrecer"; "ogro"; "oído"; "oír"; "ojo"; "ola"; "oleada";
  "olfato"; "olivo"; "olla"; "olmo"; "olor"; "olvido"; "ombligo"; "onda"; "onza"; "opaco";
  "opción"; "ópera"; "opinar"; "oponer"; "optar"; "óptica"; "opuesto"; "oración"; "orador";
  "oral"; "órbita"; "orca"; "orden"; "oreja"; "órgano"; "orgía"; "orgullo"; "oriente";
  "origen"; "orilla"; "oro"; "orquesta"; "oruga"; "osadía"; "oscuro"; "osezno"; "oso"; "ostra";
  "otoño"; "otro"; "oveja"; "óvulo"; "óxido"; "oxígeno"; "oyente"; "ozono"; "pacto"; "padre";
  "paella"; "página"; "pago"; "país"; "pájaro"; "palabra"; "palco"; "paleta"; "pálido";
  "palma"; "paloma"; "palpar"; "pan"; "panal"; "pánico"; "pantera"; "pañuelo"; "papá";
  "papel"; "papilla"; "paquete"; "parar"; "parcela"; "pared"; "parir"; "paro"; "párpado";
  "parque"; "párrafo"; "parte"; "pasar"; "paseo"; "pasión"; "paso"; "pasta"; "pata"; "patio";
  "patria"; "pausa"; "pauta"; "pavo"; "payaso"; "peatón"; "pecado"; "pecera"; "pecho"; "pedal";
  "pedir"; "pegar"; "peine"; "pelar"; "peldaño"; "pelea"; "peligro"; "pellejo"; "pelo";
  "peluca"; "pena"; "pensar"; "peñón"; "peón"; "peor"; "pepino"; "pequeño"; "pera"; "percha";
  "perder"; "pereza"; "perfil"; "perico"; "perla"; "permiso"; "perro"; "persona"; "pesa";
  "pesca"; "pésimo"; "pestaña"; "pétalo"; "petróleo"; "pez"; "pezuña"; "picar"; "pichón";
  "pie"; "piedra"; "pierna"; "pieza"; "pijama"; "pilar"; "piloto"; "pimienta"; "pino"; "pintor";
  "pinza"; "piña"; "piojo"; "pipa"; "pirata"; "pisar"; "piscina"; "piso"; "pista"; "pitón";
  "pizca"; "placa"; "plan"; "plata"; "playa"; "plaza"; "pleito"; "pleno"; "plomo"; "pluma";
  "plural"; "pobre"; "poco"; "poder"; "podio"; "poema"; "poesía"; "poeta"; "polen"; "policía";
  "pollo"; "polvo"; "pomada"; "pomelo"; "pomo"; "pompa"; "poner"; "porción"; "portal"; "posada";
  "poseer"; "posible"; "poste"; "potencia"; "potro"; "pozo"; "prado"; "precoz"; "pregunta";
  "premio"; "prensa"; "preso"; "previo"; "primo"; "príncipe"; "prisión"; "privar"; "proa";
  "probar"; "proceso"; "producto"; "proeza"; "profesor"; "programa"; "prole"; "promesa";
  "pronto"; "propio"; "próximo"; "prueba"; "público"; "puchero"; "pudor"; "pueblo"; "puerta";
  "puesto"; "pulga"; "pulir"; "pulmón"; "pulpo"; "pulso"; "puma"; "punto"; "puñal"; "puño";
  "pupa"; "pupila"; "puré"; "quedar"; "queja"; "quemar"; "querer"; "queso"; "quieto";
  "química"; "quince"; "quitar"; "rábano"; "rabia"; "rabo"; "ración"; "radical"; "raíz";
  "rama"; "rampa"; "rancho"; "rango"; "rapaz"; "rápido"; "rapto"; "rasgo"; "raspa"; "rato";
  "rayo"; "raza"; "razón"; "reacción"; "realidad"; "rebaño"; "rebote"; "recaer"; "receta";
  "rechazo"; "recoger"; "recreo"; "recto"; "recurso"; "red"; "redondo"; "reducir"; "reflejo";
  "reforma"; "refrán"; "refugio"; "regalo"; "regir"; "regla"; "regreso"; "rehén"; "reino";
  "reír"; "reja"; "relato"; "relevo"; "relieve"; "relleno"; "reloj"; "remar"; "remedio"; "remo";
  "rencor"; "rendir"; "renta"; "reparto"; "repetir"; "reposo"; "reptil"; "res"; "rescate";
  "resina"; "respeto"; "resto"; "resumen"; "retiro"; "retorno"; "retrato"; "reunir"; "revés";
  "revista"; "rey"; "rezar"; "rico"; "riego"; "rienda"; "riesgo"; "rifa"; "rígido"; "rigor";
  "rincón"; "riñón"; "río"; "riqueza"; "risa"; "ritmo"; "rito"; "rizo"; "roble"; "roce";
  "rociar"; "rodar"; "rodeo"; "rodilla"; "roer"; "rojizo"; "rojo"; "romero"; "romper"; "ron";
  "ronco"; "ronda"; "ropa"; "ropero"; "rosa"; "rosca"; "rostro"; "rotar"; "rubí"; "rubor";
  "rudo"; "rueda"; "rugir"; "ruido"; "ruina"; "ruleta"; "rulo"; "rumbo"; "rumor"; "ruptura";
  "ruta"; "rutina"; "sábado"; "saber"; "sabio"; "sable"; "sacar"; "sagaz"; "sagrado"; "sala";
  "saldo"; "salero"; "salir"; "salmón"; "salón"; "salsa"; "salto"; "salud"; "salvar"; "samba";
  "sanción"; "sandía"; "sanear"; "sangre"; "sanidad"; "sano"; "santo"; "sapo"; "saque";
  "sardina"; "sartén"; "sastre"; "satán"; "sauna"; "saxofón"; "sección"; "seco"; "secreto";
  "secta"; "sed"; "seguir"; "seis"; "sello"; "selva"; "semana"; "semilla"; "senda"; "sensor";
  "señal"; "señor"; "separar"; "sepia"; "sequía"; "ser"; "serie"; "sermón"; "servir";
  "sesenta"; "sesión"; "seta"; "setenta"; "severo"; "sexo"; "sexto"; "sidra"; "siesta"; "siete";
  "siglo"; "signo"; "sílaba"; "silbar"; "silencio"; "silla"; "símbolo"; "simio"; "sirena";
  "sistema"; "sitio"; "situar"; "sobre"; "socio"; "sodio"; "sol"; "solapa"; "soldado"; "soledad";
  "sólido"; "soltar"; "solución"; "sombra"; "sondeo"; "sonido"; "sonoro"; "sonrisa"; "sopa";
  "soplar"; "soporte"; "sordo"; "sorpresa"; "sorteo"; "sostén"; "sótano"; "suave"; "subir";
  "suceso"; "sudor"; "suegra"; "suelo"; "sueño"; "suerte"; "sufrir"; "sujeto"; "sultán";
  "sumar"; "superar"; "suplir"; "suponer"; "supremo"; "sur"; "surco"; "sureño"; "surgir";
  "susto"; "sutil"; "tabaco"; "tabique"; "tabla"; "tabú"; "taco"; "tacto"; "tajo"; "talar";
  "talco"; "talento"; "talla"; "talón"; "tamaño"; "tambor"; "tango"; "tanque"; "tapa";
  "tapete"; "tapia"; "tapón"; "taquilla"; "tarde"; "tarea"; "tarifa"; "tarjeta"; "tarot";
  "tarro"; "tarta"; "tatuaje"; "tauro"; "taza"; "tazón"; "teatro"; "techo"; "tecla"; "técnica";
  "tejado"; "tejer"; "tejido"; "tela"; "teléfono"; "tema"; "temor"; "templo"; "tenaz"; "tender";
  "tener"; "tenis"; "tenso"; "teoría"; "terapia"; "terco"; "término"; "ternura"; "terror";
  "tesis"; "tesoro"; "testigo"; "tetera"; "texto"; "tez"; "tibio"; "tiburón"; "tiempo";
  "tienda"; "tierra"; "tieso"; "tigre"; "tijera"; "tilde"; "timbre"; "tímido"; "timo"; "tinta";
  "tío"; "típico"; "tipo"; "tira"; "tirón"; "titán"; "títere"; "título"; "tiza"; "toalla";
  "tobillo"; "tocar"; "tocino"; "todo"; "toga"; "toldo"; "tomar"; "tono"; "tonto"; "topar";
  "tope"; "toque"; "tórax"; "torero"; "tormenta"; "torneo"; "toro"; "torpedo"; "torre"; "torso";
  "tortuga"; "tos"; "tosco"; "toser"; "tóxico"; "trabajo"; "tractor"; "traer"; "tráfico";
  "trago"; "traje"; "tramo"; "trance"; "trato"; "trauma"; "trazar"; "trébol"; "tregua";
  "treinta"; "tren"; "trepar"; "tres"; "tribu"; "trigo"; "tripa"; "triste"; "triunfo"; "trofeo";
  "trompa"; "tronco"; "tropa"; "trote"; "trozo"; "truco"; "trueno"; "trufa"; "tubería"; "tubo";
  "tuerto"; "tumba"; "tumor"; "túnel"; "túnica"; "turbina"; "turismo"; "turno"; "tutor";
  "ubicar"; "úlcera"; "umbral"; "unidad"; "unir"; "universo"; "uno"; "untar"; "uña"; "urbano";
  "urbe"; "urgente"; "urna"; "usar"; "usuario"; "útil"; "utopía"; "uva"; "vaca"; "vacío";
  "vacuna"; "vagar"; "vago"; "vaina"; "vajilla"; "vale"; "válido"; "valle"; "valor"; "válvula";
  "vampiro"; "vara"; "variar"; "varón"; "vaso"; "vecino"; "vector"; "vehículo"; "veinte";
  "vejez"; "vela"; "velero"; "veloz"; "vena"; "vencer"; "venda"; "veneno"; "vengar"; "venir";
  "venta"; "venus"; "ver"; "verano"; "verbo"; "verde"; "vereda"; "verja"; "verso"; "verter";
  "vía"; "viaje"; "vibrar"; "vicio"; "víctima"; "vida"; "vídeo"; "vidrio"; "viejo"; "viernes";
  "vigor"; "vil"; "villa"; "vinagre"; "vino"; "viñedo"; "violín"; "viral"; "virgo"; "virtud";
  "visor"; "víspera"; "vista"; "vitamina"; "viudo"; "vivaz"; "vivero"; "vivir"; "vivo";
  "volcán"; "volumen"; "volver"; "voraz"; "votar"; "voto"; "voz"; "vuelo"; "vulgar"; "yacer";
  "yate"; "yegua"; "yema"; "yerno"; "yeso"; "yodo"; "yoga"; "yogur"; "zafiro"; "zanja"; "zapato";
  "zarza"; "zona"; "zorro"; "zumo"; "zurdo"]%string.

Definition es_ : list Z := cstrings es_list.

Definition es_i : list Z := [
  0; 8; 16; 22; 30; 38; 44; 51; 58; 64; 71; 77; 84; 93; 100; 109; 116; 123; 130; 138; 146; 154;
  161; 168; 174; 181; 186; 193; 200; 207; 215; 222; 229; 237; 245; 252; 259; 266; 274; 282; 292;
  299; 307; 314; 321; 330; 337; 344; 352; 358; 363; 369; 378; 384; 390; 397; 402; 409; 417; 423;
  430; 440; 448; 455; 460; 468; 476; 482; 489; 496; 503; 509; 517; 522; 532; 539; 547; 554; 559;
  566; 576; 582; 589; 596; 601; 608; 615; 621; 628; 635; 643; 650; 657; 665; 674; 680; 686; 694;
  699; 706; 713; 719; 727; 733; 739; 747; 754; 763; 770; 778; 785; 792; 799; 807; 814; 820; 827;
  835; 844; 852; 858; 865; 873; 881; 886; 894; 900; 907; 913; 922; 930; 938; 944; 950; 958; 963;
  973; 981; 989; 997; 1002; 1008; 1016; 1022; 1029; 1037; 1043; 1053; 1061; 1067; 1072; 1080;
  1088; 1094; 1101; 1106; 1114; 1118; 1124; 1131; 1139; 1148; 1153; 1160; 1168; 1174; 1182; 1187;
  1195; 1204; 1212; 1218; 1225; 1232; 1239; 1245; 1252; 1257; 1264; 1269; 1277; 1284; 1292; 1299;
  1305; 1312; 1318; 1324; 1329; 1334; 1342; 1350; 1356; 1361; 1368; 1374; 1378; 1387; 1393; 1402;
  1410; 1416; 1421; 1427; 1433; 1443; 1448; 1454; 1463; 1470; 1475; 1480; 1486; 1492; 1500; 1506;
  1512; 1520; 1529; 1535; 1543; 1549; 1555; 1562; 1568; 1574; 1581; 1587; 1597; 1606; 1613; 1621;
  1631; 1637; 1644; 1651; 1657; 1664; 1671; 1677; 1683; 1688; 1695; 1701; 1706; 1712; 1719; 1726;
  1732; 1736; 1743; 1748; 1753; 1760; 1765; 1772; 1778; 1783; 1790; 1796; 1802; 1809; 1816; 1821;
  1830; 1836; 1843; 1850; 1855; 1863; 1872; 1878; 1884; 1890; 1897; 1903; 1910; 1917; 1923; 1929;
  1935; 1942; 1948; 1954; 1961; 1967; 1973; 1979; 1985; 1990; 1998; 2006; 2013; 2020; 2026; 2034;
  2040; 2046; 2053; 2060; 2068; 2076; 2083; 2090; 2096; 2102; 2112; 2119; 2124; 2131; 2139; 2148;
  2153; 2161; 2165; 2173; 2180; 2186; 2194; 2200; 2206; 2212; 2218; 2223; 2230; 2238; 2245; 2251;
  2260; 2267; 2274; 2282; 2289; 2295; 2302; 2312; 2318; 2323; 2329; 2339; 2346; 2353; 2361; 2366;
  2375; 2384; 2391; 2397; 2406; 2412; 2420; 2426; 2432; 2437; 2443; 2450; 2456; 2463; 2471; 2477;
  2484; 2490; 2495; 2503; 2509; 2515; 2521; 2531; 2538; 2547; 2555; 2562; 2569; 2575; 2581; 2588;
  2593; 2600; 2608; 2617; 2623; 2630; 2638; 2647; 2655; 2661; 2668; 2674; 2681; 2687; 2694; 2700;
  2708; 2715; 2724; 2730; 2736; 2741; 2748; 2754; 2762; 2767; 2773; 2778; 2784; 2793; 2799; 2807;
  2813; 2818; 2825; 2832; 2837; 2843; 2849; 2855; 2863; 2869; 2879; 2885; 2895; 2903; 2910; 2915;
  2924; 2929; 2935; 2941; 2948; 2956; 2961; 2966; 2973; 2981; 2988; 2995; 3002; 3008; 3016; 3024;
  3030; 3037; 3046; 3053; 3059; 3066; 3072; 3080; 3088; 3095; 3100; 3106; 3116; 3124; 3131; 3140;
  3147; 3154; 3160; 3167; 3173; 3182; 3191; 3197; 3204; 3213; 3219; 3226; 3233; 3240; 3247; 3253;
  3263; 3272; 3278; 3283; 3290; 3297; 3304; 3309; 3316; 3324; 3331; 3338; 3345; 3352; 3358; 3365;
  3373; 3379; 3385; 3392; 3400; 3405; 3412; 3418; 3426; 3435; 3441; 3449; 3455; 3461; 3467; 3472;
  3478; 3482; 3488; 3496; 3502; 3510; 3519; 3525; 3530; 3538; 3546; 3552; 3561; 3569; 3576; 3583;
  3589; 3596; 3604; 3612; 3620; 3629; 3635; 3643; 3651; 3659; 3668; 3676; 3684; 3690; 3696; 3703;
  3711; 3720; 3726; 3733; 3740; 3747; 3754; 3760; 3765; 3775; 3781; 3788; 3795; 3802; 3810; 3818;
  3824; 3833; 3841; 3846; 3853; 3859; 3864; 3870; 3878; 3882; 3888; 3895; 3902; 3908; 3912; 3918;
  3927; 3933; 3939; 3944; 3950; 3958; 3964; 3970; 3976; 3982; 3989; 3994; 4002; 4008; 4014; 4018;
  4026; 4031; 4041; 4050; 4057; 4064; 4071; 4078; 4082; 4090; 4099; 4106; 4115; 4122; 4129; 4137;
  4144; 4151; 4158; 4165; 4172; 4182; 4189; 4198; 4205; 4213; 4219; 4227; 4235; 4243; 4251; 4257;
  4264; 4272; 4281; 4288; 4295; 4302; 4309; 4316; 4326; 4333; 4340; 4347; 4355; 4363; 4370; 4376;
  4383; 4390; 4398; 4407; 4414; 4422; 4429; 4438; 4445; 4452; 4460; 4467; 4474; 4482; 4488; 4493;
  4500; 4507; 4513; 4520; 4528; 4534; 4541; 4549; 4556; 4563; 4570; 4577; 4584; 4591; 4598; 4605;
  4612; 4620; 4628; 4636; 4645; 4653; 4661; 4671; 4680; 4688; 4696; 4703; 4709; 4714; 4720; 4726;
  4732; 4739; 4744; 4752; 4759; 4768; 4777; 4783; 4789; 4794; 4801; 4807; 4813; 4817; 4825; 4831;
  4837; 4841; 4847; 4853; 4862; 4869; 4878; 4885; 4892; 4897; 4903; 4913; 4919; 4925; 4932; 4937;
  4943; 4950; 4957; 4963; 4968; 4973; 4980; 4987; 4994; 4998; 5004; 5011; 5018; 5024; 5030; 5037;
  5044; 5049; 5055; 5061; 5067; 5075; 5081; 5086; 5093; 5101; 5107; 5115; 5121; 5127; 5133; 5141;
  5148; 5153; 5158; 5166; 5175; 5182; 5188; 5195; 5203; 5209; 5215; 5222; 5228; 5234; 5240; 5247;
  5254; 5259; 5265; 5275; 5281; 5290; 5296; 5302; 5311; 5318; 5325; 5331; 5337; 5342; 5347; 5357;
  5363; 5369; 5375; 5382; 5388; 5394; 5401; 5407; 5416; 5423; 5428; 5438; 5445; 5451; 5455; 5464;
  5470; 5476; 5484; 5492; 5499; 5505; 5513; 5522; 5528; 5533; 5541; 5547; 5554; 5558; 5564; 5571;
  5577; 5582; 5588; 5595; 5601; 5606; 5612; 5618; 5624; 5634; 5640; 5646; 5653; 5659; 5666; 5673;
  5679; 5684; 5690; 5697; 5704; 5711; 5717; 5723; 5730; 5736; 5744; 5751; 5758; 5766; 5772; 5778;
  5787; 5794; 5801; 5807; 5815; 5822; 5828; 5834; 5839; 5846; 5853; 5860; 5864; 5873; 5881; 5887;
  5893; 5900; 5906; 5913; 5919; 5927; 5935; 5942; 5948; 5955; 5964; 5972; 5977; 5983; 5992; 5999;
  6005; 6013; 6018; 6025; 6031; 6037; 6043; 6048; 6056; 6062; 6069; 6074; 6080; 6087; 6094; 6100;
  6106; 6112; 6117; 6124; 6133; 6141; 6146; 6153; 6163; 6169; 6175; 6181; 6188; 6196; 6204; 6211;
  6217; 6224; 6234; 6241; 6248; 6255; 6261; 6269; 6277; 6285; 6293; 6302; 6309; 6316; 6324; 6332;
  6339; 6347; 6354; 6361; 6369; 6378; 6388; 6397; 6404; 6413; 6422; 6426; 6431; 6440; 6445; 6452;
  6461; 6469; 6477; 6484; 6493; 6499; 6505; 6514; 6519; 6527; 6534; 6542; 6549; 6555; 6560; 6567;
  6574; 6579; 6587; 6592; 6600; 6607; 6613; 6620; 6626; 6633; 6643; 6649; 6655; 6663; 6670; 6675;
  6681; 6687; 6693; 6699; 6704; 6713; 6721; 6731; 6738; 6744; 6750; 6759; 6769; 6774; 6781; 6790;
  6796; 6804; 6810; 6816; 6826; 6831; 6839; 6845; 6852; 6858; 6863; 6868; 6878; 6884; 6891; 6896;
  6905; 6914; 6921; 6928; 6934; 6941; 6948; 6957; 6966; 6972; 6978; 6983; 6991; 7000; 7006; 7012;
  7020; 7027; 7034; 7039; 7046; 7051; 7060; 7068; 7075; 7081; 7087; 7095; 7103; 7108; 7117; 7127;
  7132; 7138; 7145; 7151; 7157; 7163; 7169; 7176; 7182; 7189; 7196; 7203; 7210; 7217; 7224; 7229;
  7238; 7243; 7250; 7259; 7265; 7273; 7278; 7284; 7289; 7295; 7301; 7307; 7312; 7317; 7323; 7328;
  7335; 7340; 7344; 7351; 7357; 7364; 7370; 7377; 7385; 7391; 7397; 7402; 7409; 7416; 7423; 7429;
  7434; 7441; 7447; 7453; 7459; 7465; 7473; 7479; 7489; 7496; 7501; 7507; 7513; 7522; 7527; 7537;
  7541; 7547; 7553; 7560; 7567; 7574; 7583; 7592; 7599; 7605; 7610; 7620; 7627; 7633; 7641; 7647;
  7654; 7663; 7669; 7677; 7683; 7691; 7697; 7706; 7714; 7720; 7727; 7735; 7743; 7749; 7757; 7763;
  7770; 7778; 7787; 7796; 7800; 7808; 7813; 7819; 7828; 7834; 7841; 7847; 7852; 7860; 7865; 7869;
  7877; 7885; 7894; 7899; 7904; 7911; 7920; 7927; 7933; 7939; 7944; 7952; 7958; 7964; 7970; 7975;
  7983; 7992; 7997; 8004; 8009; 8015; 8021; 8027; 8034; 8042; 8048; 8056; 8063; 8069; 8075; 8082;
  8089; 8096; 8103; 8109; 8115; 8121; 8128; 8134; 8142; 8149; 8155; 8163; 8168; 8174; 8180; 8187;
  8193; 8200; 8208; 8214; 8220; 8225; 8232; 8238; 8244; 8253; 8259; 8264; 8274; 8280; 8286; 8295;
  8301; 8309; 8318; 8324; 8330; 8338; 8344; 8351; 8357; 8363; 8370; 8378; 8387; 8393; 8398; 8406;
  8412; 8421; 8427; 8435; 8441; 8448; 8455; 8460; 8467; 8473; 8480; 8486; 8491; 8498; 8504; 8512;
  8519; 8528; 8534; 8542; 8548; 8557; 8563; 8569; 8575; 8580; 8588; 8595; 8602; 8608; 8613; 8618;
  8627; 8635; 8640; 8646; 8652; 8657; 8662; 8671; 8678; 8684; 8690; 8697; 8704; 8709; 8716; 8725;
  8733; 8739; 8743; 8749; 8758; 8766; 8771; 8776; 8781; 8788; 8796; 8803; 8810; 8818; 8824; 8829;
  8836; 8842; 8849; 8856; 8863; 8871; 8876; 8883; 8889; 8893; 8897; 8904; 8911; 8917; 8922; 8927;
  8932; 8939; 8947; 8952; 8957; 8963; 8972; 8980; 8987; 8994; 9000; 9009; 9017; 9027; 9034; 9039;
  9048; 9053; 9059; 9065; 9074; 9082; 9090; 9098; 9105; 9112; 9116; 9125; 9131; 9140; 9147; 9154;
  9158; 9164; 9172; 9177; 9183; 9191; 9199; 9209; 9216; 9222; 9228; 9234; 9241; 9250; 9255; 9262;
  9271; 9279; 9285; 9292; 9301; 9307; 9314; 9321; 9325; 9331; 9340; 9348; 9358; 9365; 9371; 9379;
  9387; 9393; 9401; 9407; 9413; 9418; 9428; 9435; 9445; 9451; 9457; 9463; 9472; 9477; 9483; 9488;
  9494; 9501; 9507; 9513; 9518; 9525; 9534; 9541; 9548; 9554; 9560; 9566; 9572; 9578; 9584; 9594;
  9600; 9608; 9616; 9621; 9628; 9633; 9640; 9650; 9657; 9662; 9669; 9679; 9684; 9691; 9698; 9705;
  9712; 9719; 9725; 9733; 9739; 9747; 9752; 9758; 9767; 9777; 9786; 9797; 9801; 9810; 9816; 9825;
  9829; 9836; 9843; 9849; 9856; 9862; 9869; 9878; 9883; 9890; 9896; 9903; 9909; 9914; 9921; 9927;
  9935; 9940; 9946; 9954; 9960; 9966; 9971; 9977; 9983; 9989; 9996; 10002; 10008; 10014; 10021;
  10027; 10032; 10038; 10044; 10050; 10059; 10065; 10071; 10081; 10087; 10093; 10100; 10107;
  10112; 10118; 10124; 10134; 10141; 10148; 10155; 10163; 10169; 10178; 10184; 10189; 10195;
  10202; 10211; 10218; 10225; 10231; 10238; 10244; 10255; 10265; 10272; 10277; 10284; 10292;
  10301; 10308; 10317; 10326; 10332; 10340; 10347; 10354; 10364; 10371; 10381; 10389; 10395;
  10402; 10409; 10416; 10422; 10428; 10437; 10443; 10449; 10454; 10460; 10468; 10475; 10480;
  10487; 10494; 10501; 10507; 10514; 10521; 10527; 10534; 10544; 10551; 10558; 10567; 10573;
  10578; 10587; 10595; 10602; 10607; 10613; 10620; 10626; 10632; 10641; 10647; 10653; 10659;
  10664; 10669; 10674; 10682; 10693; 10702; 10711; 10718; 10725; 10732; 10740; 10748; 10755;
  10761; 10769; 10773; 10781; 10789; 10797; 10805; 10814; 10822; 10829; 10835; 10841; 10849;
  10857; 10863; 10870; 10875; 10882; 10889; 10897; 10905; 10911; 10917; 10925; 10930; 10937;
  10944; 10950; 10958; 10966; 10973; 10980; 10984; 10992; 10999; 11007; 11013; 11021; 11028;
  11036; 11044; 11051; 11059; 11067; 11071; 11077; 11082; 11088; 11095; 11102; 11107; 11116;
  11122; 11131; 11141; 11147; 11155; 11160; 11166; 11171; 11176; 11182; 11187; 11194; 11200;
  11206; 11214; 11219; 11226; 11231; 11238; 11245; 11249; 11255; 11261; 11266; 11273; 11278;
  11284; 11291; 11297; 11304; 11310; 11315; 11321; 11327; 11333; 11339; 11346; 11351; 11357;
  11363; 11371; 11376; 11383; 11392; 11398; 11404; 11410; 11416; 11422; 11430; 11435; 11441;
  11448; 11454; 11463; 11471; 11477; 11483; 11489; 11496; 11502; 11512; 11521; 11528; 11535;
  11543; 11548; 11554; 11559; 11565; 11573; 11582; 11589; 11597; 11603; 11613; 11623; 11628;
  11636; 11642; 11646; 11653; 11658; 11664; 11670; 11677; 11685; 11691; 11698; 11706; 11714;
  11722; 11728; 11737; 11741; 11747; 11756; 11763; 11771; 11780; 11785; 11793; 11800; 11805;
  11811; 11817; 11824; 11830; 11836; 11842; 11851; 11858; 11867; 11873; 11883; 11889; 11896;
  11904; 11910; 11917; 11923; 11929; 11935; 11939; 11946; 11954; 11962; 11971; 11978; 11989;
  11996; 12003; 12010; 12017; 12025; 12030; 12037; 12045; 12051; 12060; 12067; 12076; 12085;
  12091; 12097; 12104; 12110; 12117; 12123; 12131; 12138; 12145; 12152; 12161; 12167; 12175;
  12182; 12190; 12198; 12202; 12208; 12217; 12224; 12230; 12236; 12243; 12251; 12257; 12264;
  12269; 12275; 12280; 12286; 12292; 12300; 12306; 12314; 12323; 12330; 12336; 12343; 12348;
  12355; 12361; 12369; 12378; 12384; 12390; 12397; 12405; 12411; 12417; 12423; 12431; 12437;
  12442; 12450; 12457; 12463; 12469; 12479; 12486; 12492; 12499; 12504; 12515; 12520; 12526;
  12533; 12539; 12546; 12552; 12558; 12564; 12573; 12581; 12587; 12597; 12605; 12612; 12618;
  12625; 12633; 12640; 12646; 12650; 12656; 12666; 12673; 12680; 12687; 12693; 12699; 12706;
  12712; 12719; 12728; 12733; 12739; 12745; 12754; 12759; 12764; 12772; 12780; 12789; 12798;
  12803; 12810; 12818; 12824; 12831; 12836; 12841; 12847; 12853; 12858; 12864; 12870; 12875;
  12881; 12889; 12896; 12905; 12912; 12917; 12925; 12931; 12937; 12945; 12949; 12955; 12961;
  12970; 12978; 12986; 12992; 13002; 13008; 13014; 13020; 13027; 13033; 13040; 13047; 13056;
  13063; 13071; 13076; 13083; 13088; 13094; 13100; 13106; 13113; 13121; 13128; 13135; 13142;
  13148; 13154; 13160; 13166; 13173; 13179; 13189; 13194; 13201; 13207; 13213; 13221; 13230;
  13238; 13246; 13252; 13258; 13265; 13274; 13281; 13288; 13293; 13302; 13306; 13312; 13318;
  13325; 13330; 13338; 13343; 13348; 13356; 13363; 13372; 13376; 13381; 13389; 13396; 13402;
  13407; 13413; 13421; 13426; 13435; 13441; 13447; 13457; 13465; 13470; 13477; 13485; 13490;
  13497; 13504; 13515; 13522; 13528; 13533; 13540; 13546; 13551; 13558; 13564; 13571; 13578;
  13584; 13590; 13596; 13600; 13607; 13613; 13619; 13626; 13632; 13638; 13645; 13651; 13657;
  13664; 13670; 13680; 13685; 13693; 13700; 13706; 13714; 13720; 13724; 13730; 13738; 13743;
  13752; 13761; 13767; 13773; 13780; 13786; 13796; 13802; 13811; 13817; 13823; 13830; 13836;
  13841; 13850; 13858; 13865; 13871; 13877; 13882; 13886; 13892; 13899; 13905; 13910; 13916;
  13921; 13927; 13932; 13937; 13942; 13948; 13955; 13961; 13968; 13974; 13979; 13985; 13990;
  13996].

Definition es_words : words := const_words 2048 11 false es_ es_i.

(** ** French *)

Definition fr_list : list string := [
  "abaisser"; "abandon"; "abdiquer"; "abeille"; "abolir"; "aborder"; "aboutir"; "aboyer";
  "abrasif"; "abreuver"; "abriter"; "abroger"; "abrupt"; "absence"; "absolu"; "absurde";
  "abusif"; "abyssal"; "académie"; "acajou"; "acarien"; "accabler"; "accepter"; "acclamer";
  "accolade"; "accroche"; "accuser"; "acerbe"; "achat"; "acheter"; "aciduler"; "acier";
  "acompte"; "acquérir"; "acronyme"; "acteur"; "actif"; "actuel"; "adepte"; "adéquat";
  "adhésif"; "adjectif"; "adjuger"; "admettre"; "admirer"; "adopter"; "adorer"; "adoucir";
  "adresse"; "adroit"; "adulte"; "adverbe"; "aérer"; "aéronef"; "affaire"; "affecter";
  "affiche"; "affreux"; "affubler"; "agacer"; "agencer"; "agile"; "agiter"; "agrafer";
  "agréable"; "agrume"; "aider"; "aiguille"; "ailier"; "aimable"; "aisance"; "ajouter";
  "ajuster"; "alarmer"; "alchimie"; "alerte"; "algèbre"; "algue"; "aliéner"; "aliment";
  "alléger"; "alliage"; "allouer"; "allumer"; "alourdir"; "alpaga"; "altesse"; "alvéole";
  "amateur"; "ambigu"; "ambre"; "aménager"; "amertume"; "amidon"; "amiral"; "amorcer"; "amour";
  "amovible"; "amphibie"; "ampleur"; "amusant"; "analyse"; "anaphore"; "anarchie"; "anatomie";
  "ancien"; "anéantir"; "angle"; "angoisse"; "anguleux"; "animal"; "annexer"; "annonce";
  "annuel"; "anodin"; "anomalie"; "anonyme"; "anormal"; "antenne"; "antidote"; "anxieux";
  "apaiser"; "apéritif"; "aplanir"; "apologie"; "appareil"; "appeler"; "apporter"; "appuyer";
  "aquarium"; "aqueduc"; "arbitre"; "arbuste"; "ardeur"; "ardoise"; "argent"; "arlequin";
  "armature"; "armement"; "armoire"; "armure"; "arpenter"; "arracher"; "arriver"; "arroser";
  "arsenic"; "artériel"; "article"; "aspect"; "asphalte"; "aspirer"; "assaut"; "asservir";
  "assiette"; "associer"; "assurer"; "asticot"; "astre"; "astuce"; "atelier"; "atome"; "atrium";
  "atroce"; "attaque"; "attentif"; "attirer"; "attraper"; "aubaine"; "auberge"; "audace";
  "audible"; "augurer"; "aurore"; "automne"; "autruche"; "avaler"; "avancer"; "avarice";
  "avenir"; "averse"; "aveugle"; "aviateur"; "avide"; "avion"; "aviser"; "avoine"; "avouer";
  "avril"; "axial"; "axiome"; "badge"; "bafouer"; "bagage"; "baguette"; "baignade"; "balancer";
  "balcon"; "baleine"; "balisage"; "bambin"; "bancaire"; "bandage"; "banlieue"; "bannière";
  "banquier"; "barbier"; "baril"; "baron"; "barque"; "barrage"; "bassin"; "bastion"; "bataille";
  "bateau"; "batterie"; "baudrier"; "bavarder"; "belette"; "bélier"; "belote"; "bénéfice";
  "berceau"; "berger"; "berline"; "bermuda"; "besace"; "besogne"; "bétail"; "beurre"; "biberon";
  "bicycle"; "bidule"; "bijou"; "bilan"; "bilingue"; "billard"; "binaire"; "biologie"; "biopsie";
  "biotype"; "biscuit"; "bison"; "bistouri"; "bitume"; "bizarre"; "blafard"; "blague";
  "blanchir"; "blessant"; "blinder"; "blond"; "bloquer"; "blouson"; "bobard"; "bobine"; "boire";
  "boiser"; "bolide"; "bonbon"; "bondir"; "bonheur"; "bonifier"; "bonus"; "bordure"; "borne";
  "botte"; "boucle"; "boueux"; "bougie"; "boulon"; "bouquin"; "bourse"; "boussole"; "boutique";
  "boxeur"; "branche"; "brasier"; "brave"; "brebis"; "brèche"; "breuvage"; "bricoler";
  "brigade"; "brillant"; "brioche"; "brique"; "brochure"; "broder"; "bronzer"; "brousse";
  "broyeur"; "brume"; "brusque"; "brutal"; "bruyant"; "buffle"; "buisson"; "bulletin"; "bureau";
  "burin"; "bustier"; "butiner"; "butoir"; "buvable"; "buvette"; "cabanon"; "cabine"; "cachette";
  "cadeau"; "cadre"; "caféine"; "caillou"; "caisson"; "calculer"; "calepin"; "calibre";
  "calmer"; "calomnie"; "calvaire"; "camarade"; "caméra"; "camion"; "campagne"; "canal";
  "caneton"; "canon"; "cantine"; "canular"; "capable"; "caporal"; "caprice"; "capsule"; "capter";
  "capuche"; "carabine"; "carbone"; "caresser"; "caribou"; "carnage"; "carotte"; "carreau";
  "carton"; "cascade"; "casier"; "casque"; "cassure"; "causer"; "caution"; "cavalier"; "caverne";
  "caviar"; "cédille"; "ceinture"; "céleste"; "cellule"; "cendrier"; "censurer"; "central";
  "cercle"; "cérébral"; "cerise"; "cerner"; "cerveau"; "cesser"; "chagrin"; "chaise";
  "chaleur"; "chambre"; "chance"; "chapitre"; "charbon"; "chasseur"; "chaton"; "chausson";
  "chavirer"; "chemise"; "chenille"; "chéquier"; "chercher"; "cheval"; "chien"; "chiffre";
  "chignon"; "chimère"; "chiot"; "chlorure"; "chocolat"; "choisir"; "chose"; "chouette";
  "chrome"; "chute"; "cigare"; "cigogne"; "cimenter"; "cinéma"; "cintrer"; "circuler"; "cirer";
  "cirque"; "citerne"; "citoyen"; "citron"; "civil"; "clairon"; "clameur"; "claquer"; "classe";
  "clavier"; "client"; "cligner"; "climat"; "clivage"; "cloche"; "clonage"; "cloporte"; "cobalt";
  "cobra"; "cocasse"; "cocotier"; "coder"; "codifier"; "coffre"; "cogner"; "cohésion";
  "coiffer"; "coincer"; "colère"; "colibri"; "colline"; "colmater"; "colonel"; "combat";
  "comédie"; "commande"; "compact"; "concert"; "conduire"; "confier"; "congeler"; "connoter";
  "consonne"; "contact"; "convexe"; "copain"; "copie"; "corail"; "corbeau"; "cordage";
  "corniche"; "corpus"; "correct"; "cortège"; "cosmique"; "costume"; "coton"; "coude";
  "coupure"; "courage"; "couteau"; "couvrir"; "coyote"; "crabe"; "crainte"; "cravate"; "crayon";
  "créature"; "créditer"; "crémeux"; "creuser"; "crevette"; "cribler"; "crier"; "cristal";
  "critère"; "croire"; "croquer"; "crotale"; "crucial"; "cruel"; "crypter"; "cubique";
  "cueillir"; "cuillère"; "cuisine"; "cuivre"; "culminer"; "cultiver"; "cumuler"; "cupide";
  "curatif"; "curseur"; "cyanure"; "cycle"; "cylindre"; "cynique"; "daigner"; "damier"; "danger";
  "danseur"; "dauphin"; "débattre"; "débiter"; "déborder"; "débrider"; "débutant";
  "décaler"; "décembre"; "déchirer"; "décider"; "déclarer"; "décorer"; "décrire";
  "décupler"; "dédale"; "déductif"; "déesse"; "défensif"; "défiler"; "défrayer";
  "dégager"; "dégivrer"; "déglutir"; "dégrafer"; "déjeuner"; "délice"; "déloger";
  "demander"; "demeurer"; "démolir"; "dénicher"; "dénouer"; "dentelle"; "dénuder"; "départ";
  "dépenser"; "déphaser"; "déplacer"; "déposer"; "déranger"; "dérober"; "désastre";
  "descente"; "désert"; "désigner"; "désobéir"; "dessiner"; "destrier"; "détacher";
  "détester"; "détourer"; "détresse"; "devancer"; "devenir"; "deviner"; "devoir"; "diable";
  "dialogue"; "diamant"; "dicter"; "différer"; "digérer"; "digital"; "digne"; "diluer";
  "dimanche"; "diminuer"; "dioxyde"; "directif"; "diriger"; "discuter"; "disposer"; "dissiper";
  "distance"; "divertir"; "diviser"; "docile"; "docteur"; "dogme"; "doigt"; "domaine";
  "domicile"; "dompter"; "donateur"; "donjon"; "donner"; "dopamine"; "dortoir"; "dorure";
  "dosage"; "doseur"; "dossier"; "dotation"; "douanier"; "double"; "douceur"; "douter"; "doyen";
  "dragon"; "draper"; "dresser"; "dribbler"; "droiture"; "duperie"; "duplexe"; "durable";
  "durcir"; "dynastie"; "éblouir"; "écarter"; "écharpe"; "échelle"; "éclairer"; "éclipse";
  "éclore"; "écluse"; "école"; "économie"; "écorce"; "écouter"; "écraser"; "écrémer";
  "écrivain"; "écrou"; "écume"; "écureuil"; "édifier"; "éduquer"; "effacer"; "effectif";
  "effigie"; "effort"; "effrayer"; "effusion"; "égaliser"; "égarer"; "éjecter"; "élaborer";
  "élargir"; "électron"; "élégant"; "éléphant"; "élève"; "éligible"; "élitisme";
  "éloge"; "élucider"; "éluder"; "emballer"; "embellir"; "embryon"; "émeraude"; "émission";
  "emmener"; "émotion"; "émouvoir"; "empereur"; "employer"; "emporter"; "emprise"; "émulsion";
  "encadrer"; "enchère"; "enclave"; "encoche"; "endiguer"; "endosser"; "endroit"; "enduire";
  "énergie"; "enfance"; "enfermer"; "enfouir"; "engager"; "engin"; "englober"; "énigme";
  "enjamber"; "enjeu"; "enlever"; "ennemi"; "ennuyeux"; "enrichir"; "enrobage"; "enseigne";
  "entasser"; "entendre"; "entier"; "entourer"; "entraver"; "énumérer"; "envahir"; "enviable";
  "envoyer"; "enzyme"; "éolien"; "épaissir"; "épargne"; "épatant"; "épaule"; "épicerie";
  "épidémie"; "épier"; "épilogue"; "épine"; "épisode"; "épitaphe"; "époque"; "épreuve";
  "éprouver"; "épuisant"; "équerre"; "équipe"; "ériger"; "érosion"; "erreur"; "éruption";
  "escalier"; "espadon"; "espèce"; "espiègle"; "espoir"; "esprit"; "esquiver"; "essayer";
  "essence"; "essieu"; "essorer"; "estime"; "estomac"; "estrade"; "étagère"; "étaler";
  "étanche"; "étatique"; "éteindre"; "étendoir"; "éternel"; "éthanol"; "éthique";
  "ethnie"; "étirer"; "étoffer"; "étoile"; "étonnant"; "étourdir"; "étrange"; "étroit";
  "étude"; "euphorie"; "évaluer"; "évasion"; "éventail"; "évidence"; "éviter"; "évolutif";
  "évoquer"; "exact"; "exagérer"; "exaucer"; "exceller"; "excitant"; "exclusif"; "excuse";
  "exécuter"; "exemple"; "exercer"; "exhaler"; "exhorter"; "exigence"; "exiler"; "exister";
  "exotique"; "expédier"; "explorer"; "exposer"; "exprimer"; "exquis"; "extensif"; "extraire";
  "exulter"; "fable"; "fabuleux"; "facette"; "facile"; "facture"; "faiblir"; "falaise"; "fameux";
  "famille"; "farceur"; "farfelu"; "farine"; "farouche"; "fasciner"; "fatal"; "fatigue";
  "faucon"; "fautif"; "faveur"; "favori"; "fébrile"; "féconder"; "fédérer"; "félin";
  "femme"; "fémur"; "fendoir"; "féodal"; "fermer"; "féroce"; "ferveur"; "festival"; "feuille";
  "feutre"; "février"; "fiasco"; "ficeler"; "fictif"; "fidèle"; "figure"; "filature";
  "filetage"; "filière"; "filleul"; "filmer"; "filou"; "filtrer"; "financer"; "finir"; "fiole";
  "firme"; "fissure"; "fixer"; "flairer"; "flamme"; "flasque"; "flatteur"; "fléau"; "flèche";
  "fleur"; "flexion"; "flocon"; "flore"; "fluctuer"; "fluide"; "fluvial"; "folie"; "fonderie";
  "fongible"; "fontaine"; "forcer"; "forgeron"; "formuler"; "fortune"; "fossile"; "foudre";
  "fougère"; "fouiller"; "foulure"; "fourmi"; "fragile"; "fraise"; "franchir"; "frapper";
  "frayeur"; "frégate"; "freiner"; "frelon"; "frémir"; "frénésie"; "frère"; "friable";
  "friction"; "frisson"; "frivole"; "froid"; "fromage"; "frontal"; "frotter"; "fruit"; "fugitif";
  "fuite"; "fureur"; "furieux"; "furtif"; "fusion"; "futur"; "gagner"; "galaxie"; "galerie";
  "gambader"; "garantir"; "gardien"; "garnir"; "garrigue"; "gazelle"; "gazon"; "géant";
  "gélatine"; "gélule"; "gendarme"; "général"; "génie"; "genou"; "gentil"; "géologie";
  "géomètre"; "géranium"; "germe"; "gestuel"; "geyser"; "gibier"; "gicler"; "girafe"; "givre";
  "glace"; "glaive"; "glisser"; "globe"; "gloire"; "glorieux"; "golfeur"; "gomme"; "gonfler";
  "gorge"; "gorille"; "goudron"; "gouffre"; "goulot"; "goupille"; "gourmand"; "goutte";
  "graduel"; "graffiti"; "graine"; "grand"; "grappin"; "gratuit"; "gravir"; "grenat"; "griffure";
  "griller"; "grimper"; "grogner"; "gronder"; "grotte"; "groupe"; "gruger"; "grutier";
  "gruyère"; "guépard"; "guerrier"; "guide"; "guimauve"; "guitare"; "gustatif"; "gymnaste";
  "gyrostat"; "habitude"; "hachoir"; "halte"; "hameau"; "hangar"; "hanneton"; "haricot";
  "harmonie"; "harpon"; "hasard"; "hélium"; "hématome"; "herbe"; "hérisson"; "hermine";
  "héron"; "hésiter"; "heureux"; "hiberner"; "hibou"; "hilarant"; "histoire"; "hiver";
  "homard"; "hommage"; "homogène"; "honneur"; "honorer"; "honteux"; "horde"; "horizon";
  "horloge"; "hormone"; "horrible"; "houleux"; "housse"; "hublot"; "huileux"; "humain"; "humble";
  "humide"; "humour"; "hurler"; "hydromel"; "hygiène"; "hymne"; "hypnose"; "idylle"; "ignorer";
  "iguane"; "illicite"; "illusion"; "image"; "imbiber"; "imiter"; "immense"; "immobile";
  "immuable"; "impact"; "impérial"; "implorer"; "imposer"; "imprimer"; "imputer"; "incarner";
  "incendie"; "incident"; "incliner"; "incolore"; "indexer"; "indice"; "inductif"; "inédit";
  "ineptie"; "inexact"; "infini"; "infliger"; "informer"; "infusion"; "ingérer"; "inhaler";
  "inhiber"; "injecter"; "injure"; "innocent"; "inoculer"; "inonder"; "inscrire"; "insecte";
  "insigne"; "insolite"; "inspirer"; "instinct"; "insulter"; "intact"; "intense"; "intime";
  "intrigue"; "intuitif"; "inutile"; "invasion"; "inventer"; "inviter"; "invoquer"; "ironique";
  "irradier"; "irréel"; "irriter"; "isoler"; "ivoire"; "ivresse"; "jaguar"; "jaillir"; "jambe";
  "janvier"; "jardin"; "jauger"; "jaune"; "javelot"; "jetable"; "jeton"; "jeudi"; "jeunesse";
  "joindre"; "joncher"; "jongler"; "joueur"; "jouissif"; "journal"; "jovial"; "joyau"; "joyeux";
  "jubiler"; "jugement"; "junior"; "jupon"; "juriste"; "justice"; "juteux"; "juvénile"; "kayak";
  "kimono"; "kiosque"; "label"; "labial"; "labourer"; "lacérer"; "lactose"; "lagune"; "laine";
  "laisser"; "laitier"; "lambeau"; "lamelle"; "lampe"; "lanceur"; "langage"; "lanterne"; "lapin";
  "largeur"; "larme"; "laurier"; "lavabo"; "lavoir"; "lecture"; "légal"; "léger"; "légume";
  "lessive"; "lettre"; "levier"; "lexique"; "lézard"; "liasse"; "libérer"; "libre"; "licence";
  "licorne"; "liège"; "lièvre"; "ligature"; "ligoter"; "ligue"; "limer"; "limite"; "limonade";
  "limpide"; "linéaire"; "lingot"; "lionceau"; "liquide"; "lisière"; "lister"; "lithium";
  "litige"; "littoral"; "livreur"; "logique"; "lointain"; "loisir"; "lombric"; "loterie";
  "louer"; "lourd"; "loutre"; "louve"; "loyal"; "lubie"; "lucide"; "lucratif"; "lueur";
  "lugubre"; "luisant"; "lumière"; "lunaire"; "lundi"; "luron"; "lutter"; "luxueux"; "machine";
  "magasin"; "magenta"; "magique"; "maigre"; "maillon"; "maintien"; "mairie"; "maison";
  "majorer"; "malaxer"; "maléfice"; "malheur"; "malice"; "mallette"; "mammouth"; "mandater";
  "maniable"; "manquant"; "manteau"; "manuel"; "marathon"; "marbre"; "marchand"; "mardi";
  "maritime"; "marqueur"; "marron"; "marteler"; "mascotte"; "massif"; "matériel"; "matière";
  "matraque"; "maudire"; "maussade"; "mauve"; "maximal"; "méchant"; "méconnu"; "médaille";
  "médecin"; "méditer"; "méduse"; "meilleur"; "mélange"; "mélodie"; "membre"; "mémoire";
  "menacer"; "mener"; "menhir"; "mensonge"; "mentor"; "mercredi"; "mérite"; "merle"; "messager";
  "mesure"; "métal"; "météore"; "méthode"; "métier"; "meuble"; "miauler"; "microbe";
  "miette"; "mignon"; "migrer"; "milieu"; "million"; "mimique"; "mince"; "minéral"; "minimal";
  "minorer"; "minute"; "miracle"; "miroiter"; "missile"; "mixte"; "mobile"; "moderne";
  "moelleux"; "mondial"; "moniteur"; "monnaie"; "monotone"; "monstre"; "montagne"; "monument";
  "moqueur"; "morceau"; "morsure"; "mortier"; "moteur"; "motif"; "mouche"; "moufle"; "moulin";
  "mousson"; "mouton"; "mouvant"; "multiple"; "munition"; "muraille"; "murène"; "murmure";
  "muscle"; "muséum"; "musicien"; "mutation"; "muter"; "mutuel"; "myriade"; "myrtille";
  "mystère"; "mythique"; "nageur"; "nappe"; "narquois"; "narrer"; "natation"; "nation";
  "nature"; "naufrage"; "nautique"; "navire"; "nébuleux"; "nectar"; "néfaste"; "négation";
  "négliger"; "négocier"; "neige"; "nerveux"; "nettoyer"; "neurone"; "neutron"; "neveu";
  "niche"; "nickel"; "nitrate"; "niveau"; "noble"; "nocif"; "nocturne"; "noirceur"; "noisette";
  "nomade"; "nombreux"; "nommer"; "normatif"; "notable"; "notifier"; "notoire"; "nourrir";
  "nouveau"; "novateur"; "novembre"; "novice"; "nuage"; "nuancer"; "nuire"; "nuisible";
  "numéro"; "nuptial"; "nuque"; "nutritif"; "obéir"; "objectif"; "obliger"; "obscur";
  "observer"; "obstacle"; "obtenir"; "obturer"; "occasion"; "occuper"; "océan"; "octobre";
  "octroyer"; "octupler"; "oculaire"; "odeur"; "odorant"; "offenser"; "officier"; "offrir";
  "ogive"; "oiseau"; "oisillon"; "olfactif"; "olivier"; "ombrage"; "omettre"; "onctueux";
  "onduler"; "onéreux"; "onirique"; "opale"; "opaque"; "opérer"; "opinion"; "opportun";
  "opprimer"; "opter"; "optique"; "orageux"; "orange"; "orbite"; "ordonner"; "oreille"; "organe";
  "orgueil"; "orifice"; "ornement"; "orque"; "ortie"; "osciller"; "osmose"; "ossature"; "otarie";
  "ouragan"; "ourson"; "outil"; "outrager"; "ouvrage"; "ovation"; "oxyde"; "oxygène"; "ozone";
  "paisible"; "palace"; "palmarès"; "palourde"; "palper"; "panache"; "panda"; "pangolin";
  "paniquer"; "panneau"; "panorama"; "pantalon"; "papaye"; "papier"; "papoter"; "papyrus";
  "paradoxe"; "parcelle"; "paresse"; "parfumer"; "parler"; "parole"; "parrain"; "parsemer";
  "partager"; "parure"; "parvenir"; "passion"; "pastèque"; "paternel"; "patience"; "patron";
  "pavillon"; "pavoiser"; "payer"; "paysage"; "peigne"; "peintre"; "pelage"; "pélican"; "pelle";
  "pelouse"; "peluche"; "pendule"; "pénétrer"; "pénible"; "pensif"; "pénurie"; "pépite";
  "péplum"; "perdrix"; "perforer"; "période"; "permuter"; "perplexe"; "persil"; "perte";
  "peser"; "pétale"; "petit"; "pétrir"; "peuple"; "pharaon"; "phobie"; "phoque"; "photon";
  "phrase"; "physique"; "piano"; "pictural"; "pièce"; "pierre"; "pieuvre"; "pilote"; "pinceau";
  "pipette"; "piquer"; "pirogue"; "piscine"; "piston"; "pivoter"; "pixel"; "pizza"; "placard";
  "plafond"; "plaisir"; "planer"; "plaque"; "plastron"; "plateau"; "pleurer"; "plexus"; "pliage";
  "plomb"; "plonger"; "pluie"; "plumage"; "pochette"; "poésie"; "poète"; "pointe"; "poirier";
  "poisson"; "poivre"; "polaire"; "policier"; "pollen"; "polygone"; "pommade"; "pompier";
  "ponctuel"; "pondérer"; "poney"; "portique"; "position"; "posséder"; "posture"; "potager";
  "poteau"; "potion"; "pouce"; "poulain"; "poumon"; "pourpre"; "poussin"; "pouvoir"; "prairie";
  "pratique"; "précieux"; "prédire"; "préfixe"; "prélude"; "prénom"; "présence";
  "prétexte"; "prévoir"; "primitif"; "prince"; "prison"; "priver"; "problème"; "procéder";
  "prodige"; "profond"; "progrès"; "proie"; "projeter"; "prologue"; "promener"; "propre";
  "prospère"; "protéger"; "prouesse"; "proverbe"; "prudence"; "pruneau"; "psychose"; "public";
  "puceron"; "puiser"; "pulpe"; "pulsar"; "punaise"; "punitif"; "pupitre"; "purifier"; "puzzle";
  "pyramide"; "quasar"; "querelle"; "question"; "quiétude"; "quitter"; "quotient"; "racine";
  "raconter"; "radieux"; "ragondin"; "raideur"; "raisin"; "ralentir"; "rallonge"; "ramasser";
  "rapide"; "rasage"; "ratisser"; "ravager"; "ravin"; "rayonner"; "réactif"; "réagir";
  "réaliser"; "réanimer"; "recevoir"; "réciter"; "réclamer"; "récolter"; "recruter";
  "reculer"; "recycler"; "rédiger"; "redouter"; "refaire"; "réflexe"; "réformer"; "refrain";
  "refuge"; "régalien"; "région"; "réglage"; "régulier"; "réitérer"; "rejeter"; "rejouer";
  "relatif"; "relever"; "relief"; "remarque"; "remède"; "remise"; "remonter"; "remplir";
  "remuer"; "renard"; "renfort"; "renifler"; "renoncer"; "rentrer"; "renvoi"; "replier";
  "reporter"; "reprise"; "reptile"; "requin"; "réserve"; "résineux"; "résoudre"; "respect";
  "rester"; "résultat"; "rétablir"; "retenir"; "réticule"; "retomber"; "retracer"; "réunion";
  "réussir"; "revanche"; "revivre"; "révolte"; "révulsif"; "richesse"; "rideau"; "rieur";
  "rigide"; "rigoler"; "rincer"; "riposter"; "risible"; "risque"; "rituel"; "rival"; "rivière";
  "rocheux"; "romance"; "rompre"; "ronce"; "rondin"; "roseau"; "rosier"; "rotatif"; "rotor";
  "rotule"; "rouge"; "rouille"; "rouleau"; "routine"; "royaume"; "ruban"; "rubis"; "ruche";
  "ruelle"; "rugueux"; "ruiner"; "ruisseau"; "ruser"; "rustique"; "rythme"; "sabler"; "saboter";
  "sabre"; "sacoche"; "safari"; "sagesse"; "saisir"; "salade"; "salive"; "salon"; "saluer";
  "samedi"; "sanction"; "sanglier"; "sarcasme"; "sardine"; "saturer"; "saugrenu"; "saumon";
  "sauter"; "sauvage"; "savant"; "savonner"; "scalpel"; "scandale"; "scélérat"; "scénario";
  "sceptre"; "schéma"; "science"; "scinder"; "score"; "scrutin"; "sculpter"; "séance";
  "sécable"; "sécher"; "secouer"; "sécréter"; "sédatif"; "séduire"; "seigneur"; "séjour";
  "sélectif"; "semaine"; "sembler"; "semence"; "séminal"; "sénateur"; "sensible"; "sentence";
  "séparer"; "séquence"; "serein"; "sergent"; "sérieux"; "serrure"; "sérum"; "service";
  "sésame"; "sévir"; "sevrage"; "sextuple"; "sidéral"; "siècle"; "siéger"; "siffler";
  "sigle"; "signal"; "silence"; "silicium"; "simple"; "sincère"; "sinistre"; "siphon"; "sirop";
  "sismique"; "situer"; "skier"; "social"; "socle"; "sodium"; "soigneux"; "soldat"; "soleil";
  "solitude"; "soluble"; "sombre"; "sommeil"; "somnoler"; "sonde"; "songeur"; "sonnette";
  "sonore"; "sorcier"; "sortir"; "sosie"; "sottise"; "soucieux"; "soudure"; "souffle";
  "soulever"; "soupape"; "source"; "soutirer"; "souvenir"; "spacieux"; "spatial"; "spécial";
  "sphère"; "spiral"; "stable"; "station"; "sternum"; "stimulus"; "stipuler"; "strict";
  "studieux"; "stupeur"; "styliste"; "sublime"; "substrat"; "subtil"; "subvenir"; "succès";
  "sucre"; "suffixe"; "suggérer"; "suiveur"; "sulfate"; "superbe"; "supplier"; "surface";
  "suricate"; "surmener"; "surprise"; "sursaut"; "survie"; "suspect"; "syllabe"; "symbole";
  "symétrie"; "synapse"; "syntaxe"; "système"; "tabac"; "tablier"; "tactile"; "tailler";
  "talent"; "talisman"; "talonner"; "tambour"; "tamiser"; "tangible"; "tapis"; "taquiner";
  "tarder"; "tarif"; "tartine"; "tasse"; "tatami"; "tatouage"; "taupe"; "taureau"; "taxer";
  "témoin"; "temporel"; "tenaille"; "tendre"; "teneur"; "tenir"; "tension"; "terminer"; "terne";
  "terrible"; "tétine"; "texte"; "thème"; "théorie"; "thérapie"; "thorax"; "tibia"; "tiède";
  "timide"; "tirelire"; "tiroir"; "tissu"; "titane"; "titre"; "tituber"; "toboggan"; "tolérant";
  "tomate"; "tonique"; "tonneau"; "toponyme"; "torche"; "tordre"; "tornade"; "torpille";
  "torrent"; "torse"; "tortue"; "totem"; "toucher"; "tournage"; "tousser"; "toxine"; "traction";
  "trafic"; "tragique"; "trahir"; "train"; "trancher"; "travail"; "trèfle"; "tremper";
  "trésor"; "treuil"; "triage"; "tribunal"; "tricoter"; "trilogie"; "triomphe"; "tripler";
  "triturer"; "trivial"; "trombone"; "tronc"; "tropical"; "troupeau"; "tuile"; "tulipe";
  "tumulte"; "tunnel"; "turbine"; "tuteur"; "tutoyer"; "tuyau"; "tympan"; "typhon"; "typique";
  "tyran"; "ubuesque"; "ultime"; "ultrason"; "unanime"; "unifier"; "union"; "unique"; "unitaire";
  "univers"; "uranium"; "urbain"; "urticant"; "usage"; "usine"; "usuel"; "usure"; "utile";
  "utopie"; "vacarme"; "vaccin"; "vagabond"; "vague"; "vaillant"; "vaincre"; "vaisseau";
  "valable"; "valise"; "vallon"; "valve"; "vampire"; "vanille"; "vapeur"; "varier"; "vaseux";
  "vassal"; "vaste"; "vecteur"; "vedette"; "végétal"; "véhicule"; "veinard"; "véloce";
  "vendredi"; "vénérer"; "venger"; "venimeux"; "ventouse"; "verdure"; "vérin"; "vernir";
  "verrou"; "verser"; "vertu"; "veston"; "vétéran"; "vétuste"; "vexant"; "vexer"; "viaduc";
  "viande"; "victoire"; "vidange"; "vidéo"; "vignette"; "vigueur"; "vilain"; "village";
  "vinaigre"; "violon"; "vipère"; "virement"; "virtuose"; "virus"; "visage"; "viseur"; "vision";
  "visqueux"; "visuel"; "vital"; "vitesse"; "viticole"; "vitrine"; "vivace"; "vivipare";
  "vocation"; "voguer"; "voile"; "voisin"; "voiture"; "volaille"; "volcan"; "voltiger"; "volume";
  "vorace"; "vortex"; "voter"; "vouloir"; "voyage"; "voyelle"; "wagon"; "xénon"; "yacht";
  "zèbre"; "zénith"; "zeste"; "zoologie"]%string.

Definition fr_ : list Z := cstrings fr_list.

Definition fr_i : list Z := [
  0; 9; 17; 26; 34; 41; 49; 57; 64; 72; 81; 89; 97; 104; 112; 119; 127; 134; 142; 153; 160; 168;
  177; 186; 195; 204; 213; 221; 228; 234; 242; 251; 257; 265; 276; 285; 292; 298; 305; 312; 322;
  332; 341; 349; 358; 366; 374; 381; 389; 397; 404; 411; 419; 427; 437; 445; 454; 462; 470; 479;
  486; 494; 500; 507; 515; 526; 533; 539; 548; 555; 563; 571; 579; 587; 595; 604; 611; 621; 627;
  637; 645; 655; 663; 671; 679; 688; 695; 703; 713; 721; 728; 734; 745; 754; 761; 768; 776; 782;
  791; 800; 808; 816; 824; 833; 842; 851; 858; 869; 875; 884; 893; 900; 908; 916; 923; 930; 939;
  947; 955; 963; 972; 980; 988; 999; 1007; 1016; 1025; 1033; 1042; 1050; 1059; 1067; 1075; 1083;
  1090; 1098; 1105; 1114; 1123; 1132; 1140; 1147; 1156; 1165; 1173; 1181; 1189; 1200; 1208; 1215;
  1224; 1232; 1239; 1248; 1257; 1266; 1274; 1282; 1288; 1295; 1303; 1309; 1316; 1323; 1331; 1340;
  1348; 1357; 1365; 1373; 1380; 1388; 1396; 1403; 1411; 1420; 1427; 1435; 1443; 1450; 1457; 1465;
  1474; 1480; 1486; 1493; 1500; 1507; 1513; 1519; 1526; 1532; 1540; 1547; 1556; 1565; 1574; 1581;
  1589; 1598; 1605; 1614; 1622; 1631; 1642; 1651; 1659; 1665; 1671; 1678; 1686; 1693; 1701; 1710;
  1717; 1726; 1735; 1744; 1752; 1761; 1768; 1781; 1789; 1796; 1804; 1812; 1819; 1827; 1836; 1843;
  1851; 1859; 1866; 1872; 1878; 1887; 1895; 1903; 1912; 1920; 1928; 1936; 1942; 1951; 1958; 1966;
  1974; 1981; 1990; 1999; 2007; 2013; 2021; 2029; 2036; 2043; 2049; 2056; 2063; 2070; 2077; 2085;
  2094; 2100; 2108; 2114; 2120; 2127; 2134; 2141; 2148; 2156; 2163; 2172; 2181; 2188; 2196; 2204;
  2210; 2217; 2226; 2235; 2244; 2252; 2261; 2269; 2276; 2285; 2292; 2300; 2308; 2316; 2322; 2330;
  2337; 2345; 2352; 2360; 2369; 2376; 2382; 2390; 2398; 2405; 2413; 2421; 2429; 2436; 2445; 2452;
  2458; 2468; 2476; 2484; 2493; 2501; 2509; 2516; 2525; 2534; 2543; 2552; 2559; 2568; 2574; 2582;
  2588; 2596; 2604; 2612; 2620; 2628; 2636; 2643; 2651; 2660; 2668; 2677; 2685; 2693; 2701; 2709;
  2716; 2724; 2731; 2738; 2746; 2753; 2761; 2770; 2778; 2785; 2795; 2804; 2814; 2822; 2831; 2840;
  2848; 2855; 2868; 2875; 2882; 2890; 2897; 2905; 2912; 2920; 2928; 2935; 2944; 2952; 2961; 2968;
  2977; 2986; 2994; 3003; 3014; 3023; 3030; 3036; 3044; 3052; 3062; 3068; 3077; 3086; 3094; 3100;
  3109; 3116; 3122; 3129; 3137; 3146; 3155; 3163; 3172; 3178; 3185; 3193; 3201; 3208; 3214; 3222;
  3230; 3238; 3245; 3253; 3260; 3268; 3275; 3283; 3290; 3298; 3307; 3314; 3320; 3328; 3337; 3343;
  3352; 3359; 3366; 3377; 3385; 3393; 3402; 3410; 3418; 3427; 3435; 3442; 3452; 3461; 3469; 3477;
  3486; 3494; 3503; 3512; 3521; 3529; 3537; 3544; 3550; 3557; 3565; 3573; 3582; 3589; 3597; 3607;
  3616; 3624; 3630; 3636; 3644; 3652; 3660; 3668; 3675; 3681; 3689; 3697; 3704; 3715; 3726; 3736;
  3744; 3753; 3761; 3767; 3775; 3785; 3792; 3800; 3808; 3816; 3822; 3830; 3838; 3847; 3858; 3866;
  3873; 3882; 3891; 3899; 3906; 3914; 3922; 3930; 3936; 3945; 3953; 3961; 3968; 3975; 3983; 3991;
  4002; 4012; 4023; 4034; 4045; 4055; 4066; 4077; 4087; 4098; 4108; 4118; 4129; 4138; 4149; 4158;
  4169; 4179; 4190; 4200; 4211; 4222; 4233; 4244; 4253; 4263; 4272; 4281; 4291; 4302; 4312; 4321;
  4331; 4340; 4351; 4362; 4373; 4383; 4394; 4404; 4415; 4424; 4433; 4444; 4457; 4466; 4475; 4486;
  4497; 4508; 4519; 4528; 4536; 4544; 4551; 4558; 4567; 4575; 4582; 4593; 4603; 4611; 4617; 4624;
  4633; 4642; 4650; 4659; 4667; 4676; 4685; 4694; 4703; 4712; 4720; 4727; 4735; 4741; 4747; 4755;
  4764; 4772; 4781; 4788; 4795; 4804; 4812; 4819; 4826; 4833; 4841; 4850; 4859; 4866; 4874; 4881;
  4887; 4894; 4901; 4909; 4918; 4927; 4935; 4943; 4951; 4958; 4967; 4977; 4987; 4997; 5007; 5018;
  5028; 5037; 5046; 5054; 5065; 5074; 5084; 5094; 5106; 5117; 5125; 5133; 5144; 5154; 5164; 5172;
  5181; 5189; 5196; 5205; 5214; 5225; 5234; 5244; 5255; 5265; 5276; 5288; 5301; 5311; 5322; 5333;
  5341; 5352; 5361; 5370; 5379; 5387; 5398; 5409; 5417; 5427; 5438; 5447; 5456; 5465; 5473; 5484;
  5493; 5503; 5511; 5519; 5528; 5537; 5545; 5553; 5563; 5571; 5580; 5588; 5596; 5602; 5611; 5620;
  5629; 5635; 5643; 5650; 5659; 5668; 5677; 5686; 5695; 5704; 5711; 5720; 5729; 5742; 5750; 5759;
  5767; 5774; 5783; 5794; 5804; 5814; 5823; 5834; 5847; 5855; 5866; 5874; 5884; 5895; 5904; 5914;
  5925; 5936; 5946; 5955; 5964; 5974; 5981; 5992; 6001; 6009; 6018; 6029; 6036; 6043; 6052; 6060;
  6068; 6075; 6083; 6090; 6098; 6106; 6118; 6127; 6137; 6148; 6159; 6170; 6180; 6190; 6200; 6207;
  6216; 6226; 6235; 6246; 6257; 6267; 6276; 6284; 6293; 6303; 6313; 6324; 6335; 6344; 6355; 6365;
  6371; 6382; 6390; 6399; 6408; 6417; 6424; 6435; 6443; 6451; 6459; 6468; 6477; 6484; 6492; 6501;
  6512; 6521; 6529; 6538; 6545; 6554; 6563; 6571; 6577; 6586; 6594; 6601; 6609; 6617; 6625; 6632;
  6640; 6648; 6656; 6663; 6672; 6681; 6687; 6695; 6702; 6709; 6716; 6723; 6733; 6744; 6756; 6764;
  6770; 6778; 6786; 6795; 6802; 6811; 6819; 6828; 6836; 6843; 6853; 6860; 6868; 6875; 6884; 6891;
  6900; 6909; 6919; 6927; 6934; 6940; 6948; 6957; 6963; 6969; 6975; 6983; 6989; 6997; 7004; 7012;
  7021; 7029; 7038; 7044; 7052; 7059; 7065; 7074; 7081; 7089; 7095; 7104; 7113; 7122; 7129; 7138;
  7147; 7155; 7163; 7170; 7180; 7189; 7197; 7204; 7212; 7219; 7228; 7236; 7244; 7254; 7262; 7269;
  7278; 7291; 7299; 7307; 7316; 7324; 7332; 7338; 7346; 7354; 7362; 7368; 7376; 7382; 7389; 7397;
  7404; 7411; 7417; 7424; 7432; 7440; 7449; 7458; 7466; 7473; 7482; 7490; 7496; 7504; 7515; 7524;
  7533; 7545; 7553; 7559; 7566; 7577; 7590; 7601; 7607; 7615; 7622; 7629; 7636; 7643; 7649; 7655;
  7662; 7670; 7676; 7683; 7692; 7700; 7706; 7714; 7720; 7728; 7736; 7744; 7751; 7760; 7769; 7776;
  7784; 7793; 7800; 7806; 7814; 7822; 7829; 7836; 7845; 7853; 7861; 7869; 7877; 7884; 7891; 7898;
  7906; 7916; 7926; 7935; 7941; 7950; 7958; 7967; 7976; 7985; 7994; 8002; 8008; 8015; 8022; 8031;
  8039; 8048; 8055; 8062; 8071; 8082; 8088; 8099; 8107; 8115; 8125; 8133; 8142; 8148; 8157; 8166;
  8172; 8179; 8187; 8198; 8206; 8214; 8222; 8228; 8236; 8244; 8252; 8261; 8269; 8276; 8283; 8291;
  8298; 8305; 8312; 8319; 8326; 8335; 8345; 8351; 8359; 8366; 8374; 8381; 8390; 8399; 8405; 8413;
  8420; 8428; 8437; 8446; 8453; 8464; 8473; 8481; 8490; 8498; 8507; 8516; 8525; 8534; 8543; 8551;
  8558; 8567; 8576; 8584; 8592; 8599; 8608; 8617; 8626; 8636; 8644; 8652; 8661; 8668; 8677; 8686;
  8694; 8703; 8711; 8719; 8728; 8737; 8746; 8755; 8762; 8770; 8777; 8786; 8795; 8803; 8812; 8821;
  8829; 8838; 8847; 8856; 8865; 8873; 8880; 8887; 8895; 8902; 8910; 8916; 8924; 8931; 8938; 8944;
  8952; 8960; 8966; 8972; 8981; 8989; 8997; 9005; 9012; 9021; 9029; 9036; 9042; 9049; 9057; 9066;
  9073; 9079; 9087; 9095; 9102; 9113; 9119; 9126; 9134; 9140; 9147; 9156; 9166; 9174; 9181; 9187;
  9195; 9203; 9211; 9219; 9225; 9233; 9241; 9250; 9256; 9264; 9270; 9278; 9285; 9292; 9300; 9308;
  9316; 9325; 9333; 9340; 9347; 9355; 9364; 9371; 9381; 9387; 9395; 9403; 9411; 9420; 9429; 9437;
  9443; 9449; 9456; 9465; 9473; 9484; 9491; 9500; 9508; 9518; 9525; 9533; 9540; 9549; 9557; 9565;
  9574; 9581; 9589; 9597; 9603; 9609; 9616; 9622; 9628; 9634; 9641; 9650; 9656; 9664; 9672; 9682;
  9690; 9696; 9702; 9709; 9717; 9725; 9733; 9741; 9749; 9756; 9764; 9773; 9780; 9787; 9795; 9803;
  9814; 9822; 9829; 9838; 9847; 9856; 9865; 9874; 9882; 9889; 9898; 9905; 9914; 9920; 9929; 9938;
  9945; 9954; 9963; 9970; 9981; 9991; 10000; 10008; 10017; 10023; 10031; 10041; 10051; 10062;
  10072; 10082; 10091; 10100; 10110; 10120; 10127; 10137; 10145; 10151; 10158; 10167; 10174;
  10183; 10192; 10198; 10207; 10214; 10222; 10234; 10244; 10253; 10260; 10268; 10276; 10283;
  10290; 10297; 10304; 10312; 10320; 10326; 10336; 10344; 10352; 10359; 10367; 10376; 10384;
  10390; 10397; 10405; 10414; 10422; 10431; 10439; 10448; 10456; 10465; 10474; 10482; 10490;
  10498; 10506; 10513; 10519; 10526; 10533; 10540; 10548; 10555; 10563; 10572; 10581; 10590;
  10599; 10607; 10614; 10623; 10632; 10641; 10647; 10654; 10662; 10671; 10681; 10690; 10697;
  10703; 10712; 10719; 10728; 10735; 10742; 10751; 10760; 10767; 10778; 10785; 10795; 10806;
  10817; 10828; 10834; 10842; 10851; 10859; 10867; 10873; 10879; 10886; 10894; 10901; 10907;
  10913; 10922; 10931; 10940; 10947; 10956; 10963; 10972; 10980; 10989; 10997; 11005; 11013;
  11022; 11031; 11038; 11044; 11052; 11058; 11067; 11076; 11084; 11090; 11099; 11107; 11116;
  11124; 11131; 11140; 11149; 11157; 11165; 11174; 11182; 11190; 11198; 11207; 11216; 11225;
  11231; 11239; 11248; 11257; 11264; 11270; 11277; 11286; 11295; 11303; 11311; 11319; 11328;
  11336; 11346; 11355; 11361; 11368; 11377; 11385; 11394; 11403; 11409; 11417; 11425; 11432;
  11439; 11448; 11456; 11463; 11471; 11479; 11488; 11494; 11500; 11509; 11516; 11525; 11532;
  11540; 11547; 11553; 11562; 11570; 11578; 11584; 11594; 11600; 11609; 11616; 11627; 11636;
  11643; 11651; 11657; 11666; 11675; 11683; 11692; 11701; 11708; 11715; 11723; 11731; 11740;
  11749; 11757; 11766; 11773; 11780; 11788; 11797; 11806; 11813; 11822; 11830; 11841; 11850;
  11859; 11866; 11875; 11884; 11890; 11898; 11905; 11913; 11920; 11930; 11936; 11944; 11952;
  11960; 11973; 11983; 11990; 12000; 12009; 12018; 12026; 12035; 12045; 12054; 12063; 12070;
  12076; 12082; 12091; 12097; 12106; 12113; 12121; 12128; 12135; 12142; 12149; 12158; 12164;
  12173; 12181; 12188; 12196; 12203; 12211; 12219; 12226; 12234; 12242; 12249; 12257; 12263;
  12269; 12277; 12285; 12293; 12300; 12307; 12316; 12324; 12332; 12339; 12346; 12352; 12360;
  12366; 12374; 12383; 12392; 12400; 12407; 12415; 12423; 12430; 12438; 12447; 12454; 12463;
  12471; 12479; 12488; 12499; 12505; 12514; 12523; 12534; 12542; 12550; 12557; 12564; 12570;
  12578; 12585; 12593; 12601; 12609; 12617; 12626; 12637; 12647; 12657; 12667; 12676; 12687;
  12698; 12708; 12717; 12724; 12731; 12738; 12749; 12760; 12768; 12776; 12786; 12792; 12801;
  12810; 12819; 12826; 12837; 12848; 12857; 12866; 12875; 12883; 12892; 12899; 12907; 12914;
  12920; 12927; 12935; 12943; 12951; 12960; 12967; 12976; 12983; 12992; 13001; 13012; 13020;
  13029; 13036; 13045; 13053; 13062; 13070; 13077; 13086; 13095; 13104; 13111; 13118; 13127;
  13135; 13141; 13150; 13160; 13169; 13180; 13191; 13200; 13210; 13221; 13232; 13241; 13249;
  13258; 13268; 13277; 13285; 13295; 13306; 13314; 13321; 13332; 13341; 13351; 13362; 13375;
  13383; 13391; 13399; 13407; 13414; 13423; 13432; 13439; 13448; 13456; 13463; 13470; 13478;
  13487; 13496; 13504; 13511; 13519; 13528; 13536; 13544; 13551; 13561; 13572; 13583; 13591;
  13598; 13609; 13620; 13628; 13639; 13648; 13657; 13667; 13677; 13686; 13694; 13704; 13715;
  13724; 13731; 13737; 13744; 13752; 13759; 13768; 13776; 13783; 13790; 13796; 13806; 13814;
  13822; 13829; 13835; 13842; 13849; 13856; 13864; 13870; 13877; 13883; 13891; 13899; 13907;
  13915; 13921; 13927; 13933; 13940; 13948; 13955; 13964; 13970; 13979; 13986; 13993; 14001;
  14007; 14015; 14022; 14030; 14037; 14044; 14051; 14057; 14064; 14071; 14080; 14089; 14098;
  14106; 14114; 14123; 14130; 14137; 14145; 14152; 14161; 14169; 14178; 14191; 14202; 14210;
  14219; 14227; 14235; 14241; 14249; 14258; 14267; 14277; 14286; 14294; 14307; 14317; 14327;
  14336; 14345; 14356; 14364; 14372; 14380; 14390; 14401; 14410; 14419; 14429; 14440; 14447;
  14455; 14465; 14473; 14481; 14489; 14498; 14506; 14514; 14523; 14533; 14542; 14551; 14559;
  14565; 14572; 14580; 14589; 14596; 14606; 14615; 14622; 14628; 14637; 14644; 14650; 14657;
  14663; 14670; 14679; 14686; 14693; 14702; 14710; 14717; 14725; 14734; 14740; 14748; 14757;
  14764; 14772; 14779; 14785; 14793; 14802; 14810; 14818; 14827; 14835; 14842; 14851; 14860;
  14869; 14877; 14887; 14896; 14903; 14910; 14918; 14926; 14935; 14944; 14951; 14960; 14968;
  14977; 14985; 14994; 15001; 15010; 15019; 15025; 15033; 15044; 15052; 15060; 15068; 15077;
  15085; 15094; 15103; 15112; 15120; 15127; 15135; 15143; 15151; 15162; 15170; 15178; 15188;
  15194; 15202; 15210; 15218; 15225; 15234; 15243; 15251; 15259; 15268; 15274; 15283; 15290;
  15296; 15304; 15310; 15317; 15326; 15332; 15340; 15346; 15355; 15364; 15373; 15380; 15387;
  15393; 15401; 15410; 15416; 15425; 15434; 15440; 15448; 15458; 15469; 15476; 15482; 15490;
  15497; 15506; 15513; 15519; 15526; 15532; 15540; 15549; 15560; 15567; 15575; 15583; 15592;
  15599; 15606; 15614; 15623; 15631; 15637; 15644; 15650; 15658; 15667; 15675; 15682; 15691;
  15698; 15707; 15714; 15720; 15729; 15737; 15746; 15754; 15763; 15770; 15777; 15786; 15795;
  15804; 15813; 15821; 15830; 15838; 15847; 15853; 15862; 15871; 15877; 15884; 15892; 15899;
  15907; 15914; 15922; 15928; 15935; 15942; 15950; 15956; 15965; 15972; 15981; 15989; 15997;
  16003; 16010; 16019; 16027; 16035; 16042; 16051; 16057; 16063; 16069; 16075; 16081; 16088;
  16096; 16103; 16112; 16118; 16127; 16135; 16144; 16152; 16159; 16166; 16172; 16180; 16188;
  16195; 16202; 16209; 16216; 16222; 16230; 16238; 16250; 16261; 16269; 16278; 16287; 16299;
  16306; 16315; 16324; 16332; 16340; 16347; 16354; 16361; 16367; 16374; 16386; 16396; 16403;
  16409; 16416; 16423; 16432; 16440; 16448; 16457; 16465; 16472; 16480; 16489; 16496; 16505;
  16514; 16523; 16529; 16536; 16543; 16550; 16559; 16566; 16572; 16580; 16589; 16597; 16604;
  16613; 16622; 16629; 16635; 16642; 16650; 16659; 16666; 16675; 16682; 16689; 16696; 16702;
  16710; 16717; 16725; 16731; 16739; 16745; 16753; 16762; 16768; 16777].

Definition fr_words : words := const_words 2048 11 false fr_ fr_i.

(** ** Italian *)

Definition it_list : list string := [
  "abaco"; "abbaglio"; "abbinato"; "abete"; "abisso"; "abolire"; "abrasivo"; "abrogato";
  "accadere"; "accenno"; "accusato"; "acetone"; "achille"; "acido"; "acqua"; "acre"; "acrilico";
  "acrobata"; "acuto"; "adagio"; "addebito"; "addome"; "adeguato"; "aderire"; "adipe";
  "adottare"; "adulare"; "affabile"; "affetto"; "affisso"; "affranto"; "aforisma"; "afoso";
  "africano"; "agave"; "agente"; "agevole"; "aggancio"; "agire"; "agitare"; "agonismo";
  "agricolo"; "agrumeto"; "aguzzo"; "alabarda"; "alato"; "albatro"; "alberato"; "albo"; "albume";
  "alce"; "alcolico"; "alettone"; "alfa"; "algebra"; "aliante"; "alibi"; "alimento"; "allagato";
  "allegro"; "allievo"; "allodola"; "allusivo"; "almeno"; "alogeno"; "alpaca"; "alpestre";
  "altalena"; "alterno"; "alticcio"; "altrove"; "alunno"; "alveolo"; "alzare"; "amalgama";
  "amanita"; "amarena"; "ambito"; "ambrato"; "ameba"; "america"; "ametista"; "amico"; "ammasso";
  "ammenda"; "ammirare"; "ammonito"; "amore"; "ampio"; "ampliare"; "amuleto"; "anacardo";
  "anagrafe"; "analista"; "anarchia"; "anatra"; "anca"; "ancella"; "ancora"; "andare"; "andrea";
  "anello"; "angelo"; "angolare"; "angusto"; "anima"; "annegare"; "annidato"; "anno"; "annuncio";
  "anonimo"; "anticipo"; "anzi"; "apatico"; "apertura"; "apode"; "apparire"; "appetito";
  "appoggio"; "approdo"; "appunto"; "aprile"; "arabica"; "arachide"; "aragosta"; "araldica";
  "arancio"; "aratura"; "arazzo"; "arbitro"; "archivio"; "ardito"; "arenile"; "argento";
  "argine"; "arguto"; "aria"; "armonia"; "arnese"; "arredato"; "arringa"; "arrosto"; "arsenico";
  "arso"; "artefice"; "arzillo"; "asciutto"; "ascolto"; "asepsi"; "asettico"; "asfalto"; "asino";
  "asola"; "aspirato"; "aspro"; "assaggio"; "asse"; "assoluto"; "assurdo"; "asta"; "astenuto";
  "astice"; "astratto"; "atavico"; "ateismo"; "atomico"; "atono"; "attesa"; "attivare";
  "attorno"; "attrito"; "attuale"; "ausilio"; "austria"; "autista"; "autonomo"; "autunno";
  "avanzato"; "avere"; "avvenire"; "avviso"; "avvolgere"; "azione"; "azoto"; "azzimo"; "azzurro";
  "babele"; "baccano"; "bacino"; "baco"; "badessa"; "badilata"; "bagnato"; "baita"; "balcone";
  "baldo"; "balena"; "ballata"; "balzano"; "bambino"; "bandire"; "baraonda"; "barbaro"; "barca";
  "baritono"; "barlume"; "barocco"; "basilico"; "basso"; "batosta"; "battuto"; "baule"; "bava";
  "bavosa"; "becco"; "beffa"; "belgio"; "belva"; "benda"; "benevole"; "benigno"; "benzina";
  "bere"; "berlina"; "beta"; "bibita"; "bici"; "bidone"; "bifido"; "biga"; "bilancia"; "bimbo";
  "binocolo"; "biologo"; "bipede"; "bipolare"; "birbante"; "birra"; "biscotto"; "bisesto";
  "bisnonno"; "bisonte"; "bisturi"; "bizzarro"; "blando"; "blatta"; "bollito"; "bonifico";
  "bordo"; "bosco"; "botanico"; "bottino"; "bozzolo"; "braccio"; "bradipo"; "brama"; "branca";
  "bravura"; "bretella"; "brevetto"; "brezza"; "briglia"; "brillante"; "brindare"; "broccolo";
  "brodo"; "bronzina"; "brullo"; "bruno"; "bubbone"; "buca"; "budino"; "buffone"; "buio";
  "bulbo"; "buono"; "burlone"; "burrasca"; "bussola"; "busta"; "cadetto"; "caduco"; "calamaro";
  "calcolo"; "calesse"; "calibro"; "calmo"; "caloria"; "cambusa"; "camerata"; "camicia";
  "cammino"; "camola"; "campale"; "canapa"; "candela"; "cane"; "canino"; "canotto"; "cantina";
  "capace"; "capello"; "capitolo"; "capogiro"; "cappero"; "capra"; "capsula"; "carapace";
  "carcassa"; "cardo"; "carisma"; "carovana"; "carretto"; "cartolina"; "casaccio"; "cascata";
  "caserma"; "caso"; "cassone"; "castello"; "casuale"; "catasta"; "catena"; "catrame"; "cauto";
  "cavillo"; "cedibile"; "cedrata"; "cefalo"; "celebre"; "cellulare"; "cena"; "cenone";
  "centesimo"; "ceramica"; "cercare"; "certo"; "cerume"; "cervello"; "cesoia"; "cespo"; "ceto";
  "chela"; "chiaro"; "chicca"; "chiedere"; "chimera"; "china"; "chirurgo"; "chitarra"; "ciao";
  "ciclismo"; "cifrare"; "cigno"; "cilindro"; "ciottolo"; "circa"; "cirrosi"; "citrico";
  "cittadino"; "ciuffo"; "civetta"; "civile"; "classico"; "clinica"; "cloro"; "cocco"; "codardo";
  "codice"; "coerente"; "cognome"; "collare"; "colmato"; "colore"; "colposo"; "coltivato";
  "colza"; "coma"; "cometa"; "commando"; "comodo"; "computer"; "comune"; "conciso"; "condurre";
  "conferma"; "congelare"; "coniuge"; "connesso"; "conoscere"; "consumo"; "continuo"; "convegno";
  "coperto"; "copione"; "coppia"; "copricapo"; "corazza"; "cordata"; "coricato"; "cornice";
  "corolla"; "corpo"; "corredo"; "corsia"; "cortese"; "cosmico"; "costante"; "cottura"; "covato";
  "cratere"; "cravatta"; "creato"; "credere"; "cremoso"; "crescita"; "creta"; "criceto";
  "crinale"; "crisi"; "critico"; "croce"; "cronaca"; "crostata"; "cruciale"; "crusca"; "cucire";
  "cuculo"; "cugino"; "cullato"; "cupola"; "curatore"; "cursore"; "curvo"; "cuscino"; "custode";
  "dado"; "daino"; "dalmata"; "damerino"; "daniela"; "dannoso"; "danzare"; "datato"; "davanti";
  "davvero"; "debutto"; "decennio"; "deciso"; "declino"; "decollo"; "decreto"; "dedicato";
  "definito"; "deforme"; "degno"; "delegare"; "delfino"; "delirio"; "delta"; "demenza";
  "denotato"; "dentro"; "deposito"; "derapata"; "derivare"; "deroga"; "descritto"; "deserto";
  "desiderio"; "desumere"; "detersivo"; "devoto"; "diametro"; "dicembre"; "diedro"; "difeso";
  "diffuso"; "digerire"; "digitale"; "diluvio"; "dinamico"; "dinnanzi"; "dipinto"; "diploma";
  "dipolo"; "diradare"; "dire"; "dirotto"; "dirupo"; "disagio"; "discreto"; "disfare"; "disgelo";
  "disposto"; "distanza"; "disumano"; "dito"; "divano"; "divelto"; "dividere"; "divorato";
  "doblone"; "docente"; "doganale"; "dogma"; "dolce"; "domato"; "domenica"; "dominare";
  "dondolo"; "dono"; "dormire"; "dote"; "dottore"; "dovuto"; "dozzina"; "drago"; "druido";
  "dubbio"; "dubitare"; "ducale"; "duna"; "duomo"; "duplice"; "duraturo"; "ebano"; "eccesso";
  "ecco"; "eclissi"; "economia"; "edera"; "edicola"; "edile"; "editoria"; "educare"; "egemonia";
  "egli"; "egoismo"; "egregio"; "elaborato"; "elargire"; "elegante"; "elencato"; "eletto";
  "elevare"; "elfico"; "elica"; "elmo"; "elsa"; "eluso"; "emanato"; "emblema"; "emesso"; "emiro";
  "emotivo"; "emozione"; "empirico"; "emulo"; "endemico"; "enduro"; "energia"; "enfasi";
  "enoteca"; "entrare"; "enzima"; "epatite"; "epilogo"; "episodio"; "epocale"; "eppure";
  "equatore"; "erario"; "erba"; "erboso"; "erede"; "eremita"; "erigere"; "ermetico"; "eroe";
  "erosivo"; "errante"; "esagono"; "esame"; "esanime"; "esaudire"; "esca"; "esempio"; "esercito";
  "esibito"; "esigente"; "esistere"; "esito"; "esofago"; "esortato"; "esoso"; "espanso";
  "espresso"; "essenza"; "esso"; "esteso"; "estimare"; "estonia"; "estroso"; "esultare";
  "etilico"; "etnico"; "etrusco"; "etto"; "euclideo"; "europa"; "evaso"; "evidenza"; "evitato";
  "evoluto"; "evviva"; "fabbrica"; "faccenda"; "fachiro"; "falco"; "famiglia"; "fanale";
  "fanfara"; "fango"; "fantasma"; "fare"; "farfalla"; "farinoso"; "farmaco"; "fascia"; "fastoso";
  "fasullo"; "faticare"; "fato"; "favoloso"; "febbre"; "fecola"; "fede"; "fegato"; "felpa";
  "feltro"; "femmina"; "fendere"; "fenomeno"; "fermento"; "ferro"; "fertile"; "fessura";
  "festivo"; "fetta"; "feudo"; "fiaba"; "fiducia"; "fifa"; "figurato"; "filo"; "finanza";
  "finestra"; "finire"; "fiore"; "fiscale"; "fisico"; "fiume"; "flacone"; "flamenco"; "flebo";
  "flemma"; "florido"; "fluente"; "fluoro"; "fobico"; "focaccia"; "focoso"; "foderato"; "foglio";
  "folata"; "folclore"; "folgore"; "fondente"; "fonetico"; "fonia"; "fontana"; "forbito";
  "forchetta"; "foresta"; "formica"; "fornaio"; "foro"; "fortezza"; "forzare"; "fosfato";
  "fosso"; "fracasso"; "frana"; "frassino"; "fratello"; "freccetta"; "frenata"; "fresco";
  "frigo"; "frollino"; "fronde"; "frugale"; "frutta"; "fucilata"; "fucsia"; "fuggente";
  "fulmine"; "fulvo"; "fumante"; "fumetto"; "fumoso"; "fune"; "funzione"; "fuoco"; "furbo";
  "furgone"; "furore"; "fuso"; "futile"; "gabbiano"; "gaffe"; "galateo"; "gallina"; "galoppo";
  "gambero"; "gamma"; "garanzia"; "garbo"; "garofano"; "garzone"; "gasdotto"; "gasolio";
  "gastrico"; "gatto"; "gaudio"; "gazebo"; "gazzella"; "geco"; "gelatina"; "gelso"; "gemello";
  "gemmato"; "gene"; "genitore"; "gennaio"; "genotipo"; "gergo"; "ghepardo"; "ghiaccio"; "ghisa";
  "giallo"; "gilda"; "ginepro"; "giocare"; "gioiello"; "giorno"; "giove"; "girato"; "girone";
  "gittata"; "giudizio"; "giurato"; "giusto"; "globulo"; "glutine"; "gnomo"; "gobba"; "golf";
  "gomito"; "gommone"; "gonfio"; "gonna"; "governo"; "gracile"; "grado"; "grafico"; "grammo";
  "grande"; "grattare"; "gravoso"; "grazia"; "greca"; "gregge"; "grifone"; "grigio"; "grinza";
  "grotta"; "gruppo"; "guadagno"; "guaio"; "guanto"; "guardare"; "gufo"; "guidare"; "ibernato";
  "icona"; "identico"; "idillio"; "idolo"; "idra"; "idrico"; "idrogeno"; "igiene"; "ignaro";
  "ignorato"; "ilare"; "illeso"; "illogico"; "illudere"; "imballo"; "imbevuto"; "imbocco";
  "imbuto"; "immane"; "immerso"; "immolato"; "impacco"; "impeto"; "impiego"; "importo";
  "impronta"; "inalare"; "inarcare"; "inattivo"; "incanto"; "incendio"; "inchino"; "incisivo";
  "incluso"; "incontro"; "incrocio"; "incubo"; "indagine"; "india"; "indole"; "inedito";
  "infatti"; "infilare"; "inflitto"; "ingaggio"; "ingegno"; "inglese"; "ingordo"; "ingrosso";
  "innesco"; "inodore"; "inoltrare"; "inondato"; "insano"; "insetto"; "insieme"; "insonnia";
  "insulina"; "intasato"; "intero"; "intonaco"; "intuito"; "inumidire"; "invalido"; "invece";
  "invito"; "iperbole"; "ipnotico"; "ipotesi"; "ippica"; "iride"; "irlanda"; "ironico";
  "irrigato"; "irrorare"; "isolato"; "isotopo"; "isterico"; "istituto"; "istrice"; "italia";
  "iterare"; "labbro"; "labirinto"; "lacca"; "lacerato"; "lacrima"; "lacuna"; "laddove"; "lago";
  "lampo"; "lancetta"; "lanterna"; "lardoso"; "larga"; "laringe"; "lastra"; "latenza"; "latino";
  "lattuga"; "lavagna"; "lavoro"; "legale"; "leggero"; "lembo"; "lentezza"; "lenza"; "leone";
  "lepre"; "lesivo"; "lessato"; "lesto"; "letterale"; "leva"; "levigato"; "libero"; "lido";
  "lievito"; "lilla"; "limatura"; "limitare"; "limpido"; "lineare"; "lingua"; "liquido"; "lira";
  "lirica"; "lisca"; "lite"; "litigio"; "livrea"; "locanda"; "lode"; "logica"; "lombare";
  "londra"; "longevo"; "loquace"; "lorenzo"; "loto"; "lotteria"; "luce"; "lucidato"; "lumaca";
  "luminoso"; "lungo"; "lupo"; "luppolo"; "lusinga"; "lusso"; "lutto"; "macabro"; "macchina";
  "macero"; "macinato"; "madama"; "magico"; "maglia"; "magnete"; "magro"; "maiolica"; "malafede";
  "malgrado"; "malinteso"; "malsano"; "malto"; "malumore"; "mana"; "mancia"; "mandorla";
  "mangiare"; "manifesto"; "mannaro"; "manovra"; "mansarda"; "mantide"; "manubrio"; "mappa";
  "maratona"; "marcire"; "maretta"; "marmo"; "marsupio"; "maschera"; "massaia"; "mastino";
  "materasso"; "matricola"; "mattone"; "maturo"; "mazurca"; "meandro"; "meccanico"; "mecenate";
  "medesimo"; "meditare"; "mega"; "melassa"; "melis"; "melodia"; "meninge"; "meno"; "mensola";
  "mercurio"; "merenda"; "merlo"; "meschino"; "mese"; "messere"; "mestolo"; "metallo"; "metodo";
  "mettere"; "miagolare"; "mica"; "micelio"; "michele"; "microbo"; "midollo"; "miele";
  "migliore"; "milano"; "milite"; "mimosa"; "minerale"; "mini"; "minore"; "mirino"; "mirtillo";
  "miscela"; "missiva"; "misto"; "misurare"; "mitezza"; "mitigare"; "mitra"; "mittente";
  "mnemonico"; "modello"; "modifica"; "modulo"; "mogano"; "mogio"; "mole"; "molosso";
  "monastero"; "monco"; "mondina"; "monetario"; "monile"; "monotono"; "monsone"; "montato";
  "monviso"; "mora"; "mordere"; "morsicato"; "mostro"; "motivato"; "motosega"; "motto";
  "movenza"; "movimento"; "mozzo"; "mucca"; "mucosa"; "muffa"; "mughetto"; "mugnaio"; "mulatto";
  "mulinello"; "multiplo"; "mummia"; "munto"; "muovere"; "murale"; "musa"; "muscolo"; "musica";
  "mutevole"; "muto"; "nababbo"; "nafta"; "nanometro"; "narciso"; "narice"; "narrato"; "nascere";
  "nastrare"; "naturale"; "nautica"; "naviglio"; "nebulosa"; "necrosi"; "negativo"; "negozio";
  "nemmeno"; "neofita"; "neretto"; "nervo"; "nessuno"; "nettuno"; "neutrale"; "neve";
  "nevrotico"; "nicchia"; "ninfa"; "nitido"; "nobile"; "nocivo"; "nodo"; "nome"; "nomina";
  "nordico"; "normale"; "norvegese"; "nostrano"; "notare"; "notizia"; "notturno"; "novella";
  "nucleo"; "nulla"; "numero"; "nuovo"; "nutrire"; "nuvola"; "nuziale"; "oasi"; "obbedire";
  "obbligo"; "obelisco"; "oblio"; "obolo"; "obsoleto"; "occasione"; "occhio"; "occidente";
  "occorrere"; "occultare"; "ocra"; "oculato"; "odierno"; "odorare"; "offerta"; "offrire";
  "offuscato"; "oggetto"; "oggi"; "ognuno"; "olandese"; "olfatto"; "oliato"; "oliva";
  "ologramma"; "oltre"; "omaggio"; "ombelico"; "ombra"; "omega"; "omissione"; "ondoso"; "onere";
  "onice"; "onnivoro"; "onorevole"; "onta"; "operato"; "opinione"; "opposto"; "oracolo"; "orafo";
  "ordine"; "orecchino"; "orefice"; "orfano"; "organico"; "origine"; "orizzonte"; "orma";
  "ormeggio"; "ornativo"; "orologio"; "orrendo"; "orribile"; "ortensia"; "ortica"; "orzata";
  "orzo"; "osare"; "oscurare"; "osmosi"; "ospedale"; "ospite"; "ossa"; "ossidare"; "ostacolo";
  "oste"; "otite"; "otre"; "ottagono"; "ottimo"; "ottobre"; "ovale"; "ovest"; "ovino"; "oviparo";
  "ovocito"; "ovunque"; "ovviare"; "ozio"; "pacchetto"; "pace"; "pacifico"; "padella"; "padrone";
  "paese"; "paga"; "pagina"; "palazzina"; "palesare"; "pallido"; "palo"; "palude"; "pandoro";
  "pannello"; "paolo"; "paonazzo"; "paprica"; "parabola"; "parcella"; "parere"; "pargolo";
  "pari"; "parlato"; "parola"; "partire"; "parvenza"; "parziale"; "passivo"; "pasticca";
  "patacca"; "patologia"; "pattume"; "pavone"; "peccato"; "pedalare"; "pedonale"; "peggio";
  "peloso"; "penare"; "pendice"; "penisola"; "pennuto"; "penombra"; "pensare"; "pentola"; "pepe";
  "pepita"; "perbene"; "percorso"; "perdonato"; "perforare"; "pergamena"; "periodo"; "permesso";
  "perno"; "perplesso"; "persuaso"; "pertugio"; "pervaso"; "pesatore"; "pesista"; "peso";
  "pestifero"; "petalo"; "pettine"; "petulante"; "pezzo"; "piacere"; "pianta"; "piattino";
  "piccino"; "picozza"; "piega"; "pietra"; "piffero"; "pigiama"; "pigolio"; "pigro"; "pila";
  "pilifero"; "pillola"; "pilota"; "pimpante"; "pineta"; "pinna"; "pinolo"; "pioggia"; "piombo";
  "piramide"; "piretico"; "pirite"; "pirolisi"; "pitone"; "pizzico"; "placebo"; "planare";
  "plasma"; "platano"; "plenario"; "pochezza"; "poderoso"; "podismo"; "poesia"; "poggiare";
  "polenta"; "poligono"; "pollice"; "polmonite"; "polpetta"; "polso"; "poltrona"; "polvere";
  "pomice"; "pomodoro"; "ponte"; "popoloso"; "porfido"; "poroso"; "porpora"; "porre"; "portata";
  "posa"; "positivo"; "possesso"; "postulato"; "potassio"; "potere"; "pranzo"; "prassi";
  "pratica"; "precluso"; "predica"; "prefisso"; "pregiato"; "prelievo"; "premere"; "prenotare";
  "preparato"; "presenza"; "pretesto"; "prevalso"; "prima"; "principe"; "privato"; "problema";
  "procura"; "produrre"; "profumo"; "progetto"; "prolunga"; "promessa"; "pronome"; "proposta";
  "proroga"; "proteso"; "prova"; "prudente"; "prugna"; "prurito"; "psiche"; "pubblico"; "pudica";
  "pugilato"; "pugno"; "pulce"; "pulito"; "pulsante"; "puntare"; "pupazzo"; "pupilla"; "puro";
  "quadro"; "qualcosa"; "quasi"; "querela"; "quota"; "raccolto"; "raddoppio"; "radicale";
  "radunato"; "raffica"; "ragazzo"; "ragione"; "ragno"; "ramarro"; "ramingo"; "ramo"; "randagio";
  "rantolare"; "rapato"; "rapina"; "rappreso"; "rasatura"; "raschiato"; "rasente"; "rassegna";
  "rastrello"; "rata"; "ravveduto"; "reale"; "recepire"; "recinto"; "recluta"; "recondito";
  "recupero"; "reddito"; "redimere"; "regalato"; "registro"; "regola"; "regresso"; "relazione";
  "remare"; "remoto"; "renna"; "replica"; "reprimere"; "reputare"; "resa"; "residente";
  "responso"; "restauro"; "rete"; "retina"; "retorica"; "rettifica"; "revocato"; "riassunto";
  "ribadire"; "ribelle"; "ribrezzo"; "ricarica"; "ricco"; "ricevere"; "riciclato"; "ricordo";
  "ricreduto"; "ridicolo"; "ridurre"; "rifasare"; "riflesso"; "riforma"; "rifugio"; "rigare";
  "rigettato"; "righello"; "rilassato"; "rilevato"; "rimanere"; "rimbalzo"; "rimedio";
  "rimorchio"; "rinascita"; "rincaro"; "rinforzo"; "rinnovo"; "rinomato"; "rinsavito";
  "rintocco"; "rinuncia"; "rinvenire"; "riparato"; "ripetuto"; "ripieno"; "riportare"; "ripresa";
  "ripulire"; "risata"; "rischio"; "riserva"; "risibile"; "riso"; "rispetto"; "ristoro";
  "risultato"; "risvolto"; "ritardo"; "ritegno"; "ritmico"; "ritrovo"; "riunione"; "riva";
  "riverso"; "rivincita"; "rivolto"; "rizoma"; "roba"; "robotico"; "robusto"; "roccia"; "roco";
  "rodaggio"; "rodere"; "roditore"; "rogito"; "rollio"; "romantico"; "rompere"; "ronzio";
  "rosolare"; "rospo"; "rotante"; "rotondo"; "rotula"; "rovescio"; "rubizzo"; "rubrica"; "ruga";
  "rullino"; "rumine"; "rumoroso"; "ruolo"; "rupe"; "russare"; "rustico"; "sabato"; "sabbiare";
  "sabotato"; "sagoma"; "salasso"; "saldatura"; "salgemma"; "salivare"; "salmone"; "salone";
  "saltare"; "saluto"; "salvo"; "sapere"; "sapido"; "saporito"; "saraceno"; "sarcasmo"; "sarto";
  "sassoso"; "satellite"; "satira"; "satollo"; "saturno"; "savana"; "savio"; "saziato";
  "sbadiglio"; "sbalzo"; "sbancato"; "sbarra"; "sbattere"; "sbavare"; "sbendare"; "sbirciare";
  "sbloccato"; "sbocciato"; "sbrinare"; "sbruffone"; "sbuffare"; "scabroso"; "scadenza"; "scala";
  "scambiare"; "scandalo"; "scapola"; "scarso"; "scatenare"; "scavato"; "scelto"; "scenico";
  "scettro"; "scheda"; "schiena"; "sciarpa"; "scienza"; "scindere"; "scippo"; "sciroppo";
  "scivolo"; "sclerare"; "scodella"; "scolpito"; "scomparto"; "sconforto"; "scoprire"; "scorta";
  "scossone"; "scozzese"; "scriba"; "scrollare"; "scrutinio"; "scuderia"; "scultore"; "scuola";
  "scuro"; "scusare"; "sdebitare"; "sdoganare"; "seccatura"; "secondo"; "sedano"; "seggiola";
  "segnalato"; "segregato"; "seguito"; "selciato"; "selettivo"; "sella"; "selvaggio"; "semaforo";
  "sembrare"; "seme"; "seminato"; "sempre"; "senso"; "sentire"; "sepolto"; "sequenza"; "serata";
  "serbato"; "sereno"; "serio"; "serpente"; "serraglio"; "servire"; "sestina"; "setola";
  "settimana"; "sfacelo"; "sfaldare"; "sfamato"; "sfarzoso"; "sfaticato"; "sfera"; "sfida";
  "sfilato"; "sfinge"; "sfocato"; "sfoderare"; "sfogo"; "sfoltire"; "sforzato"; "sfratto";
  "sfruttato"; "sfuggito"; "sfumare"; "sfuso"; "sgabello"; "sgarbato"; "sgonfiare"; "sgorbio";
  "sgrassato"; "sguardo"; "sibilo"; "siccome"; "sierra"; "sigla"; "signore"; "silenzio";
  "sillaba"; "simbolo"; "simpatico"; "simulato"; "sinfonia"; "singolo"; "sinistro"; "sino";
  "sintesi"; "sinusoide"; "sipario"; "sisma"; "sistole"; "situato"; "slitta"; "slogatura";
  "sloveno"; "smarrito"; "smemorato"; "smentito"; "smeraldo"; "smilzo"; "smontare"; "smottato";
  "smussato"; "snellire"; "snervato"; "snodo"; "sobbalzo"; "sobrio"; "soccorso"; "sociale";
  "sodale"; "soffitto"; "sogno"; "soldato"; "solenne"; "solido"; "sollazzo"; "solo"; "solubile";
  "solvente"; "somatico"; "somma"; "sonda"; "sonetto"; "sonnifero"; "sopire"; "soppeso"; "sopra";
  "sorgere"; "sorpasso"; "sorriso"; "sorso"; "sorteggio"; "sorvolato"; "sospiro"; "sosta";
  "sottile"; "spada"; "spalla"; "spargere"; "spatola"; "spavento"; "spazzola"; "specie";
  "spedire"; "spegnere"; "spelatura"; "speranza"; "spessore"; "spettrale"; "spezzato"; "spia";
  "spigoloso"; "spillato"; "spinoso"; "spirale"; "splendido"; "sportivo"; "sposo"; "spranga";
  "sprecare"; "spronato"; "spruzzo"; "spuntino"; "squillo"; "sradicare"; "srotolato"; "stabile";
  "stacco"; "staffa"; "stagnare"; "stampato"; "stantio"; "starnuto"; "stasera"; "statuto";
  "stelo"; "steppa"; "sterzo"; "stiletto"; "stima"; "stirpe"; "stivale"; "stizzoso"; "stonato";
  "storico"; "strappo"; "stregato"; "stridulo"; "strozzare"; "strutto"; "stuccare"; "stufo";
  "stupendo"; "subentro"; "succoso"; "sudore"; "suggerito"; "sugo"; "sultano"; "suonare";
  "superbo"; "supporto"; "surgelato"; "surrogato"; "sussurro"; "sutura"; "svagare"; "svedese";
  "sveglio"; "svelare"; "svenuto"; "svezia"; "sviluppo"; "svista"; "svizzera"; "svolta";
  "svuotare"; "tabacco"; "tabulato"; "tacciare"; "taciturno"; "tale"; "talismano"; "tampone";
  "tannino"; "tara"; "tardivo"; "targato"; "tariffa"; "tarpare"; "tartaruga"; "tasto"; "tattico";
  "taverna"; "tavolata"; "tazza"; "teca"; "tecnico"; "telefono"; "temerario"; "tempo"; "temuto";
  "tendone"; "tenero"; "tensione"; "tentacolo"; "teorema"; "terme"; "terrazzo"; "terzetto";
  "tesi"; "tesserato"; "testato"; "tetro"; "tettoia"; "tifare"; "tigella"; "timbro"; "tinto";
  "tipico"; "tipografo"; "tiraggio"; "tiro"; "titanio"; "titolo"; "titubante"; "tizio";
  "tizzone"; "toccare"; "tollerare"; "tolto"; "tombola"; "tomo"; "tonfo"; "tonsilla"; "topazio";
  "topologia"; "toppa"; "torba"; "tornare"; "torrone"; "tortora"; "toscano"; "tossire";
  "tostatura"; "totano"; "trabocco"; "trachea"; "trafila"; "tragedia"; "tralcio"; "tramonto";
  "transito"; "trapano"; "trarre"; "trasloco"; "trattato"; "trave"; "treccia"; "tremolio";
  "trespolo"; "tributo"; "tricheco"; "trifoglio"; "trillo"; "trincea"; "trio"; "tristezza";
  "triturato"; "trivella"; "tromba"; "trono"; "troppo"; "trottola"; "trovare"; "truccato";
  "tubatura"; "tuffato"; "tulipano"; "tumulto"; "tunisia"; "turbare"; "turchino"; "tuta";
  "tutela"; "ubicato"; "uccello"; "uccisore"; "udire"; "uditivo"; "uffa"; "ufficio"; "uguale";
  "ulisse"; "ultimato"; "umano"; "umile"; "umorismo"; "uncinetto"; "ungere"; "ungherese";
  "unicorno"; "unificato"; "unisono"; "unitario"; "unte"; "uovo"; "upupa"; "uragano"; "urgenza";
  "urlo"; "usanza"; "usato"; "uscito"; "usignolo"; "usuraio"; "utensile"; "utilizzo"; "utopia";
  "vacante"; "vaccinato"; "vagabondo"; "vagliato"; "valanga"; "valgo"; "valico"; "valletta";
  "valoroso"; "valutare"; "valvola"; "vampata"; "vangare"; "vanitoso"; "vano"; "vantaggio";
  "vanvera"; "vapore"; "varano"; "varcato"; "variante"; "vasca"; "vedetta"; "vedova"; "veduto";
  "vegetale"; "veicolo"; "velcro"; "velina"; "velluto"; "veloce"; "venato"; "vendemmia"; "vento";
  "verace"; "verbale"; "vergogna"; "verifica"; "vero"; "verruca"; "verticale"; "vescica";
  "vessillo"; "vestale"; "veterano"; "vetrina"; "vetusto"; "viandante"; "vibrante"; "vicenda";
  "vichingo"; "vicinanza"; "vidimare"; "vigilia"; "vigneto"; "vigore"; "vile"; "villano";
  "vimini"; "vincitore"; "viola"; "vipera"; "virgola"; "virologo"; "virulento"; "viscoso";
  "visione"; "vispo"; "vissuto"; "visura"; "vita"; "vitello"; "vittima"; "vivanda"; "vivido";
  "viziare"; "voce"; "voga"; "volatile"; "volere"; "volpe"; "voragine"; "vulcano"; "zampogna";
  "zanna"; "zappato"; "zattera"; "zavorra"; "zefiro"; "zelante"; "zelo"; "zenzero"; "zerbino";
  "zibetto"; "zinco"; "zircone"; "zitto"; "zolla"; "zotico"; "zucchero"; "zufolo"; "zulu";
  "zuppa"]%string.

Definition it_ : list Z := cstrings it_list.

Definition it_i : list Z := [
  0; 6; 15; 24; 30; 37; 45; 54; 63; 72; 80; 89; 97; 105; 111; 117; 122; 131; 140; 146; 153; 162;
  169; 178; 186; 192; 201; 209; 218; 226; 234; 243; 252; 258; 267; 273; 280; 288; 297; 303; 311;
  320; 329; 338; 345; 354; 360; 368; 377; 382; 389; 394; 403; 412; 417; 425; 433; 439; 448; 457;
  465; 473; 482; 491; 498; 506; 513; 522; 531; 539; 548; 556; 563; 571; 578; 587; 595; 603; 610;
  618; 624; 632; 641; 647; 655; 663; 672; 681; 687; 693; 702; 710; 719; 728; 737; 746; 753; 758;
  766; 773; 780; 787; 794; 801; 810; 818; 824; 833; 842; 847; 856; 864; 873; 878; 886; 895; 901;
  910; 919; 928; 936; 944; 951; 959; 968; 977; 986; 994; 1002; 1009; 1017; 1026; 1033; 1041;
  1049; 1056; 1063; 1068; 1076; 1083; 1092; 1100; 1108; 1117; 1122; 1131; 1139; 1148; 1156; 1163;
  1172; 1180; 1186; 1192; 1201; 1207; 1216; 1221; 1230; 1238; 1243; 1252; 1259; 1268; 1276; 1284;
  1292; 1298; 1305; 1314; 1322; 1330; 1338; 1346; 1354; 1362; 1371; 1379; 1388; 1394; 1403; 1410;
  1420; 1427; 1433; 1440; 1448; 1455; 1463; 1470; 1475; 1483; 1492; 1500; 1506; 1514; 1520; 1527;
  1535; 1543; 1551; 1559; 1568; 1576; 1582; 1591; 1599; 1607; 1616; 1622; 1630; 1638; 1644; 1649;
  1656; 1662; 1668; 1675; 1681; 1687; 1696; 1704; 1712; 1717; 1725; 1730; 1737; 1742; 1749; 1756;
  1761; 1770; 1776; 1785; 1793; 1800; 1809; 1818; 1824; 1833; 1841; 1850; 1858; 1866; 1875; 1882;
  1889; 1897; 1906; 1912; 1918; 1927; 1935; 1943; 1951; 1959; 1965; 1972; 1980; 1989; 1998; 2005;
  2013; 2023; 2032; 2041; 2047; 2056; 2063; 2069; 2077; 2082; 2089; 2097; 2102; 2108; 2114; 2122;
  2131; 2139; 2145; 2153; 2160; 2169; 2177; 2185; 2193; 2199; 2207; 2215; 2224; 2232; 2240; 2247;
  2255; 2262; 2270; 2275; 2282; 2290; 2298; 2305; 2313; 2322; 2331; 2339; 2345; 2353; 2362; 2371;
  2377; 2385; 2394; 2403; 2413; 2422; 2430; 2438; 2443; 2451; 2460; 2468; 2476; 2483; 2491; 2497;
  2505; 2514; 2522; 2529; 2537; 2547; 2552; 2559; 2569; 2578; 2586; 2592; 2599; 2608; 2615; 2621;
  2626; 2632; 2639; 2646; 2655; 2663; 2669; 2678; 2687; 2692; 2701; 2709; 2715; 2724; 2733; 2739;
  2747; 2755; 2765; 2772; 2780; 2787; 2796; 2804; 2810; 2816; 2824; 2831; 2840; 2848; 2856; 2864;
  2871; 2879; 2889; 2895; 2900; 2907; 2916; 2923; 2932; 2939; 2947; 2956; 2965; 2975; 2983; 2992;
  3002; 3010; 3019; 3028; 3036; 3044; 3051; 3061; 3069; 3077; 3086; 3094; 3102; 3108; 3116; 3123;
  3131; 3139; 3148; 3156; 3163; 3171; 3180; 3187; 3195; 3203; 3212; 3218; 3226; 3234; 3240; 3248;
  3254; 3262; 3271; 3280; 3287; 3294; 3301; 3308; 3316; 3323; 3332; 3340; 3346; 3354; 3362; 3367;
  3373; 3381; 3390; 3398; 3406; 3414; 3421; 3429; 3437; 3445; 3454; 3461; 3469; 3477; 3485; 3494;
  3503; 3511; 3517; 3526; 3534; 3542; 3548; 3556; 3565; 3572; 3581; 3590; 3599; 3606; 3616; 3624;
  3634; 3643; 3653; 3660; 3669; 3678; 3685; 3692; 3700; 3709; 3718; 3726; 3735; 3744; 3752; 3760;
  3767; 3776; 3781; 3789; 3796; 3804; 3813; 3821; 3829; 3838; 3847; 3856; 3861; 3868; 3876; 3885;
  3894; 3902; 3910; 3919; 3925; 3931; 3938; 3947; 3956; 3964; 3969; 3977; 3982; 3990; 3997; 4005;
  4011; 4018; 4025; 4034; 4041; 4046; 4052; 4060; 4069; 4075; 4083; 4088; 4096; 4105; 4111; 4119;
  4125; 4134; 4142; 4151; 4156; 4164; 4172; 4182; 4191; 4200; 4209; 4216; 4224; 4231; 4237; 4242;
  4247; 4253; 4261; 4269; 4276; 4282; 4290; 4299; 4308; 4314; 4323; 4330; 4338; 4345; 4353; 4361;
  4368; 4376; 4384; 4393; 4401; 4408; 4417; 4424; 4429; 4436; 4442; 4450; 4458; 4467; 4472; 4480;
  4488; 4496; 4502; 4510; 4519; 4524; 4532; 4541; 4549; 4558; 4567; 4573; 4581; 4590; 4596; 4604;
  4613; 4621; 4626; 4633; 4642; 4650; 4658; 4667; 4675; 4682; 4690; 4695; 4704; 4711; 4717; 4726;
  4734; 4742; 4749; 4758; 4767; 4775; 4781; 4790; 4797; 4805; 4811; 4820; 4825; 4834; 4843; 4851;
  4858; 4866; 4874; 4883; 4888; 4897; 4904; 4911; 4916; 4923; 4929; 4936; 4944; 4952; 4961; 4970;
  4976; 4984; 4992; 5000; 5006; 5012; 5018; 5026; 5031; 5040; 5045; 5053; 5062; 5069; 5075; 5083;
  5090; 5096; 5104; 5113; 5119; 5126; 5134; 5142; 5149; 5156; 5165; 5172; 5181; 5188; 5195; 5204;
  5212; 5221; 5230; 5236; 5244; 5252; 5262; 5270; 5278; 5286; 5291; 5300; 5308; 5316; 5322; 5331;
  5337; 5346; 5355; 5365; 5373; 5380; 5386; 5395; 5402; 5410; 5417; 5426; 5433; 5442; 5450; 5456;
  5464; 5472; 5479; 5484; 5493; 5499; 5505; 5513; 5520; 5525; 5532; 5541; 5547; 5555; 5563; 5571;
  5579; 5585; 5594; 5600; 5609; 5617; 5626; 5634; 5643; 5649; 5656; 5663; 5672; 5677; 5686; 5692;
  5700; 5708; 5713; 5722; 5730; 5739; 5745; 5754; 5763; 5769; 5776; 5782; 5790; 5798; 5807; 5814;
  5820; 5827; 5834; 5842; 5851; 5859; 5866; 5874; 5882; 5888; 5894; 5899; 5906; 5914; 5921; 5927;
  5935; 5943; 5949; 5957; 5964; 5971; 5980; 5988; 5995; 6001; 6008; 6016; 6023; 6030; 6037; 6044;
  6053; 6059; 6066; 6075; 6080; 6088; 6097; 6103; 6112; 6120; 6126; 6131; 6138; 6147; 6154; 6161;
  6170; 6176; 6183; 6192; 6201; 6209; 6218; 6226; 6233; 6240; 6248; 6257; 6265; 6272; 6280; 6288;
  6297; 6305; 6314; 6323; 6331; 6340; 6348; 6357; 6365; 6374; 6383; 6390; 6399; 6405; 6412; 6420;
  6428; 6437; 6446; 6455; 6463; 6471; 6479; 6488; 6496; 6504; 6514; 6523; 6530; 6538; 6546; 6555;
  6564; 6573; 6580; 6589; 6597; 6607; 6616; 6623; 6630; 6639; 6648; 6656; 6663; 6669; 6677; 6685;
  6694; 6703; 6711; 6719; 6728; 6737; 6745; 6752; 6760; 6767; 6777; 6783; 6792; 6800; 6807; 6815;
  6820; 6826; 6835; 6844; 6852; 6858; 6866; 6873; 6881; 6888; 6896; 6904; 6911; 6918; 6926; 6932;
  6941; 6947; 6953; 6959; 6966; 6974; 6980; 6990; 6995; 7004; 7011; 7016; 7024; 7030; 7039; 7048;
  7056; 7064; 7071; 7079; 7084; 7091; 7097; 7102; 7110; 7117; 7125; 7130; 7137; 7145; 7152; 7160;
  7168; 7176; 7181; 7190; 7195; 7204; 7211; 7220; 7226; 7231; 7239; 7247; 7253; 7259; 7267; 7276;
  7283; 7292; 7299; 7306; 7313; 7321; 7327; 7336; 7345; 7354; 7364; 7372; 7378; 7387; 7392; 7399;
  7408; 7417; 7427; 7435; 7443; 7452; 7460; 7469; 7475; 7484; 7492; 7500; 7506; 7515; 7524; 7532;
  7540; 7550; 7560; 7568; 7575; 7583; 7591; 7601; 7610; 7619; 7628; 7633; 7641; 7647; 7655; 7663;
  7668; 7676; 7685; 7693; 7699; 7708; 7713; 7721; 7729; 7737; 7744; 7752; 7762; 7767; 7775; 7783;
  7791; 7799; 7805; 7814; 7821; 7828; 7835; 7844; 7849; 7856; 7863; 7872; 7880; 7888; 7894; 7903;
  7911; 7920; 7926; 7935; 7945; 7953; 7962; 7969; 7976; 7982; 7987; 7995; 8005; 8011; 8019; 8029;
  8036; 8045; 8053; 8061; 8069; 8074; 8082; 8092; 8099; 8108; 8117; 8123; 8131; 8141; 8147; 8153;
  8160; 8166; 8175; 8183; 8191; 8201; 8210; 8217; 8223; 8231; 8238; 8243; 8251; 8258; 8267; 8272;
  8280; 8286; 8296; 8304; 8311; 8319; 8327; 8336; 8345; 8353; 8362; 8371; 8379; 8388; 8396; 8404;
  8412; 8420; 8426; 8434; 8442; 8451; 8456; 8466; 8474; 8480; 8487; 8494; 8501; 8506; 8511; 8518;
  8526; 8534; 8544; 8553; 8560; 8568; 8577; 8585; 8592; 8598; 8605; 8611; 8619; 8626; 8634; 8639;
  8648; 8656; 8665; 8671; 8677; 8686; 8696; 8703; 8713; 8723; 8733; 8738; 8746; 8754; 8762; 8770;
  8778; 8788; 8796; 8801; 8808; 8817; 8825; 8832; 8838; 8848; 8854; 8862; 8871; 8877; 8883; 8893;
  8900; 8906; 8912; 8921; 8931; 8936; 8944; 8953; 8961; 8969; 8975; 8982; 8992; 9000; 9007; 9016;
  9024; 9034; 9039; 9048; 9057; 9066; 9074; 9083; 9092; 9099; 9106; 9111; 9117; 9126; 9133; 9142;
  9149; 9154; 9163; 9172; 9177; 9183; 9188; 9197; 9204; 9212; 9218; 9224; 9230; 9238; 9246; 9254;
  9262; 9267; 9277; 9282; 9291; 9299; 9307; 9313; 9318; 9325; 9335; 9344; 9352; 9357; 9364; 9372;
  9381; 9387; 9396; 9404; 9413; 9422; 9429; 9437; 9442; 9450; 9457; 9465; 9474; 9483; 9491; 9500;
  9508; 9518; 9526; 9533; 9541; 9550; 9559; 9566; 9573; 9580; 9588; 9597; 9605; 9614; 9622; 9630;
  9635; 9642; 9650; 9659; 9669; 9679; 9689; 9697; 9706; 9712; 9722; 9731; 9740; 9748; 9757; 9765;
  9770; 9780; 9787; 9795; 9805; 9811; 9819; 9826; 9835; 9843; 9851; 9857; 9864; 9872; 9880; 9888;
  9894; 9899; 9908; 9916; 9923; 9932; 9939; 9945; 9952; 9960; 9967; 9976; 9985; 9992; 10001;
  10008; 10016; 10024; 10032; 10039; 10047; 10056; 10065; 10074; 10082; 10089; 10098; 10106;
  10115; 10123; 10133; 10142; 10148; 10157; 10165; 10172; 10181; 10187; 10196; 10204; 10211;
  10219; 10225; 10233; 10238; 10247; 10256; 10266; 10275; 10282; 10289; 10296; 10304; 10313;
  10321; 10330; 10339; 10348; 10356; 10366; 10376; 10385; 10394; 10403; 10409; 10418; 10426;
  10435; 10443; 10452; 10460; 10469; 10478; 10487; 10495; 10504; 10512; 10520; 10526; 10535;
  10542; 10550; 10557; 10566; 10573; 10582; 10588; 10594; 10601; 10610; 10618; 10626; 10634;
  10639; 10646; 10655; 10661; 10669; 10675; 10684; 10694; 10703; 10712; 10720; 10728; 10736;
  10742; 10750; 10758; 10763; 10772; 10782; 10789; 10796; 10805; 10814; 10824; 10832; 10841;
  10851; 10856; 10866; 10872; 10881; 10889; 10897; 10907; 10916; 10924; 10933; 10942; 10951;
  10958; 10967; 10977; 10984; 10991; 10997; 11005; 11015; 11024; 11029; 11039; 11048; 11057;
  11062; 11069; 11078; 11088; 11097; 11107; 11116; 11124; 11133; 11142; 11148; 11157; 11167;
  11175; 11185; 11194; 11202; 11211; 11220; 11228; 11236; 11243; 11253; 11262; 11272; 11281;
  11290; 11299; 11307; 11317; 11327; 11335; 11344; 11352; 11361; 11371; 11380; 11389; 11399;
  11408; 11417; 11425; 11435; 11443; 11452; 11459; 11467; 11475; 11484; 11489; 11498; 11506;
  11516; 11525; 11533; 11541; 11549; 11557; 11566; 11571; 11579; 11589; 11597; 11604; 11609;
  11618; 11626; 11633; 11638; 11647; 11654; 11663; 11670; 11677; 11687; 11695; 11702; 11711;
  11717; 11725; 11733; 11740; 11749; 11757; 11765; 11770; 11778; 11785; 11794; 11800; 11805;
  11813; 11821; 11828; 11837; 11846; 11853; 11861; 11871; 11880; 11889; 11897; 11904; 11912;
  11919; 11925; 11932; 11939; 11948; 11957; 11966; 11972; 11980; 11990; 11997; 12005; 12013;
  12020; 12026; 12034; 12044; 12051; 12060; 12067; 12076; 12084; 12093; 12103; 12113; 12123;
  12132; 12142; 12151; 12160; 12169; 12175; 12185; 12194; 12202; 12209; 12219; 12227; 12234;
  12242; 12250; 12257; 12265; 12273; 12281; 12290; 12297; 12306; 12314; 12323; 12332; 12341;
  12351; 12361; 12370; 12377; 12386; 12395; 12402; 12412; 12422; 12431; 12440; 12447; 12453;
  12461; 12471; 12481; 12491; 12499; 12506; 12515; 12525; 12535; 12543; 12552; 12562; 12568;
  12578; 12587; 12596; 12601; 12610; 12617; 12623; 12631; 12639; 12648; 12655; 12663; 12670;
  12676; 12685; 12695; 12703; 12711; 12718; 12728; 12736; 12745; 12753; 12762; 12772; 12778;
  12784; 12792; 12799; 12807; 12817; 12823; 12832; 12841; 12849; 12859; 12868; 12876; 12882;
  12891; 12900; 12910; 12918; 12928; 12936; 12943; 12951; 12958; 12964; 12972; 12981; 12989;
  12997; 13007; 13016; 13025; 13033; 13042; 13047; 13055; 13065; 13073; 13079; 13087; 13095;
  13102; 13112; 13120; 13129; 13139; 13148; 13157; 13164; 13173; 13182; 13191; 13200; 13209;
  13215; 13224; 13231; 13240; 13248; 13255; 13264; 13270; 13278; 13286; 13293; 13302; 13307;
  13316; 13325; 13334; 13340; 13346; 13354; 13364; 13371; 13379; 13385; 13393; 13402; 13410;
  13416; 13426; 13436; 13444; 13450; 13458; 13464; 13471; 13480; 13488; 13497; 13506; 13513;
  13521; 13530; 13540; 13549; 13558; 13568; 13577; 13582; 13592; 13601; 13609; 13617; 13627;
  13636; 13642; 13650; 13659; 13668; 13676; 13685; 13693; 13703; 13713; 13721; 13728; 13735;
  13744; 13753; 13761; 13770; 13778; 13786; 13792; 13799; 13806; 13815; 13821; 13828; 13836;
  13845; 13853; 13861; 13869; 13878; 13887; 13897; 13905; 13914; 13920; 13929; 13938; 13946;
  13953; 13963; 13968; 13976; 13984; 13992; 14001; 14011; 14021; 14030; 14037; 14045; 14053;
  14061; 14069; 14077; 14084; 14093; 14100; 14109; 14116; 14125; 14133; 14142; 14151; 14161;
  14166; 14176; 14184; 14192; 14197; 14205; 14213; 14221; 14229; 14239; 14245; 14253; 14261;
  14270; 14276; 14281; 14289; 14298; 14308; 14314; 14321; 14329; 14336; 14345; 14355; 14363;
  14369; 14378; 14387; 14392; 14402; 14410; 14416; 14424; 14431; 14439; 14446; 14452; 14459;
  14469; 14478; 14483; 14491; 14498; 14508; 14514; 14522; 14530; 14540; 14546; 14554; 14559;
  14565; 14574; 14582; 14592; 14598; 14604; 14612; 14620; 14628; 14636; 14644; 14654; 14661;
  14670; 14678; 14686; 14695; 14703; 14712; 14721; 14729; 14736; 14745; 14754; 14760; 14768;
  14777; 14786; 14794; 14803; 14813; 14820; 14828; 14833; 14843; 14853; 14862; 14869; 14875;
  14882; 14891; 14899; 14908; 14917; 14925; 14934; 14942; 14950; 14958; 14967; 14972; 14979;
  14987; 14995; 15004; 15010; 15018; 15023; 15031; 15038; 15045; 15054; 15060; 15066; 15075;
  15085; 15092; 15102; 15111; 15121; 15129; 15138; 15143; 15148; 15154; 15162; 15170; 15175;
  15182; 15188; 15195; 15204; 15212; 15221; 15230; 15237; 15245; 15255; 15265; 15274; 15282;
  15288; 15295; 15304; 15313; 15322; 15330; 15338; 15346; 15355; 15360; 15370; 15378; 15385;
  15392; 15400; 15409; 15415; 15423; 15430; 15437; 15446; 15454; 15461; 15468; 15476; 15483;
  15490; 15500; 15506; 15513; 15521; 15530; 15539; 15544; 15552; 15562; 15570; 15579; 15587;
  15596; 15604; 15612; 15622; 15631; 15639; 15648; 15658; 15667; 15675; 15683; 15690; 15695;
  15703; 15710; 15720; 15726; 15733; 15741; 15750; 15760; 15768; 15776; 15782; 15790; 15797;
  15802; 15810; 15818; 15826; 15833; 15841; 15846; 15851; 15860; 15867; 15873; 15882; 15890;
  15899; 15905; 15913; 15921; 15929; 15936; 15944; 15949; 15957; 15965; 15973; 15979; 15987;
  15993; 15999; 16006; 16015; 16022; 16027; 16033].

Definition it_words : words := const_words 2048 11 true it_ it_i.

(** ** Japanese *)

Definition jp_list : list string := [
  "あいこくしん"; "あいさつ"; "あいだ"; "あおぞら"; "あかちゃん"; "あきる"; "あけがた"; "あける"; "あこがれる"; "あさい"; "あさひ";
  "あしあと"; "あじわう"; "あずかる"; "あずき"; "あそぶ"; "あたえる"; "あたためる"; "あたりまえ"; "あたる"; "あつい"; "あつかう";
  "あっしゅく"; "あつまり"; "あつめる"; "あてな"; "あてはまる"; "あひる"; "あぶら"; "あぶる"; "あふれる"; "あまい"; "あまど"; "あまやかす";
  "あまり"; "あみもの"; "あめりか"; "あやまる"; "あゆむ"; "あらいぐま"; "あらし"; "あらすじ"; "あらためる"; "あらゆる"; "あらわす";
  "ありがとう"; "あわせる"; "あわてる"; "あんい"; "あんがい"; "あんこ"; "あんぜん"; "あんてい"; "あんない"; "あんまり"; "いいだす";
  "いおん"; "いがい"; "いがく"; "いきおい"; "いきなり"; "いきもの"; "いきる"; "いくじ"; "いくぶん"; "いけばな"; "いけん"; "いこう";
  "いこく"; "いこつ"; "いさましい"; "いさん"; "いしき"; "いじゅう"; "いじょう"; "いじわる"; "いずみ"; "いずれ"; "いせい"; "いせえび";
  "いせかい"; "いせき"; "いぜん"; "いそうろう"; "いそがしい"; "いだい"; "いだく"; "いたずら"; "いたみ"; "いたりあ"; "いちおう";
  "いちじ"; "いちど"; "いちば"; "いちぶ"; "いちりゅう"; "いつか"; "いっしゅん"; "いっせい"; "いっそう"; "いったん"; "いっち"; "いってい";
  "いっぽう"; "いてざ"; "いてん"; "いどう"; "いとこ"; "いない"; "いなか"; "いねむり"; "いのち"; "いのる"; "いはつ"; "いばる";
  "いはん"; "いびき"; "いひん"; "いふく"; "いへん"; "いほう"; "いみん"; "いもうと"; "いもたれ"; "いもり"; "いやがる"; "いやす";
  "いよかん"; "いよく"; "いらい"; "いらすと"; "いりぐち"; "いりょう"; "いれい"; "いれもの"; "いれる"; "いろえんぴつ"; "いわい"; "いわう";
  "いわかん"; "いわば"; "いわゆる"; "いんげんまめ"; "いんさつ"; "いんしょう"; "いんよう"; "うえき"; "うえる"; "うおざ"; "うがい";
  "うかぶ"; "うかべる"; "うきわ"; "うくらいな"; "うくれれ"; "うけたまわる"; "うけつけ"; "うけとる"; "うけもつ"; "うける"; "うごかす";
  "うごく"; "うこん"; "うさぎ"; "うしなう"; "うしろがみ"; "うすい"; "うすぎ"; "うすぐらい"; "うすめる"; "うせつ"; "うちあわせ";
  "うちがわ"; "うちき"; "うちゅう"; "うっかり"; "うつくしい"; "うったえる"; "うつる"; "うどん"; "うなぎ"; "うなじ"; "うなずく";
  "うなる"; "うねる"; "うのう"; "うぶげ"; "うぶごえ"; "うまれる"; "うめる"; "うもう"; "うやまう"; "うよく"; "うらがえす"; "うらぐち";
  "うらない"; "うりあげ"; "うりきれ"; "うるさい"; "うれしい"; "うれゆき"; "うれる"; "うろこ"; "うわき"; "うわさ"; "うんこう"; "うんちん";
  "うんてん"; "うんどう"; "えいえん"; "えいが"; "えいきょう"; "えいご"; "えいせい"; "えいぶん"; "えいよう"; "えいわ"; "えおり";
  "えがお"; "えがく"; "えきたい"; "えくせる"; "えしゃく"; "えすて"; "えつらん"; "えのぐ"; "えほうまき"; "えほん"; "えまき"; "えもじ";
  "えもの"; "えらい"; "えらぶ"; "えりあ"; "えんえん"; "えんかい"; "えんぎ"; "えんげき"; "えんしゅう"; "えんぜつ"; "えんそく";
  "えんちょう"; "えんとつ"; "おいかける"; "おいこす"; "おいしい"; "おいつく"; "おうえん"; "おうさま"; "おうじ"; "おうせつ"; "おうたい";
  "おうふく"; "おうべい"; "おうよう"; "おえる"; "おおい"; "おおう"; "おおどおり"; "おおや"; "おおよそ"; "おかえり"; "おかず"; "おがむ";
  "おかわり"; "おぎなう"; "おきる"; "おくさま"; "おくじょう"; "おくりがな"; "おくる"; "おくれる"; "おこす"; "おこなう"; "おこる";
  "おさえる"; "おさない"; "おさめる"; "おしいれ"; "おしえる"; "おじぎ"; "おじさん"; "おしゃれ"; "おそらく"; "おそわる"; "おたがい";
  "おたく"; "おだやか"; "おちつく"; "おっと"; "おつり"; "おでかけ"; "おとしもの"; "おとなしい"; "おどり"; "おどろかす"; "おばさん";
  "おまいり"; "おめでとう"; "おもいで"; "おもう"; "おもたい"; "おもちゃ"; "おやつ"; "おやゆび"; "およぼす"; "おらんだ"; "おろす";
  "おんがく"; "おんけい"; "おんしゃ"; "おんせん"; "おんだん"; "おんちゅう"; "おんどけい"; "かあつ"; "かいが"; "がいき"; "がいけん";
  "がいこう"; "かいさつ"; "かいしゃ"; "かいすいよく"; "かいぜん"; "かいぞうど"; "かいつう"; "かいてん"; "かいとう"; "かいふく"; "がいへき";
  "かいほう"; "かいよう"; "がいらい"; "かいわ"; "かえる"; "かおり"; "かかえる"; "かがく"; "かがし"; "かがみ"; "かくご"; "かくとく";
  "かざる"; "がぞう"; "かたい"; "かたち"; "がちょう"; "がっきゅう"; "がっこう"; "がっさん"; "がっしょう"; "かなざわし"; "かのう";
  "がはく"; "かぶか"; "かほう"; "かほご"; "かまう"; "かまぼこ"; "かめれおん"; "かゆい"; "かようび"; "からい"; "かるい"; "かろう";
  "かわく"; "かわら"; "がんか"; "かんけい"; "かんこう"; "かんしゃ"; "かんそう"; "かんたん"; "かんち"; "がんばる"; "きあい"; "きあつ";
  "きいろ"; "ぎいん"; "きうい"; "きうん"; "きえる"; "きおう"; "きおく"; "きおち"; "きおん"; "きかい"; "きかく"; "きかんしゃ"; "ききて";
  "きくばり"; "きくらげ"; "きけんせい"; "きこう"; "きこえる"; "きこく"; "きさい"; "きさく"; "きさま"; "きさらぎ"; "ぎじかがく";
  "ぎしき"; "ぎじたいけん"; "ぎじにってい"; "ぎじゅつしゃ"; "きすう"; "きせい"; "きせき"; "きせつ"; "きそう"; "きぞく"; "きぞん";
  "きたえる"; "きちょう"; "きつえん"; "ぎっちり"; "きつつき"; "きつね"; "きてい"; "きどう"; "きどく"; "きない"; "きなが"; "きなこ";
  "きぬごし"; "きねん"; "きのう"; "きのした"; "きはく"; "きびしい"; "きひん"; "きふく"; "きぶん"; "きぼう"; "きほん"; "きまる";
  "きみつ"; "きむずかしい"; "きめる"; "きもだめし"; "きもち"; "きもの"; "きゃく"; "きやく"; "ぎゅうにく"; "きよう"; "きょうりゅう";
  "きらい"; "きらく"; "きりん"; "きれい"; "きれつ"; "きろく"; "ぎろん"; "きわめる"; "ぎんいろ"; "きんかくじ"; "きんじょ"; "きんようび";
  "ぐあい"; "くいず"; "くうかん"; "くうき"; "くうぐん"; "くうこう"; "ぐうせい"; "くうそう"; "ぐうたら"; "くうふく"; "くうぼ";
  "くかん"; "くきょう"; "くげん"; "ぐこう"; "くさい"; "くさき"; "くさばな"; "くさる"; "くしゃみ"; "くしょう"; "くすのき"; "くすりゆび";
  "くせげ"; "くせん"; "ぐたいてき"; "くださる"; "くたびれる"; "くちこみ"; "くちさき"; "くつした"; "ぐっすり"; "くつろぐ"; "くとうてん";
  "くどく"; "くなん"; "くねくね"; "くのう"; "くふう"; "くみあわせ"; "くみたてる"; "くめる"; "くやくしょ"; "くらす"; "くらべる"; "くるま";
  "くれる"; "くろう"; "くわしい"; "ぐんかん"; "ぐんしょく"; "ぐんたい"; "ぐんて"; "けあな"; "けいかく"; "けいけん"; "けいこ"; "けいさつ";
  "げいじゅつ"; "けいたい"; "げいのうじん"; "けいれき"; "けいろ"; "けおとす"; "けおりもの"; "げきか"; "げきげん"; "げきだん";
  "げきちん"; "げきとつ"; "げきは"; "げきやく"; "げこう"; "げこくじょう"; "げざい"; "けさき"; "げざん"; "けしき"; "けしごむ";
  "けしょう"; "げすと"; "けたば"; "けちゃっぷ"; "けちらす"; "けつあつ"; "けつい"; "けつえき"; "けっこん"; "けつじょ"; "けっせき";
  "けってい"; "けつまつ"; "げつようび"; "げつれい"; "けつろん"; "げどく"; "けとばす"; "けとる"; "けなげ"; "けなす"; "けなみ";
  "けぬき"; "げねつ"; "けねん"; "けはい"; "げひん"; "けぶかい"; "げぼく"; "けまり"; "けみかる"; "けむし"; "けむり"; "けもの";
  "けらい"; "けろけろ"; "けわしい"; "けんい"; "けんえつ"; "けんお"; "けんか"; "げんき"; "けんげん"; "けんこう"; "けんさく"; "けんしゅう";
  "けんすう"; "げんそう"; "けんちく"; "けんてい"; "けんとう"; "けんない"; "けんにん"; "げんぶつ"; "けんま"; "けんみん"; "けんめい";
  "けんらん"; "けんり"; "こあくま"; "こいぬ"; "こいびと"; "ごうい"; "こうえん"; "こうおん"; "こうかん"; "ごうきゅう"; "ごうけい";
  "こうこう"; "こうさい"; "こうじ"; "こうすい"; "ごうせい"; "こうそく"; "こうたい"; "こうちゃ"; "こうつう"; "こうてい"; "こうどう";
  "こうない"; "こうはい"; "ごうほう"; "ごうまん"; "こうもく"; "こうりつ"; "こえる"; "こおり"; "ごかい"; "ごがつ"; "ごかん";
  "こくご"; "こくさい"; "こくとう"; "こくない"; "こくはく"; "こぐま"; "こけい"; "こける"; "ここのか"; "こころ"; "こさめ"; "こしつ";
  "こすう"; "こせい"; "こせき"; "こぜん"; "こそだて"; "こたい"; "こたえる"; "こたつ"; "こちょう"; "こっか"; "こつこつ"; "こつばん";
  "こつぶ"; "こてい"; "こてん"; "ことがら"; "ことし"; "ことば"; "ことり"; "こなごな"; "こねこね"; "このまま"; "このみ"; "このよ";
  "ごはん"; "こひつじ"; "こふう"; "こふん"; "こぼれる"; "ごまあぶら"; "こまかい"; "ごますり"; "こまつな"; "こまる"; "こむぎこ";
  "こもじ"; "こもち"; "こもの"; "こもん"; "こやく"; "こやま"; "こゆう"; "こゆび"; "こよい"; "こよう"; "こりる"; "これくしょん";
  "ころっけ"; "こわもて"; "こわれる"; "こんいん"; "こんかい"; "こんき"; "こんしゅう"; "こんすい"; "こんだて"; "こんとん"; "こんなん";
  "こんびに"; "こんぽん"; "こんまけ"; "こんや"; "こんれい"; "こんわく"; "ざいえき"; "さいかい"; "さいきん"; "ざいげん"; "ざいこ";
  "さいしょ"; "さいせい"; "ざいたく"; "ざいちゅう"; "さいてき"; "ざいりょう"; "さうな"; "さかいし"; "さがす"; "さかな"; "さかみち";
  "さがる"; "さぎょう"; "さくし"; "さくひん"; "さくら"; "さこく"; "さこつ"; "さずかる"; "ざせき"; "さたん"; "さつえい"; "ざつおん";
  "ざっか"; "ざつがく"; "さっきょく"; "ざっし"; "さつじん"; "ざっそう"; "さつたば"; "さつまいも"; "さてい"; "さといも"; "さとう";
  "さとおや"; "さとし"; "さとる"; "さのう"; "さばく"; "さびしい"; "さべつ"; "さほう"; "さほど"; "さます"; "さみしい"; "さみだれ";
  "さむけ"; "さめる"; "さやえんどう"; "さゆう"; "さよう"; "さよく"; "さらだ"; "ざるそば"; "さわやか"; "さわる"; "さんいん"; "さんか";
  "さんきゃく"; "さんこう"; "さんさい"; "ざんしょ"; "さんすう"; "さんせい"; "さんそ"; "さんち"; "さんま"; "さんみ"; "さんらん"; "しあい";
  "しあげ"; "しあさって"; "しあわせ"; "しいく"; "しいん"; "しうち"; "しえい"; "しおけ"; "しかい"; "しかく"; "じかん"; "しごと";
  "しすう"; "じだい"; "したうけ"; "したぎ"; "したて"; "したみ"; "しちょう"; "しちりん"; "しっかり"; "しつじ"; "しつもん"; "してい";
  "してき"; "してつ"; "じてん"; "じどう"; "しなぎれ"; "しなもの"; "しなん"; "しねま"; "しねん"; "しのぐ"; "しのぶ"; "しはい";
  "しばかり"; "しはつ"; "しはらい"; "しはん"; "しひょう"; "しふく"; "じぶん"; "しへい"; "しほう"; "しほん"; "しまう"; "しまる";
  "しみん"; "しむける"; "じむしょ"; "しめい"; "しめる"; "しもん"; "しゃいん"; "しゃうん"; "しゃおん"; "じゃがいも"; "しやくしょ";
  "しゃくほう"; "しゃけん"; "しゃこ"; "しゃざい"; "しゃしん"; "しゃせん"; "しゃそう"; "しゃたい"; "しゃちょう"; "しゃっきん"; "じゃま";
  "しゃりん"; "しゃれい"; "じゆう"; "じゅうしょ"; "しゅくはく"; "じゅしん"; "しゅっせき"; "しゅみ"; "しゅらば"; "じゅんばん";
  "しょうかい"; "しょくたく"; "しょっけん"; "しょどう"; "しょもつ"; "しらせる"; "しらべる"; "しんか"; "しんこう"; "じんじゃ"; "しんせいじ";
  "しんちく"; "しんりん"; "すあげ"; "すあし"; "すあな"; "ずあん"; "すいえい"; "すいか"; "すいとう"; "ずいぶん"; "すいようび";
  "すうがく"; "すうじつ"; "すうせん"; "すおどり"; "すきま"; "すくう"; "すくない"; "すける"; "すごい"; "すこし"; "ずさん"; "すずしい";
  "すすむ"; "すすめる"; "すっかり"; "ずっしり"; "ずっと"; "すてき"; "すてる"; "すねる"; "すのこ"; "すはだ"; "すばらしい"; "ずひょう";
  "ずぶぬれ"; "すぶり"; "すふれ"; "すべて"; "すべる"; "ずほう"; "すぼん"; "すまい"; "すめし"; "すもう"; "すやき"; "すらすら";
  "するめ"; "すれちがう"; "すろっと"; "すわる"; "すんぜん"; "すんぽう"; "せあぶら"; "せいかつ"; "せいげん"; "せいじ"; "せいよう";
  "せおう"; "せかいかん"; "せきにん"; "せきむ"; "せきゆ"; "せきらんうん"; "せけん"; "せこう"; "せすじ"; "せたい"; "せたけ"; "せっかく";
  "せっきゃく"; "ぜっく"; "せっけん"; "せっこつ"; "せっさたくま"; "せつぞく"; "せつだん"; "せつでん"; "せっぱん"; "せつび"; "せつぶん";
  "せつめい"; "せつりつ"; "せなか"; "せのび"; "せはば"; "せびろ"; "せぼね"; "せまい"; "せまる"; "せめる"; "せもたれ"; "せりふ";
  "ぜんあく"; "せんい"; "せんえい"; "せんか"; "せんきょ"; "せんく"; "せんげん"; "ぜんご"; "せんさい"; "せんしゅ"; "せんすい"; "せんせい";
  "せんぞ"; "せんたく"; "せんちょう"; "せんてい"; "せんとう"; "せんぬき"; "せんねん"; "せんぱい"; "ぜんぶ"; "ぜんぽう"; "せんむ";
  "せんめんじょ"; "せんもん"; "せんやく"; "せんゆう"; "せんよう"; "ぜんら"; "ぜんりゃく"; "せんれい"; "せんろ"; "そあく"; "そいとげる";
  "そいね"; "そうがんきょう"; "そうき"; "そうご"; "そうしん"; "そうだん"; "そうなん"; "そうび"; "そうめん"; "そうり"; "そえもの";
  "そえん"; "そがい"; "そげき"; "そこう"; "そこそこ"; "そざい"; "そしな"; "そせい"; "そせん"; "そそぐ"; "そだてる"; "そつう";
  "そつえん"; "そっかん"; "そつぎょう"; "そっけつ"; "そっこう"; "そっせん"; "そっと"; "そとがわ"; "そとづら"; "そなえる"; "そなた";
  "そふぼ"; "そぼく"; "そぼろ"; "そまつ"; "そまる"; "そむく"; "そむりえ"; "そめる"; "そもそも"; "そよかぜ"; "そらまめ"; "そろう";
  "そんかい"; "そんけい"; "そんざい"; "そんしつ"; "そんぞく"; "そんちょう"; "ぞんび"; "ぞんぶん"; "そんみん"; "たあい"; "たいいん";
  "たいうん"; "たいえき"; "たいおう"; "だいがく"; "たいき"; "たいぐう"; "たいけん"; "たいこ"; "たいざい"; "だいじょうぶ"; "だいすき";
  "たいせつ"; "たいそう"; "だいたい"; "たいちょう"; "たいてい"; "だいどころ"; "たいない"; "たいねつ"; "たいのう"; "たいはん"; "だいひょう";
  "たいふう"; "たいへん"; "たいほ"; "たいまつばな"; "たいみんぐ"; "たいむ"; "たいめん"; "たいやき"; "たいよう"; "たいら"; "たいりょく";
  "たいる"; "たいわん"; "たうえ"; "たえる"; "たおす"; "たおる"; "たおれる"; "たかい"; "たかね"; "たきび"; "たくさん"; "たこく"; "たこやき";
  "たさい"; "たしざん"; "だじゃれ"; "たすける"; "たずさわる"; "たそがれ"; "たたかう"; "たたく"; "ただしい"; "たたみ"; "たちばな";
  "だっかい"; "だっきゃく"; "だっこ"; "だっしゅつ"; "だったい"; "たてる"; "たとえる"; "たなばた"; "たにん"; "たぬき"; "たのしみ";
  "たはつ"; "たぶん"; "たべる"; "たぼう"; "たまご"; "たまる"; "だむる"; "ためいき"; "ためす"; "ためる"; "たもつ"; "たやすい";
  "たよる"; "たらす"; "たりきほんがん"; "たりょう"; "たりる"; "たると"; "たれる"; "たれんと"; "たろっと"; "たわむれる"; "だんあつ"; "たんい";
  "たんおん"; "たんか"; "たんき"; "たんけん"; "たんご"; "たんさん"; "たんじょうび"; "だんせい"; "たんそく"; "たんたい"; "だんち";
  "たんてい"; "たんとう"; "だんな"; "たんにん"; "だんねつ"; "たんのう"; "たんぴん"; "だんぼう"; "たんまつ"; "たんめい"; "だんれつ";
  "だんろ"; "だんわ"; "ちあい"; "ちあん"; "ちいき"; "ちいさい"; "ちえん"; "ちかい"; "ちから"; "ちきゅう"; "ちきん"; "ちけいず";
  "ちけん"; "ちこく"; "ちさい"; "ちしき"; "ちしりょう"; "ちせい"; "ちそう"; "ちたい"; "ちたん"; "ちちおや"; "ちつじょ"; "ちてき"; "ちてん";
  "ちぬき"; "ちぬり"; "ちのう"; "ちひょう"; "ちへいせん"; "ちほう"; "ちまた"; "ちみつ"; "ちみどろ"; "ちめいど"; "ちゃんこなべ"; "ちゅうい";
  "ちゆりょく"; "ちょうし"; "ちょさくけん"; "ちらし"; "ちらみ"; "ちりがみ"; "ちりょう"; "ちるど"; "ちわわ"; "ちんたい"; "ちんもく"; "ついか";
  "ついたち"; "つうか"; "つうじょう"; "つうはん"; "つうわ"; "つかう"; "つかれる"; "つくね"; "つくる"; "つけね"; "つける"; "つごう";
  "つたえる"; "つづく"; "つつじ"; "つつむ"; "つとめる"; "つながる"; "つなみ"; "つねづね"; "つのる"; "つぶす"; "つまらない"; "つまる";
  "つみき"; "つめたい"; "つもり"; "つもる"; "つよい"; "つるぼ"; "つるみく"; "つわもの"; "つわり"; "てあし"; "てあて"; "てあみ"; "ていおん";
  "ていか"; "ていき"; "ていけい"; "ていこく"; "ていさつ"; "ていし"; "ていせい"; "ていたい"; "ていど"; "ていねい"; "ていひょう"; "ていへん";
  "ていぼう"; "てうち"; "ておくれ"; "てきとう"; "てくび"; "でこぼこ"; "てさぎょう"; "てさげ"; "てすり"; "てそう"; "てちがい";
  "てちょう"; "てつがく"; "てつづき"; "でっぱ"; "てつぼう"; "てつや"; "でぬかえ"; "てぬき"; "てぬぐい"; "てのひら"; "てはい";
  "てぶくろ"; "てふだ"; "てほどき"; "てほん"; "てまえ"; "てまきずし"; "てみじか"; "てみやげ"; "てらす"; "てれび"; "てわけ";
  "てわたし"; "でんあつ"; "てんいん"; "てんかい"; "てんき"; "てんぐ"; "てんけん"; "てんごく"; "てんさい"; "てんし"; "てんすう"; "でんち";
  "てんてき"; "てんとう"; "てんない"; "てんぷら"; "てんぼうだい"; "てんめつ"; "てんらんかい"; "でんりょく"; "でんわ"; "どあい"; "といれ";
  "どうかん"; "とうきゅう"; "どうぐ"; "とうし"; "とうむぎ"; "とおい"; "とおか"; "とおく"; "とおす"; "とおる"; "とかい"; "とかす";
  "ときおり"; "ときどき"; "とくい"; "とくしゅう"; "とくてん"; "とくに"; "とくべつ"; "とけい"; "とける"; "とこや"; "とさか"; "としょかん";
  "とそう"; "とたん"; "とちゅう"; "とっきゅう"; "とっくん"; "とつぜん"; "とつにゅう"; "とどける"; "ととのえる"; "とない"; "となえる";
  "となり"; "とのさま"; "とばす"; "どぶがわ"; "とほう"; "とまる"; "とめる"; "ともだち"; "ともる"; "どようび"; "とらえる";
  "とんかつ"; "どんぶり"; "ないかく"; "ないこう"; "ないしょ"; "ないす"; "ないせん"; "ないそう"; "なおす"; "ながい"; "なくす"; "なげる";
  "なこうど"; "なさけ"; "なたでここ"; "なっとう"; "なつやすみ"; "ななおし"; "なにごと"; "なにもの"; "なにわ"; "なのか"; "なふだ";
  "なまいき"; "なまえ"; "なまみ"; "なみだ"; "なめらか"; "なめる"; "なやむ"; "ならう"; "ならび"; "ならぶ"; "なれる"; "なわとび";
  "なわばり"; "にあう"; "にいがた"; "にうけ"; "におい"; "にかい"; "にがて"; "にきび"; "にくしみ"; "にくまん"; "にげる";
  "にさんかたんそ"; "にしき"; "にせもの"; "にちじょう"; "にちようび"; "にっか"; "にっき"; "にっけい"; "にっこう"; "にっさん"; "にっしょく";
  "にっすう"; "にっせき"; "にってい"; "になう"; "にほん"; "にまめ"; "にもつ"; "にやり"; "にゅういん"; "にりんしゃ"; "にわとり"; "にんい";
  "にんか"; "にんき"; "にんげん"; "にんしき"; "にんずう"; "にんそう"; "にんたい"; "にんち"; "にんてい"; "にんにく"; "にんぷ"; "にんまり";
  "にんむ"; "にんめい"; "にんよう"; "ぬいくぎ"; "ぬかす"; "ぬぐいとる"; "ぬぐう"; "ぬくもり"; "ぬすむ"; "ぬまえび"; "ぬめり"; "ぬらす";
  "ぬんちゃく"; "ねあげ"; "ねいき"; "ねいる"; "ねいろ"; "ねぐせ"; "ねくたい"; "ねくら"; "ねこぜ"; "ねこむ"; "ねさげ"; "ねすごす";
  "ねそべる"; "ねだん"; "ねつい"; "ねっしん"; "ねつぞう"; "ねったいぎょ"; "ねぶそく"; "ねふだ"; "ねぼう"; "ねほりはほり"; "ねまき";
  "ねまわし"; "ねみみ"; "ねむい"; "ねむたい"; "ねもと"; "ねらう"; "ねわざ"; "ねんいり"; "ねんおし"; "ねんかん"; "ねんきん"; "ねんぐ";
  "ねんざ"; "ねんし"; "ねんちゃく"; "ねんど"; "ねんぴ"; "ねんぶつ"; "ねんまつ"; "ねんりょう"; "ねんれい"; "のいず"; "のおづま";
  "のがす"; "のきなみ"; "のこぎり"; "のこす"; "のこる"; "のせる"; "のぞく"; "のぞむ"; "のたまう"; "のちほど"; "のっく"; "のばす";
  "のはら"; "のべる"; "のぼる"; "のみもの"; "のやま"; "のらいぬ"; "のらねこ"; "のりもの"; "のりゆき"; "のれん"; "のんき"; "ばあい";
  "はあく"; "ばあさん"; "ばいか"; "ばいく"; "はいけん"; "はいご"; "はいしん"; "はいすい"; "はいせん"; "はいそう"; "はいち";
  "ばいばい"; "はいれつ"; "はえる"; "はおる"; "はかい"; "ばかり"; "はかる"; "はくしゅ"; "はけん"; "はこぶ"; "はさみ"; "はさん";
  "はしご"; "ばしょ"; "はしる"; "はせる"; "ぱそこん"; "はそん"; "はたん"; "はちみつ"; "はつおん"; "はっかく"; "はづき"; "はっきり";
  "はっくつ"; "はっけん"; "はっこう"; "はっさん"; "はっしん"; "はったつ"; "はっちゅう"; "はってん"; "はっぴょう"; "はっぽう"; "はなす";
  "はなび"; "はにかむ"; "はぶらし"; "はみがき"; "はむかう"; "はめつ"; "はやい"; "はやし"; "はらう"; "はろうぃん"; "はわい"; "はんい";
  "はんえい"; "はんおん"; "はんかく"; "はんきょう"; "ばんぐみ"; "はんこ"; "はんしゃ"; "はんすう"; "はんだん"; "ぱんち"; "ぱんつ";
  "はんてい"; "はんとし"; "はんのう"; "はんぱ"; "はんぶん"; "はんぺん"; "はんぼうき"; "はんめい"; "はんらん"; "はんろん"; "ひいき";
  "ひうん"; "ひえる"; "ひかく"; "ひかり"; "ひかる"; "ひかん"; "ひくい"; "ひけつ"; "ひこうき"; "ひこく"; "ひさい"; "ひさしぶり"; "ひさん";
  "びじゅつかん"; "ひしょ"; "ひそか"; "ひそむ"; "ひたむき"; "ひだり"; "ひたる"; "ひつぎ"; "ひっこし"; "ひっし"; "ひつじゅひん";
  "ひっす"; "ひつぜん"; "ぴったり"; "ぴっちり"; "ひつよう"; "ひてい"; "ひとごみ"; "ひなまつり"; "ひなん"; "ひねる"; "ひはん"; "ひびく";
  "ひひょう"; "ひほう"; "ひまわり"; "ひまん"; "ひみつ"; "ひめい"; "ひめじし"; "ひやけ"; "ひやす"; "ひよう"; "びょうき"; "ひらがな";
  "ひらく"; "ひりつ"; "ひりょう"; "ひるま"; "ひるやすみ"; "ひれい"; "ひろい"; "ひろう"; "ひろき"; "ひろゆき"; "ひんかく"; "ひんけつ";
  "ひんこん"; "ひんしゅ"; "ひんそう"; "ぴんち"; "ひんぱん"; "びんぼう"; "ふあん"; "ふいうち"; "ふうけい"; "ふうせん"; "ぷうたろう";
  "ふうとう"; "ふうふ"; "ふえる"; "ふおん"; "ふかい"; "ふきん"; "ふくざつ"; "ふくぶくろ"; "ふこう"; "ふさい"; "ふしぎ"; "ふじみ";
  "ふすま"; "ふせい"; "ふせぐ"; "ふそく"; "ぶたにく"; "ふたん"; "ふちょう"; "ふつう"; "ふつか"; "ふっかつ"; "ふっき"; "ふっこく";
  "ぶどう"; "ふとる"; "ふとん"; "ふのう"; "ふはい"; "ふひょう"; "ふへん"; "ふまん"; "ふみん"; "ふめつ"; "ふめん"; "ふよう"; "ふりこ";
  "ふりる"; "ふるい"; "ふんいき"; "ぶんがく"; "ぶんぐ"; "ふんしつ"; "ぶんせき"; "ふんそう"; "ぶんぽう"; "へいあん"; "へいおん";
  "へいがい"; "へいき"; "へいげん"; "へいこう"; "へいさ"; "へいしゃ"; "へいせつ"; "へいそ"; "へいたく"; "へいてん"; "へいねつ"; "へいわ";
  "へきが"; "へこむ"; "べにいろ"; "べにしょうが"; "へらす"; "へんかん"; "べんきょう"; "べんごし"; "へんさい"; "へんたい"; "べんり";
  "ほあん"; "ほいく"; "ぼうぎょ"; "ほうこく"; "ほうそう"; "ほうほう"; "ほうもん"; "ほうりつ"; "ほえる"; "ほおん"; "ほかん"; "ほきょう";
  "ぼきん"; "ほくろ"; "ほけつ"; "ほけん"; "ほこう"; "ほこる"; "ほしい"; "ほしつ"; "ほしゅ"; "ほしょう"; "ほせい"; "ほそい"; "ほそく";
  "ほたて"; "ほたる"; "ぽちぶくろ"; "ほっきょく"; "ほっさ"; "ほったん"; "ほとんど"; "ほめる"; "ほんい"; "ほんき"; "ほんけ"; "ほんしつ";
  "ほんやく"; "まいにち"; "まかい"; "まかせる"; "まがる"; "まける"; "まこと"; "まさつ"; "まじめ"; "ますく"; "まぜる"; "まつり";
  "まとめ"; "まなぶ"; "まぬけ"; "まねく"; "まほう"; "まもる"; "まゆげ"; "まよう"; "まろやか"; "まわす"; "まわり"; "まわる"; "まんが";
  "まんきつ"; "まんぞく"; "まんなか"; "みいら"; "みうち"; "みえる"; "みがく"; "みかた"; "みかん"; "みけん"; "みこん"; "みじかい";
  "みすい"; "みすえる"; "みせる"; "みっか"; "みつかる"; "みつける"; "みてい"; "みとめる"; "みなと"; "みなみかさい"; "みねらる"; "みのう";
  "みのがす"; "みほん"; "みもと"; "みやげ"; "みらい"; "みりょく"; "みわく"; "みんか"; "みんぞく"; "むいか"; "むえき"; "むえん";
  "むかい"; "むかう"; "むかえ"; "むかし"; "むぎちゃ"; "むける"; "むげん"; "むさぼる"; "むしあつい"; "むしば"; "むじゅん"; "むしろ";
  "むすう"; "むすこ"; "むすぶ"; "むすめ"; "むせる"; "むせん"; "むちゅう"; "むなしい"; "むのう"; "むやみ"; "むよう"; "むらさき"; "むりょう";
  "むろん"; "めいあん"; "めいうん"; "めいえん"; "めいかく"; "めいきょく"; "めいさい"; "めいし"; "めいそう"; "めいぶつ"; "めいれい"; "めいわく";
  "めぐまれる"; "めざす"; "めした"; "めずらしい"; "めだつ"; "めまい"; "めやす"; "めんきょ"; "めんせき"; "めんどう"; "もうしあげる";
  "もうどうけん"; "もえる"; "もくし"; "もくてき"; "もくようび"; "もちろん"; "もどる"; "もらう"; "もんく"; "もんだい"; "やおや"; "やける";
  "やさい"; "やさしい"; "やすい"; "やすたろう"; "やすみ"; "やせる"; "やそう"; "やたい"; "やちん"; "やっと"; "やっぱり"; "やぶる";
  "やめる"; "ややこしい"; "やよい"; "やわらかい"; "ゆうき"; "ゆうびんきょく"; "ゆうべ"; "ゆうめい"; "ゆけつ"; "ゆしゅつ"; "ゆせん"; "ゆそう";
  "ゆたか"; "ゆちゃく"; "ゆでる"; "ゆにゅう"; "ゆびわ"; "ゆらい"; "ゆれる"; "ようい"; "ようか"; "ようきゅう"; "ようじ"; "ようす";
  "ようちえん"; "よかぜ"; "よかん"; "よきん"; "よくせい"; "よくぼう"; "よけい"; "よごれる"; "よさん"; "よしゅう"; "よそう"; "よそく";
  "よっか"; "よてい"; "よどがわく"; "よねつ"; "よやく"; "よゆう"; "よろこぶ"; "よろしい"; "らいう"; "らくがき"; "らくご"; "らくさつ";
  "らくだ"; "らしんばん"; "らせん"; "らぞく"; "らたい"; "らっか"; "られつ"; "りえき"; "りかい"; "りきさく"; "りきせつ"; "りくぐん";
  "りくつ"; "りけん"; "りこう"; "りせい"; "りそう"; "りそく"; "りてん"; "りねん"; "りゆう"; "りゅうがく"; "りよう"; "りょうり"; "りょかん";
  "りょくちゃ"; "りょこう"; "りりく"; "りれき"; "りろん"; "りんご"; "るいけい"; "るいさい"; "るいじ"; "るいせき"; "るすばん";
  "るりがわら"; "れいかん"; "れいぎ"; "れいせい"; "れいぞうこ"; "れいとう"; "れいぼう"; "れきし"; "れきだい"; "れんあい"; "れんけい";
  "れんこん"; "れんさい"; "れんしゅう"; "れんぞく"; "れんらく"; "ろうか"; "ろうご"; "ろうじん"; "ろうそく"; "ろくが"; "ろこつ";
  "ろじうら"; "ろしゅつ"; "ろせん"; "ろてん"; "ろめん"; "ろれつ"; "ろんぎ"; "ろんぱ"; "ろんぶん"; "ろんり"; "わかす"; "わかめ";
  "わかやま"; "わかれる"; "わしつ"; "わじまし"; "わすれもの"; "わらう"; "われる"]%string.

Definition jp_ : list Z := cstrings jp_list.

Definition jp_i : list Z := [
  0; 19; 32; 45; 61; 77; 87; 103; 113; 132; 142; 152; 165; 181; 197; 210; 223; 236; 252; 268;
  278; 288; 301; 317; 330; 343; 353; 369; 379; 392; 405; 418; 428; 441; 457; 467; 480; 493; 506;
  516; 535; 545; 561; 577; 590; 603; 622; 635; 648; 658; 674; 684; 700; 713; 726; 739; 755; 765;
  778; 791; 804; 817; 830; 840; 853; 869; 885; 895; 905; 915; 925; 941; 951; 961; 977; 993; 1009;
  1022; 1035; 1045; 1061; 1074; 1084; 1097; 1113; 1132; 1145; 1158; 1174; 1184; 1197; 1210; 1223;
  1236; 1249; 1262; 1278; 1288; 1304; 1317; 1330; 1343; 1353; 1366; 1382; 1395; 1405; 1418; 1428;
  1438; 1448; 1461; 1471; 1481; 1491; 1504; 1514; 1527; 1537; 1547; 1557; 1567; 1577; 1590; 1603;
  1613; 1629; 1639; 1652; 1662; 1672; 1685; 1701; 1714; 1724; 1737; 1747; 1769; 1779; 1789; 1802;
  1815; 1828; 1850; 1863; 1879; 1892; 1902; 1912; 1925; 1938; 1951; 1967; 1977; 1993; 2006; 2025;
  2038; 2051; 2064; 2074; 2090; 2103; 2113; 2126; 2139; 2158; 2168; 2181; 2200; 2213; 2223; 2239;
  2255; 2265; 2278; 2291; 2307; 2323; 2333; 2346; 2359; 2372; 2388; 2398; 2408; 2418; 2434; 2453;
  2466; 2476; 2486; 2499; 2509; 2528; 2544; 2557; 2573; 2586; 2599; 2612; 2625; 2635; 2645; 2655;
  2665; 2678; 2691; 2704; 2720; 2733; 2746; 2762; 2775; 2788; 2804; 2817; 2827; 2837; 2850; 2863;
  2876; 2889; 2902; 2912; 2925; 2938; 2954; 2964; 2974; 2987; 2997; 3007; 3020; 3030; 3043; 3056;
  3069; 3085; 3101; 3117; 3130; 3146; 3159; 3175; 3188; 3201; 3214; 3227; 3240; 3253; 3266; 3279;
  3292; 3308; 3321; 3331; 3341; 3351; 3370; 3380; 3393; 3406; 3419; 3432; 3445; 3461; 3471; 3484;
  3503; 3522; 3532; 3545; 3555; 3568; 3578; 3591; 3604; 3617; 3630; 3643; 3659; 3675; 3688; 3701;
  3714; 3730; 3740; 3756; 3769; 3779; 3789; 3805; 3821; 3837; 3850; 3869; 3885; 3898; 3917; 3933;
  3943; 3956; 3969; 3979; 3995; 4011; 4027; 4037; 4053; 4066; 4079; 4092; 4108; 4124; 4143; 4153;
  4166; 4179; 4195; 4211; 4224; 4237; 4256; 4272; 4294; 4307; 4320; 4333; 4346; 4362; 4375; 4388;
  4404; 4414; 4424; 4434; 4447; 4460; 4473; 4486; 4499; 4512; 4525; 4541; 4551; 4561; 4577; 4596;
  4612; 4628; 4647; 4666; 4676; 4689; 4702; 4712; 4725; 4735; 4751; 4767; 4777; 4793; 4803; 4813;
  4823; 4833; 4843; 4856; 4869; 4882; 4895; 4908; 4921; 4931; 4950; 4960; 4970; 4980; 4993; 5003;
  5013; 5023; 5033; 5043; 5053; 5063; 5073; 5083; 5099; 5109; 5125; 5141; 5157; 5167; 5180; 5190;
  5200; 5210; 5220; 5236; 5261; 5274; 5299; 5324; 5349; 5359; 5369; 5379; 5389; 5399; 5412; 5425;
  5438; 5451; 5464; 5480; 5493; 5503; 5513; 5526; 5539; 5549; 5562; 5572; 5588; 5598; 5608; 5621;
  5631; 5647; 5657; 5667; 5680; 5693; 5703; 5713; 5723; 5745; 5755; 5774; 5784; 5794; 5804; 5814;
  5833; 5843; 5862; 5872; 5882; 5892; 5902; 5912; 5922; 5935; 5948; 5964; 5983; 5999; 6018; 6031;
  6044; 6057; 6067; 6083; 6096; 6112; 6125; 6141; 6154; 6167; 6177; 6190; 6203; 6216; 6226; 6236;
  6252; 6262; 6275; 6288; 6301; 6320; 6333; 6343; 6362; 6378; 6397; 6410; 6423; 6436; 6452; 6468;
  6484; 6497; 6507; 6520; 6530; 6540; 6556; 6572; 6582; 6598; 6608; 6624; 6634; 6644; 6654; 6667;
  6683; 6702; 6718; 6731; 6741; 6754; 6767; 6777; 6790; 6812; 6825; 6850; 6863; 6873; 6886; 6902;
  6915; 6934; 6953; 6969; 6985; 6998; 7014; 7027; 7052; 7068; 7078; 7094; 7104; 7120; 7133; 7146;
  7159; 7178; 7191; 7204; 7214; 7227; 7240; 7256; 7269; 7282; 7295; 7317; 7333; 7346; 7362; 7378;
  7388; 7401; 7411; 7421; 7431; 7444; 7454; 7464; 7477; 7493; 7509; 7519; 7532; 7542; 7552; 7562;
  7572; 7585; 7598; 7608; 7621; 7631; 7641; 7654; 7670; 7683; 7696; 7712; 7725; 7741; 7754; 7767;
  7780; 7793; 7806; 7825; 7835; 7848; 7861; 7874; 7884; 7897; 7907; 7923; 7936; 7949; 7962; 7975;
  7994; 8010; 8023; 8036; 8049; 8062; 8078; 8091; 8104; 8117; 8130; 8143; 8159; 8172; 8185; 8201;
  8217; 8230; 8243; 8253; 8263; 8276; 8292; 8305; 8318; 8331; 8344; 8357; 8370; 8383; 8393; 8403;
  8416; 8426; 8436; 8446; 8456; 8466; 8476; 8489; 8505; 8515; 8528; 8538; 8551; 8561; 8574; 8590;
  8603; 8613; 8623; 8639; 8649; 8662; 8672; 8688; 8701; 8714; 8724; 8734; 8747; 8763; 8773; 8783;
  8799; 8821; 8834; 8850; 8863; 8873; 8889; 8902; 8912; 8922; 8932; 8942; 8952; 8962; 8975; 8985;
  8995; 9005; 9024; 9037; 9050; 9063; 9076; 9089; 9099; 9115; 9128; 9144; 9157; 9170; 9186; 9202;
  9215; 9225; 9238; 9251; 9267; 9280; 9293; 9312; 9325; 9338; 9351; 9367; 9386; 9399; 9418; 9428;
  9441; 9454; 9464; 9477; 9490; 9506; 9516; 9529; 9539; 9549; 9559; 9575; 9588; 9598; 9611; 9627;
  9640; 9659; 9675; 9688; 9704; 9720; 9736; 9752; 9762; 9775; 9785; 9798; 9808; 9818; 9828; 9841;
  9857; 9870; 9880; 9893; 9903; 9916; 9932; 9942; 9952; 9974; 9984; 9994; 10004; 10017; 10036;
  10049; 10059; 10072; 10082; 10098; 10111; 10124; 10140; 10153; 10166; 10176; 10186; 10196;
  10206; 10219; 10229; 10242; 10258; 10271; 10281; 10291; 10301; 10311; 10321; 10331; 10341;
  10354; 10367; 10377; 10393; 10406; 10419; 10429; 10439; 10452; 10465; 10478; 10491; 10504;
  10514; 10524; 10534; 10547; 10563; 10579; 10592; 10602; 10612; 10622; 10635; 10648; 10658;
  10674; 10684; 10697; 10707; 10720; 10730; 10746; 10756; 10766; 10776; 10786; 10796; 10806;
  10819; 10835; 10845; 10855; 10865; 10878; 10891; 10904; 10926; 10942; 10958; 10971; 10981;
  10997; 11010; 11023; 11036; 11049; 11065; 11081; 11094; 11107; 11120; 11133; 11152; 11168;
  11184; 11200; 11210; 11226; 11248; 11264; 11280; 11296; 11312; 11325; 11338; 11354; 11364;
  11377; 11396; 11415; 11428; 11441; 11454; 11464; 11474; 11487; 11500; 11510; 11523; 11542;
  11561; 11577; 11593; 11606; 11622; 11632; 11642; 11655; 11665; 11678; 11688; 11701; 11717;
  11727; 11740; 11753; 11769; 11782; 11792; 11802; 11812; 11822; 11835; 11854; 11870; 11889;
  11902; 11912; 11925; 11938; 11951; 11964; 11974; 11984; 11994; 12004; 12017; 12027; 12046;
  12059; 12069; 12085; 12101; 12117; 12130; 12146; 12159; 12172; 12182; 12198; 12211; 12221;
  12231; 12250; 12260; 12270; 12283; 12293; 12303; 12316; 12332; 12345; 12358; 12371; 12390;
  12406; 12422; 12438; 12454; 12467; 12483; 12496; 12509; 12519; 12532; 12545; 12558; 12571;
  12581; 12591; 12601; 12614; 12624; 12640; 12650; 12663; 12673; 12686; 12696; 12712; 12728;
  12741; 12754; 12767; 12780; 12793; 12806; 12822; 12835; 12848; 12861; 12874; 12890; 12906;
  12925; 12935; 12957; 12970; 12983; 12996; 13009; 13022; 13041; 13054; 13064; 13074; 13093;
  13103; 13128; 13138; 13151; 13164; 13180; 13193; 13206; 13219; 13229; 13242; 13252; 13265;
  13278; 13288; 13301; 13314; 13324; 13334; 13344; 13357; 13373; 13383; 13396; 13409; 13428;
  13441; 13454; 13467; 13477; 13493; 13509; 13522; 13532; 13545; 13558; 13571; 13581; 13591;
  13601; 13614; 13624; 13637; 13653; 13666; 13676; 13689; 13702; 13718; 13731; 13747; 13763;
  13779; 13798; 13811; 13821; 13834; 13847; 13860; 13873; 13892; 13902; 13918; 13931; 13941;
  13957; 13985; 14001; 14014; 14027; 14043; 14059; 14072; 14094; 14107; 14120; 14133; 14146;
  14165; 14178; 14191; 14201; 14223; 14242; 14252; 14265; 14278; 14291; 14301; 14317; 14327;
  14340; 14350; 14360; 14370; 14380; 14393; 14403; 14413; 14426; 14439; 14449; 14462; 14472;
  14488; 14507; 14520; 14539; 14555; 14568; 14578; 14594; 14604; 14620; 14636; 14655; 14668;
  14687; 14703; 14713; 14726; 14742; 14752; 14762; 14775; 14785; 14798; 14811; 14824; 14837;
  14847; 14860; 14873; 14883; 14893; 14903; 14916; 14926; 14936; 14961; 14974; 14984; 14994;
  15004; 15017; 15030; 15046; 15062; 15072; 15085; 15095; 15105; 15118; 15131; 15144; 15169;
  15185; 15198; 15211; 15224; 15237; 15250; 15263; 15276; 15292; 15305; 15321; 15340; 15353;
  15366; 15382; 15395; 15408; 15418; 15428; 15438; 15451; 15461; 15471; 15481; 15494; 15504;
  15520; 15530; 15540; 15550; 15560; 15576; 15586; 15596; 15606; 15616; 15629; 15645; 15655;
  15665; 15675; 15685; 15695; 15708; 15724; 15734; 15744; 15754; 15770; 15786; 15808; 15821;
  15837; 15850; 15869; 15879; 15889; 15905; 15918; 15931; 15941; 15954; 15967; 15977; 15990;
  16000; 16019; 16032; 16042; 16052; 16065; 16075; 16085; 16095; 16105; 16118; 16131; 16144;
  16157; 16167; 16180; 16196; 16206; 16222; 16232; 16245; 16261; 16271; 16281; 16294; 16304;
  16314; 16324; 16337; 16350; 16363; 16373; 16383; 16393; 16403; 16416; 16426; 16436; 16449;
  16462; 16475; 16485; 16498; 16511; 16524; 16537; 16553; 16566; 16582; 16592; 16605; 16618;
  16631; 16650; 16669; 16682; 16692; 16702; 16718; 16731; 16747; 16763; 16779; 16795; 16805;
  16821; 16831; 16847; 16860; 16870; 16886; 16899; 16915; 16925; 16935; 16954; 16970; 16986;
  16996; 17009; 17019; 17032; 17048; 17061; 17074; 17084; 17097; 17110; 17126; 17139; 17149;
  17162; 17175; 17188; 17201; 17214; 17230; 17255; 17268; 17287; 17306; 17319; 17332; 17342;
  17358; 17374; 17390; 17400; 17416; 17426; 17436; 17446; 17456; 17466; 17476; 17486; 17499;
  17515; 17525; 17541; 17554; 17564; 17580; 17590; 17600; 17610; 17620; 17636; 17646; 17656;
  17669; 17685; 17698; 17714; 17730; 17746; 17762; 17772; 17785; 17795; 17808; 17821; 17843;
  17853; 17863; 17873; 17889; 17899; 17918; 17931; 17944; 17963; 17976; 17989; 18002; 18012;
  18025; 18038; 18048; 18061; 18071; 18084; 18100; 18110; 18129; 18142; 18158; 18171; 18187;
  18200; 18210; 18220; 18233; 18246; 18256; 18266; 18279; 18292; 18302; 18312; 18322; 18335;
  18348; 18358; 18374; 18390; 18400; 18416; 18426; 18436; 18446; 18459; 18472; 18485; 18498;
  18511; 18533; 18543; 18556; 18575; 18594; 18604; 18614; 18627; 18640; 18653; 18669; 18682;
  18695; 18708; 18718; 18728; 18738; 18748; 18758; 18774; 18790; 18803; 18813; 18823; 18833;
  18849; 18862; 18878; 18891; 18904; 18914; 18927; 18940; 18953; 18966; 18976; 18989; 19002;
  19018; 19028; 19047; 19060; 19073; 19083; 19099; 19109; 19119; 19135; 19148; 19158; 19168;
  19178; 19191; 19204; 19214; 19227; 19237; 19250; 19266; 19282; 19295; 19305; 19318; 19334;
  19356; 19372; 19385; 19398; 19417; 19427; 19440; 19450; 19460; 19473; 19483; 19493; 19506;
  19519; 19532; 19545; 19558; 19571; 19584; 19594; 19610; 19623; 19636; 19652; 19665; 19681;
  19694; 19707; 19723; 19736; 19749; 19765; 19775; 19785; 19795; 19808; 19821; 19834; 19850;
  19860; 19873; 19883; 19896; 19909; 19922; 19932; 19945; 19958; 19971; 19984; 19994; 20004;
  20017; 20027; 20043; 20056; 20069; 20082; 20095; 20108; 20121; 20134; 20147; 20157; 20176;
  20189; 20199; 20209; 20219; 20232; 20242; 20255; 20265; 20278; 20288; 20298; 20311; 20324;
  20334; 20344; 20360; 20370; 20380; 20393; 20406; 20419; 20432; 20445; 20458; 20471; 20484;
  20497; 20510; 20523; 20539; 20552; 20571; 20587; 20597; 20610; 20623; 20639; 20655; 20668;
  20678; 20688; 20698; 20708; 20724; 20734; 20744; 20757; 20770; 20783; 20799; 20818; 20828;
  20841; 20854; 20870; 20883; 20896; 20909; 20922; 20935; 20948; 20964; 20980; 20999; 21012;
  21025; 21038; 21048; 21058; 21068; 21078; 21088; 21098; 21108; 21118; 21128; 21141; 21151;
  21161; 21180; 21190; 21215; 21225; 21235; 21245; 21258; 21271; 21281; 21294; 21307; 21317;
  21339; 21349; 21365; 21381; 21397; 21410; 21420; 21436; 21452; 21462; 21472; 21482; 21495;
  21508; 21518; 21531; 21541; 21551; 21561; 21577; 21587; 21597; 21607; 21623; 21639; 21649;
  21659; 21672; 21682; 21698; 21708; 21718; 21728; 21738; 21751; 21764; 21777; 21790; 21803;
  21816; 21829; 21845; 21864; 21874; 21887; 21900; 21913; 21932; 21945; 21955; 21965; 21975;
  21985; 21995; 22011; 22030; 22040; 22050; 22063; 22076; 22086; 22096; 22109; 22119; 22135;
  22145; 22158; 22168; 22178; 22191; 22201; 22214; 22230; 22240; 22250; 22260; 22270; 22283;
  22293; 22303; 22313; 22323; 22333; 22343; 22353; 22363; 22373; 22386; 22405; 22421; 22434;
  22450; 22463; 22482; 22495; 22508; 22524; 22534; 22550; 22563; 22573; 22586; 22599; 22609;
  22622; 22635; 22648; 22658; 22671; 22681; 22697; 22722; 22732; 22745; 22764; 22783; 22796;
  22809; 22822; 22832; 22842; 22861; 22874; 22887; 22900; 22913; 22926; 22936; 22946; 22956;
  22969; 22982; 22992; 23002; 23012; 23022; 23032; 23042; 23052; 23062; 23075; 23085; 23095;
  23105; 23115; 23125; 23147; 23163; 23173; 23186; 23202; 23212; 23222; 23232; 23242; 23255;
  23268; 23281; 23291; 23304; 23317; 23327; 23337; 23347; 23360; 23370; 23383; 23393; 23403;
  23416; 23426; 23436; 23446; 23456; 23469; 23479; 23492; 23502; 23512; 23522; 23535; 23548;
  23564; 23577; 23587; 23597; 23607; 23620; 23630; 23640; 23650; 23660; 23676; 23686; 23699;
  23709; 23719; 23732; 23745; 23755; 23768; 23778; 23797; 23810; 23820; 23836; 23846; 23856;
  23869; 23879; 23892; 23902; 23912; 23928; 23938; 23948; 23958; 23968; 23978; 23988; 23998;
  24014; 24024; 24037; 24053; 24069; 24082; 24098; 24108; 24118; 24128; 24141; 24151; 24161;
  24171; 24184; 24197; 24207; 24217; 24227; 24240; 24253; 24263; 24276; 24289; 24302; 24315;
  24331; 24344; 24354; 24367; 24383; 24396; 24409; 24428; 24441; 24451; 24470; 24483; 24493;
  24503; 24516; 24529; 24545; 24567; 24589; 24599; 24609; 24622; 24641; 24654; 24667; 24677;
  24687; 24703; 24713; 24723; 24733; 24746; 24756; 24772; 24782; 24792; 24802; 24812; 24822;
  24832; 24848; 24861; 24871; 24887; 24897; 24913; 24923; 24948; 24961; 24974; 24984; 24997;
  25007; 25017; 25027; 25040; 25053; 25066; 25079; 25089; 25099; 25109; 25119; 25135; 25148;
  25158; 25174; 25187; 25197; 25207; 25220; 25236; 25246; 25262; 25272; 25285; 25295; 25305;
  25315; 25325; 25347; 25357; 25367; 25377; 25393; 25406; 25416; 25432; 25445; 25458; 25471;
  25490; 25500; 25513; 25523; 25533; 25543; 25553; 25563; 25576; 25589; 25605; 25615; 25625;
  25635; 25645; 25655; 25665; 25675; 25685; 25695; 25714; 25724; 25737; 25750; 25766; 25779;
  25789; 25799; 25809; 25822; 25835; 25848; 25861; 25874; 25890; 25909; 25922; 25935; 25948;
  25967; 25980; 25996; 26006; 26022; 26035; 26048; 26061; 26074; 26090; 26106; 26119; 26129;
  26142; 26158; 26171; 26184; 26194; 26210; 26223; 26233; 26243; 26253; 26263; 26276; 26289;
  26305; 26315; 26325; 26335; 26348; 26361; 26371; 26387; 26403; 26413; 26423].

Definition jp_words : words := const_words 2048 11 false jp_ jp_i.

(** ** Chinese simplified *)

Definition zhs_list : list string := [
  "的"; "一"; "是"; "在"; "不"; "了"; "有"; "和"; "人"; "这"; "中"; "大"; "为"; "上"; "个"; "国"; "我"; "以"; "要";
  "他"; "时"; "来"; "用"; "们"; "生"; "到"; "作"; "地"; "于"; "出"; "就"; "分"; "对"; "成"; "会"; "可"; "主"; "发";
  "年"; "动"; "同"; "工"; "也"; "能"; "下"; "过"; "子"; "说"; "产"; "种"; "面"; "而"; "方"; "后"; "多"; "定"; "行";
  "学"; "法"; "所"; "民"; "得"; "经"; "十"; "三"; "之"; "进"; "着"; "等"; "部"; "度"; "家"; "电"; "力"; "里"; "如";
  "水"; "化"; "高"; "自"; "二"; "理"; "起"; "小"; "物"; "现"; "实"; "加"; "量"; "都"; "两"; "体"; "制"; "机"; "当";
  "使"; "点"; "从"; "业"; "本"; "去"; "把"; "性"; "好"; "应"; "开"; "它"; "合"; "还"; "因"; "由"; "其"; "些"; "然";
  "前"; "外"; "天"; "政"; "四"; "日"; "那"; "社"; "义"; "事"; "平"; "形"; "相"; "全"; "表"; "间"; "样"; "与"; "关";
  "各"; "重"; "新"; "线"; "内"; "数"; "正"; "心"; "反"; "你"; "明"; "看"; "原"; "又"; "么"; "利"; "比"; "或"; "但";
  "质"; "气"; "第"; "向"; "道"; "命"; "此"; "变"; "条"; "只"; "没"; "结"; "解"; "问"; "意"; "建"; "月"; "公"; "无";
  "系"; "军"; "很"; "情"; "者"; "最"; "立"; "代"; "想"; "已"; "通"; "并"; "提"; "直"; "题"; "党"; "程"; "展"; "五";
  "果"; "料"; "象"; "员"; "革"; "位"; "入"; "常"; "文"; "总"; "次"; "品"; "式"; "活"; "设"; "及"; "管"; "特"; "件";
  "长"; "求"; "老"; "头"; "基"; "资"; "边"; "流"; "路"; "级"; "少"; "图"; "山"; "统"; "接"; "知"; "较"; "将"; "组";
  "见"; "计"; "别"; "她"; "手"; "角"; "期"; "根"; "论"; "运"; "农"; "指"; "几"; "九"; "区"; "强"; "放"; "决"; "西";
  "被"; "干"; "做"; "必"; "战"; "先"; "回"; "则"; "任"; "取"; "据"; "处"; "队"; "南"; "给"; "色"; "光"; "门"; "即";
  "保"; "治"; "北"; "造"; "百"; "规"; "热"; "领"; "七"; "海"; "口"; "东"; "导"; "器"; "压"; "志"; "世"; "金"; "增";
  "争"; "济"; "阶"; "油"; "思"; "术"; "极"; "交"; "受"; "联"; "什"; "认"; "六"; "共"; "权"; "收"; "证"; "改"; "清";
  "美"; "再"; "采"; "转"; "更"; "单"; "风"; "切"; "打"; "白"; "教"; "速"; "花"; "带"; "安"; "场"; "身"; "车"; "例";
  "真"; "务"; "具"; "万"; "每"; "目"; "至"; "达"; "走"; "积"; "示"; "议"; "声"; "报"; "斗"; "完"; "类"; "八"; "离";
  "华"; "名"; "确"; "才"; "科"; "张"; "信"; "马"; "节"; "话"; "米"; "整"; "空"; "元"; "况"; "今"; "集"; "温"; "传";
  "土"; "许"; "步"; "群"; "广"; "石"; "记"; "需"; "段"; "研"; "界"; "拉"; "林"; "律"; "叫"; "且"; "究"; "观"; "越";
  "织"; "装"; "影"; "算"; "低"; "持"; "音"; "众"; "书"; "布"; "复"; "容"; "儿"; "须"; "际"; "商"; "非"; "验"; "连";
  "断"; "深"; "难"; "近"; "矿"; "千"; "周"; "委"; "素"; "技"; "备"; "半"; "办"; "青"; "省"; "列"; "习"; "响"; "约";
  "支"; "般"; "史"; "感"; "劳"; "便"; "团"; "往"; "酸"; "历"; "市"; "克"; "何"; "除"; "消"; "构"; "府"; "称"; "太";
  "准"; "精"; "值"; "号"; "率"; "族"; "维"; "划"; "选"; "标"; "写"; "存"; "候"; "毛"; "亲"; "快"; "效"; "斯"; "院";
  "查"; "江"; "型"; "眼"; "王"; "按"; "格"; "养"; "易"; "置"; "派"; "层"; "片"; "始"; "却"; "专"; "状"; "育"; "厂";
  "京"; "识"; "适"; "属"; "圆"; "包"; "火"; "住"; "调"; "满"; "县"; "局"; "照"; "参"; "红"; "细"; "引"; "听"; "该";
  "铁"; "价"; "严"; "首"; "底"; "液"; "官"; "德"; "随"; "病"; "苏"; "失"; "尔"; "死"; "讲"; "配"; "女"; "黄"; "推";
  "显"; "谈"; "罪"; "神"; "艺"; "呢"; "席"; "含"; "企"; "望"; "密"; "批"; "营"; "项"; "防"; "举"; "球"; "英"; "氧";
  "势"; "告"; "李"; "台"; "落"; "木"; "帮"; "轮"; "破"; "亚"; "师"; "围"; "注"; "远"; "字"; "材"; "排"; "供"; "河";
  "态"; "封"; "另"; "施"; "减"; "树"; "溶"; "怎"; "止"; "案"; "言"; "士"; "均"; "武"; "固"; "叶"; "鱼"; "波"; "视";
  "仅"; "费"; "紧"; "爱"; "左"; "章"; "早"; "朝"; "害"; "续"; "轻"; "服"; "试"; "食"; "充"; "兵"; "源"; "判"; "护";
  "司"; "足"; "某"; "练"; "差"; "致"; "板"; "田"; "降"; "黑"; "犯"; "负"; "击"; "范"; "继"; "兴"; "似"; "余"; "坚";
  "曲"; "输"; "修"; "故"; "城"; "夫"; "够"; "送"; "笔"; "船"; "占"; "右"; "财"; "吃"; "富"; "春"; "职"; "觉"; "汉";
  "画"; "功"; "巴"; "跟"; "虽"; "杂"; "飞"; "检"; "吸"; "助"; "升"; "阳"; "互"; "初"; "创"; "抗"; "考"; "投"; "坏";
  "策"; "古"; "径"; "换"; "未"; "跑"; "留"; "钢"; "曾"; "端"; "责"; "站"; "简"; "述"; "钱"; "副"; "尽"; "帝"; "射";
  "草"; "冲"; "承"; "独"; "令"; "限"; "阿"; "宣"; "环"; "双"; "请"; "超"; "微"; "让"; "控"; "州"; "良"; "轴"; "找";
  "否"; "纪"; "益"; "依"; "优"; "顶"; "础"; "载"; "倒"; "房"; "突"; "坐"; "粉"; "敌"; "略"; "客"; "袁"; "冷"; "胜";
  "绝"; "析"; "块"; "剂"; "测"; "丝"; "协"; "诉"; "念"; "陈"; "仍"; "罗"; "盐"; "友"; "洋"; "错"; "苦"; "夜"; "刑";
  "移"; "频"; "逐"; "靠"; "混"; "母"; "短"; "皮"; "终"; "聚"; "汽"; "村"; "云"; "哪"; "既"; "距"; "卫"; "停"; "烈";
  "央"; "察"; "烧"; "迅"; "境"; "若"; "印"; "洲"; "刻"; "括"; "激"; "孔"; "搞"; "甚"; "室"; "待"; "核"; "校"; "散";
  "侵"; "吧"; "甲"; "游"; "久"; "菜"; "味"; "旧"; "模"; "湖"; "货"; "损"; "预"; "阻"; "毫"; "普"; "稳"; "乙"; "妈";
  "植"; "息"; "扩"; "银"; "语"; "挥"; "酒"; "守"; "拿"; "序"; "纸"; "医"; "缺"; "雨"; "吗"; "针"; "刘"; "啊"; "急";
  "唱"; "误"; "训"; "愿"; "审"; "附"; "获"; "茶"; "鲜"; "粮"; "斤"; "孩"; "脱"; "硫"; "肥"; "善"; "龙"; "演"; "父";
  "渐"; "血"; "欢"; "械"; "掌"; "歌"; "沙"; "刚"; "攻"; "谓"; "盾"; "讨"; "晚"; "粒"; "乱"; "燃"; "矛"; "乎"; "杀";
  "药"; "宁"; "鲁"; "贵"; "钟"; "煤"; "读"; "班"; "伯"; "香"; "介"; "迫"; "句"; "丰"; "培"; "握"; "兰"; "担"; "弦";
  "蛋"; "沉"; "假"; "穿"; "执"; "答"; "乐"; "谁"; "顺"; "烟"; "缩"; "征"; "脸"; "喜"; "松"; "脚"; "困"; "异"; "免";
  "背"; "星"; "福"; "买"; "染"; "井"; "概"; "慢"; "怕"; "磁"; "倍"; "祖"; "皇"; "促"; "静"; "补"; "评"; "翻"; "肉";
  "践"; "尼"; "衣"; "宽"; "扬"; "棉"; "希"; "伤"; "操"; "垂"; "秋"; "宜"; "氢"; "套"; "督"; "振"; "架"; "亮"; "末";
  "宪"; "庆"; "编"; "牛"; "触"; "映"; "雷"; "销"; "诗"; "座"; "居"; "抓"; "裂"; "胞"; "呼"; "娘"; "景"; "威"; "绿";
  "晶"; "厚"; "盟"; "衡"; "鸡"; "孙"; "延"; "危"; "胶"; "屋"; "乡"; "临"; "陆"; "顾"; "掉"; "呀"; "灯"; "岁"; "措";
  "束"; "耐"; "剧"; "玉"; "赵"; "跳"; "哥"; "季"; "课"; "凯"; "胡"; "额"; "款"; "绍"; "卷"; "齐"; "伟"; "蒸"; "殖";
  "永"; "宗"; "苗"; "川"; "炉"; "岩"; "弱"; "零"; "杨"; "奏"; "沿"; "露"; "杆"; "探"; "滑"; "镇"; "饭"; "浓"; "航";
  "怀"; "赶"; "库"; "夺"; "伊"; "灵"; "税"; "途"; "灭"; "赛"; "归"; "召"; "鼓"; "播"; "盘"; "裁"; "险"; "康"; "唯";
  "录"; "菌"; "纯"; "借"; "糖"; "盖"; "横"; "符"; "私"; "努"; "堂"; "域"; "枪"; "润"; "幅"; "哈"; "竟"; "熟"; "虫";
  "泽"; "脑"; "壤"; "碳"; "欧"; "遍"; "侧"; "寨"; "敢"; "彻"; "虑"; "斜"; "薄"; "庭"; "纳"; "弹"; "饲"; "伸"; "折";
  "麦"; "湿"; "暗"; "荷"; "瓦"; "塞"; "床"; "筑"; "恶"; "户"; "访"; "塔"; "奇"; "透"; "梁"; "刀"; "旋"; "迹"; "卡";
  "氯"; "遇"; "份"; "毒"; "泥"; "退"; "洗"; "摆"; "灰"; "彩"; "卖"; "耗"; "夏"; "择"; "忙"; "铜"; "献"; "硬"; "予";
  "繁"; "圈"; "雪"; "函"; "亦"; "抽"; "篇"; "阵"; "阴"; "丁"; "尺"; "追"; "堆"; "雄"; "迎"; "泛"; "爸"; "楼"; "避";
  "谋"; "吨"; "野"; "猪"; "旗"; "累"; "偏"; "典"; "馆"; "索"; "秦"; "脂"; "潮"; "爷"; "豆"; "忽"; "托"; "惊"; "塑";
  "遗"; "愈"; "朱"; "替"; "纤"; "粗"; "倾"; "尚"; "痛"; "楚"; "谢"; "奋"; "购"; "磨"; "君"; "池"; "旁"; "碎"; "骨";
  "监"; "捕"; "弟"; "暴"; "割"; "贯"; "殊"; "释"; "词"; "亡"; "壁"; "顿"; "宝"; "午"; "尘"; "闻"; "揭"; "炮"; "残";
  "冬"; "桥"; "妇"; "警"; "综"; "招"; "吴"; "付"; "浮"; "遭"; "徐"; "您"; "摇"; "谷"; "赞"; "箱"; "隔"; "订"; "男";
  "吹"; "园"; "纷"; "唐"; "败"; "宋"; "玻"; "巨"; "耕"; "坦"; "荣"; "闭"; "湾"; "键"; "凡"; "驻"; "锅"; "救"; "恩";
  "剥"; "凝"; "碱"; "齿"; "截"; "炼"; "麻"; "纺"; "禁"; "废"; "盛"; "版"; "缓"; "净"; "睛"; "昌"; "婚"; "涉"; "筒";
  "嘴"; "插"; "岸"; "朗"; "庄"; "街"; "藏"; "姑"; "贸"; "腐"; "奴"; "啦"; "惯"; "乘"; "伙"; "恢"; "匀"; "纱"; "扎";
  "辩"; "耳"; "彪"; "臣"; "亿"; "璃"; "抵"; "脉"; "秀"; "萨"; "俄"; "网"; "舞"; "店"; "喷"; "纵"; "寸"; "汗"; "挂";
  "洪"; "贺"; "闪"; "柬"; "爆"; "烯"; "津"; "稻"; "墙"; "软"; "勇"; "像"; "滚"; "厘"; "蒙"; "芳"; "肯"; "坡"; "柱";
  "荡"; "腿"; "仪"; "旅"; "尾"; "轧"; "冰"; "贡"; "登"; "黎"; "削"; "钻"; "勒"; "逃"; "障"; "氨"; "郭"; "峰"; "币";
  "港"; "伏"; "轨"; "亩"; "毕"; "擦"; "莫"; "刺"; "浪"; "秘"; "援"; "株"; "健"; "售"; "股"; "岛"; "甘"; "泡"; "睡";
  "童"; "铸"; "汤"; "阀"; "休"; "汇"; "舍"; "牧"; "绕"; "炸"; "哲"; "磷"; "绩"; "朋"; "淡"; "尖"; "启"; "陷"; "柴";
  "呈"; "徒"; "颜"; "泪"; "稍"; "忘"; "泵"; "蓝"; "拖"; "洞"; "授"; "镜"; "辛"; "壮"; "锋"; "贫"; "虚"; "弯"; "摩";
  "泰"; "幼"; "廷"; "尊"; "窗"; "纲"; "弄"; "隶"; "疑"; "氏"; "宫"; "姐"; "震"; "瑞"; "怪"; "尤"; "琴"; "循"; "描";
  "膜"; "违"; "夹"; "腰"; "缘"; "珠"; "穷"; "森"; "枝"; "竹"; "沟"; "催"; "绳"; "忆"; "邦"; "剩"; "幸"; "浆"; "栏";
  "拥"; "牙"; "贮"; "礼"; "滤"; "钠"; "纹"; "罢"; "拍"; "咱"; "喊"; "袖"; "埃"; "勤"; "罚"; "焦"; "潜"; "伍"; "墨";
  "欲"; "缝"; "姓"; "刊"; "饱"; "仿"; "奖"; "铝"; "鬼"; "丽"; "跨"; "默"; "挖"; "链"; "扫"; "喝"; "袋"; "炭"; "污";
  "幕"; "诸"; "弧"; "励"; "梅"; "奶"; "洁"; "灾"; "舟"; "鉴"; "苯"; "讼"; "抱"; "毁"; "懂"; "寒"; "智"; "埔"; "寄";
  "届"; "跃"; "渡"; "挑"; "丹"; "艰"; "贝"; "碰"; "拔"; "爹"; "戴"; "码"; "梦"; "芽"; "熔"; "赤"; "渔"; "哭"; "敬";
  "颗"; "奔"; "铅"; "仲"; "虎"; "稀"; "妹"; "乏"; "珍"; "申"; "桌"; "遵"; "允"; "隆"; "螺"; "仓"; "魏"; "锐"; "晓";
  "氮"; "兼"; "隐"; "碍"; "赫"; "拨"; "忠"; "肃"; "缸"; "牵"; "抢"; "博"; "巧"; "壳"; "兄"; "杜"; "讯"; "诚"; "碧";
  "祥"; "柯"; "页"; "巡"; "矩"; "悲"; "灌"; "龄"; "伦"; "票"; "寻"; "桂"; "铺"; "圣"; "恐"; "恰"; "郑"; "趣"; "抬";
  "荒"; "腾"; "贴"; "柔"; "滴"; "猛"; "阔"; "辆"; "妻"; "填"; "撤"; "储"; "签"; "闹"; "扰"; "紫"; "砂"; "递"; "戏";
  "吊"; "陶"; "伐"; "喂"; "疗"; "瓶"; "婆"; "抚"; "臂"; "摸"; "忍"; "虾"; "蜡"; "邻"; "胸"; "巩"; "挤"; "偶"; "弃";
  "槽"; "劲"; "乳"; "邓"; "吉"; "仁"; "烂"; "砖"; "租"; "乌"; "舰"; "伴"; "瓜"; "浅"; "丙"; "暂"; "燥"; "橡"; "柳";
  "迷"; "暖"; "牌"; "秧"; "胆"; "详"; "簧"; "踏"; "瓷"; "谱"; "呆"; "宾"; "糊"; "洛"; "辉"; "愤"; "竞"; "隙"; "怒";
  "粘"; "乃"; "绪"; "肩"; "籍"; "敏"; "涂"; "熙"; "皆"; "侦"; "悬"; "掘"; "享"; "纠"; "醒"; "狂"; "锁"; "淀"; "恨";
  "牲"; "霸"; "爬"; "赏"; "逆"; "玩"; "陵"; "祝"; "秒"; "浙"; "貌"; "役"; "彼"; "悉"; "鸭"; "趋"; "凤"; "晨"; "畜";
  "辈"; "秩"; "卵"; "署"; "梯"; "炎"; "滩"; "棋"; "驱"; "筛"; "峡"; "冒"; "啥"; "寿"; "译"; "浸"; "泉"; "帽"; "迟";
  "硅"; "疆"; "贷"; "漏"; "稿"; "冠"; "嫩"; "胁"; "芯"; "牢"; "叛"; "蚀"; "奥"; "鸣"; "岭"; "羊"; "凭"; "串"; "塘";
  "绘"; "酵"; "融"; "盆"; "锡"; "庙"; "筹"; "冻"; "辅"; "摄"; "袭"; "筋"; "拒"; "僚"; "旱"; "钾"; "鸟"; "漆"; "沈";
  "眉"; "疏"; "添"; "棒"; "穗"; "硝"; "韩"; "逼"; "扭"; "侨"; "凉"; "挺"; "碗"; "栽"; "炒"; "杯"; "患"; "馏"; "劝";
  "豪"; "辽"; "勃"; "鸿"; "旦"; "吏"; "拜"; "狗"; "埋"; "辊"; "掩"; "饮"; "搬"; "骂"; "辞"; "勾"; "扣"; "估"; "蒋";
  "绒"; "雾"; "丈"; "朵"; "姆"; "拟"; "宇"; "辑"; "陕"; "雕"; "偿"; "蓄"; "崇"; "剪"; "倡"; "厅"; "咬"; "驶"; "薯";
  "刷"; "斥"; "番"; "赋"; "奉"; "佛"; "浇"; "漫"; "曼"; "扇"; "钙"; "桃"; "扶"; "仔"; "返"; "俗"; "亏"; "腔"; "鞋";
  "棱"; "覆"; "框"; "悄"; "叔"; "撞"; "骗"; "勘"; "旺"; "沸"; "孤"; "吐"; "孟"; "渠"; "屈"; "疾"; "妙"; "惜"; "仰";
  "狠"; "胀"; "谐"; "抛"; "霉"; "桑"; "岗"; "嘛"; "衰"; "盗"; "渗"; "脏"; "赖"; "涌"; "甜"; "曹"; "阅"; "肌"; "哩";
  "厉"; "烃"; "纬"; "毅"; "昨"; "伪"; "症"; "煮"; "叹"; "钉"; "搭"; "茎"; "笼"; "酷"; "偷"; "弓"; "锥"; "恒"; "杰";
  "坑"; "鼻"; "翼"; "纶"; "叙"; "狱"; "逮"; "罐"; "络"; "棚"; "抑"; "膨"; "蔬"; "寺"; "骤"; "穆"; "冶"; "枯"; "册";
  "尸"; "凸"; "绅"; "坯"; "牺"; "焰"; "轰"; "欣"; "晋"; "瘦"; "御"; "锭"; "锦"; "丧"; "旬"; "锻"; "垄"; "搜"; "扑";
  "邀"; "亭"; "酯"; "迈"; "舒"; "脆"; "酶"; "闲"; "忧"; "酚"; "顽"; "羽"; "涨"; "卸"; "仗"; "陪"; "辟"; "惩"; "杭";
  "姚"; "肚"; "捉"; "飘"; "漂"; "昆"; "欺"; "吾"; "郎"; "烷"; "汁"; "呵"; "饰"; "萧"; "雅"; "邮"; "迁"; "燕"; "撒";
  "姻"; "赴"; "宴"; "烦"; "债"; "帐"; "斑"; "铃"; "旨"; "醇"; "董"; "饼"; "雏"; "姿"; "拌"; "傅"; "腹"; "妥"; "揉";
  "贤"; "拆"; "歪"; "葡"; "胺"; "丢"; "浩"; "徽"; "昂"; "垫"; "挡"; "览"; "贪"; "慰"; "缴"; "汪"; "慌"; "冯"; "诺";
  "姜"; "谊"; "凶"; "劣"; "诬"; "耀"; "昏"; "躺"; "盈"; "骑"; "乔"; "溪"; "丛"; "卢"; "抹"; "闷"; "咨"; "刮"; "驾";
  "缆"; "悟"; "摘"; "铒"; "掷"; "颇"; "幻"; "柄"; "惠"; "惨"; "佳"; "仇"; "腊"; "窝"; "涤"; "剑"; "瞧"; "堡"; "泼";
  "葱"; "罩"; "霍"; "捞"; "胎"; "苍"; "滨"; "俩"; "捅"; "湘"; "砍"; "霞"; "邵"; "萄"; "疯"; "淮"; "遂"; "熊"; "粪";
  "烘"; "宿"; "档"; "戈"; "驳"; "嫂"; "裕"; "徙"; "箭"; "捐"; "肠"; "撑"; "晒"; "辨"; "殿"; "莲"; "摊"; "搅"; "酱";
  "屏"; "疫"; "哀"; "蔡"; "堵"; "沫"; "皱"; "畅"; "叠"; "阁"; "莱"; "敲"; "辖"; "钩"; "痕"; "坝"; "巷"; "饿"; "祸";
  "丘"; "玄"; "溜"; "曰"; "逻"; "彭"; "尝"; "卿"; "妨"; "艇"; "吞"; "韦"; "怨"; "矮"; "歇"]%string.

Definition zhs_ : list Z := cstrings zhs_list.

Definition zhs_i : list Z := [
  0; 4; 8; 12; 16; 20; 24; 28; 32; 36; 40; 44; 48; 52; 56; 60; 64; 68; 72; 76; 80; 84; 88; 92;
  96; 100; 104; 108; 112; 116; 120; 124; 128; 132; 136; 140; 144; 148; 152; 156; 160; 164; 168;
  172; 176; 180; 184; 188; 192; 196; 200; 204; 208; 212; 216; 220; 224; 228; 232; 236; 240; 244;
  248; 252; 256; 260; 264; 268; 272; 276; 280; 284; 288; 292; 296; 300; 304; 308; 312; 316; 320;
  324; 328; 332; 336; 340; 344; 348; 352; 356; 360; 364; 368; 372; 376; 380; 384; 388; 392; 396;
  400; 404; 408; 412; 416; 420; 424; 428; 432; 436; 440; 444; 448; 452; 456; 460; 464; 468; 472;
  476; 480; 484; 488; 492; 496; 500; 504; 508; 512; 516; 520; 524; 528; 532; 536; 540; 544; 548;
  552; 556; 560; 564; 568; 572; 576; 580; 584; 588; 592; 596; 600; 604; 608; 612; 616; 620; 624;
  628; 632; 636; 640; 644; 648; 652; 656; 660; 664; 668; 672; 676; 680; 684; 688; 692; 696; 700;
  704; 708; 712; 716; 720; 724; 728; 732; 736; 740; 744; 748; 752; 756; 760; 764; 768; 772; 776;
  780; 784; 788; 792; 796; 800; 804; 808; 812; 816; 820; 824; 828; 832; 836; 840; 844; 848; 852;
  856; 860; 864; 868; 872; 876; 880; 884; 888; 892; 896; 900; 904; 908; 912; 916; 920; 924; 928;
  932; 936; 940; 944; 948; 952; 956; 960; 964; 968; 972; 976; 980; 984; 988; 992; 996; 1000;
  1004; 1008; 1012; 1016; 1020; 1024; 1028; 1032; 1036; 1040; 1044; 1048; 1052; 1056; 1060; 1064;
  1068; 1072; 1076; 1080; 1084; 1088; 1092; 1096; 1100; 1104; 1108; 1112; 1116; 1120; 1124; 1128;
  1132; 1136; 1140; 1144; 1148; 1152; 1156; 1160; 1164; 1168; 1172; 1176; 1180; 1184; 1188; 1192;
  1196; 1200; 1204; 1208; 1212; 1216; 1220; 1224; 1228; 1232; 1236; 1240; 1244; 1248; 1252; 1256;
  1260; 1264; 1268; 1272; 1276; 1280; 1284; 1288; 1292; 1296; 1300; 1304; 1308; 1312; 1316; 1320;
  1324; 1328; 1332; 1336; 1340; 1344; 1348; 1352; 1356; 1360; 1364; 1368; 1372; 1376; 1380; 1384;
  1388; 1392; 1396; 1400; 1404; 1408; 1412; 1416; 1420; 1424; 1428; 1432; 1436; 1440; 1444; 1448;
  1452; 1456; 1460; 1464; 1468; 1472; 1476; 1480; 1484; 1488; 1492; 1496; 1500; 1504; 1508; 1512;
  1516; 1520; 1524; 1528; 1532; 1536; 1540; 1544; 1548; 1552; 1556; 1560; 1564; 1568; 1572; 1576;
  1580; 1584; 1588; 1592; 1596; 1600; 1604; 1608; 1612; 1616; 1620; 1624; 1628; 1632; 1636; 1640;
  1644; 1648; 1652; 1656; 1660; 1664; 1668; 1672; 1676; 1680; 1684; 1688; 1692; 1696; 1700; 1704;
  1708; 1712; 1716; 1720; 1724; 1728; 1732; 1736; 1740; 1744; 1748; 1752; 1756; 1760; 1764; 1768;
  1772; 1776; 1780; 1784; 1788; 1792; 1796; 1800; 1804; 1808; 1812; 1816; 1820; 1824; 1828; 1832;
  1836; 1840; 1844; 1848; 1852; 1856; 1860; 1864; 1868; 1872; 1876; 1880; 1884; 1888; 1892; 1896;
  1900; 1904; 1908; 1912; 1916; 1920; 1924; 1928; 1932; 1936; 1940; 1944; 1948; 1952; 1956; 1960;
  1964; 1968; 1972; 1976; 1980; 1984; 1988; 1992; 1996; 2000; 2004; 2008; 2012; 2016; 2020; 2024;
  2028; 2032; 2036; 2040; 2044; 2048; 2052; 2056; 2060; 2064; 2068; 2072; 2076; 2080; 2084; 2088;
  2092; 2096; 2100; 2104; 2108; 2112; 2116; 2120; 2124; 2128; 2132; 2136; 2140; 2144; 2148; 2152;
  2156; 2160; 2164; 2168; 2172; 2176; 2180; 2184; 2188; 2192; 2196; 2200; 2204; 2208; 2212; 2216;
  2220; 2224; 2228; 2232; 2236; 2240; 2244; 2248; 2252; 2256; 2260; 2264; 2268; 2272; 2276; 2280;
  2284; 2288; 2292; 2296; 2300; 2304; 2308; 2312; 2316; 2320; 2324; 2328; 2332; 2336; 2340; 2344;
  2348; 2352; 2356; 2360; 2364; 2368; 2372; 2376; 2380; 2384; 2388; 2392; 2396; 2400; 2404; 2408;
  2412; 2416; 2420; 2424; 2428; 2432; 2436; 2440; 2444; 2448; 2452; 2456; 2460; 2464; 2468; 2472;
  2476; 2480; 2484; 2488; 2492; 2496; 2500; 2504; 2508; 2512; 2516; 2520; 2524; 2528; 2532; 2536;
  2540; 2544; 2548; 2552; 2556; 2560; 2564; 2568; 2572; 2576; 2580; 2584; 2588; 2592; 2596; 2600;
  2604; 2608; 2612; 2616; 2620; 2624; 2628; 2632; 2636; 2640; 2644; 2648; 2652; 2656; 2660; 2664;
  2668; 2672; 2676; 2680; 2684; 2688; 2692; 2696; 2700; 2704; 2708; 2712; 2716; 2720; 2724; 2728;
  2732; 2736; 2740; 2744; 2748; 2752; 2756; 2760; 2764; 2768; 2772; 2776; 2780; 2784; 2788; 2792;
  2796; 2800; 2804; 2808; 2812; 2816; 2820; 2824; 2828; 2832; 2836; 2840; 2844; 2848; 2852; 2856;
  2860; 2864; 2868; 2872; 2876; 2880; 2884; 2888; 2892; 2896; 2900; 2904; 2908; 2912; 2916; 2920;
  2924; 2928; 2932; 2936; 2940; 2944; 2948; 2952; 2956; 2960; 2964; 2968; 2972; 2976; 2980; 2984;
  2988; 2992; 2996; 3000; 3004; 3008; 3012; 3016; 3020; 3024; 3028; 3032; 3036; 3040; 3044; 3048;
  3052; 3056; 3060; 3064; 3068; 3072; 3076; 3080; 3084; 3088; 3092; 3096; 3100; 3104; 3108; 3112;
  3116; 3120; 3124; 3128; 3132; 3136; 3140; 3144; 3148; 3152; 3156; 3160; 3164; 3168; 3172; 3176;
  3180; 3184; 3188; 3192; 3196; 3200; 3204; 3208; 3212; 3216; 3220; 3224; 3228; 3232; 3236; 3240;
  3244; 3248; 3252; 3256; 3260; 3264; 3268; 3272; 3276; 3280; 3284; 3288; 3292; 3296; 3300; 3304;
  3308; 3312; 3316; 3320; 3324; 3328; 3332; 3336; 3340; 3344; 3348; 3352; 3356; 3360; 3364; 3368;
  3372; 3376; 3380; 3384; 3388; 3392; 3396; 3400; 3404; 3408; 3412; 3416; 3420; 3424; 3428; 3432;
  3436; 3440; 3444; 3448; 3452; 3456; 3460; 3464; 3468; 3472; 3476; 3480; 3484; 3488; 3492; 3496;
  3500; 3504; 3508; 3512; 3516; 3520; 3524; 3528; 3532; 3536; 3540; 3544; 3548; 3552; 3556; 3560;
  3564; 3568; 3572; 3576; 3580; 3584; 3588; 3592; 3596; 3600; 3604; 3608; 3612; 3616; 3620; 3624;
  3628; 3632; 3636; 3640; 3644; 3648; 3652; 3656; 3660; 3664; 3668; 3672; 3676; 3680; 3684; 3688;
  3692; 3696; 3700; 3704; 3708; 3712; 3716; 3720; 3724; 3728; 3732; 3736; 3740; 3744; 3748; 3752;
  3756; 3760; 3764; 3768; 3772; 3776; 3780; 3784; 3788; 3792; 3796; 3800; 3804; 3808; 3812; 3816;
  3820; 3824; 3828; 3832; 3836; 3840; 3844; 3848; 3852; 3856; 3860; 3864; 3868; 3872; 3876; 3880;
  3884; 3888; 3892; 3896; 3900; 3904; 3908; 3912; 3916; 3920; 3924; 3928; 3932; 3936; 3940; 3944;
  3948; 3952; 3956; 3960; 3964; 3968; 3972; 3976; 3980; 3984; 3988; 3992; 3996; 4000; 4004; 4008;
  4012; 4016; 4020; 4024; 4028; 4032; 4036; 4040; 4044; 4048; 4052; 4056; 4060; 4064; 4068; 4072;
  4076; 4080; 4084; 4088; 4092; 4096; 4100; 4104; 4108; 4112; 4116; 4120; 4124; 4128; 4132; 4136;
  4140; 4144; 4148; 4152; 4156; 4160; 4164; 4168; 4172; 4176; 4180; 4184; 4188; 4192; 4196; 4200;
  4204; 4208; 4212; 4216; 4220; 4224; 4228; 4232; 4236; 4240; 4244; 4248; 4252; 4256; 4260; 4264;
  4268; 4272; 4276; 4280; 4284; 4288; 4292; 4296; 4300; 4304; 4308; 4312; 4316; 4320; 4324; 4328;
  4332; 4336; 4340; 4344; 4348; 4352; 4356; 4360; 4364; 4368; 4372; 4376; 4380; 4384; 4388; 4392;
  4396; 4400; 4404; 4408; 4412; 4416; 4420; 4424; 4428; 4432; 4436; 4440; 4444; 4448; 4452; 4456;
  4460; 4464; 4468; 4472; 4476; 4480; 4484; 4488; 4492; 4496; 4500; 4504; 4508; 4512; 4516; 4520;
  4524; 4528; 4532; 4536; 4540; 4544; 4548; 4552; 4556; 4560; 4564; 4568; 4572; 4576; 4580; 4584;
  4588; 4592; 4596; 4600; 4604; 4608; 4612; 4616; 4620; 4624; 4628; 4632; 4636; 4640; 4644; 4648;
  4652; 4656; 4660; 4664; 4668; 4672; 4676; 4680; 4684; 4688; 4692; 4696; 4700; 4704; 4708; 4712;
  4716; 4720; 4724; 4728; 4732; 4736; 4740; 4744; 4748; 4752; 4756; 4760; 4764; 4768; 4772; 4776;
  4780; 4784; 4788; 4792; 4796; 4800; 4804; 4808; 4812; 4816; 4820; 4824; 4828; 4832; 4836; 4840;
  4844; 4848; 4852; 4856; 4860; 4864; 4868; 4872; 4876; 4880; 4884; 4888; 4892; 4896; 4900; 4904;
  4908; 4912; 4916; 4920; 4924; 4928; 4932; 4936; 4940; 4944; 4948; 4952; 4956; 4960; 4964; 4968;
  4972; 4976; 4980; 4984; 4988; 4992; 4996; 5000; 5004; 5008; 5012; 5016; 5020; 5024; 5028; 5032;
  5036; 5040; 5044; 5048; 5052; 5056; 5060; 5064; 5068; 5072; 5076; 5080; 5084; 5088; 5092; 5096;
  5100; 5104; 5108; 5112; 5116; 5120; 5124; 5128; 5132; 5136; 5140; 5144; 5148; 5152; 5156; 5160;
  5164; 5168; 5172; 5176; 5180; 5184; 5188; 5192; 5196; 5200; 5204; 5208; 5212; 5216; 5220; 5224;
  5228; 5232; 5236; 5240; 5244; 5248; 5252; 5256; 5260; 5264; 5268; 5272; 5276; 5280; 5284; 5288;
  5292; 5296; 5300; 5304; 5308; 5312; 5316; 5320; 5324; 5328; 5332; 5336; 5340; 5344; 5348; 5352;
  5356; 5360; 5364; 5368; 5372; 5376; 5380; 5384; 5388; 5392; 5396; 5400; 5404; 5408; 5412; 5416;
  5420; 5424; 5428; 5432; 5436; 5440; 5444; 5448; 5452; 5456; 5460; 5464; 5468; 5472; 5476; 5480;
  5484; 5488; 5492; 5496; 5500; 5504; 5508; 5512; 5516; 5520; 5524; 5528; 5532; 5536; 5540; 5544;
  5548; 5552; 5556; 5560; 5564; 5568; 5572; 5576; 5580; 5584; 5588; 5592; 5596; 5600; 5604; 5608;
  5612; 5616; 5620; 5624; 5628; 5632; 5636; 5640; 5644; 5648; 5652; 5656; 5660; 5664; 5668; 5672;
  5676; 5680; 5684; 5688; 5692; 5696; 5700; 5704; 5708; 5712; 5716; 5720; 5724; 5728; 5732; 5736;
  5740; 5744; 5748; 5752; 5756; 5760; 5764; 5768; 5772; 5776; 5780; 5784; 5788; 5792; 5796; 5800;
  5804; 5808; 5812; 5816; 5820; 5824; 5828; 5832; 5836; 5840; 5844; 5848; 5852; 5856; 5860; 5864;
  5868; 5872; 5876; 5880; 5884; 5888; 5892; 5896; 5900; 5904; 5908; 5912; 5916; 5920; 5924; 5928;
  5932; 5936; 5940; 5944; 5948; 5952; 5956; 5960; 5964; 5968; 5972; 5976; 5980; 5984; 5988; 5992;
  5996; 6000; 6004; 6008; 6012; 6016; 6020; 6024; 6028; 6032; 6036; 6040; 6044; 6048; 6052; 6056;
  6060; 6064; 6068; 6072; 6076; 6080; 6084; 6088; 6092; 6096; 6100; 6104; 6108; 6112; 6116; 6120;
  6124; 6128; 6132; 6136; 6140; 6144; 6148; 6152; 6156; 6160; 6164; 6168; 6172; 6176; 6180; 6184;
  6188; 6192; 6196; 6200; 6204; 6208; 6212; 6216; 6220; 6224; 6228; 6232; 6236; 6240; 6244; 6248;
  6252; 6256; 6260; 6264; 6268; 6272; 6276; 6280; 6284; 6288; 6292; 6296; 6300; 6304; 6308; 6312;
  6316; 6320; 6324; 6328; 6332; 6336; 6340; 6344; 6348; 6352; 6356; 6360; 6364; 6368; 6372; 6376;
  6380; 6384; 6388; 6392; 6396; 6400; 6404; 6408; 6412; 6416; 6420; 6424; 6428; 6432; 6436; 6440;
  6444; 6448; 6452; 6456; 6460; 6464; 6468; 6472; 6476; 6480; 6484; 6488; 6492; 6496; 6500; 6504;
  6508; 6512; 6516; 6520; 6524; 6528; 6532; 6536; 6540; 6544; 6548; 6552; 6556; 6560; 6564; 6568;
  6572; 6576; 6580; 6584; 6588; 6592; 6596; 6600; 6604; 6608; 6612; 6616; 6620; 6624; 6628; 6632;
  6636; 6640; 6644; 6648; 6652; 6656; 6660; 6664; 6668; 6672; 6676; 6680; 6684; 6688; 6692; 6696;
  6700; 6704; 6708; 6712; 6716; 6720; 6724; 6728; 6732; 6736; 6740; 6744; 6748; 6752; 6756; 6760;
  6764; 6768; 6772; 6776; 6780; 6784; 6788; 6792; 6796; 6800; 6804; 6808; 6812; 6816; 6820; 6824;
  6828; 6832; 6836; 6840; 6844; 6848; 6852; 6856; 6860; 6864; 6868; 6872; 6876; 6880; 6884; 6888;
  6892; 6896; 6900; 6904; 6908; 6912; 6916; 6920; 6924; 6928; 6932; 6936; 6940; 6944; 6948; 6952;
  6956; 6960; 6964; 6968; 6972; 6976; 6980; 6984; 6988; 6992; 6996; 7000; 7004; 7008; 7012; 7016;
  7020; 7024; 7028; 7032; 7036; 7040; 7044; 7048; 7052; 7056; 7060; 7064; 7068; 7072; 7076; 7080;
  7084; 7088; 7092; 7096; 7100; 7104; 7108; 7112; 7116; 7120; 7124; 7128; 7132; 7136; 7140; 7144;
  7148; 7152; 7156; 7160; 7164; 7168; 7172; 7176; 7180; 7184; 7188; 7192; 7196; 7200; 7204; 7208;
  7212; 7216; 7220; 7224; 7228; 7232; 7236; 7240; 7244; 7248; 7252; 7256; 7260; 7264; 7268; 7272;
  7276; 7280; 7284; 7288; 7292; 7296; 7300; 7304; 7308; 7312; 7316; 7320; 7324; 7328; 7332; 7336;
  7340; 7344; 7348; 7352; 7356; 7360; 7364; 7368; 7372; 7376; 7380; 7384; 7388; 7392; 7396; 7400;
  7404; 7408; 7412; 7416; 7420; 7424; 7428; 7432; 7436; 7440; 7444; 7448; 7452; 7456; 7460; 7464;
  7468; 7472; 7476; 7480; 7484; 7488; 7492; 7496; 7500; 7504; 7508; 7512; 7516; 7520; 7524; 7528;
  7532; 7536; 7540; 7544; 7548; 7552; 7556; 7560; 7564; 7568; 7572; 7576; 7580; 7584; 7588; 7592;
  7596; 7600; 7604; 7608; 7612; 7616; 7620; 7624; 7628; 7632; 7636; 7640; 7644; 7648; 7652; 7656;
  7660; 7664; 7668; 7672; 7676; 7680; 7684; 7688; 7692; 7696; 7700; 7704; 7708; 7712; 7716; 7720;
  7724; 7728; 7732; 7736; 7740; 7744; 7748; 7752; 7756; 7760; 7764; 7768; 7772; 7776; 7780; 7784;
  7788; 7792; 7796; 7800; 7804; 7808; 7812; 7816; 7820; 7824; 7828; 7832; 7836; 7840; 7844; 7848;
  7852; 7856; 7860; 7864; 7868; 7872; 7876; 7880; 7884; 7888; 7892; 7896; 7900; 7904; 7908; 7912;
  7916; 7920; 7924; 7928; 7932; 7936; 7940; 7944; 7948; 7952; 7956; 7960; 7964; 7968; 7972; 7976;
  7980; 7984; 7988; 7992; 7996; 8000; 8004; 8008; 8012; 8016; 8020; 8024; 8028; 8032; 8036; 8040;
  8044; 8048; 8052; 8056; 8060; 8064; 8068; 8072; 8076; 8080; 8084; 8088; 8092; 8096; 8100; 8104;
  8108; 8112; 8116; 8120; 8124; 8128; 8132; 8136; 8140; 8144; 8148; 8152; 8156; 8160; 8164; 8168;
  8172; 8176; 8180; 8184; 8188; 8192].

Definition zhs_words : words := const_words 2048 11 false zhs_ zhs_i.

(** ** Chinese traditional *)

Definition zht_list : list string := [
  "的"; "一"; "是"; "在"; "不"; "了"; "有"; "和"; "人"; "這"; "中"; "大"; "為"; "上"; "個"; "國"; "我"; "以"; "要";
  "他"; "時"; "來"; "用"; "們"; "生"; "到"; "作"; "地"; "於"; "出"; "就"; "分"; "對"; "成"; "會"; "可"; "主"; "發";
  "年"; "動"; "同"; "工"; "也"; "能"; "下"; "過"; "子"; "說"; "產"; "種"; "面"; "而"; "方"; "後"; "多"; "定"; "行";
  "學"; "法"; "所"; "民"; "得"; "經"; "十"; "三"; "之"; "進"; "著"; "等"; "部"; "度"; "家"; "電"; "力"; "裡"; "如";
  "水"; "化"; "高"; "自"; "二"; "理"; "起"; "小"; "物"; "現"; "實"; "加"; "量"; "都"; "兩"; "體"; "制"; "機"; "當";
  "使"; "點"; "從"; "業"; "本"; "去"; "把"; "性"; "好"; "應"; "開"; "它"; "合"; "還"; "因"; "由"; "其"; "些"; "然";
  "前"; "外"; "天"; "政"; "四"; "日"; "那"; "社"; "義"; "事"; "平"; "形"; "相"; "全"; "表"; "間"; "樣"; "與"; "關";
  "各"; "重"; "新"; "線"; "內"; "數"; "正"; "心"; "反"; "你"; "明"; "看"; "原"; "又"; "麼"; "利"; "比"; "或"; "但";
  "質"; "氣"; "第"; "向"; "道"; "命"; "此"; "變"; "條"; "只"; "沒"; "結"; "解"; "問"; "意"; "建"; "月"; "公"; "無";
  "系"; "軍"; "很"; "情"; "者"; "最"; "立"; "代"; "想"; "已"; "通"; "並"; "提"; "直"; "題"; "黨"; "程"; "展"; "五";
  "果"; "料"; "象"; "員"; "革"; "位"; "入"; "常"; "文"; "總"; "次"; "品"; "式"; "活"; "設"; "及"; "管"; "特"; "件";
  "長"; "求"; "老"; "頭"; "基"; "資"; "邊"; "流"; "路"; "級"; "少"; "圖"; "山"; "統"; "接"; "知"; "較"; "將"; "組";
  "見"; "計"; "別"; "她"; "手"; "角"; "期"; "根"; "論"; "運"; "農"; "指"; "幾"; "九"; "區"; "強"; "放"; "決"; "西";
  "被"; "幹"; "做"; "必"; "戰"; "先"; "回"; "則"; "任"; "取"; "據"; "處"; "隊"; "南"; "給"; "色"; "光"; "門"; "即";
  "保"; "治"; "北"; "造"; "百"; "規"; "熱"; "領"; "七"; "海"; "口"; "東"; "導"; "器"; "壓"; "志"; "世"; "金"; "增";
  "爭"; "濟"; "階"; "油"; "思"; "術"; "極"; "交"; "受"; "聯"; "什"; "認"; "六"; "共"; "權"; "收"; "證"; "改"; "清";
  "美"; "再"; "採"; "轉"; "更"; "單"; "風"; "切"; "打"; "白"; "教"; "速"; "花"; "帶"; "安"; "場"; "身"; "車"; "例";
  "真"; "務"; "具"; "萬"; "每"; "目"; "至"; "達"; "走"; "積"; "示"; "議"; "聲"; "報"; "鬥"; "完"; "類"; "八"; "離";
  "華"; "名"; "確"; "才"; "科"; "張"; "信"; "馬"; "節"; "話"; "米"; "整"; "空"; "元"; "況"; "今"; "集"; "溫"; "傳";
  "土"; "許"; "步"; "群"; "廣"; "石"; "記"; "需"; "段"; "研"; "界"; "拉"; "林"; "律"; "叫"; "且"; "究"; "觀"; "越";
  "織"; "裝"; "影"; "算"; "低"; "持"; "音"; "眾"; "書"; "布"; "复"; "容"; "兒"; "須"; "際"; "商"; "非"; "驗"; "連";
  "斷"; "深"; "難"; "近"; "礦"; "千"; "週"; "委"; "素"; "技"; "備"; "半"; "辦"; "青"; "省"; "列"; "習"; "響"; "約";
  "支"; "般"; "史"; "感"; "勞"; "便"; "團"; "往"; "酸"; "歷"; "市"; "克"; "何"; "除"; "消"; "構"; "府"; "稱"; "太";
  "準"; "精"; "值"; "號"; "率"; "族"; "維"; "劃"; "選"; "標"; "寫"; "存"; "候"; "毛"; "親"; "快"; "效"; "斯"; "院";
  "查"; "江"; "型"; "眼"; "王"; "按"; "格"; "養"; "易"; "置"; "派"; "層"; "片"; "始"; "卻"; "專"; "狀"; "育"; "廠";
  "京"; "識"; "適"; "屬"; "圓"; "包"; "火"; "住"; "調"; "滿"; "縣"; "局"; "照"; "參"; "紅"; "細"; "引"; "聽"; "該";
  "鐵"; "價"; "嚴"; "首"; "底"; "液"; "官"; "德"; "隨"; "病"; "蘇"; "失"; "爾"; "死"; "講"; "配"; "女"; "黃"; "推";
  "顯"; "談"; "罪"; "神"; "藝"; "呢"; "席"; "含"; "企"; "望"; "密"; "批"; "營"; "項"; "防"; "舉"; "球"; "英"; "氧";
  "勢"; "告"; "李"; "台"; "落"; "木"; "幫"; "輪"; "破"; "亞"; "師"; "圍"; "注"; "遠"; "字"; "材"; "排"; "供"; "河";
  "態"; "封"; "另"; "施"; "減"; "樹"; "溶"; "怎"; "止"; "案"; "言"; "士"; "均"; "武"; "固"; "葉"; "魚"; "波"; "視";
  "僅"; "費"; "緊"; "愛"; "左"; "章"; "早"; "朝"; "害"; "續"; "輕"; "服"; "試"; "食"; "充"; "兵"; "源"; "判"; "護";
  "司"; "足"; "某"; "練"; "差"; "致"; "板"; "田"; "降"; "黑"; "犯"; "負"; "擊"; "范"; "繼"; "興"; "似"; "餘"; "堅";
  "曲"; "輸"; "修"; "故"; "城"; "夫"; "夠"; "送"; "筆"; "船"; "佔"; "右"; "財"; "吃"; "富"; "春"; "職"; "覺"; "漢";
  "畫"; "功"; "巴"; "跟"; "雖"; "雜"; "飛"; "檢"; "吸"; "助"; "昇"; "陽"; "互"; "初"; "創"; "抗"; "考"; "投"; "壞";
  "策"; "古"; "徑"; "換"; "未"; "跑"; "留"; "鋼"; "曾"; "端"; "責"; "站"; "簡"; "述"; "錢"; "副"; "盡"; "帝"; "射";
  "草"; "衝"; "承"; "獨"; "令"; "限"; "阿"; "宣"; "環"; "雙"; "請"; "超"; "微"; "讓"; "控"; "州"; "良"; "軸"; "找";
  "否"; "紀"; "益"; "依"; "優"; "頂"; "礎"; "載"; "倒"; "房"; "突"; "坐"; "粉"; "敵"; "略"; "客"; "袁"; "冷"; "勝";
  "絕"; "析"; "塊"; "劑"; "測"; "絲"; "協"; "訴"; "念"; "陳"; "仍"; "羅"; "鹽"; "友"; "洋"; "錯"; "苦"; "夜"; "刑";
  "移"; "頻"; "逐"; "靠"; "混"; "母"; "短"; "皮"; "終"; "聚"; "汽"; "村"; "雲"; "哪"; "既"; "距"; "衛"; "停"; "烈";
  "央"; "察"; "燒"; "迅"; "境"; "若"; "印"; "洲"; "刻"; "括"; "激"; "孔"; "搞"; "甚"; "室"; "待"; "核"; "校"; "散";
  "侵"; "吧"; "甲"; "遊"; "久"; "菜"; "味"; "舊"; "模"; "湖"; "貨"; "損"; "預"; "阻"; "毫"; "普"; "穩"; "乙"; "媽";
  "植"; "息"; "擴"; "銀"; "語"; "揮"; "酒"; "守"; "拿"; "序"; "紙"; "醫"; "缺"; "雨"; "嗎"; "針"; "劉"; "啊"; "急";
  "唱"; "誤"; "訓"; "願"; "審"; "附"; "獲"; "茶"; "鮮"; "糧"; "斤"; "孩"; "脫"; "硫"; "肥"; "善"; "龍"; "演"; "父";
  "漸"; "血"; "歡"; "械"; "掌"; "歌"; "沙"; "剛"; "攻"; "謂"; "盾"; "討"; "晚"; "粒"; "亂"; "燃"; "矛"; "乎"; "殺";
  "藥"; "寧"; "魯"; "貴"; "鐘"; "煤"; "讀"; "班"; "伯"; "香"; "介"; "迫"; "句"; "豐"; "培"; "握"; "蘭"; "擔"; "弦";
  "蛋"; "沉"; "假"; "穿"; "執"; "答"; "樂"; "誰"; "順"; "煙"; "縮"; "徵"; "臉"; "喜"; "松"; "腳"; "困"; "異"; "免";
  "背"; "星"; "福"; "買"; "染"; "井"; "概"; "慢"; "怕"; "磁"; "倍"; "祖"; "皇"; "促"; "靜"; "補"; "評"; "翻"; "肉";
  "踐"; "尼"; "衣"; "寬"; "揚"; "棉"; "希"; "傷"; "操"; "垂"; "秋"; "宜"; "氫"; "套"; "督"; "振"; "架"; "亮"; "末";
  "憲"; "慶"; "編"; "牛"; "觸"; "映"; "雷"; "銷"; "詩"; "座"; "居"; "抓"; "裂"; "胞"; "呼"; "娘"; "景"; "威"; "綠";
  "晶"; "厚"; "盟"; "衡"; "雞"; "孫"; "延"; "危"; "膠"; "屋"; "鄉"; "臨"; "陸"; "顧"; "掉"; "呀"; "燈"; "歲"; "措";
  "束"; "耐"; "劇"; "玉"; "趙"; "跳"; "哥"; "季"; "課"; "凱"; "胡"; "額"; "款"; "紹"; "卷"; "齊"; "偉"; "蒸"; "殖";
  "永"; "宗"; "苗"; "川"; "爐"; "岩"; "弱"; "零"; "楊"; "奏"; "沿"; "露"; "桿"; "探"; "滑"; "鎮"; "飯"; "濃"; "航";
  "懷"; "趕"; "庫"; "奪"; "伊"; "靈"; "稅"; "途"; "滅"; "賽"; "歸"; "召"; "鼓"; "播"; "盤"; "裁"; "險"; "康"; "唯";
  "錄"; "菌"; "純"; "借"; "糖"; "蓋"; "橫"; "符"; "私"; "努"; "堂"; "域"; "槍"; "潤"; "幅"; "哈"; "竟"; "熟"; "蟲";
  "澤"; "腦"; "壤"; "碳"; "歐"; "遍"; "側"; "寨"; "敢"; "徹"; "慮"; "斜"; "薄"; "庭"; "納"; "彈"; "飼"; "伸"; "折";
  "麥"; "濕"; "暗"; "荷"; "瓦"; "塞"; "床"; "築"; "惡"; "戶"; "訪"; "塔"; "奇"; "透"; "梁"; "刀"; "旋"; "跡"; "卡";
  "氯"; "遇"; "份"; "毒"; "泥"; "退"; "洗"; "擺"; "灰"; "彩"; "賣"; "耗"; "夏"; "擇"; "忙"; "銅"; "獻"; "硬"; "予";
  "繁"; "圈"; "雪"; "函"; "亦"; "抽"; "篇"; "陣"; "陰"; "丁"; "尺"; "追"; "堆"; "雄"; "迎"; "泛"; "爸"; "樓"; "避";
  "謀"; "噸"; "野"; "豬"; "旗"; "累"; "偏"; "典"; "館"; "索"; "秦"; "脂"; "潮"; "爺"; "豆"; "忽"; "托"; "驚"; "塑";
  "遺"; "愈"; "朱"; "替"; "纖"; "粗"; "傾"; "尚"; "痛"; "楚"; "謝"; "奮"; "購"; "磨"; "君"; "池"; "旁"; "碎"; "骨";
  "監"; "捕"; "弟"; "暴"; "割"; "貫"; "殊"; "釋"; "詞"; "亡"; "壁"; "頓"; "寶"; "午"; "塵"; "聞"; "揭"; "炮"; "殘";
  "冬"; "橋"; "婦"; "警"; "綜"; "招"; "吳"; "付"; "浮"; "遭"; "徐"; "您"; "搖"; "谷"; "贊"; "箱"; "隔"; "訂"; "男";
  "吹"; "園"; "紛"; "唐"; "敗"; "宋"; "玻"; "巨"; "耕"; "坦"; "榮"; "閉"; "灣"; "鍵"; "凡"; "駐"; "鍋"; "救"; "恩";
  "剝"; "凝"; "鹼"; "齒"; "截"; "煉"; "麻"; "紡"; "禁"; "廢"; "盛"; "版"; "緩"; "淨"; "睛"; "昌"; "婚"; "涉"; "筒";
  "嘴"; "插"; "岸"; "朗"; "莊"; "街"; "藏"; "姑"; "貿"; "腐"; "奴"; "啦"; "慣"; "乘"; "夥"; "恢"; "勻"; "紗"; "扎";
  "辯"; "耳"; "彪"; "臣"; "億"; "璃"; "抵"; "脈"; "秀"; "薩"; "俄"; "網"; "舞"; "店"; "噴"; "縱"; "寸"; "汗"; "掛";
  "洪"; "賀"; "閃"; "柬"; "爆"; "烯"; "津"; "稻"; "牆"; "軟"; "勇"; "像"; "滾"; "厘"; "蒙"; "芳"; "肯"; "坡"; "柱";
  "盪"; "腿"; "儀"; "旅"; "尾"; "軋"; "冰"; "貢"; "登"; "黎"; "削"; "鑽"; "勒"; "逃"; "障"; "氨"; "郭"; "峰"; "幣";
  "港"; "伏"; "軌"; "畝"; "畢"; "擦"; "莫"; "刺"; "浪"; "秘"; "援"; "株"; "健"; "售"; "股"; "島"; "甘"; "泡"; "睡";
  "童"; "鑄"; "湯"; "閥"; "休"; "匯"; "舍"; "牧"; "繞"; "炸"; "哲"; "磷"; "績"; "朋"; "淡"; "尖"; "啟"; "陷"; "柴";
  "呈"; "徒"; "顏"; "淚"; "稍"; "忘"; "泵"; "藍"; "拖"; "洞"; "授"; "鏡"; "辛"; "壯"; "鋒"; "貧"; "虛"; "彎"; "摩";
  "泰"; "幼"; "廷"; "尊"; "窗"; "綱"; "弄"; "隸"; "疑"; "氏"; "宮"; "姐"; "震"; "瑞"; "怪"; "尤"; "琴"; "循"; "描";
  "膜"; "違"; "夾"; "腰"; "緣"; "珠"; "窮"; "森"; "枝"; "竹"; "溝"; "催"; "繩"; "憶"; "邦"; "剩"; "幸"; "漿"; "欄";
  "擁"; "牙"; "貯"; "禮"; "濾"; "鈉"; "紋"; "罷"; "拍"; "咱"; "喊"; "袖"; "埃"; "勤"; "罰"; "焦"; "潛"; "伍"; "墨";
  "欲"; "縫"; "姓"; "刊"; "飽"; "仿"; "獎"; "鋁"; "鬼"; "麗"; "跨"; "默"; "挖"; "鏈"; "掃"; "喝"; "袋"; "炭"; "污";
  "幕"; "諸"; "弧"; "勵"; "梅"; "奶"; "潔"; "災"; "舟"; "鑑"; "苯"; "訟"; "抱"; "毀"; "懂"; "寒"; "智"; "埔"; "寄";
  "屆"; "躍"; "渡"; "挑"; "丹"; "艱"; "貝"; "碰"; "拔"; "爹"; "戴"; "碼"; "夢"; "芽"; "熔"; "赤"; "漁"; "哭"; "敬";
  "顆"; "奔"; "鉛"; "仲"; "虎"; "稀"; "妹"; "乏"; "珍"; "申"; "桌"; "遵"; "允"; "隆"; "螺"; "倉"; "魏"; "銳"; "曉";
  "氮"; "兼"; "隱"; "礙"; "赫"; "撥"; "忠"; "肅"; "缸"; "牽"; "搶"; "博"; "巧"; "殼"; "兄"; "杜"; "訊"; "誠"; "碧";
  "祥"; "柯"; "頁"; "巡"; "矩"; "悲"; "灌"; "齡"; "倫"; "票"; "尋"; "桂"; "鋪"; "聖"; "恐"; "恰"; "鄭"; "趣"; "抬";
  "荒"; "騰"; "貼"; "柔"; "滴"; "猛"; "闊"; "輛"; "妻"; "填"; "撤"; "儲"; "簽"; "鬧"; "擾"; "紫"; "砂"; "遞"; "戲";
  "吊"; "陶"; "伐"; "餵"; "療"; "瓶"; "婆"; "撫"; "臂"; "摸"; "忍"; "蝦"; "蠟"; "鄰"; "胸"; "鞏"; "擠"; "偶"; "棄";
  "槽"; "勁"; "乳"; "鄧"; "吉"; "仁"; "爛"; "磚"; "租"; "烏"; "艦"; "伴"; "瓜"; "淺"; "丙"; "暫"; "燥"; "橡"; "柳";
  "迷"; "暖"; "牌"; "秧"; "膽"; "詳"; "簧"; "踏"; "瓷"; "譜"; "呆"; "賓"; "糊"; "洛"; "輝"; "憤"; "競"; "隙"; "怒";
  "粘"; "乃"; "緒"; "肩"; "籍"; "敏"; "塗"; "熙"; "皆"; "偵"; "懸"; "掘"; "享"; "糾"; "醒"; "狂"; "鎖"; "淀"; "恨";
  "牲"; "霸"; "爬"; "賞"; "逆"; "玩"; "陵"; "祝"; "秒"; "浙"; "貌"; "役"; "彼"; "悉"; "鴨"; "趨"; "鳳"; "晨"; "畜";
  "輩"; "秩"; "卵"; "署"; "梯"; "炎"; "灘"; "棋"; "驅"; "篩"; "峽"; "冒"; "啥"; "壽"; "譯"; "浸"; "泉"; "帽"; "遲";
  "矽"; "疆"; "貸"; "漏"; "稿"; "冠"; "嫩"; "脅"; "芯"; "牢"; "叛"; "蝕"; "奧"; "鳴"; "嶺"; "羊"; "憑"; "串"; "塘";
  "繪"; "酵"; "融"; "盆"; "錫"; "廟"; "籌"; "凍"; "輔"; "攝"; "襲"; "筋"; "拒"; "僚"; "旱"; "鉀"; "鳥"; "漆"; "沈";
  "眉"; "疏"; "添"; "棒"; "穗"; "硝"; "韓"; "逼"; "扭"; "僑"; "涼"; "挺"; "碗"; "栽"; "炒"; "杯"; "患"; "餾"; "勸";
  "豪"; "遼"; "勃"; "鴻"; "旦"; "吏"; "拜"; "狗"; "埋"; "輥"; "掩"; "飲"; "搬"; "罵"; "辭"; "勾"; "扣"; "估"; "蔣";
  "絨"; "霧"; "丈"; "朵"; "姆"; "擬"; "宇"; "輯"; "陝"; "雕"; "償"; "蓄"; "崇"; "剪"; "倡"; "廳"; "咬"; "駛"; "薯";
  "刷"; "斥"; "番"; "賦"; "奉"; "佛"; "澆"; "漫"; "曼"; "扇"; "鈣"; "桃"; "扶"; "仔"; "返"; "俗"; "虧"; "腔"; "鞋";
  "棱"; "覆"; "框"; "悄"; "叔"; "撞"; "騙"; "勘"; "旺"; "沸"; "孤"; "吐"; "孟"; "渠"; "屈"; "疾"; "妙"; "惜"; "仰";
  "狠"; "脹"; "諧"; "拋"; "黴"; "桑"; "崗"; "嘛"; "衰"; "盜"; "滲"; "臟"; "賴"; "湧"; "甜"; "曹"; "閱"; "肌"; "哩";
  "厲"; "烴"; "緯"; "毅"; "昨"; "偽"; "症"; "煮"; "嘆"; "釘"; "搭"; "莖"; "籠"; "酷"; "偷"; "弓"; "錐"; "恆"; "傑";
  "坑"; "鼻"; "翼"; "綸"; "敘"; "獄"; "逮"; "罐"; "絡"; "棚"; "抑"; "膨"; "蔬"; "寺"; "驟"; "穆"; "冶"; "枯"; "冊";
  "屍"; "凸"; "紳"; "坯"; "犧"; "焰"; "轟"; "欣"; "晉"; "瘦"; "禦"; "錠"; "錦"; "喪"; "旬"; "鍛"; "壟"; "搜"; "撲";
  "邀"; "亭"; "酯"; "邁"; "舒"; "脆"; "酶"; "閒"; "憂"; "酚"; "頑"; "羽"; "漲"; "卸"; "仗"; "陪"; "闢"; "懲"; "杭";
  "姚"; "肚"; "捉"; "飄"; "漂"; "昆"; "欺"; "吾"; "郎"; "烷"; "汁"; "呵"; "飾"; "蕭"; "雅"; "郵"; "遷"; "燕"; "撒";
  "姻"; "赴"; "宴"; "煩"; "債"; "帳"; "斑"; "鈴"; "旨"; "醇"; "董"; "餅"; "雛"; "姿"; "拌"; "傅"; "腹"; "妥"; "揉";
  "賢"; "拆"; "歪"; "葡"; "胺"; "丟"; "浩"; "徽"; "昂"; "墊"; "擋"; "覽"; "貪"; "慰"; "繳"; "汪"; "慌"; "馮"; "諾";
  "姜"; "誼"; "兇"; "劣"; "誣"; "耀"; "昏"; "躺"; "盈"; "騎"; "喬"; "溪"; "叢"; "盧"; "抹"; "悶"; "諮"; "刮"; "駕";
  "纜"; "悟"; "摘"; "鉺"; "擲"; "頗"; "幻"; "柄"; "惠"; "慘"; "佳"; "仇"; "臘"; "窩"; "滌"; "劍"; "瞧"; "堡"; "潑";
  "蔥"; "罩"; "霍"; "撈"; "胎"; "蒼"; "濱"; "倆"; "捅"; "湘"; "砍"; "霞"; "邵"; "萄"; "瘋"; "淮"; "遂"; "熊"; "糞";
  "烘"; "宿"; "檔"; "戈"; "駁"; "嫂"; "裕"; "徙"; "箭"; "捐"; "腸"; "撐"; "曬"; "辨"; "殿"; "蓮"; "攤"; "攪"; "醬";
  "屏"; "疫"; "哀"; "蔡"; "堵"; "沫"; "皺"; "暢"; "疊"; "閣"; "萊"; "敲"; "轄"; "鉤"; "痕"; "壩"; "巷"; "餓"; "禍";
  "丘"; "玄"; "溜"; "曰"; "邏"; "彭"; "嘗"; "卿"; "妨"; "艇"; "吞"; "韋"; "怨"; "矮"; "歇"]%string.

Definition zht_ : list Z := cstrings zht_list.

Definition zht_i : list Z := [
  0; 4; 8; 12; 16; 20; 24; 28; 32; 36; 40; 44; 48; 52; 56; 60; 64; 68; 72; 76; 80; 84; 88; 92;
  96; 100; 104; 108; 112; 116; 120; 124; 128; 132; 136; 140; 144; 148; 152; 156; 160; 164; 168;
  172; 176; 180; 184; 188; 192; 196; 200; 204; 208; 212; 216; 220; 224; 228; 232; 236; 240; 244;
  248; 252; 256; 260; 264; 268; 272; 276; 280; 284; 288; 292; 296; 300; 304; 308; 312; 316; 320;
  324; 328; 332; 336; 340; 344; 348; 352; 356; 360; 364; 368; 372; 376; 380; 384; 388; 392; 396;
  400; 404; 408; 412; 416; 420; 424; 428; 432; 436; 440; 444; 448; 452; 456; 460; 464; 468; 472;
  476; 480; 484; 488; 492; 496; 500; 504; 508; 512; 516; 520; 524; 528; 532; 536; 540; 544; 548;
  552; 556; 560; 564; 568; 572; 576; 580; 584; 588; 592; 596; 600; 604; 608; 612; 616; 620; 624;
  628; 632; 636; 640; 644; 648; 652; 656; 660; 664; 668; 672; 676; 680; 684; 688; 692; 696; 700;
  704; 708; 712; 716; 720; 724; 728; 732; 736; 740; 744; 748; 752; 756; 760; 764; 768; 772; 776;
  780; 784; 788; 792; 796; 800; 804; 808; 812; 816; 820; 824; 828; 832; 836; 840; 844; 848; 852;
  856; 860; 864; 868; 872; 876; 880; 884; 888; 892; 896; 900; 904; 908; 912; 916; 920; 924; 928;
  932; 936; 940; 944; 948; 952; 956; 960; 964; 968; 972; 976; 980; 984; 988; 992; 996; 1000;
  1004; 1008; 1012; 1016; 1020; 1024; 1028; 1032; 1036; 1040; 1044; 1048; 1052; 1056; 1060; 1064;
  1068; 1072; 1076; 1080; 1084; 1088; 1092; 1096; 1100; 1104; 1108; 1112; 1116; 1120; 1124; 1128;
  1132; 1136; 1140; 1144; 1148; 1152; 1156; 1160; 1164; 1168; 1172; 1176; 1180; 1184; 1188; 1192;
  1196; 1200; 1204; 1208; 1212; 1216; 1220; 1224; 1228; 1232; 1236; 1240; 1244; 1248; 1252; 1256;
  1260; 1264; 1268; 1272; 1276; 1280; 1284; 1288; 1292; 1296; 1300; 1304; 1308; 1312; 1316; 1320;
  1324; 1328; 1332; 1336; 1340; 1344; 1348; 1352; 1356; 1360; 1364; 1368; 1372; 1376; 1380; 1384;
  1388; 1392; 1396; 1400; 1404; 1408; 1412; 1416; 1420; 1424; 1428; 1432; 1436; 1440; 1444; 1448;
  1452; 1456; 1460; 1464; 1468; 1472; 1476; 1480; 1484; 1488; 1492; 1496; 1500; 1504; 1508; 1512;
  1516; 1520; 1524; 1528; 1532; 1536; 1540; 1544; 1548; 1552; 1556; 1560; 1564; 1568; 1572; 1576;
  1580; 1584; 1588; 1592; 1596; 1600; 1604; 1608; 1612; 1616; 1620; 1624; 1628; 1632; 1636; 1640;
  1644; 1648; 1652; 1656; 1660; 1664; 1668; 1672; 1676; 1680; 1684; 1688; 1692; 1696; 1700; 1704;
  1708; 1712; 1716; 1720; 1724; 1728; 1732; 1736; 1740; 1744; 1748; 1752; 1756; 1760; 1764; 1768;
  1772; 1776; 1780; 1784; 1788; 1792; 1796; 1800; 1804; 1808; 1812; 1816; 1820; 1824; 1828; 1832;
  1836; 1840; 1844; 1848; 1852; 1856; 1860; 1864; 1868; 1872; 1876; 1880; 1884; 1888; 1892; 1896;
  1900; 1904; 1908; 1912; 1916; 1920; 1924; 1928; 1932; 1936; 1940; 1944; 1948; 1952; 1956; 1960;
  1964; 1968; 1972; 1976; 1980; 1984; 1988; 1992; 1996; 2000; 2004; 2008; 2012; 2016; 2020; 2024;
  2028; 2032; 2036; 2040; 2044; 2048; 2052; 2056; 2060; 2064; 2068; 2072; 2076; 2080; 2084; 2088;
  2092; 2096; 2100; 2104; 2108; 2112; 2116; 2120; 2124; 2128; 2132; 2136; 2140; 2144; 2148; 2152;
  2156; 2160; 2164; 2168; 2172; 2176; 2180; 2184; 2188; 2192; 2196; 2200; 2204; 2208; 2212; 2216;
  2220; 2224; 2228; 2232; 2236; 2240; 2244; 2248; 2252; 2256; 2260; 2264; 2268; 2272; 2276; 2280;
  2284; 2288; 2292; 2296; 2300; 2304; 2308; 2312; 2316; 2320; 2324; 2328; 2332; 2336; 2340; 2344;
  2348; 2352; 2356; 2360; 2364; 2368; 2372; 2376; 2380; 2384; 2388; 2392; 2396; 2400; 2404; 2408;
  2412; 2416; 2420; 2424; 2428; 2432; 2436; 2440; 2444; 2448; 2452; 2456; 2460; 2464; 2468; 2472;
  2476; 2480; 2484; 2488; 2492; 2496; 2500; 2504; 2508; 2512; 2516; 2520; 2524; 2528; 2532; 2536;
  2540; 2544; 2548; 2552; 2556; 2560; 2564; 2568; 2572; 2576; 2580; 2584; 2588; 2592; 2596; 2600;
  2604; 2608; 2612; 2616; 2620; 2624; 2628; 2632; 2636; 2640; 2644; 2648; 2652; 2656; 2660; 2664;
  2668; 2672; 2676; 2680; 2684; 2688; 2692; 2696; 2700; 2704; 2708; 2712; 2716; 2720; 2724; 2728;
  2732; 2736; 2740; 2744; 2748; 2752; 2756; 2760; 2764; 2768; 2772; 2776; 2780; 2784; 2788; 2792;
  2796; 2800; 2804; 2808; 2812; 2816; 2820; 2824; 2828; 2832; 2836; 2840; 2844; 2848; 2852; 2856;
  2860; 2864; 2868; 2872; 2876; 2880; 2884; 2888; 2892; 2896; 2900; 2904; 2908; 2912; 2916; 2920;
  2924; 2928; 2932; 2936; 2940; 2944; 2948; 2952; 2956; 2960; 2964; 2968; 2972; 2976; 2980; 2984;
  2988; 2992; 2996; 3000; 3004; 3008; 3012; 3016; 3020; 3024; 3028; 3032; 3036; 3040; 3044; 3048;
  3052; 3056; 3060; 3064; 3068; 3072; 3076; 3080; 3084; 3088; 3092; 3096; 3100; 3104; 3108; 3112;
  3116; 3120; 3124; 3128; 3132; 3136; 3140; 3144; 3148; 3152; 3156; 3160; 3164; 3168; 3172; 3176;
  3180; 3184; 3188; 3192; 3196; 3200; 3204; 3208; 3212; 3216; 3220; 3224; 3228; 3232; 3236; 3240;
  3244; 3248; 3252; 3256; 3260; 3264; 3268; 3272; 3276; 3280; 3284; 3288; 3292; 3296; 3300; 3304;
  3308; 3312; 3316; 3320; 3324; 3328; 3332; 3336; 3340; 3344; 3348; 3352; 3356; 3360; 3364; 3368;
  3372; 3376; 3380; 3384; 3388; 3392; 3396; 3400; 3404; 3408; 3412; 3416; 3420; 3424; 3428; 3432;
  3436; 3440; 3444; 3448; 3452; 3456; 3460; 3464; 3468; 3472; 3476; 3480; 3484; 3488; 3492; 3496;
  3500; 3504; 3508; 3512; 3516; 3520; 3524; 3528; 3532; 3536; 3540; 3544; 3548; 3552; 3556; 3560;
  3564; 3568; 3572; 3576; 3580; 3584; 3588; 3592; 3596; 3600; 3604; 3608; 3612; 3616; 3620; 3624;
  3628; 3632; 3636; 3640; 3644; 3648; 3652; 3656; 3660; 3664; 3668; 3672; 3676; 3680; 3684; 3688;
  3692; 3696; 3700; 3704; 3708; 3712; 3716; 3720; 3724; 3728; 3732; 3736; 3740; 3744; 3748; 3752;
  3756; 3760; 3764; 3768; 3772; 3776; 3780; 3784; 3788; 3792; 3796; 3800; 3804; 3808; 3812; 3816;
  3820; 3824; 3828; 3832; 3836; 3840; 3844; 3848; 3852; 3856; 3860; 3864; 3868; 3872; 3876; 3880;
  3884; 3888; 3892; 3896; 3900; 3904; 3908; 3912; 3916; 3920; 3924; 3928; 3932; 3936; 3940; 3944;
  3948; 3952; 3956; 3960; 3964; 3968; 3972; 3976; 3980; 3984; 3988; 3992; 3996; 4000; 4004; 4008;
  4012; 4016; 4020; 4024; 4028; 4032; 4036; 4040; 4044; 4048; 4052; 4056; 4060; 4064; 4068; 4072;
  4076; 4080; 4084; 4088; 4092; 4096; 4100; 4104; 4108; 4112; 4116; 4120; 4124; 4128; 4132; 4136;
  4140; 4144; 4148; 4152; 4156; 4160; 4164; 4168; 4172; 4176; 4180; 4184; 4188; 4192; 4196; 4200;
  4204; 4208; 4212; 4216; 4220; 4224; 4228; 4232; 4236; 4240; 4244; 4248; 4252; 4256; 4260; 4264;
  4268; 4272; 4276; 4280; 4284; 4288; 4292; 4296; 4300; 4304; 4308; 4312; 4316; 4320; 4324; 4328;
  4332; 4336; 4340; 4344; 4348; 4352; 4356; 4360; 4364; 4368; 4372; 4376; 4380; 4384; 4388; 4392;
  4396; 4400; 4404; 4408; 4412; 4416; 4420; 4424; 4428; 4432; 4436; 4440; 4444; 4448; 4452; 4456;
  4460; 4464; 4468; 4472; 4476; 4480; 4484; 4488; 4492; 4496; 4500; 4504; 4508; 4512; 4516; 4520;
  4524; 4528; 4532; 4536; 4540; 4544; 4548; 4552; 4556; 4560; 4564; 4568; 4572; 4576; 4580; 4584;
  4588; 4592; 4596; 4600; 4604; 4608; 4612; 4616; 4620; 4624; 4628; 4632; 4636; 4640; 4644; 4648;
  4652; 4656; 4660; 4664; 4668; 4672; 4676; 4680; 4684; 4688; 4692; 4696; 4700; 4704; 4708; 4712;
  4716; 4720; 4724; 4728; 4732; 4736; 4740; 4744; 4748; 4752; 4756; 4760; 4764; 4768; 4772; 4776;
  4780; 4784; 4788; 4792; 4796; 4800; 4804; 4808; 4812; 4816; 4820; 4824; 4828; 4832; 4836; 4840;
  4844; 4848; 4852; 4856; 4860; 4864; 4868; 4872; 4876; 4880; 4884; 4888; 4892; 4896; 4900; 4904;
  4908; 4912; 4916; 4920; 4924; 4928; 4932; 4936; 4940; 4944; 4948; 4952; 4956; 4960; 4964; 4968;
  4972; 4976; 4980; 4984; 4988; 4992; 4996; 5000; 5004; 5008; 5012; 5016; 5020; 5024; 5028; 5032;
  5036; 5040; 5044; 5048; 5052; 5056; 5060; 5064; 5068; 5072; 5076; 5080; 5084; 5088; 5092; 5096;
  5100; 5104; 5108; 5112; 5116; 5120; 5124; 5128; 5132; 5136; 5140; 5144; 5148; 5152; 5156; 5160;
  5164; 5168; 5172; 5176; 5180; 5184; 5188; 5192; 5196; 5200; 5204; 5208; 5212; 5216; 5220; 5224;
  5228; 5232; 5236; 5240; 5244; 5248; 5252; 5256; 5260; 5264; 5268; 5272; 5276; 5280; 5284; 5288;
  5292; 5296; 5300; 5304; 5308; 5312; 5316; 5320; 5324; 5328; 5332; 5336; 5340; 5344; 5348; 5352;
  5356; 5360; 5364; 5368; 5372; 5376; 5380; 5384; 5388; 5392; 5396; 5400; 5404; 5408; 5412; 5416;
  5420; 5424; 5428; 5432; 5436; 5440; 5444; 5448; 5452; 5456; 5460; 5464; 5468; 5472; 5476; 5480;
  5484; 5488; 5492; 5496; 5500; 5504; 5508; 5512; 5516; 5520; 5524; 5528; 5532; 5536; 5540; 5544;
  5548; 5552; 5556; 5560; 5564; 5568; 5572; 5576; 5580; 5584; 5588; 5592; 5596; 5600; 5604; 5608;
  5612; 5616; 5620; 5624; 5628; 5632; 5636; 5640; 5644; 5648; 5652; 5656; 5660; 5664; 5668; 5672;
  5676; 5680; 5684; 5688; 5692; 5696; 5700; 5704; 5708; 5712; 5716; 5720; 5724; 5728; 5732; 5736;
  5740; 5744; 5748; 5752; 5756; 5760; 5764; 5768; 5772; 5776; 5780; 5784; 5788; 5792; 5796; 5800;
  5804; 5808; 5812; 5816; 5820; 5824; 5828; 5832; 5836; 5840; 5844; 5848; 5852; 5856; 5860; 5864;
  5868; 5872; 5876; 5880; 5884; 5888; 5892; 5896; 5900; 5904; 5908; 5912; 5916; 5920; 5924; 5928;
  5932; 5936; 5940; 5944; 5948; 5952; 5956; 5960; 5964; 5968; 5972; 5976; 5980; 5984; 5988; 5992;
  5996; 6000; 6004; 6008; 6012; 6016; 6020; 6024; 6028; 6032; 6036; 6040; 6044; 6048; 6052; 6056;
  6060; 6064; 6068; 6072; 6076; 6080; 6084; 6088; 6092; 6096; 6100; 6104; 6108; 6112; 6116; 6120;
  6124; 6128; 6132; 6136; 6140; 6144; 6148; 6152; 6156; 6160; 6164; 6168; 6172; 6176; 6180; 6184;
  6188; 6192; 6196; 6200; 6204; 6208; 6212; 6216; 6220; 6224; 6228; 6232; 6236; 6240; 6244; 6248;
  6252; 6256; 6260; 6264; 6268; 6272; 6276; 6280; 6284; 6288; 6292; 6296; 6300; 6304; 6308; 6312;
  6316; 6320; 6324; 6328; 6332; 6336; 6340; 6344; 6348; 6352; 6356; 6360; 6364; 6368; 6372; 6376;
  6380; 6384; 6388; 6392; 6396; 6400; 6404; 6408; 6412; 6416; 6420; 6424; 6428; 6432; 6436; 6440;
  6444; 6448; 6452; 6456; 6460; 6464; 6468; 6472; 6476; 6480; 6484; 6488; 6492; 6496; 6500; 6504;
  6508; 6512; 6516; 6520; 6524; 6528; 6532; 6536; 6540; 6544; 6548; 6552; 6556; 6560; 6564; 6568;
  6572; 6576; 6580; 6584; 6588; 6592; 6596; 6600; 6604; 6608; 6612; 6616; 6620; 6624; 6628; 6632;
  6636; 6640; 6644; 6648; 6652; 6656; 6660; 6664; 6668; 6672; 6676; 6680; 6684; 6688; 6692; 6696;
  6700; 6704; 6708; 6712; 6716; 6720; 6724; 6728; 6732; 6736; 6740; 6744; 6748; 6752; 6756; 6760;
  6764; 6768; 6772; 6776; 6780; 6784; 6788; 6792; 6796; 6800; 6804; 6808; 6812; 6816; 6820; 6824;
  6828; 6832; 6836; 6840; 6844; 6848; 6852; 6856; 6860; 6864; 6868; 6872; 6876; 6880; 6884; 6888;
  6892; 6896; 6900; 6904; 6908; 6912; 6916; 6920; 6924; 6928; 6932; 6936; 6940; 6944; 6948; 6952;
  6956; 6960; 6964; 6968; 6972; 6976; 6980; 6984; 6988; 6992; 6996; 7000; 7004; 7008; 7012; 7016;
  7020; 7024; 7028; 7032; 7036; 7040; 7044; 7048; 7052; 7056; 7060; 7064; 7068; 7072; 7076; 7080;
  7084; 7088; 7092; 7096; 7100; 7104; 7108; 7112; 7116; 7120; 7124; 7128; 7132; 7136; 7140; 7144;
  7148; 7152; 7156; 7160; 7164; 7168; 7172; 7176; 7180; 7184; 7188; 7192; 7196; 7200; 7204; 7208;
  7212; 7216; 7220; 7224; 7228; 7232; 7236; 7240; 7244; 7248; 7252; 7256; 7260; 7264; 7268; 7272;
  7276; 7280; 7284; 7288; 7292; 7296; 7300; 7304; 7308; 7312; 7316; 7320; 7324; 7328; 7332; 7336;
  7340; 7344; 7348; 7352; 7356; 7360; 7364; 7368; 7372; 7376; 7380; 7384; 7388; 7392; 7396; 7400;
  7404; 7408; 7412; 7416; 7420; 7424; 7428; 7432; 7436; 7440; 7444; 7448; 7452; 7456; 7460; 7464;
  7468; 7472; 7476; 7480; 7484; 7488; 7492; 7496; 7500; 7504; 7508; 7512; 7516; 7520; 7524; 7528;
  7532; 7536; 7540; 7544; 7548; 7552; 7556; 7560; 7564; 7568; 7572; 7576; 7580; 7584; 7588; 7592;
  7596; 7600; 7604; 7608; 7612; 7616; 7620; 7624; 7628; 7632; 7636; 7640; 7644; 7648; 7652; 7656;
  7660; 7664; 7668; 7672; 7676; 7680; 7684; 7688; 7692; 7696; 7700; 7704; 7708; 7712; 7716; 7720;
  7724; 7728; 7732; 7736; 7740; 7744; 7748; 7752; 7756; 7760; 7764; 7768; 7772; 7776; 7780; 7784;
  7788; 7792; 7796; 7800; 7804; 7808; 7812; 7816; 7820; 7824; 7828; 7832; 7836; 7840; 7844; 7848;
  7852; 7856; 7860; 7864; 7868; 7872; 7876; 7880; 7884; 7888; 7892; 7896; 7900; 7904; 7908; 7912;
  7916; 7920; 7924; 7928; 7932; 7936; 7940; 7944; 7948; 7952; 7956; 7960; 7964; 7968; 7972; 7976;
  7980; 7984; 7988; 7992; 7996; 8000; 8004; 8008; 8012; 8016; 8020; 8024; 8028; 8032; 8036; 8040;
  8044; 8048; 8052; 8056; 8060; 8064; 8068; 8072; 8076; 8080; 8084; 8088; 8092; 8096; 8100; 8104;
  8108; 8112; 8116; 8120; 8124; 8128; 8132; 8136; 8140; 8144; 8148; 8152; 8156; 8160; 8164; 8168;
  8172; 8176; 8180; 8184; 8188; 8192].

Definition zht_words : words := const_words 2048 11 false zht_ zht_i.

Definition word_lists : list words :=
  [en_words; es_words; fr_words; it_words; jp_words; zhs_words; zht_words].

(** ** Checking a list

    The tables are checked by evaluation, in time linear in their size apart
    from one sort. *)

Section Checks.
Import word_list.

(** Where the words of an array start, and where it ends. *)
Fixpoint starts (o : Z) (l : list (list Z)) : list Z :=
  match l with
  | [] => [o]
  | x :: l => o :: starts (o + zlen x + 1) l
  end.

Definition word_ok (x : list Z) : bool := forallb (fun c => negb (c =? 0) && negb (c =? 32)) x.

Definition strcmp_le (a b : list Z) : Prop := strcmp a b <> Gt.

#[local] Instance strcmp_le_dec a b : Decision (strcmp_le a b).
Proof. unfold strcmp_le. apply _. Defined.

Fixpoint strictly (l : list (list Z)) : bool :=
  match l with
  | a :: (b :: _) as l' => match strcmp a b with Lt => strictly l' | _ => false end
  | _ => true
  end.

Definition check_list (s : bool) (l : list (list Z)) (offsets : list Z) : bool :=
  bool_decide (offsets = starts 0 l) && forallb word_ok l && strictly (merge_sort strcmp_le l) &&
  Bool.eqb s (is_sorted l).

Lemma word_ok_chars x : word_ok x = true -> no_space x /\ Forall (fun c => c <> 0) x.
Proof.
  unfold no_space. induction x as [|c x IH]; [by split|]. cbn [word_ok forallb]. intros H.
  apply andb_true_iff in H as [Hc H]. apply andb_true_iff in Hc as [H0 H32]. apply IH in H as [? ?].
  apply negb_true_iff, Z.eqb_neq in H0, H32. by split; constructor.
Qed.

Lemma strcmp_refl a : strcmp a a = Eq.
Proof. induction a as [|x a IH]; [done|]. cbn [strcmp]. by rewrite Z.compare_refl. Qed.

Lemma strcmp_trans a : forall b c, strcmp a b = Lt -> strcmp b c = Lt -> strcmp a c = Lt.
Proof.
  induction a as [|x a IH]; intros [|y b] [|z c] Hab Hbc; try done. cbn [strcmp] in *.
  destruct (Z.compare_spec x y), (Z.compare_spec y z); try done; subst.
  - rewrite Z.compare_refl. by eapply IH.
  - by rewrite (proj2 (Z.compare_lt_iff y z)).
  - by rewrite (proj2 (Z.compare_lt_iff x z)).
  - by rewrite (proj2 (Z.compare_lt_iff x z)) by lia.
Qed.

Lemma strictly_sorted a l :
  strictly (a :: l) = true -> Forall (fun b => strcmp a b = Lt) l /\ strictly l = true.
Proof.
  revert a. induction l as [|b l IH]; intros a H; [done|]. cbn [strictly] in H.
  destruct (strcmp a b) eqn:E; try done. split; [|done]. constructor; [done|].
  destruct (IH b H) as [HF _]. eapply Forall_impl, HF. intros c Hc. by eapply strcmp_trans.
Qed.

Lemma strictly_NoDup l : strictly l = true -> NoDup l.
Proof.
  induction l as [|a l IH]; intros H; [constructor|]. apply strictly_sorted in H as [HF H].
  apply list.NoDup_cons. split; [|auto]. intros Hin.
  apply (proj1 (list.Forall_forall _ _) HF) in Hin. by rewrite strcmp_refl in Hin.
Qed.

Lemma string_at_word pre x post :
  Forall (fun c => c <> 0) x -> string_at (pre ++ x ++ 0 :: post) (zlen pre) = Some x.
Proof.
  intros Hx. unfold string_at. rewrite (proj2 (Z.ltb_lt _ _)) by zlia.
  rewrite zdrop_app_exact by done. f_equal.
  induction Hx as [|c x Hc Hx IH]; [done|]. cbn [app c_str]. by rewrite (proj2 (Z.eqb_neq c 0)), IH.
Qed.

Lemma ztake_succ {A} n (a : A) l : 0 <= n -> ztake (1 + n) (a :: l) = a :: ztake n l.
Proof. intros Hn. unfold ztake. by replace (Z.to_nat (1 + n)) with (S (Z.to_nat n)) by lia. Qed.

(** The pointers of a checked table point at the words. *)
Lemma starts_words l : forall pre o,
  o = zlen pre -> forallb word_ok l = true ->
  mapM (string_at (pre ++ concat (map (fun x => x ++ [0]) l))) (ztake (zlen l) (starts o l)) = Some l.
Proof.
  induction l as [|x l IH]; intros pre o -> H; [done|]. cbn [starts map concat].
  - rewrite zlen_cons, ztake_succ by apply zlen_nonneg. cbn [forallb] in H. apply andb_true_iff in H as [Hx H]. apply word_ok_chars in Hx as [_ Hx].
    rewrite <- app_assoc. cbn [app mapM]. rewrite string_at_word by done. cbn [mbind option_bind].
    pose proof (IH (pre ++ x ++ [0]) (zlen pre + zlen x + 1) ltac:(zlia) H) as E. rewrite <- !app_assoc in E. cbn [app] in E. by rewrite E.
Qed.

(** Pointer [i] is the number of bytes before word [i]. *)
Lemma starts_at l : forall o i x, l !! i = Some x -> starts o (map bytes_of l) !! i = Some (o + zlen (cstrings (take i l))).
Proof.
  induction l as [|y l IH]; intros o [|i] x Hx; [done|done|change (zlen (cstrings (take 0 (y :: l)))) with 0; by rewrite Z.add_0_r|]. cbn [map starts lookup list_lookup take] in *.
  rewrite (IH _ i x Hx). f_equal. unfold cstrings. cbn [map concat]. rewrite !zlen_app. change (zlen [0]) with 1. lia.
Qed.

Lemma cstrings_concat l : cstrings l = concat (map (fun x => x ++ [0]) (map bytes_of l)).
Proof. unfold cstrings. by rewrite map_map. Qed.

Lemma check_list_ok n b s l offsets :
  check_list s (map bytes_of l) offsets = true -> n = zlen l -> n = 2 ^ b -> 0 < b ->
  let w := const_words n b s (cstrings l) offsets in
  words_ok w /\ indices w = map bytes_of l /\ sorted w = is_sorted (indices w).
Proof.
  intros H Hn Hb H0. apply andb_true_iff in H as [H Hs]. apply andb_true_iff in H as [H Hd].
  apply andb_true_iff in H as [Ho Hw]. apply bool_decide_eq_true in Ho. apply eqb_prop in Hs.
  assert (indices (const_words n b s (cstrings l) offsets) = map bytes_of l) as Hi.
  { cbn [const_words indices]. rewrite cstrings_concat, Ho, Hn. replace (zlen l) with (zlen (map bytes_of l)) by (unfold zlen; by rewrite length_map).
    pose proof (starts_words _ [] 0 eq_refl Hw) as E. cbn [app] in E. by rewrite E. }
  cbv zeta. rewrite Hi. split; [|by rewrite Hs]. constructor; rewrite ?Hi; cbn [const_words len bits].
  - subst n. unfold zlen. by rewrite length_map.
  - done.
  - done.
  - apply strictly_NoDup in Hd. by rewrite merge_sort_Permutation in Hd.
  - apply list.Forall_forall. intros x Hx. apply word_ok_chars.
    by apply (proj1 (forallb_forall _ _) Hw), list_elem_of_In.
Qed.

(** A list of the code: the check is evaluated. *)
Definition list_facts (w : words) : Prop :=
  words_ok w /\ bits w = 11 /\ sorted w = is_sorted (indices w).

Lemma check_facts s l offsets :
  check_list s (map bytes_of l) offsets = true -> zlen l = 2048 ->
  list_facts (const_words 2048 11 s (cstrings l) offsets).
Proof. intros H Hl. destruct (check_list_ok 2048 11 s l offsets H) as (? & _ & ?); by auto with lia. Qed.

Ltac check_words := apply check_facts; vm_compute; reflexivity.

Lemma en_facts : list_facts en_words. Proof. check_words. Qed.
Lemma es_facts : list_facts es_words. Proof. check_words. Qed.
Lemma fr_facts : list_facts fr_words. Proof. check_words. Qed.
Lemma it_facts : list_facts it_words. Proof. check_words. Qed.
Lemma jp_facts : list_facts jp_words. Proof. check_words. Qed.
Lemma zhs_facts : list_facts zhs_words. Proof. check_words. Qed.
Lemma zht_facts : list_facts zht_words. Proof. check_words. Qed.

(** The English list without the detour through the array. *)
Lemma const_words_eq n b s l offsets :
  check_list s (map bytes_of l) offsets = true -> n = zlen l -> n = 2 ^ b -> 0 < b ->
  const_words n b s (cstrings l) offsets = mkWords n b s (map bytes_of l).
Proof.
  intros H Hn Hb H0. destruct (check_list_ok n b s l offsets H Hn Hb H0) as (_ & Hi & _).
  unfold const_words in *. cbn [indices] in Hi. by rewrite Hi.
Qed.

Lemma en_words_eq : en_words = mkWords 2048 11 true (map bytes_of en_list).
Proof. apply const_words_eq; [vm_compute; reflexivity..|lia]. Qed.

Lemma all_facts : Forall list_facts word_lists.
Proof.
  exact (Forall_cons_2 _ _ _ en_facts (Forall_cons_2 _ _ _ es_facts (Forall_cons_2 _ _ _ fr_facts
    (Forall_cons_2 _ _ _ it_facts (Forall_cons_2 _ _ _ jp_facts (Forall_cons_2 _ _ _ zhs_facts
    (Forall_cons_2 _ _ _ zht_facts (Forall_nil_2 _)))))))).
Qed.

(** The languages: words, table of pointers and structure. *)
Definition languages : list (list string * list Z * words) :=
  [(en_list, en_i, en_words); (es_list, es_i, es_words); (fr_list, fr_i, fr_words); (it_list, it_i, it_words);
   (jp_list, jp_i, jp_words); (zhs_list, zhs_i, zhs_words); (zht_list, zht_i, zht_words)].

Definition table_facts (x : list string * list Z * words) : Prop :=
  let '(l, offsets, w) := x in offsets = starts 0 (map bytes_of l) /\ indices w = map bytes_of l /\ list_facts w.

Lemma check_table s l offsets :
  check_list s (map bytes_of l) offsets = true -> zlen l = 2048 -> table_facts (l, offsets, const_words 2048 11 s (cstrings l) offsets).
Proof.
  intros H Hl. split; [|split; [|by apply check_facts]].
  - unfold check_list in H. rewrite !andb_true_iff in H. destruct H as (((Ho & _) & _) & _). by apply bool_decide_eq_true in Ho.
  - by destruct (check_list_ok 2048 11 s l offsets H) as (_ & ? & _); auto with lia.
Qed.

Lemma language_facts : Forall table_facts languages.
Proof. repeat apply Forall_cons_2; [..|apply Forall_nil_2]; apply check_table; vm_compute; reflexivity. Qed.

(** C24. Looking up words in each of the seven lists: pointer [i] of the table is
    where word [i] of the array starts; the word of an index is word [i] and the
    index of a word is its position plus one, in a sorted list by binary search
    and in the others by a scan; a text that is no word of the list has index 0.
    There are 2048 words, 2 to the power of the bits of a word, and an index
    beyond them has no word. *)
Theorem word_lists_lookup (l : list string) (offsets : list Z) (w : words) :
  (l, offsets, w) ∈ languages ->
  zlen l = 2048 /\ len w = 2048 /\ 2 ^ bits w = 2048 /\ sorted w = is_sorted (map bytes_of l) /\
  (forall i x, l !! i = Some x ->
    offsets !! i = Some (zlen (cstrings (take i l))) /\ wordlist_lookup_index w (Z.of_nat i) = Some (bytes_of x) /\
    wordlist_lookup_word w (bytes_of x) = Ret (Z.of_nat i + 1)) /\
  (forall i, 2048 <= i -> wordlist_lookup_index w i = None) /\
  (forall word, Forall (fun c => c <> 0) word -> word ∉ map bytes_of l -> wordlist_lookup_word w word = Ret 0).
Proof.
  intros Hin. destruct (proj1 (list.Forall_forall _ _) language_facts _ Hin) as (Ho & Hi & Hw & Hb & Hs). destruct Hw as [Hl _ Hp Hd Hc].
  assert (len w = 2048) as H2 by (by rewrite Hp, Hb). assert (zlen l = 2048) as HL by (rewrite <- H2, Hl, Hi; unfold zlen; by rewrite length_map).
  split_and!; [done|done|by rewrite Hb|by rewrite Hs, Hi|..].
  - intros i x Hx. assert (indices w !! i = Some (bytes_of x)) as Hix by (rewrite Hi; by apply list_lookup_fmap_Some_2).
    pose proof (lookup_lt_Some _ _ _ Hx). split_and!.
    + rewrite Ho. by apply (starts_at l 0 i x).
    + unfold wordlist_lookup_index. unfold zlen in HL. rewrite (proj2 (Z.leb_gt _ _)), Nat2Z.id by lia. done.
    + apply lookup_word_found; try done. by apply (proj1 (list.Forall_forall _ _) Hc (bytes_of x)), (list_elem_of_lookup_2 _ i).
  - intros i Hge. unfold wordlist_lookup_index. by rewrite (proj2 (Z.leb_le _ _)) by lia.
  - intros word Hz Hn. apply lookup_word_absent; [done|done|by rewrite Hi].
Qed.

Lemma word_lists_lookup_witness :
  wordlist_lookup_word fr_words (bytes_of "amour") = Ret 97 /\ fr_i !! 96%nat = Some 776 /\ wordlist_lookup_word en_words (bytes_of "amour") = Ret 0.
Proof.
  destruct (word_lists_lookup fr_list fr_i fr_words) as (_ & _ & _ & _ & H & _); [do 2 right; left|].
  destruct (word_lists_lookup en_list en_i en_words) as (_ & _ & _ & _ & _ & _ & H2); [left|].
  destruct (H 96%nat "amour") as (H3 & _ & H4); [by vm_compute|]. split; [exact H4|]. split; [rewrite H3; by vm_compute|].
  apply H2; [apply (bool_decide_unpack _); by vm_compute|]. apply (bool_decide_unpack _). by vm_compute.
Defined.

End Checks.
