(* ===== verification/Bip39.v ===== *)
(** * Mnemonic phrases (BIP39)

    Models src/src/ptp_wallet/bip39.cpp (entropy as a checksummed mnemonic, and
    the seed of a mnemonic), MnemonicHelper.cpp, [split_string] of utils.cpp
    and the hexadecimal functions of ptp_toolbox/data/utils.cpp.  Pointers that
    every caller takes from an array ([bytes], [mnemonic], the outputs) are not
    null; [w], [lang] and [password] may be.  [alloc] says whether [malloc]
    succeeds. *)

From S2P Require Import Prelude Words Helpers Hash Sha2 Hmac WordList WordLists.

Module bip39.
Import word_list mnemonic.

Definition BIP39_ENTROPY_LEN_MAX : Z := 42.

Definition lookup : list (list Z * words) :=
  [(bytes_of "en", en_words); (bytes_of "es", es_words); (bytes_of "fr", fr_words); (bytes_of "it", it_words);
   (bytes_of "jp", jp_words); (bytes_of "zhs", zhs_words); (bytes_of "zht", zht_words)].

Definition bip39_get_languages_size : Z := zlen lookup.

(** The languages, as they are put in a vector of that size. *)
Definition bip39_get_languages : list (list Z) * Z := (map fst lookup, bip39_get_languages_size).

Fixpoint find_lang (l : list (list Z * words)) (lang : list Z) : option words :=
  match l with
  | [] => None
  | (name, w) :: l => match strcmp lang name with Eq => Some w | _ => find_lang l lang end
  end.

(** English when the language is not found. *)
Definition bip39_get_wordlist (lang : option (list Z)) : words :=
  match lang with
  | None => en_words
  | Some lang => default en_words (find_lang lookup lang)
  end.

(** The result and [output], which keeps its value when there is no word. *)
Definition bip39_get_word (w : option words) (idx : Z) (output : list Z) : Z * list Z :=
  match wordlist_lookup_index (default en_words w) idx with
  | None => (MINTER_EINVAL, output)
  | Some word => (if zlen word =? 0 then MINTER_ENOMEM else MINTER_OK, word)
  end.

Definition len_to_mask (len : Z) : Z :=
  if len =? 16 then 0xf0
  else if len =? 20 then 0xf8
  else if len =? 24 then 0xfc
  else if len =? 28 then 0xfe
  else if len =? 32 then 0xff
  else if len =? 36 then 0x80ff
  else if len =? 40 then 0xC0ff
  else 0.

Definition bip39_checksum (bytes : list Z) (bytes_len mask : Z) : outcome Z :=
  ctx ← sha256_Update sha256_Init bytes bytes_len;
  '(_, out) ← sha256_Final ctx;
  o0 ← mem_get out 0;
  o1 ← mem_get out 1;
  Ret (Z.land (Z.lor o0 (Z.shiftl o1 8)) mask).

(** The result and [*output]; [tmp_bytes] is not initialised. *)
Definition bip39_mnemonic_from_bytes (junk : nat -> Z) (alloc : bool) (w : option words)
    (bytes : list Z) (bytes_len : Z) : outcome (Z * option (list Z)) :=
  if bytes_len =? 0 then Ret (MINTER_EINVAL, None) else
  let w := default en_words w in
  let mask := len_to_mask bytes_len in
  if negb (bits w =? 11) || (mask =? 0) then Ret (MINTER_EINVAL, None) else
  let tmp_bytes := realloc junk [] BIP39_ENTROPY_LEN_MAX in
  data ← mem_read bytes 0 bytes_len;
  tmp_bytes ← mem_write tmp_bytes 0 data;
  checksum ← bip39_checksum bytes bytes_len mask;
  tmp_bytes ← mem_write tmp_bytes bytes_len [u8 (Z.land checksum 0xFF)];
  '(tmp_bytes, bytes_len) ←
    (if 0xFF <? mask then
       tmp_bytes ← mem_write tmp_bytes (bytes_len + 1) [u8 (Z.land (Z.shiftr checksum 8) 0xFF)];
       Ret (tmp_bytes, bytes_len + 1)
     else Ret (tmp_bytes, bytes_len));
  output ← mnemonic_from_bytes alloc w tmp_bytes (bytes_len + 1);
  Ret (match output with Some _ => MINTER_OK | None => MINTER_ENOMEM end, output).

Definition checksum_ok (bytes : list Z) (idx mask : Z) : outcome bool :=
  calculated ← bip39_checksum bytes idx mask;
  stored ← mem_get bytes idx;
  stored ←
    (if 0xff <? mask then b ← mem_get bytes (idx + 1); Ret (Z.lor stored (Z.shiftl b 8)) else Ret stored);
  Ret (Z.land stored mask =? calculated).

(** The result, [bytes_out] and [*written].  [tmp_len] is unsigned. *)
Definition bip39_mnemonic_to_bytes (alloc : bool) (w : option words) (mnemonic : list Z)
    (bytes_out : list Z) (len : Z) : outcome (Z * list Z * Z) :=
  let w := default en_words w in
  let tmp_bytes := replicate (Z.to_nat BIP39_ENTROPY_LEN_MAX) 0 in
  if negb (bits w =? 11) then Ret (MINTER_EINVAL, bytes_out, 0) else
  '(ret, tmp_bytes, tmp_len) ← mnemonic_to_bytes alloc w mnemonic tmp_bytes BIP39_ENTROPY_LEN_MAX;
  if negb (ret =? 0) then Ret (ret, bytes_out, 0) else
  let tmp_len := u64 (tmp_len - 1) in
  let tmp_len := if 32 <? tmp_len then tmp_len - 1 else tmp_len in
  if zlen tmp_bytes <? tmp_len then Ret (MINTER_EINVAL, bytes_out, 0) else
  if tmp_len <=? len then
    let mask := len_to_mask tmp_len in
    ok ← (if mask =? 0 then Ret false else checksum_ok tmp_bytes tmp_len mask);
    if (ok : bool) then
      data ← mem_read tmp_bytes 0 tmp_len;
      bytes_out ← mem_write bytes_out 0 data;
      Ret (MINTER_OK, bytes_out, tmp_len)
    else Ret (MINTER_EINVAL, bytes_out, 0)
  else Ret (MINTER_OK, bytes_out, tmp_len).

Definition bip39_mnemonic_validate (junk : nat -> Z) (alloc : bool) (w : option words) (mnemonicWords : list Z) :
    outcome Z :=
  let buf := realloc junk [] BIP39_ENTROPY_LEN_MAX in
  '(ret, _, _) ← bip39_mnemonic_to_bytes alloc w mnemonicWords buf BIP39_ENTROPY_LEN_MAX;
  Ret ret.

(** The result, [bytes_out] and [*written]; [junk] is the uninitialised part of
    the PBKDF2 context. *)
Definition bip39_mnemonic_to_seed (junk : list Z) (alloc : bool) (mnemonic : list Z) (password : option (list Z))
    (bytes_out : list Z) (len : Z) : outcome (Z * list Z * Z) :=
  let salt := bytes_of "mnemonic" ++ default [] password in
  if negb (len =? 64) then Ret (MINTER_EINVAL, bytes_out, 0) else
  if negb alloc then Ret (MINTER_ENOMEM, bytes_out, 0) else
  key ← pbkdf2_hmac_sha512 junk mnemonic (zlen mnemonic) salt (zlen salt) 2048;
  bytes_out ← mem_write bytes_out 0 key;
  Ret (1, bytes_out, 64).

End bip39.

(** ** Hexadecimal text (ptp_toolbox/data/utils.cpp) *)

Module toolbox_data.
Import Helpers.

Definition hexval (c : Z) : option Z :=
  if isdigit c then Some (c - 48)
  else if (65 <=? c) && (c <=? 70) then Some (c - 55)
  else if (97 <=? c) && (c <=? 102) then Some (c - 87)
  else None.

Fixpoint hex_value (acc : Z) (s : list Z) : Z :=
  match s with
  | c :: rest => match hexval c with Some d => hex_value (acc * 16 + d) rest | None => acc end
  | [] => acc
  end.

(** "0x" in front of a hexadecimal digit is skipped. *)
Definition skip_0x (s : list Z) : list Z :=
  match s with
  | c0 :: cx :: (c :: _) as rest =>
      if (c0 =? 48) && ((cx =? 120) || (cx =? 88)) && bool_decide (is_Some (hexval c)) then rest else s
  | _ => s
  end.

(** [strtol(s, nullptr, 16)] of two characters, which cannot overflow. *)
Definition strtol16 (s : list Z) : Z :=
  match skip_spaces s with
  | 45 :: rest => - hex_value 0 (skip_0x rest)
  | 43 :: rest => hex_value 0 (skip_0x rest)
  | rest => hex_value 0 (skip_0x rest)
  end.

(** Two characters a round; the last byte may have one. *)
Fixpoint hex_to_bytes (hex : list Z) : list Z :=
  match hex with
  | a :: b :: rest => u8 (strtol16 (c_str [a; b])) :: hex_to_bytes rest
  | [a] => [u8 (strtol16 (c_str [a]))]
  | [] => []
  end.

Definition bytes_to_hex (data : list Z) (len : Z) : outcome (list Z) :=
  bs ← mem_read data 0 len;
  Ret ([48; 120] ++ concat (map hex_byte bs)).

End toolbox_data.

(** ** MnemonicHelper *)

(** [split_string] of utils.cpp: [find] for each occurrence of the delimiter;
    an empty delimiter is found again and again. *)
Fixpoint starts_with (d s : list Z) : bool :=
  match d, s with
  | [], _ => true
  | _, [] => false
  | x :: d, y :: s => (x =? y) && starts_with d s
  end.

(** The text before the first occurrence of [d], and the text after it. *)
Fixpoint find (d s : list Z) : option (list Z * list Z) :=
  if starts_with d s then Some ([], drop (length d) s)
  else match s with
       | [] => None
       | c :: s => match find d s with Some (a, b) => Some (c :: a, b) | None => None end
       end.

Fixpoint split_loop (fuel : nat) (s d : list Z) : outcome (list (list Z)) :=
  match fuel with
  | O => NoFuel
  | S fuel =>
      match find d s with
      | None => Ret [s]
      | Some (token, rest) => res ← split_loop fuel rest d; Ret (token :: res)
      end
  end.

Definition split_string (s delimiter : list Z) : outcome (list (list Z)) :=
  split_loop (S (length s)) s delimiter.

Module MnemonicHelper.
Import bip39 toolbox_data.

Inductive MnemonicStatus := Ok | UnsupportedEntropy | UnknownError.

Record MnemonicResult := mkResult {
  status : MnemonicStatus;
  words_ : list (list Z);
  raw : list Z;
  len_ : Z;
}.

Definition getLanguages : list (list Z) := fst bip39_get_languages.

Definition getWordsFromLanguage (lang : option (list Z)) : list (list Z) :=
  let wl := bip39_get_wordlist lang in ztake (len wl) (indices wl).

Definition validateEntropy (entropy : Z) : bool := bool_decide (entropy ∈ [16; 20; 24; 28; 32; 36; 40]).

Definition entropyToMnemonic (junk : nat -> Z) (alloc : bool) (entropyBytes : list Z) (lang : option (list Z))
    (entropyLen : Z) : outcome MnemonicResult :=
  if negb (validateEntropy entropyLen) then Ret (mkResult UnsupportedEntropy [] [] 0) else
  let wordList := bip39_get_wordlist lang in
  '(r, output) ← bip39_mnemonic_from_bytes junk alloc (Some wordList) entropyBytes entropyLen;
  if negb (r =? MINTER_OK) then Ret (mkResult UnknownError [] [] 0) else
  match output with
  | None => UB
  | Some s => ws ← split_string s [32]; Ret (mkResult Ok ws s (zlen ws))
  end.

(** [encodeBytes] has the same body after an assertion. *)
Definition encodeBytes (junk : nat -> Z) (alloc : bool) (src : list Z) (lang : option (list Z)) (entropy_len : Z) :
    outcome MnemonicResult :=
  cassert (16 =? entropy_len) "BIP39_ENTROPY_LEN_128 == entropy_len";;
  entropyToMnemonic junk alloc src lang entropy_len.

(** [rand] is what [RAND_bytes] leaves in the buffer. *)
Definition generate (junk : nat -> Z) (alloc : bool) (rand : list Z) (lang : option (list Z)) (entropy_len : Z) :
    outcome MnemonicResult :=
  cassert (16 =? entropy_len) "BIP39_ENTROPY_LEN_128 == entropy_len";;
  encodeBytes junk alloc rand lang entropy_len.

(** The language given is only printed. *)
Definition entropyHexToMnemonic (junk : nat -> Z) (alloc : bool) (entropyHex : list Z) (lang : list Z) :
    outcome MnemonicResult :=
  let entropyBytes := hex_to_bytes (c_str entropyHex) in
  entropyToMnemonic junk alloc entropyBytes (Some (bytes_of "en")) 16.

(** The number of bytes and [mnemonicBytesOut]. *)
Definition decodeMnemonic (alloc : bool) (mnemonicWords : list Z) (lang : option (list Z))
    (mnemonicBytesOut : list Z) (entropyLen : Z) : outcome (Z * list Z) :=
  let wordList := bip39_get_wordlist lang in
  if negb (validateEntropy entropyLen) then Ret (0, mnemonicBytesOut) else
  '(_, out, written) ← bip39_mnemonic_to_bytes alloc (Some wordList) mnemonicWords mnemonicBytesOut entropyLen;
  Ret (written, out).

Definition mnemonicWordsToEntropy := decodeMnemonic.

Definition wordsToSeed (junk : list Z) (alloc : bool) (words : list Z) (out64 : list Z) : outcome (list Z * Z) :=
  '(_, out, written) ← bip39_mnemonic_to_seed junk alloc words None out64 64;
  Ret (out, written).

Definition validateWords (junk : nat -> Z) (alloc : bool) (lang : option (list Z)) (mnemonicWords : list Z) :
    outcome bool :=
  r ← bip39_mnemonic_validate junk alloc (Some (bip39_get_wordlist lang)) mnemonicWords;
  Ret (r =? MINTER_OK).

End MnemonicHelper.

(** ** The checksum *)

Section Checksum.
Import word_list mnemonic bip39.

(** The checksum of BIP39: the leading bits of the SHA-256 digest. *)
Definition csum (data : list Z) (mask : Z) : Z :=
  let h := hash sha256 data in Z.land (Z.lor (nth 0 h 0) (Z.shiftl (nth 1 h 0) 8)) mask.

Lemma checksum_hash data post mask :
  bytes_ok data -> bip39_checksum (data ++ post) (zlen data) mask = Ret (csum data mask).
Proof.
  intros Hd. unfold bip39_checksum.
  destruct (Update_absorbed (A := sha256) sha256_Init [] data post) as (c & Hu & Hc);
    [apply at_block_absorbed, Init_at_block|done|].
  unfold sha256_Update. rewrite Hu. mstep. unfold sha256_Final.
  destruct (Final_hash (A := sha256) c _ Hc) as [c' ->]. mstep. pose proof (sha256_digest_len data) as Hl.
  rewrite !mem_get_nth by (unfold zlen; cbn [app]; lia). by mstep.
Qed.

Lemma csum_masked data mask i :
  Z.testbit (csum data mask) i && Z.testbit mask i = Z.testbit (csum data mask) i.
Proof. unfold csum. cbv zeta. by rewrite Z.land_spec, <- andb_assoc, andb_diag. Qed.

(** The bytes that carry the checksum behind [L] bytes of entropy, and the
    number of words they make. *)
Definition csum_bytes (c mask : Z) : list Z :=
  u8 (Z.land c 0xFF) :: (if 0xFF <? mask then [u8 (Z.land (Z.shiftr c 8) 0xFF)] else []).

Definition coded_len (L : Z) : Z := L + zlen (csum_bytes 0 (len_to_mask L)).

Definition word_count (L : Z) : Z := coded_len L * 8 / 11.

Definition entropy_lens : list Z := [16; 20; 24; 28; 32; 36; 40].

Lemma mask_lens L : len_to_mask L <> 0 -> L ∈ entropy_lens.
Proof.
  unfold len_to_mask, entropy_lens. intros H.
  repeat match type of H with context [?a =? ?b] => destruct (Z.eqb_spec a b); [subst; set_solver|] end. done.
Qed.

(** The mask keeps the bits of the checksum that the words carry. *)
Definition mask_fits (L : Z) : bool :=
  let m := word_count L in let k := len_to_mask L in
  forallb (fun i => Bool.eqb (Z.testbit k i) (8 * L + 7 - i <? 11 * m)) [0; 1; 2; 3; 4; 5; 6; 7] &&
  forallb (fun i => Bool.eqb (Z.testbit k i) ((255 <? k) && (8 * L + 23 - i <? 11 * m))) [8; 9; 10; 11; 12; 13; 14; 15] &&
  bool_decide ((11 * m + 7) / 8 = coded_len L /\ 11 * m <= 8 * coded_len L /\ 0 < m /\ 8 * L <= 11 * m /\
    coded_len L <= 42 /\ 0 <= L /\ 0 <= k < 2 ^ 16 /\ k <> 0).

Lemma masks_fit L : L ∈ entropy_lens -> mask_fits L = true.
Proof.
  intros H. apply (proj1 (forallb_forall mask_fits entropy_lens)); [by vm_compute|]. by apply list_elem_of_In.
Qed.

Lemma nth_bits l j i : 0 <= j -> 0 <= i < 8 -> Z.testbit (nth (Z.to_nat j) l 0) i = bitat l (8 * j + 7 - i).
Proof.
  intros Hj Hi. unfold bitat.
  assert ((8 * j + 7 - i) / 8 = j) as -> by (Z.div_mod_to_equations; lia).
  f_equal. Z.div_mod_to_equations. lia.
Qed.

(** Blocks of bytes with the same bits. *)
Lemma bits_eq l1 : forall l2, bytes_ok l1 -> bytes_ok l2 -> zlen l1 = zlen l2 ->
  (forall q, 0 <= q < 8 * zlen l1 -> bitat l1 q = bitat l2 q) -> l1 = l2.
Proof.
  intros l2 H1 H2 Hl Hq. apply (nth_ext _ _ 0 0); [unfold zlen in Hl; lia|]. intros n Hn.
  assert (is_u 8 (nth n l1 0) /\ is_u 8 (nth n l2 0)) as [Hu1 Hu2].
  { split; apply Forall_nth; try done; unfold zlen in Hl; lia. }
  apply Z.bits_inj'. intros i Hi. destruct (decide (i < 8)).
  - rewrite <- (Nat2Z.id n), !nth_bits by lia. apply Hq. unfold zlen. lia.
  - by rewrite !(testbit_high 8) by (done || lia).
Qed.
Lemma fit L :
  L ∈ entropy_lens -> let m := word_count L in let k := len_to_mask L in
  (forall i, 0 <= i < 8 -> Z.testbit k i = (8 * L + 7 - i <? 11 * m)) /\
  (forall i, 8 <= i < 16 -> Z.testbit k i = (255 <? k) && (8 * L + 23 - i <? 11 * m)) /\
  (11 * m + 7) / 8 = coded_len L /\ 11 * m <= 8 * coded_len L /\ 0 < m /\ 8 * L <= 11 * m /\
  coded_len L <= 42 /\ 0 <= L /\ 0 <= k < 2 ^ 16 /\ k <> 0.
Proof.
  intros H. apply masks_fit in H. apply andb_true_iff in H as [H Hn]. apply andb_true_iff in H as [Hl Hh].
  apply bool_decide_eq_true in Hn. cbv zeta. split_and!; try apply Hn.
  - intros i Hi. apply eqb_prop. apply (proj1 (forallb_forall _ _) Hl). cbn. lia.
  - intros i Hi. apply eqb_prop. apply (proj1 (forallb_forall _ _) Hh). cbn. lia.
Qed.

Lemma zlen_csum_bytes c mask : zlen (csum_bytes c mask) = zlen (csum_bytes 0 mask).
Proof. unfold csum_bytes. by destruct (255 <? mask). Qed.

(** The checksum as it is stored behind [L] bytes. *)
Definition stored (l : list Z) (L mask : Z) : Z :=
  if 0xff <? mask then Z.lor (nth (Z.to_nat L) l 0) (Z.shiftl (nth (Z.to_nat (L + 1)) l 0) 8)
  else nth (Z.to_nat L) l 0.

Lemma nth_byte l n : bytes_ok l -> is_u 8 (nth n l 0).
Proof.
  intros H. rewrite nth_lookup. destruct (l !! n) eqn:E; [by eapply Forall_lookup_1|by vm_compute].
Qed.

Lemma stored_low l L mask i :
  0 <= L -> 0 <= i < 8 -> Z.testbit (stored l L mask) i = bitat l (8 * L + 7 - i).
Proof.
  intros HL Hi. unfold stored. case_match; rewrite ?Z.lor_spec, ?Z.shiftl_spec_low by lia;
    by rewrite ?orb_false_r, nth_bits.
Qed.

Lemma stored_high l L mask i :
  bytes_ok l -> 0 <= L -> 8 <= i < 16 ->
  Z.testbit (stored l L mask) i = (0xff <? mask) && bitat l (8 * L + 23 - i).
Proof.
  intros Hok HL Hi. pose proof (nth_byte l (Z.to_nat L) Hok) as Hu. unfold stored.
  case_match; cbn [andb]; rewrite ?Z.lor_spec, (testbit_high 8) by (done || lia); [|done].
  rewrite Z.shiftl_spec, nth_bits by lia. cbn [orb]. f_equal. lia.
Qed.

Lemma checksum_ok_spec (l : list Z) L mask :
  bytes_ok l -> 0 <= L -> L + zlen (csum_bytes 0 mask) <= zlen l ->
  checksum_ok l L mask = Ret (Z.land (stored l L mask) mask =? csum (ztake L l) mask).
Proof.
  intros Hok HL Hl. unfold checksum_ok, csum_bytes in *.
  pose proof (checksum_hash (ztake L l) (zdrop L l) mask (Forall_take _ _ _ Hok)) as E.
  rewrite ztake_zdrop in E. replace (zlen (ztake L l)) with L in E by (case_match; zlia).
  rewrite E. mstep. unfold stored.
  destruct (0xff <? mask); rewrite ?zlen_cons in Hl; change (zlen (@nil Z)) with 0 in Hl;
    rewrite !mem_get_nth by lia; by mstep.
Qed.

(** Sixteen bits decide the equality of checksums. *)
Lemma eq_bits16 a b :
  is_u 16 a -> is_u 16 b -> (forall i, 0 <= i < 8 -> Z.testbit a i = Z.testbit b i) ->
  (forall i, 8 <= i < 16 -> Z.testbit a i = Z.testbit b i) -> a = b.
Proof.
  intros Ha Hb Hl Hh. apply Z.bits_inj'. intros i Hi. destruct (decide (i < 8)); [by apply Hl|].
  destruct (decide (i < 16)); [apply Hh; lia|]. by rewrite !(testbit_high 16) by (done || lia).
Qed.

Lemma csum_is_u data mask : is_u 16 mask -> is_u 16 (csum data mask).
Proof. intros H. unfold csum. cbv zeta. rewrite Z.land_comm. apply is_u_land; [lia|done]. Qed.

(** The bits of the encoded block: the entropy, then the checksum. *)
Lemma coded_low e c mask rest i :
  0 <= i < 8 -> bitat (e ++ csum_bytes c mask ++ rest) (8 * zlen e + 7 - i) = Z.testbit c i.
Proof.
  intros Hi. rewrite <- nth_bits by (done || apply zlen_nonneg). unfold zlen. rewrite Nat2Z.id.
  rewrite app_nth2, Nat.sub_diag by lia. cbn [csum_bytes app nth].
  rewrite land_ff, !testbit_wrap_u by lia. by rewrite (proj2 (Z.ltb_lt i 8)) by lia.
Qed.

Lemma coded_high e c mask rest i :
  8 <= i < 16 -> 255 < mask ->
  bitat (e ++ csum_bytes c mask ++ rest) (8 * zlen e + 23 - i) = Z.testbit c i.
Proof.
  intros Hi Hm. replace (8 * zlen e + 23 - i) with (8 * (zlen e + 1) + 7 - (i - 8)) by lia.
  rewrite <- nth_bits by (lia || (pose proof (zlen_nonneg e); lia)).
  replace (Z.to_nat (zlen e + 1)) with (length e + 1)%nat by (unfold zlen; lia).
  rewrite app_nth2 by lia. replace (length e + 1 - length e)%nat with 1%nat by lia.
  unfold csum_bytes. rewrite (proj2 (Z.ltb_lt 255 mask)) by done. cbn [app nth].
  rewrite land_ff, !testbit_wrap_u, Z.shiftr_spec by lia. rewrite (proj2 (Z.ltb_lt (i - 8) 8)) by lia.
  cbn [andb]. f_equal. lia.
Qed.

Lemma bitat_app_l l1 l2 q : 0 <= q < 8 * zlen l1 -> bitat (l1 ++ l2) q = bitat l1 q.
Proof.
  intros Hq. unfold bitat. rewrite app_nth1; [done|]. unfold zlen in Hq. Z.div_mod_to_equations. lia.
Qed.

(** ** Encoding and decoding *)

Lemma from_bytes_coded junk w e post :
  bits w = 11 -> bytes_ok e -> zlen e ∈ entropy_lens ->
  let L := zlen e in let k := len_to_mask L in
  exists rest, let tmp := e ++ csum_bytes (csum e k) k ++ rest in zlen tmp = 42 /\
    bip39_mnemonic_from_bytes junk true (Some w) (e ++ post) L =
      (output ← mnemonic_from_bytes true w tmp (coded_len L);
       Ret (match output with Some _ => MINTER_OK | None => MINTER_ENOMEM end, output)).
Proof.
  intros Hb He HL L k. destruct (fit L HL) as (_ & _ & _ & _ & _ & _ & H42 & H0 & Hk & Hk0). fold k in Hk, Hk0.
  assert (0 < L) as HLp by (unfold entropy_lens in HL; set_unfold in HL; lia).
  unfold bip39_mnemonic_from_bytes. rewrite (proj2 (Z.eqb_neq L 0)) by lia. cbn [default from_option id].
  rewrite Hb. fold k. rewrite (proj2 (Z.eqb_neq k 0)) by done. cbn [Z.eqb negb orb].
  set (t := realloc junk [] BIP39_ENTROPY_LEN_MAX).
  assert (zlen t = 42) as Ht by (unfold t, BIP39_ENTROPY_LEN_MAX; rewrite zlen_realloc by lia; done).
  unfold L at 1. rewrite mem_read_ok by zlia. mstep. rewrite zdrop_0, ztake_app_exact by done.
  unfold coded_len in H42. fold k in H42. pose proof (zlen_nonneg (csum_bytes 0 k)) as Hcb.
  rewrite mem_write_ok by (fold L; zlia). mstep. rewrite ztake_0, Z.add_0_l. fold L. cbn [app].
  assert (bip39_checksum (e ++ post) L k = Ret (csum e k)) as -> by by apply checksum_hash.
  mstep. set (c := csum e k). unfold coded_len. fold k.
  assert (zlen (zdrop L t) = 42 - L) as Hd by zlia. destruct (zdrop L t) as [|x0 d]; [exfalso; unfold csum_bytes in H42; zlia|].
  rewrite (mem_write_app e [x0] d) by done. mstep. rewrite zlen_cons in Hd. unfold csum_bytes in *.
  destruct (255 <? k); rewrite ?zlen_cons in *; change (zlen (@nil Z)) with 0 in *.
  - destruct d as [|x1 d]; [exfalso; zlia|]. exists d. split; [rewrite zlen_cons in Hd; zlia|].
    change (e ++ [?a] ++ x1 :: d) with (e ++ [a] ++ [x1] ++ d).
    rewrite (app_assoc e [_]), (mem_write_app (e ++ [_]) [x1] d) by (done || zlia). mstep.
    rewrite <- app_assoc. cbn [app]. by replace (L + 1 + 1) with (L + (1 + (1 + 0))) by lia.
  - exists d. split; [zlia|]. mstep. done.
Qed.
(** Decoding a block of bits that the words gave: it is accepted when its
    checksum is right. *)
Lemma to_bytes_decoded w s out len tmp L :
  bits w = 11 -> L ∈ entropy_lens -> zlen tmp = 42 -> bytes_ok tmp -> L <= len -> L <= zlen out ->
  mnemonic_to_bytes true w s (replicate 42 0) 42 = Ret (MINTER_OK, tmp, coded_len L) ->
  bip39_mnemonic_to_bytes true (Some w) s out len =
    if Z.land (stored tmp L (len_to_mask L)) (len_to_mask L) =? csum (ztake L tmp) (len_to_mask L)
    then Ret (MINTER_OK, ztake L tmp ++ zdrop L out, L) else Ret (MINTER_EINVAL, out, 0).
Proof.
  intros Hb HL Ht Hok Hlen Hout Hm. destruct (fit L HL) as (_ & _ & _ & _ & _ & _ & H42 & H0 & Hk & Hk0).
  unfold bip39_mnemonic_to_bytes. cbn [default from_option id]. rewrite Hb. cbn [Z.eqb Pos.eqb negb].
  change (Z.to_nat BIP39_ENTROPY_LEN_MAX) with 42%nat. unfold BIP39_ENTROPY_LEN_MAX. rewrite Hm. mstep.
  change (negb (MINTER_OK =? 0)) with false. cbv iota.
  assert ((if 32 <? u64 (coded_len L - 1) then u64 (coded_len L - 1) - 1 else u64 (coded_len L - 1)) = L) as ->.
  { clear -HL. revert L HL. apply list.Forall_forall. apply (bool_decide_unpack _). by vm_compute. }
  assert (L <= 42) as HL42.
  { unfold coded_len in H42. pose proof (zlen_nonneg (csum_bytes 0 (len_to_mask L))). lia. }
  rewrite (proj2 (Z.ltb_ge (zlen tmp) L)), (proj2 (Z.leb_le L len)) by lia. cbv zeta.
  rewrite (proj2 (Z.eqb_neq (len_to_mask L) 0)) by done.
  rewrite checksum_ok_spec by (done || (unfold coded_len in H42; lia)). mstep.
  case_match; [|done]. rewrite mem_read_ok by lia. mstep. rewrite zdrop_0.
  assert (zlen (ztake L tmp) = L) as HLt by zlia.
  rewrite mem_write_ok by lia. mstep. by rewrite HLt, ztake_0, Z.add_0_l.
Qed.

(** What the encoder writes is decoded to the entropy. *)
Lemma bip39_there_and_back junk w e post out len :
  words_ok w -> bits w = 11 -> bytes_ok e -> zlen e ∈ entropy_lens -> zlen e <= len -> zlen e <= zlen out ->
  exists xs,
    bip39_mnemonic_from_bytes junk true (Some w) (e ++ post) (zlen e) = Ret (MINTER_OK, Some (join xs)) /\
    zlen xs = word_count (zlen e) /\ Forall no_space xs /\ Forall (fun x => x ∈ indices w) xs /\
    bip39_mnemonic_to_bytes true (Some w) (join xs) out len = Ret (MINTER_OK, e ++ zdrop (zlen e) out, zlen e).
Proof.
  intros Hw Hb He HL Hlen Hout.
  destruct (from_bytes_coded junk w e post Hb He HL) as (rest & H42 & ->). set (L := zlen e) in *.
  set (k := len_to_mask L) in *. set (c := csum e k) in *. set (tmp := e ++ _) in *.
  destruct (fit L HL) as (Hlo & Hhi & Hneed & H11 & Hm & H8 & Hc42 & H0 & Hk & Hk0). fold k in Hlo, Hhi, Hk, Hk0.
  destruct (mnemonic_bits w tmp (coded_len L) (replicate 42 0) (word_count L)) as
    (xs & t & -> & Hxs & Hns & Hin & Hdec & Hlt & Hokt & Hbt); try done.
  { split; [|lia]. unfold coded_len. pose proof (zlen_nonneg (csum_bytes 0 (len_to_mask L))). lia. }
  { unfold word_count. by rewrite Hb. }
  { split; [done|]. lia. }
  { rewrite Hb, Z.mul_comm, Hneed. done. }
  mstep. exists xs. split_and!; [done..|]. rewrite Hb in Hbt, Hdec.
  rewrite (Z.mul_comm _ 11), Hneed in Hdec. change (zlen (replicate 42 0)) with 42 in *.
  assert (ztake L t = e) as HLe.
  { apply bits_eq; [by apply Forall_take|done|zlia|]. intros q Hq.
    assert (zlen (ztake L t) = L) as HLt by zlia. rewrite HLt in Hq.
    rewrite <- (bitat_app_l (ztake L t) (zdrop L t)), ztake_zdrop, Hbt, bool_decide_eq_true_2 by lia.
    cbn [andb]. apply bitat_app_l. fold L. lia. }
  rewrite (to_bytes_decoded w _ _ _ t L) by done. fold k. rewrite HLe. fold c.
  rewrite (proj2 (Z.eqb_eq _ _)); [done|].
  assert (forall i, Z.testbit c i && Z.testbit k i = Z.testbit c i) as Hcm by (intros; apply csum_masked).
  apply eq_bits16; [rewrite Z.land_comm; by apply is_u_land|by apply csum_is_u|..]; intros i Hi;
    rewrite Z.land_spec, <- (Hcm i).
  - rewrite stored_low, Hbt by lia. unfold tmp, L. rewrite coded_low by done. fold L. rewrite Hlo by done.
    destruct (Z.ltb_spec (8 * L + 7 - i) (11 * word_count L)).
    + by rewrite bool_decide_eq_true_2 by lia.
    + by rewrite !andb_false_r.
  - rewrite stored_high, Hbt, Hhi by (done || lia).
    destruct (Z.ltb_spec 255 k); cbn [andb]; [|by rewrite andb_false_r].
    unfold tmp, L. rewrite coded_high by done. fold L.
    destruct (Z.ltb_spec (8 * L + 23 - i) (11 * word_count L)).
    + by rewrite bool_decide_eq_true_2 by lia.
    + by rewrite !andb_false_r.
Qed.


(** The length decoding takes from a number of words, for those that fit. *)
Definition decoded_len (z : Z) : Z :=
  let t := (z * 11 + 7) / 8 - 1 in if 32 <? t then t - 1 else t.

Lemma decoded_lens z :
  0 < z -> (z * 11 + 7) / 8 <= 42 ->
  decoded_len z <= 42 /\
  (len_to_mask (decoded_len z) <> 0 ->
   word_count (decoded_len z) = z /\ (z * 11 + 7) / 8 = coded_len (decoded_len z)).
Proof.
  intros H0 H42. assert (z ∈ seqZ 1 30) as Hz by (apply elem_of_seqZ; Z.div_mod_to_equations; lia).
  clear H0 H42. revert z Hz. apply list.Forall_forall. apply (bool_decide_unpack _). by vm_compute.
Qed.

(** Decoding, by the case of the number of words: the branch that is taken. *)
Lemma to_bytes_short w xs tmp :
  let z := zlen xs in
  words_ok w -> bits w = 11 -> xs <> [] -> Forall no_space xs -> (z * 11 + 7) / 8 <= 42 ->
  store_words w xs (replicate 42 0) 0 = Ret (Some tmp) ->
  mnemonic_to_bytes true w (join xs) (replicate 42 0) 42 = Ret (MINTER_OK, tmp, (z * 11 + 7) / 8).
Proof.
  intros z Hw Hb Hne Hns H42 Hst. assert (0 < z) as Hz by (destruct xs; [done|unfold z; zlia]).
  pose proof (mnemonic_to_bytes_join w xs (replicate 42 0) Hw Hne Hns) as E.
  change (zlen (replicate 42 0)) with 42 in E. change (Z.to_nat 42) with 42%nat in E.
  rewrite Hb, Hst in E. apply E; [|done]. fold z. pow2. Z.div_mod_to_equations. lia.
Qed.
(** A decoding that fits the output has a length of entropy. *)
Lemma to_bytes_accepts w s out len tmp need out' n :
  bits w = 11 -> zlen tmp = 42 -> 1 <= need < 2 ^ 64 ->
  mnemonic_to_bytes true w s (replicate 42 0) 42 = Ret (MINTER_OK, tmp, need) ->
  bip39_mnemonic_to_bytes true (Some w) s out len = Ret (MINTER_OK, out', n) -> n <= len ->
  n = (if 32 <? need - 1 then need - 2 else need - 1) /\ n <= 42 /\ n ∈ entropy_lens.
Proof.
  intros Hb Ht Hn Hm. unfold bip39_mnemonic_to_bytes. cbn [default from_option id]. rewrite Hb.
  cbn [Z.eqb Pos.eqb negb]. change (Z.to_nat BIP39_ENTROPY_LEN_MAX) with 42%nat.
  unfold BIP39_ENTROPY_LEN_MAX. rewrite Hm. mstep. change (negb (MINTER_OK =? 0)) with false. cbv iota zeta.
  rewrite (wrap_u_small 64 (need - 1)), Ht by (unfold is_u; lia).
  assert ((if 32 <? need - 1 then need - 1 - 1 else need - 1) = (if 32 <? need - 1 then need - 2 else need - 1))
    as -> by (case_match; lia). set (L := if 32 <? need - 1 then need - 2 else need - 1).
  destruct (Z.ltb_spec 42 L); [done|]. destruct (Z.leb_spec L len).
  - intros E Hlen. destruct (Z.eqb_spec (len_to_mask L) 0) as [E0|Hk]; cbn [mbind outcome_bind] in E; [done|].
    assert (n = L) as ->; [|by split_and!; [done|lia|apply mask_lens]].
    destruct (checksum_ok _ _ _) as [[]| | |]; cbn [mbind outcome_bind] in E; try done.
    destruct (mem_read _ _ _); cbn [mbind outcome_bind] in E; try done. destruct (mem_write _ _ _); cbn [mbind outcome_bind] in E; try done.
    by injection E.
  - intros [= _ <-] ?. lia.
Qed.

(** A decoding that fits the output comes from words of the list whose bits
    carry the right checksum. *)
Lemma to_bytes_inv w xs out len out' n :
  words_ok w -> bits w = 11 -> xs <> [] -> Forall no_space xs -> Forall (Forall (fun c => c <> 0)) xs ->
  zlen xs < 2 ^ 60 -> len <= zlen out ->
  bip39_mnemonic_to_bytes true (Some w) (join xs) out len = Ret (MINTER_OK, out', n) -> n <= len ->
  n ∈ entropy_lens /\ word_count n = zlen xs /\
  exists tmp, zlen tmp = 42 /\ bytes_ok tmp /\
    Z.land (stored tmp n (len_to_mask n)) (len_to_mask n) = csum (ztake n tmp) (len_to_mask n) /\
    out' = ztake n tmp ++ zdrop n out /\
    forall bytes, zlen xs * 11 <= 8 * zlen bytes ->
      (forall q, 0 <= q < zlen xs * 11 -> bitat bytes q = bitat tmp q) ->
      words_from w bytes (length xs) 0 = Ret xs.
Proof.
  intros Hw Hb Hne Hns Hz Hl Hlen HE Hn. set (z := zlen xs) in *.
  assert (0 < z) as Hz0 by (destruct xs; [done|unfold z; zlia]).
  set (zs := replicate 42 0). assert (zlen zs = 42) as Hzs by done.
  destruct (decide ((z * 11 + 7) / 8 <= 42)) as [H42|H42].
  2: { exfalso. pose proof (mnemonic_to_bytes_long w xs zs Hw Hne Hns) as E. rewrite Hzs, Hb in E. fold z in E.
    eapply to_bytes_accepts in HE as (HL & H & Hin); [|done|done| |apply E; lia|done];
      [|pow2; Z.div_mod_to_equations; lia].
    rewrite (proj2 (Z.ltb_lt _ _)) in HL by lia. unfold entropy_lens in Hin. set_unfold in Hin. lia. }
  destruct (decoded_lens z Hz0 H42) as [HL42 Hdec].
  destruct (store_words_spec w xs 0 zs) as [[Hst _]|(tmp & Hst & _ & Hlt & Hok & _ & Hread)]; [done|done|lia| | | |].
  { rewrite Hzs, Hb. fold z. Z.div_mod_to_equations. lia. }
  { intros. apply bitat_zeros. }
  { exfalso. pose proof (mnemonic_to_bytes_join w xs zs Hw Hne Hns) as E.
    rewrite Hzs, Hb in E. fold z in E. change (Z.to_nat 42) with 42%nat in E. fold zs in E. rewrite Hst in E.
    unfold bip39_mnemonic_to_bytes in HE. cbn [default from_option id] in HE. rewrite Hb in HE.
    change (replicate (Z.to_nat BIP39_ENTROPY_LEN_MAX) 0) with zs in HE. unfold BIP39_ENTROPY_LEN_MAX in HE.
    rewrite E in HE by lia. cbn [mbind outcome_bind] in HE. done. }
  pose proof (to_bytes_short w xs tmp Hw Hb Hne Hns H42 Hst) as Hm. fold z in Hm.
  destruct (to_bytes_accepts w _ _ _ tmp ((z * 11 + 7) / 8) _ _ Hb ltac:(lia) ltac:(pow2; Z.div_mod_to_equations; lia) Hm HE Hn)
    as (HnL & _ & Hin).
  assert (n = decoded_len z) as Hnz.
  { rewrite HnL. unfold decoded_len. cbv zeta. case_match; lia. }
  destruct (fit n Hin) as (_ & _ & _ & _ & _ & _ & _ & H0 & _ & Hk0). rewrite Hnz in Hk0.
  destruct (Hdec Hk0) as [Hwc Hcl]. rewrite <- Hnz in Hwc, Hcl. split; [done|]. split; [done|].
  exists tmp. assert (bytes_ok tmp) as Hokt by (apply Hok, Forall_replicate; by vm_compute).
  rewrite Hcl in Hm. rewrite (to_bytes_decoded w _ _ _ tmp n) in HE by (done || lia).
  destruct (Z.eqb_spec (Z.land (stored tmp n (len_to_mask n)) (len_to_mask n)) (csum (ztake n tmp) (len_to_mask n)))
    as [Heq|]; [|done].
  injection HE as HE. split_and!; [lia|done|done|done|]. rewrite Hb, Z.add_0_l in Hread. exact Hread.
Qed.
(** The bits of a decoded block are those of the block encoded from it. *)
Lemma recoded_bits tmp rest n q :
  n ∈ entropy_lens -> zlen tmp = 42 -> bytes_ok tmp -> 0 <= q < word_count n * 11 ->
  let k := len_to_mask n in let e := ztake n tmp in
  Z.land (stored tmp n k) k = csum e k -> bitat (e ++ csum_bytes (csum e k) k ++ rest) q = bitat tmp q.
Proof.
  intros Hin Ht Hok Hq k e Hs. destruct (fit n Hin) as (Hlo & Hhi & Hneed & H11 & Hm & H8 & Hc42 & H0 & Hk & Hk0).
  fold k in Hlo, Hhi, Hk, Hk0. unfold coded_len in *. fold k in H11, Hc42.
  pose proof (zlen_nonneg (csum_bytes 0 k)) as Hcb. assert (zlen e = n) as He by (unfold e; zlia).
  rewrite <- Hs. destruct (decide (q < 8 * n)).
  { rewrite bitat_app_l by lia. pose proof (bitat_app_l e (zdrop n tmp) q ltac:(lia)) as E.
    unfold e in E. rewrite ztake_zdrop in E. done. }
  destruct (decide (q < 8 * n + 8)).
  - replace q with (8 * zlen e + 7 - (8 * n + 7 - q)) at 1 by lia.
    rewrite coded_low, Z.land_spec, stored_low, Hlo by lia.
    rewrite (proj2 (Z.ltb_lt _ _)), andb_true_r by lia. f_equal. lia.
  - assert (255 < k) as Hk255.
    { destruct (decide (255 < k)) as [|Hn]; [done|]. exfalso. unfold csum_bytes in H11.
      rewrite (proj2 (Z.ltb_ge 255 k)) in H11 by lia. rewrite zlen_cons in H11.
      change (zlen (@nil Z)) with 0 in H11. lia. }
    assert (q < 8 * n + 16) as Hq2.
    { unfold csum_bytes in H11. rewrite (proj2 (Z.ltb_lt 255 k)) in H11 by lia. rewrite !zlen_cons in H11.
      change (zlen (@nil Z)) with 0 in H11. lia. }
    replace q with (8 * zlen e + 23 - (8 * n + 23 - q)) at 1 by lia.
    rewrite coded_high, Z.land_spec, stored_high, Hhi by (done || lia).
    rewrite (proj2 (Z.ltb_lt 255 k)), (proj2 (Z.ltb_lt _ _)) by lia. cbn [andb]. rewrite andb_true_r. f_equal. lia.
Qed.

(** A decoded mnemonic is the encoding of what it was decoded to. *)
Lemma decoded_is_encoding w s out len out' n :
  words_ok w -> bits w = 11 -> Forall (fun c => c <> 0) s -> zlen s < 2 ^ 59 -> len <= zlen out ->
  bip39_mnemonic_to_bytes true (Some w) s out len = Ret (MINTER_OK, out', n) -> n <= len ->
  exists e, bytes_ok e /\ zlen e = n /\ n ∈ entropy_lens /\ out' = e ++ zdrop n out /\
    forall junk, bip39_mnemonic_from_bytes junk true (Some w) e n = Ret (MINTER_OK, Some s).
Proof.
  intros Hw Hb Hs Hl Hlen HE Hn. destruct (text_words _ s Hs) as (xs & Hne & Hns & Hnz & <-).
  pose proof (join_len xs Hne) as Hjl.
  destruct (to_bytes_inv w xs out len out' n) as (Hin & Hwc & tmp & Ht & Hok & Hsum & -> & Hread); [done..|lia|done|done|done|].
  set (e := ztake n tmp) in *. exists e.
  assert (16 <= n <= 40) as Hr by (unfold entropy_lens in Hin; set_unfold in Hin; lia).
  assert (bytes_ok e) as Hoke by by apply Forall_take. assert (zlen e = n) as Hle by (unfold e; zlia).
  split_and!; [done..|]. intros junk. rewrite <- Hle in Hin. pose proof (from_bytes_coded junk w e [] Hb Hoke Hin) as H.
  rewrite app_nil_r, Hle in H. destruct H as (rest & H42 & ->). unfold mnemonic_from_bytes.
  rewrite Hb. fold (word_count n). rewrite Hwc. replace (Z.to_nat (zlen xs)) with (length xs) by (unfold zlen; lia).
  rewrite Hle in Hin. destruct (fit n Hin) as (_ & _ & _ & H11 & _ & _ & Hc & _).
  rewrite Hread; [|rewrite H42; lia|].
  - mstep. by rewrite (proj2 (Z.ltb_lt _ _) (str_len_pos _ Hne)).
  - intros q Hq. apply recoded_bits; [done..|by rewrite Hwc|done].
Qed.

(** Decoding always ends, with a result; as many bytes are reported as fit the
    temporary buffer. *)
Lemma words_decoded w s :
  words_ok w -> bits w = 11 -> Forall (fun c => c <> 0) s -> zlen s < 2 ^ 59 ->
  exists c tmp need, mnemonic_to_bytes true w s (replicate 42 0) 42 = Ret (c, tmp, need) /\
    zlen tmp = 42 /\ bytes_ok tmp.
Proof.
  intros Hw Hb Hs Hl. destruct (text_words _ s Hs) as (xs & Hne & Hns & Hnz & <-).
  pose proof (join_len xs Hne) as Hjl. set (z := zlen xs) in *. set (zs := replicate 42 0).
  assert (0 < z) as Hz0 by (destruct xs; [done|unfold z; zlia]). assert (zlen zs = 42) as Hzs by done.
  assert (bytes_ok zs) as Hokz by (apply Forall_replicate; by vm_compute).
  destruct (decide ((z * 11 + 7) / 8 <= 42)) as [H42|H42].
  - pose proof (mnemonic_to_bytes_join w xs zs Hw Hne Hns) as E. rewrite Hzs, Hb in E. fold z in E.
    rewrite E by lia. change (replicate (Z.to_nat 42) 0) with zs.
    destruct (store_words_spec w xs 0 zs) as [[-> _]|(tmp & -> & _ & Hlt & Hok & _)]; [done|done|lia| | | |].
    + rewrite Hzs, Hb. fold z. Z.div_mod_to_equations. lia.
    + intros. apply bitat_zeros.
    + mstep. by eexists _, _, _.
    + mstep. eexists _, _, _. split; [done|]. split; [lia|auto].
  - pose proof (mnemonic_to_bytes_long w xs zs Hw Hne Hns) as E. rewrite Hzs, Hb in E. fold z in E.
    rewrite E by lia. by eexists _, _, _.
Qed.

Lemma to_bytes_total w s out len :
  words_ok w -> bits w = 11 -> Forall (fun c => c <> 0) s -> zlen s < 2 ^ 59 -> len <= zlen out ->
  exists r out' n, bip39_mnemonic_to_bytes true (Some w) s out len = Ret (r, out', n) /\ n <= 42.
Proof.
  intros Hw Hb Hs Hl Hlen. destruct (words_decoded w s Hw Hb Hs Hl) as (c & tmp & need & Hm & Ht & Hok).
  unfold bip39_mnemonic_to_bytes. cbn [default from_option id]. rewrite Hb. cbn [Z.eqb Pos.eqb negb].
  change (Z.to_nat BIP39_ENTROPY_LEN_MAX) with 42%nat. unfold BIP39_ENTROPY_LEN_MAX. rewrite Hm. mstep.
  destruct (negb (c =? 0)); [by eexists _, _, _|]. cbv zeta. set (L := if 32 <? u64 (need - 1) then _ else _).
  rewrite Ht. destruct (Z.ltb_spec 42 L) as [|HL42]; [by eexists _, _, _|].
  destruct (Z.leb_spec L len) as [HLl|]; [|by eexists _, _, _].
  destruct (Z.eqb_spec (len_to_mask L) 0) as [|Hk]; [mstep; by eexists _, _, _|].
  apply mask_lens in Hk. destruct (fit L Hk) as (_ & _ & _ & _ & _ & _ & Hc & H0 & _).
  rewrite checksum_ok_spec by (done || (unfold coded_len in Hc; lia)). mstep.
  case_match; [|by eexists _, _, _].
  rewrite mem_read_ok by lia. mstep. rewrite zdrop_0. rewrite mem_write_ok by zlia. mstep. by eexists _, _, _.
Qed.
(** What lies behind the entropy does not matter. *)
Lemma from_bytes_post j alloc w (e post : list Z) :
  bytes_ok e ->
  bip39_mnemonic_from_bytes j alloc w (e ++ post) (zlen e) = bip39_mnemonic_from_bytes j alloc w e (zlen e).
Proof.
  intros He. unfold bip39_mnemonic_from_bytes. rewrite checksum_hash by done.
  pose proof (checksum_hash e [] (len_to_mask (zlen e)) He) as E. rewrite app_nil_r in E. rewrite E.
  pose proof (zlen_nonneg e). rewrite !mem_read_ok by zlia. rewrite !zdrop_0, ztake_app_exact, (ztake_all _ e) by (done || lia).
  done.
Qed.

(** Neither does the uninitialised memory behind the encoded bytes. *)
Lemma from_bytes_junk j j' w (e : list Z) :
  bits w = 11 -> bytes_ok e -> zlen e ∈ entropy_lens ->
  bip39_mnemonic_from_bytes j true (Some w) e (zlen e) = bip39_mnemonic_from_bytes j' true (Some w) e (zlen e).
Proof.
  intros Hb He HL. pose proof (from_bytes_coded j w e [] Hb He HL) as H1.
  pose proof (from_bytes_coded j' w e [] Hb He HL) as H2. rewrite app_nil_r in H1, H2.
  destruct H1 as (r1 & _ & ->), H2 as (r2 & _ & ->). rewrite !app_assoc.
  assert (coded_len (zlen e) = zlen (e ++ csum_bytes (csum e (len_to_mask (zlen e))) (len_to_mask (zlen e)))) as ->.
  { unfold coded_len. rewrite zlen_app. f_equal. symmetry. apply zlen_csum_bytes. }
  rewrite (mnemonic_from_bytes_app true w _ r1 r2) by lia. done.
Qed.


End Checksum.

(** ** The word list of a language *)

Section Languages.
Import word_list bip39.

Lemma find_lang_in l lang w : find_lang l lang = Some w -> w ∈ map snd l.
Proof.
  induction l as [|[name x] l IH]; [done|]. cbn [find_lang map snd]. intros H.
  destruct (strcmp lang name); [injection H as <-; by left|right; by apply IH..].
Qed.

(** Every language gives one of the seven lists. *)
Lemma get_wordlist_in lang : bip39_get_wordlist lang ∈ word_lists.
Proof.
  destruct lang as [lang|]; [|by left]. unfold bip39_get_wordlist.
  destruct (find_lang lookup lang) as [w|] eqn:E; [|by left]. apply find_lang_in in E. exact E.
Qed.

Lemma get_wordlist_facts lang : list_facts (bip39_get_wordlist lang).
Proof. apply (proj1 (list.Forall_forall _ _) all_facts), get_wordlist_in. Qed.

End Languages.

(** ** Splitting *)

Section Split.
Import mnemonic.

Lemma find_space x rest : no_space x -> find [32] (x ++ 32 :: rest) = Some (x, rest).
Proof.
  induction 1 as [|c x Hc Hx IH]; [by cbn; rewrite drop_0|]. cbn [app find starts_with].
  rewrite (proj2 (Z.eqb_neq 32 c)) by done. cbn [andb]. by rewrite IH.
Qed.

Lemma find_no_space x : no_space x -> find [32] x = None.
Proof.
  induction 1 as [|c x Hc Hx IH]; [done|]. cbn [find starts_with].
  rewrite (proj2 (Z.eqb_neq 32 c)) by done. cbn [andb]. by rewrite IH.
Qed.

Lemma split_loop_join ws : forall fuel,
  ws <> [] -> Forall no_space ws -> (length ws <= fuel)%nat -> split_loop fuel (join ws) [32] = Ret ws.
Proof.
  induction ws as [|x ws IH]; [done|]. intros fuel _ HF Hf. apply Forall_cons_1 in HF as [Hx HF].
  destruct fuel as [|fuel]; [cbn in Hf; lia|]. cbn [split_loop]. destruct ws as [|y ws].
  - cbn [join]. by rewrite find_no_space.
  - change (join (x :: y :: ws)) with (x ++ 32 :: join (y :: ws)). rewrite find_space by done.
    rewrite IH; [by mstep|done|done|cbn in *; lia].
Qed.

Lemma split_join ws : ws <> [] -> Forall no_space ws -> split_string (join ws) [32] = Ret ws.
Proof.
  intros Hne HF. apply split_loop_join; [done..|]. pose proof (join_len ws Hne) as H. unfold zlen in H. lia.
Qed.

End Split.

(** ** What the functions do *)

Section Theorems.
Import word_list mnemonic bip39 toolbox_data MnemonicHelper Helpers.

(** ** Hexadecimal text of bytes *)

Definition hex_pair_ok (b : Z) : bool :=
  match hex_byte b with
  | [x; y] => (u8 (strtol16 (c_str [x; y])) =? b) && negb (x =? 0) && negb (y =? 0)
  | _ => false
  end.

Lemma hex_to_bytes_digits bs :
  bytes_ok bs -> hex_to_bytes (c_str (concat (map hex_byte bs))) = bs.
Proof.
  induction 1 as [|b bs Hb _ IH]; [done|]. pose proof (byte_cases hex_pair_ok eq_refl b Hb) as H.
  unfold hex_pair_ok, hex_byte in H. cbn [map concat]. unfold hex_byte at 1. cbn [app].
  set (x := hexdigit (b / 16)) in *. set (y := hexdigit (b mod 16)) in *.
  apply andb_true_iff in H as [H Hy]. apply andb_true_iff in H as [H Hx].
  apply negb_true_iff in Hx, Hy. apply Z.eqb_eq in H. cbn [c_str]. rewrite Hx, Hy.
  cbn [hex_to_bytes]. by rewrite H, IH.
Qed.

(** The prefix that [bytes_to_hex] writes is read back as a byte of its own. *)
Lemma hex_back_shifted bs :
  bytes_ok bs -> exists hex, bytes_to_hex bs (zlen bs) = Ret hex /\ hex_to_bytes (c_str hex) = 0 :: bs.
Proof.
  intros Hb. pose proof (zlen_nonneg bs). unfold bytes_to_hex.
  rewrite mem_read_ok, zdrop_0, ztake_all by lia. mstep. eexists. split; [done|].
  cbn [app c_str]. change (48 =? 0) with false. change (120 =? 0) with false. cbv iota.
  cbn [hex_to_bytes]. rewrite hex_to_bytes_digits by done. f_equal.
Qed.

(** C9. In every language, entropy of each supported length is encoded as three
    words for four bytes, words of the list, with a checksum that decoding and
    validation accept; decoding returns the entropy.  The uninitialised memory
    behind the local buffers and behind the entropy does not matter. *)
Theorem bip39_roundtrip (lang : option (list Z)) (junk : nat -> Z) (e post out : list Z) (len : Z) :
  bytes_ok e -> zlen e ∈ [16; 20; 24; 28; 32; 36; 40] -> zlen e <= len -> zlen e <= zlen out ->
  let w := bip39_get_wordlist lang in
  exists xs,
    bip39_mnemonic_from_bytes junk true (Some w) (e ++ post) (zlen e) = Ret (MINTER_OK, Some (join xs)) /\
    4 * zlen xs = 3 * zlen e /\ Forall (fun x => x ∈ indices w) xs /\
    split_string (join xs) [32] = Ret xs /\
    bip39_mnemonic_to_bytes true (Some w) (join xs) out len = Ret (MINTER_OK, e ++ zdrop (zlen e) out, zlen e) /\
    validateWords junk true lang (join xs) = Ret true.
Proof.
  intros He HL Hlen Hout w. destruct (get_wordlist_facts lang) as (Hw & Hb & _). fold w in Hw, Hb.
  destruct (bip39_there_and_back junk w e post out len) as (xs & Hf & Hxs & Hns & Hin & Hto); [done..|].
  exists xs. rewrite Hf, Hto. assert (4 * zlen xs = 3 * zlen e) as Hc.
  { rewrite Hxs. clear -HL. revert HL. generalize (zlen e). apply list.Forall_forall.
    apply (bool_decide_unpack _). by vm_compute. }
  assert (16 <= zlen e <= 40) as Hr by (set_unfold in HL; lia).
  split_and!; [done..| |done|].
  - apply split_join; [|done]. intros ->. change (zlen (@nil (list Z))) with 0 in Hc. lia.
  - unfold validateWords, bip39_mnemonic_validate, BIP39_ENTROPY_LEN_MAX. fold w.
    set (buf := realloc junk [] 42). assert (zlen buf = 42) as Hbuf by (unfold buf; by rewrite zlen_realloc).
    destruct (bip39_there_and_back junk w e post buf 42) as (xs' & Hf' & _ & _ & _ & Hto'); [done..|lia|lia|].
    rewrite Hf in Hf'. injection Hf' as Hj. rewrite Hj, Hto'. by mstep.
Qed.
(** C10. Validation always gives an answer, and accepts a text in a language
    exactly when the text is the encoding of some entropy of a supported length:
    no other spacing, no word outside the list, no wrong checksum. *)
Theorem validateWords_exact (lang : option (list Z)) (junk : nat -> Z) (s : list Z) :
  Forall (fun c => c <> 0) s -> zlen s < 2 ^ 59 ->
  exists b, validateWords junk true lang s = Ret b /\
    (b = true <->
     exists e, bytes_ok e /\ zlen e ∈ [16; 20; 24; 28; 32; 36; 40] /\
       bip39_mnemonic_from_bytes junk true (Some (bip39_get_wordlist lang)) e (zlen e) = Ret (MINTER_OK, Some s)).
Proof.
  intros Hs Hl. destruct (get_wordlist_facts lang) as (Hw & Hb & _). set (w := bip39_get_wordlist lang) in *.
  unfold validateWords, bip39_mnemonic_validate, BIP39_ENTROPY_LEN_MAX. fold w.
  set (buf := realloc junk [] 42). assert (zlen buf = 42) as Hbuf by (unfold buf; by rewrite zlen_realloc).
  destruct (to_bytes_total w s buf 42) as (r & out' & n & E & Hn); [done..|lia|]. rewrite E. mstep.
  eexists. split; [done|]. rewrite Z.eqb_eq. split.
  - intros ->. destruct (decoded_is_encoding w s buf 42 out' n) as (e & Hok & He & Hin & _ & Henc); [done..|lia|done|done|].
    subst n. exists e. by split_and!.
  - intros (e & Hok & Hin & Henc). assert (16 <= zlen e <= 40) as Hr by (set_unfold in Hin; lia).
    destruct (bip39_there_and_back junk w e [] buf 42) as (xs & Hf & _ & _ & _ & Hto); [done..|lia|lia|].
    rewrite app_nil_r, Henc in Hf. injection Hf as ->. rewrite Hto in E. by injection E.
Qed.

Lemma rfc_U_len n : forall pass u acc, length acc = 64%nat -> length (rfc_U mac512 n pass u acc) = 64%nat.
Proof.
  induction n as [|n IH]; intros pass u acc Hacc; [done|]. cbn [rfc_U]. apply IH.
  rewrite length_zip_with, Hacc. unfold rfc_hmac. cbv zeta. change (alg mac512) with sha512.
  by rewrite sha512_digest_len.
Qed.

Lemma rfc_pbkdf2_len pass salt n : zlen (rfc_pbkdf2 mac512 pass salt n) = 64.
Proof.
  unfold zlen, rfc_pbkdf2. cbv zeta. rewrite rfc_U_len; [done|]. unfold rfc_hmac. cbv zeta.
  change (alg mac512) with sha512. apply sha512_digest_len.
Qed.

Lemma seed_store r (key out : list Z) :
  r = Ret key -> zlen key = 64 -> 64 <= zlen out ->
  (key ← r; bytes_out ← mem_write out 0 key; Ret (1, bytes_out, 64)) = Ret (1, key ++ zdrop 64 out, 64).
Proof.
  intros -> Hl Ho. mstep. rewrite mem_write_ok by lia. mstep. by rewrite Hl, ztake_0, Z.add_0_l.
Qed.

(** The seed of a mnemonic is the one of BIP39: PBKDF2 with HMAC-SHA512 over
    2048 rounds, salted with "mnemonic" and the password.  The result code is 1,
    not [MINTER_OK]. *)
Theorem seed_is_bip39 (junk mn out : list Z) (password : option (list Z)) :
  length junk = 128%nat -> bytes_ok junk -> bytes_ok mn -> bytes_ok (default [] password) -> 64 <= zlen out ->
  bip39_mnemonic_to_seed junk true mn password out 64 =
    Ret (1, rfc_pbkdf2 mac512 mn (bytes_of "mnemonic" ++ default [] password) 2048 ++ zdrop 64 out, 64).
Proof.
  intros Hj Hjok Hm Hp Ho. set (salt := _ ++ default [] password). assert (bytes_ok salt) as Hs.
  { apply Forall_app. split; [|done]. apply (bool_decide_unpack _). by vm_compute. }
  pose proof (pbkdf2_rfc (M := mac512) junk mn [] salt [] 2048 Hj Hjok Hm Hs) as E. rewrite !app_nil_r in E.
  exact (seed_store _ _ out E (rfc_pbkdf2_len mn salt 2048) Ho).
Qed.

Lemma bip39_roundtrip_witness :
  let e := replicate 16 127 in
  exists xs,
    bip39_mnemonic_from_bytes (fun _ => 85) true (Some (bip39_get_wordlist (Some (bytes_of "fr")))) (e ++ [1; 2]) 16 =
      Ret (MINTER_OK, Some (join xs)) /\ 4 * zlen xs = 3 * 16 /\
    bip39_mnemonic_to_bytes true (Some (bip39_get_wordlist (Some (bytes_of "fr")))) (join xs) (replicate 20 9) 18 =
      Ret (MINTER_OK, e ++ replicate 4 9, 16).
Proof.
  destruct (bip39_roundtrip (Some (bytes_of "fr")) (fun _ => 85) (replicate 16 127) [1; 2] (replicate 20 9) 18)
    as (xs & H1 & H2 & _ & _ & H3 & _).
  - apply (bool_decide_unpack _). by vm_compute.
  - by left.
  - by vm_compute.
  - by vm_compute.
  - exists xs. split; [exact H1|]. split; [exact H2|exact H3].
Defined.

Lemma validateWords_exact_witness :
  exists b, validateWords (fun _ => 0) true (Some (bytes_of "en")) (bytes_of "abandon  about") = Ret b /\
    (b = true <->
     exists e, bytes_ok e /\ zlen e ∈ [16; 20; 24; 28; 32; 36; 40] /\
       bip39_mnemonic_from_bytes (fun _ => 0) true (Some (bip39_get_wordlist (Some (bytes_of "en")))) e (zlen e) =
         Ret (MINTER_OK, Some (bytes_of "abandon  about"))).
Proof.
  apply (validateWords_exact (Some (bytes_of "en")) (fun _ => 0) (bytes_of "abandon  about")).
  - apply (bool_decide_unpack _). by vm_compute.
  - by vm_compute.
Defined.

Lemma seed_is_bip39_witness :
  bip39_mnemonic_to_seed (replicate 128 7) true (bytes_of "abandon about") None (replicate 64 0) 64 =
    Ret (1, rfc_pbkdf2 mac512 (bytes_of "abandon about") (bytes_of "mnemonic" ++ []) 2048 ++ zdrop 64 (replicate 64 0), 64).
Proof.
  apply (seed_is_bip39 (replicate 128 7) (bytes_of "abandon about") (replicate 64 0) None); try done;
    apply (bool_decide_unpack _); by vm_compute.
Defined.

(** The first test vector of BIP39. *)
Lemma bip39_zero_vector :
  bip39_mnemonic_from_bytes (fun _ => 255) true (Some en_words) (replicate 16 0) 16 =
  Ret (MINTER_OK, Some (bytes_of
    "abandon abandon abandon abandon abandon abandon abandon abandon abandon abandon abandon about")).
Proof. rewrite en_words_eq. by vm_compute. Qed.


End Theorems.
