(* ===== verification/AccountManager.v ===== *)
(** * AccountManager: the secret of an account

    Models the part of src/src/ptp_net/AccountManager.cpp that keeps the secret
    of an account: generating it, storing it encrypted in a configuration file,
    restoring it, setting it from words and showing it as words; and the
    encryption of packets.  It composes [MnemonicHelper], [CAes],
    [NativeByteBuffer], [BuffersStorage] and [Config].

    OpenSSL's MD5 is a parameter.  The address of a mnemonic (HDKey.cpp and the
    curve arithmetic below it) is an arbitrary function [eth_address]: nothing
    here depends on which one it is. *)

From S2P Require Import Prelude SimpleBuffer ByteStream Pdu Words Base64 Aes NativeByteBuffer BuffersStorage ConfigStore Helpers WordList WordLists Bip39.

Module NBB := NativeByteBuffer.

(** MD5 of OpenSSL: 16 bytes. *)
Class MD5 := {
  MD5_digest : list Z -> list Z;
  MD5_digest_len x : zlen (MD5_digest x) = 16;
  MD5_digest_ok x : bytes_ok (MD5_digest x);
}.

Record account := mkAccount {
  m_accountId : Z;
  m_entropy : list Z;
  m_address : list Z;
  m_ivHex : list Z;
  m_aadHex : list Z;
  m_sharedKeyHex : list Z;
}.

(** [AccountManager::AccountManager]. *)
Definition new_account (accountId : Z) : account := mkAccount accountId [] [] [] [] [].

Definition set_entropy (a : account) (e : list Z) : account :=
  mkAccount (m_accountId a) e (m_address a) (m_ivHex a) (m_aadHex a) (m_sharedKeyHex a).

Definition set_address (a : account) (x : list Z) : account :=
  mkAccount (m_accountId a) (m_entropy a) x (m_ivHex a) (m_aadHex a) (m_sharedKeyHex a).

(** What the operations work on: the pool of buffers, the configuration files,
    the marker files of known addresses, and the account object. *)
Record state := mkState {
  pool : BuffersStorage.t;
  disk : gmap (list Z) Config.fs;
  address_files : gset (list Z);
  this : account;
}.

Definition set_pool (s : state) (p : BuffersStorage.t) : state := mkState p (disk s) (address_files s) (this s).
Definition set_this (s : state) (a : account) : state := mkState (pool s) (disk s) (address_files s) a.
Definition set_file (s : state) (path : list Z) (d : Config.fs) : state :=
  mkState (pool s) (<[path := d]> (disk s)) (address_files s) (this s).

Definition file_at (s : state) (path : list Z) : Config.fs :=
  default (Config.mkFs None None) (disk s !! path).

Section AccountManager.
Context `{AES, MD5}.
Context (eth_address : list Z -> list Z).
Context (g_configPath : list Z).

(** What the environment gives: the contents of new memory, the random bytes
    of [RAND_bytes], failing file system calls. *)
Record env := mkEnv {
  junk : nat -> Z;
  rand : list Z;
  faults : Config.faults;
  fopen_fails : bool;
}.

Definition MD5_Calculate (x : list Z) : outcome (list Z) := Helpers.bytes_to_hex_string (MD5_digest x) 16.

Definition to_string (n : Z) : list Z := Helpers.int2string n.

Definition getConfigPath : list Z :=
  if negb (zlen g_configPath =? 0) && negb (default 0 (head (rev g_configPath)) =? 47)
  then g_configPath ++ [47] else g_configPath.

Definition getAccountAddressFile (address : list Z) : list Z := getConfigPath ++ address ++ bytes_of ".dat".

(** The length and the text; no text when the pointer is left uninitialised. *)
Definition encryptDataUseAecSimple (j : nat -> Z) (plainData key : list Z) : outcome (Z * option (list Z)) :=
  cAes ← CAes.init key;
  '(r, out) ← CAes.Encrypt j cAes (Some plainData) (zlen plainData);
  Ret (if r =? 0 then match out with Some (text, nOutLen) => (nOutLen, Some text) | None => (0, None) end
       else (0, None)).

Definition decryptDataUseAecSimple (j : nat -> Z) (cipherData key : list Z) : outcome (Z * option (list Z)) :=
  cAes ← CAes.init key;
  '(r, out) ← CAes.Decrypt j cAes (Some cipherData) (zlen cipherData);
  Ret (if r =? 0 then match out with Some (text, nOutLen) => (nOutLen, Some text) | None => (0, None) end
       else (0, None)).

Definition getEncryptEntropyKey (accountId : Z) (address : list Z) : outcome (list Z) :=
  MD5_Calculate (to_string accountId ++ address).

Definition getEntropyStorePathName (a : account) : outcome (list Z) :=
  h ← MD5_Calculate (bytes_of "account_" ++ to_string (m_accountId a));
  Ret (bytes_of "account_" ++ h ++ bytes_of ".dat").

(** [new Config(0, path)] for the file of the account; the calls of the constructor are
    taken to succeed. *)
Definition open_config (s : state) : outcome (state * list Z) :=
  name ← getEntropyStorePathName (this s);
  let path := getConfigPath ++ name in
  Ret (set_file s path (Config.Config Config.start_ok (file_at s path)), path).

(** [mnemonicWordsToEntropy] into an uninitialised array, as hexadecimal text. *)
Definition entropy_of_words (ev : env) (words : list Z) : outcome (list Z) :=
  '(_, entropyBytes) ← MnemonicHelper.mnemonicWordsToEntropy true (c_str words) (Some (bytes_of "en"))
    (realloc (junk ev) [] 16) 16;
  toolbox_data.bytes_to_hex entropyBytes 16.

(** Encrypt the entropy and write it: the size is calculated with the text and
    its length, the text is then written as a C string. *)
Definition save_entropy (ev : env) (s : state) (path entropy : list Z) : outcome state :=
  key ← getEncryptEntropyKey (m_accountId (this s)) (to_string (m_accountId (this s)));
  '(cipherDataLen, cipherData) ← encryptDataUseAecSimple (junk ev) entropy key;
  match cipherData with
  | None => UB
  | Some cipherData =>
      '(sizeCalculator, _) ← NBB.writeString (NBB.clearCapacity (NBB.new_calculate true)) (ztake cipherDataLen cipherData) None;
      '(st, p) ← BuffersStorage.getFreeBuffer (junk ev) (pool s) (NBB.capacity sizeCalculator);
      b ← BuffersStorage.deref st p;
      '(b, _) ← NBB.writeString b (c_str cipherData) None;
      let st := BuffersStorage.set_heap st (<[p := b]> (BuffersStorage.heap st)) in
      let s := set_file s path (Config.writeConfig (faults ev) (file_at s path) b).2 in
      st ← BuffersStorage.reuse st p;
      Ret (set_pool s st)
  end.

(** [fopen(file, "w")] and a number in it. *)
Definition mark_address (ev : env) (s : state) (address : list Z) : state :=
  if fopen_fails ev then s
  else mkState (pool s) (disk s) ({[getAccountAddressFile address]} ∪ address_files s) (this s).

Definition isAddressExists (s : state) (address : list Z) : bool :=
  bool_decide (getAccountAddressFile address ∈ address_files s).

Definition getAddressByEntropy (ev : env) (entropy : list Z) : outcome (list Z) :=
  mnemonicResult ← MnemonicHelper.entropyHexToMnemonic (junk ev) true entropy (bytes_of "en");
  Ret (eth_address (MnemonicHelper.raw mnemonicResult)).

Definition getAddressByWords (ev : env) (words : list Z) : outcome (list Z) :=
  entropy ← entropy_of_words ev words;
  getAddressByEntropy ev entropy.

(** [getAccountAddress], given the [upsertEntropy] it calls.  The text of the
    entropy is copied before the call. *)
Definition account_address (ev : env) (upsert : state -> outcome state) (s : state) : outcome (state * list Z) :=
  if negb (zlen (m_address (this s)) =? 0) then Ret (s, m_address (this s))
  else
    let entropy := m_entropy (this s) in
    s ← (if zlen entropy =? 0 then upsert s else Ret s);
    if negb (zlen (m_address (this s)) =? 0) then Ret (s, m_address (this s))
    else
      address ← getAddressByEntropy ev entropy;
      Ret (set_this s (set_address (this s) address), address).

(** [upsertEntropy] and [getAccountAddress] call each other; [fuel] bounds the
    depth of the calls. *)
Fixpoint upsertEntropy (fuel : nat) (ev : env) (s : state) : outcome state :=
  match fuel with
  | O => NoFuel
  | S fuel =>
      if negb (zlen (m_entropy (this s)) =? 0) then Ret s
      else
        '(s, path) ← open_config s;
        '(st, buffer) ← Config.readConfig (junk ev) (pool s) (file_at s path);
        let s := set_pool s st in
        match buffer with
        | Some p =>
            b ← BuffersStorage.deref (pool s) p;
            '(b, cipherData, _) ← NBB.readString b None;
            let s := set_pool s (BuffersStorage.set_heap (pool s) (<[p := b]> (BuffersStorage.heap (pool s)))) in
            key ← getEncryptEntropyKey (m_accountId (this s)) (to_string (m_accountId (this s)));
            '(plainDataLen, plainData) ← decryptDataUseAecSimple (junk ev) cipherData key;
            let entropy := ztake plainDataLen (default [] plainData) in
            let s := set_this s (set_entropy (this s) entropy) in
            '(s, address) ← account_address ev (upsertEntropy fuel ev) s;
            Ret (set_this s (set_address (this s) address))
        | None =>
            mnemonic ← MnemonicHelper.generate (junk ev) true (rand ev) (Some (bytes_of "en")) 16;
            entropy ← entropy_of_words ev (MnemonicHelper.raw mnemonic);
            s ← save_entropy ev s path entropy;
            let s := set_this s (set_entropy (this s) entropy) in
            '(s, address) ← account_address ev (upsertEntropy fuel ev) s;
            let s := set_this s (set_address (this s) address) in
            Ret (mark_address ev s address)
        end
  end.

Definition getAccountAddress (fuel : nat) (ev : env) (s : state) : outcome (state * list Z) :=
  account_address ev (upsertEntropy fuel ev) s.

Definition getWords (fuel : nat) (ev : env) (s : state) : outcome (state * list Z) :=
  s ← upsertEntropy fuel ev s;
  mnemonicResult ← MnemonicHelper.entropyHexToMnemonic (junk ev) true (m_entropy (this s)) (bytes_of "en");
  Ret (s, MnemonicHelper.raw mnemonicResult).

Definition genWords (ev : env) : outcome (list Z) :=
  mnemonicResult ← MnemonicHelper.generate (junk ev) true (rand ev) (Some (bytes_of "en")) 16;
  Ret (MnemonicHelper.raw mnemonicResult).

Definition validateWords (ev : env) (words : list Z) : outcome bool :=
  MnemonicHelper.validateWords (junk ev) true (Some (bytes_of "en")) (c_str words).

Definition setWords (fuel : nat) (ev : env) (s : state) (words : list Z) : outcome (state * bool) :=
  '(s, path) ← open_config s;
  entropy ← entropy_of_words ev words;
  s ← save_entropy ev s path entropy;
  let s := set_this s (set_entropy (this s) entropy) in
  '(s, address) ← getAccountAddress fuel ev s;
  Ret (mark_address ev s address, true).

End AccountManager.

(** ** Encrypted packets *)

Section Packets.
Context `{GCM}.

(** The secret, the vector and the additional data of a session, as the handler
    of the captcha keeps them. *)
Definition keep_session (a : account) (iv aad shared_secret : list Z) : outcome account :=
  iv ← toolbox_data.bytes_to_hex iv 16;
  aad ← toolbox_data.bytes_to_hex aad 16;
  k ← toolbox_data.bytes_to_hex shared_secret 32;
  Ret (mkAccount (m_accountId a) (m_entropy a) (m_address a) iv aad k).

(** [memcpy(dst, hex_to_string(hex).data(), n)]; the data of a string ends with a
    null character. *)
Definition from_hex (hex : list Z) (n : Z) : outcome (list Z) :=
  x ← Helpers.hex_to_string hex;
  mem_read (x ++ [0]) 0 n.

(** [_SendPdu] is [send]; [evp] says which calls of OpenSSL succeed. *)
Definition SendPdu (j : nat -> Z) (garbage : Z) (evp : nat -> bool) (send : CImPdu.t -> outcome Z) (a : account)
    (pPdu : CImPdu.t) : outcome Z :=
  if (CImPdu.GetReversed pPdu =? 1) && (0 <? CImPdu.GetBodyLength pPdu) then
    shared_secret ← from_hex (m_sharedKeyHex a) 32;
    iv ← from_hex (m_ivHex a) 16;
    aad ← from_hex (m_aadHex a) 16;
    '(cipherDataLen, cipherData) ← aes_encryption.aes_gcm_encrypt evp (CImPdu.GetBodyData pPdu)
      (i32 (CImPdu.GetBodyLength pPdu)) shared_secret iv (Some aad) (realloc j [] (1024 * 1024));
    pdu1 ← CImPdu.SetPBMsg_raw j j (CImPdu.init garbage) cipherData cipherDataLen;
    pdu1 ← CImPdu.SetServiceId pdu1 0;
    pdu1 ← CImPdu.SetCommandId pdu1 (CImPdu.GetCommandId pPdu);
    pdu1 ← CImPdu.SetSeqNum pdu1 (CImPdu.GetSeqNum pPdu);
    pdu1 ← CImPdu.SetReversed pdu1 (CImPdu.GetReversed pPdu);
    send pdu1
  else send pPdu.

(** The keys of a session are kept with a prefix that reading them refuses: no
    encrypted packet can be sent. *)
Lemma encrypted_packet_throws j garbage evp send a (iv aad secret : list Z) a' pPdu :
  keep_session a iv aad secret = Ret a' ->
  CImPdu.GetReversed pPdu = 1 -> 0 < CImPdu.GetBodyLength pPdu ->
  exists what, SendPdu j garbage evp send a' pPdu = Throw (invalid_argument what).
Proof.
  intros Hk Hr Hl. unfold SendPdu. rewrite Hr, (proj2 (Z.ltb_lt _ _) Hl). cbn [Z.eqb Pos.eqb andb].
  unfold keep_session, toolbox_data.bytes_to_hex in Hk.
  destruct (mem_read iv 0 16), (mem_read aad 0 16), (mem_read secret 0 32) as [k| | |]; try done.
  cbn [mbind outcome_bind] in Hk. injection Hk as <-. cbn [m_sharedKeyHex]. unfold from_hex, Helpers.hex_to_string.
  destruct (Z.odd (zlen (48 :: 120 :: concat (map Helpers.hex_byte k)))); [by eexists|].
  cbn [Helpers.hex_pairs]. change (Helpers.hex_index 48) with (Some 0).
  change (Helpers.hex_index 120) with (@None Z). by eexists.
Qed.

End Packets.

(** ** Lemmas *)

Section Facts.
Context `{HA : AES} `{HL : @AESLaws HA} `{HM : MD5}.
Context (eth_address : list Z -> list Z) (g_configPath : list Z).
Import word_list mnemonic bip39 toolbox_data MnemonicHelper.

Let en : option (list Z) := Some (bytes_of "en").

Lemma hex_text_ok bs :
  bytes_ok bs ->
  zlen (concat (map Helpers.hex_byte bs)) = 2 * zlen bs /\ bytes_ok (concat (map Helpers.hex_byte bs)).
Proof.
  induction 1 as [|b bs Hb _ [IH1 IH2]]; [done|]. cbn [map concat]. rewrite zlen_app, zlen_cons.
  split; [change (zlen (Helpers.hex_byte b)) with 2; lia|]. apply Forall_app. split; [|done].
  unfold Helpers.hex_byte, Helpers.hexdigit, is_u in *. pow2.
  forall_list; case_match; Z.div_mod_to_equations; lia.
Qed.

Lemma md5_text x : exists h, MD5_Calculate x = Ret h /\ zlen h = 34 /\ bytes_ok h.
Proof.
  pose proof (MD5_digest_len x) as Hl. pose proof (MD5_digest_ok x) as Hok. unfold MD5_Calculate, Helpers.bytes_to_hex_string.
  rewrite mem_read_ok, zdrop_0, ztake_all by lia. mstep. eexists. split; [done|].
  destruct (hex_text_ok _ Hok) as [H1 H2]. rewrite zlen_app, H1, Hl. split; [done|].
  apply Forall_app. split; [by repeat constructor|done].
Qed.

(** The cipher object of a key text. *)
Lemma key_ready accountId address :
  exists key k, getEncryptEntropyKey accountId address = Ret key /\
    CAes.init key = Ret (CAes.mk (AES_set_encrypt_key k) (AES_set_decrypt_key k)).
Proof.
  destruct (md5_text (to_string accountId ++ address)) as (h & Hh & Hl & _). exists h, (ztake 32 h).
  split; [done|]. unfold CAes.init. rewrite mem_read_ok by zlia. mstep.
  rewrite zdrop_0, ztake_app_l by lia. done.
Qed.

Lemma open_config_spec s :
  exists path, open_config g_configPath s = Ret (set_file s path (Config.Config Config.start_ok (file_at s path)), path) /\
    forall s', m_accountId (this s') = m_accountId (this s) ->
      open_config g_configPath s' = Ret (set_file s' path (Config.Config Config.start_ok (file_at s' path)), path).
Proof.
  unfold open_config, getEntropyStorePathName.
  destruct (md5_text (bytes_of "account_" ++ to_string (m_accountId (this s)))) as (h & Hh & _). rewrite Hh. mstep.
  eexists. split; [done|]. intros s' ->. rewrite Hh. by mstep.
Qed.

Lemma file_at_set s path d : file_at (set_file s path d) path = d.
Proof. unfold file_at, set_file. cbn [disk]. by rewrite lookup_insert_eq. Qed.

Lemma no_backup_open s path : Config.backupPath (Config.Config Config.start_ok (file_at s path)) = None.
Proof. unfold Config.Config, Config.start_ok. destruct (file_at s path) as [c [b|]]; done. Qed.

(** What is stored under a path can be restored: the text of a secret. *)
Definition holds (s : state) (path entropy : list Z) (accountId : Z) : Prop :=
  exists text key k,
    file_at s path = Config.mkFs (Some (Config.file_of (NBB.enc_array text))) None /\
    bytes_ok text /\ 0 < zlen text < 2 ^ 24 /\
    getEncryptEntropyKey accountId (to_string accountId) = Ret key /\
    CAes.init key = Ret (CAes.mk (AES_set_encrypt_key k) (AES_set_decrypt_key k)) /\
    forall j, exists out,
      CAes.Decrypt j (CAes.mk (AES_set_encrypt_key k) (AES_set_decrypt_key k)) (Some text) (zlen text) =
        Ret (0, Some (out, zlen entropy)) /\ ztake (zlen entropy) out = entropy.

Lemma enc_array_ok text : bytes_ok text -> bytes_ok (NBB.enc_array text).
Proof. intros Ht. unfold NBB.enc_array. rewrite !Forall_app. split_and!; [apply NBB.prefix_ok|done|apply NBB.pad_ok]. Qed.

Lemma enc_array_len text : zlen text < 2 ^ 24 -> 0 < zlen (NBB.enc_array text) < 2 ^ 25.
Proof.
  intros Ht. unfold NBB.enc_array. rewrite !zlen_app, NBB.prefix_len, NBB.pad_len.
  pose proof (NBB.addition_range (zlen text) (if zlen text <=? 253 then 1 else 4)). pose proof (zlen_nonneg text).
  case_match; lia.
Qed.

Lemma save_entropy_spec ev s path entropy :
  BuffersStorage.wf (pool s) -> Config.backupPath (file_at s path) = None -> faults ev = Config.no_faults ->
  bytes_ok entropy -> 0 < zlen entropy < 2 ^ 20 ->
  exists s', save_entropy ev s path entropy = Ret s' /\ this s' = this s /\ BuffersStorage.wf (pool s') /\
    holds s' path entropy (m_accountId (this s)).
Proof.
  intros Hp Hb Hf Hok Hlen. unfold save_entropy.
  destruct (key_ready (m_accountId (this s)) (to_string (m_accountId (this s)))) as (key & k & Hkey & Hinit).
  rewrite Hkey. mstep. unfold encryptDataUseAecSimple. rewrite Hinit. mstep.
  destruct (encrypt_decrypt (junk ev) k entropy Hok) as (text & Henc & Hnul & Htok & Htl & Hdec); [lia|].
  rewrite Henc. mstep. cbn [Z.eqb]. mstep. rewrite ztake_app_exact, c_str_app by done.
  assert (zlen text < 2 ^ 24) as Ht24 by lia. pose proof (enc_array_len text Ht24) as Hel.
  unfold NBB.writeString. rewrite (wrap_u_small 32 (zlen text)) by (unfold is_u; lia).
  rewrite NBB.writeByteArray_calc by (done || lia). mstep.
  assert (NBB.capacity (NBB.set_cap (NBB.clearCapacity (NBB.new_calculate true))
    (u32 (NBB._capacity (NBB.clearCapacity (NBB.new_calculate true)) + ((if zlen text <=? 253 then 1 else 4) +
      (zlen text + NBB.addition_of (zlen text) (if zlen text <=? 253 then 1 else 4)))))) =
    zlen (NBB.enc_array text)) as ->.
  { cbn [NBB.capacity NBB.set_cap NBB._capacity NBB.clearCapacity NBB.new_calculate NBB.calculateSizeOnly].
    unfold NBB.enc_array in *. rewrite !zlen_app, NBB.prefix_len, NBB.pad_len in *.
    rewrite wrap_u_small by (unfold is_u; lia). lia. }
  destruct (BuffersStorage.getFreeBuffer_spec (junk ev) (pool s) (zlen (NBB.enc_array text)) Hp ltac:(lia))
    as (st1 & p & b & -> & W1 & Hpb & Wb & Hpos & Hlim & Hnp & _). mstep.
  assert (BuffersStorage.deref st1 p = Ret b) as -> by (unfold BuffersStorage.deref; by rewrite Hpb). mstep.
  destruct (NBB.writeByteArray_spec b text 0 (zlen text) None Wb Htok) as (b' & kk & -> & Wb' & _ & _ & Happ);
    [lia..|]. mstep. rewrite zdrop_0, ztake_all in Happ by lia.
  rewrite Hpos, Hlim in Happ. specialize (Happ ltac:(lia)).
  assert (NBB.written b' = NBB.enc_array text) as Hw.
  { rewrite Happ, NBB.written_append by (done || lia). unfold NBB.written. by rewrite Hpos, ztake_0. }
  set (st2 := BuffersStorage.set_heap st1 _).
  destruct (BuffersStorage.reuse_spec st2 p b') as (st3 & -> & W3 & _).
  - apply BuffersStorage.wf_update; [done|done|by eapply BuffersStorage.alive_lt].
  - done.
  - apply lookup_insert_eq.
  - done.
  - mstep. eexists. split; [done|]. split; [done|]. split; [done|].
    exists text, key, k. split_and!; try done; try lia.
    + unfold file_at. cbn [disk set_pool set_file]. rewrite lookup_insert_eq. cbn [default from_option id].
      rewrite Hf, Config.write_clean by done. by rewrite Hw.
    + intros j. specialize (Hdec j []). by rewrite app_nil_r in Hdec.
Qed.
(** ** Entropy and words *)

Definition en_list_of : words := bip39_get_wordlist en.

Lemma join_chars (P : Z -> Prop) xs : P 32 -> Forall (Forall P) xs -> Forall P (join xs).
Proof.
  intros H32. induction 1 as [|x xs Hx Hxs IH]; [constructor|]. destruct xs as [|y xs]; [done|].
  change (join (x :: y :: xs)) with (x ++ 32 :: join (y :: xs)). apply Forall_app. split; [done|]. by constructor.
Qed.

(** The mnemonic of sixteen bytes, and what decoding it gives. *)
Lemma mnemonic_of j (e post : list Z) :
  bytes_ok e -> zlen e = 16 ->
  exists xs, let words := join xs in
    bip39_mnemonic_from_bytes j true (Some en_list_of) (e ++ post) 16 = Ret (MINTER_OK, Some words) /\
    c_str words = words /\ split_string words [32] = Ret xs /\
    forall out, 16 <= zlen out -> decodeMnemonic true words en out 16 = Ret (16, e ++ zdrop 16 out).
Proof.
  intros He Hl. destruct (get_wordlist_facts en) as (Hw & Hb & _).
  assert (forall out, 16 <= zlen out -> exists xs,
    bip39_mnemonic_from_bytes j true (Some en_list_of) (e ++ post) 16 = Ret (MINTER_OK, Some (join xs)) /\
    zlen xs = word_count (zlen e) /\ Forall no_space xs /\ Forall (fun x => x ∈ indices en_list_of) xs /\
    bip39_mnemonic_to_bytes true (Some en_list_of) (join xs) out 16 = Ret (MINTER_OK, e ++ zdrop 16 out, 16)) as Hrt.
  { intros out Ho. pose proof (bip39_there_and_back j en_list_of e post out 16 Hw Hb He) as H.
    rewrite Hl in H. destruct H as (xs & ?); [by left|lia|done|]. rewrite Hl. by exists xs. }
  destruct (Hrt (replicate 16 0)) as (xs & Hf & Hc & Hns & Hin & _); [done|]. exists xs. cbv zeta.
  assert (xs <> []) as Hne by (intros ->; rewrite Hl in Hc; vm_compute in Hc; discriminate).
  split_and!; [done| |by apply split_join|].
  - apply c_str_text, join_chars; [done|]. eapply Forall_impl, Hin. intros x Hx.
    apply (proj1 (list.Forall_forall _ _) (ok_chars _ Hw) x Hx).
  - intros out Ho. destruct (Hrt out Ho) as (xs' & Hf' & _ & _ & _ & Hto). rewrite Hf in Hf'.
    injection Hf' as Hj. unfold decodeMnemonic. change (validateEntropy 16) with true. cbn [negb].
    fold en_list_of. rewrite Hj, Hto. by mstep.
Qed.

(** The text kept for sixteen bytes, and the words shown for it: those of a
    zero byte and the first fifteen bytes. *)
Lemma shown_words j (e lang : list Z) :
  bytes_ok e -> zlen e = 16 ->
  exists hex r, bytes_to_hex e 16 = Ret hex /\ bytes_ok hex /\ zlen hex = 34 /\
    entropyHexToMnemonic j true hex lang = Ret r /\ status r = Ok /\
    bip39_mnemonic_from_bytes j true (Some en_list_of) (0 :: ztake 15 e) 16 = Ret (MINTER_OK, Some (raw r)) /\
    forall out, 16 <= zlen out -> decodeMnemonic true (raw r) en out 16 = Ret (16, 0 :: ztake 15 e ++ zdrop 16 out).
Proof.
  intros He Hl. destruct (hex_back_shifted e He) as (hex & Hhex & Hback). rewrite Hl in Hhex.
  set (e' := 0 :: ztake 15 e).
  assert (bytes_ok e') as He' by (constructor; [by vm_compute|by apply Forall_take]).
  assert (zlen e' = 16) as Hl' by (unfold e'; zlia).
  assert (0 :: e = e' ++ zdrop 15 e) as Hsplit by (unfold e'; cbn [app]; by rewrite ztake_zdrop).
  destruct (mnemonic_of j e' (zdrop 15 e) He' Hl') as (xs & Hf & _ & Hs & Hdec).
  exists hex, (mkResult Ok xs (join xs) (zlen xs)). split; [done|].
  assert (bytes_ok hex /\ zlen hex = 34) as [? ?].
  { unfold bytes_to_hex in Hhex. rewrite mem_read_ok, zdrop_0, ztake_all in Hhex by lia. cbn [mbind outcome_bind] in Hhex.
    injection Hhex as <-. destruct (hex_text_ok e He) as [H1 H2]. cbn [app]. rewrite !zlen_cons, H1, Hl.
    split; [|done]. by do 2 (constructor; [by vm_compute|]). }
  split_and!; try done.
  - unfold entropyHexToMnemonic. rewrite Hback, Hsplit. unfold entropyToMnemonic.
    change (validateEntropy 16) with true. cbn [negb]. fold en. fold en_list_of. rewrite Hf. mstep.
    cbn [Z.eqb negb]. rewrite Hs. by mstep.
  - cbn [raw]. rewrite <- Hl' in Hf |- *. rewrite from_bytes_post in Hf by done. exact Hf.
Qed.

(** The address of an account whose entropy is known and not empty: the one
    kept, or the one of the words shown. *)
Lemma address_known ev upsert s hex r :
  m_entropy (this s) = hex -> zlen hex = 34 -> entropyHexToMnemonic (junk ev) true hex (bytes_of "en") = Ret r ->
  account_address eth_address ev upsert s =
    Ret (if zlen (m_address (this s)) =? 0
         then (set_this s (set_address (this s) (eth_address (raw r))), eth_address (raw r))
         else (s, m_address (this s))).
Proof.
  intros Hm Hl Hr. unfold account_address. destruct (zlen (m_address (this s)) =? 0) eqn:E; cbn [negb]; [|done].
  rewrite Hm, Hl. cbn [Z.eqb]. mstep. rewrite E. cbn [negb]. unfold getAddressByEntropy. rewrite Hr. by mstep.
Qed.

(** Reading a stored text. *)
Lemma load_text j st0 text :
  BuffersStorage.wf st0 -> bytes_ok text -> 0 < zlen text < 2 ^ 24 ->
  exists st p b b',
    Config.readConfig j st0 (Config.mkFs (Some (Config.file_of (NBB.enc_array text))) None) = Ret (st, Some p) /\
    BuffersStorage.deref st p = Ret b /\ NBB.readString b None = Ret (b', text, None) /\
    BuffersStorage.wf (BuffersStorage.set_heap st (<[p := b']> (BuffersStorage.heap st))).
Proof.
  intros Hp Htok Htl. set (d := Config.mkFs _ None). pose proof (enc_array_len text ltac:(lia)) as Hel.
  assert (Config.stored d = Some (NBB.enc_array text)) as Hst by (apply Config.file_data_of; lia).
  pose proof (Config.readConfig_spec j st0 d Hp) as Hread. rewrite Hst in Hread.
  destruct Hread as (st & p & b & Hrc & Hpb & Wb & Hu & Wst & Hnp).
  { intros file [= <-]. split.
    - apply Forall_app. split; [|by apply enc_array_ok]. apply NBB.le32_ok.
    - unfold Config.file_of. rewrite ztake_app_exact, Config.size_of_size_bytes by (done || unfold is_u; lia). lia. }
  destruct (NBB.readByteArray_spec j b text [] None Wb) as [_ Hrs]; [lia|by rewrite app_nil_r|].
  eexists st, p, b, _. split_and!; [done|unfold BuffersStorage.deref; by rewrite Hpb|exact Hrs|].
  apply BuffersStorage.wf_update; [done|done|by eapply BuffersStorage.alive_lt].
Qed.

(** A stored secret is read back. *)
Lemma restore ev s path entropy fuel r :
  BuffersStorage.wf (pool s) -> m_entropy (this s) = [] -> m_address (this s) = [] ->
  open_config g_configPath s = Ret (set_file s path (Config.Config Config.start_ok (file_at s path)), path) ->
  holds s path entropy (m_accountId (this s)) -> zlen entropy = 34 ->
  entropyHexToMnemonic (junk ev) true entropy (bytes_of "en") = Ret r ->
  exists s', upsertEntropy eth_address g_configPath (S fuel) ev s = Ret s' /\
    m_entropy (this s') = entropy /\ m_address (this s') = eth_address (raw r).
Proof.
  intros Hp He Ha Hopen (text & key & k & Hfile & Htok & Htl & Hkey & Hinit & Hdec) Hl Hr.
  cbn [upsertEntropy]. rewrite He. change (negb (zlen (@nil Z) =? 0)) with false. cbv iota.
  rewrite Hopen. mstep. rewrite file_at_set, Hfile. cbn [Config.Config Config.backupPath Config.start_ok Config.start_open_fails Config.start_remove_fails Config.start_rename_fails orb].
  destruct (load_text (junk ev) (pool s) text Hp Htok Htl) as (st & p & b & b' & Hrc & Hde & Hrs & _).
  cbn [pool set_file]. rewrite Hrc. mstep. cbn [pool set_pool]. rewrite Hde. mstep.
  rewrite Hrs. mstep. cbn [this set_pool set_file]. rewrite Hkey. mstep.
  unfold decryptDataUseAecSimple. rewrite Hinit. mstep. destruct (Hdec (junk ev)) as (out & -> & Hout). mstep.
  cbn [Z.eqb]. mstep. cbn [default from_option id]. rewrite Hout.
  rewrite (address_known ev _ _ entropy r) by done. cbn [this set_this set_entropy m_address]. rewrite Ha.
  change (zlen (@nil Z) =? 0) with true. cbv iota. mstep. eexists. split; [done|]. by split.
Qed.

(** [setWords] keeps the entropy, in memory and on disk. *)
Lemma setWords_spec (ev : env) (s : state) (e : list Z) (words : list Z) (fuel : nat) :
  bytes_ok e -> zlen e = 16 -> BuffersStorage.wf (pool s) -> faults ev = Config.no_faults ->
  bip39_mnemonic_from_bytes (junk ev) true (Some (bip39_get_wordlist (Some (bytes_of "en")))) e 16 =
    Ret (MINTER_OK, Some words) ->
  exists s' hex, setWords eth_address g_configPath fuel ev s words = Ret (s', true) /\
    bytes_to_hex e 16 = Ret hex /\ m_entropy (this s') = hex /\
    forall ev' pool' fuel', BuffersStorage.wf pool' ->
      exists s'', upsertEntropy eth_address g_configPath (S fuel') ev'
          (mkState pool' (disk s') (address_files s') (new_account (m_accountId (this s)))) = Ret s'' /\
        m_entropy (this s'') = hex.
Proof.
  intros He Hl Hp Hf Hw. destruct (shown_words (junk ev) e (bytes_of "en") He Hl) as (hex & r & Hhex & Hxok & Hxl & Hr & _).
  destruct (mnemonic_of (junk ev) e [] He Hl) as (xs & Hf1 & Hcs & _ & Hdec). rewrite app_nil_r in Hf1.
  unfold en_list_of, en in Hf1. rewrite Hw in Hf1. injection Hf1 as ->.
  unfold setWords. destruct (open_config_spec s) as (path & -> & Hopen). mstep. set (s1 := set_file s _ _).
  unfold entropy_of_words. rewrite Hcs. fold en. unfold mnemonicWordsToEntropy.
  rewrite Hdec by (rewrite zlen_realloc; lia). mstep.
  rewrite zdrop_all, app_nil_r, Hhex by (rewrite zlen_realloc; lia). mstep.
  destruct (save_entropy_spec ev s1 path hex) as (s2 & -> & Ht & Hp2 & Hh); [done| |done|done|lia|].
  { unfold s1. rewrite file_at_set. apply no_backup_open. }
  assert (forall s', disk s' = disk s2 -> forall ev' pool' fuel', BuffersStorage.wf pool' ->
      exists s'', upsertEntropy eth_address g_configPath (S fuel') ev'
          (mkState pool' (disk s') (address_files s') (new_account (m_accountId (this s)))) = Ret s'' /\
        m_entropy (this s'') = hex) as Hgo.
  { intros s' Hd ev' pool' fuel' Hp'.
    destruct (shown_words (junk ev') e (bytes_of "en") He Hl) as (hex' & r' & Hhex' & _ & _ & Hr' & _).
    rewrite Hhex in Hhex'. injection Hhex' as <-.
    destruct (restore ev' (mkState pool' (disk s') (address_files s') (new_account (m_accountId (this s))))
      path hex fuel' r') as (s'' & -> & Hm & _); try done.
    - by apply Hopen.
    - unfold holds, file_at in *. cbn [disk this m_accountId new_account] in *. by rewrite Hd.
    - by exists s''. }
  mstep. unfold getAccountAddress. rewrite Ht. rewrite (address_known ev _ _ hex r) by done. mstep.
  assert (forall s' address, disk (mark_address g_configPath ev s' address) = disk s' /\
    this (mark_address g_configPath ev s' address) = this s') as Hmark.
  { intros. unfold mark_address. by case_match. }
  destruct (zlen (m_address (this (set_this s2 (set_entropy (this s1) hex)))) =? 0);
    (eexists _, hex; split; [reflexivity|]; split; [done|]; split;
     [by rewrite (proj2 (Hmark _ _))|apply Hgo; by rewrite (proj1 (Hmark _ _))]).
Qed.

(** C11. A secret survives a restart: after [setWords] with the words of sixteen
    bytes, whatever was on disk, a new process with the same account number reads
    the same entropy back from the encrypted configuration file. *)
Theorem entropy_survives_restart (ev : env) (s : state) (e : list Z) (words : list Z) (fuel : nat) :
  bytes_ok e -> zlen e = 16 -> BuffersStorage.wf (pool s) -> faults ev = Config.no_faults ->
  bip39_mnemonic_from_bytes (junk ev) true (Some (bip39_get_wordlist (Some (bytes_of "en")))) e 16 =
    Ret (MINTER_OK, Some words) ->
  exists s' hex, setWords eth_address g_configPath fuel ev s words = Ret (s', true) /\
    bytes_to_hex e 16 = Ret hex /\ m_entropy (this s') = hex /\
    forall ev' pool' fuel', BuffersStorage.wf pool' ->
      exists s'', upsertEntropy eth_address g_configPath (S fuel') ev'
          (mkState pool' (disk s') (address_files s') (new_account (m_accountId (this s)))) = Ret s'' /\
        m_entropy (this s'') = hex.
Proof. by apply setWords_spec. Qed.

Lemma shifted_zeros n : forall l : list Z, length l = S n -> l = 0 :: take n l -> l = replicate (S n) 0.
Proof.
  induction n as [|n IH]; intros [|x l] Hl E; [done| |done|].
  - destruct l; [|done]. injection E as ->. done.
  - injection E as -> E. cbn [replicate]. f_equal. apply IH; [by injection Hl|]. exact E.
Qed.

(** The words an account shows are not the words it was given: they are those
    of a zero byte followed by the first fifteen bytes of the entropy, because
    the text of the entropy starts with 0x.  Only the all-zero entropy comes back. *)
Theorem shown_words_are_shifted (ev ev' : env) (s : state) (e : list Z) (words : list Z) (fuel fuel' : nat) :
  bytes_ok e -> zlen e = 16 -> BuffersStorage.wf (pool s) -> faults ev = Config.no_faults ->
  bip39_mnemonic_from_bytes (junk ev) true (Some (bip39_get_wordlist (Some (bytes_of "en")))) e 16 =
    Ret (MINTER_OK, Some words) ->
  exists s' shown, setWords eth_address g_configPath fuel ev s words = Ret (s', true) /\
    getWords eth_address g_configPath (S fuel') ev' s' = Ret (s', shown) /\
    decodeMnemonic true shown (Some (bytes_of "en")) (replicate 16 0) 16 = Ret (16, 0 :: ztake 15 e) /\
    (shown = words <-> e = replicate 16 0).
Proof.
  intros He Hl Hp Hf Hw0. assert (forall j, bip39_mnemonic_from_bytes j true (Some en_list_of) e 16 =
    Ret (MINTER_OK, Some words)) as Hw.
  { intros j. rewrite <- Hl in Hw0 |- *. rewrite <- Hw0. destruct (get_wordlist_facts en) as (_ & Hb & _).
    apply from_bytes_junk; [done|done|]. rewrite Hl. by left. }
  destruct (setWords_spec ev s e words fuel He Hl Hp Hf Hw0) as (s' & hex & Hset & Hhex & Hm & _).
  destruct (shown_words (junk ev') e (bytes_of "en") He Hl) as (hex' & r & Hhex' & _ & Hxl & Hr & _ & Hf' & Hdec').
  rewrite Hhex in Hhex'. injection Hhex' as <-. exists s', (raw r). split; [done|]. split.
  { unfold getWords. cbn [upsertEntropy]. rewrite Hm, Hxl. cbn [Z.eqb negb]. mstep. rewrite Hm, Hr. by mstep. }
  specialize (Hdec' (replicate 16 0) ltac:(done)). rewrite zdrop_all, app_nil_r in Hdec' by done.
  split; [exact Hdec'|]. split.
  - intros E. destruct (mnemonic_of (junk ev') e [] He Hl) as (xs & Hf1 & _ & _ & Hdec). rewrite app_nil_r in Hf1.
    rewrite Hw in Hf1. injection Hf1 as Hj.
    specialize (Hdec (replicate 16 0) ltac:(done)). rewrite zdrop_all, app_nil_r in Hdec by done.
    rewrite E, Hj, Hdec in Hdec'. injection Hdec' as Hee. apply (shifted_zeros 15); [unfold zlen in Hl; lia|exact Hee].
  - intros ->. change (0 :: ztake 15 (replicate 16 0)) with (replicate 16 0) in Hf'.
    rewrite Hw in Hf'. by injection Hf'.
Qed.


(** A state in which reading the stored secret fails. *)
Record damaged (text path : list Z) (s : state) : Prop := {
  dm_pool : BuffersStorage.wf (pool s);
  dm_entropy : m_entropy (this s) = [];
  dm_address : m_address (this s) = [];
  dm_open : open_config g_configPath s = Ret (set_file s path (Config.Config Config.start_ok (file_at s path)), path);
  dm_file : file_at s path = Config.mkFs (Some (Config.file_of (NBB.enc_array text))) None;
}.

(** A stored secret that cannot be decrypted is never reported: the entropy
    stays empty, and [upsertEntropy] and [getAccountAddress] call each other
    without end, at any depth of calls. *)
Theorem damaged_store_recurses (ev : env) (text path : list Z) (s : state) (fuel : nat) :
  bytes_ok text -> 0 < zlen text < 2 ^ 24 ->
  (forall j a, exists r, r <> 0 /\ CAes.Decrypt j a (Some text) (zlen text) = Ret (r, None)) ->
  damaged text path s ->
  upsertEntropy eth_address g_configPath fuel ev s = NoFuel /\
  getAccountAddress eth_address g_configPath fuel ev s = NoFuel.
Proof.
  intros Htok Htl Hfail Hd.
  assert (upsertEntropy eth_address g_configPath fuel ev s = NoFuel) as Hup.
  2: { split; [done|]. unfold getAccountAddress, account_address. destruct Hd as [_ -> -> _ _].
    change (zlen (@nil Z) =? 0) with true. cbn [negb]. rewrite Hup. done. }
  revert s Hd. induction fuel as [|fuel IH]; intros s [Hp He Ha Hopen Hfile]; [done|].
  cbn [upsertEntropy]. rewrite He. change (negb (zlen (@nil Z) =? 0)) with false. cbv iota.
  rewrite Hopen. mstep. rewrite file_at_set, Hfile. cbn [Config.Config Config.backupPath Config.start_ok Config.start_open_fails Config.start_remove_fails Config.start_rename_fails orb].
  destruct (load_text (junk ev) (pool s) text Hp Htok Htl) as (st & p & b & b' & Hrc & Hde & Hrs & Wst).
  cbn [pool set_file]. rewrite Hrc. mstep. cbn [pool set_pool]. rewrite Hde. mstep. rewrite Hrs. mstep.
  cbn [this set_pool set_file pool].
  destruct (key_ready (m_accountId (this s)) (to_string (m_accountId (this s)))) as (key & k & -> & Hinit). mstep.
  unfold decryptDataUseAecSimple. rewrite Hinit. mstep. destruct (Hfail (junk ev) (CAes.mk (AES_set_encrypt_key k) (AES_set_decrypt_key k)))
    as (r & Hr & ->). mstep. rewrite (proj2 (Z.eqb_neq r 0)) by done. mstep. rewrite ztake_0.
  unfold account_address at 1. cbn [this set_this set_entropy m_address m_entropy]. rewrite Ha.
  change (zlen (@nil Z) =? 0) with true. cbn [negb]. rewrite IH; [done|].
  destruct (open_config_spec s) as (path' & Hopen' & Hall). rewrite Hopen in Hopen'.
  assert (path' = path) as -> by (by injection Hopen').
  constructor; cbn [pool this set_this set_pool set_entropy m_entropy m_address]; [done..|by apply Hall|].
  unfold file_at. cbn [disk set_this set_pool set_file]. by rewrite lookup_insert_eq.
Qed.


End Facts.

(** ** Concrete runs *)

Section Runs.
Import word_list mnemonic bip39 toolbox_data MnemonicHelper.

#[local] Existing Instances Aes.ReverseAES Aes.ReverseAESLaws.

(** A digest for concrete runs. *)
#[local] Instance ConstantMD5 : MD5.
Proof.
  refine {| MD5_digest _ := replicate 16 171 |}; [done|].
  intros _. apply (bool_decide_unpack _). by vm_compute.
Defined.

Let ev0 : env := mkEnv (fun _ => 7) (replicate 16 5) Config.no_faults false.
Let s0 : state := mkState (BuffersStorage.init (fun _ => 0)) ∅ ∅ (new_account 3).
Let e0 : list Z := replicate 15 200 ++ [1].

Lemma e0_ok : bytes_ok e0.
Proof. apply (bool_decide_unpack _). by vm_compute. Qed.

Lemma entropy_survives_restart_witness :
  exists words s' hex,
    setWords (fun x => x) (bytes_of "/data") 1 ev0 s0 words = Ret (s', true) /\
    bytes_to_hex e0 16 = Ret hex /\
    exists s'', upsertEntropy (fun x => x) (bytes_of "/data") 1 ev0
        (mkState (BuffersStorage.init (fun _ => 9)) (disk s') (address_files s') (new_account 3)) = Ret s'' /\
      m_entropy (this s'') = hex.
Proof.
  destruct (mnemonic_of (junk ev0) e0 [] e0_ok eq_refl) as (xs & Hf & _).
  destruct (entropy_survives_restart (fun x => x) (bytes_of "/data") ev0 s0 e0 (join xs) 1)
    as (s' & hex & H1 & H2 & _ & H3).
  - apply e0_ok.
  - done.
  - apply BuffersStorage.wf_storage_init.
  - done.
  - exact Hf.
  - exists (join xs), s', hex. split; [exact H1|]. split; [exact H2|].
    exact (H3 ev0 (BuffersStorage.init (fun _ => 9)) 0%nat (BuffersStorage.wf_storage_init _)).
Defined.

Lemma shown_words_are_shifted_witness :
  exists words s' shown,
    setWords (fun x => x) (bytes_of "/data") 1 ev0 s0 words = Ret (s', true) /\
    getWords (fun x => x) (bytes_of "/data") 1 ev0 s' = Ret (s', shown) /\ shown <> words.
Proof.
  destruct (mnemonic_of (junk ev0) e0 [] e0_ok eq_refl) as (xs & Hf & _).
  destruct (shown_words_are_shifted (fun x => x) (bytes_of "/data") ev0 ev0 s0 e0 (join xs) 1 0)
    as (s' & shown & H1 & H2 & _ & H3).
  - apply e0_ok.
  - done.
  - apply BuffersStorage.wf_storage_init.
  - done.
  - exact Hf.
  - exists (join xs), s', shown. split; [exact H1|]. split; [exact H2|].
    intros E. apply H3 in E. discriminate E.
Defined.

(** A file whose text decodes to three bytes, not to whole blocks. *)
Let bad_name : list Z := Eval vm_compute in
  match getEntropyStorePathName (this s0) with Ret name => name | _ => [] end.
Let bad_path : list Z := getConfigPath (bytes_of "/data") ++ bad_name.
Let bad : state := set_file s0 bad_path (Config.mkFs (Some (Config.file_of (NBB.enc_array (bytes_of "AAAA")))) None).

Lemma damaged_store_recurses_witness :
  upsertEntropy (fun x => x) (bytes_of "/data") 1000 ev0 bad = NoFuel /\
  getAccountAddress (fun x => x) (bytes_of "/data") 1000 ev0 bad = NoFuel.
Proof.
  apply (damaged_store_recurses (fun x => x) (bytes_of "/data") ev0 (bytes_of "AAAA") bad_path bad 1000).
  - apply (bool_decide_unpack _). by vm_compute.
  - by vm_compute.
  - intros j a. exists (-3). split; [done|]. by vm_compute.
  - constructor; [apply BuffersStorage.wf_storage_init|done|done| |].
    + unfold open_config. assert (getEntropyStorePathName (this bad) = Ret bad_name) as -> by (by vm_compute). done.
    + apply file_at_set.
Defined.

End Runs.
