(* ===== verification/ClientConn.v ===== *)
(** * ClientConn: the connection of a client and its supervision

    Models src/src/ptp_net/ClientConn.cpp: the statics of the file, the
    connection object, and the one-second timer that detects silence, gives up
    attempts that take too long and reconnects with a growing delay.

    [netlib_connect] is an argument of [Connect]: the handle it returns.  What
    the file tells other components (the delegate, netlib) is a log of
    [effect]s.  The account map is unordered: an operation that loops over it
    takes the order in which the map is visited. *)

From S2P Require Import Prelude SimpleBuffer ByteStream Pdu Aes Helpers AccountManager.

Module CClientConn.

Definition MAX_RECONNECT_CNT : Z := 32.
Definition CLIENT_HEARTBEAT_INTERVAL : Z := 30000.
Definition MOBILE_CLIENT_TIMEOUT : Z := 60000 * 5.
Definition NETLIB_INVALID_HANDLE : Z := -1.

(** [ConnectionState]; the static starts as 0, which is none of them. *)
Definition ConnectionStateConnecting : Z := 1.
Definition ConnectionStateConnected : Z := 3.
Definition ConnectionLogged : Z := 10.
Definition ConnectionStateClosed : Z := 11.

Record conn := mkConn {
  m_handle : Z;
  m_bOpen : bool;
  m_accountId : Z;
  m_serv_idx : Z;
  m_last_send_tick : Z;
  m_last_recv_tick : Z;
  m_refCount : Z;
}.

Inductive effect :=
| StateChanged (state accountId : Z)
| NetlibClose (handle : Z)
| RegisterTimer (interval : Z)
| EventLoop.

(** The statics of the file and the objects they refer to. *)
Record state := mkState {
  connectionState : Z;
  g_msg_conn_map : gmap Z nat;
  g_account_msg_conn_map : gmap Z nat;
  current_account_id : Z;
  connecting_cnt : Z;
  timer_cnt : Z;
  idle_cnt : Z;
  reconnect_cnt : Z;
  m_delegate : bool;
  heap : gmap nat conn;
  effects : list effect;
}.

Definition init : state := mkState 0 ∅ ∅ 0 0 0 0 0 false ∅ [].

Definition set_connectionState (s : state) (x : Z) : state :=
  mkState x (g_msg_conn_map s) (g_account_msg_conn_map s) (current_account_id s) (connecting_cnt s)
    (timer_cnt s) (idle_cnt s) (reconnect_cnt s) (m_delegate s) (heap s) (effects s).
Definition set_maps (s : state) (m : gmap Z nat) (a : gmap Z nat) : state :=
  mkState (connectionState s) m a (current_account_id s) (connecting_cnt s)
    (timer_cnt s) (idle_cnt s) (reconnect_cnt s) (m_delegate s) (heap s) (effects s).
Definition set_counts (s : state) (connecting timer idle reconnect : Z) : state :=
  mkState (connectionState s) (g_msg_conn_map s) (g_account_msg_conn_map s) (current_account_id s) connecting
    timer idle reconnect (m_delegate s) (heap s) (effects s).
Definition set_heap (s : state) (h : gmap nat conn) : state :=
  mkState (connectionState s) (g_msg_conn_map s) (g_account_msg_conn_map s) (current_account_id s) (connecting_cnt s)
    (timer_cnt s) (idle_cnt s) (reconnect_cnt s) (m_delegate s) h (effects s).
Definition emit (s : state) (e : effect) : state :=
  mkState (connectionState s) (g_msg_conn_map s) (g_account_msg_conn_map s) (current_account_id s) (connecting_cnt s)
    (timer_cnt s) (idle_cnt s) (reconnect_cnt s) (m_delegate s) (heap s) (effects s ++ [e]).

Definition set_current_account_id (s : state) (account_id : Z) : state :=
  mkState (connectionState s) (g_msg_conn_map s) (g_account_msg_conn_map s) account_id (connecting_cnt s)
    (timer_cnt s) (idle_cnt s) (reconnect_cnt s) (m_delegate s) (heap s) (effects s).
Definition set_delegate (s : state) : state :=
  mkState (connectionState s) (g_msg_conn_map s) (g_account_msg_conn_map s) (current_account_id s) (connecting_cnt s)
    (timer_cnt s) (idle_cnt s) (reconnect_cnt s) true (heap s) (effects s).

Definition set_idle (s : state) (x : Z) : state := set_counts s (connecting_cnt s) (timer_cnt s) x (reconnect_cnt s).
Definition set_connecting (s : state) (x : Z) : state := set_counts s x (timer_cnt s) (idle_cnt s) (reconnect_cnt s).
Definition set_timer (s : state) (x : Z) : state := set_counts s (connecting_cnt s) x (idle_cnt s) (reconnect_cnt s).
Definition set_reconnect (s : state) (x : Z) : state := set_counts s (connecting_cnt s) (timer_cnt s) (idle_cnt s) x.

(** Access through a pointer. *)
Definition deref (s : state) (p : nat) : outcome conn :=
  match heap s !! p with Some c => Ret c | None => UB end.

Definition set_conn (s : state) (p : nat) (c : conn) : state := set_heap s (<[p := c]> (heap s)).

Definition with_refs (c : conn) (n : Z) : conn :=
  mkConn (m_handle c) (m_bOpen c) (m_accountId c) (m_serv_idx c) (m_last_send_tick c) (m_last_recv_tick c) n.

Definition AddRef (s : state) (p : nat) : outcome state :=
  c ← deref s p; Ret (set_conn s p (with_refs c (m_refCount c + 1))).

Definition ReleaseRef (s : state) (p : nat) : outcome state :=
  c ← deref s p;
  if m_refCount c - 1 =? 0 then Ret (set_heap s (delete p (heap s)))
  else Ret (set_conn s p (with_refs c (m_refCount c - 1))).

(** [insert] keeps an entry that is already there. *)
Definition map_insert (m : gmap Z nat) (k : Z) (p : nat) : gmap Z nat :=
  match m !! k with Some _ => m | None => <[k := p]> m end.

(** The delegate is not checked for null; the account is not passed on. *)
Definition onConnectionStateChanged (s : state) (st accountId : Z) : outcome state :=
  if m_delegate s then Ret (emit s (StateChanged st 0)) else UB.

(** [new CClientConn()] at a free address; the account and the index are set by
    [Connect]. *)
Definition new_conn (s : state) (now : Z) : state * nat :=
  let p := fresh (dom (heap s)) in
  (set_conn s p (mkConn NETLIB_INVALID_HANDLE false 0 0 now now 1), p).

(** [h] is the result of [netlib_connect]. *)
Definition Connect (s : state) (p : nat) (serv_idx account_id h : Z) : outcome state :=
  let s := set_connectionState s ConnectionStateConnecting in
  s ← onConnectionStateChanged s (connectionState s) account_id;
  c ← deref s p;
  let s := set_conn s p (mkConn h (m_bOpen c) account_id serv_idx (m_last_send_tick c) (m_last_recv_tick c) (m_refCount c)) in
  if negb (h =? NETLIB_INVALID_HANDLE) then
    Ret (set_maps s (map_insert (g_msg_conn_map s) h p) (map_insert (g_account_msg_conn_map s) account_id p))
  else Ret s.

Definition Close (s : state) (p : nat) : outcome state :=
  let s := set_connectionState s ConnectionStateClosed in
  c ← deref s p;
  s ← onConnectionStateChanged s ConnectionStateClosed (m_accountId c);
  let s := set_reconnect s (if reconnect_cnt s =? 0 then 1 else u32 (reconnect_cnt s * 2)) in
  let s := if MAX_RECONNECT_CNT <? reconnect_cnt s then set_idle (set_reconnect s 1) 0 else s in
  let s :=
    if negb (m_handle c =? NETLIB_INVALID_HANDLE) then
      let s := emit s (NetlibClose (m_handle c)) in
      set_maps s (delete (m_handle c) (g_msg_conn_map s)) (delete (m_accountId c) (g_account_msg_conn_map s))
    else s in
  ReleaseRef s p.

Definition OnConfirm (s : state) (p : nat) : outcome state :=
  c ← deref s p;
  let s := set_conn s p (mkConn (m_handle c) true (m_accountId c) (m_serv_idx c) (m_last_send_tick c) (m_last_recv_tick c) (m_refCount c)) in
  let s := set_connecting (set_idle (set_reconnect s 0) 0) 0 in
  let s := set_connectionState s ConnectionStateConnected in
  onConnectionStateChanged s ConnectionStateConnected (m_accountId c).

Definition OnClose (s : state) (p : nat) : outcome state := Close s p.

Definition reset_reconnect (s : state) : state :=
  if 0 <? reconnect_cnt s then set_reconnect s 1 else s.

Definition get_conn (s : state) (account_id : Z) : option nat := g_account_msg_conn_map s !! account_id.

(** The heartbeat asks [ImPdu::SetPBMsg] for the packet of a null message. *)
Definition heartbeat (j : nat -> Z) (garbage : Z) : outcome CImPdu.t :=
  pdu ← ImPdu.SetPBMsg j j (CImPdu.init garbage) None;
  pdu ← CImPdu.SetServiceId pdu 7;
  CImPdu.SetCommandId pdu 1793.

Definition OnTimer (j : nat -> Z) (garbage : Z) (send : state -> nat -> CImPdu.t -> outcome state)
    (s : state) (p : nat) (curr_tick : Z) : outcome state :=
  c ← deref s p;
  if negb (current_account_id s =? m_accountId c) then Close s p
  else
    s ← (if (u64 (m_last_send_tick c + CLIENT_HEARTBEAT_INTERVAL) <? curr_tick) && (connectionState s =? ConnectionLogged)
         then pdu ← heartbeat j garbage; send s p pdu
         else Ret s);
    if u64 (m_last_recv_tick c + MOBILE_CLIENT_TIMEOUT) <? curr_tick then Close s p else Ret s.

(** The loops over the account map have no increment: the iterator stays on the
    first entry until the body breaks ([Some]). *)
Fixpoint stay (fuel : nat) (first : option (Z * nat)) (body : Z -> nat -> outcome (option state)) (s : state) : outcome state :=
  match fuel with
  | O => NoFuel
  | S fuel =>
      match first with
      | None => Ret s
      | Some (k, p) =>
          r ← body k p;
          match r with
          | Some s => Ret s
          | None => stay fuel first body s
          end
      end
  end.

Definition order := gmap Z nat -> list (Z * nat).

Definition close_msg_conn (fuel : nat) (o : order) (s : state) (account_id : Z) : outcome state :=
  stay fuel (head (o (g_account_msg_conn_map s))) (fun k p =>
    if k =? account_id then
      c ← deref s p;
      if m_bOpen c then s ← Close s p; Ret (Some s) else Ret None
    else Ret None) s.

(** [netlib_eventloop] returns at once when the loop runs already. *)
Definition init_msg_conn (s : state) (now accountId : Z) (register_timer : bool) (h : Z) : outcome state :=
  let '(s, p) := new_conn s now in
  s ← Connect s p 0 accountId h;
  let s := if register_timer then emit s (RegisterTimer 1000) else s in
  Ret (emit s EventLoop).

Definition msg_conn_timer_callback (fuel : nat) (o : order) (j : nat -> Z) (garbage : Z)
    (send : state -> nat -> CImPdu.t -> outcome state) (s : state) (cur_time h : Z) : outcome state :=
  let s := set_timer s (if 100 <? timer_cnt s then 0 else timer_cnt s + 1) in
  s ← (if connectionState s =? ConnectionStateConnected then
         stay fuel (head (o (g_account_msg_conn_map s))) (fun k p =>
           if k =? current_account_id s then
             c ← deref s p;
             if m_bOpen c then s ← OnTimer j garbage send s p cur_time; Ret (Some s) else Ret (Some s)
           else Ret None) s
       else Ret s);
  if 0 <? reconnect_cnt s then
    let s := if connectionState s =? ConnectionStateClosed then set_idle s (u32 (idle_cnt s + 1)) else s in
    let s := if connectionState s =? ConnectionStateConnecting then set_connecting s (u32 (connecting_cnt s + 1)) else s in
    s ← (if 30 <? connecting_cnt s then close_msg_conn fuel o (set_connecting s 0) (current_account_id s) else Ret s);
    if (reconnect_cnt s <=? idle_cnt s) && (connectionState s =? ConnectionStateClosed)
    then init_msg_conn s cur_time (current_account_id s) false h
    else Ret s
  else Ret s.

(** [imconn_callback] for this class, for the messages that concern the
    connection itself. *)
Inductive netmsg := NETLIB_MSG_CONFIRM | NETLIB_MSG_CLOSE.

Definition imconn_callback (s : state) (msg : netmsg) (handle : Z) : outcome state :=
  match g_msg_conn_map s !! handle with
  | None => Ret s
  | Some p =>
      s ← AddRef s p;
      s ← match msg with NETLIB_MSG_CONFIRM => OnConfirm s p | NETLIB_MSG_CLOSE => OnClose s p end;
      ReleaseRef s p
  end.

(** [SendPduBuf]: the keys of the object are never set. *)
Section Packets.
Context `{GCM}.

Definition SendPduBuf (j : nat -> Z) (garbage : Z) (evp : nat -> bool) (send : list Z -> Z -> outcome Z)
    (m_sharedKeyHex m_ivHex m_aadHex : list Z) (pduBytes : list Z) (size : Z) : outcome Z :=
  pPdu ← CImPdu.ReadPdu j garbage pduBytes size;
  match pPdu with
  | None => UB
  | Some pPdu =>
      if (CImPdu.GetReversed pPdu =? 1) && (0 <? CImPdu.GetBodyLength pPdu) then
        shared_secret ← from_hex m_sharedKeyHex 32;
        iv ← from_hex m_ivHex 16;
        aad ← from_hex m_aadHex 16;
        '(cipherDataLen, cipherData) ← aes_encryption.aes_gcm_encrypt evp (CImPdu.GetBodyData pPdu)
          (i32 (CImPdu.GetBodyLength pPdu)) shared_secret iv (Some aad) (realloc j [] (1024 * 1024));
        pdu1 ← CImPdu.SetPBMsg_raw j j (CImPdu.init garbage) cipherData cipherDataLen;
        pdu1 ← CImPdu.SetServiceId pdu1 0;
        pdu1 ← CImPdu.SetCommandId pdu1 (CImPdu.GetCommandId pPdu);
        pdu1 ← CImPdu.SetSeqNum pdu1 (CImPdu.GetSeqNum pPdu);
        pdu1 ← CImPdu.SetReversed pdu1 (CImPdu.GetReversed pPdu);
        send (CImPdu.GetBuffer pdu1) (i32 (CImPdu.GetLength pdu1))
      else send (CImPdu.GetBuffer pPdu) (i32 (CImPdu.GetLength pPdu))
  end.

End Packets.

(** ** Runs *)

(** A handle of [netlib_connect]: invalid, or the number of a descriptor that
    no registered connection has. *)
Definition fresh_handle (s : state) (h : Z) : Prop :=
  h = NETLIB_INVALID_HANDLE \/ g_msg_conn_map s !! h = None.

Inductive step : state -> state -> Prop :=
| step_account s a : step s (set_current_account_id s a)
| step_reset s : step s (reset_reconnect s)
| step_init s s' now a h :
    fresh_handle s h -> init_msg_conn s now a true h = Ret s' -> step s s'
| step_close s s' fuel o a :
    (forall m, o m ≡ₚ map_to_list m) -> close_msg_conn fuel o s a = Ret s' -> step s s'
| step_tick s s' fuel o j garbage send t h :
    (forall m, o m ≡ₚ map_to_list m) -> fresh_handle s h ->
    msg_conn_timer_callback fuel o j garbage send s t h = Ret s' -> step s s'
| step_net s s' msg h : imconn_callback s msg h = Ret s' -> step s s'
| step_traffic s p c t t' :
    heap s !! p = Some c ->
    step s (set_conn s p (mkConn (m_handle c) (m_bOpen c) (m_accountId c) (m_serv_idx c) t t' (m_refCount c))).

(** A run starts with the delegate set: the first change of state is reported
    to it without a check. *)
Inductive reach : state -> Prop :=
| reach_init : reach (set_delegate init)
| reach_step s s' : reach s -> step s s' -> reach s'.

(** The counters: the delay is a power of two up to 32, and positive whenever
    the connection is closed. *)
Record counters_ok (s : state) : Prop := {
  co_reconnect : reconnect_cnt s ∈ [0; 1; 2; 4; 8; 16; 32];
  co_connecting : 0 <= connecting_cnt s <= 30;
  co_timer : 0 <= timer_cnt s <= 101;
  co_idle : is_u 32 (idle_cnt s);
  co_state : connectionState s ∈ [0; ConnectionStateConnecting; ConnectionStateConnected; ConnectionStateClosed];
  co_closed : connectionState s = ConnectionStateClosed -> 0 < reconnect_cnt s;
}.

(** The maps refer to live objects that know their keys, each held once, and
    once more when it is [pin]ned by a running callback. *)
Record refs_ok (pin : option nat) (s : state) : Prop := {
  ro_handle h p : g_msg_conn_map s !! h = Some p ->
    exists c, heap s !! p = Some c /\ m_handle c = h /\ h <> NETLIB_INVALID_HANDLE /\
      m_refCount c = if decide (pin = Some p) then 2 else 1;
  ro_account a p : g_account_msg_conn_map s !! a = Some p ->
    exists c, heap s !! p = Some c /\ m_accountId c = a /\ g_msg_conn_map s !! m_handle c = Some p;
}.

Definition inv (s : state) : Prop := counters_ok s /\ refs_ok None s /\ m_delegate s = true.

(** An operation that returns keeps the invariant, and none fails: the only
    other outcome is a loop that does not end. *)
Definition safe (x : outcome state) : Prop :=
  match x with Ret s => inv s | NoFuel => True | _ => False end.
(** ** Invariants *)

Lemma client_init_inv : inv (set_delegate init).
Proof.
  split_and!; [constructor|constructor|done]; cbn; try (apply (bool_decide_unpack _); by vm_compute); done || lia.
Qed.

(** The counters after a close. *)
Lemma close_counters s s' :
  counters_ok s ->
  let r := if reconnect_cnt s =? 0 then 1 else u32 (reconnect_cnt s * 2) in
  reconnect_cnt s' = (if MAX_RECONNECT_CNT <? r then 1 else r) ->
  idle_cnt s' = (if MAX_RECONNECT_CNT <? r then 0 else idle_cnt s) ->
  connecting_cnt s' = connecting_cnt s -> timer_cnt s' = timer_cnt s ->
  connectionState s' = ConnectionStateClosed -> counters_ok s'.
Proof.
  intros [Hr Hc Ht Hi _ _] r Er Ei Ec Et Es.
  assert (reconnect_cnt s' ∈ [1; 2; 4; 8; 16; 32]) as Hr'.
  { rewrite Er. unfold r. clear -Hr. repeat (apply list.elem_of_cons in Hr as [->|Hr]); [..|by apply not_elem_of_nil in Hr];
      apply (bool_decide_unpack _); by vm_compute. }
  constructor; [|by rewrite Ec|by rewrite Et| |rewrite Es; apply (bool_decide_unpack _); by vm_compute|].
  - apply list.elem_of_cons. by right.
  - rewrite Ei. case_match; [by vm_compute|done].
  - intros _. repeat (apply list.elem_of_cons in Hr' as [->|Hr']); [..|by apply not_elem_of_nil in Hr']; lia.
Qed.

Lemma refs_frame pin s s' :
  refs_ok pin s -> g_msg_conn_map s' = g_msg_conn_map s -> g_account_msg_conn_map s' = g_account_msg_conn_map s ->
  heap s' = heap s -> refs_ok pin s'.
Proof. intros [H1 H2] E1 E2 E3. constructor; rewrite ?E1, ?E2, ?E3; done. Qed.

Lemma counters_frame s s' :
  counters_ok s -> connectionState s' = connectionState s -> connecting_cnt s' = connecting_cnt s ->
  timer_cnt s' = timer_cnt s -> idle_cnt s' = idle_cnt s -> reconnect_cnt s' = reconnect_cnt s -> counters_ok s'.
Proof. intros [] E1 E2 E3 E4 E5. constructor; rewrite ?E1, ?E2, ?E3, ?E4, ?E5; done. Qed.

(** A registered object that gives up its entries. *)
Lemma refs_remove pin s s' p c :
  refs_ok pin s -> pin = None \/ pin = Some p -> heap s !! p = Some c -> g_msg_conn_map s !! m_handle c = Some p ->
  g_msg_conn_map s' = delete (m_handle c) (g_msg_conn_map s) ->
  g_account_msg_conn_map s' = delete (m_accountId c) (g_account_msg_conn_map s) ->
  (forall q, q <> p -> heap s' !! q = heap s !! q) ->
  refs_ok None s' /\ (forall h, g_msg_conn_map s' !! h <> Some p).
Proof.
  intros [H1 H2] Hpin Hp Hm E1 E2 E3.
  assert (forall h q, g_msg_conn_map s' !! h = Some q -> q <> p /\ g_msg_conn_map s !! h = Some q) as Hq.
  { intros h q. rewrite E1, lookup_delete_Some. intros [Hne Hh]. split; [|done]. intros ->.
    destruct (H1 h p Hh) as (c' & Hc' & Hh' & _). rewrite Hp in Hc'. injection Hc' as <-. done. }
  split; [constructor|].
  - intros h q Hh. destruct (Hq h q Hh) as [Hne Hh']. rewrite E3 by done.
    destruct (H1 h q Hh') as (c' & Hc' & Hch & Hv & Hr). exists c'. split_and!; try done. rewrite Hr.
    rewrite !decide_False; [done|done|]. destruct Hpin as [->| ->]; congruence.
  - intros a q. rewrite E2, lookup_delete_Some. intros [Hne Ha].
    destruct (H2 a q Ha) as (c' & Hc' & Hca & Hch).
    assert (q <> p) as Hqp by (intros ->; rewrite Hp in Hc'; injection Hc' as <-; done).
    rewrite E3 by done. exists c'. split_and!; try done. rewrite E1, lookup_delete_Some. split; [|done].
    intros Heq. rewrite <- Heq, Hm in Hch. by injection Hch.
  - intros h Hh. by apply (Hq h p Hh).
Qed.

(** [Close] of a registered connection: it leaves the maps, and is freed unless
    a callback holds it. *)
Lemma Close_spec pin s p c :
  counters_ok s -> refs_ok pin s -> pin = None \/ pin = Some p ->
  heap s !! p = Some c -> g_msg_conn_map s !! m_handle c = Some p -> m_delegate s = true ->
  exists s', Close s p = Ret s' /\ counters_ok s' /\ refs_ok None s' /\ m_delegate s' = true /\
    connectionState s' = ConnectionStateClosed /\ (forall h, g_msg_conn_map s' !! h <> Some p) /\
    (pin = Some p -> exists c', heap s' !! p = Some c' /\ m_refCount c' = 1) /\
    (forall h, g_msg_conn_map s !! h = None -> g_msg_conn_map s' !! h = None).
Proof.
  intros Hc Hr Hpin Hp Hm Hd. destruct (ro_handle _ _ Hr _ _ Hm) as (c' & Hc' & _ & Hv & Href).
  rewrite Hp in Hc'. injection Hc' as <-.
  unfold Close, deref. cbn [heap set_connectionState]. rewrite Hp. mstep.
  unfold onConnectionStateChanged. cbn [m_delegate set_connectionState]. rewrite Hd. mstep.
  rewrite (proj2 (Z.eqb_neq _ _) Hv). cbn [negb].
  match goal with |- context [ReleaseRef ?x p] => set (s1 := x) end.
  assert (heap s1 = heap s) as Hh by (unfold s1; by destruct (MAX_RECONNECT_CNT <? _)).
  assert (m_delegate s1 = true) as Hd1 by (unfold s1; by destruct (MAX_RECONNECT_CNT <? _)).
  assert (connectionState s1 = ConnectionStateClosed) as Hs1 by (unfold s1; by destruct (MAX_RECONNECT_CNT <? _)).
  assert (g_msg_conn_map s1 = delete (m_handle c) (g_msg_conn_map s)) as Hm1 by (unfold s1; by destruct (MAX_RECONNECT_CNT <? _)).
  assert (g_account_msg_conn_map s1 = delete (m_accountId c) (g_account_msg_conn_map s)) as Ha1 by (unfold s1; by destruct (MAX_RECONNECT_CNT <? _)).
  assert (counters_ok s1) as Hc1.
  { apply (close_counters s); [done|..]; unfold s1; cbn -[Z.mul Z.ltb wrap_u];
      repeat (case_match; cbn [reconnect_cnt idle_cnt connecting_cnt timer_cnt set_reconnect set_idle set_counts] in * ); done. }
  unfold ReleaseRef, deref. rewrite Hh, Hp. mstep. rewrite Href.
  assert (forall s2, (forall q, q <> p -> heap s2 !! q = heap s !! q) -> g_msg_conn_map s2 = g_msg_conn_map s1 ->
    g_account_msg_conn_map s2 = g_account_msg_conn_map s1 ->
    refs_ok None s2 /\ (forall h, g_msg_conn_map s2 !! h <> Some p) /\
    (forall h, g_msg_conn_map s !! h = None -> g_msg_conn_map s2 !! h = None)) as Hrm.
  { intros s2 E1 E2 E3. rewrite Hm1 in E2. rewrite Ha1 in E3.
    destruct (refs_remove pin s s2 p c Hr Hpin Hp Hm E2 E3 E1) as [? ?]. split_and!; try done.
    intros h Hn. rewrite E2, lookup_delete_None. by right. }
  destruct (decide (pin = Some p)) as [->|Hnp]; cbn [Z.sub Z.add Z.opp Z.pos_sub Z.eqb]; eexists.
  - split; [reflexivity|]. destruct (Hrm (set_conn s1 p (with_refs c 1))) as (? & ? & ?); [|done..|].
    { intros q Hq. cbn [heap set_conn set_heap]. rewrite Hh. by apply lookup_insert_ne. }
    split_and!; try done; [by apply (counters_frame s1)|].
    intros _. eexists. split; [apply lookup_insert_eq|done].
  - split; [reflexivity|]. destruct (Hrm (set_heap s1 (delete p (heap s)))) as (? & ? & ?); [|done..|].
    { intros q Hq. cbn [heap set_heap]. by apply lookup_delete_ne. }
    split_and!; try done. by apply (counters_frame s1).
Qed.

Lemma close_safe s p c :
  inv s -> heap s !! p = Some c -> g_msg_conn_map s !! m_handle c = Some p ->
  exists s', Close s p = Ret s' /\ inv s' /\ connectionState s' = ConnectionStateClosed /\
    (forall h, g_msg_conn_map s !! h = None -> g_msg_conn_map s' !! h = None).
Proof.
  intros (Hc & Hr & Hd) Hp Hm.
  destruct (Close_spec None s p c Hc Hr ltac:(by left) Hp Hm Hd) as (s' & E & ? & ? & ? & ? & _ & _ & ?).
  exists s'. by split_and!.
Qed.

Lemma stay_safe fuel first body s (P : state -> Prop) :
  (forall k p, first = Some (k, p) ->
    match body k p with Ret (Some s') => P s' | Ret None => True | NoFuel => True | _ => False end) ->
  (first = None -> P s) ->
  match stay fuel first body s with Ret s' => P s' | NoFuel => True | _ => False end.
Proof.
  intros Hb Hn. induction fuel as [|fuel IH]; [done|]. cbn [stay].
  destruct first as [[k p]|]; [|by apply Hn]. specialize (Hb k p eq_refl).
  by destruct (body k p) as [[s'|]| | |]; mstep.
Qed.

Lemma head_account (o : order) s k p :
  (forall m, o m ≡ₚ map_to_list m) -> refs_ok None s -> head (o (g_account_msg_conn_map s)) = Some (k, p) ->
  exists c, heap s !! p = Some c /\ m_accountId c = k /\ g_msg_conn_map s !! m_handle c = Some p.
Proof.
  intros Ho Hr Hh. destruct (o _) as [|x l] eqn:E; [done|]. injection Hh as ->.
  apply (ro_account _ _ Hr). apply elem_of_map_to_list. rewrite <- Ho, E. apply list.elem_of_cons. by left.
Qed.

(** What every loop over the account map keeps. *)
Definition kept (s s' : state) : Prop :=
  inv s' /\ forall h, g_msg_conn_map s !! h = None -> g_msg_conn_map s' !! h = None.

Lemma close_msg_conn_safe fuel o s a :
  (forall m, o m ≡ₚ map_to_list m) -> inv s ->
  match close_msg_conn fuel o s a with Ret s' => kept s s' | NoFuel => True | _ => False end.
Proof.
  intros Ho Hs. apply stay_safe; [|done]. intros k p Hh. destruct (k =? a); [|done].
  destruct (head_account o s k p Ho (proj1 (proj2 Hs)) Hh) as (c & Hp & _ & Hm).
  unfold deref. rewrite Hp. mstep. destruct (m_bOpen c); [|done].
  destruct (close_safe s p c Hs Hp Hm) as (s' & -> & ? & _ & ?). by mstep.
Qed.

(** The branch of the heartbeat is not taken, whatever it does. *)
Lemma not_logged s : counters_ok s -> (connectionState s =? ConnectionLogged) = false.
Proof.
  intros [_ _ _ _ Hst _]. apply Z.eqb_neq. intros E. rewrite E in Hst.
  by apply (bool_decide_pack _) in Hst; vm_compute in Hst.
Qed.

Lemma OnTimer_safe j garbage send s p c t :
  inv s -> heap s !! p = Some c -> g_msg_conn_map s !! m_handle c = Some p ->
  exists s', OnTimer j garbage send s p t = Ret s' /\ kept s s'.
Proof.
  intros Hs Hp Hm. unfold OnTimer, deref. rewrite Hp. mstep.
  destruct (close_safe s p c Hs Hp Hm) as (s' & E & ? & _ & ?).
  destruct (negb _); [by exists s'|]. rewrite not_logged, andb_false_r by apply Hs. mstep.
  case_match; [by exists s'|by exists s].
Qed.

(** Starting a connection. *)
Lemma init_msg_conn_safe s now a reg h :
  inv s -> fresh_handle s h ->
  exists s' p, init_msg_conn s now a reg h = Ret s' /\ inv s' /\ connectionState s' = ConnectionStateConnecting /\
    heap s !! p = None /\
    heap s' = <[p := mkConn h false a 0 now now 1]> (heap s) /\
    g_account_msg_conn_map s' =
      (if h =? NETLIB_INVALID_HANDLE then g_account_msg_conn_map s else map_insert (g_account_msg_conn_map s) a p) /\
    (connecting_cnt s' = connecting_cnt s /\ idle_cnt s' = idle_cnt s /\ reconnect_cnt s' = reconnect_cnt s /\
     current_account_id s' = current_account_id s).
Proof.
  intros (Hc & Hr & Hd) Hh. unfold init_msg_conn, new_conn. set (p := fresh (dom (heap s))).
  assert (heap s !! p = None) as Hp by (apply not_elem_of_dom, is_fresh).
  unfold Connect, onConnectionStateChanged, deref. cbn [m_delegate set_conn set_heap set_connectionState]. rewrite Hd. mstep.
  cbn [heap emit set_conn set_heap set_connectionState]. rewrite lookup_insert_eq. mstep.
  match goal with |- context [set_maps ?x _ _] => set (s1 := x) end.
  assert (heap s1 = <[p := mkConn h false a 0 now now 1]> (heap s)) as Hh1.
  { unfold s1. cbn [heap emit set_connectionState set_conn set_heap m_bOpen m_last_send_tick m_last_recv_tick m_refCount]. by rewrite insert_insert_eq. }
  assert (forall q, q <> p -> heap s1 !! q = heap s !! q) as Hne by (intros; rewrite Hh1; by apply lookup_insert_ne).
  assert (heap s1 !! p = Some (mkConn h false a 0 now now 1)) as Hp1 by (rewrite Hh1; apply lookup_insert_eq).
  assert (forall s', connectionState s' = ConnectionStateConnecting -> connecting_cnt s' = connecting_cnt s ->
    timer_cnt s' = timer_cnt s -> idle_cnt s' = idle_cnt s -> reconnect_cnt s' = reconnect_cnt s -> counters_ok s') as Hco.
  { destruct Hc. intros s' E1 E2 E3 E4 E5. constructor; rewrite ?E1, ?E2, ?E3, ?E4, ?E5; try done.
    apply (bool_decide_unpack _). by vm_compute. }
  assert (refs_ok None s1) as Hr1.
  { destruct Hr as [R1 R2]. constructor.
    - intros h' q Hq. destruct (R1 h' q Hq) as (c & Hq' & ?). exists c. rewrite Hne; [done|]. by intros ->; rewrite Hp in Hq'.
    - intros a' q Hq. destruct (R2 a' q Hq) as (c & Hq' & ?). exists c. rewrite Hne; [done|]. by intros ->; rewrite Hp in Hq'. }
  destruct (Z.eqb_spec h NETLIB_INVALID_HANDLE) as [Hi|Hi]; cbn [negb]; mstep; eexists _, p.
  - split; [reflexivity|]. split; [split_and!|split_and!]; try (by destruct reg); [apply Hco; by destruct reg|].
    by apply (refs_frame _ s1); destruct reg.
  - split; [reflexivity|]. destruct Hh as [|Hh]; [done|].
    split; [split_and!|split_and!]; try (by destruct reg); [apply Hco; by destruct reg|].
    apply (refs_frame _ (set_maps s1 (map_insert (g_msg_conn_map s1) h p) (map_insert (g_account_msg_conn_map s1) a p)));
      [|by destruct reg..].
    assert (g_msg_conn_map s1 !! h = None) as Hh' by exact Hh.
    destruct Hr1 as [R1 R2]. unfold map_insert at 1. rewrite Hh'. constructor; cbn [g_msg_conn_map g_account_msg_conn_map heap set_maps].
    + intros h' q. destruct (decide (h' = h)) as [->|Hn].
      * rewrite lookup_insert_eq. intros [= <-]. eexists. by split_and!.
      * rewrite lookup_insert_ne by done. apply R1.
    + intros a' q Hq. assert (q = p /\ a' = a \/ g_account_msg_conn_map s1 !! a' = Some q) as [[-> ->]|Hq'].
      { unfold map_insert in Hq. destruct (g_account_msg_conn_map s1 !! a) eqn:Ea; [by right|].
        destruct (decide (a' = a)) as [->|Hn]; [rewrite lookup_insert_eq in Hq; injection Hq as ->; by left|].
        rewrite lookup_insert_ne in Hq by done. by right. }
      * eexists. split; [exact Hp1|]. split; [done|apply lookup_insert_eq].
      * destruct (R2 a' q Hq') as (c & ? & ? & Hcm). exists c. split_and!; try done.
        rewrite lookup_insert_ne; [done|]. intros E. by rewrite <- E, Hh' in Hcm.
Qed.

Lemma OnConfirm_safe s h p :
  inv s -> g_msg_conn_map s !! h = Some p ->
  exists s', imconn_callback s NETLIB_MSG_CONFIRM h = Ret s' /\ inv s' /\ connectionState s' = ConnectionStateConnected.
Proof.
  intros (Hc & [R1 R2] & Hd) Hh. destruct (R1 h p Hh) as (c & Hp & Hch & Hv & Href). cbn in Href.
  unfold imconn_callback. rewrite Hh. unfold AddRef, deref at 1. rewrite Hp. mstep.
  unfold OnConfirm, deref. cbn [heap set_conn set_heap]. rewrite lookup_insert_eq. mstep.
  unfold onConnectionStateChanged. cbn -[Z.eqb insert]. rewrite Hd. mstep.
  unfold ReleaseRef, deref. cbn -[Z.eqb Z.sub insert]. rewrite insert_insert_eq, lookup_insert_eq. mstep.
  cbn -[Z.eqb Z.sub insert]. rewrite Href. change (1 + 1 - 1 =? 0) with false. change (1 + 1 - 1) with 1. cbv iota.
  eexists. split; [reflexivity|]. split; [|done]. split_and!; [| |done].
  - destruct Hc. constructor; cbn; try done; try lia; try (apply (bool_decide_unpack _); by vm_compute).
  - assert (forall q c', heap s !! q = Some c' -> exists c'',
      <[p := with_refs (mkConn (m_handle c) true (m_accountId c) (m_serv_idx c) (m_last_send_tick c) (m_last_recv_tick c) 2) 1]>
        (heap s) !! q = Some c'' /\
      m_handle c'' = m_handle c' /\ m_accountId c'' = m_accountId c' /\ (m_refCount c' = 1 -> m_refCount c'' = 1)) as Hup.
    { intros q c' Hq. destruct (decide (q = p)) as [->|Hn].
      - rewrite lookup_insert_eq. rewrite Hp in Hq. injection Hq as <-. by eexists.
      - rewrite lookup_insert_ne by done. by exists c'. }
    constructor; cbn -[insert lookup]; rewrite ?insert_insert_eq.
    + intros h' q Hq. destruct (R1 h' q Hq) as (c' & Hq' & E1 & E2 & E3). destruct (Hup q c' Hq') as (c'' & ? & F1 & _ & F3).
      exists c''. split_and!; try done; [by rewrite F1|by apply F3].
    + intros a q Hq. destruct (R2 a q Hq) as (c' & Hq' & E1 & E2). destruct (Hup q c' Hq') as (c'' & ? & F1 & F2 & _).
      exists c''. split_and!; try done; [by rewrite F2|by rewrite F1].
Qed.

Lemma OnClose_safe s h p :
  inv s -> g_msg_conn_map s !! h = Some p ->
  exists s', imconn_callback s NETLIB_MSG_CLOSE h = Ret s' /\ inv s' /\ connectionState s' = ConnectionStateClosed.
Proof.
  intros (Hc & Hr & Hd) Hh. destruct (ro_handle _ _ Hr h p Hh) as (c & Hp & Hch & Hv & Href). cbn in Href.
  unfold imconn_callback. rewrite Hh. unfold AddRef, deref. rewrite Hp. mstep. set (s1 := set_conn s p _).
  assert (refs_ok (Some p) s1) as Hr1.
  { destruct Hr as [R1 R2]. constructor; unfold s1; cbn [g_msg_conn_map g_account_msg_conn_map heap set_conn set_heap].
    - intros h' q Hq. destruct (R1 h' q Hq) as (c' & Hq' & E1 & E2 & E3). destruct (decide (Some p = Some q)) as [[= <-]|Hn].
      + rewrite Hp in Hq'. injection Hq' as <-. exists (with_refs c (m_refCount c + 1)).
        rewrite lookup_insert_eq, Href. by split_and!.
      + exists c'. rewrite lookup_insert_ne by congruence. by split_and!.
    - intros a q Hq. destruct (R2 a q Hq) as (c' & Hq' & E1 & E2). destruct (decide (q = p)) as [->|Hn].
      + rewrite Hp in Hq'. injection Hq' as <-. eexists. by rewrite lookup_insert_eq.
      + exists c'. by rewrite lookup_insert_ne. }
  destruct (Close_spec (Some p) s1 p (with_refs c (m_refCount c + 1))) as (s2 & E & ? & [R1 R2] & ? & ? & Hno & Hpin & _);
    try done.
  { by apply (counters_frame s). } { by right. } { apply lookup_insert_eq. } { cbn. by rewrite Hch. }
  unfold OnClose. rewrite E. mstep. destruct (Hpin eq_refl) as (c' & Hc' & Hone).
  unfold ReleaseRef, deref. rewrite Hc'. mstep. rewrite Hone. cbn [Z.sub Z.add Z.opp Z.pos_sub Z.eqb].
  eexists. split; [reflexivity|]. split; [|done]. split_and!; [by apply (counters_frame s2)| |done].
  constructor; cbn [g_msg_conn_map g_account_msg_conn_map heap set_heap].
  - intros h' q Hq. destruct (R1 h' q Hq) as (c2 & ? & ?). exists c2. rewrite lookup_delete_ne; [done|].
    intros ->. by apply (Hno h').
  - intros a q Hq. destruct (R2 a q Hq) as (c2 & ? & ? & Hm). exists c2. rewrite lookup_delete_ne; [done|].
    intros ->. by apply (Hno (m_handle c2)).
Qed.

(** ** The timer *)

(** One call of the timer: what it is given. *)
Record tick := mkTick {
  tk_fuel : nat;
  tk_order : order;
  tk_junk : nat -> Z;
  tk_garbage : Z;
  tk_send : state -> nat -> CImPdu.t -> outcome state;
  tk_time : Z;
  tk_handle : Z;
}.

Definition on_tick (s : state) (t : tick) : outcome state :=
  msg_conn_timer_callback (tk_fuel t) (tk_order t) (tk_junk t) (tk_garbage t) (tk_send t) s (tk_time t) (tk_handle t).

Fixpoint ticks (s : state) (l : list tick) : outcome state :=
  match l with
  | [] => Ret s
  | t :: l => s ← on_tick s t; ticks s l
  end.

Lemma timer_inv s : inv s -> inv (set_timer s (if 100 <? timer_cnt s then 0 else timer_cnt s + 1)).
Proof.
  intros (Hc & Hr & Hd). split_and!; [|by apply (refs_frame _ s)|done]. destruct Hc. constructor; cbn; try done.
  destruct (Z.ltb_spec 100 (timer_cnt s)); lia.
Qed.

Lemma connecting_0 s x : counters_ok s -> counters_ok (set_connecting (set_connecting s x) 0).
Proof. intros []. constructor; cbn; done || lia. Qed.

Lemma on_tick_safe s t :
  (forall m, tk_order t m ≡ₚ map_to_list m) -> inv s -> fresh_handle s (tk_handle t) -> safe (on_tick s t).
Proof.
  intros Ho Hs0 Hh0. unfold on_tick, msg_conn_timer_callback.
  pose proof (timer_inv s Hs0) as Hs. set (s1 := set_timer s _) in *.
  assert (fresh_handle s1 (tk_handle t)) as Hh by exact Hh0. clearbody s1. clear s Hs0 Hh0.
  match goal with |- safe (mbind _ ?x) => assert (match x with Ret s' => kept s1 s' | NoFuel => True | _ => False end) as Hx; [|destruct x as [s2| | |]] end; try done.
  { destruct (connectionState s1 =? ConnectionStateConnected); [|done]. apply stay_safe; [|done]. intros k p Hk.
    destruct (k =? current_account_id s1); [|done].
    destruct (head_account _ s1 k p Ho (proj1 (proj2 Hs)) Hk) as (c & Hp & _ & Hm).
    unfold deref. rewrite Hp. mstep. destruct (m_bOpen c); [|done].
    destruct (OnTimer_safe (tk_junk t) (tk_garbage t) (tk_send t) s1 p c (tk_time t) Hs Hp Hm) as (s' & -> & ?). by mstep. }
  mstep. destruct Hx as [Hs2 Hk2]. assert (fresh_handle s2 (tk_handle t)) as Hh2 by (destruct Hh; [by left|right; by apply Hk2]).
  destruct (0 <? reconnect_cnt s2); [|done].
  set (s3 := if connectionState s2 =? ConnectionStateClosed then _ else s2).
  assert (inv s3 /\ fresh_handle s3 (tk_handle t)) as [Hs3 Hh3].
  { unfold s3. case_match; [|done]. split; [|done]. destruct Hs2 as (Hc & Hr & Hd). split_and!; [|by apply (refs_frame _ s2)|done].
    destruct Hc. constructor; cbn; try done. apply wrap_u_range. lia. }
  clearbody s3. clear s2 Hs2 Hk2 Hh2 s1 Hs Hh.
  set (s4 := if connectionState s3 =? ConnectionStateConnecting then _ else s3).
  assert (fresh_handle s4 (tk_handle t) /\ inv (set_connecting s4 0) /\ (connecting_cnt s4 <= 30 -> inv s4)) as (Hh4 & Hs4 & Hs4').
  { destruct Hs3 as (Hc & Hr & Hd). unfold s4. case_match; split_and!; try done; try (by apply (refs_frame _ s3)).
    - split_and!; [by apply connecting_0|by apply (refs_frame _ s3)|done].
    - intros Hle. split_and!; [|by apply (refs_frame _ s3)|done]. destruct Hc. constructor; cbn -[wrap_u]; try done.
      cbn -[wrap_u] in Hle. rewrite wrap_u_small in * by (unfold is_u; lia). lia.
    - split_and!; [by apply (counters_frame _ _ (connecting_0 s3 0 Hc))|by apply (refs_frame _ s3)|done]. }
  clearbody s4. clear s3 Hs3 Hh3.
  match goal with |- safe (mbind _ ?x) => assert (match x with Ret s' => kept s4 s' | NoFuel => True | _ => False end) as Hx; [|destruct x as [s5| | |]] end; try done.
  { destruct (Z.ltb_spec 30 (connecting_cnt s4)); [|by split; [apply Hs4'|]].
    pose proof (close_msg_conn_safe (tk_fuel t) (tk_order t) (set_connecting s4 0) (current_account_id s4) Ho Hs4) as Hcl.
    by destruct (close_msg_conn _ _ _ _). }
  mstep. destruct Hx as [Hs5 Hk5]. case_match; [|done].
  destruct (init_msg_conn_safe s5 (tk_time t) (current_account_id s5) false (tk_handle t) Hs5) as (s6 & p & -> & ? & _); [|done].
  destruct Hh4; [by left|right; by apply Hk5].
Qed.

Lemma net_safe s msg h : inv s -> safe (imconn_callback s msg h).
Proof.
  intros Hs. destruct (g_msg_conn_map s !! h) as [p|] eqn:E; [|by unfold imconn_callback; rewrite E].
  destruct msg.
  - by destruct (OnConfirm_safe s h p Hs E) as (s' & -> & ? & _).
  - by destruct (OnClose_safe s h p Hs E) as (s' & -> & ? & _).
Qed.

Lemma reset_inv s : inv s -> inv (reset_reconnect s).
Proof.
  intros (Hc & Hr & Hd). unfold reset_reconnect. destruct (Z.ltb_spec 0 (reconnect_cnt s)); [|done].
  split_and!; [|by apply (refs_frame _ s)|done]. destruct Hc. constructor; cbn; try done.
  apply (bool_decide_unpack _). by vm_compute.
Qed.

Lemma traffic_inv s p c t t' :
  inv s -> heap s !! p = Some c ->
  inv (set_conn s p (mkConn (m_handle c) (m_bOpen c) (m_accountId c) (m_serv_idx c) t t' (m_refCount c))).
Proof.
  intros (Hc & [R1 R2] & Hd) Hp. split_and!; [by apply (counters_frame s)| |done].
  set (c1 := mkConn _ _ _ _ t t' _).
  assert (forall q c', heap s !! q = Some c' -> exists c'', <[p := c1]> (heap s) !! q = Some c'' /\
    m_handle c'' = m_handle c' /\ m_accountId c'' = m_accountId c' /\ m_refCount c'' = m_refCount c') as Hup.
  { intros q c' Hq. destruct (decide (q = p)) as [->|Hn].
    - rewrite lookup_insert_eq. rewrite Hp in Hq. injection Hq as <-. by exists c1.
    - rewrite lookup_insert_ne by done. by exists c'. }
  constructor; cbn [g_msg_conn_map g_account_msg_conn_map heap set_conn set_heap].
  - intros h q Hq. destruct (R1 h q Hq) as (c' & Hq' & E1 & E2 & E3). destruct (Hup q c' Hq') as (c'' & ? & F1 & _ & F3).
    exists c''. by rewrite F1, F3.
  - intros a q Hq. destruct (R2 a q Hq) as (c' & Hq' & E1 & E2). destruct (Hup q c' Hq') as (c'' & ? & F1 & F2 & _).
    exists c''. by rewrite F1, F2.
Qed.

Lemma client_step_inv s s' : inv s -> step s s' -> inv s'.
Proof.
  intros Hs Hstep. destruct Hstep as [s a|s|s s' now a h Hh E|s s' fuel o a Ho E|s s' fuel o j g send t h Ho Hh E|s s' msg h E|s p c t t' Hp].
  - destruct Hs as (Hc & Hr & Hd). split_and!; [by apply (counters_frame s)|by apply (refs_frame _ s)|done].
  - by apply reset_inv.
  - destruct (init_msg_conn_safe s now a true h Hs Hh) as (s2 & p & E2 & ? & _). rewrite E in E2. by injection E2 as ->.
  - pose proof (close_msg_conn_safe fuel o s a Ho Hs) as H. rewrite E in H. by destruct H.
  - pose proof (on_tick_safe s (mkTick fuel o j g send t h) Ho Hs Hh) as H. unfold on_tick in H. cbn in H. by rewrite E in H.
  - pose proof (net_safe s msg h Hs) as H. by rewrite E in H.
  - by apply traffic_inv.
Qed.

Lemma client_reach_inv s : reach s -> inv s.
Proof. induction 1; [apply client_init_inv|]. by eapply client_step_inv. Qed.

(** A tick of a closed client counts, and starts a connection when the count
    reaches the delay. *)
Lemma closed_tick s t :
  inv s -> connectionState s = ConnectionStateClosed -> idle_cnt s + 1 < 2 ^ 32 ->
  exists s', inv s' /\ connectionState s' = ConnectionStateClosed /\ reconnect_cnt s' = reconnect_cnt s /\
    idle_cnt s' = idle_cnt s + 1 /\ current_account_id s' = current_account_id s /\ g_msg_conn_map s' = g_msg_conn_map s /\
    on_tick s t =
      if reconnect_cnt s <=? idle_cnt s + 1
      then init_msg_conn s' (tk_time t) (current_account_id s) false (tk_handle t) else Ret s'.
Proof.
  intros Hs0 Hst Hi. unfold on_tick, msg_conn_timer_callback. pose proof (timer_inv s Hs0) as Hs. set (s1 := set_timer s _) in *.
  pose proof (co_closed s (proj1 Hs0) Hst) as Hpos. pose proof (co_idle s (proj1 Hs0)) as Hiu.
  pose proof (co_connecting s (proj1 Hs0)) as Hcc.
  exists (set_idle s1 (idle_cnt s + 1)). split_and!; try done.
  { destruct Hs as (Hc & Hr & Hd). split_and!; [|by apply (refs_frame _ s1)|done]. destruct Hc. constructor; cbn -[Z.add]; try done.
    unfold is_u in *. lia. }
  assert (connectionState s1 = ConnectionStateClosed) as E1 by exact Hst.
  rewrite E1. change (ConnectionStateClosed =? ConnectionStateConnected) with false. cbv iota. mstep.
  change (reconnect_cnt s1) with (reconnect_cnt s). rewrite (proj2 (Z.ltb_lt _ _) Hpos). rewrite E1, Z.eqb_refl.
  change (idle_cnt s1) with (idle_cnt s). rewrite wrap_u_small by (unfold is_u in *; lia).
  change (connectionState (set_idle s1 (idle_cnt s + 1))) with (connectionState s1). rewrite E1.
  change (ConnectionStateClosed =? ConnectionStateConnecting) with false. cbv iota.
  change (connecting_cnt (set_idle s1 (idle_cnt s + 1))) with (connecting_cnt s). rewrite (proj2 (Z.ltb_ge _ _)) by lia. mstep.
  change (connectionState (set_idle s1 (idle_cnt s + 1))) with (connectionState s1). rewrite E1, Z.eqb_refl, andb_true_r. done.
Qed.

(** The number of ticks a closed client waits. *)
Definition delay (s : state) : Z := Z.max 1 (reconnect_cnt s - idle_cnt s).

Lemma closed_waits l : forall s,
  inv s -> connectionState s = ConnectionStateClosed -> zlen l < delay s -> idle_cnt s < 2 ^ 32 - 1 ->
  exists s', ticks s l = Ret s' /\ inv s' /\ connectionState s' = ConnectionStateClosed /\
    reconnect_cnt s' = reconnect_cnt s /\ idle_cnt s' = idle_cnt s + zlen l /\
    current_account_id s' = current_account_id s /\ g_msg_conn_map s' = g_msg_conn_map s.
Proof.
  induction l as [|t l IH]; intros s Hs Hst Hl Hi.
  { exists s. split_and!; try done. rewrite zlen_nil. lia. }
  rewrite zlen_cons in *. pose proof (zlen_nonneg l). unfold delay in Hl.
  destruct (closed_tick s t Hs Hst ltac:(lia)) as (s1 & H1 & H2 & H3 & H4 & H5 & H6 & E).
  rewrite (proj2 (Z.leb_gt _ _)) in E by lia. cbn [ticks]. rewrite E. mstep.
  assert (reconnect_cnt s <= 32) as Hr.
  { destruct Hs as ([Hr _ _ _ _ _] & _). repeat (apply list.elem_of_cons in Hr as [->|Hr]; [lia|]). by apply not_elem_of_nil in Hr. }
  destruct (IH s1 H1 H2) as (s2 & ? & ? & ? & E1 & E2 & E3 & E4); [unfold delay; lia|lia|].
  exists s2. rewrite E1, E2, E3, E4, H3, H4, H5, H6. split_and!; try done. lia.
Qed.

(** A closed client reconnects: in every state the client can reach, when
    the connection is closed, the timer waits exactly [delay] seconds (at most
    32) and then starts a connection for the current account, whatever the
    order in which maps are visited. *)
Theorem closed_reconnects (s : state) (l : list tick) (t : tick) :
  reach s -> connectionState s = ConnectionStateClosed -> idle_cnt s < 2 ^ 32 - 1 ->
  zlen l + 1 = delay s -> fresh_handle s (tk_handle t) ->
  delay s <= 32 /\
  exists s1 s2 p, ticks s l = Ret s1 /\ connectionState s1 = ConnectionStateClosed /\
    on_tick s1 t = Ret s2 /\ connectionState s2 = ConnectionStateConnecting /\
    heap s2 !! p = Some (mkConn (tk_handle t) false (current_account_id s) 0 (tk_time t) (tk_time t) 1).
Proof.
  intros Hs%client_reach_inv Hst Hi Hl Hh. pose proof (zlen_nonneg l).
  destruct (closed_waits l s Hs Hst ltac:(lia) Hi) as (s1 & E1 & H1 & H2 & H3 & H4 & H5 & H6).
  pose proof (co_idle s (proj1 Hs)) as Hiu. unfold is_u in Hiu.
  assert (reconnect_cnt s <= 32) as Hr.
  { destruct Hs as ([Hr _ _ _ _ _] & _). repeat (apply list.elem_of_cons in Hr as [->|Hr]; [lia|]). by apply not_elem_of_nil in Hr. }
  unfold delay in *. split; [lia|].
  destruct (closed_tick s1 t H1 H2 ltac:(lia)) as (s1' & F1 & F2 & F3 & F4 & F5 & F6 & E2).
  rewrite (proj2 (Z.leb_le _ _)) in E2 by lia.
  destruct (init_msg_conn_safe s1' (tk_time t) (current_account_id s1) false (tk_handle t) F1) as (s2 & p & E3 & _ & G1 & _ & G2 & _).
  { destruct Hh as [Hh|Hh]; [by left|right]. by rewrite F6, H6. }
  exists s1, s2, p. split_and!; try done; [by rewrite E2|]. by rewrite G2, lookup_insert_eq, H5.
Qed.

(** C27. No operation of the client touches a freed connection, whatever the
    order of events: in every reachable state each operation keeps the
    invariant or does not end. *)
Theorem client_operations_safe (s : state) :
  reach s ->
  inv s /\
  (forall t, (forall m, tk_order t m ≡ₚ map_to_list m) -> fresh_handle s (tk_handle t) -> safe (on_tick s t)) /\
  (forall msg h, safe (imconn_callback s msg h)) /\
  (forall fuel o a, (forall m, o m ≡ₚ map_to_list m) -> safe (close_msg_conn fuel o s a)) /\
  (forall now a h, fresh_handle s h -> safe (init_msg_conn s now a true h)).
Proof.
  intros Hs%client_reach_inv. split_and!; [done|by intros; apply on_tick_safe|by intros; apply net_safe|..].
  - intros fuel o a Ho. pose proof (close_msg_conn_safe fuel o s a Ho Hs) as H. destruct (close_msg_conn _ _ _ _); by try apply H.
  - intros now a h Hh. by destruct (init_msg_conn_safe s now a true h Hs Hh) as (s' & p & -> & ? & _).
Qed.

(** The loop of [close_msg_conn] stays on an entry that is not open. *)
Lemma close_stays fuel o s a p c :
  (forall m, o m ≡ₚ map_to_list m) -> g_account_msg_conn_map s = {[a := p]} -> heap s !! p = Some c -> m_bOpen c = false ->
  close_msg_conn fuel o s a = NoFuel.
Proof.
  intros Ho Hm Hp Hb. unfold close_msg_conn. rewrite Hm.
  assert (o {[a := p]} = [(a, p)]) as ->.
  { apply Permutation_length_1_inv. rewrite (Ho {[a := p]}). by rewrite map_to_list_singleton. }
  assert (deref s p = Ret c) as Hde by (unfold deref; by rewrite Hp).
  cbn [head]. induction fuel as [|fuel IH]; [done|]. cbn [stay]. rewrite Z.eqb_refl, Hde. mstep. rewrite Hb. by mstep.
Qed.

(** A tick of a client whose connection is being established. *)
Lemma connecting_tick s t :
  inv s -> connectionState s = ConnectionStateConnecting -> 0 < reconnect_cnt s ->
  let s1 := set_connecting (set_timer s (if 100 <? timer_cnt s then 0 else timer_cnt s + 1)) (connecting_cnt s + 1) in
  (connecting_cnt s < 30 -> on_tick s t = Ret s1) /\
  (connecting_cnt s = 30 -> close_msg_conn (tk_fuel t) (tk_order t) (set_connecting s1 0) (current_account_id s) = NoFuel ->
   on_tick s t = NoFuel).
Proof.
  intros Hs Hst Hr. pose proof (co_connecting s (proj1 Hs)) as Hcc. unfold on_tick, msg_conn_timer_callback. set (s0 := set_timer s _).
  assert (connectionState s0 = ConnectionStateConnecting) as E1 by exact Hst. rewrite E1.
  change (ConnectionStateConnecting =? ConnectionStateConnected) with false. cbv iota zeta. mstep.
  change (reconnect_cnt s0) with (reconnect_cnt s). rewrite (proj2 (Z.ltb_lt _ _) Hr), E1.
  change (ConnectionStateConnecting =? ConnectionStateClosed) with false. cbv iota. rewrite E1, Z.eqb_refl.
  change (connecting_cnt s0) with (connecting_cnt s). rewrite wrap_u_small by (unfold is_u; lia).
  set (s1 := set_connecting s0 (connecting_cnt s + 1)). change (connecting_cnt s1) with (connecting_cnt s + 1). split; intros Hc.
  - rewrite (proj2 (Z.ltb_ge _ _)) by lia. mstep. assert (connectionState s1 = ConnectionStateConnecting) as -> by exact Hst.
    by rewrite andb_false_r.
  - rewrite (proj2 (Z.ltb_lt _ _)) by lia. change (current_account_id s1) with (current_account_id s).
    by intros ->.
Qed.

(** Giving up an attempt hangs the client: while the only connection of the
    account is being established after an earlier one was lost, the timer counts
    to 31, and the next call never returns, because [close_msg_conn] looks for an
    open connection and never moves its iterator. *)
Theorem connecting_timeout_hangs (l : list tick) (t : tick) : forall (s : state) (p : nat) (c : conn),
  Forall (fun t => forall m, tk_order t m ≡ₚ map_to_list m) (t :: l) ->
  inv s -> connectionState s = ConnectionStateConnecting -> 0 < reconnect_cnt s ->
  g_account_msg_conn_map s = {[current_account_id s := p]} -> heap s !! p = Some c -> m_bOpen c = false ->
  zlen l = 30 - connecting_cnt s ->
  exists s1, ticks s l = Ret s1 /\ on_tick s1 t = NoFuel.
Proof.
  induction l as [|t' l IH]; intros s p c Ho Hs Hst Hr Hm Hp Hb Hl.
  - exists s. split; [done|]. apply Forall_cons_1 in Ho as [Ho _]. change (zlen []) with 0 in Hl.
    apply (connecting_tick s t Hs Hst Hr); [lia|]. by apply (close_stays _ _ _ _ p c).
  - apply Forall_cons_1 in Ho as [Ho Ho']. apply Forall_cons_1 in Ho' as [Ho1 Ho2].
    rewrite zlen_cons in Hl. pose proof (zlen_nonneg l). pose proof (co_connecting s (proj1 Hs)) as Hcc.
    cbn [ticks]. rewrite (proj1 (connecting_tick s t' Hs Hst Hr)) by lia. mstep.
    apply (IH _ p c); try done; [by constructor| |cbn [connecting_cnt set_connecting set_counts]; lia].
    destruct (timer_inv s Hs) as (Hc & Hrf & Hd). split_and!; [|by apply (refs_frame _ _ _ Hrf)|done].
    destruct Hc. constructor; cbn -[Z.add]; try done. lia.
Qed.

(** ** Concrete runs *)

Definition ret_or (d : state) (x : outcome state) : state := match x with Ret s => s | _ => d end.

(** A connection that was refused. *)
Definition demo_started : state := ret_or init (init_msg_conn (set_delegate init) 100 0 true 5).
Definition demo_closed : state := ret_or init (imconn_callback demo_started NETLIB_MSG_CLOSE 5).
Definition demo_tick : tick := mkTick 10 map_to_list (fun _ => 0) 0 (fun s _ _ => Ret s) 1100 6.
Definition demo_again : state := ret_or init (on_tick demo_closed demo_tick).

Lemma demo_closed_reach : reach demo_closed.
Proof.
  apply (reach_step demo_started).
  - apply (reach_step (set_delegate init)); [constructor|]. apply (step_init _ _ 100 0 5); [by right|]. by vm_compute.
  - apply (step_net _ _ NETLIB_MSG_CLOSE 5). by vm_compute.
Qed.

Lemma demo_again_reach : reach demo_again.
Proof.
  apply (reach_step demo_closed); [apply demo_closed_reach|].
  apply (step_tick _ _ 10 map_to_list (fun _ => 0) 0 (fun s _ _ => Ret s) 1100 6); [done|by right|]. by vm_compute.
Qed.

Lemma closed_reconnects_witness :
  exists s2 p, on_tick demo_closed demo_tick = Ret s2 /\ connectionState s2 = ConnectionStateConnecting /\
    heap s2 !! p = Some (mkConn 6 false 0 0 1100 1100 1).
Proof.
  destruct (closed_reconnects demo_closed [] demo_tick) as (_ & s1 & s2 & p & H1 & _ & H2 & H3 & H4).
  - apply demo_closed_reach.
  - by vm_compute.
  - by vm_compute.
  - by vm_compute.
  - by right.
  - injection H1 as <-. exists s2, p. split; [exact H2|]. split; [exact H3|exact H4].
Defined.

Lemma client_operations_safe_witness : safe (imconn_callback demo_closed NETLIB_MSG_CONFIRM 5).
Proof. apply (client_operations_safe demo_closed). apply demo_closed_reach. Defined.

Lemma connecting_timeout_hangs_witness :
  exists s1, ticks demo_again (replicate 30 demo_tick) = Ret s1 /\ on_tick s1 demo_tick = NoFuel.
Proof.
  apply (connecting_timeout_hangs (replicate 30 demo_tick) demo_tick demo_again (fresh (dom (heap demo_closed)))
    (mkConn 6 false 0 0 1100 1100 1)).
  - change (demo_tick :: replicate 30 demo_tick) with (replicate 31 demo_tick). apply Forall_replicate. done.
  - apply client_reach_inv, demo_again_reach.
  - by vm_compute.
  - by vm_compute.
  - by vm_compute.
  - by vm_compute.
  - done.
  - by vm_compute.
Defined.

(** The keys of a client connection are never set: sending an encrypted packet
    reads past the end of an empty text. *)
Lemma unset_keys_overread `{GCM} j garbage evp send pduBytes size p :
  CImPdu.ReadPdu j garbage pduBytes size = Ret (Some p) ->
  CImPdu.GetReversed p = 1 -> 0 < CImPdu.GetBodyLength p ->
  SendPduBuf j garbage evp send [] [] [] pduBytes size = UB.
Proof.
  intros Hp Hr Hb. unfold SendPduBuf. rewrite Hp. mstep. rewrite Hr, (proj2 (Z.ltb_lt _ _) Hb). done.
Qed.

End CClientConn.
