(* ===== verification/Base58.v ===== *)
(** * Base58

    Models src/src/ptp_crypto/base58.cpp (without the Graphene variant, which the
    build leaves out) and hasher.cpp: the texts of extended keys.  A text is
    the sequence of its characters; the null character after it is part of the
    memory the code reads.

    The specification is positional notation: [num b l] is the number whose
    digits in base [b] are [l].  The code multiplies in words of 32 bits one way
    and in single digits with a moving bound the other way. *)

From S2P Require Import Prelude Words Hash Sha2.

(** ** hasher.cpp *)

Module hasher.

Definition HASHER_DIGEST_LENGTH : Z := 32.

Inductive HasherType := HASHER_SHA2 | HASHER_BLAKE | HASHER_SHA2D | HASHER_BLAKED.

Record Hasher := mkHasher {
  type : HasherType;
  sha2_ctx : ctx;
}.

Definition uses_sha2 (t : HasherType) : bool :=
  match t with HASHER_SHA2 | HASHER_SHA2D => true | _ => false end.

(** [garbage] is what the context holds when nothing initialises it. *)
Definition hasher_Init (garbage : ctx) (t : HasherType) : Hasher :=
  mkHasher t (if uses_sha2 t then sha256_Init else garbage).

Definition hasher_Reset (h : Hasher) : Hasher := hasher_Init (sha2_ctx h) (type h).

Definition hasher_Update (h : Hasher) (data : list Z) (length : Z) : outcome Hasher :=
  if uses_sha2 (type h) then c ← sha256_Update (sha2_ctx h) data length; Ret (mkHasher (type h) c)
  else Ret h.

(** The double variants hash the digest again, in place. *)
Definition final_once (h : Hasher) (hash : list Z) : outcome (list Z) :=
  if uses_sha2 (type h) then
    '(_, d) ← sha256_Final (sha2_ctx h);
    mem_write hash 0 d
  else Ret hash.

Definition raw_once (garbage : ctx) (t : HasherType) (data : list Z) (length : Z) (hash : list Z) : outcome (list Z) :=
  h ← hasher_Update (hasher_Init garbage t) data length;
  final_once h hash.

Definition hasher_Final (garbage : ctx) (h : Hasher) (hash : list Z) : outcome (list Z) :=
  hash ← final_once h hash;
  match type h with
  | HASHER_SHA2D => raw_once garbage HASHER_SHA2 hash HASHER_DIGEST_LENGTH hash
  | HASHER_BLAKED => raw_once garbage HASHER_BLAKE hash HASHER_DIGEST_LENGTH hash
  | _ => Ret hash
  end.

Definition hasher_Raw (garbage : ctx) (t : HasherType) (data : list Z) (length : Z) (hash : list Z) : outcome (list Z) :=
  h ← hasher_Update (hasher_Init garbage t) data length;
  hasher_Final garbage h hash.

End hasher.

(** ** base58.cpp *)

Module base58.
Import hasher.

Definition b58digits_map : list Z :=
  [-1; -1; -1; -1; -1; -1; -1; -1; -1; -1; -1; -1; -1; -1; -1; -1;
   -1; -1; -1; -1; -1; -1; -1; -1; -1; -1; -1; -1; -1; -1; -1; -1;
   -1; -1; -1; -1; -1; -1; -1; -1; -1; -1; -1; -1; -1; -1; -1; -1;
   -1; 0; 1; 2; 3; 4; 5; 6; 7; 8; -1; -1; -1; -1; -1; -1;
   -1; 9; 10; 11; 12; 13; 14; 15; 16; -1; 17; 18; 19; 20; 21; -1;
   22; 23; 24; 25; 26; 27; 28; 29; 30; 31; 32; -1; -1; -1; -1; -1;
   -1; 33; 34; 35; 36; 37; 38; 39; 40; 41; 42; 43; -1; 44; 45; 46;
   47; 48; 49; 50; 51; 52; 53; 54; 55; 56; 57; -1; -1; -1; -1; -1].

Definition b58digits_ordered : list Z := bytes_of "123456789ABCDEFGHJKLMNPQRSTUVWXYZabcdefghijkmnopqrstuvwxyz".

(** The number of leading elements equal to [x]. *)
Fixpoint lead (x : Z) (l : list Z) : Z :=
  match l with
  | [] => 0
  | y :: l => if y =? x then 1 + lead x l else 0
  end.

(** [for (j = outisz; j--;)]: multiply the words by 58 and add [c]; the carry. *)
Fixpoint mul_add (outi : list Z) (c : Z) : list Z * Z :=
  match outi with
  | [] => ([], c)
  | x :: outi =>
      let '(outi, c) := mul_add outi c in
      let t := u64 (x * 58 + c) in
      (Z.land t 0xffffffff :: outi, Z.shiftr (Z.land t 0x3f00000000) 32)
  end.

(** The digits after the leading ones; [None] is [return false]. *)
Fixpoint decode_digits (zeromask : Z) (outi s : list Z) : outcome (option (list Z)) :=
  match s with
  | [] => Ret (Some outi)
  | x :: s =>
      if negb (Z.land x 0x80 =? 0) then Ret None else
      d ← mem_get b58digits_map x;
      if d =? -1 then Ret None else
      let '(outi, c) := mul_add outi d in
      if negb (c =? 0) then Ret None else
      o ← mem_get outi 0;
      if negb (Z.land o zeromask =? 0) then Ret None else
      decode_digits zeromask outi s
  end.

Definition word_bytes (o : Z) : list Z :=
  [Z.land (Z.shiftr o 0x18) 0xff; Z.land (Z.shiftr o 0x10) 0xff; Z.land (Z.shiftr o 8) 0xff; Z.land (Z.shiftr o 0) 0xff].

(** The bytes stored: [bytesleft] of the first word, then whole words. *)
Definition out_bytes (bytesleft : Z) (outi : list Z) : list Z :=
  match outi with
  | [] => []
  | o :: rest =>
      (if bytesleft =? 3 then [Z.shiftr (Z.land o 0xff0000) 16; Z.shiftr (Z.land o 0xff00) 8; Z.land o 0xff]
       else if bytesleft =? 2 then [Z.shiftr (Z.land o 0xff00) 8; Z.land o 0xff]
       else if bytesleft =? 1 then [Z.land o 0xff] else word_bytes o)
      ++ concat (map word_bytes rest)
  end.

(** The loop that counts the canonical size. *)
Fixpoint count_size (zerocount i : Z) (binu : list Z) (binszp : Z) : bool * Z :=
  match binu with
  | [] => (true, binszp)
  | b :: binu =>
      if negb (b =? 0) then (negb (i <? zerocount), binszp)
      else count_size zerocount (i + 1) binu (binszp - 1)
  end.

(** The result, the memory [bin] and the size. *)
Definition b58tobin (bin : list Z) (binsz : Z) (b58 : list Z) : outcome (bool * list Z * Z) :=
  let outisz := (binsz + 3) / 4 in
  let outi := replicate (Z.to_nat outisz) 0 in
  let bytesleft := binsz mod 4 in
  let zeromask := if negb (bytesleft =? 0) then u32 (Z.shiftl 0xffffffff (bytesleft * 8)) else 0 in
  let zerocount := lead 49 b58 in
  r ← decode_digits zeromask outi (zdrop zerocount b58);
  match r with
  | None => Ret (false, bin, binsz)
  | Some outi =>
      bin ← mem_write bin 0 (out_bytes bytesleft outi);
      let '(ok, size) := count_size (u32 zerocount) 0 (ztake binsz bin) binsz in
      Ret (ok, bin, if ok then size + u32 zerocount else size)
  end.

(** [for (carry = bin[i], j = size - 1; (j > high) || carry; --j)]; [fuel] is one
    more than the size of the buffer. *)
Fixpoint carry_loop (fuel : nat) (buf : list Z) (j high carry : Z) : outcome (list Z * Z) :=
  match fuel with
  | O => NoFuel
  | S fuel =>
      if (high <? j) || negb (carry =? 0) then
        x ← mem_get buf j;
        let carry := carry + 256 * x in
        buf ← mem_write buf j [carry mod 58];
        carry_loop fuel buf (j - 1) high (carry / 58)
      else Ret (buf, j)
  end.

Fixpoint enc_bytes (bin buf : list Z) (high : Z) : outcome (list Z) :=
  match bin with
  | [] => Ret buf
  | b :: bin =>
      '(buf, j) ← carry_loop (S (S (length buf))) buf (zlen buf - 1) high b;
      enc_bytes bin buf j
  end.

Fixpoint digit_chars (ds : list Z) : outcome (list Z) :=
  match ds with
  | [] => Ret []
  | d :: ds => c ← mem_get b58digits_ordered d; cs ← digit_chars ds; Ret (c :: cs)
  end.

(** The result, the memory [outb58] and the size. *)
Definition b58enc (outb58 : list Z) (b58sz : Z) (data : list Z) (binsz : Z) : outcome (bool * list Z * Z) :=
  bin ← mem_read data 0 binsz;
  let zcount := lead 0 bin in
  let size := u64 ((binsz - zcount) * 138) / 100 + 1 in
  buf ← enc_bytes (zdrop zcount bin) (replicate (Z.to_nat size) 0) (size - 1);
  let j := lead 0 buf in
  let n := zcount + size - j in
  if b58sz <=? n then Ret (false, outb58, n + 1)
  else
    out ← mem_write outb58 0 (replicate (Z.to_nat zcount) 49);
    cs ← digit_chars (zdrop j buf);
    out ← mem_write out zcount cs;
    out ← mem_write out n [0];
    Ret (true, out, n + 1).

Fixpoint memcmp (a b : list Z) : Z :=
  match a, b with
  | x :: a, y :: b => if x =? y then memcmp a b else x - y
  | _, _ => 0
  end.

(** [for (i = 0; binc[i] == 0 && base58str[i] == '1'; ++i)]. *)
Fixpoint zeros_loop (fuel : nat) (d str : list Z) (off i : Z) : outcome Z :=
  match fuel with
  | O => NoFuel
  | S fuel =>
      b ← mem_get d (off + i);
      if b =? 0 then
        c ← mem_get str i;
        if c =? 49 then zeros_loop fuel d str off (i + 1) else Ret i
      else Ret i
  end.

(** [bin] points [off] bytes into the allocation [d]. *)
Definition b58check (garbage : ctx) (junk : list Z) (d : list Z) (off binsz : Z) (t : HasherType) (base58str : list Z) : outcome Z :=
  if binsz <? 4 then Ret (-4) else
  bin ← mem_read d off (binsz - 4);
  buf ← hasher_Raw garbage t bin (binsz - 4) junk;
  sum ← mem_read d (off + (binsz - 4)) 4;
  if 0 <? memcmp sum (ztake 4 buf) then Ret (-1) else
  let str := base58str ++ [0] in
  i ← zeros_loop (S (length d)) d str off 0;
  b ← mem_get d (off + i);
  if b =? 0 then Ret (-3) else
  c ← mem_get str i;
  if c =? 49 then Ret (-3) else
  mem_get d off.

Definition base58_encode_check (garbage : ctx) (data : list Z) (datalen : Z) (t : HasherType) (str : list Z) (strsize : Z) :
    outcome (Z * list Z) :=
  if 128 <? datalen then Ret (0, str) else
  let buf := replicate (Z.to_nat (datalen + 32)) 0 in
  bytes ← mem_read data 0 datalen;
  buf ← mem_write buf 0 bytes;
  hash ← hasher_Raw garbage t data datalen (zdrop datalen buf);
  buf ← mem_write buf datalen hash;
  '(success, str, res) ← b58enc str strsize buf (datalen + 4);
  Ret (if success : bool then res else 0, str).

Definition base58_decode_check (garbage : ctx) (junk : list Z) (str : list Z) (t : HasherType) (data : list Z) (datalen : Z) :
    outcome (Z * list Z) :=
  if 128 <? datalen then Ret (0, data) else
  let d := replicate (Z.to_nat (datalen + 4)) 0 in
  '(ok, d, res) ← b58tobin d (datalen + 4) str;
  if negb ok then Ret (0, data) else
  let off := datalen + 4 - res in
  r ← b58check garbage junk d off res t str;
  if r <? 0 then Ret (0, data) else
  nd ← mem_read d off (res - 4);
  data ← mem_write data 0 nd;
  Ret (res - 4, data).

End base58.

(** ** Positional notation *)

Section Numbers.
Import base58.

Fixpoint num (b : Z) (l : list Z) : Z :=
  match l with
  | [] => 0
  | x :: l => x * b ^ zlen l + num b l
  end.

Definition digits (b : Z) (l : list Z) : Prop := Forall (fun x => 0 <= x < b) l.

Lemma num_app b l1 l2 : 0 <= b -> num b (l1 ++ l2) = num b l1 * b ^ zlen l2 + num b l2.
Proof.
  intros Hb. induction l1 as [|x l1 IH]; [cbn; lia|]. cbn [num app]. rewrite IH, zlen_app, Z.pow_add_r by apply zlen_nonneg. ring.
Qed.

Lemma num_range b l : 0 < b -> digits b l -> 0 <= num b l < b ^ zlen l.
Proof.
  intros Hb. induction 1 as [|x l Hx _ IH]; [change (zlen []) with 0; cbn; lia|]. cbn [num]. rewrite zlen_cons, Z.pow_add_r by (lia || apply zlen_nonneg).
  rewrite Z.pow_1_r. nia.
Qed.

Lemma num_zeros b n l : num b (replicate n 0 ++ l) = num b l.
Proof. induction n as [|n IH]; [done|]. cbn [replicate app num]. rewrite IH. lia. Qed.

(** Numbers of the same length have one notation. *)
Lemma num_inj b l1 : forall l2, 0 < b -> digits b l1 -> digits b l2 -> length l1 = length l2 -> num b l1 = num b l2 -> l1 = l2.
Proof.
  induction l1 as [|x l1 IH]; intros [|y l2] Hb H1 H2 Hl E; [done..|].
  apply Forall_cons_1 in H1 as [Hx H1]. apply Forall_cons_1 in H2 as [Hy H2]. injection Hl as Hl. cbn [num] in E.
  pose proof (num_range b l1 Hb H1) as R1. pose proof (num_range b l2 Hb H2) as R2.
  assert (zlen l1 = zlen l2) as Hz by (unfold zlen; by rewrite Hl). rewrite Hz in *.
  assert (x = y) as -> by nia. f_equal. apply IH; try done. lia.
Qed.

Lemma num_lead b x l : 0 < b -> digits b (x :: l) -> x <> 0 -> b ^ zlen l <= num b (x :: l).
Proof.
  intros Hb Hd Hx. apply Forall_cons_1 in Hd as [Hx' Hd]. pose proof (num_range b l Hb Hd). cbn [num]. nia.
Qed.

(** Without leading zeros, whatever the lengths. *)
Definition canonical (l : list Z) : Prop := match l with [] => True | x :: _ => x <> 0 end.

Lemma canonical_len b l1 l2 :
  0 < b -> digits b l1 -> digits b l2 -> canonical l2 -> num b l1 = num b l2 -> (length l2 <= length l1)%nat.
Proof.
  intros Hb H1 H2 C2 E. destruct l2 as [|y l2]; [cbn; lia|]. pose proof (num_lead b y l2 Hb H2 C2) as L2.
  pose proof (num_range b l1 Hb H1) as R1.
  assert (zlen l2 < zlen l1); [|unfold zlen in *; cbn [length]; lia]. apply (Z.pow_lt_mono_r_iff b); [|apply zlen_nonneg|lia].
  apply Forall_cons_1 in H2 as [Hy _]. cbn in C2. lia.
Qed.

Lemma canonical_inj b l1 l2 :
  0 < b -> digits b l1 -> digits b l2 -> canonical l1 -> canonical l2 -> num b l1 = num b l2 -> l1 = l2.
Proof.
  intros Hb H1 H2 C1 C2 E. apply (num_inj b); try done. apply Nat.le_antisymm.
  - by apply (canonical_len b l2 l1).
  - by apply (canonical_len b l1 l2).
Qed.

(** Cutting off what leads. *)
Lemma lead_range x l : 0 <= lead x l <= zlen l.
Proof. induction l as [|y l IH]; cbn [lead]; [done|]. rewrite zlen_cons. destruct (y =? x); pose proof (zlen_nonneg l); lia. Qed.

Lemma lead_split x l : l = replicate (Z.to_nat (lead x l)) x ++ zdrop (lead x l) l.
Proof.
  induction l as [|y l IH]; [done|]. cbn [lead]. destruct (Z.eqb_spec y x) as [->|]; [|done].
  pose proof (lead_range x l). unfold zdrop in *. rewrite Z2Nat.inj_add by lia.
  change (Z.to_nat 1) with 1%nat. cbn [Nat.add replicate app drop]. by f_equal.
Qed.

Lemma lead_stop x l : match zdrop (lead x l) l with [] => True | y :: _ => y <> x end.
Proof.
  induction l as [|y l IH]; [done|]. cbn [lead]. destruct (Z.eqb_spec y x) as [->|]; [|done].
  pose proof (lead_range x l). unfold zdrop in *. rewrite Z2Nat.inj_add by lia. exact IH.
Qed.

Lemma lead_app x n l : match l with [] => True | y :: _ => y <> x end -> lead x (replicate n x ++ l) = Z.of_nat n.
Proof.
  intros Hl. induction n as [|n IH].
  - destruct l as [|y l]; [done|]. cbn. by rewrite (proj2 (Z.eqb_neq _ _) Hl).
  - cbn [replicate app lead]. rewrite Z.eqb_refl, IH. lia.
Qed.

Lemma digits_drop b n l : digits b l -> digits b (zdrop n l).
Proof. apply Forall_drop. Qed.

Lemma num_drop_lead b l : num b (zdrop (lead 0 l) l) = num b l.
Proof. rewrite (lead_split 0 l) at 3. by rewrite num_zeros. Qed.

Lemma bytes_digits l : bytes_ok l <-> digits 256 l.
Proof. unfold digits, is_u. by pow2. Qed.

End Numbers.

(** ** Multiplying a number by a digit *)

Section Chain.
Context (b m : Z).
Context (Hb : 0 < b) (Hm : 0 <= m).

Fixpoint chain (l : list Z) (c : Z) : list Z * Z :=
  match l with
  | [] => ([], c)
  | x :: l => let '(l, c) := chain l c in ((x * m + c) mod b :: l, (x * m + c) / b)
  end.

Lemma chain_spec l c :
  digits b l -> 0 <= c ->
  let '(l', c') := chain l c in
  num b l * m + c = c' * b ^ zlen l + num b l' /\ digits b l' /\ length l' = length l /\ 0 <= c'.
Proof.
  intros Hl Hc. induction Hl as [|x l Hx _ IH]; [cbn [chain num]; change (zlen []) with 0; split_and!; first [done|lia|constructor]|].
  cbn [chain]. destruct (chain l c) as [l' c'] eqn:E. destruct IH as (IH1 & IH2 & IH3 & IH4). split_and!.
  - cbn [num]. rewrite zlen_cons, Z.pow_add_r, Z.pow_1_r by (lia || apply zlen_nonneg).
    assert (zlen l' = zlen l) as -> by (unfold zlen; by rewrite IH3).
    pose proof (Z.div_mod (x * m + c') b ltac:(lia)). nia.
  - constructor; [apply Z.mod_pos_bound; lia|done].
  - cbn. by rewrite IH3.
  - apply Z.div_pos; nia.
Qed.

(** No carry is left when the result fits. *)
Lemma chain_fits l c :
  digits b l -> 0 <= c -> num b l * m + c < b ^ zlen l ->
  exists l', chain l c = (l', 0) /\ num b l' = num b l * m + c /\ digits b l' /\ length l' = length l.
Proof.
  intros Hl Hc Hv. pose proof (chain_spec l c Hl Hc) as H. destruct (chain l c) as [l' c']. destruct H as (H1 & H2 & H3 & H4).
  pose proof (num_range b l' Hb H2) as R. assert (c' = 0) as -> by nia. exists l'. split_and!; done || lia.
Qed.

Lemma chain_snoc l x c :
  chain (l ++ [x]) c = let '(l', c') := chain l ((x * m + c) / b) in (l' ++ [(x * m + c) mod b], c').
Proof.
  induction l as [|y l IH]; [done|]. cbn [app chain]. rewrite IH. destruct (chain l _) as [l' c']. done.
Qed.

Lemma chain_length l c : length (chain l c).1 = length l.
Proof. induction l as [|x l IH]; [done|]. cbn [chain]. destruct (chain l c) as [l' c']. cbn in *. by rewrite IH. Qed.

Lemma chain_zeros l : Forall (eq 0) l -> chain l 0 = (l, 0).
Proof.
  induction 1 as [|x l <- _ IH]; [done|]. cbn [chain]. rewrite IH. by rewrite Z.mod_0_l, Z.div_0_l by lia.
Qed.

End Chain.

(** ** Encoding *)

Section Encoding.
Import base58.

(** The inner loop, on the part [l] of the buffer it has still to visit: it does
    what the whole multiplication does, because everything up to [high] is zero. *)
Lemma carry_loop_spec fuel : forall l r high c l',
  (length l < fuel)%nat -> -1 <= high -> Forall (eq 0) (ztake (high + 1) l) -> chain 58 256 l c = (l', 0) ->
  exists j, carry_loop fuel (l ++ r) (zlen l - 1) high c = Ret (l' ++ r, j) /\
    -1 <= j < zlen l /\ Forall (eq 0) (ztake (j + 1) l').
Proof.
  induction fuel as [|fuel IH]; intros l r high c l' Hf Hh Hz Hc; [lia|]. cbn [carry_loop].
  pose proof (zlen_nonneg l). destruct (_ || _) eqn:Econd.
  - destruct (List.exists_last (l := l)) as (l0 & x & ->).
    { intros ->. change (zlen []) with 0 in Econd. cbn in Hc. injection Hc as <- ->. cbn [Z.eqb negb] in Econd.
      rewrite orb_false_r in Econd. apply Z.ltb_lt in Econd. lia. }
    rewrite <- app_assoc. cbn [app]. rewrite zlen_app in *. change (zlen [x]) with 1 in *.
    rewrite mem_get_app by lia. mstep. rewrite (mem_write_app l0 [x] r) by (done || lia). mstep.
    rewrite chain_snoc in Hc. destruct (chain 58 256 l0 _) as [l1 c1] eqn:E1. injection Hc as <- ->.
    destruct (IH l0 ([(x * 256 + c) mod 58] ++ r) high ((x * 256 + c) / 58) l1) as (j & Hj & ? & ?); try done.
    { rewrite length_app in Hf. cbn in Hf. lia. }
    { unfold ztake in *. rewrite take_app in Hz. by apply Forall_app in Hz as [? _]. }
    exists j. replace (zlen l0 + 1 - 1 - 1) with (zlen l0 - 1) by lia. replace (c + 256 * x) with (x * 256 + c) by lia.
    rewrite Hj. rewrite <- app_assoc. pose proof (zlen_nonneg l0). split_and!; try done; try lia.
    pose proof (chain_length 58 256 l0 ((x * 256 + c) / 58)) as Hl1. rewrite E1 in Hl1.
    rewrite ztake_app_l by (unfold zlen in *; cbn in Hl1; lia). done.
  - apply orb_false_iff in Econd as [E1 E2]. apply Z.ltb_ge in E1. apply negb_false_iff, Z.eqb_eq in E2. subst c.
    rewrite ztake_all in Hz by lia. rewrite chain_zeros in Hc by (done || lia). injection Hc as <-.
    exists (zlen l - 1). split_and!; try done; try lia. replace (zlen l - 1 + 1) with (zlen l) by lia. by rewrite ztake_all.
Qed.

Lemma enc_bytes_spec bs : forall buf high,
  digits 256 bs -> digits 58 buf -> -1 <= high -> Forall (eq 0) (ztake (high + 1) buf) ->
  num 58 buf * 256 ^ zlen bs + num 256 bs < 58 ^ zlen buf ->
  exists buf', enc_bytes bs buf high = Ret buf' /\ digits 58 buf' /\ length buf' = length buf /\
    num 58 buf' = num 58 buf * 256 ^ zlen bs + num 256 bs.
Proof.
  induction bs as [|x bs IH]; intros buf high Hbs Hbuf Hh Hz Hv.
  { exists buf. split_and!; try done. change (zlen []) with 0. cbn. lia. }
  apply Forall_cons_1 in Hbs as [Hx Hbs]. pose proof (num_range 256 bs ltac:(lia) Hbs) as Rb. pose proof (zlen_nonneg bs).
  pose proof (num_range 58 buf ltac:(lia) Hbuf) as Rf.
  cbn [num] in *. rewrite zlen_cons, Z.pow_add_r, Z.pow_1_r in * by lia. pose proof (Z.pow_pos_nonneg 256 (zlen bs) ltac:(lia) ltac:(lia)) as Hp.
  destruct (chain_fits 58 256 ltac:(lia) ltac:(lia) buf x Hbuf ltac:(lia)) as (buf1 & Hc & Hn & Hd & Hl); [nia|].
  destruct (carry_loop_spec (S (S (length buf))) buf [] high x buf1 ltac:(lia) Hh Hz Hc) as (j & Hj & Hr & Hz').
  rewrite !app_nil_r in Hj. cbn [enc_bytes]. rewrite Hj. mstep.
  assert (zlen buf1 = zlen buf) as Hzl by (unfold zlen; by rewrite Hl).
  destruct (IH buf1 j Hbs Hd ltac:(lia) Hz') as (buf2 & ? & ? & Hl2 & Hn2).
  { rewrite Hn, Hzl. nia. }
  exists buf2. split_and!; try done; [by rewrite Hl2|]. rewrite Hn2, Hn. ring.
Qed.

(** The buffer is large enough: 138/100 digits per byte and one more. *)
Lemma enough_digits k : 0 <= k -> 256 ^ k < 58 ^ (k * 138 / 100 + 1).
Proof.
  intros Hk. set (s := k * 138 / 100 + 1).
  assert (138 * k + 1 <= 100 * s) as Hs by (unfold s; Z.div_mod_to_equations; lia).
  assert (0 <= s) by lia.
  destruct (Z.lt_ge_cases (256 ^ k) (58 ^ s)) as [|Hge]; [done|exfalso].
  assert ((58 ^ s) ^ 100 <= (256 ^ k) ^ 100) as H1.
  { apply Z.pow_le_mono_l. split; [apply Z.pow_nonneg; lia|done]. }
  rewrite <- !Z.pow_mul_r in H1 by lia.
  assert (58 ^ (138 * k) < 58 ^ (s * 100)) as H2 by (apply Z.pow_lt_mono_r; lia).
  assert (256 ^ (k * 100) <= 58 ^ (138 * k)) as H3.
  { rewrite (Z.mul_comm k), !Z.pow_mul_r by lia. apply Z.pow_le_mono_l. split; [by vm_compute|].
    apply Z.leb_le. by vm_compute. }
  lia.
Qed.

(** The characters of the digits. *)
Definition dig (d : Z) : Z := default 0 (b58digits_ordered !! Z.to_nat d).

Lemma dig_facts d :
  0 <= d < 58 ->
  mem_get b58digits_ordered d = Ret (dig d) /\ mem_get b58digits_map (dig d) = Ret d /\
  Z.land (dig d) 0x80 = 0 /\ (dig d = 49 <-> d = 0) /\ dig d <> 0.
Proof.
  assert (Forall (fun d => mem_get b58digits_ordered d = Ret (dig d) /\ mem_get b58digits_map (dig d) = Ret d /\
    Z.land (dig d) 0x80 = 0 /\ (dig d = 49 <-> d = 0) /\ dig d <> 0) (seqZ 0 58)) as H.
  { let l := eval vm_compute in (seqZ 0 58) in change (seqZ 0 58) with l.
    repeat (constructor; [by vm_compute|]). constructor. }
  intros Hd. rewrite list.Forall_forall in H. apply H, elem_of_seqZ. lia.
Qed.

Lemma digit_chars_spec ds : digits 58 ds -> digit_chars ds = Ret (map dig ds).
Proof.
  induction 1 as [|d ds Hd _ IH]; [done|]. cbn [digit_chars map]. destruct (dig_facts d Hd) as (-> & _). mstep. rewrite IH. by mstep.
Qed.

(** The text of a byte string: a one for every leading zero, and the canonical
    notation of the rest. *)
Record text_of (data s : list Z) (ds : list Z) : Prop := {
  tx_digits : digits 58 ds;
  tx_canonical : canonical ds;
  tx_num : num 58 ds = num 256 data;
  tx_text : s = replicate (Z.to_nat (lead 0 data)) 49 ++ map dig ds;
}.

Lemma b58enc_spec out b58sz data binsz :
  digits 256 data -> 0 <= binsz <= zlen data -> binsz < 2 ^ 48 ->
  exists s ds, text_of (ztake binsz data) s ds /\
    b58enc out b58sz data binsz =
      if b58sz <=? zlen s then Ret (false, out, zlen s + 1)
      else out ← mem_write out 0 (s ++ [0]); Ret (true, out, zlen s + 1).
Proof.
  intros Hd Hbs Hsm. unfold b58enc. rewrite mem_read_ok, zdrop_0 by lia. mstep. set (bin := ztake binsz data).
  assert (zlen bin = binsz) as Hl by (unfold bin; zlia). assert (digits 256 bin) as Hbin by (by apply Forall_take).
  pose proof (lead_range 0 bin) as Hz. set (z := lead 0 bin) in *. set (k := binsz - z).
  rewrite wrap_u_small by (unfold is_u; lia). set (size := k * 138 / 100 + 1).
  assert (0 < size) as Hsz by (unfold size; pose proof (Z.div_pos (k * 138) 100 ltac:(lia) ltac:(lia)); lia).
  set (rest := zdrop z bin). assert (digits 256 rest) as Hrest by (by apply digits_drop).
  assert (zlen rest = k) as Hk by (unfold rest, k; zlia).
  destruct (enc_bytes_spec rest (replicate (Z.to_nat size) 0) (size - 1)) as (buf & Hb & Hdg & Hlb & Hn); try done; try lia.
  { apply Forall_replicate. lia. }
  { apply Forall_take, Forall_replicate. done. }
  { rewrite <- (app_nil_r (replicate _ _)), num_zeros, app_nil_r, zlen_replicate. cbn [num].
    pose proof (num_range 256 rest ltac:(lia) Hrest). pose proof (enough_digits k ltac:(lia)) as He. rewrite Hk in *. unfold size in *. 
    rewrite Z2Nat.id by lia. lia. }
  rewrite Hb. mstep. rewrite <- (app_nil_r (replicate _ _)), num_zeros in Hn. cbn [num] in Hn.
  set (j := lead 0 buf). set (ds := zdrop j buf). exists (replicate (Z.to_nat z) 49 ++ map dig ds), ds.
  pose proof (lead_range 0 buf) as Hj. fold j in Hj. assert (zlen buf = size) as Hzb.
  { unfold zlen. rewrite Hlb, length_replicate. lia. }
  assert (digits 58 ds) as Hds by (by apply digits_drop).
  assert (zlen (map dig ds) = size - j) as Hlm by (rewrite zlen_map; unfold ds; zlia).
  split.
  { constructor; try done.
    - unfold ds, j. pose proof (lead_stop 0 buf). by destruct (zdrop _ _).
    - unfold ds, j. rewrite num_drop_lead, Hn. unfold rest, z. rewrite num_drop_lead. fold bin. lia. }
  rewrite zlen_app, zlen_replicate, Hlm. replace (Z.of_nat (Z.to_nat z) + (size - j)) with (z + size - j) by lia.
  destruct (b58sz <=? z + size - j); [done|]. rewrite (digit_chars_spec ds) by done.
  rewrite <- app_assoc, mem_write_seq by lia. rewrite Z.add_0_l, zlen_replicate, Z2Nat.id by lia.
  destruct (mem_write out 0 _) as [out1| | |]; mstep; try done.
  rewrite mem_write_seq by lia. rewrite Hlm. replace (z + (size - j)) with (z + size - j) by lia.
  by destruct (mem_write out1 z (map dig ds)).
Qed.

End Encoding.

(** ** Decoding *)

Section Decoding.
Import base58.

Lemma mul_add_chain outi c :
  digits (2 ^ 32) outi -> 0 <= c < 58 -> mul_add outi c = chain (2 ^ 32) 58 outi c /\ 0 <= (chain (2 ^ 32) 58 outi c).2 < 58.
Proof.
  intros Ho Hc. induction Ho as [|x outi Hx _ IH]; [done|]. cbn [mul_add chain]. destruct IH as [-> IH].
  destruct (chain (2 ^ 32) 58 outi c) as [l' c']. cbn [snd] in *. set (t := x * 58 + c').
  assert (0 <= t < 2 ^ 32 * 58) as Ht by (unfold t; lia). rewrite wrap_u_small by (unfold is_u; lia).
  change 0xffffffff with (Z.ones 32). rewrite Z.land_ones by lia. rewrite Z.shiftr_land. change (Z.shiftr 0x3f00000000 32) with (Z.ones 6).
  rewrite Z.land_ones, Z.shiftr_div_pow2 by lia.
  assert (0 <= t / 2 ^ 32 < 58) as Hq by (split; [apply Z.div_pos; lia|apply Z.div_lt_upper_bound; lia]).
  rewrite (Z.mod_small (t / 2 ^ 32)) by lia. done.
Qed.

Definition outisz (binsz : Z) : Z := (binsz + 3) / 4.
Definition bytesleft (binsz : Z) : Z := binsz mod 4.
Definition zeromask (binsz : Z) : Z :=
  if negb (bytesleft binsz =? 0) then u32 (Z.shiftl 0xffffffff (bytesleft binsz * 8)) else 0.

Context (binsz : Z) (Hbin : 0 < binsz).

(** A number in words that fits the bytes asked for. *)
Record fits (outi : list Z) : Prop := {
  ft_digits : digits (2 ^ 32) outi;
  ft_len : zlen outi = outisz binsz;
  ft_bound : num (2 ^ 32) outi < 256 ^ binsz;
}.

Lemma mask_check k o : 0 <= k <= 32 -> 0 <= o < 2 ^ 32 -> Z.land o (u32 (Z.shiftl (Z.ones 32) k)) = 0 <-> o < 2 ^ k.
Proof.
  intros Hk Ho.
  assert (u32 (Z.shiftl (Z.ones 32) k) = Z.shiftl (Z.ones (32 - k)) k) as ->.
  { unfold wrap_u. rewrite <- Z.land_ones by lia. apply Z.bits_inj'. intros i Hi. rewrite Z.land_spec.
    destruct (Z.lt_ge_cases i k); [by rewrite !Z.shiftl_spec_low by lia|]. rewrite !Z.shiftl_spec by lia.
    rewrite !Z.testbit_ones_nonneg by lia. destruct (Z.ltb_spec (i - k) 32), (Z.ltb_spec i 32), (Z.ltb_spec (i - k) (32 - k)); done || lia. }
  split.
  - intros E. assert (Z.shiftr (Z.land o (Z.shiftl (Z.ones (32 - k)) k)) k = 0) as E' by (by rewrite E, Z.shiftr_0_l).
    rewrite Z.shiftr_land, Z.shiftr_shiftl_l, Z.sub_diag, Z.shiftl_0_r, Z.land_ones, Z.shiftr_div_pow2 in E' by lia.
    rewrite Z.mod_small in E'.
    + apply Z.div_small_iff in E'; [lia|]. apply Z.pow_nonzero; lia.
    + split; [apply Z.div_pos; [lia|apply Z.pow_pos_nonneg; lia]|]. apply Z.div_lt_upper_bound; [apply Z.pow_pos_nonneg; lia|].
      rewrite <- Z.pow_add_r by lia. replace (k + (32 - k)) with 32 by lia. lia.
  - intros Hlt. apply Z.bits_inj'. intros i Hi. rewrite Z.land_spec, Z.bits_0.
    destruct (Z.lt_ge_cases i k); [by rewrite Z.shiftl_spec_low, andb_false_r by lia|].
    rewrite <- (Z.mod_small o (2 ^ k)) by lia. by rewrite Z.mod_pow2_bits_high by lia.
Qed.

Lemma bytesleft_range : 0 <= (bytesleft binsz) < 4 /\ 4 * outisz binsz = binsz + (if (bytesleft binsz) =? 0 then 0 else 4 - (bytesleft binsz)) /\ 0 < outisz binsz.
Proof. unfold bytesleft, outisz. case_match; Z.div_mod_to_equations; lia. Qed.

(** The two overflow tests of the code are one comparison. *)
Lemma bound_iff o rest :
  digits (2 ^ 32) (o :: rest) -> zlen (o :: rest) = outisz binsz ->
  Z.land o (zeromask binsz) = 0 <-> num (2 ^ 32) (o :: rest) < 256 ^ binsz.
Proof.
  intros Hd Hl. destruct bytesleft_range as (Hr & Hs & Hp). rewrite zlen_cons in Hl. pose proof (zlen_nonneg rest) as Hn.
  pose proof Hd as Hd'. apply Forall_cons_1 in Hd' as [Ho Hrest]. pose proof (num_range (2 ^ 32) rest ltac:(lia) Hrest) as R.
  unfold zeromask. destruct (Z.eqb_spec (bytesleft binsz) 0) as [E|E]; cbn [negb].
  - rewrite Z.land_0_r. split; [intros _|done]. pose proof (num_range (2 ^ 32) (o :: rest) ltac:(lia) Hd) as [_ R'].
    rewrite zlen_cons in R'. replace binsz with (4 * (1 + zlen rest)) by lia. change (2 ^ 32) with (256 ^ 4) in R' at 2.
    rewrite <- Z.pow_mul_r in R' by lia. exact R'.
  - change 0xffffffff with (Z.ones 32). rewrite mask_check by lia. cbn [num].
    replace (256 ^ binsz) with (2 ^ ((bytesleft binsz) * 8) * (2 ^ 32) ^ zlen rest).
    2: { change 256 with (2 ^ 8). rewrite <- !Z.pow_mul_r, <- Z.pow_add_r by lia. f_equal. lia. }
    split; intros H; [nia|]. apply Z.nle_gt. intros Hge. nia.
Qed.

Lemma mul_add_step outi d :
  fits outi -> 0 <= d < 58 ->
  exists outi' c, mul_add outi d = (outi', c) /\ exists o rest, outi' = o :: rest /\
    (num (2 ^ 32) outi * 58 + d < 256 ^ binsz <-> c = 0 /\ Z.land o (zeromask binsz) = 0) /\
    (num (2 ^ 32) outi * 58 + d < 256 ^ binsz -> fits outi' /\ num (2 ^ 32) outi' = num (2 ^ 32) outi * 58 + d).
Proof.
  intros [Hd Hl Hb] Hdd. destruct bytesleft_range as (Hr & Hs & Hp).
  destruct (mul_add_chain outi d Hd Hdd) as [-> _]. pose proof (chain_spec (2 ^ 32) 58 ltac:(lia) ltac:(lia) outi d Hd ltac:(lia)) as H.
  destruct (chain (2 ^ 32) 58 outi d) as [outi' c] eqn:E. destruct H as (H1 & H2 & H3 & H4). exists outi', c. split; [done|].
  assert (zlen outi' = outisz binsz) as Hl' by (unfold zlen in *; by rewrite H3).
  destruct outi' as [|o rest]; [change (zlen []) with 0 in Hl'; lia|]. exists o, rest. split; [done|].
  pose proof (bound_iff o rest H2 Hl') as Hi. pose proof (num_range (2 ^ 32) (o :: rest) ltac:(lia) H2) as R.
  assert (256 ^ binsz <= (2 ^ 32) ^ zlen outi) as Hle.
  { rewrite Hl. change (2 ^ 32) with (256 ^ 4). rewrite <- Z.pow_mul_r by lia. apply Z.pow_le_mono_r; [lia|]. case_match; lia. }
  assert (num (2 ^ 32) outi * 58 + d < 256 ^ binsz -> c = 0) as Hc by (intros; nia).
  split; [split|].
  - intros Hlt. specialize (Hc Hlt). split; [done|]. apply Hi. lia.
  - intros [-> Hz]. apply Hi in Hz. lia.
  - intros Hlt. specialize (Hc Hlt). split; [constructor; try done; lia|lia].
Qed.

(** Decoding digits, when the number fits. *)
Lemma decode_digits_ok ds : forall outi,
  digits 58 ds -> fits outi -> num (2 ^ 32) outi * 58 ^ zlen ds + num 58 ds < 256 ^ binsz ->
  exists outi', decode_digits (zeromask binsz) outi (map dig ds) = Ret (Some outi') /\ fits outi' /\
    num (2 ^ 32) outi' = num (2 ^ 32) outi * 58 ^ zlen ds + num 58 ds.
Proof.
  induction ds as [|d ds IH]; intros outi Hds Hf Hv.
  { exists outi. split_and!; try done. change (zlen []) with 0. cbn. lia. }
  apply Forall_cons_1 in Hds as [Hd Hds]. pose proof (num_range 58 ds ltac:(lia) Hds) as R. pose proof (zlen_nonneg ds).
  pose proof (num_range (2 ^ 32) outi ltac:(lia) (ft_digits _ Hf)) as R'.
  cbn [num] in *. rewrite zlen_cons, Z.pow_add_r, Z.pow_1_r in * by lia. pose proof (Z.pow_pos_nonneg 58 (zlen ds) ltac:(lia) ltac:(lia)).
  destruct (mul_add_step outi d Hf Hd) as (outi1 & c & E & o & rest & -> & Hi & Hn).
  assert (num (2 ^ 32) outi * 58 + d < 256 ^ binsz) as Hlt by nia. destruct (proj1 Hi Hlt) as [-> Hz].
  destruct (Hn Hlt) as [Hf1 Hn1]. cbn [map decode_digits]. destruct (dig_facts d Hd) as (_ & Hm & -> & _ & _). cbn [Z.eqb negb].
  rewrite Hm. mstep. rewrite (proj2 (Z.eqb_neq d (-1))) by lia. rewrite E. cbn [Z.eqb negb]. change (mem_get (o :: rest) 0) with (Ret o). mstep.
  rewrite Hz. cbn [Z.eqb negb]. destruct (IH (o :: rest) Hds Hf1) as (outi2 & -> & Hf2 & Hn2); [rewrite Hn1; nia|].
  exists outi2. split_and!; try done. rewrite Hn2, Hn1. ring.
Qed.

(** Every character the table knows is the character of a digit. *)
Lemma map_facts x : 0 <= x < 128 -> exists d, mem_get b58digits_map x = Ret d /\ (d = -1 \/ 0 <= d < 58 /\ dig d = x).
Proof.
  assert (Forall (fun x => exists d, mem_get b58digits_map x = Ret d /\ (d = -1 \/ 0 <= d < 58 /\ dig d = x)) (seqZ 0 128)) as H.
  { let l := eval vm_compute in (seqZ 0 128) in change (seqZ 0 128) with l.
    repeat (constructor; [eexists; split; [by vm_compute|first [by left|right; by vm_compute]]|]). constructor. }
  intros Hx. rewrite list.Forall_forall in H. apply H, elem_of_seqZ. lia.
Qed.

Lemma land_80 x : is_u 8 x -> Z.land x 0x80 = 0 -> 0 <= x < 128.
Proof.
  unfold is_u. intros Hx E. split; [lia|]. destruct (Z.lt_ge_cases x 128) as [|Hge]; [done|].
  assert (Z.testbit (Z.land x 0x80) 7 = false) as Hb by (by rewrite E, Z.bits_0). rewrite Z.land_spec in Hb.
  change (Z.testbit 0x80 7) with true in Hb. rewrite andb_true_r in Hb. apply Z.testbit_false in Hb; [|lia].
  pow2. change (2 ^ 7) with 128 in Hb. Z.div_mod_to_equations. lia.
Qed.

(** What decoding succeeds on. *)
Lemma decode_digits_inv s : forall outi,
  bytes_ok s -> fits outi ->
  exists r, decode_digits (zeromask binsz) outi s = Ret r /\
    forall outi', r = Some outi' -> exists ds, digits 58 ds /\ s = map dig ds /\ fits outi' /\
      num (2 ^ 32) outi' = num (2 ^ 32) outi * 58 ^ zlen ds + num 58 ds.
Proof.
  induction s as [|x s IH]; intros outi Hs Hf.
  { eexists. split; [done|]. intros outi' [= <-]. exists []. split_and!; try done; [constructor|]. change (zlen []) with 0. cbn. lia. }
  apply Forall_cons_1 in Hs as [Hx Hs]. cbn [decode_digits].
  destruct (Z.eqb_spec (Z.land x 0x80) 0) as [E80|]; cbn [negb]; [|by exists None].
  destruct (map_facts x (land_80 x Hx E80)) as (d & -> & Hd). mstep.
  destruct (Z.eqb_spec d (-1)) as [|Hn]; [by exists None|]. destruct Hd as [|[Hd Hdx]]; [done|].
  destruct (mul_add_step outi d Hf Hd) as (outi1 & c & -> & o & rest & -> & Hi & Hfit).
  destruct (Z.eqb_spec c 0) as [->|]; cbn [negb]; [|by exists None]. change (mem_get (o :: rest) 0) with (Ret o). mstep.
  destruct (Z.eqb_spec (Z.land o (zeromask binsz)) 0) as [Hz|]; cbn [negb]; [|by exists None].
  destruct (Hfit (proj2 Hi (conj eq_refl Hz))) as [Hf1 Hn1]. destruct (IH (o :: rest) Hs Hf1) as (r & Hr & Hsp). exists r. split; [done|].
  intros outi' Ho. destruct (Hsp outi' Ho) as (ds & H1 & -> & H3 & H4). exists (d :: ds). split_and!; try done.
  - by constructor.
  - cbn [map]. by rewrite Hdx.
  - rewrite H4, Hn1. cbn [num]. rewrite zlen_cons, Z.pow_add_r by (lia || apply zlen_nonneg). ring.
Qed.

Lemma num_256 w x y z :
  num 256 [z] = z /\ num 256 [y; z] = y * 256 + z /\ num 256 [x; y; z] = x * 65536 + y * 256 + z /\
  num 256 [w; x; y; z] = w * 16777216 + x * 65536 + y * 256 + z.
Proof.
  cbn [num]. change (zlen [x; y; z]) with 3. change (zlen [y; z]) with 2. change (zlen [z]) with 1. change (zlen []) with 0.
  change (256 ^ 3) with 16777216. change (256 ^ 2) with 65536. change (256 ^ 1) with 256. change (256 ^ 0) with 1. lia.
Qed.

Lemma word_bytes_spec o :
  0 <= o < 2 ^ 32 -> digits 256 (word_bytes o) /\ num 256 (word_bytes o) = o.
Proof.
  intros Ho. unfold word_bytes. change 0xff with (Z.ones 8). rewrite !Z.land_ones, !Z.shiftr_div_pow2 by lia.
  rewrite (proj2 (proj2 (proj2 (num_256 _ _ _ _)))). change (2 ^ 0) with 1. pow2.
  split; [repeat constructor; Z.div_mod_to_equations; lia|]. Z.div_mod_to_equations; lia.
Qed.

Lemma words_bytes_spec l :
  digits (2 ^ 32) l ->
  digits 256 (concat (map word_bytes l)) /\ zlen (concat (map word_bytes l)) = 4 * zlen l /\
  num 256 (concat (map word_bytes l)) = num (2 ^ 32) l.
Proof.
  induction 1 as [|o l Ho _ (IH1 & IH2 & IH3)]; [by split_and!; [constructor|..]|]. destruct (word_bytes_spec o Ho) as [H1 H2]. cbn [map concat].
  rewrite zlen_app, zlen_cons, IH2. change (zlen (word_bytes o)) with 4. split_and!; [by apply Forall_app|lia|].
  rewrite num_app, H2, IH2, IH3 by lia. cbn [num]. do 2 f_equal. change (2 ^ 32) with (256 ^ 4).
  by rewrite <- Z.pow_mul_r by (lia || apply zlen_nonneg).
Qed.

(** The first bytes, when the number fits them. *)
Lemma first_bytes_spec r o :
  0 <= r < 4 -> 0 <= o < (if r =? 0 then 2 ^ 32 else 256 ^ r) ->
  let bs := if r =? 3 then [Z.shiftr (Z.land o 0xff0000) 16; Z.shiftr (Z.land o 0xff00) 8; Z.land o 0xff]
       else if r =? 2 then [Z.shiftr (Z.land o 0xff00) 8; Z.land o 0xff]
       else if r =? 1 then [Z.land o 0xff] else word_bytes o in
  digits 256 bs /\ zlen bs = (if r =? 0 then 4 else r) /\ num 256 bs = o.
Proof.
  intros Hr Ho. rewrite !Z.shiftr_land. change (Z.shiftr 0xff0000 16) with (Z.ones 8). change (Z.shiftr 0xff00 8) with (Z.ones 8).
  change 0xff with (Z.ones 8). assert (r = 0 \/ r = 1 \/ r = 2 \/ r = 3) as [->|[->|[->| ->]]] by lia; cbn [Z.eqb Pos.eqb] in *.
  - destruct (word_bytes_spec o Ho). by split_and!.
  - rewrite Z.land_ones by lia. rewrite Z.mod_small by (pow2; lia).
    split_and!; [constructor; [change (256 ^ 1) with 256 in Ho; lia|constructor]|done|]. apply (num_256 0 0 0 o).
  - change (256 ^ 2) with 65536 in Ho. rewrite !Z.land_ones, Z.shiftr_div_pow2 by lia. pow2.
    split_and!; [repeat constructor; Z.div_mod_to_equations; lia|done|].
    rewrite (proj1 (proj2 (num_256 0 0 _ _))). Z.div_mod_to_equations; lia.
  - change (256 ^ 3) with 16777216 in Ho. rewrite !Z.land_ones, !Z.shiftr_div_pow2 by lia. pow2.
    split_and!; [repeat constructor; Z.div_mod_to_equations; lia|done|].
    rewrite (proj1 (proj2 (proj2 (num_256 0 _ _ _)))). Z.div_mod_to_equations; lia.
Qed.

Lemma out_bytes_spec outi :
  fits outi ->
  digits 256 (out_bytes (bytesleft binsz) outi) /\ zlen (out_bytes (bytesleft binsz) outi) = binsz /\
  num 256 (out_bytes (bytesleft binsz) outi) = num (2 ^ 32) outi.
Proof.
  intros [Hd Hl Hb]. destruct bytesleft_range as (Hr & Hs & Hp). destruct outi as [|o rest]; [change (zlen []) with 0 in Hl; lia|].
  pose proof Hd as Hd'. apply Forall_cons_1 in Hd' as [Ho Hrest]. destruct (words_bytes_spec rest Hrest) as (W1 & W2 & W3).
  rewrite zlen_cons in Hl. pose proof (zlen_nonneg rest).
  assert (0 <= o < (if bytesleft binsz =? 0 then 2 ^ 32 else 256 ^ bytesleft binsz)) as Ho'.
  { destruct (Z.eqb_spec (bytesleft binsz) 0) as [E|E]; [done|]. split; [lia|].
    apply (bound_iff o rest) in Hb; [|done|by rewrite zlen_cons]. unfold zeromask in Hb.
    rewrite (proj2 (Z.eqb_neq _ _) E) in Hb. cbn [negb] in Hb. change 0xffffffff with (Z.ones 32) in Hb.
    rewrite mask_check in Hb by lia. change 256 with (2 ^ 8). rewrite <- Z.pow_mul_r by lia. by rewrite Z.mul_comm. }
  destruct (first_bytes_spec (bytesleft binsz) o Hr Ho') as (F1 & F2 & F3). unfold out_bytes.
  rewrite zlen_app, F2, W2. split_and!; [by apply Forall_app|revert Hs; destruct (bytesleft binsz =? 0); lia|].
  rewrite num_app, F3, W2, W3 by lia. cbn [num]. do 2 f_equal. change (2 ^ 32) with (256 ^ 4). by rewrite <- Z.pow_mul_r by lia.
Qed.

Lemma zdrop_cons_S {A} n (x : A) l : 0 <= n -> zdrop (1 + n) (x :: l) = zdrop n l.
Proof. intros Hn. unfold zdrop. rewrite Z2Nat.inj_add by lia. done. Qed.

(** The canonical size: the leading zeros are replaced by as many as there are
    leading ones. *)
Lemma count_size_spec zc bs : forall i size,
  0 <= i ->
  count_size zc i bs size =
    (match zdrop (lead 0 bs) bs with [] => true | _ => negb (i + lead 0 bs <? zc) end, size - lead 0 bs).
Proof.
  induction bs as [|b bs IH]; intros i size Hi; [cbn; f_equal; lia|]. cbn [count_size lead].
  destruct (Z.eqb_spec b 0) as [->|]; cbn [negb].
  - rewrite IH by lia. pose proof (lead_range 0 bs). rewrite (zdrop_cons_S (lead 0 bs)) by lia.
    replace (i + 1 + lead 0 bs) with (i + (1 + lead 0 bs)) by lia. f_equal; lia.
  - rewrite zdrop_0. f_equal; [|lia]. by rewrite Z.add_0_r.
Qed.

Lemma fits_zeros : fits (replicate (Z.to_nat (outisz binsz)) 0) /\ num (2 ^ 32) (replicate (Z.to_nat (outisz binsz)) 0) = 0.
Proof.
  destruct bytesleft_range as (_ & _ & Hp). rewrite <- (app_nil_r (replicate _ _)), num_zeros, app_nil_r.
  split; [|done]. constructor; [by apply Forall_replicate|rewrite zlen_replicate; lia|].
  rewrite <- (app_nil_r (replicate _ _)), num_zeros. apply Z.pow_pos_nonneg; lia.
Qed.

End Decoding.

(** ** The two directions together *)

Section Codec.
Import base58.

Lemma text_unique data s ds s' ds' : text_of data s ds -> text_of data s' ds' -> s = s'.
Proof.
  intros [D1 C1 N1 ->] [D2 C2 N2 ->]. do 2 f_equal. apply (canonical_inj 58); try done. by rewrite N1, N2.
Qed.

Lemma text_lead data s ds : text_of data s ds -> lead 49 s = lead 0 data /\ zdrop (lead 49 s) s = map dig ds.
Proof.
  intros [D C _ ->]. pose proof (lead_range 0 data) as Hz.
  assert (lead 49 (replicate (Z.to_nat (lead 0 data)) 49 ++ map dig ds) = lead 0 data) as ->.
  { rewrite lead_app; [lia|]. destruct ds as [|d ds]; [done|]. apply Forall_cons_1 in D as [Hd _]. cbn.
    intros E. apply (dig_facts d Hd) in E. done. }
  split; [done|]. apply zdrop_app_exact. rewrite zlen_replicate. lia.
Qed.

Lemma lead_zeros n l : lead 0 (replicate n 0 ++ l) = Z.of_nat n + lead 0 l.
Proof. induction n as [|n IH]; [done|]. cbn [replicate app lead]. rewrite Z.eqb_refl, IH. lia. Qed.

Lemma b58tobin_text bin binsz s data ds :
  text_of data s ds -> digits 256 data -> 0 < binsz <= zlen bin -> zlen data <= binsz -> binsz < 2 ^ 32 ->
  b58tobin bin binsz s =
    Ret (true, replicate (Z.to_nat (binsz - zlen data)) 0 ++ data ++ zdrop binsz bin, zlen data).
Proof.
  intros Ht Hd Hb Hn Hsm. destruct (text_lead data s ds Ht) as [Hl1 Hl2]. destruct Ht as [D C N _].
  pose proof (lead_range 0 data) as Hz. pose proof (num_range 256 data ltac:(lia) Hd) as R. pose proof (zlen_nonneg data).
  unfold b58tobin. rewrite Hl2. fold (outisz binsz) (bytesleft binsz). fold (zeromask binsz).
  destruct (fits_zeros binsz) as [Hf0 Hn0]; [lia|].
  destruct (decode_digits_ok binsz ltac:(lia) ds _ D Hf0) as (outi & -> & Hf & Hnum).
  { rewrite Hn0, N. cbn [Z.mul Z.add]. eapply Z.lt_le_trans; [apply R|]. apply Z.pow_le_mono_r; lia. }
  mstep. rewrite Hn0, N in Hnum. cbn [Z.mul Z.add] in Hnum. destruct (out_bytes_spec binsz ltac:(lia) outi Hf) as (O1 & O2 & O3).
  assert (out_bytes (bytesleft binsz) outi = replicate (Z.to_nat (binsz - zlen data)) 0 ++ data) as ->.
  { apply (num_inj 256); try done; [|unfold zlen in *; rewrite length_app, length_replicate; lia|by rewrite num_zeros, O3].
    apply Forall_app. split; [by apply Forall_replicate|done]. }
  set (l := replicate _ 0 ++ data). assert (zlen l = binsz) as Hl by (unfold l; rewrite zlen_app, zlen_replicate; lia).
  rewrite mem_write_ok by lia. mstep. rewrite ztake_0, Z.add_0_l, Hl. cbn [app]. rewrite ztake_app_exact by done.
  rewrite Hl1. rewrite (wrap_u_small 32) by (unfold is_u; lia). rewrite count_size_spec by lia.
  assert (lead 0 l = binsz - zlen data + lead 0 data) as -> by (unfold l; rewrite lead_zeros; lia).
  match goal with |- Ret (?b, _, _) = _ => assert (b = true) as -> end.
  { case_match; [done|]. apply negb_true_iff, Z.ltb_ge. lia. }
  unfold l. rewrite <- app_assoc. do 2 f_equal. lia.
Qed.

Lemma b58tobin_inv bin binsz s bin' n :
  bytes_ok s -> 0 < binsz <= zlen bin -> zlen s < 2 ^ 32 -> b58tobin bin binsz s = Ret (true, bin', n) -> n <= binsz ->
  exists data ds, text_of data s ds /\ digits 256 data /\ zlen data = n /\
    bin' = replicate (Z.to_nat (binsz - n)) 0 ++ data ++ zdrop binsz bin.
Proof.
  intros Hs Hb Hsm E Hn. unfold b58tobin in E. fold (outisz binsz) (bytesleft binsz) in E. fold (zeromask binsz) in E.
  destruct (fits_zeros binsz) as [Hf0 Hn0]; [lia|]. pose proof (lead_range 49 s) as Hz. set (z := lead 49 s) in *.
  destruct (decode_digits_inv binsz ltac:(lia) (zdrop z s) _ (Forall_drop _ _ _ Hs) Hf0) as (r & Hr & Hsp). rewrite Hr in E.
  cbn [mbind outcome_bind] in E. destruct r as [outi|]; [|done].
  destruct (Hsp outi eq_refl) as (ds & D & Hds & Hf & Hnum). rewrite Hn0 in Hnum. cbn [Z.mul Z.add] in Hnum.
  destruct (out_bytes_spec binsz ltac:(lia) outi Hf) as (O1 & O2 & O3). set (l := out_bytes _ outi) in *.
  rewrite mem_write_ok in E by lia. cbn [mbind outcome_bind] in E. rewrite ztake_0, Z.add_0_l in E. cbn [app] in E.
  rewrite O2, (ztake_app_exact binsz l) in E by done. rewrite (wrap_u_small 32) in E by (unfold is_u; lia).
  rewrite count_size_spec in E by lia. pose proof (lead_range 0 l) as Hzl. pose proof (lead_split 0 l) as Hsl.
  destruct (match zdrop (lead 0 l) l with [] => true | _ => _ end) eqn:Eok; [|done]. injection E as <- <-.
  set (k := binsz - lead 0 l + z) in *. set (m := Z.to_nat (binsz - k)).
  assert (canonical ds) as Hc.
  { pose proof (lead_stop 49 s) as Hst. fold z in Hst. rewrite Hds in Hst. destruct ds as [|d ds]; [done|]. cbn in *.
    apply Forall_cons_1 in D as [Hd _]. intros ->. apply Hst, (dig_facts 0); lia. }
  assert (l = replicate m 0 ++ replicate (Z.to_nat z) 0 ++ zdrop (lead 0 l) l) as Hl.
  { rewrite app_assoc, <- replicate_add. rewrite Hsl at 1. f_equal. f_equal. unfold m, k. lia. }
  exists (replicate (Z.to_nat z) 0 ++ zdrop (lead 0 l) l), ds.
  assert (match zdrop (lead 0 l) l with [] => True | y :: _ => y <> 0 end) as Hstop by apply lead_stop.
  split_and!.
  - constructor; try done.
    + rewrite num_zeros, num_drop_lead, O3. lia.
    + rewrite lead_app by done. rewrite Nat2Z.id, <- Hds. apply lead_split.
  - apply Forall_app. split; [by apply Forall_replicate|]. by apply digits_drop.
  - rewrite zlen_app, zlen_replicate. unfold k. zlia.
  - rewrite Hl at 1. rewrite <- !app_assoc. done.
Qed.

(** C20. Base58 is exact: the decoder accepts a text for a byte string if and only
    if it is the text the encoder writes for it.  So every byte string is read
    back, and no two texts are read as the same bytes. *)
Theorem base58_exact (bin s data : list Z) (binsz : Z) :
  bytes_ok s -> bytes_ok data -> zlen s < 2 ^ 32 -> 0 < binsz <= zlen bin -> binsz < 2 ^ 32 -> zlen data <= binsz ->
  b58tobin bin binsz s =
    Ret (true, replicate (Z.to_nat (binsz - zlen data)) 0 ++ data ++ zdrop binsz bin, zlen data)
  <->
  forall out, zlen s < zlen out ->
    b58enc out (zlen out) data (zlen data) = Ret (true, s ++ [0] ++ zdrop (zlen s + 1) out, zlen s + 1).
Proof.
  intros Hs Hdata Hsl Hb Hbs Hn. pose proof (proj1 (bytes_digits data) Hdata) as Hd. pose proof (zlen_nonneg data). pose proof (zlen_nonneg s).
  assert (forall out, exists s' ds, text_of data s' ds /\
    b58enc out (zlen out) data (zlen data) =
      if zlen out <=? zlen s' then Ret (false, out, zlen s' + 1)
      else out ← mem_write out 0 (s' ++ [0]); Ret (true, out, zlen s' + 1)) as Henc.
  { intros out. destruct (b58enc_spec out (zlen out) data (zlen data) Hd ltac:(lia) ltac:(lia)) as (s' & ds & Ht & E).
    rewrite ztake_all in Ht by lia. by exists s', ds. }
  split.
  - intros E out Hout. destruct (b58tobin_inv bin binsz s _ _ Hs Hb Hsl E ltac:(lia)) as (data' & ds & Ht & _ & Hl & Heq).
    apply app_inv_head in Heq. assert (data' = data) as ->.
    { apply app_inj_1 in Heq as [-> _]; [done|]. unfold zlen in Hl. lia. }
    destruct (Henc out) as (s' & ds' & Ht' & ->). rewrite <- (text_unique _ _ _ _ _ Ht Ht'). rewrite (proj2 (Z.leb_gt _ _)) by lia.
    rewrite mem_write_ok by zlia. mstep. rewrite ztake_0, Z.add_0_l, zlen_app. cbn [app]. by rewrite <- app_assoc.
  - intros E. destruct (Henc (replicate (Z.to_nat (zlen s + 1)) 0)) as (s' & ds & Ht & E').
    rewrite E in E' by (rewrite zlen_replicate; lia). destruct (_ <=? _) eqn:Ele in E'; [done|].
    apply Z.leb_gt in Ele. rewrite zlen_replicate in Ele. rewrite mem_write_ok in E' by (rewrite ?zlen_app, ?zlen_replicate; change (zlen [0]) with 1; lia).
    cbn [mbind outcome_bind] in E'. rewrite ztake_0, <- !app_assoc in E'. injection E' as Hm Hl.
    apply app_inj_1 in Hm as [<- _]; [|unfold zlen in Hl; lia]. by apply (b58tobin_text bin binsz s data ds).
Qed.

End Codec.

(** ** Texts with a checksum *)

Section Check.
Import hasher base58.

(** The double hash of the checksum. *)
Definition sha2d (m : list Z) : list Z := hash fips256 (hash fips256 m).

Definition checksum (m : list Z) : list Z := ztake 4 (sha2d m).

Lemma fips256_facts m : zlen (hash fips256 m) = 32 /\ bytes_ok (hash fips256 m).
Proof. rewrite <- hash_fips256. split; [unfold zlen; by rewrite sha256_digest_len|apply hash_ok]. Qed.

Lemma raw_once_sha2 g m post mem :
  bytes_ok m -> 32 <= zlen mem -> raw_once g HASHER_SHA2 (m ++ post) (zlen m) mem = Ret (hash fips256 m ++ zdrop 32 mem).
Proof.
  intros Hm Hl. pose proof (Raw_hash (A := sha256) m post Hm) as E. unfold Raw in E.
  unfold raw_once, hasher_Update, hasher_Init, final_once. cbn [uses_sha2 type sha2_ctx].
  change (Update sha256) with sha256_Update in E. change (Final sha256) with sha256_Final in E. change (Init sha256) with sha256_Init in E.
  destruct (sha256_Update sha256_Init (m ++ post) (zlen m)) as [c| | |]; [|done..]. cbn [mbind outcome_bind] in E. mstep.
  cbn [uses_sha2 type sha2_ctx]. destruct (sha256_Final c) as [[c' d]| | |]; [|done..]. cbn [mbind outcome_bind] in E. mstep. injection E as ->.
  rewrite hash_fips256. destruct (fips256_facts m) as [Hlen _]. rewrite mem_write_ok by lia. by rewrite ztake_0, Hlen.
Qed.

Lemma hasher_sha2d g m post mem :
  bytes_ok m -> 32 <= zlen mem -> hasher_Raw g HASHER_SHA2D (m ++ post) (zlen m) mem = Ret (sha2d m ++ zdrop 32 mem).
Proof.
  intros Hm Hl. pose proof (raw_once_sha2 g m post mem Hm Hl) as E. unfold raw_once, hasher_Update in E.
  unfold hasher_Raw, hasher_Update, hasher_Final, final_once in *. cbn [hasher_Init uses_sha2 type sha2_ctx] in *.
  destruct (sha256_Update sha256_Init (m ++ post) (zlen m)) as [c| | |]; [|done..]. cbn [mbind outcome_bind] in E. mstep.
  cbn [uses_sha2 type sha2_ctx] in *. rewrite E. mstep. destruct (fips256_facts m) as [Hlen Hok].
  change HASHER_DIGEST_LENGTH with 32. rewrite <- Hlen at 2. rewrite raw_once_sha2 by (done || zlia). unfold sha2d. do 2 f_equal.
  by apply zdrop_app_exact.
Qed.

Lemma sha2d_facts m : zlen (sha2d m) = 32 /\ bytes_ok (sha2d m) /\ zlen (checksum m) = 4 /\ bytes_ok (checksum m).
Proof.
  destruct (fips256_facts (hash fips256 m)) as [Hl Hok]. unfold checksum, sha2d.
  split_and!; [done|done|zlia|by apply Forall_take].
Qed.

(** The end of the leading zeros, in the bytes and in the text. *)
Lemma zeros_loop_spec a : forall fuel pre x r spre y t off i,
  (a < fuel)%nat -> x <> 0 -> off + i = zlen pre -> i = zlen spre ->
  zeros_loop fuel (pre ++ replicate a 0 ++ x :: r) (spre ++ replicate a 49 ++ y :: t) off i = Ret (i + Z.of_nat a).
Proof.
  induction a as [|a IH]; intros [|fuel] pre x r spre y t off i Hf Hx Ho Hi; try lia; cbn [zeros_loop replicate app].
  - rewrite (mem_get_app pre) by done. mstep. rewrite (proj2 (Z.eqb_neq _ _) Hx). f_equal. lia.
  - rewrite (mem_get_app pre) by done. mstep. cbn [Z.eqb]. rewrite (mem_get_app spre) by done. mstep. cbn [Z.eqb Pos.eqb].
    rewrite (cons_middle 0 pre), (cons_middle 49 spre), (app_assoc pre), (app_assoc spre).
    rewrite IH; [f_equal; lia|lia|done|..]; rewrite zlen_app; [change (zlen [0]) with 1|change (zlen [49]) with 1]; lia.
Qed.

(** The check of bytes whose last four are not above the checksum, not all of
    them zero. *)
Lemma b58check_ok g junk pre data ck s ds :
  bytes_ok data -> bytes_ok ck -> zlen ck = 4 -> 32 <= zlen junk -> text_of (data ++ ck) s ds ->
  zdrop (lead 0 (data ++ ck)) (data ++ ck) <> [] -> memcmp ck (checksum data) <= 0 ->
  exists b, b58check g junk (pre ++ data ++ ck) (zlen pre) (zlen data + 4) HASHER_SHA2D s = Ret b /\ 0 <= b.
Proof.
  intros Hd Hc Hcl Hj Ht Hnz Hle. pose proof (zlen_nonneg data). unfold b58check. rewrite (proj2 (Z.ltb_ge _ _)) by lia.
  replace (zlen data + 4 - 4) with (zlen data) by lia. rewrite (mem_read_app pre data ck (zlen pre) (zlen data)) by done. mstep.
  pose proof (hasher_sha2d g data [] junk Hd Hj) as E. rewrite app_nil_r in E. rewrite E. mstep.
  destruct (sha2d_facts data) as (Hs1 & _). rewrite ztake_app_l by lia. fold (checksum data).
  assert (mem_read (pre ++ data ++ ck) (zlen pre + zlen data) 4 = Ret ck) as ->.
  { pose proof (mem_read_app (pre ++ data) ck [] (zlen pre + zlen data) 4) as Em. rewrite app_nil_r, <- app_assoc in Em.
    apply Em; rewrite ?zlen_app; lia. }
  mstep. rewrite (proj2 (Z.ltb_ge _ _)) by lia. destruct (text_lead _ _ _ Ht) as [Hl1 Hl2]. pose proof (lead_split 49 s) as Hs. rewrite Hl2, Hl1 in Hs.
  assert (bytes_ok (data ++ ck)) as Hdc by (by apply Forall_app).
  pose proof (lead_split 0 (data ++ ck)) as Hdata. pose proof (lead_stop 0 (data ++ ck)) as Hst. pose proof (lead_range 0 (data ++ ck)) as Hz.
  destruct (zdrop (lead 0 (data ++ ck)) (data ++ ck)) as [|x r] eqn:Er; [done|]. set (z := lead 0 (data ++ ck)) in *.
  assert (exists d ds', ds = d :: ds') as (d & ds' & ->).
  { destruct ds as [|d ds]; [|by eexists _, _]. assert (digits 256 (x :: r)) as Dx by (rewrite <- Er; by apply digits_drop, bytes_digits).
    pose proof (num_lead 256 x r ltac:(lia) Dx Hst) as Hn. pose proof (Z.pow_pos_nonneg 256 (zlen r) ltac:(lia) (zlen_nonneg r)).
    rewrite <- Er in Hn. unfold z in Hn. rewrite num_drop_lead, <- (tx_num _ _ _ Ht) in Hn. cbn in Hn. lia. }
  assert (s ++ [0] = [] ++ replicate (Z.to_nat z) 49 ++ dig d :: map dig ds' ++ [0]) as Es by (rewrite Hs; by rewrite <- app_assoc).
  rewrite Es, Hdata. rewrite zeros_loop_spec; [|rewrite !length_app, length_replicate; lia|exact Hst|lia|done]. mstep.
  rewrite Z.add_0_l, Z2Nat.id by lia.
  assert (mem_get (pre ++ replicate (Z.to_nat z) 0 ++ x :: r) (zlen pre + z) = Ret x) as ->.
  { rewrite app_assoc. apply mem_get_app. rewrite zlen_app, zlen_replicate. lia. }
  mstep. rewrite (proj2 (Z.eqb_neq _ _) Hst). cbn [app]. rewrite (mem_get_app (replicate (Z.to_nat z) 49)) by (rewrite zlen_replicate; lia). mstep.
  destruct Ht as [D C _ _]. apply Forall_cons_1 in D as [Dd _].
  rewrite (proj2 (Z.eqb_neq (dig d) 49)) by (intros E49; by apply (dig_facts d Dd) in E49). rewrite <- Hdata.
  destruct (data ++ ck) as [|b l] eqn:El; [by apply (f_equal zlen) in El; rewrite zlen_app in El; change (zlen []) with 0 in El; lia|].
  exists b. rewrite mem_get_app by done. apply Forall_cons_1 in Hdc as [Hb _]. unfold is_u in Hb. split; [done|lia].
Qed.

(** Reading such a text. *)
Lemma decode_check_spec g junk out datalen data ck s ds :
  bytes_ok data -> bytes_ok ck -> zlen ck = 4 -> zlen data <= datalen <= 128 -> datalen <= zlen out -> 32 <= zlen junk ->
  text_of (data ++ ck) s ds -> zdrop (lead 0 (data ++ ck)) (data ++ ck) <> [] -> memcmp ck (checksum data) <= 0 ->
  base58_decode_check g junk s HASHER_SHA2D out datalen = Ret (zlen data, data ++ zdrop (zlen data) out).
Proof.
  intros Hd Hc Hcl Hn Ho Hj Ht Hnz Hle. pose proof (zlen_nonneg data). unfold base58_decode_check. rewrite (proj2 (Z.ltb_ge _ _)) by lia.
  assert (zlen (data ++ ck) = zlen data + 4) as Hl by (rewrite zlen_app; lia).
  rewrite (b58tobin_text _ (datalen + 4) s (data ++ ck) ds);
    [|done|by apply bytes_digits, Forall_app|rewrite zlen_replicate; lia|lia|lia]. mstep. cbn [negb].
  rewrite (zdrop_all (datalen + 4)), app_nil_r by (rewrite zlen_replicate; lia). rewrite Hl. set (pre := replicate _ 0).
  assert (datalen + 4 - (zlen data + 4) = zlen pre) as -> by (unfold pre; rewrite zlen_replicate; lia).
  destruct (b58check_ok g junk pre data ck s ds Hd Hc Hcl Hj Ht Hnz Hle) as (b & -> & Hb). mstep.
  rewrite (proj2 (Z.ltb_ge _ _)) by lia. replace (zlen data + 4 - 4) with (zlen data) by lia.
  rewrite (mem_read_app pre data ck) by done. mstep. rewrite mem_write_ok by lia. mstep. by rewrite ztake_0, Z.add_0_l.
Qed.

(** Writing a text with its checksum. *)
Lemma encode_check_spec g data str strsize :
  bytes_ok data -> zlen data <= 128 ->
  exists s ds, text_of (data ++ checksum data) s ds /\
    base58_encode_check g data (zlen data) HASHER_SHA2D str strsize =
      if strsize <=? zlen s then Ret (0, str)
      else out ← mem_write str 0 (s ++ [0]); Ret (zlen s + 1, out).
Proof.
  intros Hd Hn. pose proof (zlen_nonneg data). destruct (sha2d_facts data) as (S1 & S2 & S3 & S4).
  unfold base58_encode_check. rewrite (proj2 (Z.ltb_ge _ _)) by lia. rewrite mem_read_ok, zdrop_0, ztake_all by lia. mstep.
  rewrite mem_write_ok by (rewrite ?zlen_replicate; lia). mstep. rewrite ztake_0, Z.add_0_l. cbn [app].
  set (rest := zdrop (zlen data) (replicate _ 0)). assert (zlen rest = 32) as Hr by (unfold rest; rewrite zlen_zdrop, zlen_replicate; lia).
  rewrite (zdrop_app_exact (zlen data)) by done. pose proof (hasher_sha2d g data [] rest Hd ltac:(lia)) as E.
  rewrite app_nil_r in E. rewrite E. mstep. rewrite (zdrop_all 32), app_nil_r by lia.
  pose proof (mem_write_app data rest [] (sha2d data) (zlen data) eq_refl ltac:(lia)) as Ew. rewrite !app_nil_r in Ew. rewrite Ew. mstep.
  destruct (b58enc_spec str strsize (data ++ sha2d data) (zlen data + 4)) as (s & ds & Ht & Ee);
    [by apply bytes_digits, Forall_app|rewrite zlen_app; lia|lia|].
  rewrite ztake_app_r in Ht by lia. replace (zlen data + 4 - zlen data) with 4 in Ht by lia. exists s, ds. split; [done|]. rewrite Ee.
  destruct (strsize <=? zlen s); [by mstep|]. by destruct (mem_write str 0 (s ++ [0])); mstep.
Qed.

Lemma text_len data s ds : digits 256 data -> text_of data s ds -> zlen s <= zlen data * 138 / 100 + 1.
Proof.
  intros Hd [D C N ->]. pose proof (lead_range 0 data) as Hz. set (z := lead 0 data) in *. rewrite zlen_app, zlen_replicate, zlen_map.
  assert (num 256 data < 256 ^ (zlen data - z)) as Hlt.
  { rewrite <- (num_drop_lead 256 data). fold z. pose proof (num_range 256 (zdrop z data) ltac:(lia) (digits_drop _ _ _ Hd)) as [_ R].
    by replace (zlen data - z) with (zlen (zdrop z data)) by zlia. }
  pose proof (enough_digits (zlen data - z) ltac:(lia)) as He.
  assert (zlen ds <= (zlen data - z) * 138 / 100 + 1).
  { destruct ds as [|d ds]; [change (zlen []) with 0; Z.div_mod_to_equations; lia|]. pose proof (num_lead 58 d ds ltac:(lia) D C) as Hn.
    rewrite zlen_cons. assert (zlen ds < (zlen data - z) * 138 / 100 + 1); [|lia].
    apply (Z.pow_lt_mono_r_iff 58); [lia|Z.div_mod_to_equations; lia|lia]. }
  Z.div_mod_to_equations; lia.
Qed.

Lemma nonzero_rest l : Exists (fun x => x <> 0) l -> zdrop (lead 0 l) l <> [].
Proof.
  induction 1 as [x l Hx|x l _ IH]; cbn [lead].
  - by rewrite (proj2 (Z.eqb_neq _ _) Hx).
  - destruct (x =? 0); [|done]. pose proof (lead_range 0 l). by rewrite zdrop_cons_S by lia.
Qed.

Lemma memcmp_refl l : memcmp l l <= 0.
Proof. induction l as [|x l IH]; [done|]. cbn [memcmp]. by rewrite Z.eqb_refl. Qed.

Lemma memcmp_zeros n : forall l, bytes_ok l -> zlen l = Z.of_nat n -> memcmp (replicate n 0) l <= 0.
Proof.
  induction n as [|n IH]; intros l Hl Hn; [done|]. destruct l as [|y l]; [done|]. apply Forall_cons_1 in Hl as [Hy Hl].
  rewrite zlen_cons in Hn. cbn [replicate memcmp]. destruct (Z.eqb_spec 0 y); [apply IH; [done|lia]|]. unfold is_u in Hy. lia.
Qed.

(** Texts with a checksum are read back: for up to 128 bytes that are not all
    zero with their checksum, the text [base58_encode_check] writes is read by
    [base58_decode_check] as the same bytes. *)
Theorem base58check_roundtrip (g : ctx) (data str junk out : list Z) (datalen : Z) :
  bytes_ok data -> zlen data <= datalen <= 128 -> datalen <= zlen out -> 32 <= zlen junk -> 190 <= zlen str ->
  Exists (fun x => x <> 0) (data ++ checksum data) ->
  exists s, base58_encode_check g data (zlen data) HASHER_SHA2D str (zlen str) =
      Ret (zlen s + 1, s ++ [0] ++ zdrop (zlen s + 1) str) /\
    base58_decode_check g junk s HASHER_SHA2D out datalen = Ret (zlen data, data ++ zdrop (zlen data) out).
Proof.
  intros Hd Hn Ho Hj Hstr Hex. destruct (encode_check_spec g data str (zlen str) Hd ltac:(lia)) as (s & ds & Ht & He).
  destruct (sha2d_facts data) as (_ & _ & S3 & S4). assert (digits 256 (data ++ checksum data)) as Hdc by (by apply bytes_digits, Forall_app).
  pose proof (text_len _ _ _ Hdc Ht) as Hl. rewrite zlen_app, S3 in Hl. exists s. split.
  - assert (zlen s + 1 <= zlen str) by (Z.div_mod_to_equations; lia). rewrite He, (proj2 (Z.leb_gt _ _)) by lia.
    rewrite mem_write_ok by zlia. mstep. rewrite ztake_0, Z.add_0_l, zlen_app. cbn [app]. by rewrite <- app_assoc.
  - apply (decode_check_spec g junk out datalen data (checksum data) s ds); try done; [by apply nonzero_rest|]. by rewrite memcmp_refl.
Qed.

(** [base58_decode_check] does not check: because it only refuses checksums
    above the right one, four zero bytes in place of the checksum are accepted
    after any bytes that are not all zero. *)
Theorem base58_accepts_zero_checksum (g : ctx) (data junk out : list Z) (datalen : Z) :
  bytes_ok data -> zlen data <= datalen <= 128 -> datalen <= zlen out -> 32 <= zlen junk -> Exists (fun x => x <> 0) data ->
  exists s ds, text_of (data ++ [0; 0; 0; 0]) s ds /\
    base58_decode_check g junk s HASHER_SHA2D out datalen = Ret (zlen data, data ++ zdrop (zlen data) out).
Proof.
  intros Hd Hn Ho Hj Hex. assert (bytes_ok [0; 0; 0; 0]) as Hz by (apply (bool_decide_unpack _); by vm_compute).
  destruct (b58enc_spec [] 0 (data ++ [0; 0; 0; 0]) (zlen data + 4)) as (s & ds & Ht & _);
    [by apply bytes_digits, Forall_app|rewrite zlen_app; change (zlen [0; 0; 0; 0]) with 4; pose proof (zlen_nonneg data); lia|lia|].
  rewrite ztake_all in Ht by (rewrite zlen_app; change (zlen [0; 0; 0; 0]) with 4; lia). exists s, ds. split; [done|].
  apply (decode_check_spec g junk out datalen data [0; 0; 0; 0] s ds); try done.
  - apply nonzero_rest, Exists_app. by left.
  - destruct (sha2d_facts data) as (_ & _ & S3 & S4). by apply (memcmp_zeros 4).
Qed.

Lemma mem_get_end m off : zlen m <= off -> mem_get m off = UB.
Proof.
  intros Hl. unfold mem_get. case_decide; [|done]. rewrite lookup_ge_None_2; [done|]. unfold zlen in Hl. lia.
Qed.

(** The loop over zeros runs off the end of an allocation of zeros. *)
Lemma zeros_loop_end a : forall fuel pre spre c t off i,
  (a < fuel)%nat -> off + i = zlen pre -> i = zlen spre ->
  zeros_loop fuel (pre ++ replicate a 0) (spre ++ replicate a 49 ++ c :: t) off i = UB.
Proof.
  induction a as [|a IH]; intros [|fuel] pre spre c t off i Hf Ho Hi; try lia; cbn [zeros_loop replicate app].
  - rewrite app_nil_r, (mem_get_end pre) by lia. done.
  - rewrite (mem_get_app pre) by done. mstep. cbn [Z.eqb]. rewrite (mem_get_app spre) by done. mstep. cbn [Z.eqb Pos.eqb].
    rewrite (cons_middle 0 pre), (cons_middle 49 spre), (app_assoc pre), (app_assoc spre).
    apply IH; [lia|..]; rewrite zlen_app; [change (zlen [0]) with 1|change (zlen [49]) with 1]; lia.
Qed.

(** A text of ones alone makes [base58_decode_check] read past the end of
    its buffer: the checksum of zeros is let through, and the loop over leading
    zeros has no bound. *)
Theorem base58_ones_overread (g : ctx) (junk out : list Z) (k : nat) (datalen : Z) :
  4 <= Z.of_nat k <= datalen + 4 -> datalen <= 128 -> 32 <= zlen junk ->
  base58_decode_check g junk (replicate k 49) HASHER_SHA2D out datalen = UB.
Proof.
  intros Hk Hd Hj. assert (text_of (replicate k 0) (replicate k 49) []) as Ht.
  { constructor; [constructor|done| |].
    - rewrite <- (app_nil_r (replicate k 0)). by rewrite num_zeros.
    - pose proof (lead_app 0 k [] I) as Hl. rewrite app_nil_r in Hl. by rewrite Hl, Nat2Z.id, app_nil_r. }
  assert (forall m, bytes_ok (replicate m 0)) as Hz by (intros; apply Forall_replicate; by vm_compute).
  unfold base58_decode_check. rewrite (proj2 (Z.ltb_ge _ _)) by lia.
  rewrite (b58tobin_text _ (datalen + 4) _ (replicate k 0) []);
    [|done|apply bytes_digits, Hz|rewrite ?zlen_replicate; lia..]. mstep. cbn [negb].
  rewrite (zdrop_all (datalen + 4)), app_nil_r, zlen_replicate by (rewrite zlen_replicate; lia). set (pre := replicate (Z.to_nat _) 0).
  assert (datalen + 4 - Z.of_nat k = zlen pre) as -> by (unfold pre; rewrite zlen_replicate; lia).
  set (m := (k - 4)%nat). assert (replicate k 0 = replicate m 0 ++ replicate 4 0) as Hs by (rewrite <- replicate_add; f_equal; lia).
  assert (zlen (replicate m 0) = Z.of_nat k - 4) as Hm by (rewrite zlen_replicate; lia).
  unfold b58check. rewrite (proj2 (Z.ltb_ge _ _)) by lia. rewrite <- Hm, Hs.
  rewrite (mem_read_app pre (replicate m 0) _ (zlen pre) (zlen (replicate m 0))) by done. mstep.
  pose proof (hasher_sha2d g (replicate m 0) [] junk (Hz m) Hj) as E. rewrite app_nil_r in E. rewrite E. mstep.
  assert (mem_read (pre ++ replicate m 0 ++ replicate 4 0) (zlen pre + zlen (replicate m 0)) 4 = Ret (replicate 4 0)) as ->.
  { pose proof (mem_read_app (pre ++ replicate m 0) (replicate 4 0) [] (zlen pre + zlen (replicate m 0)) 4) as Em.
    rewrite app_nil_r, <- app_assoc in Em. apply Em; rewrite ?zlen_app; [lia|done]. }
  mstep. destruct (sha2d_facts (replicate m 0)) as (S1 & _ & S3 & S4). rewrite ztake_app_l by lia.
  rewrite (proj2 (Z.ltb_ge _ _)) by (by apply (memcmp_zeros 4)). rewrite <- Hs.
  rewrite (zeros_loop_end k _ pre [] 0 []); [done|rewrite length_app, length_replicate; lia|lia|done].
Qed.

(** ** Concrete runs *)

Lemma base58_exact_witness :
  b58tobin (replicate 9 8) 9 (bytes_of "117bX9df") = Ret (true, [0; 0; 0; 0; 1; 2; 3; 255; 254], 7).
Proof.
  change [0; 0; 0; 0; 1; 2; 3; 255; 254] with (replicate (Z.to_nat (9 - zlen [0; 0; 1; 2; 3; 255; 254])) 0 ++ [0; 0; 1; 2; 3; 255; 254] ++ zdrop 9 (replicate 9 8)).
  apply (base58_exact (replicate 9 8) (bytes_of "117bX9df") [0; 0; 1; 2; 3; 255; 254] 9);
    [apply (bool_decide_unpack _); by vm_compute|apply (bool_decide_unpack _); by vm_compute|by vm_compute..|].
  intros out Hout. destruct (b58enc_spec out (zlen out) [0; 0; 1; 2; 3; 255; 254] 7) as (s & ds & Ht & E);
    [repeat constructor; lia|by vm_compute|by vm_compute|].
  assert (text_of [0; 0; 1; 2; 3; 255; 254] (bytes_of "117bX9df") [6; 34; 30; 8; 36; 38]) as Ht'.
  { constructor; [repeat constructor; lia|done|by vm_compute|by vm_compute]. }
  change (ztake 7 [0; 0; 1; 2; 3; 255; 254]) with [0; 0; 1; 2; 3; 255; 254] in Ht.
  rewrite (text_unique _ _ _ _ _ Ht Ht') in E. change (zlen [0; 0; 1; 2; 3; 255; 254]) with 7. rewrite E.
  rewrite (proj2 (Z.leb_gt _ _)) by lia. rewrite mem_write_ok by (rewrite ?zlen_app; change (zlen [0]) with 1; lia). mstep.
  by rewrite ztake_0, Z.add_0_l, zlen_app, <- app_assoc.
Defined.

Let junk32 : list Z := replicate 32 7.
Let no_ctx : ctx := sha256_Init.

Lemma base58check_roundtrip_witness :
  exists s, base58_encode_check no_ctx [1; 2; 3] 3 HASHER_SHA2D (replicate 200 9) 200 =
      Ret (zlen s + 1, s ++ [0] ++ zdrop (zlen s + 1) (replicate 200 9)) /\
    base58_decode_check no_ctx junk32 s HASHER_SHA2D (replicate 10 0) 10 = Ret (3, [1; 2; 3] ++ zdrop 3 (replicate 10 0)).
Proof.
  apply (base58check_roundtrip no_ctx [1; 2; 3] (replicate 200 9) junk32 (replicate 10 0) 10).
  - apply (bool_decide_unpack _). by vm_compute.
  - by vm_compute.
  - by vm_compute.
  - by vm_compute.
  - by vm_compute.
  - by constructor.
Defined.

Lemma base58_accepts_zero_checksum_witness :
  exists s ds, text_of ([1; 2; 3] ++ [0; 0; 0; 0]) s ds /\
    base58_decode_check no_ctx junk32 s HASHER_SHA2D (replicate 10 0) 10 = Ret (3, [1; 2; 3] ++ zdrop 3 (replicate 10 0)).
Proof.
  apply (base58_accepts_zero_checksum no_ctx [1; 2; 3] junk32 (replicate 10 0) 10).
  - apply (bool_decide_unpack _). by vm_compute.
  - by vm_compute.
  - by vm_compute.
  - by vm_compute.
  - by constructor.
Defined.

Lemma base58_ones_overread_witness :
  base58_decode_check no_ctx junk32 (replicate 6 49) HASHER_SHA2D (replicate 10 0) 10 = UB.
Proof. by apply (base58_ones_overread no_ctx junk32 (replicate 10 0) 6 10); vm_compute. Defined.

End Check.
