(* ===== verification/Bignum.v ===== *)
(** * Bignum: numbers of 256 bits

    Models src/src/ptp_crypto/bignum.cpp and bignum.h as they are built:
    [USE_INVERSE_FAST] is not defined in bignum.cpp, so [bn_inverse] is the one
    that raises to the power prime - 2; printing is left out of the build.

    A [bignum256] is the list of its nine limbs, lowest first, in base 2^30.
    The loops that add with carry share one shape, [carry]: the limbs are
    [tmp & 0x3FFFFFFF] and the next round starts from [tmp >> 30].  An unsigned
    sum is taken modulo the width once, where the code assigns it.

    [value] is the number a list of limbs stands for.  This file relates the
    conversions, comparisons, shifts and divisions to [value]; [BignumMod] does
    the arithmetic modulo a prime. *)

From S2P Require Import Prelude Words.

Module bignum.

Definition MASK : Z := 0x3FFFFFFF.

(** ** Reading and writing *)

Definition read_be (data : list Z) (i : nat) : Z :=
  Z.lor (Z.lor (Z.lor (Z.shiftl (nth i data 0) 24) (Z.shiftl (nth (i + 1) data 0) 16)) (Z.shiftl (nth (i + 2) data 0) 8))
    (nth (i + 3) data 0).

Definition write_be (x : Z) : list Z := [u8 (Z.shiftr x 24); u8 (Z.shiftr x 16); u8 (Z.shiftr x 8); u8 x].

Definition read_le (data : list Z) (i : nat) : Z :=
  Z.lor (Z.lor (Z.lor (Z.shiftl (nth (i + 3) data 0) 24) (Z.shiftl (nth (i + 2) data 0) 16)) (Z.shiftl (nth (i + 1) data 0) 8))
    (nth i data 0).

Definition write_le (x : Z) : list Z := [u8 x; u8 (Z.shiftr x 8); u8 (Z.shiftr x 16); u8 (Z.shiftr x 24)].

(** The loop of [bn_read_be] and [bn_read_le]: [words] are the 32-bit words,
    lowest first. *)
Fixpoint read_limbs (words : list Z) (i : Z) (temp : Z) : list Z :=
  match words with
  | [] => [temp]
  | limb :: words =>
      let temp := Z.lor temp (u32 (Z.shiftl limb (2 * i))) in
      Z.land temp MASK :: read_limbs words (i + 1) (Z.shiftr limb (30 - 2 * i))
  end.

Definition bn_read_be (in_number : list Z) : outcome (list Z) :=
  data ← mem_read in_number 0 32;
  Ret (read_limbs (map (fun i => read_be data ((7 - i) * 4)) (seq 0 8)) 0 0).

Definition bn_read_le (in_number : list Z) : outcome (list Z) :=
  data ← mem_read in_number 0 32;
  Ret (read_limbs (map (fun i => read_le data (i * 4)) (seq 0 8)) 0 0).

(** The loop of the writers: the 32-bit words, highest first; [limbs] are the
    limbs from the eighth down. *)
Fixpoint write_words (limbs : list Z) (i : Z) (temp : Z) : list Z :=
  match limbs with
  | [] => []
  | limb :: limbs =>
      Z.lor (u32 (Z.shiftl temp (16 + 2 * i))) (Z.shiftr limb (14 - 2 * i)) :: write_words limbs (i + 1) limb
  end.

Definition words_of (a : list Z) : list Z := write_words (rev (take 8 a)) 0 (nth 8 a 0).

Definition bn_write_be (in_number out_number : list Z) : outcome (list Z) :=
  mem_write out_number 0 (concat (map write_be (words_of in_number))).

Definition bn_write_le (in_number out_number : list Z) : outcome (list Z) :=
  mem_write out_number 0 (concat (map write_le (rev (words_of in_number)))).

Definition bn_read_uint32 (x : Z) : list Z := [Z.land x MASK; Z.shiftr x 30; 0; 0; 0; 0; 0; 0; 0].

Definition bn_read_uint64 (x : Z) : list Z :=
  [Z.land x MASK; Z.land (Z.shiftr x 30) MASK; u32 (Z.shiftr (Z.shiftr x 30) 30); 0; 0; 0; 0; 0; 0].

Definition bn_write_uint32 (a : list Z) : Z := Z.lor (nth 0 a 0) (u32 (Z.shiftl (nth 1 a 0) 30)).

Definition bn_write_uint64 (a : list Z) : Z :=
  let tmp := nth 2 a 0 in
  let tmp := Z.lor (u64 (Z.shiftl tmp 30)) (nth 1 a 0) in
  Z.lor (u64 (Z.shiftl tmp 30)) (nth 0 a 0).

(** ** Constants, comparisons, bits *)

Definition bn_zero : list Z := replicate 9 0.
Definition bn_one : list Z := 1 :: replicate 8 0.

Definition bn_is_even (a : list Z) : bool := Z.land (nth 0 a 0) 1 =? 0.
Definition bn_is_odd (a : list Z) : bool := Z.land (nth 0 a 0) 1 =? 1.

Definition bn_is_zero (a : list Z) : bool := fold_left Z.lor a 0 =? 0.

Definition b2z (b : bool) : Z := if b then 1 else 0.

(** [for (i = 8; i >= 0; i--)]: one bit per limb, highest first. *)
Fixpoint compare_bits (a b : list Z) : Z * Z :=
  match a, b with
  | x :: a, y :: b =>
      let '(res1, res2) := compare_bits a b in
      (Z.lor (u32 (Z.shiftl res1 1)) (b2z (x <? y)), Z.lor (u32 (Z.shiftl res2 1)) (b2z (y <? x)))
  | _, _ => (0, 0)
  end.

Definition bn_is_less (a b : list Z) : bool := let '(res1, res2) := compare_bits a b in res2 <? res1.

Definition bn_is_equal (a b : list Z) : bool := fold_left Z.lor (zip_with Z.lxor a b) 0 =? 0.

Definition bn_cmov (cond : Z) (truecase falsecase : list Z) : outcome (list Z) :=
  let tmask := u32 (- cond) in
  let fmask := u32 (Z.lnot tmask) in
  _ ← cassert ((cond =? 1) || (cond =? 0)) "cond == 1 || cond == 0";
  Ret (zip_with (fun t f => Z.lor (Z.land t tmask) (Z.land f fmask)) truecase falsecase).

(** The bit of the limb below comes in. *)
Fixpoint lshift_limbs (a : list Z) (below : Z) : list Z :=
  match a with
  | [] => []
  | x :: a => Z.lor (Z.land (u32 (Z.shiftl x 1)) MASK) below :: lshift_limbs a (Z.shiftr (Z.land x 0x20000000) 29)
  end.

Definition bn_lshift (a : list Z) : list Z := lshift_limbs a 0.

Fixpoint bn_rshift (a : list Z) : list Z :=
  match a with
  | [] => []
  | x :: a => Z.lor (Z.shiftr x 1) (Z.shiftl (Z.land (nth 0 a 0) 1) 29) :: bn_rshift a
  end.

Definition bn_setbit (a : list Z) (bit : nat) : list Z :=
  <[(bit / 30)%nat := Z.lor (nth (bit / 30) a 0) (Z.shiftl 1 (Z.of_nat (bit mod 30)))]> a.

Definition bn_clearbit (a : list Z) (bit : nat) : list Z :=
  <[(bit / 30)%nat := Z.land (nth (bit / 30) a 0) (u32 (Z.lnot (Z.shiftl 1 (Z.of_nat (bit mod 30)))))]> a.

Definition bn_testbit (a : list Z) (bit : nat) : Z :=
  Z.land (nth (bit / 30) a 0) (Z.shiftl 1 (Z.of_nat (bit mod 30))).

Definition bn_xor (b c : list Z) : list Z := zip_with Z.lxor b c.

(** [__builtin_clz] on a word that is not zero. *)
Definition clz (x : Z) : Z := 31 - Z.log2 x.

(** [for (i = 8; i >= 0; i--)]. *)
Fixpoint bitcount_from (a : list Z) (i : Z) : Z :=
  match a with
  | [] => 0
  | x :: a =>
      let above := bitcount_from a (i + 1) in
      if negb (above =? 0) then above else if negb (x =? 0) then i * 30 + (32 - clz x) else 0
  end.

Definition bn_bitcount (a : list Z) : Z := bitcount_from a 0.

(** ** Addition and subtraction *)

Fixpoint carry (w : Z) (tmp : Z) (xs : list Z) : list Z * Z :=
  match xs with
  | [] => ([], tmp)
  | x :: xs =>
      let tmp := wrap_u w (tmp + x) in
      let '(l, rest) := carry w (Z.shiftr tmp 30) xs in
      (Z.land tmp MASK :: l, rest)
  end.

Definition bn_add (a b : list Z) : list Z := (carry 32 0 (zip_with Z.add a b)).1.

Definition bn_addi (a : list Z) (b : Z) : list Z := (carry 32 b a).1.

Definition bn_normalize (a : list Z) : list Z := bn_addi a 0.

Definition bn_subtract (a b : list Z) : list Z :=
  (carry 32 1 (zip_with (fun x y => 0x3FFFFFFF + x - y) a b)).1.

Definition bn_subtractmod (a b prime : list Z) : list Z :=
  (carry 32 1 (zip_with (fun xp y => xp - y) (zip_with (fun x p => 0x3FFFFFFF + x + 2 * p) a prime) b)).1.

(** ** Division by a small number: from the highest limb down *)

Fixpoint divmod_limbs (d m q : Z) (a : list Z) : list Z * Z :=
  match a with
  | [] => ([], 0)
  | x :: a =>
      let '(a, rem) := divmod_limbs d m q a in
      let tmp := u32 (rem * m + x) in
      (u32 (rem * q + tmp / d) :: a, tmp mod d)
  end.

Definition bn_divmod58 (a : list Z) : list Z * Z := divmod_limbs 58 4 18512790 a.

Definition bn_divmod1000 (a : list Z) : list Z * Z := divmod_limbs 1000 824 1073741 a.

(** [for (i = 0; i < DIGITS; i += 3)]. *)
Fixpoint digit_loop (n : nat) (i : Z) (val : list Z) (digits : Z) : Z :=
  match n with
  | O => digits
  | S n =>
      let '(val, limb) := bn_divmod1000 val in
      digit_loop n (i + 3) val
        (if 100 <=? limb then i + 3 else if 10 <=? limb then i + 2 else if 1 <=? limb then i + 1 else digits)
  end.

Definition bn_digitcount (a : list Z) : Z := digit_loop 26 0 a 1.

(** ** Arithmetic modulo a prime *)

(** [0x2000000000000000 + x - p * coef] for the first limb, and
    [0x1FFFFFFF80000000 + x - p * coef] for the others. *)
Definition sub_terms (x prime : list Z) (coef : Z) : list Z :=
  match zip_with (fun x p => x - p * coef) x prime with
  | [] => []
  | t :: ts => 0x2000000000000000 + t :: map (fun t => 0x1FFFFFFF80000000 + t) ts
  end.

Definition bn_fast_mod (x prime : list Z) : list Z :=
  let coef := Z.shiftr (nth 8 x 0) 16 in
  (carry 64 0 (sub_terms x prime coef)).1.

Definition bn_addmod (a b prime : list Z) : list Z := bn_fast_mod (zip_with (fun x y => u32 (x + y)) a b) prime.

Definition bn_mult_k (x : list Z) (k : Z) (prime : list Z) : list Z := bn_fast_mod (map (fun v => u32 (k * v)) x) prime.

Definition bn_subi (a : list Z) (b : Z) (prime : list Z) : outcome (list Z) :=
  _ ← cassert (b <=? nth 0 prime 0) "b <= prime->val[0]";
  Ret (bn_add (match a with [] => [] | x :: a => u32 (x - b) :: a end) prime).

(** [xs] and [ps] are the limbs from the second on. *)
Fixpoint half_loop (xs ps : list Z) (xodd tmp1 : Z) : list Z :=
  match xs, ps with
  | x :: xs, p :: ps =>
      let tmp2 := u32 (x + Z.land p xodd) in
      let tmp1 := u32 (tmp1 + Z.shiftl (Z.land tmp2 1) 29) in
      Z.land tmp1 MASK :: half_loop xs ps xodd (u32 (Z.shiftr tmp1 30 + Z.shiftr tmp2 1))
  | _, _ => [tmp1]
  end.

Definition bn_mult_half (x prime : list Z) : list Z :=
  let xodd := u32 (- Z.land (nth 0 x 0) 1) in
  half_loop (tail x) (tail prime) xodd (Z.shiftr (u32 (nth 0 x 0 + Z.land (nth 0 prime 0) xodd)) 1).

Definition bn_mod (x prime : list Z) : outcome (list Z) :=
  let flag := b2z (bn_is_less x prime) in
  let temp := bn_subtract x prime in
  bn_cmov flag x temp.

(** The products that end in limb [i] of the result. *)
Definition column (k x : list Z) (i : nat) : list Z :=
  map (fun j => nth j k 0 * nth (i - j) x 0) (if (i <? 9)%nat then seq 0 (i + 1) else seq (i - 8) (17 - i)).

Fixpoint long_loop (k x : list Z) (idx : list nat) (temp : Z) : list Z :=
  match idx with
  | [] => [u32 temp]
  | i :: idx =>
      let temp := fold_left (fun t p => u64 (t + p)) (column k x i) temp in
      Z.land temp MASK :: long_loop k x idx (Z.shiftr temp 30)
  end.

Definition bn_multiply_long (k x : list Z) : list Z := long_loop k x (seq 0 17) 0.

(** One step of the reduction, on the limbs [i - 8] to [i + 1] of the product. *)
Definition bn_multiply_reduce_step (res prime : list Z) (i : nat) : outcome (list Z) :=
  let coef := u32 (Z.shiftr (nth i res 0) 16 + Z.shiftl (nth (i + 1) res 0) 14) in
  _ ← cassert (coef <? 0x80000000) "coef < 0x80000000u";
  Ret (take (i - 8) res ++ (carry 64 0 (sub_terms (take 10 (drop (i - 8) res)) (prime ++ [0]) coef)).1 ++ drop (i + 2) res).

(** [for (i = 16; i >= 8; i--)]; [n] steps are left, the next is at [7 + n]. *)
Fixpoint reduce_loop (n : nat) (res prime : list Z) : outcome (list Z) :=
  match n with
  | O => Ret res
  | S n' =>
      res ← bn_multiply_reduce_step res prime (7 + n);
      _ ← cassert (nth (8 + n) res 0 =? 0) "res[i + 1] == 0";
      reduce_loop n' res prime
  end.

Definition bn_multiply_reduce (res prime : list Z) : outcome (list Z) :=
  res ← reduce_loop 9 res prime;
  Ret (take 9 res).

Definition bn_multiply (k x prime : list Z) : outcome (list Z) := bn_multiply_reduce (bn_multiply_long k x) prime.

(** Square and multiply over the bits of one limb of the exponent; the last limb
    is left early. *)
Fixpoint pow_bits (n : nat) (last : bool) (limb : Z) (x res prime : list Z) : outcome (list Z * list Z) :=
  match n with
  | O => Ret (x, res)
  | S n =>
      if last && (limb =? 0) then Ret (x, res)
      else
        res ← (if negb (Z.land limb 1 =? 0) then bn_multiply x res prime else Ret res);
        x ← bn_multiply x x prime;
        pow_bits n last (Z.shiftr limb 1) x res prime
  end.

Fixpoint pow_limbs (e x res prime : list Z) : outcome (list Z) :=
  match e with
  | [] => Ret res
  | limb :: e =>
      '(x, res) ← pow_bits 30 (match e with [] => true | _ => false end) limb x res prime;
      pow_limbs e x res prime
  end.

Definition bn_sqrt (x prime : list Z) : outcome (list Z) :=
  let p := bn_rshift (bn_rshift (bn_addi prime 1)) in
  res ← pow_limbs p x bn_one prime;
  bn_mod res prime.

Definition bn_inverse (x prime : list Z) : outcome (list Z) :=
  let e := match prime with [] => [] | p :: ps => u32 (p - 2) :: ps end in
  res ← pow_limbs e x bn_one prime;
  bn_mod res prime.

End bignum.

(** ** The number limbs stand for *)

Section Values.
Import bignum.

Fixpoint value (l : list Z) : Z :=
  match l with
  | [] => 0
  | x :: l => x + 2 ^ 30 * value l
  end.

Definition limbs_ok (l : list Z) : Prop := Forall (is_u 30) l.

Definition normalized (a : list Z) : Prop := length a = 9%nat /\ limbs_ok a.

Lemma value_app l1 l2 : value (l1 ++ l2) = value l1 + 2 ^ (30 * zlen l1) * value l2.
Proof.
  induction l1 as [|x l1 IH]; [change (zlen []) with 0; cbn [app value]; lia|]. cbn [app value]. rewrite IH, zlen_cons.
  replace (30 * (1 + zlen l1)) with (30 + 30 * zlen l1) by lia. rewrite Z.pow_add_r by (pose proof (zlen_nonneg l1); lia). ring.
Qed.

Lemma value_range l : limbs_ok l -> 0 <= value l < 2 ^ (30 * zlen l).
Proof.
  induction 1 as [|x l Hx _ IH]; [done|]. cbn [value]. rewrite zlen_cons. replace (30 * (1 + zlen l)) with (30 + 30 * zlen l) by lia.
  rewrite Z.pow_add_r by (pose proof (zlen_nonneg l); lia). unfold is_u in Hx. nia.
Qed.

Lemma value_inj l1 : forall l2, limbs_ok l1 -> limbs_ok l2 -> length l1 = length l2 -> value l1 = value l2 -> l1 = l2.
Proof.
  induction l1 as [|x l1 IH]; intros [|y l2] H1 H2 Hl E; [done..|]. apply Forall_cons_1 in H1 as [Hx H1]. apply Forall_cons_1 in H2 as [Hy H2].
  cbn [value] in E. unfold is_u in *. injection Hl as Hl. assert (x = y /\ value l1 = value l2) as [-> Hv] by lia. f_equal. by apply IH.
Qed.

Lemma norm_range a : normalized a -> 0 <= value a < 2 ^ 270.
Proof.
  intros [Hl Ha]. pose proof (value_range a Ha) as R. assert (zlen a = 9) as E by (unfold zlen; lia). rewrite E in R. exact R.
Qed.

Lemma norm_inj a b : normalized a -> normalized b -> value a = value b -> a = b.
Proof. intros [Hl1 H1] [Hl2 H2]. apply value_inj; [done|done|lia]. Qed.

(** Adding with carry, when no sum leaves the width. *)
Lemma carry_spec w T X xs : forall t,
  0 <= t <= T -> Forall (fun x => 0 <= x <= X) xs -> T + X < 2 ^ w -> T + X < 2 ^ 30 * (T + 1) ->
  let '(l, t') := carry w t xs in
  limbs_ok l /\ length l = length xs /\ value l + 2 ^ (30 * zlen xs) * t' = t + value xs /\ 0 <= t' <= T.
Proof.
  induction xs as [|x xs IH]; intros t Ht Hxs Hw HT.
  { cbn [carry]. split_and!; try done; try lia; [constructor|]. change (zlen []) with 0. cbn [value]. lia. }
  apply Forall_cons_1 in Hxs as [Hx Hxs]. cbn [carry]. rewrite wrap_u_small by (unfold is_u; lia).
  rewrite Z.shiftr_div_pow2 by lia. change MASK with (Z.ones 30). rewrite Z.land_ones by lia. set (s := t + x) in *.
  assert (0 <= s / 2 ^ 30 <= T) as Hq.
  { split; [apply Z.div_pos; lia|]. assert (s / 2 ^ 30 < T + 1); [|lia]. apply Z.div_lt_upper_bound; lia. }
  specialize (IH (s / 2 ^ 30) Hq Hxs Hw HT). destruct (carry w (s / 2 ^ 30) xs) as [l t']. destruct IH as (H1 & H2 & H3 & H4).
  split_and!; try lia; [constructor; [unfold is_u; apply Z.mod_pos_bound; lia|done]|cbn; by rewrite H2|].
  cbn [value]. rewrite zlen_cons. replace (30 * (1 + zlen xs)) with (30 + 30 * zlen xs) by lia.
  rewrite Z.pow_add_r by (pose proof (zlen_nonneg xs); lia). pose proof (Z.div_mod s (2 ^ 30) ltac:(lia)). unfold s in *. nia.
Qed.

(** The first component alone, for nine limbs. *)
Lemma carry_nine w T X t xs :
  0 <= t <= T -> Forall (fun x => 0 <= x <= X) xs -> T + X < 2 ^ w -> T + X < 2 ^ 30 * (T + 1) -> length xs = 9%nat ->
  normalized (carry w t xs).1 /\ value (carry w t xs).1 = (t + value xs) mod 2 ^ 270.
Proof.
  intros Ht Hxs Hw HT Hl. pose proof (carry_spec w T X xs t Ht Hxs Hw HT) as H. destruct (carry w t xs) as [l t'].
  destruct H as (H1 & H2 & H3 & H4). assert (zlen xs = 9) as E by (unfold zlen; lia). rewrite E in H3. change (30 * 9) with 270 in H3. cbn [fst].
  assert (normalized l) as Hn by (split; [lia|done]). split; [done|]. pose proof (norm_range l Hn). rewrite <- H3.
  rewrite Z.mul_comm, Z_mod_plus_full, Z.mod_small; lia.
Qed.

Lemma value_zip_add a b : length a = length b -> value (zip_with Z.add a b) = value a + value b.
Proof. revert b. induction a as [|x a IH]; intros [|y b] Hl; [done..|]. injection Hl as Hl. cbn [zip_with value]. rewrite IH by done. ring. Qed.

Lemma zip_range {f : Z -> Z -> Z} {lo hi : Z} {P Q : Z -> Prop} a b :
  Forall P a -> Forall Q b -> (forall x y, P x -> Q y -> lo <= f x y <= hi) -> Forall (fun x => lo <= x <= hi) (zip_with f a b).
Proof.
  intros Ha Hb Hf. revert b Hb. induction Ha as [|x a Hx _ IH]; intros [|y b] Hb; cbn [zip_with]; [constructor..|].
  apply Forall_cons_1 in Hb as [Hy Hb]. constructor; auto.
Qed.

Lemma bn_add_spec a b :
  normalized a -> normalized b -> normalized (bn_add a b) /\ value (bn_add a b) = (value a + value b) mod 2 ^ 270.
Proof.
  intros [La Ha] [Lb Hb]. unfold bn_add. destruct (carry_nine 32 1 (2 * (2 ^ 30 - 1)) 0 (zip_with Z.add a b)) as [H1 H2]; try lia.
  - apply (zip_range a b Ha Hb). unfold is_u. lia.
  - rewrite length_zip_with. lia.
  - split; [done|]. rewrite H2, value_zip_add by lia. done.
Qed.

Lemma bn_addi_spec a n :
  length a = 9%nat -> Forall (is_u 32) a -> 0 <= n -> n + nth 0 a 0 < 2 ^ 32 -> Forall (fun x => x < 2 ^ 32 - 4) (tail a) ->
  normalized (bn_addi a n) /\ value (bn_addi a n) = (n + value a) mod 2 ^ 270.
Proof.
  intros La Ha Hn Hs Ht. destruct a as [|x a]; [done|]. cbn [nth tail] in *. apply Forall_cons_1 in Ha as [Hx Ha]. unfold is_u in Hx.
  assert (carry 32 n (x :: a) = carry 32 0 (n + x :: a)) as E by (cbn [carry]; by rewrite Z.add_0_l).
  unfold bn_addi. rewrite E. cbn [carry]. rewrite Z.add_0_l, wrap_u_small by (unfold is_u; lia).
  rewrite Z.shiftr_div_pow2 by lia. change MASK with (Z.ones 30). rewrite Z.land_ones by lia.
  pose proof (carry_spec 32 3 (2 ^ 32 - 5) a ((n + x) / 2 ^ 30)) as H. destruct (carry 32 _ a) as [l t'].
  destruct H as (H1 & H2 & H3 & H4); try lia.
  - split; [apply Z.div_pos; lia|]. assert ((n + x) / 2 ^ 30 < 4); [|lia]. apply Z.div_lt_upper_bound; lia.
  - apply list.Forall_forall. intros y Hy. rewrite list.Forall_forall in Ha, Ht. specialize (Ha y Hy). specialize (Ht y Hy). unfold is_u in Ha. lia.
  - cbn [fst]. cbn [length] in La. assert (normalized ((n + x) mod 2 ^ 30 :: l)) as Hnm.
    { split; [cbn; lia|]. constructor; [unfold is_u; apply Z.mod_pos_bound; lia|done]. }
    split; [done|]. pose proof (norm_range _ Hnm) as R. cbn [value] in *. assert (zlen a = 8) as E8 by (unfold zlen; lia). rewrite E8 in H3.
    pose proof (Z.div_mod (n + x) (2 ^ 30) ltac:(lia)). apply (Z.mod_unique_pos _ _ t'); [lia|].
    change (30 * 8) with 240 in H3. lia.
Qed.

(** Limb by limb, [0x3FFFFFFF] makes up for what is taken off; together they are
    one less than 2^270. *)
Lemma value_zip_sub c a b :
  length a = length b -> value (zip_with (fun x y => c + x - y) a b) = value (map (fun _ => c) a) + value a - value b.
Proof. revert b. induction a as [|x a IH]; intros [|y b] Hl; [done..|]. injection Hl as Hl. cbn [zip_with value map]. rewrite IH by done. ring. Qed.

Lemma value_zip_diff a b : length a = length b -> value (zip_with (fun x y => x - y) a b) = value a - value b.
Proof. revert b. induction a as [|x a IH]; intros [|y b] Hl; [done..|]. injection Hl as Hl. cbn [zip_with value]. rewrite IH by done. ring. Qed.

Lemma value_const c (a : list Z) : length a = 9%nat -> value (map (fun _ => c) a) * (2 ^ 30 - 1) = c * (2 ^ 270 - 1).
Proof. intros Hl. do 9 (destruct a as [|? a]; [done|]). destruct a; [|done]. cbn [map value]. lia. Qed.

Lemma value_ones (a : list Z) : length a = 9%nat -> value (map (fun _ => 0x3FFFFFFF) a) = 2 ^ 270 - 1.
Proof. intros Hl. pose proof (value_const 0x3FFFFFFF a Hl). lia. Qed.

Lemma bn_subtract_spec a b :
  normalized a -> normalized b -> normalized (bn_subtract a b) /\ value (bn_subtract a b) = (value a - value b) mod 2 ^ 270.
Proof.
  intros [La Ha] [Lb Hb]. unfold bn_subtract.
  destruct (carry_nine 32 1 (2 * (2 ^ 30 - 1)) 1 (zip_with (fun x y => 0x3FFFFFFF + x - y) a b)) as [H1 H2]; try lia.
  - apply (zip_range a b Ha Hb). unfold is_u. lia.
  - rewrite length_zip_with. lia.
  - split; [done|]. rewrite H2, value_zip_sub, value_ones by lia. rewrite <- (Z_mod_plus_full (value a - value b) 1). f_equal. lia.
Qed.

Lemma bn_subtractmod_spec a b prime :
  normalized a -> normalized b -> normalized prime ->
  normalized (bn_subtractmod a b prime) /\ value (bn_subtractmod a b prime) = (value a + 2 * value prime - value b) mod 2 ^ 270.
Proof.
  intros [La Ha] [Lb Hb] [Lp Hp]. unfold bn_subtractmod. set (xp := zip_with (fun x p => 0x3FFFFFFF + x + 2 * p) a prime).
  assert (Forall (fun x => 2 ^ 30 - 1 <= x <= 4 * (2 ^ 30 - 1)) xp) as Hxp by (apply (zip_range a prime Ha Hp); unfold is_u; lia).
  assert (length xp = 9%nat) as Lxp by (unfold xp; rewrite length_zip_with; lia).
  destruct (carry_nine 32 3 (4 * (2 ^ 30 - 1)) 1 (zip_with (fun xp y => xp - y) xp b)) as [H1 H2]; try lia.
  - apply (zip_range xp b Hxp Hb). unfold is_u. lia.
  - rewrite length_zip_with. lia.
  - split; [done|]. rewrite H2, value_zip_diff by lia.
    assert (value xp = 2 ^ 270 - 1 + value a + 2 * value prime) as ->.
    { unfold xp. clear -La Lp. revert La Lp. do 9 (destruct a as [|? a]; [done|]; destruct prime as [|? prime]; [done|]).
      destruct a, prime; [|done..]. intros _ _. cbn [zip_with value]. lia. }
    rewrite <- (Z_mod_plus_full (value a + 2 * value prime - value b) 1). f_equal. lia.
Qed.

(** ** Conversions *)

(** The number of 32-bit words, lowest first. *)
Fixpoint words_value (l : list Z) : Z :=
  match l with
  | [] => 0
  | x :: l => x + 2 ^ 32 * words_value l
  end.

(** Bits above [n] or-ed to a number below. *)
Lemma lor_add a b n : 0 <= n -> 0 <= a < 2 ^ n -> Z.lor a (b * 2 ^ n) = a + b * 2 ^ n.
Proof. intros Hn Ha. rewrite Z.lor_comm, <- Z.shiftl_mul_pow2, lor_shiftl_add, Z.shiftl_mul_pow2 by done. lia. Qed.

Lemma pow2_pos n : 0 <= n -> 0 < 2 ^ n.
Proof. intros. apply Z.pow_pos_nonneg; lia. Qed.

(** Left shifts that drop bits at 32. *)
Lemma u32_shiftl x n : 0 <= n <= 32 -> u32 (Z.shiftl x n) = (x mod 2 ^ (32 - n)) * 2 ^ n.
Proof.
  intros Hn. rewrite Z.shiftl_mul_pow2 by lia. unfold wrap_u. replace 32 with ((32 - n) + n) at 1 by lia.
  rewrite Z.pow_add_r, Zmult_mod_distr_r by lia. done.
Qed.

Lemma mask_mod x : Z.land x MASK = x mod 2 ^ 30.
Proof. change MASK with (Z.ones 30). by rewrite Z.land_ones. Qed.

(** One round of the reading loop: [s] is the new word behind the rest. *)
Lemma read_round limb i t :
  0 <= i <= 7 -> is_u 32 limb -> 0 <= t < 2 ^ (2 * i) ->
  Z.land (Z.lor t (u32 (Z.shiftl limb (2 * i)))) MASK = (t + limb * 2 ^ (2 * i)) mod 2 ^ 30 /\
  Z.shiftr limb (30 - 2 * i) = (t + limb * 2 ^ (2 * i)) / 2 ^ 30.
Proof.
  intros Hi Hl Ht. pose proof (pow2_pos (2 * i) ltac:(lia)). split.
  - rewrite u32_shiftl, lor_add, mask_mod by lia. replace (2 ^ (32 - 2 * i)) with (2 ^ (30 - 2 * i) * 2 ^ 2) by (rewrite <- Z.pow_add_r by lia; f_equal; lia).
    assert (2 ^ (30 - 2 * i) * 2 ^ (2 * i) = 2 ^ 30) as E by (rewrite <- Z.pow_add_r by lia; f_equal; lia).
    rewrite (Z.div_mod limb (2 ^ (30 - 2 * i) * 2 ^ 2)) at 2 by lia.
    rewrite <- (Z_mod_plus_full (t + _) (2 ^ 2 * (limb / (2 ^ (30 - 2 * i) * 2 ^ 2))) (2 ^ 30)). f_equal. rewrite <- E. ring.
  - rewrite Z.shiftr_div_pow2 by lia. replace (2 ^ 30) with (2 ^ (2 * i) * 2 ^ (30 - 2 * i)) by (rewrite <- Z.pow_add_r by lia; f_equal; lia).
    rewrite <- Z.div_div, Z.div_add, (Z.div_small t), Z.add_0_l by (done || lia || (apply pow2_pos; lia)). done.
Qed.

Lemma read_limbs_spec ws : forall i t,
  Forall (is_u 32) ws -> 0 <= i -> i + zlen ws <= 8 -> 0 <= t < 2 ^ (2 * i) ->
  limbs_ok (read_limbs ws i t) /\ length (read_limbs ws i t) = S (length ws) /\
  value (read_limbs ws i t) = t + 2 ^ (2 * i) * words_value ws.
Proof.
  induction ws as [|limb ws IH]; intros i t Hw Hi Hl Ht.
  - cbn. split_and!; [|done|lia]. constructor; [|constructor]. unfold is_u. change (zlen []) with 0 in Hl.
    pose proof (Z.pow_le_mono_r 2 (2 * i) 30). lia.
  - apply Forall_cons_1 in Hw as [Hx Hw]. rewrite zlen_cons in Hl. pose proof (zlen_nonneg ws). cbn [read_limbs].
    destruct (read_round limb i t) as [-> ->]; [lia|done|lia|]. set (s := t + limb * 2 ^ (2 * i)).
    assert (0 <= s < 2 ^ (32 + 2 * i)) as Hs by (unfold s, is_u in *; rewrite Z.pow_add_r by lia; nia).
    destruct (IH (i + 1) (s / 2 ^ 30)) as (H1 & H2 & H3); try done; [lia..| |].
    { split; [apply Z.div_pos; lia|]. apply Z.div_lt_upper_bound; [lia|]. rewrite <- Z.pow_add_r by lia. replace (30 + 2 * (i + 1)) with (32 + 2 * i) by lia. lia. }
    split_and!; [constructor; [unfold is_u; apply Z.mod_pos_bound; lia|done]|cbn; by rewrite H2|].
    cbn [value words_value]. rewrite H3. pose proof (Z.div_mod s (2 ^ 30) ltac:(lia)). replace (2 * (i + 1)) with (2 * i + 2) by lia.
    rewrite Z.pow_add_r by lia. unfold s in *. lia.
Qed.

Lemma words_value_app l1 l2 : words_value (l1 ++ l2) = words_value l1 + 2 ^ (32 * zlen l1) * words_value l2.
Proof.
  induction l1 as [|x l1 IH]; [change (zlen []) with 0; cbn [app words_value]; lia|]. cbn [app words_value]. rewrite IH, zlen_cons.
  replace (32 * (1 + zlen l1)) with (32 + 32 * zlen l1) by lia. rewrite Z.pow_add_r by (pose proof (zlen_nonneg l1); lia). ring.
Qed.

(** The word made of the low bits of [temp] and the high bits of [limb]. *)
Lemma write_round limb i temp :
  0 <= i <= 7 -> is_u 30 limb ->
  let w := Z.lor (u32 (Z.shiftl temp (16 + 2 * i))) (Z.shiftr limb (14 - 2 * i)) in
  is_u 32 w /\ w = (temp mod 2 ^ (16 - 2 * i)) * 2 ^ (16 + 2 * i) + limb / 2 ^ (14 - 2 * i).
Proof.
  intros Hi Hl. unfold is_u in Hl. assert (0 <= limb / 2 ^ (14 - 2 * i) < 2 ^ (16 + 2 * i)) as Hq.
  { pose proof (pow2_pos (14 - 2 * i) ltac:(lia)). split; [apply Z.div_pos; lia|]. apply Z.div_lt_upper_bound; [lia|].
    rewrite <- Z.pow_add_r by lia. replace (14 - 2 * i + (16 + 2 * i)) with 30 by lia. lia. }
  cbv zeta. rewrite Z.shiftr_div_pow2, u32_shiftl, Z.lor_comm, lor_add by lia. replace (32 - (16 + 2 * i)) with (16 - 2 * i) by lia.
  split; [|lia]. pose proof (Z.mod_pos_bound temp (2 ^ (16 - 2 * i)) ltac:(apply pow2_pos; lia)).
  assert (2 ^ (16 - 2 * i) * 2 ^ (16 + 2 * i) = 2 ^ 32) as E by (rewrite <- Z.pow_add_r by lia; f_equal; lia). unfold is_u. nia.
Qed.

Lemma write_words_spec ls : forall i temp,
  0 <= i -> i + zlen ls = 8 -> limbs_ok ls -> 0 <= temp ->
  Forall (is_u 32) (write_words ls i temp) /\ length (write_words ls i temp) = length ls /\
  words_value (rev (write_words ls i temp)) = (temp mod 2 ^ (16 - 2 * i)) * 2 ^ (30 * zlen ls) + value (rev ls).
Proof.
  induction ls as [|limb ls IH]; intros i temp Hi Hl Hls Ht.
  - change (zlen []) with 0 in *. replace i with 8 by lia. cbn. rewrite Z.mod_1_r. split_and!; [constructor|done..].
  - apply Forall_cons_1 in Hls as [Hx Hls]. rewrite zlen_cons in Hl. pose proof (zlen_nonneg ls) as Hn. cbn [write_words rev].
    destruct (write_round limb i temp) as [Hw Ew]; [lia|done|]. revert Hw Ew. set (w := Z.lor _ _). intros Hw Ew.
    destruct (IH (i + 1) limb) as (H1 & H2 & H3); try done; [lia..|unfold is_u in Hx; lia|].
    split_and!; [by constructor|cbn; by rewrite H2|]. rewrite words_value_app, value_app, H3. cbn [words_value value].
    assert (zlen (rev (write_words ls (i + 1) limb)) = zlen ls) as -> by (unfold zlen; by rewrite length_rev, H2).
    assert (zlen (rev ls) = zlen ls) as -> by (unfold zlen; by rewrite length_rev).
    rewrite zlen_cons. assert (zlen ls = 7 - i) as -> by lia. rewrite Ew. replace (16 - 2 * (i + 1)) with (14 - 2 * i) by lia.
    replace (32 * (7 - i)) with ((14 - 2 * i) + 30 * (7 - i)) by lia. replace (30 * (1 + (7 - i))) with ((14 - 2 * i) + (16 + 2 * i) + 30 * (7 - i)) by lia.
    rewrite !Z.pow_add_r by lia. pose proof (Z.div_mod limb (2 ^ (14 - 2 * i)) ltac:(apply Z.pow_nonzero; lia)) as D.
    rewrite D at 3. ring.
Qed.

(** The bytes of the words. *)
Lemma le_bytes_low n : forall a k, le_bytes n (a + k * 2 ^ (8 * Z.of_nat n)) = le_bytes n a.
Proof.
  induction n as [|n IH]; intros a k; [done|]. cbn [le_bytes]. replace (8 * Z.of_nat (S n)) with (8 * Z.of_nat n + 8) by lia.
  rewrite Z.pow_add_r, Z.mul_assoc by lia. f_equal; [unfold wrap_u; by rewrite Z.mod_add|].
  rewrite !Z.shiftr_div_pow2, Z.div_add by lia. apply IH.
Qed.

Lemma be_bytes_words ws :
  Forall (is_u 32) ws -> concat (map write_be ws) = be_bytes (4 * length ws) (words_value (rev ws)) /\
  0 <= words_value (rev ws) < 2 ^ (32 * zlen ws).
Proof.
  induction 1 as [|w ws Hw _ [IH1 IH2]]; [done|]. cbn [map concat rev length]. replace (4 * S (length ws))%nat with (4 + 4 * length ws)%nat by lia.
  rewrite be_bytes_app, words_value_app. cbn [words_value]. rewrite Z.mul_0_r, Z.add_0_r.
  assert (zlen (rev ws) = zlen ws) as -> by (unfold zlen; by rewrite length_rev). rewrite zlen_cons.
  replace (8 * Z.of_nat (4 * length ws)) with (32 * zlen ws) by (unfold zlen; lia). pose proof (zlen_nonneg ws) as Hn.
  pose proof (pow2_pos (32 * zlen ws) ltac:(lia)) as Hp. set (v := words_value (rev ws)) in *. unfold is_u in Hw. split.
  - rewrite Z.shiftr_div_pow2, (Z.mul_comm (2 ^ _)), Z.div_add, (Z.div_small v), Z.add_0_l by lia. f_equal. rewrite IH1.
    unfold be_bytes. rewrite <- (le_bytes_low _ v w). replace (8 * Z.of_nat (4 * length ws)) with (32 * zlen ws) by (unfold zlen; lia). done.
  - replace (32 * (1 + zlen ws)) with (32 * zlen ws + 32) by lia. rewrite Z.pow_add_r by lia. nia.
Qed.

Lemma le_bytes_words ws :
  Forall (is_u 32) ws -> concat (map write_le ws) = le_bytes (4 * length ws) (words_value ws).
Proof.
  induction 1 as [|w ws Hw _ IH]; [done|]. cbn [map concat length words_value]. replace (4 * S (length ws))%nat with (4 + 4 * length ws)%nat by lia.
  unfold is_u in Hw. rewrite le_bytes_app, IH, Z.shiftr_div_pow2 by lia. change (8 * Z.of_nat 4) with 32.
  rewrite (Z.mul_comm (2 ^ 32)), Z.div_add, (Z.div_small w), Z.add_0_l by lia. f_equal.
  etransitivity; [|symmetry; apply (le_bytes_low 4)]. cbn [le_bytes]. unfold write_le. by rewrite !Z.shiftr_shiftr by lia.
Qed.

Lemma le_word_num b l : is_u 8 b -> le_word (b :: l) = b + 256 * le_word l.
Proof. intros Hb. cbn [le_word]. unfold is_u in Hb. rewrite Z.lor_comm, lor_shiftl_add by lia. lia. Qed.

(** Reading 32 bytes as eight words. *)
Lemma read_words data :
  bytes_ok data -> length data = 32%nat ->
  let be := map (fun i => read_be data ((7 - i) * 4)) (seq 0 8) in
  let le := map (fun i => read_le data (i * 4)) (seq 0 8) in
  Forall (is_u 32) be /\ words_value be = be_word data /\ Forall (is_u 32) le /\ words_value le = le_word data.
Proof.
  intros Hd Hl. do 32 (destruct data as [|? data]; [done|]; apply Forall_cons_1 in Hd as [? Hd]). destruct data; [|done]. clear Hl Hd.
  cbn [seq map Nat.sub Nat.mul Nat.add]. unfold read_be, read_le. cbn [nth Nat.add]. rewrite !be32_lor by done.
  unfold be_word. cbn [rev app]. rewrite !le_word_num by done. cbn [words_value le_word]. unfold is_u in *.
  split_and!; try lia; repeat (constructor; [unfold is_u; lia|]); constructor.
Qed.

Lemma bn_read_spec data :
  bytes_ok data -> length data = 32%nat ->
  (exists a, bn_read_be data = Ret a /\ normalized a /\ value a = be_word data) /\
  (exists a, bn_read_le data = Ret a /\ normalized a /\ value a = le_word data).
Proof.
  intros Hd Hl. destruct (read_words data Hd Hl) as (B1 & B2 & L1 & L2). unfold bn_read_be, bn_read_le.
  rewrite mem_read_ok by (unfold zlen; lia). rewrite zdrop_0, ztake_all by (unfold zlen; lia). split; eexists; (split; [reflexivity|]).
  - destruct (read_limbs_spec _ 0 0 B1 ltac:(lia) ltac:(unfold zlen; rewrite length_map; cbn; lia) ltac:(lia)) as (H1 & H2 & H3). split; [split; [rewrite H2, length_map; reflexivity|done]|]. rewrite H3. lia.
  - destruct (read_limbs_spec _ 0 0 L1 ltac:(lia) ltac:(unfold zlen; rewrite length_map; cbn; lia) ltac:(lia)) as (H1 & H2 & H3). split; [split; [rewrite H2, length_map; reflexivity|done]|]. rewrite H3. lia.
Qed.

Lemma words_of_spec a :
  normalized a -> Forall (is_u 32) (words_of a) /\ length (words_of a) = 8%nat /\ words_value (rev (words_of a)) = value a mod 2 ^ 256.
Proof.
  intros [Hl Ha]. unfold words_of. assert (exists b t, a = b ++ [t] /\ length b = 8%nat) as (b & t & -> & Hb).
  { exists (take 8 a), (nth 8 a 0). split; [|rewrite length_take; lia]. do 9 (destruct a as [|? a]; [done|]). by destruct a. }
  rewrite take_app_length' by done. rewrite app_nth2, Hb by lia. cbn [Nat.sub nth]. unfold limbs_ok in Ha. rewrite Forall_app in Ha. destruct Ha as [Ha Ht].
  apply Forall_cons_1 in Ht as [Ht _]. unfold is_u in Ht.
  destruct (write_words_spec (rev b) 0 t) as (H1 & H2 & H3); [lia|unfold zlen; rewrite length_rev; lia|by apply Forall_rev|lia|].
  split; [done|]. split; [rewrite H2, length_rev; lia|]. rewrite H3, rev_involutive, value_app. cbn [value].
  assert (zlen (rev b) = 8) as -> by (unfold zlen; rewrite length_rev; lia). assert (zlen b = 8) as E by (unfold zlen; lia). rewrite E.
  pose proof (value_range b Ha) as R. rewrite E in R. change (30 * 8) with 240 in *. change (16 - 2 * 0) with 16.
  rewrite Z.mul_0_r, Z.add_0_r. apply (Z.mod_unique_pos _ _ (t / 2 ^ 16)); Z.div_mod_to_equations; lia.
Qed.

Lemma bn_write_spec a out :
  normalized a -> 32 <= zlen out ->
  bn_write_be a out = Ret (be_bytes 32 (value a) ++ zdrop 32 out) /\ bn_write_le a out = Ret (le_bytes 32 (value a) ++ zdrop 32 out).
Proof.
  intros Ha Ho. destruct (words_of_spec a Ha) as (H1 & H2 & H3). destruct (be_bytes_words _ H1) as [B _].
  pose proof (le_bytes_words _ (Forall_rev H1)) as L. rewrite H2, H3 in B. rewrite length_rev, H2, H3 in L.
  change (4 * 8)%nat with 32%nat in *.
  assert (le_bytes 32 (value a mod 2 ^ 256) = le_bytes 32 (value a)) as E.
  { rewrite (Z.div_mod (value a) (2 ^ 256)) at 2 by lia. rewrite Z.add_comm, (Z.mul_comm (2 ^ 256)). symmetry. apply (le_bytes_low 32). }
  unfold bn_write_be, bn_write_le. rewrite B, L. unfold be_bytes. rewrite E.
  assert (zlen (le_bytes 32 (value a)) = 32 /\ zlen (rev (le_bytes 32 (value a))) = 32) as [E1 E2]
    by (unfold zlen; by rewrite length_rev, length_le_bytes).
  by rewrite !mem_write_ok, E1, E2, ztake_0 by lia.
Qed.

(** ** Comparisons and choice *)

Lemma fold_lor_zero l : forall a, Forall (fun x => 0 <= x) l -> 0 <= a -> fold_left Z.lor l a = 0 <-> a = 0 /\ Forall (fun x => x = 0) l.
Proof.
  induction l as [|x l IH]; intros a Hl Ha; cbn [fold_left]; [split; [intros ->; split; [done|constructor]|by intros [-> _]]|].
  apply Forall_cons_1 in Hl as [Hx Hl]. rewrite IH, Z.lor_eq_0_iff by (done || by apply Z.lor_nonneg). rewrite List.Forall_cons_iff. tauto.
Qed.

Lemma limbs_nonneg l : limbs_ok l -> Forall (fun x => 0 <= x) l.
Proof. apply Forall_impl. unfold is_u. lia. Qed.

Lemma value_zero l : limbs_ok l -> value l = 0 <-> Forall (fun x => x = 0) l.
Proof.
  induction 1 as [|x l Hx Hl IH]; [split; [constructor|done]|]. cbn [value]. rewrite List.Forall_cons_iff, <- IH. pose proof (value_range l Hl). unfold is_u in Hx. lia.
Qed.

Lemma bn_is_zero_spec a : limbs_ok a -> bn_is_zero a = bool_decide (value a = 0).
Proof.
  intros Ha. unfold bn_is_zero. apply eq_true_iff_eq. rewrite Z.eqb_eq, bool_decide_eq_true, value_zero, fold_lor_zero by (done || by apply limbs_nonneg).
  tauto.
Qed.

Lemma bn_is_equal_spec a b : limbs_ok a -> limbs_ok b -> length a = length b -> bn_is_equal a b = bool_decide (value a = value b).
Proof.
  intros Ha Hb Hl. unfold bn_is_equal. apply eq_true_iff_eq. rewrite Z.eqb_eq, bool_decide_eq_true.
  assert (Forall (fun x => 0 <= x) (zip_with Z.lxor a b)) as Hx.
  { clear Hl. revert b Hb. induction Ha as [|x a Hx _ IH]; intros [|y b] Hb; cbn [zip_with]; [constructor..|].
    apply Forall_cons_1 in Hb as [Hy Hb]. constructor; [|by apply IH]. apply Z.lxor_nonneg. unfold is_u in *. lia. }
  rewrite fold_lor_zero by done. split.
  - intros [_ Hz]. f_equal. clear Ha Hb Hx. revert b Hl Hz. induction a as [|x a IH]; intros [|y b] Hl Hz; [done..|]. injection Hl as Hl.
    cbn [zip_with] in Hz. apply Forall_cons_1 in Hz as [Hz Hr]. apply Z.lxor_eq in Hz as ->. f_equal. by apply IH.
  - intros E. apply value_inj in E as ->; try done. split; [done|]. clear. induction b as [|x b IH]; cbn [zip_with]; [constructor|].
    constructor; [apply Z.lxor_nilpotent|done].
Qed.

Lemma b2z_range b : 0 <= b2z b < 2 ^ 1.
Proof. destruct b; cbn; lia. Qed.

(** A bit of [res1] or [res2] is set for every limb that differs; the highest
    decides. *)
Lemma compare_bits_spec a : forall b,
  limbs_ok a -> limbs_ok b -> length a = length b -> zlen a <= 31 ->
  let '(res1, res2) := compare_bits a b in
  0 <= res1 < 2 ^ zlen a /\ 0 <= res2 < 2 ^ zlen a /\ (res2 < res1 <-> value a < value b) /\ (res1 = res2 <-> value a = value b).
Proof.
  induction a as [|x a IH]; intros [|y b] Ha Hb Hl Hn; [by cbn|done..|].
  apply Forall_cons_1 in Ha as [Hx Ha]. apply Forall_cons_1 in Hb as [Hy Hb]. injection Hl as Hl. rewrite zlen_cons in *. cbn [compare_bits].
  specialize (IH b Ha Hb Hl ltac:(lia)). destruct (compare_bits a b) as [r1 r2]. destruct IH as (R1 & R2 & L & E).
  pose proof (zlen_nonneg a). pose proof (Z.pow_le_mono_r 2 (1 + zlen a) 32 ltac:(lia) ltac:(lia)) as P. rewrite Z.pow_add_r in * by lia.
  rewrite !u32_shiftl, !Z.mod_small by (change (32 - 1) with 31; lia). rewrite <- !Z.shiftl_mul_pow2, !lor_shiftl_add, !(Z.shiftl_mul_pow2 (2 ^ 1)) by (lia || apply b2z_range).
  pose proof (b2z_range (x <? y)). pose proof (b2z_range (y <? x)). unfold is_u in *. cbn [value].
  assert (r1 < r2 \/ r1 = r2 \/ r2 < r1) as [D|[D|D]] by lia; [assert (value b < value a) by lia|apply E in D as D'|apply L in D as D'];
    destruct (Z.ltb_spec x y), (Z.ltb_spec y x); cbn [b2z] in *; split_and!; try split; lia.
Qed.

Lemma bn_is_less_spec a b : normalized a -> normalized b -> bn_is_less a b = bool_decide (value a < value b).
Proof.
  intros [La Ha] [Lb Hb]. unfold bn_is_less. pose proof (compare_bits_spec a b Ha Hb ltac:(lia) ltac:(unfold zlen; lia)) as H.
  destruct (compare_bits a b) as [r1 r2]. apply eq_true_iff_eq. rewrite Z.ltb_lt, bool_decide_eq_true. tauto.
Qed.

Lemma bn_cmov_spec (c : bool) t f :
  limbs_ok t -> limbs_ok f -> length t = length f -> bn_cmov (b2z c) t f = Ret (if c then t else f).
Proof.
  intros Ht Hf Hl. unfold bn_cmov. assert ((b2z c =? 1) || (b2z c =? 0) = true) as -> by (by destruct c). unfold cassert. mstep. f_equal.
  set (tm := u32 (- b2z c)). set (fm := u32 (Z.lnot tm)).
  assert (forall x, is_u 30 x -> Z.land x (Z.ones 32) = x) as Hall.
  { intros x Hx. rewrite Z.land_ones by lia. apply Z.mod_small. unfold is_u in Hx. lia. }
  revert f Hf Hl. induction Ht as [|x t Hx _ IH]; intros [|y f] Hf Hl; [by destruct c|done..|].
  apply Forall_cons_1 in Hf as [Hy Hf]. injection Hl as Hl. cbn [zip_with]. rewrite IH by done.
  destruct c; cbn [b2z] in *; f_equal.
  - change tm with (Z.ones 32). change fm with 0. by rewrite Hall, Z.land_0_r, Z.lor_0_r.
  - change tm with 0. change fm with (Z.ones 32). by rewrite Hall, Z.land_0_r, Z.lor_0_l.
Qed.

(** ** Shifts *)

Lemma lshift_limbs_spec a : forall below, limbs_ok a -> 0 <= below < 2 ->
  limbs_ok (lshift_limbs a below) /\ length (lshift_limbs a below) = length a /\
  value (lshift_limbs a below) = (2 * value a + below) mod 2 ^ (30 * zlen a).
Proof.
  induction a as [|x a IH]; intros below Ha Hb; cbn [lshift_limbs].
  { split_and!; [constructor|done|]. change (30 * zlen []) with 0. by rewrite Z.mod_1_r. }
  apply Forall_cons_1 in Ha as [Hx Ha]. unfold is_u in Hx. rewrite u32_shiftl, mask_mod by lia. change (32 - 1) with 31.
  rewrite (Z.mod_small x) by lia.
  assert ((x * 2 ^ 1) mod 2 ^ 30 = x mod 2 ^ 29 * 2 ^ 1) as -> by exact (Zmult_mod_distr_r x (2 ^ 29) (2 ^ 1)).
  assert (Z.shiftr (Z.land x 0x20000000) 29 = x / 2 ^ 29) as ->.
  { rewrite Z.shiftr_land, Z.shiftr_div_pow2 by lia. change (Z.shiftr 0x20000000 29) with (Z.ones 1). rewrite Z.land_ones by lia.
    apply Z.mod_small. split; [apply Z.div_pos; lia|]. apply Z.div_lt_upper_bound; lia. }
  destruct (IH (x / 2 ^ 29) Ha) as (H1 & H2 & H3); [split; [apply Z.div_pos; lia|]; apply Z.div_lt_upper_bound; lia|].
  rewrite Z.lor_comm, (lor_add below (x mod 2 ^ 29) 1) by lia.
  pose proof (Z.mod_pos_bound x (2 ^ 29) ltac:(lia)) as Hm. split_and!; [constructor; [unfold is_u; lia|done]|cbn; by rewrite H2|].
  cbn [value]. rewrite H3, zlen_cons. pose proof (zlen_nonneg a). replace (30 * (1 + zlen a)) with (30 + 30 * zlen a) by lia. rewrite Z.pow_add_r by lia.
  pose proof (pow2_pos (30 * zlen a) ltac:(lia)). rewrite Z.rem_mul_r by lia.
  assert (2 * (x + 2 ^ 30 * value a) + below = (below + x mod 2 ^ 29 * 2 ^ 1) + (2 * value a + x / 2 ^ 29) * 2 ^ 30) as ->
    by (pose proof (Z.div_mod x (2 ^ 29)); lia).
  rewrite Z.mod_add, Z.div_add, (Z.mod_small (below + _)), (Z.div_small (below + _)) by lia. done.
Qed.

Lemma bn_lshift_spec a : normalized a -> normalized (bn_lshift a) /\ value (bn_lshift a) = (2 * value a) mod 2 ^ 270.
Proof.
  intros [Hl Ha]. destruct (lshift_limbs_spec a 0 Ha ltac:(lia)) as (H1 & H2 & H3). split; [split; [unfold bn_lshift; lia|done]|].
  rewrite Z.add_0_r in H3. assert (zlen a = 9) as E by (unfold zlen; lia). by rewrite E in H3.
Qed.

Lemma rshift_limbs_spec a : limbs_ok a ->
  limbs_ok (bn_rshift a) /\ length (bn_rshift a) = length a /\ value (bn_rshift a) = value a / 2.
Proof.
  induction 1 as [|x a Hx Ha (H1 & H2 & H3)]; [split_and!; [constructor|done..]|]. cbn [bn_rshift]. unfold is_u in Hx.
  assert (Z.land (nth 0 a 0) 1 = value a mod 2) as ->.
  { change 1 with (Z.ones 1). rewrite Z.land_ones by lia. destruct a as [|y a]; [done|]. cbn [nth value].
    replace (y + 2 ^ 30 * value a) with (y + (2 ^ 29 * value a) * 2) by ring. symmetry. apply Z.mod_add. lia. }
  rewrite Z.shiftr_div_pow2, Z.shiftl_mul_pow2, lor_add by (Z.div_mod_to_equations; lia).
  split_and!; [constructor; [unfold is_u; Z.div_mod_to_equations; lia|done]|cbn; by rewrite H2|].
  cbn [value]. rewrite H3. Z.div_mod_to_equations. lia.
Qed.

Lemma bn_rshift_spec a : normalized a -> normalized (bn_rshift a) /\ value (bn_rshift a) = value a / 2.
Proof. intros [Hl Ha]. destruct (rshift_limbs_spec a Ha) as (H1 & H2 & H3). split; [split; [by rewrite H2|done]|done]. Qed.

(** ** Division by a small number *)

Lemma divmod_limbs_spec d m q a :
  0 < d < 2 ^ 16 -> 0 <= m < d -> 2 ^ 30 = q * d + m -> d * m < 2 ^ 31 -> limbs_ok a ->
  let '(b, rem) := divmod_limbs d m q a in
  limbs_ok b /\ length b = length a /\ value b = value a / d /\ rem = value a mod d.
Proof.
  intros Hd Hm Hq Hdm. induction 1 as [|x a Hx Ha IH]; [cbn; rewrite Z.div_0_l, Z.mod_0_l by lia; split_and!; [constructor|done..]|].
  cbn [divmod_limbs]. destruct (divmod_limbs d m q a) as [b rem]. destruct IH as (H1 & H2 & H3 & H4). unfold is_u in Hx.
  pose proof (Z.mod_pos_bound (value a) d ltac:(lia)) as Hr. rewrite <- H4 in Hr.
  rewrite (wrap_u_small 32 (rem * m + x)) by (unfold is_u; nia). set (t := rem * m + x). assert (0 <= t) by (unfold t; nia).
  assert (rem * q + t / d = (rem * 2 ^ 30 + x) / d) as E1.
  { rewrite Hq. replace (rem * (q * d + m) + x) with (t + (rem * q) * d) by (unfold t; ring). rewrite Z.div_add by lia. lia. }
  assert (0 <= (rem * 2 ^ 30 + x) / d < 2 ^ 30) as Hb by (split; [apply Z.div_pos; nia|apply Z.div_lt_upper_bound; nia]).
  rewrite E1, wrap_u_small by (unfold is_u; lia). cbn [value].
  assert (x + 2 ^ 30 * value a = rem * 2 ^ 30 + x + (2 ^ 30 * (value a / d)) * d) as E2 by (rewrite H4; pose proof (Z.div_mod (value a) d); lia).
  split_and!; [by constructor|cbn; by rewrite H2|rewrite H3, E2, Z.div_add by lia; ring|].
  rewrite E2, Z.mod_add by lia. replace (rem * 2 ^ 30 + x) with (t + (rem * q) * d) by (unfold t; rewrite Hq; ring). by rewrite Z.mod_add by lia.
Qed.

Lemma bn_divmod_spec a :
  normalized a ->
  (normalized (bn_divmod58 a).1 /\ value (bn_divmod58 a).1 = value a / 58 /\ (bn_divmod58 a).2 = value a mod 58) /\
  (normalized (bn_divmod1000 a).1 /\ value (bn_divmod1000 a).1 = value a / 1000 /\ (bn_divmod1000 a).2 = value a mod 1000).
Proof.
  intros [Hl Ha]. unfold bn_divmod58, bn_divmod1000.
  pose proof (divmod_limbs_spec 58 4 18512790 a ltac:(lia) ltac:(lia) ltac:(lia) ltac:(lia) Ha) as H1.
  pose proof (divmod_limbs_spec 1000 824 1073741 a ltac:(lia) ltac:(lia) ltac:(lia) ltac:(lia) Ha) as H2.
  destruct (divmod_limbs 58 4 18512790 a), (divmod_limbs 1000 824 1073741 a). unfold normalized. cbn [fst snd]. naive_solver lia.
Qed.

(** [n] is the number of decimal digits of [v]. *)
Definition digits_of (v n : Z) : Prop := 1 <= n /\ 10 ^ (n - 1) <= v < 10 ^ n.

Lemma digits_of_step v k : digits_of (v / 1000) k -> digits_of v (k + 3).
Proof.
  intros (H1 & H2). split; [lia|]. replace (k + 3 - 1) with (k - 1 + 3) by lia. rewrite !Z.pow_add_r by lia.
  change (10 ^ 3) with 1000. Z.div_mod_to_equations. lia.
Qed.

Lemma digits_of_small v : 0 < v < 1000 -> digits_of v (if 100 <=? v then 3 else if 10 <=? v then 2 else 1).
Proof.
  intros Hv. unfold digits_of. destruct (Z.leb_spec 100 v); [cbn; lia|]. destruct (Z.leb_spec 10 v); cbn; lia.
Qed.

Lemma mod_thousand v m : 0 < m -> v mod (1000 * m) / 1000 = v / 1000 mod m /\ (v mod (1000 * m)) mod 1000 = v mod 1000.
Proof.
  intros Hm. rewrite Z.rem_mul_r by lia. pose proof (Z.mod_pos_bound v 1000 ltac:(lia)). set (q := (v / 1000) mod m). clearbody q.
  split; [symmetry; apply Z.div_unique with (v mod 1000); lia|]. symmetry. apply Z.mod_unique with q; lia.
Qed.

(** [n] rounds count the digits of the number modulo 1000^n. *)
Lemma digit_loop_spec n : forall i val digits,
  normalized val -> let v := value val mod 1000 ^ Z.of_nat n in
  (v = 0 -> digit_loop n i val digits = digits) /\
  (0 < v -> exists k, digit_loop n i val digits = i + k /\ digits_of v k).
Proof.
  induction n as [|n IH]; intros i val digits Hv; cbn [digit_loop]; cbv zeta.
  { change (1000 ^ Z.of_nat 0) with 1. rewrite Z.mod_1_r. split; [done|lia]. }
  destruct (bn_divmod_spec val Hv) as [_ (H1 & H2 & H3)]. destruct (bn_divmod1000 val) as [val' limb]. cbn [fst snd] in *.
  pose proof (norm_range val Hv) as R. rewrite Nat2Z.inj_succ, Z.pow_succ_r by lia.
  assert (0 < 1000 ^ Z.of_nat n) as Hm by (apply Z.pow_pos_nonneg; lia). destruct (mod_thousand (value val) _ Hm) as [Ed Em].
  set (digits' := if 100 <=? limb then _ else _).
  destruct (IH (i + 3) val' digits' H1) as [I1 I2]. rewrite H2, <- Ed in I1, I2. rewrite <- Em in H3.
  pose proof (Z.mod_pos_bound (value val) (1000 * 1000 ^ Z.of_nat n) ltac:(lia)) as Rv. set (v := value val mod _) in *. clearbody v. split.
  - intros E. rewrite I1 by (by rewrite E). unfold digits'. assert (limb = 0) as -> by (by rewrite H3, E). done.
  - intros Hp. destruct (decide (v / 1000 = 0)) as [E|E].
    + rewrite (I1 E). assert (limb = v) as El by (rewrite H3; apply Z.mod_small; Z.div_mod_to_equations; lia).
      assert (0 < v < 1000) as Hs by (Z.div_mod_to_equations; lia).
      eexists. split; [|by apply digits_of_small]. unfold digits'. rewrite El, (proj2 (Z.leb_le 1 v)) by lia.
      destruct (100 <=? v); [done|]. by destruct (10 <=? v).
    + destruct I2 as (k & I2 & I3); [pose proof (Z.div_pos v 1000); lia|]. exists (k + 3). rewrite I2. split; [lia|]. by apply digits_of_step.
Qed.

Lemma bn_digitcount_spec a :
  normalized a -> let v := value a mod 10 ^ 78 in if decide (v = 0) then bn_digitcount a = 1 else digits_of v (bn_digitcount a).
Proof.
  intros Ha v. destruct (digit_loop_spec 26 0 a 1 Ha) as [H1 H2]. change (1000 ^ Z.of_nat 26) with (10 ^ 78) in H1, H2. fold v in H1, H2.
  pose proof (Z.mod_pos_bound (value a) (10 ^ 78) ltac:(lia)) as R. fold v in R. unfold bn_digitcount.
  case_decide; [by apply H1|]. destruct H2 as (k & -> & Hk); [lia|done].
Qed.

(** ** Bits *)

Lemma bitcount_from_spec a : forall i, 0 <= i -> limbs_ok a ->
  bitcount_from a i = if decide (value a = 0) then 0 else 30 * i + Z.log2 (value a) + 1.
Proof.
  induction a as [|x a IH]; intros i Hi Ha; cbn [bitcount_from value]; [by rewrite decide_True|].
  apply Forall_cons_1 in Ha as [Hx Ha]. unfold is_u in Hx. rewrite IH by (done || lia). pose proof (value_range a Ha) as R.
  destruct (decide (value a = 0)) as [E|E].
  - rewrite E. cbn [Z.eqb negb]. rewrite Z.mul_0_r, Z.add_0_r. destruct (Z.eqb_spec x 0) as [->|Hn]; cbn [negb]; [by rewrite decide_True|].
    rewrite decide_False by done. unfold clz. lia.
  - pose proof (Z.log2_nonneg (value a)). rewrite (proj2 (Z.eqb_neq _ _)) by lia. cbn [negb]. rewrite decide_False by lia.
    assert (Z.log2 (x + 2 ^ 30 * value a) = Z.log2 (value a) + 30) as ->; [|lia].
    apply Z.log2_unique; [lia|]. pose proof (Z.log2_spec (value a) ltac:(lia)) as [L1 L2].
    replace (Z.succ (Z.log2 (value a) + 30)) with (Z.succ (Z.log2 (value a)) + 30) by lia. rewrite !Z.pow_add_r by lia. lia.
Qed.

Lemma bn_bitcount_spec a : limbs_ok a -> bn_bitcount a = if decide (value a = 0) then 0 else Z.log2 (value a) + 1.
Proof. intros Ha. unfold bn_bitcount. rewrite bitcount_from_spec by (done || lia). case_decide; lia. Qed.

Lemma testbit_cons x v i :
  is_u 30 x -> 0 <= i -> Z.testbit (x + 2 ^ 30 * v) i = if i <? 30 then Z.testbit x i else Z.testbit v (i - 30).
Proof.
  intros Hx Hi. unfold is_u in Hx. replace (x + 2 ^ 30 * v) with (Z.lor (Z.shiftl v 30) x) by (rewrite lor_shiftl_add by lia; ring).
  rewrite Z.lor_spec, Z.shiftl_spec by lia. destruct (Z.ltb_spec i 30).
  - by rewrite (Z.testbit_neg_r v) by lia.
  - by rewrite (testbit_high 30 x), orb_false_r by (done || lia).
Qed.

Lemma testbit_value l : limbs_ok l -> forall n, Z.testbit (value l) (Z.of_nat n) = Z.testbit (nth (n / 30) l 0) (Z.of_nat (n mod 30)).
Proof.
  induction 1 as [|x l Hx Hl IH]; intros n; cbn [value]; [rewrite Z.bits_0; destruct (n / 30)%nat; cbn [nth]; by rewrite Z.bits_0|].
  rewrite testbit_cons by (done || lia). destruct (Z.ltb_spec (Z.of_nat n) 30).
  - rewrite Nat.div_small, Nat.mod_small by lia. done.
  - replace n with (n - 30 + 1 * 30)%nat by lia. rewrite Nat.div_add, Nat.Div0.mod_add by lia.
    replace (Z.of_nat (n - 30 + 1 * 30) - 30) with (Z.of_nat (n - 30)) by lia. rewrite IH, Nat.add_1_r. done.
Qed.

Lemma bn_testbit_spec a bit : limbs_ok a -> negb (bn_testbit a bit =? 0) = Z.testbit (value a) (Z.of_nat bit).
Proof.
  intros Ha. rewrite testbit_value by done. unfold bn_testbit. set (x := nth _ _ _). set (n := Z.of_nat (bit mod 30)). assert (0 <= n) by lia.
  assert (Z.land x (Z.shiftl 1 n) = if Z.testbit x n then 2 ^ n else 0) as ->.
  { rewrite Z.shiftl_1_l. apply Z.bits_inj'. intros i Hi. rewrite Z.land_spec, Z.pow2_bits_eqb by done.
    destruct (Z.eqb_spec n i) as [->|]; [|rewrite andb_false_r; destruct (Z.testbit x n); [by rewrite Z.pow2_bits_false|by rewrite Z.bits_0]].
    destruct (Z.testbit x i) eqn:E; cbn [andb]; [rewrite Z.pow2_bits_true by done; done|by rewrite Z.bits_0]. }
  destruct (Z.testbit x n); [|done]. pose proof (pow2_pos n ltac:(done)). by rewrite (proj2 (Z.eqb_neq _ _)) by lia.
Qed.

Lemma nth_insert (l : list Z) i j x : (i < length l)%nat -> nth j (<[i := x]> l) 0 = if (i =? j)%nat then x else nth j l 0.
Proof.
  intros Hi. rewrite !nth_lookup. destruct (Nat.eqb_spec i j) as [->|Hn]; [by rewrite list_lookup_insert_eq|by rewrite list_lookup_insert_ne].
Qed.

(** Changing one limb bit by bit. *)
Lemma insert_bits a bit y (f : Z -> bool) :
  normalized a -> (bit < 270)%nat -> is_u 30 y -> f (Z.of_nat bit) = Z.testbit y (Z.of_nat (bit mod 30)) ->
  (forall n, 0 <= n -> n <> Z.of_nat (bit mod 30) -> Z.testbit y n = Z.testbit (nth (bit / 30) a 0) n) ->
  (forall n, 0 <= n -> n <> Z.of_nat bit -> f n = Z.testbit (value a) n) ->
  normalized (<[(bit / 30)%nat := y]> a) /\ forall n, 0 <= n -> Z.testbit (value (<[(bit / 30)%nat := y]> a)) n = f n.
Proof.
  intros [Hl Ha] Hb Hy Hf Hy' Hf'. assert (bit / 30 < 9)%nat as Hq by (apply Nat.Div0.div_lt_upper_bound; lia).
  assert (limbs_ok (<[(bit / 30)%nat := y]> a)) as Ho by (by apply Forall_insert).
  split; [split; [by rewrite length_insert|done]|]. intros n Hn. rewrite <- (Z2Nat.id n) by done. set (k := Z.to_nat n).
  rewrite testbit_value, nth_insert by (done || lia). destruct (decide (k = bit)) as [->|Hk].
  - by rewrite Nat.eqb_refl.
  - rewrite (Hf' (Z.of_nat k)), testbit_value by (done || lia). destruct (Nat.eqb_spec (bit / 30) (k / 30)) as [E|]; [|done].
    rewrite <- E. apply Hy'; [lia|]. intros Em. apply Hk. apply Nat2Z.inj in Em. rewrite (Nat.div_mod_eq k 30), (Nat.div_mod_eq bit 30). lia.
Qed.

Lemma limb_ok a i : limbs_ok a -> is_u 30 (nth i a 0).
Proof. intros Ha. rewrite nth_lookup. destruct (a !! i) as [x|] eqn:E; [|by unfold is_u; cbn]. by apply (Forall_lookup_1 _ _ _ _ Ha E). Qed.

Lemma bn_setbit_spec a bit :
  normalized a -> (bit < 270)%nat -> normalized (bn_setbit a bit) /\ value (bn_setbit a bit) = Z.setbit (value a) (Z.of_nat bit).
Proof.
  intros Hn Hb. pose proof (Nat.mod_upper_bound bit 30 ltac:(lia)) as Hm. unfold bn_setbit.
  destruct (insert_bits a bit (Z.lor (nth (bit / 30) a 0) (Z.shiftl 1 (Z.of_nat (bit mod 30)))) (Z.testbit (Z.setbit (value a) (Z.of_nat bit)))) as [H1 H2];
    try done.
  - apply is_u_lor; [lia|apply limb_ok, Hn|]. rewrite Z.shiftl_1_l. unfold is_u. pose proof (Z.pow_lt_mono_r 2 (Z.of_nat (bit mod 30)) 30). pose proof (pow2_pos (Z.of_nat (bit mod 30))). lia.
  - rewrite Z.setbit_eq, Z.lor_spec, Z.shiftl_1_l, Z.pow2_bits_true, orb_true_r by lia. done.
  - intros n Hn' Hne. rewrite Z.lor_spec, Z.shiftl_1_l, Z.pow2_bits_false, orb_false_r by lia. done.
  - intros n Hn' Hne. rewrite Z.setbit_neq by lia. done.
  - split; [done|]. by apply Z.bits_inj'.
Qed.

Lemma bn_clearbit_spec a bit :
  normalized a -> (bit < 270)%nat -> normalized (bn_clearbit a bit) /\ value (bn_clearbit a bit) = Z.clearbit (value a) (Z.of_nat bit).
Proof.
  intros Hn Hb. pose proof (Nat.mod_upper_bound bit 30 ltac:(lia)) as Hm. unfold bn_clearbit. set (m := u32 _).
  assert (forall n, 0 <= n -> Z.testbit m n = (n <? 32) && negb (Z.of_nat (bit mod 30) =? n)) as Htm.
  { intros n Hn'. unfold m. rewrite testbit_wrap_u, Z.lnot_spec, Z.shiftl_1_l, Z.pow2_bits_eqb by lia. done. }
  destruct (insert_bits a bit (Z.land (nth (bit / 30) a 0) m) (Z.testbit (Z.clearbit (value a) (Z.of_nat bit)))) as [H1 H2]; try done.
  - apply is_u_land; [lia|apply limb_ok, Hn].
  - rewrite Z.clearbit_eq, Z.land_spec, Htm, Z.eqb_refl by lia. by rewrite !andb_false_r.
  - intros n Hn' Hne. rewrite Z.land_spec, Htm, (proj2 (Z.eqb_neq _ _)) by lia. cbn [negb]. rewrite andb_true_r. destruct (Z.ltb_spec n 32); [by rewrite andb_true_r|].
    by rewrite (testbit_high 30 (nth _ _ _)) by (lia || apply limb_ok, Hn).
  - intros n Hn' Hne. rewrite Z.clearbit_neq by lia. done.
  - split; [done|]. by apply Z.bits_inj'.
Qed.

Lemma bn_xor_spec b c : normalized b -> normalized c -> normalized (bn_xor b c) /\ value (bn_xor b c) = Z.lxor (value b) (value c).
Proof.
  intros [Lb Hb] [Lc Hc]. assert (limbs_ok (bn_xor b c) /\ value (bn_xor b c) = Z.lxor (value b) (value c)) as [H1 H2].
  2: { split; [split; [unfold bn_xor; rewrite length_zip_with; lia|done]|done]. }
  assert (length b = length c) as Hl by lia. clear Lb Lc. revert c Hc Hl. induction Hb as [|x b Hx Hb IH]; intros [|y c] Hc Hl; [split; [constructor|done]|done..|].
  apply Forall_cons_1 in Hc as [Hy Hc]. injection Hl as Hl. destruct (IH c Hc Hl) as [I1 I2]. unfold bn_xor in *. cbn [zip_with value]. rewrite I2.
  assert (is_u 30 (Z.lxor x y)) as Hxy by (by apply is_u_lxor). split; [by constructor|]. apply Z.bits_inj'. intros n Hn.
  rewrite Z.lxor_spec, !testbit_cons by done. destruct (n <? 30); by rewrite Z.lxor_spec.
Qed.

(** Small numbers. *)
Lemma bn_uint_spec x :
  (is_u 32 x -> normalized (bn_read_uint32 x) /\ value (bn_read_uint32 x) = x /\ bn_write_uint32 (bn_read_uint32 x) = x) /\
  (is_u 64 x -> normalized (bn_read_uint64 x) /\ value (bn_read_uint64 x) = x /\ bn_write_uint64 (bn_read_uint64 x) = x).
Proof.
  split; intros Hx; unfold is_u in Hx.
  - unfold bn_read_uint32. rewrite mask_mod, Z.shiftr_div_pow2 by lia. assert (0 <= x / 2 ^ 30 < 4) by (Z.div_mod_to_equations; lia).
    split_and!; [split; [done|unfold limbs_ok; forall_list; unfold is_u; Z.div_mod_to_equations; lia]|cbn [value]; Z.div_mod_to_equations; lia|].
    unfold bn_write_uint32. cbn [nth]. rewrite u32_shiftl, lor_add by (Z.div_mod_to_equations; lia). rewrite (Z.mod_small (x / 2 ^ 30)) by lia. Z.div_mod_to_equations; lia.
  - unfold bn_read_uint64. rewrite !mask_mod, Z.shiftr_shiftr, !Z.shiftr_div_pow2 by lia. change (30 + 30) with 60.
    rewrite (wrap_u_small 32) by (unfold is_u; Z.div_mod_to_equations; lia).
    split_and!; [split; [done|unfold limbs_ok; forall_list; unfold is_u; Z.div_mod_to_equations; lia]|cbn [value]; Z.div_mod_to_equations; lia|].
    unfold bn_write_uint64. cbn [nth]. set (x2 := x / 2 ^ 60). set (x1 := (x / 2 ^ 30) mod 2 ^ 30). set (x0 := x mod 2 ^ 30).
    assert (0 <= x2 < 16 /\ 0 <= x1 < 2 ^ 30 /\ 0 <= x0 < 2 ^ 30 /\ x = x2 * 2 ^ 60 + x1 * 2 ^ 30 + x0) as (R2 & R1 & R0 & E) by (unfold x0, x1, x2; Z.div_mod_to_equations; lia).
    rewrite (wrap_u_small 64 (Z.shiftl x2 30)) by (rewrite Z.shiftl_mul_pow2 by lia; unfold is_u; lia).
    rewrite lor_shiftl_add, wrap_u_small by (rewrite ?Z.shiftl_mul_pow2 by lia; unfold is_u; lia). rewrite lor_shiftl_add by lia. lia.
Qed.

(** ** The conversions and the arithmetic of the code *)

(** The byte conversions are exact and inverse: 32 bytes are read as a
    normalized number with the value the bytes stand for, big or little endian,
    and writing that number gives the bytes back; writing any normalized number
    gives the bytes of its value modulo 2^256. *)
Theorem bn_bytes_roundtrip (data a out : list Z) :
  bytes_ok data -> length data = 32%nat -> normalized a -> 32 <= zlen out ->
  (exists n, bn_read_be data = Ret n /\ normalized n /\ value n = be_word data /\ bn_write_be n out = Ret (data ++ zdrop 32 out)) /\
  (exists n, bn_read_le data = Ret n /\ normalized n /\ value n = le_word data /\ bn_write_le n out = Ret (data ++ zdrop 32 out)) /\
  bn_write_be a out = Ret (be_bytes 32 (value a) ++ zdrop 32 out) /\
  bn_write_le a out = Ret (le_bytes 32 (value a) ++ zdrop 32 out).
Proof.
  intros Hd Hl Ha Ho. destruct (bn_read_spec data Hd Hl) as [(n & E & N & V) (m & E' & N' & V')].
  pose proof (be_bytes_word data Hd) as Hb. pose proof (le_bytes_word data Hd) as Hle. rewrite Hl in Hb, Hle.
  split_and!; [exists n|exists m|apply (bn_write_spec a out Ha Ho)..]; split_and!; try done.
  - by rewrite (proj1 (bn_write_spec n out N Ho)), V, Hb.
  - by rewrite (proj2 (bn_write_spec m out N' Ho)), V', Hle.
Qed.

Lemma bn_bytes_roundtrip_witness :
  exists n, bn_read_be (map Z.of_nat (seq 1 32)) = Ret n /\ bn_write_be n (replicate 40 7) = Ret (map Z.of_nat (seq 1 32) ++ replicate 8 7).
Proof.
  destruct (bn_bytes_roundtrip (map Z.of_nat (seq 1 32)) bn_one (replicate 40 7)) as [(n & E & _ & _ & W) _].
  - apply (bool_decide_unpack _). by vm_compute.
  - done.
  - split; [done|]. apply (bool_decide_unpack _). by vm_compute.
  - by vm_compute.
  - by exists n.
Defined.

(** C29. What the loops with 32-bit words compute on normalized numbers, the
    numbers below 2^270: addition, subtraction, subtraction with twice a prime on
    top and doubling give normalized numbers with the value modulo 2^270, so the
    exact value when that is between 0 and 2^270; halving, division by 58 and 1000,
    setting and clearing a bit and the exclusive or give normalized numbers with the
    exact value; comparisons decide the order of the values; the number of bits is
    exact, and the number of decimal digits is that of the lowest 78 digits, so
    exact below 10^78. *)
Theorem bn_word_arithmetic (a b prime : list Z) (bit : nat) :
  normalized a -> normalized b -> normalized prime -> (bit < 256)%nat ->
  (normalized (bn_add a b) /\ value (bn_add a b) = (value a + value b) mod 2 ^ 270) /\
  (normalized (bn_subtract a b) /\ value (bn_subtract a b) = (value a - value b) mod 2 ^ 270) /\
  (normalized (bn_subtractmod a b prime) /\ value (bn_subtractmod a b prime) = (value a + 2 * value prime - value b) mod 2 ^ 270) /\
  (normalized (bn_lshift a) /\ value (bn_lshift a) = (2 * value a) mod 2 ^ 270) /\
  (normalized (bn_rshift a) /\ value (bn_rshift a) = value a / 2) /\
  (normalized (bn_divmod58 a).1 /\ value (bn_divmod58 a).1 = value a / 58 /\ (bn_divmod58 a).2 = value a mod 58) /\
  (normalized (bn_divmod1000 a).1 /\ value (bn_divmod1000 a).1 = value a / 1000 /\ (bn_divmod1000 a).2 = value a mod 1000) /\
  (normalized (bn_setbit a bit) /\ value (bn_setbit a bit) = Z.setbit (value a) (Z.of_nat bit)) /\
  (normalized (bn_clearbit a bit) /\ value (bn_clearbit a bit) = Z.clearbit (value a) (Z.of_nat bit)) /\
  (normalized (bn_xor a b) /\ value (bn_xor a b) = Z.lxor (value a) (value b)) /\
  bn_is_zero a = bool_decide (value a = 0) /\ bn_is_equal a b = bool_decide (value a = value b) /\
  bn_is_less a b = bool_decide (value a < value b) /\ negb (bn_testbit a bit =? 0) = Z.testbit (value a) (Z.of_nat bit) /\
  bn_bitcount a = (if decide (value a = 0) then 0 else Z.log2 (value a) + 1) /\
  (let v := value a mod 10 ^ 78 in if decide (v = 0) then bn_digitcount a = 1 else digits_of v (bn_digitcount a)).
Proof.
  intros Ha Hb Hp Hbit. pose proof Ha as [La Oa]. pose proof Hb as [Lb Ob].
  split_and!; (apply bn_add_spec || apply bn_subtract_spec || apply bn_subtractmod_spec || apply bn_lshift_spec || apply bn_rshift_spec ||
    apply bn_divmod_spec || apply bn_setbit_spec || apply bn_clearbit_spec || apply bn_xor_spec || apply bn_is_zero_spec || apply bn_is_equal_spec ||
    apply bn_is_less_spec || apply bn_testbit_spec || apply bn_bitcount_spec || apply bn_digitcount_spec); done || lia.
Qed.

Lemma bn_word_arithmetic_witness :
  value (bn_subtractmod bn_one (bn_read_uint32 5) (bn_read_uint64 (2 ^ 61 - 1))) = 2 ^ 62 - 6 /\
  value (bn_add bn_one (bn_read_uint32 5)) = 6 /\ digits_of 1 (bn_digitcount bn_one).
Proof.
  destruct (bn_word_arithmetic bn_one (bn_read_uint32 5) (bn_read_uint64 (2 ^ 61 - 1)) 7) as ([_ H1] & _ & [_ H2] & H3).
  1-3: split; [done|]; apply (bool_decide_unpack _); by vm_compute.
  - lia.
  - split; [rewrite H2; by vm_compute|]. split; [rewrite H1; by vm_compute|]. do 12 apply proj2 in H3. exact H3.
Defined.

End Values.
