(* ===== verification/Primality.v ===== *)
(** * Primality: certificates for the moduli of the curve

    The arithmetic of [BignumMod] and [Ecdsa] is correct for a prime modulus.
    This file proves Pocklington's criterion and with it that the modulus of
    secp256k1, in src/src/ptp_crypto/crypto_secp256k1.cpp, is prime.

    Powers are computed with the machine integers of the Bignums library, so
    that the kernel evaluates them quickly. *)

From Bignums Require Import BigN.BigN.
From Stdlib Require Import Znumtheory Zcong Zmod.ZmodInv.
From S2P Require Import Prelude.

(** ** Powers *)

Fixpoint powm (m a : BigN.t) (e : positive) : BigN.t :=
  match e with
  | xH => BigN.modulo a m
  | xO e => let r := powm m a e in BigN.modulo (BigN.mul r r) m
  | xI e => let r := powm m a e in BigN.modulo (BigN.mul (BigN.modulo (BigN.mul r r) m) a) m
  end.

Lemma powm_spec m a e : BigN.to_Z m <> 0 -> BigN.to_Z (powm m a e) = (BigN.to_Z a ^ Zpos e) mod BigN.to_Z m.
Proof.
  intros Hm. induction e as [e IH|e IH|]; cbn [powm].
  - rewrite !BigN.spec_modulo, !BigN.spec_mul, BigN.spec_modulo, BigN.spec_mul, IH.
    rewrite <- Z.mul_mod by done. rewrite Z.mul_mod_idemp_l by done. f_equal.
    rewrite Pos2Z.inj_xI, Z.pow_add_r, Z.pow_1_r, Z.pow_mul_r, Z.pow_2_r, Z.pow_mul_l by lia. done.
  - rewrite BigN.spec_modulo, BigN.spec_mul, IH, <- Z.mul_mod by done. rewrite Pos2Z.inj_xO, Z.pow_mul_r, Z.pow_2_r, Z.pow_mul_l by lia. done.
  - by rewrite BigN.spec_modulo, Z.pow_1_r.
Qed.

(** [a ^ e mod m] for positive arguments. *)
Definition pow_mod (a e m : Z) : Z := BigN.to_Z (powm (BigN.of_pos (Z.to_pos m)) (BigN.of_pos (Z.to_pos a)) (Z.to_pos e)).

Lemma pow_mod_eq a e m : 0 < a -> 0 < e -> 0 < m -> pow_mod a e m = (a ^ e) mod m.
Proof. intros Ha He Hm. unfold pow_mod. rewrite powm_spec, !BigN.spec_of_pos, !Z2Pos.id by (rewrite ?BigN.spec_of_pos, ?Z2Pos.id; lia). done. Qed.

(** ** Prime divisors *)

Lemma prime_divisor n : 1 < n -> exists s, Z.prime s /\ (s | n).
Proof.
  intros Hn. assert (0 <= n) as H0 by lia. revert n H0 Hn. apply (Zlt_0_ind (fun n => 1 < n -> exists s, Z.prime s /\ (s | n))). intros n IH _ Hn.
  destruct (prime_dec n) as [Hp|Hp]; [exists n; split; [by apply prime_alt|done]|].
  destruct (not_prime_divide n Hn Hp) as (d & Hd & Hdn). destruct (IH d ltac:(lia) ltac:(lia)) as (s & Hs & Hsd). exists s. split; [done|]. by transitivity d.
Qed.

Lemma small_prime_divisor n : 1 < n -> ~ Z.prime n -> exists s, Z.prime s /\ (s | n) /\ s * s <= n.
Proof.
  intros Hn Hp. rewrite prime_alt in Hp. destruct (not_prime_divide n Hn Hp) as (d & Hd & [k Hk]).
  assert (exists m, 1 < m /\ (m | n) /\ m * m <= n) as (m & Hm & Hmn & Hmm).
  { destruct (decide (d <= k)); [exists d|exists k]; (split; [nia|]; split; [|nia]); [by exists k|exists d; lia]. }
  destruct (prime_divisor m Hm) as (s & Hs & Hsm). exists s. split; [done|]. split; [by transitivity m|].
  pose proof (Z.prime_ge_2 s Hs). apply Z.divide_pos_le in Hsm; [|lia]. nia.
Qed.

(** ** Pocklington's criterion *)

Lemma pow_one b n s : 1 < s -> 0 <= n -> b mod s = 1 -> (b ^ n) mod s = 1.
Proof.
  intros Hs Hn Hb. revert n Hn. apply natlike_ind; [apply Z.mod_1_l; lia|]. intros n Hn IH.
  rewrite Z.pow_succ_r, Z.mul_mod, Hb, IH by lia. apply Z.mod_1_l. lia.
Qed.

Lemma divide_mod_one a n s : 1 < s -> (s | n) -> 0 < n -> a mod n = 1 -> a mod s = 1.
Proof.
  intros Hs [k Hk] Hn Ha. rewrite (Z.div_mod a n) by lia. rewrite Ha, Hk. replace (k * s * (a / (k * s)) + 1) with (1 + (k * (a / (k * s))) * s) by ring.
  rewrite Z.mod_add by lia. apply Z.mod_1_l. lia.
Qed.

(** What one prime factor of [n - 1] says about the prime divisors of [n]. *)
Lemma pock_divides n q a s :
  1 < n -> Z.prime q -> (q | n - 1) -> (a ^ (n - 1)) mod n = 1 -> Z.gcd ((a ^ ((n - 1) / q)) mod n - 1) n = 1 ->
  Z.prime s -> (s | n) -> (q | s - 1).
Proof.
  intros Hn Hq [k Hk] Ha Hg Hs Hsn. pose proof (Z.prime_ge_2 q Hq). pose proof (Z.prime_ge_2 s Hs).
  assert ((n - 1) / q = k) as Ek by (rewrite Hk; apply Z.div_mul; lia). rewrite Ek in Hg. assert (0 < k) by nia. set (b := a ^ k) in *.
  destruct (decide ((s - 1) mod q = 0)) as [E|Hnd]; [apply Z.mod_divide; [lia|done]|exfalso]. rewrite Z.mod_divide in Hnd by lia.
  assert ((b ^ q) mod s = 1) as Hbq. { apply (divide_mod_one _ n s); try lia; try done. unfold b. rewrite <- Z.pow_mul_r by lia. rewrite <- Hk. done. }
  assert (b mod s <> 0) as Hb0.
  { intros E. assert ((b ^ q) mod s = 0) as E0; [|rewrite E0 in Hbq; done]. replace q with (Z.succ (q - 1)) by lia. rewrite Z.pow_succ_r, Z.mul_mod, E by lia. by rewrite Z.mul_0_l, Z.mod_0_l by lia. }
  assert ((b ^ (s - 1)) mod s = 1) as Hbs by (by apply Z.fermat_nz).
  pose proof (Z.invmod_coprime' q (s - 1) (Z.coprime_prime_l q (s - 1) Hq Hnd)) as Hu.
  set (u := Z.abs (Z.invmod q (s - 1)) * (s - 1) + Z.invmod q (s - 1) + (s - 1)). assert (0 < u) as Hup by (unfold u; nia).
  assert ((u * q) mod (s - 1) = 1 mod (s - 1)) as Huq.
  { unfold u. rewrite <- Hu. replace ((Z.abs (Z.invmod q (s - 1)) * (s - 1) + Z.invmod q (s - 1) + (s - 1)) * q)
      with (Z.invmod q (s - 1) * q + ((Z.abs (Z.invmod q (s - 1)) + 1) * q) * (s - 1)) by ring. apply Z.mod_add. lia. }
  assert (exists v, 0 <= v /\ u * q = 1 + v * (s - 1)) as (v & Hv & Ev).
  { assert ((u * q - 1) mod (s - 1) = 0) as E0 by (rewrite Zminus_mod, Huq, Z.sub_diag; apply Z.mod_0_l; lia). apply Z.div_exact in E0; [|lia].
    exists ((u * q - 1) / (s - 1)). split; [apply Z.div_pos; nia|lia]. }
  assert (b mod s = 1) as Hb1.
  { rewrite <- (pow_one (b ^ q) u s) by (done || lia). rewrite <- Z.pow_mul_r, (Z.mul_comm q), Ev, Z.pow_add_r, Z.pow_1_r, (Z.mul_comm v), Z.pow_mul_r by nia.
    rewrite Z.mul_mod, (pow_one (b ^ (s - 1)) v s), Z.mul_1_r, Z.mod_mod by (done || lia). done. }
  assert (s | 1) as Hs1.
  { rewrite <- Hg. apply Z.gcd_greatest; [|done]. destruct Hsn as [j Hj]. exists ((b mod n - 1) / s). rewrite Z.mul_comm. apply Z.div_exact; [lia|].
    rewrite Zminus_mod. assert ((b mod n) mod s = b mod s) as ->. { rewrite Hj. apply Z.mod_mod_divide. by exists j. }
    rewrite Hb1, Z.mod_1_l, Z.sub_diag by lia. apply Z.mod_0_l. lia. }
  apply Z.divide_1_r_nonneg in Hs1; lia.
Qed.

Lemma coprime_mul_divide q F m : (q | m) -> Z.coprime q F -> (F | m) -> (q * F | m).
Proof.
  intros Hq Hc [k Hk]. rewrite Hk in Hq |- *. rewrite Z.mul_comm in Hq. apply Z.gauss in Hq as [j Hj]; [|done]. exists j. rewrite Hj. ring.
Qed.

(** A certificate: distinct primes of [n - 1] with a base for each. *)
Definition pock_check (n : Z) (c : Z * Z) : bool :=
  let '(q, a) := c in
  ((n - 1) mod q =? 0) && (0 <? a) && (pow_mod a (n - 1) n =? 1) && (Z.gcd (pow_mod a ((n - 1) / q) n - 1) n =? 1).

Lemma pocklington n (l : list (Z * Z)) :
  1 < n -> Forall (fun c => Z.prime c.1) l -> NoDup l.*1 -> forallb (pock_check n) l = true -> n <= (foldr Z.mul 1 l.*1) ^ 2 -> Z.prime n.
Proof.
  intros Hn Hp Hd Hc HF. destruct (prime_dec n) as [H|H]; [by apply prime_alt|exfalso]. rewrite <- prime_alt in H.
  destruct (small_prime_divisor n Hn H) as (s & Hs & Hsn & Hss). pose proof (Z.prime_ge_2 s Hs).
  assert ((foldr Z.mul 1 l.*1 | s - 1) /\ forall q, Z.prime q -> q ∉ l.*1 -> Z.coprime q (foldr Z.mul 1 l.*1)) as [Hdv _].
  { clear HF. induction l as [|[q a] l IH]; cbn [fmap list_fmap foldr fst] in *; [split; [apply Z.divide_1_l|intros; apply Z.coprime_1_r]|].
    apply Forall_cons_1 in Hp as [Hq Hp]. inversion Hd as [|? ? Hni Hd']; subst. cbn [forallb] in Hc. apply andb_true_iff in Hc as [Hc1 Hc]. cbn [fst] in Hq.
    destruct (IH Hp Hd' Hc) as [D1 D2]. split.
    - apply coprime_mul_divide; [| |done].
      + unfold pock_check in Hc1. rewrite !andb_true_iff, !Z.eqb_eq, Z.ltb_lt in Hc1. destruct Hc1 as [[[C1 C2] C3] C4]. pose proof (Z.prime_ge_2 q Hq).
        apply Z.mod_divide in C1; [|lia]. assert (0 < (n - 1) / q) by (destruct C1 as [k Hk]; rewrite Hk, Z.div_mul by lia; nia).
        rewrite !pow_mod_eq in C3, C4 by lia. by apply (pock_divides n q a s).
      + by apply D2.
    - intros r Hr Hrn. apply not_elem_of_cons in Hrn as [Hrq Hrl]. apply Z.coprime_mul_r; [|by apply D2]. apply Z.coprime_prime_l; [done|]. intros Hdv.
      apply Z.divide_prime_r in Hdv; [|done]. pose proof (Z.prime_ge_2 r Hr). pose proof (Z.prime_ge_2 q Hq). lia. }
  apply Z.divide_pos_le in Hdv; [|lia]. assert (0 <= foldr Z.mul 1 l.*1); [|nia].
  clear -Hp. induction Hp as [|[q a] l Hq _ IH]; cbn; [lia|]. pose proof (Z.prime_ge_2 q Hq). nia.
Qed.

Lemma trial_division n :
  1 < n -> forallb (fun d => negb (n mod Z.of_nat d =? 0)) (seq 2 (Z.to_nat n - 2)) = true -> Z.prime n.
Proof.
  intros Hn Hf. split; [done|]. intros d Hd Hdv. rewrite forallb_forall in Hf. specialize (Hf (Z.to_nat d)). rewrite Z2Nat.id in Hf by lia.
  apply Z.mod_divide in Hdv; [|lia]. rewrite Hdv in Hf. cbn in Hf. discriminate Hf. apply in_seq. lia.
Qed.

(** ** The modulus of secp256k1 *)

Ltac trial := apply trial_division; [lia|by vm_compute].

Ltac pock l :=
  apply (pocklington _ l); [lia|forall_list; done|apply (bool_decide_unpack _); by vm_compute|by vm_compute|cbn; lia].

Lemma prime_53 : Z.prime 53.
Proof. trial. Qed.

Lemma prime_29 : Z.prime 29.
Proof. trial. Qed.

Lemma prime_7 : Z.prime 7.
Proof. trial. Qed.

Lemma prime_107590001 : Z.prime 107590001.
Proof. pose proof prime_53. pose proof prime_29. pose proof prime_7. pock [(53, 2); (29, 2); (7, 2)]. Qed.

Lemma prime_19 : Z.prime 19.
Proof. trial. Qed.

Lemma prime_11 : Z.prime 11.
Proof. trial. Qed.

Lemma prime_419 : Z.prime 419.
Proof. pose proof prime_19. pose proof prime_11. pock [(19, 2); (11, 2)]. Qed.

Lemma prime_20113 : Z.prime 20113.
Proof. pose proof prime_419. pock [(419, 2)]. Qed.

Lemma prime_1206781 : Z.prime 1206781.
Proof. pose proof prime_20113. pock [(20113, 2)]. Qed.

Lemma prime_7240687 : Z.prime 7240687.
Proof. pose proof prime_1206781. pock [(1206781, 2)]. Qed.

Lemma prime_239 : Z.prime 239.
Proof. trial. Qed.

Lemma prime_101 : Z.prime 101.
Proof. trial. Qed.

Lemma prime_96557 : Z.prime 96557.
Proof. pose proof prime_239. pose proof prime_101. pock [(239, 2); (101, 2)]. Qed.

Lemma prime_128 : Z.prime 255515944373312847190720520512484175977.
Proof. pose proof prime_107590001. pose proof prime_7240687. pose proof prime_96557. pock [(107590001, 2); (7240687, 2); (96557, 2)]. Qed.

Lemma prime_237 : Z.prime 205115282021455665897114700593932402728804164701536103180137503955397371.
Proof. pose proof prime_128. pock [(255515944373312847190720520512484175977, 2)]. Qed.

Lemma secp256k1_prime : Z.prime (2 ^ 256 - 2 ^ 32 - 977).
Proof. pose proof prime_237. pock [(205115282021455665897114700593932402728804164701536103180137503955397371, 2)]. Qed.

(** ** The order of its base point *)

Lemma prime_17 : Z.prime 17.
Proof. trial. Qed.

Lemma prime_1871 : Z.prime 1871.
Proof. pose proof prime_17. pose proof prime_11. pock [(17, 2); (11, 2)]. Qed.

Lemma prime_1627771 : Z.prime 1627771.
Proof. pose proof prime_1871. pock [(1871, 2)]. Qed.

Lemma prime_297159362677 : Z.prime 297159362677.
Proof. pose proof prime_1627771. pock [(1627771, 2)]. Qed.

Lemma prime_1409 : Z.prime 1409.
Proof. trial. Qed.

Lemma prime_28181 : Z.prime 28181.
Proof. pose proof prime_1409. pock [(1409, 2)]. Qed.

Lemma prime_545358713 : Z.prime 545358713.
Proof. pose proof prime_28181. pock [(28181, 2)]. Qed.

Lemma prime_95_bits : Z.prime 29047611873442575647497758179.
Proof. pose proof prime_297159362677. pose proof prime_545358713. pock [(297159362677, 2); (545358713, 2)]. Qed.

Lemma prime_109_bits : Z.prime 341948486974166000522343609283189.
Proof. pose proof prime_95_bits. pock [(29047611873442575647497758179, 2)]. Qed.

Lemma prime_41 : Z.prime 41.
Proof. trial. Qed.

Lemma prime_9349 : Z.prime 9349.
Proof. pose proof prime_41. pose proof prime_19. pock [(41, 2); (19, 2)]. Qed.

Lemma prime_44706919 : Z.prime 44706919.
Proof. pose proof prime_9349. pock [(9349, 2)]. Qed.

Lemma prime_113 : Z.prime 113.
Proof. trial. Qed.

Lemma prime_120233 : Z.prime 120233.
Proof. pose proof prime_113. pose proof prime_19. pock [(113, 2); (19, 2)]. Qed.

Lemma prime_68_bits : Z.prime 174723607534414371449.
Proof. pose proof prime_44706919. pose proof prime_120233. pock [(44706919, 2); (120233, 2)]. Qed.

Lemma secp256k1_order_prime : Z.prime (2 ^ 256 - 432420386565659656852420866394968145599).
Proof. pose proof prime_109_bits. pose proof prime_68_bits. pock [(341948486974166000522343609283189, 2); (174723607534414371449, 2)]. Qed.
