(* ===== verification/BignumMod.v ===== *)
(** * BignumMod: arithmetic modulo a prime of 256 bits

    The correctness of the modular part of src/src/ptp_crypto/bignum.cpp, whose
    definitions are in [Bignum]: partial reduction, multiplication, roots and
    inverses.  As the comments of the code ask, the modulus lies between
    2^256 - 2^224 and 2^256; a number is partly reduced when it is normalized and
    below twice the modulus. *)

From Stdlib Require Import Zmod.ZmodInv.
From S2P Require Import Prelude Words Bignum Primality.

Section Modular.
Import bignum.

Context (prime : list Z) (Hprime : normalized prime) (Hrange : 2 ^ 256 - 2 ^ 224 <= value prime < 2 ^ 256).

Local Abbreviation p := (value prime).

Definition partly (a : list Z) : Prop := normalized a /\ value a < 2 * p.

(** ** Taking multiples of the modulus off *)

Lemma value_sub_terms n x q coef :
  length x = S n -> length q = S n ->
  value (sub_terms x q coef) = value x - coef * value q + 2 ^ (61 + 30 * Z.of_nat n).
Proof.
  intros Hx Hq. destruct x as [|x0 x], q as [|q0 q]; [done..|]. injection Hx as Hx. injection Hq as Hq. unfold sub_terms. cbn [zip_with value].
  assert (value (map (fun t => 0x1FFFFFFF80000000 + t) (zip_with (fun x p => x - p * coef) x q)) =
    value x - coef * value q + 2 ^ 31 * (2 ^ (30 * Z.of_nat n) - 1)) as ->.
  { revert q n Hx Hq. induction x as [|x1 x IH]; intros [|q1 q] n Hx Hq; cbn [length] in *; [subst n; cbn; lia|lia..|]. destruct n as [|n]; [lia|].
    cbn [zip_with map value]. rewrite (IH q n) by lia. replace (30 * Z.of_nat (S n)) with (30 + 30 * Z.of_nat n) by lia. rewrite Z.pow_add_r by lia. lia. }
  rewrite Z.pow_add_r by lia. lia.
Qed.

Lemma sub_terms_range B C x q coef :
  0 <= coef <= C -> C * (2 ^ 30 - 1) <= 2 ^ 61 - 2 ^ 31 -> Forall (fun v => 0 <= v <= B) x -> limbs_ok q ->
  Forall (fun v => 0 <= v <= 2 ^ 61 + B) (sub_terms x q coef).
Proof.
  intros Hc HC Hx Hq. unfold sub_terms.
  assert (Forall (fun v => -(C * (2 ^ 30 - 1)) <= v <= B) (zip_with (fun x p => x - p * coef) x q)) as Hz.
  { apply (zip_range x q Hx Hq). unfold is_u. nia. }
  destruct (zip_with _ x q) as [|t ts]; [constructor|]. apply Forall_cons_1 in Hz as [Ht Hz]. constructor; [lia|].
  apply Forall_map. eapply Forall_impl; [|exact Hz]. cbn. lia.
Qed.

(** Limbs need not be normalized for a partial reduction. *)
Lemma bn_fast_mod_spec x :
  length x = 9%nat -> Forall (is_u 32) x ->
  partly (bn_fast_mod x prime) /\ value (bn_fast_mod x prime) = value x - Z.shiftr (nth 8 x 0) 16 * p.
Proof.
  intros Hl Hx. destruct Hprime as [Lp Op]. unfold bn_fast_mod. set (coef := Z.shiftr (nth 8 x 0) 16).
  assert (is_u 32 (nth 8 x 0)) as H8.
  { rewrite nth_lookup. destruct (x !! 8%nat) as [y|] eqn:E; [|by unfold is_u; cbn]. by apply (Forall_lookup_1 _ _ _ _ Hx E). }
  assert (0 <= coef <= 2 ^ 16) as Hc by (unfold coef, is_u in *; rewrite Z.shiftr_div_pow2 by lia; Z.div_mod_to_equations; lia).
  assert (coef * 2 ^ 256 <= value x < (coef + 1) * 2 ^ 256 + 2 ^ 243) as Hv.
  { unfold coef. rewrite Z.shiftr_div_pow2 by lia. clear coef Hc. revert Hl. do 9 (destruct x as [|? x]; [done|]; apply Forall_cons_1 in Hx as [? Hx]).
    destruct x; [|done]. intros _. cbn [nth value] in *. unfold is_u in *. Z.div_mod_to_equations. lia. }
  destruct (carry_nine 64 (2 ^ 32) (2 ^ 61 + 2 ^ 32) 0 (sub_terms x prime coef)) as [H1 H2]; try lia.
  - apply (sub_terms_range (2 ^ 32) (2 ^ 16)); [done|lia| |done]. eapply Forall_impl; [|exact Hx]. unfold is_u. lia.
  - unfold sub_terms. destruct x as [|x0 x], prime as [|p0 ps]; [done..|]. cbn [zip_with length]. rewrite length_map, length_zip_with. cbn [length] in *. lia.
  - rewrite (value_sub_terms 8), Z.add_0_l in H2 by done. change (2 ^ (61 + 30 * Z.of_nat 8)) with (2 ^ 31 * 2 ^ 270) in H2.
    assert (0 <= coef * (2 ^ 256 - p) <= 2 ^ 16 * 2 ^ 224) by nia.
    rewrite Z.mod_add, Z.mod_small in H2 by lia. split; [split; [done|]|done]. rewrite H2. lia.
Qed.

(** Congruence modulo [p]. *)
Definition eqm (x y : Z) : Prop := x mod p = y mod p.

Local Notation "x ≅ y" := (eqm x y) (at level 70).

#[local] Instance eqm_equiv : Equivalence eqm.
Proof. unfold eqm. split; [done|by intros x y|intros x y z; apply transitivity]. Qed.

#[local] Instance add_eqm : Proper (eqm ==> eqm ==> eqm) Z.add.
Proof. intros x x' Hx y y' Hy. unfold eqm in *. by rewrite Z.add_mod, Hx, Hy, <- Z.add_mod by lia. Qed.

#[local] Instance mul_eqm : Proper (eqm ==> eqm ==> eqm) Z.mul.
Proof. intros x x' Hx y y' Hy. unfold eqm in *. by rewrite Z.mul_mod, Hx, Hy, <- Z.mul_mod by lia. Qed.

Lemma pow_eqm x y n : 0 <= n -> x ≅ y -> x ^ n ≅ y ^ n.
Proof. intros Hn E. revert n Hn. apply natlike_ind; [done|]. intros n Hn IH. by rewrite !Z.pow_succ_r, IH, E by done. Qed.

Lemma eqm_sub x c : x - c * p ≅ x.
Proof. unfold eqm. replace (x - c * p) with (x + (- c) * p) by ring. apply Z.mod_add. lia. Qed.

Lemma eqm_mod x : x mod p ≅ x.
Proof. apply Z.mod_mod. lia. Qed.

Lemma bn_addmod_spec a b :
  normalized a -> normalized b -> partly (bn_addmod a b prime) /\ value (bn_addmod a b prime) ≅ value a + value b.
Proof.
  intros [La Ha] [Lb Hb]. unfold bn_addmod. set (x := zip_with (fun x y => u32 (x + y)) a b).
  assert (x = zip_with Z.add a b /\ Forall (is_u 32) x) as [E Hx].
  { unfold x. clear x La Lb. revert b Hb. induction Ha as [|u a Hu _ IH]; intros [|v b] Hb; cbn [zip_with]; [by split; [|constructor]..|].
    apply Forall_cons_1 in Hb as [Hv Hb]. destruct (IH b Hb) as [-> HF]. unfold is_u in *. rewrite wrap_u_small by (unfold is_u; lia). split; [done|].
    constructor; [lia|done]. }
  destruct (bn_fast_mod_spec x) as [H1 H2]; [unfold x; rewrite length_zip_with; lia|done|]. split; [done|].
  rewrite H2, eqm_sub, E, value_zip_add by lia. done.
Qed.

Lemma bn_mult_k_spec x k :
  normalized x -> 0 <= k <= 4 -> partly (bn_mult_k x k prime) /\ value (bn_mult_k x k prime) ≅ k * value x.
Proof.
  intros [Lx Hx] Hk. unfold bn_mult_k. set (y := map (fun v => u32 (k * v)) x).
  assert (value y = k * value x /\ Forall (is_u 32) y) as [E Hy].
  { unfold y. clear y Lx. induction Hx as [|u x Hu _ [IH HF]]; cbn [map value]; [split; [lia|constructor]|]. unfold is_u in *.
    rewrite wrap_u_small by (unfold is_u; nia). split; [rewrite IH; lia|]. constructor; [nia|done]. }
  destruct (bn_fast_mod_spec y) as [H1 H2]; [unfold y; by rewrite length_map|done|]. split; [done|]. by rewrite H2, eqm_sub, E.
Qed.

Lemma bn_subtractmod_cong a b :
  normalized a -> partly b -> value a + 2 * p < 2 ^ 270 ->
  normalized (bn_subtractmod a b prime) /\ value (bn_subtractmod a b prime) = value a + 2 * p - value b.
Proof.
  intros Ha [Hb Hb2] Hs. destruct (bn_subtractmod_spec a b prime Ha Hb Hprime) as [H1 H2]. split; [done|].
  rewrite H2. apply Z.mod_small. pose proof (norm_range a Ha). pose proof (norm_range b Hb). lia.
Qed.

Lemma bn_mod_spec x : partly x -> exists r, bn_mod x prime = Ret r /\ normalized r /\ value r = value x mod p.
Proof.
  intros [Hx Hx2]. unfold bn_mod. destruct (bn_subtract_spec x prime Hx Hprime) as [H1 H2].
  rewrite bn_is_less_spec, bn_cmov_spec by (apply Hx || apply H1 || done || (destruct Hx, H1; lia)).
  eexists. split; [done|]. pose proof (norm_range x Hx). case_bool_decide.
  - split; [done|]. by rewrite Z.mod_small by lia.
  - split; [done|]. rewrite H2, Z.mod_small by lia. apply (Z.mod_unique_pos _ _ 1); lia.
Qed.

(** ** Half *)

Lemma half_loop_spec xs : forall ps xodd tmp1,
  limbs_ok xs -> limbs_ok ps -> length xs = length ps -> (xodd = 0 \/ xodd = 2 ^ 32 - 1) -> 0 <= tmp1 <= 2 ^ 30 ->
  let c := if decide (xodd = 0) then 0 else 1 in
  exists top low, half_loop xs ps xodd tmp1 = low ++ [top] /\ limbs_ok low /\ length low = length xs /\ 0 <= top /\
    value (low ++ [top]) = tmp1 + 2 ^ 29 * (value xs + c * value ps).
Proof.
  induction xs as [|x xs IH]; intros [|q ps] xodd tmp1 Hx Hq Hl Ho Ht c; cbn [half_loop]; [|done..|].
  { exists tmp1, []. cbn [app value length]. split_and!; try done; try lia. }
  apply Forall_cons_1 in Hx as [Hx Hxs]. apply Forall_cons_1 in Hq as [Hq Hqs]. injection Hl as Hl. unfold is_u in Hx, Hq.
  assert (Z.land q xodd = c * q) as ->.
  { unfold c. destruct Ho as [->| ->]; case_decide; try lia; [by rewrite Z.land_0_r|]. change (2 ^ 32 - 1) with (Z.ones 32). rewrite Z.land_ones, Z.mod_small by lia. lia. }
  assert (0 <= c * q <= q) as Hc by (unfold c; case_decide; lia). rewrite (wrap_u_small 32 (x + c * q)) by (unfold is_u; lia).
  set (t := x + c * q). assert (0 <= t < 2 ^ 31) by (unfold t; lia).
  assert (Z.land t 1 = t mod 2 ^ 1) as -> by exact (Z.land_ones t 1 ltac:(lia)). rewrite !Z.shiftl_mul_pow2, !Z.shiftr_div_pow2 by lia.
  pose proof (Z.mod_pos_bound t (2 ^ 1) ltac:(lia)). rewrite (wrap_u_small 32 (tmp1 + _)) by (unfold is_u; lia). set (s := tmp1 + t mod 2 ^ 1 * 2 ^ 29).
  rewrite wrap_u_small by (unfold is_u, s; Z.div_mod_to_equations; lia).
  destruct (IH ps xodd (s / 2 ^ 30 + t / 2 ^ 1) Hxs Hqs Hl Ho) as (top & low & E & H1 & H2 & H3 & H4); [unfold s; Z.div_mod_to_equations; lia|]. fold c in H4.
  exists top, (Z.land s MASK :: low). rewrite E, mask_mod.
  split_and!; [done|constructor; [unfold is_u; apply Z.mod_pos_bound; lia|done]|cbn; by rewrite H2|done|].
  cbn [app value]. rewrite H4. pose proof (Z.div_mod s (2 ^ 30) ltac:(lia)). pose proof (Z.div_mod t (2 ^ 1) ltac:(lia)). unfold s, t in *. nia.
Qed.

Lemma odd_limb a : Z.land (nth 0 a 0) 1 = value a mod 2.
Proof.
  change 1 with (Z.ones 1). rewrite Z.land_ones by lia. destruct a as [|x a]; [done|]. cbn [nth value].
  replace (x + 2 ^ 30 * value a) with (x + (2 ^ 29 * value a) * 2) by ring. symmetry. apply Z.mod_add. lia.
Qed.

Lemma bn_mult_half_spec x :
  Z.Odd p -> normalized x -> value x + p < 2 ^ 271 ->
  normalized (bn_mult_half x prime) /\ 2 * value (bn_mult_half x prime) = value x + (value x mod 2) * p.
Proof.
  intros Hodd [Lx Hx] Hv. unfold bn_mult_half. rewrite odd_limb. set (o := value x mod 2). set (xodd := u32 (- o)).
  assert (o = 0 \/ o = 1) as Ho by (unfold o; Z.div_mod_to_equations; lia).
  assert (xodd = (2 ^ 32 - 1) * o) as Exo by (unfold xodd; by destruct Ho as [-> | ->]).
  assert (exists x0 xs, x = x0 :: xs /\ length xs = 8%nat /\ is_u 30 x0 /\ limbs_ok xs) as (x0 & xs & -> & Lxs & H0 & Hxs).
  { destruct x as [|x0 xs]; [done|]. apply Forall_cons_1 in Hx as [? ?]. injection Lx as ?. by exists x0, xs. }
  assert (exists q ps, prime = q :: ps /\ length ps = 8%nat /\ is_u 30 q /\ limbs_ok ps) as (q & ps & Eq & Lps & Hq & Hps).
  { destruct Hprime as [Lp Op]. destruct prime as [|q ps]; [done|]. apply Forall_cons_1 in Op as [? ?]. injection Lp as ?. by exists q, ps. }
  assert (value (x0 :: xs) = x0 + 2 ^ 30 * value xs) as Ex by done. assert (p = q + 2 ^ 30 * value ps) as Ep by (by rewrite Eq).
  rewrite Eq. cbn [nth tail]. unfold is_u in H0, Hq.
  assert (Z.land q xodd = o * q) as ->.
  { destruct Ho as [E|E]; rewrite Exo, E; [by rewrite Z.land_0_r|]. change ((2 ^ 32 - 1) * 1) with (Z.ones 32). rewrite Z.land_ones, Z.mod_small by lia. lia. }
  assert (0 <= o * q <= q) by (destruct Ho as [-> | ->]; lia). rewrite wrap_u_small, Z.shiftr_div_pow2 by (unfold is_u; lia).
  destruct (half_loop_spec xs ps xodd ((x0 + o * q) / 2 ^ 1)) as (top & low & E & H1 & H2 & H3 & H4); try done; [lia|rewrite Exo; lia|Z.div_mod_to_equations; lia|].
  assert ((if decide (xodd = 0) then 0 else 1) = o) as Ec by (case_decide as Hd; rewrite Exo in Hd; destruct Ho as [E0|E0]; rewrite E0 in Hd |- *; lia). rewrite Ec in H4. rewrite E.
  assert (2 * ((x0 + o * q) / 2 ^ 1) = x0 + o * q) as E2.
  { destruct Hodd as [h Hh]. assert (o = x0 mod 2) as Eo by (unfold o; rewrite Ex; Z.div_mod_to_equations; lia).
    destruct Ho as [E'|E']; rewrite E' in *; Z.div_mod_to_equations; lia. }
  assert (2 * value (low ++ [top]) = value (x0 :: xs) + o * p) as Ev by (rewrite H4, Ex, Ep; lia). split; [|by rewrite Ev, Eq].
  assert (o * p <= p) by (destruct Ho as [-> | ->]; lia). rewrite value_app in Ev. assert (zlen low = 8) as El by (unfold zlen; lia). rewrite El in Ev. cbn [value] in Ev.
  pose proof (value_range low H1) as R. split; [rewrite length_app; cbn; lia|]. apply Forall_app. split; [done|]. constructor; [|constructor]. unfold is_u. cbn [value] in Hv. lia.
Qed.

Lemma bn_subi_spec a b :
  normalized a -> 0 <= b <= nth 0 prime 0 -> value a + p < 2 ^ 270 ->
  exists r, bn_subi a b prime = Ret r /\ normalized r /\ value r = value a - b + p.
Proof.
  intros [La Ha] Hb Hs. unfold bn_subi. rewrite (proj2 (Z.leb_le _ _)) by lia. unfold cassert. mstep. eexists. split; [done|].
  destruct Hprime as [Lp Op]. destruct a as [|x a]; [done|]. apply Forall_cons_1 in Ha as [Hx Ha].
  assert (exists q ps, prime = q :: ps /\ is_u 30 q /\ limbs_ok ps) as (q & ps & Eq & Hq & Hps).
  { destruct prime as [|q ps]; [done|]. apply Forall_cons_1 in Op as [? ?]. by exists q, ps. }
  rewrite Eq in *. cbn [nth length] in *. unfold is_u in Hx, Hq. unfold bn_add.
  assert (carry 32 0 (zip_with Z.add (u32 (x - b) :: a) (q :: ps)) = carry 32 0 (x - b + q :: zip_with Z.add a ps)) as ->.
  { cbn [zip_with carry]. assert (u32 (0 + (u32 (x - b) + q)) = u32 (0 + (x - b + q))) as ->; [|done]. unfold wrap_u. rewrite Z.add_0_l, Z.add_mod_idemp_l by lia. done. }
  destruct (carry_nine 32 1 (2 * (2 ^ 30 - 1)) 0 (x - b + q :: zip_with Z.add a ps)) as [H1 H2]; try lia.
  - constructor; [lia|]. apply (zip_range a ps Ha Hps). unfold is_u. lia.
  - cbn [length]. rewrite length_zip_with. lia.
  - split; [done|]. rewrite H2. cbn [value]. rewrite value_zip_add by lia. cbn [value] in *. pose proof (value_range a Ha). pose proof (value_range ps Hps).
    rewrite Z.mod_small; lia.
Qed.

(** ** Long multiplication *)

Lemma fold_sum l : forall t, 0 <= t -> Forall (fun x => 0 <= x) l -> t + foldr Z.add 0 l < 2 ^ 64 ->
  fold_left (fun t x => u64 (t + x)) l t = t + foldr Z.add 0 l.
Proof.
  induction l as [|x l IH]; intros t Ht Hl Hs; cbn [fold_left foldr] in *; [lia|]. apply Forall_cons_1 in Hl as [Hx Hl].
  assert (0 <= foldr Z.add 0 l) by (clear -Hl; induction Hl; cbn; lia).
  rewrite wrap_u_small by (unfold is_u; lia). rewrite IH by (done || lia). lia.
Qed.

Definition column_sum (k x : list Z) (i : nat) : Z := foldr Z.add 0 (column k x i).

Lemma column_range k x i : limbs_ok k -> limbs_ok x -> (i < 17)%nat ->
  Forall (fun v => 0 <= v) (column k x i) /\ 0 <= column_sum k x i <= 9 * (2 ^ 60).
Proof.
  intros Hk Hx Hi. assert (Forall (fun v => 0 <= v <= 2 ^ 60) (column k x i)) as HF.
  { unfold column. apply Forall_map, list.Forall_forall. intros j _. pose proof (limb_ok k j Hk). pose proof (limb_ok x (i - j) Hx). unfold is_u in *. nia. }
  split; [eapply Forall_impl; [|exact HF]; cbn; lia|].
  assert (length (column k x i) <= 9)%nat as Hl by (unfold column; rewrite length_map; destruct (Nat.ltb_spec i 9); rewrite length_seq; lia).
  assert (0 <= column_sum k x i <= Z.of_nat (length (column k x i)) * 2 ^ 60) as Hs; [|nia].
  unfold column_sum. clear Hl. induction HF as [|v l Hv _ IH]; cbn [foldr length]; lia.
Qed.

Lemma long_loop_spec k x idx : forall temp,
  limbs_ok k -> limbs_ok x -> Forall (fun i => i < 17)%nat idx -> 0 <= temp <= 2 ^ 35 ->
  exists low top, long_loop k x idx temp = low ++ [u32 top] /\ limbs_ok low /\ length low = length idx /\ 0 <= top /\
    value low + 2 ^ (30 * zlen idx) * top = temp + value (map (column_sum k x) idx).
Proof.
  induction idx as [|i idx IH]; intros temp Hk Hx Hi Ht; cbn [long_loop map value].
  { exists [], temp. change (zlen []) with 0. split_and!; try done; [constructor|lia|cbn; lia]. }
  apply Forall_cons_1 in Hi as [Hi His]. destruct (column_range k x i Hk Hx Hi) as [C1 C2]. unfold column_sum in C2.
  rewrite fold_sum by (done || lia). fold (column_sum k x i) in *. set (s := temp + column_sum k x i).
  rewrite Z.shiftr_div_pow2, mask_mod by lia.
  destruct (IH (s / 2 ^ 30)) as (low & top & E & H1 & H2 & H3 & H4); try done.
  { unfold s. split; [apply Z.div_pos; lia|]. apply Z.lt_le_incl, Z.div_lt_upper_bound; lia. }
  exists (s mod 2 ^ 30 :: low), top. rewrite E. split_and!; [done|constructor; [unfold is_u; apply Z.mod_pos_bound; lia|done]|cbn; by rewrite H2|done|].
  cbn [value]. rewrite zlen_cons. replace (30 * (1 + zlen idx)) with (30 + 30 * zlen idx) by lia. rewrite Z.pow_add_r by (pose proof (zlen_nonneg idx); lia).
  pose proof (Z.div_mod s (2 ^ 30) ltac:(lia)). unfold s in *. nia.
Qed.

Lemma columns_product k x :
  length k = 9%nat -> length x = 9%nat -> value (map (column_sum k x) (seq 0 17)) = value k * value x.
Proof.
  intros Lk Lx. do 9 (destruct k as [|? k]; [done|]). do 9 (destruct x as [|? x]; [done|]). destruct k, x; [|done..].
  cbn [seq map value]. unfold column_sum, column. cbn [Nat.ltb Nat.leb seq Nat.add Nat.sub map nth foldr]. ring.
Qed.

Lemma bn_multiply_long_spec k x :
  normalized k -> normalized x ->
  length (bn_multiply_long k x) = 18%nat /\ limbs_ok (bn_multiply_long k x) /\ value (bn_multiply_long k x) = value k * value x.
Proof.
  intros Hk Hx. pose proof (norm_range k Hk) as Rk. pose proof (norm_range x Hx) as Rx. destruct Hk as [Lk Ok], Hx as [Lx Ox]. unfold bn_multiply_long.
  destruct (long_loop_spec k x (seq 0 17) 0 Ok Ox) as (low & top & E & H1 & H2 & H3 & H4); [by apply (bool_decide_unpack _); vm_compute|lia|].
  rewrite columns_product in H4 by done. rewrite length_seq in H2. rewrite E. change (30 * zlen (seq 0 17)) with 510 in H4.
  pose proof (value_range low H1) as R. assert (0 <= value k * value x < 2 ^ 540) by (change (2 ^ 540) with (2 ^ 270 * 2 ^ 270); nia).
  assert (0 <= top < 2 ^ 30) as Ht by lia. rewrite wrap_u_small by (unfold is_u; lia).
  split_and!; [rewrite length_app, H2; done|apply Forall_app; split; [done|by constructor; [|constructor]]|].
  rewrite value_app. assert (zlen low = 17) as -> by (unfold zlen; lia). cbn [value]. change (30 * 17) with 510. lia.
Qed.

(** ** Reduction *)

(** The window of ten limbs loses its multiple of the modulus. *)
Lemma window_spec w :
  length w = 10%nat -> limbs_ok w -> value w < 2 ^ 31 * p ->
  let coef := u32 (Z.shiftr (nth 8 w 0) 16 + Z.shiftl (nth 9 w 0) 14) in
  let w' := (carry 64 0 (sub_terms w (prime ++ [0]) coef)).1 in
  coef < 2 ^ 31 /\ length w' = 10%nat /\ limbs_ok w' /\ value w' < 2 * p /\ value w' = value w - coef * p.
Proof.
  intros Hl Hw Hv. cbv zeta. destruct Hprime as [Lp Op].
  assert (exists c, Z.shiftr (nth 8 w 0) 16 + Z.shiftl (nth 9 w 0) 14 = c /\ 0 <= c < 2 ^ 31 /\ c * 2 ^ 256 <= value w < (c + 1) * 2 ^ 256) as (c & -> & Hc & Hcv).
  { eexists. split; [done|]. rewrite Z.shiftr_div_pow2, Z.shiftl_mul_pow2 by lia. revert Hl. do 10 (destruct w as [|? w]; [done|]; apply Forall_cons_1 in Hw as [? Hw]).
    destruct w; [|done]. intros _. cbn [nth value] in *. unfold is_u in *. Z.div_mod_to_equations. lia. }
  rewrite wrap_u_small by (unfold is_u; lia).
  assert (limbs_ok (prime ++ [0])) as Ho by (apply Forall_app; split; [done|]; constructor; [by unfold is_u; cbn|constructor]).
  assert (Forall (fun v => 0 <= v <= 2 ^ 61 + 2 ^ 30) (sub_terms w (prime ++ [0]) c)) as Hr.
  { apply (sub_terms_range (2 ^ 30) (2 ^ 31 - 1)); [lia|lia| |done]. eapply Forall_impl; [|exact Hw]. unfold is_u. lia. }
  assert (length (sub_terms w (prime ++ [0]) c) = 10%nat) as Ls.
  { unfold sub_terms. destruct w as [|x0 x], prime as [|p0 ps]; [done..|]. cbn [zip_with app length]. rewrite length_map, length_zip_with, length_app. cbn [length] in *. lia. }
  pose proof (carry_spec 64 (2 ^ 32) (2 ^ 61 + 2 ^ 30) _ 0 ltac:(lia) Hr ltac:(lia) ltac:(lia)) as HC.
  rewrite (value_sub_terms 9) in HC by (rewrite ?length_app; cbn; lia). destruct (carry 64 0 _) as [l t]. destruct HC as (H1 & H2 & H3 & H4). cbn [fst].
  assert (value (prime ++ [0]) = p) as Ep by (rewrite value_app; cbn [value]; lia). rewrite Ep in H3.
  assert (zlen (sub_terms w (prime ++ [0]) c) = 10) as Ez by (unfold zlen; lia). rewrite Ez in H3.
  change (2 ^ (61 + 30 * Z.of_nat 9)) with (2 ^ 31 * 2 ^ 300) in H3. change (30 * 10) with 300 in H3.
  pose proof (value_range l H1) as R. assert (zlen l = 10) as El by (unfold zlen; lia). rewrite El in R. change (30 * 10) with 300 in R.
  assert (0 <= c * (2 ^ 256 - p) <= 2 ^ 31 * 2 ^ 224) by nia.
  assert (value l = value w - c * p) as E by lia. split_and!; [lia|lia|done|lia|done].
Qed.

Lemma take_drop_at {A} n m (L w T : list A) : length L = n -> length w = m -> take m (drop n (L ++ w ++ T)) = w /\ drop (n + m) (L ++ w ++ T) = T.
Proof. intros <- <-. rewrite drop_app_length, take_app_length. split; [done|]. by rewrite app_assoc, <- length_app, drop_app_length. Qed.

Lemma reduce_step_spec n L w T :
  length L = n -> length w = 10%nat -> limbs_ok w -> value w < 2 ^ 31 * p ->
  exists w', bn_multiply_reduce_step (L ++ w ++ T) prime (8 + n) = Ret (L ++ w' ++ [0] ++ T) /\ length w' = 9%nat /\ limbs_ok w' /\ value w' < 2 * p /\ value w' ≅ value w.
Proof.
  intros HL Lw Hw Hv. unfold bn_multiply_reduce_step. destruct (window_spec w Lw Hw Hv) as (W1 & W2 & W3 & W4 & W5).
  assert (forall j, nth (n + j) (L ++ w ++ T) 0 = nth j (w ++ T) 0) as Hn by (intros j; rewrite app_nth2 by lia; f_equal; lia).
  replace (8 + n)%nat with (n + 8)%nat by lia. replace (n + 8 + 1)%nat with (n + 9)%nat by lia. rewrite !Hn, !app_nth1 by lia.
  set (coef := u32 _) in *. rewrite (proj2 (Z.ltb_lt coef 0x80000000)) by exact W1. unfold cassert. mstep.
  replace (n + 8 - 8)%nat with n by lia. replace (n + 8 + 2)%nat with (n + 10)%nat by lia. destruct (take_drop_at n 10 L w T HL Lw) as [-> ->].
  rewrite take_app_length' by done. set (l := (carry _ _ _).1) in *.
  assert (exists w' t, l = w' ++ [t] /\ length w' = 9%nat) as (w' & t & El & Lw').
  { exists (take 9 l), (nth 9 l 0). split; [|rewrite length_take; lia]. clear -W2. do 10 (destruct l as [|? l]; [done|]). by destruct l. }
  rewrite El in *. unfold limbs_ok in W3. apply Forall_app in W3 as [O1 O2]. apply Forall_cons_1 in O2 as [Ot _]. rewrite value_app in W4, W5. cbn [value] in W4, W5.
  assert (zlen w' = 9) as Ez by (unfold zlen; lia). rewrite Ez in *. pose proof (value_range w' O1). unfold is_u in Ot. change (30 * 9) with 270 in *.
  assert (t = 0) as -> by lia. exists w'. split_and!; try done; [by rewrite <- !app_assoc|lia|].
  rewrite <- (eqm_sub (value w) coef), <- W5. f_equal. lia.
Qed.

Lemma reduce_loop_spec n : forall L w T,
  length L = n -> limbs_ok L -> length w = 10%nat -> limbs_ok w -> value w < 2 ^ 31 * p ->
  exists r T', reduce_loop (S n) (L ++ w ++ T) prime = Ret (r ++ T') /\ partly r /\ value r ≅ value (L ++ w).
Proof.
  induction n as [|n IH]; intros L w T HL OL Lw Hw Hv; cbn [reduce_loop];
    destruct (reduce_step_spec _ L w T HL Lw Hw Hv) as (w' & E & H1 & H2 & H3 & H4).
  - change (7 + 1)%nat with (8 + 0)%nat. rewrite E. mstep. destruct L; [|done]. cbn [app] in *.
    rewrite app_nth2, H1 by lia. cbn [Nat.add Nat.sub nth Z.eqb]. unfold cassert. mstep. exists w', (0 :: T). split; [done|]. split; [|done]. split; [|done]. by split.
  - replace (7 + S (S n))%nat with (8 + S n)%nat by lia. rewrite E. mstep.
    rewrite app_nth2 by lia. rewrite app_nth2 by lia. rewrite HL, H1. replace (8 + S (S n) - S n - 9)%nat with 0%nat by lia. cbn [nth app Z.eqb]. unfold cassert. mstep.
    destruct L as [|l L' _] using rev_ind; [done|]. rewrite length_app in HL. cbn [length] in HL. unfold limbs_ok in OL. apply Forall_app in OL as [OL' Ol]. apply Forall_cons_1 in Ol as [Ol _].
    destruct (IH L' (l :: w') (0 :: T)) as (r & T' & E' & P1 & P2); try lia; try done.
    + cbn. lia.
    + by constructor.
    + cbn [value]. unfold is_u in Ol. lia.
    + exists r, T'. rewrite <- E'. rewrite <- app_assoc. split; [done|]. split; [done|]. rewrite P2, <- app_assoc. cbn [app].
      rewrite !value_app. cbn [app value]. by rewrite H4.
Qed.

Lemma bn_multiply_spec k x :
  normalized k -> normalized x -> value k * value x < 2 ^ 271 * p ->
  exists r, bn_multiply k x prime = Ret r /\ partly r /\ value r ≅ value k * value x.
Proof.
  intros Hk Hx Hv. destruct (bn_multiply_long_spec k x Hk Hx) as (H1 & H2 & H3). unfold bn_multiply, bn_multiply_reduce. set (res := bn_multiply_long k x) in *.
  assert (limbs_ok (take 8 res) /\ limbs_ok (drop 8 res)) as [O1 O2] by (split; [by apply Forall_take|by apply Forall_drop]).
  rewrite <- (take_drop 8 res) in H3 |- *. assert (length (take 8 res) = 8%nat /\ length (drop 8 res) = 10%nat) as [L1 L2] by (rewrite length_take, length_drop; lia). rewrite value_app in H3. assert (zlen (take 8 res) = 8) as Ez by (unfold zlen; lia).
  rewrite Ez in H3. pose proof (value_range _ O1) as R. rewrite Ez in R. change (30 * 8) with 240 in *.
  destruct (reduce_loop_spec 8 (take 8 res) (drop 8 res) []) as (r & T' & E & P1 & P2); try done; try lia.
  rewrite app_nil_r in E. rewrite E. mstep. exists r. split; [|split; [done|]].
  - destruct P1 as [[Lr _] _]. by rewrite take_app_length'.
  - rewrite P2, value_app, Ez. change (30 * 8) with 240. by rewrite H3.
Qed.

(** ** Powers *)

Definition small (a : list Z) : Prop := normalized a /\ value a < 180 * p.

Lemma partly_small a : partly a -> small a.
Proof. intros [H1 H2]. split; [done|]. pose proof (norm_range a H1). lia. Qed.

Lemma multiply_small k x : small k -> small x -> exists r, bn_multiply k x prime = Ret r /\ partly r /\ value r ≅ value k * value x.
Proof.
  intros [Hk Hk2] [Hx Hx2]. apply bn_multiply_spec; try done. pose proof (norm_range k Hk). pose proof (norm_range x Hx).
  assert (value k * value x <= 180 * p * (180 * p)) by nia. nia.
Qed.

Lemma pow_bit_step limb x res :
  0 <= limb -> small x -> partly res ->
  exists res1, (if negb (limb mod 2 =? 0) then bn_multiply x res prime else Ret res) = Ret res1 /\ partly res1 /\
    value res1 ≅ value res * value x ^ (limb mod 2).
Proof.
  intros Hl Hx Hr. destruct (Z.eqb_spec (limb mod 2) 0) as [->|Hn]; cbn [negb]; [exists res; by rewrite Z.pow_0_r, Z.mul_1_r|].
  destruct (multiply_small x res Hx (partly_small _ Hr)) as (r & -> & R1 & R2). exists r. split; [done|]. split; [done|].
  assert (limb mod 2 = 1) as -> by (Z.div_mod_to_equations; lia). by rewrite R2, Z.pow_1_r, Z.mul_comm.
Qed.

Lemma square_pow x x1 m : 0 <= m -> value x1 ≅ value x * value x -> value x1 ^ m ≅ value x ^ (2 * m).
Proof. intros Hm X. rewrite (pow_eqm _ _ m Hm X). by rewrite Z.pow_mul_r, Z.pow_2_r by lia. Qed.

Lemma pow_bits_spec n : forall last limb x res,
  0 <= limb < 2 ^ Z.of_nat n -> small x -> partly res ->
  exists x' res', pow_bits n last limb x res prime = Ret (x', res') /\ small x' /\ partly res' /\
    value res' ≅ value res * value x ^ limb /\ (last = false -> value x' ≅ value x ^ 2 ^ Z.of_nat n).
Proof.
  induction n as [|n IH]; intros last limb x res Hl Hx Hr; cbn [pow_bits].
  { change (2 ^ Z.of_nat 0) with 1 in *. assert (limb = 0) as -> by lia. exists x, res. rewrite Z.pow_0_r, Z.mul_1_r, Z.pow_1_r. done. }
  destruct (last && (limb =? 0)) eqn:El.
  { apply andb_true_iff in El as [-> El]. apply Z.eqb_eq in El as ->. exists x, res. rewrite Z.pow_0_r, Z.mul_1_r. split_and!; [done..|discriminate]. }
  rewrite Nat2Z.inj_succ, Z.pow_succ_r in Hl |- * by lia.
  assert (Z.land limb 1 = limb mod 2 ^ 1) as -> by exact (Z.land_ones limb 1 ltac:(lia)). change (2 ^ 1) with 2.
  destruct (pow_bit_step limb x res ltac:(lia) Hx Hr) as (res1 & E1 & P1 & V1).
  rewrite E1, bind_Ret. destruct (multiply_small x x Hx Hx) as (x1 & -> & X1 & X2). rewrite bind_Ret, Z.shiftr_div_pow2 by lia. change (2 ^ 1) with 2.
  destruct (IH last (limb / 2) x1 res1) as (x' & res' & E & H1 & H2 & H3 & H4); [Z.div_mod_to_equations; lia|by apply partly_small|done|].
  exists x', res'. split; [done|]. split; [done|]. split; [done|]. split.
  - rewrite H3, V1, (square_pow x x1 _) by (done || Z.div_mod_to_equations; lia). rewrite <- Z.mul_assoc, <- Z.pow_add_r by (Z.div_mod_to_equations; lia).
    assert (limb mod 2 + 2 * (limb / 2) = limb) as -> by (Z.div_mod_to_equations; lia). done.
  - intros Hlast. rewrite (H4 Hlast). apply square_pow; [by apply Z.pow_nonneg|done].
Qed.

Lemma pow_limbs_spec e : forall x res,
  limbs_ok e -> small x -> partly res ->
  exists r, pow_limbs e x res prime = Ret r /\ partly r /\ value r ≅ value res * value x ^ value e.
Proof.
  induction e as [|limb e IH]; intros x res He Hx Hr; cbn [pow_limbs value].
  { exists res. by rewrite Z.pow_0_r, Z.mul_1_r. }
  apply Forall_cons_1 in He as [Hl He]. pose proof (value_range e He) as Re.
  destruct (pow_bits_spec 30 (match e with [] => true | _ => false end) limb x res) as (x' & res' & -> & H1 & H2 & H3 & H4); [done..|]. mstep.
  destruct (IH x' res' He H1 H2) as (r & -> & P1 & P2). exists r. split; [done|]. split; [done|]. rewrite P2, H3. unfold is_u in Hl.
  destruct e as [|l e]; [cbn [value]; by rewrite Z.pow_0_r, Z.mul_1_r, Z.mul_0_r, Z.add_0_r|].
  set (m := value (l :: e)) in *. rewrite (pow_eqm _ _ m ltac:(lia) (H4 eq_refl)). rewrite <- Z.pow_mul_r, <- Z.mul_assoc, <- Z.pow_add_r by lia. done.
Qed.

Lemma one_partly : partly bn_one.
Proof. split; [split; [done|]; apply (bool_decide_unpack _); by vm_compute|]. change (value bn_one) with 1. lia. Qed.

(** Raising to a power ends fully reduced. *)
Lemma pow_mod_spec e x :
  limbs_ok e -> small x ->
  exists r, (res ← pow_limbs e x bn_one prime; bn_mod res prime) = Ret r /\ normalized r /\ value r = (value x ^ value e) mod p.
Proof.
  intros He Hx. destruct (pow_limbs_spec e x bn_one He Hx one_partly) as (r & -> & P1 & P2). mstep. destruct (bn_mod_spec r P1) as (r' & -> & N & V).
  exists r'. split; [done|]. split; [done|]. rewrite V. change (value bn_one) with 1 in P2. by rewrite Z.mul_1_l in P2.
Qed.

Lemma bn_inverse_pow x :
  small x -> 2 <= nth 0 prime 0 -> exists r, bn_inverse x prime = Ret r /\ normalized r /\ value r = (value x ^ (p - 2)) mod p.
Proof.
  intros Hx H2. unfold bn_inverse. destruct Hprime as [Lp Op].
  assert (exists q ps, prime = q :: ps /\ is_u 30 q /\ limbs_ok ps) as (q & ps & Eq & Hq & Hps).
  { destruct prime as [|q ps]; [done|]. apply Forall_cons_1 in Op as [? ?]. by exists q, ps. }
  assert (match prime with [] => [] | q :: ps => u32 (q - 2) :: ps end = q - 2 :: ps) as ->.
  { rewrite Eq. f_equal. apply wrap_u_small. rewrite Eq in H2. cbn [nth] in H2. unfold is_u in *. lia. }
  assert (p - 2 = value (q - 2 :: ps)) as -> by (rewrite Eq; cbn [value]; lia). apply pow_mod_spec; [|done].
  constructor; [|done]. rewrite Eq in H2. cbn [nth] in H2. unfold is_u in *. lia.
Qed.

Lemma bn_sqrt_pow x :
  small x -> exists r, bn_sqrt x prime = Ret r /\ normalized r /\ value r = (value x ^ ((p + 1) / 4)) mod p.
Proof.
  intros Hx. unfold bn_sqrt. destruct Hprime as [Lp Op].
  destruct (bn_addi_spec prime 1) as [A1 A2]; try done.
  - eapply Forall_impl; [|exact Op]. unfold is_u. lia.
  - pose proof (limb_ok prime 0 Op). unfold is_u in *. lia.
  - destruct prime as [|q ps]; [constructor|]. apply Forall_cons_1 in Op as [_ Op]. eapply Forall_impl; [|exact Op]. unfold is_u. cbn. lia.
  - destruct (bn_rshift_spec _ A1) as [B1 B2]. destruct (bn_rshift_spec _ B1) as [C1 C2].
    assert ((p + 1) / 4 = value (bn_rshift (bn_rshift (bn_addi prime 1)))) as ->.
    { rewrite C2, B2, A2, Z.div_div, Z.mod_small by lia. f_equal. lia. }
    apply pow_mod_spec; [apply C1|done].
Qed.
End Modular.

(** ** The modulus of secp256k1 (crypto_secp256k1.cpp) *)

Definition secp256k1_p : list Z :=
  [0x3ffffc2f; 0x3ffffffb; 0x3fffffff; 0x3fffffff; 0x3fffffff; 0x3fffffff; 0x3fffffff; 0x3fffffff; 0xffff].

Lemma secp256k1_p_ok : normalized secp256k1_p /\ value secp256k1_p = 2 ^ 256 - 2 ^ 32 - 977.
Proof. split; [split; [done|]; apply (bool_decide_unpack _); by vm_compute|done]. Qed.

Section Results.
Import bignum.

(** C21. Multiplication is exact modulo a prime: for factors below 180 times the
    modulus no assertion of [bn_multiply] fails, no step leaves its width, and
    the result is partly reduced and congruent to the product. *)
Theorem bn_multiply_correct (k x prime : list Z) :
  normalized prime -> 2 ^ 256 - 2 ^ 224 <= value prime < 2 ^ 256 ->
  normalized k -> normalized x -> value k < 180 * value prime -> value x < 180 * value prime ->
  exists r, bn_multiply k x prime = Ret r /\ normalized r /\ value r < 2 * value prime /\
    value r mod value prime = (value k * value x) mod value prime.
Proof.
  intros Hp Hr Hk Hx Bk Bx. destruct (multiply_small prime Hp Hr k x) as (r & E & [N B] & V); [done|done|].
  exists r. split_and!; done.
Qed.

Lemma bn_multiply_correct_witness :
  exists r, bn_multiply bn_one (bn_read_uint32 5) secp256k1_p = Ret r /\ value r mod value secp256k1_p = 5.
Proof.
  destruct (bn_multiply_correct bn_one (bn_read_uint32 5) secp256k1_p) as (r & E & _ & _ & V).
  1, 3, 4: split; [done|]; apply (bool_decide_unpack _); by vm_compute.
  1-3: by vm_compute.
  exists r. split; [exact E|]. rewrite V. by vm_compute.
Defined.

(** [bn_inverse] inverts: for a prime modulus and a number that is not a
    multiple of it, the result is the fully reduced inverse. *)
Theorem bn_inverse_correct (x prime : list Z) :
  normalized prime -> 2 ^ 256 - 2 ^ 224 <= value prime < 2 ^ 256 -> Z.prime (value prime) -> 2 <= nth 0 prime 0 ->
  normalized x -> value x < 180 * value prime -> value x mod value prime <> 0 ->
  exists r, bn_inverse x prime = Ret r /\ normalized r /\ 0 < value r < value prime /\ (value x * value r) mod value prime = 1.
Proof.
  intros Hp Hr Hpr H2 Hx Bx Hnz. destruct (bn_inverse_pow prime Hp Hr x) as (r & E & N & V); [done|done|]. exists r.
  assert ((value x * value r) mod value prime = 1) as H1.
  { rewrite V, Z.mul_mod_idemp_r, <- Z.pow_succ_r by lia. replace (Z.succ (value prime - 2)) with (value prime - 1) by lia. by apply Z.fermat_nz. }
  split_and!; try done; [|rewrite V; apply Z.mod_pos_bound; lia].
  pose proof (norm_range r N). destruct (decide (value r = 0)) as [E0|]; [|lia]. rewrite E0, Z.mul_0_r, Z.mod_0_l in H1 by lia. done.
Qed.

Lemma bn_inverse_correct_witness :
  exists r, bn_inverse (bn_read_uint32 7) secp256k1_p = Ret r /\ (7 * value r) mod value secp256k1_p = 1.
Proof.
  destruct secp256k1_p_ok as [N V].
  destruct (bn_inverse_correct (bn_read_uint32 7) secp256k1_p) as (r & E & _ & _ & H).
  - exact N.
  - rewrite V. lia.
  - rewrite V. exact secp256k1_prime.
  - by vm_compute.
  - split; [done|]. apply (bool_decide_unpack _). by vm_compute.
  - by vm_compute.
  - by vm_compute.
  - exists r. split; [exact E|exact H].
Defined.

(** [bn_sqrt] finds square roots: for a prime modulus that is 3 modulo 4 and
    a number congruent to a square, the square of the result is congruent to
    the number. *)
Theorem bn_sqrt_correct (x prime : list Z) (y : Z) :
  normalized prime -> 2 ^ 256 - 2 ^ 224 <= value prime < 2 ^ 256 -> Z.prime (value prime) -> value prime mod 4 = 3 ->
  normalized x -> value x < 180 * value prime -> value x mod value prime = (y * y) mod value prime ->
  exists r, bn_sqrt x prime = Ret r /\ normalized r /\ value r < value prime /\
    (value r * value r) mod value prime = value x mod value prime.
Proof.
  intros Hp Hr Hpr H4 Hx Bx Hy. destruct (bn_sqrt_pow prime Hp Hr x) as (r & E & N & V); [done|]. exists r.
  split_and!; try done; [rewrite V; apply Z.mod_pos_bound; lia|]. set (p := value prime) in *. set (e := (p + 1) / 4) in *.
  assert (4 * e = p + 1) as He by (unfold e; Z.div_mod_to_equations; lia).
  rewrite V, <- Z.mul_mod, <- Z.pow_add_r by lia.
  rewrite <- (Z.mod_pow_l (value x)), Hy, Z.mod_pow_l. rewrite <- Z.pow_2_r, <- Z.pow_mul_r by lia. replace (2 * (e + e)) with (Z.succ p) by lia.
  rewrite Z.pow_succ_r, Z.mul_mod, Z.fermat, <- Z.mul_mod by (done || lia). by rewrite Z.pow_2_r.
Qed.

Lemma bn_sqrt_correct_witness :
  exists r, bn_sqrt (bn_read_uint32 49) secp256k1_p = Ret r /\ (value r * value r) mod value secp256k1_p = 49.
Proof.
  destruct secp256k1_p_ok as [N V].
  destruct (bn_sqrt_correct (bn_read_uint32 49) secp256k1_p 7) as (r & E & _ & _ & H).
  - exact N.
  - rewrite V. lia.
  - rewrite V. exact secp256k1_prime.
  - by vm_compute.
  - split; [done|]. apply (bool_decide_unpack _). by vm_compute.
  - by vm_compute.
  - by vm_compute.
  - exists r. split; [exact E|]. rewrite H. by vm_compute.
Defined.

End Results.
