(* ===== verification/Ecdsa.v ===== *)
(** * Ecdsa: points of secp256k1

    Models src/src/ptp_crypto/ecdsa.cpp as it is built ([USE_PRECOMPUTED_CP] is
    set): affine and jacobian points, multiples of points, public keys and
    signatures.

    [random32] gives the next element of a list of random words, which is
    returned shortened; an exhausted list is [NoFuel].  Clearing memory has no
    effect that the model sees.  The static variables of the code are always
    written before they are read. *)

From S2P Require Import Prelude Words Bignum.

Module ecdsa.
Import bignum.

Record curve_point := mkPoint { x : list Z; y : list Z }.

Record jacobian_curve_point := mkJac { jx : list Z; jy : list Z; jz : list Z }.

Record ecdsa_curve := mkCurve {
  prime : list Z;
  G : curve_point;
  order : list Z;
  order_half : list Z;
  a : Z;
  b : list Z;
  cp : list (list curve_point);
}.

(** ** Affine points *)

Definition infinity : curve_point := mkPoint bn_zero bn_zero.

Definition point_is_infinity (p : curve_point) : bool := bn_is_zero (x p) && bn_is_zero (y p).

Definition point_is_equal (p q : curve_point) : bool := bn_is_equal (x p) (x q) && bn_is_equal (y p) (y q).

Definition point_is_negative_of (p q : curve_point) : bool :=
  if negb (bn_is_equal (x p) (x q)) then false
  else if bn_is_zero (y p) then false
  else negb (bn_is_equal (y p) (y q)).

Definition point_double (curve : ecdsa_curve) (cp : curve_point) : outcome curve_point :=
  let prime := prime curve in
  if point_is_infinity cp then Ret cp
  else if bn_is_zero (y cp) then Ret infinity
  else
    let lambda := bn_mult_k (y cp) 2 prime in
    lambda ← bn_inverse lambda prime;
    xr ← bn_multiply (x cp) (x cp) prime;
    let xr := bn_mult_k xr 3 prime in
    xr ← bn_subi xr (u32 (- a curve)) prime;
    lambda ← bn_multiply xr lambda prime;
    xr ← bn_multiply lambda lambda prime;
    let yr := bn_lshift (x cp) in
    let xr := bn_fast_mod (bn_subtractmod xr yr prime) prime in
    xr ← bn_mod xr prime;
    let yr := bn_subtractmod (x cp) xr prime in
    yr ← bn_multiply lambda yr prime;
    let yr := bn_fast_mod (bn_subtractmod yr (y cp) prime) prime in
    yr ← bn_mod yr prime;
    Ret (mkPoint xr yr).

(** The new [cp2]. *)
Definition point_add (curve : ecdsa_curve) (cp1 cp2 : curve_point) : outcome curve_point :=
  let prime := prime curve in
  if point_is_infinity cp1 then Ret cp2
  else if point_is_infinity cp2 then Ret cp1
  else if point_is_equal cp1 cp2 then point_double curve cp2
  else if point_is_negative_of cp1 cp2 then Ret infinity
  else
    let inv := bn_subtractmod (x cp2) (x cp1) prime in
    inv ← bn_inverse inv prime;
    let lambda := bn_subtractmod (y cp2) (y cp1) prime in
    lambda ← bn_multiply inv lambda prime;
    xr ← bn_multiply lambda lambda prime;
    let yr := bn_addmod (x cp1) (x cp2) prime in
    let xr := bn_fast_mod (bn_subtractmod xr yr prime) prime in
    xr ← bn_mod xr prime;
    let yr := bn_subtractmod (x cp1) xr prime in
    yr ← bn_multiply lambda yr prime;
    let yr := bn_fast_mod (bn_subtractmod yr (y cp1) prime) prime in
    yr ← bn_mod yr prime;
    Ret (mkPoint xr yr).

(** ** Jacobian points *)

Definition conditional_negate (cond : Z) (a prime : list Z) : outcome (list Z) :=
  _ ← cassert (nth 8 a 0 <? 0x20000) "a->val[8] < 0x20000";
  let neg := (carry 32 1 (zip_with (fun p v => 0x3fffffff + 2 * p - v) prime a)).1 in
  let a := zip_with (fun n v => Z.lor (Z.land n cond) (Z.land v (u32 (Z.lnot cond)))) neg a in
  _ ← cassert (nth 8 a 0 <? 0x20000) "a->val[8] < 0x20000";
  Ret a.

(** One try: eight limbs and the last; the words left. *)
Definition draw (rnd : list Z) : outcome (list Z * list Z) :=
  if (length rnd <? 9)%nat then NoFuel
  else Ret (map (fun r => Z.land r 0x3FFFFFFF) (take 8 rnd) ++ [Z.land (nth 8 rnd 0) 0xFFFF], drop 9 rnd).

Fixpoint generate_k_loop (fuel : nat) (rnd prime : list Z) : outcome (list Z * list Z) :=
  match fuel with
  | O => NoFuel
  | S fuel =>
      '(k, rnd) ← draw rnd;
      if bn_is_zero k || negb (bn_is_less k prime) then generate_k_loop fuel rnd prime else Ret (k, rnd)
  end.

Definition generate_k_random (rnd prime : list Z) : outcome (list Z * list Z) := generate_k_loop (S (length rnd)) rnd prime.

Definition curve_to_jacobian (rnd : list Z) (p : curve_point) (prime : list Z) : outcome (jacobian_curve_point * list Z) :=
  '(z, rnd) ← generate_k_random rnd prime;
  xx ← bn_multiply z z prime;
  yy ← bn_multiply z xx prime;
  xx ← bn_multiply (x p) xx prime;
  yy ← bn_multiply (y p) yy prime;
  Ret (mkJac xx yy z, rnd).

Definition jacobian_to_curve (jp : jacobian_curve_point) (prime : list Z) : outcome curve_point :=
  py ← bn_inverse (jz jp) prime;
  px ← bn_multiply py py prime;
  py ← bn_multiply px py prime;
  px ← bn_multiply (jx jp) px prime;
  py ← bn_multiply (jy jp) py prime;
  px ← bn_mod px prime;
  py ← bn_mod py prime;
  Ret (mkPoint px py).

(** The new [p2]. *)
Definition point_jacobian_add (p1 : curve_point) (p2 : jacobian_curve_point) (curve : ecdsa_curve) : outcome jacobian_curve_point :=
  let prime := prime curve in
  let a := a curve in
  _ ← cassert ((-3 <=? a) && (a <=? 0)) "-3 <= a && a <= 0";
  xz ← bn_multiply (jz p2) (jz p2) prime;
  yz ← bn_multiply xz (jz p2) prime;
  az ← (if negb (a =? 0) then az ← bn_multiply xz xz prime; Ret (bn_mult_k az (- a) prime) else Ret []);
  xz ← bn_multiply (x p1) xz prime;
  let h := bn_fast_mod (bn_subtractmod xz (jx p2) prime) prime in
  let xz := bn_add xz (jx p2) in
  let is_doubling := b2z (bn_is_equal h prime) in
  yz ← bn_multiply (y p1) yz prime;
  let r := bn_subtractmod yz (jy p2) prime in
  let yz := bn_add yz (jy p2) in
  r2 ← bn_multiply (jx p2) (jx p2) prime;
  let r2 := bn_mult_k r2 3 prime in
  let r2 := if negb (a =? 0) then bn_subtractmod r2 az prime else r2 in
  r ← bn_cmov is_doubling r2 r;
  h ← bn_cmov is_doubling yz h;
  hsqx ← bn_multiply h h prime;
  hcby ← bn_multiply hsqx h prime;
  hsqx ← bn_multiply xz hsqx prime;
  hcby ← bn_multiply yz hcby prime;
  z3 ← bn_multiply h (jz p2) prime;
  x3 ← bn_multiply r r prime;
  let x3 := bn_fast_mod (bn_subtractmod x3 hsqx prime) prime in
  let y3 := bn_subtractmod hsqx x3 prime in
  let y3 := bn_subtractmod y3 x3 prime in
  y3 ← bn_multiply r y3 prime;
  let y3 := bn_subtractmod y3 hcby prime in
  let y3 := bn_fast_mod (bn_mult_half y3 prime) prime in
  Ret (mkJac x3 y3 z3).

Definition point_jacobian_double (p : jacobian_curve_point) (curve : ecdsa_curve) : outcome jacobian_curve_point :=
  let prime := prime curve in
  _ ← cassert ((-3 <=? a curve) && (a curve <=? 0)) "-3 <= curve->a && curve->a <= 0";
  m ← bn_multiply (jx p) (jx p) prime;
  let m := bn_mult_k m 3 prime in
  az4 ← bn_multiply (jz p) (jz p) prime;
  az4 ← bn_multiply az4 az4 prime;
  let az4 := bn_mult_k az4 (- a curve) prime in
  let m := bn_mult_half (bn_subtractmod m az4 prime) prime in
  msq ← bn_multiply m m prime;
  ysq ← bn_multiply (jy p) (jy p) prime;
  xysq ← bn_multiply ysq (jx p) prime;
  z3 ← bn_multiply (jy p) (jz p) prime;
  let x3 := bn_fast_mod (bn_lshift xysq) prime in
  let x3 := bn_fast_mod (bn_subtractmod msq x3 prime) prime in
  let y3 := bn_subtractmod xysq x3 prime in
  y3 ← bn_multiply m y3 prime;
  ysq ← bn_multiply ysq ysq prime;
  let y3 := bn_fast_mod (bn_subtractmod y3 ysq prime) prime in
  Ret (mkJac x3 y3 z3).

(** ** Multiples *)

(** [k] plus 2^256, less the order when [k] is even. *)
Definition make_odd (curve : ecdsa_curve) (k : list Z) : outcome (list Z) :=
  let is_even := u32 (Z.land (nth 0 k 0) 1 - 1) in
  let '(low, tmp) := carry 32 1 (zip_with (fun v o => 0x3fffffff + v - Z.land o is_even) (take 8 k) (take 8 (order curve))) in
  let a := low ++ [u32 (tmp + 0xffff + nth 8 k 0 - Z.land (nth 8 (order curve) 0) is_even)] in
  _ ← cassert (negb (Z.land (nth 0 a 0) 1 =? 0)) "(a.val[0] & 1) != 0";
  Ret a.

(** [for (i = 1; i < 8; i++)]: odd multiples, [twice] apart. *)
Fixpoint odd_multiples (n : nat) (curve : ecdsa_curve) (last twice : curve_point) : outcome (list curve_point) :=
  match n with
  | O => Ret []
  | S n =>
      next ← point_add curve last twice;
      rest ← odd_multiples n curve next twice;
      Ret (next :: rest)
  end.

(** The last [n] rounds; [aptr] is the index of the limb that [abits] holds. *)
Fixpoint multiply_loop (n : nat) (curve : ecdsa_curve) (pmult : list curve_point) (a : list Z) (aptr : nat) (abits ashift sign : Z)
    (jres : jacobian_curve_point) : outcome (Z * jacobian_curve_point) :=
  match n with
  | O => Ret (sign, jres)
  | S n =>
      jres ← point_jacobian_double jres curve;
      jres ← point_jacobian_double jres curve;
      jres ← point_jacobian_double jres curve;
      jres ← point_jacobian_double jres curve;
      let ashift := ashift - 4 in
      let '(bits, aptr, abits, ashift) :=
        if ashift <? 0 then
          let bits := u32 (Z.shiftl abits (- ashift)) in
          let aptr := (aptr - 1)%nat in
          let abits := nth aptr a 0 in
          let ashift := ashift + 30 in
          (Z.lor bits (Z.shiftr abits ashift), aptr, abits, ashift)
        else (Z.shiftr abits ashift, aptr, abits, ashift) in
      let bits := Z.land bits 31 in
      let nsign := u32 (Z.shiftr bits 4 - 1) in
      let bits := Z.land (Z.lxor bits nsign) 15 in
      z ← conditional_negate (Z.lxor sign nsign) (jz jres) (prime curve);
      jres ← point_jacobian_add (nth (Z.to_nat (Z.shiftr bits 1)) pmult infinity) (mkJac (jx jres) (jy jres) z) curve;
      multiply_loop n curve pmult a aptr abits ashift nsign jres
  end.

Definition point_multiply (rnd : list Z) (curve : ecdsa_curve) (k : list Z) (p : curve_point) : outcome (curve_point * list Z) :=
  _ ← cassert (bn_is_less k (order curve)) "bn_is_less(k, &curve->order)";
  a ← make_odd curve k;
  if bn_is_zero k then Ret (infinity, rnd)
  else
    twice ← point_double curve p;
    rest ← odd_multiples 7 curve p twice;
    let pmult := p :: rest in
    let abits := nth 8 a 0 in
    let ashift := 12 in
    let bits := Z.shiftr abits ashift in
    let sign := u32 (Z.shiftr bits 4 - 1) in
    let bits := Z.land (Z.lxor bits sign) 15 in
    '(jres, rnd) ← curve_to_jacobian rnd (nth (Z.to_nat (Z.shiftr bits 1)) pmult infinity) (prime curve);
    '(sign, jres) ← multiply_loop 63 curve pmult a 8 abits ashift sign jres;
    z ← conditional_negate sign (jz jres) (prime curve);
    res ← jacobian_to_curve (mkJac (jx jres) (jy jres) z) (prime curve);
    Ret (res, rnd).

(** Shift by four places. *)
Fixpoint shift4 (a : list Z) : list Z :=
  match a with
  | [] => []
  | v :: a => Z.lor (Z.shiftr v 4) (Z.shiftl (Z.land (nth 0 a 0) 0xf) 26) :: shift4 a
  end.

Definition low_digit (a : list Z) : Z :=
  let lowbits := Z.land (nth 0 a 0) 31 in
  Z.land (Z.lxor lowbits (u32 (Z.shiftr lowbits 4 - 1))) 15.

(** The rounds for the rows [rows] of the table. *)
Fixpoint scalar_loop (rows : list (list curve_point)) (curve : ecdsa_curve) (a : list Z) (jres : jacobian_curve_point) :
    outcome (list Z * jacobian_curve_point) :=
  match rows with
  | [] => Ret (a, jres)
  | row :: rows =>
      let a := shift4 a in
      let lowbits := low_digit a in
      y ← conditional_negate (u32 (Z.land lowbits 1 - 1)) (jy jres) (prime curve);
      jres ← point_jacobian_add (nth (Z.to_nat (Z.shiftr lowbits 1)) row infinity) (mkJac (jx jres) y (jz jres)) curve;
      scalar_loop rows curve a jres
  end.

Definition scalar_multiply (rnd : list Z) (curve : ecdsa_curve) (k : list Z) : outcome (curve_point * list Z) :=
  _ ← cassert (bn_is_less k (order curve)) "bn_is_less(k, &curve->order)";
  a ← make_odd curve k;
  if bn_is_zero k then Ret (infinity, rnd)
  else
    let lowbits := low_digit a in
    '(jres, rnd) ← curve_to_jacobian rnd (nth (Z.to_nat (Z.shiftr lowbits 1)) (nth 0 (cp curve) []) infinity) (prime curve);
    '(a, jres) ← scalar_loop (take 63 (drop 1 (cp curve))) curve a jres;
    y ← conditional_negate (u32 (Z.land (Z.shiftr (nth 0 a 0) 4) 1 - 1)) (jy jres) (prime curve);
    res ← jacobian_to_curve (mkJac (jx jres) y (jz jres)) (prime curve);
    Ret (res, rnd).

(** ** Keys and signatures *)

(** The 33, 65 and 64 bytes of a public key. *)
Definition ecdsa_get_public_key33 (rnd : list Z) (curve : ecdsa_curve) (prv_key pub_key : list Z) : outcome (list Z * list Z) :=
  k ← bn_read_be prv_key;
  '(R, rnd) ← scalar_multiply rnd curve k;
  pub_key ← mem_write pub_key 0 [Z.lor 0x02 (Z.land (nth 0 (y R) 0) 0x01)];
  w ← bn_write_be (x R) (zdrop 1 pub_key);
  Ret (ztake 1 pub_key ++ w, rnd).

Definition ecdsa_get_public_key64 (rnd : list Z) (curve : ecdsa_curve) (prv_key pub_key : list Z) : outcome (list Z * list Z) :=
  k ← bn_read_be prv_key;
  '(R, rnd) ← scalar_multiply rnd curve k;
  pub_key ← bn_write_be (x R) pub_key;
  w ← bn_write_be (y R) (zdrop 32 pub_key);
  Ret (ztake 32 pub_key ++ w, rnd).

Definition ecdsa_get_public_key65 (rnd : list Z) (curve : ecdsa_curve) (prv_key pub_key : list Z) : outcome (list Z * list Z) :=
  k ← bn_read_be prv_key;
  '(R, rnd) ← scalar_multiply rnd curve k;
  pub_key ← mem_write pub_key 0 [0x04];
  w ← bn_write_be (x R) (zdrop 1 pub_key);
  let pub_key := ztake 1 pub_key ++ w in
  w ← bn_write_be (y R) (zdrop 33 pub_key);
  Ret (ztake 33 pub_key ++ w, rnd).

(** One round of signing: [None] is [continue].  The parity byte, the first half
    and the second half of the signature. *)
Definition sign_round (rnd : list Z) (curve : ecdsa_curve) (z priv_key : list Z) : outcome (option (Z * list Z * list Z) * list Z) :=
  let order := order curve in
  '(k, rnd) ← generate_k_random rnd order;
  '(R, rnd) ← scalar_multiply rnd curve k;
  let by_ := Z.land (nth 0 (y R) 0) 1 in
  let '(rx, by_) := if negb (bn_is_less (x R) order) then (bn_subtract (x R) order, Z.lor by_ 2) else (x R, by_) in
  if bn_is_zero rx then Ret (None, rnd)
  else
    '(randk, rnd) ← generate_k_random rnd order;
    k ← bn_multiply randk k order;
    k ← bn_inverse k order;
    s ← bn_read_be priv_key;
    s ← bn_multiply rx s order;
    let s := bn_add s z in
    s ← bn_multiply k s order;
    s ← bn_multiply randk s order;
    s ← bn_mod s order;
    if bn_is_zero s then Ret (None, rnd)
    else
      let '(s, by_) := if bn_is_less (order_half curve) s then (bn_subtract order s, Z.lxor by_ 1) else (s, by_) in
      Ret (Some (by_, rx, s), rnd).

(** [is_canonical] is the optional callback, which looks at the signature, and
    [pby] what a pointer points to, unless it is null; the result, the new [*pby]
    and the signature. *)
Fixpoint sign_loop (n : nat) (rnd : list Z) (curve : ecdsa_curve) (z priv_key sig : list Z) (pby : option Z)
    (is_canonical : option (Z -> list Z -> bool)) : outcome (Z * option Z * list Z) :=
  match n with
  | O => Ret (-1, pby, sig)
  | S n =>
      '(r, rnd) ← sign_round rnd curve z priv_key;
      match r with
      | None => sign_loop n rnd curve z priv_key sig pby is_canonical
      | Some (by_, rx, s) =>
          sig ← bn_write_be rx sig;
          w ← bn_write_be s (zdrop 32 sig);
          let sig := ztake 32 sig ++ w in
          if match is_canonical with None => true | Some f => f by_ sig end then Ret (0, (fun _ => by_) <$> pby, sig)
          else sign_loop n rnd curve z priv_key sig pby is_canonical
      end
  end.

Definition ecdsa_sign_digest (rnd : list Z) (curve : ecdsa_curve) (priv_key digest sig : list Z) (pby : option Z)
    (is_canonical : option (Z -> list Z -> bool)) : outcome (Z * option Z * list Z) :=
  z ← bn_read_be digest;
  sign_loop (Z.to_nat 10000) rnd curve z priv_key sig pby is_canonical.

End ecdsa.
