(* ===== verification/Secp256k1.v ===== *)
(** * Secp256k1: the curve and its table

    Models src/src/ptp_crypto/crypto_secp256k1.cpp and secp256k1.table: the
    modulus, the base point and its order, and the table of the odd multiples of
    16^i times the base point.  Row [i] has (2j + 1) 16^i G in column [j]. *)

From S2P Require Import Prelude Bignum BignumMod Ecdsa.

Module secp256k1.
Import ecdsa.

Local Abbreviation pt := mkPoint.

Definition row_0 : list curve_point :=
  [ pt [0x16f81798; 0x27ca056c; 0x1ce28d95; 0x26ff36cb; 0x070b0702; 0x018a573a; 0x0bbac55a; 0x199fbe77; 0x79be]
      [0x3b10d4b8; 0x311f423f; 0x28554199; 0x05ed1229; 0x1108a8fd; 0x13eff038; 0x3c4655da; 0x369dc9a8; 0x483a]
  ; pt [0x3ce036f9; 0x1807c44e; 0x36f99b08; 0x0c721160; 0x1d5229b5; 0x113e17e2; 0x0c310493; 0x22806496; 0xf930]
      [0x04b8e672; 0x32e7f5d6; 0x0c2231b6; 0x002a664d; 0x37f35665; 0x0cdf98a8; 0x1e8140fe; 0x1ec3d8cb; 0x388f]
  ; pt [0x3240efe4; 0x2ea355a6; 0x0619ab7c; 0x22e12f77; 0x1c5128e8; 0x129c9429; 0x3209355b; 0x37934681; 0x2f8b]
      [0x26ac62d6; 0x32a1f4ea; 0x30d6840d; 0x2209c6ea; 0x09c426f7; 0x2ea7769b; 0x1e3d6d4d; 0x08898db9; 0xd8ac]
  ; pt [0x0ac4f9bc; 0x24af77b7; 0x330e39ce; 0x1066df80; 0x2a7a0e3d; 0x23cd97cb; 0x1b4eaa39; 0x3c191b97; 0x5cbd]
      [0x087264da; 0x142098a0; 0x3fde7b5a; 0x04f42e04; 0x1a54dba8; 0x1e35b618; 0x15960a31; 0x32902e89; 0x6aeb]
  ; pt [0x3c27ccbe; 0x0d7c4437; 0x057e714c; 0x25e5a5d3; 0x159abde0; 0x345e2a7d; 0x3f65309a; 0x2138bc31; 0xacd4]
      [0x064f9c37; 0x173098ab; 0x35f8e0f0; 0x3622290d; 0x3b61e9ad; 0x2025c5d8; 0x3d9fd643; 0x22486c29; 0xcc33]
  ; pt [0x1da008cb; 0x2fb05e25; 0x1c17891b; 0x126602f9; 0x065aac56; 0x1091adc3; 0x1411e5ef; 0x39fe162a; 0x774a]
      [0x0953c61b; 0x0075d327; 0x3f9d6a83; 0x0b6c78b7; 0x37b36537; 0x0f755b5e; 0x35e19024; 0x280cbada; 0xd984]
  ; pt [0x19405aa8; 0x3bb77e3c; 0x10e58cdd; 0x1d7ef198; 0x348651b0; 0x0748170d; 0x1288bc7d; 0x1cf0b65d; 0xf287]
      [0x1b03ed81; 0x26d72d4b; 0x21fa91f2; 0x0681b694; 0x0daf473a; 0x084bad97; 0x00a89758; 0x240ba362; 0x0ab0]
  ; pt [0x227e080e; 0x12b6f3e3; 0x085f79e4; 0x39651bcf; 0x1ff41131; 0x196b8c25; 0x3ea965a4; 0x1353df50; 0xd792]
      [0x36a26b58; 0x1413727f; 0x096d3a5c; 0x102bcaf6; 0x0c6defea; 0x10bb08a3; 0x072a6838; 0x0a1caa1b; 0x581e] ].

Definition row_1 : list curve_point :=
  [ pt [0x2a6dec0a; 0x113ba278; 0x07a5ae9c; 0x28c4da6e; 0x023e97b2; 0x06aaf087; 0x29ec5301; 0x33a4ed67; 0xe60f]
      [0x29616821; 0x07ccb339; 0x0d23f0be; 0x25a24791; 0x39371012; 0x267cd3d5; 0x195929db; 0x141ce679; 0xf7e3]
  ; pt [0x1118e5c3; 0x2f61c2a8; 0x12bebc19; 0x15e6c9d1; 0x265b4bfc; 0x0595bbd3; 0x1307db44; 0x0cd76591; 0x6eca]
      [0x05a08668; 0x2628bde0; 0x3f8ec344; 0x125a8e8e; 0x3875a03a; 0x3d5e41d2; 0x20710592; 0x08ed5e9e; 0xd501]
  ; pt [0x0f87f62e; 0x3b34c785; 0x37161270; 0x39b98e18; 0x0659f010; 0x31d13b4d; 0x390ec0d7; 0x0eefbc6f; 0xe962]
      [0x244ee737; 0x0c04fabe; 0x168844e5; 0x1810f277; 0x1aa929fe; 0x3a54ea3b; 0x299e9e0f; 0x1d0ed2f0; 0x38a9]
  ; pt [0x2a8d733c; 0x2c2ab7e0; 0x2fca8f9e; 0x309d2fd8; 0x00d682ff; 0x128dbc82; 0x21dba088; 0x375cf945; 0xbc82]
      [0x347797f0; 0x39e18413; 0x33897301; 0x24e82eb9; 0x1f02dfae; 0x26d2fdc6; 0x31cac54a; 0x230e8112; 0xe5f2]
  ; pt [0x1fbc7671; 0x1fbf88c5; 0x2858e32d; 0x0fc6f214; 0x18f49074; 0x0a47385e; 0x17211d20; 0x049231d9; 0x8e3d]
      [0x18717dec; 0x3bc77190; 0x23e144a7; 0x0d4aeaa9; 0x13e90eb9; 0x1203864e; 0x3cb81f64; 0x123843b3; 0x099a]
  ; pt [0x3eb31db2; 0x0ca1d0ca; 0x0f506a0f; 0x32ba09e2; 0x08a2b68f; 0x2864fb42; 0x0a498896; 0x246a888d; 0x78a8]
      [0x39fa4343; 0x01a7588e; 0x000b82d3; 0x0de6f376; 0x302df654; 0x17c9549c; 0x035cbfcf; 0x28d6fad4; 0x6912]
  ; pt [0x0db0e595; 0x14d23dde; 0x3a082bb6; 0x058f2e7e; 0x2076eba7; 0x38dd9605; 0x31b17d7c; 0x1e061576; 0x7d86]
      [0x3c733de8; 0x265478ea; 0x225d5329; 0x0de11383; 0x0f883829; 0x18b8afb5; 0x2f8772e5; 0x26b7fb21; 0xe2b9]
  ; pt [0x16060dfc; 0x023fbe14; 0x05e6a2a0; 0x1517e108; 0x1ab08676; 0x252e7710; 0x02ac8484; 0x0c43c016; 0xddc5]
      [0x27820ca8; 0x2d7e2adb; 0x3d04730f; 0x36ebf1aa; 0x0f0e9041; 0x06adb732; 0x19692019; 0x0bcebc83; 0xba0d] ].

Definition row_2 : list curve_point :=
  [ pt [0x15f51508; 0x191b88ff; 0x1ac1ca10; 0x30e72af5; 0x2de238d8; 0x29b8f85c; 0x209d9ea2; 0x098c84b1; 0x8282]
      [0x36e26caf; 0x0c6dbabf; 0x37b17bed; 0x3584eb0b; 0x360ace62; 0x095ba0c2; 0x3dfe45e8; 0x2a026155; 0x11f8]
  ; pt [0x257e8dfa; 0x33f032e7; 0x3c7e184f; 0x20246468; 0x298ca009; 0x28c3e2b2; 0x19c4c0d9; 0x33cbfc1e; 0x8262]
      [0x3bac376a; 0x173fe363; 0x314c4783; 0x2dbb4cca; 0x334f3457; 0x3b88bb16; 0x09e4e66f; 0x25788244; 0x83fd]
  ; pt [0x026bdb6f; 0x014b922c; 0x3734b949; 0x2906f51e; 0x299c877c; 0x0416c933; 0x0ddd5168; 0x1722c768; 0x1982]
      [0x049cfc9b; 0x177dc213; 0x0f6d3a6b; 0x3a7bb323; 0x359f6ceb; 0x09873253; 0x0878f320; 0x0c43c353; 0x6294]
  ; pt [0x3d82824c; 0x03b42548; 0x21534e65; 0x29638d17; 0x02999edf; 0x17d5bb1b; 0x0191443c; 0x361b0458; 0x6f12]
      [0x06eb34d0; 0x15e70d20; 0x054bc5b8; 0x07249042; 0x22376939; 0x2653cff5; 0x3bfa0875; 0x3dfd12ac; 0x5c4f]
  ; pt [0x1b453629; 0x1db7700b; 0x359e6030; 0x33f73703; 0x3abef645; 0x189c5a88; 0x2aa5d142; 0x231be682; 0x203a]
      [0x3ff89f84; 0x25c71e14; 0x1285ed45; 0x1b7ac971; 0x01061268; 0x31db457d; 0x1d9b936c; 0x02d4f797; 0x3b0f]
  ; pt [0x246c7ecb; 0x20c4c377; 0x1bb4ce97; 0x0ebb4ff9; 0x26e1ec9d; 0x3bdccd21; 0x34181c81; 0x32bacf40; 0x6e2a]
      [0x2ebc8720; 0x1124807b; 0x367512c8; 0x31c1ae46; 0x3b643afa; 0x03136bc3; 0x3ee149d8; 0x2919e5fb; 0x9e61]
  ; pt [0x30a4147e; 0x2dc063cf; 0x375f201e; 0x11f762fd; 0x090a5827; 0x05c5fa29; 0x1156baf6; 0x0124ba7a; 0xd5a7]
      [0x33fb65ff; 0x392cf2e0; 0x167f57f8; 0x3136611e; 0x1e0532f4; 0x242641d9; 0x389c6fc4; 0x09bd76ea; 0x9db5]
  ; pt [0x18edcec6; 0x3b76d1af; 0x3634f454; 0x018730b4; 0x2cdac6a1; 0x0fbf18c0; 0x18ba8052; 0x0466aaf8; 0x38c5]
      [0x1933db08; 0x15b82fec; 0x35530a64; 0x285b208a; 0x1f282f28; 0x32cb689d; 0x1732a668; 0x3748a176; 0xe649] ].

Definition row_3 : list curve_point :=
  [ pt [0x11e5b739; 0x0ff396d5; 0x12222ed7; 0x2e4e0cff; 0x3c846de0; 0x26731b1b; 0x3865a72f; 0x0567dca2; 0x175e]
      [0x29fed695; 0x3be9bffb; 0x124345c6; 0x2d6556b7; 0x371f5eac; 0x3e5e947f; 0x079eba4e; 0x1b83678f; 0xd350]
  ; pt [0x05041216; 0x16dfe3c7; 0x02b836a6; 0x1ccd7da1; 0x2fed523f; 0x2d67bf70; 0x3acf4128; 0x0c5ec87d; 0xda75]
      [0x2e708572; 0x2bb4ca61; 0x37acedad; 0x2ab01eb9; 0x2d7fc6e9; 0x27886cd0; 0x2d5f0df1; 0x2811afdc; 0x73f8]
  ; pt [0x2465a930; 0x0050f9c7; 0x31352fdb; 0x21fc705a; 0x02eb1e25; 0x0f16312a; 0x349d7057; 0x316d23a5; 0x1c71]
      [0x034638b5; 0x361cfdb3; 0x3174d471; 0x0d178fed; 0x0bb68c79; 0x0fc7ca09; 0x1fa0c271; 0x30cd3a3d; 0x4a91]
  ; pt [0x3adb6ee7; 0x0c636b96; 0x344a077e; 0x143750c9; 0x1b4c9c78; 0x3a0dea42; 0x1a566936; 0x12bf07cc; 0xd84e]
      [0x142ebed2; 0x0b555b9b; 0x2a3e6498; 0x362b25d2; 0x25de4dfd; 0x0e3563d5; 0x379ce12a; 0x20269f1e; 0xe525]
  ; pt [0x249e6d10; 0x253a7b3e; 0x2ac99d23; 0x02b7fceb; 0x3f6ed3f6; 0x08ae4a17; 0x2814d41b; 0x1112f799; 0xf3d4]
      [0x1347da3f; 0x280e3301; 0x29d6c630; 0x06b69433; 0x0a4b5bfc; 0x2e56b066; 0x0163d4ba; 0x0937e9bc; 0x0a43]
  ; pt [0x29d33a07; 0x232cd01b; 0x239bcab4; 0x1cbb822a; 0x3df4044e; 0x21548336; 0x01d89f90; 0x194b2767; 0xae30]
      [0x20a0b2a6; 0x121c303d; 0x3d7e95c7; 0x270dfd77; 0x38d5cf1c; 0x339f4cf6; 0x3fe57efc; 0x3670e358; 0x6cb9]
  ; pt [0x0c28caca; 0x165952e4; 0x08281da7; 0x1a71eef3; 0x388c9a18; 0x05f9d60c; 0x1e1c815e; 0x06ca96f5; 0xd8dc]
      [0x23b3ec7a; 0x36d9dba8; 0x08128f6c; 0x0c574b3b; 0x247d947d; 0x36369080; 0x2c7d58c6; 0x02b649f3; 0x8cec]
  ; pt [0x3bc4416f; 0x2487ed98; 0x30b04028; 0x2bbf48fc; 0x32f31da7; 0x1096a340; 0x04eccd59; 0x38a4b17e; 0x2749]
      [0x3c6bbd8e; 0x3a62f78b; 0x2e961057; 0x27a7ed97; 0x0adb3ef5; 0x3652643f; 0x32bc4403; 0x0b538dd9; 0x50cc] ].

Definition row_4 : list curve_point :=
  [ pt [0x03ff4640; 0x09aeb63e; 0x1552ffe5; 0x11071f95; 0x262ee053; 0x3ab016d8; 0x00c9c99c; 0x243511ec; 0x363d]
      [0x3bee9de9; 0x0800f1fc; 0x0199ecb6; 0x2e6a2402; 0x33363145; 0x2d114e5f; 0x32221953; 0x1ceb7f1c; 0x04e2]
  ; pt [0x36e55dc8; 0x2e24485b; 0x2ca04394; 0x3e56adba; 0x1094426f; 0x12910301; 0x1ffb2ba8; 0x1011e431; 0x4431]
      [0x1be323b3; 0x076512bb; 0x2aa2e503; 0x1a8a6de7; 0x02fed7a6; 0x260dfd59; 0x366f8fe9; 0x3050b994; 0x96b0]
  ; pt [0x301b23a8; 0x3fa52175; 0x287ee0ad; 0x1edf51c2; 0x21089dab; 0x090f56e4; 0x0a87c126; 0x3fa3619b; 0x9e22]
      [0x0884edae; 0x1e904f14; 0x3511cecf; 0x3df2527e; 0x1c1533c0; 0x3cfc0826; 0x22d10177; 0x3c3a7284; 0xfd2f]
  ; pt [0x071a70e4; 0x35d022fc; 0x35cf475d; 0x17b947d7; 0x05306dcd; 0x35a7991c; 0x22a8d2ed; 0x3db540f3; 0x508d]
      [0x29950984; 0x3cb96fdc; 0x28aadfed; 0x300c8a3b; 0x3e49c54e; 0x0c12a9cc; 0x3c42d777; 0x10e6e4ce; 0x154c]
  ; pt [0x0e1abe11; 0x3abf69db; 0x1cb220f6; 0x2e487096; 0x0125b2da; 0x37d6064c; 0x09763338; 0x3fe11544; 0xe3db]
      [0x1fa8de63; 0x2d26b552; 0x06b5c414; 0x325f640f; 0x0a8ef3d3; 0x23e9d76e; 0x01421643; 0x3e42668d; 0x06f2]
  ; pt [0x03593449; 0x33c6c8d8; 0x02a46ffd; 0x06df04b9; 0x3d014af6; 0x36704e81; 0x2940d878; 0x381931f7; 0x19ac]
      [0x2df83631; 0x29052e4e; 0x084068a3; 0x1c42e7d0; 0x002c46ac; 0x2f5ce765; 0x0a333bfe; 0x2480d49a; 0xe379]
  ; pt [0x0cba6b63; 0x38fa624b; 0x10b3bb5e; 0x03f99d3f; 0x288e310a; 0x30cc8a3a; 0x07daa108; 0x033b083e; 0xd874]
      [0x2934c5f3; 0x3ba8db01; 0x381694ab; 0x0413d730; 0x3ac37d40; 0x29bba640; 0x132bf378; 0x304cf1ae; 0x6472]
  ; pt [0x1b3ec038; 0x0653fcb0; 0x20c6b276; 0x3f545ab9; 0x290a50d9; 0x20f9d8bc; 0x06083648; 0x0cce46d4; 0x58ac]
      [0x10246279; 0x1baa8fc4; 0x34fbbca1; 0x06410f02; 0x11fe9702; 0x1e4927a6; 0x092d9787; 0x35c1b557; 0x9163] ].

Definition row_5 : list curve_point :=
  [ pt [0x1ffdf80c; 0x27de6957; 0x15bcd1b6; 0x3929e068; 0x05638843; 0x0912d6dd; 0x3c2be8c6; 0x17c5977c; 0x8b4b]
      [0x1fd4fd36; 0x0fbfc319; 0x162ee56b; 0x38cd9518; 0x30da04f9; 0x2f5e04ea; 0x308b4b3f; 0x029bda34; 0x4aad]
  ; pt [0x355812dd; 0x028a960b; 0x12d30e2a; 0x1119c8d5; 0x18f78e3d; 0x2afb5b01; 0x3352f0b6; 0x2f5ea4bf; 0x7029]
      [0x1a2d2927; 0x087319ac; 0x3b2c73c7; 0x36ba1090; 0x0683ac47; 0x19512b8c; 0x0b3d27dd; 0x3eb6bf7a; 0xb0ee]
  ; pt [0x3d486ed1; 0x27395a0e; 0x1565b6a4; 0x116fae92; 0x0f756057; 0x35042763; 0x25c99009; 0x3b72bab9; 0x9ccf]
      [0x35e95d8d; 0x3db567b5; 0x1592aa24; 0x0859d65a; 0x0b341124; 0x08920480; 0x232cfb61; 0x135c4f5a; 0x7c2f]
  ; pt [0x1bd0eaca; 0x081ac69d; 0x22d4ab7a; 0x31d15dae; 0x24df19d0; 0x23f78cf2; 0x1414335a; 0x12e1d8d0; 0xcd9a]
      [0x2bff4acc; 0x39bebed6; 0x16f634f6; 0x09ece3bb; 0x3ea08b01; 0x1222ba4c; 0x0f23e815; 0x161e687a; 0xf045]
  ; pt [0x07bc57c6; 0x08254e8f; 0x2b276cbf; 0x00f5e88f; 0x16309449; 0x3cb4ba4f; 0x19bea884; 0x220be23b; 0xad09]
      [0x2e4a0ab8; 0x28cb03b6; 0x190e2d3c; 0x0c474dcd; 0x1abe5f7b; 0x061b1ca7; 0x3a52ba28; 0x302310be; 0x7243]
  ; pt [0x2ba56302; 0x2a0c31ca; 0x30f1862e; 0x01aa4deb; 0x3ad2e0f5; 0x368b4aa7; 0x0a41f1ea; 0x0a42bacf; 0xd9d1]
      [0x08291c29; 0x2ab76bea; 0x3a74f2ae; 0x0e6bb367; 0x2386e417; 0x1c5719c9; 0x13eed029; 0x0c44fb0b; 0x7eb5]
  ; pt [0x34d1243a; 0x2b34dc13; 0x354a5fdb; 0x2c49808f; 0x3f558402; 0x3486b018; 0x16cef91c; 0x1e7794e7; 0xbc50]
      [0x055db68a; 0x172545a2; 0x1f47169f; 0x1fb93d6c; 0x3fc8d75f; 0x31cae537; 0x05cbb8ee; 0x0a8ece9c; 0x6506]
  ; pt [0x374a3f9f; 0x2349139a; 0x00981690; 0x21e99977; 0x32625ac2; 0x37aab9f6; 0x3c7e8913; 0x29df9417; 0x4d31]
      [0x301e0ba7; 0x3f2c0904; 0x2e00a754; 0x3dbed46d; 0x002753cb; 0x063ce31e; 0x0575b06b; 0x07b25826; 0x2224] ].

Definition row_6 : list curve_point :=
  [ pt [0x1232fcda; 0x2d845649; 0x2c0e77bc; 0x0036ffe9; 0x1548c7b7; 0x1dc7002f; 0x3996d6bf; 0x2ea9b976; 0x723c]
      [0x1eb39f5f; 0x07701a76; 0x37949480; 0x1828194d; 0x024d6e26; 0x044dd222; 0x0c498a92; 0x19ed5657; 0x96e8]
  ; pt [0x00633cb1; 0x159f827a; 0x1d021132; 0x168892da; 0x181fcb57; 0x189cc848; 0x2cad400c; 0x273cc5ea; 0x6dde]
      [0x27ce6b34; 0x1f7526a9; 0x3859ef35; 0x2c9ff6b3; 0x3a66a880; 0x27be1a86; 0x3e41d5c9; 0x3ef9e9c1; 0x9188]
  ; pt [0x2933f3c5; 0x06694634; 0x1f125224; 0x1683dc45; 0x07b85008; 0x12edfe39; 0x1cde813c; 0x29cb356d; 0x486f]
      [0x0afb0f53; 0x2b529c6b; 0x30f23b79; 0x366de0f3; 0x08f19f62; 0x3122ebb3; 0x3dd43e48; 0x08c67d5a; 0x62e1]
  ; pt [0x1e99f728; 0x2f565089; 0x2f12204e; 0x1cdd7ef9; 0x2a530367; 0x13fc9edd; 0x0af4fb66; 0x1a5d2a25; 0x2479]
      [0x2baaebff; 0x1e80145b; 0x175a2d83; 0x36fcf025; 0x0d664a5a; 0x0ba1f9f6; 0x33001ec5; 0x23511a23; 0xe3d7]
  ; pt [0x2fb0079a; 0x27831b50; 0x3926049c; 0x1be7bdc8; 0x33832491; 0x2967b9da; 0x15ff0631; 0x32f6a8f5; 0x2f39]
      [0x2c5690ba; 0x388a5cc0; 0x02a0230f; 0x3ecfef22; 0x0da58b9b; 0x24db409e; 0x239834da; 0x36f784e1; 0xabea]
  ; pt [0x24f7ab73; 0x24cc02cb; 0x14443a77; 0x38f53aa7; 0x34aed262; 0x0e7a1b14; 0x161ba56a; 0x075b0c9f; 0xe5a3]
      [0x30561f42; 0x244e8ff1; 0x00cba213; 0x2311126a; 0x0ece5dbf; 0x062a5de9; 0x29d7a0c1; 0x230f6347; 0x3778]
  ; pt [0x014dcd86; 0x23e4a68f; 0x2bf71b58; 0x31750825; 0x11dcf11f; 0x03766081; 0x13447df5; 0x27528345; 0xcc38]
      [0x08f0a873; 0x23adb767; 0x27e78746; 0x315f863f; 0x2910ca05; 0x1a2f6efa; 0x2bbed9b5; 0x13f5983d; 0x93ae]
  ; pt [0x38819311; 0x13e71bad; 0x08771472; 0x0f87b884; 0x35ed1f0b; 0x0285f833; 0x1e902375; 0x2472275c; 0x7f92]
      [0x2c2eb125; 0x2a7e6d5e; 0x086a174a; 0x02aa9027; 0x2415b612; 0x037a3114; 0x03ef0f5d; 0x034418fb; 0x9da0] ].

Definition row_7 : list curve_point :=
  [ pt [0x0e7dd7fa; 0x294cfb28; 0x3a919839; 0x11e5848d; 0x02d3b509; 0x3fbb204b; 0x2bf98ba5; 0x293524ef; 0xeebf]
      [0x21de8999; 0x37f53f6b; 0x311f712d; 0x393370e9; 0x38089d9a; 0x39fb6bc5; 0x2f0f269e; 0x2328e5c3; 0x5d9a]
  ; pt [0x3b7ceceb; 0x0fd9e3fe; 0x097faf0f; 0x2967e4e2; 0x2e681473; 0x3ee049bd; 0x2d45036f; 0x2188109d; 0x437a]
      [0x16c181e1; 0x0d8ef30d; 0x08f97827; 0x0883f3f7; 0x1297ff87; 0x23fada67; 0x2c32f69b; 0x1ae84fba; 0x0b91]
  ; pt [0x097f96f2; 0x1635ca78; 0x2c8735cd; 0x208d4a74; 0x3cc27335; 0x2df8ee68; 0x089bc83c; 0x27c4f8a9; 0xa9ef]
      [0x16c04be4; 0x00f556c1; 0x29b4702c; 0x13e26bd6; 0x3b613db7; 0x1bb8583a; 0x19d7cd95; 0x33396515; 0xe814]
  ; pt [0x350cf77e; 0x302ad684; 0x0a8ab0db; 0x36fd5d15; 0x2a064207; 0x209f5a7e; 0x135be553; 0x01507b87; 0x66d8]
      [0x20eaa3a6; 0x297e5ebe; 0x3b1b76d2; 0x112d0ead; 0x1613f694; 0x0750814d; 0x3fb42c3f; 0x37f9ccbf; 0x51cf]
  ; pt [0x07213a5a; 0x0d5218a2; 0x05fa62b9; 0x1cc8129e; 0x0cc3c80b; 0x14228719; 0x03fa2bf3; 0x01784d94; 0x62ac]
      [0x346a9e45; 0x04348703; 0x17994efc; 0x16424060; 0x292579e5; 0x179e781e; 0x1a6e4d39; 0x2f7ce834; 0x236f]
  ; pt [0x27bad12b; 0x0c3f5261; 0x2f66e1ec; 0x357a803a; 0x2f2db385; 0x184ebd71; 0x08f5b5bf; 0x31125c91; 0xca13]
      [0x1723b0f2; 0x25a67d1a; 0x1a575668; 0x1c2adc44; 0x2da3d663; 0x17e993aa; 0x287c8ac1; 0x0260d870; 0x83aa]
  ; pt [0x1c80414e; 0x36bb97e5; 0x166cf7fd; 0x3be2a18b; 0x209e4914; 0x04713d11; 0x12ae85ac; 0x2c4069c1; 0x1cec]
      [0x12169a3b; 0x32ba524b; 0x07231d0d; 0x1d55f951; 0x2dad1690; 0x2a8ca0d7; 0x17cfb4e5; 0x1819a582; 0xf343]
  ; pt [0x0ed810a9; 0x13d6f231; 0x0700155c; 0x22274fcf; 0x1f23924f; 0x036bd7c7; 0x38f9cc95; 0x241d4135; 0x2a69]
      [0x3a9b4728; 0x3e1ace23; 0x2c145c7c; 0x1f51fa5f; 0x3b04fc66; 0x3161a553; 0x1ffdac3e; 0x00e6db0f; 0x54f9] ].

Definition row_8 : list curve_point :=
  [ pt [0x39a48db0; 0x3f5e0d6c; 0x33c03bfe; 0x048568a6; 0x3bde459f; 0x0742826d; 0x27167279; 0x11369a5b; 0x100f]
      [0x2bc65a09; 0x3ef57358; 0x35195ac0; 0x3fd2863f; 0x090666b7; 0x23ccc030; 0x00b772ec; 0x384c64a8; 0xcdd9]
  ; pt [0x15bc15b4; 0x32e684d2; 0x25a2ee69; 0x1d40a391; 0x17ca8d92; 0x163ba73b; 0x2adc9ed8; 0x038b947b; 0x10e9]
      [0x18aa258d; 0x13af9825; 0x2bb6a883; 0x296258c0; 0x2d1f754c; 0x1ea3185a; 0x1e0424d5; 0x0dc0e035; 0xc68a]
  ; pt [0x3fe75269; 0x374ff0c0; 0x13d33182; 0x1de8f301; 0x0b7dcda3; 0x16e42dc5; 0x01638457; 0x0bd0b695; 0xf742]
      [0x17e49bd5; 0x22603a1c; 0x0a398e01; 0x2ce88dfd; 0x3635977f; 0x339f72e7; 0x3093fd18; 0x0bc68cc4; 0x406c]
  ; pt [0x35a7175f; 0x14ed9a5b; 0x31cf42a6; 0x2e39dc74; 0x15debbed; 0x1e69560b; 0x03cff728; 0x2b4105f5; 0x2d8c]
      [0x3b9d592a; 0x3cdeee46; 0x0b5e5e0c; 0x211aff67; 0x2c9d377a; 0x08cbe984; 0x0a94a7bb; 0x0ee0cc63; 0xc73f]
  ; pt [0x14b51045; 0x0d326f0e; 0x31c25b3e; 0x31b225bc; 0x28cf73bb; 0x1cf53ac7; 0x26ea58ae; 0x3f476e62; 0x1ecb]
      [0x02c70026; 0x0e99c404; 0x036422d5; 0x240191ad; 0x1a9b38b1; 0x342ec612; 0x1c3a6447; 0x388c22e6; 0x1cf6]
  ; pt [0x29358533; 0x1eb35d9b; 0x0fb4b9df; 0x2a4cfe75; 0x132a8c10; 0x25568a47; 0x3752883e; 0x25317f95; 0x9a08]
      [0x0360ba08; 0x2cf87177; 0x380ddadf; 0x29b96f6e; 0x0fc32165; 0x05f57e55; 0x38fc31f9; 0x20f10806; 0xa798]
  ; pt [0x198ef7f6; 0x25101758; 0x2078f9f6; 0x08fcfdde; 0x38aea659; 0x272149ce; 0x3d2e35bd; 0x361276d3; 0x664d]
      [0x1d1eac94; 0x1d25bfcd; 0x38e6ecee; 0x0f4eacc6; 0x0458cffc; 0x12339774; 0x27932a14; 0x0805c5fc; 0xad51]
  ; pt [0x03c934b3; 0x03029adf; 0x30ae2c4e; 0x0c7d6016; 0x11a7022b; 0x07659a60; 0x0b863823; 0x0ea4ddf4; 0x8211]
      [0x042c6a0f; 0x1f9798ab; 0x24468037; 0x07df09a6; 0x20c628aa; 0x19b3cad6; 0x23666084; 0x2e36b26b; 0x8da1] ].

Definition row_9 : list curve_point :=
  [ pt [0x2534fd2d; 0x322b379b; 0x0f3b3852; 0x1fe35119; 0x04c017a7; 0x2489e928; 0x3ed1b1dc; 0x06f898b1; 0xe103]
      [0x1456a00d; 0x113c63ca; 0x21ced79a; 0x24b75067; 0x17535af2; 0x1a905d96; 0x0405e6bb; 0x1864a250; 0x9d70]
  ; pt [0x2f028d83; 0x1e588ebb; 0x27439615; 0x25649b6e; 0x1e69db61; 0x2af96857; 0x385ec6a5; 0x3df138f1; 0xa7eb]
      [0x19d0bed1; 0x1900e4ae; 0x30539199; 0x28e249d2; 0x04804b47; 0x271cddc1; 0x362d5cfd; 0x054beff8; 0x6205]
  ; pt [0x27dd5cfa; 0x2b839008; 0x309d4b5b; 0x227144df; 0x2346336a; 0x31a94d09; 0x24f4c1cd; 0x282372c0; 0x5b5c]
      [0x1e48e98c; 0x19929be6; 0x33269d3e; 0x3419f32b; 0x069094bf; 0x07c33aa2; 0x15825e99; 0x2dbdc2a8; 0x3ecc]
  ; pt [0x23531f82; 0x2e54a38c; 0x10c2c9f2; 0x144c9aec; 0x022c29ff; 0x3cf9d227; 0x14bb5cce; 0x09ab3044; 0x046f]
      [0x0bceda07; 0x1417f22c; 0x2b55c7fa; 0x09651736; 0x032579d0; 0x0dc2b0bf; 0x382eace2; 0x12cc58d6; 0x6b80]
  ; pt [0x10432711; 0x02c550dc; 0x1916b906; 0x0502cbf7; 0x19645acf; 0x25bc3c22; 0x0efb535f; 0x09b64c78; 0xc119]
      [0x2fe2610c; 0x1249878b; 0x0f34055e; 0x2ae48b28; 0x0cc6cf83; 0x252fc61b; 0x1b689184; 0x3e331f49; 0x8be1]
  ; pt [0x21257963; 0x05e61d3e; 0x34aa861c; 0x006354b0; 0x0979c45b; 0x2ed52d4e; 0x08f2e6cd; 0x11ba7ada; 0x6908]
      [0x066f9835; 0x295d9665; 0x1c92b253; 0x2f0f2a08; 0x2fbb7f6c; 0x05c093e4; 0x3ebc5b40; 0x17f2dfcf; 0xe248]
  ; pt [0x1ee23ace; 0x3444e52f; 0x14dd2fd2; 0x321f196d; 0x232915de; 0x1d54b7d2; 0x220babba; 0x3dfee324; 0xfb3d]
      [0x1722e8de; 0x0277bd32; 0x2d27f5ee; 0x1c9c50bf; 0x3ab58a9e; 0x09455036; 0x33c5652a; 0x0a6f0471; 0x510e]
  ; pt [0x10272351; 0x181f3fbd; 0x19ff1098; 0x1cd2cf7e; 0x31cd4170; 0x228facea; 0x0518b3eb; 0x17b093d7; 0x6dd8]
      [0x3fc7664b; 0x2c1fe8ad; 0x3e0817c9; 0x1f1bfdf0; 0x1c41b787; 0x101fe6bd; 0x3427e09d; 0x19fd0487; 0x16ea] ].

Definition row_10 : list curve_point :=
  [ pt [0x1094696d; 0x3579a236; 0x01d6af52; 0x3e2c99a9; 0x3bd7ec5c; 0x0a0e7c50; 0x15b530ac; 0x1b2b91b5; 0xfeea]
      [0x18090088; 0x05577afc; 0x041442d3; 0x072255f3; 0x3ecd5c98; 0x39384afc; 0x0e1bab06; 0x1adb25f7; 0xe57c]
  ; pt [0x08dfd587; 0x1e4d86ed; 0x1b026560; 0x312e8e32; 0x35a12d5e; 0x19eaa8b3; 0x0508b348; 0x2d06eb3d; 0x5084]
      [0x11470e89; 0x39e7a5fe; 0x091f5606; 0x2dbd581a; 0x2927475d; 0x2a9b2154; 0x00d31619; 0x18c68766; 0x34a9]
  ; pt [0x3ab34cc6; 0x0208c985; 0x0f30a12d; 0x030a5d9f; 0x0d7128c8; 0x2cfc7f46; 0x2d5ea53f; 0x300f8190; 0x4f14]
      [0x187e681f; 0x17b094be; 0x281dd022; 0x378f33a3; 0x262540b9; 0x0e9c3d0e; 0x0e894c65; 0x342a32a9; 0x7b53]
  ; pt [0x1241d90d; 0x109dc404; 0x32444f83; 0x073c5076; 0x1dd363e8; 0x10d8257b; 0x39ed1d41; 0x2e1f9271; 0xa74d]
      [0x3f7adad4; 0x0c9462e0; 0x0a0a313f; 0x3b9424d1; 0x0171c8a9; 0x37422962; 0x3eef327f; 0x24736bc8; 0xf786]
  ; pt [0x31c1ae1f; 0x17b32888; 0x2cd40b2a; 0x1b9631a2; 0x23565845; 0x373513ae; 0x2a2cf9ac; 0x3e95d12e; 0x6901]
      [0x122838b0; 0x3e0cc197; 0x1c77a930; 0x27cee979; 0x1c900dd7; 0x2d4e030a; 0x3c212461; 0x1722089c; 0x35de]
  ; pt [0x327a4bdb; 0x2c0c4206; 0x1494cac4; 0x1a9b410d; 0x3ba35d04; 0x12d90fc6; 0x38127a24; 0x360b4750; 0x8d3c]
      [0x269a8a2c; 0x0f4d31f3; 0x30ad296c; 0x38e01f4d; 0x36236ed4; 0x3efe7401; 0x241f470c; 0x0958603b; 0x9bd4]
  ; pt [0x34ec1d2d; 0x10334f1a; 0x27d8f454; 0x0267d71b; 0x3b691fd9; 0x2759ca59; 0x24739afe; 0x20d8f581; 0xeaf9]
      [0x0c838452; 0x33f9d581; 0x3e84b53f; 0x3d4b5515; 0x3199aaa9; 0x08a2839a; 0x38d22775; 0x060e9ff9; 0xe518]
  ; pt [0x045ae767; 0x32cd6fdc; 0x289771cb; 0x1cea72e7; 0x06e5d8c2; 0x103814b0; 0x1b63466f; 0x2f458ebb; 0xfb95]
      [0x3bbf0e11; 0x214fa82b; 0x259f1341; 0x05bd1c62; 0x02275bb8; 0x013674da; 0x0ddbc520; 0x0536046a; 0x664c] ].

Definition row_11 : list curve_point :=
  [ pt [0x01ec6cb1; 0x0fea5e2f; 0x08583de3; 0x3b595f60; 0x3fca3cfe; 0x1ef92f9b; 0x09cdcb36; 0x2a476441; 0xda67]
      [0x3a68be1d; 0x3a7aa389; 0x0f740a17; 0x31eb7142; 0x1780e5de; 0x118fdfb2; 0x242bc41f; 0x2a8d5205; 0x9bac]
  ; pt [0x15bc8a44; 0x3bf74194; 0x3e151a19; 0x10405df2; 0x1a5fc768; 0x159692e9; 0x0eda3d38; 0x20160f3f; 0x4d01]
      [0x1adbc09e; 0x3c7e5324; 0x182da362; 0x250811a1; 0x16381396; 0x26ea001f; 0x0f5d367e; 0x31b0632d; 0x3a33]
  ; pt [0x25daeb00; 0x306ad4a1; 0x2645f76b; 0x08fac933; 0x36e9d159; 0x32da89ce; 0x0f957082; 0x0541f7d7; 0x2f66]
      [0x033992c0; 0x089d9e26; 0x15d308c1; 0x337b89c6; 0x00add06e; 0x254dea08; 0x2b33f6ef; 0x0484dbd4; 0xfd5c]
  ; pt [0x116aa6d9; 0x20aa4282; 0x3702dcf1; 0x18b22d91; 0x035a3836; 0x3c5d3686; 0x247d2254; 0x045f417f; 0xf594]
      [0x3f2e50cf; 0x1f41a5ba; 0x26b5b86c; 0x249de20f; 0x14bceb7a; 0x176f6ac2; 0x31b12cf6; 0x18695ba5; 0xcaa7]
  ; pt [0x3ac6f4c0; 0x2ab80e55; 0x04bdc4cc; 0x13a37a33; 0x16711dda; 0x070e2f9a; 0x19cdec4e; 0x135fc7d3; 0x0f2d]
      [0x32339b58; 0x1f9eeeb5; 0x0242656e; 0x1a8429e4; 0x01e71e8f; 0x2c9ff7ce; 0x3de4d17f; 0x27e15fa4; 0x3ec8]
  ; pt [0x1f428cb2; 0x215414ff; 0x2a22b55d; 0x0e08bf59; 0x18d0f123; 0x1e860565; 0x14bbd1eb; 0x33b0b8a8; 0x1d5d]
      [0x095b189b; 0x397b4402; 0x36044a51; 0x0fa44be1; 0x2f0b88bd; 0x1e1e0921; 0x2c8c50d0; 0x1020ec50; 0x6e5c]
  ; pt [0x28381273; 0x2c3aa23e; 0x293dae5f; 0x10dda581; 0x0126ced8; 0x3aa6cb31; 0x167439fd; 0x28bf4c02; 0x89d9]
      [0x1309773d; 0x00facfbb; 0x1127324a; 0x1875a02b; 0x0f62f58f; 0x2abc81db; 0x26f50377; 0x096d1475; 0xdfca]
  ; pt [0x35c71d91; 0x330cacb2; 0x2894fd21; 0x25178b8a; 0x1afece23; 0x28704c45; 0x10ae1c52; 0x06e1e0e9; 0x8319]
      [0x22148a61; 0x02e7b023; 0x10445ee7; 0x2847d45d; 0x3cae8a17; 0x1b784f45; 0x01b709e0; 0x1fc55ce0; 0xe0ac] ].

Definition row_12 : list curve_point :=
  [ pt [0x1a37b7c0; 0x1d517330; 0x311069f5; 0x02343dee; 0x322151ec; 0x00024d7b; 0x34cdda6e; 0x13ea82cc; 0x5390]
      [0x022771c8; 0x372c25ac; 0x14434699; 0x26666078; 0x0d3c1c13; 0x27b32b08; 0x0106d88c; 0x21f42f20; 0x5bc0]
  ; pt [0x08a2050e; 0x06b10bf9; 0x15f8a677; 0x0bbd55d8; 0x079b8974; 0x1da731b9; 0x0731896b; 0x093f492f; 0x6737]
      [0x061d3d70; 0x24326924; 0x3349cc2b; 0x1aeb3f50; 0x086b6dbe; 0x120b026a; 0x24a20203; 0x2095e25a; 0xe4cf]
  ; pt [0x02de63bf; 0x2fdb920e; 0x3261c66c; 0x0ebd4ca1; 0x2166a8e0; 0x26298c7d; 0x34c309e5; 0x3be91cb7; 0x4366]
      [0x217924cd; 0x0b1a9023; 0x2aa6d6b0; 0x0ec31496; 0x0268eaf3; 0x094df84c; 0x2d7ce2ee; 0x36426fb8; 0x2e7d]
  ; pt [0x06f96190; 0x04149ffc; 0x3c9525ef; 0x3c0b7a41; 0x3aa75fd1; 0x3955a599; 0x1ab1f97b; 0x14d89e64; 0x7bd7]
      [0x2bda00f6; 0x0f45c812; 0x20ea695a; 0x03f31707; 0x3827d6ce; 0x3591d250; 0x26309d5e; 0x3cacf6ee; 0x8336]
  ; pt [0x16ad41ed; 0x0ec54c55; 0x0f035243; 0x022b0d7d; 0x18dc9203; 0x0d067a24; 0x2d5c1afa; 0x249ef76a; 0x4f7e]
      [0x3e642d57; 0x3d0d5e19; 0x2af775bd; 0x1cc51c53; 0x28f6a62e; 0x26037d4e; 0x08b10552; 0x1d1455aa; 0xdfe7]
  ; pt [0x27748690; 0x3e981449; 0x0630b01c; 0x15e41376; 0x133d007d; 0x114ac7b7; 0x11ccc94b; 0x32e19f4a; 0x2355]
      [0x0c89582b; 0x1f11d4c5; 0x11c93914; 0x0a1a1633; 0x2a7c5858; 0x2e17b056; 0x1e1f8f55; 0x3c62969c; 0x21c2]
  ; pt [0x0ade7f16; 0x36ba8858; 0x0be028c6; 0x272eba4f; 0x275d24ae; 0x164aadb0; 0x1a56c013; 0x2096e6cf; 0x0b66]
      [0x08c56217; 0x251109a1; 0x3e7cd2bd; 0x090f037c; 0x17a97fb7; 0x29daea2d; 0x09b3fef3; 0x282e0638; 0xa1fb]
  ; pt [0x19060d5b; 0x241ac08a; 0x03a3a7c2; 0x1184ec47; 0x3951cb90; 0x026cbf67; 0x1022cb61; 0x010f3c2f; 0xf602]
      [0x1af88f13; 0x1bdbd42c; 0x3dd1a3f7; 0x2a95b4ad; 0x0f7bea37; 0x2a3d92b1; 0x0cf19881; 0x2dc1b07c; 0xf036] ].

Definition row_13 : list curve_point :=
  [ pt [0x3ad86047; 0x3fe567d0; 0x29b8bcae; 0x2d4e810e; 0x0a906779; 0x3329dd93; 0x183a7719; 0x3342f4d6; 0x8e7b]
      [0x0460372a; 0x284011fa; 0x3fd68b3e; 0x3a238b91; 0x29514579; 0x0c410832; 0x1a4b3940; 0x1dc2ca8f; 0x10b7]
  ; pt [0x041ead4b; 0x3fa21e68; 0x11b03c1f; 0x1d7b7eda; 0x3e76be3a; 0x11cd3beb; 0x3337ec71; 0x03032323; 0xbfc9]
      [0x06fedaed; 0x114b1bc2; 0x2e0ae3e7; 0x11a3bfcc; 0x042d36fb; 0x29c63754; 0x0ded24db; 0x206c7827; 0x7a94]
  ; pt [0x35bb3b3e; 0x1b9ef41d; 0x39f73cb2; 0x1d4d85fb; 0x2d3f5b50; 0x1664fa30; 0x3aaa4dca; 0x3c472f8f; 0x732d]
      [0x17366693; 0x315df87b; 0x0c58436c; 0x276b5b59; 0x253916e6; 0x38956100; 0x39977cb7; 0x240fb7a3; 0x7f41]
  ; pt [0x088dc3b9; 0x17d6cf06; 0x1774c99c; 0x299a493a; 0x17ef6019; 0x2a210332; 0x147b428d; 0x252e580e; 0x4ce0]
      [0x25c0de52; 0x3053dedb; 0x1ea06502; 0x0816c832; 0x36aca216; 0x2d360329; 0x29b3ed57; 0x03eeafc6; 0x0539]
  ; pt [0x0aaafe5a; 0x30dd782c; 0x109aedd4; 0x151c2ce9; 0x023fd0e2; 0x229aa56c; 0x267de96d; 0x23addbf1; 0x9a96]
      [0x0ed975c0; 0x39aff509; 0x1e70cc0c; 0x2d620299; 0x061d0ee7; 0x319b40f6; 0x3ba2954f; 0x3ec1e9b4; 0xabf6]
  ; pt [0x334c6397; 0x1d472fe7; 0x074cd093; 0x374f6d40; 0x36b22107; 0x2bbe0094; 0x161954f0; 0x3efb405c; 0xd3c6]
      [0x28cb3f9c; 0x07f23415; 0x05e0e00b; 0x031dc224; 0x2ab6468a; 0x20e5364b; 0x22af1945; 0x34b15797; 0x4a0d]
  ; pt [0x0ac3137e; 0x26e0964c; 0x1af64461; 0x2496d8a9; 0x2b3953fe; 0x3c1a9daa; 0x243b8e02; 0x38e604a4; 0x4cbd]
      [0x2ec02fe6; 0x0023c573; 0x08ead60c; 0x24e9eb96; 0x14c370d1; 0x24a84d2e; 0x36159500; 0x151823c4; 0x6ce5]
  ; pt [0x20fbf84b; 0x1e88c1b3; 0x03f0b8a4; 0x3123f2ef; 0x14cebb03; 0x3671cc30; 0x16247b8b; 0x0ccf20ac; 0x4b9d]
      [0x236c3c48; 0x0e7b92d2; 0x2f5b5e62; 0x19b550f8; 0x39b7eb67; 0x04f66099; 0x0c152553; 0x31fef893; 0xfd7f] ].

Definition row_14 : list curve_point :=
  [ pt [0x19c43862; 0x2a107856; 0x397e6690; 0x29fd3c60; 0x381bde71; 0x02061a26; 0x1ff21e6d; 0x3b4d3073; 0x385e]
      [0x142e5453; 0x01163f95; 0x086dc8cc; 0x0c13bb08; 0x2bf4576b; 0x077867a7; 0x223f5670; 0x3af0fa3a; 0x283b]
  ; pt [0x36e2d9b3; 0x12f4c1aa; 0x338d6351; 0x36e4a0c6; 0x0f845641; 0x0ba984e7; 0x305e75e1; 0x053ce5f1; 0x19a3]
      [0x0baaaf33; 0x154bb897; 0x004be56d; 0x00874749; 0x3528b3a5; 0x2597e21f; 0x328dd234; 0x363d76b1; 0x6cac]
  ; pt [0x12f00480; 0x36161fac; 0x100dcee7; 0x0d620128; 0x36721920; 0x32618d93; 0x0daa355d; 0x3b52e56a; 0x5840]
      [0x3e22cf9e; 0x164b578a; 0x2ae38721; 0x1d489514; 0x1dd8daba; 0x1a37aa85; 0x3f141079; 0x369ac882; 0x670c]
  ; pt [0x23f54c42; 0x12137ba0; 0x29a3dc8e; 0x37068f09; 0x0e532545; 0x16307d3b; 0x118fb1dc; 0x00694d1a; 0x9f57]
      [0x2feb6a21; 0x18387124; 0x219e5278; 0x3b9e12ac; 0x29bfdd89; 0x256dad5c; 0x19e57bfb; 0x23ee2007; 0xce7b]
  ; pt [0x1522461a; 0x3a504cca; 0x3c718327; 0x2cc28996; 0x3ef9a0bc; 0x2e1c0419; 0x28cfc01b; 0x045a48d6; 0x27f6]
      [0x07301a2d; 0x2a932be7; 0x28639446; 0x2606c836; 0x028ee8e4; 0x2315849d; 0x26ad2ea4; 0x3c6a6402; 0xe512]
  ; pt [0x114f36b9; 0x338b26cb; 0x3b9f390c; 0x2632aed8; 0x34a98125; 0x2fcbd0d7; 0x2f941261; 0x1e615b3b; 0x6407]
      [0x24b4b50a; 0x252c7ba7; 0x19ceeb28; 0x36821c12; 0x1a7b6c8c; 0x035d7f61; 0x16efaef9; 0x24a3d139; 0xda61]
  ; pt [0x14d6b76f; 0x3bd8f7e6; 0x0c815dbc; 0x396a7eed; 0x1dfeae7f; 0x3dc22f02; 0x1669f452; 0x1438c721; 0xa237]
      [0x0dcca8da; 0x0764b332; 0x1b848d14; 0x1c1f047f; 0x011113e7; 0x0be8f935; 0x3de6dac3; 0x26c529b9; 0xf733]
  ; pt [0x3ceee475; 0x0bba7193; 0x0ed782b1; 0x1ab20a10; 0x0aff41ab; 0x0f0087cf; 0x2378d5ed; 0x2b01e8fc; 0xbbf1]
      [0x07fe5067; 0x1188a802; 0x38b41d68; 0x3ae76250; 0x315fe324; 0x20f320da; 0x060e6108; 0x2e37bab5; 0xb4bf] ].

Definition row_15 : list curve_point :=
  [ pt [0x03fac3a7; 0x181bb61b; 0x147fbc9c; 0x377e1296; 0x3dfa180f; 0x31ce9104; 0x0f191637; 0x366e00fb; 0x06f9]
      [0x3a842160; 0x21a24180; 0x0281002d; 0x29374bd7; 0x05c4d47e; 0x238a8c39; 0x059ba69b; 0x31a3980c; 0x7c80]
  ; pt [0x121ce204; 0x13b5d7a3; 0x26763d52; 0x29c96390; 0x26f72fb2; 0x1d361672; 0x3c64fb83; 0x107458ac; 0x43ca]
      [0x134a8f6b; 0x1494113a; 0x2a4a468e; 0x2db1eccf; 0x1ba31f9a; 0x143e4863; 0x023fa1c6; 0x16a0b8dc; 0xdcea]
  ; pt [0x2be6efda; 0x13f3a4b3; 0x07280596; 0x0b53fcfe; 0x1a506d92; 0x1bdc8de1; 0x12bf5b66; 0x01bbc8a2; 0x9c3e]
      [0x27aefc7d; 0x3c503cca; 0x336fdf7d; 0x0ef21a1e; 0x226fd5d4; 0x02cb5133; 0x2923d8af; 0x027979d8; 0xa7b7]
  ; pt [0x06c88be2; 0x2449ead7; 0x06ee5e27; 0x0b1e0834; 0x30775bea; 0x1c9d6760; 0x20f033bb; 0x22a8c4f8; 0x5d6f]
      [0x0d7ad75d; 0x24b954fc; 0x2bf92c28; 0x2adbe3a9; 0x08bc20ed; 0x2abcceac; 0x2d4e8c71; 0x2c636355; 0xadc4]
  ; pt [0x12d1b844; 0x0a24d46e; 0x173e484f; 0x2700e0b0; 0x388bc5c6; 0x2c570f04; 0x20d5fc86; 0x0d70c129; 0xf57d]
      [0x21266837; 0x192eaef5; 0x0915c6a4; 0x01a5c80c; 0x24634c70; 0x134fd6a7; 0x2f4d9790; 0x0f67aa63; 0x707f]
  ; pt [0x3cc7cb09; 0x0d3401fc; 0x1d1b4352; 0x31fada28; 0x1871463b; 0x1b87fb8f; 0x194a5f59; 0x181e8e99; 0x13e7]
      [0x08079160; 0x2f9d6a28; 0x2b576411; 0x3ab8aed9; 0x34299d65; 0x17f7616c; 0x3b8b1e32; 0x32237a3e; 0x284d]
  ; pt [0x18cdee05; 0x01833849; 0x32ec3b90; 0x1d87ec85; 0x06901da8; 0x00942c6c; 0x182e6240; 0x28c895a0; 0x29be]
      [0x262651c8; 0x39280d66; 0x0c698e39; 0x3f0c6db2; 0x305ec7f9; 0x026cfee1; 0x29a0ea90; 0x36689a43; 0x7c40]
  ; pt [0x12f18ada; 0x06db1d58; 0x3dbdbcc1; 0x182f64ee; 0x3d4a59d4; 0x0dbebfcc; 0x288e7d9c; 0x1e1b48e0; 0xf521]
      [0x23953516; 0x375a2bf4; 0x05bf0981; 0x17bd28db; 0x11d1d6aa; 0x09840af3; 0x0db57ecc; 0x1befd80e; 0xe068] ].

Definition row_16 : list curve_point :=
  [ pt [0x02d0e6bd; 0x0edf839d; 0x30f5e531; 0x1d3458f6; 0x0d6ecbf7; 0x0851f041; 0x04e2582a; 0x3500490f; 0x3322]
      [0x2c28b2a0; 0x13ce8ba5; 0x2873af62; 0x017d8fa8; 0x1af9b728; 0x0066f137; 0x24ef5bfb; 0x01e5fa59; 0x56e7]
  ; pt [0x059ab499; 0x2f674fc8; 0x273c330a; 0x04ca671b; 0x3f01bc0b; 0x065acf19; 0x005ba5d2; 0x2bfcc057; 0x78ba]
      [0x3ee097fd; 0x20748c63; 0x11251996; 0x18cbbba3; 0x02082e91; 0x2a1383b6; 0x2c0afafc; 0x3736f6c1; 0xad4b]
  ; pt [0x3d06ace6; 0x124f85b3; 0x03a20ca4; 0x1c26cdbe; 0x29ab1a23; 0x2e126124; 0x2e3d4c20; 0x3c846852; 0x6f70]
      [0x3602d5de; 0x122fb4d2; 0x25ac5ee0; 0x0ca559af; 0x399f5075; 0x1763cd1e; 0x27b736f9; 0x228c2500; 0x791e]
  ; pt [0x20ee1b40; 0x323b8fb9; 0x1e96247d; 0x3b5216dc; 0x03ccd48c; 0x2527c644; 0x2a415f80; 0x276ca75a; 0xe159]
      [0x178f93a6; 0x0758997b; 0x032999de; 0x0d8e9d2f; 0x2fc7cfa6; 0x3e252aa8; 0x1d4a0efa; 0x1888caa0; 0x7933]
  ; pt [0x09c00c3e; 0x2077e8a1; 0x11208e2f; 0x03a3c0f2; 0x051859f0; 0x158b4cf5; 0x06956436; 0x0125c110; 0xbb0b]
      [0x11955a35; 0x266a60b4; 0x05dc90a7; 0x19c113a4; 0x31b052fe; 0x34be85ea; 0x39f63655; 0x391614eb; 0x4067]
  ; pt [0x05dd32e6; 0x039d6e70; 0x13e5ee7e; 0x18ed546d; 0x1a5fbfc6; 0x1276f81d; 0x1789e9b6; 0x10555065; 0xdc5a]
      [0x354a99b9; 0x039f6de9; 0x2e49bcf8; 0x3cbba41d; 0x3f59442f; 0x3a978806; 0x367a76dc; 0x2a298fe7; 0x4af3]
  ; pt [0x0544e7cb; 0x3b516eb1; 0x12960359; 0x0190896d; 0x014e99a1; 0x0d5295c4; 0x33b9dbe3; 0x065c0e61; 0x156e]
      [0x2d250a37; 0x354e4b02; 0x2b439cd6; 0x25b56357; 0x034be894; 0x255ca98e; 0x1907da93; 0x2367e3cc; 0x6bc0]
  ; pt [0x059853ca; 0x2fef0a73; 0x319bf54d; 0x3a589ae7; 0x27161348; 0x29da88a3; 0x043826bc; 0x2f33b2da; 0x4269]
      [0x35b8d367; 0x2a563bd4; 0x1e5a8a3d; 0x0e50297e; 0x31a409fd; 0x2132a710; 0x016b723c; 0x0706a0b0; 0xed2b] ].

Definition row_17 : list curve_point :=
  [ pt [0x0134ab83; 0x0875d34a; 0x36433977; 0x06cfe6bd; 0x26586874; 0x05dc3625; 0x0b7da2bd; 0x0b1f4b78; 0x8567]
      [0x390313a6; 0x238c253d; 0x1298f44c; 0x1fc5ff31; 0x22c2e5e7; 0x10126fe9; 0x3b2eb637; 0x06e6d6d0; 0x7c48]
  ; pt [0x03ba9000; 0x37c1c8ea; 0x025e8b6f; 0x21cbe71a; 0x00143dc4; 0x21d81d61; 0x1d8c1684; 0x1d3e7ffc; 0xac38]
      [0x2f10cf0a; 0x368f1f65; 0x366e9fa4; 0x178d435f; 0x117f9308; 0x0b77a250; 0x1c069b86; 0x3a48c228; 0xaa65]
  ; pt [0x2d06dbd4; 0x2981bd9b; 0x0a20d081; 0x038fe15e; 0x23e729ec; 0x0501d7a6; 0x070139ad; 0x1739ea9a; 0x570d]
      [0x3d1ed495; 0x2996fb3a; 0x2460bed5; 0x20e8db71; 0x101bbbb6; 0x19b99c47; 0x202f605b; 0x14d25083; 0xa6ae]
  ; pt [0x092d230e; 0x0d307e48; 0x29339284; 0x3b8ca834; 0x366ef5da; 0x308a7b80; 0x28bb6f87; 0x3e1c0a09; 0x75b5]
      [0x151570b8; 0x0df2f7ef; 0x111f8fb0; 0x19e92c01; 0x1dfa8e02; 0x1e1d1553; 0x3852363d; 0x338878e9; 0x527c]
  ; pt [0x034fcc0e; 0x1edafdab; 0x3e3884c4; 0x1fc4290a; 0x1259c892; 0x16e0389f; 0x1dec2b0a; 0x23beb87b; 0x44fc]
      [0x319c420a; 0x33fc0c79; 0x0d0489d9; 0x03a5292f; 0x33d3d772; 0x099f9e20; 0x31367e49; 0x37a52ea6; 0xd2c7]
  ; pt [0x0bb69991; 0x169207f2; 0x3307175d; 0x3ecfe8b0; 0x02f535ff; 0x28598838; 0x27bc6866; 0x2e91eeb3; 0xdea2]
      [0x316fe2df; 0x019d0aa7; 0x21ed9bc7; 0x27736cd8; 0x37b9e722; 0x32ffb213; 0x028e4ac5; 0x2ff5b643; 0xae28]
  ; pt [0x114fc9cc; 0x30903409; 0x1a461658; 0x3402af0a; 0x38a83626; 0x073db312; 0x168d6efc; 0x3f2629b8; 0x3968]
      [0x1fad37dd; 0x064e5225; 0x388f3340; 0x05195dbf; 0x2d32c91a; 0x1e60b46a; 0x35928123; 0x2ef436d2; 0x789c]
  ; pt [0x2e0c85f1; 0x2bb08646; 0x03a3a250; 0x294b94d8; 0x3945d5a6; 0x0977c255; 0x06a2926b; 0x2441a638; 0x6896]
      [0x2dc1de21; 0x31d208cc; 0x0d503922; 0x10306768; 0x05d72d1f; 0x0c170761; 0x0979256f; 0x0fed2ce3; 0xaefd] ].

Definition row_18 : list curve_point :=
  [ pt [0x20c82a0a; 0x3f6566bd; 0x3668832f; 0x2489b183; 0x1413b10f; 0x1b27c646; 0x188a46b0; 0x2fe026c6; 0x0948]
      [0x18c8e589; 0x132dfe23; 0x17cd2bed; 0x137fc232; 0x03418c6d; 0x2dd31747; 0x36646dc6; 0x18a15b72; 0x53a5]
  ; pt [0x38c8ac7f; 0x0a0bf97e; 0x1e2aa527; 0x0490bb99; 0x16f84964; 0x0ce5b481; 0x22bbcb5c; 0x2cbef8e0; 0x9945]
      [0x29aea3b0; 0x1b650e85; 0x2dacdfa9; 0x0bde88fb; 0x28eff528; 0x36d13fec; 0x3282d607; 0x3b6092c3; 0x3eef]
  ; pt [0x169e353a; 0x3475e78e; 0x2bbe1f6e; 0x28110214; 0x07d5fe10; 0x3e0889c4; 0x070e6235; 0x131ac816; 0x2a31]
      [0x25746067; 0x09649b87; 0x32658bfc; 0x22952ab6; 0x2a1ba013; 0x18f91dae; 0x227ac1a4; 0x2b02fcd6; 0x15a4]
  ; pt [0x29b84966; 0x278bd27b; 0x17f3ff98; 0x13d041b7; 0x2b6c911b; 0x2dbebce9; 0x3fc2d498; 0x29402dc0; 0x5959]
      [0x07473a6a; 0x02998c86; 0x0fe24264; 0x00373023; 0x082a7091; 0x0c4a0837; 0x0a897f94; 0x399d07d7; 0x0370]
  ; pt [0x2bc6b173; 0x2c326e48; 0x2ed3feb3; 0x36188f1f; 0x1b5f9d7d; 0x183118c1; 0x22fe8e11; 0x0c4e4dc8; 0x9eeb]
      [0x1723a71d; 0x14e58836; 0x0e70c4b9; 0x29c6afb4; 0x3a1ae30e; 0x2aaff6ee; 0x2d58d952; 0x3c780443; 0xe121]
  ; pt [0x3ec805f3; 0x1dc910fd; 0x1d995915; 0x3903dd42; 0x2e97887d; 0x2ec8e201; 0x318f516e; 0x13f931fd; 0x39cc]
      [0x3a3c48d3; 0x06468304; 0x3c912e4d; 0x2e55cdcf; 0x02de7dbb; 0x399a4f3d; 0x2f8f3151; 0x11cb1691; 0xecb1]
  ; pt [0x0e22580e; 0x0f58bed7; 0x2d6f8879; 0x04ca25b4; 0x1bd4d2c7; 0x0bff7993; 0x0dc69689; 0x201d19bb; 0xf94c]
      [0x3127db82; 0x07948fd9; 0x2371d4e8; 0x21fb114c; 0x1a81f698; 0x12ffdaad; 0x1225a919; 0x1ff719e1; 0x5e9c]
  ; pt [0x10c4f21f; 0x2f902eb4; 0x103da7a6; 0x092a5653; 0x1999d250; 0x0081a36c; 0x1d162fcc; 0x2e1b1ab5; 0x8ccc]
      [0x329dfea0; 0x1fc49ba9; 0x264be28f; 0x24b72b20; 0x0758a54b; 0x2fbd5272; 0x11c43699; 0x2596189d; 0x57f8] ].

Definition row_19 : list curve_point :=
  [ pt [0x338fd8e8; 0x33b36067; 0x069752ac; 0x2c39137f; 0x2873a8f1; 0x19f383c0; 0x001c34f0; 0x339fd186; 0x6260]
      [0x32b4ae17; 0x06a13a56; 0x051c198c; 0x34a488e0; 0x2a1ef7ec; 0x024125dd; 0x1b571a7f; 0x2a0adbe9; 0xbc2d]
  ; pt [0x01136602; 0x2c2e9195; 0x19e3a5bb; 0x311bd203; 0x333b3d38; 0x1624dfc8; 0x2dfc33d0; 0x09ca0120; 0x87d1]
      [0x18af6aac; 0x3da0f107; 0x3d3bf7c4; 0x2a211d1b; 0x27745387; 0x289db3fd; 0x203de926; 0x0921c296; 0x71ce]
  ; pt [0x08c5a916; 0x2c8175cd; 0x35610f25; 0x17110354; 0x354aa13f; 0x2b318f6a; 0x1e9746b0; 0x1f4ff898; 0xfd5d]
      [0x3adb8bda; 0x052cdec1; 0x1cf6faab; 0x35ce052f; 0x07b52fe5; 0x10f299e7; 0x15b07d2b; 0x0fb43bad; 0x0dd8]
  ; pt [0x35f7529c; 0x17664258; 0x1bd51dd4; 0x1d96e62d; 0x34438138; 0x114f0cb4; 0x026122ba; 0x35042607; 0xde0d]
      [0x24cd88fe; 0x0f08300b; 0x09b77406; 0x224931a2; 0x3a357017; 0x042608b5; 0x2145f9b2; 0x1ba74428; 0xd70a]
  ; pt [0x38f76d11; 0x320bd234; 0x38515573; 0x044003ef; 0x0292a215; 0x16fbf0e7; 0x0f44e69c; 0x0822b693; 0xb26c]
      [0x23b7356b; 0x307002c7; 0x182624bd; 0x000c1967; 0x0d643305; 0x13a1f643; 0x1d33cf0c; 0x3e208252; 0x1f1c]
  ; pt [0x269e22db; 0x2538ec19; 0x39c8933f; 0x264ffd67; 0x0c294eac; 0x0ef4a406; 0x3f523a7e; 0x052e3f1f; 0xfceb]
      [0x1c2260a1; 0x3d5cb6c9; 0x24ebe4cb; 0x15439e4e; 0x1f0924ad; 0x22969d49; 0x2b8d1fcd; 0x1ace9035; 0x64aa]
  ; pt [0x238a2755; 0x3c2105e6; 0x149c5506; 0x1c869c59; 0x107faa53; 0x05d5dd2d; 0x15cac55c; 0x26988f33; 0x4e90]
      [0x23cca3de; 0x3de927d8; 0x229800ca; 0x3354e534; 0x3559dbb6; 0x091b7541; 0x235aecef; 0x36a1e333; 0xae56]
  ; pt [0x183ba64d; 0x20962566; 0x0c595a3a; 0x3983dde2; 0x0e40e2bd; 0x028517ae; 0x04c03bfb; 0x115708b8; 0xc367]
      [0x2a2181fd; 0x053323e5; 0x1778f146; 0x189aab28; 0x1964c742; 0x3839ba13; 0x36033080; 0x02b41a72; 0x3a52] ].

Definition row_20 : list curve_point :=
  [ pt [0x2037fa2d; 0x254f3234; 0x1bfdc432; 0x0fb23d5d; 0x3f410304; 0x0d21052e; 0x1d8d43d8; 0x1f782bf0; 0xe503]
      [0x1d755bda; 0x03977210; 0x0481f10e; 0x17d6c0fb; 0x190bddbd; 0x263427ee; 0x0d3b5f9f; 0x14d2eaa5; 0x4571]
  ; pt [0x177e7775; 0x222a29b8; 0x0ed95f63; 0x385564e2; 0x1291aeb5; 0x150eeb3d; 0x233cee58; 0x1a8ebfe5; 0x9d89]
      [0x3a056691; 0x3f3db4ea; 0x299253be; 0x26735fb8; 0x10927de8; 0x2593b5c9; 0x1bf0b94e; 0x2a790fd2; 0xdd91]
  ; pt [0x3c2a3293; 0x3f781378; 0x103476c5; 0x222e1bba; 0x02f4cd56; 0x2c295cca; 0x23792d0e; 0x2e3b9c45; 0x8327]
      [0x0e0df9bd; 0x2f215386; 0x2326a416; 0x2bf6ad3b; 0x39708496; 0x2cfa9989; 0x0a98e18b; 0x1f899bb8; 0x0499]
  ; pt [0x0562c042; 0x1086c9b1; 0x38dfb1a2; 0x0b48c8d2; 0x1a8ed609; 0x1998763e; 0x1b16897d; 0x0aaa8a9b; 0x5ae4]
      [0x0f79269c; 0x2417337e; 0x07cd8dbf; 0x3836e544; 0x389d4a94; 0x30777180; 0x3051eab5; 0x0e9f017f; 0x99d9]
  ; pt [0x1e85af61; 0x0d2204a1; 0x14ae766b; 0x23b5c8b7; 0x021b0f4e; 0x3ada3fdb; 0x1c8eb59a; 0x0eb909a8; 0x92c2]
      [0x036a2b09; 0x39c8d9a7; 0x2286fed4; 0x08eb60ad; 0x38d5792d; 0x085f571c; 0x11bb409f; 0x3e23c055; 0x414c]
  ; pt [0x07b5eba8; 0x38abc6cb; 0x118ea36c; 0x2afb71fe; 0x38df422d; 0x03d05dab; 0x3df1088d; 0x18231dab; 0xfee5]
      [0x0d0b9b5c; 0x3d4574da; 0x39054793; 0x203fd0af; 0x07c14ee3; 0x100be64a; 0x258afb11; 0x16644d3f; 0x3807]
  ; pt [0x3c63caf4; 0x078ee92c; 0x0f53d528; 0x23fceaca; 0x2a6afca2; 0x044ed318; 0x267e620a; 0x113ae4b9; 0x42e5]
      [0x169c29c8; 0x21ebb026; 0x3efc5f11; 0x29439eda; 0x015e7873; 0x3c88305d; 0x0c671f71; 0x15383e47; 0x9ff8]
  ; pt [0x1e0f09a1; 0x028af661; 0x14032838; 0x28427c6e; 0x300efef0; 0x25bb4a91; 0x32ce3839; 0x20ed9954; 0x7aed]
      [0x05857d73; 0x1176337a; 0x33f4a540; 0x22cbcc03; 0x032d8ed8; 0x2bf42ac4; 0x1ef7c7dd; 0x1517e68c; 0xf5b8] ].

Definition row_21 : list curve_point :=
  [ pt [0x24fce725; 0x1619a82b; 0x2a6c5b72; 0x3a36f471; 0x1771b4e7; 0x2a417a3c; 0x207adf5e; 0x1cac3d28; 0xe063]
      [0x0eee31dd; 0x09c0d3e5; 0x3104870b; 0x12129de1; 0x1a488cd7; 0x09eecab5; 0x18cfe12a; 0x225d2f38; 0x7a90]
  ; pt [0x1a328d6a; 0x2eaa0623; 0x1adc18bd; 0x135dcea5; 0x308fa7b2; 0x1a264616; 0x34e00a34; 0x3016e988; 0xc663]
      [0x3ec9b8c0; 0x0ec2edaa; 0x12bf9cc2; 0x21547a94; 0x171317dd; 0x2bf73c9d; 0x21c38d39; 0x3a6357dc; 0x3331]
  ; pt [0x3996de2f; 0x32472120; 0x0b25114b; 0x33b7cbb8; 0x0fe4e977; 0x2cc37ba8; 0x06a459ce; 0x09a0b7ee; 0xd3fc]
      [0x14526f8c; 0x31248907; 0x37abf168; 0x166d2637; 0x3781da4e; 0x2d1d5353; 0x30a18f68; 0x37e66917; 0xc4f0]
  ; pt [0x03e697ea; 0x31b12344; 0x05f83e85; 0x399e3ee6; 0x3fabd19c; 0x287fb268; 0x2c0237dc; 0x12d0ffac; 0xc17a]
      [0x1edc6c87; 0x3b8ee1f7; 0x39f02ab0; 0x38686d5f; 0x201fae96; 0x05e3dc65; 0x35954cae; 0x170b556a; 0x3935]
  ; pt [0x3163da1b; 0x0b4b0c08; 0x393a3118; 0x03b7b983; 0x011fde9a; 0x24d275ff; 0x390b468c; 0x22df2899; 0x8f61]
      [0x03bdd76e; 0x1fcc4844; 0x249b6e7c; 0x14319a8c; 0x2c5a4264; 0x2f69d35e; 0x3eb6eb5f; 0x0fc97c22; 0x7823]
  ; pt [0x0ec8ae90; 0x3a1643f8; 0x0bbc5dee; 0x2c9ae4ba; 0x03f1b8cf; 0x356e36b2; 0x21e6eb86; 0x303c56de; 0x9798]
      [0x252844d3; 0x2a6b0bab; 0x03188e27; 0x392596f4; 0x1c73bee2; 0x3b25253e; 0x02ed3dd2; 0x38aa9d69; 0xba40]
  ; pt [0x11d66b7f; 0x16865e3c; 0x187dc810; 0x29a49414; 0x1284757a; 0x3c6e42e2; 0x22d6747c; 0x1bb8fed6; 0xfdfa]
      [0x38e5178b; 0x2aa3e019; 0x3d78de9d; 0x11be7744; 0x1a18c4d8; 0x0307268f; 0x198db93c; 0x3cc78892; 0x4d9c]
  ; pt [0x1265bcf0; 0x201d5e12; 0x11c7d30b; 0x338ade10; 0x0f220e69; 0x3aa69187; 0x29e43add; 0x338e3788; 0xfd58]
      [0x2b996292; 0x0cf9ea73; 0x0f1cd1df; 0x0986ff8a; 0x05e4fb87; 0x20aae692; 0x3215bd53; 0x29794dd8; 0xffe0] ].

Definition row_22 : list curve_point :=
  [ pt [0x10559754; 0x02b5a423; 0x2a3f5854; 0x2c42f778; 0x0ce02204; 0x02efe770; 0x1d45358d; 0x1e9c5735; 0x213c]
      [0x34b458f2; 0x3fcb09d4; 0x36a7eedd; 0x12143d7c; 0x1ba190bb; 0x0eb41891; 0x06250701; 0x2b42d6b9; 0x4b6d]
  ; pt [0x1e05dccc; 0x0cb60046; 0x019a93e5; 0x0fe8fb53; 0x13d172ae; 0x1b825ae5; 0x1a030954; 0x3db85d4f; 0xb8ce]
      [0x0c6d5750; 0x0052833f; 0x26b68133; 0x1d5ff0da; 0x12bd99df; 0x3529d393; 0x09bbf6a4; 0x229829b3; 0x302b]
  ; pt [0x373bb31a; 0x16f7fb84; 0x3db97b48; 0x07dedad7; 0x3b5f4970; 0x282f78ba; 0x07385e02; 0x0cf9de6d; 0x03fb]
      [0x3d215c9e; 0x0d32f9a5; 0x07640d4e; 0x169f1db1; 0x3b572bc6; 0x30586aae; 0x2fe281e0; 0x36549523; 0xf36a]
  ; pt [0x1d9a4ab4; 0x16d457af; 0x15bb7c0a; 0x1f0db061; 0x0f7a3671; 0x05bded34; 0x03e1161f; 0x1f34427b; 0x4b17]
      [0x235ab6f7; 0x2ab77f91; 0x1741f558; 0x0df8957c; 0x226b486e; 0x23d9ca4d; 0x2fa65fda; 0x19ba6978; 0x3ec9]
  ; pt [0x301c23a4; 0x3d1beca6; 0x3a49cf56; 0x0a905611; 0x39cd75c2; 0x00e0a6e6; 0x27a06c2a; 0x00d481a8; 0x5e87]
      [0x10d986f9; 0x085e65ac; 0x24ccfda1; 0x05c761d2; 0x2c6e2da2; 0x1d5746b8; 0x09221e71; 0x1913bee7; 0x5b96]
  ; pt [0x007b0c66; 0x3cfcd748; 0x16c86fb1; 0x29ffb919; 0x2ceb7434; 0x08913d82; 0x1680a447; 0x30c064c3; 0xe545]
      [0x31f2d470; 0x21fd5f49; 0x35a239dd; 0x3960a386; 0x19bcbf97; 0x31bf68e5; 0x2955e7e5; 0x0d03a318; 0xe06a]
  ; pt [0x03648bba; 0x2960642e; 0x1c3c7444; 0x283c2c1a; 0x01b39882; 0x0fb8897c; 0x0f580a13; 0x10855e95; 0xb2a4]
      [0x00fb6452; 0x11bead28; 0x09c17bb2; 0x36154547; 0x3d7e31c0; 0x3ef25e3e; 0x366619e9; 0x17f0ada4; 0xfe4f]
  ; pt [0x2bab27d0; 0x3db748bb; 0x045103fc; 0x02d07e8b; 0x197007f7; 0x25c06463; 0x138651ba; 0x2383cf51; 0x1b90]
      [0x00d3d110; 0x07a19d79; 0x07e51b57; 0x2ef2a4d6; 0x3c4b9ab5; 0x15f24605; 0x26b5e6f3; 0x1897bb11; 0x9b6d] ].

Definition row_23 : list curve_point :=
  [ pt [0x08fbd53c; 0x0330e8ec; 0x1c62cddf; 0x20e31c2b; 0x019a87e2; 0x2e4d4a95; 0x0b34e8db; 0x09ca9ebd; 0x4e7c]
      [0x17dcaae6; 0x02ce5060; 0x3f7dd33e; 0x02e5852f; 0x2f681b53; 0x3f427db7; 0x10b18e16; 0x271d9b27; 0x1774]
  ; pt [0x2521b3ff; 0x38a61193; 0x1aa750ce; 0x0f01c5fa; 0x2e24a523; 0x1134afa6; 0x1455c75e; 0x138c0432; 0x0248]
      [0x0269da7e; 0x306b92e4; 0x23ac8bbc; 0x1c01b7a4; 0x2d0eebad; 0x30acf0ac; 0x3e30d07e; 0x34282a88; 0x9619]
  ; pt [0x004ba7b9; 0x25ade7ea; 0x0741751f; 0x35a91c0c; 0x2c954e20; 0x26dc359c; 0x2ce57ef7; 0x3149b3ed; 0x16c1]
      [0x1c5bd741; 0x1d6f8e94; 0x1c9a9cc4; 0x1d57006f; 0x0a94deec; 0x189d1672; 0x31439062; 0x1fdf0d00; 0xdb15]
  ; pt [0x236683fa; 0x20d921ea; 0x0ec0825e; 0x2086d4e0; 0x127b6695; 0x22739dd1; 0x131af87a; 0x0f35d4fe; 0x0397]
      [0x3f4a577f; 0x3d7ecadd; 0x3e981ded; 0x1e213863; 0x35a26cd7; 0x384ad8ca; 0x0a3a3643; 0x168b30c3; 0x38cf]
  ; pt [0x00bf6f06; 0x202ce667; 0x1043b571; 0x0f04cc89; 0x20576571; 0x3013d2c0; 0x0f1511c2; 0x26ee9cbb; 0xba6a]
      [0x381db551; 0x0cafbdc1; 0x0697aafe; 0x17453deb; 0x18bd8e9e; 0x082fcb95; 0x211b0320; 0x078e2cd2; 0x1377]
  ; pt [0x31231a43; 0x347be7c1; 0x1ad43b9f; 0x35453599; 0x1e442f44; 0x3b654193; 0x04dd2d8a; 0x2f3309f3; 0x35c5]
      [0x1620c8f6; 0x36dcb914; 0x23cf0ae7; 0x3de93301; 0x3a589d4c; 0x396082db; 0x346ce734; 0x1d5c8ee5; 0x0e36]
  ; pt [0x3dd40609; 0x3d02f15b; 0x181cd76b; 0x10642603; 0x08356ac7; 0x0bc4bf16; 0x186bca12; 0x27091715; 0xfd47]
      [0x2a64ca53; 0x378bc4d9; 0x21ca4739; 0x04ebb5c9; 0x1841fd91; 0x2b5e90f2; 0x0afeff2c; 0x33ed49a5; 0x3069]
  ; pt [0x2b799a7f; 0x36dc0bd4; 0x3b8e8424; 0x062db354; 0x2c7d544f; 0x363ae6bc; 0x0d864bde; 0x000a8eb3; 0x6c40]
      [0x13c81e32; 0x2d7320b3; 0x20483f68; 0x1eaf5320; 0x1ddcbdc0; 0x2e0da838; 0x235be690; 0x37054c2d; 0x95c2] ].

Definition row_24 : list curve_point :=
  [ pt [0x00fb27b6; 0x0909f8a1; 0x24305763; 0x1b8f6caf; 0x286aa5c7; 0x08e2b585; 0x38b1b10f; 0x138f6f9d; 0xfea7]
      [0x323cb96f; 0x0074f6df; 0x33f7b777; 0x1ad65ae5; 0x36af9312; 0x19d37b32; 0x313297cf; 0x1a36e6c2; 0x6e05]
  ; pt [0x3e889756; 0x37606ba6; 0x3004bb25; 0x1ed9265e; 0x1899f3f2; 0x3365ec9c; 0x1fea8226; 0x22f0cc84; 0x762e]
      [0x3ca6b774; 0x17896781; 0x084fa5e2; 0x1cb6cc52; 0x02e34719; 0x3313c526; 0x3e97c3c7; 0x250982bc; 0xc028]
  ; pt [0x0975d2ea; 0x1bdd7a5c; 0x014e8ea2; 0x14ab3e84; 0x08f4a91e; 0x26f6ec8c; 0x095348e1; 0x1f51f7d8; 0xdf07]
      [0x31936f95; 0x28f0b678; 0x3bdd277a; 0x07b16e13; 0x22527c8a; 0x21097262; 0x37f4424c; 0x1ea2003b; 0xf861]
  ; pt [0x3c4c92d7; 0x2e1247ee; 0x14391b45; 0x36d35bb9; 0x0b142935; 0x1f7aa0cd; 0x3da032e1; 0x1f5d62f4; 0x9f3e]
      [0x314906dd; 0x32eeff3e; 0x294e1186; 0x0a88c0f5; 0x2b150245; 0x18ac872e; 0x1466b588; 0x2107a9df; 0xecd2]
  ; pt [0x32a8c483; 0x2b835cca; 0x1040ac35; 0x12c32231; 0x39528117; 0x230f48bb; 0x0cf9edc3; 0x1e575ed7; 0xa0cc]
      [0x12cc6ba9; 0x0259d156; 0x36936055; 0x0d23c6f7; 0x31df786b; 0x1d3f25c8; 0x3873ee23; 0x0048be2c; 0xabc3]
  ; pt [0x05dd3aee; 0x1c3c6daf; 0x396d2f21; 0x054ea2a3; 0x2976ca13; 0x08aa6b1a; 0x3c7cce0e; 0x14294554; 0x6d1c]
      [0x3df597f7; 0x3b8d5393; 0x0ed53adf; 0x078c42aa; 0x07d47485; 0x09c8008a; 0x3dfdc977; 0x052381aa; 0xafff]
  ; pt [0x24a6d0bb; 0x1e32a6df; 0x1a1afdc6; 0x274c48bd; 0x26418f65; 0x069b62a2; 0x3f9f3f31; 0x075862e5; 0x5e5f]
      [0x1033eaf9; 0x1a0e11e4; 0x06f653a1; 0x1557cb94; 0x2721da72; 0x3daf3413; 0x3e6f7358; 0x140ac1a9; 0xd7b1]
  ; pt [0x0f005e3f; 0x36a6d791; 0x2c39bd2d; 0x3da38c6f; 0x01a1495a; 0x0f2e6b38; 0x2427fffd; 0x229acf05; 0xf813]
      [0x2f357eb7; 0x0b5f8080; 0x14be2134; 0x3b106f55; 0x25cb51f4; 0x005795ea; 0x0ebd9f9d; 0x23cefbed; 0xca75] ].

Definition row_25 : list curve_point :=
  [ pt [0x17bdde39; 0x0b00a910; 0x36043295; 0x11385e6d; 0x1968d315; 0x095c3566; 0x3cf0e10a; 0x1044fd9d; 0x76e6]
      [0x1901ac01; 0x12c5d4b4; 0x16d2032b; 0x0a8cf4ad; 0x01f0d35e; 0x019b5c1a; 0x295cf577; 0x37e37b93; 0xc90d]
  ; pt [0x0078ee8d; 0x3c142473; 0x06919442; 0x2fc83394; 0x1b4ff64e; 0x3dc98eaa; 0x1a9be25f; 0x15eb6167; 0xd08e]
      [0x2da63e86; 0x265fd370; 0x022ed9de; 0x0fbdf3e5; 0x3e6df412; 0x05cbb9d5; 0x088d72d6; 0x25e612ad; 0x852e]
  ; pt [0x029129ec; 0x164519c1; 0x24825481; 0x2b8eb3c7; 0x131d080c; 0x22fa03b3; 0x04d275f5; 0x30217935; 0x7da6]
      [0x2cd9ff0e; 0x2d42bb8a; 0x0ca586ae; 0x12302195; 0x1627bf04; 0x34081d24; 0x01857511; 0x051aee7d; 0xf498]
  ; pt [0x11654f22; 0x3e0f5255; 0x31aaee94; 0x3dfce508; 0x29d94fb2; 0x3a4006f9; 0x1be6e21b; 0x2433fd70; 0x90d0]
      [0x201a43e1; 0x3d77815d; 0x1a3f8740; 0x358d594f; 0x3f70336d; 0x3c08781a; 0x0f61a953; 0x26874aeb; 0xcd56]
  ; pt [0x076b19fa; 0x2dbbd947; 0x28819d71; 0x35b81b41; 0x21292ed9; 0x08b0c420; 0x1d1ecc73; 0x26161f3c; 0xda47]
      [0x326f5af7; 0x2a89bbac; 0x153fc206; 0x1ef44fa5; 0x16569ea6; 0x0da41df8; 0x0af01d17; 0x35de26f3; 0xebb1]
  ; pt [0x39135dbd; 0x364bed96; 0x1d8631ec; 0x3021ebce; 0x29897cf0; 0x1eabd60b; 0x1ee6ad81; 0x1d412a37; 0xe3e4]
      [0x0748045d; 0x241abcf9; 0x2c95da96; 0x2880bfd7; 0x383ffea5; 0x2320654a; 0x3c6c40b9; 0x16fe0272; 0x930a]
  ; pt [0x0dee455f; 0x2fc2e797; 0x0ce4075c; 0x19fff9ba; 0x0bdb4aff; 0x114ce3e0; 0x0a9b0a47; 0x195bfa1c; 0x7e8c]
      [0x171b9cba; 0x1cf7a660; 0x2f466271; 0x28b459d1; 0x03a53b4a; 0x3dd83d20; 0x0740f2a3; 0x318cb28c; 0xbddd]
  ; pt [0x2698b59e; 0x1de5ae6d; 0x13447a43; 0x0cd64962; 0x23c7260a; 0x2c0d6acf; 0x15eb15be; 0x107e246a; 0x3df8]
      [0x2b92baf5; 0x33e399e5; 0x14949f8b; 0x3f219ec8; 0x1cf3867b; 0x0aeba3c4; 0x090c1da0; 0x39b7e62c; 0xb38f] ].

Definition row_26 : list curve_point :=
  [ pt [0x2bcbb891; 0x2ac54090; 0x326cbee3; 0x1f3190f7; 0x3f8f9a8f; 0x206ea9d0; 0x2abe1e82; 0x315ac0ec; 0xc738]
      [0x299a84c3; 0x1f9cd765; 0x080cfe91; 0x0c53bbde; 0x3fbbbb82; 0x063cbab2; 0x2d2537f7; 0x2d5e2546; 0x893f]
  ; pt [0x0761d58d; 0x12eabcce; 0x0d60e2f3; 0x1326f902; 0x20df7aca; 0x09028d5c; 0x3614610a; 0x1849e08f; 0xb8c4]
      [0x1d1051a4; 0x0e3a82ea; 0x2107c5b6; 0x1d411e17; 0x33c5053f; 0x1163da5f; 0x0e37d14a; 0x365b145c; 0x8f9e]
  ; pt [0x050b0040; 0x36c2cc10; 0x0134adc2; 0x3d1f6e7c; 0x1a3671f3; 0x03264ffa; 0x271f7a35; 0x1ba7dc40; 0x08d5]
      [0x1b3fd0a1; 0x163899e9; 0x21782beb; 0x35f11c83; 0x39b285f6; 0x34542a35; 0x29aa21ff; 0x216baf42; 0xa121]
  ; pt [0x13573b7f; 0x15958f7c; 0x30b6270f; 0x268717b4; 0x265a3788; 0x083e5def; 0x3ce6341e; 0x3c8cb50b; 0xdc13]
      [0x0c1f2ba6; 0x0ab348a1; 0x3404b1c4; 0x11551c05; 0x290a7670; 0x10436a12; 0x2340c3c7; 0x2ea010a7; 0xc909]
  ; pt [0x07ae9ceb; 0x00bd642e; 0x0ef2d14b; 0x1b087a9c; 0x2119a822; 0x0655976c; 0x37f073af; 0x0b798077; 0x25c0]
      [0x0bc6e275; 0x1c24344d; 0x26587264; 0x319077c2; 0x2d11d537; 0x2138373e; 0x2383c0c8; 0x3ab4b204; 0x8a9f]
  ; pt [0x2c5a3c34; 0x3e0263db; 0x15949fe1; 0x33a0b00a; 0x2e3e58ae; 0x2e7d329e; 0x0e49ce8a; 0x2746cb3e; 0xfedd]
      [0x213d7714; 0x0ad52fd3; 0x1bf82976; 0x2bad51a6; 0x0f4b00ad; 0x3a14c4b2; 0x3b8e0b0b; 0x0930c614; 0xa52e]
  ; pt [0x2ab6a396; 0x2d395346; 0x11360769; 0x0086e468; 0x0488b373; 0x38b5fd7a; 0x2a48c2de; 0x0ca1af1b; 0x3e0e]
      [0x1980e27e; 0x3acc7923; 0x3468f6a2; 0x2c04107c; 0x053fc66a; 0x07f877ad; 0x337964f3; 0x205cbe8e; 0xca44]
  ; pt [0x341023ec; 0x2bcd6188; 0x3ecf570a; 0x11763ddb; 0x02b9af56; 0x0b808026; 0x32d28498; 0x2e4c2030; 0x344a]
      [0x1e1eeb87; 0x13e260a4; 0x03995d70; 0x13a5dabf; 0x114c5ffc; 0x23cb47a9; 0x0462a73f; 0x0ac10ac9; 0x6e1c] ].

Definition row_27 : list curve_point :=
  [ pt [0x08f6c14b; 0x1cba7d96; 0x29250143; 0x35cb97ce; 0x172877d1; 0x131d8df2; 0x25b81e26; 0x1899522d; 0xd895]
      [0x1d7d991f; 0x24d8fb5d; 0x3b067e17; 0x10a358ca; 0x0340eb03; 0x3b182063; 0x07eae728; 0x2a8e3caf; 0xfebf]
  ; pt [0x2127b756; 0x02ea1ffd; 0x3a097048; 0x10a2f92a; 0x20b41603; 0x0d8b6941; 0x1f12672d; 0x1e0bdc5b; 0x6d8c]
      [0x3f172571; 0x1547dd2a; 0x17cdcca6; 0x0ea9b68b; 0x134daf4e; 0x26a0b4db; 0x1b911145; 0x37c225bf; 0x99ae]
  ; pt [0x358cf17a; 0x37b869cd; 0x18823524; 0x3e1772e9; 0x0097f8f1; 0x166bbc6d; 0x37aca8d0; 0x2fb7656f; 0xebca]
      [0x1caa0ccd; 0x11b3717d; 0x0ace95c4; 0x3eb484b4; 0x032e6b10; 0x00286d9f; 0x2b9cb02c; 0x3383e3c8; 0x47d3]
  ; pt [0x2c855c5b; 0x33bb9456; 0x17c8afbb; 0x21588680; 0x17fc2811; 0x0c68da78; 0x0ce24453; 0x134b92f5; 0xe8df]
      [0x2e465650; 0x27579cb0; 0x21e4d7d5; 0x18ed57c7; 0x2f32c596; 0x136d3d67; 0x39b26444; 0x3f5c311f; 0x6c57]
  ; pt [0x12e7e454; 0x023d6f69; 0x30e6150d; 0x0cbbfbc3; 0x181662fe; 0x121808ea; 0x0a832912; 0x34f5c63b; 0x4068]
      [0x18ef191e; 0x1e6b3797; 0x3c373327; 0x23487b44; 0x1d38d198; 0x305165f6; 0x247aab9e; 0x14edc952; 0x8cd8]
  ; pt [0x06c5d939; 0x215eb7e1; 0x3a933de0; 0x1d68a1de; 0x0a027ea4; 0x2fccb983; 0x025e0b55; 0x03b36c76; 0x1255]
      [0x19e757c9; 0x0a9d3f15; 0x0d8d4319; 0x22dd07fb; 0x324a7283; 0x2390f05d; 0x2d7a7544; 0x20cd3e1c; 0x7b8f]
  ; pt [0x16c8a56f; 0x2342ab19; 0x0f374213; 0x024f150d; 0x3ad08f85; 0x2eded4eb; 0x185d4c69; 0x19c6b0ed; 0x944d]
      [0x1a7be289; 0x27d37197; 0x106517eb; 0x35305d37; 0x3ac61967; 0x10e4d84c; 0x01fff4c1; 0x1965ded4; 0xa710]
  ; pt [0x2e08f15a; 0x3bae2862; 0x012900ba; 0x1a795b72; 0x13c305fd; 0x2c0d956b; 0x19a0cfe6; 0x13a47342; 0x86a5]
      [0x01388308; 0x1493479f; 0x335254d3; 0x04a74496; 0x35686777; 0x0aa341b5; 0x384603a7; 0x18520de9; 0xcfee] ].

Definition row_28 : list curve_point :=
  [ pt [0x0f676e03; 0x24542959; 0x3e84edd4; 0x3ff1cda4; 0x1e8761ce; 0x3d90cd5c; 0x17518eb0; 0x2500caa5; 0xb8da]
      [0x0efdf6e7; 0x1223939d; 0x1ff3b511; 0x33161365; 0x2808b092; 0x267325d8; 0x1a1e4d7c; 0x37e91201; 0x2804]
  ; pt [0x06e1346b; 0x28661277; 0x05af1c5e; 0x2f9ec40e; 0x1152c05a; 0x31d87c53; 0x2d10be54; 0x1a3fc260; 0x0690]
      [0x17226c13; 0x2ed62953; 0x0c6026e7; 0x3da24e65; 0x06442aa4; 0x176caf42; 0x3de26da8; 0x38f8242f; 0xb863]
  ; pt [0x1ca1f6a1; 0x039a47f3; 0x08cff1a3; 0x232f450d; 0x286ce106; 0x1b7172c7; 0x19761528; 0x0d24f2c9; 0x898c]
      [0x164f647c; 0x12b7083c; 0x32bd79ca; 0x29f3e5e7; 0x2c6e93b2; 0x1150914a; 0x2a5549d8; 0x1661aad5; 0x75f7]
  ; pt [0x3d1e3998; 0x29a780f0; 0x3a04328a; 0x15b22e45; 0x2a274e5e; 0x0a675c08; 0x18bf01a5; 0x38bfb4a4; 0xb213]
      [0x325fb81e; 0x30b2f718; 0x3ded175e; 0x0d0596fa; 0x243bc3d5; 0x187afe0e; 0x13c12c3d; 0x23b083cb; 0x229f]
  ; pt [0x225be234; 0x02f87fb2; 0x1df35070; 0x20f8f9c3; 0x206e060e; 0x342e9a45; 0x3f93e5d1; 0x0eb605b1; 0x4b3b]
      [0x120e8362; 0x18edf80e; 0x3211b840; 0x39ff64b3; 0x0cc04c41; 0x17a5b7f6; 0x2bc9c787; 0x008ee176; 0x5eec]
  ; pt [0x2289f55e; 0x2598d29f; 0x2c76707b; 0x1dac3c38; 0x0965be29; 0x0946c09e; 0x04f96020; 0x222db76c; 0x9f7b]
      [0x3e1e4bde; 0x0f34ed97; 0x310a2b1b; 0x394db83a; 0x0fc71fc0; 0x051ad0a6; 0x010f7be3; 0x3de131c1; 0x32f9]
  ; pt [0x1dfe1d2b; 0x19527230; 0x16878e51; 0x24fd4279; 0x3b73a4c4; 0x332b7f4f; 0x048e3e76; 0x10fa72dd; 0xd58a]
      [0x0cd50922; 0x33c9e56e; 0x0bd6fbff; 0x366e8857; 0x28276b54; 0x1ca44ca0; 0x083cf10a; 0x219ae816; 0xfc17]
  ; pt [0x249c795e; 0x090546f8; 0x1ce805e1; 0x1101aaa6; 0x27ea4eed; 0x365a70f0; 0x18310cd6; 0x1c4e5c44; 0x21d2]
      [0x19208ece; 0x0004bb0e; 0x2dfb761b; 0x1c651292; 0x2bb4c3d6; 0x0d6e1548; 0x1acea177; 0x3e6d2c1d; 0x94c5] ].

Definition row_29 : list curve_point :=
  [ pt [0x23c0df5d; 0x06845de3; 0x156a792f; 0x067bfed4; 0x1d7fab20; 0x2b6ae51d; 0x3b33a7d8; 0x3a851107; 0xe80f]
      [0x2ac9ec78; 0x32d0a46d; 0x3322ea9f; 0x0557a02b; 0x0a94472d; 0x25da328f; 0x200771e8; 0x379fd8e3; 0xeed1]
  ; pt [0x17592d55; 0x300d67b3; 0x0e350192; 0x356e51d0; 0x3ce3b106; 0x3fbda58c; 0x1052608a; 0x31b6f128; 0x5d2e]
      [0x2f5183a7; 0x19b9743a; 0x11151742; 0x0a9ef36b; 0x0cd6950e; 0x1c43e89a; 0x245eb58f; 0x337e271b; 0x0a92]
  ; pt [0x3e8f9f5c; 0x247d2d27; 0x1880a519; 0x187c7856; 0x1f404d73; 0x32b8d085; 0x3f742fe2; 0x0770ec46; 0xac37]
      [0x325a503c; 0x1ea0ffcc; 0x2751e1d1; 0x254d163b; 0x14e73522; 0x04079cc9; 0x1a477ff2; 0x05b061c2; 0xc516]
  ; pt [0x19e33446; 0x12872354; 0x2af385df; 0x224ef114; 0x22a17a40; 0x2302f408; 0x1840c934; 0x000e853c; 0x8942]
      [0x26387689; 0x034e2803; 0x1e74f984; 0x3f5dcd9e; 0x3de4e06b; 0x2cb5b43b; 0x1077a4d8; 0x00e56569; 0xa9fd]
  ; pt [0x3913cb26; 0x35ca3256; 0x13bd6d03; 0x3ad06700; 0x105c9899; 0x36913fd5; 0x342a8a2c; 0x099acc28; 0x2770]
      [0x3348a7a2; 0x3f9c5ccf; 0x0815bebb; 0x103246f3; 0x32b324e9; 0x0b49341f; 0x0db1a555; 0x2f179e6c; 0xf649]
  ; pt [0x195e8247; 0x02aa8085; 0x286cd1af; 0x2ff71155; 0x38ba9097; 0x179b8073; 0x3ed2178e; 0x3434e0f2; 0x75e4]
      [0x19982d22; 0x288ff675; 0x29ad893c; 0x36ad6dba; 0x3726d47d; 0x3e5c3b1e; 0x10990741; 0x10a85d50; 0x1fce]
  ; pt [0x26333323; 0x11e7d136; 0x0f4abf47; 0x2eef071a; 0x04da849c; 0x08358166; 0x1bbf03f0; 0x2d8e0cd8; 0x3ed1]
      [0x35d61ba3; 0x2c4ff122; 0x378f7294; 0x2dca2842; 0x0f929ea9; 0x1f2625a2; 0x34ee75d9; 0x0b6922d6; 0xd84f]
  ; pt [0x333980bf; 0x09415f52; 0x0dd00baf; 0x28dc0b94; 0x08dd4368; 0x1bf5dc8d; 0x18181b84; 0x34bc1a9d; 0x70fd]
      [0x20b75785; 0x0bbaa33a; 0x1d74a561; 0x040d60e1; 0x2e596b0a; 0x29043447; 0x18696957; 0x32b03435; 0x5edf] ].

Definition row_30 : list curve_point :=
  [ pt [0x04e16070; 0x3701eef3; 0x2fd6915d; 0x286080c7; 0x167543f2; 0x29239475; 0x1704313b; 0x1a5ef7f3; 0xa301]
      [0x1e177ea1; 0x30346810; 0x0a11a130; 0x0d76fdf0; 0x140f9b17; 0x2027e897; 0x3e4f5081; 0x3e473ed9; 0x7370]
  ; pt [0x138011fc; 0x1c049c00; 0x17285626; 0x165a99eb; 0x200a4d83; 0x2c4cc208; 0x1eb11156; 0x04e8c205; 0x6e83]
      [0x3f15ab7d; 0x2b2da7e8; 0x1c51f9a6; 0x2be456ba; 0x1ac30426; 0x04b6c807; 0x0f204c1a; 0x2062f709; 0xc147]
  ; pt [0x100e6ba7; 0x0e9d26e3; 0x0916f7f5; 0x0dbb16d1; 0x19e1b43d; 0x0780e293; 0x0851f2bd; 0x2a4265e1; 0xf952]
      [0x0175e4c1; 0x36ebbb94; 0x062a2b98; 0x15c59ed3; 0x3fa0f655; 0x0dda8b89; 0x3cebf861; 0x0e96c22a; 0xd8a9]
  ; pt [0x03aa0e93; 0x2401968a; 0x2fb1f626; 0x0b8e50eb; 0x1e893a8f; 0x00c68676; 0x3fee7504; 0x1b578c74; 0x9401]
      [0x07addac2; 0x23bb49a2; 0x257b07a3; 0x210dceea; 0x2e6fd7f4; 0x1574d53b; 0x14d96403; 0x0cbb9711; 0x6750]
  ; pt [0x0266b17b; 0x03d218b8; 0x262bb32b; 0x0d5a2880; 0x1f09c202; 0x25e211aa; 0x3b2891bb; 0x345d3567; 0xef22]
      [0x39dac83e; 0x0a9b810d; 0x1c341b73; 0x39c9dbdc; 0x34a1073e; 0x27330eb8; 0x24c7568f; 0x21325eac; 0xbc57]
  ; pt [0x12d382a0; 0x0c4c056a; 0x2ecd9ae2; 0x2372ef38; 0x2df927f2; 0x2b31e02c; 0x3892d39c; 0x3bf3933a; 0xb5f7]
      [0x25b4b532; 0x28bc2aee; 0x1acf8c5b; 0x3ec25b4a; 0x0bddd371; 0x255f1b83; 0x3f2353c0; 0x1516d470; 0x6843]
  ; pt [0x012cffa5; 0x39a49191; 0x28cc5c47; 0x3b508219; 0x14624389; 0x1d5363ef; 0x31076408; 0x30f4acb9; 0x1cdd]
      [0x1521954e; 0x379b6273; 0x336b528a; 0x0726109a; 0x02b08ac4; 0x2c49afe5; 0x1f8a63fd; 0x1a832cbc; 0x1e47]
  ; pt [0x34a9f22f; 0x0d7f90e4; 0x17a8e2ad; 0x02067148; 0x0835b0cc; 0x3e2e2e52; 0x0e939f21; 0x2cd67c97; 0x2acc]
      [0x375c4927; 0x2dd772ce; 0x1ba550b7; 0x12f5efb1; 0x30edf115; 0x04e8dfb7; 0x2d2e5192; 0x293a5622; 0xd518] ].

Definition row_31 : list curve_point :=
  [ pt [0x3fb04ed4; 0x2deb18f8; 0x1307fffa; 0x330cc2c4; 0x278de208; 0x3e741449; 0x2b936463; 0x216ce275; 0x90ad]
      [0x0b6ef150; 0x24753523; 0x182894d9; 0x2bbeaf85; 0x3222b839; 0x372f6509; 0x38261aff; 0x1e8d8828; 0x0e50]
  ; pt [0x30b7b678; 0x09d76cce; 0x0f638166; 0x0f10c46f; 0x2b6c76f1; 0x21af2909; 0x0231ba19; 0x125ccd39; 0x186e]
      [0x38d91fc1; 0x1e81dbcb; 0x09535dca; 0x01dc8951; 0x37e67e11; 0x3f209702; 0x3bd84aa7; 0x18392601; 0xc0d4]
  ; pt [0x33421fb8; 0x3c1b972e; 0x35a55d0c; 0x125c7cbb; 0x37241298; 0x01acd30e; 0x1bf62e7e; 0x2360d3db; 0x061c]
      [0x0e3ccd80; 0x257bd9a1; 0x26fcdd29; 0x19c4d2ce; 0x05eb5c80; 0x0e496438; 0x3b4b7ba9; 0x1ab66400; 0x6dfc]
  ; pt [0x2f6b35a4; 0x0492f862; 0x327fb487; 0x27cde9aa; 0x3a68ad88; 0x18c901cc; 0x2e513b73; 0x2d8e8823; 0xf6a6]
      [0x01f422a6; 0x2badbfb2; 0x1ee1862c; 0x355d5b9d; 0x20186f19; 0x34dc13d5; 0x1138b1ca; 0x322a000b; 0x3df7]
  ; pt [0x26954c11; 0x25a08fa2; 0x160d018b; 0x2a290f05; 0x0778ff7f; 0x346c3c54; 0x2c376220; 0x3f0a30a1; 0x87a2]
      [0x272a8b45; 0x15b8ccb8; 0x278124b7; 0x1224cfca; 0x127532cc; 0x06523683; 0x2ecef97b; 0x1462d16a; 0x33ad]
  ; pt [0x22706ab6; 0x391d1cab; 0x2e53c0da; 0x02cd0774; 0x384cfe3c; 0x15bbf2f0; 0x081a6845; 0x0b811b9e; 0xe147]
      [0x1d58de05; 0x1ba1a85a; 0x13cd2753; 0x16275551; 0x0621f8aa; 0x1a465e32; 0x18fc683f; 0x24aa91f1; 0x82cd]
  ; pt [0x07a84fb6; 0x2feb9508; 0x3a15021e; 0x08da1d43; 0x08b9ebc4; 0x2d358079; 0x0aef5de8; 0x24b2013e; 0x1caf]
      [0x27149109; 0x1ac60640; 0x22ce6761; 0x07305a5a; 0x101622ec; 0x2993e3fc; 0x2e53a481; 0x2e16b25d; 0xbc24]
  ; pt [0x0a955911; 0x1da33f85; 0x0ded52db; 0x1f85a898; 0x17839710; 0x27bfa6cf; 0x1650d258; 0x3f5a6bc2; 0x705b]
      [0x3fd200e4; 0x2edf1a4f; 0x242e72d8; 0x1fced48a; 0x0051fa29; 0x18f607d5; 0x3f990a7e; 0x2904c2dc; 0xe14a] ].

Definition row_32 : list curve_point :=
  [ pt [0x1ec4c0da; 0x2ded1132; 0x23ea3351; 0x23159e1c; 0x1f162ee8; 0x2706b660; 0x35f33923; 0x2e74bd8e; 0x8f68]
      [0x101fff82; 0x08f2fde5; 0x1510bfdf; 0x3a8b3fa5; 0x3e215dbb; 0x36430ada; 0x23986de1; 0x27cb6e81; 0x662a]
  ; pt [0x123809fa; 0x238ae3b7; 0x1d954be1; 0x21172cd4; 0x051f08fd; 0x24cd8fc9; 0x09f228ba; 0x076f8b94; 0x3838]
      [0x331fed52; 0x35c1d460; 0x2d8f24db; 0x207f32cc; 0x0eb1cc36; 0x10169548; 0x117dcb09; 0x0b4283ee; 0xe4a3]
  ; pt [0x17c2a310; 0x3a909922; 0x01226303; 0x21aba950; 0x0699a1f1; 0x086e0aa9; 0x32ae6f69; 0x09c9390d; 0x4926]
      [0x1e27ded0; 0x3106da05; 0x35ff8ce0; 0x058d84a9; 0x14303b6d; 0x33e95a5c; 0x3abf95a2; 0x39dcef29; 0x1337]
  ; pt [0x0ebd2d31; 0x0e12c1e7; 0x306db8d1; 0x330695bf; 0x37e2f84d; 0x094ecf91; 0x00c90d5e; 0x15a30689; 0xe306]
      [0x12546e44; 0x24ad020e; 0x23738266; 0x2f2010af; 0x3d0db6ff; 0x3cac41fd; 0x34260888; 0x1bf8de24; 0x0eac]
  ; pt [0x363136b0; 0x14c30e78; 0x2b41dd9c; 0x3afe366a; 0x3bd63374; 0x2c39d88f; 0x0cefc271; 0x0403890a; 0x3b9e]
      [0x2cdbbc8a; 0x14fb05bd; 0x2d31f819; 0x2b8a28ce; 0x075b26a2; 0x14cfae3d; 0x2bb71df1; 0x26054b45; 0xfafb]
  ; pt [0x2f485d3f; 0x1823c11c; 0x107beee9; 0x3281da20; 0x1edef717; 0x1b2a03d7; 0x2c9a92b7; 0x2b525c4a; 0xbb0a]
      [0x3ca2f975; 0x1e4e4940; 0x1670bffe; 0x1696be8c; 0x17da3489; 0x34807dca; 0x354798ec; 0x2714f160; 0xea69]
  ; pt [0x36718dc9; 0x2bbb4ce8; 0x01123de4; 0x3962d36c; 0x3e0113e1; 0x23ac65eb; 0x2fcc0d4e; 0x02b2393b; 0x7909]
      [0x1cfae7c5; 0x18cc8ac4; 0x3a9008b9; 0x0dabedc2; 0x1aaa56dd; 0x205b2f36; 0x05b8f13d; 0x1c8ae464; 0xeaab]
  ; pt [0x3f60c7d1; 0x09a5a531; 0x1775ad2a; 0x35c779f3; 0x09ba668d; 0x0f6ef395; 0x17b551c0; 0x206b7a7e; 0xe77c]
      [0x02d72449; 0x3b1607ca; 0x02986d34; 0x051c3dc7; 0x28154363; 0x30ecc8fa; 0x01321c5f; 0x051e3bbe; 0x3acf] ].

Definition row_33 : list curve_point :=
  [ pt [0x13231e11; 0x1a1bf541; 0x3681e3e6; 0x123a1940; 0x0c36091f; 0x267fe466; 0x385d65ff; 0x3ec05dab; 0xe4f3]
      [0x2feb73bc; 0x08b0e15d; 0x151d1c98; 0x31f9d3b2; 0x02b7286c; 0x069b43a8; 0x34f1c166; 0x18ceb43b; 0x1e63]
  ; pt [0x2bf05bd6; 0x0e67c139; 0x12a99465; 0x3d5b80c8; 0x070deca2; 0x0bd47fad; 0x04fe9083; 0x0c906fb9; 0x900c]
      [0x300d358b; 0x394ab4ef; 0x04efb15d; 0x2614d60f; 0x0b2439d6; 0x31c8115c; 0x1f0f5f95; 0x3e7a3a2c; 0x6c31]
  ; pt [0x1f105c50; 0x29f0a332; 0x31385257; 0x3837bbde; 0x0233cd82; 0x2330d00f; 0x190aad62; 0x00d8aac1; 0x5a8d]
      [0x38a4cde9; 0x326c8060; 0x2d013c35; 0x017da299; 0x03ff74a6; 0x29adc905; 0x0e536936; 0x3aac44f5; 0xc059]
  ; pt [0x32d64feb; 0x11f862e6; 0x292292c6; 0x1cbe2964; 0x0ba4e837; 0x3ce95ddb; 0x2f60a48e; 0x1340c48c; 0xd93f]
      [0x34698359; 0x2c3ef564; 0x2c90da37; 0x3810c2fb; 0x1c8c4d93; 0x1cc47153; 0x32733a23; 0x15575172; 0x7925]
  ; pt [0x039fbc84; 0x08881335; 0x057a0167; 0x1c18a458; 0x2ac65b7e; 0x138af198; 0x328441b1; 0x1a71b8db; 0x2f07]
      [0x1c201bec; 0x3ee40b78; 0x04dd5d73; 0x29e6da93; 0x0e2149cc; 0x37c01e64; 0x3bdddfa5; 0x3cdc935c; 0xb434]
  ; pt [0x06a758ea; 0x14dfab32; 0x27f19c4d; 0x0620c624; 0x016e3991; 0x1a256855; 0x20309958; 0x19e01567; 0xfe7e]
      [0x1b7ab649; 0x13c8b657; 0x03120d1e; 0x2005c1d1; 0x09251f3b; 0x02385a61; 0x1dcb988c; 0x1a59e8a0; 0x38aa]
  ; pt [0x0cfffefa; 0x39c5589a; 0x0651afad; 0x060113dc; 0x03af8510; 0x3dbe4543; 0x03127d6d; 0x3d729d4e; 0x91ba]
      [0x1f7f6faf; 0x1f4dbcd3; 0x2fd303dc; 0x2fbcc439; 0x1d3d92f4; 0x25a7c49f; 0x3bcebe5d; 0x33c464d1; 0x04e5]
  ; pt [0x0d33c546; 0x3f0245fa; 0x05edaf32; 0x15d7ecca; 0x35ddd782; 0x314dcf83; 0x378a7cb2; 0x104872cf; 0x4458]
      [0x000b4fd4; 0x029b461c; 0x32ca7366; 0x0bc28f3e; 0x1ada2085; 0x097ab8e4; 0x0753a772; 0x24ddfcfe; 0x308d] ].

Definition row_34 : list curve_point :=
  [ pt [0x20eae29e; 0x1bedbab8; 0x14e1d071; 0x00d3cbc3; 0x1a4266c7; 0x1854de91; 0x3f331eb9; 0x3ea6c63a; 0x8c00]
      [0x2702414b; 0x1f4a9319; 0x1e36c54e; 0x3eb6bea0; 0x36c974c2; 0x30d0e8dc; 0x121a1a9d; 0x1c99ffa9; 0xefa4]
  ; pt [0x2bfd913d; 0x0fe5580f; 0x254c9eac; 0x29a039bb; 0x2a8d2050; 0x01e82130; 0x3ddf874d; 0x0aa9fa41; 0x3636]
      [0x052e243d; 0x113e6bab; 0x2b2faafc; 0x0c2ec435; 0x1a2a82d8; 0x18910dc3; 0x0afd5341; 0x1e19db2e; 0x48f2]
  ; pt [0x2d132896; 0x32aeafe6; 0x3bc6c967; 0x2c78eead; 0x19200dfc; 0x16b658b7; 0x21e02f29; 0x25db7cca; 0x4487]
      [0x2f685248; 0x23006c4a; 0x276aa7a4; 0x2d035698; 0x161a3306; 0x26a41dd1; 0x1afe1efc; 0x16183445; 0x27bd]
  ; pt [0x3fa2670c; 0x02055bda; 0x06273e6e; 0x003e0ae8; 0x35032474; 0x2a72aa0c; 0x383788b6; 0x0eb0a2f2; 0x4a4d]
      [0x16c1764d; 0x022e7ff7; 0x329beed8; 0x0c16532f; 0x302b9d49; 0x1dc4777b; 0x05a4f17e; 0x2e470061; 0x70ab]
  ; pt [0x0cb24aa7; 0x365abf89; 0x1345c530; 0x0c42318e; 0x38fe1890; 0x39bf627f; 0x11802c3a; 0x0b4642ba; 0x5f7b]
      [0x0a693d7d; 0x35e01d0d; 0x3c81d0c6; 0x237adc24; 0x267c47ce; 0x0fe028f3; 0x1f2b330a; 0x0d80313f; 0x0770]
  ; pt [0x2f7fb8bd; 0x0646f17c; 0x3e4090a4; 0x31192857; 0x0886d87b; 0x30939b65; 0x190d02ae; 0x1d144ce7; 0x5139]
      [0x03908c0f; 0x0252b0b6; 0x3f98d5a8; 0x3f0cb4f8; 0x015c47fa; 0x23fbf6ba; 0x03bf34b8; 0x050f91d9; 0xfcd7]
  ; pt [0x2e36ca73; 0x0add2457; 0x3bbf3ede; 0x321934da; 0x014887ea; 0x0a444afc; 0x3dfb8aa4; 0x05b58afe; 0xcf83]
      [0x2ec25534; 0x2d248650; 0x08d710f5; 0x25856636; 0x1cca681c; 0x11142243; 0x19d73e38; 0x2d637ad7; 0x09fe]
  ; pt [0x3752f97d; 0x3224df5a; 0x33476613; 0x0bbef1d7; 0x0fa6165a; 0x274a19a3; 0x3b49de53; 0x37a69312; 0x8610]
      [0x1f1b1af2; 0x015f7350; 0x05543e08; 0x2ad367d5; 0x33f99e57; 0x33666c94; 0x30bbc937; 0x25e80ad8; 0xd319] ].

Definition row_35 : list curve_point :=
  [ pt [0x20cb3e41; 0x25ff77f1; 0x08b92c09; 0x0f4213cc; 0x298ed314; 0x033b02a7; 0x0829f3e1; 0x1b39a775; 0xe7a2]
      [0x0f2cfd51; 0x3a2a5087; 0x20e83e20; 0x29acb010; 0x2fbb18d0; 0x2c01a86a; 0x3984b471; 0x238c03e9; 0x2a75]
  ; pt [0x3aee42db; 0x03e7f4af; 0x330714a7; 0x2eef16d1; 0x2cbfc1d9; 0x2dbb6e47; 0x19150fc7; 0x09f9f66d; 0xcc34]
      [0x15d87bdb; 0x188a7004; 0x272422dc; 0x3972eb63; 0x21520010; 0x38ff4fec; 0x1c6a1885; 0x26106948; 0xea24]
  ; pt [0x3ed4a086; 0x3d0d9b19; 0x29c410ef; 0x35d70563; 0x0b5cf4b1; 0x0f1617ef; 0x0445dec8; 0x016eb366; 0x948f]
      [0x1e2bca4b; 0x0a86003e; 0x03fa2d1a; 0x08ca29c7; 0x1139411c; 0x11429980; 0x22a3382f; 0x2a27fed6; 0x864c]
  ; pt [0x37542c21; 0x032fa9b2; 0x2a64c15c; 0x067d34a3; 0x1d6d43ae; 0x1bf11514; 0x19ac9065; 0x0658a4a4; 0x2584]
      [0x272bfabf; 0x2faf8c65; 0x0c2ad7b3; 0x38e861b9; 0x3513d5f3; 0x176a9331; 0x3244801e; 0x16c7c736; 0xfcb3]
  ; pt [0x0c1ecbf8; 0x0f1187d0; 0x2eed7ca4; 0x227c37a6; 0x28421f64; 0x25d53307; 0x3c52522a; 0x337104dc; 0x7e12]
      [0x30bed615; 0x3516e336; 0x3e1d9f59; 0x1a7d8763; 0x0d1259c9; 0x3e536af9; 0x1c837143; 0x13e22223; 0x7128]
  ; pt [0x14557d86; 0x1f999470; 0x2667ff41; 0x3fbb11e3; 0x05a6cf1c; 0x2e4729e8; 0x342a6772; 0x30bfca8d; 0x4b8e]
      [0x35167eb9; 0x3766c646; 0x3c3f692b; 0x357cbbc3; 0x27ac5f28; 0x101cb794; 0x157ab14a; 0x30ffc130; 0xfde6]
  ; pt [0x0780763c; 0x0ae0b4ed; 0x265691d5; 0x229b57a4; 0x3ac07e5f; 0x10db71a5; 0x23a42532; 0x3041cce5; 0xfcd5]
      [0x38e851cb; 0x1539d080; 0x16463a4b; 0x066c8b9c; 0x32e38cb1; 0x0836cd7d; 0x22c463b7; 0x2af8b954; 0x18dd]
  ; pt [0x1d8ef686; 0x338ef8c1; 0x2272e66b; 0x23923d00; 0x266e53f6; 0x22976be0; 0x3cbe5223; 0x0b3b9610; 0x900f]
      [0x2121a8cf; 0x1ce9259f; 0x09156d50; 0x1b37fd0f; 0x09d11059; 0x31546c4d; 0x0425ad61; 0x30557b18; 0x732a] ].

Definition row_36 : list curve_point :=
  [ pt [0x1e6b80ef; 0x33ca7acf; 0x179424f3; 0x32f2e59f; 0x3cbdc571; 0x1503088e; 0x22ec8d23; 0x2783b8d9; 0xb645]
      [0x1a71ba45; 0x0c2fc2d8; 0x0e35b2ff; 0x2ceb9b52; 0x261db3c4; 0x2b7c5b95; 0x3e06de1d; 0x21db41bc; 0x067c]
  ; pt [0x319888e9; 0x0e73c9e4; 0x2448a8b4; 0x04ae9afc; 0x2681673d; 0x1834c0a5; 0x3a6e2dde; 0x3a9dceb0; 0x1f90]
      [0x2f113b79; 0x1bf7f25f; 0x19522e65; 0x0dd47fb9; 0x2b96a821; 0x054f49c7; 0x2a10e958; 0x0d9f0576; 0x89be]
  ; pt [0x3562222c; 0x217bedbc; 0x1e6f2c60; 0x00d11e64; 0x0b52bade; 0x00aeb4cd; 0x3e0ad6e7; 0x39537b7f; 0x13a4]
      [0x28200145; 0x32c59a32; 0x1c904c08; 0x3e715deb; 0x209a52d4; 0x2b0be075; 0x2e813b2c; 0x1f539605; 0xc9d6]
  ; pt [0x343b46bb; 0x0df93703; 0x2c925254; 0x3b4e98fe; 0x055dbd12; 0x01f01761; 0x0aadd1d4; 0x07afc8cf; 0x6199]
      [0x0c20a848; 0x123d6407; 0x12ecd8ef; 0x2a1ca729; 0x3badf11c; 0x3ce1c59b; 0x1e492952; 0x38c23cff; 0x01c5]
  ; pt [0x121add3b; 0x396f8f77; 0x1727d8f7; 0x26a513d1; 0x1626118b; 0x0e736c34; 0x3d387490; 0x2ba92de1; 0xea27]
      [0x368ce7dd; 0x2d78a476; 0x24e1be71; 0x2c84b5a3; 0x1c2f6278; 0x0f3ac8c9; 0x217de572; 0x3c79b90a; 0xc70f]
  ; pt [0x211ff757; 0x3a2be2ed; 0x04c226e6; 0x133a5d07; 0x22b6da9b; 0x0043e2db; 0x3fd54ba9; 0x144d5adf; 0x5946]
      [0x094d031a; 0x2299bb2a; 0x3bffe3b2; 0x06ef1edf; 0x0406f996; 0x00e34057; 0x32750042; 0x0d833977; 0x3611]
  ; pt [0x236160b5; 0x1d89628d; 0x0e7ebc06; 0x314fc91c; 0x091ec0cc; 0x0ebde5c0; 0x33290e84; 0x1b8e457d; 0x16b2]
      [0x18a1dc0e; 0x11897efd; 0x0ba3ef81; 0x0d8eab1c; 0x3654d4e1; 0x190d4918; 0x2ef8bb63; 0x159698c0; 0x060f]
  ; pt [0x37b32db8; 0x25934a24; 0x247791f3; 0x07b5d27d; 0x2cea85c9; 0x2850f210; 0x19f931be; 0x14a57115; 0x024b]
      [0x2a64f760; 0x25153eaa; 0x05b81a95; 0x2ada0448; 0x1e5be862; 0x38a08731; 0x3309c7b6; 0x3be3d6ff; 0x609f] ].

Definition row_37 : list curve_point :=
  [ pt [0x096943e8; 0x3b683d6d; 0x273c5a5d; 0x1bc7f19f; 0x0f06231d; 0x08d2a846; 0x3b840793; 0x20320a02; 0xd68a]
      [0x2b133120; 0x25321099; 0x045295a2; 0x039ee3de; 0x30e28b5b; 0x2c7e45de; 0x186d00c4; 0x2a7ffd2d; 0xdb8b]
  ; pt [0x0ca1c4f9; 0x16d0aa86; 0x2b7e2823; 0x13bf8d32; 0x1f16f44f; 0x02e0f698; 0x1728c4c4; 0x3de3c8af; 0x7815]
      [0x3778bc15; 0x2ac7a8da; 0x177d1e19; 0x2d0b7985; 0x18c35d5c; 0x24f3cc51; 0x1af6a7dd; 0x007a334e; 0xc1c6]
  ; pt [0x2e8c8530; 0x349b870f; 0x38f4d8e6; 0x0b7da07b; 0x2a6c6d51; 0x1df19005; 0x040176e3; 0x1cf3683b; 0xc392]
      [0x398446c7; 0x100c3c3d; 0x2eed715c; 0x3b7f2f68; 0x03199850; 0x074e5107; 0x33c8e9d0; 0x2f9095d0; 0x8c41]
  ; pt [0x237a26c1; 0x07c902ec; 0x0dbf6a53; 0x1b1b9630; 0x103b2516; 0x0890c707; 0x011b0275; 0x1d11fd61; 0xda31]
      [0x2cf74d6f; 0x1460dbb3; 0x3a81525f; 0x1a0db175; 0x19d8b7d3; 0x21059f09; 0x18c69d23; 0x25ee1fd7; 0x753b]
  ; pt [0x3739dc49; 0x0ad8a2a4; 0x2f55603d; 0x24e4b699; 0x3f231a23; 0x12b1422f; 0x30e6c106; 0x39b2c0ab; 0x6a4b]
      [0x32edd5cf; 0x39a8ae77; 0x14a4a4d3; 0x1f8ad32c; 0x3a8058ab; 0x059b8d83; 0x107597dc; 0x23ea8aa2; 0xf15d]
  ; pt [0x06987fac; 0x22fa2831; 0x0a86f679; 0x3243e190; 0x098a3c8b; 0x260980fb; 0x27f1344e; 0x31a7c4eb; 0x01f7]
      [0x19174c68; 0x3e479ce0; 0x1f6bc263; 0x1fd77886; 0x1ab6f9cb; 0x040db8ca; 0x1a22de5b; 0x330fcdbf; 0x9d4e]
  ; pt [0x36daba4d; 0x34ce86f5; 0x03196261; 0x197ec388; 0x3a2bcb9c; 0x018bb763; 0x3d381cb7; 0x25005d87; 0x557e]
      [0x37a52316; 0x04dd286e; 0x243590a5; 0x3a6e3d7e; 0x0cbc86c5; 0x0d73e857; 0x3a7e046d; 0x23ce9807; 0x7a7e]
  ; pt [0x29f5341a; 0x0e3d4bfc; 0x29636b80; 0x31e8cb19; 0x3101419c; 0x27503a9e; 0x085a93b2; 0x36a08666; 0x3ada]
      [0x2586c6cc; 0x1456024d; 0x05e8fbcb; 0x35b4b96d; 0x2b1017e9; 0x38d6fcda; 0x1369f552; 0x0788a266; 0xbfea] ].

Definition row_38 : list curve_point :=
  [ pt [0x028d3d5d; 0x0256603f; 0x3449cea4; 0x04abae5c; 0x3a30b096; 0x3009c241; 0x0804252d; 0x3b5f7d97; 0x324a]
      [0x16ab7c84; 0x19c892be; 0x23328439; 0x084ec31f; 0x2c1f4f19; 0x03030d6b; 0x21f2ff13; 0x0d95dd2d; 0x648a]
  ; pt [0x2fd53ed3; 0x17245d60; 0x1a56ccef; 0x0fdd3ee7; 0x1f7c4916; 0x3d82e4c7; 0x372ad5b8; 0x02f56659; 0x2084]
      [0x1a7a7132; 0x1c50ff94; 0x0e708998; 0x21f11ce5; 0x3afac254; 0x2f51da9a; 0x18243487; 0x0d25f3b0; 0xf299]
  ; pt [0x08a35b35; 0x2f4b2ed6; 0x00a121ed; 0x2d762297; 0x08ebfd1a; 0x0f40a796; 0x339bbbd1; 0x2ffd83ac; 0xe6b6]
      [0x1c1007bd; 0x15ca4f6e; 0x3e999c7c; 0x0edb274e; 0x1961ddfe; 0x3d0f8e0d; 0x0d2f3266; 0x3caf4cc0; 0x1a5f]
  ; pt [0x00360dd3; 0x353be34b; 0x050e2090; 0x2a2a0db6; 0x0ce3bb47; 0x02e021b8; 0x099b288b; 0x05dd16f9; 0xe053]
      [0x3c24f87b; 0x0abb3644; 0x0103dc2b; 0x2e61f7a6; 0x36a01461; 0x02560ad6; 0x12f39cd8; 0x0edc6976; 0xdc1c]
  ; pt [0x1098dfea; 0x3051998b; 0x2a678797; 0x372cf24b; 0x3a5e57fa; 0x23974aa0; 0x06c59e01; 0x0ece9de2; 0xa815]
      [0x2e6d892f; 0x2926a77d; 0x2daf4158; 0x2d783dd0; 0x053e03b1; 0x236e715e; 0x060fc53d; 0x0e591874; 0x2a47]
  ; pt [0x0bcecfa5; 0x29f9de92; 0x316bb020; 0x0358b686; 0x0eda3b2a; 0x11a5718e; 0x0addadeb; 0x30ecc3fb; 0x4f05]
      [0x15d37b53; 0x3b34092a; 0x01b48cd2; 0x1fb90c7c; 0x1534b944; 0x18c8d856; 0x1426fadd; 0x267a980f; 0x53a4]
  ; pt [0x084b96aa; 0x1879d964; 0x22abcce4; 0x0a618d54; 0x3b980ed0; 0x101786a8; 0x3a91be26; 0x26ae67d9; 0xd930]
      [0x02b28a86; 0x09b13cdf; 0x3cfe978f; 0x2db27eeb; 0x34cb5fd3; 0x043c1989; 0x2c557d7e; 0x26caa6d3; 0x6ef9]
  ; pt [0x1f8fcf0e; 0x3dee3416; 0x3c4a6fac; 0x16dbff79; 0x2a3411d6; 0x30d11b7a; 0x22d35ba9; 0x1f284e15; 0x7d58]
      [0x18bc9459; 0x00706827; 0x323780a5; 0x18e402b4; 0x3d6ad0c4; 0x0d002db3; 0x04c61272; 0x1700e20c; 0xa729] ].

Definition row_39 : list curve_point :=
  [ pt [0x3d054c96; 0x3a2f4dcf; 0x0d1ca888; 0x31050eea; 0x3ee5dcee; 0x077f6f97; 0x1e61f6d5; 0x30524673; 0x4df9]
      [0x0ad10d5d; 0x0baeb01b; 0x28849019; 0x3541b370; 0x1d85d4b5; 0x25d308e8; 0x18728050; 0x3b14424b; 0x0035]
  ; pt [0x1def001d; 0x13c89769; 0x09ba27ef; 0x3e6ef5a6; 0x23b64b21; 0x02f47027; 0x22caf20e; 0x28cb6c9f; 0xa549]
      [0x30624783; 0x3576c69f; 0x2c9705ad; 0x05078a98; 0x259456eb; 0x330c3b62; 0x166cbdf4; 0x1e9e41b6; 0x799b]
  ; pt [0x052ed4cb; 0x16bbc797; 0x009ec5a0; 0x1537becf; 0x132e6ec9; 0x022f660d; 0x3ecd123f; 0x23cc3681; 0x7e79]
      [0x14bb9462; 0x15c5981e; 0x39f37a12; 0x1cd5c6ff; 0x32f057b1; 0x2a55277b; 0x1ac83041; 0x33312893; 0xd23d]
  ; pt [0x13630834; 0x37ce83ef; 0x3dac067f; 0x18fc4a18; 0x0c810884; 0x2e7a5aea; 0x14783ad5; 0x28800c54; 0x224f]
      [0x047a2272; 0x34f11cdf; 0x0a50f75c; 0x18a493b0; 0x1d09f53d; 0x2dc3e8e4; 0x2da5c3c4; 0x138caecf; 0xbbe5]
  ; pt [0x183c19d7; 0x19d92745; 0x02cf57bb; 0x2ed7916b; 0x228ef2bb; 0x28973390; 0x239e4129; 0x28331802; 0xc2d4]
      [0x0507928d; 0x0bca2e0b; 0x3345c977; 0x2012a0c5; 0x01260d26; 0x20ed7dfd; 0x06294d41; 0x283e7020; 0x65ad]
  ; pt [0x3c940c9a; 0x13202b52; 0x2f423308; 0x33cf384e; 0x0ddc2113; 0x161789d1; 0x1f3190e5; 0x0a9fb0c1; 0x2ec2]
      [0x051e7a4d; 0x34653f66; 0x1a35bdac; 0x101460f6; 0x1c7feb12; 0x3893d40a; 0x379684c2; 0x291a378c; 0x8b1d]
  ; pt [0x1d683eeb; 0x29c3b97f; 0x08d3133a; 0x0dbace28; 0x04b8f33e; 0x2bd94942; 0x28cecab1; 0x1a5ce3e6; 0xafc6]
      [0x30cd4509; 0x078a72ac; 0x1eddfdc9; 0x02ead549; 0x239c1657; 0x1671ff28; 0x22752bc3; 0x0865db74; 0x002c]
  ; pt [0x376f4293; 0x28807e1e; 0x13c5139e; 0x3a5e2d59; 0x0b282e10; 0x2f233cdc; 0x03309121; 0x1ed6a7cd; 0xd255]
      [0x1282740a; 0x36c61e89; 0x2405a5f1; 0x12da0e37; 0x0ad21fe3; 0x20bc1bad; 0x027f0126; 0x2cd0d579; 0xa787] ].

Definition row_40 : list curve_point :=
  [ pt [0x2c1f98cd; 0x2ff26722; 0x17f0308c; 0x0d224153; 0x06602152; 0x362a7073; 0x34870fae; 0x066a1291; 0x9c39]
      [0x14fc599d; 0x39f9780f; 0x064c8e6b; 0x14c9bddb; 0x20e64190; 0x3c112fc9; 0x1dd57584; 0x13c3d293; 0xddb8]
  ; pt [0x0fb64db3; 0x1ee6354e; 0x1dd53841; 0x3b79328e; 0x13b8d6a7; 0x2ee0fef9; 0x1ccb740b; 0x08e48a6f; 0xc114]
      [0x3c0259be; 0x08c33a7f; 0x14567d1e; 0x1d602413; 0x178bd1a8; 0x3b3793fa; 0x06fc2a5c; 0x3db716d2; 0x1237]
  ; pt [0x03081e46; 0x3b7b60d0; 0x14559ea1; 0x14886315; 0x2634713a; 0x3670b064; 0x37224082; 0x12fe0c69; 0x6c5b]
      [0x0bfbcd70; 0x347e72e0; 0x2c22a62e; 0x3433e09a; 0x2be47841; 0x11e18f38; 0x2d42fb23; 0x04dc5249; 0xcb05]
  ; pt [0x064dcd4b; 0x32b96bb1; 0x111c124d; 0x0c31f566; 0x310a450c; 0x1c19972a; 0x0ade4b56; 0x2a1599c3; 0xe1e9]
      [0x3b041f2c; 0x342d897a; 0x0a16b292; 0x113466ab; 0x2577927f; 0x310d666c; 0x1c531b7a; 0x02a55115; 0x562b]
  ; pt [0x2badd73c; 0x0161dbf8; 0x2a64b7d0; 0x36737640; 0x1c14208f; 0x29d390bb; 0x1b099778; 0x0695eb44; 0x51b2]
      [0x2b36d8d1; 0x3df52b87; 0x0c734ba6; 0x0804c3ca; 0x2c1cfa6c; 0x281fc074; 0x3d3e5d54; 0x0c040007; 0x0079]
  ; pt [0x3b09f34b; 0x35d742dc; 0x0cc66ce6; 0x221cf982; 0x339d61e5; 0x2d8a5bcf; 0x0b79861a; 0x3ce98ec7; 0x9701]
      [0x00df5793; 0x33721433; 0x3dcc794a; 0x012f0e5f; 0x16833771; 0x00c6d4c5; 0x30ed15d7; 0x12eee32b; 0x3dd4]
  ; pt [0x3f1e2f46; 0x1739888e; 0x32778301; 0x1c3dc7a1; 0x163c5752; 0x164b8103; 0x266cc445; 0x2d074b27; 0xa036]
      [0x1effb349; 0x1cc789a5; 0x3f0b1f4f; 0x2038a0b3; 0x1eb08d06; 0x07daa91e; 0x16b3d7df; 0x246800fa; 0xc3bf]
  ; pt [0x0c4cea08; 0x3362e40e; 0x20ea21db; 0x12d62e83; 0x00465265; 0x298454d0; 0x28c506f4; 0x3eb6ea93; 0x6a85]
      [0x1862f4f3; 0x0677b396; 0x3d721b6a; 0x09c692d0; 0x3e6230b4; 0x24cf0523; 0x0659d531; 0x11812eb9; 0x00b6] ].

Definition row_41 : list curve_point :=
  [ pt [0x20a959e5; 0x2884e084; 0x391d4cc5; 0x38524ea2; 0x0e06bb91; 0x017ca076; 0x12fdf8de; 0x05c2c774; 0x6057]
      [0x2385a2a8; 0x2266fa4c; 0x2e24c65e; 0x1454af0f; 0x1df26246; 0x268b6bdc; 0x24807add; 0x3c2c9a9a; 0x9a1a]
  ; pt [0x171c032b; 0x3536858a; 0x3afdc980; 0x1ad9a285; 0x0766c5ff; 0x046d7f7f; 0x002603dd; 0x2a3f35b8; 0x71eb]
      [0x1668359f; 0x1ead6a38; 0x34b4755e; 0x24c6b45d; 0x0cbb7f71; 0x18145bd5; 0x1d39def6; 0x049892d8; 0xd2ff]
  ; pt [0x2a03a61c; 0x01b91d14; 0x1070574d; 0x1e1a3d1a; 0x2a9dd050; 0x05d10aea; 0x09d232ca; 0x30c16cc9; 0x855e]
      [0x065dfc07; 0x37f1baab; 0x17e44965; 0x0cbdd3a8; 0x02fb4ed3; 0x0f2ffe6d; 0x01c17f54; 0x174bb17c; 0x0dd8]
  ; pt [0x1f32d706; 0x00302920; 0x06a0678b; 0x0633291d; 0x15bfa206; 0x034a68c2; 0x3fbf1f15; 0x121aaeac; 0x3ce4]
      [0x3c7fd9e4; 0x02dcd8df; 0x161e89f4; 0x345590f3; 0x094906ed; 0x3f411ac4; 0x3785288e; 0x10236ab8; 0xe775]
  ; pt [0x391cd3fb; 0x36d032ed; 0x329be686; 0x0a8cff65; 0x0844eb4a; 0x380c863e; 0x237faf02; 0x31450fd3; 0x11cc]
      [0x15160d86; 0x24dc5ae9; 0x0dd3472a; 0x02c7bf4b; 0x0cc239fa; 0x2389124e; 0x311deb52; 0x1acaa40a; 0x4aa5]
  ; pt [0x218f7552; 0x21ee4465; 0x0054fac3; 0x1044e2e6; 0x2382ddbd; 0x25ddd3e0; 0x09c6f43b; 0x2ec5f945; 0x0250]
      [0x3510b14d; 0x3c212588; 0x33d6f1e3; 0x001bcf0c; 0x29d817da; 0x35f7dd7f; 0x28082342; 0x0c3f26ef; 0x7319]
  ; pt [0x1f725d12; 0x1744fa4e; 0x0b5f4750; 0x1190aef7; 0x022fbfd9; 0x28e73828; 0x27fd3ab4; 0x27222cd1; 0x1a74]
      [0x23ac56e4; 0x04d94534; 0x190daa70; 0x1c821a62; 0x2f3d8f60; 0x22f9d70a; 0x00e2cf45; 0x34655cfb; 0x7e91]
  ; pt [0x29fae458; 0x18412394; 0x26ec97fd; 0x0297109d; 0x3b7b328b; 0x3455a977; 0x0218c109; 0x1a16f83e; 0xc750]
      [0x1757b598; 0x005a1065; 0x35951a2b; 0x1772940c; 0x32c7b40a; 0x0bd05319; 0x21e05fb5; 0x257e33e4; 0xead7] ].

Definition row_42 : list curve_point :=
  [ pt [0x2cb94266; 0x069a5cfb; 0x3d4df12b; 0x33bc3ee9; 0x0da31880; 0x10e69146; 0x08411421; 0x37e388e8; 0xa576]
      [0x21b28ec8; 0x3a2f846b; 0x114d9f3e; 0x0b8429fd; 0x0cd82c43; 0x2e5ebf96; 0x240b2c92; 0x2fc839d9; 0x40a6]
  ; pt [0x0d9ed6c1; 0x1a2bad63; 0x3d593d6b; 0x139d16f0; 0x1edd0ec2; 0x3f061dc1; 0x0f53e80b; 0x0cdb72dd; 0x0328]
      [0x38fafeee; 0x3b1baf9b; 0x1cb494ad; 0x16fd37c9; 0x0d7c8c26; 0x35650e88; 0x19f28c46; 0x260e04bf; 0x71a8]
  ; pt [0x3235983a; 0x066a6a34; 0x13bceb29; 0x22840dc0; 0x3e1531e3; 0x0e49b5c3; 0x11c54dc6; 0x13aba2e4; 0xce4f]
      [0x0d3cdecf; 0x33f5ac64; 0x2bf740ae; 0x1b1948a3; 0x30754352; 0x37809279; 0x0fbbb3ea; 0x3e5cf0e4; 0xf3c9]
  ; pt [0x15b0e6c9; 0x1b6aad99; 0x06e4c89a; 0x17fe73de; 0x38bcbddb; 0x0a3ecdb7; 0x0622278e; 0x2fe952e6; 0x4dbe]
      [0x1eb2cc25; 0x2529e155; 0x0504efae; 0x24c46caf; 0x2229f358; 0x2989b9b8; 0x13aedf45; 0x39ec0f24; 0x10fe]
  ; pt [0x25857295; 0x13806846; 0x3433f016; 0x32391fc0; 0x1ca12069; 0x38463f28; 0x05c218b2; 0x0902ffbd; 0xa42a]
      [0x0a7eb9c1; 0x1acddffb; 0x15193955; 0x28708b34; 0x1da4c427; 0x1ac8ac93; 0x05d4567a; 0x2cfc9840; 0x3aa0]
  ; pt [0x2fcdc098; 0x0883fd55; 0x2e468032; 0x02b803da; 0x0499c155; 0x3c7e1b03; 0x322267a7; 0x0acbe5be; 0x34e1]
      [0x2a7474e2; 0x132c6b79; 0x19883f66; 0x37d44c3c; 0x3972db04; 0x132f2105; 0x1d322d97; 0x30b775ed; 0xa64a]
  ; pt [0x0f173b92; 0x335bad7a; 0x29fb7611; 0x1f9cbd05; 0x0d65683b; 0x0c68863d; 0x391f29be; 0x3490366e; 0x10f4]
      [0x233146c2; 0x240801b5; 0x086adb7c; 0x2edda745; 0x3908ba90; 0x2c96968c; 0x353ad211; 0x0b654245; 0x850e]
  ; pt [0x28d84958; 0x39bf4766; 0x0acc5cae; 0x0477ac5b; 0x00cc866a; 0x066e5db5; 0x277e749f; 0x3a02da6d; 0xe846]
      [0x3882cf9f; 0x031191ed; 0x1e0c1a64; 0x1468cd9c; 0x18b76fad; 0x2f64411e; 0x07e2541d; 0x2e3f2253; 0xa29c] ].

Definition row_43 : list curve_point :=
  [ pt [0x3e58ad71; 0x3dd8e226; 0x39a3a208; 0x0c347d73; 0x1e8c38bb; 0x17fa58a7; 0x2c3e30a0; 0x29e30a37; 0x7778]
      [0x3d9f43ac; 0x2d44ff07; 0x324ac563; 0x2ce1047f; 0x3f580087; 0x26384bcb; 0x1b22ff70; 0x1b66ad69; 0x3462]
  ; pt [0x3319c869; 0x3df1bab8; 0x21eb2702; 0x2a7e575d; 0x0cacdc18; 0x20e408bf; 0x33fc8d01; 0x01176605; 0x3018]
      [0x12b856f0; 0x3031db27; 0x23d9a7bf; 0x0aa13292; 0x222e3bca; 0x1890c835; 0x3b7b6f86; 0x315e0940; 0xac5f]
  ; pt [0x25ed29b5; 0x319a61be; 0x12add1b4; 0x20c2d81c; 0x23c885f5; 0x2d9f6e69; 0x17ef343a; 0x206d87b9; 0x3228]
      [0x3cd15ad2; 0x3d3c49b9; 0x0ee7604e; 0x20ebaae5; 0x1531e1ca; 0x02c677d0; 0x0344eb11; 0x00a105e8; 0x1677]
  ; pt [0x06c96100; 0x2fea101e; 0x2e9c8e63; 0x18c046a9; 0x33dbcca1; 0x0f766cb7; 0x31b9ffb4; 0x11ceb03e; 0x3f38]
      [0x32624707; 0x078ab06f; 0x375f1bcf; 0x15c71f02; 0x079ce566; 0x131118bc; 0x00395253; 0x27157d75; 0x70c6]
  ; pt [0x3d22d2ac; 0x0d31bb1b; 0x1caace02; 0x377f849b; 0x05df2f10; 0x0f03825e; 0x3a76dcb4; 0x04f17f49; 0x2881]
      [0x0f42a268; 0x207ad57e; 0x148c8fd0; 0x30f51285; 0x176137dd; 0x1ddc9832; 0x3c5c8f20; 0x3ac0563e; 0xa1a7]
  ; pt [0x245f8ea8; 0x12ea0374; 0x24d2900d; 0x1c9238e5; 0x119fe5d1; 0x3d36575c; 0x23a2a553; 0x28803211; 0xf963]
      [0x19bc99eb; 0x2f157ec1; 0x18b60824; 0x2e3c8d67; 0x3427208b; 0x1c88c07f; 0x383c0a3b; 0x2509a31f; 0x9c85]
  ; pt [0x2606a315; 0x386a20c4; 0x26963ad9; 0x1c981cbc; 0x0e097e40; 0x362ca964; 0x0d9a7f98; 0x08933fdc; 0xa5d9]
      [0x1e3b68d1; 0x0d584cd6; 0x111a7c9d; 0x13434d1f; 0x180de9ed; 0x0c1aaf5e; 0x0da5b343; 0x22c00ec8; 0x8732]
  ; pt [0x06231493; 0x336ded50; 0x0cc4d469; 0x1046a0c3; 0x25e6a496; 0x13907403; 0x3c3604eb; 0x260b86dc; 0xf1fe]
      [0x358848c1; 0x25aa6699; 0x25ff0d01; 0x1cfecd1b; 0x3d99d3f1; 0x34f0817d; 0x24ddc216; 0x067abb66; 0x2e20] ].

Definition row_44 : list curve_point :=
  [ pt [0x06d903ac; 0x027b6a70; 0x1ad7e5cb; 0x3e589d39; 0x3afd2ed5; 0x0a7f4c39; 0x3a844637; 0x2557b98d; 0x0928]
      [0x1bcd091f; 0x14603a4d; 0x0a8d83fc; 0x0f49bbea; 0x3a95eeac; 0x1e284c24; 0x342a827b; 0x08400f4f; 0xc256]
  ; pt [0x3874b839; 0x0444a1d5; 0x13d2b418; 0x10456ce5; 0x30b6aebe; 0x37c37ec8; 0x1e5a8053; 0x2e07f038; 0x3e03]
      [0x3c0594ba; 0x03073959; 0x1ab5b8da; 0x39717c3f; 0x198f667d; 0x3d981d5c; 0x07f42c44; 0x3858f7fc; 0xd13a]
  ; pt [0x0357a513; 0x28fde39a; 0x1b3023f3; 0x146f44d1; 0x2922c5f1; 0x3e8a0ea8; 0x0492cd62; 0x302de8bd; 0xe662]
      [0x2017d07e; 0x24a88072; 0x1538d891; 0x00d73589; 0x21a419d8; 0x2b882284; 0x2452305d; 0x064f3984; 0xab0b]
  ; pt [0x1f37d242; 0x2657dfbf; 0x39c14b04; 0x27fb2981; 0x23587dc2; 0x218b1f2f; 0x0f6cb843; 0x202c7253; 0x40bf]
      [0x26405088; 0x347609e6; 0x2bd35583; 0x0c87ae90; 0x26fe1274; 0x0ffa6c6c; 0x2aaf04f5; 0x374d7615; 0xb579]
  ; pt [0x195a3558; 0x2bcacd91; 0x234a7f2b; 0x01c7e178; 0x1b59f6ac; 0x3e5e04e3; 0x1ca70806; 0x3fa5d807; 0x3d14]
      [0x2443df4c; 0x1ab6ceb1; 0x3c1d727c; 0x3828b851; 0x356e1482; 0x26a4c76f; 0x281ef8f2; 0x2f75ba11; 0x16c6]
  ; pt [0x02b1fc24; 0x37a7d6b6; 0x23f7570e; 0x0a36071f; 0x12486525; 0x06b134b2; 0x265251cc; 0x29503a0b; 0xdd6f]
      [0x0e9b74ca; 0x290c7118; 0x17322304; 0x04379afb; 0x257e77ec; 0x1bc7afc5; 0x3186fe36; 0x0adfac74; 0x67e6]
  ; pt [0x3dd08e02; 0x07aa4564; 0x1adf0288; 0x2151edff; 0x3d1e8010; 0x1a5266a8; 0x15d780f8; 0x0b6a0b79; 0x13fa]
      [0x3cb03410; 0x29550770; 0x1a42b97d; 0x112beec6; 0x3432c7e6; 0x0d5881ae; 0x1da72313; 0x0e2c1155; 0x1363]
  ; pt [0x144ee41a; 0x308ceae6; 0x37d69a6a; 0x26d5b74e; 0x06828287; 0x3042d9cb; 0x30a443f7; 0x121474f1; 0xd06c]
      [0x0b295e6f; 0x3c7e13a6; 0x162ee252; 0x1ee10d18; 0x3630919b; 0x02b353d3; 0x0d0adbbb; 0x3f530161; 0x5815] ].

Definition row_45 : list curve_point :=
  [ pt [0x23d82751; 0x1eab9d45; 0x3ad35452; 0x116d2a41; 0x23b28556; 0x0193ce83; 0x1b109399; 0x3fbcfb1b; 0x85d0]
      [0x0eb1f962; 0x0b08de89; 0x07733158; 0x21d47a5a; 0x2cf5663e; 0x3525b960; 0x38c0be29; 0x192104e8; 0x1f03]
  ; pt [0x2cde4cf3; 0x26554187; 0x38a066ab; 0x10394d51; 0x1d9ae793; 0x30b49b45; 0x022c3be7; 0x2ad2b045; 0x384d]
      [0x252d0566; 0x1f1e5ac8; 0x351ba73b; 0x10c28ce5; 0x34c6f01f; 0x13b5b68a; 0x1ca43bfb; 0x316f346e; 0xd6e3]
  ; pt [0x1e5238c2; 0x22bcfa48; 0x00ecb8b9; 0x0d57d70e; 0x02ed4840; 0x05842d3a; 0x015aa41b; 0x3b03adf5; 0x14f0]
      [0x12f07922; 0x3a1a8d1e; 0x304939d6; 0x17003600; 0x02747fd2; 0x3f1cf8e1; 0x35d80921; 0x354f7520; 0xab12]
  ; pt [0x1543e94d; 0x3d8d4bbf; 0x2f98e188; 0x04c0a9d5; 0x1a0ddadd; 0x30d19e29; 0x0287ec41; 0x3ceede0b; 0xeb42]
      [0x05924d89; 0x01567791; 0x20d6d424; 0x3611a379; 0x0dfb774c; 0x03755cbf; 0x1d92dc9a; 0x1b41d3c9; 0x234a]
  ; pt [0x3e19aaed; 0x0c9396d5; 0x06673270; 0x26eb37a3; 0x06a92045; 0x3b00bdb8; 0x020d9a9e; 0x0e32945a; 0x1cf1]
      [0x292f400e; 0x04dba975; 0x3c77ffbc; 0x27bbe3fb; 0x2dde1747; 0x0dca99ad; 0x063865f4; 0x36bcc5c7; 0xd6ff]
  ; pt [0x36a8aa39; 0x3db03a7e; 0x278fac55; 0x2998ded2; 0x1990d937; 0x16825a12; 0x0d412c87; 0x21af97d0; 0xb586]
      [0x2b493c1f; 0x3f1e4d74; 0x2db347b8; 0x2f6be639; 0x00a91dab; 0x11e35153; 0x38c2c149; 0x3550c931; 0x5632]
  ; pt [0x303b4cc5; 0x3a47af8e; 0x21c77c2e; 0x0a0c6e96; 0x33a80257; 0x16f13f9f; 0x3cc2b67b; 0x276c1ae2; 0x5fc1]
      [0x25b57c28; 0x0ece7ee1; 0x0087ec4a; 0x1dbd40f3; 0x3a5ef492; 0x084e3e68; 0x0c7c66ee; 0x21303b26; 0xec8e]
  ; pt [0x0cb38cb5; 0x2d2e15f5; 0x1388948b; 0x02dff7d3; 0x3eea1be1; 0x2a2903f4; 0x1e289deb; 0x2dc350bb; 0xb88f]
      [0x1965f3d7; 0x1efe9d59; 0x3af8c719; 0x13cf8489; 0x35a8e24d; 0x12ee652c; 0x23280603; 0x0dab51ba; 0xd6c7] ].

Definition row_46 : list curve_point :=
  [ pt [0x0526087e; 0x3d501209; 0x2da20308; 0x3edb6220; 0x18b85dfd; 0x26d8105e; 0x2ce97c1c; 0x0373a5fb; 0xff2b]
      [0x30c29907; 0x32547807; 0x10e2ceb2; 0x2dfb5bee; 0x107936c7; 0x13137153; 0x0ba188af; 0x04ffbd49; 0x493d]
  ; pt [0x39d681f9; 0x164153f9; 0x08feb9fc; 0x3383bbeb; 0x2c94b066; 0x1ffc9780; 0x3230888b; 0x3f7c9dd7; 0xc745]
      [0x3bbb1247; 0x00c5cd0d; 0x27d45c76; 0x36f4cd71; 0x2818678c; 0x04e531c3; 0x1e5e78a7; 0x08bcbdae; 0x5902]
  ; pt [0x35cd0ea3; 0x38133bb4; 0x0cac4815; 0x111e3a08; 0x32e7f2b3; 0x16797ad9; 0x1050b27a; 0x1e7cea5d; 0xabb2]
      [0x3c307bce; 0x1c24c4cd; 0x202f3b64; 0x25da4167; 0x078ed47c; 0x12f8300c; 0x3970d9fb; 0x040eefc5; 0x5dee]
  ; pt [0x1bc9ee3e; 0x30b8bcfc; 0x3e7382c5; 0x27e86a58; 0x27ed11ea; 0x2baa9d09; 0x0682827f; 0x0542d67f; 0x3f81]
      [0x199aae06; 0x33ab6c31; 0x0da81603; 0x08ecb73f; 0x39566276; 0x06facf11; 0x3a82d467; 0x229a3f6f; 0x19c8]
  ; pt [0x38e4a007; 0x05c6fbeb; 0x0bb358b6; 0x3b3bb3c2; 0x16c7ec15; 0x12e8cea9; 0x02de6959; 0x04cb7402; 0x5cf8]
      [0x1068b883; 0x398fc242; 0x39c7fe8c; 0x251be5b1; 0x0c3df6c8; 0x35056212; 0x1fa0df4a; 0x3b970358; 0xb45a]
  ; pt [0x26c2d4a7; 0x255bf9ec; 0x3cfffb10; 0x30dbe4ce; 0x004ed21b; 0x38ce5cf1; 0x3a494653; 0x3f934352; 0xb6d5]
      [0x3ae86371; 0x063739f8; 0x35e3cc81; 0x16df939b; 0x3ffd8e74; 0x33e48277; 0x3d6c14df; 0x1ce84eae; 0x47f3]
  ; pt [0x3c66dd33; 0x024cd88b; 0x1dc76dc5; 0x23ef23fc; 0x29b022ea; 0x2c6c5400; 0x3588706b; 0x2ef019b3; 0x61c8]
      [0x36f10bfa; 0x0eeea7ce; 0x2820c8ca; 0x1441bab0; 0x05d3fb6a; 0x1a6652e6; 0x0f703446; 0x2788e795; 0x9359]
  ; pt [0x1d6b2ff8; 0x2016df33; 0x286c8fa9; 0x18cdb05c; 0x03bdf187; 0x27d4dcfb; 0x2785187c; 0x0ae95d09; 0x94e3]
      [0x2ce1af3e; 0x37521554; 0x26bfe13a; 0x0ebc1094; 0x2d9e8cb3; 0x07922198; 0x204e192f; 0x1122d0f6; 0x0d1b] ].

Definition row_47 : list curve_point :=
  [ pt [0x3856e241; 0x203978b3; 0x0d6dd287; 0x3c7b8523; 0x1b212b57; 0x0acb98c0; 0x080ea9ed; 0x2ef92c7a; 0x827f]
      [0x2ec293ec; 0x1816da2e; 0x2903166d; 0x3de98c61; 0x1d12687f; 0x3bcb19f4; 0x27b0b71b; 0x27248f1c; 0xc60f]
  ; pt [0x3bb80fa7; 0x0d12172c; 0x30413886; 0x29f69aed; 0x20819f3a; 0x0681af4c; 0x0c2fbc0d; 0x38c7d8c2; 0x0857]
      [0x09366b2d; 0x3660847c; 0x0d7016ab; 0x0b8dc10f; 0x0b714717; 0x1f327477; 0x0172092d; 0x24d08eb8; 0xf643]
  ; pt [0x09c70e63; 0x1740b0e8; 0x353d496f; 0x2ee2de39; 0x0a672e9c; 0x171955d9; 0x16004354; 0x333a95af; 0x28aa]
      [0x3057da4e; 0x27c0e20b; 0x04da1e8b; 0x3f167391; 0x28ebb7f5; 0x22599f1d; 0x20e1567a; 0x0c8bbe06; 0x2b69]
  ; pt [0x33e674b5; 0x007714bd; 0x3060aac6; 0x363da739; 0x2b8a4f92; 0x36cb26f3; 0x1a66145d; 0x2d896815; 0xa2f3]
      [0x0e937941; 0x024e3238; 0x033fa53b; 0x08be8c5f; 0x2a7c4b92; 0x112a43cc; 0x068ae800; 0x28565853; 0x620e]
  ; pt [0x191eb056; 0x1d8058c7; 0x2cfd386c; 0x00bbf6e3; 0x3515f5a0; 0x22d71a8f; 0x259231d9; 0x20f27aab; 0x3c4f]
      [0x205cecab; 0x109624f6; 0x1cf6b877; 0x20ad5120; 0x32788019; 0x3595cf0e; 0x28b6a33a; 0x2401d452; 0x9447]
  ; pt [0x3d86dfa9; 0x24187f6e; 0x1b993a71; 0x0e2d2902; 0x103baadc; 0x30780fa0; 0x167d4e29; 0x384a22a6; 0xaff8]
      [0x01d12681; 0x1c40f0db; 0x019f9c70; 0x045b6a51; 0x0f53f4f9; 0x0faea87f; 0x37c3fd3d; 0x12ecc84d; 0x8d8b]
  ; pt [0x189ba9c1; 0x23c9cdae; 0x09d338e2; 0x03df2968; 0x0ee579e4; 0x16098abb; 0x000b3e84; 0x1e114a37; 0xd3fb]
      [0x2b51b267; 0x186e237f; 0x011ade00; 0x073b7570; 0x370fe634; 0x32815d62; 0x2b4e7ca7; 0x350d3be9; 0xf894]
  ; pt [0x0f2bb909; 0x36a5b074; 0x3598d999; 0x24409f14; 0x187d7f63; 0x1ca620e4; 0x1aa88ff4; 0x0c0382b2; 0x4ec9]
      [0x24cf4071; 0x2228e0fe; 0x1ac3827b; 0x0b85a083; 0x0c49bad5; 0x03711461; 0x304dc5c8; 0x2841af86; 0x782b] ].

Definition row_48 : list curve_point :=
  [ pt [0x2120e2b3; 0x3ced63e8; 0x347f9aa7; 0x163f739f; 0x26e5217a; 0x392b8d33; 0x1bdbae7b; 0x127c87d4; 0xeaa6]
      [0x3a5ad93d; 0x11e94c16; 0x13f7e59d; 0x29ae597c; 0x39aa5a01; 0x2a03e261; 0x3b03ac69; 0x1e7b56ee; 0xbe32]
  ; pt [0x3f2e070d; 0x160ff4e8; 0x12a6a98f; 0x2aadc731; 0x1047e229; 0x1cc70ee1; 0x34abff48; 0x297a410b; 0x4b72]
      [0x296dd780; 0x112ea0bb; 0x2948c3de; 0x2d197774; 0x0f3c10b0; 0x1deecdb4; 0x2e1cf602; 0x0753875a; 0x599e]
  ; pt [0x0a02591c; 0x2739ff61; 0x05125a1e; 0x3d526596; 0x21fd613e; 0x1afefad7; 0x1c8e285a; 0x24ff194e; 0xa9fc]
      [0x29bec2dc; 0x242b77bd; 0x3cf72537; 0x22231057; 0x1165e5ca; 0x1305e86a; 0x387173e8; 0x39ce7714; 0x9c2c]
  ; pt [0x2d968b59; 0x0401b838; 0x3cbbc2e1; 0x28a2eb84; 0x1b027709; 0x35eb0482; 0x39f0a6a7; 0x005f069b; 0xc940]
      [0x0de572fb; 0x3bf5d902; 0x390c9c8f; 0x210b2d90; 0x35742ce2; 0x2286fe96; 0x3862013b; 0x08940326; 0x39d9]
  ; pt [0x326b3332; 0x0a1cccd5; 0x3ee5de6a; 0x00e2341c; 0x0bf8e031; 0x1e4e97dc; 0x10024ec6; 0x2ee75fbb; 0x1f84]
      [0x14e8d52e; 0x1510a28c; 0x36dc3a25; 0x2f338b50; 0x39edf0c2; 0x1f09fdd6; 0x29ecc254; 0x1b41caf2; 0xee72]
  ; pt [0x0defa98e; 0x336a952b; 0x1ac27995; 0x12111a04; 0x11e9c772; 0x2055ece6; 0x1fcd06ca; 0x38224251; 0x0f13]
      [0x3e286767; 0x0229dda6; 0x2ceaccdc; 0x1f9c1785; 0x3362db28; 0x0fe2c29e; 0x27c5035e; 0x087c5d93; 0xadd5]
  ; pt [0x29f59b6b; 0x178700ef; 0x1888e2fa; 0x2ce318f0; 0x1826d3e9; 0x0a2874b5; 0x1ec7db37; 0x24695477; 0xdde1]
      [0x26cb1410; 0x1ab658a4; 0x3154fecf; 0x15ce2ef9; 0x12e14e8b; 0x1d5f5871; 0x275cbe0a; 0x3ede00a0; 0x5b2b]
  ; pt [0x09c6b699; 0x1a3157f7; 0x3e46871b; 0x1bd5cd5a; 0x341682a8; 0x1b5efe5e; 0x36f7a5a1; 0x004bbb60; 0x5fab]
      [0x01c6c3aa; 0x05cc854b; 0x2883519b; 0x2ac45ffa; 0x162f7b90; 0x2ed044c3; 0x3d144e9e; 0x3e9c28f0; 0x2d9b] ].

Definition row_49 : list curve_point :=
  [ pt [0x1a34d24f; 0x388d8cb7; 0x1a137401; 0x2db63c32; 0x342ee541; 0x077db7b3; 0x3169d939; 0x0b50f173; 0xe4a4]
      [0x1eba9414; 0x29fdc4c7; 0x0d8e4f13; 0x21bbb7ea; 0x0ad34ce8; 0x326733ee; 0x1c73526f; 0x24b9c5b4; 0x4d9f]
  ; pt [0x3bea0c68; 0x321042bc; 0x37b392b5; 0x10c048d9; 0x396faf09; 0x26f23a34; 0x2a3a2494; 0x258d3855; 0x3e41]
      [0x1a45edb6; 0x32edbfdc; 0x03cda1ab; 0x2846518c; 0x0693062f; 0x0f2ff8dc; 0x321f7f37; 0x31676492; 0x0123]
  ; pt [0x139824d7; 0x3dd748f2; 0x11c9897a; 0x2ded930d; 0x3f0b576e; 0x128f98bd; 0x17508eed; 0x0e3d5157; 0x8d94]
      [0x1366489f; 0x28013d22; 0x26b063d8; 0x2e78ae0c; 0x36ef6f8f; 0x182f4c6a; 0x26c2a2ca; 0x381cd3fb; 0x3261]
  ; pt [0x18d713de; 0x39201c6a; 0x028e6208; 0x1830bedd; 0x25454393; 0x2a44a8bf; 0x254420d4; 0x0931563b; 0xb725]
      [0x1b8350e9; 0x1bff9496; 0x04a5fcb7; 0x20b49bf9; 0x16941504; 0x0b460ba7; 0x03e45104; 0x2ce6a28a; 0x4c51]
  ; pt [0x3e3b2cb4; 0x331b0a4f; 0x37210402; 0x127cd6fc; 0x21149e30; 0x31db8e04; 0x112519ad; 0x17d6885b; 0x3de4]
      [0x307eb02f; 0x1878ceb0; 0x287044cf; 0x0f8a3996; 0x3c910682; 0x022a92a5; 0x2addc50e; 0x21661017; 0xba2a]
  ; pt [0x2ce4e5bf; 0x08d1d9bd; 0x09005b17; 0x19f2a1a8; 0x0906ae9b; 0x0ff38dd2; 0x1be87c1e; 0x3c71a256; 0x8511]
      [0x01789c08; 0x3f24a513; 0x05365262; 0x2a1e226f; 0x2a00232d; 0x377dfb1a; 0x0d4874c1; 0x3d73e46f; 0xecdf]
  ; pt [0x3d3258ab; 0x06d59a28; 0x2bc14dc3; 0x3490a062; 0x14ab5957; 0x2871cbb8; 0x360222cf; 0x014ba073; 0x8c5a]
      [0x022d0f8f; 0x15f8214c; 0x0d944ade; 0x36ba3e70; 0x0c08c246; 0x2a031e41; 0x3bda1079; 0x36d2ed10; 0x6811]
  ; pt [0x3f91bcee; 0x1630a82a; 0x20c0d841; 0x33c763c7; 0x2bf137f5; 0x18f3b155; 0x13560bdc; 0x3e05b7af; 0xcef7]
      [0x01966b33; 0x2ed36a7e; 0x172f6ac6; 0x0f92c0a8; 0x1d245fa6; 0x0ecce700; 0x08701246; 0x1320d8dd; 0x67e7] ].

Definition row_50 : list curve_point :=
  [ pt [0x0300bf19; 0x1c5cee75; 0x08fea494; 0x2d4d5daa; 0x352b6b92; 0x183eb6ac; 0x0bdd9541; 0x03fbcd83; 0x1ec8]
      [0x0107cefd; 0x1c737073; 0x295a07b6; 0x11b9dfd8; 0x2bbf5e01; 0x2925629e; 0x1340d2f3; 0x3a4dd5ad; 0xaeef]
  ; pt [0x12fea1f9; 0x2c5f2ef1; 0x00452b94; 0x3fc2d423; 0x106531c4; 0x3f76ad9c; 0x1f2e83bc; 0x22029574; 0xa6dc]
      [0x3bc345e9; 0x2c705391; 0x268f7e63; 0x1ee276df; 0x2cbc5005; 0x1a0e845a; 0x367c3038; 0x2a151f70; 0x7ef1]
  ; pt [0x06d6c9b3; 0x235030fc; 0x0865637c; 0x1b133a1d; 0x2481ba8c; 0x308a71e2; 0x245992bd; 0x2a4ffa90; 0xfe6b]
      [0x2948bdfb; 0x30b1e23e; 0x1c2e9b00; 0x203c6fc1; 0x013b56d9; 0x2d06cd15; 0x39872b6b; 0x0635d014; 0x7ee9]
  ; pt [0x0cf95151; 0x08bc41cc; 0x02c4b644; 0x19201b91; 0x08ded1b9; 0x03230b70; 0x098bfb02; 0x38bc51bf; 0x15d5]
      [0x2ff8ecf2; 0x20a81f30; 0x1d8c0f94; 0x0813ee5f; 0x1023f9bb; 0x038425e2; 0x3d4ec7f9; 0x0b8c6457; 0xa5b7]
  ; pt [0x296a5658; 0x35e042e4; 0x1ef65643; 0x052c9490; 0x2e29be38; 0x1f80249e; 0x0447ad8c; 0x3a1c95a2; 0x84c0]
      [0x181b80d1; 0x3659ca6f; 0x34f1fd22; 0x2986a607; 0x13725ed3; 0x1f8c6419; 0x022c4a08; 0x20e03058; 0x2659]
  ; pt [0x14dc6a0f; 0x1d6ed722; 0x2fe15753; 0x10d06450; 0x0077c274; 0x09939e8b; 0x3731d565; 0x2c71c6a4; 0xfed6]
      [0x176fc7e0; 0x32e35cb6; 0x23fc409c; 0x1d3564c2; 0x13ae2313; 0x24606b93; 0x3ff0a847; 0x2af9ac3f; 0x8de2]
  ; pt [0x18e29355; 0x2ce217c4; 0x1720d86d; 0x0723a4ce; 0x23b9d82f; 0x3be18100; 0x3cbc70fc; 0x137664b4; 0x2a6a]
      [0x35cc2872; 0x014f803e; 0x0c4c76c0; 0x24168e99; 0x28f90dfe; 0x3f720789; 0x27e0c760; 0x37ee9f12; 0x8677]
  ; pt [0x2148dabf; 0x3e7ea23f; 0x09d78eb1; 0x2b74ae4d; 0x3ae735c1; 0x193b08d7; 0x27546d97; 0x24c09b24; 0xe42d]
      [0x011e1361; 0x1dcb1d5a; 0x1e77eb9d; 0x1c9d5c06; 0x33853032; 0x0e33aff7; 0x184b0d8b; 0x218b1b8b; 0x6413] ].

Definition row_51 : list curve_point :=
  [ pt [0x366642be; 0x376d64a0; 0x158ba889; 0x0d241c5f; 0x0dfa8bce; 0x002bd1a0; 0x30c2f91b; 0x1de30119; 0x146a]
      [0x3d83efd0; 0x02ca5d20; 0x37e5ed1d; 0x2aa5c74b; 0x14b2870a; 0x1a609fe7; 0x0028add6; 0x383b0cd5; 0xb318]
  ; pt [0x27315443; 0x364e1ce0; 0x2e867299; 0x1e6ef552; 0x2142a13d; 0x32266082; 0x0935ff42; 0x1b010198; 0xfc69]
      [0x17d28960; 0x1243582d; 0x09bd1b17; 0x1ffd2184; 0x1677b548; 0x0387375a; 0x35892bbf; 0x09fafe0e; 0xe0ce]
  ; pt [0x16fdb4eb; 0x06ecbd70; 0x22e6a79d; 0x28f75e71; 0x3eb0928f; 0x15a8d58a; 0x3f2ad1ae; 0x3c887fd3; 0x974a]
      [0x29f6f484; 0x10270f7e; 0x3ffc2348; 0x0715ca8e; 0x0090ed11; 0x0790f40b; 0x003ca64d; 0x0e1f54d4; 0x5552]
  ; pt [0x1d5aeee3; 0x0e412b6d; 0x258c8137; 0x0a12f0d9; 0x1270c5e8; 0x086ce99a; 0x2398b091; 0x2d66d277; 0x5baa]
      [0x30f69717; 0x0b4a6bed; 0x3d31eed8; 0x1777276a; 0x3fdaf721; 0x28021987; 0x37e856e5; 0x1fd85f03; 0x8a57]
  ; pt [0x35726890; 0x146c7913; 0x0837d158; 0x24097fab; 0x110a0ee5; 0x0cbf3afe; 0x1c43d010; 0x17e9fad2; 0xfb68]
      [0x3835783a; 0x01baa3ce; 0x10e79b26; 0x29b2c4ba; 0x24ba094f; 0x3285b661; 0x25e2e869; 0x37c8b263; 0xd750]
  ; pt [0x28bca48a; 0x1192fc4e; 0x03df62f5; 0x2d357d3a; 0x07f71d78; 0x09ee470a; 0x2995a0ab; 0x23fd9678; 0x5de5]
      [0x12fd41cd; 0x21e53a03; 0x20f8aa95; 0x396f6713; 0x2d3c843f; 0x2988f094; 0x19b55309; 0x0ecf600d; 0x685a]
  ; pt [0x25ef63b6; 0x378e0d13; 0x31b182eb; 0x2d34059c; 0x0fc1c85a; 0x2dff68ed; 0x218bfaf1; 0x09737ab5; 0x6f18]
      [0x05c655f3; 0x0b211b3d; 0x27f94541; 0x22569900; 0x3334553c; 0x108135e0; 0x1911b98f; 0x1f9f7564; 0xff09]
  ; pt [0x34a63f3b; 0x2d411fb7; 0x178f9727; 0x080ec066; 0x36c76583; 0x1c457d79; 0x2a376b58; 0x2e257dd8; 0xc5ec]
      [0x05005024; 0x14fcdd1a; 0x230bee5b; 0x3ad97b97; 0x1233ec8b; 0x290163fe; 0x081f374e; 0x0946065e; 0x2225] ].

Definition row_52 : list curve_point :=
  [ pt [0x3180eef9; 0x35daa1e4; 0x228b9776; 0x00048826; 0x207b128d; 0x2b3aec6a; 0x2e5f07e3; 0x303d8748; 0xfa50]
      [0x3f4f2811; 0x233635f4; 0x17a213b3; 0x1a0ca4e9; 0x01a68a5e; 0x334a1c8a; 0x3eba9b72; 0x31a488e5; 0x6b84]
  ; pt [0x11da5e12; 0x07b838ce; 0x1cacb297; 0x31829005; 0x1ca2b6a9; 0x0ca7e4e8; 0x1e31bcda; 0x0b8f10de; 0xf750]
      [0x0385f4eb; 0x292e717a; 0x325cebc7; 0x21b4cbbd; 0x1672047b; 0x1c25170f; 0x0fafd599; 0x3d7b759f; 0x3c57]
  ; pt [0x10b7d105; 0x01d24cc4; 0x0e57c9f2; 0x329712e5; 0x3455b3f4; 0x13d98938; 0x25862a3a; 0x1e3e60eb; 0x12fe]
      [0x1f794a60; 0x162b1bee; 0x2ee90b84; 0x3b389975; 0x27cb771d; 0x2d6a8666; 0x2bcf7786; 0x3c68ce35; 0x2062]
  ; pt [0x1e0c5d05; 0x188760ce; 0x2572daff; 0x039b142a; 0x084b1a48; 0x12ec40a0; 0x3473d58c; 0x30c4d1f7; 0x76aa]
      [0x11ece63e; 0x159866dd; 0x15e6ee35; 0x048973c0; 0x02625f4b; 0x3ccb20c8; 0x070efabe; 0x1dbbc357; 0xef55]
  ; pt [0x3c53c086; 0x389bd217; 0x09a1aec9; 0x2d570d27; 0x288104c6; 0x1830c517; 0x05ccc87e; 0x3f96ef97; 0xa663]
      [0x25016201; 0x1a7140ca; 0x3994fc0e; 0x07b3295c; 0x023dc399; 0x2c40b226; 0x11fbf5d1; 0x265fdac8; 0xb541]
  ; pt [0x0b758574; 0x2b6007b5; 0x34f9c6e9; 0x0c99a250; 0x22bdf3d8; 0x328409eb; 0x2cd825b7; 0x149e8081; 0xde95]
      [0x3b67232a; 0x2df7c7f3; 0x15a2deb4; 0x39a84145; 0x169ed7ba; 0x077211fc; 0x3d14e4e2; 0x3815ab24; 0x4cd3]
  ; pt [0x3d85474f; 0x1de6e2af; 0x1634668d; 0x13128ae2; 0x385aea89; 0x3732f911; 0x32addbfe; 0x2f3819b4; 0x8da6]
      [0x3d7b4ef7; 0x3f7e71f4; 0x1dbdd7a5; 0x073164c1; 0x1dfff10b; 0x377d741c; 0x2d4ff84f; 0x1b1abcc7; 0x13fc]
  ; pt [0x3dd042ea; 0x2d750959; 0x18eafd06; 0x3e89a991; 0x3c93beeb; 0x3599278c; 0x3ba39b1b; 0x2b31f3ec; 0x7329]
      [0x2f5c94a1; 0x36a33fb0; 0x1fab4f0a; 0x1225dcc7; 0x2b68ee18; 0x2139e53e; 0x36f14892; 0x124d506d; 0x9272] ].

Definition row_53 : list curve_point :=
  [ pt [0x1f067ec2; 0x394f4cad; 0x1bba5220; 0x0a22ad75; 0x08e8421a; 0x16fdadf6; 0x21a11b1a; 0x1874329c; 0xda1d]
      [0x1ad836f1; 0x157ee83c; 0x279b48a6; 0x29ce2674; 0x091e2966; 0x01d98587; 0x1306c79c; 0x3d569f26; 0x8157]
  ; pt [0x3a95a8db; 0x1761dccb; 0x39d36f61; 0x0fb03111; 0x1b1723b8; 0x25991a64; 0x3dd0419e; 0x036918c0; 0xe3e9]
      [0x1b0d1cf9; 0x005b3dfc; 0x0984d3d1; 0x2c7be5f3; 0x02e76afb; 0x3eaa431c; 0x0178bb00; 0x0ef0015b; 0xfbe5]
  ; pt [0x112ee214; 0x1eabf590; 0x19315401; 0x0a93a5e5; 0x00c01c78; 0x19437f57; 0x3d775a8b; 0x3fb1ccb8; 0x9f4f]
      [0x1085f37a; 0x3bd10889; 0x3c880283; 0x066da4c2; 0x35c69d97; 0x259a0bf5; 0x22f2e60e; 0x38b84c63; 0x639c]
  ; pt [0x1f61a0a5; 0x22da0514; 0x3c14e3ef; 0x0494f86c; 0x040b2c4b; 0x0682907d; 0x34ac1b17; 0x188b5044; 0x431f]
      [0x38cef899; 0x1adedff9; 0x15657724; 0x2eaa810d; 0x23aa7241; 0x3799465c; 0x2438f6d6; 0x0c9ff9ea; 0xa298]
  ; pt [0x27748503; 0x2b099f55; 0x31328e7c; 0x1b8391dc; 0x0a12ac0e; 0x18bbce7e; 0x38fb86cb; 0x2eb77b39; 0x993d]
      [0x3eb0cee2; 0x2e9cd84d; 0x38adaa49; 0x3e1efda6; 0x21f51a17; 0x3de11e1e; 0x1eeeb785; 0x2a7ba15a; 0xa521]
  ; pt [0x26d23d80; 0x37a889d6; 0x2474d478; 0x02f447c9; 0x0962c0e1; 0x250c72e4; 0x15ea5a33; 0x1eae81ab; 0x75f1]
      [0x280dd57e; 0x21aa16c0; 0x34ea5909; 0x0bfefb6e; 0x1b629237; 0x31f42fc6; 0x39a80c7f; 0x18bf8558; 0xa07a]
  ; pt [0x21ad3413; 0x38ae6db5; 0x327d684a; 0x2e700100; 0x387b7a8d; 0x257d2172; 0x1f4a0a6e; 0x15578476; 0x6678]
      [0x3ebca672; 0x09204081; 0x2dc66601; 0x338b454e; 0x0bdf9ea6; 0x099b649f; 0x0f646925; 0x368f789e; 0x510d]
  ; pt [0x06cc8563; 0x3002bd6c; 0x3e101eaa; 0x0937d6ff; 0x16368892; 0x320af606; 0x27748ada; 0x128d8b36; 0xebdc]
      [0x2394ccfa; 0x26c5ef3a; 0x1204f924; 0x3101e492; 0x1d4f07be; 0x3b8d79b3; 0x2d35f9b1; 0x0c513a15; 0x659a] ].

Definition row_54 : list curve_point :=
  [ pt [0x0d064e13; 0x29cec184; 0x06f1e062; 0x0c477811; 0x3d416615; 0x17fe63a3; 0x30690721; 0x20bfc325; 0xa8e2]
      [0x11f4cc0c; 0x3bdf1cc4; 0x0dd6bd6c; 0x19e68f94; 0x2515888b; 0x2dfcf16c; 0x01c09abf; 0x0d56e36e; 0x7f97]
  ; pt [0x3a3979b5; 0x0a8666c2; 0x27e829e2; 0x0a23e379; 0x240e50ba; 0x0dfc2c7b; 0x1e26327f; 0x01f1736b; 0xae22]
      [0x0450fa6f; 0x23cf359a; 0x3d4f8896; 0x2a1edf4d; 0x2d7060fc; 0x3249148e; 0x39f71ad4; 0x3f944301; 0xea91]
  ; pt [0x0efca824; 0x10406440; 0x22164fae; 0x2f8313fa; 0x185461e0; 0x31504019; 0x2ace59ce; 0x3b432b5c; 0xcb8d]
      [0x0f227361; 0x0502f416; 0x3931742f; 0x2b47f7f1; 0x2ccbc496; 0x05b121e8; 0x188c85b3; 0x0023dd03; 0x33a5]
  ; pt [0x3bcbd327; 0x1046d368; 0x1e4aaee9; 0x13821488; 0x276ed6b0; 0x2524035f; 0x1836708e; 0x0eca62bc; 0xb0c5]
      [0x2d7be436; 0x185af128; 0x0636a0f1; 0x0a88831d; 0x26b2afd8; 0x3da9806d; 0x17ea1638; 0x25d007ef; 0xee2a]
  ; pt [0x17b836a1; 0x39bbed8e; 0x3679ef7d; 0x019017fd; 0x37f526c8; 0x2218bb39; 0x1b920d4d; 0x29cfcca7; 0x6f6b]
      [0x06832b84; 0x36f7cbec; 0x0e1ff934; 0x264314a2; 0x3ee9c0d8; 0x02e29016; 0x3c18e3db; 0x2285ffd7; 0xdc77]
  ; pt [0x1eb39ede; 0x2bb8d082; 0x30612d42; 0x02200cb5; 0x02436031; 0x3fd19f84; 0x22af4bbc; 0x069f71d0; 0x7d47]
      [0x2bf6607e; 0x326f3652; 0x022a8fd0; 0x2573df47; 0x3c86fa77; 0x2088c7bf; 0x2856507b; 0x1ec67ce9; 0x004a]
  ; pt [0x165eb1c1; 0x15b52789; 0x1ae5c5aa; 0x335d59f3; 0x02f0967f; 0x03f30c66; 0x33fac707; 0x1458fe6d; 0xf002]
      [0x2dde2ae0; 0x369f5c11; 0x2cd11e57; 0x1dbfd735; 0x26afed85; 0x1ad29768; 0x120df4c6; 0x2a7a220f; 0x054e]
  ; pt [0x1ac32c64; 0x33cd424f; 0x0ae4bf84; 0x0dbf80fb; 0x07715e0e; 0x013a543d; 0x123aa0f7; 0x0500007b; 0xac12]
      [0x1eb1a867; 0x204ab6eb; 0x253f0898; 0x16974e96; 0x0499a3ed; 0x02da55cc; 0x38baf187; 0x2f32eb0c; 0xce8e] ].

Definition row_55 : list curve_point :=
  [ pt [0x0319497c; 0x0bce0b7a; 0x12508c02; 0x166c7e94; 0x13cab15d; 0x2795b9a4; 0x285872d3; 0x14ee7268; 0x174a]
      [0x079afa73; 0x0f684eb0; 0x0b985438; 0x1ace8763; 0x07f9e664; 0x10557cb1; 0x09c1657b; 0x370deaff; 0xccc9]
  ; pt [0x354b8367; 0x25201cf5; 0x3d506bfe; 0x1d6ddf59; 0x036a5db7; 0x2a975161; 0x2526e40c; 0x0252b911; 0x5e5a]
      [0x11ce85ca; 0x14ca6a76; 0x1e5ffa44; 0x1aaa7bcf; 0x2a4b7a79; 0x2407c55c; 0x15e05c2c; 0x3e32691e; 0xae8a]
  ; pt [0x17b10d9d; 0x06615e4e; 0x11f8fcaf; 0x294bc627; 0x0cb82de6; 0x332e0cc4; 0x02e859de; 0x382b6e5c; 0x00d4]
      [0x3140dced; 0x20840121; 0x0e2d923e; 0x1626325e; 0x2287f70b; 0x0be1190c; 0x3640947d; 0x0066060d; 0x87b8]
  ; pt [0x1c9caee8; 0x02046982; 0x1a270bb2; 0x0b88116c; 0x04a66763; 0x1e866bbb; 0x374c0f6f; 0x1484da3b; 0x0366]
      [0x3772b711; 0x2a7b1a8e; 0x295ba7f0; 0x32ea624c; 0x26944501; 0x27f1a06e; 0x3ded9994; 0x30cacaa4; 0x1f18]
  ; pt [0x1446c85c; 0x0ffe5d46; 0x201c0635; 0x0df78239; 0x36c6eade; 0x19db114f; 0x38f1faa0; 0x24415bf6; 0x0e58]
      [0x2148972e; 0x3db1df9c; 0x0cddadd5; 0x2408d3a0; 0x081898f4; 0x1d062ebd; 0x27bda0ec; 0x1217c47e; 0xe39a]
  ; pt [0x022e1259; 0x3c62b7cf; 0x281362af; 0x05ce6901; 0x07777193; 0x33d7ea80; 0x1463f2b6; 0x049b49bc; 0xa740]
      [0x334a5f43; 0x3ddc5c90; 0x31d6dad5; 0x21979d4e; 0x3c7ee517; 0x17c5d299; 0x0f1ff1b0; 0x3feebc65; 0x05a9]
  ; pt [0x0b08f1fe; 0x22285e8f; 0x3a087bfd; 0x339fb9c2; 0x02d177d7; 0x1015d976; 0x074e4a65; 0x2e085b65; 0x87e4]
      [0x2ed5e2ec; 0x17dd2b26; 0x2786d9d7; 0x0bc8f6f5; 0x38c2cc6e; 0x35fe3a8b; 0x348cecd7; 0x0eb01d98; 0xf74e]
  ; pt [0x21c4d15c; 0x2a1c039a; 0x3c0e74b9; 0x17a9efc1; 0x254a4410; 0x308b0304; 0x279a5a92; 0x06d18ffa; 0x35ea]
      [0x3f3fe1ea; 0x324e6ebd; 0x065095ed; 0x18cea80c; 0x0d3b185d; 0x23e97f5d; 0x2d2cd788; 0x245946e7; 0xad21] ].

Definition row_56 : list curve_point :=
  [ pt [0x1475b7ba; 0x213f7fc2; 0x0918b3d8; 0x0e79cc39; 0x018cdbe0; 0x395fb7d4; 0x3785c3d3; 0x25a60650; 0x9593]
      [0x3524f2fd; 0x26e2afe1; 0x0709385e; 0x194fd932; 0x1cd6849c; 0x00e1a92e; 0x331dd8ba; 0x154a2230; 0x2e7e]
  ; pt [0x0fd69985; 0x02717764; 0x1df72aea; 0x0c2732db; 0x0ccf149f; 0x3da437ef; 0x32f7e788; 0x1d9d73ad; 0x0ae9]
      [0x1409a003; 0x2723ad04; 0x2ee1aff8; 0x2e67505e; 0x1a54c5d0; 0x237fb814; 0x08d14e9b; 0x265cfdb9; 0x9121]
  ; pt [0x19262b90; 0x37064f7f; 0x23cc29a9; 0x08f1307f; 0x025d1fb7; 0x197c5de0; 0x1612ec9b; 0x218a96b0; 0x2b15]
      [0x083d7557; 0x24665b99; 0x19489a49; 0x14d25c3e; 0x0749066f; 0x0c354b6a; 0x233faa7a; 0x014f6a82; 0x2eb0]
  ; pt [0x28e7be40; 0x0fe5c532; 0x1040ee59; 0x34b22524; 0x24769af2; 0x2570585b; 0x2ee677ee; 0x3abb46a5; 0x6af9]
      [0x2e387e1c; 0x2905b809; 0x0f59569f; 0x38fd99a8; 0x07dc8145; 0x27a90a0d; 0x06649670; 0x0a845a40; 0xb381]
  ; pt [0x3482801e; 0x09adbe83; 0x1bd4155d; 0x1e53e2f1; 0x38d6f940; 0x2aad0932; 0x0144eeb3; 0x1a3b8111; 0x5966]
      [0x04870c37; 0x11dc523c; 0x3d3535ad; 0x2db072d8; 0x31304e8d; 0x23e5821d; 0x2ef5f1ec; 0x282a16ee; 0x949a]
  ; pt [0x032c19fd; 0x1326cb9f; 0x18028c3e; 0x32ae3a41; 0x170b5b4a; 0x3d345ead; 0x050762fd; 0x346206d4; 0xbe84]
      [0x32f1281f; 0x1da5294d; 0x250dc376; 0x1569fd57; 0x08399479; 0x3997d20c; 0x050944d1; 0x1832ccb7; 0xeff9]
  ; pt [0x16c69482; 0x346dd7f5; 0x32fa167b; 0x3aad5004; 0x32bc88cb; 0x15c9d32b; 0x17ee541f; 0x280c5303; 0x9867]
      [0x2f792cd7; 0x1bc18451; 0x15628a91; 0x189173d4; 0x3a99639e; 0x24b556c6; 0x0834f9c7; 0x18568ec4; 0xd02e]
  ; pt [0x1d557aa1; 0x2288e764; 0x101fc297; 0x0764bfb3; 0x19d6abdf; 0x1fcba802; 0x0815a592; 0x3c915036; 0xa866]
      [0x01430634; 0x2606eed3; 0x0611a4b7; 0x3ada719f; 0x30e13961; 0x0f63e976; 0x22b44d79; 0x0e7daa00; 0xb587] ].

Definition row_57 : list curve_point :=
  [ pt [0x1d82b151; 0x2d44d032; 0x21fba2db; 0x28290f55; 0x109a8fcc; 0x168454ec; 0x01e56d64; 0x0e942b90; 0xd2a6]
      [0x1cf89405; 0x105085d3; 0x084ca52d; 0x03dd42bd; 0x148220a7; 0x2bb962ca; 0x3fcb7565; 0x21bed910; 0xe82d]
  ; pt [0x2e4b3ba0; 0x2167d8d7; 0x18bf1f17; 0x0aafbd7c; 0x3f245f5c; 0x385c3cc6; 0x3fb73bef; 0x04414887; 0x4108]
      [0x17525595; 0x21a58770; 0x1a064554; 0x0d926159; 0x2b849813; 0x2996b875; 0x35668f2c; 0x3cda5dbf; 0xdc37]
  ; pt [0x13d98ded; 0x18a726e2; 0x38a02184; 0x37c8a0ce; 0x31d65edb; 0x3c8a6414; 0x0c0c8c8c; 0x2884285b; 0x63a2]
      [0x20d1cfc2; 0x06465f53; 0x1c7873a5; 0x2afda802; 0x2d94461f; 0x140cc953; 0x2c76fd06; 0x10b8b9ff; 0x882b]
  ; pt [0x38045445; 0x2a186942; 0x01e8d7ee; 0x3fdcdc64; 0x17bef080; 0x04b8b975; 0x167ca3df; 0x20575127; 0x0c15]
      [0x0054a206; 0x053e1f55; 0x258cea32; 0x0c15390d; 0x23cd28ba; 0x24f0ed99; 0x14115d0a; 0x35828eba; 0x2f30]
  ; pt [0x03857faf; 0x3a448e73; 0x29619701; 0x0bf2b787; 0x28ef7f88; 0x1eea3d20; 0x28a9c0d5; 0x3adae26b; 0xc757]
      [0x20584ca4; 0x07676c32; 0x01894c10; 0x1f4c4344; 0x3ec61b62; 0x0da7c822; 0x3ff36257; 0x1673f348; 0xf03a]
  ; pt [0x1459225d; 0x3934613d; 0x18858d10; 0x3ebddf8b; 0x1c02a244; 0x17502646; 0x3a0d0f81; 0x18ebab6b; 0xfa80]
      [0x3ece1507; 0x28adf8ed; 0x007c59c3; 0x0adb0db4; 0x0c425c0a; 0x37888209; 0x0c069160; 0x07e415f0; 0x0ba7]
  ; pt [0x16f0d044; 0x19e7fa50; 0x09e61a79; 0x2ea7f524; 0x2ee0a5aa; 0x3da73e18; 0x257a89e2; 0x28f16740; 0x658c]
      [0x37cb872d; 0x3747ccbb; 0x018ce89a; 0x2859d8f1; 0x3bd37655; 0x197589c4; 0x225460f1; 0x304ddeba; 0xae5c]
  ; pt [0x3696756d; 0x2d6b255c; 0x2561417a; 0x1abc5815; 0x3f305c67; 0x30660d74; 0x1f2bace4; 0x12d2abe4; 0x31c9]
      [0x1e08ae78; 0x2f117a37; 0x2ad1070a; 0x2bb7f2b9; 0x34160683; 0x2e2d66ab; 0x283a9bf4; 0x2212d55b; 0xf80f] ].

Definition row_58 : list curve_point :=
  [ pt [0x1617e073; 0x10dbe6d1; 0x039317b3; 0x2b2f6f4e; 0x0fdc866b; 0x39e25b5f; 0x31eb890e; 0x1f88cd51; 0x6458]
      [0x1faf6589; 0x20a6797a; 0x33aeab35; 0x2e428e44; 0x0299a185; 0x1b75911f; 0x102e2ae9; 0x33756fda; 0xd99f]
  ; pt [0x0e103dd6; 0x37dc51c8; 0x0004859a; 0x1181301f; 0x12a17ac3; 0x084f3f16; 0x203f836a; 0x1ef55690; 0xbc47]
      [0x16f7c343; 0x0e420b63; 0x23b44ac6; 0x0a4d5cb1; 0x1ea6395d; 0x2b154b1b; 0x0dd526cb; 0x07890a6a; 0xe31e]
  ; pt [0x144eab31; 0x34370ec3; 0x0e634907; 0x316bc501; 0x3bf8e80a; 0x0ed08c99; 0x3b838030; 0x2d3f969a; 0x589d]
      [0x11361f6a; 0x106baf9d; 0x148f8db9; 0x18439548; 0x3d90f31f; 0x1c188092; 0x2a2a4f60; 0x11170422; 0x6255]
  ; pt [0x1a0c2c41; 0x2fe585ca; 0x20336c67; 0x20c70715; 0x2edb7c42; 0x286182b5; 0x22fa2ea8; 0x2ccdf45b; 0x1339]
      [0x29f1bc2b; 0x217c152e; 0x1e923a41; 0x0489fe1f; 0x13a3406b; 0x0c903f44; 0x3ae5ba7a; 0x0a58d8b1; 0x9f9b]
  ; pt [0x18fc47af; 0x1c12c7e1; 0x2c0cdec3; 0x377fb20c; 0x01b568a8; 0x00ca6d40; 0x3cf17cc5; 0x2ee844d8; 0x7ff3]
      [0x39ba43a7; 0x3e185933; 0x18bac297; 0x294ec6b4; 0x33446b17; 0x32246dd1; 0x0a629a0b; 0x29eba006; 0x1f6b]
  ; pt [0x15213775; 0x06135802; 0x3d42a990; 0x2d0a4ec8; 0x2c7f6100; 0x07a4e57f; 0x360bb614; 0x1c118f3a; 0x8ec6]
      [0x3841ffff; 0x38043cf9; 0x0cf51e90; 0x36a6282f; 0x2dee0e71; 0x190d0573; 0x25be306e; 0x299be836; 0x8f58]
  ; pt [0x3452abbb; 0x32cffe34; 0x2b95c2e3; 0x1aa9cbf8; 0x15d495ae; 0x2eb0ffb6; 0x301bb89d; 0x186d1079; 0x83de]
      [0x054eb66e; 0x28145dac; 0x3ce42918; 0x2717cdae; 0x0e1563d7; 0x3edabe31; 0x0609fa6b; 0x38cd28d3; 0x32f0]
  ; pt [0x359276f1; 0x25a2309b; 0x2a17b15e; 0x2b896ca4; 0x3cd86833; 0x2ed7003d; 0x0c1db1a8; 0x18e263d4; 0x3d76]
      [0x059cbcb3; 0x0792996e; 0x1b197860; 0x08660806; 0x18333ef3; 0x1db8d36b; 0x07ddb609; 0x1a5cde86; 0xd376] ].

Definition row_59 : list curve_point :=
  [ pt [0x1d45e458; 0x1635b21b; 0x250e7fd3; 0x02a9b3a8; 0x09de042f; 0x151b4f95; 0x0d885b3a; 0x2f783939; 0x8481]
      [0x1779057e; 0x3592c6d6; 0x3262e556; 0x029e710a; 0x2cb2ca90; 0x096fce73; 0x004dd84a; 0x1ee32e95; 0x38ee]
  ; pt [0x152da17d; 0x18283e90; 0x0d0646b1; 0x3704f6c2; 0x200bc811; 0x139ac17f; 0x18c5f089; 0x3b4783d4; 0x3bea]
      [0x2cc768d2; 0x39c12617; 0x1fec416c; 0x3379dee3; 0x00e1b554; 0x12a2fafa; 0x37acdfef; 0x35fd56bf; 0xc3b0]
  ; pt [0x3a4edcc5; 0x0d3e85f6; 0x20311b72; 0x138c8850; 0x275997e7; 0x0b7f00e4; 0x09d61875; 0x36e832f7; 0x6e73]
      [0x159da0e4; 0x2cc7df37; 0x00679037; 0x229df69c; 0x02869327; 0x11542222; 0x2cc48bea; 0x307f127b; 0xee0a]
  ; pt [0x0a80b979; 0x02713109; 0x29abb314; 0x243d7e8c; 0x07c31004; 0x1f65faa9; 0x1b592762; 0x37624df9; 0x7706]
      [0x0126cfde; 0x133d2041; 0x17efe321; 0x3e828d3f; 0x2a9c7117; 0x2375e647; 0x3b714777; 0x2a609f56; 0x8a02]
  ; pt [0x326fe285; 0x336e712d; 0x13ef127d; 0x16eb0a50; 0x39e06aa4; 0x3cf1e907; 0x3c0f80d2; 0x08b164a6; 0x16d4]
      [0x0155b441; 0x0f83ff9b; 0x3364d423; 0x0fc3044d; 0x3531b1e9; 0x2df9a698; 0x22641a8a; 0x223e9478; 0x0df8]
  ; pt [0x3acfa513; 0x38c42f2a; 0x260e3aea; 0x0901e7e6; 0x356a9c4e; 0x28d11d43; 0x36d63aa5; 0x0391fbb1; 0x1fcc]
      [0x107afc9c; 0x141d6e90; 0x09839187; 0x3b7b7459; 0x39f9b44b; 0x38e1d50c; 0x35478b48; 0x30681078; 0x165d]
  ; pt [0x3edc69b2; 0x0689c1f3; 0x26b77172; 0x0298226c; 0x0aa386a5; 0x190c10d7; 0x0b8a1730; 0x241ceb5b; 0xc12b]
      [0x20dd41dd; 0x0caba6c0; 0x127b2a00; 0x3b876f8f; 0x094976b8; 0x1cb7227e; 0x0cdf1d97; 0x310ff94d; 0x3173]
  ; pt [0x3961fe4d; 0x2dbd6177; 0x3107197a; 0x05221be2; 0x2ca73e8a; 0x0fa4c4c4; 0x27a8fa3f; 0x2fe1770c; 0xd059]
      [0x2ae823c2; 0x264d6c19; 0x0dab64cb; 0x0e22e87d; 0x0955b4fd; 0x01d97721; 0x3525e3fe; 0x1e983022; 0x4510] ].

Definition row_60 : list curve_point :=
  [ pt [0x2caf666b; 0x3358c0fd; 0x0b1ce30b; 0x3f3fb4f1; 0x17f4637f; 0x1a5e6ba0; 0x102aa62b; 0x1295e9e0; 0x1346]
      [0x3f6ecc27; 0x3d256a41; 0x10942e13; 0x3cc02a07; 0x0cb0ca48; 0x390cd14f; 0x14580ef7; 0x05640118; 0x69be]
  ; pt [0x0eca5f51; 0x085ac826; 0x0fc9aebf; 0x3a85c6e5; 0x05b5cfdd; 0x3b5acafc; 0x2e6962c6; 0x35453767; 0xdde9]
      [0x10c638f7; 0x2b5a69cf; 0x289571f9; 0x3fbafa37; 0x3f8f0950; 0x07cd2c29; 0x28111d89; 0x1a44cf38; 0xb84e]
  ; pt [0x199c88e4; 0x3e41ac16; 0x0ad46ec2; 0x3b544f88; 0x204b179a; 0x3d01bac4; 0x193736e9; 0x188408da; 0xfd1a]
      [0x195bc8df; 0x27232459; 0x1cc00f29; 0x1adc7525; 0x177782dc; 0x0f01a552; 0x0c20bfb1; 0x1ed52e72; 0x1ac9]
  ; pt [0x1f8018ce; 0x35456d6d; 0x1892d68b; 0x0b695ce3; 0x086dc7cf; 0x3ff393cb; 0x296b9f13; 0x214c7630; 0x4ee4]
      [0x1e48381f; 0x30d6986c; 0x0e806013; 0x01d25c6d; 0x07c5e671; 0x2d102343; 0x3f8b5fc7; 0x27b52042; 0xb68f]
  ; pt [0x31473678; 0x0a14ba47; 0x14392f70; 0x2815e542; 0x38c070cb; 0x38c53156; 0x000dbff5; 0x33270d31; 0xfd76]
      [0x0d144f4f; 0x38593baa; 0x001c8437; 0x18a3bb85; 0x032cd660; 0x3b829cf4; 0x143dae0f; 0x1950de1c; 0xf204]
  ; pt [0x0d7a2193; 0x3c02dc52; 0x197546ed; 0x1a47913c; 0x34ea212c; 0x1b3a09d2; 0x3b40219e; 0x2ae8cc48; 0x85a2]
      [0x30cdcf3a; 0x3c320f52; 0x03b12427; 0x31b6b7e7; 0x0c029fe1; 0x31820b47; 0x30516d82; 0x2615faca; 0x9c12]
  ; pt [0x377568b0; 0x16c0c16c; 0x1e03b053; 0x2ba37406; 0x03650f35; 0x2db5b15e; 0x3fe74440; 0x36ff1cf3; 0xd25d]
      [0x1f39929c; 0x0284e49b; 0x23c3f006; 0x089ce207; 0x27d92b83; 0x2bbdd337; 0x048938be; 0x3fdd64fe; 0x7a3a]
  ; pt [0x271d7c13; 0x17f94462; 0x20ffa385; 0x06ad7dfe; 0x2ac80564; 0x01fa6a5e; 0x14a7255f; 0x0d4c50fa; 0x4581]
      [0x3aff63cf; 0x18e2f154; 0x2bd96b99; 0x08019550; 0x1d69c970; 0x3d43c5df; 0x39ad8b57; 0x163b0525; 0x9f58] ].

Definition row_61 : list curve_point :=
  [ pt [0x2d83f366; 0x2b68e834; 0x2f28588c; 0x36733b78; 0x1dc97a0c; 0x3d0c2f30; 0x3fe2e9ae; 0x277d6dc4; 0xbc4a]
      [0x181f33c1; 0x1d635999; 0x2547b16d; 0x3a2a7efe; 0x3798caa6; 0x24deb7d2; 0x05c06383; 0x20729b9e; 0x0d3a]
  ; pt [0x3712be3c; 0x01a8b8cb; 0x2146a66b; 0x257c63b6; 0x00153472; 0x1c976eac; 0x1b378d3c; 0x0d2764cc; 0x39d7]
      [0x1c6ff65c; 0x30c067d0; 0x0a41644c; 0x17bde97b; 0x2812e8ef; 0x09d55319; 0x33bf7fb1; 0x26d3d5bb; 0x8f92]
  ; pt [0x1f77f22b; 0x2ab93ef3; 0x0f82e035; 0x265c8e65; 0x15af26c6; 0x0735b0a6; 0x01dd09e5; 0x2985fdf7; 0xf0cb]
      [0x1909a03c; 0x3f238b1d; 0x0a095661; 0x3c631fa4; 0x16d04004; 0x0c9b0d94; 0x1df989ef; 0x2ad0c4fe; 0x1a25]
  ; pt [0x06509c12; 0x22b37353; 0x3d1f4765; 0x1aff88d6; 0x3268ed8d; 0x05c3a361; 0x154d321d; 0x1eae76c8; 0x381d]
      [0x2eb46102; 0x1190aa38; 0x0e6eaf75; 0x160a161b; 0x2581e720; 0x34915ce9; 0x23da9eb5; 0x2ad6dff6; 0xa47a]
  ; pt [0x384fe955; 0x36ced358; 0x063bce48; 0x2655a968; 0x0c8a53f6; 0x0edcf9a5; 0x387e6479; 0x3c1519ea; 0xa703]
      [0x161344bd; 0x09acbbef; 0x197277fa; 0x27858a71; 0x19199b53; 0x29e4b5ac; 0x047adc0e; 0x3e4d68ac; 0xd500]
  ; pt [0x06eace58; 0x126595b0; 0x2f3211d3; 0x1f9158e8; 0x13a03f1b; 0x1ab435c1; 0x150d746c; 0x2cf16ab5; 0x73c6]
      [0x2af8654e; 0x05c2a45c; 0x3b8d2917; 0x1aa1e36e; 0x2d91c6aa; 0x242644d9; 0x24f741ba; 0x2d291cce; 0x3a2f]
  ; pt [0x00181d5e; 0x12ce22fc; 0x15aaf205; 0x1c6cea6e; 0x0eddb8de; 0x0034e870; 0x147fda1d; 0x3cf9d41b; 0xc627]
      [0x369f886d; 0x09e40298; 0x1cbe2c39; 0x3dac0152; 0x21f7d68e; 0x1a5804e2; 0x02a63b2d; 0x2775c791; 0xd78f]
  ; pt [0x37828b16; 0x138a367e; 0x0a4847f3; 0x11e563ca; 0x06de53a0; 0x17d029bc; 0x3d233fa2; 0x3eaf83b7; 0xbb88]
      [0x0aea5df7; 0x1451ce88; 0x3a1e969c; 0x12a05d38; 0x159163ec; 0x37165804; 0x1e8dd345; 0x1dacc13d; 0xb736] ].

Definition row_62 : list curve_point :=
  [ pt [0x25324caa; 0x152acc3f; 0x29472a39; 0x12d978c2; 0x12a32e69; 0x3631d251; 0x18bc0d23; 0x2a5efe0a; 0x8c28]
      [0x0bef9482; 0x39c771cf; 0x11cb9459; 0x39e13c11; 0x3cc0eb7a; 0x3fb7cc7d; 0x05193378; 0x0118e8cc; 0x40a3]
  ; pt [0x0754dd40; 0x18fa1c55; 0x03466cf8; 0x10898c7f; 0x32f6e9a2; 0x12107f35; 0x0dfcf45b; 0x091c0cb0; 0x9729]
      [0x2aa36143; 0x212d24bc; 0x1acaf493; 0x36ba1495; 0x14df3690; 0x171d772f; 0x3ea1dcd1; 0x28910997; 0x91d1]
  ; pt [0x0c2ca7ff; 0x30b60bae; 0x1df021a3; 0x00d91765; 0x2f27af18; 0x1e46b568; 0x2796e050; 0x1fe5d602; 0x8963]
      [0x30493e68; 0x3b505785; 0x242eab7b; 0x1ef1a8e3; 0x357489f8; 0x2e73c550; 0x08424d57; 0x38492322; 0x2d1f]
  ; pt [0x0ca8dd7f; 0x061b58e8; 0x2a1381a6; 0x31ca00d5; 0x1357421b; 0x327680f5; 0x25e092fd; 0x0e39c6f8; 0x3081]
      [0x0a92c7f2; 0x1057c91e; 0x34ad915e; 0x05959190; 0x008e18c8; 0x27b11745; 0x0fc925e3; 0x38b4a20a; 0x28d1]
  ; pt [0x066a3fb1; 0x037315a2; 0x192e206c; 0x30024a06; 0x36862f6e; 0x15d43216; 0x1eb65d1e; 0x313a0a9b; 0x575f]
      [0x102655ad; 0x26e3a42a; 0x2a3af2f0; 0x0ced5cf1; 0x0e87daed; 0x076f0a5e; 0x2fca2d67; 0x36e410a9; 0x6f6e]
  ; pt [0x390117df; 0x06daa291; 0x22010292; 0x094eeef3; 0x2a2a8fda; 0x3c9be07b; 0x2ab7a227; 0x240dad93; 0xa5ec]
      [0x386462fe; 0x204a04cf; 0x214a363d; 0x21187c15; 0x1fa0f71c; 0x25e60eb4; 0x140400c5; 0x319897b0; 0xb79d]
  ; pt [0x172ad712; 0x2c3e5d70; 0x21047290; 0x0e632c37; 0x2349b95a; 0x39e5d851; 0x10b0949d; 0x37fa44cc; 0xa153]
      [0x0d48fdd2; 0x2297d94e; 0x2f0b329c; 0x014fca16; 0x31b89abd; 0x0c6357c7; 0x05b2fc48; 0x36104fec; 0xfd94]
  ; pt [0x11cf5b3a; 0x0c30dc04; 0x1b5a7810; 0x10cea0ef; 0x2dc824c4; 0x30d34223; 0x14615935; 0x06b1abde; 0x9a54]
      [0x36a44ae4; 0x0fd55d7c; 0x21ea52d6; 0x123fb894; 0x0f475f55; 0x386bcda2; 0x06ab7caf; 0x123072c4; 0xb661] ].

Definition row_63 : list curve_point :=
  [ pt [0x1faccae0; 0x2312e844; 0x24bb3374; 0x22cd4316; 0x071fd23c; 0x3653393c; 0x127a8c1d; 0x259984e5; 0x08ea]
      [0x0e62b945; 0x16bcd28c; 0x0f0f8e95; 0x2de0efa7; 0x15c5d735; 0x39f033ee; 0x22782e24; 0x3eaef23b; 0x620e]
  ; pt [0x26a06f5e; 0x06902d65; 0x2a083702; 0x1064945b; 0x23b716a3; 0x2c350849; 0x0253ac37; 0x093efa85; 0x383b]
      [0x13c6e772; 0x227d1e1b; 0x38c2b040; 0x3dab9d2e; 0x2a5a19e8; 0x3d59b553; 0x1ba2044c; 0x1c1ab13b; 0x54cf]
  ; pt [0x0638a136; 0x1e5d7075; 0x2838195c; 0x034738cd; 0x0d790c2b; 0x39671ad8; 0x2ed6d789; 0x0cb40f80; 0xe684]
      [0x0c6c2584; 0x2bf46042; 0x3357336a; 0x0278faf6; 0x01e6472e; 0x0a9cc0e8; 0x35a6624d; 0x3904e638; 0xca5b]
  ; pt [0x16e8c10c; 0x33a1f110; 0x11bd6807; 0x1ca617ce; 0x306e7fb4; 0x3ef7b39c; 0x25c2a0ee; 0x355678bf; 0x395d]
      [0x05fe638e; 0x30f5b64c; 0x066922cb; 0x24270137; 0x3a4e274c; 0x04fa1ebf; 0x12ac5d04; 0x37352d16; 0xfd62]
  ; pt [0x0d6c14ef; 0x059936c8; 0x2f93c8f5; 0x163f1d41; 0x22648008; 0x3bb56fbb; 0x25dcb9f6; 0x12b70d54; 0x7a51]
      [0x0b3fbd13; 0x2b4f861c; 0x2a6e24f7; 0x2fabbdca; 0x0f5c3729; 0x1fc2e532; 0x2e4d8e89; 0x347fb454; 0x56ed]
  ; pt [0x0f6d65eb; 0x2a518f41; 0x04021524; 0x26441dd5; 0x108f235a; 0x23bcefd2; 0x1d90d8ea; 0x3f5610c9; 0x1ee1]
      [0x1d22941c; 0x380dae49; 0x23582b11; 0x0cbd3a61; 0x02fcfaca; 0x2ae7f13d; 0x2c73c1cf; 0x0a246f75; 0xbb69]
  ; pt [0x0e36cb44; 0x3c6543bc; 0x1ca20191; 0x1fa2db23; 0x03357d61; 0x163f4362; 0x3aaa8bc0; 0x158d34e3; 0x1551]
      [0x1f495a68; 0x0a6bd194; 0x020c1e53; 0x30dc5d7c; 0x23205da8; 0x038fc2d1; 0x35215e37; 0x3ff1d555; 0xab4f]
  ; pt [0x3427bacc; 0x07e51841; 0x12d62e15; 0x1ccc5937; 0x0dc4aa9e; 0x163ac256; 0x35201363; 0x2f1911af; 0x3bc6]
      [0x2ad6fda6; 0x130cff57; 0x28beb471; 0x06dd6948; 0x16c02bd7; 0x18bb889b; 0x2c305cdb; 0x17301c5d; 0x8e30] ].

Definition cp_table : list (list curve_point) :=
  [ row_0; row_1; row_2; row_3; row_4; row_5; row_6; row_7; row_8; row_9; row_10; row_11; row_12; row_13; row_14; row_15; row_16; row_17; row_18; row_19; row_20; row_21; row_22; row_23; row_24; row_25; row_26; row_27; row_28; row_29; row_30; row_31; row_32; row_33; row_34; row_35; row_36; row_37; row_38; row_39; row_40; row_41; row_42; row_43; row_44; row_45; row_46; row_47; row_48; row_49; row_50; row_51; row_52; row_53; row_54; row_55; row_56; row_57; row_58; row_59; row_60; row_61; row_62; row_63 ].

Definition secp256k1 : ecdsa_curve := mkCurve
  secp256k1_p
  (mkPoint [0x16f81798; 0x27ca056c; 0x1ce28d95; 0x26ff36cb; 0x70b0702; 0x18a573a; 0xbbac55a; 0x199fbe77; 0x79be]
     [0x3b10d4b8; 0x311f423f; 0x28554199; 0x5ed1229; 0x1108a8fd; 0x13eff038; 0x3c4655da; 0x369dc9a8; 0x483a])
  [0x10364141; 0x3f497a33; 0x348a03bb; 0x2bb739ab; 0x3ffffeba; 0x3fffffff; 0x3fffffff; 0x3fffffff; 0xffff]
  [0x281b20a0; 0x3fa4bd19; 0x3a4501dd; 0x15db9cd5; 0x3fffff5d; 0x3fffffff; 0x3fffffff; 0x3fffffff; 0x7fff]
  0
  [7; 0; 0; 0; 0; 0; 0; 0; 0]
  cp_table.

End secp256k1.
