(* ===== verification/Curve.v ===== *)
(** * Curve: the group law of a short Weierstrass curve

    The specification that the point operations of src/src/ptp_crypto/ecdsa.cpp
    are measured against: addition of points of y^2 = x^3 + a x + b over the
    integers modulo a prime, with [None] for the point at infinity, and the
    identities of jacobian coordinates.  It models no code. *)

From Stdlib Require Import Zmod.ZmodInv Zmod.ZmodBase Zmod.ZmodDef Field.
From S2P Require Import Prelude.

#[global] Instance F_eq_dec (p : Z) : EqDecision (Zmod.Zmod p).
Proof. intros u v. destruct (decide (Zmod.unsigned u = Zmod.unsigned v)) as [E|E]; [left; by apply Zmod.unsigned_inj|right; congruence]. Defined.

Section Curve.

Context (p : Z) (Hp : Z.prime p) (Hp3 : 3 < p).

Local Abbreviation F := (Zmod.Zmod p).

Add Field Fp : (Zmod.field_theory p Hp).

Local Notation "0" := (@Zmod.zero p).
Local Notation "1" := (@Zmod.one p).
Local Infix "+" := (@Zmod.add p).
Local Infix "-" := (@Zmod.sub p).
Local Infix "*" := (@Zmod.mul p).
Local Infix "/" := (@Zmod.mdiv p).

Context (a b : F).

Definition on_curve (P : F * F) : Prop := let '(x, y) := P in y * y = x * x * x + a * x + b.

(** The third point of a line with slope [l] through two points, reflected. *)
Definition third (l x1 y1 x2 : F) : F * F := let x3 := l * l - x1 - x2 in (x3, l * (x1 - x3) - y1).

Definition ec_double (P : F * F) : option (F * F) :=
  let '(x, y) := P in
  if decide (y = 0) then None else Some (third (((1 + 1 + 1) * x * x + a) / ((1 + 1) * y)) x y x).

Definition ec_add (P Q : option (F * F)) : option (F * F) :=
  match P, Q with
  | None, _ => Q
  | _, None => P
  | Some (x1, y1), Some (x2, y2) =>
      if decide (x1 = x2) then if decide (y1 = y2) then ec_double (x1, y1) else None
      else Some (third ((y2 - y1) / (x2 - x1)) x1 y1 x2)
  end.

Definition ec_opp (P : option (F * F)) : option (F * F) := match P with None => None | Some (x, y) => Some (x, 0 - y) end.

(** [n] times a point. *)
Fixpoint ec_mul (n : nat) (P : option (F * F)) : option (F * F) := match n with O => None | S n => ec_add (ec_mul n P) P end.

Definition valid (P : option (F * F)) : Prop := match P with None => True | Some P => on_curve P end.

(** ** Facts of the field *)

Lemma two_neq : 1 + 1 <> 0.
Proof.
  intros E. apply (f_equal Zmod.unsigned) in E. rewrite <- (Zmod.of_Z_1 p), <- Zmod.of_Z_add, <- Zmod.of_Z_0, !Zmod.unsigned_of_Z in E.
  rewrite Z.mod_small, Z.mod_0_l in E by lia. lia.
Qed.

Lemma mul_neq u v : u <> 0 -> v <> 0 -> u * v <> 0.
Proof. intros Hu Hv E. apply Zmod.mul_0_iff_prime in E as [|]; done. Qed.

Lemma sub_neq u v : u <> v -> u - v <> 0.
Proof. intros Hn E. apply Hn. replace u with (u - v + v) by ring. rewrite E. ring. Qed.

Lemma div_mul u v : v <> 0 -> u / v * v = u.
Proof. intros Hv. field. done. Qed.

Lemma eq_by_sub u v : u - v = 0 -> u = v.
Proof. intros E. replace u with (u - v + v) by ring. rewrite E. ring. Qed.

Lemma mul_cancel u v w : w <> 0 -> u * w = v * w -> u = v.
Proof. intros Hw E. rewrite <- (div_mul u w), <- (div_mul v w) by done. replace (u / w * w) with (u * w / w) by (field; done). rewrite E. field. done. Qed.

(** ** Sums stay on the curve *)

(** A line that meets the curve in two points, with [b] and [a] given by them. *)
Lemma third_on_curve l x1 y1 x2 :
  b = y1 * y1 - x1 * x1 * x1 - a * x1 ->
  a = l * (y1 + (y1 + l * (x2 - x1))) - (x1 * x1 + x1 * x2 + x2 * x2) ->
  on_curve (third l x1 y1 x2).
Proof. intros Eb Ea. unfold third, on_curve. rewrite Eb, Ea. ring. Qed.

Lemma chord_on_curve l x1 y1 x2 y2 :
  on_curve (x1, y1) -> on_curve (x2, y2) -> x1 <> x2 -> l * (x2 - x1) = y2 - y1 -> on_curve (third l x1 y1 x2).
Proof.
  unfold on_curve at 1 2. intros H1 H2 Hx Hl. assert (b = y1 * y1 - x1 * x1 * x1 - a * x1) as Eb by (rewrite H1; ring).
  assert (y2 = y1 + l * (x2 - x1)) as Ey by (rewrite Hl; ring). apply third_on_curve; [done|].
  assert (x2 - x1 <> 0) as Hd by (by apply sub_neq). apply (mul_cancel _ _ (x2 - x1)); [done|]. apply eq_by_sub.
  rewrite Ey in H2. replace 0 with ((x2 * x2 * x2 + a * x2 + b) - (y1 + l * (x2 - x1)) * (y1 + l * (x2 - x1))) by (rewrite <- H2; ring). rewrite Eb. ring.
Qed.

Lemma tangent_on_curve l x y :
  on_curve (x, y) -> l * ((1 + 1) * y) = (1 + 1 + 1) * x * x + a -> on_curve (third l x y x).
Proof.
  unfold on_curve at 1. intros H1 Hl. apply third_on_curve; [rewrite H1; ring|]. replace a with (l * ((1 + 1) * y) - (1 + 1 + 1) * x * x) by (rewrite Hl; ring). ring.
Qed.

Lemma ec_double_valid P : on_curve P -> valid (ec_double P).
Proof.
  destruct P as [x y]. intros HP. unfold ec_double. case_decide; [done|]. apply tangent_on_curve; [done|]. apply div_mul, mul_neq; [apply two_neq|done].
Qed.

Lemma ec_add_valid P Q : valid P -> valid Q -> valid (ec_add P Q).
Proof.
  destruct P as [[x1 y1]|], Q as [[x2 y2]|]; cbn [ec_add]; try done. intros H1 H2.
  case_decide; [case_decide; [by apply ec_double_valid|done]|]. apply (chord_on_curve _ x1 y1 x2 y2); try done. apply div_mul, sub_neq. congruence.
Qed.

Lemma ec_mul_valid n P : valid P -> valid (ec_mul n P).
Proof. intros HP. induction n as [|n IH]; [done|]. by apply ec_add_valid. Qed.

(** Points with the same first coordinate are equal or opposite. *)
Lemma same_x x y1 y2 : on_curve (x, y1) -> on_curve (x, y2) -> y1 = y2 \/ y1 = 0 - y2.
Proof.
  unfold on_curve. intros H1 H2. assert ((y1 - y2) * (y1 + y2) = 0) as E by (replace ((y1 - y2) * (y1 + y2)) with (y1 * y1 - y2 * y2) by ring; rewrite H1, H2; ring).
  apply Zmod.mul_0_iff_prime in E as [E|E]; [| |done]; [left; by apply eq_by_sub|right]. apply eq_by_sub. rewrite <- E at 2. ring.
Qed.

(** ** Opposites *)

Lemma opp_opp P : ec_opp (ec_opp P) = P.
Proof. destruct P as [[x y]|]; [|done]. cbn. do 2 f_equal. ring. Qed.

Lemma opp_valid P : valid P -> valid (ec_opp P).
Proof. destruct P as [[x y]|]; [|done]. unfold valid, ec_opp, on_curve. intros H. replace ((0 - y) * (0 - y)) with (y * y) by ring. exact H. Qed.

Lemma opp_inj u v : 0 - u = 0 - v <-> u = v.
Proof. split; [|by intros ->]. intros E. replace u with (0 - (0 - u)) by ring. rewrite E. ring. Qed.

Lemma opp_neq u : u <> 0 -> 0 - u <> 0.
Proof. intros Hu E. apply Hu. replace u with (0 - (0 - u)) by ring. rewrite E. ring. Qed.

Lemma div_opp u v : v <> 0 -> u / (0 - v) = 0 - u / v.
Proof. intros Hv. field. split; [done|]. by apply opp_neq. Qed.

Lemma opp_div u v : v <> 0 -> (0 - u) / v = 0 - u / v.
Proof. intros Hv. field. done. Qed.

(** The opposite of a line's third point is that of the opposite points. *)
Lemma third_opp l x1 y1 x2 : third (0 - l) x1 (0 - y1) x2 = let '(x3, y3) := third l x1 y1 x2 in (x3, 0 - y3).
Proof. unfold third. f_equal; ring. Qed.

Lemma ec_add_opp P Q : ec_add (ec_opp P) (ec_opp Q) = ec_opp (ec_add P Q).
Proof.
  destruct P as [[x1 y1]|], Q as [[x2 y2]|]; try done. cbn [ec_opp ec_add]. destruct (decide (x1 = x2)) as [->|Hx].
  - destruct (decide (y1 = y2)) as [->|Hy]; [rewrite decide_True by done|rewrite decide_False by (by rewrite opp_inj); done].
    unfold ec_double. destruct (decide (y2 = 0)) as [->|Hy]; [rewrite decide_True by ring; done|]. rewrite decide_False by (by apply opp_neq).
    replace ((1 + 1) * (0 - y2)) with (0 - (1 + 1) * y2) by ring. rewrite div_opp by (apply mul_neq; [apply two_neq|done]).
    by rewrite third_opp.
  - assert (x2 - x1 <> 0) by (apply sub_neq; congruence). replace (0 - y2 - (0 - y1)) with (0 - (y2 - y1)) by ring. rewrite opp_div by done. by rewrite third_opp.
Qed.

(** Sums that stay at infinity once they are there. *)
Definition sticky_add (P acc : option (F * F)) : option (F * F) := match acc with None => None | Some _ => ec_add P acc end.

Definition signed (s : bool) (P : option (F * F)) : option (F * F) := if s then P else ec_opp P.

Lemma sticky_signed s P acc : sticky_add P (signed s acc) = signed s (sticky_add (signed s P) acc).
Proof.
  destruct s; [done|]. destruct acc as [[x y]|]; [|done]. cbn [signed ec_opp sticky_add]. rewrite <- ec_add_opp, opp_opp. done.
Qed.

Lemma sticky_valid P acc : valid P -> valid acc -> valid (sticky_add P acc).
Proof. destruct acc; [|done]. apply ec_add_valid. Qed.

Lemma signed_valid s P : valid P -> valid (signed s P).
Proof. destruct s; [done|apply opp_valid]. Qed.

Lemma signed_signed s t P : signed s (signed t P) = signed (bool_decide (s = t)) P.
Proof. destruct s, t; cbn; try done. apply opp_opp. Qed.

(** ** Jacobian coordinates *)

Definition affine (x y z : F) : option (F * F) := if decide (z = 0) then None else Some (x / (z * z), y / (z * z * z)).

Lemma div_of_mul u v w : w <> 0 -> u = v * w -> u / w = v.
Proof. intros Hw ->. field. done. Qed.

(** The representation of a point for a given denominator. *)
Lemma affine_intro X Y z x y : z <> 0 -> x = X * (z * z) -> y = Y * (z * z * z) -> affine x y z = Some (X, Y).
Proof.
  intros Hz Hx Hy. unfold affine. rewrite decide_False by done. f_equal. f_equal; apply div_of_mul; try done; repeat apply mul_neq; done.
Qed.

Lemma affine_elim x y z P : affine x y z = Some P -> z <> 0 /\ x = P.1 * (z * z) /\ y = P.2 * (z * z * z).
Proof. unfold affine. case_decide; [done|]. intros [= <-]. cbn [fst snd]. split; [done|]. split; field; done. Qed.

Lemma mul_two_cancel u v : (1 + 1) * u = (1 + 1) * v -> u = v.
Proof. intros E. apply (mul_cancel u v (1 + 1)); [apply two_neq|]. replace (u * (1 + 1)) with ((1 + 1) * u) by ring. rewrite E. ring. Qed.

(** The formulas of the code for a sum, with the third point of the line with
    slope [l]: [r] over [h z] is the slope. *)
Lemma jacobian_third l x1 y1 X Y z h r x3 y3 :
  let s := (x1 * (z * z) + X * (z * z)) * (h * h) in let t := (y1 * (z * z * z) + Y * (z * z * z)) * (h * h * h) in
  r = l * (h * z) -> Y = y1 + l * (X - x1) -> x3 = r * r - s -> (1 + 1) * y3 = r * (s - x3 - x3) - t ->
  let z3 := h * z in let '(X3, Y3) := third l x1 y1 X in
  x3 = X3 * (z3 * z3) /\ y3 = Y3 * (z3 * z3 * z3).
Proof.
  cbv zeta. intros -> -> -> Hy. cbn. split; [ring|]. apply mul_two_cancel. rewrite Hy. ring.
Qed.

Lemma jacobian_add_generic x1 y1 x2 y2 z xz yz h r x3 y3 P :
  affine x2 y2 z = Some P ->
  xz = x1 * (z * z) -> yz = y1 * (z * z * z) -> h = xz - x2 -> r = yz - y2 -> h <> 0 ->
  x3 = r * r - (xz + x2) * (h * h) -> (1 + 1) * y3 = r * ((xz + x2) * (h * h) - x3 - x3) - (yz + y2) * (h * h * h) ->
  affine x3 y3 (h * z) = ec_add (Some (x1, y1)) (Some P).
Proof.
  destruct P as [X Y]. intros HP Hxz Hyz Hh Hr Hh0 Hx Hy. apply affine_elim in HP as (Hz & E1 & E2). cbn [fst snd] in *.
  assert (x1 <> X) as Hn by (intros ->; apply Hh0; rewrite Hh, Hxz, E1; ring). cbn [ec_add]. rewrite decide_False by done.
  set (l := (Y - y1) / (X - x1)). assert (l * (X - x1) = Y - y1) as Hl by (apply div_mul, sub_neq; congruence).
  destruct (jacobian_third l x1 y1 X Y z h r x3 y3) as [T1 T2]; [|rewrite Hl; ring|rewrite Hx, Hxz, E1; done|rewrite Hy, Hxz, Hyz, E1, E2; done|].
  { rewrite Hr, Hh, Hyz, Hxz, E1, E2. replace (l * ((x1 * (z * z) - X * (z * z)) * z)) with (0 - l * (X - x1) * (z * z * z)) by ring. rewrite Hl. ring. }
  apply affine_intro; [by apply mul_neq|done|done].
Qed.

(** When the first coordinates agree, the code doubles. *)
Lemma jacobian_add_double x1 y1 x2 y2 z xz yz h r x3 y3 P :
  on_curve (x1, y1) -> on_curve P -> affine x2 y2 z = Some P ->
  xz = x1 * (z * z) -> yz = y1 * (z * z * z) -> xz - x2 = 0 -> r = (1 + 1 + 1) * (x2 * x2) + a * (z * z * (z * z)) -> h = yz + y2 ->
  x3 = r * r - (xz + x2) * (h * h) -> (1 + 1) * y3 = r * ((xz + x2) * (h * h) - x3 - x3) - (yz + y2) * (h * h * h) ->
  affine x3 y3 (h * z) = ec_add (Some (x1, y1)) (Some P).
Proof.
  destruct P as [X Y]. intros HP1 HP2 HP Hxz Hyz Hh0 Hr Hh Hx Hy. apply affine_elim in HP as (Hz & E1 & E2). cbn [fst snd] in *.
  assert (x1 = X) as ->. { apply (mul_cancel _ _ (z * z)); [by apply mul_neq|]. apply eq_by_sub. rewrite <- Hxz, <- E1. done. }
  cbn [ec_add]. rewrite decide_True by done.
  destruct (decide (y1 = Y)) as [->|Hy1].
  - unfold ec_double. case_decide as Hy0.
    + assert (h = 0) as -> by (rewrite Hh, Hyz, E2, Hy0; ring). unfold affine. rewrite decide_True by ring. done.
    + set (l := ((1 + 1 + 1) * X * X + a) / ((1 + 1) * Y)).
      assert (l * ((1 + 1) * Y) = (1 + 1 + 1) * X * X + a) as Hl by (apply div_mul, mul_neq; [apply two_neq|done]).
      destruct (jacobian_third l X Y X Y z h r x3 y3) as [T1 T2]; [|ring|rewrite Hx, Hxz, E1; done|rewrite Hy, Hxz, Hyz, E1, E2; done|].
      { rewrite Hr, Hh, Hyz, E1, E2. replace (l * ((Y * (z * z * z) + Y * (z * z * z)) * z)) with (l * ((1 + 1) * Y) * (z * z * (z * z))) by ring. rewrite Hl. ring. }
      apply affine_intro; [|done|done]. apply mul_neq; [|done]. rewrite Hh, Hyz, E2. replace (Y * (z * z * z) + Y * (z * z * z)) with ((1 + 1) * Y * (z * z * z)) by ring.
      repeat apply mul_neq; done || apply two_neq.
  - destruct (same_x X y1 Y HP1 HP2) as [|Hopp]; [done|]. assert (h = 0) as -> by (rewrite Hh, Hyz, E2, Hopp; ring).
    unfold affine. rewrite decide_True by ring. done.
Qed.

Lemma jacobian_double x y z m x3 y3 P :
  affine x y z = Some P -> (1 + 1) * m = (1 + 1 + 1) * (x * x) + a * (z * z * (z * z)) ->
  x3 = m * m - (x * (y * y) + x * (y * y)) -> y3 = m * (x * (y * y) - x3) - y * y * (y * y) ->
  affine x3 y3 (y * z) = ec_double P.
Proof.
  destruct P as [X Y]. intros HP Hm Hx Hy. apply affine_elim in HP as (Hz & E1 & E2). cbn [fst snd] in *. unfold ec_double. case_decide as Hy0.
  - assert (y = 0) as -> by (rewrite E2, Hy0; ring). unfold affine. rewrite decide_True by ring. done.
  - set (l := ((1 + 1 + 1) * X * X + a) / ((1 + 1) * Y)).
    assert (l * ((1 + 1) * Y) = (1 + 1 + 1) * X * X + a) as Hl by (apply div_mul, mul_neq; [apply two_neq|done]).
    assert (m = l * (y * z)) as Em.
    { apply mul_two_cancel. rewrite Hm, E1, E2. replace ((1 + 1) * (l * (Y * (z * z * z) * z))) with (l * ((1 + 1) * Y) * (z * z * (z * z))) by ring. rewrite Hl. ring. }
    apply affine_intro; [apply mul_neq; [rewrite E2; repeat apply mul_neq; done|done]|..].
    + rewrite Hx, Em, E1, E2. ring.
    + rewrite Hy, Hx, Em, E1, E2. ring.
Qed.

End Curve.
