(* ===== verification/CurveGroup.v ===== *)
(** * CurveGroup: the points of a curve are a group

    Addition of points of a curve without singular points ([Curve]) is
    commutative and associative, so that multiples of a point add up.  It
    models no code: it turns the sums that src/src/ptp_crypto/ecdsa.cpp
    computes into multiples of the base point.

    Two points and the slope of the line through them, chord or tangent, are a
    relation, [secant].  For three points with slopes [l] and [m] between the
    first two and the last two, the lines that give both sums of three have
    slopes [k - l] and [k - m], where [k] is the difference of the outer first
    coordinates over [m - l]; this makes associativity an identity of
    polynomials. *)

From Stdlib Require Import Zmod.ZmodInv Zmod.ZmodBase Zmod.ZmodDef Field.
From S2P Require Import Prelude Curve.

Section Group.

Context (p : Z) (Hp : Z.prime p) (Hp3 : 3 < p).

Local Abbreviation F := (Zmod.Zmod p).

Add Field Fg : (Zmod.field_theory p Hp).

Local Notation "0" := (@Zmod.zero p).
Local Notation "1" := (@Zmod.one p).
Local Infix "+" := (@Zmod.add p).
Local Infix "-" := (@Zmod.sub p).
Local Infix "*" := (@Zmod.mul p).
Local Infix "/" := (@Zmod.mdiv p).

Context (a b : F).

Local Abbreviation on_curve := (Curve.on_curve p a b).
Local Abbreviation third := (Curve.third p).
Local Abbreviation ec_add := (Curve.ec_add p a).
Local Abbreviation ec_opp := (Curve.ec_opp p).
Local Abbreviation valid := (Curve.valid p a b).

(** No point of the curve is singular. *)
Context (smooth : forall x, on_curve (x, 0) -> (1 + 1 + 1) * x * x + a <> 0).

(** An equation that follows from one or two others with given factors. *)
Lemma comb1 c s t u v : s = t -> u - v = c * (s - t) -> u = v.
Proof. intros -> E. apply eq_by_sub; [done|]. rewrite E. ring. Qed.

Lemma comb2 c d s t s' t' u v : s = t -> s' = t' -> u - v = c * (s - t) + d * (s' - t') -> u = v.
Proof. intros -> -> E. apply eq_by_sub; [done|]. rewrite E. ring. Qed.

(** ** Lines through two points *)

Definition secant (l : F) (P Q : F * F) : Prop :=
  let '(x1, y1) := P in let '(x2, y2) := Q in
  y1 - y2 = l * (x1 - x2) /\ l * (y1 + y2) = x1 * x1 + x1 * x2 + x2 * x2 + a.

Definition opposite (P Q : F * F) : Prop := P.1 = Q.1 /\ P.2 = 0 - Q.2.

#[local] Instance opposite_dec P Q : Decision (opposite P Q).
Proof. unfold opposite. apply _. Defined.

Lemma secant_sym l P Q : secant l P Q -> secant l Q P.
Proof.
  destruct P as [x1 y1], Q as [x2 y2]. intros [E1 E2]. split.
  - apply (comb1 (0 - 1) _ _ _ _ E1). ring.
  - apply (comb1 1 _ _ _ _ E2). ring.
Qed.

Lemma third_sym l x1 y1 x2 y2 : secant l (x1, y1) (x2, y2) -> third l x1 y1 x2 = third l x2 y2 x1.
Proof. intros [E _]. unfold Curve.third. f_equal; [ring|]. apply (comb1 (0 - 1) _ _ _ _ E). ring. Qed.

Lemma secant_unique l m P Q : ~ opposite P Q -> secant l P Q -> secant m P Q -> l = m.
Proof.
  destruct P as [x1 y1], Q as [x2 y2]. intros Hn [E1 E2] [F1 F2]. unfold opposite in Hn. cbn [fst snd] in Hn.
  destruct (decide (x1 = x2)) as [Hx|Hx].
  - apply (mul_cancel p Hp _ _ (y1 + y2)); [|congruence]. intros E0. apply Hn. split; [done|]. apply (comb1 1 _ _ _ _ E0). ring.
  - apply (mul_cancel p Hp _ _ (x1 - x2)); [by apply sub_neq|congruence].
Qed.

Lemma add_opposite P Q : opposite P Q -> ec_add (Some P) (Some Q) = None.
Proof.
  destruct P as [x1 y1], Q as [x2 y2]. intros [Hx Hy]. cbn [fst snd] in *. cbn [Curve.ec_add]. rewrite decide_True by done.
  case_decide as E; [|done]. unfold Curve.ec_double. rewrite decide_True; [done|]. apply (mul_two_cancel p Hp Hp3). rewrite E in Hy. rewrite E.
  apply (comb1 1 _ _ _ _ Hy). ring.
Qed.

Lemma add_secant_exists P Q : on_curve P -> on_curve Q -> ~ opposite P Q ->
  exists l, secant l P Q /\ ec_add (Some P) (Some Q) = Some (third l P.1 P.2 Q.1).
Proof.
  destruct P as [x1 y1], Q as [x2 y2]. intros H1 H2 Hn. unfold opposite in Hn. cbn [fst snd] in *. cbn [Curve.ec_add]. case_decide as Hx.
  - subst x2. destruct (same_x p Hp a b x1 y1 y2 H1 H2) as [->|Hy]; [|by destruct Hn]. rewrite decide_True by done. unfold Curve.ec_double.
    rewrite decide_False; [|intros ->; apply Hn; split; [done|ring]]. eexists. split; [|done]. split; [ring|].
    assert ((1 + 1) * y2 <> 0) as Hy. { apply mul_neq; [done|by apply two_neq|]. intros ->. apply Hn. split; [done|ring]. }
    apply (comb1 1 _ _ _ _ (div_mul p Hp ((1 + 1 + 1) * x1 * x1 + a) _ Hy)). ring.
  - exists ((y2 - y1) / (x2 - x1)). split; [|done]. set (l := _ / _).
    assert (l * (x2 - x1) = y2 - y1) as Hl by (apply div_mul; [done|]; apply sub_neq; [done|congruence]).
    split; [apply (comb1 1 _ _ _ _ Hl); ring|]. apply (mul_cancel p Hp _ _ (x2 - x1)); [by apply sub_neq; [|congruence]|].
    unfold Curve.on_curve in *. replace (l * (y1 + y2) * (x2 - x1)) with (y2 * y2 - y1 * y1); [rewrite H1, H2; ring|].
    apply (comb1 (0 - (y1 + y2)) _ _ _ _ Hl). ring.
Qed.

Lemma add_secant l P Q : on_curve P -> on_curve Q -> ~ opposite P Q -> secant l P Q ->
  ec_add (Some P) (Some Q) = Some (third l P.1 P.2 Q.1).
Proof. intros H1 H2 Hn Hl. destruct (add_secant_exists P Q H1 H2 Hn) as (m & Hm & ->). by rewrite (secant_unique l m P Q). Qed.

(** The line goes through the opposite of the sum. *)
Lemma secant_third l P Q x4 y4 : secant l P Q -> third l P.1 P.2 Q.1 = (x4, y4) -> secant l Q (x4, 0 - y4).
Proof.
  destruct P as [x1 y1], Q as [x2 y2]. cbn [fst snd]. intros [E1 E2] [= <- <-]. split.
  - apply (comb1 (0 - 1) _ _ _ _ E1). ring.
  - apply (comb1 1 _ _ _ _ E2). ring.
Qed.

Lemma opposite_sym P Q : opposite P Q -> opposite Q P.
Proof. intros [H1 H2]. split; [done|]. rewrite H2. ring. Qed.

Lemma ec_add_comm P Q : valid P -> valid Q -> ec_add P Q = ec_add Q P.
Proof.
  destruct P as [P|], Q as [Q|]; [|by destruct P|by destruct Q|done]. intros HP HQ. destruct (decide (opposite P Q)) as [Ho|Hn].
  - rewrite (add_opposite P Q), (add_opposite Q P) by auto using opposite_sym. done.
  - destruct (add_secant_exists P Q HP HQ Hn) as (l & Hl & ->). rewrite (add_secant l Q P); auto using secant_sym, opposite_sym.
    destruct P, Q. f_equal. by apply third_sym.
Qed.

(** ** Three points *)

(** The lines through three points, the last two of different slopes: the
    slope from the sum of the first two to the third. *)
Lemma secant_sum l m k x1 y1 x2 y2 x3 y3 x4 y4 :
  secant l (x1, y1) (x2, y2) -> secant m (x2, y2) (x3, y3) -> m - l <> 0 -> k * (m - l) = x3 - x1 ->
  third l x1 y1 x2 = (x4, y4) -> secant (k - l) (x4, y4) (x3, y3).
Proof.
  intros [E1 E2] [E3 E4] HD Hk [= <- <-].
  assert (x1 = x3 - k * (m - l)) as -> by (apply (comb1 1 _ _ _ _ Hk); ring).
  assert (y1 = y2 + l * (x3 - k * (m - l) - x2)) as -> by (apply (comb1 1 _ _ _ _ E1); ring).
  assert (y3 = y2 + m * (x3 - x2)) as -> by (apply (comb1 (0 - 1) _ _ _ _ E3); ring).
  assert ((1 + 1) * y2 = (1 + 1) * k * (x3 - x2) - (x3 - x2) * (m + l) - k * (l * l) - k * k * (m - l) + k * (1 + 1 + 1) * x2) as Hy.
  { apply (mul_cancel p Hp _ _ (m - l)); [done|]. apply (comb2 1 (0 - 1) _ _ _ _ _ _ E4 E2). ring. }
  split.
  - apply (comb1 (0 - 1) _ _ _ _ Hy). ring.
  - apply (comb2 1 (0 - l) _ _ _ _ _ _ E2 Hy). ring.
Qed.

(** The sums of three points, by the lines of [secant_sum]. *)
Lemma sum_of_three l m k x1 y1 x2 y2 x3 y3 x4 y4 x5 y5 :
  secant l (x1, y1) (x2, y2) -> secant m (x2, y2) (x3, y3) -> k * (m - l) = x3 - x1 ->
  third l x1 y1 x2 = (x4, y4) -> third m x2 y2 x3 = (x5, y5) -> third (k - l) x3 y3 x4 = third (k - m) x1 y1 x5.
Proof.
  intros [E1 _] [E3 _] Hk [= <- <-] [= <- <-].
  assert (x1 = x3 - k * (m - l)) as -> by (apply (comb1 1 _ _ _ _ Hk); ring).
  assert (y1 = y2 + l * (x3 - k * (m - l) - x2)) as -> by (apply (comb1 1 _ _ _ _ E1); ring).
  assert (y3 = y2 + m * (x3 - x2)) as -> by (apply (comb1 (0 - 1) _ _ _ _ E3); ring).
  unfold Curve.third. f_equal; ring.
Qed.

(** Three points on one line: the outer two are equal, or the sum is at
    infinity. *)
Lemma one_line l x1 y1 x2 y2 x3 y3 x4 y4 x5 y5 :
  secant l (x1, y1) (x2, y2) -> secant l (x2, y2) (x3, y3) -> third l x1 y1 x2 = (x4, y4) -> third l x2 y2 x3 = (x5, y5) ->
  (x1, y1) = (x3, y3) \/ opposite (x4, y4) (x3, y3) /\ opposite (x1, y1) (x5, y5).
Proof.
  intros [E1 E2] [E3 E4] [= <- <-] [= <- <-].
  assert (y1 = y2 + l * (x1 - x2)) as -> by (apply (comb1 1 _ _ _ _ E1); ring).
  assert (y3 = y2 + l * (x3 - x2)) as -> by (apply (comb1 (0 - 1) _ _ _ _ E3); ring).
  assert ((x3 - x1) * (l * l - x1 - x2 - x3) = 0) as H by (apply (comb2 1 (0 - 1) _ _ _ _ _ _ E4 E2); ring).
  apply Zmod.mul_0_iff_prime in H as [H|H]; [| |done].
  - left. assert (x3 = x1) as -> by (by apply eq_by_sub). done.
  - right. unfold opposite. cbn [fst snd].
    assert (x3 = l * l - x1 - x2) as -> by (apply (comb1 (0 - 1) _ _ _ _ H); ring). repeat split; ring.
Qed.

Lemma add_opp_cancel P Q : valid P -> valid Q -> ec_add (ec_opp P) (ec_add P Q) = Q.
Proof.
  destruct P as [[x1 y1]|]; [|done]. intros HP HQ.
  assert (ec_add (ec_opp (Some (x1, y1))) (Some (x1, y1)) = None) as H0 by (apply add_opposite; done).
  destruct Q as [[x2 y2]|]; [|exact H0]. destruct (decide (opposite (x1, y1) (x2, y2))) as [Ho|Hn].
  { rewrite (add_opposite _ _ Ho). destruct Ho as [Hx Hy]. cbn [fst snd] in Hx, Hy. subst. cbn. do 2 f_equal. ring. }
  destruct (add_secant_exists _ _ HP HQ Hn) as (l & Hl & E). pose proof (ec_add_valid p Hp Hp3 a b _ _ HP HQ) as V. rewrite E in V |- *. cbn [fst snd] in *.
  destruct (third l x1 y1 x2) as [x4 y4] eqn:E4. pose proof (secant_sym _ _ _ Hl) as Hl'.
  assert (third l x2 y2 x1 = (x4, y4)) as E4' by (by rewrite <- (third_sym _ _ _ _ _ Hl)).
  pose proof (secant_third l (x2, y2) (x1, y1) x4 y4 Hl' E4') as Hs.
  rewrite <- (opp_opp p Hp (Some (x4, y4))), (ec_add_opp p Hp Hp3). cbn [Curve.ec_opp].
  assert (~ opposite (x1, y1) (x4, 0 - y4)) as Hn4.
  { intros [Hx Hy]. cbn [fst snd] in Hx, Hy. subst x4. destruct Hs as [S1 S2].
    assert (y4 = y1) as -> by (rewrite Hy; ring).
    assert (y1 = 0) as -> by (apply (mul_two_cancel p Hp Hp3); apply (comb1 1 _ _ _ _ S1); ring).
    apply (smooth x1 HP). apply (comb1 (0 - 1) _ _ _ _ S2). ring. }
  rewrite (add_secant l (x1, y1) (x4, 0 - y4)); [|done|by apply (opp_valid p Hp a b (Some (x4, y4)))|done..]. cbn [fst snd]. unfold Curve.third. cbn [Curve.ec_opp].
  injection E4 as <- <-. destruct Hl as [L1 _]. do 2 f_equal; [ring|]. apply (comb1 1 _ _ _ _ L1). ring.
Qed.

Lemma add_assoc_affine P1 P2 P3 : on_curve P1 -> on_curve P2 -> on_curve P3 -> ~ opposite P1 P2 -> ~ opposite P2 P3 ->
  ec_add (ec_add (Some P1) (Some P2)) (Some P3) = ec_add (Some P1) (ec_add (Some P2) (Some P3)).
Proof.
  intros H1 H2 H3 Hn Hn'. destruct (add_secant_exists _ _ H1 H2 Hn) as (l & Hl & E). destruct (add_secant_exists _ _ H2 H3 Hn') as (m & Hm & E').
  pose proof (ec_add_valid p Hp Hp3 a b (Some P1) (Some P2) H1 H2) as V4. pose proof (ec_add_valid p Hp Hp3 a b (Some P2) (Some P3) H2 H3) as V5.
  destruct P1 as [x1 y1], P2 as [x2 y2], P3 as [x3 y3]. cbn [fst snd] in *.
  destruct (third l x1 y1 x2) as [x4 y4] eqn:T4, (third m x2 y2 x3) as [x5 y5] eqn:T5.
  destruct (decide (m - l = 0)) as [HD|HD].
  - assert (m = l) as -> by (by apply eq_by_sub). destruct (one_line l x1 y1 x2 y2 x3 y3 x4 y4 x5 y5) as [Heq|[Ho Ho']]; try done.
    + injection Heq as <- <-. rewrite (ec_add_comm (ec_add _ _) _), (ec_add_comm (Some (x2, y2))); done.
    + rewrite E, E', !add_opposite by done. done.
  - set (k := (x3 - x1) / (m - l)). assert (k * (m - l) = x3 - x1) as Hk by (by apply div_mul).
    assert (secant (k - l) (x4, y4) (x3, y3)) as S4 by (by eapply secant_sum).
    assert (third m x3 y3 x2 = (x5, y5)) as T5' by (by rewrite <- (third_sym _ _ _ _ _ Hm)).
    assert (secant (k - m) (x5, y5) (x1, y1)) as S5.
    { apply (secant_sum m l k x3 y3 x2 y2 x1 y1); auto using secant_sym.
      - intros E0. apply HD. apply (comb1 (0 - 1) _ _ _ _ E0). ring.
      - apply (comb1 (0 - 1) _ _ _ _ Hk). ring. }
    rewrite E, E'. rewrite E in V4. rewrite E' in V5.
    assert (forall u v : F, u = 0 - v -> v = 0 - u) as Hflip by (intros u v ->; ring).
    rewrite (add_secant (k - l) (x4, y4) (x3, y3)), (add_secant (k - m) (x1, y1) (x5, y5)); auto using secant_sym.
    + cbn [fst snd]. f_equal. rewrite (third_sym _ _ _ _ _ S4). by eapply sum_of_three.
    + intros [Hx Hy]. cbn [fst snd] in Hx, Hy. apply HD. rewrite (secant_unique m l (x2, y2) (x1, y1)); [ring| |subst; eapply (secant_third m (x3, y3)); [by apply secant_sym|done]|by apply secant_sym].
      intros Ho. by apply Hn, opposite_sym.
    + intros [Hx Hy]. cbn [fst snd] in Hx, Hy. apply HD. rewrite (secant_unique m l (x2, y2) (x3, y3)); [ring|done|done|]. rewrite <- Hx, (Hflip _ _ Hy).
      by apply (secant_third l (x1, y1)).
Qed.

Theorem ec_add_assoc P Q R : valid P -> valid Q -> valid R -> ec_add (ec_add P Q) R = ec_add P (ec_add Q R).
Proof.
  destruct P as [P|]; [|done]. destruct Q as [Q|]; [|by destruct P]. destruct R as [R|]; cycle 1.
  { intros HP HQ _. assert (forall T, ec_add T None = T) as Hr by (by intros [[? ?]|]). by rewrite !Hr. }
  intros HP HQ HR. destruct (decide (opposite P Q)) as [Ho|Hn].
  - rewrite (add_opposite _ _ Ho). assert (Some P = ec_opp (Some Q)) as -> by (destruct P, Q, Ho as [H1 H2]; cbn [fst snd] in *; by subst).
    by rewrite add_opp_cancel.
  - destruct (decide (opposite Q R)) as [Ho'|Hn']; [|by apply add_assoc_affine]. rewrite (add_opposite _ _ Ho').
    assert (Some R = ec_opp (Some Q)) as -> by (apply opposite_sym in Ho'; destruct R, Q, Ho' as [H1 H2]; cbn [fst snd] in *; by subst).
    rewrite ec_add_comm, (ec_add_comm (Some P)), add_opp_cancel; try done; [by destruct P|by apply ec_add_valid|by apply opp_valid].
Qed.

(** ** Multiples *)

Local Abbreviation ec_mul := (Curve.ec_mul p a).

(** [n] times a point for an integer. *)
Definition zmul (n : Z) (P : option (F * F)) : option (F * F) := if decide (0 <= n)%Z then ec_mul (Z.to_nat n) P else ec_opp (ec_mul (Z.to_nat (- n)) P).

Lemma ec_add_none_r P : ec_add P None = P.
Proof. by destruct P as [[? ?]|]. Qed.

Lemma zmul_valid n P : valid P -> valid (zmul n P).
Proof. intros HP. unfold zmul. case_decide; [|apply (opp_valid p Hp)]; by apply ec_mul_valid. Qed.

Lemma zmul_one P : zmul 1 P = P.
Proof. done. Qed.

Lemma zmul_succ n P : valid P -> zmul (Z.succ n) P = ec_add (zmul n P) P.
Proof.
  intros HP. unfold zmul. destruct (decide (0 <= n)%Z) as [Hn|Hn]; [rewrite decide_True, Z2Nat.inj_succ by lia; done|].
  destruct (decide (0 <= Z.succ n)%Z) as [Hs|Hs].
  - assert (n = -1)%Z as -> by lia. cbn. by rewrite <- (add_opp_cancel P None HP I) at 1; rewrite ec_add_none_r.
  - replace (Z.to_nat (- n)) with (S (Z.to_nat (- Z.succ n))) by lia. cbn [Curve.ec_mul]. set (Q := ec_mul _ P).
    assert (valid Q) as HQ by (by apply ec_mul_valid). rewrite <- (ec_add_opp p Hp Hp3), ec_add_assoc; [|by apply (opp_valid p Hp)..|done].
    rewrite <- (ec_add_none_r P) at 2. by rewrite add_opp_cancel, ec_add_none_r.
Qed.

Lemma zmul_add m n P : valid P -> zmul (m + n) P = ec_add (zmul m P) (zmul n P).
Proof.
  intros HP. pattern n. apply Z.peano_ind; clear n.
  - rewrite Z.add_0_r. change (zmul 0 P) with (@None (F * F)). by rewrite ec_add_none_r.
  - intros n IH. rewrite Z.add_succ_r, !zmul_succ, IH by done. apply ec_add_assoc; auto using zmul_valid.
  - intros n IH. assert (forall Q R, valid Q -> valid R -> ec_add Q P = ec_add R P -> Q = R) as Hinj.
    { intros Q R HQ HR E. rewrite (ec_add_comm Q P), (ec_add_comm R P) in E by done.
      rewrite <- (add_opp_cancel P Q), <- (add_opp_cancel P R) by done. by rewrite E. }
    apply Hinj; [by apply zmul_valid|apply (ec_add_valid p Hp Hp3); by apply zmul_valid|]. rewrite ec_add_assoc, <- !zmul_succ by auto using zmul_valid.
    replace (Z.succ (m + Z.pred n)) with (m + n)%Z by lia. by rewrite Z.succ_pred.
Qed.

Lemma zmul_opp n P : valid P -> zmul (- n) P = ec_opp (zmul n P).
Proof.
  intros HP. pose proof (zmul_add (- n) n P HP) as E. rewrite Z.add_opp_diag_l in E. change (zmul 0 P) with (@None (F * F)) in E.
  rewrite <- (add_opp_cancel (zmul n P) (zmul (- n) P)) by (by apply zmul_valid). rewrite (ec_add_comm (zmul n P)), <- E by (by apply zmul_valid).
  by rewrite ec_add_none_r.
Qed.

Lemma zmul_mul m n P : valid P -> zmul (m * n) P = zmul m (zmul n P).
Proof.
  intros HP. pattern m. apply Z.peano_ind; clear m; [done| |].
  - intros m IH. rewrite Z.mul_succ_l, zmul_add, IH, zmul_succ by auto using zmul_valid. done.
  - intros m IH. unfold Z.pred. rewrite Z.mul_add_distr_r, !zmul_add, IH by auto using zmul_valid.
    f_equal. replace (-1 * n)%Z with (- n)%Z by lia. change (-1)%Z with (- (1))%Z. by rewrite !zmul_opp, zmul_one by auto using zmul_valid.
Qed.

Lemma zmul_nat n P : zmul (Z.of_nat n) P = ec_mul n P.
Proof. unfold zmul. rewrite decide_True by lia. by rewrite Nat2Z.id. Qed.

Lemma zmul_none n : zmul n None = None.
Proof.
  unfold zmul. assert (forall k, ec_mul k None = None) as H by (induction k as [|k IH]; cbn; [done|by rewrite IH]). case_decide; by rewrite H.
Qed.

(** A point whose multiple by a prime is at infinity has that order. *)
Lemma zmul_order N P : valid P -> Z.prime N -> zmul N P = None -> P <> None -> forall n, zmul n P = None <-> (n mod N = 0)%Z.
Proof.
  intros HP HN E0 Hne. assert (forall n, zmul (n * N) P = None) as Hmul by (intros n; rewrite zmul_mul, E0; [apply zmul_none|done]).
  intros n. split; intros E.
  - destruct (decide (n mod N = 0)%Z) as [|Hd]; [done|]. exfalso. apply Hne.
    assert (Z.coprime N n) as Hc by (apply Z.coprime_prime_l; [done|]; by rewrite <- Z.mod_divide by (pose proof (Z.prime_ge_2 N HN); lia)).
    destruct (Z.gcd_bezout N n 1 Hc) as (u & v & Huv). rewrite <- (zmul_one P), <- Huv, zmul_add, Hmul, zmul_mul, E, zmul_none by done. done.
  - pose proof (Z.prime_ge_2 N HN). rewrite (Z.div_mod n N), E, Z.add_0_r, Z.mul_comm by lia. apply Hmul.
Qed.

Lemma zmul_mod N n P : valid P -> zmul N P = None -> N <> 0%Z -> zmul (n mod N) P = zmul n P.
Proof.
  intros HP E0 HN. rewrite (Z.div_mod n N) at 2 by done. rewrite zmul_add, Z.mul_comm, zmul_mul, E0, zmul_none by done. done.
Qed.

(** Doubling and adding. *)
Fixpoint pmul (q : positive) (P : option (F * F)) : option (F * F) :=
  match q with
  | xH => P
  | xO q => ec_add (pmul q P) (pmul q P)
  | xI q => ec_add (ec_add (pmul q P) (pmul q P)) P
  end.

Lemma pmul_zmul q P : valid P -> pmul q P = zmul (Zpos q) P.
Proof.
  intros HP. induction q as [q IH|q IH|]; cbn [pmul]; [|rewrite IH, <- zmul_add by done; f_equal; lia|done].
  rewrite IH, <- zmul_add, <- zmul_succ by done. f_equal. lia.
Qed.

End Group.
