(* ===== verification/EcPoints.v ===== *)
(** * EcPoints: the point operations are the group law

    Proves that the operations of [Ecdsa] (src/src/ptp_crypto/ecdsa.cpp) compute
    the sums that [Curve] specifies, for every curve with a prime modulus near
    2^256 and a coefficient a from -3 to 0.  Every number in a formula is tracked
    with a bound as a multiple of the modulus, so that no multiplication meets a
    factor that is too large for it. *)

From Stdlib Require Import Zmod.ZmodInv Zmod.ZmodBase Zmod.ZmodDef Field.
From S2P Require Import Prelude Words Bignum BignumMod Primality Ecdsa Curve.

Section Points.
Import bignum ecdsa.

Context (prime : list Z) (Hprime : normalized prime) (Hrange : 2 ^ 256 - 2 ^ 224 <= value prime < 2 ^ 256) (Hpr : Z.prime (value prime)).

Local Abbreviation p := (value prime).
Local Abbreviation F := (Zmod.Zmod (value prime)).

Add Field Fq : (Zmod.field_theory (value prime) Hpr).

Declare Scope F_scope.
Local Open Scope F_scope.
Local Delimit Scope F_scope with F.
Local Notation "0" := (@Zmod.zero (value prime)) : F_scope.
Local Notation "1" := (@Zmod.one (value prime)) : F_scope.
Local Infix "+" := (@Zmod.add (value prime)) : F_scope.
Local Infix "-" := (@Zmod.sub (value prime)) : F_scope.
Local Infix "*" := (@Zmod.mul (value prime)) : F_scope.

(** The residue of a number. *)
Definition fp (l : list Z) : F := Zmod.of_Z p (value l).

Definition bounded (n : Z) (l : list Z) : Prop := (normalized l /\ value l < n * p)%Z.

(** At most twice the modulus, as negation leaves a number. *)
Definition upto2 (l : list Z) : Prop := (normalized l /\ value l <= 2 * p)%Z.

Lemma b2 l : bounded 2 l -> upto2 l.
Proof. intros [H1 H2]. split; [done|lia]. Qed.

Lemma upto2_bounded l : upto2 l -> bounded 3 l.
Proof. intros [H1 H2]. split; [done|lia]. Qed.

Lemma fp_eq l z : eqm prime (value l) z -> fp l = Zmod.of_Z p z.
Proof. intros E. by apply Zmod.of_Z_inj. Qed.

Lemma bounded_le n m l : (n <= m)%Z -> bounded n l -> bounded m l.
Proof. intros Hn [H1 H2]. split; [done|]. nia. Qed.

(** ** Rules for the operations *)

Lemma mul_rule n m k x :
  bounded n k -> bounded m x -> (0 <= n)%Z -> (0 <= m)%Z -> (n * m <= 2 ^ 15)%Z ->
  exists r, bn_multiply k x prime = Ret r /\ bounded 2 r /\ fp r = fp k * fp x.
Proof.
  intros [Hk Bk] [Hx Bx] Hn Hm Hnm. destruct (bn_multiply_spec prime Hprime Hrange k x Hk Hx) as (r & E & R & V).
  { pose proof (norm_range k Hk). pose proof (norm_range x Hx). assert (value k * value x <= n * p * (m * p))%Z by nia.
    assert (n * p * (m * p) <= 2 ^ 15 * p * p)%Z by nia. nia. }
  exists r. split; [done|]. split; [done|]. rewrite (fp_eq _ _ V). apply Zmod.of_Z_mul.
Qed.

Lemma sub_rule n a b :
  bounded n a -> upto2 b -> (0 <= n <= 2 ^ 12)%Z ->
  bounded (n + 2)%Z (bn_subtractmod a b prime) /\ fp (bn_subtractmod a b prime) = fp a - fp b.
Proof.
  intros [Ha Ba] Hb Hn. pose proof (norm_range a Ha). destruct Hb as [Hb Bb]. pose proof (norm_range b Hb).
  destruct (bn_subtractmod_spec a b prime Ha Hb Hprime) as [H1 H2]. rewrite Z.mod_small in H2 by nia. split; [split; [done|lia]|]. unfold fp. rewrite H2.
  rewrite <- Zmod.of_Z_sub. apply Zmod.of_Z_inj. replace (value a + 2 * p - value b)%Z with (value a - value b + 2 * p)%Z by ring. apply Z.mod_add. lia.
Qed.

Lemma add_rule n m a b :
  bounded n a -> bounded m b -> (0 <= n)%Z -> (0 <= m)%Z -> (n + m <= 2 ^ 12)%Z ->
  bounded (n + m)%Z (bn_add a b) /\ fp (bn_add a b) = fp a + fp b.
Proof.
  intros [Ha Ba] [Hb Bb] Hn Hm Hnm. destruct (bn_add_spec a b Ha Hb) as [H1 H2]. pose proof (norm_range a Ha). pose proof (norm_range b Hb).
  rewrite Z.mod_small in H2 by nia. split; [split; [done|lia]|]. unfold fp. rewrite H2. apply Zmod.of_Z_add.
Qed.

Lemma fast_mod_rule a : normalized a -> bounded 2 (bn_fast_mod a prime) /\ fp (bn_fast_mod a prime) = fp a.
Proof.
  intros [La Ha]. destruct (bn_fast_mod_spec prime Hprime Hrange a La) as [H1 H2]; [eapply Forall_impl; [|exact Ha]; unfold is_u; lia|].
  split; [done|]. apply fp_eq. rewrite H2. by apply eqm_sub.
Qed.

Lemma addmod_rule a b : normalized a -> normalized b -> bounded 2 (bn_addmod a b prime) /\ fp (bn_addmod a b prime) = fp a + fp b.
Proof.
  intros Ha Hb. destruct (bn_addmod_spec prime Hprime Hrange a b Ha Hb) as [H1 H2]. split; [done|]. rewrite (fp_eq _ _ H2). apply Zmod.of_Z_add.
Qed.

Lemma mult_k_rule a k : normalized a -> (0 <= k <= 4)%Z -> bounded 2 (bn_mult_k a k prime) /\ fp (bn_mult_k a k prime) = Zmod.of_Z p k * fp a.
Proof.
  intros Ha Hk. destruct (bn_mult_k_spec prime Hprime Hrange a k Ha Hk) as [H1 H2]. split; [done|]. rewrite (fp_eq _ _ H2). apply Zmod.of_Z_mul.
Qed.

Lemma lshift_rule n a : bounded n a -> (0 <= n <= 2 ^ 12)%Z -> bounded (2 * n)%Z (bn_lshift a) /\ fp (bn_lshift a) = fp a + fp a.
Proof.
  intros [Ha Ba] Hn. destruct (bn_lshift_spec a Ha) as [H1 H2]. pose proof (norm_range a Ha). rewrite Z.mod_small in H2 by nia.
  split; [split; [done|lia]|]. unfold fp. rewrite H2, <- Zmod.of_Z_add. f_equal. lia.
Qed.

Lemma p_odd : Z.Odd p.
Proof.
  destruct (Z.Even_or_Odd p) as [[k Hk]|]; [|done]. destruct Hpr as [_ H2]. exfalso. apply (H2 2%Z); [lia|]. exists k. lia.
Qed.

Lemma half_rule n a :
  bounded n a -> (1 <= n <= 2 ^ 12)%Z -> bounded n (bn_mult_half a prime) /\ (1 + 1) * fp (bn_mult_half a prime) = fp a.
Proof.
  intros [Ha Ba] Hn. pose proof (norm_range a Ha). destruct (bn_mult_half_spec prime Hprime Hrange a p_odd Ha) as [H1 H2]; [nia|].
  assert (0 <= value a mod 2 <= 1)%Z by (Z.div_mod_to_equations; lia). split; [split; [done|nia]|].
  rewrite <- (Zmod.of_Z_1 p), <- Zmod.of_Z_add. unfold fp. rewrite <- Zmod.of_Z_mul. change (1 + 1)%Z with 2%Z. apply Zmod.of_Z_inj. rewrite H2. apply Z.mod_add. lia.
Qed.

Lemma subi_rule n a b :
  bounded n a -> (0 <= n <= 2 ^ 12)%Z -> (0 <= b <= nth 0 prime 0)%Z ->
  exists r, bn_subi a b prime = Ret r /\ bounded (n + 1)%Z r /\ fp r = fp a - Zmod.of_Z p b.
Proof.
  intros [Ha Ba] Hn Hb. pose proof (norm_range a Ha). destruct (bn_subi_spec prime Hprime Hrange a b Ha Hb) as (r & E & N & V); [nia|].
  exists r. split; [done|]. split; [split; [done|nia]|]. unfold fp. rewrite V, <- Zmod.of_Z_sub. apply Zmod.of_Z_inj.
  replace (value a - b + p)%Z with (value a - b + 1 * p)%Z by ring. apply Z.mod_add. lia.
Qed.

Lemma mod_rule a : bounded 2 a -> exists r, bn_mod a prime = Ret r /\ bounded 1 r /\ fp r = fp a.
Proof.
  intros Ha. destruct (bn_mod_spec prime Hprime a Ha) as (r & E & N & V). exists r. split; [done|].
  split; [split; [done|]; pose proof (Z.mod_pos_bound (value a) p); lia|]. apply fp_eq. rewrite V. apply Z.mod_mod. lia.
Qed.

Lemma fp_zero a : fp a = 0 <-> (value a mod p = 0)%Z.
Proof. unfold fp. rewrite <- Zmod.of_Z_0, Zmod.of_Z_inj, Z.mod_0_l by lia. done. Qed.

Lemma inverse_rule n a :
  bounded n a -> (n <= 180)%Z -> (2 <= nth 0 prime 0)%Z ->
  exists r, bn_inverse a prime = Ret r /\ bounded 1 r /\ if decide (fp a = 0) then fp r = 0 else fp r * fp a = 1.
Proof.
  intros [Ha Ba] Hn H2. destruct (bn_inverse_pow prime Hprime Hrange a) as (r & E & N & V); [split; [done|nia]|done|]. exists r. split; [done|].
  pose proof (Z.mod_pos_bound (value a ^ (p - 2)) p ltac:(lia)). split; [split; [done|lia]|]. case_decide as H0; rewrite fp_zero in H0.
  - rewrite fp_zero, V, Z.mod_mod by lia. replace (p - 2)%Z with (Z.succ (p - 3)) by lia. rewrite Z.pow_succ_r, Z.mul_mod, H0 by lia. by rewrite Z.mul_0_l, Z.mod_0_l by lia.
  - unfold fp. rewrite <- Zmod.of_Z_mul, <- Zmod.of_Z_1. apply Zmod.of_Z_inj. rewrite V, Z.mul_mod_idemp_l, Z.mul_comm, <- Z.pow_succ_r by lia.
    replace (Z.succ (p - 2)) with (p - 1)%Z by lia. rewrite Z.fermat_nz by done. rewrite Z.mod_1_l by lia. done.
Qed.

Lemma cmov_rule (c : bool) t f : normalized t -> normalized f -> bn_cmov (b2z c) t f = Ret (if c then t else f).
Proof. intros [Lt Ht] [Lf Hf]. apply bn_cmov_spec; [done|done|lia]. Qed.

(** ** Steps through the code *)

Ltac bound_of l := match goal with B : bounded _ l |- _ => B end.

Ltac next_mul r B V :=
  match goal with
  | |- context [bn_multiply ?k ?x ?q] =>
      let Bk := bound_of k in let Bx := bound_of x in
      destruct (mul_rule _ _ k x Bk Bx) as (r & -> & B & V); [lia..|]; rewrite bind_Ret
  end.

Ltac name_it t n := let E := fresh in remember t as n eqn:E; clear E.

Context (curve : ecdsa_curve) (Hcurve : ecdsa.prime curve = prime) (Hca : (-3 <= ecdsa.a curve <= 0)%Z) (H0 : (4 <= nth 0 prime 0)%Z).

Definition fa : F := Zmod.of_Z p (ecdsa.a curve).

Definition jbounded (j : jacobian_curve_point) : Prop := bounded 2 (jx j) /\ upto2 (jy j) /\ bounded 3 (jz j).

Lemma jbounded_intro x y z : bounded 2 x -> bounded 2 y -> bounded 2 z -> jbounded (mkJac x y z).
Proof. intros Hx Hy Hz. split; [done|]. split; [by apply b2|by apply (bounded_le 2)]. Qed.

(** What a jacobian point stands for. *)
Definition jpoint (j : jacobian_curve_point) : option (F * F) := affine p (fp (jx j)) (fp (jy j)) (fp (jz j)).

Lemma fa_opp k : k = (- ecdsa.a curve)%Z -> Zmod.of_Z p k = 0 - fa.
Proof. intros ->. unfold fa. rewrite <- Zmod.of_Z_0, <- Zmod.of_Z_sub. done. Qed.

Lemma of_Z_3 : Zmod.of_Z p 3 = 1 + 1 + 1.
Proof. rewrite <- (Zmod.of_Z_1 p), <- !Zmod.of_Z_add. done. Qed.

Lemma of_Z_2 : Zmod.of_Z p 2 = 1 + 1.
Proof. rewrite <- (Zmod.of_Z_1 p), <- !Zmod.of_Z_add. done. Qed.

Lemma double_formula j :
  jbounded j -> exists j' m, point_jacobian_double j curve = Ret j' /\ jbounded j' /\
    let '(x, y, z) := (fp (jx j), fp (jy j), fp (jz j)) in
    (1 + 1) * m = (1 + 1 + 1) * (x * x) + fa * (z * z * (z * z)) /\
    fp (jx j') = m * m - (x * (y * y) + x * (y * y)) /\ fp (jy j') = m * (x * (y * y) - fp (jx j')) - y * y * (y * y) /\ fp (jz j') = y * z.
Proof.
  intros (Bx & Uy & Bz). pose proof (upto2_bounded _ Uy) as By. unfold point_jacobian_double. rewrite Hcurve. cbv zeta.
  rewrite (proj2 (Z.leb_le (-3) _)), (proj2 (Z.leb_le _ 0)) by lia. unfold cassert. cbn [andb]. rewrite bind_Ret.
  next_mul m1 Bm1 Vm1. destruct (mult_k_rule m1 3) as [Bm2 Vm2]; [apply Bm1|lia|]. name_it (bn_mult_k m1 3 prime) m2.
  next_mul z2 Bz2 Vz2. next_mul z4 Bz4 Vz4. destruct (mult_k_rule z4 (- ecdsa.a curve)%Z) as [Baz Vaz]; [apply Bz4|lia|]. name_it (bn_mult_k z4 (- ecdsa.a curve)%Z prime) az.
  destruct (sub_rule _ m2 az Bm2 (b2 _ Baz)) as [Bm3 Vm3]; [lia|]. name_it (bn_subtractmod m2 az prime) m3.
  destruct (half_rule _ m3 Bm3) as [Bm Vm]; [lia|]. name_it (bn_mult_half m3 prime) m.
  next_mul msq Bmsq Vmsq. next_mul ysq Bysq Vysq. next_mul xysq Bxysq Vxysq. next_mul z3 Bz3 Vz3.
  destruct (lshift_rule _ xysq Bxysq) as [Bl Vl]; [lia|]. name_it (bn_lshift xysq) l.
  destruct (fast_mod_rule l (proj1 Bl)) as [Bl2 Vl2]. name_it (bn_fast_mod l prime) l2.
  destruct (sub_rule _ msq l2 Bmsq (b2 _ Bl2)) as [Bx3 Vx3]; [lia|]. name_it (bn_subtractmod msq l2 prime) x3.
  destruct (fast_mod_rule x3 (proj1 Bx3)) as [Bx4 Vx4]. name_it (bn_fast_mod x3 prime) x4.
  destruct (sub_rule _ xysq x4 Bxysq (b2 _ Bx4)) as [By1 Vy1]; [lia|]. name_it (bn_subtractmod xysq x4 prime) y1.
  next_mul y2 By2 Vy2. next_mul y4 By4 Vy4.
  destruct (sub_rule _ y2 y4 By2 (b2 _ By4)) as [By5 Vy5]; [lia|]. name_it (bn_subtractmod y2 y4 prime) y5.
  destruct (fast_mod_rule y5 (proj1 By5)) as [By6 Vy6]. name_it (bn_fast_mod y5 prime) y6.
  exists (mkJac x4 y6 z3), (fp m). split; [done|]. split; [by apply jbounded_intro|]. cbn [jx jy jz].
  split_and!.
  - rewrite Vm, Vm3, Vm2, Vaz, Vm1, Vz4, Vz2, of_Z_3, (fa_opp _ eq_refl). ring.
  - rewrite Vx4, Vx3, Vl2, Vl, Vmsq, Vxysq, Vysq. ring.
  - rewrite Vy6, Vy5, Vy4, Vy2, Vy1, Vxysq, Vysq. ring.
  - done.
Qed.

(** A positive number is never reduced to zero. *)
Lemma fast_mod_pos a : normalized a -> (0 < value a)%Z -> (0 < value (bn_fast_mod a prime))%Z.
Proof.
  intros [La Ha] Hv. destruct (bn_fast_mod_spec prime Hprime Hrange a La) as [[H1 _] H2]; [eapply Forall_impl; [|exact Ha]; unfold is_u; lia|].
  assert (Z.shiftr (nth 8 a 0%Z) 16 * 2 ^ 256 <= value a)%Z as Hc.
  { rewrite Z.shiftr_div_pow2 by lia. clear -La Ha. revert La. do 9 (destruct a as [|? a]; [done|]; apply Forall_cons_1 in Ha as [? Ha]).
    destruct a; [|done]. intros _. cbn [nth value] in *. unfold is_u in *. Z.div_mod_to_equations. lia. }
  pose proof (norm_range _ H1). destruct (decide (value (bn_fast_mod a prime) = 0)%Z) as [E|]; [|lia]. rewrite E in H2. exfalso. nia.
Qed.

Lemma is_doubling_spec xz x2 :
  bounded 2 xz -> bounded 2 x2 ->
  bn_is_equal (bn_fast_mod (bn_subtractmod xz x2 prime) prime) prime = bool_decide (fp xz - fp x2 = 0).
Proof.
  intros B1 B2. destruct (sub_rule _ xz x2 B1 (b2 _ B2)) as [Bs Vs]; [lia|]. destruct (fast_mod_rule _ (proj1 Bs)) as [Bf Vf].
  assert (0 < value (bn_subtractmod xz x2 prime))%Z as Hpos.
  { destruct B1 as [N1 B1]. destruct (bn_subtractmod_cong prime Hprime xz x2 N1 B2) as [_ H2]; [lia|]. rewrite H2. pose proof (norm_range xz N1). destruct B2. lia. }
  pose proof (fast_mod_pos _ (proj1 Bs) Hpos) as Hp2. rewrite <- Vs, <- Vf. set (h := bn_fast_mod _ prime) in *. destruct Bf as [[Lh Oh] Bf]. destruct Hprime as [Lp Op].
  rewrite bn_is_equal_spec by (done || lia). apply eq_true_iff_eq. rewrite !bool_decide_eq_true, fp_zero. split.
  - intros ->. apply Z.mod_same. lia.
  - intros E. apply Z.mod_divide in E as [k Hk]; [|lia]. assert (k = 1%Z) as -> by nia. lia.
Qed.

(** The part for a coefficient a that is not zero. *)
Lemma az_rule xz :
  bounded 2 xz ->
  exists az, (if negb (ecdsa.a curve =? 0)%Z then az ← bn_multiply xz xz prime; Ret (bn_mult_k az (- ecdsa.a curve) prime) else Ret []) = Ret az /\
    forall r2, bounded 2 r2 -> let r := if negb (ecdsa.a curve =? 0)%Z then bn_subtractmod r2 az prime else r2 in
      bounded 4 r /\ fp r = fp r2 + fa * (fp xz * fp xz).
Proof.
  intros B. destruct (Z.eqb_spec (ecdsa.a curve) 0) as [E|E]; cbn [negb].
  - exists []. split; [done|]. intros r2 Br. split; [by apply (bounded_le 2)|]. unfold fa. rewrite E, Zmod.of_Z_0. ring.
  - next_mul az Baz Vaz. destruct (mult_k_rule az (- ecdsa.a curve)%Z) as [Bk Vk]; [apply Baz|lia|]. eexists. split; [done|]. intros r2 Br.
    destruct (sub_rule _ _ _ Br (b2 _ Bk)) as [Bs Vs]; [lia|]. split; [done|]. rewrite Vs, Vk, Vaz, (fa_opp _ eq_refl). ring.
Qed.

Lemma add_formula q j :
  bounded 2 (ecdsa.x q) -> bounded 2 (ecdsa.y q) -> jbounded j ->
  exists j' h r, point_jacobian_add q j curve = Ret j' /\ jbounded j' /\
    let '(x1, y1, x2, y2, z) := (fp (ecdsa.x q), fp (ecdsa.y q), fp (jx j), fp (jy j), fp (jz j)) in
    let xz := x1 * (z * z) in let yz := y1 * (z * z * z) in
    (if decide (xz - x2 = 0) then r = (1 + 1 + 1) * (x2 * x2) + fa * (z * z * (z * z)) /\ h = yz + y2 else r = yz - y2 /\ h = xz - x2) /\
    fp (jx j') = r * r - (xz + x2) * (h * h) /\
    (1 + 1) * fp (jy j') = r * ((xz + x2) * (h * h) - fp (jx j') - fp (jx j')) - (yz + y2) * (h * h * h) /\
    fp (jz j') = h * z.
Proof.
  intros B1 B2 (Bx & Uy & Bz). pose proof (upto2_bounded _ Uy) as By. unfold point_jacobian_add. rewrite Hcurve. cbv zeta.
  rewrite (proj2 (Z.leb_le (-3) _)), (proj2 (Z.leb_le _ 0)) by lia. unfold cassert. cbn [andb]. rewrite bind_Ret.
  next_mul z2 Bz2 Vz2. destruct (mul_rule _ _ z2 (jz j) Bz2 Bz) as (z3 & -> & Bz3 & Vz3); [lia..|]. rewrite bind_Ret. destruct (az_rule z2 Bz2) as (az & -> & Haz). rewrite bind_Ret. next_mul xz Bxz Vxz.
  rewrite (is_doubling_spec xz (jx j) Bxz Bx). destruct (sub_rule _ xz (jx j) Bxz (b2 _ Bx)) as [Bh1 Vh1]; [lia|]. name_it (bn_subtractmod xz (jx j) prime) h1.
  destruct (fast_mod_rule h1 (proj1 Bh1)) as [Bh2 Vh2]. name_it (bn_fast_mod h1 prime) h2.
  destruct (add_rule _ _ xz (jx j) Bxz Bx) as [Bxs Vxs]; [lia..|]. name_it (bn_add xz (jx j)) xs.
  next_mul yz Byz Vyz. destruct (sub_rule _ yz (jy j) Byz Uy) as [Br1 Vr1]; [lia|]. name_it (bn_subtractmod yz (jy j) prime) r1.
  destruct (add_rule _ _ yz (jy j) Byz By) as [Bys Vys]; [lia..|]. name_it (bn_add yz (jy j)) ys.
  next_mul r2 Br2 Vr2. destruct (mult_k_rule r2 3) as [Br3 Vr3]; [apply Br2|lia|]. name_it (bn_mult_k r2 3 prime) r3.
  destruct (Haz r3 Br3) as [Br4 Vr4]. name_it (if negb (ecdsa.a curve =? 0)%Z then bn_subtractmod r3 az prime else r3) r4.
  set (d := bool_decide (fp xz - fp (jx j) = 0)). rewrite (cmov_rule d r4 r1 (proj1 Br4) (proj1 Br1)), bind_Ret.
  rewrite (cmov_rule d ys h2 (proj1 Bys) (proj1 Bh2)), bind_Ret.
  assert (bounded 4 (if d then r4 else r1)) as Br by (by destruct d). assert (bounded 5 (if d then ys else h2)) as Bh by (destruct d; [done|by apply (bounded_le 2)]).
  assert (if decide (fp xz - fp (jx j) = 0) then fp (if d then r4 else r1) = fp r4 /\ fp (if d then ys else h2) = fp ys
    else fp (if d then r4 else r1) = fp r1 /\ fp (if d then ys else h2) = fp h2) as Hd by (unfold d; case_bool_decide; case_decide; done).
  name_it (if d then r4 else r1) r. name_it (if d then ys else h2) h.
  next_mul hh Bhh Vhh. next_mul hhh Bhhh Vhhh. next_mul hx Bhx Vhx. next_mul hy Bhy Vhy. next_mul zz Bzz Vzz. next_mul rr Brr Vrr.
  destruct (sub_rule _ rr hx Brr (b2 _ Bhx)) as [Bx3 Vx3]; [lia|]. name_it (bn_subtractmod rr hx prime) x3.
  destruct (fast_mod_rule x3 (proj1 Bx3)) as [Bx4 Vx4]. name_it (bn_fast_mod x3 prime) x4.
  destruct (sub_rule _ hx x4 Bhx (b2 _ Bx4)) as [By1 Vy1]; [lia|]. name_it (bn_subtractmod hx x4 prime) y1.
  destruct (sub_rule _ y1 x4 By1 (b2 _ Bx4)) as [By2 Vy2]; [lia|]. name_it (bn_subtractmod y1 x4 prime) y2. next_mul y3 By3 Vy3.
  destruct (sub_rule _ y3 hy By3 (b2 _ Bhy)) as [By4 Vy4]; [lia|]. name_it (bn_subtractmod y3 hy prime) y4.
  destruct (half_rule _ y4 By4) as [By5 Vy5]; [lia|]. name_it (bn_mult_half y4 prime) y5.
  destruct (fast_mod_rule y5 (proj1 By5)) as [By6 Vy6]. name_it (bn_fast_mod y5 prime) y6.
  exists (mkJac x4 y6 zz), (fp h), (fp r). split; [done|]. split; [by apply jbounded_intro|]. cbn [jx jy jz].
  assert (fp xz = fp (ecdsa.x q) * (fp (jz j) * fp (jz j))) as Exz by (rewrite Vxz, Vz2; ring).
  assert (fp yz = fp (ecdsa.y q) * (fp (jz j) * fp (jz j) * fp (jz j))) as Eyz by (rewrite Vyz, Vz3, Vz2; ring).
  rewrite <- Exz, <- Eyz. split_and!.
  - case_decide; destruct Hd as [-> ->]; split; try done; [|by rewrite Vh2]. rewrite Vr4, Vr3, Vr2, of_Z_3, Vz2. ring.
  - rewrite Vx4, Vx3, Vrr, Vhx, Vxs, Vhh. ring.
  - rewrite Vy6, Vy5, Vy4, Vy3, Vy2, Vy1, Vhx, Vhy, Vhhh, Vxs, Vys, Vhh. ring.
  - done.
Qed.

(** ** Refinement *)

Context (fb : F) (Hb0 : fb <> 0).

Local Abbreviation curve_ok := (on_curve p fa fb).
Local Abbreviation valid := (Curve.valid p fa fb).
Local Abbreviation add := (ec_add p fa).
Local Abbreviation double := (ec_double p fa).

Lemma p_gt3 : (3 < p)%Z.
Proof. lia. Qed.

(** What an affine point stands for; infinity is (0, 0), which is not on the
    curve. *)
Definition rep (c : curve_point) (P : option (F * F)) : Prop :=
  bounded 1 (ecdsa.x c) /\ bounded 1 (ecdsa.y c) /\
  match P with None => fp (ecdsa.x c) = 0 /\ fp (ecdsa.y c) = 0 | Some (X, Y) => fp (ecdsa.x c) = X /\ fp (ecdsa.y c) = Y end.

Lemma origin_not_on_curve : ~ curve_ok (0, 0).
Proof. unfold on_curve. intros E. apply Hb0. replace fb with (0 * 0 * 0 + fa * 0 + fb) by ring. rewrite <- E. ring. Qed.

Lemma jdouble_refines j P :
  jbounded j -> jpoint j = Some P -> exists j', point_jacobian_double j curve = Ret j' /\ jbounded j' /\ jpoint j' = double P.
Proof.
  intros Hj HP. destruct (double_formula j Hj) as (j' & m & E & Hj' & Hm & Hx & Hy & Hz). exists j'. split; [done|]. split; [done|].
  unfold jpoint in *. rewrite Hz. exact (jacobian_double p Hpr p_gt3 fa _ _ _ m _ _ P HP Hm Hx Hy).
Qed.

Lemma jadd_refines q j Q P :
  rep q (Some Q) -> jbounded j -> jpoint j = Some P -> curve_ok Q -> curve_ok P ->
  exists j', point_jacobian_add q j curve = Ret j' /\ jbounded j' /\ jpoint j' = add (Some Q) (Some P).
Proof.
  destruct Q as [X Y]. intros (B1 & B2 & EX & EY) Hj HP HQ HPc. apply (bounded_le 1 2) in B1; [|lia]. apply (bounded_le 1 2) in B2; [|lia].
  destruct (add_formula q j B1 B2 Hj) as (j' & h & r & E & Hj' & Hd & Hx & Hy & Hz). rewrite EX, EY in *. exists j'. split; [done|]. split; [done|].
  unfold jpoint in *. rewrite Hz. case_decide as D; destruct Hd as [Hr Hh].
  - exact (jacobian_add_double p Hpr p_gt3 fa fb X Y _ _ _ _ _ h r _ _ P HQ HPc HP eq_refl eq_refl D Hr Hh Hx Hy).
  - rewrite <- Hh in D. exact (jacobian_add_generic p Hpr p_gt3 fa X Y _ _ _ _ _ h r _ _ P HP eq_refl eq_refl Hh Hr D Hx Hy).
Qed.

Lemma fp_inj u v : bounded 1 u -> bounded 1 v -> fp u = fp v <-> value u = value v.
Proof.
  intros [Nu Bu] [Nv Bv]. pose proof (norm_range u Nu). pose proof (norm_range v Nv). unfold fp. rewrite Zmod.of_Z_inj, !Z.mod_small by lia. done.
Qed.

Lemma fp_inj0 u : bounded 1 u -> fp u = 0 <-> value u = 0%Z.
Proof. intros [Nu Bu]. pose proof (norm_range u Nu). rewrite fp_zero, Z.mod_small by lia. done. Qed.

Lemma is_equal_fp u v : bounded 1 u -> bounded 1 v -> bn_is_equal u v = bool_decide (fp u = fp v).
Proof.
  intros Bu Bv. pose proof Bu as [[Lu Ou] _]. pose proof Bv as [[Lv Ov] _]. rewrite bn_is_equal_spec by (done || lia). by apply bool_decide_ext; rewrite fp_inj.
Qed.

Lemma is_zero_fp u : bounded 1 u -> bn_is_zero u = bool_decide (fp u = 0).
Proof. intros Bu. pose proof Bu as [[_ Ou] _]. rewrite bn_is_zero_spec by done. by apply bool_decide_ext; rewrite fp_inj0. Qed.

Lemma infinity_rep : rep infinity None.
Proof.
  assert (bounded 1 bn_zero) as B. { split; [split; [done|apply (bool_decide_unpack _); by vm_compute]|]. change (value bn_zero) with 0%Z. lia. }
  split; [done|]. split; [done|]. cbn. by rewrite fp_inj0.
Qed.

Lemma is_infinity_rep c P : rep c P -> valid P -> point_is_infinity c = bool_decide (P = None).
Proof.
  intros (Bx & By & HP) HV. unfold point_is_infinity. rewrite !is_zero_fp by done. destruct P as [[X Y]|].
  - destruct HP as [-> ->]. rewrite (bool_decide_eq_false_2 (Some (X, Y) = None)) by done. apply andb_false_iff.
    destruct (decide (X = 0)) as [->|]; [|left; by apply bool_decide_eq_false_2]. right. apply bool_decide_eq_false_2. intros ->. by apply origin_not_on_curve.
  - destruct HP as [-> ->]. by rewrite !bool_decide_eq_true_2.
Qed.

(** The end of both affine formulas: the third point of a line. *)
Lemma third_code (lambda px py s : list Z) (x2 : F) (res : list Z -> list Z -> outcome curve_point) :
  bounded 2 lambda -> bounded 1 px -> bounded 1 py -> bounded 2 s -> fp s = fp px + x2 ->
  exists xr yr, bounded 1 xr /\ bounded 1 yr /\ (fp xr, fp yr) = third p (fp lambda) (fp px) (fp py) x2 /\
    (xr ← bn_multiply lambda lambda prime;
     xr ← bn_mod (bn_fast_mod (bn_subtractmod xr s prime) prime) prime;
     yr ← bn_multiply lambda (bn_subtractmod px xr prime) prime;
     yr ← bn_mod (bn_fast_mod (bn_subtractmod yr py prime) prime) prime;
     res xr yr) = res xr yr.
Proof.
  intros Bl Bpx Bpy Bs Vs. next_mul xr Bxr Vxr. destruct (sub_rule _ xr s Bxr (b2 _ Bs)) as [Bx1 Vx1]; [lia|]. name_it (bn_subtractmod xr s prime) x1.
  destruct (fast_mod_rule x1 (proj1 Bx1)) as [Bx3 Vx3]. name_it (bn_fast_mod x1 prime) x3. destruct (mod_rule x3 Bx3) as (x4 & -> & Bx4 & Vx4). rewrite bind_Ret.
  destruct (sub_rule _ px x4 Bpx (b2 _ (bounded_le 1 2 _ ltac:(lia) Bx4))) as [By1 Vy1]; [lia|]. name_it (bn_subtractmod px x4 prime) y1.
  next_mul y2 By2 Vy2. destruct (sub_rule _ y2 py By2 (b2 _ (bounded_le 1 2 _ ltac:(lia) Bpy))) as [By3 Vy3]; [lia|]. name_it (bn_subtractmod y2 py prime) y3.
  destruct (fast_mod_rule y3 (proj1 By3)) as [By4 Vy4]. name_it (bn_fast_mod y3 prime) y4. destruct (mod_rule y4 By4) as (y5 & -> & By5 & Vy5). rewrite bind_Ret.
  exists x4, y5. split; [done|]. split; [done|]. split; [|done]. unfold third. rewrite Vy5, Vy4, Vy3, Vy2, Vy1, Vx4, Vx3, Vx1, Vxr, Vs. f_equal; ring.
Qed.

Lemma double_refines c P :
  rep c (Some P) -> curve_ok P -> exists c', point_double curve c = Ret c' /\ rep c' (double P).
Proof.
  destruct P as [X Y]. intros Hc HP. pose proof (is_infinity_rep c (Some (X, Y)) Hc HP) as Hi. destruct Hc as (Bx & By & EX & EY).
  unfold point_double. rewrite Hcurve, Hi. cbn [bool_decide decide_rel]. cbv zeta. rewrite bool_decide_eq_false_2 by done. rewrite is_zero_fp, EY by done.
  unfold ec_double. case_decide as HY; [rewrite bool_decide_eq_true_2 by done; eexists; split; [done|apply infinity_rep]|]. rewrite bool_decide_eq_false_2 by done.
  destruct (mult_k_rule (ecdsa.y c) 2) as [B2y V2y]; [apply By|lia|]. name_it (bn_mult_k (ecdsa.y c) 2 prime) y2.
  destruct (inverse_rule 2 y2 B2y) as (inv & -> & Binv & Vinv); [lia|lia|]. rewrite bind_Ret.
  next_mul xx Bxx Vxx. destruct (mult_k_rule xx 3) as [B3 V3]; [apply Bxx|lia|]. name_it (bn_mult_k xx 3 prime) x3.
  rewrite (wrap_u_small 32) by (unfold is_u; lia).
  destruct (subi_rule _ x3 (- ecdsa.a curve)%Z B3) as (num & -> & Bn & Vn); [lia|lia|]. rewrite bind_Ret. next_mul l Bl Vl.
  destruct (lshift_rule _ (ecdsa.x c) Bx) as [Bs Vs]; [lia|]. rewrite EX in Vs at 2.
  destruct (third_code l (ecdsa.x c) (ecdsa.y c) (bn_lshift (ecdsa.x c)) X (fun xr yr => Ret (mkPoint xr yr)) Bl Bx By Bs Vs) as (xr & yr & Bxr & Byr & V & ->).
  eexists. split; [done|]. split; [done|]. split; [done|]. rewrite EX, EY in V.
  assert (fp y2 <> 0) as Hy2. { rewrite V2y, EY, of_Z_2. apply mul_neq; [done|apply two_neq, p_gt3; done|done]. }
  rewrite decide_False in Vinv by done.
  assert (fp l = Zmod.mdiv ((1 + 1 + 1) * X * X + fa) ((1 + 1) * Y)) as El; [|rewrite <- El; by apply pair_equal_spec]. symmetry. apply div_of_mul; [done|apply mul_neq; [done|apply two_neq, p_gt3|done]; done|].
  rewrite Vl, Vn, V3, Vxx, EX, of_Z_3, (fa_opp _ eq_refl). rewrite V2y, EY, of_Z_2 in Vinv.
  replace (((1 + 1 + 1) * (X * X) - (0 - fa)) * fp inv * ((1 + 1) * Y)) with (((1 + 1 + 1) * (X * X) - (0 - fa)) * (fp inv * ((1 + 1) * Y))) by ring. rewrite Vinv. ring.
Qed.

Lemma add_refines c1 c2 P Q :
  rep c1 P -> rep c2 Q -> valid P -> valid Q -> exists c, point_add curve c1 c2 = Ret c /\ rep c (add P Q).
Proof.
  intros R1 R2 V1 V2. unfold point_add. rewrite (is_infinity_rep c1 P R1 V1), (is_infinity_rep c2 Q R2 V2), Hcurve. cbv zeta.
  destruct P as [[X1 Y1]|]; [|rewrite bool_decide_eq_true_2 by done; by exists c2]. rewrite bool_decide_eq_false_2 by done.
  destruct Q as [[X2 Y2]|]; [|rewrite bool_decide_eq_true_2 by done; by exists c1]. rewrite bool_decide_eq_false_2 by done.
  pose proof R1 as (Bx1 & By1 & EX1 & EY1). pose proof R2 as (Bx2 & By2 & EX2 & EY2). cbn [ec_add].
  unfold point_is_equal, point_is_negative_of. rewrite !is_equal_fp, is_zero_fp, EX1, EY1, EX2, EY2 by done.
  destruct (decide (X1 = X2)) as [EX|NX].
  - rewrite !(bool_decide_eq_true_2 (X1 = X2)) by done. cbn [andb negb]. destruct (decide (Y1 = Y2)) as [EY|NY].
    + rewrite bool_decide_eq_true_2 by done. subst X2 Y2. by apply double_refines.
    + rewrite bool_decide_eq_false_2 by done. rewrite <- EX in V2. destruct (same_x p Hpr fa fb X1 Y1 Y2 V1 V2) as [|Hopp]; [done|].
      rewrite bool_decide_eq_false_2 by (intros E0; apply NY; rewrite E0 in Hopp |- *; replace Y2 with (0 - (0 - Y2)) by ring; rewrite <- Hopp; ring).
      cbn [negb]. eexists. split; [done|apply infinity_rep].
  - rewrite !(bool_decide_eq_false_2 (X1 = X2)) by done. cbn [andb negb].
    assert (bounded 2 (ecdsa.x c1) /\ bounded 2 (ecdsa.y c1)) as [Ux1 Uy1] by (split; apply (bounded_le 1 2); done || lia).
    destruct (sub_rule _ (ecdsa.x c2) (ecdsa.x c1) Bx2 (b2 _ Ux1)) as [Bd Vd]; [lia|]. name_it (bn_subtractmod (ecdsa.x c2) (ecdsa.x c1) prime) d.
    destruct (inverse_rule _ d Bd) as (inv & -> & Binv & Vinv); [lia|lia|]. rewrite bind_Ret.
    destruct (sub_rule _ (ecdsa.y c2) (ecdsa.y c1) By2 (b2 _ Uy1)) as [Be Ve]; [lia|]. name_it (bn_subtractmod (ecdsa.y c2) (ecdsa.y c1) prime) e.
    next_mul l Bl Vl. destruct (addmod_rule (ecdsa.x c1) (ecdsa.x c2) (proj1 Bx1) (proj1 Bx2)) as [Bs Vs]. rewrite EX2 in Vs.
    destruct (third_code l (ecdsa.x c1) (ecdsa.y c1) (bn_addmod (ecdsa.x c1) (ecdsa.x c2) prime) X2 (fun xr yr => Ret (mkPoint xr yr)) Bl Bx1 By1 Bs Vs) as (xr & yr & Bxr & Byr & V & ->).
    eexists. split; [done|]. split; [done|]. split; [done|]. rewrite EX1, EY1 in V.
    assert (X2 - X1 <> 0) as Hd by (apply sub_neq; [done|congruence]). rewrite Vd, EX1, EX2, decide_False in Vinv by done.
    assert (fp l = Zmod.mdiv (Y2 - Y1) (X2 - X1)) as El; [|rewrite <- El; by apply pair_equal_spec]. symmetry. apply div_of_mul; [done|done|].
    rewrite Vl, Ve, EY1, EY2. replace (fp inv * (Y2 - Y1) * (X2 - X1)) with (fp inv * (X2 - X1) * (Y2 - Y1)) by ring. rewrite Vinv. ring.
Qed.

(** ** Negation and conversion *)

Lemma land_all v : is_u 30 v -> Z.land v (2 ^ 32 - 1) = v.
Proof. intros Hv. change (2 ^ 32 - 1)%Z with (Z.ones 32). rewrite Z.land_ones by lia. apply Z.mod_small. unfold is_u in Hv. lia. Qed.

Lemma top_limb l n : normalized l -> (value l < n * 2 ^ 240)%Z -> (nth 8 l 0%Z < n)%Z.
Proof.
  intros [Hl Ha] Hv. revert Hl Hv. do 9 (destruct l as [|? l]; [done|]; apply Forall_cons_1 in Ha as [? Ha]). destruct l; [|done]. intros _ Hv.
  cbn [nth value] in *. unfold is_u in *. lia.
Qed.

Lemma select_first s t :
  limbs_ok s -> length s = length t -> zip_with (fun n v => Z.lor (Z.land n (2 ^ 32 - 1)) (Z.land v 0)) s t = s.
Proof.
  intros Hs. revert t. induction Hs as [|n s Hn _ IH]; intros [|v t] Hlen; [done..|]. injection Hlen as Hlen. cbn [zip_with].
  rewrite Z.land_0_r, Z.lor_0_r, land_all by done. f_equal. by apply IH.
Qed.

Lemma select_second s t :
  limbs_ok t -> length s = length t -> zip_with (fun n v => Z.lor (Z.land n 0) (Z.land v (2 ^ 32 - 1))) s t = t.
Proof.
  intros Ht. revert s. induction Ht as [|v t Hv _ IH]; intros [|n s] Hlen; [done..|]. injection Hlen as Hlen. cbn [zip_with].
  rewrite Z.land_0_r, Z.lor_0_l, land_all by done. f_equal. by apply IH.
Qed.

Lemma neg_terms (q l : list Z) :
  length q = 9%nat -> length l = 9%nat ->
  zip_with (fun p v => 0x3fffffff + 2 * p - v)%Z q l = zip_with (fun xp y => xp - y)%Z (zip_with (fun x p => 0x3FFFFFFF + x + 2 * p)%Z bn_zero q) l.
Proof.
  do 9 (destruct q as [|? q]; [done|]; destruct l as [|? l]; [done|]). destruct q, l; [|done..]. intros _ _. cbn [zip_with bn_zero replicate]. repeat (f_equal; [lia|]). done.
Qed.

Lemma negate_rule (s : bool) l :
  upto2 l -> exists r, conditional_negate (if s then 2 ^ 32 - 1 else 0)%Z l prime = Ret r /\ upto2 r /\ fp r = (if s then 0 - fp l else fp l).
Proof.
  intros Hl. pose proof Hl as [Nl Bl]. pose proof (norm_range l Nl) as R. unfold conditional_negate.
  rewrite (proj2 (Z.ltb_lt (nth 8 l 0%Z) 0x20000)) by (apply (top_limb l); [done|lia]). unfold cassert. rewrite bind_Ret.
  assert (zip_with (fun p v => 0x3fffffff + 2 * p - v)%Z prime l = zip_with (fun xp y => xp - y)%Z (zip_with (fun x p => 0x3FFFFFFF + x + 2 * p)%Z bn_zero prime) l) as E.
  { apply neg_terms; [apply Hprime|apply Nl]. }
  rewrite E. change (carry 32 1 _).1 with (bn_subtractmod bn_zero l prime).
  assert (bounded 1 bn_zero) as Bz by apply infinity_rep. destruct (sub_rule 1 bn_zero l Bz Hl) as [Bn Vn]; [lia|].
  destruct (bn_subtractmod_spec bn_zero l prime (proj1 Bz) Nl Hprime) as [Nn En]. change (value bn_zero) with 0%Z in En. rewrite Z.mod_small in En by lia.
  set (neg := bn_subtractmod bn_zero l prime) in *. destruct s.
  - change (u32 (Z.lnot (2 ^ 32 - 1))) with 0%Z. assert (zip_with (fun n v => Z.lor (Z.land n (2 ^ 32 - 1)) (Z.land v 0)) neg l = neg) as ->.
    { apply select_first; [apply Nn|destruct Nn, Nl; lia]. }
    rewrite (proj2 (Z.ltb_lt (nth 8 neg 0%Z) 0x20000)) by (apply (top_limb neg); [done|lia]). unfold cassert. rewrite bind_Ret. exists neg. split; [done|].
    split; [split; [done|lia]|]. rewrite Vn. assert (fp bn_zero = 0) as -> by apply infinity_rep. done.
  - change (u32 (Z.lnot 0)) with (2 ^ 32 - 1)%Z. assert (zip_with (fun n v => Z.lor (Z.land n 0) (Z.land v (2 ^ 32 - 1))) neg l = l) as ->.
    { apply select_second; [apply Nl|destruct Nn, Nl; lia]. }
    rewrite (proj2 (Z.ltb_lt (nth 8 l 0%Z) 0x20000)) by (apply (top_limb l); [done|lia]). unfold cassert. rewrite bind_Ret. by exists l.
Qed.

Lemma generate_k_rule rnd m : normalized m ->
  match generate_k_random rnd m with
  | Ret (k, rnd') => normalized k /\ (0 < value k < value m)%Z /\ (length rnd' < length rnd)%nat
  | NoFuel => True
  | _ => False
  end.
Proof.
  intros Hm. unfold generate_k_random. generalize (S (length rnd)) as fuel. intros fuel. revert rnd. induction fuel as [|fuel IH]; intros rnd; cbn [generate_k_loop]; [done|].
  unfold draw. destruct (Nat.ltb_spec (length rnd) 9) as [|Hl]; [done|]. rewrite bind_Ret.
  set (k := map _ (take 8 rnd) ++ _). assert (normalized k) as Nk.
  { split; [unfold k; rewrite length_app, length_map, length_take; cbn [length]; lia|]. apply Forall_app. split.
    - apply Forall_map, list.Forall_forall. intros r _. change 0x3FFFFFFF%Z with (Z.ones 30). rewrite Z.land_ones by lia. unfold is_u. apply Z.mod_pos_bound. lia.
    - constructor; [|constructor]. change 0xFFFF%Z with (Z.ones 16). rewrite Z.land_ones by lia. pose proof (Z.mod_pos_bound (nth 8 rnd 0%Z) (2 ^ 16)). unfold is_u. lia. }
  rewrite (bn_is_zero_spec k (proj2 Nk)), (bn_is_less_spec k m Nk Hm). pose proof (norm_range k Nk).
  case_bool_decide as K0; cbn [orb]; [|case_bool_decide as K1; cbn [negb]].
  - specialize (IH (drop 9 rnd)). destruct (generate_k_loop fuel (drop 9 rnd) m) as [[k' rnd']| | |]; try done. rewrite length_drop in IH. intuition lia.
  - split; [done|]. split; [lia|]. rewrite length_drop. lia.
  - specialize (IH (drop 9 rnd)). destruct (generate_k_loop fuel (drop 9 rnd) m) as [[k' rnd']| | |]; try done. rewrite length_drop in IH. intuition lia.
Qed.

(** Some draw is in range. *)
Definition draws_one (rnd m : list Z) : Prop :=
  exists n z rest, draw (drop (9 * n) rnd) = Ret (z, rest) /\ bn_is_zero z = false /\ bn_is_less z m = true.

Lemma draw_length rnd r : draw rnd = Ret r -> (9 <= length rnd)%nat.
Proof. unfold draw. destruct (Nat.ltb_spec (length rnd) 9); [done|lia]. Qed.

Lemma draws_returns rnd m : normalized m -> draws_one rnd m -> exists k rnd', generate_k_random rnd m = Ret (k, rnd') /\ normalized k /\ (0 < value k < value m)%Z.
Proof.
  intros Hm (n & z & rest & E & Hz & Hl). cut (exists k rnd', generate_k_random rnd m = Ret (k, rnd')).
  { intros (k & rnd' & HE). pose proof (generate_k_rule rnd m Hm) as HK. rewrite HE in HK. destruct HK as (? & ? & _). by exists k, rnd'. }
  unfold generate_k_random. assert (n < S (length rnd))%nat as Hf.
  { pose proof (draw_length _ _ E) as L. rewrite length_drop in L. lia. }
  revert Hf. generalize (S (length rnd)) as fuel. revert rnd E. induction n as [|n IH]; intros rnd E fuel Hf; (destruct fuel as [|fuel]; [lia|]); cbn [generate_k_loop].
  - rewrite Nat.mul_0_r, drop_0 in E. rewrite E, bind_Ret, Hz, Hl. by eexists _, _.
  - pose proof (draw_length _ _ E) as L. rewrite length_drop in L. unfold draw. destruct (Nat.ltb_spec (length rnd) 9); [lia|]. rewrite bind_Ret.
    destruct (_ || _); [|by eexists _, _]. apply IH; [|lia]. rewrite drop_drop. by replace (9 + 9 * n)%nat with (9 * S n)%nat by lia.
Qed.

Lemma to_jacobian_refines rnd c P z rnd' :
  rep c (Some P) -> generate_k_random rnd prime = Ret (z, rnd') ->
  exists j, curve_to_jacobian rnd c prime = Ret (j, rnd') /\ jbounded j /\ jpoint j = Some P.
Proof.
  destruct P as [X Y]. intros (Bx & By & EX & EY) Hr. unfold curve_to_jacobian. pose proof (generate_k_rule rnd prime Hprime) as HK. rewrite Hr in HK |- *. destruct HK as (Nz & Rz & _). rewrite bind_Ret.
  assert (bounded 1 z) as Bz by (split; [done|lia]). next_mul z2 Bz2 Vz2. next_mul z3 Bz3 Vz3. next_mul xx Bxx Vxx. next_mul yy Byy Vyy.
  assert (fp z <> 0) as Hz by (rewrite fp_inj0 by done; lia).
  eexists. split; [done|]. split; [apply jbounded_intro; try done; by apply (bounded_le 1)|]. unfold jpoint. cbn [jx jy jz].
  apply affine_intro; [done|done|rewrite Vxx, Vz2, EX; ring|rewrite Vyy, Vz3, Vz2, EY; ring].
Qed.

Lemma to_curve_refines j : jbounded j -> exists c, jacobian_to_curve j prime = Ret c /\ rep c (jpoint j).
Proof.
  intros (Bx & Uy & Bz). pose proof (upto2_bounded _ Uy) as By. unfold jacobian_to_curve. destruct (inverse_rule _ (jz j) Bz) as (i & -> & Bi & Vi); [lia|lia|]. rewrite bind_Ret.
  next_mul i2 Bi2 Vi2. next_mul i3 Bi3 Vi3. next_mul px Bpx Vpx. next_mul py Bpy Vpy.
  destruct (mod_rule px Bpx) as (x & -> & Bx' & Vx). rewrite bind_Ret. destruct (mod_rule py Bpy) as (y & -> & By' & Vy). rewrite bind_Ret.
  exists (mkPoint x y). split; [done|]. split; [done|]. split; [done|]. unfold jpoint, affine. cbn [ecdsa.x ecdsa.y].
  rewrite Vx, Vy, Vpx, Vpy, Vi3, Vi2. case_decide as Hz; [rewrite Vi; split; ring|].
  assert (fp (jz j) * fp (jz j) <> 0 /\ fp (jz j) * fp (jz j) * fp (jz j) <> 0) as [Hz2 Hz3] by (split; repeat apply mul_neq; done).
  split; symmetry; apply div_of_mul; try done.
  - replace (fp (jx j) * (fp i * fp i) * (fp (jz j) * fp (jz j))) with (fp (jx j) * (fp i * fp (jz j)) * (fp i * fp (jz j))) by ring. rewrite Vi. ring.
  - replace (fp (jy j) * (fp i * fp i * fp i) * (fp (jz j) * fp (jz j) * fp (jz j))) with (fp (jy j) * (fp i * fp (jz j)) * (fp i * fp (jz j)) * (fp i * fp (jz j))) by ring. rewrite Vi. ring.
Qed.

(** Addition with a sum that may be at infinity already. *)
Lemma jadd_sticky q j Q :
  rep q (Some Q) -> jbounded j -> curve_ok Q -> valid (jpoint j) ->
  exists j', point_jacobian_add q j curve = Ret j' /\ jbounded j' /\ jpoint j' = sticky_add p fa (Some Q) (jpoint j).
Proof.
  intros Hq Hj HQ HV. destruct (jpoint j) as [P|] eqn:HP; [by apply jadd_refines|]. destruct Q as [X Y]. destruct Hq as (B1 & B2 & EX & EY).
  apply (bounded_le 1 2) in B1; [|lia]. apply (bounded_le 1 2) in B2; [|lia].
  destruct (add_formula q j B1 B2 Hj) as (j' & h & r & E & Hj' & _ & _ & _ & Hz). exists j'. split; [done|]. split; [done|].
  unfold jpoint, affine in HP |- *. destruct (decide (fp (jz j) = 0)) as [E0|]; [|done]. rewrite decide_True; [done|]. rewrite Hz, E0. ring.
Qed.

(** Negating the y coordinate, or the denominator. *)
Lemma negate_y (s : bool) j :
  jbounded j -> exists y, conditional_negate (if s then 0 else 2 ^ 32 - 1)%Z (jy j) prime = Ret y /\ jbounded (mkJac (jx j) y (jz j)) /\
    jpoint (mkJac (jx j) y (jz j)) = signed p s (jpoint j).
Proof.
  intros (Bx & Uy & Bz). destruct (negate_rule (negb s) (jy j) Uy) as (y & E & Uy' & Vy). exists y. split; [by destruct s|]. split; [by split|].
  unfold jpoint. cbn [jx jy jz]. rewrite Vy. destruct s; cbn [negb signed]; [done|]. unfold affine. case_decide as Hz; [done|]. cbn [ec_opp]. do 2 f_equal.
  apply opp_div; [done|]. repeat apply mul_neq; done.
Qed.

End Points.
