(* ===== verification/EcMultiply.v ===== *)
(** * EcMultiply: multiples of points

    Proves what [scalar_multiply] of [Ecdsa] (src/src/ptp_crypto/ecdsa.cpp)
    computes: the scalar is written with 64 odd signed digits in base 16, and
    the result is the sum of the points that the table has for the digits.  For
    secp256k1 ([Secp256k1]) the table is checked against the group law. *)

From Stdlib Require Import Zmod.ZmodInv Zmod.ZmodBase Zmod.ZmodDef Field.
From S2P Require Import Prelude Words Bignum BignumMod Primality Ecdsa Curve EcPoints.

(** ** Signed digits *)

Definition sign_at (A : Z) : bool := Z.odd (A / 16).

Definition index_at (A : Z) : nat := Z.to_nat ((if sign_at A then A mod 16 else 15 - A mod 16) / 2).

Definition digit_at (A : Z) : Z := (if sign_at A then 1 else -1) * (2 * Z.of_nat (index_at A) + 1).

Fixpoint digits_value (n : nat) (A : Z) : Z :=
  match n with
  | O => 0
  | S n => digit_at A + 16 * digits_value n (A / 16)
  end.

Lemma odd_mod n : Z.b2z (Z.odd n) = n mod 2.
Proof. by rewrite <- Zmod_odd_b2z || (rewrite Zmod_odd; by destruct (Z.odd n)). Qed.

Lemma digit_at_eq A : digit_at A = A mod 16 + (1 - A mod 2) - 16 * (1 - (A / 16) mod 2).
Proof.
  unfold digit_at, index_at, sign_at. pose proof (odd_mod (A / 16)) as Ho. destruct (Z.odd (A / 16)); cbn [Z.b2z] in Ho; rewrite <- Ho;
    rewrite Z2Nat.id by (Z.div_mod_to_equations; lia); Z.div_mod_to_equations; lia.
Qed.

Lemma index_at_lt A : (index_at A < 8)%nat.
Proof. unfold index_at. destruct (sign_at A); Z.div_mod_to_equations; lia. Qed.

(** The carries between digits cancel. *)
Lemma digits_value_eq n : forall A,
  digits_value n A = A mod 16 ^ Z.of_nat n + (1 - A mod 2) - 16 ^ Z.of_nat n * (1 - (A / 16 ^ Z.of_nat n) mod 2).
Proof.
  induction n as [|n IH]; intros A; cbn [digits_value]; [change (16 ^ Z.of_nat 0) with 1; rewrite Z.mod_1_r, Z.div_1_r; lia|].
  rewrite IH, digit_at_eq, Nat2Z.inj_succ, Z.pow_succ_r by lia. set (q := 16 ^ Z.of_nat n). assert (0 < q) by (apply Z.pow_pos_nonneg; lia).
  rewrite Z.div_div, (Z.rem_mul_r A 16 q) by lia. lia.
Qed.

Section Scalars.
Import bignum ecdsa.

Lemma shift4_spec l : limbs_ok l -> limbs_ok (shift4 l) /\ length (shift4 l) = length l /\ value (shift4 l) = value l / 16.
Proof.
  induction 1 as [|v l Hv Hl (H1 & H2 & H3)]; [split_and!; [constructor|done..]|]. cbn [shift4]. unfold is_u in Hv.
  assert (Z.land (nth 0 l 0) 0xf = value l mod 16) as ->.
  { change 0xf with (Z.ones 4). rewrite Z.land_ones by lia. destruct l as [|w l]; [done|]. cbn [nth value]. change (2 ^ 4) with 16.
    replace (w + 2 ^ 30 * value l) with (w + (2 ^ 26 * value l) * 16) by ring. symmetry. apply Z.mod_add. lia. }
  rewrite Z.shiftr_div_pow2, Z.shiftl_mul_pow2, lor_add by (Z.div_mod_to_equations; lia).
  split_and!; [constructor; [unfold is_u; Z.div_mod_to_equations; lia|done]|cbn; by rewrite H2|]. cbn [value]. rewrite H3. Z.div_mod_to_equations. lia.
Qed.

(** The five low bits decide digit and sign. *)
Lemma low_digit_table :
  forallb (fun m => let m := Z.of_nat m in
    Z.land (Z.lxor m (u32 (Z.shiftr m 4 - 1))) 15 =? (if Z.odd (m / 16) then m mod 16 else 15 - m mod 16)) (seq 0 32) = true.
Proof. by vm_compute. Qed.

Lemma low_digit_spec l : limbs_ok l -> low_digit l = if sign_at (value l) then value l mod 16 else 15 - value l mod 16.
Proof.
  intros Hl. unfold low_digit. assert (Z.land (nth 0 l 0) 31 = value l mod 32) as ->.
  { change 31 with (Z.ones 5). rewrite Z.land_ones by lia. destruct l as [|v l]; [done|]. cbn [nth value]. change (2 ^ 5) with 32.
    replace (v + 2 ^ 30 * value l) with (v + (2 ^ 25 * value l) * 32) by ring. symmetry. apply Z.mod_add. lia. }
  pose proof (Z.mod_pos_bound (value l) 32 ltac:(lia)) as R. pose proof low_digit_table as T. rewrite forallb_forall in T. specialize (T (Z.to_nat (value l mod 32))).
  cbv zeta in T. rewrite Z2Nat.id in T by lia. rewrite Z.eqb_eq in T. rewrite T by (apply in_seq; lia). unfold sign_at.
  assert ((value l mod 32) / 16 mod 2 = (value l / 16) mod 2) as E by (Z.div_mod_to_equations; lia). rewrite <- !odd_mod in E.
  assert (Z.odd ((value l mod 32) / 16) = Z.odd (value l / 16)) as -> by (destruct (Z.odd ((value l mod 32) / 16)), (Z.odd (value l / 16)); done).
  assert ((value l mod 32) mod 16 = value l mod 16) as -> by (Z.div_mod_to_equations; lia). done.
Qed.

Lemma low_digit_index l : limbs_ok l -> Z.to_nat (Z.shiftr (low_digit l) 1) = index_at (value l).
Proof. intros Hl. rewrite low_digit_spec, Z.shiftr_div_pow2 by (done || lia). done. Qed.

(** The mask of the round: all ones when the sign changes. *)
Lemma low_digit_mask l :
  limbs_ok l -> u32 (Z.land (low_digit l) 1 - 1) = if bool_decide (sign_at (value l) = Z.odd (value l)) then 0 else 2 ^ 32 - 1.
Proof.
  intros Hl. rewrite low_digit_spec by done. change 1 with (Z.ones 1) at 1. rewrite Z.land_ones by lia. change (2 ^ 1) with 2.
  pose proof (odd_mod (value l)) as Ho. destruct (sign_at (value l)), (Z.odd (value l)); cbn [Z.b2z] in Ho; cbn [bool_decide decide_rel];
    (assert ((value l mod 16) mod 2 = value l mod 2) as Em by (Z.div_mod_to_equations; lia)); rewrite <- Ho in Em.
  - by rewrite Em.
  - by rewrite Em.
  - assert ((15 - value l mod 16) mod 2 = 0) as -> by (Z.div_mod_to_equations; lia). done.
  - assert ((15 - value l mod 16) mod 2 = 1) as -> by (Z.div_mod_to_equations; lia). done.
Qed.

Lemma final_mask l : limbs_ok l -> u32 (Z.land (Z.shiftr (nth 0 l 0) 4) 1 - 1) = if sign_at (value l) then 0 else 2 ^ 32 - 1.
Proof.
  intros Hl. change 1 with (Z.ones 1) at 1. rewrite Z.land_ones, Z.shiftr_div_pow2 by lia. change (2 ^ 1) with 2. change (2 ^ 4) with 16. unfold sign_at.
  assert (((nth 0 l 0) / 16) mod 2 = (value l / 16) mod 2) as ->.
  { destruct l as [|v l]; [done|]. cbn [nth value]. replace (v + 2 ^ 30 * value l) with (v + (2 ^ 26 * value l) * 16) by ring. rewrite Z.div_add by lia.
    replace (2 ^ 26 * value l) with (2 ^ 25 * value l * 2) by ring. symmetry. apply Z.mod_add. lia. }
  rewrite <- odd_mod. by destruct (Z.odd (value l / 16)).
Qed.

(** The limbs of a number of nine limbs: eight and the last. *)
Lemma split_nine l : length l = 9%nat -> value l = value (take 8 l) + 2 ^ 240 * nth 8 l 0.
Proof. intros Hl. do 9 (destruct l as [|? l]; [done|]). destruct l; [|done]. cbn [take nth value]. lia. Qed.

Lemma masked_terms (e : bool) ks os :
  limbs_ok ks -> limbs_ok os -> length ks = length os ->
  let terms := zip_with (fun v o => 0x3fffffff + v - Z.land o (if e then 2 ^ 32 - 1 else 0)) ks os in
  Forall (fun t => 0 <= t <= 2 * (2 ^ 30 - 1)) terms /\ length terms = length ks /\
  value terms = 2 ^ (30 * zlen ks) - 1 + value ks - (if e then value os else 0).
Proof.
  intros Hk. revert os. induction Hk as [|v ks Hv Hk IH]; intros [|o os] Ho Hl; [cbn; split_and!; [constructor|done|destruct e; done]|done..|].
  apply Forall_cons_1 in Ho as [Ho Hos]. injection Hl as Hl. destruct (IH os Hos Hl) as (H1 & H2 & H3). cbn [zip_with value].
  assert (Z.land o (if e then 2 ^ 32 - 1 else 0) = if e then o else 0) as -> by (destruct e; [by apply land_all|apply Z.land_0_r]). unfold is_u in Hv, Ho.
  split_and!; [constructor; [destruct e; lia|done]|cbn; by rewrite H2|]. rewrite H3, zlen_cons.
  replace (30 * (1 + zlen ks)) with (30 + 30 * zlen ks) by lia. rewrite Z.pow_add_r by (pose proof (zlen_nonneg ks); lia). destruct e; lia.
Qed.

(** [2^256 + k], or that less the order when [k] is even. *)
Definition odd_scalar (curve : ecdsa_curve) (k : list Z) : Z := 2 ^ 256 + value k - (if Z.odd (value k) then 0 else value (order curve)).

Lemma odd_land l : Z.land (nth 0 l 0) 1 = Z.b2z (Z.odd (value l)).
Proof. rewrite odd_mod. apply odd_limb. Qed.

Lemma make_odd_spec curve k :
  normalized k -> normalized (order curve) -> value k < value (order curve) < 2 ^ 256 -> Z.odd (value (order curve)) = true ->
  exists a, make_odd curve k = Ret a /\ normalized a /\ value a = odd_scalar curve k.
Proof.
  intros Hk Ho Hlt Hodd. pose proof (norm_range k Hk) as Rk. pose proof Hk as [Lk Ok]. pose proof Ho as [Lo Oo]. unfold make_odd. rewrite odd_land.
  set (e := negb (Z.odd (value k))). assert (u32 (Z.b2z (Z.odd (value k)) - 1) = if e then 2 ^ 32 - 1 else 0) as -> by (unfold e; by destruct (Z.odd (value k))).
  destruct (masked_terms e (take 8 k) (take 8 (order curve))) as (T1 & T2 & T3); [by apply Forall_take|by apply Forall_take|rewrite !length_take; lia|].
  pose proof (carry_spec 32 1 (2 * (2 ^ 30 - 1)) _ 1 ltac:(lia) T1 ltac:(lia) ltac:(lia)) as HC. destruct (carry 32 1 _) as [low tmp]. destruct HC as (C1 & C2 & C3 & C4).
  assert (zlen (take 8 k) = 8) as Z8 by (unfold zlen; rewrite length_take; lia). rewrite T3, Z8 in C3. change (30 * 8) with 240 in C3.
  rewrite T2, length_take in C2. assert (length low = 8%nat) as L8 by lia. assert (zlen low = 8) as Zl by (unfold zlen; lia).
  match type of C3 with context [30 * zlen ?t] => assert (zlen t = 8) as Zt by (unfold zlen; rewrite T2, length_take; lia) end. rewrite Zt in C3. change (30 * 8) with 240 in C3.
  assert (Z.land (nth 8 (order curve) 0) (if e then 2 ^ 32 - 1 else 0) = if e then nth 8 (order curve) 0 else 0) as ->
    by (destruct e; [by apply land_all, limb_ok|apply Z.land_0_r]).
  pose proof (split_nine k Lk) as Sk. pose proof (split_nine _ Lo) as So. pose proof (value_range low C1) as Rl. rewrite Zl in Rl. change (30 * 8) with 240 in Rl.
  set (top := tmp + 0xffff + nth 8 k 0 - (if e then nth 8 (order curve) 0 else 0)).
  assert (value low + 2 ^ 240 * top = odd_scalar curve k) as HV.
  { unfold top, odd_scalar. destruct (Z.odd (value k)); cbn [negb] in *; unfold e in *; lia. }
  assert (0 < odd_scalar curve k < 2 ^ 257) as RA by (unfold odd_scalar; destruct (Z.odd (value k)); lia).
  assert (0 <= top < 2 ^ 17) as Rt by lia. rewrite wrap_u_small by (unfold is_u; lia).
  assert (value (low ++ [top]) = odd_scalar curve k) as Ev by (rewrite value_app, Zl; cbn [value]; change (30 * 8) with 240; lia).
  assert (Z.odd (odd_scalar curve k) = true) as HO.
  { unfold odd_scalar. rewrite Z.odd_sub, Z.odd_add. change (Z.odd (2 ^ 256)) with false. destruct (Z.odd (value k)); cbn [xorb]; [done|]. by rewrite Hodd. }
  rewrite odd_land, Ev, HO. cbn [Z.b2z Z.eqb negb]. unfold cassert. rewrite bind_Ret. exists (low ++ [top]). split; [done|]. split; [|done].
  split; [rewrite length_app; cbn [length]; lia|]. apply Forall_app. split; [done|]. constructor; [unfold is_u; lia|constructor].
Qed.

Lemma digits_of_scalar curve k :
  0 <= value k < value (order curve) -> value (order curve) < 2 ^ 256 -> Z.odd (value (order curve)) = true ->
  digits_value 64 (odd_scalar curve k) mod value (order curve) = value k.
Proof.
  intros Hk Ho Hodd. rewrite digits_value_eq. change (16 ^ Z.of_nat 64) with (2 ^ 256). unfold odd_scalar. set (n := value (order curve)) in *.
  pose proof (odd_mod (value k)) as Ek. pose proof (odd_mod n) as En. rewrite Hodd in En. cbn [Z.b2z] in En.
  destruct (Z.odd (value k)); cbn [Z.b2z] in Ek.
  - assert ((2 ^ 256 + value k - 0) mod 2 ^ 256 = value k /\ (2 ^ 256 + value k - 0) / 2 ^ 256 = 1 /\ (2 ^ 256 + value k - 0) mod 2 = 1) as (-> & -> & ->) by (Z.div_mod_to_equations; lia).
    change (1 mod 2) with 1. rewrite Z.mod_small; lia.
  - assert ((2 ^ 256 + value k - n) mod 2 ^ 256 = 2 ^ 256 + value k - n /\ (2 ^ 256 + value k - n) / 2 ^ 256 = 0 /\ (2 ^ 256 + value k - n) mod 2 = 1) as (-> & -> & ->)
      by (Z.div_mod_to_equations; lia).
    change (0 mod 2) with 0. replace (2 ^ 256 + value k - n + (1 - 1) - 2 ^ 256 * (1 - 0)) with (value k + (-1) * n) by ring. rewrite Z.mod_add by lia. apply Z.mod_small. lia.
Qed.

End Scalars.

(** ** The sum over the table *)

Section Multiply.
Import bignum ecdsa.

Context (prime : list Z) (Hprime : normalized prime) (Hrange : 2 ^ 256 - 2 ^ 224 <= value prime < 2 ^ 256) (Hpr : Z.prime (value prime)).

Local Abbreviation p := (value prime).
Local Abbreviation F := (Zmod.Zmod (value prime)).

Context (curve : ecdsa_curve) (Hcurve : ecdsa.prime curve = prime) (Hca : -3 <= ecdsa.a curve <= 0) (H0 : 4 <= nth 0 prime 0).
Context (fb : F) (Hb0 : fb <> Zmod.zero).

Local Abbreviation A0 := (fa prime curve).
Local Abbreviation valid := (Curve.valid p A0 fb).
Local Abbreviation rep := (EcPoints.rep prime).
Local Abbreviation jbounded := (EcPoints.jbounded prime).
Local Abbreviation jpoint := (EcPoints.jpoint prime).

(** The multiples that a row of the table has, by the index of the digit. *)
Local Abbreviation multiples := (nat -> option (F * F)).

Definition entry_ok (c : curve_point) (P : option (F * F)) : Prop := match P with Some Q => rep c P /\ on_curve p A0 fb Q | None => False end.

Definition row_ok (row : list curve_point) (f : multiples) : Prop := forall j, (j < 8)%nat -> entry_ok (nth j row infinity) (f j).

(** The point for the digit of [A]: odd multiple and sign. *)
Definition digit_point (f : multiples) (A : Z) : option (F * F) := signed p (sign_at A) (f (index_at A)).

(** The sum over the rows, from the second digit of [A] on. *)
Fixpoint digit_sum (fs : list multiples) (A : Z) (acc : option (F * F)) : option (F * F) :=
  match fs with
  | [] => acc
  | f :: fs => digit_sum fs (A / 16) (sticky_add p A0 (digit_point f (A / 16)) acc)
  end.

Lemma entry_valid c P : entry_ok c P -> valid P.
Proof. destruct P; [|done]. by intros [_ ?]. Qed.

Lemma scalar_loop_refines rows fs : Forall2 row_ok rows fs -> forall (a : list Z) (j : jacobian_curve_point) (acc : option (F * F)),
  limbs_ok a -> jbounded j -> valid acc -> jpoint j = signed p (sign_at (value a)) acc ->
  exists a' j', scalar_loop rows curve a j = Ret (a', j') /\ limbs_ok a' /\ jbounded j' /\ valid (digit_sum fs (value a) acc) /\
    (jpoint j' = signed p (sign_at (value a')) (digit_sum fs (value a) acc)).
Proof.
  induction 1 as [|row f rows fs Hrow Hrows IH]; intros a j acc Ha Hj Hv HP; cbn [scalar_loop digit_sum]; [by exists a, j|].
  destruct (shift4_spec a Ha) as (S1 & _ & S3). cbv zeta. rewrite low_digit_mask, low_digit_index, S3 by done.
  set (A := value a / 16) in *. set (s := sign_at A). assert (Z.odd A = sign_at (value a)) as -> by done.
  destruct (negate_y prime Hprime Hrange Hpr (bool_decide (s = sign_at (value a))) j Hj) as (y & E & Hj1 & HP1).
  rewrite Hcurve, E, bind_Ret. pose proof (Hrow (index_at A) (index_at_lt A)) as Hc. pose proof (entry_valid _ _ Hc) as Vc.
  destruct (f (index_at A)) as [Q|] eqn:EQ; [|done]. destruct Hc as [Rc Cc]. rewrite HP, signed_signed in HP1 by done.
  assert (bool_decide (bool_decide (s = sign_at (value a)) = sign_at (value a)) = s) as Es by (by destruct s, (sign_at (value a))). rewrite Es in HP1.
  destruct (jadd_sticky prime Hprime Hrange Hpr curve Hcurve Hca fb _ _ _ Rc Hj1 Cc) as (j' & -> & Hj' & HP'); [rewrite HP1; by apply signed_valid|].
  rewrite bind_Ret. rewrite HP1, sticky_signed in HP' by (done || lia).
  rewrite <- S3. destruct (IH (shift4 a) j' (sticky_add p A0 (digit_point f (value (shift4 a))) acc)) as (a2 & j2 & E2 & R2);
    [done..| |unfold digit_point; by rewrite HP', S3, EQ|by exists a2, j2].
  apply sticky_valid; [done|lia| |done]. unfold digit_point. rewrite S3, EQ. by apply signed_valid.
Qed.

(** *** The whole multiplication *)

Lemma scalar_multiply_refines rnd z rnd' k row rows f fs :
  cp curve = row :: rows -> length rows = 63%nat -> row_ok row f -> Forall2 row_ok rows fs ->
  normalized k -> normalized (order curve) -> 0 < value k < value (order curve) -> value (order curve) < 2 ^ 256 -> Z.odd (value (order curve)) = true ->
  generate_k_random rnd prime = Ret (z, rnd') ->
  let A := odd_scalar curve k in
  exists res, scalar_multiply rnd curve k = Ret (res, rnd') /\ rep res (digit_sum fs A (digit_point f A)) /\ valid (digit_sum fs A (digit_point f A)).
Proof.
  intros Ecp Hlen Hrow Hrows Nk No Hk Ho Hodd Hr A. unfold scalar_multiply. rewrite (bn_is_less_spec k _ Nk No), bool_decide_eq_true_2 by lia. unfold cassert. rewrite bind_Ret.
  destruct (make_odd_spec curve k Nk No) as (a & -> & [La Na] & EA); [lia|done|]. rewrite bind_Ret. rewrite (bn_is_zero_spec k (proj2 Nk)), bool_decide_eq_false_2 by lia.
  cbv zeta. rewrite low_digit_index, EA, Ecp, Hcurve by done. fold A. change (drop 1 (row :: rows)) with rows. cbn [nth]. rewrite (take_ge rows) by lia.
  pose proof (Hrow (index_at A) (index_at_lt A)) as Hc. destruct (f (index_at A)) as [Q|] eqn:EQ; [|done]. destruct Hc as [Rc Cc].
  destruct (to_jacobian_refines prime Hprime Hrange Hpr curve Hca rnd _ _ _ _ Rc Hr) as (j & -> & Hj & HP). rewrite bind_Ret.
  assert (valid (digit_point f A)) as Vd by (unfold digit_point; rewrite EQ; by apply signed_valid).
  destruct (scalar_loop_refines rows fs Hrows a j (digit_point f A) Na Hj Vd) as (a' & j' & -> & Na' & Hj' & V' & HP').
  { rewrite HP, EA. fold A. unfold digit_point. rewrite signed_signed, EQ by done. by rewrite bool_decide_eq_true_2. }
  rewrite bind_Ret, final_mask by done. rewrite EA in HP', V'. fold A in HP', V'.
  destruct (negate_y prime Hprime Hrange Hpr (sign_at (value a')) j' Hj') as (y & E & Hj1 & HP1). rewrite E, bind_Ret.
  rewrite HP', signed_signed, bool_decide_eq_true_2 in HP1 by done.
  destruct (to_curve_refines prime Hprime Hrange Hpr H0 _ Hj1) as (res & -> & Rres). rewrite bind_Ret. exists res. rewrite HP1 in Rres. done.
Qed.

End Multiply.
