(* ===== verification/EcTable.v ===== *)
(** * EcTable: the table of secp256k1 holds multiples of its base point

    The chain G, 2G, 3G, ..., 16G of every row is computed with fast integers and
    compared with the table of [Secp256k1] (src/src/ptp_crypto/secp256k1.table):
    column [j] has the multiple 2j + 1 of the first point of the row, and 16 times
    that is the first point of the next row, for the group law of [Curve].  One
    less than the order times the base point is its opposite, so the order times
    it is at infinity. *)

From Bignums Require Import BigZ.
From Stdlib Require Import Zmod.ZmodInv Zmod.ZmodBase Zmod.ZmodDef Field.
From S2P Require Import Prelude Words Bignum BignumMod Primality Ecdsa Secp256k1 Curve CurveGroup EcPoints.

(** ** Points in fast integers *)

Local Abbreviation zpoint := (bigZ * bigZ)%type.

Definition zp : bigZ := Eval vm_compute in BigZ.of_Z (2 ^ 256 - 2 ^ 32 - 977).

Definition zmod (u : bigZ) : bigZ := BigZ.modulo u zp.

(** An inverse, found by the extended algorithm of Euclid; it is checked where it
    is used. *)
Fixpoint euclid (fuel : nat) (r0 r1 s0 s1 : bigZ) : bigZ :=
  match fuel with
  | O => s0
  | S fuel => if BigZ.eqb r1 0 then s0 else let '(q, r) := BigZ.div_eucl r0 r1 in euclid fuel r1 r s1 (BigZ.sub s0 (BigZ.mul q s1))
  end.

Definition zslope (num den : bigZ) : option bigZ :=
  let i := zmod (euclid 400 zp (zmod den) 0 1) in
  if BigZ.eqb (zmod (BigZ.mul den i)) 1 then Some (zmod (BigZ.mul num i)) else None.

Definition zthird (l x1 y1 x2 : bigZ) : zpoint :=
  let x3 := zmod (BigZ.sub (BigZ.sub (BigZ.mul l l) x1) x2) in (x3, zmod (BigZ.sub (BigZ.mul l (BigZ.sub x1 x3)) y1)).

Definition zdouble (P : zpoint) : option zpoint :=
  let '(x, y) := P in l ← zslope (BigZ.mul (BigZ.mul 3 x) x) (BigZ.mul 2 y); Some (zthird l x y x).

Definition zadd (P Q : zpoint) : option zpoint :=
  let '(x1, y1) := P in let '(x2, y2) := Q in l ← zslope (BigZ.sub y2 y1) (BigZ.sub x2 x1); Some (zthird l x1 y1 x2).

Definition zeqb (P Q : zpoint) : bool := BigZ.eqb P.1 Q.1 && BigZ.eqb P.2 Q.2.

(** The next multiple of [B] after [P]. *)
Definition znext (B P : zpoint) : option zpoint := if zeqb P B then zdouble B else zadd P B.

Definition of_point (c : ecdsa.curve_point) : zpoint := (BigZ.of_Z (value (ecdsa.x c)), BigZ.of_Z (value (ecdsa.y c))).

Definition in_range (c : ecdsa.curve_point) : bool :=
  forallb (fun l => (length l =? 9)%nat && forallb (fun v => (0 <=? v) && (v <? 2 ^ 30)) l && BigZ.ltb (BigZ.of_Z (value l)) zp) [ecdsa.x c; ecdsa.y c].

(** Every second multiple of [B] from [P] on is a point of the row; the multiple
    after the last. *)
Fixpoint row_check (B P : zpoint) (row : list ecdsa.curve_point) : option zpoint :=
  match row with
  | [] => None
  | [c] => if zeqb P (of_point c) && in_range c then znext B P else None
  | c :: row =>
      if zeqb P (of_point c) && in_range c then Q ← znext B P; R ← znext B Q; row_check B R row else None
  end.

Fixpoint table_check (B : zpoint) (rows : list (list ecdsa.curve_point)) : bool :=
  match rows with
  | [] => true
  | row :: rows => (length row =? 8)%nat && match row_check B B row with Some B => table_check B rows | None => false end
  end.

Lemma secp256k1_table_check : table_check (of_point (ecdsa.G secp256k1.secp256k1)) secp256k1.cp_table = true.
Proof. by vm_compute. Qed.

(** A multiple of [B] by doubling and adding. *)
Fixpoint zchain (q : positive) (B : zpoint) : option zpoint :=
  match q with
  | xH => Some B
  | xO q => P ← zchain q B; znext P P
  | xI q => P ← zchain q B; Q ← znext P P; znext B Q
  end.

(** One less than the order times the base point is its opposite. *)
Definition order_check (B : zpoint) : bool :=
  match zchain (Z.to_pos (value (ecdsa.order secp256k1.secp256k1) - 1)) B with
  | Some P => BigZ.eqb P.1 B.1 && BigZ.eqb P.2 (BigZ.sub zp B.2)
  | None => false
  end.

Lemma secp256k1_order_check : order_check (of_point (ecdsa.G secp256k1.secp256k1)) = true.
Proof. by vm_compute. Qed.

(** ** The computation is the group law *)

Section Sound.
Import ecdsa.

Local Abbreviation p := (value secp256k1_p).
Local Abbreviation F := (Zmod.Zmod (value secp256k1_p)).

Lemma p_prime : Z.prime p.
Proof. exact secp256k1_prime. Qed.

Lemma p_big : 3 < p.
Proof. by vm_compute. Qed.

Add Field Ft : (Zmod.field_theory (value secp256k1_p) p_prime).

Lemma zp_value : BigZ.to_Z zp = p.
Proof. by vm_compute. Qed.

Definition fz (u : bigZ) : F := Zmod.of_Z p (BigZ.to_Z u).

Definition fpt (P : zpoint) : F * F := (fz P.1, fz P.2).

Lemma fz_mod u : fz (zmod u) = fz u.
Proof. unfold fz, zmod. rewrite BigZ.spec_modulo, zp_value. apply Zmod.of_Z_inj. apply Z.mod_mod. pose proof p_big. lia. Qed.

Lemma fz_mul u v : fz (BigZ.mul u v) = Zmod.mul (fz u) (fz v).
Proof. unfold fz. rewrite BigZ.spec_mul. apply Zmod.of_Z_mul. Qed.

Lemma fz_sub u v : fz (BigZ.sub u v) = Zmod.sub (fz u) (fz v).
Proof. unfold fz. rewrite BigZ.spec_sub. apply Zmod.of_Z_sub. Qed.

Lemma fz_one : fz 1 = Zmod.one.
Proof. unfold fz. change (BigZ.to_Z 1) with 1. apply Zmod.of_Z_1. Qed.

Lemma fz_small : fz 2 = Zmod.add Zmod.one Zmod.one /\ fz 3 = Zmod.add (Zmod.add Zmod.one Zmod.one) Zmod.one.
Proof. rewrite <- !fz_one. unfold fz. rewrite <- !Zmod.of_Z_add. done. Qed.

Lemma fz_eqb u v : BigZ.eqb u v = true -> fz u = fz v.
Proof. intros E. apply BigZ.eqb_eq in E. unfold fz. by rewrite E. Qed.

Lemma slope_sound num den l : zslope num den = Some l -> fz den <> Zmod.zero /\ fz l = Zmod.mdiv (fz num) (fz den).
Proof.
  unfold zslope. set (i := zmod (euclid _ _ _ _ _)). destruct (BigZ.eqb _ 1) eqn:E; [|done]. intros [= <-]. apply fz_eqb in E.
  rewrite fz_mod, fz_mul, fz_one in E. assert (fz den <> Zmod.zero) as Hd.
  { intros H0. rewrite H0 in E. apply (Zmod.one_neq_zero (m := p)); [pose proof p_big; lia|]. rewrite <- E. ring. }
  split; [done|]. rewrite fz_mod, fz_mul. symmetry. apply div_of_mul; [apply p_prime|done|].
  replace (Zmod.mul (Zmod.mul (fz num) (fz i)) (fz den)) with (Zmod.mul (fz num) (Zmod.mul (fz den) (fz i))) by ring. rewrite E. ring.
Qed.

Lemma third_sound l x1 y1 x2 : fpt (zthird l x1 y1 x2) = third p (fz l) (fz x1) (fz y1) (fz x2).
Proof. unfold fpt, zthird, third. cbn [fst snd]. by rewrite !fz_mod, !fz_sub, !fz_mul, !fz_sub, !fz_mod, !fz_sub, !fz_mul. Qed.

Local Abbreviation add := (ec_add p Zmod.zero).

Lemma next_sound B P R : znext B P = Some R -> add (Some (fpt P)) (Some (fpt B)) = Some (fpt R).
Proof.
  destruct B as [x2 y2], P as [x1 y1]. unfold znext. destruct (zeqb (x1, y1) (x2, y2)) eqn:E.
  - apply andb_true_iff in E as [Ex%fz_eqb Ey%fz_eqb]. cbn [fst snd] in *. unfold fpt at 1 2. cbn [fst snd ec_add]. rewrite Ex, Ey, !decide_True by done.
    unfold zdouble. destruct (zslope _ _) as [l|] eqn:El; [|done]. intros [= <-]. apply slope_sound in El as [Hd El]. rewrite !fz_mul in El. rewrite fz_mul in Hd. destruct fz_small as [E2 E3]. rewrite E2 in Hd, El. rewrite E3 in El.
    rewrite third_sound, El. unfold ec_double. rewrite decide_False by (intros H0; apply Hd; rewrite H0; ring). do 2 f_equal. f_equal. ring.
  - unfold zadd. destruct (zslope _ _) as [l|] eqn:El; [|done]. intros [= <-]. apply slope_sound in El as [Hd El]. rewrite !fz_sub in Hd, El.
    rewrite third_sound, El. unfold fpt. cbn [fst snd ec_add]. rewrite decide_False by (intros H0; apply Hd; rewrite H0; ring). by rewrite fz_sub.
Qed.

(** The multiple [n] of the point [B]. *)
Local Abbreviation times n B := (ec_mul p Zmod.zero n (Some (fpt B))).

Lemma fpt_eqb P Q : zeqb P Q = true -> fpt P = fpt Q.
Proof. intros [Ex%fz_eqb Ey%fz_eqb]%andb_true_iff. unfold fpt. by rewrite Ex, Ey. Qed.

Lemma of_point_sound c : in_range c = true -> EcPoints.rep secp256k1_p c (Some (fpt (of_point c))).
Proof.
  unfold in_range. cbn [forallb]. rewrite andb_true_r, !andb_true_iff. intros [[[L1 O1] V1] [[L2 O2] V2]].
  assert (forall l, (length l =? 9)%nat = true -> forallb (fun v => (0 <=? v) && (v <? 2 ^ 30)) l = true -> BigZ.ltb (BigZ.of_Z (value l)) zp = true -> bounded secp256k1_p 1 l) as HB.
  { intros l L O V. split; [split; [by apply Nat.eqb_eq|]|].
    - apply List.Forall_forall. intros v Hv. rewrite forallb_forall in O. specialize (O v Hv). unfold is_u. lia.
    - apply BigZ.ltb_lt in V. unfold BigZ.lt in V. rewrite BigZ.spec_of_Z, zp_value in V. lia. }
  split; [by apply HB|]. split; [by apply HB|]. unfold fpt, of_point, fz, fp. cbn [fst snd]. by rewrite !BigZ.spec_of_Z.
Qed.

Lemma row_sound B row : forall P n N,
  row_check B P row = Some N -> Some (fpt P) = times n B ->
  (forall j c, row !! j = Some c -> EcPoints.rep secp256k1_p c (times (n + 2 * j) B) /\ times (n + 2 * j) B <> None) /\ Some (fpt N) = times (n + 2 * length row - 1) B.
Proof.
  assert (forall P R n, znext B P = Some R -> Some (fpt P) = times n B -> Some (fpt R) = times (S n) B) as Hnext.
  { intros P R n H Hn. cbn [ec_mul]. rewrite <- Hn. symmetry. by apply next_sound. }
  induction row as [|c row IH]; intros P n N; [done|]. cbn [row_check]. destruct (zeqb P (of_point c) && in_range c) eqn:E; [|by destruct row].
  apply andb_true_iff in E as [E%fpt_eqb Hr%of_point_sound]. intros H Hn. rewrite <- E, Hn in Hr.
  assert (EcPoints.rep secp256k1_p c (times (n + 2 * 0) B) /\ times (n + 2 * 0) B <> None) as H0 by (rewrite Nat.add_0_r; split; [done|by rewrite <- Hn]).
  destruct row as [|c' row].
  - apply (Hnext _ _ _ H) in Hn. split; [intros [|j] c' Hj; [by injection Hj as <-|done]|]. rewrite Hn. f_equal. cbn [length]. lia.
  - destruct (znext B P) as [Q|] eqn:EQ; [|done]. cbn [mbind option_bind] in H. destruct (znext B Q) as [R|] eqn:ER; [|done]. cbn [mbind option_bind] in H.
    destruct (IH R (S (S n)) N H) as [IH1 IH2]; [by apply (Hnext _ _ _ ER), (Hnext _ _ _ EQ)|]. split.
    + intros [|j] d Hj; [by injection Hj as <-|]. specialize (IH1 j d Hj). by replace (n + 2 * S j)%nat with (S (S n) + 2 * j)%nat by lia.
    + rewrite IH2. f_equal. cbn [length]. lia.
Qed.

(** The first multiple of row [i]: 16^i times a point. *)
Definition row_base (P : option (F * F)) (i : nat) : option (F * F) := Nat.iter i (ec_mul p Zmod.zero 16) P.

Lemma table_sound rows : forall B i row,
  table_check B rows = true -> rows !! i = Some row ->
  length row = 8%nat /\
  forall j c, row !! j = Some c -> let P := ec_mul p Zmod.zero (2 * j + 1) (row_base (Some (fpt B)) i) in EcPoints.rep secp256k1_p c P /\ P <> None.
Proof.
  induction rows as [|row rows IH]; intros B i r; [done|]. cbn [table_check]. rewrite andb_true_iff, Nat.eqb_eq. intros [Hl H].
  destruct (row_check B B row) as [N|] eqn:E; [|done]. destruct (row_sound B row B 1 N E eq_refl) as [H1 H2]. rewrite Hl in H2. change (1 + 2 * 8 - 1)%nat with 16%nat in H2.
  destruct i as [|i]; intros Hi.
  - injection Hi as <-. split; [done|]. intros j c Hj. rewrite (Nat.add_comm (2 * j)). by apply H1.
  - destruct (IH N i r H Hi) as [L HN]. split; [done|]. unfold row_base. rewrite Nat.iter_succ_r, <- H2. exact HN.
Qed.

(** The base point of the curve. *)
Definition base_point : option (F * F) := Some (fp secp256k1_p (x (G secp256k1.secp256k1)), fp secp256k1_p (y (G secp256k1.secp256k1))).

Lemma base_point_eq : Some (fpt (of_point (G secp256k1.secp256k1))) = base_point.
Proof. unfold base_point, fpt, of_point, fz, fp. cbn [fst snd]. by rewrite !BigZ.spec_of_Z. Qed.

Lemma zchain_sound q B : forall R, zchain q B = Some R -> pmul p Zmod.zero q (Some (fpt B)) = Some (fpt R).
Proof.
  induction q as [q IH|q IH|]; intros R; cbn [zchain pmul]; [| |by intros [= <-]];
    (destruct (zchain q B) as [P|] eqn:EP; [|done]); cbn [mbind option_bind]; rewrite (IH P eq_refl).
  - destruct (znext P P) as [Q|] eqn:EQ; [|done]. cbn [mbind option_bind]. intros ER. rewrite (next_sound P P Q EQ). by apply next_sound.
  - intros ER. by apply next_sound.
Qed.

Lemma fz_opp u : fz (BigZ.sub zp u) = Zmod.sub Zmod.zero (fz u).
Proof.
  assert (fz zp = Zmod.zero) as E; [|by rewrite fz_sub, E].
  unfold fz. rewrite zp_value, <- Zmod.of_Z_0. apply Zmod.of_Z_inj. rewrite Z.mod_same, Z.mod_0_l; pose proof p_big; lia.
Qed.

Lemma base_order : pmul p Zmod.zero (Z.to_pos (value (order secp256k1.secp256k1) - 1)) base_point = ec_opp p base_point.
Proof.
  pose proof secp256k1_order_check as H. unfold order_check in H. rewrite <- base_point_eq.
  set (q := Z.to_pos _) in *. set (B := of_point _) in *. clearbody q B.
  destruct (zchain q B) as [P|] eqn:E; [|done]. apply andb_true_iff in H as [Ex%fz_eqb Ey%fz_eqb]. rewrite fz_opp in Ey.
  rewrite (zchain_sound q B P E). unfold fpt. cbn [ec_opp]. by rewrite Ex, Ey.
Qed.

End Sound.
