(* ===== verification/EcSign.v ===== *)
(** * EcSign: multiples of the base point and keys of secp256k1

    Instantiates [EcPoints] and [EcMultiply] with the curve of [Secp256k1]
    (src/src/ptp_crypto/crypto_secp256k1.cpp), whose table [EcTable] checks, and
    proves that [scalar_multiply] of src/src/ptp_crypto/ecdsa.cpp multiplies the
    base point.  The order of the base point is prime ([Primality]) and the points
    are a group ([CurveGroup]), so no sum on the way is at infinity, where
    [point_jacobian_add] would stay. *)

From Stdlib Require Import Zmod.ZmodInv Zmod.ZmodBase Zmod.ZmodDef Field.
From S2P Require Import Prelude Words Bignum BignumMod Primality Ecdsa Secp256k1 Curve CurveGroup EcPoints EcMultiply EcTable.

Section Secp256k1.
Import bignum ecdsa secp256k1.

Local Abbreviation p := (value secp256k1_p).
Local Abbreviation F := (Zmod.Zmod (value secp256k1_p)).

(** The curve is y^2 = x^3 + 7. *)
Definition coefficient_b : F := Zmod.of_Z p 7.

Lemma b_nonzero : coefficient_b <> Zmod.zero.
Proof. unfold coefficient_b. rewrite <- Zmod.of_Z_0. intros E%Zmod.of_Z_inj. by vm_compute in E. Qed.

Lemma a_zero : fa secp256k1_p secp256k1 = Zmod.zero.
Proof. apply Zmod.of_Z_0. Qed.

Lemma p_normalized : normalized secp256k1_p.
Proof. apply secp256k1_p_ok. Qed.

Lemma p_range : 2 ^ 256 - 2 ^ 224 <= p < 2 ^ 256.
Proof. rewrite (proj2 secp256k1_p_ok). lia. Qed.

Lemma p_low : 4 <= nth 0 secp256k1_p 0.
Proof. by vm_compute. Qed.

Lemma a_range : -3 <= ecdsa.a secp256k1 <= 0.
Proof. by vm_compute. Qed.

Add Field Fs : (Zmod.field_theory (value secp256k1_p) p_prime).

Local Abbreviation valid := (Curve.valid p Zmod.zero coefficient_b).
Local Abbreviation rep := (EcPoints.rep secp256k1_p).
Local Abbreviation jbounded := (EcPoints.jbounded secp256k1_p).
Local Abbreviation jpoint := (EcPoints.jpoint secp256k1_p).

(** *** The table *)

(** What row [i] of the table has for the digit with index [j]. *)
Definition row_multiples (i j : nat) : option (F * F) := ec_mul p Zmod.zero (2 * j + 1) (row_base base_point i).

Lemma base_valid : valid base_point.
Proof.
  unfold base_point, Curve.valid, on_curve, coefficient_b, fp. rewrite <- !Zmod.of_Z_mul, <- Zmod.of_Z_0, <- Zmod.of_Z_mul, <- !Zmod.of_Z_add.
  apply Zmod.of_Z_inj. by vm_compute.
Qed.

Lemma row_base_valid i : valid (row_base base_point i).
Proof. unfold row_base. induction i as [|i IH]; [apply base_valid|]. cbn [Nat.iter nat_rect]. apply ec_mul_valid; [apply p_prime|apply p_big|exact IH]. Qed.

Lemma row_multiples_valid i j : valid (row_multiples i j).
Proof. apply ec_mul_valid; [apply p_prime|apply p_big|apply row_base_valid]. Qed.

Lemma table_entry i row j c :
  cp secp256k1 !! i = Some row -> row !! j = Some c -> rep c (row_multiples i j) /\ row_multiples i j <> None.
Proof. intros Hi Hj. unfold row_multiples. rewrite <- base_point_eq. apply (table_sound cp_table _ i row secp256k1_table_check Hi) in Hj. exact Hj. Qed.

Lemma table_row i row : cp secp256k1 !! i = Some row -> length row = 8%nat.
Proof. intros Hi. by apply (table_sound cp_table _ i row secp256k1_table_check Hi). Qed.

Lemma table_row_ok i row : cp secp256k1 !! i = Some row -> row_ok secp256k1_p secp256k1 coefficient_b row (row_multiples i).
Proof.
  intros Hi j Hj. pose proof (table_row i row Hi) as Hl. destruct (row !! j) as [c|] eqn:E; [|apply lookup_ge_None in E; lia].
  rewrite (nth_lookup_Some _ _ _ _ E). destruct (table_entry i row j c Hi E) as [HR HN]. pose proof (row_multiples_valid i j) as HV. rewrite <- a_zero in HV.
  unfold entry_ok. destruct (row_multiples i j); [|done]. done.
Qed.

Lemma table_rows_ok n rows :
  (forall i row, rows !! i = Some row -> cp secp256k1 !! (n + i)%nat = Some row) ->
  Forall2 (row_ok secp256k1_p secp256k1 coefficient_b) rows (map row_multiples (seq n (length rows))).
Proof.
  revert n. induction rows as [|row rows IH]; intros n H; cbn [length seq map]; constructor.
  - apply table_row_ok. rewrite <- (Nat.add_0_r n). by apply H.
  - apply IH. intros i r Hi. replace (S n + i)%nat with (n + S i)%nat by lia. by apply H.
Qed.

(** *** The order of the base point *)

Local Abbreviation N := (value (order secp256k1)).

Lemma order_value : N = 2 ^ 256 - 432420386565659656852420866394968145599.
Proof. by vm_compute. Qed.

Lemma order_normalized : normalized (order secp256k1).
Proof. split; [done|]. apply (bool_decide_unpack _). by vm_compute. Qed.

Lemma order_prime : Z.prime N.
Proof. rewrite order_value. apply secp256k1_order_prime. Qed.

Lemma order_range : 2 ^ 256 - 2 ^ 224 <= N < 2 ^ 256.
Proof. rewrite order_value. lia. Qed.

(** *** Multiples of the base point *)

(** The sum of signed odd multiples for the digits of [A], the result of
    multiplying: digit [i] of [A] is taken of 16^i times the base point. *)
Definition multiple_of_base (A : Z) : option (F * F) :=
  digit_sum secp256k1_p secp256k1 (map row_multiples (seq 1 63)) A (digit_point secp256k1_p (row_multiples 0) A).

Lemma scalar_multiply_secp256k1 rnd z rnd' k :
  normalized k -> 0 < value k < N -> generate_k_random rnd secp256k1_p = Ret (z, rnd') ->
  exists res, scalar_multiply rnd secp256k1 k = Ret (res, rnd') /\ rep res (multiple_of_base (odd_scalar secp256k1 k)) /\
    valid (multiple_of_base (odd_scalar secp256k1 k)).
Proof.
  intros Nk Rk Hz. destruct (cp secp256k1) as [|row rows] eqn:E; [done|]. pose proof E as E'. apply (f_equal length) in E'. change (length (cp secp256k1)) with 64%nat in E'. injection E' as El.
  pose proof (scalar_multiply_refines secp256k1_p p_normalized p_range p_prime secp256k1 eq_refl a_range p_low coefficient_b rnd z rnd' k row rows
    (row_multiples 0) (map row_multiples (seq 1 63)) E (eq_sym El)) as H. rewrite a_zero in H. apply H; try done; clear H.
  - apply table_row_ok. by rewrite E.
  - rewrite El. apply table_rows_ok. intros i r Hi. by rewrite E.
  - apply order_normalized.
Qed.

(** *** The group of the base point *)

Local Abbreviation times := (zmul p Zmod.zero).

Lemma curve_smooth x :
  on_curve p Zmod.zero coefficient_b (x, Zmod.zero) ->
  Zmod.add (Zmod.mul (Zmod.mul (Zmod.add (Zmod.add Zmod.one Zmod.one) Zmod.one) x) x) Zmod.zero <> Zmod.zero.
Proof.
  unfold on_curve. intros E H. apply b_nonzero.
  assert (Zmod.add (Zmod.add Zmod.one Zmod.one) Zmod.one <> Zmod.zero :> F) as H3.
  { rewrite <- Zmod.of_Z_1, <- !Zmod.of_Z_add, <- Zmod.of_Z_0. intros E3%Zmod.of_Z_inj. by vm_compute in E3. }
  assert (x = Zmod.zero) as ->; [|replace coefficient_b with (Zmod.mul Zmod.zero Zmod.zero : F) by (rewrite E; ring); ring].
  destruct (decide (x = Zmod.zero)) as [|Hx]; [done|]. exfalso. revert H. rewrite Zmod.add_0_r. repeat apply mul_neq; try done; apply p_prime.
Qed.

Lemma times_add m n P : valid P -> times (m + n) P = ec_add p Zmod.zero (times m P) (times n P).
Proof. exact (zmul_add p p_prime p_big Zmod.zero coefficient_b curve_smooth m n P). Qed.

Lemma times_opp n P : valid P -> times (- n) P = ec_opp p (times n P).
Proof. exact (zmul_opp p p_prime p_big Zmod.zero coefficient_b curve_smooth n P). Qed.

Lemma times_mul m n P : valid P -> times (m * n) P = times m (times n P).
Proof. exact (zmul_mul p p_prime p_big Zmod.zero coefficient_b curve_smooth m n P). Qed.

Lemma times_base_valid n : valid (times n base_point).
Proof. apply (zmul_valid p p_prime p_big), base_valid. Qed.

Lemma times_order_base : times N base_point = None.
Proof.
  replace N with ((N - 1) + 1) by lia. rewrite times_add by apply base_valid.
  replace (N - 1) with (Zpos (Z.to_pos (N - 1))) by (by vm_compute). rewrite <- (pmul_zmul p p_prime p_big Zmod.zero coefficient_b curve_smooth) by apply base_valid.
  rewrite base_order. change (times 1 base_point) with base_point. apply (add_opposite p p_prime p_big). done.
Qed.

(** The base point has order [N]. *)
Lemma times_base_none n : times n base_point = None <-> n mod N = 0.
Proof. apply (zmul_order p p_prime p_big Zmod.zero coefficient_b curve_smooth N); [apply base_valid|apply order_prime|apply times_order_base|done]. Qed.

Lemma times_base_mod n : times (n mod N) base_point = times n base_point.
Proof. apply (zmul_mod p p_prime p_big Zmod.zero coefficient_b curve_smooth N); [apply base_valid|apply times_order_base|pose proof order_range; lia]. Qed.

Lemma row_base_times i : row_base base_point i = times (16 ^ Z.of_nat i) base_point.
Proof.
  induction i as [|i IH]; [done|]. unfold row_base in *. rewrite Nat.iter_succ, IH, Nat2Z.inj_succ, Z.pow_succ_r, times_mul by (lia || apply base_valid).
  by rewrite <- (zmul_nat p Zmod.zero 16).
Qed.

Lemma digit_point_times i A : digit_point secp256k1_p (row_multiples i) A = times (digit_at A * 16 ^ Z.of_nat i) base_point.
Proof.
  assert (row_multiples i (index_at A) = times ((2 * Z.of_nat (index_at A) + 1) * 16 ^ Z.of_nat i) base_point) as E.
  { unfold row_multiples. rewrite row_base_times, <- zmul_nat, <- times_mul by apply base_valid. f_equal. lia. }
  unfold digit_point, digit_at. rewrite E. destruct (sign_at A); cbn [signed]; [f_equal; lia|]. rewrite <- times_opp by apply base_valid. f_equal. lia.
Qed.

Lemma digit_at_bound A : -15 <= digit_at A <= 15 /\ Z.odd (digit_at A) = true.
Proof.
  unfold digit_at. pose proof (index_at_lt A). split; [destruct (sign_at A); lia|]. rewrite Z.odd_mul, Z.odd_add, Z.odd_mul. by destruct (sign_at A).
Qed.

(** The sum over the digits is not at infinity on the way, so it is the sum of
    the group: a partial sum is an odd multiple below 16^63, less than the order. *)
Lemma digit_sum_times len : forall n A c,
  (0 < n)%nat -> (n + len <= 64)%nat -> Z.odd c = true -> - 16 ^ Z.of_nat n < c < 16 ^ Z.of_nat n ->
  digit_sum secp256k1_p secp256k1 (map row_multiples (seq n len)) A (times c base_point) = times (c + 16 ^ Z.of_nat n * digits_value len (A / 16)) base_point.
Proof.
  induction len as [|len IH]; intros n A c Hn Hlen Hodd Hc; cbn [seq map digit_sum digits_value]; [f_equal; lia|].
  destruct (digit_at_bound (A / 16)) as [Hd Ho]. set (d := digit_at (A / 16)) in *.
  assert (0 < 16 ^ Z.of_nat n <= 16 ^ 63) as Hpow by (split; [|apply Z.pow_le_mono_r]; lia).
  assert (times c base_point <> None) as Hne.
  { rewrite times_base_none. intros Hm. assert (16 ^ 63 < N) as HN by (by vm_compute). apply Z.mod_divide in Hm as [q Hq]; [|lia].
    assert (q = 0) as -> by nia. by subst c. }
  assert (sticky_add p (fa secp256k1_p secp256k1) (digit_point secp256k1_p (row_multiples n) (A / 16)) (times c base_point) = times (c + 16 ^ Z.of_nat n * d) base_point) as ->.
  { unfold sticky_add. destruct (times c base_point) as [C|] eqn:E; [|done]. rewrite a_zero, digit_point_times, <- E, <- times_add by apply base_valid. f_equal. fold d. lia. }
  rewrite IH; [| |lia| |].
  - f_equal. rewrite Nat2Z.inj_succ, Z.pow_succ_r by lia. lia.
  - lia.
  - rewrite Z.odd_add, Z.odd_mul, Hodd. assert (Z.odd (16 ^ Z.of_nat n) = false) as -> by (rewrite Z.odd_pow by lia; done). done.
  - rewrite Nat2Z.inj_succ, Z.pow_succ_r by lia. nia.
Qed.

(** The sum of signed digits is the multiple of the base point. *)
Lemma multiple_of_base_times k : 0 <= value k < N -> multiple_of_base (odd_scalar secp256k1 k) = times (value k) base_point.
Proof.
  intros Hk. unfold multiple_of_base. set (A := odd_scalar secp256k1 k). rewrite digit_point_times. destruct (digit_at_bound A) as [Hd Ho].
  rewrite digit_sum_times; [|lia|lia|by rewrite Z.mul_1_r|change (16 ^ Z.of_nat 0) with 1; change (16 ^ Z.of_nat 1) with 16; lia].
  rewrite <- times_base_mod. f_equal. rewrite <- (digits_of_scalar secp256k1 k Hk (proj2 order_range) eq_refl). fold A.
  change (digits_value 64 A) with (digit_at A + 16 * digits_value 63 (A / 16)). f_equal. change (16 ^ Z.of_nat 0) with 1. change (16 ^ Z.of_nat 1) with 16. lia.
Qed.

Lemma scalar_multiply_times rnd z rnd' k :
  normalized k -> 0 < value k < N -> generate_k_random rnd secp256k1_p = Ret (z, rnd') ->
  exists res, scalar_multiply rnd secp256k1 k = Ret (res, rnd') /\ rep res (times (value k) base_point).
Proof.
  intros Nk Rk Hz. destruct (scalar_multiply_secp256k1 rnd z rnd' k Nk Rk Hz) as (res & E & HR & _). exists res. split; [done|].
  rewrite <- multiple_of_base_times by lia. done.
Qed.

Lemma scalar_multiply_zero rnd k : normalized k -> value k = 0 -> scalar_multiply rnd secp256k1 k = Ret (infinity, rnd).
Proof.
  intros Nk H0. pose proof order_range as RN. unfold scalar_multiply. rewrite (bn_is_less_spec k _ Nk order_normalized), bool_decide_eq_true_2 by lia. unfold cassert. rewrite bind_Ret.
  destruct (make_odd_spec secp256k1 k Nk order_normalized) as (a & -> & _); [lia|done|]. rewrite bind_Ret, (bn_is_zero_spec k (proj2 Nk)). by rewrite bool_decide_eq_true_2.
Qed.

(** Without random words for the denominator nothing is returned. *)
Lemma scalar_multiply_waits rnd k :
  normalized k -> 0 < value k < N -> generate_k_random rnd secp256k1_p = NoFuel -> scalar_multiply rnd secp256k1 k = NoFuel.
Proof.
  intros Nk Rk Hz. pose proof order_range as RN. unfold scalar_multiply. rewrite (bn_is_less_spec k _ Nk order_normalized), bool_decide_eq_true_2 by lia. unfold cassert. rewrite bind_Ret.
  destruct (make_odd_spec secp256k1 k Nk order_normalized) as (a & -> & _); [lia|done|]. rewrite bind_Ret, (bn_is_zero_spec k (proj2 Nk)), bool_decide_eq_false_2 by lia.
  unfold curve_to_jacobian. change (prime secp256k1) with secp256k1_p. by rewrite Hz.
Qed.

(** *** Coordinates and bytes *)

Definition coords (P : option (F * F)) : Z * Z :=
  match P with Some (X, Y) => (Zmod.to_Z X, Zmod.to_Z Y) | None => (0, 0) end.

Lemma rep_coords R P : rep R P -> coords P = (value (x R), value (y R)).
Proof.
  intros ([Nx Bx] & [Ny By] & E). pose proof (norm_range _ Nx). pose proof (norm_range _ Ny).
  assert (forall v, 0 <= v < value secp256k1_p -> Zmod.to_Z (Zmod.of_Z (value secp256k1_p) v) = v) as Hz.
  { intros v Hv. rewrite Zmod.to_Z_of_Z. by apply Z.mod_small. }
  rewrite <- (Hz (value (x R))), <- (Hz (value (y R))) by lia. destruct P as [[X Y]|]; cbn [coords]; destruct E as [E1 E2].
  - by rewrite <- E1, <- E2.
  - unfold fp in E1, E2. rewrite E1, E2. by rewrite Zmod.to_Z_0.
Qed.

Lemma read_key data : bytes_ok data -> length data = 32%nat -> exists n, bn_read_be data = Ret n /\ normalized n /\ value n = be_word data /\ value n < 2 ^ 256.
Proof.
  intros Hd Hl. destruct (bn_read_spec data Hd Hl) as [(n & E & Nn & V) _]. exists n. do 3 (split; [done|]). rewrite V. pose proof (be_word_range data Hd) as R.
  assert (zlen data = 32) as Hz by (unfold zlen; lia). rewrite Hz in R. exact (proj2 R).
Qed.

(** Writing a number behind [l] in a buffer. *)
Lemma write_behind l a out :
  normalized a -> 32 <= zlen out -> bn_write_be a (zdrop (zlen l) (l ++ out)) = Ret (be_bytes 32 (value a) ++ zdrop 32 out) /\ ztake (zlen l) (l ++ out) = l.
Proof. intros Ha Ho. rewrite zdrop_app_exact, ztake_app_exact by done. split; [|done]. by apply bn_write_spec. Qed.

Lemma write_head v b m : mem_write (b :: m) 0 [v] = Ret (v :: m).
Proof. by apply (mem_write_here [b] m [v]). Qed.

Lemma write_pair a b out :
  normalized a -> normalized b -> zlen out = 64 ->
  bn_write_be a out = Ret (be_bytes 32 (value a) ++ zdrop 32 out) /\
  bn_write_be b (zdrop 32 (be_bytes 32 (value a) ++ zdrop 32 out)) = Ret (be_bytes 32 (value b)) /\
  ztake 32 (be_bytes 32 (value a) ++ zdrop 32 out) = be_bytes 32 (value a).
Proof.
  intros Ha Hb Ho. split; [apply bn_write_spec; [done|lia]|]. assert (zlen (zdrop 32 out) = 32) as Lo by (rewrite zlen_zdrop; lia).
  destruct (write_behind (be_bytes 32 (value a)) b (zdrop 32 out) Hb ltac:(lia)) as [W T]. rewrite zlen_be in W, T. change (Z.of_nat 32) with 32 in W, T.
  rewrite (zdrop_all 32 (zdrop 32 out)), app_nil_r in W by lia. done.
Qed.

(** ** The claims *)

(** Adding affine points is the group law of the curve: for points that are on
    the curve or at infinity, [point_add] returns, with reduced coordinates, the
    sum of the points, and [point_double] twice a point. *)
Theorem point_add_group_law (c1 c2 : curve_point) (P Q : option (F * F)) :
  rep c1 P -> rep c2 Q -> valid P -> valid Q ->
  (exists c, point_add secp256k1 c1 c2 = Ret c /\ rep c (ec_add p Zmod.zero P Q)) /\
  (exists c, point_double secp256k1 c1 = Ret c /\ rep c (ec_add p Zmod.zero P P)).
Proof.
  intros R1 R2 V1 V2. rewrite <- a_zero in *. pose proof (add_refines secp256k1_p p_normalized p_range p_prime secp256k1 eq_refl a_range p_low coefficient_b b_nonzero) as HA.
  split; [by apply HA|]. destruct P as [[X Y]|].
  - cbn [ec_add]. rewrite !decide_True by done. by apply (double_refines secp256k1_p p_normalized p_range p_prime secp256k1 eq_refl a_range p_low coefficient_b b_nonzero).
  - exists c1. split; [|done]. unfold point_double. rewrite (is_infinity_rep secp256k1_p p_range p_prime secp256k1 coefficient_b b_nonzero c1 None R1 I). done.
Qed.

Lemma point_add_group_law_witness :
  exists c, point_add secp256k1 (G secp256k1) infinity = Ret c /\ rep c base_point.
Proof.
  destruct (point_add_group_law (G secp256k1) infinity base_point None) as [H _].
  - apply (table_entry 0 row_0 0); done.
  - apply infinity_rep, p_range.
  - apply base_valid.
  - done.
  - exact H.
Defined.


Lemma base_jacobian : jbounded (mkJac (x (G secp256k1)) (y (G secp256k1)) bn_one) /\ jpoint (mkJac (x (G secp256k1)) (y (G secp256k1)) bn_one) = base_point.
Proof.
  destruct (table_entry 0 row_0 0 (G secp256k1) eq_refl eq_refl) as [(Bx & By & _) _]. split.
  - apply jbounded_intro; [apply p_range|by apply (bounded_le _ p_range 1 2)..|]. split; [|by vm_compute]. split; [done|]. apply (bool_decide_unpack _). by vm_compute.
  - unfold EcPoints.jpoint, base_point. cbn [jx jy jz]. assert (fp secp256k1_p bn_one = Zmod.one) as -> by (unfold fp; apply Zmod.of_Z_1).
    apply affine_intro; [apply p_prime|apply Zmod.one_neq_zero; pose proof p_big; lia|ring..].
Qed.


(** Every entry of the precomputed table is right: the table has 64 rows of
    eight points, and the point in row [i] and column [j] is the multiple 2j + 1
    of 16^i times the base point, by the group law. *)
Theorem secp256k1_table_multiples (i j : nat) (row : list curve_point) (c : curve_point) :
  cp secp256k1 !! i = Some row -> row !! j = Some c ->
  length (cp secp256k1) = 64%nat /\ length row = 8%nat /\ rep c (row_multiples i j) /\ row_multiples i j <> None.
Proof. intros Hi Hj. split; [done|]. split; [by apply (table_row i)|]. by apply (table_entry i row j c). Qed.

Lemma secp256k1_table_multiples_witness : rep (nth 3 row_17 infinity) (row_multiples 17 3) /\ row_multiples 17 3 <> None.
Proof. destruct (secp256k1_table_multiples 17 3 row_17 (nth 3 row_17 infinity) eq_refl eq_refl) as (_ & _ & H). exact H. Defined.

(** C8. Multiplying the base point: for a number from 0 to below the order, and
    random words from which a denominator can be drawn, [scalar_multiply] returns
    the number times the base point by the group law, the point at infinity for
    0, where no words are used.  No assertion of the code fails on the way, and
    the product is at infinity for no other number, so that neither is any sum
    the loop goes through. *)
Theorem scalar_multiply_correct (rnd z rnd' k : list Z) :
  normalized k -> 0 <= value k < N -> generate_k_random rnd secp256k1_p = Ret (z, rnd') ->
  exists res, scalar_multiply rnd secp256k1 k = Ret (res, if bool_decide (value k = 0) then rnd else rnd') /\
    rep res (ec_mul p Zmod.zero (Z.to_nat (value k)) base_point) /\
    (ec_mul p Zmod.zero (Z.to_nat (value k)) base_point = None <-> value k = 0).
Proof.
  intros Nk Rk Hz. assert (ec_mul p Zmod.zero (Z.to_nat (value k)) base_point = times (value k) base_point) as -> by (rewrite <- zmul_nat; f_equal; lia).
  assert (times (value k) base_point = None <-> value k = 0) as Hinf by (rewrite times_base_none, Z.mod_small by done; done).
  case_bool_decide as H0.
  - exists infinity. rewrite (scalar_multiply_zero rnd k Nk H0), (proj2 Hinf H0). split; [done|]. split; [apply infinity_rep, p_range|done].
  - destruct (scalar_multiply_times rnd z rnd' k Nk ltac:(lia) Hz) as (res & E & HR). by exists res.
Qed.

Lemma scalar_multiply_correct_witness :
  exists res, scalar_multiply (replicate 9 5) secp256k1 (bn_read_uint32 123) = Ret (res, []) /\ rep res (ec_mul p Zmod.zero 123 base_point) /\
    ec_mul p Zmod.zero 123 base_point <> None.
Proof.
  destruct (scalar_multiply_correct (replicate 9 5) (replicate 9 5) [] (bn_read_uint32 123)) as (res & E & HR & HN).
  - split; [done|]. apply (bool_decide_unpack _). by vm_compute.
  - by vm_compute.
  - by vm_compute.
  - exists res. split; [exact E|]. split; [exact HR|]. intros H0%HN. by vm_compute in H0.
Defined.

Lemma public_keys (rnd z rnd' prv_key k33 k64 k65 : list Z) :
  bytes_ok prv_key -> length prv_key = 32%nat -> 0 < be_word prv_key < N -> generate_k_random rnd secp256k1_p = Ret (z, rnd') ->
  zlen k33 = 33 -> zlen k64 = 64 -> zlen k65 = 65 ->
  exists k R, value k = be_word prv_key /\ rep R (times (value k) base_point) /\
    ecdsa_get_public_key33 rnd secp256k1 prv_key k33 = Ret ((2 + value (y R) mod 2) :: be_bytes 32 (value (x R)), rnd') /\
    ecdsa_get_public_key64 rnd secp256k1 prv_key k64 = Ret (be_bytes 32 (value (x R)) ++ be_bytes 32 (value (y R)), rnd') /\
    ecdsa_get_public_key65 rnd secp256k1 prv_key k65 = Ret (4 :: be_bytes 32 (value (x R)) ++ be_bytes 32 (value (y R)), rnd').
Proof.
  intros Hb Hl Hk Hz L33 L64 L65. destruct (read_key prv_key Hb Hl) as (k & Ek & Nk & Vk & _). rewrite <- Vk in Hk.
  destruct (scalar_multiply_times rnd z rnd' k Nk Hk Hz) as (R & ER & HR). exists k, R. split; [done|]. split; [done|]. destruct HR as ([Nx _] & [Ny _] & _).
  split_and!; [unfold ecdsa_get_public_key33|unfold ecdsa_get_public_key64|unfold ecdsa_get_public_key65]; rewrite Ek, bind_Ret, ER, bind_Ret.
  - destruct k33 as [|b k33]; [done|]. rewrite zlen_cons in L33. rewrite odd_land, odd_mod. assert (value (y R) mod 2 = 0 \/ value (y R) mod 2 = 1) as Hy by (Z.div_mod_to_equations; lia).
    set (v := Z.lor 2 (value (y R) mod 2)). assert (v = 2 + value (y R) mod 2) as Ev by (unfold v; by destruct Hy as [-> | ->]). rewrite Ev. clear v Ev. set (v := 2 + value (y R) mod 2).
    rewrite write_head, bind_Ret. destruct (write_behind [v] (x R) k33 Nx ltac:(lia)) as [W T]. change (zlen [v]) with 1 in W, T. cbn [app] in W, T.
    rewrite W, bind_Ret, T. rewrite zdrop_all, app_nil_r by lia. done.
  - destruct (write_pair (x R) (y R) k64 Nx Ny L64) as (W1 & W2 & T). by rewrite W1, bind_Ret, W2, bind_Ret, T.
  - destruct k65 as [|b k65]; [done|]. rewrite zlen_cons in L65. rewrite write_head, bind_Ret. destruct (write_behind [4] (x R) k65 Nx ltac:(lia)) as [W T].
    change (zlen [4]) with 1 in W, T. cbn [app] in W, T. rewrite W, bind_Ret, T. cbv zeta. assert (zlen (zdrop 32 k65) = 32) as Lz by (rewrite zlen_zdrop; lia).
    destruct (write_behind (4 :: be_bytes 32 (value (x R))) (y R) (zdrop 32 k65) Ny ltac:(lia)) as [W2 T2].
    assert (zlen (4 :: be_bytes 32 (value (x R))) = 33) as L33' by (rewrite zlen_cons, zlen_be; done). rewrite L33' in W2, T2. cbn [app] in W2, T2 |- *.
    rewrite W2, bind_Ret, T2, (zdrop_all 32 (zdrop 32 k65)), app_nil_r by lia. done.
Qed.

(** Public keys: for a private key between 0 and the order, the three forms
    of the public key are those of the same multiple of the base point: a byte
    for the parity of y and the bytes of x, the bytes of x and y, and these with
    the byte 4 in front. *)
Theorem public_key_forms (rnd z rnd' prv_key k33 k64 k65 : list Z) :
  bytes_ok prv_key -> length prv_key = 32%nat -> 0 < be_word prv_key < N -> generate_k_random rnd secp256k1_p = Ret (z, rnd') ->
  zlen k33 = 33 -> zlen k64 = 64 -> zlen k65 = 65 ->
  exists k R, value k = be_word prv_key /\ rep R (times (value k) base_point) /\
    ecdsa_get_public_key33 rnd secp256k1 prv_key k33 = Ret ((2 + value (y R) mod 2) :: be_bytes 32 (value (x R)), rnd') /\
    ecdsa_get_public_key64 rnd secp256k1 prv_key k64 = Ret (be_bytes 32 (value (x R)) ++ be_bytes 32 (value (y R)), rnd') /\
    ecdsa_get_public_key65 rnd secp256k1 prv_key k65 = Ret (4 :: be_bytes 32 (value (x R)) ++ be_bytes 32 (value (y R)), rnd').
Proof. apply public_keys. Qed.

Lemma public_key_forms_witness :
  exists k R, value k = 7 /\ rep R (times (value k) base_point) /\
    ecdsa_get_public_key33 (replicate 9 5) secp256k1 (replicate 31 0 ++ [7]) (replicate 33 0) = Ret ((2 + value (y R) mod 2) :: be_bytes 32 (value (x R)), []).
Proof.
  destruct (public_key_forms (replicate 9 5) (replicate 9 5) [] (replicate 31 0 ++ [7]) (replicate 33 0) (replicate 64 0) (replicate 65 0)) as (k & R & Vk & HR & E & _);
    [apply (bool_decide_unpack _); by vm_compute|by vm_compute..|].
  exists k, R. split; [exact Vk|]. split; [exact HR|exact E].
Defined.

End Secp256k1.
