(* ===== verification/EcSignature.v ===== *)
(** * EcSignature: signatures with secp256k1

    Proves that [ecdsa_sign_digest] of [Ecdsa] (src/src/ptp_crypto/ecdsa.cpp)
    with the curve of [Secp256k1] makes the signatures of the standard, in every
    round and with every test of canonicity, and that they verify.  The
    specification works on integers and points: it draws the secret numbers the
    way the code does, and divides modulo the order. *)

From Stdlib Require Import Zmod.ZmodInv Zmod.ZmodBase Zmod.ZmodDef Field.
From S2P Require Import Prelude Words Bignum BignumMod Primality Ecdsa Secp256k1 Curve CurveGroup EcPoints EcMultiply EcTable EcSign.

Section Signatures.
Import bignum ecdsa secp256k1.

Local Abbreviation p := (value secp256k1_p).
Local Abbreviation F := (Zmod.Zmod (value secp256k1_p)).
Local Abbreviation N := (value (order secp256k1)).
Local Abbreviation rep := (EcPoints.rep secp256k1_p).
Local Abbreviation times := (zmul p Zmod.zero).
Local Abbreviation fn := (fp (order secp256k1)).
Local Abbreviation bounded_n := (bounded (order secp256k1)).

Add Field Fn : (Zmod.field_theory (value (order secp256k1)) order_prime).

(** ** The specification *)

(** Division modulo the order. *)
Definition div_n (u v : Z) : Z := Zmod.to_Z (Zmod.mdiv (Zmod.of_Z N u) (Zmod.of_Z N v)).

(** For the secret number [k]: the number [r], and the byte that tells the
    parity of y and whether x was reduced. *)
Definition nonce_r (k : Z) : Z := (coords (times k base_point)).1 mod N.

Definition nonce_by (k : Z) : Z :=
  let '(x, y) := coords (times k base_point) in y mod 2 + (if bool_decide (x < N) then 0 else 2).

(** The number [s] for the private key [d] and the digest [z]. *)
Definition nonce_s (d z k : Z) : Z := div_n (z + nonce_r k * d) k.

(** At most [n] rounds: in each a secret number, a denominator for the
    multiplication, which has no part in the result, and unless [r] is 0 a mask,
    which has none either, are drawn. *)
Fixpoint sign_spec (n : nat) (rnd : list Z) (d z : Z) (sig : list Z) (pby : option Z) (is_canonical : option (Z -> list Z -> bool))
  : outcome (Z * option Z * list Z) :=
  match n with
  | O => Ret (-1, pby, sig)
  | S n =>
      '(k, rnd) ← generate_k_random rnd (order secp256k1);
      '(_, rnd) ← generate_k_random rnd secp256k1_p;
      let r := nonce_r (value k) in
      if r =? 0 then sign_spec n rnd d z sig pby is_canonical
      else
        '(_, rnd) ← generate_k_random rnd (order secp256k1);
        let s := nonce_s d z (value k) in
        if s =? 0 then sign_spec n rnd d z sig pby is_canonical
        else
          let flip := (N - 1) / 2 <? s in
          let sig := be_bytes 32 r ++ be_bytes 32 (if flip then N - s else s) in
          let by_ := Z.lxor (nonce_by (value k)) (if flip then 1 else 0) in
          if match is_canonical with None => true | Some f => f by_ sig end then Ret (0, (fun _ => by_) <$> pby, sig)
          else sign_spec n rnd d z sig pby is_canonical
  end.

(** The standard's verification of [r] and [s] with the public key [Q]. *)
Definition verifies (Q : option (F * F)) (z r s : Z) : Prop :=
  0 < r < N /\ 0 < s < N /\
  let P := ec_add p Zmod.zero (times (div_n z s) base_point) (times (div_n r s) Q) in
  P <> None /\ (coords P).1 mod N = r.

(** ** A round *)

Lemma order_low : 4 <= nth 0 (order secp256k1) 0.
Proof. by vm_compute. Qed.

Lemma reduce_x R P : rep R P ->
  exists rx, (if negb (bn_is_less (x R) (order secp256k1)) then (bn_subtract (x R) (order secp256k1), Z.lor (Z.land (nth 0 (y R) 0) 1) 2) else (x R, Z.land (nth 0 (y R) 0) 1)) =
    (rx, value (y R) mod 2 + (if bool_decide (value (x R) < N) then 0 else 2)) /\ normalized rx /\ value rx = value (x R) mod N.
Proof.
  intros ([Nx Bx] & [Ny By] & _). pose proof (norm_range _ Nx) as Rx. pose proof order_range as RN. pose proof p_range as Rp.
  rewrite odd_land, odd_mod, (bn_is_less_spec _ _ Nx order_normalized). assert (0 <= value (y R) mod 2 <= 1) as Hy by (Z.div_mod_to_equations; lia). case_bool_decide as H; cbn [negb].
  - exists (x R). rewrite Z.add_0_r, (Z.mod_small (value (x R))) by lia. done.
  - destruct (bn_subtract_spec (x R) (order secp256k1) Nx order_normalized) as [N1 V1]. rewrite Z.mod_small in V1 by lia. exists (bn_subtract (x R) (order secp256k1)).
    split; [f_equal|split; [done|]].
    + assert (value (y R) mod 2 = 0 \/ value (y R) mod 2 = 1) as [-> | ->] by lia; done.
    + rewrite V1. apply Z.mod_unique with 1; lia.
Qed.

Ltac mul_n r B V :=
  match goal with
  | |- context [bn_multiply ?k ?x (order secp256k1)] =>
      match goal with
      | Bk : bounded_n _ k, Bx : bounded_n _ x |- _ =>
          destruct (mul_rule (order secp256k1) order_normalized order_range _ _ k x Bk Bx) as (r & -> & B & V); [lia..|]; rewrite bind_Ret
      end
  end.

(** The smaller of [s] and its opposite. *)
Lemma low_s s (by_ : Z) : bounded_n 1 s -> value s <> 0 ->
  exists s', (if bn_is_less (order_half secp256k1) s then (bn_subtract (order secp256k1) s, Z.lxor by_ 1) else (s, by_)) =
    (s', Z.lxor by_ (if (N - 1) / 2 <? value s then 1 else 0)) /\ normalized s' /\ value s' = if (N - 1) / 2 <? value s then N - value s else value s.
Proof.
  intros [Ns Bs] H0. pose proof (norm_range s Ns) as Rs. pose proof order_range as RN.
  assert (normalized (order_half secp256k1)) as Nh by (split; [done|]; apply (bool_decide_unpack _); by vm_compute).
  assert (value (order_half secp256k1) = (N - 1) / 2) as Eh by (by vm_compute). rewrite (bn_is_less_spec _ s Nh Ns), Eh.
  case_bool_decide as H; destruct (Z.ltb_spec ((N - 1) / 2) (value s)) as [H'|H']; try lia.
  - destruct (bn_subtract_spec (order secp256k1) s order_normalized Ns) as [N1 V1]. rewrite Z.mod_small in V1 by lia. eauto.
  - exists s. by rewrite Z.lxor_0_r.
Qed.

(** The mask cancels: [s] times [k] is the signed number. *)
Lemma unmask (t k tk i s1 s2 : Zmod.Zmod N) :
  t <> Zmod.zero -> k <> Zmod.zero -> tk = Zmod.mul t k -> (if decide (tk = Zmod.zero) then i = Zmod.zero else Zmod.mul i tk = Zmod.one) ->
  s2 = Zmod.mul t (Zmod.mul i s1) -> Zmod.mul s2 k = s1.
Proof.
  intros Ht Hk -> Hi ->. rewrite decide_False in Hi by (apply mul_neq; [apply order_prime|done|done]).
  replace (Zmod.mul (Zmod.mul t (Zmod.mul i s1)) k) with (Zmod.mul (Zmod.mul i (Zmod.mul t k)) s1) by ring. rewrite Hi. ring.
Qed.

Lemma fn_nonzero l : bounded_n 1 l -> 0 < value l -> fn l <> Zmod.zero.
Proof. intros Hl Hv. rewrite (fp_inj0 _ order_range l Hl). lia. Qed.

Lemma to_Z_fn s : bounded_n 1 s -> Zmod.to_Z (fn s) = value s.
Proof. intros [Ns Bs]. unfold fp. rewrite Zmod.to_Z_of_Z. apply Z.mod_small. pose proof (norm_range s Ns). lia. Qed.

(** What a round gives for the secret number [k]. *)
Lemma sign_round_step rnd z priv_key k rnd1 w rnd2 d :
  generate_k_random rnd (order secp256k1) = Ret (k, rnd1) -> generate_k_random rnd1 secp256k1_p = Ret (w, rnd2) ->
  bn_read_be priv_key = Ret d -> normalized d -> value d < 2 ^ 256 -> normalized z -> value z < 2 ^ 256 ->
  let r := nonce_r (value k) in let s := nonce_s (value d) (value z) (value k) in
  exists rx, normalized rx /\ value rx = r /\
  if r =? 0 then sign_round rnd secp256k1 z priv_key = Ret (None, rnd2)
  else match generate_k_random rnd2 (order secp256k1) with
  | Ret (t, rnd3) =>
      if s =? 0 then sign_round rnd secp256k1 z priv_key = Ret (None, rnd3)
      else exists s', sign_round rnd secp256k1 z priv_key = Ret (Some (Z.lxor (nonce_by (value k)) (if (N - 1) / 2 <? s then 1 else 0), rx, s'), rnd3) /\
        normalized s' /\ value s' = if (N - 1) / 2 <? s then N - s else s
  | _ => sign_round rnd secp256k1 z priv_key = NoFuel
  end.
Proof.
  intros E1 E2 Ed Nd Rd Nz Rz. pose proof order_range as RN.
  pose proof (generate_k_rule secp256k1_p p_range secp256k1 a_range rnd _ order_normalized) as K. rewrite E1 in K. destruct K as (Nk & Rk & _).
  destruct (scalar_multiply_times rnd1 w rnd2 k Nk Rk E2) as (R & ER & HR). cbv zeta. unfold sign_round. rewrite E1, bind_Ret, ER, bind_Ret. cbv zeta.
  destruct (reduce_x R _ HR) as (rx & -> & Nr & Vr). apply rep_coords in HR.
  assert (value (y R) mod 2 + (if bool_decide (value (x R) < N) then 0 else 2) = nonce_by (value k)) as -> by (unfold nonce_by; by rewrite HR).
  assert (value rx = nonce_r (value k)) as Er by (unfold nonce_r; by rewrite HR). exists rx. do 2 (split; [done|]). rewrite <- Er.
  rewrite (bn_is_zero_spec rx (proj2 Nr)). destruct (Z.eqb_spec (value rx) 0) as [H0|H0]; [by rewrite bool_decide_eq_true_2|]. rewrite bool_decide_eq_false_2 by done.
  pose proof (generate_k_rule secp256k1_p p_range secp256k1 a_range rnd2 _ order_normalized) as K.
  destruct (generate_k_random rnd2 (order secp256k1)) as [[t rnd3]| | |]; [|done..]. destruct K as (Nt & Rt & _). rewrite bind_Ret.
  pose proof (norm_range _ Nr) as Rr. assert (value rx < N) as Rr' by (rewrite Vr; apply Z.mod_pos_bound; lia).
  assert (bounded_n 1 k /\ bounded_n 1 t /\ bounded_n 1 rx /\ bounded_n 2 d /\ bounded_n 2 z) as (Bk & Bt & Br & Bd & Bz) by (repeat split; done || lia || apply Nk || apply Nt || apply Nr || apply Nd || apply Nz).
  mul_n tk Btk Vtk. destruct (inverse_rule (order secp256k1) order_normalized order_range order_prime 2 tk Btk) as (i & -> & Bi & Vi); [lia|pose proof order_low; lia|]. rewrite bind_Ret, Ed, bind_Ret.
  mul_n s1 Bs1 Vs1. destruct (add_rule (order secp256k1) order_range _ _ s1 z Bs1 Bz) as [Bs2 Vs2]; [lia..|]. remember (bn_add s1 z) as s2 eqn:Es2; clear Es2.
  mul_n s3 Bs3 Vs3. mul_n s4 Bs4 Vs4. destruct (mod_rule (order secp256k1) order_normalized order_range s4 Bs4) as (s & -> & Bs & Vs). rewrite bind_Ret.
  assert (nonce_s (value d) (value z) (value k) = value s) as ->.
  { unfold nonce_s, div_n. rewrite <- Er, <- (to_Z_fn s Bs). f_equal. apply div_of_mul; [apply order_prime|apply (fn_nonzero k); [done|lia]|].
    fold (fn k). rewrite Vs, Vs4, Vs3. rewrite (unmask (fn t) (fn k) (fn tk) (fn i) (fn s2) _); try done; try (apply fn_nonzero; [done|lia]).
    rewrite Vs2, Vs1. unfold fp. rewrite <- Zmod.of_Z_mul, <- Zmod.of_Z_add. f_equal. lia. }
  rewrite (bn_is_zero_spec s (proj2 (proj1 Bs))). destruct (Z.eqb_spec (value s) 0) as [Hs|Hs]; [by rewrite bool_decide_eq_true_2|]. rewrite bool_decide_eq_false_2 by done.
  destruct (low_s s (nonce_by (value k)) Bs Hs) as (s' & -> & Ns' & Vs'). by exists s'.
Qed.

(** Every draw gives a number, or the words run out. *)
Lemma draw_cases rnd m : normalized m ->
  (exists k rnd', generate_k_random rnd m = Ret (k, rnd') /\ normalized k /\ 0 < value k < value m) \/ generate_k_random rnd m = NoFuel.
Proof.
  intros Hm. pose proof (generate_k_rule secp256k1_p p_range secp256k1 a_range rnd m Hm) as K.
  destruct (generate_k_random rnd m) as [[k rnd']| | |]; [|done|done|by right]. destruct K as (Nk & Rk & _). left. by exists k, rnd'.
Qed.

Lemma sign_loop_spec n priv_key z d pby is_canonical : bn_read_be priv_key = Ret d -> normalized d -> value d < 2 ^ 256 -> normalized z -> value z < 2 ^ 256 ->
  forall rnd sig, zlen sig = 64 ->
  sign_loop n rnd secp256k1 z priv_key sig pby is_canonical = sign_spec n rnd (value d) (value z) sig pby is_canonical.
Proof.
  intros Ed Nd Rd Nz Rz. induction n as [|n IH]; intros rnd sig Ls; cbn [sign_loop sign_spec]; [done|].
  destruct (draw_cases rnd _ order_normalized) as [(k & rnd1 & E1 & Nk & Rk)|E1]; [|unfold sign_round; by rewrite E1]. rewrite E1, bind_Ret.
  destruct (draw_cases rnd1 _ p_normalized) as [(w & rnd2 & E2 & _)|E2]; [|unfold sign_round; by rewrite E1, bind_Ret, (scalar_multiply_waits rnd1 k Nk Rk E2), E2].
  rewrite E2, bind_Ret. cbv zeta. destruct (sign_round_step rnd z priv_key k rnd1 w rnd2 d E1 E2 Ed Nd Rd Nz Rz) as (rx & Nr & Vr & H). cbv zeta in H.
  destruct (nonce_r (value k) =? 0); [rewrite H, bind_Ret; by apply IH|].
  destruct (draw_cases rnd2 _ order_normalized) as [(t & rnd3 & E3 & _)|E3]; rewrite E3 in H |- *; [|by rewrite H]. rewrite bind_Ret.
  destruct (nonce_s (value d) (value z) (value k) =? 0); [rewrite H, bind_Ret; by apply IH|]. destruct H as (s' & -> & Ns & Vs). rewrite bind_Ret.
  destruct (write_pair rx s' sig Nr Ns Ls) as (W1 & W2 & T). rewrite W1, bind_Ret, W2, bind_Ret, T, Vr, Vs.
  match goal with |- context [be_bytes 32 ?a ++ be_bytes 32 ?b] => set (sg := be_bytes 32 a ++ be_bytes 32 b) end.
  assert (zlen sg = 64) as Lg by (unfold sg; rewrite zlen_app, !zlen_be; done).
  destruct is_canonical as [f|]; [|done]. destruct (f _ sg); [done|]. by apply IH.
Qed.

(** ** Verification *)

Lemma of_Z_div u v : Zmod.of_Z N (div_n u v) = Zmod.mdiv (Zmod.of_Z N u) (Zmod.of_Z N v).
Proof. unfold div_n. apply Zmod.of_Z_to_Z. Qed.

Lemma of_Z_nonzero v : 0 < v < N -> Zmod.of_Z N v <> Zmod.zero.
Proof. intros Hv. rewrite <- Zmod.of_Z_0. intros E%Zmod.of_Z_inj. rewrite Z.mod_small, Z.mod_0_l in E; lia. Qed.

(** The two multiples of the verification add up to the secret number, or to
    its opposite. *)
Lemma verification_scalar (neg : bool) d z k r s : 0 < s < N ->
  Zmod.mul (Zmod.of_Z N s) (Zmod.of_Z N k) = Zmod.of_Z N ((if neg then -1 else 1) * (z + r * d)) ->
  (div_n z s + div_n r s * d) mod N = ((if neg then -1 else 1) * k) mod N.
Proof.
  intros Hs E. pose proof (of_Z_nonzero s Hs) as Hs0. apply Zmod.of_Z_inj. rewrite Zmod.of_Z_add, Zmod.of_Z_mul, !of_Z_div.
  replace (Zmod.add (Zmod.mdiv (Zmod.of_Z N z) (Zmod.of_Z N s)) (Zmod.mul (Zmod.mdiv (Zmod.of_Z N r) (Zmod.of_Z N s)) (Zmod.of_Z N d)))
    with (Zmod.mdiv (Zmod.of_Z N (z + r * d)) (Zmod.of_Z N s)) by (rewrite Zmod.of_Z_add, Zmod.of_Z_mul; field; done).
  apply div_of_mul; [apply order_prime|done|].
  assert (Zmod.mul (Zmod.of_Z N (if neg then -1 else 1)) (Zmod.of_Z N (if neg then -1 else 1)) = Zmod.one) as He by (rewrite <- Zmod.of_Z_mul, <- Zmod.of_Z_1; by destruct neg).
  rewrite Zmod.of_Z_mul in E |- *. set (e := Zmod.of_Z N (if neg then -1 else 1)) in *.
  replace (Zmod.mul (Zmod.mul e (Zmod.of_Z N k)) (Zmod.of_Z N s)) with (Zmod.mul e (Zmod.mul (Zmod.of_Z N s) (Zmod.of_Z N k))) by ring. rewrite E.
  replace (Zmod.of_Z N (z + r * d)) with (Zmod.mul Zmod.one (Zmod.of_Z N (z + r * d))) at 1 by ring. rewrite <- He. ring.
Qed.

Lemma coords_opp P : (coords (ec_opp p P)).1 = (coords P).1.
Proof. by destruct P as [[X Y]|]. Qed.

Lemma nonce_verifies d z k : 0 < k < N -> nonce_r k <> 0 -> nonce_s d z k <> 0 ->
  let s := nonce_s d z k in let s' := if (N - 1) / 2 <? s then N - s else s in
  0 < s' <= (N - 1) / 2 /\ verifies (times d base_point) z (nonce_r k) s'.
Proof.
  intros Hk Hr Hs s s'. pose proof order_range as RN.
  assert (0 <= s < N) as Rs by (unfold s, nonce_s, div_n; apply Zmod.unsigned_pos_bound; lia). fold s in Hs.
  assert (0 < s' <= (N - 1) / 2) as Rs'. { unfold s'. assert (N = 2 * ((N - 1) / 2) + 1) as EN by (by vm_compute). destruct (Z.ltb_spec ((N - 1) / 2) s); lia. }
  split; [done|]. assert ((N - 1) / 2 < N) as Hh by (by vm_compute). assert (0 <= nonce_r k < N) as Rr by (apply Z.mod_pos_bound; lia).
  split; [lia|]. split; [lia|]. cbv zeta. rewrite <- (times_mul _ _ _ base_valid), <- (times_add _ _ _ base_valid), <- times_base_mod.
  rewrite (verification_scalar ((N - 1) / 2 <? s) d z k (nonce_r k) s'); [|lia|].
  - rewrite times_base_mod. assert (times k base_point <> None) as Hne by (rewrite times_base_none, Z.mod_small by lia; lia).
    destruct ((N - 1) / 2 <? s); [|by rewrite Z.mul_1_l]. replace (-1 * k) with (- k) by lia. rewrite (times_opp _ _ base_valid), coords_opp.
    split; [by destruct (times k base_point) as [[? ?]|]|done].
  - assert (Zmod.mul (Zmod.of_Z N s) (Zmod.of_Z N k) = Zmod.of_Z N (z + nonce_r k * d)) as E.
    { unfold s, nonce_s. rewrite of_Z_div. apply div_mul; [apply order_prime|by apply of_Z_nonzero]. }
    unfold s'. destruct ((N - 1) / 2 <? s); [|by rewrite Z.mul_1_l]. rewrite Zmod.of_Z_mul, <- E, <- Zmod.of_Z_mul, <- !Zmod.of_Z_mul. apply Zmod.of_Z_inj.
    replace ((N - s) * k) with (-1 * (s * k) + k * N) by ring. apply Z.mod_add. lia.
Qed.

Lemma sign_spec_verifies n d z pby is_canonical : forall rnd sig pby' sig',
  sign_spec n rnd d z sig pby is_canonical = Ret (0, pby', sig') ->
  exists r s, sig' = be_bytes 32 r ++ be_bytes 32 s /\ s <= (N - 1) / 2 /\ verifies (times d base_point) z r s.
Proof.
  induction n as [|n IH]; intros rnd sig pby' sig'; cbn [sign_spec]; [done|].
  destruct (draw_cases rnd _ order_normalized) as [(k & rnd1 & -> & Nk & Rk)| ->]; [|done]. rewrite bind_Ret.
  destruct (draw_cases rnd1 _ p_normalized) as [(w & rnd2 & -> & _)| ->]; [|done]. rewrite bind_Ret. cbv zeta.
  destruct (Z.eqb_spec (nonce_r (value k)) 0) as [_|Hr]; [apply IH|].
  destruct (draw_cases rnd2 _ order_normalized) as [(t & rnd3 & -> & _)| ->]; [|done]. rewrite bind_Ret.
  destruct (Z.eqb_spec (nonce_s d z (value k)) 0) as [_|Hs]; [apply IH|].
  destruct (nonce_verifies d z (value k) Rk Hr Hs) as [Rs Hv]. cbv zeta in Rs, Hv.
  match goal with |- (if ?c then _ else _) = _ -> _ => destruct c end; [|apply IH]. intros [= _ <-]. eexists _, _. split; [done|]. split; [apply Rs|exact Hv].
Qed.

(** C7. Signing a digest is the signature scheme of the standard: for every
    private key and digest of 32 bytes, random words and test of canonicity,
    [ecdsa_sign_digest] gives what the specification gives.  In each of at most
    10000 rounds a secret number [k] is drawn; [r] is the coordinate x of [k]
    times the base point modulo the order, [s] is the digest plus [r] times the
    key, divided by [k], and the smaller of [s] and its opposite is taken; the
    round is repeated when [r] or [s] is 0 or the test refuses the signature,
    and after the last one the result is -1.  A signature that is returned
    verifies under the public key, which is the key times the base point, and its
    [s] is at most half the order. *)
Theorem signatures_verify (rnd priv_key digest sig : list Z) (pby : option Z) (is_canonical : option (Z -> list Z -> bool)) :
  bytes_ok priv_key -> length priv_key = 32%nat -> bytes_ok digest -> length digest = 32%nat -> zlen sig = 64 ->
  let d := be_word priv_key in let z := be_word digest in
  ecdsa_sign_digest rnd secp256k1 priv_key digest sig pby is_canonical = sign_spec (Z.to_nat 10000) rnd d z sig pby is_canonical /\
  forall pby' sig', ecdsa_sign_digest rnd secp256k1 priv_key digest sig pby is_canonical = Ret (0, pby', sig') ->
    exists r s, sig' = be_bytes 32 r ++ be_bytes 32 s /\ s <= (N - 1) / 2 /\ verifies (times d base_point) z r s.
Proof.
  intros Hp Lp Hd Ld Ls d z. destruct (read_key priv_key Hp Lp) as (nd & Ed & Nd & Vd & Rd). destruct (read_key digest Hd Ld) as (nz & Ez & Nz & Vz & Rz).
  assert (ecdsa_sign_digest rnd secp256k1 priv_key digest sig pby is_canonical = sign_spec (Z.to_nat 10000) rnd d z sig pby is_canonical) as E.
  { unfold ecdsa_sign_digest, d, z. rewrite Ez, bind_Ret, <- Vd, <- Vz. by apply sign_loop_spec. }
  split; [exact E|]. intros pby' sig'. rewrite E. apply sign_spec_verifies.
Qed.

(** Words from which the number [k] is drawn. *)
Definition words_of (k : Z) : list Z := k :: replicate 8 0.

(** The first round, with the secret number 1, is refused; the second, with 2, is
    not. *)
Lemma signatures_verify_witness :
  exists sig' r s,
    ecdsa_sign_digest (concat (map words_of [1; 1; 1; 2; 1; 1])) secp256k1 (replicate 32 1) (replicate 32 2) (replicate 64 0) (Some 7)
      (Some (fun _ sig => negb (nth 0 sig 0 =? 121))) = Ret (0, Some 0, sig') /\ nth 0 sig' 0 = 198 /\
    sig' = be_bytes 32 r ++ be_bytes 32 s /\ s <= (N - 1) / 2 /\ verifies (times (be_word (replicate 32 1)) base_point) (be_word (replicate 32 2)) r s.
Proof.
  destruct (signatures_verify (concat (map words_of [1; 1; 1; 2; 1; 1])) (replicate 32 1) (replicate 32 2) (replicate 64 0) (Some 7) (Some (fun _ sig => negb (nth 0 sig 0 =? 121))))
    as [E H]; [apply (bool_decide_unpack _); by vm_compute|by vm_compute|apply (bool_decide_unpack _); by vm_compute|by vm_compute..|].
  assert (exists sig', ecdsa_sign_digest (concat (map words_of [1; 1; 1; 2; 1; 1])) secp256k1 (replicate 32 1) (replicate 32 2) (replicate 64 0) (Some 7)
    (Some (fun _ sig => negb (nth 0 sig 0 =? 121))) = Ret (0, Some 0, sig') /\ nth 0 sig' 0 = 198) as (sig' & E' & H').
  { rewrite E. eexists. split; vm_compute; reflexivity. }
  destruct (H _ _ E') as (r & s & H1 & H2 & H3). exists sig', r, s. split_and!; assumption.
Defined.

End Signatures.
