(* ===== verification/Keccak.v ===== *)
(** * Keccak: the Keccak-256 hash

    Models src/src/ptp_crypto/keccak.cpp: the permutation of 25 lanes with its
    shift register for the round constants, and both overloads of [getHash], the
    one over bytes and the one over a string of signed characters.  The first is
    proved to be the sponge of the Keccak submission, with the rotation offsets
    and round constants as the standard derives and lists them. *)

From S2P Require Import Prelude Words.

Module Keccak256.

Definition HASH_LEN : Z := 32.

Definition BLOCK_SIZE : Z := 200 - HASH_LEN * 2.

Definition NUM_ROUNDS : nat := 24.

Definition ROTATION : list (list Z) :=
  [ [0; 36; 3; 41; 18]; [1; 44; 10; 45; 2]; [62; 6; 43; 15; 61]; [28; 55; 25; 21; 56]; [27; 20; 39; 8; 14] ].

Definition rotl64 (x i : Z) : Z := Z.lor (u64 (Z.shiftl x i)) (Z.shiftr x (Z.land (64 - i) 63)).

(** [a[x][y]] *)
Definition at_ (a : list (list Z)) (x y : nat) : Z := nth y (nth x a []) 0.

(** [a[x][y] = v] *)
Definition put (a : list (list Z)) (x y : nat) (v : Z) : list (list Z) := alter (fun row => <[y := v]> row) x a.

(** [for (x..) for (y..) a[x][y] = f(x, y)], where [f] does not read [a]. *)
Definition tabulate (f : nat -> nat -> Z) : list (list Z) := map (fun x => map (f x) (seq 0 5)) (seq 0 5).

Definition theta (a : list (list Z)) : list (list Z) :=
  let c := map (fun x => fold_left (fun c y => Z.lxor c (at_ a x y)) (seq 0 5) 0) (seq 0 5) in
  tabulate (fun x y =>
    let d := Z.lxor (nth ((x + 4) mod 5) c 0) (rotl64 (nth ((x + 1) mod 5) c 0) 1) in
    Z.lxor (at_ a x y) d).

(** [b] is not initialised; [junk] is what it holds. *)
Definition rho_pi (junk a : list (list Z)) : list (list Z) :=
  fold_left (fun b x => fold_left (fun b y => put b y ((x * 2 + y * 3) mod 5) (rotl64 (at_ a x y) (at_ ROTATION x y))) (seq 0 5) b) (seq 0 5) junk.

Definition chi (b : list (list Z)) : list (list Z) :=
  tabulate (fun x y => Z.lxor (at_ b x y) (Z.land (u64 (Z.lnot (at_ b ((x + 1) mod 5) y))) (at_ b ((x + 2) mod 5) y))).

(** The shift register. *)
Definition lfsr (r : Z) : Z := u8 (Z.lxor (Z.shiftl r 1) (Z.shiftr r 7 * 0x171)).

Definition iota (a : list (list Z)) (r : Z) : list (list Z) * Z :=
  fold_left (fun '(a, r) j => (put a 0 0 (Z.lxor (at_ a 0 0) (u64 (Z.shiftl (Z.land r 1) (Z.shiftl 1 (Z.of_nat j) - 1)))), lfsr r)) (seq 0 7) (a, r).

Fixpoint rounds (n : nat) (junk a : list (list Z)) (r : Z) : list (list Z) :=
  match n with
  | O => a
  | S n => let '(a, r) := iota (chi (rho_pi junk (theta a))) r in rounds n junk a r
  end.

Definition absorb (junk state : list (list Z)) : list (list Z) := rounds NUM_ROUNDS junk state 1.

(** [state[j % 5][j / 5] ^= v << ((blockOff & 7) << 3)] with [j = blockOff >> 3] *)
Definition xor_in (state : list (list Z)) (blockOff v : Z) : list (list Z) :=
  let j := Z.to_nat (Z.shiftr blockOff 3) in
  put state (j mod 5) (j / 5) (Z.lxor (at_ state (j mod 5) (j / 5)) (u64 (Z.shiftl v (Z.shiftl (Z.land blockOff 7) 3)))).

(** The loop over the message; [conv] is the conversion of a byte to 64 bits. *)
Fixpoint absorb_bytes (conv : Z -> Z) (junk : list (list Z)) (msg : list Z) (state : list (list Z)) (blockOff : Z) : list (list Z) * Z :=
  match msg with
  | [] => (state, blockOff)
  | b :: msg =>
      let state := xor_in state blockOff (conv b) in
      let blockOff := blockOff + 1 in
      if blockOff =? BLOCK_SIZE then absorb_bytes conv junk msg (absorb junk state) 0
      else absorb_bytes conv junk msg state blockOff
  end.

Definition squeeze (state : list (list Z)) : list Z :=
  map (fun i => let j := Z.to_nat (Z.shiftr (Z.of_nat i) 3) in u8 (Z.shiftr (at_ state (j mod 5) (j / 5)) (Z.shiftl (Z.land (Z.of_nat i) 7) 3))) (seq 0 32).

Definition hash_with (conv : Z -> Z) (junk : list (list Z)) (msg : list Z) : list Z :=
  let '(state, blockOff) := absorb_bytes conv junk msg (replicate 5 (replicate 5 0)) 0 in
  let state := xor_in state blockOff 0x01 in
  let state := xor_in state (BLOCK_SIZE - 1) 0x80 in
  squeeze (absorb junk state).

(** [getHash(const uint8_t msg[], size_t len, ...)] *)
Definition getHash (junk : list (list Z)) (msg : list Z) : list Z := hash_with (fun b => b) junk msg.

(** [getHash(const std::string &msg, ...)]: a character is signed. *)
Definition getHash_string (junk : list (list Z)) (msg : list Z) : list Z := hash_with (fun b => u64 (wrap_s 8 b)) junk msg.

End Keccak256.

(** ** The standard *)

Module keccak_spec.

(** A lane of the state; lane (x, y) has index 5 y + x. *)
Definition lane (A : list Z) (x y : nat) : Z := nth (5 * y + x) A 0.

Definition grid (f : nat -> nat -> Z) : list Z := map (fun i => f (i mod 5)%nat (i / 5)%nat) (seq 0 25).

Definition rot (w n : Z) : Z := (w * 2 ^ n) mod 2 ^ 64 + w / 2 ^ (64 - n).

(** The offsets of the rotations, by the walk that defines them. *)
Fixpoint walk (n : nat) (t : Z) (x y : nat) (r : list Z) : list Z :=
  match n with
  | O => r
  | S n => walk n (t + 1) y ((2 * x + 3 * y) mod 5) (<[(5 * y + x)%nat := ((t + 1) * (t + 2) / 2) mod 64]> r)
  end.

Definition offsets : list Z := walk 24 0 1 0 (replicate 25 0).

Definition parity (A : list Z) (x : nat) : Z :=
  Z.lxor (lane A x 0) (Z.lxor (lane A x 1) (Z.lxor (lane A x 2) (Z.lxor (lane A x 3) (lane A x 4)))).

Definition theta (A : list Z) : list Z :=
  grid (fun x y => Z.lxor (lane A x y) (Z.lxor (parity A ((x + 4) mod 5)) (rot (parity A ((x + 1) mod 5)) 1))).

(** Lane (x, y) moves to (y, 2 x + 3 y). *)
Definition rho_pi (A : list Z) : list Z :=
  grid (fun x y => rot (lane A ((x + 3 * y) mod 5) x) (lane offsets ((x + 3 * y) mod 5) x)).

Definition chi (B : list Z) : list Z :=
  grid (fun x y => Z.lxor (lane B x y) (Z.land (2 ^ 64 - 1 - lane B ((x + 1) mod 5) y) (lane B ((x + 2) mod 5) y))).

Definition round (A : list Z) (rc : Z) : list Z := alter (Z.lxor rc) 0%nat (chi (rho_pi (theta A))).

Definition RC : list Z :=
  [ 0x0000000000000001; 0x0000000000008082; 0x800000000000808A; 0x8000000080008000; 0x000000000000808B; 0x0000000080000001;
    0x8000000080008081; 0x8000000000008009; 0x000000000000008A; 0x0000000000000088; 0x0000000080008009; 0x000000008000000A;
    0x000000008000808B; 0x800000000000008B; 0x8000000000008089; 0x8000000000008003; 0x8000000000008002; 0x8000000000000080;
    0x000000000000800A; 0x800000008000000A; 0x8000000080008081; 0x8000000000008080; 0x0000000080000001; 0x8000000080008008 ].

Definition keccak_f (A : list Z) : list Z := fold_left round RC A.

(** The padding of the submission: a one, zeros, a one. *)
Definition pad (n : nat) : list Z :=
  let q := (136 - n mod 136)%nat in if decide (q = 1%nat) then [0x81] else 0x01 :: replicate (q - 2) 0 ++ [0x80].

Definition absorb_block (A block : list Z) : list Z := keccak_f (zip_with Z.lxor A (map le_word (chunks 8 17 block) ++ replicate 8 0)).

Definition keccak256 (msg : list Z) : list Z :=
  let m := msg ++ pad (length msg) in
  let A := fold_left absorb_block (chunks 136 (length m / 136) m) (replicate 25 0) in
  concat (map (le_bytes 8) (take 4 A)).

End keccak_spec.

Section Equivalence.
Import Keccak256.
Local Abbreviation spec_theta := keccak_spec.theta.
Local Abbreviation lane := keccak_spec.lane.
Local Abbreviation grid := keccak_spec.grid.
Local Abbreviation lanes_ok := (Forall (is_u 64)).

(** ** The permutation *)

Definition shape (a : list (list Z)) : Prop := length a = 5%nat /\ Forall (fun row => length row = 5%nat) a.

(** The lanes of a state in the order of the standard. *)
Definition flat (a : list (list Z)) : list Z := grid (at_ a).

Lemma flat_tabulate f : flat (tabulate f) = grid f.
Proof. reflexivity. Qed.

Lemma shape_tabulate f : shape (tabulate f).
Proof. split; [done|]. by repeat constructor. Qed.

Lemma lane_grid f x y : (x < 5)%nat -> (y < 5)%nat -> lane (grid f) x y = f x y.
Proof. intros Hx Hy. do 5 (destruct x as [|x]; [do 5 (destruct y as [|y]; [reflexivity|]); lia|]). lia. Qed.

Lemma grid_ext f g : (forall x y, (x < 5)%nat -> (y < 5)%nat -> f x y = g x y) -> grid f = grid g.
Proof.
  intros H. apply map_ext_in. intros i Hi%in_seq. apply H; [apply Nat.mod_upper_bound; lia|apply Nat.Div0.div_lt_upper_bound; lia].
Qed.

Lemma nth_ok (P : Z -> Prop) l i : P 0 -> Forall P l -> P (nth i l 0).
Proof. intros H0 Hl. revert i. induction Hl as [|v l Hv Hl IH]; intros [|i]; cbn [nth]; auto. Qed.

Lemma lane_ok A x y : lanes_ok A -> is_u 64 (lane A x y).
Proof. by apply nth_ok. Qed.

Lemma grid_ok f : (forall x y, is_u 64 (f x y)) -> lanes_ok (grid f).
Proof. intros H. apply Forall_map, Forall_true. intros i. apply H. Qed.

Lemma at_flat a x y : (x < 5)%nat -> (y < 5)%nat -> at_ a x y = lane (flat a) x y.
Proof. intros Hx Hy. unfold flat. by rewrite lane_grid. Qed.

(** A rotation by code is that of the standard on 64-bit words. *)
Lemma rotl64_spec w n : is_u 64 w -> 0 <= n < 64 -> rotl64 w n = keccak_spec.rot w n.
Proof.
  intros Hw Hn. unfold rotl64, keccak_spec.rot. unfold is_u in Hw. destruct (decide (n = 0)) as [->|H0].
  - change (Z.land (64 - 0) 63) with 0. rewrite Z.shiftl_0_r, Z.shiftr_0_r, wrap_u_small by done. rewrite Z.lor_diag, Z.mul_1_r, Z.mod_small by lia.
    change (64 - 0) with 64. rewrite Z.div_small by lia. lia.
  - change 63 with (Z.ones 6). rewrite Z.land_ones, (Z.mod_small (64 - n)) by lia. unfold wrap_u. rewrite Z.shiftl_mul_pow2, Z.shiftr_div_pow2 by lia.
    assert (2 ^ 64 = 2 ^ (64 - n) * 2 ^ n) as E by (rewrite <- Z.pow_add_r by lia; f_equal; lia). assert (0 < 2 ^ n) by (apply Z.pow_pos_nonneg; lia).
    assert (0 < 2 ^ (64 - n)) by (apply Z.pow_pos_nonneg; lia). rewrite E at 1. rewrite Z.mul_mod_distr_r by lia. rewrite <- Z.shiftl_mul_pow2 by lia.
    rewrite lor_shiftl_add; [|lia|split; [apply Z.div_pos; lia|apply Z.div_lt_upper_bound; lia]]. rewrite E, Z.mul_mod_distr_r by lia. done.
Qed.

Lemma rot_ok w n : is_u 64 w -> 0 <= n < 64 -> is_u 64 (keccak_spec.rot w n).
Proof.
  intros Hw Hn. unfold is_u in *. unfold keccak_spec.rot. assert (2 ^ 64 = 2 ^ (64 - n) * 2 ^ n) as E by (rewrite <- Z.pow_add_r by lia; f_equal; lia).
  assert (0 < 2 ^ n) by (apply Z.pow_pos_nonneg; lia). assert (0 < 2 ^ (64 - n)) by (apply Z.pow_pos_nonneg; lia). rewrite E in Hw |- *. rewrite Z.mul_mod_distr_r by lia.
  pose proof (Z.mod_pos_bound w (2 ^ (64 - n)) ltac:(lia)). assert (0 <= w / 2 ^ (64 - n) < 2 ^ n) by (split; [apply Z.div_pos; lia|apply Z.div_lt_upper_bound; lia]). nia.
Qed.

Lemma parity_ok A x : lanes_ok A -> is_u 64 (keccak_spec.parity A x).
Proof. intros HA. unfold keccak_spec.parity. repeat (apply is_u_lxor; [lia|by apply lane_ok|]). by apply lane_ok. Qed.

Lemma theta_ok A : lanes_ok A -> lanes_ok (spec_theta A).
Proof. intros HA. apply grid_ok. intros x y. apply is_u_lxor; [lia|by apply lane_ok|]. apply is_u_lxor; [lia|by apply parity_ok|]. apply rot_ok; [by apply parity_ok|lia]. Qed.

Lemma offsets_range x y : 0 <= lane keccak_spec.offsets x y < 64.
Proof. apply (nth_ok (fun n => 0 <= n < 64)); [lia|]. apply (bool_decide_unpack _). by vm_compute. Qed.

Lemma rho_pi_ok A : lanes_ok A -> lanes_ok (keccak_spec.rho_pi A).
Proof. intros HA. apply grid_ok. intros x y. apply rot_ok; [by apply lane_ok|apply offsets_range]. Qed.

Lemma chi_ok B : lanes_ok B -> lanes_ok (keccak_spec.chi B).
Proof. intros HB. apply grid_ok. intros x y. apply is_u_lxor; [lia|by apply lane_ok|]. rewrite Z.land_comm. apply is_u_land; [lia|by apply lane_ok]. Qed.

Lemma mod5_lt n : (n mod 5 < 5)%nat.
Proof. apply Nat.mod_upper_bound. lia. Qed.

Lemma theta_refines a : lanes_ok (flat a) -> flat (theta a) = spec_theta (flat a).
Proof.
  intros Ha. unfold theta, spec_theta. rewrite flat_tabulate. apply grid_ext. intros x y Hx Hy. set (c := map _ (seq 0 5)).
  assert (forall z, (z < 5)%nat -> nth z c 0 = keccak_spec.parity (flat a) z) as Hc.
  { intros z Hz. unfold c, keccak_spec.parity. rewrite <- !at_flat by lia. do 5 (destruct z as [|z]; [cbn [map seq nth fold_left]; by rewrite Z.lxor_0_l, !Z.lxor_assoc|]). lia. }
  rewrite !Hc by apply mod5_lt. rewrite rotl64_spec, at_flat by (done || lia || by apply parity_ok). done.
Qed.

Lemma rotation_offsets x y : (x < 5)%nat -> (y < 5)%nat -> at_ ROTATION x y = lane keccak_spec.offsets x y.
Proof. intros Hx Hy. do 5 (destruct x as [|x]; [do 5 (destruct y as [|y]; [by vm_compute|]); lia|]). lia. Qed.

(** The 25 assignments fill [b]. *)
Lemma rho_pi_fills junk a : shape junk ->
  rho_pi junk a = tabulate (fun x y => rotl64 (at_ a ((x + 3 * y) mod 5) x) (at_ ROTATION ((x + 3 * y) mod 5) x)).
Proof.
  intros [Hl Hr]. do 5 (destruct junk as [|? junk]; [done|]; apply Forall_cons_1 in Hr as [? Hr]). destruct junk; [|done].
  repeat match goal with H : length ?l = 5%nat |- _ => do 5 (destruct l as [|? l]; [done|]); destruct l; [clear H|done] end. reflexivity.
Qed.

Lemma rho_pi_refines junk a : shape junk -> lanes_ok (flat a) -> flat (rho_pi junk a) = keccak_spec.rho_pi (flat a).
Proof.
  intros Hj Ha. rewrite rho_pi_fills, flat_tabulate by done. apply grid_ext. intros x y Hx Hy. rewrite at_flat, rotation_offsets by (apply mod5_lt || lia).
  apply rotl64_spec; [by apply lane_ok|apply offsets_range].
Qed.

Lemma lnot_spec w : is_u 64 w -> u64 (Z.lnot w) = 2 ^ 64 - 1 - w.
Proof. intros Hw. unfold is_u in Hw. unfold wrap_u. unfold Z.lnot. symmetry. apply Z.mod_unique with (-1); lia. Qed.

Lemma chi_refines b : lanes_ok (flat b) -> flat (chi b) = keccak_spec.chi (flat b).
Proof.
  intros Hb. unfold chi. rewrite flat_tabulate. apply grid_ext. intros x y Hx Hy. rewrite !at_flat by (apply mod5_lt || lia). rewrite lnot_spec by (by apply lane_ok). done.
Qed.

(** *** The round constants *)

(** What the seven steps of one round xor into the first lane, and the register
    after them. *)
Definition constant_of (r : Z) : Z * Z :=
  fold_left (fun '(c, r) j => (Z.lxor c (u64 (Z.shiftl (Z.land r 1) (Z.shiftl 1 (Z.of_nat j) - 1))), lfsr r)) (seq 0 7) (0, r).

Fixpoint constants (n : nat) (r : Z) : list Z := match n with O => [] | S n => let '(c, r) := constant_of r in c :: constants n r end.

Lemma constants_RC : constants NUM_ROUNDS 1 = keccak_spec.RC.
Proof. by vm_compute. Qed.

Lemma put_flat a x y v : shape a -> (x < 5)%nat -> (y < 5)%nat -> flat (put a x y v) = <[(5 * y + x)%nat := v]> (flat a) /\ shape (put a x y v).
Proof.
  intros [Hl Hr] Hx Hy. do 5 (destruct a as [|? a]; [done|]; apply Forall_cons_1 in Hr as [? Hr]). destruct a; [|done].
  repeat match goal with H : length ?l = 5%nat |- _ => do 5 (destruct l as [|? l]; [done|]); destruct l; [clear H|done] end.
  do 5 (destruct x as [|x]; [do 5 (destruct y as [|y]; [split; [reflexivity|split; [done|by repeat constructor]]|]); lia|]). lia.
Qed.

Lemma iota_refines a r : shape a ->
  flat (iota a r).1 = alter (Z.lxor (constant_of r).1) 0%nat (flat a) /\ (iota a r).2 = (constant_of r).2 /\ shape (iota a r).1.
Proof.
  intros Ha. assert (flat a = alter (Z.lxor 0) 0%nat (flat a)) as E0 by (unfold flat, keccak_spec.grid; cbn [map seq alter list_alter]; by rewrite Z.lxor_0_l).
  unfold iota, constant_of. generalize (seq 0 7) as js.
  assert (forall js a' c r, shape a' -> flat a' = alter (Z.lxor c) 0%nat (flat a) ->
    let '(a1, r1) := fold_left (fun '(a, r) j => (put a 0 0 (Z.lxor (at_ a 0 0) (u64 (Z.shiftl (Z.land r 1) (Z.shiftl 1 (Z.of_nat j) - 1)))), lfsr r)) js (a', r) in
    let '(c2, r2) := fold_left (fun '(c, r) j => (Z.lxor c (u64 (Z.shiftl (Z.land r 1) (Z.shiftl 1 (Z.of_nat j) - 1))), lfsr r)) js (c, r) in
    flat a1 = alter (Z.lxor c2) 0%nat (flat a) /\ r1 = r2 /\ shape a1) as H.
  { induction js as [|j js IH]; intros a' c r' Ha' E; cbn [fold_left]; [done|]. set (v := u64 _). destruct (put_flat a' 0 0 (Z.lxor (at_ a' 0 0) v) Ha') as [E1 S1]; [lia..|].
    apply IH; [done|]. rewrite E1, at_flat, E by lia. unfold flat, keccak_spec.lane, keccak_spec.grid. cbn [map seq nth alter list_alter insert list_insert Nat.mul Nat.add].
    by rewrite Z.lxor_assoc, (Z.lxor_comm _ v), <- Z.lxor_assoc. }
  intros js. specialize (H js a 0 r Ha E0). by destruct (fold_left _ js (a, r)), (fold_left _ js (0, r)).
Qed.

Lemma constant_ok r : is_u 64 (constant_of r).1.
Proof.
  unfold constant_of. assert (forall js c r, is_u 64 c -> is_u 64 (fold_left (fun '(c, r) j => (Z.lxor c (u64 (Z.shiftl (Z.land r 1) (Z.shiftl 1 (Z.of_nat j) - 1))), lfsr r)) js (c, r)).1) as H.
  { induction js as [|j js IH]; intros c r' Hc; cbn [fold_left]; [done|]. apply IH, is_u_lxor; [lia|done|by apply wrap_u_range]. }
  by apply H.
Qed.

Lemma alter_ok f j L : (forall w, is_u 64 w -> is_u 64 (f w)) -> lanes_ok L -> lanes_ok (alter f j L).
Proof. intros Hf HL. revert j. induction HL as [|w L Hw HL IH]; intros [|j]; cbn [alter list_alter]; constructor; auto. Qed.

Lemma round_ok A c : lanes_ok A -> is_u 64 c -> lanes_ok (keccak_spec.round A c).
Proof. intros HA Hc. apply alter_ok; [intros w Hw; by apply is_u_lxor|]. by apply chi_ok, rho_pi_ok, theta_ok. Qed.

Lemma steps_refine junk a : shape junk -> lanes_ok (flat a) ->
  flat (chi (rho_pi junk (theta a))) = keccak_spec.chi (keccak_spec.rho_pi (spec_theta (flat a))).
Proof.
  intros Hj Hok. pose proof (theta_ok _ Hok) as H1. rewrite <- theta_refines in H1 |- * by done. pose proof (rho_pi_ok _ H1) as H2. rewrite <- (rho_pi_refines junk) in H2 |- * by done.
  by apply chi_refines.
Qed.

Lemma round_refines junk a r : shape junk -> lanes_ok (flat a) -> let ar := iota (chi (rho_pi junk (theta a))) r in
  flat ar.1 = keccak_spec.round (flat a) (constant_of r).1 /\ ar.2 = (constant_of r).2 /\ shape ar.1 /\ lanes_ok (flat ar.1).
Proof.
  intros Hj Hok. pose proof (steps_refine junk a Hj Hok) as E. assert (shape (chi (rho_pi junk (theta a)))) as Hs by apply shape_tabulate.
  destruct (iota_refines _ r Hs) as (E1 & E2 & S1). cbv zeta. rewrite E in E1. split; [exact E1|]. split; [done|]. split; [done|].
  rewrite E1. apply round_ok; [done|apply constant_ok].
Qed.

Lemma rounds_S n junk a r : rounds (S n) junk a r = rounds n junk (iota (chi (rho_pi junk (theta a))) r).1 (iota (chi (rho_pi junk (theta a))) r).2.
Proof. cbn [rounds]. by destruct (iota _ r). Qed.

Lemma constants_S n r : constants (S n) r = (constant_of r).1 :: constants n (constant_of r).2.
Proof. cbn [constants]. by destruct (constant_of r). Qed.

Lemma fold_left_cons {A B} (f : A -> B -> A) b l a : fold_left f (b :: l) a = fold_left f l (f a b).
Proof. reflexivity. Qed.

Lemma rounds_refines junk n : shape junk -> forall a r, shape a -> lanes_ok (flat a) ->
  flat (rounds n junk a r) = fold_left keccak_spec.round (constants n r) (flat a) /\ shape (rounds n junk a r) /\ lanes_ok (flat (rounds n junk a r)).
Proof.
  intros Hj. induction n as [|n IH]; intros a r Ha Hok; [split; [reflexivity|split; assumption]|].
  destruct (round_refines junk a r Hj Hok) as (E & Er & Hs & H1). rewrite rounds_S, constants_S, fold_left_cons, <- E, <- Er. exact (IH _ _ Hs H1).
Qed.

Lemma absorb_refines junk a : shape junk -> shape a -> lanes_ok (flat a) ->
  flat (absorb junk a) = keccak_spec.keccak_f (flat a) /\ shape (absorb junk a) /\ lanes_ok (flat (absorb junk a)).
Proof. intros Hj Ha Hok. unfold absorb, keccak_spec.keccak_f. rewrite <- constants_RC. generalize NUM_ROUNDS as n. intros n. by apply rounds_refines. Qed.

(** ** The bytes *)

(** Byte [i] of the state, counted over the lanes. *)
Definition xor_byte (L : list Z) (i : nat) (v : Z) : list Z := alter (fun w => Z.lxor w (u64 (Z.shiftl v (8 * Z.of_nat (i mod 8))))) (i / 8)%nat L.

Lemma insert_alter (f : Z -> Z) L : forall j, (j < length L)%nat -> <[j := f (nth j L 0)]> L = alter f j L.
Proof. induction L as [|w L IH]; intros [|j] Hj; cbn [length] in Hj; [lia|lia|done|]. cbn. f_equal. apply IH. lia. Qed.

Lemma xor_in_refines a i v : shape a -> (i < 200)%nat -> flat (xor_in a (Z.of_nat i) v) = xor_byte (flat a) i v /\ shape (xor_in a (Z.of_nat i) v).
Proof.
  intros Ha Hi. unfold xor_in. assert (Z.to_nat (Z.shiftr (Z.of_nat i) 3) = (i / 8)%nat) as -> by (rewrite Z.shiftr_div_pow2 by lia; change (2 ^ 3) with (Z.of_nat 8); rewrite <- Nat2Z.inj_div; lia).
  set (j := (i / 8)%nat). assert (j < 25)%nat as Hj by (apply Nat.Div0.div_lt_upper_bound; lia). assert (j / 5 < 5)%nat as Hd by (apply Nat.Div0.div_lt_upper_bound; lia).
  destruct (put_flat a (j mod 5) (j / 5) (Z.lxor (at_ a (j mod 5) (j / 5)) (u64 (Z.shiftl v (Z.shiftl (Z.land (Z.of_nat i) 7) 3)))) Ha (mod5_lt j) Hd) as [E S]. split; [|done].
  rewrite E, at_flat by (done || apply mod5_lt). unfold keccak_spec.lane. assert (5 * (j / 5) + j mod 5 = j)%nat as -> by (pose proof (Nat.div_mod_eq j 5); lia).
  rewrite (insert_alter (fun w => Z.lxor w _)) by done. unfold xor_byte. fold j.
  assert (Z.shiftl (Z.land (Z.of_nat i) 7) 3 = 8 * Z.of_nat (i mod 8)) as ->; [|done]. change 7 with (Z.ones 3). rewrite Z.land_ones, Z.shiftl_mul_pow2 by lia.
  change (2 ^ 3) with (Z.of_nat 8). rewrite <- Nat2Z.inj_mod. lia.
Qed.

Fixpoint xor_bytes (L : list Z) (i : nat) (l : list Z) : list Z := match l with [] => L | b :: l => xor_bytes (xor_byte L i b) (S i) l end.

Lemma lxor_shift b w : is_u 8 b -> Z.lor b (Z.shiftl w 8) = Z.lxor b (Z.shiftl w 8).
Proof.
  intros Hb. apply Z.bits_inj'. intros n Hn. rewrite Z.lor_spec, Z.lxor_spec. destruct (Z.ltb_spec n 8).
  - rewrite Z.shiftl_spec_low by done. by destruct (Z.testbit b n).
  - rewrite (testbit_high 8 b n) by done. done.
Qed.

Lemma alter_twice (f g h : Z -> Z) (L : list Z) : (forall w, f (g w) = h w) -> forall j : nat, alter f j (alter g j L) = alter h j L.
Proof. intros H. induction L as [|w L IH]; intros [|j]; cbn; [done|done|by rewrite H|f_equal; apply IH]. Qed.

Lemma alter_middle (f : Z -> Z) (pre rest : list Z) w : alter f (length pre) (pre ++ w :: rest) = pre ++ f w :: rest.
Proof. induction pre as [|v pre IH]; [done|]. cbn. f_equal. apply IH. Qed.

(** The bytes of one lane. *)
Lemma xor_lane_bytes l : forall L j k, bytes_ok l -> (k + length l <= 8)%nat ->
  xor_bytes L (8 * j + k) l = alter (fun w => Z.lxor w (Z.shiftl (le_word l) (8 * Z.of_nat k))) j L.
Proof.
  induction l as [|b l IH]; intros L j k Hl Hk; cbn [xor_bytes le_word].
  - rewrite Z.shiftl_0_l. symmetry. apply list_alter_id. intros w. apply Z.lxor_0_r.
  - apply Forall_cons_1 in Hl as [Hb Hl]. cbn [length] in Hk. replace (S (8 * j + k)) with (8 * j + S k)%nat by lia. rewrite IH by (done || lia). unfold xor_byte.
    assert ((8 * j + k) / 8 = j /\ (8 * j + k) mod 8 = k)%nat as [-> ->].
    { replace (8 * j + k)%nat with (k + j * 8)%nat by lia. rewrite Nat.div_add, Nat.Div0.mod_add, Nat.div_small, Nat.mod_small by lia. lia. }
    apply alter_twice. intros w. rewrite Z.lxor_assoc. f_equal.
    rewrite lxor_shift, Z.shiftl_lxor, Z.shiftl_shiftl by (done || lia). replace (8 + 8 * Z.of_nat k) with (8 * Z.of_nat (S k)) by lia. f_equal.
    apply wrap_u_small. unfold is_u in *. rewrite Z.shiftl_mul_pow2 by lia. assert (2 ^ (8 * Z.of_nat k) <= 2 ^ 56) by (apply Z.pow_le_mono_r; lia). nia.
Qed.

Lemma xor_bytes_app l1 : forall L i l2, xor_bytes L i (l1 ++ l2) = xor_bytes (xor_bytes L i l1) (i + length l1) l2.
Proof. induction l1 as [|b l1 IH]; intros L i l2; cbn [app xor_bytes length]; [by rewrite Nat.add_0_r|]. rewrite IH. f_equal. lia. Qed.

Lemma xor_lane_words n : forall l pre rest, bytes_ok l -> length l = (8 * n)%nat -> (n <= length rest)%nat ->
  xor_bytes (pre ++ rest) (8 * length pre) l = pre ++ zip_with Z.lxor (take n rest) (map le_word (chunks 8 n l)) ++ drop n rest.
Proof.
  induction n as [|n IH]; intros l pre rest Hb Hl Hn; [by destruct l|]. destruct rest as [|w rest]; [cbn [length] in Hn; lia|]. cbn [length] in Hn.
  cbn [take drop chunks map zip_with]. rewrite <- (take_drop 8 l) at 1. rewrite xor_bytes_app. rewrite length_take, Nat.min_l by lia.
  pose proof (xor_lane_bytes (take 8 l) (pre ++ w :: rest) (length pre) 0 (Forall_take _ _ _ Hb)) as E. rewrite Nat.add_0_r in E. rewrite E by (rewrite length_take; lia).
  rewrite alter_middle, Z.shiftl_0_r. replace (8 * length pre + 8)%nat with (8 * length (pre ++ [Z.lxor w (le_word (take 8 l))]))%nat by (rewrite length_app; cbn; lia).
  rewrite cons_middle, app_assoc, IH by ((by apply Forall_drop) || (rewrite ?length_drop; lia)). by rewrite <- app_assoc.
Qed.

(** *** The loop over the message *)

Lemma absorb_bytes_part junk l : forall a i, shape a -> (i + length l < 136)%nat ->
  exists a', absorb_bytes (fun b => b) junk l a (Z.of_nat i) = (a', Z.of_nat (i + length l)) /\ flat a' = xor_bytes (flat a) i l /\ shape a'.
Proof.
  induction l as [|b l IH]; intros a i Ha Hi; cbn [absorb_bytes length] in *; [exists a; by rewrite Nat.add_0_r|].
  destruct (xor_in_refines a i b Ha) as [E S1]; [lia|]. change BLOCK_SIZE with 136. rewrite (proj2 (Z.eqb_neq _ _)) by lia.
  replace (Z.of_nat i + 1) with (Z.of_nat (S i)) by lia. destruct (IH _ (S i) S1) as (a' & E1 & E2 & S2); [lia|]. exists a'. rewrite E1, E2, E. split; [f_equal; lia|done].
Qed.

Lemma absorb_bytes_block junk l : forall a i rest, shape a -> l <> [] -> (i + length l = 136)%nat ->
  exists a', absorb_bytes (fun b => b) junk (l ++ rest) a (Z.of_nat i) = absorb_bytes (fun b => b) junk rest (absorb junk a') 0 /\ flat a' = xor_bytes (flat a) i l /\ shape a'.
Proof.
  induction l as [|b l IH]; intros a i rest Ha Hn Hi; [done|]. cbn [absorb_bytes length app] in *. destruct (xor_in_refines a i b Ha) as [E S1]; [lia|]. change BLOCK_SIZE with 136.
  destruct l as [|b' l].
  - cbn [length] in Hi. rewrite (proj2 (Z.eqb_eq _ _)) by lia. eexists. split; [reflexivity|]. done.
  - rewrite (proj2 (Z.eqb_neq _ _)) by (cbn [length] in Hi; lia). replace (Z.of_nat i + 1) with (Z.of_nat (S i)) by lia.
    destruct (IH _ (S i) rest S1) as (a' & E1 & E2 & S2); [done|lia|]. exists a'. rewrite E1, E2, E. done.
Qed.

Lemma length_flat a : length (flat a) = 25%nat.
Proof. reflexivity. Qed.

(** A block of bytes is xored into the first lanes. *)
Lemma xor_block L block : length L = 25%nat -> bytes_ok block -> length block = 136%nat ->
  xor_bytes L 0 block = zip_with Z.lxor L (map le_word (chunks 8 17 block) ++ replicate 8 0).
Proof.
  intros HL Hb Hl. pose proof (xor_lane_words 17 block [] L Hb Hl ltac:(lia)) as E. change (8 * length (@nil Z))%nat with 0%nat in E. cbn [app] in E. rewrite E. rewrite <- (take_drop 17 L) at 3.
  rewrite zip_with_app by (rewrite length_take, length_map, length_chunks; lia). f_equal.
  assert (length (drop 17 L) = 8%nat) as Hd by (rewrite length_drop; lia). revert Hd. generalize (drop 17 L) as D. intros D Hd.
  do 8 (destruct D as [|? D]; [done|]). destruct D; [|done]. cbn [replicate zip_with]. by rewrite !Z.lxor_0_r.
Qed.

Lemma xor_bytes_ok l : forall L i, bytes_ok l -> lanes_ok L -> lanes_ok (xor_bytes L i l).
Proof.
  induction l as [|b l IH]; intros L i Hl HL; [done|]. apply Forall_cons_1 in Hl as [Hb Hl]. cbn [xor_bytes]. apply IH; [done|]. apply alter_ok; [|done].
  intros w Hw. apply is_u_lxor; [lia|done|by apply wrap_u_range].
Qed.

Lemma absorb_message junk q : shape junk -> forall msg a, bytes_ok msg -> shape a -> lanes_ok (flat a) -> (136 * q <= length msg < 136 * S q)%nat ->
  exists a', absorb_bytes (fun b => b) junk msg a 0 = (a', Z.of_nat (length msg - 136 * q)) /\ shape a' /\ lanes_ok (flat a') /\
    flat a' = xor_bytes (fold_left keccak_spec.absorb_block (chunks 136 q msg) (flat a)) 0 (drop (136 * q) msg).
Proof.
  intros Hj. induction q as [|q IH]; intros msg a Hb Ha Hok Hl.
  - destruct (absorb_bytes_part junk msg a 0 Ha) as (a' & E & F & S1); [lia|]. exists a'. change (Z.of_nat 0) with 0 in E. rewrite E. split; [f_equal; lia|]. split; [done|].
    split; [rewrite F; by apply xor_bytes_ok|]. rewrite F. cbn [chunks fold_left]. by rewrite Nat.mul_0_r, drop_0.
  - destruct (absorb_bytes_block junk (take 136 msg) a 0 (drop 136 msg) Ha) as (a1 & E & F & S1).
    { intros E. apply (f_equal length) in E. rewrite length_take in E. cbn [length] in E. lia. } { rewrite length_take. lia. }
    rewrite take_drop in E. change (Z.of_nat 0) with 0 in E. rewrite E. assert (lanes_ok (flat a1)) as Ok1 by (rewrite F; apply xor_bytes_ok; [by apply Forall_take|done]).
    destruct (absorb_refines junk a1 Hj S1 Ok1) as (F2 & S2 & Ok2).
    destruct (IH (drop 136 msg) (absorb junk a1)) as (a' & E' & S' & Ok' & F'); [by apply Forall_drop|done|done|rewrite length_drop; lia|].
    exists a'. rewrite E', length_drop. split; [f_equal; lia|]. split; [done|]. split; [done|]. rewrite F'. cbn [chunks]. rewrite fold_left_cons.
    rewrite drop_drop. replace (136 + 136 * q)%nat with (136 * S q)%nat by lia. do 2 f_equal. rewrite F2, F. unfold keccak_spec.absorb_block. f_equal.
    apply xor_block; [done|by apply Forall_take|rewrite length_take; lia].
Qed.

Lemma chunks_last {A} k n (l1 l2 : list A) : length l1 = (k * n)%nat -> length l2 = k -> chunks k (n + 1) (l1 ++ l2) = chunks k n l1 ++ [l2].
Proof. intros H1 H2. rewrite chunks_app by done. cbn [chunks]. by rewrite take_ge by lia. Qed.

Lemma chunks_take {A} k n : forall (l : list A), (k * n <= length l)%nat -> chunks k n (take (k * n) l) = chunks k n l.
Proof.
  induction n as [|n IH]; intros l Hl; cbn [chunks]; [done|]. rewrite take_take, Nat.min_l by lia. f_equal.
  replace (k * S n)%nat with (k + k * n)%nat by lia. rewrite skipn_firstn_comm. replace (k + k * n - k)%nat with (k * n)%nat by lia. apply IH. rewrite length_drop. lia.
Qed.

Lemma length_xor_bytes l : forall L i, length (xor_bytes L i l) = length L.
Proof. induction l as [|b l IH]; intros L i; [done|]. cbn [xor_bytes]. rewrite IH. apply length_alter. Qed.

Lemma xor_byte_0 L i : xor_byte L i 0 = L.
Proof. unfold xor_byte. rewrite Z.shiftl_0_l. apply list_alter_id. intros w. apply Z.lxor_0_r. Qed.

Lemma xor_zeros n : forall L i, xor_bytes L i (replicate n 0) = L.
Proof. induction n as [|n IH]; intros L i; [done|]. cbn [replicate xor_bytes]. by rewrite xor_byte_0. Qed.

(** The two bits of the padding. *)
Lemma xor_pad L n : let r := (n mod 136)%nat in xor_byte (xor_byte L r 0x01) 135 0x80 = xor_bytes L r (keccak_spec.pad n).
Proof.
  cbv zeta. unfold keccak_spec.pad. set (r := (n mod 136)%nat). assert (r < 136)%nat as Hr by (apply Nat.mod_upper_bound; lia). case_decide as H.
  - assert (r = 135%nat) as -> by lia. cbn [xor_bytes]. apply alter_twice. intros w. by rewrite Z.lxor_assoc.
  - cbn [xor_bytes]. rewrite xor_bytes_app, xor_zeros, length_replicate. cbn [xor_bytes]. f_equal. lia.
Qed.

Lemma keccak_pad_ok n : bytes_ok (keccak_spec.pad n).
Proof.
  unfold keccak_spec.pad. case_decide; [repeat constructor; unfold is_u; lia|]. constructor; [unfold is_u; lia|]. apply Forall_app. split; [|repeat constructor; unfold is_u; lia].
  apply Forall_replicate. unfold is_u. lia.
Qed.

Lemma length_pad n : length (keccak_spec.pad n) = (136 - n mod 136)%nat.
Proof.
  unfold keccak_spec.pad. pose proof (Nat.mod_upper_bound n 136 ltac:(lia)). case_decide; [done|]. cbn [length]. rewrite length_app, length_replicate. cbn [length]. lia.
Qed.

Lemma squeeze_refines a : squeeze a = concat (map (le_bytes 8) (take 4 (flat a))).
Proof.
  unfold squeeze, flat, keccak_spec.grid. cbn [map seq take concat app le_bytes]. rewrite !Z.shiftr_shiftr by lia. reflexivity.
Qed.

End Equivalence.

Import Keccak256.

Lemma keccak_eq (junk : list (list Z)) (msg : list Z) : shape junk -> bytes_ok msg -> getHash junk msg = keccak_spec.keccak256 msg.
Proof.
  intros Hj Hm. set (q := (length msg / 136)%nat). pose proof (Nat.div_mod_eq (length msg) 136) as Eq. pose proof (Nat.mod_upper_bound (length msg) 136 ltac:(lia)) as Hr. fold q in Eq.
  assert (shape (replicate 5 (replicate 5 0))) as S0 by (split; [done|by repeat constructor]).
  destruct (absorb_message junk q Hj msg _ Hm S0) as (a & E & Sa & Oa & F); [apply (bool_decide_unpack _); by vm_compute|lia|]. change (flat (replicate 5 (replicate 5 0))) with (replicate 25 0) in F.
  unfold getHash, hash_with. rewrite E. assert (length msg - 136 * q = length msg mod 136)%nat as Er by lia. rewrite Er.
  destruct (xor_in_refines a (length msg mod 136) 1 Sa ltac:(lia)) as [F1 S1]. change (BLOCK_SIZE - 1) with (Z.of_nat 135).
  destruct (xor_in_refines _ 135 0x80 S1 ltac:(lia)) as [F2 S2]. rewrite F1, xor_pad in F2. set (t := drop (136 * q) msg) in *.
  assert (length t = length msg mod 136)%nat as Lt by (unfold t; rewrite length_drop; lia).
  assert (bytes_ok (t ++ keccak_spec.pad (length msg))) as Ht by (apply Forall_app; split; [by apply Forall_drop|apply keccak_pad_ok]).
  destruct (absorb_refines junk _ Hj S2) as (F3 & _ & _); [rewrite F2; apply xor_bytes_ok; [apply keccak_pad_ok|done]|]. rewrite squeeze_refines, F3, F2, F.
  set (A := fold_left keccak_spec.absorb_block _ _) in *. pose proof (xor_bytes_app t A 0 (keccak_spec.pad (length msg))) as Ea. cbn [Nat.add] in Ea. rewrite Lt in Ea. rewrite <- Ea.
  rewrite xor_block; [|rewrite <- (length_xor_bytes t A 0), <- F; apply length_flat|done|rewrite length_app, length_pad; lia].
  unfold keccak_spec.keccak256. rewrite length_app, length_pad.
  assert ((length msg + (136 - length msg mod 136)) / 136 = q + 1)%nat as -> by (rewrite Eq at 1; symmetry; apply Nat.div_unique with 0%nat; lia).
  assert (msg ++ keccak_spec.pad (length msg) = take (136 * q) msg ++ (t ++ keccak_spec.pad (length msg))) as -> by (unfold t; by rewrite app_assoc, take_drop).
  rewrite chunks_last by (rewrite ?length_take, ?length_app, ?length_pad; lia). rewrite fold_left_app, chunks_take by lia. fold A. reflexivity.
Qed.

(** C14. The hash is Keccak-256: for every message of bytes, and whatever the
    uninitialised array of the permutation holds, [getHash] is the sponge of the
    standard with rate 136 and the padding of the submission, its rotation offsets
    from the walk over the lanes and its 24 round constants. *)
Theorem keccak256_is_keccak (junk : list (list Z)) (msg : list Z) :
  shape junk -> bytes_ok msg -> getHash junk msg = keccak_spec.keccak256 msg.
Proof. apply keccak_eq. Qed.

Lemma keccak256_is_keccak_witness : getHash (replicate 5 (replicate 5 7)) [97; 98; 99] = keccak_spec.keccak256 [97; 98; 99].
Proof. apply keccak256_is_keccak; [split; [done|by repeat constructor]|]. apply (bool_decide_unpack _). by vm_compute. Defined.

(** The published hash of the empty message. *)
Example keccak_empty :
  getHash (replicate 5 (replicate 5 7)) [] =
  be_bytes 32 0xc5d2460186f7233c927e7db2dcc703c0e500b653ca82273b7bfad8045d85a470.
Proof. by vm_compute. Qed.

Lemma getHash_form junk msg : length (getHash junk msg) = 32%nat /\ bytes_ok (getHash junk msg).
Proof.
  unfold getHash, hash_with. destruct (absorb_bytes _ _ _ _ _) as [a off]. unfold squeeze. rewrite length_map, length_seq. split; [done|].
  apply Forall_map, Forall_true. intros i. by apply wrap_u_range.
Qed.

Lemma absorb_bytes_ext conv junk msg : Forall (fun b => conv b = b) msg ->
  forall a i, absorb_bytes conv junk msg a i = absorb_bytes (fun b => b) junk msg a i.
Proof. induction 1 as [|b msg Hb _ IH]; intros a i; [done|]. cbn [absorb_bytes]. rewrite Hb. by destruct (_ =? _). Qed.

(** The overload for strings agrees with the one for bytes on texts of ASCII
    characters, but not on others: a character of 128 or more is extended with its
    sign to 64 bits before it is shifted. *)
Theorem string_hash_signed (junk : list (list Z)) (msg : list Z) :
  Forall (fun b => 0 <= b < 128) msg ->
  getHash_string junk msg = getHash junk msg /\
  getHash_string (replicate 5 (replicate 5 0)) [128] <> getHash (replicate 5 (replicate 5 0)) [128].
Proof.
  intros Hm. split; [|by vm_compute]. unfold getHash_string, getHash, hash_with. rewrite absorb_bytes_ext; [done|].
  eapply Forall_impl; [|exact Hm]. intros b Hb. cbn beta in Hb |- *. rewrite wrap_s_small; [apply wrap_u_small; unfold is_u; lia|lia|]. unfold is_s. change (2 ^ (8 - 1)) with 128. lia.
Qed.

Lemma string_hash_signed_witness : getHash_string (replicate 5 (replicate 5 0)) [72; 105] = getHash (replicate 5 (replicate 5 0)) [72; 105].
Proof. apply string_hash_signed. apply (bool_decide_unpack _). by vm_compute. Defined.
