(* ===== verification/CryptoHelpers.v ===== *)
(** * CryptoHelpers: addresses, signed messages and recovery

    Models src/src/ptp_crypto/secp256k1_helpers.cpp, the hashing helpers of
    src/src/ptp_crypto/crypto_helpers.cpp and [ecdsa_get_public_address] of
    src/src/ptp_crypto/ecdsa.cpp.  The library libsecp256k1 is a class of its
    documented operations and laws; creating, randomising and destroying its
    contexts has no effect that the model sees.  An illegal argument, which by the
    documentation aborts the process, is a failed assertion. *)

From Stdlib Require Import Zmod.ZmodBase Zmod.ZmodDef.
From S2P Require Import Prelude Words Helpers Bignum BignumMod Ecdsa Secp256k1 CurveGroup EcPoints EcTable EcSign Keccak.

(** ** The library *)

Class libsecp256k1 := {
  pubkey_t : Type;
  sig_t : Type;
  ecdsa_recoverable_signature_parse_compact : list Z -> Z -> option sig_t;
  ecdsa_recoverable_signature_serialize_compact : sig_t -> list Z * Z;
  ecdsa_sign_recoverable_ : list Z -> list Z -> option sig_t;
  ecdsa_recover : sig_t -> list Z -> option pubkey_t;
  ec_pubkey_create : list Z -> option pubkey_t;
  ec_pubkey_uncompressed : pubkey_t -> list Z;
  ec_pubkey_compressed : pubkey_t -> list Z;
  ecdh : pubkey_t -> list Z -> option (list Z);
  uncompressed_form pk : length (ec_pubkey_uncompressed pk) = 65%nat /\ bytes_ok (ec_pubkey_uncompressed pk);
  compact_form s : let '(sig64, recid) := ecdsa_recoverable_signature_serialize_compact s in
    length sig64 = 64%nat /\ bytes_ok sig64 /\ 0 <= recid <= 3 /\ ecdsa_recoverable_signature_parse_compact sig64 recid = Some s;
  recover_signed h k s : ecdsa_sign_recoverable_ h k = Some s -> ecdsa_recover s h = ec_pubkey_create k;
}.

Module secp256k1_helpers.
Section Helpers.
Context `{libsecp256k1} (junk : list (list Z)).

(** [enum SignMsgType] *)
Inductive SignMsgType := SignMsgType_eth | SignMsgType_ptp | SignMsgType_ptp_group.

Definition PTP_Signed_Message : list Z := bytes_of "PTP Signed Message:" ++ [10].

Definition PTP_GROUP_Signed_Message : list Z := bytes_of "PTP GROUP Signed Message:" ++ [10].

Definition ETH_Signed_Message : list Z := bytes_of "Ethereum Signed Message:" ++ [10].

(** [to_string] of a [size_t], which has at most twenty digits. *)
Definition size_text (n : Z) : list Z := Helpers.dec_loop 20 n [].

Definition format_sign_msg_data (message : list Z) (signMsgType : SignMsgType) : list Z :=
  match signMsgType with
  | SignMsgType_ptp => [0x19] ++ PTP_Signed_Message ++ size_text (zlen message) ++ message
  | SignMsgType_ptp_group => [0x19] ++ PTP_GROUP_Signed_Message ++ size_text (zlen message) ++ message
  | SignMsgType_eth => [0x19] ++ ETH_Signed_Message ++ size_text (zlen message) ++ message
  end.

Definition keccak_256_hash (msg_data : list Z) : list Z := Keccak256.getHash junk msg_data.

Definition pub_key_to_hex (pubkey_serialize : list Z) : outcome (list Z) :=
  bs ← mem_read pubkey_serialize 1 64;
  Ret (bytes_of "0x" ++ concat (map Helpers.hex_byte bs)).

Definition format_eth_msg_data (message : list Z) : list Z := [0x19] ++ ETH_Signed_Message ++ size_text (zlen message) ++ message.

(** [address_to_hex] *)
Definition address_to_hex (address : list Z) : outcome (list Z) := Helpers.bytes_to_hex_string address (zlen address).

(** [std::string::substr] of the rest *)
Definition substr (s : list Z) (pos : Z) : outcome (list Z) :=
  if zlen s <? pos then Throw (invalid_argument "basic_string::substr") else Ret (zdrop pos s).

(** A string's data ends with a null character that may be read. *)
Definition pub_key_to_address (pubkey_64 : list Z) : outcome (list Z) :=
  data ← mem_read (pubkey_64 ++ [0]) 0 64;
  substr (Keccak256.getHash junk data) 12.

(** The recovery id that is passed on. *)
Definition recovery_id (rec_id : Z) : Z :=
  let v := if rec_id <? 27 then rec_id + 27 else rec_id in
  if 3 <? v then v - 27 else v.

(** Parsing with the check of the argument that the library documents. *)
Definition parse_compact (sig64 : list Z) (v : Z) : outcome (option sig_t) :=
  _ ← cassert ((0 <=? v) && (v <=? 3)) "recid >= 0 && recid <= 3";
  Ret (ecdsa_recoverable_signature_parse_compact sig64 v).

Definition recover_pub_key_from_sig_64 (sig : list Z) (rec_id : Z) (msg_data : list Z) : outcome (list Z) :=
  let v := recovery_id rec_id in
  let msg_hash := keccak_256_hash msg_data in
  sig64 ← mem_read sig 0 64;
  rawSig ← parse_compact sig64 v;
  match rawSig with
  | None => Ret []
  | Some rawSig =>
      match ecdsa_recover rawSig msg_hash with
      | None => Ret []
      | Some rawPubkey => substr (ec_pubkey_uncompressed rawPubkey) 1
      end
  end.

(** [recover_pub_key_from_sig_65(sig_65, msg_data)] *)
Definition recover_pub_key_from_sig_65 (sig_65 msg_data : list Z) : outcome (list Z) :=
  sig_64 ← mem_read sig_65 0 64;
  rec_id ← mem_get sig_65 64;
  recover_pub_key_from_sig_64 sig_64 rec_id msg_data.

(** The overload with public key and address: [None] for [false], when nothing is
    written.  A key was recovered, so that serialising it succeeds. *)
Definition recover_pub_key_and_address_from_sig (sig_65 msg_data : list Z) : outcome (option (list Z * list Z)) :=
  sig_64 ← mem_read sig_65 0 64;
  rec_id ← mem_get sig_65 64;
  let v := recovery_id rec_id in
  let msg_hash := keccak_256_hash msg_data in
  rawSig ← parse_compact sig_64 v;
  match rawSig with
  | None => Ret None
  | Some rawSig =>
      match ecdsa_recover rawSig msg_hash with
      | None => Ret None
      | Some rawPubkey =>
          pub_key_64 ← mem_read (ec_pubkey_uncompressed rawPubkey) 1 64;
          pub_key_64_hex ← Helpers.bytes_to_hex_string pub_key_64 64;
          digits ← substr pub_key_64_hex 2;
          bytes ← Helpers.hex_to_string digits;
          a ← pub_key_to_address bytes;
          address ← address_to_hex a;
          Ret (Some (ec_pubkey_compressed rawPubkey, address))
      end
  end.

(** A character is signed. *)
Definition recover_pub_key_from_sig (sig msg_data : list Z) : outcome (list Z) :=
  if negb (zlen sig =? 65) then Ret []
  else
    c ← mem_get sig 64;
    recover_pub_key_from_sig_64 (ztake 64 sig ++ [0]) (i8 c) msg_data.

Definition recover_address_from_sig (sig msg : list Z) : outcome (list Z) :=
  pub_key_64 ← recover_pub_key_from_sig sig msg;
  pub_key_to_address pub_key_64.

Definition recover_pub_key_from_sig_hex (sig_hex msg : list Z) : outcome (list Z) :=
  digits ← substr sig_hex 2;
  sig ← Helpers.hex_to_string digits;
  recover_pub_key_from_sig sig msg.

Definition recover_address_from_sig_hex (sig_hex msg : list Z) : outcome (list Z) :=
  digits ← substr sig_hex 2;
  sig ← Helpers.hex_to_string digits;
  recover_address_from_sig sig msg.

(** The new 65 bytes; when signing fails, the signature object is whatever it was. *)
Definition ecdsa_sign_recoverable (unset : sig_t) (msg_data prv_key output65 : list Z) : outcome (list Z) :=
  let msg_hash := keccak_256_hash msg_data in
  key ← mem_read prv_key 0 32;
  let sig := default unset (ecdsa_sign_recoverable_ msg_hash key) in
  let '(sig_64, rec_id) := ecdsa_recoverable_signature_serialize_compact sig in
  mem_write output65 0 (sig_64 ++ [u8 rec_id]).

(** The key pair; [stack] is what the uninitialised array of the private key
    holds. *)
Definition gen_ec_key_pair (stack prv_key pub_key : list Z) : outcome (list Z * list Z) :=
  match ec_pubkey_create stack with
  | None => Ret (prv_key, pub_key)
  | Some pubkey =>
      pub_key ← mem_write pub_key 0 (ec_pubkey_uncompressed pubkey);
      prv_key ← mem_write prv_key 0 stack;
      Ret (prv_key, pub_key)
  end.

(** Both overloads of [ecdh_create_share_key]: with the key as hexadecimal text
    and as bytes. *)
Definition ecdh_create_share_key (pub_key : pubkey_t) (prv_key : list Z) : outcome (option (list Z)) :=
  key ← mem_read prv_key 0 32;
  Ret (ecdh pub_key key).

Definition ecdh_create_share_key_hex (pub_key : pubkey_t) (prv_key : list Z) : outcome (option (list Z)) :=
  digits ← substr prv_key 2;
  prv_key1 ← Helpers.hex_to_string digits;
  key ← mem_read (prv_key1 ++ [0]) 0 32;
  Ret (ecdh pub_key key).

(** [ecdsa_get_public_address] of ecdsa.cpp *)
Definition ecdsa_get_public_address (rnd : list Z) (curve : ecdsa.ecdsa_curve) (prv_key unset : list Z) : outcome (list Z * list Z) :=
  '(pub_key, rnd) ← ecdsa.ecdsa_get_public_key64 rnd curve prv_key unset;
  data ← mem_read pub_key 0 64;
  address_hash ← substr (Keccak256.getHash junk data) 12;
  Ret (address_hash, rnd).

End Helpers.
End secp256k1_helpers.

Section Facts.
Import secp256k1_helpers.
Context `{libsecp256k1} (junk : list (list Z)).

(** ** Recovery *)

Lemma recovery_id_range b : is_u 8 b -> (0 <= recovery_id b <= 3) <-> (0 <= b <= 3 \/ 27 <= b <= 30).
Proof.
  intros Hb. unfold is_u in Hb. unfold recovery_id. cbv zeta. destruct (Z.ltb_spec b 27); [destruct (Z.ltb_spec 3 (b + 27))|destruct (Z.ltb_spec 3 b)]; lia.
Qed.

Lemma parse_compact_ok sig v : 0 <= v <= 3 -> parse_compact sig v = Ret (ecdsa_recoverable_signature_parse_compact sig v).
Proof. intros Hv. unfold parse_compact, cassert. assert ((0 <=? v) && (v <=? 3) = true) as -> by lia. done. Qed.

Lemma substr_ok s pos : pos <= zlen s -> substr s pos = Ret (zdrop pos s).
Proof. intros Hp. unfold substr. rewrite (proj2 (Z.ltb_ge _ _)) by lia. done. Qed.

(** The address of 64 bytes of coordinates. *)
Definition address_of (pub_key_64 : list Z) : list Z := zdrop 12 (Keccak256.getHash junk pub_key_64).

Lemma pub_key_to_address_spec k : zlen k = 64 -> pub_key_to_address junk k = Ret (address_of k).
Proof.
  intros Hk. unfold pub_key_to_address. rewrite mem_read_ok by zlia. mstep. rewrite zdrop_0, ztake_app_exact by done.
  apply substr_ok. unfold zlen. rewrite (proj1 (getHash_form junk k)). lia.
Qed.

Lemma hex_there_and_back bs : bytes_ok bs ->
  Helpers.bytes_to_hex_string bs (zlen bs) = Ret ([48; 120] ++ concat (map Helpers.hex_byte bs)) /\
  Helpers.hex_to_string (concat (map Helpers.hex_byte bs)) = Ret bs.
Proof.
  intros Hb. pose proof (zlen_nonneg bs). unfold Helpers.bytes_to_hex_string, Helpers.hex_to_string. rewrite mem_read_ok, zdrop_0, ztake_all by lia. mstep.
  rewrite Helpers.hex_digits_even. split; [done|]. by rewrite Helpers.hex_pairs_digits.
Qed.

(** The text of an address. *)
Definition address_text (pub_key_64 : list Z) : list Z := [48; 120] ++ concat (map Helpers.hex_byte (address_of pub_key_64)).

Lemma hexdigit_text b : is_u 8 b -> Forall (fun c => c <> 0) (Helpers.hex_byte b).
Proof.
  intros Hb. unfold is_u in Hb. unfold Helpers.hex_byte, Helpers.hexdigit. forall_list; destruct (_ <? 10) eqn:?; Z.div_mod_to_equations; lia.
Qed.

Lemma address_form k : zlen (address_of k) = 20 /\ bytes_ok (address_of k).
Proof.
  destruct (getHash_form junk k) as [L B]. unfold address_of. split; [|by apply Forall_drop]. rewrite zlen_zdrop. unfold zlen. rewrite L. done.
Qed.

Lemma address_text_form k : zlen (address_text k) = 42 /\ Forall (fun c => c <> 0) (address_text k).
Proof.
  destruct (address_form k) as [L B]. unfold address_text. split.
  - rewrite zlen_app. assert (forall bs, zlen (concat (map Helpers.hex_byte bs)) = 2 * zlen bs) as ->; [|rewrite L; done].
    induction bs as [|b bs IH]; [done|]. cbn [map concat]. rewrite zlen_app, IH, zlen_cons. change (zlen (Helpers.hex_byte b)) with 2. lia.
  - apply Forall_app. split; [forall_list; lia|]. apply Forall_concat, Forall_map. eapply Forall_impl; [|exact B]. intros b Hb. by apply hexdigit_text.
Qed.

(** What both functions do with a recovered key. *)
Lemma recovered_key pk : let k := zdrop 1 (ec_pubkey_uncompressed pk) in zlen k = 64 /\ bytes_ok k /\ mem_read (ec_pubkey_uncompressed pk) 1 64 = Ret k /\ substr (ec_pubkey_uncompressed pk) 1 = Ret k.
Proof.
  destruct (uncompressed_form pk) as [L B]. cbv zeta. assert (zlen (ec_pubkey_uncompressed pk) = 65) as Lz by (unfold zlen; lia).
  assert (zlen (zdrop 1 (ec_pubkey_uncompressed pk)) = 64) as Lk by (rewrite zlen_zdrop; lia). split; [done|]. split; [by apply Forall_drop|].
  split; [|apply substr_ok; lia]. rewrite mem_read_ok by lia. by rewrite ztake_all by lia.
Qed.

Lemma recovered_address pk : let k := zdrop 1 (ec_pubkey_uncompressed pk) in
  (pub_key_64_hex ← Helpers.bytes_to_hex_string k 64; digits ← substr pub_key_64_hex 2; bytes ← Helpers.hex_to_string digits;
   a ← pub_key_to_address junk bytes; address ← address_to_hex a; Ret (Some (ec_pubkey_compressed pk, address))) =
  Ret (Some (ec_pubkey_compressed pk, address_text k)).
Proof.
  destruct (recovered_key pk) as (L & B & _). cbv zeta. set (k := zdrop 1 _) in *. destruct (hex_there_and_back k B) as [E1 E2]. rewrite L in E1. rewrite E1. mstep.
  rewrite substr_ok by zlia. rewrite zdrop_app_exact by done. mstep. rewrite E2. mstep.
  rewrite pub_key_to_address_spec by done. mstep. unfold address_to_hex. destruct (address_form k) as [_ Ba]. destruct (hex_there_and_back _ Ba) as [E3 _]. by rewrite E3.
Qed.

(** The result of recovery for a recovery id in range. *)
Lemma recover_result sig64 rec_id msg :
  length sig64 = 64%nat -> 0 <= recovery_id rec_id <= 3 ->
  recover_pub_key_and_address_from_sig junk (sig64 ++ [rec_id]) msg =
  Ret match ecdsa_recoverable_signature_parse_compact sig64 (recovery_id rec_id) with
      | Some s => match ecdsa_recover s (Keccak256.getHash junk msg) with
                  | Some pk => Some (ec_pubkey_compressed pk, address_text (zdrop 1 (ec_pubkey_uncompressed pk)))
                  | None => None
                  end
      | None => None
      end.
Proof.
  intros L Hv. assert (zlen sig64 = 64) as Lz by (unfold zlen; lia). unfold recover_pub_key_and_address_from_sig. rewrite mem_read_ok by zlia. mstep.
  rewrite zdrop_0, ztake_app_exact by done. rewrite (mem_get_app sig64 rec_id []) by done. mstep. rewrite parse_compact_ok by done. mstep.
  destruct (ecdsa_recoverable_signature_parse_compact _ _) as [s|]; [|done]. unfold keccak_256_hash. destruct (ecdsa_recover s _) as [pk|]; [|done].
  destruct (recovered_key pk) as (_ & _ & -> & _). mstep. apply recovered_address.
Qed.

(** ** Signed messages *)

Lemma dec_length room : forall n m acc acc', n <= m -> length acc = length acc' ->
  (length (Helpers.dec_loop room n acc) <= length (Helpers.dec_loop room m acc'))%nat.
Proof.
  assert (forall room n acc, (length acc <= length (Helpers.dec_loop room n acc))%nat) as Hle.
  { induction room0 as [|r IH]; intros n acc; cbn [Helpers.dec_loop]; [done|]. destruct (n <? 10); cbn [length]; [lia|].
    specialize (IH (n / 10) ((48 + n mod 10) :: acc)). cbn [length] in IH. lia. }
  induction room as [|room IH]; intros n m acc acc' Hn Hl; cbn [Helpers.dec_loop]; [lia|].
  destruct (Z.ltb_spec n 10), (Z.ltb_spec m 10); cbn [length]; [lia| |lia|].
  - specialize (Hle room (m / 10) ((48 + m mod 10) :: acc')). cbn [length] in Hle. lia.
  - apply IH; [apply Z.div_le_mono; lia|cbn [length]; lia].
Qed.

(** The decimal size and the message can be told apart. *)
Lemma sized_inj m m' : size_text (zlen m) ++ m = size_text (zlen m') ++ m' -> m = m'.
Proof.
  intros E. assert (zlen m = zlen m') as L.
  { apply (f_equal length) in E. rewrite !length_app in E. unfold size_text in E. destruct (Z.lt_trichotomy (zlen m) (zlen m')) as [Hm|[Hm|Hm]]; [exfalso|done|exfalso].
    - pose proof (dec_length 20 (zlen m) (zlen m') [] [] ltac:(lia) eq_refl). unfold zlen in *. lia.
    - pose proof (dec_length 20 (zlen m') (zlen m) [] [] ltac:(lia) eq_refl). unfold zlen in *. lia. }
  rewrite L in E. by apply app_inv_head in E.
Qed.

End Facts.

(** *** A library for the examples *)

(** There is one key and one signature. *)
#[local] Instance toy_library : libsecp256k1.
Proof.
  refine {|
    pubkey_t := unit; sig_t := unit;
    ecdsa_recoverable_signature_parse_compact := fun _ _ => Some ();
    ecdsa_recoverable_signature_serialize_compact := fun _ => (replicate 64 9, 1);
    ecdsa_sign_recoverable_ := fun _ _ => Some ();
    ecdsa_recover := fun _ _ => Some ();
    ec_pubkey_create := fun _ => Some ();
    ec_pubkey_uncompressed := fun _ => 4 :: replicate 64 6;
    ec_pubkey_compressed := fun _ => 2 :: replicate 32 6;
    ecdh := fun _ k => Some k |}.
  - intros []. split; [done|]. apply (bool_decide_unpack _). by vm_compute.
  - intros []. split; [done|]. split; [apply (bool_decide_unpack _); by vm_compute|]. split; [lia|done].
  - done.
Defined.

(** ** The claims *)

Section Claims.
Import secp256k1_helpers.

(** What signing writes is recovered. *)
Lemma sign_recovers `{libsecp256k1} (junk : list (list Z)) (unset : sig_t) (msg key out : list Z) (s : sig_t) (pk : pubkey_t) :
  zlen key = 32 -> zlen out = 65 ->
  ecdsa_sign_recoverable_ (Keccak256.getHash junk msg) key = Some s -> ec_pubkey_create key = Some pk ->
  exists sig, ecdsa_sign_recoverable junk unset msg key out = Ret sig /\ zlen sig = 65 /\
    (exists sig64 recid, sig = sig64 ++ [recid] /\ length sig64 = 64%nat /\ 0 <= recid <= 3 /\ recovery_id recid = recid /\
      ecdsa_recoverable_signature_parse_compact sig64 recid = Some s) /\
    recover_pub_key_and_address_from_sig junk sig msg =
      Ret (Some (ec_pubkey_compressed pk, address_text junk (zdrop 1 (ec_pubkey_uncompressed pk)))).
Proof.
  intros Lk Lo Hs Hpk. unfold ecdsa_sign_recoverable, keccak_256_hash. rewrite mem_read_ok by lia. mstep. rewrite zdrop_0, ztake_all, Hs by lia. cbn [default from_option id].
  pose proof (compact_form s) as HC. destruct (ecdsa_recoverable_signature_serialize_compact s) as [sig64 recid]. destruct HC as (L64 & B64 & Rr & Hparse).
  rewrite wrap_u_small by (unfold is_u; lia). assert (zlen (sig64 ++ [recid]) = 65) as L65 by (unfold zlen; rewrite length_app; cbn [length]; lia).
  exists (sig64 ++ [recid]). rewrite mem_write_ok by lia. rewrite ztake_0, (zdrop_all (0 + zlen (sig64 ++ [recid])) out), app_nil_r by lia. split; [done|]. split; [done|].
  assert (recovery_id recid = recid) as Ev by (unfold recovery_id; cbv zeta; destruct (Z.ltb_spec recid 27); [destruct (Z.ltb_spec 3 (recid + 27))|]; lia).
  split; [by exists sig64, recid|]. rewrite recover_result by (done || rewrite Ev; lia). rewrite Ev, Hparse, (recover_signed _ _ _ Hs), Hpk. done.
Qed.

(** Signing and recovery agree: for a private key that the library accepts, the
    65 bytes that [ecdsa_sign_recoverable] writes for a message make recovery
    return the public key, compressed, with its address: "0x" and the digits of the
    last 20 bytes of the Keccak-256 hash of the coordinates. *)
Theorem sign_recover_roundtrip `{libsecp256k1} (junk : list (list Z)) (unset : sig_t) (msg key out : list Z) (s : sig_t) (pk : pubkey_t) :
  zlen key = 32 -> zlen out = 65 ->
  ecdsa_sign_recoverable_ (Keccak256.getHash junk msg) key = Some s -> ec_pubkey_create key = Some pk ->
  exists sig, ecdsa_sign_recoverable junk unset msg key out = Ret sig /\ zlen sig = 65 /\
    recover_pub_key_and_address_from_sig junk sig msg =
      Ret (Some (ec_pubkey_compressed pk, address_text junk (zdrop 1 (ec_pubkey_uncompressed pk)))).
Proof. intros Lk Lo Hs Hpk. destruct (sign_recovers junk unset msg key out s pk Lk Lo Hs Hpk) as (sig & E & L & _ & R). by exists sig. Qed.

Lemma sign_recover_roundtrip_witness :
  exists sig, @ecdsa_sign_recoverable toy_library (replicate 5 (replicate 5 0)) tt [104; 105] (replicate 32 3) (replicate 65 0) = Ret sig.
Proof.
  destruct (@sign_recover_roundtrip toy_library (replicate 5 (replicate 5 0)) tt [104; 105] (replicate 32 3) (replicate 65 0) tt tt) as (sig & E & _); [done..|]. exists sig. exact E.
Defined.

(** Recovery checks nothing before the library: the last byte of a signature
    must be 0 to 3 or 27 to 30.  Then recovery returns, and what it finds is a
    public key with the address text of 42 characters; for every other byte the
    library is given an illegal recovery id and the process ends. *)
Theorem recovery_id_cases `{libsecp256k1} (junk : list (list Z)) (sig64 msg : list Z) (b : Z) :
  length sig64 = 64%nat -> is_u 8 b ->
  if decide (0 <= b <= 3 \/ 27 <= b <= 30)
  then exists r, recover_pub_key_and_address_from_sig junk (sig64 ++ [b]) msg = Ret r /\
    forall pub address, r = Some (pub, address) -> zlen address = 42 /\ Forall (fun c => c <> 0) address
  else recover_pub_key_and_address_from_sig junk (sig64 ++ [b]) msg = Throw (assertion_failed "recid >= 0 && recid <= 3").
Proof.
  intros L Hb. pose proof (recovery_id_range b Hb) as HR. case_decide as Hd.
  - apply HR in Hd. rewrite recover_result by done. eexists. split; [done|]. intros pub address E. destruct (ecdsa_recoverable_signature_parse_compact _ _) as [s|]; [|done].
    destruct (ecdsa_recover s _) as [pk|]; [|done]. injection E as _ <-. apply address_text_form.
  - assert ((0 <=? recovery_id b) && (recovery_id b <=? 3) = false) as Hf by (destruct (Z.leb_spec 0 (recovery_id b)), (Z.leb_spec (recovery_id b) 3); try done; exfalso; apply Hd, HR; lia).
    assert (zlen sig64 = 64) as Lz by (unfold zlen; lia). unfold recover_pub_key_and_address_from_sig. rewrite mem_read_ok by zlia. mstep.
    rewrite (mem_get_app sig64 b []) by done. mstep. unfold parse_compact, cassert. by rewrite Hf.
Qed.

Lemma recovery_id_cases_witness :
  @recover_pub_key_and_address_from_sig toy_library (replicate 5 (replicate 5 0)) (replicate 64 9 ++ [4]) [104; 105] = Throw (assertion_failed "recid >= 0 && recid <= 3").
Proof.
  pose proof (@recovery_id_cases toy_library (replicate 5 (replicate 5 0)) (replicate 64 9) [104; 105] 4 eq_refl) as H. rewrite decide_False in H by lia. apply H.
  unfold is_u. lia.
Defined.

(** What is signed determines the message and its kind: messages with the same
    signed text are equal and of the same kind, so that a signature for a login
    cannot be used for a group or for Ethereum. *)
Theorem signed_text_injective (m m' : list Z) (t t' : SignMsgType) :
  format_sign_msg_data m t = format_sign_msg_data m' t' -> m = m' /\ t = t'.
Proof.
  intros E. assert (t = t') as ->.
  { apply (f_equal (take 6)) in E. destruct t, t'; first [done|vm_compute in E; discriminate E]. }
  split; [|done]. apply sized_inj. by destruct t'; cbn [format_sign_msg_data] in E; do 2 apply app_inv_head in E.
Qed.

Lemma signed_text_injective_witness : [97] = [97] /\ SignMsgType_ptp = SignMsgType_ptp.
Proof. exact (signed_text_injective [97] [97] SignMsgType_ptp SignMsgType_ptp eq_refl). Defined.

(** An address cannot be recovered from text of the wrong size: for a signature
    that does not have 65 bytes the recovered key is empty, and its 64 bytes are
    read past the end of the empty string. *)
Theorem short_signature_overread `{libsecp256k1} (junk : list (list Z)) (sig msg : list Z) :
  zlen sig <> 65 -> recover_pub_key_from_sig junk sig msg = Ret [] /\ recover_address_from_sig junk sig msg = UB.
Proof.
  intros Hl. assert (recover_pub_key_from_sig junk sig msg = Ret []) as E by (unfold recover_pub_key_from_sig; by rewrite (proj2 (Z.eqb_neq _ _) Hl)).
  split; [done|]. unfold recover_address_from_sig. rewrite E. mstep. unfold pub_key_to_address, mem_read. by rewrite decide_False by (change (zlen ([] ++ [0])) with 1; lia).
Qed.

Lemma short_signature_overread_witness : @recover_address_from_sig toy_library (replicate 5 (replicate 5 0)) [1; 2; 3] [104] = UB.
Proof. apply (@short_signature_overread toy_library (replicate 5 (replicate 5 0)) [1; 2; 3] [104]). by vm_compute. Defined.

(** The address of a private key: for a private key between 0 and the order,
    [ecdsa_get_public_address] gives the last 20 bytes of the Keccak-256 hash, as
    the standard defines it, of the 64 bytes of the coordinates of the key times
    the base point. *)
Theorem public_address_spec (junk : list (list Z)) (rnd z rnd' prv_key unset : list Z) :
  shape junk -> bytes_ok prv_key -> length prv_key = 32%nat -> 0 < be_word prv_key < value (ecdsa.order secp256k1.secp256k1) ->
  ecdsa.generate_k_random rnd secp256k1_p = Ret (z, rnd') -> zlen unset = 64 ->
  exists k R, value k = be_word prv_key /\ EcPoints.rep secp256k1_p R (zmul (value secp256k1_p) Zmod.zero (value k) base_point) /\
    ecdsa_get_public_address junk rnd secp256k1.secp256k1 prv_key unset =
      Ret (zdrop 12 (keccak_spec.keccak256 (be_bytes 32 (value (ecdsa.x R)) ++ be_bytes 32 (value (ecdsa.y R)))), rnd').
Proof.
  intros Hj Hb Hl Hk Hz Lu. destruct (public_keys rnd z rnd' prv_key (replicate 33 0) unset (replicate 65 0) Hb Hl Hk Hz eq_refl Lu eq_refl) as (k & R & Vk & HR & _ & E & _). exists k, R. do 2 (split; [done|]).
  unfold ecdsa_get_public_address. rewrite E. mstep. set (data := be_bytes 32 _ ++ be_bytes 32 _).
  assert (zlen data = 64) as Ld by (unfold data, zlen; rewrite length_app, !length_be_bytes; done). rewrite mem_read_ok by lia. mstep. rewrite zdrop_0, ztake_all by lia.
  rewrite <- (keccak_eq junk) by (done || (apply Forall_app; split; apply be_bytes_ok)). rewrite substr_ok by (unfold zlen; rewrite (proj1 (getHash_form junk data)); lia). done.
Qed.

Lemma public_address_spec_witness :
  exists a, ecdsa_get_public_address (replicate 5 (replicate 5 0)) (replicate 9 5) secp256k1.secp256k1 (replicate 31 0 ++ [7]) (replicate 64 0) = Ret (a, []).
Proof.
  destruct (public_address_spec (replicate 5 (replicate 5 0)) (replicate 9 5) (replicate 9 5) [] (replicate 31 0 ++ [7]) (replicate 64 0)) as (k & R & _ & _ & E);
    [split; [done|by repeat constructor]|apply (bool_decide_unpack _); by vm_compute|by vm_compute..|]. eexists. exact E.
Defined.

End Claims.
