(* ===== verification/BytesData.v ===== *)
(** * Byte containers of the toolbox

    [basic_data<uint8_t>], [bytes_data], [bytes_array<N>] and [bytes_buffer]
    (src/src/ptp_toolbox/data), the containers in which the wallet keeps keys.
    An object is the list of the bytes of its vector; allocations succeed.

    The theorems: writes in range are writes to memory and keep the size, numbers
    are read back as written, a [bytes_array] never changes its size and never
    writes outside; and where the conversions to numbers go wrong. *)

From S2P Require Import Prelude Words Bip39.

(** ** [basic_data] *)

Module basic_data.

Definition resize (m : list Z) (n : Z) : list Z := ztake n m ++ replicate (Z.to_nat (n - zlen m)) 0.

(** [m_data.at(n)]; through [operator\[\]], which is [noexcept], the exception
    ends the process. *)
Definition at_ (m : list Z) (n : Z) : outcome Z :=
  match m !! Z.to_nat n with Some x => Ret x | None => Throw (out_of_range "vector::at") end.

Definition index (m : list Z) (n : Z) : outcome Z :=
  match at_ m n with Throw _ => Throw terminated | r => r end.

Definition equal (a b : list Z) : bool :=
  match a, b with
  | [], [] => true
  | _, _ =>
      if negb (zlen a =? zlen b) then false
      else if negb (nth 0 a 0 =? nth 0 b 0) && negb (nth (length a - 1) a 0 =? nth (length b - 1) b 0) then false
      else bool_decide (a = b)
  end.

(** [operator==(const T* other)]: [None] is the null pointer. *)
Fixpoint equal_loop (i : Z) (m o : list Z) : outcome bool :=
  match m with
  | [] => Ret true
  | x :: m => y ← mem_get o i; if negb (x =? y) then Ret false else equal_loop (i + 1) m o
  end.

Definition equal_ptr (m : list Z) (other : option (list Z)) : outcome bool :=
  match other with
  | None => Ret false
  | Some o =>
      first ← mem_get o 0;
      if first =? 0 then Ret false else
      last ← mem_get o (zlen m - 1);
      if last =? 0 then Ret false else equal_loop 0 m o
  end.

(** [map], [switch_map], [filter]. *)
Definition map_ (f : Z -> Z) (m : list Z) : list Z := map f m.
Definition switch_map (f : list Z -> list Z) (m : list Z) : list Z := f m.
Definition filter_ (f : Z -> bool) (m : list Z) : list Z := switch_map (base.filter (fun x => Is_true (f x))) m.

(** Ranges of iterators outside the vector are undefined; [take_range] checks. *)
Definition take_first (m : list Z) (n : Z) : outcome (list Z) := mem_read m 0 n.
Definition take_last (m : list Z) (n : Z) : outcome (list Z) := mem_read m (zlen m - n) n.

Definition take_range (m : list Z) (from to : Z) : outcome (list Z) :=
  if to <? from then Throw (out_of_range "'from' can't be more than 'to'")
  else if zlen m <? to then Throw (out_of_range "'to' can't be more than size()")
  else if zlen m <? from then Throw (out_of_range "'from' can't be more than size()")
  else mem_read m from (to - from).

Definition take_range_from (m : list Z) (from : Z) : outcome (list Z) := take_range m from (zlen m).
Definition take_range_to (m : list Z) (to : Z) : outcome (list Z) := take_range m 0 to.
Definition take_range_n (m : list Z) (from length : Z) : outcome (list Z) := take_range m from (u64 (from + length)).

Definition push_back (m data : list Z) : list Z := m ++ data.

Definition push_back_ptr (m data : list Z) (len : Z) : outcome (list Z) :=
  let m := resize m (zlen m + len) in
  bs ← mem_read data 0 len;
  mem_write m (zlen m - len) bs.

(** [for (auto&& el : vals) m_data\[el.first\] = el.second]. *)
Fixpoint store_all (m : list Z) (vals : list (Z * Z)) : outcome (list Z) :=
  match vals with
  | [] => Ret m
  | (pos, v) :: vals => m ← mem_write m pos [v]; store_all m vals
  end.

Definition min_pos (vals : list (Z * Z)) : Z := foldr Z.min (2 ^ 64 - 1) (map fst vals).
Definition max_pos (vals : list (Z * Z)) : Z := foldr Z.max 0 (map fst vals).

(** [vals] is a map: no position occurs twice. *)
Definition write_batch (m : list Z) (vals : list (Z * Z)) : outcome (list Z * Z) :=
  match vals with
  | [] => Ret (m, 0)
  | _ =>
      let m :=
        if zlen m <=? max_pos vals then
          resize m (if negb (zlen m =? 0) then u64 (u64 (min_pos vals + zlen vals - zlen m) + zlen m) else zlen vals)
        else m in
      m ← store_all m vals;
      Ret (m, zlen vals)
  end.

(** [tmp\[i++\] = *it] from [pos] on; [i] is a [size_t]. *)
Fixpoint from_pos (pos : Z) (data : list Z) : list (Z * Z) :=
  match data with [] => [] | v :: data => (pos, v) :: from_pos (u64 (pos + 1)) data end.

Definition write (m : list Z) (pos : Z) (data : list Z) : outcome (list Z * Z) := write_batch m (from_pos pos data).

Definition write_ptr (m : list Z) (pos : Z) (data : list Z) (len : Z) : outcome (list Z * Z) :=
  let e := u64 (pos + len) in
  let m := if zlen m <=? e then resize m (u64 (zlen m + u64 (e - zlen m))) else m in
  bs ← mem_read data 0 len;
  m ← mem_write m pos bs;
  Ret (m, len).

Definition write_val (m : list Z) (pos v : Z) : outcome (list Z * Z) :=
  let m := if zlen m <=? pos then resize m (if negb (zlen m =? 0) then zlen m + 1 else 1) else m in
  m ← mem_write m pos [v];
  Ret (m, 1).

Definition write_back (m data : list Z) : outcome (list Z * Z) := write m (zlen m) data.
Definition write_back_val (m : list Z) (v : Z) : outcome (list Z * Z) := write_val m (zlen m) v.
Definition write_back_ptr (m data : list Z) (len : Z) : outcome (list Z * Z) := write_ptr m (zlen m) data len.

Definition write_tail (m : list Z) (pos : Z) (data : list Z) : outcome (list Z * Z) :=
  tmp ← mem_read m 0 pos;
  Ret (tmp ++ data, zlen data).

End basic_data.

(** ** [bytes_data] *)

Module bytes_data.
Import basic_data.

(** The bytes are overwritten; the size stays. *)
Definition clear (m : list Z) : list Z := replicate (length m) 0.

Definition to_hex (m : list Z) : outcome (list Z) := toolbox_data.bytes_to_hex m (zlen m).
Definition of_hex (hexString : list Z) : list Z := toolbox_data.hex_to_bytes hexString.

(** The entries of the map that the write of a number builds. *)
Definition entries_u16 (pos v : Z) : list (Z * Z) := [(pos, u8 (Z.shiftr v 8)); (u64 (pos + 1), u8 v)].

Definition entries_u32 (pos v : Z) : list (Z * Z) :=
  [(pos, u8 (Z.shiftr v 24)); (u64 (pos + 1), u8 (Z.shiftr v 16)); (u64 (pos + 2), u8 (Z.shiftr v 8)); (u64 (pos + 3), u8 v)].

Definition entries_u64 (pos v : Z) : list (Z * Z) :=
  [(pos, u8 (Z.shiftr v 56)); (u64 (pos + 1), u8 (Z.shiftr v 48)); (u64 (pos + 2), u8 (Z.shiftr v 40));
   (u64 (pos + 3), u8 (Z.shiftr v 32)); (u64 (pos + 4), u8 (Z.shiftr v 24)); (u64 (pos + 5), u8 (Z.shiftr v 16));
   (u64 (pos + 6), u8 (Z.shiftr v 8)); (u64 (pos + 7), u8 v)].

Definition write_u16 (m : list Z) (pos v : Z) : outcome (list Z * Z) := write_batch m (entries_u16 pos v).
Definition write_u32 (m : list Z) (pos v : Z) : outcome (list Z * Z) := write_batch m (entries_u32 pos v).
Definition write_i32 (m : list Z) (pos v : Z) : outcome (list Z * Z) := write_u32 m pos (u32 v).
Definition write_u64 (m : list Z) (pos v : Z) : outcome (list Z * Z) := write_batch m (entries_u64 pos v).

Definition write_back_u16 (m : list Z) (v : Z) := write_u16 m (zlen m) v.
Definition write_back_u32 (m : list Z) (v : Z) := write_u32 m (zlen m) v.
Definition write_back_u64 (m : list Z) (v : Z) := write_u64 m (zlen m) v.

Definition push_back_u8 (m : list Z) (v : Z) : list Z := m ++ [u8 v].
Definition push_back_u16 (m : list Z) (v : Z) : list Z := m ++ [u8 (Z.shiftr v 8)] ++ [u8 (Z.land v 0xff)].
Definition push_back_u32 (m : list Z) (v : Z) : list Z :=
  m ++ map (fun k => u8 (Z.shiftr v k)) [24; 16; 8] ++ [u8 (Z.land v 0xff)].
Definition push_back_u64 (m : list Z) (v : Z) : list Z :=
  m ++ map (fun k => u8 (Z.shiftr v k)) [56; 48; 40; 32; 24; 16; 8] ++ [u8 (Z.land v 0xff)].

(** [static_cast<uint64_t>(data\[0\]) << ... | ...] for a type of [w] bytes. *)
Fixpoint shifted (w : nat) (data : list Z) (i : Z) : outcome Z :=
  match w with
  | O => Ret 0
  | S w => d ← mem_get data i; r ← shifted w data (i + 1); Ret (Z.lor (Z.shiftl d (8 * Z.of_nat w)) r)
  end.

Definition to_num (w : nat) (m : list Z) (from to : Z) : outcome Z :=
  data ← take_range m from to;
  if bool_decide (w ∈ [1; 2; 4; 8]%nat) then shifted w data 0 else Ret 0.

Definition to_num_at (w : nat) (m : list Z) (readFrom : Z) : outcome Z := to_num w m readFrom (u64 (readFrom + Z.of_nat w)).

(** [data\[i\] << s]: the byte is promoted to [int], which has 32 bits. *)
Definition shl_int (d s : Z) : outcome Z := if 32 <=? s then UB else Ret (i32 (Z.shiftl d s)).

Fixpoint or_be (data : list Z) (out : Z) : outcome Z :=
  match data with
  | [] => Ret out
  | d :: data => x ← shl_int d (8 * zlen data); or_be data (u64 (Z.lor out x))
  end.

Definition to_num_any (m : list Z) (from to : Z) : outcome Z :=
  match take_range m from (Z.min (u64 (from + 8)) to) with
  | Throw _ => Ret 0
  | r => data ← r; or_be data 0
  end.

Definition to_num_any_all (m : list Z) : outcome Z := to_num_any m 0 (Z.min 8 (zlen m)).

(** Fewer bytes than the type has: least significant first, then zeros. *)
Fixpoint or_le (n : nat) (i : Z) (data : list Z) (out bits : Z) : outcome Z :=
  match n with
  | O => Ret out
  | S n =>
      x ← match data with
           | d :: _ => shl_int d (8 * i)
           | [] => if 32 <=? 8 * i then UB else Ret 0
           end;
      or_le n (i + 1) (tail data) (wrap_u bits (Z.lor out x)) bits
  end.

Fixpoint or_be_as (bits : Z) (data : list Z) (out : Z) : outcome Z :=
  match data with
  | [] => Ret out
  | d :: data => x ← shl_int d (8 * zlen data); or_be_as bits data (wrap_u bits (Z.lor out x))
  end.

Definition to_num_any_size (w : nat) (m : list Z) (from to : Z) : outcome Z :=
  data ← take_range m from (Z.min to (zlen m));
  let bits := 8 * Z.of_nat w in
  if zlen data <? Z.of_nat w then or_le w 0 data 0 bits else or_be_as bits data 0.

End bytes_data.

(** ** [bytes_array]

    [size()] is [N]; the vector has [N] bytes, except in an object that was moved
    from. *)

Module bytes_array.
Section bytes_array.
Variable N : Z.

Definition zeros : list Z := replicate (Z.to_nat N) 0.

Definition of_ptr (data : option (list Z)) (len : Z) : outcome (list Z) :=
  match data with
  | None => Ret zeros
  | Some data => bs ← mem_read data 0 (Z.min N len); mem_write zeros 0 bs
  end.

Definition of_hex (hex : list Z) : outcome (list Z) :=
  if (zlen hex mod 2 =? 0) && (zlen hex <=? N * 2) then
    let tmp := toolbox_data.hex_to_bytes hex in
    mem_write zeros 0 (ztake (Z.min N (zlen tmp)) tmp)
  else Ret zeros.

Definition of_vec (data : list Z) : outcome (list Z) := mem_write zeros 0 (ztake (Z.min (zlen data) N) data).

(** [bytes_array(std::vector<uint8_t>&& other)]. *)
Definition of_vec_move (other : list Z) : outcome (list Z) :=
  if zlen other =? N then Ret other else
  m ← mem_write zeros 0 other;
  mem_write m (zlen other) (replicate (Z.to_nat (N - zlen other)) 0).

(** Copy as much as possible and fill the rest with zeros. *)
Definition copy_fill (m other : list Z) : outcome (list Z) :=
  let n := Z.min N (zlen other) in
  m ← mem_write m 0 (ztake n other);
  mem_write m n (replicate (Z.to_nat (N - n)) 0).

Definition of_data (other : list Z) : outcome (list Z) :=
  if zlen other =? N then Ret other else copy_fill (bytes_data.clear zeros) other.

(** The new object and the one moved from. *)
Definition of_array_move (other : list Z) : list Z * list Z := (other, bytes_data.clear []).

Definition assign_vec (m other : list Z) : outcome (list Z) := if zlen other =? N then Ret other else copy_fill m other.

(** Entries at [N] and beyond are left out. *)
Fixpoint store_fitting (m : list Z) (vals : list (Z * Z)) : outcome (list Z) :=
  match vals with
  | [] => Ret m
  | (pos, v) :: vals => m ← (if pos <? N then mem_write m pos [v] else Ret m); store_fitting m vals
  end.

Definition write_batch (m : list Z) (vals : list (Z * Z)) : outcome (list Z * Z) :=
  m ← store_fitting m vals; Ret (m, zlen vals).

Definition no_fit {A} : outcome A := Throw (out_of_range "value cannot be fit to passed position").

Definition write_u16 (m : list Z) (pos v : Z) : outcome (list Z * Z) :=
  if N <? u64 (2 + pos) then no_fit else write_batch m (bytes_data.entries_u16 pos v).

Definition write_u32 (m : list Z) (pos v : Z) : outcome (list Z * Z) :=
  if N <? u64 (4 + pos) then no_fit else write_batch m (bytes_data.entries_u32 pos v).

Definition write_u64 (m : list Z) (pos v : Z) : outcome (list Z * Z) :=
  if N <? pos then no_fit else
  if N <? u64 (8 + pos) then no_fit else write_batch m (bytes_data.entries_u64 pos v).

Definition write_ptr (m : list Z) (pos : Z) (data : list Z) (dataLen : Z) : outcome (list Z * Z) :=
  if N <? pos then no_fit else basic_data.write_ptr m pos data (Z.min (N - pos) dataLen).

Definition write_data (m : list Z) (pos : Z) (data : list Z) : outcome (list Z * Z) :=
  if N <? pos then no_fit else
  bs ← basic_data.take_range data 0 (Z.min (N - pos) (zlen data));
  write_batch m (basic_data.from_pos pos bs).

Definition write_vec (m : list Z) (pos : Z) (data : list Z) : outcome (list Z * Z) :=
  if N <? pos then no_fit else basic_data.write_ptr m pos data (Z.min (N - pos) (zlen data)).

Definition write_val (m : list Z) (pos v : Z) : outcome (list Z * Z) :=
  if N <? u64 (1 + pos) then no_fit else basic_data.write_val m pos v.

End bytes_array.
End bytes_array.

(** ** [bytes_buffer] *)

Module bytes_buffer.
Import basic_data.

(** [out\[i + it\] = m_data.at(i)] for [s] rounds; [out] is reached through
    [operator\[\]]. *)
Fixpoint copy_front (n : nat) (i it : Z) (m out : list Z) : outcome (list Z) :=
  match n with
  | O => Ret out
  | S n =>
      x ← at_ m i;
      index out (i + it);;
      out ← mem_write out (i + it) [x];
      copy_front n (i + 1) it m out
  end.

(** The count, the buffer and [out]. *)
Definition pop_front_to (m : list Z) (readLength position : Z) (out : list Z) : outcome (Z * list Z * list Z) :=
  if (readLength =? 0) || (zlen out =? 0) || (zlen m =? 0) then Ret (0, m, out) else
  let s := if zlen m <=? readLength then zlen m else readLength in
  let s := if zlen out <? s then zlen out else s in
  out ← copy_front (Z.to_nat s) 0 position m out;
  if s =? zlen m then Ret (s, [], out) else Ret (s, zdrop s m, out).

Definition pop_front_from (m : list Z) (outPosition : Z) (out : list Z) : outcome (Z * list Z * list Z) :=
  if zlen out <=? outPosition then Throw (out_of_range "'outPosition' is >= than 'out' size")
  else pop_front_to m (zlen out - outPosition) outPosition out.

Definition pop_back_to (m : list Z) (readLength : Z) (out : list Z) : outcome (Z * list Z * list Z) :=
  if (readLength =? 0) || (zlen out =? 0) || (zlen m =? 0) then Ret (0, m, out) else
  let s := Z.min (Z.min readLength (zlen m)) (zlen out) in
  data ← take_range_from m (zlen m - s);
  '(out, _) ← write out 0 data;
  let resizeLen := i64 (zlen m - readLength) in
  if resizeLen <? 0 then Ret (s, [], out) else Ret (s, resize m resizeLen, out).

End bytes_buffer.

(** ** Writes *)

Import basic_data.

(** Positions that do not wrap around. *)
Fixpoint positions (pos : Z) (data : list Z) : list (Z * Z) :=
  match data with [] => [] | v :: data => (pos, v) :: positions (pos + 1) data end.

Lemma from_pos_flat data : forall pos, 0 <= pos -> pos + zlen data <= 2 ^ 64 -> from_pos pos data = positions pos data.
Proof.
  induction data as [|v data IH]; intros pos Hp Hl; [done|]. cbn [from_pos positions]. rewrite zlen_cons in Hl. f_equal.
  destruct data as [|x data]; [done|]. rewrite zlen_cons in Hl. pose proof (zlen_nonneg data).
  rewrite wrap_u_small by (unfold is_u; lia). apply IH; rewrite ?zlen_cons; lia.
Qed.

Lemma zlen_positions data : forall pos, zlen (positions pos data) = zlen data.
Proof. induction data as [|v data IH]; intros pos; [done|]. cbn [positions]. rewrite !zlen_cons. by rewrite IH. Qed.

Lemma store_all_positions data : forall m pos, 0 <= pos -> pos + zlen data <= zlen m ->
  store_all m (positions pos data) = mem_write m pos data.
Proof.
  induction data as [|v data IH]; intros m pos Hp Hl.
  - cbn. rewrite mem_write_ok by done. rewrite Z.add_0_r. cbn [app]. by rewrite ztake_zdrop.
  - rewrite zlen_cons in Hl. pose proof (zlen_nonneg data). cbn [positions store_all].
    change (v :: data) with ([v] ++ data). rewrite mem_write_seq by done. change (zlen [v]) with 1.
    destruct (mem_write m pos [v]) eqn:E; try done. mstep. apply mem_write_len in E. apply IH; lia.
Qed.

Lemma store_all_out data : forall m pos, data <> [] -> 0 <= pos -> zlen m < pos + zlen data ->
  store_all m (positions pos data) = UB.
Proof.
  induction data as [|v data IH]; intros m pos Hd Hp Hl; [done|]. cbn [positions store_all]. rewrite zlen_cons in Hl.
  destruct (decide (pos < zlen m)) as [Hlt|Hge].
  - rewrite mem_write_ok by (change (zlen [v]) with 1; lia). mstep. destruct data as [|w data]; [zlia|].
    apply IH; [done|lia|]. change (zlen [v]) with 1. zlia.
  - rewrite mem_write_out; [done|]. change (zlen [v]) with 1. lia.
Qed.

Lemma max_positions data : forall pos, 0 <= pos -> data <> [] -> max_pos (positions pos data) = pos + zlen data - 1.
Proof.
  unfold max_pos. induction data as [|v data IH]; intros pos Hp Hd; [done|]. cbn [positions map foldr fst]. rewrite zlen_cons.
  destruct data as [|w data]; [cbn; unfold zlen; cbn; lia|]. rewrite IH by (done || lia). pose proof (zlen_nonneg data). rewrite zlen_cons. lia.
Qed.

Lemma min_positions data : forall pos, data <> [] -> pos + zlen data <= 2 ^ 64 -> min_pos (positions pos data) = pos.
Proof.
  unfold min_pos. induction data as [|v data IH]; intros pos Hd Hl; [done|]. cbn [positions map foldr fst]. rewrite zlen_cons in Hl.
  destruct data as [|w data]; [unfold zlen in Hl; cbn in *; lia|]. rewrite IH by (done || lia). lia.
Qed.

Lemma zlen_resize m n : 0 <= n -> zlen (resize m n) = n.
Proof. intros. unfold resize. zlia. Qed.

Lemma ztake_resize m n k : k <= n -> ztake k (resize m n) = ztake k (m ++ replicate (Z.to_nat (n - zlen m)) 0).
Proof.
  intros Hk. unfold resize. destruct (Z.le_gt_cases (zlen m) n).
  - by rewrite (ztake_all n) by done.
  - replace (Z.to_nat (n - zlen m)) with 0%nat by lia. cbn [replicate]. rewrite !app_nil_r, ztake_ztake. f_equal. lia.
Qed.

(** The contents after a write at [pos] that grows the vector as needed: a gap is
    filled with zeros. *)
Definition written (m : list Z) (pos : Z) (data : list Z) : list Z :=
  ztake pos (m ++ replicate (Z.to_nat (pos - zlen m)) 0) ++ data ++ zdrop (pos + zlen data) m.

Lemma written_grown m pos data n :
  0 <= pos -> zlen m <= n -> n = pos + zlen data ->
  mem_write (resize m n) pos data = Ret (written m pos data).
Proof.
  intros Hp Hm ->. pose proof (zlen_nonneg m). rewrite mem_write_ok by (rewrite ?zlen_resize; lia). unfold written. f_equal. f_equal.
  - rewrite ztake_resize by (pose proof (zlen_nonneg data); lia). destruct (Z.le_gt_cases pos (zlen m)).
    + by rewrite !ztake_app_l by done.
    + rewrite !ztake_app_r by lia. f_equal. unfold ztake. rewrite !take_replicate. f_equal. pose proof (zlen_nonneg data). lia.
  - f_equal. rewrite (zdrop_all _ m) by done. apply zdrop_all. rewrite zlen_resize; lia.
Qed.

Lemma written_inside m pos data :
  0 <= pos -> pos + zlen data <= zlen m -> mem_write m pos data = Ret (written m pos data).
Proof.
  intros Hp Hl. pose proof (zlen_nonneg data). rewrite mem_write_ok by done. unfold written.
  by rewrite ztake_app_l by lia.
Qed.

(** What [write] of a vector does in every case. *)
Lemma write_cases m pos data :
  0 <= pos -> data <> [] -> pos + zlen data < 2 ^ 63 -> zlen m < 2 ^ 63 ->
  write m pos data =
    if (zlen m =? 0) && (0 <? pos) then UB else Ret (written m pos data, zlen data).
Proof.
  intros Hp Hd Hl Hm. change (2 ^ 63) with 9223372036854775808 in *. assert (0 < zlen data) by (destruct data; [done|]; zlia).
  pose proof (zlen_nonneg m). unfold write, write_batch.
  rewrite from_pos_flat by (pow2; lia).
  assert (positions pos data <> []) as Hf by (destruct data; done).
  destruct (positions pos data) eqn:E; [done|]. rewrite <- E in *. clear E Hf.
  rewrite max_positions, min_positions, zlen_positions by (done || (pow2; lia)).
  destruct (Z.leb_spec (zlen m) (pos + zlen data - 1)) as [Hle|Hgt].
  - destruct (Z.eqb_spec (zlen m) 0) as [E0|N0]; cbn [negb andb].
    + destruct (Z.ltb_spec 0 pos).
      * rewrite store_all_out; [done|done|done|]. rewrite zlen_resize; lia.
      * rewrite store_all_positions by (rewrite ?zlen_resize; lia). rewrite written_grown by lia. done.
    + rewrite (wrap_u_small 64), (wrap_u_small 64) by (rewrite ?(wrap_u_small 64); unfold is_u; pow2; lia).
      replace (pos + zlen data - zlen m + zlen m) with (pos + zlen data) by lia.
      rewrite store_all_positions by (rewrite ?zlen_resize; lia). rewrite written_grown by lia. done.
  - rewrite store_all_positions by lia. rewrite written_inside by lia. mstep.
    rewrite (proj2 (Z.eqb_neq (zlen m) 0)) by lia. done.
Qed.

Lemma write_empty m pos : write m pos [] = Ret (m, 0).
Proof. done. Qed.

(** In range, every kind of write is a write to memory. *)
Lemma write_in m pos data : 0 <= pos -> pos + zlen data <= zlen m -> zlen m < 2 ^ 63 ->
  write m pos data = Ret (written m pos data, zlen data).
Proof.
  intros Hp Hl Hm. destruct data as [|v data].
  - rewrite write_empty. unfold written. rewrite zlen_nil in *. rewrite ztake_app_l by lia. rewrite Z.add_0_r. cbn [app]. by rewrite ztake_zdrop.
  - rewrite write_cases by (done || lia). rewrite zlen_cons in Hl. pose proof (zlen_nonneg data). rewrite (proj2 (Z.eqb_neq (zlen m) 0)) by lia. done.
Qed.

Lemma write_ptr_in m pos data len : 0 <= pos -> 0 <= len <= zlen data -> pos + len <= zlen m -> zlen m < 2 ^ 63 ->
  write_ptr m pos data len = Ret (written m pos (ztake len data), len).
Proof.
  intros Hp Hl Hm H63. unfold write_ptr. rewrite (wrap_u_small 64 (pos + len)) by (unfold is_u; pow2; lia).
  rewrite mem_read_ok, zdrop_0 by lia. mstep. assert (zlen (ztake len data) = len) as Hd by zlia.
  destruct (Z.leb_spec (zlen m) (pos + len)).
  - rewrite (wrap_u_small 64), (wrap_u_small 64) by (rewrite ?(wrap_u_small 64); unfold is_u; pow2; lia).
    rewrite written_grown by lia. done.
  - rewrite written_inside by lia. done.
Qed.

Lemma write_val_in m pos v : 0 <= pos < zlen m -> write_val m pos v = Ret (written m pos [v], 1).
Proof.
  intros Hp. unfold write_val. rewrite (proj2 (Z.leb_gt _ _)) by lia. rewrite written_inside by (change (zlen [v]) with 1; lia). done.
Qed.

Lemma zlen_written m pos data : 0 <= pos -> pos + zlen data <= zlen m -> zlen (written m pos data) = zlen m.
Proof. intros. unfold written. pose proof (zlen_nonneg data). zlia. Qed.

(** The three widths write the big-endian bytes. *)
Lemma u64_next a k : u64 (u64 (a + k) + 1) = u64 (a + (k + 1)).
Proof. unfold wrap_u. rewrite Z.add_mod_idemp_l by lia. f_equal. lia. Qed.

Lemma entries_u16_be pos v : bytes_data.entries_u16 pos v = from_pos pos (be_bytes 2 v).
Proof. unfold be_bytes. cbn [le_bytes rev app from_pos]. done. Qed.

Lemma entries_u32_be pos v : bytes_data.entries_u32 pos v = from_pos pos (be_bytes 4 v).
Proof.
  unfold be_bytes. cbn [le_bytes rev app from_pos]. rewrite !Z.shiftr_shiftr by lia. by rewrite !u64_next.
Qed.

Lemma entries_u64_be pos v : bytes_data.entries_u64 pos v = from_pos pos (be_bytes 8 v).
Proof.
  unfold be_bytes. cbn [le_bytes rev app from_pos]. rewrite !Z.shiftr_shiftr by lia. by rewrite !u64_next.
Qed.

(** ** Numbers *)

Lemma be_word_cons b l : bytes_ok l -> be_word (b :: l) = b * 2 ^ (8 * zlen l) + be_word l.
Proof.
  intros Hl. unfold be_word. cbn [rev].
  assert (forall l, bytes_ok l -> le_word (l ++ [b]) = b * 2 ^ (8 * zlen l) + le_word l) as H.
  { clear. induction l as [|c l IH]; intros Hl; [cbn [app le_word]; change (zlen []) with 0; rewrite Z.shiftl_0_l, Z.lor_0_r; lia|].
    apply Forall_cons_1 in Hl as [Hc Hl]. cbn [app le_word]. rewrite (IH Hl). rewrite (Z.lor_comm c), lor_shiftl_add by (unfold is_u in Hc; lia). rewrite (Z.lor_comm c), lor_shiftl_add by (unfold is_u in Hc; lia).
    rewrite zlen_cons. replace (8 * (1 + zlen l)) with (8 * zlen l + 8) by lia. pose proof (zlen_nonneg l). rewrite Z.pow_add_r by lia. lia. }
  rewrite H by (by apply Forall_rev). do 3 f_equal. unfold zlen. by rewrite length_rev.
Qed.

Lemma shifted_be w : forall data i,
  0 <= i -> i + Z.of_nat w <= zlen data -> bytes_ok data ->
  bytes_data.shifted w data i = Ret (be_word (ztake (Z.of_nat w) (zdrop i data))).
Proof.
  induction w as [|w IH]; intros data i Hi Hl Hok; [done|]. cbn [bytes_data.shifted].
  destruct (zdrop i data) as [|d rest] eqn:E; [apply (f_equal zlen) in E; zlia|].
  assert (data = ztake i data ++ d :: rest) as Hd by (rewrite <- E; symmetry; apply ztake_zdrop).
  rewrite Hd at 1. rewrite mem_get_app by (rewrite zlen_ztake; lia). mstep.
  assert (zdrop (i + 1) data = rest) as Hr.
  { rewrite <- (zdrop_zdrop 1 i) by lia. by rewrite E. }
  assert (bytes_ok (d :: rest)) as Hor by (rewrite <- E; by apply Forall_drop). apply Forall_cons_1 in Hor as [Hdo Hro].
  assert (Z.of_nat w <= zlen rest) as Hw by (apply (f_equal zlen) in E; zlia).
  rewrite IH by (done || lia). mstep. rewrite Hr. f_equal.
  replace (ztake (Z.of_nat (S w)) (d :: rest)) with (d :: ztake (Z.of_nat w) rest).
  2:{ unfold ztake. replace (Z.to_nat (Z.of_nat (S w))) with (S (Z.to_nat (Z.of_nat w))) by lia. done. }
  assert (bytes_ok (ztake (Z.of_nat w) rest)) as Hto by (by apply Forall_take).
  rewrite be_word_cons by done. replace (zlen (ztake (Z.of_nat w) rest)) with (Z.of_nat w) by zlia.
  apply lor_shiftl_add; [lia|]. pose proof (be_word_range _ Hto) as R. unfold is_u in R.
  by replace (zlen (ztake (Z.of_nat w) rest)) with (Z.of_nat w) in R by zlia.
Qed.

Lemma take_range_ok m from to : 0 <= from <= to -> to <= zlen m -> take_range m from to = Ret (ztake (to - from) (zdrop from m)).
Proof.
  intros Hf Ht. unfold take_range. rewrite !(proj2 (Z.ltb_ge _ _)) by lia. by rewrite mem_read_ok by lia.
Qed.

Lemma to_num_be w m from :
  (w ∈ [1; 2; 4; 8])%nat -> 0 <= from -> from + Z.of_nat w <= zlen m -> zlen m < 2 ^ 63 -> bytes_ok m ->
  bytes_data.to_num_at w m from = Ret (be_word (ztake (Z.of_nat w) (zdrop from m))).
Proof.
  intros Hw Hf Hl Hm Hok. unfold bytes_data.to_num_at, bytes_data.to_num. rewrite (wrap_u_small 64) by (unfold is_u; pow2; lia).
  rewrite take_range_ok by lia. mstep. rewrite bool_decide_eq_true_2 by done. replace (from + Z.of_nat w - from) with (Z.of_nat w) by lia.
  assert (zlen (ztake (Z.of_nat w) (zdrop from m)) = Z.of_nat w) as Hz by zlia.
  rewrite shifted_be; [|done|lia|by apply Forall_take, Forall_drop]. by rewrite zdrop_0, (ztake_all _ (ztake _ _)) by lia.
Qed.

Lemma written_back m pos data : 0 <= pos -> ztake (zlen data) (zdrop pos (written m pos data)) = data.
Proof.
  intros Hp. unfold written. rewrite zdrop_app_exact by zlia. by rewrite ztake_app_exact.
Qed.

(** Signed 32-bit shifts, or-ed into 64 bits. *)
Lemma or_be_low data : forall out k,
  bytes_ok data -> zlen data <= 3 -> 0 <= k -> out = k * 2 ^ (8 * zlen data) -> out < 2 ^ 64 ->
  bytes_data.or_be data out = Ret (out + be_word data).
Proof.
  induction data as [|d data IH]; intros out k Hok Hl Hk Ho Ho2; [cbn; f_equal; unfold be_word; cbn; lia|].
  apply Forall_cons_1 in Hok as [Hd Hok]. rewrite zlen_cons in Hl, Ho. pose proof (zlen_nonneg data) as H0. unfold is_u in Hd.
  cbn [bytes_data.or_be]. unfold bytes_data.shl_int. rewrite (proj2 (Z.leb_gt _ _)) by lia. mstep.
  replace (8 * (1 + zlen data)) with (8 * zlen data + 8) in Ho by lia. rewrite Z.pow_add_r in Ho by lia.
  assert (0 < 2 ^ (8 * zlen data) <= 2 ^ 16) as Hp. { split; [lia|]. apply Z.pow_le_mono_r; lia. }
  pow2. rewrite (wrap_s_small 32) by (rewrite ?Z.shiftl_mul_pow2 by lia; unfold is_s; pow2; nia).
  assert (Z.lor out (Z.shiftl d (8 * zlen data)) = (k * 256 + d) * 2 ^ (8 * zlen data)) as ->.
  { replace out with (Z.shiftl k (8 * zlen data + 8)) by (rewrite Z.shiftl_mul_pow2, Z.pow_add_r by lia; lia).
    rewrite lor_shiftl_shiftl by (pow2; lia). rewrite Z.shiftl_mul_pow2 by lia. by pow2. }
  assert ((k * 256 + d) * 2 ^ (8 * zlen data) < 2 ^ 64) as Hb.
  { assert (exists j, 2 ^ 64 = j * (256 * 2 ^ (8 * zlen data))) as [j Hj].
    { exists (2 ^ (64 - (8 * zlen data + 8))). change 256 with (2 ^ 8). rewrite <- !Z.pow_add_r by lia. f_equal. lia. }
    pow2. rewrite Hj in *. set (q := 2 ^ (8 * zlen data)) in *. clearbody q.
    assert (k < j) by nia. assert ((k * 256 + d) * q < (k + 1) * 256 * q) by nia. nia. }
  rewrite wrap_u_small by (split; [nia|done]). rewrite (IH _ (k * 256 + d)) by (done || lia). rewrite be_word_cons by done. f_equal. pow2. nia.
Qed.

Definition write_num (w : nat) : list Z -> Z -> Z -> outcome (list Z * Z) :=
  match w with 2%nat => bytes_data.write_u16 | 4%nat => bytes_data.write_u32 | _ => bytes_data.write_u64 end.

Lemma write_num_be w m pos v : (w ∈ [2; 4; 8])%nat -> write_num w m pos v = write m pos (be_bytes w v).
Proof.
  intros Hw. unfold write. apply elem_of_cons in Hw as [->|Hw]; [by rewrite <- entries_u16_be|].
  apply elem_of_cons in Hw as [->|Hw]; [by rewrite <- entries_u32_be|]. apply list_elem_of_singleton in Hw as ->. by rewrite <- entries_u64_be.
Qed.

(** ** Fixed sizes *)

Inductive array_write :=
| WVal (pos v : Z)
| W16 (pos v : Z)
| W32 (pos v : Z)
| W64 (pos v : Z)
| WPtr (pos : Z) (data : list Z) (len : Z)
| WVec (pos : Z) (data : list Z)
| WData (pos : Z) (data : list Z).

Definition run_write (N : Z) (m : list Z) (o : array_write) : outcome (list Z * Z) :=
  match o with
  | WVal pos v => bytes_array.write_val N m pos v
  | W16 pos v => bytes_array.write_u16 N m pos v
  | W32 pos v => bytes_array.write_u32 N m pos v
  | W64 pos v => bytes_array.write_u64 N m pos v
  | WPtr pos data len => bytes_array.write_ptr N m pos data len
  | WVec pos data => bytes_array.write_vec N m pos data
  | WData pos data => bytes_array.write_data N m pos data
  end.

(** What a write stores where; [None] if it does not fit. *)
Definition effect (N : Z) (o : array_write) : option (Z * list Z) :=
  match o with
  | WVal pos v => if pos + 1 <=? N then Some (pos, [v]) else None
  | W16 pos v => if pos + 2 <=? N then Some (pos, be_bytes 2 v) else None
  | W32 pos v => if pos + 4 <=? N then Some (pos, be_bytes 4 v) else None
  | W64 pos v => if pos + 8 <=? N then Some (pos, be_bytes 8 v) else None
  | WPtr pos data len => if pos <=? N then Some (pos, ztake (Z.min (N - pos) len) data) else None
  | WVec pos data | WData pos data => if pos <=? N then Some (pos, ztake (N - pos) data) else None
  end.

(** Positions far from the end of [size_t], and pointers to as many bytes as announced. *)
Definition write_ok (o : array_write) : Prop :=
  match o with
  | WVal pos _ | W16 pos _ | W32 pos _ | W64 pos _ | WVec pos _ | WData pos _ => 0 <= pos < 2 ^ 63
  | WPtr pos data len => 0 <= pos < 2 ^ 63 /\ 0 <= len <= zlen data
  end.

Section Array.
Context (N : Z) (HN : 0 < N < 2 ^ 63).

Lemma store_fitting_all vals : forall m, Forall (fun e => e.1 < N) vals -> bytes_array.store_fitting N m vals = store_all m vals.
Proof.
  induction vals as [|[p v] vals IH]; intros m Hv; [done|]. apply Forall_cons_1 in Hv as [Hp Hv]. cbn [bytes_array.store_fitting store_all].
  cbn in Hp. rewrite (proj2 (Z.ltb_lt _ _)) by done. destruct (mem_write m p [v]); try done. by apply IH.
Qed.

Lemma positions_below data : forall pos, pos + zlen data <= N -> Forall (fun e => e.1 < N) (positions pos data).
Proof.
  induction data as [|v data IH]; intros pos Hl; [constructor|]. rewrite zlen_cons in Hl. pose proof (zlen_nonneg data).
  constructor; [cbn; lia|]. apply IH. lia.
Qed.

Lemma array_batch m pos data : zlen m = N -> 0 <= pos -> pos + zlen data <= N ->
  bytes_array.write_batch N m (from_pos pos data) = Ret (written m pos data, zlen data).
Proof.
  intros Hm Hp Hl. unfold bytes_array.write_batch. rewrite from_pos_flat by lia. rewrite store_fitting_all by (by apply positions_below).
  rewrite store_all_positions, written_inside by lia. mstep. by rewrite zlen_positions.
Qed.

Lemma array_fit w pos : 0 <= pos < 2 ^ 63 -> 0 <= w <= 8 -> (N <? u64 (w + pos)) = negb (pos + w <=? N).
Proof.
  change (2 ^ 63) with 9223372036854775808. intros Hp Hw. rewrite wrap_u_small by (unfold is_u; pow2; lia).
  destruct (Z.ltb_spec N (w + pos)), (Z.leb_spec (pos + w) N); (done || lia).
Qed.

Lemma strip_take (n : Z) (data : list Z) : ztake (Z.min n (zlen data)) data = ztake n data /\ zlen (ztake n data) = Z.max 0 (Z.min n (zlen data)).
Proof.
  split; [|zlia]. destruct (Z.le_gt_cases n (zlen data)); [f_equal; lia|]. by rewrite !ztake_all by lia.
Qed.

(** A number, once its position is checked. *)
Lemma array_number w m pos v : zlen m = N -> 0 <= pos < 2 ^ 63 -> (w <= 8)%nat ->
  (if N <? u64 (Z.of_nat w + pos) then bytes_array.no_fit else bytes_array.write_batch N m (from_pos pos (be_bytes w v))) =
  match (if pos + Z.of_nat w <=? N then Some (pos, be_bytes w v) else None) with
  | Some (pos, data) => Ret (written m pos data, zlen data)
  | None => bytes_array.no_fit
  end /\
  match (if pos + Z.of_nat w <=? N then Some (pos, be_bytes w v) else None) with
  | Some (pos, data) => 0 <= pos /\ pos + zlen data <= N | None => True end.
Proof.
  intros Hm Hp Hw. rewrite array_fit by (done || lia). destruct (Z.leb_spec (pos + Z.of_nat w) N); cbn [negb]; [|done].
  rewrite array_batch by (rewrite ?zlen_be; lia). rewrite zlen_be. split; [done|lia].
Qed.

Lemma array_write_effect m o : zlen m = N -> write_ok o ->
  run_write N m o =
    match effect N o with
    | Some (pos, data) => Ret (written m pos data, zlen data)
    | None => bytes_array.no_fit
    end /\
  match effect N o with Some (pos, data) => 0 <= pos /\ pos + zlen data <= N | None => True end.
Proof.
  intros Hm Ho. destruct o as [pos v|pos v|pos v|pos v|pos data len|pos data|pos data]; cbn [run_write effect write_ok] in *.
  - unfold bytes_array.write_val. rewrite array_fit by (done || lia). destruct (Z.leb_spec (pos + 1) N); cbn [negb]; [|done].
    split; [|change (zlen [v]) with 1; lia]. rewrite write_val_in by lia. done.
  - unfold bytes_array.write_u16. rewrite entries_u16_be. apply (array_number 2); (done || lia).
  - unfold bytes_array.write_u32. rewrite entries_u32_be. apply (array_number 4); (done || lia).
  - unfold bytes_array.write_u64. rewrite entries_u64_be. destruct (Z.ltb_spec N pos).
    + by rewrite (proj2 (Z.leb_gt (pos + 8) N)) by lia.
    + apply (array_number 8); (done || lia).
  - destruct Ho as [Hp Hl]. unfold bytes_array.write_ptr. rewrite Z.leb_antisym. destruct (Z.ltb_spec N pos); cbn [negb]; [done|].
    rewrite write_ptr_in by lia.
    assert (zlen (ztake (Z.min (N - pos) len) data) = Z.min (N - pos) len) as E by zlia. rewrite E. split; [done|lia].
  - unfold bytes_array.write_vec. rewrite Z.leb_antisym. destruct (Z.ltb_spec N pos); cbn [negb]; [done|].
    destruct (strip_take (N - pos) data) as [E1 E2]. pose proof (zlen_nonneg data). rewrite write_ptr_in, E1, E2 by lia.
    split; [do 2 f_equal; lia|lia].
  - unfold bytes_array.write_data. rewrite Z.leb_antisym. destruct (Z.ltb_spec N pos); cbn [negb]; [done|].
    destruct (strip_take (N - pos) data) as [E1 E2]. pose proof (zlen_nonneg data). rewrite take_range_ok by lia. mstep. rewrite Z.sub_0_r, zdrop_0, E1.
    rewrite array_batch by lia. split; [done|lia].
Qed.

End Array.

(** ** Theorems *)

Lemma zlen_written_max m pos data : 0 <= pos <= zlen m -> zlen (written m pos data) = Z.max (zlen m) (pos + zlen data).
Proof. intros. unfold written. pose proof (zlen_nonneg data). zlia. Qed.

Lemma written_ok m pos data : bytes_ok m -> bytes_ok data -> bytes_ok (written m pos data).
Proof.
  intros Hm Hd. unfold written. forall_list; [|done|by apply Forall_drop].
  apply Forall_take, Forall_app. split; [done|]. by apply Forall_replicate.
Qed.

(** A number of two, four or eight bytes written at a position inside a
    [bytes_data] or at its end is read back by [to_num]; the vector grows as far as
    the number needs, and the bytes before and after it stay. *)
Theorem number_roundtrip (w : nat) (m : list Z) (pos v : Z) :
  (w ∈ [2; 4; 8])%nat -> bytes_ok m -> 0 <= pos <= zlen m -> zlen m + 8 < 2 ^ 63 ->
  exists m', write_num w m pos v = Ret (m', Z.of_nat w) /\
    zlen m' = Z.max (zlen m) (pos + Z.of_nat w) /\
    bytes_data.to_num_at w m' pos = Ret (wrap_u (8 * Z.of_nat w) v) /\
    ztake pos m' = ztake pos m /\ zdrop (pos + Z.of_nat w) m' = zdrop (pos + Z.of_nat w) m.
Proof.
  intros Hw Hok Hp Hm. assert (2 <= Z.of_nat w <= 8) as Hr by (set_unfold in Hw; lia). exists (written m pos (be_bytes w v)).
  pose proof (zlen_written_max m pos (be_bytes w v) Hp) as Hz. rewrite zlen_be in Hz.
  split_and!; [|done|..].
  - rewrite write_num_be by done. rewrite write_cases; rewrite ?zlen_be; [|lia| |lia..].
    + destruct (Z.eqb_spec (zlen m) 0); [|done]. by rewrite (proj2 (Z.ltb_ge 0 pos)) by lia.
    + intros E%(f_equal zlen). rewrite zlen_be, zlen_nil in E. lia.
  - rewrite to_num_be.
    + replace (Z.of_nat w) with (zlen (be_bytes w v)) at 1 by apply zlen_be. by rewrite written_back, be_word_bytes by lia.
    + set_unfold in Hw. set_unfold. lia.
    + lia.
    + lia.
    + lia.
    + apply written_ok; [done|apply be_bytes_ok].
  - unfold written. rewrite ztake_app_exact by zlia. by rewrite ztake_app_l by lia.
  - unfold written. rewrite app_assoc, zdrop_app_exact; [by rewrite zlen_be|]. rewrite zlen_app, zlen_be. zlia.
Qed.

(** A write to a [bytes_array<N>] whose vector has [N] bytes stores exactly the
    bytes that fit, at the position given, and keeps the size, or throws
    [out_of_range]: numbers that do not fit and positions beyond [N] throw, longer
    data are cut. *)
Theorem array_write_exact (N : Z) (m : list Z) (o : array_write) :
  0 < N < 2 ^ 63 -> zlen m = N -> write_ok o ->
  run_write N m o =
    match effect N o with
    | Some (pos, data) => Ret (written m pos data, zlen data)
    | None => Throw (out_of_range "value cannot be fit to passed position")
    end /\
  (forall pos data, effect N o = Some (pos, data) -> zlen (written m pos data) = N /\ 0 <= pos /\ pos + zlen data <= N).
Proof.
  intros HN Hm Ho. destruct (array_write_effect N HN m o Hm Ho) as [E F]. split; [exact E|].
  intros pos data He. rewrite He in F. destruct F as [F1 F2]. split; [|done]. rewrite zlen_written by lia. done.
Qed.

(** [to_num_any] reads up to three bytes, and four bytes below 2^31, as a
    big-endian number; four bytes from 2^31 on come out with the upper half of the 64
    bits set, and more than four shift an [int] by 32 bits or more, which is
    undefined. *)
Theorem to_num_any_cases (m : list Z) (from to : Z) :
  bytes_ok m -> 0 <= from <= to -> to <= zlen m -> zlen m + 8 < 2 ^ 63 ->
  let d := ztake (Z.min 8 (to - from)) (zdrop from m) in
  bytes_data.to_num_any m from to =
    if zlen d <=? 4 then Ret (if be_word d <? 2 ^ 31 then be_word d else be_word d + 2 ^ 64 - 2 ^ 32) else UB.
Proof.
  intros Hok Hf Ht Hm d. unfold bytes_data.to_num_any. rewrite (wrap_u_small 64) by (unfold is_u; pow2; lia).
  rewrite take_range_ok by lia. mstep. replace (Z.min (from + 8) to - from) with (Z.min 8 (to - from)) by lia. fold d.
  assert (bytes_ok d) as Hd by (by apply Forall_take, Forall_drop). clearbody d. pose proof (be_word_range d Hd) as R. unfold is_u in R.
  destruct d as [|x d]; [by vm_compute|]. rewrite zlen_cons in *. pose proof (zlen_nonneg d). apply Forall_cons_1 in Hd as [Hx Hd].
  cbn [bytes_data.or_be]. unfold bytes_data.shl_int. destruct (Z.leb_spec (1 + zlen d) 4).
  2:{ by rewrite (proj2 (Z.leb_le 32 _)) by lia. }
  rewrite (proj2 (Z.leb_gt 32 _)) by lia. mstep. rewrite Z.lor_0_l, be_word_cons by done.
  pose proof (be_word_range d Hd) as Rd. unfold is_u in Rd, Hx. rewrite Z.shiftl_mul_pow2 by lia.
  assert (zlen d = 3 \/ zlen d <= 2) as [E|E] by lia.
  - rewrite E in *. change (8 * 3) with 24 in *. pow2. change (2 ^ 31) with 2147483648. unfold wrap_s. pow2. destruct (Z.ltb_spec (x * 16777216 + be_word d) 2147483648).
    + rewrite Z.mod_small by lia. rewrite wrap_u_small by (unfold is_u; pow2; lia).
      rewrite (or_be_low d _ x) by (rewrite ?E; done || lia || (change (8 * 3) with 24; pow2; lia)). f_equal. lia.
    + replace ((x * 16777216 + 2147483648) mod 4294967296) with (x * 16777216 - 2147483648) by (Z.div_mod_to_equations; lia).
      unfold wrap_u. pow2. replace ((x * 16777216 - 2147483648 - 2147483648) mod 18446744073709551616) with (x * 16777216 + 18446744073709551616 - 4294967296) by (Z.div_mod_to_equations; lia).
      rewrite (or_be_low d _ (x + 1099511627520)) by (rewrite ?E; done || lia || (change (8 * 3) with 24; pow2; lia)). f_equal. lia.
  - assert (0 < 2 ^ (8 * zlen d) <= 65536) by (split; [lia|]; change 65536 with (2 ^ 16); apply Z.pow_le_mono_r; lia).
    change (2 ^ 31) with 2147483648. rewrite (proj2 (Z.ltb_lt _ _)) by nia. rewrite (wrap_s_small 32) by (unfold is_s; pow2; nia).
    rewrite wrap_u_small by (unfold is_u; pow2; nia). rewrite (or_be_low d _ x) by (done || lia || (pow2; nia)). done.
Qed.

(** The constructors and assignments make a vector of [N] bytes. *)
Section Sizes.
Context (N : Z) (HN : 0 < N).

Lemma zlen_zeros : zlen (bytes_array.zeros N) = N.
Proof. unfold bytes_array.zeros. rewrite zlen_replicate. lia. Qed.

Lemma copy_fill_size m other : zlen m = N ->
  bytes_array.copy_fill N m other = Ret (ztake N other ++ replicate (Z.to_nat (N - zlen other)) 0).
Proof.
  intros Hm. unfold bytes_array.copy_fill. pose proof (zlen_nonneg other) as H0. rewrite (Z.min_comm N).
  destruct (strip_take N other) as [_ E]. assert (ztake (Z.min (zlen other) N) other = ztake N other) as ->
    by (rewrite Z.min_comm; apply strip_take).
  rewrite mem_write_ok by lia. mstep. rewrite ztake_0, Z.add_0_l. cbn [app].
  assert (Z.min (zlen other) N = zlen (ztake N other)) as -> by lia.
  replace (zdrop (zlen (ztake N other)) m) with (zdrop (zlen (ztake N other)) m ++ []) by apply app_nil_r.
  rewrite mem_write_app by zlia. f_equal. rewrite app_nil_r. do 2 f_equal. lia.
Qed.

Theorem array_constructors (data : list Z) :
  (forall len, 0 <= len <= zlen data -> exists m, bytes_array.of_ptr N (Some data) len = Ret m /\ zlen m = N) /\
  (exists m, bytes_array.of_hex N data = Ret m /\ zlen m = N) /\
  (exists m, bytes_array.of_vec N data = Ret m /\ zlen m = N) /\
  (exists m, bytes_array.of_data N data = Ret m /\ zlen m = N) /\
  (forall m, zlen m = N -> exists m', bytes_array.assign_vec N m data = Ret m' /\ zlen m' = N).
Proof.
  pose proof zlen_zeros as Hz. pose proof (zlen_nonneg data). split_and!.
  - intros len Hl. unfold bytes_array.of_ptr. rewrite mem_read_ok by lia. mstep. rewrite zdrop_0.
    rewrite mem_write_ok by zlia. eexists. split; [done|]. zlia.
  - unfold bytes_array.of_hex. case_match; [|by eexists]. rewrite mem_write_ok by zlia. eexists. split; [done|]. zlia.
  - unfold bytes_array.of_vec. rewrite mem_write_ok by zlia. eexists. split; [done|]. zlia.
  - unfold bytes_array.of_data. destruct (Z.eqb_spec (zlen data) N); [by eexists|].
    rewrite copy_fill_size by (unfold bytes_data.clear; rewrite zlen_replicate; unfold zlen in Hz; lia). eexists. split; [done|]. zlia.
  - intros m Hm. unfold bytes_array.assign_vec. destruct (Z.eqb_spec (zlen data) N); [by eexists|].
    rewrite copy_fill_size by done. eexists. split; [done|]. zlia.
Qed.

(** ** Where the containers go wrong *)

(** A longer vector that is moved into a [bytes_array] is written past its end. *)
Theorem array_move_overflow (other : list Z) : N < zlen other -> bytes_array.of_vec_move N other = UB.
Proof.
  intros Hl. unfold bytes_array.of_vec_move. rewrite (proj2 (Z.eqb_neq _ _)) by lia.
  rewrite mem_write_out; [done|]. rewrite zlen_zeros. lia.
Qed.

End Sizes.

(** Comparison with a pointer fails for data that begin or end with a zero byte. *)
Theorem equal_ptr_zero (m : list Z) :
  m <> [] -> nth 0 m 0 = 0 \/ nth (length m - 1) m 0 = 0 -> equal_ptr m (Some m) = Ret false.
Proof.
  intros Hm Hz. assert (forall i, (i < length m)%nat -> mem_get m (Z.of_nat i) = Ret (nth i m 0)) as Hg.
  { intros i Hi. unfold mem_get. rewrite decide_True by lia. rewrite Nat2Z.id. destruct (lookup_lt_is_Some_2 m i Hi) as [x Hx]. rewrite Hx.
    by rewrite (nth_lookup_Some _ _ _ _ Hx). }
  assert (0 < length m)%nat by (destruct m; [done|cbn; lia]). unfold equal_ptr.
  change (mem_get m 0) with (mem_get m (Z.of_nat 0)). rewrite Hg by done. mstep.
  destruct (Z.eqb_spec (nth 0 m 0) 0); [done|]. destruct Hz as [|Hz]; [done|].
  replace (zlen m - 1) with (Z.of_nat (length m - 1)) by (unfold zlen; lia). rewrite Hg by lia. mstep. by rewrite Hz.
Qed.

(** The sign of the shifted [int] is lost in 32 bits. *)
Lemma wrap_lor_i32 a x : u32 (Z.lor a (i32 x)) = u32 (Z.lor a x).
Proof.
  apply Z.bits_inj'. intros k Hk. rewrite !testbit_wrap_u, !Z.lor_spec by lia. destruct (Z.ltb_spec k 32); [|done]. cbn [andb]. f_equal.
  transitivity (Z.testbit (u32 (i32 x)) k).
  - rewrite testbit_wrap_u by lia. by rewrite (proj2 (Z.ltb_lt k 32)) by lia.
  - rewrite wrap_u_wrap_s, testbit_wrap_u by lia. by rewrite (proj2 (Z.ltb_lt k 32)) by lia.
Qed.

Lemma or_le_spec w : forall i data out, 0 <= i -> i + Z.of_nat w <= 4 -> zlen data <= Z.of_nat w -> bytes_ok data -> 0 <= out < 2 ^ (8 * i) ->
  bytes_data.or_le w i data out 32 = Ret (out + le_word data * 2 ^ (8 * i)).
Proof.
  induction w as [|w IH]; intros i data out Hi Hw Hl Hok Ho.
  { rewrite (zlen_0_nil data) by (pose proof (zlen_nonneg data); lia). cbn. f_equal. lia. }
  cbn [bytes_data.or_le].
  assert (0 < 2 ^ (8 * i) <= 16777216) as Hp. { split; [lia|]. change 16777216 with (2 ^ 24). apply Z.pow_le_mono_r; lia. }
  assert (2 ^ (8 * (i + 1)) = 256 * 2 ^ (8 * i)) as Hs. { replace (8 * (i + 1)) with (8 + 8 * i) by lia. by rewrite Z.pow_add_r by lia. }
  destruct data as [|d data].
  - rewrite (proj2 (Z.leb_gt 32 _)) by lia. mstep. rewrite Z.lor_0_r, wrap_u_small by (unfold is_u; pow2; lia).
    rewrite IH by (cbn [tail]; rewrite ?zlen_nil, ?Hs; done || lia). done.
  - apply Forall_cons_1 in Hok as [Hd Hok]. unfold is_u in Hd. unfold bytes_data.shl_int. rewrite (proj2 (Z.leb_gt 32 _)) by lia. mstep.
    rewrite zlen_cons in Hl. cbn [tail le_word].
    rewrite wrap_lor_i32, Z.lor_comm, lor_shiftl_add by lia. rewrite wrap_u_small by (unfold is_u; pow2; nia).
    rewrite IH; [|lia|lia|lia|done|rewrite Hs; nia]. f_equal. rewrite Hs, (Z.lor_comm d), lor_shiftl_add by (pow2; lia). pow2. lia.
Qed.

Lemma or_be_32 data : forall out k,
  bytes_ok data -> zlen data <= 4 -> 0 <= k -> out = k * 2 ^ (8 * zlen data) -> k < 2 ^ (32 - 8 * zlen data) ->
  bytes_data.or_be_as 32 data out = Ret (out + be_word data).
Proof.
  induction data as [|d data IH]; intros out k Hok Hl Hk Ho Ho2; [cbn; f_equal; unfold be_word; cbn; lia|].
  apply Forall_cons_1 in Hok as [Hd Hok]. rewrite zlen_cons in Hl, Ho, Ho2. pose proof (zlen_nonneg data) as H0. unfold is_u in Hd.
  cbn [bytes_data.or_be_as]. unfold bytes_data.shl_int. rewrite (proj2 (Z.leb_gt _ _)) by lia. mstep. rewrite wrap_lor_i32.
  replace (8 * (1 + zlen data)) with (8 * zlen data + 8) in Ho by lia.
  assert (Z.lor out (Z.shiftl d (8 * zlen data)) = (k * 256 + d) * 2 ^ (8 * zlen data)) as ->.
  { rewrite Ho, <- Z.shiftl_mul_pow2 by lia. rewrite lor_shiftl_shiftl by (pow2; lia). rewrite Z.shiftl_mul_pow2 by lia. by pow2. }
  assert (k * 256 + d < 2 ^ (32 - 8 * zlen data)) as Hb.
  { replace (32 - 8 * zlen data) with (8 + (32 - 8 * (1 + zlen data))) by lia. rewrite Z.pow_add_r by lia. pow2. nia. }
  assert (2 ^ 32 = 2 ^ (32 - 8 * zlen data) * 2 ^ (8 * zlen data)) as H32 by (rewrite <- Z.pow_add_r by lia; f_equal; lia).
  rewrite wrap_u_small by (unfold is_u; rewrite H32; nia).
  rewrite (IH _ (k * 256 + d)) by (done || lia). rewrite be_word_cons by done. f_equal. rewrite Ho, Z.pow_add_r by lia. pow2. lia.
Qed.

(** A 32-bit number read with [to_num_any_size] is big-endian when the container
    has four bytes for it and little-endian when it has fewer. *)
Theorem to_num_any_size_order (m : list Z) :
  bytes_ok m ->
  (zlen m < 4 -> bytes_data.to_num_any_size 4 m 0 4 = Ret (le_word m)) /\
  (zlen m = 4 -> bytes_data.to_num_any_size 4 m 0 4 = Ret (be_word m)).
Proof.
  intros Hok. pose proof (zlen_nonneg m). unfold bytes_data.to_num_any_size. split; intros Hl.
  - rewrite take_range_ok by lia. mstep. rewrite zdrop_0, ztake_all by lia. rewrite (proj2 (Z.ltb_lt _ _)) by lia.
    rewrite or_le_spec by (done || lia). cbn [Z.mul Z.pow]. f_equal. lia.
  - rewrite take_range_ok by lia. mstep. rewrite zdrop_0, ztake_all by lia. rewrite (proj2 (Z.ltb_ge _ _)) by lia.
    change (8 * Z.of_nat 4) with 32. rewrite (or_be_32 m 0 0); [done|done|lia|done|done|]. by rewrite Hl.
Qed.

(** *** [bytes_buffer] *)

Lemma index_ok m i : 0 <= i < zlen m -> exists x, index m i = Ret x.
Proof.
  intros Hi. unfold index, at_. destruct (lookup_lt_is_Some_2 m (Z.to_nat i)) as [x Hx]; [unfold zlen in Hi; lia|].
  rewrite Hx. by eexists.
Qed.

Lemma at_app pre (b : Z) post i : i = zlen pre -> at_ (pre ++ b :: post) i = Ret b.
Proof. intros ->. unfold at_, zlen. rewrite Nat2Z.id. by rewrite list_lookup_middle. Qed.

Lemma copy_front_ok l : forall pre post i it (out : list Z),
  i = zlen pre -> 0 <= it -> it + i + zlen l <= zlen out ->
  bytes_buffer.copy_front (length l) i it (pre ++ l ++ post) out = mem_write out (i + it) l.
Proof.
  induction l as [|x l IH]; intros pre post i it out Hi Hit Hl; pose proof (zlen_nonneg pre).
  - cbn. rewrite zlen_nil in Hl. rewrite mem_write_ok by (rewrite ?zlen_nil; lia). cbn [app]. rewrite zlen_nil, Z.add_0_r. by rewrite ztake_zdrop.
  - rewrite zlen_cons in Hl. pose proof (zlen_nonneg l). cbn [length bytes_buffer.copy_front app]. rewrite at_app by done. mstep.
    destruct (index_ok out (i + it)) as [y ->]; [lia|]. mstep.
    change (x :: l) with ([x] ++ l). rewrite (mem_write_seq _ _ [x] l) by lia. change (zlen [x]) with 1.
    destruct (mem_write out (i + it) [x]) as [out'| | |] eqn:E; try done. mstep. apply mem_write_len in E.
    replace (pre ++ x :: l ++ post) with ((pre ++ [x]) ++ l ++ post) by (by rewrite <- app_assoc).
    rewrite (IH (pre ++ [x]) post (i + 1)) by (rewrite ?zlen_app; change (zlen [x]) with 1; lia). f_equal. lia.
Qed.

(** Taking bytes from the front of a buffer into the start of [out] moves as many
    as are asked for, as the buffer has and as [out] can hold, in order; the buffer
    keeps the rest. *)
Theorem pop_front_queue (m out : list Z) (readLength : Z) :
  0 < readLength -> out <> [] -> m <> [] ->
  let s := Z.min readLength (Z.min (zlen m) (zlen out)) in
  bytes_buffer.pop_front_to m readLength 0 out = Ret (s, zdrop s m, ztake s m ++ zdrop s out).
Proof.
  intros Hr Ho Hm s. assert (0 < zlen m) by (destruct m; [done|]; zlia). assert (0 < zlen out) by (destruct out; [done|]; zlia).
  unfold bytes_buffer.pop_front_to. rewrite !(proj2 (Z.eqb_neq _ 0)) by lia. cbn [orb].
  assert ((if zlen out <? (if zlen m <=? readLength then zlen m else readLength) then zlen out else (if zlen m <=? readLength then zlen m else readLength)) = s) as ->.
  { unfold s. destruct (Z.leb_spec (zlen m) readLength); case_match; lia. }
  assert (zlen (ztake s m) = s) as Hs by zlia. assert (s <= zlen out) as Hso by lia. clearbody s.
  assert (bytes_buffer.copy_front (Z.to_nat s) 0 0 m out = mem_write out 0 (ztake s m)) as ->.
  { replace (Z.to_nat s) with (length (ztake s m)) by (unfold zlen in Hs; lia). rewrite <- (ztake_zdrop s m) at 2.
    apply (copy_front_ok (ztake s m) [] (zdrop s m)); [done|lia|]. zlia. }
  rewrite mem_write_ok by zlia. mstep. rewrite ztake_0, Hs. cbn [app].
  destruct (Z.eqb_spec s (zlen m)) as [->|]; [|done]. by rewrite (zdrop_all _ m) by lia.
Qed.

(** Taking more from the back than [out] can hold drops the bytes in between. *)
Theorem pop_back_loses (m out : list Z) (readLength : Z) :
  0 < zlen out < readLength -> readLength <= zlen m -> zlen m < 2 ^ 63 ->
  bytes_buffer.pop_back_to m readLength out =
    Ret (zlen out, ztake (zlen m - readLength) m, zdrop (zlen m - zlen out) m).
Proof.
  intros Ho Hr Hm. unfold bytes_buffer.pop_back_to. rewrite !(proj2 (Z.eqb_neq _ 0)) by lia. cbn [orb].
  rewrite (Z.min_l readLength), Z.min_r by lia. unfold take_range_from. rewrite take_range_ok by lia. mstep.
  rewrite (ztake_all _ (zdrop _ m)) by zlia. rewrite write_in by zlia. mstep.
  assert (zlen (zdrop (zlen m - zlen out) m) = zlen out) as E by zlia.
  rewrite wrap_s_small by (unfold is_s; pow2; lia). rewrite (proj2 (Z.ltb_ge _ 0)) by lia. unfold written. rewrite E. do 3 f_equal.
  - unfold resize. replace (Z.to_nat (zlen m - readLength - zlen m)) with 0%nat by lia. by rewrite app_nil_r.
  - rewrite ztake_0, Z.add_0_l, (zdrop_all _ out) by lia. by rewrite app_nil_r.
Qed.

Lemma number_roundtrip_witness :
  exists m', write_num 4 [1; 2; 3] 2 0xdeadbeef = Ret (m', 4) /\ zlen m' = 6 /\ bytes_data.to_num_at 4 m' 2 = Ret 0xdeadbeef.
Proof.
  destruct (number_roundtrip 4 [1; 2; 3] 2 0xdeadbeef) as (m' & H1 & H2 & H3 & _).
  - set_solver.
  - apply (bool_decide_unpack _). by vm_compute.
  - by vm_compute.
  - by vm_compute.
  - exists m'. split; [exact H1|]. split; [exact H2|exact H3].
Defined.

Lemma array_write_exact_witness :
  run_write 4 [9; 9; 9; 9] (WVec 2 [1; 2; 3]) = Ret ([9; 9; 1; 2], 2) /\
  run_write 4 [9; 9; 9; 9] (W32 1 7) = Throw (out_of_range "value cannot be fit to passed position").
Proof.
  split.
  - exact (proj1 (array_write_exact 4 [9; 9; 9; 9] (WVec 2 [1; 2; 3]) ltac:(lia) eq_refl ltac:(cbn; lia))).
  - exact (proj1 (array_write_exact 4 [9; 9; 9; 9] (W32 1 7) ltac:(lia) eq_refl ltac:(cbn; lia))).
Defined.

Lemma to_num_any_cases_witness :
  bytes_data.to_num_any [0x80; 0; 0; 1; 5; 6; 7; 8] 0 4 = Ret 0xffffffff80000001 /\
  bytes_data.to_num_any [0x80; 0; 0; 1; 5; 6; 7; 8] 0 8 = UB.
Proof.
  split.
  - apply (to_num_any_cases [0x80; 0; 0; 1; 5; 6; 7; 8] 0 4); try by vm_compute. apply (bool_decide_unpack _). by vm_compute.
  - apply (to_num_any_cases [0x80; 0; 0; 1; 5; 6; 7; 8] 0 8); try by vm_compute. apply (bool_decide_unpack _). by vm_compute.
Defined.

Lemma pop_front_queue_witness :
  bytes_buffer.pop_front_to [1; 2; 3; 4] 3 0 [0; 0] = Ret (2, [3; 4], [1; 2]).
Proof. by apply (pop_front_queue [1; 2; 3; 4] [0; 0] 3). Defined.
