(* ===== verification/Strings.v ===== *)
(** * Strings of the toolbox

    Models src/src/ptp_toolbox/strings.cpp and strings/decimal_formatter.cpp: searching,
    splitting, joining, replacing, removing and clipping texts, and the grouping of
    decimal numbers.  Conversions through streams of files are left out.

    The theorems: splitting inverts joining; replacing ends when the new text is shorter
    and never ends when it contains the old one; trimming removes exactly four
    characters; formatted numbers are grouped from the right. *)

From S2P Require Import Prelude Bip39.

Module toolbox_strings.

(** ** Searching *)

(** [std::string::npos]. *)
Definition npos : Z := 2 ^ 64 - 1.

Definition find_pos (search source : list Z) : Z :=
  match find search source with Some (before, _) => zlen before | None => npos end.

(** [rfind]: the last position at which the text starts. *)
Fixpoint rfind_from (i : Z) (search source : list Z) : Z :=
  let here := if starts_with search source then i else npos in
  match source with
  | [] => here
  | _ :: source => let later := rfind_from (i + 1) search source in if later =? npos then here else later
  end.

Definition rfind (search source : list Z) : Z := rfind_from 0 search source.

(** [substr(pos, n)]. *)
Definition substr (s : list Z) (pos n : Z) : outcome (list Z) :=
  if zlen s <? pos then Throw (out_of_range "basic_string::substr") else Ret (ztake (Z.min n (zlen s - pos)) (zdrop pos s)).

(** The classic locale. *)
Definition toupper (c : Z) : Z := if (97 <=? c) && (c <=? 122) then c - 32 else c.
Definition tolower (c : Z) : Z := if (65 <=? c) && (c <=? 90) then c + 32 else c.

(** [compare]: [std::search] without regard to case; an empty text is found at the
    start, which is the end of an empty text and then means not found. *)
Definition compare (str1 str2 : list Z) : Z :=
  let pos := find_pos (map toupper str2) (map toupper str1) in
  if pos =? zlen str1 then npos else pos.

Definition has_substring_icase (substring source : list Z) : bool := negb (compare source substring =? npos).
Definition has_substring (substring source : list Z) : bool := negb (find_pos substring source =? npos).
Definition has_substring_char (substring : Z) (source : list Z) : bool := negb (find_pos [substring] source =? npos).

(** ** Splitting and joining *)

(** [strings::split]: a text that ends with a delimiter has no empty last part. *)
Fixpoint split_loop (fuel : nat) (src d : list Z) : outcome (list (list Z)) :=
  match fuel with
  | O => NoFuel
  | S fuel =>
      match Bip39.find d src with
      | Some (part, rest) => parts ← split_loop fuel rest d; Ret (part :: parts)
      | None => Ret (if 0 <? zlen src then [src] else [])
      end
  end.

Definition split (source delimiter : list Z) : outcome (list (list Z)) :=
  if zlen delimiter =? 0 then Ret [] else split_loop (S (length source)) source delimiter.

(** [std::getline] until the stream is empty. *)
Fixpoint getline_loop (fuel : nat) (source : list Z) (delimiter : Z) : outcome (list (list Z)) :=
  match source with
  | [] => Ret []
  | _ =>
      match fuel with
      | O => NoFuel
      | S fuel =>
          match find [delimiter] source with
          | Some (item, rest) => elements ← getline_loop fuel rest delimiter; Ret (item :: elements)
          | None => Ret [source]
          end
      end
  end.

Definition split_char (source : list Z) (delimiter : Z) : outcome (list (list Z)) := getline_loop (length source) source delimiter.

Definition split_pair (source : list Z) (delimiter : Z) : outcome (list Z * list Z) :=
  elements ← split_char source delimiter;
  match elements with
  | [] => Ret ([], [])
  | [a] => Ret (a, [])
  | a :: b :: _ => Ret (a, b)
  end.

Definition split_pair_string (source delimiter : list Z) : outcome (list Z * list Z) :=
  match delimiter with
  | [] => Ret ([], [])
  | c :: _ => split_pair source c
  end.

Fixpoint glue_from (i : Z) (size : Z) (glue : list Z) (strings : list (list Z)) : list Z :=
  match strings with
  | [] => []
  | s :: strings => (if (i =? 0) || (i =? size) then s else glue ++ s) ++ glue_from (i + 1) size glue strings
  end.

Definition glue (glue : list Z) (strings : list (list Z)) : list Z := glue_from 0 (zlen strings) glue strings.

(** [strings::split_by_len]: the rounds start at [0], [max], [2 * max], ... *)
Fixpoint split_by_len_loop (fuel : nat) (src : list Z) (max i got : Z) : outcome (list (list Z)) :=
  if zlen src <=? i then Ret [] else
  match fuel with
  | O => NoFuel
  | S fuel =>
      let '(n, got) := if zlen src <? got + max then (zlen src - got, got) else (got + max, got + max) in
      rest ← split_by_len_loop fuel src max (i + max) got;
      Ret (ztake n (zdrop i src) :: rest)
  end.

Definition split_by_len (src : list Z) (max : Z) : outcome (list (list Z)) :=
  if max <? zlen src then split_by_len_loop (length src) src max 0 0 else Ret [src].

Definition repeat (s : list Z) (n : nat) : list Z := concat (replicate n s).
Definition repeat_char (c : Z) (n : nat) : list Z := concat (replicate n [c]).

(** ** Replacing and removing *)

Definition substr_replace_ret (search replace source : list Z) : outcome (list Z) :=
  if (zlen source =? 0) || (zlen source <? zlen search) then Ret source else
  let found := find_pos search source in
  if found =? npos then Ret source else
  begin_ ← substr source 0 found;
  end_ ← substr source (found + zlen search) npos;
  Ret (begin_ ++ replace ++ end_).

(** [while (result.find(search) != npos)]. *)
Fixpoint replace_loop (fuel : nat) (search replace result : list Z) : outcome (list Z) :=
  if find_pos search result =? npos then Ret result else
  match fuel with
  | O => NoFuel
  | S fuel => result ← substr_replace_ret search replace result; replace_loop fuel search replace result
  end.

Definition substr_replace_all_ret (fuel : nat) (search replace source : list Z) : outcome (list Z) :=
  result ← substr_replace_ret search replace source;
  replace_loop fuel search replace result.

(** The replacements for several texts; [result] starts as the source. *)
Fixpoint replace_each (fuel : nat) (search toReplace : list (list Z)) (result : list Z) : outcome (list Z) :=
  match search with
  | [] => Ret result
  | s :: search =>
      match toReplace with
      | [] => UB
      | r :: toReplace => result ← substr_replace_all_ret fuel s r result; replace_each fuel search toReplace result
      end
  end.

Definition substr_replace_all_ret_list (fuel : nat) (search replace : list (list Z)) (source : list Z) : outcome (list Z) :=
  match replace with
  | [r] =>
      if negb (zlen search =? 1) then
        match search with [] => Ret [] | _ => replace_each fuel search (replicate (length search) r) source end
      else replace_each fuel search replace source
  | [] => Throw (invalid_argument "search & replace vectors must be equal size and not empty!")
  | _ =>
      if negb (zlen search =? zlen replace) || (zlen search =? 0)
      then Throw (invalid_argument "search & replace vectors must be equal size and not empty!")
      else replace_each fuel search replace source
  end.

Definition trim (fuel : nat) (s : list Z) : outcome (list Z) :=
  substr_replace_all_ret_list fuel [[9]; [10]; [13]; [11]] [[]] s.

(** [erase] of each occurrence in turn. *)
Fixpoint substr_remove (fuel : nat) (source removable : list Z) : outcome (list Z) :=
  match find removable source with
  | None => Ret source
  | Some (before, after) => match fuel with O => NoFuel | S fuel => substr_remove fuel (before ++ after) removable end
  end.

Fixpoint substr_remove_all (fuel : nat) (source : list Z) (removables : list (list Z)) : outcome (list Z) :=
  match removables with
  | [] => Ret source
  | r :: removables => source ← substr_remove fuel source r; substr_remove_all fuel source removables
  end.

(** ** Cutting *)

(** A negative character, which is the complement of the one meant, cuts from the
    end. *)
Definition substr_inverse (source : list Z) (whence : Z) : outcome (list Z) :=
  if 0 <=? Z.lnot (i8 whence) then
    substr source (u64 (rfind [u8 (Z.lnot whence)] source + 1)) npos
  else substr source 0 (find_pos [whence] source).

Definition substr_inverse_range (source begin_ end_ : list Z) (offset : Z) : outcome (list Z) :=
  let from := find_pos begin_ source in
  let from := if from =? npos then 0 else from in
  let to := rfind end_ source in
  let from := u64 (from + - offset) in
  let to := u64 (to + (1 + offset)) in
  out ← substr source 0 from;
  rest ← substr source to npos;
  Ret (out ++ rest).

Definition substr_inverse_before (source begin_ : list Z) : outcome (list Z) :=
  let from := find_pos begin_ source in
  substr source 0 (if from =? npos then 0 else from).

Definition substr_clip (source search : list Z) (width : Z) (icase : bool) : outcome (list Z) :=
  let pos := if icase then compare source search else find_pos search source in
  if pos =? npos then Ret source else
  let searchLength := zlen search in
  let sourceLength := zlen source in
  if (searchLength =? width) || (sourceLength =? searchLength) || (sourceLength =? width) then Ret search
  else if (width <? searchLength) || (sourceLength <? width) then substr search 0 width
  else
    let centerOfSearch := pos + searchLength / 2 in
    let centerOfWidth := width / 2 in
    let begin_ := if centerOfSearch - centerOfWidth <? 0 then 0 else centerOfSearch - centerOfWidth in
    substr source begin_ width.

(** ** Case *)

(** [std::tolower] of a [char]: a negative value other than [EOF] is undefined. *)
Definition char_case (f : Z -> Z) (c : Z) : outcome Z := if (128 <=? c) && (c <? 255) then UB else Ret (f c).

Fixpoint map_case (f : Z -> Z) (s : list Z) : outcome (list Z) :=
  match s with
  | [] => Ret []
  | c :: s => x ← char_case f c; rest ← map_case f s; Ret (x :: rest)
  end.

Definition to_lower_case (s : list Z) : outcome (list Z) := map_case tolower s.
Definition to_upper_case (s : list Z) : outcome (list Z) := map_case toupper s.

Definition equals_icase (s1 s2 : list Z) : bool :=
  (zlen s1 =? zlen s2) && bool_decide (map tolower s1 = map tolower s2).

End toolbox_strings.

(** ** Decimal numbers *)

Module decimal_formatter.
Import toolbox_strings.

Record t := mk {
  m_num : list Z;
  m_decimals : Z;
  m_max_precision : Z;
  m_min_precision : Z;
  m_delimiter : list Z;
}.

Definition new (num : list Z) : t := mk num 3 18 4 [32].

Definition set_num (f : t) (num : list Z) : t := mk num (m_decimals f) (m_max_precision f) (m_min_precision f) (m_delimiter f).
Definition set_delimiter (f : t) (d : list Z) : t := mk (m_num f) (m_decimals f) (m_max_precision f) (m_min_precision f) d.
Definition set_decimals_group (f : t) (n : Z) : t := mk (m_num f) n (m_max_precision f) (m_min_precision f) (m_delimiter f).
Definition set_max_precision (f : t) (n : Z) : t := mk (m_num f) (m_decimals f) n (m_min_precision f) (m_delimiter f).
Definition set_min_precision (f : t) (n : Z) : t := mk (m_num f) (m_decimals f) (m_max_precision f) n (m_delimiter f).

Definition count_real_precision (fraction : list Z) : Z :=
  (fix go (n : nat) (l : list Z) : Z := match l with 48 :: l => go (pred n) l | _ => Z.of_nat n end) (length fraction) (rev fraction).

(** [for (i = lr.first.size(); i > 0;)]; the stack [parts] has its top first. *)
Fixpoint group_loop (fuel : nat) (i : Z) (num : list Z) (m_decimals : Z) (m_delimiter : list Z) (parts : list (list Z)) : outcome (list (list Z)) :=
  if negb (0 <? i) then Ret parts else
  match fuel with
  | O => NoFuel
  | S fuel =>
      let prev_i := i in
      let i := if i <=? m_decimals then 0 else i - m_decimals in
      part ← substr num i (if i =? 0 then prev_i else m_decimals);
      let parts := part :: parts in
      group_loop fuel i num m_decimals m_delimiter (if negb (i =? 0) then m_delimiter :: parts else parts)
  end.

Definition fraction_parts (f : t) (second : list Z) : outcome (list (list Z)) :=
  let fr_size_real := count_real_precision second in
  if 0 <? m_min_precision f then
    parts ← (if fr_size_real <? m_min_precision f then
               s ← substr second 0 fr_size_real;
               Ret [s; repeat_char 48 (Z.to_nat (m_min_precision f - fr_size_real))]
             else if m_max_precision f <? fr_size_real then
               s ← substr second 0 (m_max_precision f); Ret [s]
             else Ret [second]);
    Ret ([46] :: parts)
  else Ret [].

Definition format (fuel : nat) (f : t) : outcome (list Z) :=
  if zlen (m_num f) =? 0 then Throw (runtime_error "Empty number passed to decimal formatter") else
  '(first, second) ← split_pair (m_num f) 46;
  parts ← fraction_parts f second;
  parts ← group_loop fuel (zlen first) first (m_decimals f) (m_delimiter f) parts;
  Ret (concat parts).

(** [operator()]: the new state and the text. *)
Definition call (fuel : nat) (f : t) (num : list Z) : outcome (t * list Z) :=
  let f := set_num f num in
  text ← format fuel f;
  Ret (f, text).

End decimal_formatter.

(** ** Occurrences *)

Section Facts.
Import toolbox_strings.

Definition contains (d s : list Z) : Prop := exists a b, s = a ++ d ++ b.

Lemma starts_with_spec d : forall s, starts_with d s = true <-> exists b, s = d ++ b.
Proof.
  induction d as [|x d IH]; intros s; cbn [starts_with]; [split; [by exists s|done]|]. destruct s as [|y s]; [split; [done|by intros [b ?]]|].
  rewrite andb_true_iff, Z.eqb_eq, IH. split.
  - intros [-> [b ->]]. by exists b.
  - intros [b [= -> ->]]. split; [done|by exists b].
Qed.

Lemma find_some d s a b : find d s = Some (a, b) -> s = a ++ d ++ b.
Proof.
  revert a b. induction s as [|c s IH]; intros a b; cbn [find]; destruct (starts_with d _) eqn:E.
  - apply starts_with_spec in E as [x E]. symmetry in E. apply app_nil in E as [-> ->]. by intros [= <- <-].
  - done.
  - apply starts_with_spec in E as [x E]. intros [= <- <-]. rewrite E, drop_app_length. done.
  - destruct (find d s) as [[a' b']|]; [|done]. intros [= <- <-]. cbn [app]. f_equal. by apply IH.
Qed.

Lemma find_none d s : find d s = None -> ~ contains d s.
Proof.
  induction s as [|c s IH]; cbn [find]; destruct (starts_with d _) eqn:E; try done; intros H (a & b & Eq).
  - destruct a; [|done]. cbn in Eq. assert (starts_with d [] = true) by (apply starts_with_spec; by exists b). congruence.
  - destruct (find d s) as [[a' b']|] eqn:F; [done|]. destruct a as [|x a].
    + assert (starts_with d (c :: s) = true) by (apply starts_with_spec; by exists b). congruence.
    + injection Eq as -> ->. apply IH; [done|]. by exists a, b.
Qed.

Lemma find_contains d s : contains d s -> exists a b, find d s = Some (a, b).
Proof. intros H. destruct (find d s) as [[a b]|] eqn:E; [by exists a, b|]. by apply find_none in E. Qed.

(** Positions of texts shorter than 2^63. *)
Lemma find_pos_spec d s : zlen s < 2 ^ 63 ->
  match find d s with
  | Some (a, b) => find_pos d s = zlen a /\ (zlen a =? npos) = false /\ zlen a <= zlen s
  | None => find_pos d s = npos
  end.
Proof.
  intros Hs. unfold find_pos. destruct (find d s) as [[a b]|] eqn:E; [|done]. apply find_some in E. split; [done|].
  assert (zlen a <= zlen s) by (rewrite E; zlia). split; [|done]. apply Z.eqb_neq. unfold npos. cbn in *. lia.
Qed.

(** ** Replacing *)

Lemma replace_found search replace s a b :
  search <> [] -> zlen s < 2 ^ 63 -> find search s = Some (a, b) -> substr_replace_ret search replace s = Ret (a ++ replace ++ b).
Proof.
  intros Hn Hs E. pose proof (find_pos_spec search s Hs) as P. rewrite E in P. destruct P as (P1 & P2 & P3).
  pose proof (find_some _ _ _ _ E) as Es. unfold substr_replace_ret. rewrite P1, P2.
  assert (0 < zlen search) by (destruct search; [done|]; zlia). pose proof (zlen_nonneg a). pose proof (zlen_nonneg b).
  assert (zlen s = zlen a + zlen search + zlen b) as Ls by (rewrite Es; zlia).
  rewrite (proj2 (Z.eqb_neq _ 0)) by lia. rewrite (proj2 (Z.ltb_ge _ _)) by lia. cbn [orb]. unfold substr.
  rewrite !(proj2 (Z.ltb_ge _ _)) by lia. mstep. f_equal. f_equal; [|f_equal].
  - rewrite zdrop_0, Z.min_l by lia. rewrite Es. by rewrite ztake_app_exact.
  - rewrite Es. rewrite app_assoc, zdrop_app_exact by zlia. apply ztake_all. unfold npos. cbn in *. zlia.
Qed.

Lemma replace_absent search replace s : zlen s < 2 ^ 63 -> find search s = None -> substr_replace_ret search replace s = Ret s.
Proof.
  intros Hs E. pose proof (find_pos_spec search s Hs) as P. rewrite E in P. unfold substr_replace_ret. rewrite P.
  destruct (_ || _); [done|]. by rewrite Z.eqb_refl.
Qed.

Lemma replace_loop_ends search replace fuel : forall s,
  search <> [] -> zlen replace < zlen search -> zlen s < 2 ^ 63 -> (length s <= fuel)%nat ->
  exists s', replace_loop fuel search replace s = Ret s' /\ ~ contains search s'.
Proof.
  induction fuel as [|fuel IH]; intros s Hn Hr Hs Hf; cbn [replace_loop]; pose proof (find_pos_spec search s Hs) as P;
    destruct (find search s) as [[a b]|] eqn:E.
  - apply find_some in E. destruct s; [|cbn in Hf; lia]. destruct a, search; done.
  - rewrite P, Z.eqb_refl. exists s. split; [done|by apply find_none].
  - destruct P as (-> & -> & _). rewrite (replace_found _ _ _ a b) by done. mstep. apply find_some in E as Es.
    assert (length (a ++ replace ++ b) < length s)%nat by (rewrite Es, !length_app; unfold zlen in Hr; lia).
    apply IH; [done|done|unfold zlen in *; lia|lia].
  - rewrite P, Z.eqb_refl. exists s. split; [done|by apply find_none].
Qed.

Lemma replace_loop_diverges search replace fuel : forall s,
  search <> [] -> contains search replace -> contains search s -> zlen s + Z.of_nat fuel * zlen replace < 2 ^ 63 ->
  replace_loop fuel search replace s = NoFuel.
Proof.
  induction fuel as [|fuel IH]; intros s Hn Hr Hs Hl; cbn [replace_loop]; destruct (find_contains _ _ Hs) as (a & b & E);
    pose proof (zlen_nonneg replace); assert (zlen s < 2 ^ 63) as Hs63 by lia; pose proof (find_pos_spec search s Hs63) as P; rewrite E in P;
    destruct P as (-> & -> & _); [done|]. rewrite (replace_found _ _ _ a b) by done. mstep. apply IH; [done|done| |].
  - destruct Hr as (x & y & ->). exists (a ++ x), (y ++ b). by rewrite <- !app_assoc.
  - apply find_some in E. rewrite E in Hl. rewrite !zlen_app in *. pose proof (zlen_nonneg search). lia.
Qed.

(** Removing one character. *)
Definition without_char (c : Z) (s : list Z) : list Z := base.filter (fun x => x <> c) s.

Lemma filter_absent c s : ~ contains [c] s -> without_char c s = s.
Proof.
  intros Hc. unfold without_char. induction s as [|x s IH]; [done|]. rewrite filter_cons_True.
  - rewrite IH; [done|]. intros (a & b & ->). apply Hc. by exists (x :: a), b.
  - intros ->. apply Hc. by exists [], s.
Qed.

Lemma filter_found c a b : without_char c (a ++ [c] ++ b) = without_char c (a ++ b).
Proof. unfold without_char. rewrite !list.filter_app. rewrite filter_cons_False by naive_solver. done. Qed.

Lemma without_char_len c s : (length (without_char c s) <= length s)%nat.
Proof. apply length_filter. Qed.

Lemma replace_loop_char c fuel : forall s, zlen s < 2 ^ 63 -> (length s <= fuel)%nat -> replace_loop fuel [c] [] s = Ret (without_char c s).
Proof.
  induction fuel as [|fuel IH]; intros s Hs Hf; cbn [replace_loop]; pose proof (find_pos_spec [c] s Hs) as P;
    destruct (find [c] s) as [[a b]|] eqn:E.
  - apply find_some in E. destruct s; [|cbn in Hf; lia]. by destruct a.
  - rewrite P, Z.eqb_refl. by rewrite filter_absent by (by apply find_none).
  - destruct P as (-> & -> & _). rewrite (replace_found _ _ _ a b) by done. mstep. apply find_some in E as ->. cbn [app].
    rewrite IH; [by rewrite <- filter_found|zlia|rewrite !length_app in *; cbn in Hf; lia].
  - rewrite P, Z.eqb_refl. by rewrite filter_absent by (by apply find_none).
Qed.

Lemma replace_all_char c fuel s : zlen s < 2 ^ 63 -> (length s <= fuel)%nat -> substr_replace_all_ret fuel [c] [] s = Ret (without_char c s).
Proof.
  intros Hs Hf. unfold substr_replace_all_ret. destruct (find [c] s) as [[a b]|] eqn:E.
  - rewrite (replace_found _ _ _ a b) by done. mstep. apply find_some in E as ->. rewrite app_nil_l, (filter_found c a b).
    apply replace_loop_char; [zlia|]. rewrite !length_app in *. cbn in Hf. lia.
  - rewrite replace_absent by done. mstep. by apply replace_loop_char.
Qed.

(** ** Splitting *)

Lemma find_char c x rest : ~ contains [c] x -> find [c] (x ++ c :: rest) = Some (x, rest).
Proof.
  induction x as [|y x IH]; intros Hx; cbn [app find starts_with]; [by rewrite Z.eqb_refl; cbn; rewrite drop_0|].
  rewrite (proj2 (Z.eqb_neq c y)) by (intros ->; apply Hx; by exists [], x). cbn [andb].
  rewrite IH; [done|]. intros (a & b & ->). apply Hx. by exists (y :: a), b.
Qed.

Lemma find_absent c x : ~ contains [c] x -> find [c] x = None.
Proof. intros Hx. destruct (find [c] x) as [[a b]|] eqn:E; [|done]. apply find_some in E. destruct Hx. by exists a, b. Qed.

(** Joined with a delimiter. *)
Fixpoint joined (g : list Z) (parts : list (list Z)) : list Z :=
  match parts with
  | [] => []
  | [x] => x
  | x :: parts => x ++ g ++ joined g parts
  end.

Lemma glue_joined g parts : glue g parts = joined g parts.
Proof.
  unfold glue. assert (forall l i n, 0 < i -> n = i + zlen l -> glue_from i n g l = concat (map (app g) l)) as H.
  { induction l as [|x l IH]; intros i n Hi Hn; [done|]. cbn [glue_from map concat]. rewrite zlen_cons in Hn. pose proof (zlen_nonneg l).
    rewrite !(proj2 (Z.eqb_neq _ _)) by lia. cbn [orb]. by rewrite (IH (i + 1)) by lia. }
  destruct parts as [|x parts]; [done|]. cbn [glue_from Z.eqb orb]. rewrite (H parts (0 + 1)) by (rewrite ?zlen_cons; lia).
  revert x. induction parts as [|y parts IH]; intros x; [by rewrite app_nil_r|]. cbn [map concat joined].
  rewrite <- app_assoc. do 2 f_equal. apply IH.
Qed.

Definition splittable (c : Z) (parts : list (list Z)) : Prop :=
  parts <> [] /\ Forall (fun x => ~ contains [c] x) parts /\ forall x, list.last parts = Some x -> x <> [].

Lemma splittable_tail c x y parts : splittable c (x :: y :: parts) -> ~ contains [c] x /\ splittable c (y :: parts).
Proof. intros (_ & HF & Hl). apply Forall_cons_1 in HF as [Hx HF]. split; [done|]. split; [done|]. split; [done|]. exact Hl. Qed.

Lemma joined_length c parts : splittable c parts -> (length parts <= length (joined [c] parts))%nat.
Proof.
  induction parts as [|x [|y parts] IH]; intros H; [by destruct H|destruct H as (_ & _ & H); specialize (H x eq_refl); by destruct x; [|cbn; lia]|].
  apply splittable_tail in H as [_ H]. apply IH in H. cbn [joined] in *. rewrite !length_app. cbn [length] in *. lia.
Qed.

Lemma split_joined c parts : forall fuel, splittable c parts -> (length parts <= fuel)%nat ->
  split_loop fuel (joined [c] parts) [c] = Ret parts /\ getline_loop fuel (joined [c] parts) c = Ret parts.
Proof.
  induction parts as [|x [|y parts] IH]; intros [|fuel] H Hf; cbn [length] in Hf; try lia; [by destruct H..| |].
  - destruct H as (_ & HF & Hl). apply Forall_cons_1 in HF as [Hx _]. specialize (Hl x eq_refl). cbn [joined split_loop getline_loop].
    rewrite find_absent by done. destruct x as [|b x]; [done|]. rewrite (proj2 (Z.ltb_lt _ _)) by zlia. done.
  - apply splittable_tail in H as [Hx H]. destruct (IH fuel H) as [E1 E2]; [cbn [length]; lia|].
    change (joined [c] (x :: y :: parts)) with (x ++ c :: joined [c] (y :: parts)). cbn [split_loop getline_loop].
    rewrite find_char, E1, E2 by done. split; [done|]. by destruct x.
Qed.

Lemma split_pair_dot first second : ~ contains [46] first -> ~ contains [46] second -> first <> [] ->
  split_pair (first ++ 46 :: second) 46 = Ret (first, second) /\ split_pair first 46 = Ret (first, []).
Proof.
  intros H1 H2 Hn. unfold split_pair, split_char. split.
  - destruct first as [|x first]; [done|]. cbn [app length getline_loop]. change (x :: first ++ 46 :: second) with ((x :: first) ++ 46 :: second).
    rewrite find_char by done. destruct second as [|y second]; [by destruct (length (first ++ [46]))|].
    destruct (length (first ++ 46 :: y :: second)) as [|n] eqn:E; [rewrite length_app in E; cbn in E; lia|]. cbn [getline_loop].
    by rewrite find_absent.
  - destruct first as [|x first]; [done|]. cbn [length getline_loop]. by rewrite find_absent.
Qed.

(** ** Formatting *)

Import decimal_formatter.

(** Groups of [d] digits, the first one possibly shorter. *)
Definition grouped (d : Z) (gs : list (list Z)) (l : list Z) : Prop :=
  concat gs = l /\ match gs with [] => True | g :: gs => 1 <= zlen g <= d /\ Forall (fun g => zlen g = d) gs end.

Fixpoint interleave (delim : list Z) (gs : list (list Z)) : list (list Z) :=
  match gs with
  | [] => []
  | [g] => [g]
  | g :: gs => g :: delim :: interleave delim gs
  end.

Lemma interleave_snoc delim gs g : gs <> [] -> interleave delim (gs ++ [g]) = interleave delim gs ++ [delim; g].
Proof.
  induction gs as [|x gs IH]; [done|]. intros _. destruct gs as [|y gs]; [done|].
  change ((x :: y :: gs) ++ [g]) with (x :: (y :: gs) ++ [g]). cbn [app interleave]. f_equal. f_equal. by apply IH.
Qed.

Lemma concat_interleave delim gs : concat (interleave delim gs) = joined delim gs.
Proof. induction gs as [|g [|g' gs] IH]; [done|by cbn; rewrite app_nil_r|]. cbn [interleave concat joined] in *. by rewrite IH. Qed.

Lemma group_loop_spec num d delim fuel : forall i parts, 0 < d -> 0 < i <= zlen num -> i <= Z.of_nat fuel ->
  exists gs, gs <> [] /\ group_loop fuel i num d delim parts = Ret (interleave delim gs ++ parts) /\ grouped d gs (ztake i num).
Proof.
  induction fuel as [|fuel IH]; intros i parts Hd Hi Hf; [lia|]. cbn [group_loop]. rewrite (proj2 (Z.ltb_lt 0 i)) by lia. cbn [negb].
  destruct (Z.leb_spec i d).
  - cbn [Z.eqb negb]. unfold substr. rewrite (proj2 (Z.ltb_ge _ _)) by lia. mstep. rewrite Z.min_l, zdrop_0 by lia.
    exists [ztake i num]. split; [done|]. split; [by destruct fuel|]. unfold grouped. cbn [concat]. rewrite app_nil_r.
    split; [done|]. split; [zlia|constructor].
  - rewrite (proj2 (Z.eqb_neq _ 0)) by lia. cbn [negb]. unfold substr. rewrite (proj2 (Z.ltb_ge _ _)) by lia. mstep. rewrite Z.min_l by lia.
    set (part := ztake d (zdrop (i - d) num)). destruct (IH (i - d) (delim :: part :: parts)) as (gs & Hn & E & Hc & Hg); [lia..|].
    exists (gs ++ [part]). split; [by destruct gs|]. rewrite E. split; [by rewrite interleave_snoc, <- app_assoc by done|].
    split.
    + rewrite concat_app. cbn [concat]. rewrite app_nil_r, Hc. unfold part. replace i with ((i - d) + d) at 3 by lia.
      rewrite <- (ztake_zdrop (i - d) (ztake (i - d + d) num)). rewrite ztake_ztake. rewrite <- ztake_zdrop_comm by lia. f_equal. f_equal. lia.
    + destruct gs as [|g gs]; [done|]. destruct Hg as [H1 H2]. cbn [app]. split; [done|]. apply Forall_app. split; [done|].
      constructor; [unfold part; zlia|constructor].
Qed.

(** The fraction that is written. *)
Definition fraction_text (f : t) (second : list Z) : list Z :=
  let n := count_real_precision second in
  if 0 <? m_min_precision f then
    [46] ++ (if n <? m_min_precision f then ztake n second ++ replicate (Z.to_nat (m_min_precision f - n)) 48
             else if m_max_precision f <? n then ztake (m_max_precision f) second else second)
  else [].

Lemma real_precision_bounds l : 0 <= count_real_precision l <= zlen l.
Proof.
  unfold count_real_precision. assert (forall l n, (length l <= n)%nat ->
    0 <= (fix go (n : nat) (l : list Z) : Z := match l with 48 :: l => go (pred n) l | _ => Z.of_nat n end) n l <= Z.of_nat n) as H.
  { clear. induction l as [|x l IH]; intros n Hn; [lia|]. cbn [length] in Hn. specialize (IH (pred n) ltac:(lia)).
    destruct (Z.eq_dec x 48) as [->|]; [lia|]. repeat (case_match; try lia). }
  unfold zlen. rewrite <- length_rev. apply H. lia.
Qed.

Lemma fraction_parts_spec f second : 0 <= m_max_precision f -> exists parts, fraction_parts f second = Ret parts /\ concat parts = fraction_text f second.
Proof.
  intros Hm. pose proof (real_precision_bounds second) as Hb. unfold fraction_parts, fraction_text. destruct (0 <? m_min_precision f); [|by eexists].
  destruct (_ <? m_min_precision f).
  - unfold substr. rewrite (proj2 (Z.ltb_ge _ _)) by (pose proof (zlen_nonneg second); lia). mstep. eexists. split; [done|].
    cbn [concat]. rewrite zdrop_0, Z.min_l by lia. do 2 f_equal. rewrite app_nil_r. unfold repeat_char.
    generalize (Z.to_nat (m_min_precision f - count_real_precision second)) as n. induction n as [|n IH]; [done|]. cbn [replicate concat app]. by rewrite IH.
  - destruct (Z.ltb_spec (m_max_precision f) (count_real_precision second)).
    + unfold substr. rewrite (proj2 (Z.ltb_ge _ _)) by (pose proof (zlen_nonneg second); lia). mstep. eexists. split; [done|].
      cbn [concat]. rewrite zdrop_0, Z.min_l, app_nil_r by lia. done.
    + mstep. eexists. split; [done|]. cbn [concat]. by rewrite app_nil_r.
Qed.

Lemma group_loop_zero num delim fuel : forall i parts, 0 < i <= zlen num -> group_loop fuel i num 0 delim parts = NoFuel.
Proof.
  induction fuel as [|fuel IH]; intros i parts Hi; cbn [group_loop]; rewrite (proj2 (Z.ltb_lt 0 i)) by lia; cbn [negb]; [done|].
  rewrite (proj2 (Z.leb_gt i 0)) by lia. rewrite Z.sub_0_r, (proj2 (Z.eqb_neq i 0)) by lia. unfold substr.
  rewrite (proj2 (Z.ltb_ge _ _)) by lia. mstep. cbn [negb]. by apply IH.
Qed.

(** The two parts of a number. *)
Definition number_parts (num first second : list Z) : Prop :=
  first <> [] /\ ~ contains [46] first /\ ~ contains [46] second /\ (num = first ++ 46 :: second \/ num = first /\ second = []).

Lemma split_number num first second : number_parts num first second -> split_pair num 46 = Ret (first, second) /\ (zlen num =? 0) = false.
Proof.
  intros (Hn & H1 & H2 & H). destruct (split_pair_dot first second H1 H2 Hn) as [E1 E2]. assert (0 < zlen first) by (destruct first; [done|]; zlia).
  destruct H as [->|[-> ->]]; (split; [done|]); apply Z.eqb_neq; [|lia]. rewrite zlen_app. pose proof (zlen_nonneg (46 :: second)). lia.
Qed.

Lemma replace_each_chars fuel cs : forall s, zlen s < 2 ^ 63 -> (length s <= fuel)%nat ->
  replace_each fuel (map (fun c => [c]) cs) (replicate (length cs) []) s = Ret (base.filter (fun x => x ∉ cs) s).
Proof.
  induction cs as [|c cs IH]; intros s Hs Hf; cbn [map replace_each length replicate].
  - f_equal. clear. induction s as [|x s IH]; [done|]. rewrite filter_cons_True by apply not_elem_of_nil. by rewrite <- IH.
  - rewrite replace_all_char by done. mstep. pose proof (without_char_len c s). rewrite IH by (unfold zlen in *; lia). f_equal.
    unfold without_char. rewrite list_filter_filter. apply list_filter_iff. intros x. rewrite not_elem_of_cons. tauto.
Qed.

End Facts.

(** ** Theorems *)

Section Theorems.
Import toolbox_strings decimal_formatter.

(** What [glue] joins with a character [split] takes apart again, through both of
    its forms, for parts without the character the last of which is not empty. *)
Theorem split_inverts_glue c parts : splittable c parts ->
  split (glue [c] parts) [c] = Ret parts /\ split_char (glue [c] parts) c = Ret parts.
Proof.
  intros H. rewrite glue_joined. pose proof (joined_length c parts H). unfold split, split_char. cbn [zlen length Z.of_nat Z.eqb].
  split; [apply (split_joined c parts (S (length (joined [c] parts))) H)|apply (split_joined c parts _ H)]; lia.
Qed.

(** Replacing all occurrences ends with a text free of the one searched when the
    replacement is shorter; a replacement that contains the searched text is found again
    in every round, so that the loop never ends on a text that has it. *)
Theorem replace_all_ends search replace s : search <> [] -> zlen s < 2 ^ 63 ->
  (zlen replace < zlen search -> forall fuel, (length s <= fuel)%nat ->
    exists s', substr_replace_all_ret fuel search replace s = Ret s' /\ ~ contains search s') /\
  (contains search replace -> contains search s ->
    forall fuel, zlen s + (Z.of_nat fuel + 1) * zlen replace < 2 ^ 63 -> substr_replace_all_ret fuel search replace s = NoFuel).
Proof.
  intros Hn Hs. unfold substr_replace_all_ret. split.
  - intros Hr fuel Hf. destruct (find search s) as [[a b]|] eqn:E.
    + rewrite (replace_found _ _ _ a b) by done. mstep. apply find_some in E as ->. rewrite !zlen_app in Hs.
      apply replace_loop_ends; [done|done|rewrite !zlen_app; lia|]. unfold zlen in *. rewrite !length_app in *. lia.
    + rewrite replace_absent by done. mstep. by apply replace_loop_ends.
  - intros Hr Hc fuel Hl. destruct (find_contains _ _ Hc) as (a & b & E). rewrite (replace_found _ _ _ a b) by done. mstep.
    apply find_some in E. apply replace_loop_diverges; [done|done| |].
    + destruct Hr as (x & y & ->). exists (a ++ x), (y ++ b). by rewrite <- !app_assoc.
    + rewrite E in Hl. rewrite !zlen_app in *. pose proof (zlen_nonneg search). lia.
Qed.

(** [trim] removes the tabs, line feeds, carriage returns and vertical tabs of a
    text, wherever they are, and keeps everything else, spaces included. *)
Theorem trim_exact fuel s : zlen s < 2 ^ 63 -> (length s <= fuel)%nat ->
  trim fuel s = Ret (base.filter (fun x => x ∉ [9; 10; 13; 11]) s).
Proof. intros Hs Hf. unfold trim, substr_replace_all_ret_list. cbn [zlen length Z.of_nat Z.eqb negb]. by apply (replace_each_chars fuel [9; 10; 13; 11]). Qed.

(** A formatted number is its integral part in groups of the chosen size, counted
    from the right and joined with the delimiter, and then its fraction cut or filled to
    the chosen precision; the groups together are the integral part. *)
Theorem format_grouped fuel f first second :
  number_parts (m_num f) first second -> 0 < m_decimals f -> 0 <= m_max_precision f -> (length first <= fuel)%nat ->
  exists gs, format fuel f = Ret (joined (m_delimiter f) gs ++ fraction_text f second) /\ grouped (m_decimals f) gs first.
Proof.
  intros Hp Hd Hm Hf. destruct (split_number _ _ _ Hp) as [E1 E2]. unfold format. rewrite E2, E1. mstep.
  destruct (fraction_parts_spec f second Hm) as (parts & E3 & E4). rewrite E3. mstep. destruct Hp as (Hn & _).
  destruct (group_loop_spec first (m_decimals f) (m_delimiter f) fuel (zlen first) parts) as (gs & _ & E5 & Hg);
    [done|destruct first; [done|]; zlia|unfold zlen; lia|].
  rewrite E5. mstep. exists gs. rewrite concat_app, concat_interleave, E4. split; [done|]. by rewrite ztake_all in Hg by lia.
Qed.

(** A group size of zero is never reached from the left end of the number. *)
Theorem zero_group_never_ends fuel f first second :
  number_parts (m_num f) first second -> m_decimals f = 0 -> 0 <= m_max_precision f -> format fuel f = NoFuel.
Proof.
  intros Hp Hd Hm. destruct (split_number _ _ _ Hp) as [E1 E2]. unfold format. rewrite E2, E1. mstep.
  destruct (fraction_parts_spec f second Hm) as (parts & E3 & _). rewrite E3, Hd. mstep. destruct Hp as (Hn & _).
  rewrite group_loop_zero; [done|]. destruct first; [done|]; zlia.
Qed.

(** 1234567.5 in groups of three, with four digits of fraction. *)
Lemma format_example : format 7 (new [49; 50; 51; 52; 53; 54; 55; 46; 53]) = Ret [49; 32; 50; 51; 52; 32; 53; 54; 55; 46; 53; 48; 48; 48].
Proof. reflexivity. Qed.

(** Other characters than those of ASCII. *)
Theorem lower_case_undefined a c b : Forall (fun x => 0 <= x < 128) a -> 128 <= c < 255 -> to_lower_case (a ++ c :: b) = UB.
Proof.
  intros Ha Hc. unfold to_lower_case. induction Ha as [|x a Hx Ha IH]; cbn [app map_case]; unfold char_case.
  - rewrite (proj2 (Z.leb_le _ _)), (proj2 (Z.ltb_lt _ _)) by lia. done.
  - rewrite (proj2 (Z.leb_gt _ _)) by lia. cbn [andb]. mstep. by rewrite IH.
Qed.

End Theorems.

Section Witnesses.
Import toolbox_strings decimal_formatter.

Lemma not_contains_char c s : c ∉ s -> ~ contains [c] s.
Proof. intros H (a & b & ->). apply H. set_solver. Qed.

Definition sample_parts : list (list Z) := [[109]; [48; 39]; [49]].

Lemma split_inverts_glue_witness : split (glue [47] sample_parts) [47] = Ret sample_parts /\ split_char (glue [47] sample_parts) 47 = Ret sample_parts.
Proof.
  apply split_inverts_glue. split; [done|]. split; [|by intros x [= <-]].
  unfold sample_parts. repeat apply Forall_cons_2; [apply not_contains_char; set_solver..|apply Forall_nil_2].
Defined.

Lemma replace_all_ends_witness : exists s', substr_replace_all_ret 3 [97; 97] [97] [97; 97; 97] = Ret s' /\ ~ contains [97; 97] s'.
Proof. apply (proj1 (replace_all_ends [97; 97] [97] [97; 97; 97] ltac:(done) ltac:(done))); [done|cbn; lia]. Defined.

Lemma trim_exact_witness : trim 4 [32; 9; 97; 10] = Ret [32; 97].
Proof. apply (trim_exact 4 [32; 9; 97; 10]); [done|cbn; lia]. Defined.

Lemma format_grouped_witness : exists gs, format 4 (new [49; 50; 51; 52; 46; 53]) = Ret (joined [32] gs ++ [46; 53; 48; 48; 48]) /\ grouped 3 gs [49; 50; 51; 52].
Proof.
  apply (format_grouped 4 (new [49; 50; 51; 52; 46; 53]) [49; 50; 51; 52] [53]); [|done|done|cbn; lia].
  split; [done|]. repeat (split; [apply not_contains_char; set_solver|]). by left.
Defined.

End Witnesses.
