(* ===== verification/HDKey.v ===== *)
(** * HDKey: hierarchical keys of the wallet

    Models src/src/ptp_wallet/HDKey.cpp with the parts of uint256_t.h, wallet.h,
    utils.cpp that it uses, on the texts of [Strings]: master keys, child
    keys, paths, extended keys and addresses.

    Multiplying points draws random words; [rnd] holds those to come, and every
    function returns those left.  The loops that repeat until a key is valid are
    bounded by [fuel]; that a key is found depends on the hash.

    The specification is BIP32: [ckd] is its derivation of private child keys, with
    the repetition that the code adds for invalid keys, and the code is equal to it
    for every number of repetitions. *)

From Stdlib Require Import Zmod.ZmodBase Zmod.ZmodDef.
From S2P Require Import Prelude Words Hash Sha2 Hmac Bip39 Helpers Base58 Bignum BignumMod Ecdsa Secp256k1 CurveGroup EcPoints EcTable EcSign Keccak CryptoHelpers BytesData Strings.

(** ** Paths and word lists *)

Module wallet_utils.

(** [std::stoul] to base 10: [strtoul] must read a digit and not overflow; a minus
    sign negates modulo 2^64. *)
Definition stoul_digits (neg : bool) (s : list Z) : outcome Z :=
  match s with
  | c :: _ =>
      if isdigit c then
        let v := Helpers.digits_value 0 s in
        if 2 ^ 64 <=? v then Throw (out_of_range "stoul") else Ret (if neg then u64 (- v) else v)
      else Throw (invalid_argument "stoul")
  | [] => Throw (invalid_argument "stoul")
  end.

Definition stoul (s : list Z) : outcome Z :=
  match Helpers.skip_spaces (c_str s) with
  | c :: rest =>
      if c =? 45 then stoul_digits true rest else if c =? 43 then stoul_digits false rest else stoul_digits false (c :: rest)
  | [] => Throw (invalid_argument "stoul")
  end.

Definition str_to_uint32_t (str : list Z) : outcome Z :=
  result ← stoul str;
  if 2 ^ 32 - 1 <? result then Throw (out_of_range "str_to_uint32_t") else Ret (u32 result).

End wallet_utils.

(** ** Big numbers from bytes: uint256_t.h *)

Module uint256.
Import bignum.

Definition of_data (d : list Z) : outcome (list Z) :=
  if zlen d <? 32 then bn_read_be (replicate (Z.to_nat (32 - zlen d)) 0 ++ d) else bn_read_be d.

(** [num_to_bytes(v, 32)] of a number that is not negative. *)
Definition of_num (v : Z) : outcome (list Z) := bn_read_be (be_bytes 32 v).

Definition eq_num (a : list Z) (v : Z) : outcome bool := n ← of_num v; Ret (bn_is_equal a n).

Definition less (a b : list Z) : bool := bn_is_less a b.

End uint256.

(** The class over the functions of hmac.cpp: ptp_crypto/hmac_sha512.cpp. *)
Module CHMAC_SHA512.

Definition new := hmac_sha512_Init.
Definition Write := hmac_sha512_Update.
Definition Finalize := hmac_sha512_Final.

End CHMAC_SHA512.

(** ** Keys *)

Record curve_info := mkInfo {
  bip32_name : list Z;
  params : option ecdsa.ecdsa_curve;
  hasher_bip32 : hasher.HasherType;
  hasher_base58 : hasher.HasherType;
  hasher_sign : hasher.HasherType;
  hasher_pubkey : hasher.HasherType;
}.

Definition secp256k1_info : curve_info :=
  mkInfo (bytes_of "Bitcoin seed") (Some secp256k1.secp256k1) hasher.HASHER_SHA2 hasher.HASHER_SHA2D hasher.HASHER_SHA2D hasher.HASHER_SHA2.

Record BTCNetwork := mkNet {
  net_name : list Z;
  bech32 : list Z;
  bip32 : Z * Z;
  pubKeyHash : Z;
  scriptHash : Z;
  wif : Z;
}.

Definition MainNet : BTCNetwork := mkNet (bytes_of "bitcoin") (bytes_of "bc") (0x0488b21e, 0x0488ade4) 0x00 0x05 0x80.
Definition TestNet : BTCNetwork := mkNet (bytes_of "testnet") (bytes_of "tb") (0x043587cf, 0x04358394) 0x6f 0xc4 0xef.

(** [curve] is a pointer. *)
Record HDKey := mkKey {
  publicKey : list Z;
  publicKey65 : list Z;
  publicKey64 : list Z;
  privateKey : list Z;
  chainCode : list Z;
  extPrivateKey : list Z;
  extPublicKey : list Z;
  net : BTCNetwork;
  depth : Z;
  index : Z;
  fingerprint : Z;
  curve : option curve_info;
}.

(** [HDKey::HDKey()], the copy (and move) constructor, [operator=] and [clear]. *)
Definition new_key : HDKey :=
  mkKey (bytes_array.zeros 33) (bytes_array.zeros 65) (bytes_array.zeros 64) (bytes_array.zeros 32) (bytes_array.zeros 32)
    (bytes_array.zeros 112) (bytes_array.zeros 112) MainNet 0 0 0 (Some secp256k1_info).

Definition copy_key (other : HDKey) : HDKey :=
  mkKey (publicKey other) (bytes_array.zeros 65) (bytes_array.zeros 64) (privateKey other) (chainCode other)
    (extPrivateKey other) (extPublicKey other) (net other) (depth other) (index other) (fingerprint other) (Some secp256k1_info).

Definition assign_key (this other : HDKey) : HDKey :=
  mkKey (publicKey other) (publicKey65 this) (publicKey64 this) (privateKey other) (chainCode other)
    (extPrivateKey other) (extPublicKey other) (net other) (depth other) (index other) (fingerprint other) (Some secp256k1_info).

Definition clear_key (k : HDKey) : HDKey :=
  mkKey (bytes_data.clear (publicKey k)) (publicKey65 k) (publicKey64 k) (bytes_data.clear (privateKey k)) (bytes_data.clear (chainCode k))
    (bytes_data.clear (extPrivateKey k)) (bytes_data.clear (extPublicKey k)) (net k) (depth k) (index k) (fingerprint k) (curve k).

Definition set_publicKey (k : HDKey) (v : list Z) : HDKey :=
  mkKey v (publicKey65 k) (publicKey64 k) (privateKey k) (chainCode k) (extPrivateKey k) (extPublicKey k) (net k) (depth k) (index k) (fingerprint k) (curve k).
Definition set_publicKey65 (k : HDKey) (v : list Z) : HDKey :=
  mkKey (publicKey k) v (publicKey64 k) (privateKey k) (chainCode k) (extPrivateKey k) (extPublicKey k) (net k) (depth k) (index k) (fingerprint k) (curve k).
Definition set_publicKey64 (k : HDKey) (v : list Z) : HDKey :=
  mkKey (publicKey k) (publicKey65 k) v (privateKey k) (chainCode k) (extPrivateKey k) (extPublicKey k) (net k) (depth k) (index k) (fingerprint k) (curve k).
Definition set_secrets (k : HDKey) (priv chain : list Z) : HDKey :=
  mkKey (publicKey k) (publicKey65 k) (publicKey64 k) priv chain (extPrivateKey k) (extPublicKey k) (net k) (depth k) (index k) (fingerprint k) (curve k).
Definition set_extPrivateKey (k : HDKey) (v : list Z) : HDKey :=
  mkKey (publicKey k) (publicKey65 k) (publicKey64 k) (privateKey k) (chainCode k) v (extPublicKey k) (net k) (depth k) (index k) (fingerprint k) (curve k).
Definition set_extPublicKey (k : HDKey) (v : list Z) : HDKey :=
  mkKey (publicKey k) (publicKey65 k) (publicKey64 k) (privateKey k) (chainCode k) (extPrivateKey k) v (net k) (depth k) (index k) (fingerprint k) (curve k).
Definition set_net (k : HDKey) (v : BTCNetwork) : HDKey :=
  mkKey (publicKey k) (publicKey65 k) (publicKey64 k) (privateKey k) (chainCode k) (extPrivateKey k) (extPublicKey k) v (depth k) (index k) (fingerprint k) (curve k).
Definition set_place (k : HDKey) (d i : Z) : HDKey :=
  mkKey (publicKey k) (publicKey65 k) (publicKey64 k) (privateKey k) (chainCode k) (extPrivateKey k) (extPublicKey k) (net k) d i (fingerprint k) (curve k).
Definition set_fingerprint (k : HDKey) (f : Z) : HDKey :=
  mkKey (publicKey k) (publicKey65 k) (publicKey64 k) (privateKey k) (chainCode k) (extPrivateKey k) (extPublicKey k) (net k) (depth k) (index k) f (curve k).

Module HDKeyEncoder.
Import bignum ecdsa.
Section HDKeyEncoder.
Variables (fuel : nat) (garbage : ctx).

Definition curve_of (k : HDKey) : outcome curve_info := match curve k with Some c => Ret c | None => UB end.

(** The arrays are never empty, so that [resize] is not called. *)
Definition fillPublicKey (rnd : list Z) (key : HDKey) : outcome (HDKey * list Z) :=
  c ← curve_of key;
  match params c with
  | None => Ret (key, rnd)
  | Some p => '(pk, rnd) ← ecdsa_get_public_key33 rnd p (privateKey key) (publicKey key); Ret (set_publicKey key pk, rnd)
  end.

Definition fillPublicKey65 (rnd : list Z) (key : HDKey) : outcome (HDKey * list Z) :=
  c ← curve_of key;
  match params c with
  | None => Ret (key, rnd)
  | Some p => '(pk, rnd) ← ecdsa_get_public_key65 rnd p (privateKey key) (publicKey65 key); Ret (set_publicKey65 key pk, rnd)
  end.

Definition fillPublicKey64 (rnd : list Z) (key : HDKey) : outcome (HDKey * list Z) :=
  c ← curve_of key;
  match params c with
  | None => Ret (key, rnd)
  | Some p => '(pk, rnd) ← ecdsa_get_public_key64 rnd p (privateKey key) (publicKey64 key); Ret (set_publicKey64 key pk, rnd)
  end.

Definition fetchFingerprint (rnd : list Z) (key : HDKey) : outcome (Z * HDKey * list Z) :=
  '(key, rnd) ← fillPublicKey rnd key;
  c ← sha256_Update sha256_Init (publicKey key) 33;
  '(_, d) ← sha256_Final c;
  digest ← mem_write (bytes_array.zeros 32) 0 d;
  fp ← bytes_data.to_num_at 4 digest 0;
  Ret (fp, key, rnd).

(** One round of the loop of [derive]: the number for the child, unless it failed. *)
Definition try_child (order a mac : list Z) : outcome (option (list Z)) :=
  b ← bn_read_be mac;
  if negb (bn_is_less b order) then Ret None else
  b ← bn_mod (bn_add b a) order;
  z ← uint256.eq_num b 0;
  Ret (if z : bool then None else Some b).

(** The new private key and [mac], which is the array [I] of the code. *)
Fixpoint child_loop (fuel : nat) (order chain a buff mac priv : list Z) : outcome (list Z * list Z) :=
  match fuel with
  | O => NoFuel
  | S fuel =>
      r ← try_child order a mac;
      match r with
      | Some b => priv ← bn_write_be b priv; Ret (priv, mac)
      | None =>
          '(buff, _) ← basic_data.write_val buff 0 1;
          last ← basic_data.take_last mac 32;
          '(buff, _) ← basic_data.write buff 1 last;
          mac ← hmac_sha512 chain 32 buff (zlen buff);
          child_loop fuel order chain a buff mac priv
      end
  end.

(** [derive] once the first bytes of [buff] are written. *)
Definition derive_from (rnd : list Z) (key : HDKey) (c : curve_info) (idx : Z) (buff : list Z) : outcome (HDKey * list Z) :=
  '(buff, _) ← bytes_data.write_u32 buff 33 idx;
  a ← uint256.of_data (privateKey key);
  mac ← hmac_sha512 (chainCode key) 32 buff (zlen buff);
  '(priv, mac) ← match params c with
                | Some p => child_loop fuel (order p) (chainCode key) a buff mac (privateKey key)
                | None => first ← basic_data.take_first mac 32; priv ← bytes_array.assign_vec 32 (privateKey key) first; Ret (priv, mac)
                end;
  last ← basic_data.take_last mac 32;
  chain ← bytes_array.assign_vec 32 (chainCode key) last;
  let key := set_place (set_secrets key priv chain) (u8 (depth key + 1)) idx in
  Ret (set_publicKey key (bytes_data.clear (publicKey key)), rnd).

Definition derive (rnd : list Z) (key : HDKey) (idx : Z) : outcome (HDKey * list Z) :=
  let buff := replicate 37 0 in
  '(fp, key, rnd) ← fetchFingerprint rnd key;
  let key := set_fingerprint key fp in
  c ← curve_of key;
  if negb (Z.land idx 0x80000000 =? 0) then
    '(buff, _) ← basic_data.write_val buff 0 0;
    '(buff, _) ← basic_data.write_ptr buff 1 (privateKey key) 32;
    derive_from rnd key c idx buff
  else
    match params c with
    | None => Ret (key, rnd)
    | Some _ =>
        '(key, rnd) ← fillPublicKey rnd key;
        '(buff, _) ← basic_data.write_ptr buff 0 (publicKey key) 33;
        derive_from rnd key c idx buff
    end.

(** A part of a path; [false] ends the loop. *)
Definition derive_bit (priv : bool) (rnd : list Z) (key : HDKey) (bit : list Z) : outcome (bool * HDKey * list Z) :=
  if bool_decide (bit = bytes_of "m") || bool_decide (bit = [39]) then Ret (true, key, rnd) else
  let hardened := (1 <? zlen bit) && (nth (length bit - 1) bit 0 =? 39) in
  idx ← wallet_utils.str_to_uint32_t (if hardened then ztake (zlen bit - 1) bit else bit);
  if hardened && negb priv then Ret (false, key, rnd)
  else if hardened then
    '(key, rnd) ← derive rnd key (u32 (idx + 0x80000000)); Ret (true, key, rnd)
  else if priv then
    '(key, rnd) ← derive rnd key idx; Ret (true, key, rnd)
  else Ret (true, key, rnd).

Fixpoint derive_bits (priv : bool) (rnd : list Z) (key : HDKey) (bits : list (list Z)) : outcome (HDKey * list Z) :=
  match bits with
  | [] => Ret (key, rnd)
  | bit :: bits =>
      '(go, key, rnd) ← derive_bit priv rnd key bit;
      if go : bool then derive_bits priv rnd key bits else Ret (key, rnd)
  end.

Definition derivePath (rnd : list Z) (key : HDKey) (path : list Z) (priv : bool) : outcome (HDKey * list Z) :=
  pathBits ← toolbox_strings.split path (bytes_of "/");
  derive_bits priv rnd key pathBits.

Definition serialize (key : HDKey) (fp version : Z) (public : bool) : outcome HDKey :=
  let data := replicate 78 0 in
  '(data, _) ← bytes_data.write_u32 data 0 version;
  '(data, _) ← basic_data.write_val data 4 (depth key);
  '(data, _) ← bytes_data.write_u32 data 5 fp;
  '(data, _) ← bytes_data.write_u32 data 9 (index key);
  '(data, _) ← basic_data.write data 13 (chainCode key);
  data ← (if public then
             '(data, _) ← basic_data.write_ptr data 45 (publicKey key) 33; Ret data
           else
             '(data, _) ← basic_data.write_val data 45 0;
             '(data, _) ← basic_data.write_ptr data 46 (privateKey key) 32; Ret data);
  c ← curve_of key;
  let out := bytes_data.clear (if public then extPublicKey key else extPrivateKey key) in
  '(_, out) ← base58.base58_encode_check garbage data (zlen data) (hasher_base58 c) out 112;
  Ret (if public then set_extPublicKey key out else set_extPrivateKey key out).

(** [to_hmac_sha512(name)] applied to a vector. *)
Definition to_hmac_sha512 (key source : list Z) : outcome (list Z) :=
  let out := replicate 64 0 in
  hm ← CHMAC_SHA512.new key (zlen key);
  hm ← CHMAC_SHA512.Write hm source (zlen source);
  d ← CHMAC_SHA512.Finalize hm;
  mem_write out 0 d.

Fixpoint seed_loop (fuel : nat) (order name mac : list Z) : outcome (list Z) :=
  match fuel with
  | O => NoFuel
  | S fuel =>
      a ← uint256.of_data mac;
      z ← uint256.eq_num a 0;
      if negb z && uint256.less a order then Ret mac else
      mac ← to_hmac_sha512 name mac;
      seed_loop fuel order name mac
  end.

Definition fromSeed (seed : list Z) : outcome HDKey :=
  let out := set_place new_key 0 0 in
  match curve out with
  | None => Ret out
  | Some c =>
      r ← to_hmac_sha512 (bip32_name c) seed;
      mac ← bytes_array.of_data 64 r;
      mac ← match params c with Some p => seed_loop fuel (order p) (bip32_name c) mac | None => Ret mac end;
      first ← basic_data.take_first mac 32;
      priv ← bytes_array.assign_vec 32 (privateKey out) first;
      last ← basic_data.take_last mac 32;
      chain ← bytes_array.assign_vec 32 (chainCode out) last;
      let out := set_secrets out priv chain in
      Ret (set_publicKey out (bytes_data.clear (publicKey out)))
  end.

(** [junk] and [alloc] are those of the seed in [Bip39]. *)
Definition makeBip39Seed (junk : list Z) (alloc : bool) (mnemonicWords : list Z) : outcome (list Z) :=
  '(out, _) ← MnemonicHelper.wordsToSeed junk alloc (c_str mnemonicWords) (bytes_array.zeros 64);
  Ret out.

Definition makeBip39Seed_words (junk : list Z) (alloc : bool) (mnemonicWords : list (list Z)) : outcome (list Z) :=
  makeBip39Seed junk alloc (toolbox_strings.glue [32] mnemonicWords).

Definition makeBip32RootKey (rnd seed : list Z) (n : BTCNetwork) : outcome (HDKey * list Z) :=
  k ← fromSeed seed;
  let out := set_net (assign_key new_key k) n in
  out ← serialize out 0 (snd (bip32 (net out))) false;
  '(out, rnd) ← fillPublicKey rnd out;
  out ← serialize out 0 (fst (bip32 (net out))) true;
  Ret (out, rnd).

Definition makeBip32RootKey_mnemonic (junk : list Z) (alloc : bool) (rnd mnemonic : list Z) (n : BTCNetwork) : outcome (HDKey * list Z) :=
  seed ← makeBip39Seed junk alloc mnemonic;
  makeBip32RootKey rnd seed n.

Definition makeExtendedKey (rnd : list Z) (rootKey : HDKey) (path : list Z) : outcome (HDKey * list Z) :=
  '(rootKey, rnd) ← derivePath rnd rootKey path true;
  rootKey ← serialize rootKey (fingerprint rootKey) (snd (bip32 (net rootKey))) false;
  '(rootKey, rnd) ← fillPublicKey rnd rootKey;
  rootKey ← serialize rootKey (fingerprint rootKey) (fst (bip32 (net rootKey))) true;
  fillPublicKey rnd rootKey.

Definition makeEthRootKey (seed : list Z) : outcome HDKey :=
  k ← fromSeed seed;
  Ret (assign_key new_key k).

Definition makeEthRootKey_mnemonic (junk : list Z) (alloc : bool) (mnemonic : list Z) : outcome HDKey :=
  seed ← makeBip39Seed junk alloc mnemonic;
  makeEthRootKey seed.

Definition makeEthExtendedKey (rnd : list Z) (rootKey : HDKey) (path : list Z) : outcome (HDKey * list Z) :=
  '(rootKey, rnd) ← derivePath rnd rootKey path true;
  '(rootKey, rnd) ← fillPublicKey rnd rootKey;
  fillPublicKey64 rnd rootKey.

(** [kjunk] and [unset] are the uninitialised memory of the hash and of the key. *)
Definition getEthAddress (kjunk : list (list Z)) (unset rnd : list Z) (rootKey : HDKey) : outcome (list Z * list Z) :=
  c ← curve_of rootKey;
  match params c with
  | None => UB
  | Some p =>
      '(address, rnd) ← secp256k1_helpers.ecdsa_get_public_address kjunk rnd p (privateKey rootKey) unset;
      hex ← toolbox_data.bytes_to_hex address (zlen address);
      Ret (hex, rnd)
  end.

(** [formatEthMsgData] *)
Definition formatEthMsgData (message : list Z) : list Z :=
  [0x19] ++ bytes_of "Ethereum Signed Message:" ++ [10] ++ secp256k1_helpers.size_text (zlen message) ++ message.

End HDKeyEncoder.
End HDKeyEncoder.

(** ** The specification: BIP32 *)

Section Spec.
Import bignum ecdsa.

Local Abbreviation N := (value (order secp256k1.secp256k1)).
Local Abbreviation F := (Zmod.Zmod (value secp256k1_p)).

(** The point of a private key, which is the key times the base point, and the
    serialisations of the public key by the coordinates. *)
Definition point_of (k : Z) : option (F * F) := zmul (value secp256k1_p) Zmod.zero k base_point.

Definition pub33 (k : Z) : list Z := let '(x, y) := coords (point_of k) in (2 + y mod 2) :: be_bytes 32 x.
Definition pub64 (k : Z) : list Z := let '(x, y) := coords (point_of k) in be_bytes 32 x ++ be_bytes 32 y.

(** The child's number from the 64 bytes of the HMAC, unless it is invalid. *)
Definition child_of (k : Z) (mac : list Z) : option Z :=
  let l := be_word (ztake 32 mac) in
  if N <=? l then None else
  let s := (l + k) mod N in if s =? 0 then None else Some s.

(** The first valid child among [fuel] attempts, with its 64 bytes: after an invalid
    one the HMAC is taken of a one, the right half and the index. *)
Fixpoint first_child (fuel : nat) (k : Z) (c : list Z) (i : Z) (mac : list Z) : option (Z * list Z) :=
  match fuel with
  | O => None
  | S fuel =>
      match child_of k mac with
      | Some k' => Some (k', mac)
      | None => first_child fuel k c i (rfc_hmac mac512 c ([1] ++ zdrop 32 mac ++ be_bytes 4 i))
      end
  end.

Definition hardened (i : Z) : bool := 2 ^ 31 <=? i.

(** CKDpriv: the private key and the chain code of child [i]. *)
Definition ckd (fuel : nat) (k : Z) (c : list Z) (i : Z) : option (Z * list Z) :=
  '(k', mac) ← first_child fuel k c i (rfc_hmac mac512 c ((if hardened i then 0 :: be_bytes 32 k else pub33 k) ++ be_bytes 4 i));
  Some (k', zdrop 32 mac).

Fixpoint first_master (fuel : nat) (mac : list Z) : option (list Z) :=
  match fuel with
  | O => None
  | S fuel =>
      let l := be_word (ztake 32 mac) in
      if negb (l =? 0) && (l <? N) then Some mac else first_master fuel (rfc_hmac mac512 (bytes_of "Bitcoin seed") mac)
  end.

Definition master (fuel : nat) (seed : list Z) : option (Z * list Z) :=
  mac ← first_master fuel (rfc_hmac mac512 (bytes_of "Bitcoin seed") seed);
  Some (be_word (ztake 32 mac), zdrop 32 mac).

Fixpoint ckd_path (fuel : nat) (k : Z) (c : list Z) (path : list Z) : option (Z * list Z) :=
  match path with
  | [] => Some (k, c)
  | i :: path => '(k, c) ← ckd fuel k c i; ckd_path fuel k c path
  end.

(** [n] multiplications find their random words. *)
Fixpoint draws (n : nat) (rnd : list Z) : outcome (list Z) :=
  match n with
  | O => Ret rnd
  | S n => '(_, rnd) ← generate_k_random rnd secp256k1_p; draws n rnd
  end.

(** The key object holds the private key [k] and the chain code [c]. *)
Record holds (key : HDKey) (k : Z) (c : list Z) : Prop := {
  holds_priv : privateKey key = be_bytes 32 k;
  holds_range : 0 < k < N;
  holds_chain : chainCode key = c;
  holds_chain_ok : bytes_ok c /\ zlen c = 32;
  holds_pub : zlen (publicKey key) = 33 /\ zlen (publicKey65 key) = 65 /\ zlen (publicKey64 key) = 64;
  holds_ext : zlen (extPrivateKey key) = 112 /\ zlen (extPublicKey key) = 112;
  holds_place : is_u 8 (depth key) /\ is_u 32 (index key) /\ is_u 32 (fingerprint key);
  holds_curve : curve key = Some secp256k1_info;
}.

End Spec.

(** ** Public keys *)

Section Facts.
Import bignum ecdsa HDKeyEncoder.

Local Abbreviation N := (value (order secp256k1.secp256k1)).

Lemma N_facts : 0 < N < 2 ^ 256.
Proof. rewrite order_value. lia. Qed.

Lemma key_word k : 0 < k < N -> be_word (be_bytes 32 k) = k.
Proof.
  intros Hk. pose proof N_facts. rewrite be_word_bytes. apply wrap_u_small. change (8 * Z.of_nat 32) with 256. unfold is_u. lia.
Qed.

(** The three forms of a public key are those of the specification. *)
Lemma public_key_bytes k rnd rnd' k33 k64 k65 :
  0 < k < N -> draws 1 rnd = Ret rnd' -> zlen k33 = 33 -> zlen k64 = 64 -> zlen k65 = 65 ->
  ecdsa_get_public_key33 rnd secp256k1.secp256k1 (be_bytes 32 k) k33 = Ret (pub33 k, rnd') /\
  ecdsa_get_public_key64 rnd secp256k1.secp256k1 (be_bytes 32 k) k64 = Ret (pub64 k, rnd') /\
  ecdsa_get_public_key65 rnd secp256k1.secp256k1 (be_bytes 32 k) k65 = Ret (4 :: pub64 k, rnd').
Proof.
  intros Hk Hd L33 L64 L65. cbn [draws] in Hd. destruct (generate_k_random rnd secp256k1_p) as [[z r]| | |] eqn:E; [|done..].
  cbn [mbind outcome_bind] in Hd. injection Hd as ->.
  destruct (public_keys rnd z rnd' (be_bytes 32 k) k33 k64 k65) as (l & R & Vl & HR & E33 & E64 & E65);
    [apply be_bytes_ok|apply length_be_bytes|by rewrite key_word|done..|].
  rewrite key_word in Vl by done. rewrite Vl in HR. apply rep_coords in HR.
  unfold pub33, pub64, point_of. rewrite HR. done.
Qed.

Lemma zlen_pub33 k : zlen (pub33 k) = 33.
Proof. unfold pub33. destruct (coords _). rewrite zlen_cons, zlen_be. done. Qed.

Lemma zlen_pub64 k : zlen (pub64 k) = 64.
Proof. unfold pub64. destruct (coords _). rewrite zlen_app, !zlen_be. done. Qed.

Lemma pub33_ok k : bytes_ok (pub33 k).
Proof.
  unfold pub33. destruct (coords _) as [X Y]. constructor; [|apply be_bytes_ok]. pose proof (Z.mod_pos_bound Y 2). unfold is_u. pow2. lia.
Qed.

Lemma fillPublicKey_holds key k c rnd rnd' :
  holds key k c -> draws 1 rnd = Ret rnd' ->
  fillPublicKey rnd key = Ret (set_publicKey key (pub33 k), rnd') /\ holds (set_publicKey key (pub33 k)) k c /\
  fillPublicKey64 rnd key = Ret (set_publicKey64 key (pub64 k), rnd') /\ holds (set_publicKey64 key (pub64 k)) k c.
Proof.
  intros [Hp Hr Hc Hco (Hpub & H65 & H64) He Hpl Hcu] Hd. destruct (public_key_bytes k rnd rnd' (publicKey key) (publicKey64 key) (replicate 65 0)) as (E33 & E64 & _); try done.
  unfold fillPublicKey, fillPublicKey64, curve_of. rewrite Hcu. mstep. cbn [params secp256k1_info]. rewrite Hp, E33, E64. mstep.
  split; [done|]. split; [|split; [done|]]; by constructor; cbn; rewrite ?zlen_pub33, ?zlen_pub64.
Qed.

(** The fingerprint the code computes: the first four bytes of the SHA-256 hash. *)
Definition code_fingerprint (k : Z) : Z := be_word (ztake 4 (hash sha256 (pub33 k))).

Lemma code_fingerprint_range k : is_u 32 (code_fingerprint k).
Proof.
  unfold code_fingerprint. assert (bytes_ok (ztake 4 (hash sha256 (pub33 k)))) as Hb by (apply Forall_take, hash_ok).
  pose proof (be_word_range _ Hb) as R. assert (zlen (hash sha256 (pub33 k)) = 32) as Hh by (unfold zlen; by rewrite sha256_digest_len).
  revert R. rewrite zlen_ztake, Hh. done.
Qed.

Lemma digest_word {A} (m : list Z) (f : Z -> outcome A) : bytes_ok m -> zlen m = 33 ->
  (c ← sha256_Update sha256_Init m 33; '(_, d) ← sha256_Final c; digest ← mem_write (bytes_array.zeros 32) 0 d;
   fp ← bytes_data.to_num_at 4 digest 0; f fp) = f (be_word (ztake 4 (hash sha256 m))).
Proof.
  intros Hm Hl. destruct (Update_all (M := mac256) sha256_Init [] m 33) as (ct & E & Ha);
    [apply (at_block_absorbed (A := sha256)), Init_at_block|done|done|].
  unfold sha256_Update. change (alg mac256) with sha256 in E. rewrite E. mstep. unfold sha256_Final.
  destruct (Final_hash (A := sha256) ct _ Ha) as [ct' ->]. mstep. cbn [app].
  assert (zlen (hash sha256 m) = 32) as Hh by (unfold zlen; by rewrite sha256_digest_len).
  pose proof (mem_write_here (replicate 32 0) [] (hash sha256 m)) as Ew. rewrite !app_nil_r in Ew. unfold bytes_array.zeros. change (Z.to_nat 32) with 32%nat.
  rewrite Ew by done. mstep. rewrite to_num_be; [done|set_solver|done|rewrite Hh; done|rewrite Hh; done|apply hash_ok].
Qed.

Lemma fetchFingerprint_holds key k c rnd rnd' :
  holds key k c -> draws 1 rnd = Ret rnd' ->
  fetchFingerprint rnd key = Ret (code_fingerprint k, set_publicKey key (pub33 k), rnd').
Proof.
  intros Hk Hd. unfold fetchFingerprint. rewrite (proj1 (fillPublicKey_holds key k c rnd rnd' Hk Hd)), bind_Ret. cbn [publicKey set_publicKey].
  apply (digest_word (pub33 k)); [apply pub33_ok|apply zlen_pub33].
Qed.

(** ** Child keys *)

Lemma read_first l post : bytes_ok l -> length l = 32%nat ->
  exists n, bn_read_be (l ++ post) = Ret n /\ normalized n /\ value n = be_word l /\ 0 <= value n < 2 ^ 256.
Proof.
  intros Hl Hn. destruct (read_key l Hl Hn) as (n & E & Nn & Vn & Rn). exists n. split; [|split_and!; try done].
  - rewrite <- E. unfold bn_read_be. f_equal. rewrite !mem_read_ok by (rewrite ?zlen_app; unfold zlen; lia). rewrite !zdrop_0.
    rewrite ztake_app_exact by (unfold zlen; lia). by rewrite ztake_all by (unfold zlen; lia).
  - by apply norm_range.
Qed.

Lemma of_zero : exists n, uint256.of_num 0 = Ret n /\ normalized n /\ value n = 0.
Proof.
  destruct (read_key (be_bytes 32 0)) as (n & E & Nn & Vn & _); [apply be_bytes_ok|apply length_be_bytes|].
  exists n. split; [done|]. split; [done|]. rewrite Vn, be_word_bytes. done.
Qed.

Lemma eq_zero a : normalized a -> uint256.eq_num a 0 = Ret (value a =? 0).
Proof.
  intros Ha. destruct of_zero as (z & E & Nz & Vz). unfold uint256.eq_num. rewrite E. mstep.
  rewrite bn_is_equal_spec by (apply Ha || apply Nz || (destruct Ha, Nz; lia)). rewrite Vz. f_equal.
  destruct (Z.eqb_spec (value a) 0); [by rewrite bool_decide_eq_true_2|by rewrite bool_decide_eq_false_2].
Qed.

Lemma try_child_spec a k mac :
  normalized a -> value a = k -> 0 < k < N -> bytes_ok mac -> zlen mac = 64 ->
  match child_of k mac with
  | Some k' => exists b, try_child (order secp256k1.secp256k1) a mac = Ret (Some b) /\ normalized b /\ value b = k' /\ 0 < k' < N
  | None => try_child (order secp256k1.secp256k1) a mac = Ret None
  end.
Proof.
  intros Na Va Hk Hm Hl. pose proof N_facts as HN. unfold try_child. rewrite <- (ztake_zdrop 32 mac).
  assert (bytes_ok (ztake 32 mac)) as H32 by (by apply Forall_take). assert (zlen (ztake 32 mac) = 32) as L32 by zlia.
  destruct (read_first (ztake 32 mac) (zdrop 32 mac)) as (b & -> & Nb & Vb & Rb); [done|unfold zlen in L32; lia|]. mstep.
  rewrite ztake_zdrop. unfold child_of. cbv zeta. rewrite <- Vb.
  rewrite bn_is_less_spec by (done || apply order_normalized). rewrite Z.leb_antisym.
  destruct (Z.ltb_spec (value b) N) as [Hlt|Hge]; cbn [negb].
  2:{ by rewrite bool_decide_eq_false_2 by lia. }
  rewrite bool_decide_eq_true_2 by done. cbn [negb].
  destruct (bn_add_spec b a Nb Na) as [Ns Vs]. rewrite Z.mod_small in Vs by lia.
  destruct (bn_mod_spec (order secp256k1.secp256k1) order_normalized (bn_add b a)) as (r & -> & Nr & Vr).
  { split; [done|]. lia. }
  mstep. rewrite eq_zero by done. mstep. rewrite Vs, Va in Vr. rewrite Vr. pose proof (Z.mod_pos_bound (value b + k) N ltac:(lia)).
  destruct (Z.eqb_spec ((value b + k) mod N) 0); [done|]. exists r. split_and!; [done|done|done|lia..].
Qed.

Lemma mac_form c m : bytes_ok (rfc_hmac mac512 c m) /\ zlen (rfc_hmac mac512 c m) = 64.
Proof.
  unfold rfc_hmac. split; [apply hash_ok|]. exact (digest_len (M := mac512) _).
Qed.

Lemma hmac_exact c m n : bytes_ok c -> zlen c = n -> bytes_ok m -> hmac_sha512 c n m (zlen m) = Ret (rfc_hmac mac512 c m).
Proof.
  intros Hc <- Hm. pose proof (hmac_rfc (M := mac512) c [] m [] Hc Hm) as E. by rewrite !app_nil_r in E.
Qed.

Lemma take_last_half mac : zlen mac = 64 -> basic_data.take_last mac 32 = Ret (zdrop 32 mac).
Proof. intros Hl. unfold basic_data.take_last. rewrite mem_read_ok by lia. rewrite Hl. change (64 - 32) with 32. by rewrite ztake_all by zlia. Qed.

(** A new attempt: one, the right half and the index. *)
Lemma retry_buffer d i (r : list Z) : zlen d = 33 -> zlen r = 32 ->
  exists b1, basic_data.write_val (d ++ be_bytes 4 i) 0 1 = Ret (b1, 1) /\
    basic_data.write b1 1 r = Ret ([1] ++ r ++ be_bytes 4 i, 32).
Proof.
  intros Hd Hr. pose proof (zlen_be 4 i) as Hi. destruct d as [|x d]; [done|]. rewrite zlen_cons in Hd. exists (1 :: d ++ be_bytes 4 i). split.
  - rewrite write_val_in by (rewrite ?zlen_app, ?zlen_cons; lia). do 2 f_equal.
  - rewrite write_in by (rewrite ?zlen_cons, ?zlen_app; lia). rewrite Hr. do 2 f_equal. unfold written.
    rewrite ztake_app_l by (rewrite zlen_cons, zlen_app; lia). f_equal. rewrite Hr. f_equal.
    change (1 :: d ++ be_bytes 4 i) with ((1 :: d) ++ be_bytes 4 i). rewrite zdrop_app_exact by (rewrite zlen_cons; lia). done.
Qed.

Lemma child_loop_spec n : forall a k c i d mac (priv : list Z),
  normalized a -> value a = k -> 0 < k < N -> bytes_ok c -> zlen c = 32 -> zlen d = 33 -> bytes_ok mac -> zlen mac = 64 -> zlen priv = 32 ->
  child_loop n (order secp256k1.secp256k1) c a (d ++ be_bytes 4 i) mac priv =
    match first_child n k c i mac with Some (k', mac') => Ret (be_bytes 32 k', mac') | None => NoFuel end /\
  match first_child n k c i mac with Some (k', mac') => 0 < k' < N /\ bytes_ok mac' /\ zlen mac' = 64 | None => True end.
Proof.
  induction n as [|n IH]; intros a k c i d mac priv Na Va Hk Hc Lc Ld Hm Lm Lp; [done|]. cbn [child_loop first_child].
  pose proof (try_child_spec a k mac Na Va Hk Hm Lm) as T. destruct (child_of k mac) as [k'|].
  - destruct T as (b & -> & Nb & Vb & Rb). mstep. destruct (bn_write_spec b priv Nb) as [-> _]; [lia|]. mstep.
    by rewrite Vb, zdrop_all, app_nil_r by lia.
  - rewrite T. mstep. rewrite take_last_half by done.
    assert (zlen (zdrop 32 mac) = 32) as Lr by zlia. destruct (retry_buffer d i (zdrop 32 mac) Ld Lr) as (b1 & -> & E2). mstep. rewrite E2. mstep.
    assert (bytes_ok ([1] ++ zdrop 32 mac ++ be_bytes 4 i)) as Hb.
    { forall_list; [by unfold is_u|by apply Forall_drop|apply be_bytes_ok]. }
    rewrite hmac_exact by done. mstep. destruct (mac_form c ([1] ++ zdrop 32 mac ++ be_bytes 4 i)) as [Hm' Lm'].
    rewrite app_assoc. apply IH; try done. rewrite zlen_app. change (zlen [1]) with 1. lia.
Qed.

Lemma land_top i : is_u 32 i -> negb (Z.land i 0x80000000 =? 0) = hardened i.
Proof.
  intros Hi. change 0x80000000 with (2 ^ 31). unfold hardened.
  assert (Z.land i (2 ^ 31) = if Z.testbit i 31 then 2 ^ 31 else 0) as ->.
  { apply Z.bits_inj'. intros n Hn. rewrite Z.land_spec, Z.pow2_bits_eqb by lia. destruct (Z.eqb_spec 31 n) as [<-|].
    - rewrite andb_true_r. destruct (Z.testbit i 31); [by rewrite Z.pow2_bits_true|by rewrite Z.bits_0].
    - rewrite andb_false_r. destruct (Z.testbit i 31); [by rewrite Z.pow2_bits_false by lia|by rewrite Z.bits_0]. }
  rewrite Z.testbit_odd, Z.shiftr_div_pow2 by lia. unfold is_u in Hi. pow2. change (2 ^ 31) with 2147483648 in *.
  assert (i / 2147483648 = 0 \/ i / 2147483648 = 1) as [E|E] by (Z.div_mod_to_equations; lia); rewrite E; cbn [Z.odd Z.eqb negb];
    destruct (Z.leb_spec 2147483648 i); try done; exfalso; Z.div_mod_to_equations; lia.
Qed.

(** The key object of a child. *)
Definition child_key (key : HDKey) (k k' : Z) (c' : list Z) (i : Z) : HDKey :=
  mkKey (bytes_array.zeros 33) (publicKey65 key) (publicKey64 key) (be_bytes 32 k') c' (extPrivateKey key) (extPublicKey key) (net key)
    (u8 (depth key + 1)) i (code_fingerprint k) (curve key).

Lemma child_holds key k c k' c' i :
  holds key k c -> is_u 32 i -> 0 < k' < N -> bytes_ok c' -> zlen c' = 32 -> holds (child_key key k k' c' i) k' c'.
Proof.
  intros [] Hi Hk Hc Hl. constructor; cbn [child_key publicKey publicKey65 publicKey64 privateKey chainCode extPrivateKey extPublicKey depth index fingerprint curve]; try done.
  - naive_solver.
  - split; [by apply wrap_u_range|]. split; [done|apply code_fingerprint_range].
Qed.

Lemma clear_pub l : zlen l = 33 -> bytes_data.clear l = bytes_array.zeros 33.
Proof. intros Hl. unfold bytes_data.clear, bytes_array.zeros. f_equal. unfold zlen in Hl. lia. Qed.

Lemma of_data_key k : 0 < k < N -> exists a, uint256.of_data (be_bytes 32 k) = Ret a /\ normalized a /\ value a = k.
Proof.
  intros Hk. unfold uint256.of_data. rewrite zlen_be. cbn [Z.ltb Z.of_nat].
  destruct (read_key (be_bytes 32 k)) as (a & E & Na & Va & _); [apply be_bytes_ok|apply length_be_bytes|]. exists a.
  split; [exact E|]. split; [done|]. by rewrite Va, key_word.
Qed.

(** [derive] from the first 33 bytes on. *)
Lemma derive_from_spec fuel rnd key k c i d pk :
  holds key k c -> is_u 32 i -> zlen d = 33 -> bytes_ok d -> zlen pk = 33 ->
  derive_from fuel rnd (set_fingerprint (set_publicKey key pk) (code_fingerprint k)) secp256k1_info i (d ++ replicate 4 0) =
    match first_child fuel k c i (rfc_hmac mac512 c (d ++ be_bytes 4 i)) with
    | Some (k', mac) => Ret (child_key key k k' (zdrop 32 mac) i, rnd)
    | None => NoFuel
    end.
Proof.
  intros Hh Hi Hd Hdo Hpk. destruct Hh as [Hp Hr Hc [Hco Hcl] _ _ _ Hcu]. unfold derive_from.
  assert (bytes_data.write_u32 (d ++ replicate 4 0) 33 i = Ret (d ++ be_bytes 4 i, 4)) as ->.
  { unfold bytes_data.write_u32. rewrite entries_u32_be. pose proof (zlen_be 4 i) as Hb. fold (basic_data.write (d ++ replicate 4 0) 33 (be_bytes 4 i)).
    rewrite write_in by (rewrite ?zlen_app, ?zlen_replicate; lia). rewrite Hb. do 2 f_equal. unfold written.
    rewrite ztake_app_l by (rewrite zlen_app, zlen_replicate; lia). rewrite ztake_app_exact by done. f_equal.
    rewrite zdrop_all by (rewrite zlen_app, zlen_replicate; lia). apply app_nil_r. }
  rewrite bind_Ret. cbn [privateKey chainCode set_fingerprint set_publicKey params secp256k1_info depth publicKey]. rewrite Hp, Hc.
  destruct (of_data_key k Hr) as (a & -> & Na & Va). rewrite bind_Ret.
  assert (bytes_ok (d ++ be_bytes 4 i)) as Hm by (apply Forall_app; split; [done|apply be_bytes_ok]).
  rewrite hmac_exact by done. rewrite bind_Ret. destruct (mac_form c (d ++ be_bytes 4 i)) as [Mo Ml].
  set (mac := rfc_hmac mac512 c (d ++ be_bytes 4 i)) in *. clearbody mac.
  destruct (child_loop_spec fuel a k c i d mac (be_bytes 32 k)) as [E F]; try done. rewrite E.
  destruct (first_child fuel k c i mac) as [[k' mac']|]; [|done]. destruct F as (Rk & Mo' & Ml'). rewrite bind_Ret.
  rewrite take_last_half by done. rewrite bind_Ret. unfold bytes_array.assign_vec. rewrite (proj2 (Z.eqb_eq _ _)) by zlia. rewrite bind_Ret.
  unfold child_key, set_place, set_secrets, set_publicKey. cbn [publicKey publicKey65 publicKey64 privateKey chainCode extPrivateKey extPublicKey net depth index fingerprint curve set_fingerprint].
  by rewrite clear_pub.
Qed.

(** Random words: one multiplication for the fingerprint, one more for a public
    derivation. *)
Definition draws_of (i : Z) : nat := if hardened i then 1 else 2.

Lemma draws_S n rnd rnd' : draws (S n) rnd = Ret rnd' -> exists r, draws 1 rnd = Ret r /\ draws n r = Ret rnd'.
Proof.
  cbn [draws]. destruct (generate_k_random rnd secp256k1_p) as [[z r]| | |]; [|done..]. cbn [mbind outcome_bind]. intros E. by exists r.
Qed.

Lemma draws_add n m rnd rnd' : draws (n + m) rnd = Ret rnd' -> exists r, draws n rnd = Ret r /\ draws m r = Ret rnd'.
Proof.
  revert rnd. induction n as [|n IH]; intros rnd E; [by exists rnd|]. cbn [Nat.add draws] in *.
  destruct (generate_k_random rnd secp256k1_p) as [[z r]| | |]; [|done..]. cbn [mbind outcome_bind] in *. by apply IH.
Qed.

Lemma write_hardened k : exists b1,
  basic_data.write_val (replicate 37 0) 0 0 = Ret (b1, 1) /\
  basic_data.write_ptr b1 1 (be_bytes 32 k) 32 = Ret ((0 :: be_bytes 32 k) ++ replicate 4 0, 32).
Proof.
  exists (replicate 37 0). split; [done|]. pose proof (zlen_be 32 k) as Hb. rewrite write_ptr_in by (rewrite ?zlen_replicate; lia).
  rewrite ztake_all by lia. unfold written. rewrite Hb. done.
Qed.

Lemma write_public l : zlen l = 33 -> basic_data.write_ptr (replicate 37 0) 0 l 33 = Ret (l ++ replicate 4 0, 33).
Proof.
  intros Hl. rewrite write_ptr_in by (rewrite ?zlen_replicate; lia). rewrite ztake_all by lia. unfold written. rewrite Hl. done.
Qed.

Lemma set_twice key a b f : set_publicKey (set_fingerprint (set_publicKey key a) f) b = set_fingerprint (set_publicKey key b) f.
Proof. done. Qed.

Lemma derive_spec fuel rnd rnd' key k c i :
  holds key k c -> is_u 32 i -> draws (draws_of i) rnd = Ret rnd' ->
  derive fuel rnd key i =
    match ckd fuel k c i with Some (k', c') => Ret (child_key key k k' c' i, rnd') | None => NoFuel end.
Proof.
  intros Hh Hi Hd. unfold derive. assert (exists r, draws 1 rnd = Ret r /\ draws (if hardened i then 0 else 1) r = Ret rnd') as (r & D1 & D2).
  { apply draws_S. revert Hd. unfold draws_of. by destruct (hardened i). }
  rewrite (fetchFingerprint_holds key k c rnd r Hh D1), bind_Ret. unfold curve_of. cbn [curve set_fingerprint set_publicKey].
  rewrite (holds_curve _ _ _ Hh), bind_Ret, land_top by done. unfold ckd. cbn [params secp256k1_info privateKey set_fingerprint set_publicKey].
  rewrite (holds_priv _ _ _ Hh). destruct (hardened i).
  - injection D2 as <-. destruct (write_hardened k) as (b1 & -> & E2). rewrite bind_Ret, E2, bind_Ret.
    rewrite (derive_from_spec fuel r key k c i (0 :: be_bytes 32 k) (pub33 k)); [|done|done|by rewrite zlen_cons, zlen_be| |apply zlen_pub33].
    + by destruct (first_child _ _ _ _ _) as [[]|].
    + constructor; [by unfold is_u|apply be_bytes_ok].
  - set (key' := set_fingerprint (set_publicKey key (pub33 k)) (code_fingerprint k)).
    assert (holds key' k c) as Hh'.
    { destruct Hh as [H1 H2 H3 H4 H5 H6 H7 H8]. pose proof (code_fingerprint_range k). pose proof (zlen_pub33 k).
      constructor; unfold key'; cbn [set_fingerprint set_publicKey publicKey publicKey65 publicKey64 privateKey chainCode extPrivateKey extPublicKey depth index fingerprint curve]; try done; naive_solver. }
    rewrite (proj1 (fillPublicKey_holds key' k c r rnd' Hh' D2)), bind_Ret. cbn [publicKey set_publicKey].
    rewrite write_public, bind_Ret by apply zlen_pub33.
    unfold key'. rewrite set_twice.
    rewrite (derive_from_spec fuel rnd' key k c i (pub33 k) (pub33 k)); [|done|done|apply zlen_pub33|apply pub33_ok|apply zlen_pub33].
    by destruct (first_child _ _ _ _ _) as [[]|].
Qed.

Lemma first_child_ok n : forall k c i mac k' mac', 0 < k < N -> bytes_ok mac -> zlen mac = 64 ->
  first_child n k c i mac = Some (k', mac') -> 0 < k' < N /\ bytes_ok mac' /\ zlen mac' = 64.
Proof.
  induction n as [|n IH]; intros k c i mac k' mac' Hk Hm Hl E; [done|]. cbn [first_child] in E. destruct (child_of k mac) as [k1|] eqn:Ec.
  - injection E as <- <-. split; [|done]. unfold child_of in Ec. cbv zeta in Ec. destruct (N <=? _); [done|]. pose proof N_facts.
    pose proof (Z.mod_pos_bound (be_word (ztake 32 mac) + k) N ltac:(lia)) as R. revert Ec R. generalize ((be_word (ztake 32 mac) + k) mod N) as s.
    intros s Ec R. destruct (Z.eqb_spec s 0); [done|]. injection Ec as <-. lia.
  - destruct (mac_form c ([1] ++ zdrop 32 mac ++ be_bytes 4 i)). by eapply IH.
Qed.

Lemma ckd_ok fuel k c i k' c' : 0 < k < N -> ckd fuel k c i = Some (k', c') -> 0 < k' < N /\ bytes_ok c' /\ zlen c' = 32.
Proof.
  intros Hk E. unfold ckd in E. destruct (first_child _ _ _ _ _) as [[k1 mac]|] eqn:Ef; [|done]. injection E as <- <-.
  destruct (mac_form c ((if hardened i then 0 :: be_bytes 32 k else pub33 k) ++ be_bytes 4 i)) as [M1 M2].
  destruct (first_child_ok _ _ _ _ _ _ _ Hk M1 M2 Ef) as (R & O & L). split; [done|]. split; [by apply Forall_drop|zlia].
Qed.

(** ** Paths *)

(** The text of a path: [m/44'/60'/...], hardened indices with an apostrophe. *)
Definition path_bit (i : Z) : list Z :=
  if hardened i then Helpers.int2string (i - 2 ^ 31) ++ [39] else Helpers.int2string i.

Definition path_text (path : list Z) : list Z := bytes_of "m" ++ concat (map (fun i => 47 :: path_bit i) path).

Definition without (d : Z) (l : list Z) : Prop := Forall (fun x => x <> d) l.

Lemma find_here d x rest : without d x -> Bip39.find [d] (x ++ d :: rest) = Some (x, rest).
Proof.
  induction 1 as [|c x Hc _ IH]; cbn [Bip39.find starts_with app].
  - rewrite Z.eqb_refl. done.
  - rewrite (proj2 (Z.eqb_neq d c)) by done. cbn [andb]. by rewrite IH.
Qed.

Lemma find_nowhere d x : without d x -> Bip39.find [d] x = None.
Proof.
  induction 1 as [|c x Hc _ IH]; [done|]. cbn [Bip39.find starts_with]. rewrite (proj2 (Z.eqb_neq d c)) by done. cbn [andb]. by rewrite IH.
Qed.

Lemma split_parts d ps : forall fuel x,
  (length ps < fuel)%nat -> without d x -> x <> [] -> Forall (without d) ps -> Forall (fun p => p <> []) ps ->
  toolbox_strings.split_loop fuel (x ++ concat (map (cons d) ps)) [d] = Ret (x :: ps).
Proof.
  induction ps as [|p ps IH]; intros [|fuel] x Hf Hx Hn Hp Hpn; cbn [length] in Hf; try lia; cbn [toolbox_strings.split_loop map concat].
  - rewrite app_nil_r, find_nowhere by done. destruct x; [done|]. by rewrite zlen_cons, (proj2 (Z.ltb_lt 0 _)) by zlia.
  - apply Forall_cons_1 in Hp as [Hp Hps], Hpn as [Hpn Hpns]. cbn [app]. rewrite find_here by done.
    rewrite IH by (done || lia). done.
Qed.

Lemma int_text_facts n : is_u 32 n -> exists d ds, Helpers.int2string n = d :: ds /\ Forall Helpers.is_digit (d :: ds) /\ Helpers.digits_value 0 (d :: ds) = n.
Proof.
  intros Hn. unfold is_u in Hn. unfold Helpers.int2string. rewrite wrap_u_small by done.
  destruct (Helpers.dec_loop_spec 10 n []) as (d & ds & -> & Hds & Hv); [pow2; simpl; lia|lia|]. exists d, ds. by rewrite app_nil_r.
Qed.

Lemma digit_is d : Helpers.is_digit d -> isdigit d = true /\ Helpers.isspace d = false /\ d <> 0 /\ d <> 39 /\ d <> 43 /\ d <> 45 /\ d <> 47 /\ d <> 109.
Proof. unfold Helpers.is_digit, isdigit, Helpers.isspace. intros. split_and!; lia. Qed.

(** Printing and reading an index. *)
Lemma parse_index n : is_u 32 n -> wallet_utils.str_to_uint32_t (Helpers.int2string n) = Ret n.
Proof.
  intros Hn. destruct (int_text_facts n Hn) as (d & ds & E & Hd & Hv). rewrite E. unfold wallet_utils.str_to_uint32_t, wallet_utils.stoul.
  rewrite c_str_text by (eapply Forall_impl; [|exact Hd]; intros x Hx; by apply digit_is). pose proof Hd as [(D1 & D2 & _ & _ & D43 & D45 & _)%digit_is _]%Forall_cons_1.
  cbn [Helpers.skip_spaces]. rewrite D2. rewrite !(proj2 (Z.eqb_neq d _)) by done. unfold wallet_utils.stoul_digits. rewrite D1. cbv zeta. rewrite Hv.
  unfold is_u in Hn. pow2. rewrite (proj2 (Z.leb_gt _ n)) by lia. mstep. rewrite (proj2 (Z.ltb_ge _ n)) by lia. f_equal. apply wrap_u_small. unfold is_u. pow2. lia.
Qed.

Lemma path_bit_text i : is_u 32 i -> without 47 (path_bit i) /\ path_bit i <> [].
Proof.
  intros Hi. unfold path_bit, hardened. destruct (Z.leb_spec (2 ^ 31) i) as [Hh|Hh]; unfold is_u in Hi.
  - destruct (int_text_facts (i - 2 ^ 31)) as (d & ds & -> & Hd & _); [unfold is_u; lia|]. split; [|done].
    apply Forall_app. split; [|by repeat constructor]. eapply Forall_impl; [|exact Hd]. intros x Hx. by apply digit_is.
  - destruct (int_text_facts i) as (d & ds & -> & Hd & _); [done|]. split; [|done]. eapply Forall_impl; [|exact Hd]. intros x Hx. by apply digit_is.
Qed.

Lemma split_path path : Forall (is_u 32) path ->
  toolbox_strings.split (path_text path) (bytes_of "/") = Ret (bytes_of "m" :: map path_bit path).
Proof.
  intros Hp. unfold toolbox_strings.split, path_text. change (bytes_of "/") with [47]. change (zlen [47] =? 0) with false. cbn [Z.eqb].
  rewrite <- (map_map path_bit (cons 47)). apply split_parts.
  - rewrite length_app, length_map. enough (length path <= length (concat (map (cons 47%Z) (map path_bit path))))%nat by (cbn; lia).
    clear. induction path as [|i path IH]; [done|]. cbn [map concat length app]. rewrite length_app. lia.
  - by repeat constructor.
  - done.
  - apply Forall_map. eapply Forall_impl; [|exact Hp]. intros i Hi. by apply path_bit_text.
  - apply Forall_map. eapply Forall_impl; [|exact Hp]. intros i Hi. by apply path_bit_text.
Qed.

(** A part of a path derives the child with its index. *)
Lemma derive_bit_spec fuel rnd key i : is_u 32 i ->
  derive_bit fuel true rnd key (path_bit i) = ('(key, rnd) ← derive fuel rnd key i; Ret (true, key, rnd)).
Proof.
  intros Hi. unfold derive_bit, path_bit. unfold hardened. destruct (Z.leb_spec (2 ^ 31) i) as [Hh|Hh]; unfold is_u in Hi.
  - assert (is_u 32 (i - 2 ^ 31)) as Hu by (unfold is_u; lia). destruct (int_text_facts (i - 2 ^ 31) Hu) as (d & ds & E & Hd & _).
    pose proof Hd as [(_ & _ & _ & D39 & _ & _ & _ & D109)%digit_is _]%Forall_cons_1.
    rewrite (bool_decide_eq_false_2 (_ = bytes_of "m")) by (rewrite E; intros [= ? _]; done).
    rewrite (bool_decide_eq_false_2 (_ = [39])) by (rewrite E; intros [= ? _]; done). cbn [orb].
    pose proof (zlen_nonneg ds). assert (0 < zlen (Helpers.int2string (i - 2 ^ 31))) as Hl by (rewrite E, zlen_cons; lia).
    assert (zlen (Helpers.int2string (i - 2 ^ 31) ++ [39]) = zlen (Helpers.int2string (i - 2 ^ 31)) + 1) as Hz by zlia.
    rewrite (proj2 (Z.ltb_lt 1 _)) by lia. rewrite length_app. cbn [length]. rewrite Nat.add_sub, app_nth2, Nat.sub_diag by lia. cbn [nth Z.eqb Pos.eqb andb].
    rewrite Hz, Z.add_simpl_r, ztake_app_exact by done. rewrite parse_index by done. rewrite bind_Ret. cbn [negb].
    replace (u32 (i - 2 ^ 31 + 0x80000000)) with i; [done|]. change 0x80000000 with (2 ^ 31). rewrite Z.sub_add. symmetry. by apply wrap_u_small.
  - destruct (int_text_facts i Hi) as (d & ds & E & Hd & _).
    pose proof Hd as [(_ & _ & _ & D39 & _ & _ & _ & D109)%digit_is _]%Forall_cons_1.
    rewrite (bool_decide_eq_false_2 (_ = bytes_of "m")) by (rewrite E; intros [= ? _]; done).
    rewrite (bool_decide_eq_false_2 (_ = [39])) by (rewrite E; intros [= ? _]; done). cbn [orb].
    assert ((1 <? zlen (Helpers.int2string i)) && (nth (length (Helpers.int2string i) - 1) (Helpers.int2string i) 0 =? 39) = false) as ->.
    { apply andb_false_intro2, Z.eqb_neq. rewrite E. destruct (nth_in_or_default (length (d :: ds) - 1) (d :: ds) 0) as [Hin| ->]; [|done].
      apply list_elem_of_In in Hin. rewrite list.Forall_forall in Hd. apply Hd in Hin. by apply digit_is. }
    rewrite parse_index by done. rewrite bind_Ret. done.
Qed.

(** The random words of a path. *)
Fixpoint path_draws (path : list Z) : nat := match path with [] => 0 | i :: path => draws_of i + path_draws path end.

Lemma derive_bits_spec fuel path : forall rnd rnd' key k c,
  holds key k c -> Forall (is_u 32) path -> draws (path_draws path) rnd = Ret rnd' ->
  match ckd_path fuel k c path with
  | Some (k', c') => exists key', derive_bits fuel true rnd key (map path_bit path) = Ret (key', rnd') /\ holds key' k' c' /\
      depth key' = u8 (depth key + zlen path) /\ net key' = net key
  | None => derive_bits fuel true rnd key (map path_bit path) = NoFuel
  end.
Proof.
  induction path as [|i path IH]; intros rnd rnd' key k c Hh Hp Hd; cbn [ckd_path map derive_bits path_draws] in *.
  - injection Hd as <-. exists key. split_and!; try done. rewrite zlen_nil, Z.add_0_r. symmetry. apply wrap_u_small. apply Hh.
  - apply Forall_cons_1 in Hp as [Hi Hp]. destruct (draws_add _ _ _ _ Hd) as (r & D1 & D2).
    rewrite derive_bit_spec by done. rewrite (derive_spec fuel rnd r key k c i) by done.
    destruct (ckd fuel k c i) as [[k1 c1]|] eqn:E; [|done].
    destruct (ckd_ok _ _ _ _ _ _ (holds_range _ _ _ Hh) E) as (R1 & B1 & L1).
    pose proof (child_holds key k c k1 c1 i Hh Hi R1 B1 L1) as Hh1. rewrite !bind_Ret.
    specialize (IH r rnd' (child_key key k k1 c1 i) k1 c1 Hh1 Hp D2).
    change (Some (k1, c1) ≫= (fun '(k, c) => ckd_path fuel k c path)) with (ckd_path fuel k1 c1 path).
    destruct (ckd_path fuel k1 c1 path) as [[k' c']|]; [|done]. destruct IH as (key' & -> & Hh' & Hdep & Hnet). exists key'. split_and!; try done.
    rewrite Hdep. cbn [child_key depth]. rewrite zlen_cons. unfold wrap_u. rewrite Z.add_mod_idemp_l by done. f_equal. lia.
Qed.

Lemma derivePath_spec fuel path rnd rnd' key k c :
  holds key k c -> Forall (is_u 32) path -> draws (path_draws path) rnd = Ret rnd' ->
  match ckd_path fuel k c path with
  | Some (k', c') => exists key', derivePath fuel rnd key (path_text path) true = Ret (key', rnd') /\ holds key' k' c' /\
      depth key' = u8 (depth key + zlen path) /\ net key' = net key
  | None => derivePath fuel rnd key (path_text path) true = NoFuel
  end.
Proof.
  intros Hh Hp Hd. unfold derivePath. rewrite split_path, bind_Ret by done. cbn [derive_bits].
  assert (derive_bit fuel true rnd key (bytes_of "m") = Ret (true, key, rnd)) as -> by done. rewrite bind_Ret. by apply derive_bits_spec.
Qed.

(** ** Master keys *)

Lemma to_hmac_spec name src : bytes_ok name -> bytes_ok src -> to_hmac_sha512 name src = Ret (rfc_hmac mac512 name src).
Proof.
  intros Hn Hs. pose proof (hmac_exact name src (zlen name) Hn eq_refl Hs) as E. destruct (mac_form name src) as [_ Hl].
  unfold to_hmac_sha512, CHMAC_SHA512.new, CHMAC_SHA512.Write, CHMAC_SHA512.Finalize. unfold hmac_sha512, hmac in E. unfold hmac_sha512_Init, hmac_sha512_Update, hmac_sha512_Final.
  destruct (hmac_Init mac512 name (zlen name)) as [h| | |]; [|done..]. rewrite bind_Ret in E |- *.
  destruct (hmac_Update mac512 h src (zlen src)) as [h'| | |]; [|done..]. rewrite bind_Ret in E |- *. rewrite E, bind_Ret.
  pose proof (mem_write_here (replicate 64 0) [] (rfc_hmac mac512 name src)) as Ew. rewrite !app_nil_r in Ew. by apply Ew.
Qed.

Lemma seed_loop_spec n : forall mac, bytes_ok mac -> zlen mac = 64 ->
  seed_loop n (order secp256k1.secp256k1) (bytes_of "Bitcoin seed") mac =
    match first_master n mac with Some m => Ret m | None => NoFuel end /\
  match first_master n mac with Some m => bytes_ok m /\ zlen m = 64 /\ 0 < be_word (ztake 32 m) < N | None => True end.
Proof.
  induction n as [|n IH]; intros mac Hm Hl; [done|]. cbn [seed_loop first_master]. unfold uint256.of_data. rewrite Hl. cbn [Z.ltb Z.compare Pos.compare Pos.compare_cont].
  assert (bytes_ok (ztake 32 mac)) as H32 by (by apply Forall_take). assert (zlen (ztake 32 mac) = 32) as L32 by zlia.
  destruct (read_first (ztake 32 mac) (zdrop 32 mac)) as (a & E & Na & Va & Ra); [done|unfold zlen in L32; lia|]. rewrite ztake_zdrop in E.
  rewrite E, bind_Ret, eq_zero, bind_Ret by done. unfold uint256.less. rewrite bn_is_less_spec by (done || apply order_normalized). rewrite <- Va.
  assert (bool_decide (value a < N) = (value a <? N)) as ->.
  { destruct (Z.ltb_spec (value a) N); [by rewrite bool_decide_eq_true_2|by rewrite bool_decide_eq_false_2 by lia]. }
  destruct (negb (value a =? 0) && (value a <? N)) eqn:Hv.
  - split; [done|]. split_and!; try done; rewrite <- Va; destruct (Z.eqb_spec (value a) 0), (Z.ltb_spec (value a) N); (done || lia).
  - rewrite to_hmac_spec by (done || apply (bool_decide_unpack _); by vm_compute). rewrite bind_Ret. apply IH; apply mac_form.
Qed.

Definition root_key (k : Z) (c : list Z) : HDKey :=
  mkKey (bytes_array.zeros 33) (bytes_array.zeros 65) (bytes_array.zeros 64) (be_bytes 32 k) c (bytes_array.zeros 112) (bytes_array.zeros 112)
    MainNet 0 0 0 (Some secp256k1_info).

Lemma fromSeed_spec fuel seed : bytes_ok seed ->
  fromSeed fuel seed = match master fuel seed with Some (k, c) => Ret (root_key k c) | None => NoFuel end.
Proof.
  intros Hs. unfold fromSeed. cbn [curve set_place new_key]. cbn [bip32_name params secp256k1_info].
  rewrite to_hmac_spec by (done || apply (bool_decide_unpack _); by vm_compute). rewrite bind_Ret. unfold master.
  destruct (mac_form (bytes_of "Bitcoin seed") seed) as [Mo Ml]. set (mac := rfc_hmac mac512 (bytes_of "Bitcoin seed") seed) in *. clearbody mac.
  unfold bytes_array.of_data. rewrite (proj2 (Z.eqb_eq _ _) Ml), bind_Ret. destruct (seed_loop_spec fuel mac Mo Ml) as [-> F].
  destruct (first_master fuel mac) as [m|]; [|done]. destruct F as (Bo & Lm & R). rewrite bind_Ret.
  unfold basic_data.take_first. rewrite mem_read_ok, zdrop_0, bind_Ret by lia. unfold bytes_array.assign_vec.
  rewrite (proj2 (Z.eqb_eq (zlen (ztake 32 m)) 32)) by zlia. rewrite bind_Ret, take_last_half, bind_Ret by done.
  rewrite (proj2 (Z.eqb_eq (zlen (zdrop 32 m)) 32)) by zlia. rewrite bind_Ret. change (Some m ≫= _) with (Some (be_word (ztake 32 m), zdrop 32 m)).
  cbn beta iota. f_equal. unfold root_key.
  assert (be_bytes 32 (be_word (ztake 32 m)) = ztake 32 m) as ->; [|done].
  assert (length (ztake 32 m) = 32%nat) as H32 by (assert (zlen (ztake 32 m) = 32) as L32 by zlia; unfold zlen in L32; lia).
  rewrite <- H32 at 1. apply be_bytes_word. by apply Forall_take.
Qed.

Lemma master_ok fuel seed k c : master fuel seed = Some (k, c) -> 0 < k < N /\ bytes_ok c /\ zlen c = 32.
Proof.
  unfold master. destruct (mac_form (bytes_of "Bitcoin seed") seed) as [Mo Ml]. pose proof (seed_loop_spec fuel _ Mo Ml) as [_ F].
  destruct (first_master _ _) as [m|]; [|done]. destruct F as (Bo & Lm & R). intros [= <- <-]. split; [done|]. split; [by apply Forall_drop|zlia].
Qed.

Lemma root_holds fuel seed k c : master fuel seed = Some (k, c) -> holds (root_key k c) k c.
Proof. intros (R & Bc & Lc)%master_ok. by constructor. Qed.

(** ** Extended keys *)

Lemma written_next pre bs n m :
  zlen bs = Z.of_nat n -> written (pre ++ replicate (n + m) 0) (zlen pre) bs = (pre ++ bs) ++ replicate m 0.
Proof.
  intros Hn. unfold written. pose proof (zlen_nonneg pre). rewrite ztake_app_l by zlia. rewrite ztake_app_exact by done.
  rewrite <- app_assoc. do 2 f_equal. rewrite replicate_add, app_assoc, zdrop_app_exact; [done|]. zlia.
Qed.

Section Fields.
Context (pre : list Z) (m : nat) (Hs : zlen pre + 64 + Z.of_nat m < 2 ^ 63).

Lemma next_u32 v pos : pos = zlen pre -> bytes_data.write_u32 (pre ++ replicate (4 + m) 0) pos v = Ret ((pre ++ be_bytes 4 v) ++ replicate m 0, 4).
Proof.
  intros ->. pose proof (zlen_nonneg pre). pose proof (zlen_be 4 v) as Hb. unfold bytes_data.write_u32. rewrite entries_u32_be.
  fold (basic_data.write (pre ++ replicate (4 + m) 0) (zlen pre) (be_bytes 4 v)). rewrite write_in by (rewrite ?zlen_app, ?zlen_replicate; lia).
  by rewrite written_next, Hb.
Qed.

Lemma next_val v pos : pos = zlen pre -> basic_data.write_val (pre ++ replicate (1 + m) 0) pos v = Ret ((pre ++ [v]) ++ replicate m 0, 1).
Proof.
  intros ->. pose proof (zlen_nonneg pre). rewrite write_val_in by (rewrite zlen_app, zlen_replicate; lia). by rewrite written_next.
Qed.

Lemma next_vec bs pos : pos = zlen pre -> zlen bs = 32 -> basic_data.write (pre ++ replicate (32 + m) 0) pos bs = Ret ((pre ++ bs) ++ replicate m 0, 32).
Proof.
  intros -> Hb. pose proof (zlen_nonneg pre). rewrite write_in by (rewrite ?zlen_app, ?zlen_replicate; lia). by rewrite written_next, Hb.
Qed.

Lemma next_ptr n bs pos : pos = zlen pre -> zlen bs = Z.of_nat n -> (n <= 64)%nat ->
  basic_data.write_ptr (pre ++ replicate (n + m) 0) pos bs (Z.of_nat n) = Ret ((pre ++ bs) ++ replicate m 0, Z.of_nat n).
Proof.
  intros -> Hb Hn. pose proof (zlen_nonneg pre). rewrite write_ptr_in by (rewrite ?zlen_app, ?zlen_replicate; lia).
  rewrite ztake_all by lia. by rewrite written_next.
Qed.

End Fields.

(** The 78 bytes of an extended key. *)
Definition ext_bytes (version d fp i : Z) (chain kb : list Z) : list Z :=
  ((((be_bytes 4 version ++ [d]) ++ be_bytes 4 fp) ++ be_bytes 4 i) ++ chain) ++ kb.

Definition key_bytes (k : Z) (public : bool) : list Z := if public then pub33 k else 0 :: be_bytes 32 k.

(** [serialize] writes these bytes and encodes them. *)
Lemma serialize_encodes g key k c fp version public :
  holds key k c -> publicKey key = pub33 k \/ public = false ->
  serialize g key fp version public =
    ('(_, out) ← base58.base58_encode_check g (ext_bytes version (depth key) fp (index key) c (key_bytes k public)) 78 hasher.HASHER_SHA2D (bytes_array.zeros 112) 112;
     Ret (if public then set_extPublicKey key out else set_extPrivateKey key out)).
Proof.
  intros Hh Hpub. unfold serialize. destruct Hh as [Hp Hr Hc [Hco Hcl] _ [He1 He2] _ Hcu].
  pose proof (next_u32 [] 74 ltac:(done) version 0 eq_refl) as E0. change ([] ++ replicate (4 + 74) 0) with (replicate 78 0) in E0. rewrite E0, bind_Ret.
  rewrite (next_val (be_bytes 4 version) 73), bind_Ret by (rewrite ?zlen_be; done).
  rewrite (next_u32 (be_bytes 4 version ++ [depth key]) 69), bind_Ret by (rewrite ?zlen_app, ?zlen_be; done).
  rewrite (next_u32 ((be_bytes 4 version ++ [depth key]) ++ be_bytes 4 fp) 65), bind_Ret by (rewrite ?zlen_app, ?zlen_be; done).
  rewrite (next_vec (((be_bytes 4 version ++ [depth key]) ++ be_bytes 4 fp) ++ be_bytes 4 (index key)) 33), bind_Ret
    by (rewrite ?Hc, ?zlen_app, ?zlen_be; done).
  rewrite Hc. set (pre := (((be_bytes 4 version ++ [depth key]) ++ be_bytes 4 fp) ++ be_bytes 4 (index key)) ++ c).
  assert (zlen pre = 45) as Hpre by (unfold pre; rewrite !zlen_app, !zlen_be, Hcl; done).
  assert ((if public then '(data, _) ← basic_data.write_ptr (pre ++ replicate 33 0) 45 (publicKey key) 33; Ret data
           else '(data, _) ← basic_data.write_val (pre ++ replicate 33 0) 45 0;
                '(data, _) ← basic_data.write_ptr data 46 (privateKey key) 32; Ret data) = Ret (pre ++ key_bytes k public)) as ->.
  { destruct public; cbn [key_bytes].
    - destruct Hpub as [->|]; [|done]. pose proof (next_ptr pre 0 ltac:(rewrite Hpre; done) 33 (pub33 k) 45 (eq_sym Hpre) (zlen_pub33 k) ltac:(lia)) as E.
      change (Z.of_nat 33) with 33 in E. change (33 + 0)%nat with 33%nat in E. rewrite E, bind_Ret. by rewrite app_nil_r.
    - pose proof (next_val pre 32 0 45 (eq_sym Hpre)) as E. change (1 + 32)%nat with 33%nat in E. rewrite E, bind_Ret.
      assert (zlen (pre ++ [0]) = 46) as Hpre' by (rewrite zlen_app, Hpre; done).
      pose proof (next_ptr (pre ++ [0]) 0 ltac:(rewrite Hpre'; done) 32 (be_bytes 32 k) 46 (eq_sym Hpre') (zlen_be 32 k) ltac:(lia)) as E2.
      change (Z.of_nat 32) with 32 in E2. change (32 + 0)%nat with 32%nat in E2. rewrite Hp, E2, bind_Ret. rewrite app_nil_r, <- app_assoc. done. }
  rewrite bind_Ret. unfold curve_of. rewrite Hcu, bind_Ret. cbn [hasher_base58 secp256k1_info].
  assert (zlen (pre ++ key_bytes k public) = 78) as ->.
  { rewrite zlen_app, Hpre. destruct public; cbn [key_bytes]; rewrite ?zlen_pub33, ?zlen_cons, ?zlen_be; done. }
  assert (bytes_data.clear (if public then extPublicKey key else extPrivateKey key) = bytes_array.zeros 112) as ->.
  { unfold bytes_data.clear, bytes_array.zeros. f_equal. unfold zlen in *. destruct public; lia. }
  done.
Qed.

Lemma num_be_word l : bytes_ok l -> num 256 l = be_word l.
Proof.
  induction l as [|x l IH]; intros Hl; [done|]. apply Forall_cons_1 in Hl as [Hx Hl]. cbn [num]. rewrite be_word_cons, IH by done.
  do 2 f_equal. change 256 with (2 ^ 8). pose proof (zlen_nonneg l). by rewrite <- Z.pow_mul_r by lia.
Qed.

(** The versions of the four kinds of extended keys and how their texts begin. *)
Definition versions : list (Z * list Z) :=
  [(snd (bip32 MainNet), bytes_of "xprv"); (fst (bip32 MainNet), bytes_of "xpub");
   (snd (bip32 TestNet), bytes_of "tprv"); (fst (bip32 TestNet), bytes_of "tpub")].

Definition version_digits : list (Z * list Z * list Z) :=
  [(0x0488ade4, bytes_of "xprv", [55; 47; 49; 53]); (0x0488b21e, bytes_of "xpub", [55; 47; 52; 34]);
   (0x04358394, bytes_of "tprv", [51; 47; 49; 53]); (0x043587cf, bytes_of "tpub", [51; 47; 52; 34])].

(** The numbers of such texts have 111 digits, and the first four are fixed. *)
Definition version_check (v : Z) (t q : list Z) : bool :=
  (58 ^ 110 <=? v * 256 ^ 78) && ((v + 1) * 256 ^ 78 <=? 58 ^ 111) && (0x04000000 <=? v) && (v <? 0x05000000) &&
  (num 58 q =? v * 256 ^ 78 / 58 ^ 107) && (num 58 q =? ((v + 1) * 256 ^ 78 - 1) / 58 ^ 107) &&
  bool_decide (map dig q = t) && bool_decide (Forall (fun x => 0 <= x < 58) q) && bool_decide (length q = 4%nat).

Lemma version_facts v t : (v, t) ∈ versions -> exists q, version_check v t q = true.
Proof.
  intros Hv. assert (exists q, (v, t, q) ∈ version_digits) as [q Hq].
  { unfold versions, version_digits in *. set_unfold. destruct Hv as [[= -> ->]|[[= -> ->]|[[= -> ->]|[[= -> ->]|[]]]]]; eexists; eauto 10. }
  exists q. clear Hv. revert v t q Hq. assert (Forall (fun '(v, t, q) => version_check v t q = true) version_digits) as H.
  { repeat constructor; by vm_compute. }
  intros v t q Hq. rewrite list.Forall_forall in H. exact (H _ Hq).
Qed.

Lemma version_bytes v t q : version_check v t q = true -> exists l, be_bytes 4 v = 4 :: l.
Proof.
  unfold version_check. rewrite !andb_true_iff, !Z.leb_le, Z.ltb_lt. intros [[[[[[[[_ _] V3] V4] _] _] _] _] _].
  unfold be_bytes. cbn [le_bytes rev app]. eexists. f_equal. rewrite !Z.shiftr_shiftr by lia. rewrite Z.shiftr_div_pow2 by lia.
  unfold wrap_u. change (2 ^ (8 + 8 + 8)) with 16777216. pow2. Z.div_mod_to_equations. lia.
Qed.

Lemma ext_text v t rest s ds :
  (v, t) ∈ versions -> bytes_ok rest -> zlen rest = 78 -> text_of (be_bytes 4 v ++ rest) s ds -> zlen s = 111 /\ ztake 4 s = t.
Proof.
  intros Hv Hr Hl [D C E ->]. destruct (version_facts v t Hv) as [q Hq]. destruct (version_bytes v t q Hq) as [l Hb4]. unfold version_check in Hq. rewrite !andb_true_iff, !bool_decide_eq_true, !Z.leb_le, !Z.eqb_eq, Z.ltb_lt in Hq.
  destruct Hq as [[[[[[[[V1 V2] V3] V4] Q1] Q2] Qt] Qd] Ql].
  assert (be_word (be_bytes 4 v) = v) as Hw by (rewrite be_word_bytes; apply wrap_u_small; change (8 * Z.of_nat 4) with 32; unfold is_u; pow2; lia).
  assert (num 256 (be_bytes 4 v ++ rest) = v * 256 ^ 78 + num 256 rest) as Em.
  { rewrite num_app, Hl by lia. by rewrite num_be_word, Hw by apply be_bytes_ok. }
  pose proof (num_range 256 rest ltac:(lia) (proj1 (bytes_digits rest) Hr)) as Rr. rewrite Hl in Rr. rewrite Em in E. clear Em.
  set (M := v * 256 ^ 78 + num 256 rest) in *. assert (v * 256 ^ 78 <= M < (v + 1) * 256 ^ 78) as RM by (unfold M; lia). clearbody M.
  assert (base58.lead 0 (be_bytes 4 v ++ rest) = 0) as ->.
  { by rewrite Hb4. }
  change (replicate (Z.to_nat 0) 49 ++ map dig ds) with (map dig ds). rewrite zlen_map.
  pose proof (num_range 58 ds ltac:(lia) D) as Rd. rewrite E in Rd.
  assert (zlen ds = 111) as Ld.
  { assert (110 < zlen ds) by (apply (Z.pow_lt_mono_r_iff 58); [lia|apply zlen_nonneg|lia]).
    destruct ds as [|d ds]; [change (zlen []) with 0 in *; lia|]. pose proof (num_lead 58 d ds ltac:(lia) D C) as Hn. rewrite E in Hn. rewrite zlen_cons in *.
    assert (zlen ds < 111) by (apply (Z.pow_lt_mono_r_iff 58); lia). lia. }
  split; [done|]. rewrite <- (ztake_zdrop 4 ds) in E. rewrite num_app in E by lia. replace (zlen (zdrop 4 ds)) with 107 in E by zlia.
  pose proof (num_range 58 (zdrop 4 ds) ltac:(lia) (digits_drop _ _ _ D)) as Rl. replace (zlen (zdrop 4 ds)) with 107 in Rl by zlia.
  assert (num 58 (ztake 4 ds) = num 58 q) as En.
  { assert (num 58 (ztake 4 ds) = M / 58 ^ 107) as -> by (apply (Z.div_unique_pos M (58 ^ 107) _ (num 58 (zdrop 4 ds))); lia).
    assert (v * 256 ^ 78 / 58 ^ 107 <= M / 58 ^ 107) by (apply Z.div_le_mono; lia).
    assert (M / 58 ^ 107 <= ((v + 1) * 256 ^ 78 - 1) / 58 ^ 107) by (apply Z.div_le_mono; lia). lia. }
  assert (ztake 4 ds = q) as Eq.
  { apply (num_inj 58); [lia|by apply Forall_take|done| |done]. assert (zlen (ztake 4 ds) = 4) as L4 by zlia. unfold zlen in L4. lia. }
  rewrite <- Qt, <- Eq. unfold ztake. by rewrite firstn_map.
Qed.

Lemma ext_bytes_ok version d fp i c k public : is_u 8 d -> bytes_ok c -> zlen c = 32 ->
  bytes_ok (ext_bytes version d fp i c (key_bytes k public)) /\ zlen (ext_bytes version d fp i c (key_bytes k public)) = 78.
Proof.
  intros Hd Hc Hl. assert (bytes_ok (key_bytes k public) /\ zlen (key_bytes k public) = 33) as [Kb Kl].
  { destruct public; cbn [key_bytes]; [split; [apply pub33_ok|apply zlen_pub33]|]. split; [constructor; [by unfold is_u|apply be_bytes_ok]|by rewrite zlen_cons, zlen_be]. }
  unfold ext_bytes. split; [forall_list; try done; apply be_bytes_ok|]. rewrite !zlen_app, !zlen_be, Hl, Kl. done.
Qed.

(** The text of an extended key fits its 112 bytes exactly and decodes to the 78
    bytes. *)
Lemma serialize_spec g key k c fp version t public junk out :
  holds key k c -> publicKey key = pub33 k \/ public = false -> (version, t) ∈ versions -> 32 <= zlen junk -> zlen out = 78 ->
  exists s, serialize g key fp version public =
      Ret (if public then set_extPublicKey key (s ++ [0]) else set_extPrivateKey key (s ++ [0])) /\
    zlen s = 111 /\ ztake 4 s = t /\
    base58.base58_decode_check g junk s hasher.HASHER_SHA2D out 78 = Ret (78, ext_bytes version (depth key) fp (index key) c (key_bytes k public)).
Proof.
  intros Hh Hpub Hv Hj Ho. rewrite (serialize_encodes g key k c) by done. destruct (holds_chain_ok _ _ _ Hh) as [Hc Hcl].
  destruct (ext_bytes_ok version (depth key) fp (index key) c k public (proj1 (holds_place _ _ _ Hh)) Hc Hcl) as [Bo Bl].
  set (data := ext_bytes version (depth key) fp (index key) c (key_bytes k public)) in *.
  destruct (encode_check_spec g data (bytes_array.zeros 112) 112 Bo ltac:(lia)) as (s & ds & Ht & E). rewrite Bl in E. rewrite E.
  destruct (sha2d_facts data) as (_ & _ & S3 & S4).
  assert (exists rest, data ++ checksum data = be_bytes 4 version ++ rest /\ bytes_ok rest /\ zlen rest = 78) as (rest & Er & Br & Lr).
  { exists (zdrop 4 (data ++ checksum data)). split; [|split; [by apply Forall_drop, Forall_app|zlia]].
    rewrite <- (ztake_zdrop 4 (data ++ checksum data)) at 1. by f_equal. }
  assert (zlen s = 111 /\ ztake 4 s = t) as [Ls Ts] by (apply (ext_text version t rest s ds); rewrite <- ?Er; done).
  exists s. split; [|split; [done|split; [done|]]].
  - rewrite Ls. cbn [Z.leb Z.compare Pos.compare Pos.compare_cont].
    assert (mem_write (bytes_array.zeros 112) 0 (s ++ [0]) = Ret (s ++ [0])) as Ew.
    { pose proof (mem_write_here (bytes_array.zeros 112) [] (s ++ [0])) as Ew. rewrite !app_nil_r in Ew. apply Ew. rewrite zlen_app, Ls. done. }
    rewrite Ew, !bind_Ret. done.
  - pose proof (decode_check_spec g junk out 78 data (checksum data) s ds) as Hdec. rewrite Bl in Hdec. rewrite Hdec; try done; try lia.
    + by rewrite zdrop_all, app_nil_r by lia.
    + rewrite Er. apply nonzero_rest. destruct (version_facts version t Hv) as [q [l ->]%version_bytes]. by apply Exists_cons_hd.
    + by rewrite memcmp_refl.
Qed.

(** ** Addresses *)

(** The address of a private key: the last 20 bytes of the hash of its public key. *)
Definition eth_address (k : Z) : list Z :=
  [48; 120] ++ concat (map Helpers.hex_byte (zdrop 12 (keccak_spec.keccak256 (pub64 k)))).

Lemma pub64_ok k : bytes_ok (pub64 k).
Proof. unfold pub64. destruct (coords _). apply Forall_app. split; apply be_bytes_ok. Qed.

Lemma hash_address kjunk (d : list Z) : shape kjunk -> bytes_ok d -> zlen d = 64 ->
  (data ← mem_read d 0 64; secp256k1_helpers.substr (Keccak256.getHash kjunk data) 12) = Ret (zdrop 12 (keccak_spec.keccak256 d)).
Proof.
  intros Hj Hd Hl. rewrite mem_read_ok by lia. mstep. rewrite zdrop_0, ztake_all by lia.
  rewrite substr_ok by (unfold zlen; rewrite (proj1 (getHash_form kjunk d)); lia). by rewrite keccak_eq.
Qed.

Lemma getEthAddress_spec kjunk unset rnd rnd' key k c :
  shape kjunk -> zlen unset = 64 -> holds key k c -> draws 1 rnd = Ret rnd' ->
  getEthAddress kjunk unset rnd key = Ret (eth_address k, rnd').
Proof.
  intros Hj Hu Hh Hd. unfold getEthAddress, curve_of. rewrite (holds_curve _ _ _ Hh), bind_Ret. cbn [params secp256k1_info].
  unfold secp256k1_helpers.ecdsa_get_public_address. rewrite (holds_priv _ _ _ Hh).
  destruct (public_key_bytes k rnd rnd' (replicate 33 0) unset (replicate 65 0) (holds_range _ _ _ Hh) Hd eq_refl Hu eq_refl) as (_ & E & _).
  rewrite E, bind_Ret. pose proof (hash_address kjunk (pub64 k) Hj (pub64_ok k) (zlen_pub64 k)) as Ea.
  assert (mem_read (pub64 k) 0 64 = Ret (pub64 k)) as Em.
  { rewrite mem_read_ok by (rewrite ?zlen_pub64; lia). by rewrite zdrop_0, ztake_all by (rewrite zlen_pub64; lia). }
  rewrite Em, bind_Ret in Ea. rewrite Em, bind_Ret, Ea, !bind_Ret.
  unfold toolbox_data.bytes_to_hex. set (a := zdrop 12 (keccak_spec.keccak256 (pub64 k))). pose proof (zlen_nonneg a).
  rewrite mem_read_ok, zdrop_0, ztake_all, !bind_Ret by lia. done.
Qed.

Lemma makeBip39Seed_spec junk words : length junk = 128%nat -> bytes_ok junk -> bytes_ok words -> Forall (fun x => x <> 0) words ->
  makeBip39Seed junk true words = Ret (rfc_pbkdf2 mac512 words (bytes_of "mnemonic") 2048).
Proof.
  intros Hj Hjo Hw Hnz. unfold makeBip39Seed, MnemonicHelper.wordsToSeed. rewrite c_str_text by done.
  set (salt := bytes_of "mnemonic" ++ default [] (@None (list Z))).
  assert (bytes_ok salt) as Hs by (apply (bool_decide_unpack _); by vm_compute).
  pose proof (pbkdf2_rfc (M := mac512) junk words [] salt [] 2048 Hj Hjo Hw Hs) as E. rewrite !app_nil_r in E.
  assert (bip39.bip39_mnemonic_to_seed junk true words None (bytes_array.zeros 64) 64 =
    Ret (1, rfc_pbkdf2 mac512 words salt 2048 ++ zdrop 64 (bytes_array.zeros 64), 64)) as E2
    by exact (seed_store _ _ (bytes_array.zeros 64) E (rfc_pbkdf2_len words salt 2048) ltac:(done)).
  rewrite E2, !bind_Ret. unfold salt. rewrite zdrop_all, app_nil_r by done. by rewrite app_nil_r.
Qed.

Lemma rfc_pbkdf2_ok words salt n : bytes_ok (rfc_pbkdf2 mac512 words salt n).
Proof.
  unfold rfc_pbkdf2. cbv zeta.
  assert (forall m u acc, bytes_ok acc -> bytes_ok (rfc_U mac512 m words u acc)) as H.
  { induction m as [|m IH]; intros u acc Ha; [done|]. cbn [rfc_U]. cbv zeta. apply IH.
    destruct (mac_form words u) as [Hm _]. revert Hm. generalize (rfc_hmac mac512 words u) as l. intros l. revert l.
    induction Ha as [|x acc Hx _ IHa]; intros [|y l] Hl; cbn [zip_with]; [constructor..|]. apply Forall_cons_1 in Hl as [Hy Hl].
    constructor; [by apply is_u_lxor|by apply IHa]. }
  apply H, mac_form.
Qed.

End Facts.

(** ** Theorems *)

Section Claims.
Import bignum ecdsa HDKeyEncoder.

Local Abbreviation N := (value (order secp256k1.secp256k1)).

(** C6. Child keys are those of BIP32: for a key object that holds the private key
    [k] and the chain code [c], [derive] leaves the private key and the chain code
    that CKDpriv gives for the index, counts the depth and stores the index; with the
    attempts that the code adds, it finds a key exactly when one of the first [fuel]
    attempts is valid.  The object again holds a private key between 0 and the
    order. *)
Theorem derive_is_bip32 (fuel : nat) (rnd rnd' : list Z) (key : HDKey) (k : Z) (c : list Z) (i : Z) :
  holds key k c -> is_u 32 i -> draws (draws_of i) rnd = Ret rnd' ->
  derive fuel rnd key i =
    match ckd fuel k c i with Some (k', c') => Ret (child_key key k k' c' i, rnd') | None => NoFuel end /\
  (forall k' c', ckd fuel k c i = Some (k', c') -> holds (child_key key k k' c' i) k' c').
Proof.
  intros Hh Hi Hd. split; [by apply derive_spec|]. intros k' c' E.
  destruct (ckd_ok _ _ _ _ _ _ (holds_range _ _ _ Hh) E) as (R & B & L). by apply (child_holds key k c).
Qed.

(** Paths are read as they are written: for indices of 32 bits, deriving along
    the text [m/...], with hardened indices marked by an apostrophe, derives the
    children with these indices one after the other, and the depth counts them. *)
Theorem path_derivation (fuel : nat) (path rnd rnd' : list Z) (key : HDKey) (k : Z) (c : list Z) :
  holds key k c -> Forall (is_u 32) path -> draws (path_draws path) rnd = Ret rnd' ->
  match ckd_path fuel k c path with
  | Some (k', c') => exists key', derivePath fuel rnd key (path_text path) true = Ret (key', rnd') /\ holds key' k' c' /\
      depth key' = u8 (depth key + zlen path) /\ net key' = net key
  | None => derivePath fuel rnd key (path_text path) true = NoFuel
  end.
Proof. apply derivePath_spec. Qed.

(** C22. Extended keys: for the networks of the code, the text that [serialize] leaves
    has 111 characters, begins with xprv, xpub, tprv or tpub as the version says, and
    fills the 112 bytes of its array with its end; decoding it gives the version, the
    depth, the fingerprint, the index, the chain code and the key, private or
    public. *)
Theorem extended_key_text (g : ctx) (key : HDKey) (k : Z) (c : list Z) (fp version : Z) (t : list Z) (public : bool) (junk out : list Z) :
  holds key k c -> publicKey key = pub33 k \/ public = false -> (version, t) ∈ versions -> 32 <= zlen junk -> zlen out = 78 ->
  exists s, serialize g key fp version public =
      Ret (if public then set_extPublicKey key (s ++ [0]) else set_extPrivateKey key (s ++ [0])) /\
    zlen s = 111 /\ ztake 4 s = t /\
    base58.base58_decode_check g junk s hasher.HASHER_SHA2D out 78 =
      Ret (78, ext_bytes version (depth key) fp (index key) c (key_bytes k public)).
Proof. apply serialize_spec. Qed.

(** The steps from a mnemonic to an address. *)
Lemma address_of_mnemonic (fuel : nat) (junk words path rnd rnd' unset : list Z) (kjunk : list (list Z)) :
  length junk = 128%nat -> bytes_ok junk -> bytes_ok words -> Forall (fun x => x <> 0) words -> Forall (is_u 32) path ->
  shape kjunk -> zlen unset = 64 -> draws (path_draws path + 3) rnd = Ret rnd' ->
  (root ← makeEthRootKey_mnemonic fuel junk true words;
   '(key, rnd) ← makeEthExtendedKey fuel rnd root (path_text path);
   getEthAddress kjunk unset rnd key) =
  match ('(k, c) ← master fuel (rfc_pbkdf2 mac512 words (bytes_of "mnemonic") 2048); ckd_path fuel k c path) with
  | Some (k, _) => Ret (eth_address k, rnd')
  | None => NoFuel
  end.
Proof.
  intros Hj Hjo Hw Hnz Hp Hkj Hu Hd. unfold makeEthRootKey_mnemonic. rewrite makeBip39Seed_spec, bind_Ret by done. unfold makeEthRootKey.
  pose proof (rfc_pbkdf2_ok words (bytes_of "mnemonic") 2048) as Hs. set (seed := rfc_pbkdf2 mac512 words (bytes_of "mnemonic") 2048) in *. clearbody seed.
  rewrite fromSeed_spec by done. destruct (master fuel seed) as [[k c]|] eqn:Em; [|done]. rewrite !bind_Ret.
  pose proof (root_holds fuel seed k c Em) as Hh. change (assign_key new_key (root_key k c)) with (root_key k c).
  change (Some (k, c) ≫= (fun '(k, c) => ckd_path fuel k c path)) with (ckd_path fuel k c path).
  destruct (draws_add _ _ _ _ Hd) as (r1 & D1 & D23). destruct (draws_S _ _ _ D23) as (r2 & D2 & D3). destruct (draws_S _ _ _ D3) as (r3 & D4 & D5).
  unfold makeEthExtendedKey. pose proof (derivePath_spec fuel path rnd r1 (root_key k c) k c Hh Hp D1) as P.
  destruct (ckd_path fuel k c path) as [[k' c']|]; [|by rewrite P]. destruct P as (key' & -> & Hh' & _). rewrite bind_Ret.
  destruct (fillPublicKey_holds key' k' c' r1 r2 Hh' D2) as (E1 & H1 & _). rewrite E1, bind_Ret.
  destruct (fillPublicKey_holds _ k' c' r2 r3 H1 D4) as (_ & _ & E2 & H2). rewrite E2, bind_Ret.
  by apply (getEthAddress_spec kjunk unset r3 rnd' _ k' c').
Qed.

(** C5. The address of a mnemonic: making the root key of a text of words, the key at
    a path and its address gives the address of the private key that BIP39 and BIP32
    define, the last 20 bytes of the Keccak-256 hash of its public key in
    hexadecimal: PBKDF2 for the seed, the master key of the seed, and a child for
    every index of the path. *)
Theorem mnemonic_address (fuel : nat) (junk words path rnd rnd' unset : list Z) (kjunk : list (list Z)) :
  length junk = 128%nat -> bytes_ok junk -> bytes_ok words -> Forall (fun x => x <> 0) words -> Forall (is_u 32) path ->
  shape kjunk -> zlen unset = 64 -> draws (path_draws path + 3) rnd = Ret rnd' ->
  (root ← makeEthRootKey_mnemonic fuel junk true words;
   '(key, rnd) ← makeEthExtendedKey fuel rnd root (path_text path);
   getEthAddress kjunk unset rnd key) =
  match ('(k, c) ← master fuel (rfc_pbkdf2 mac512 words (bytes_of "mnemonic") 2048); ckd_path fuel k c path) with
  | Some (k, _) => Ret (eth_address k, rnd')
  | None => NoFuel
  end.
Proof. apply address_of_mnemonic. Qed.

(** ** Where keys and paths go wrong *)

(** A hardened index from 2^31 on wraps around: the path part 2147483648' derives
    child 0, which is not hardened. *)
Theorem hardened_index_wraps (fuel : nat) (rnd : list Z) (key : HDKey) :
  derive_bit fuel true rnd key (bytes_of "2147483648'") = derive_bit fuel true rnd key (bytes_of "0").
Proof.
  unfold derive_bit. change (bool_decide (bytes_of "2147483648'" = bytes_of "m") || bool_decide (bytes_of "2147483648'" = [39])) with false.
  change (bool_decide (bytes_of "0" = bytes_of "m") || bool_decide (bytes_of "0" = [39])) with false. cbn [Z.ltb]. done.
Qed.

(** [split_by_len] does not cut: its parts overlap from the second on. *)
Theorem split_by_len_overlaps :
  toolbox_strings.split_by_len (bytes_of "abcdef") 2 = Ret [bytes_of "ab"; bytes_of "cdef"; bytes_of "ef"].
Proof. by vm_compute. Qed.

(** The copy of a key object loses the 64- and 65-byte public keys. *)
Theorem copy_loses_public_keys (key : HDKey) :
  publicKey64 (copy_key key) = replicate 64 0 /\ publicKey65 (copy_key key) = replicate 65 0 /\ publicKey (copy_key key) = publicKey key.
Proof. done. Qed.

(** The path of the program, and the first test vector of BIP32. *)
Lemma ptp_hd_path : path_text [2 ^ 31 + 44; 2 ^ 31 + 60; 2 ^ 31; 1; 0] = bytes_of "m/44'/60'/0'/1/0".
Proof. by vm_compute. Qed.

Lemma bip32_vector_1 :
  (k ← fromSeed 1 (map Z.of_nat (seq 0 16)); Ret (privateKey k)) =
  Ret (toolbox_data.hex_to_bytes (bytes_of "e8f32e723decf4051aefac8e2c93c9c5b214313817cdb01a1494b917c8436b35")).
Proof. by vm_compute. Qed.

(** A concrete key: private key 7. *)
Lemma seven_holds : holds (root_key 7 (replicate 32 1)) 7 (replicate 32 1).
Proof. constructor; try done; try (by vm_compute). split; [|done]. apply (bool_decide_unpack _). by vm_compute. Qed.

Lemma seven_child : match ckd 1 7 (replicate 32 1) (2 ^ 31 + 44) with Some _ => true | None => false end = true.
Proof. by vm_compute. Qed.

Lemma derive_is_bip32_witness :
  exists child, child = ckd 1 7 (replicate 32 1) (2 ^ 31 + 44) /\
    derive 1 (replicate 9 5) (root_key 7 (replicate 32 1)) (2 ^ 31 + 44) =
      match child with Some (k', c') => Ret (child_key (root_key 7 (replicate 32 1)) 7 k' c' (2 ^ 31 + 44), []) | None => NoFuel end.
Proof.
  eexists. split; [reflexivity|].
  refine (proj1 (derive_is_bip32 1 (replicate 9 5) [] (root_key 7 (replicate 32 1)) 7 (replicate 32 1) (2 ^ 31 + 44) seven_holds _ _)).
  - by unfold is_u.
  - by vm_compute.
Defined.

Lemma path_derivation_witness :
  match ckd_path 1 7 (replicate 32 1) [2 ^ 31 + 44; 2 ^ 31 + 60] with
  | Some (k', c') => exists key', derivePath 1 (replicate 18 5) (root_key 7 (replicate 32 1)) (bytes_of "m/44'/60'") true = Ret (key', []) /\
      holds key' k' c' /\ depth key' = 2 /\ net key' = MainNet
  | None => derivePath 1 (replicate 18 5) (root_key 7 (replicate 32 1)) (bytes_of "m/44'/60'") true = NoFuel
  end.
Proof.
  apply (path_derivation 1 [2 ^ 31 + 44; 2 ^ 31 + 60] (replicate 18 5) [] (root_key 7 (replicate 32 1)) 7 (replicate 32 1) seven_holds).
  - apply (bool_decide_unpack _). by vm_compute.
  - by vm_compute.
Defined.

Lemma extended_key_text_witness :
  exists s, serialize sha256_Init (root_key 7 (replicate 32 1)) 0 0x0488ade4 false = Ret (set_extPrivateKey (root_key 7 (replicate 32 1)) (s ++ [0])) /\
    zlen s = 111 /\ ztake 4 s = bytes_of "xprv".
Proof.
  destruct (extended_key_text sha256_Init (root_key 7 (replicate 32 1)) 7 (replicate 32 1) 0 0x0488ade4 (bytes_of "xprv") false (replicate 32 0) (replicate 78 0) seven_holds)
    as (s & E & L & T & _); [by right|set_solver|done|done|].
  exists s. split; [exact E|]. split; [exact L|exact T].
Defined.

Lemma mnemonic_address_witness :
  (root ← makeEthRootKey_mnemonic 1 (replicate 128 7) true (bytes_of "abandon about");
   '(key, rnd) ← makeEthExtendedKey 1 (replicate 90 5) root (bytes_of "m/44'/60'/0'/1/0");
   getEthAddress (replicate 5 (replicate 5 0)) (replicate 64 0) rnd key) =
  match ('(k, c) ← master 1 (rfc_pbkdf2 mac512 (bytes_of "abandon about") (bytes_of "mnemonic") 2048);
         ckd_path 1 k c [2 ^ 31 + 44; 2 ^ 31 + 60; 2 ^ 31; 1; 0]) with
  | Some (k, _) => Ret (eth_address k, [])
  | None => NoFuel
  end.
Proof.
  rewrite <- ptp_hd_path.
  apply (mnemonic_address 1 (replicate 128 7) (bytes_of "abandon about") [2 ^ 31 + 44; 2 ^ 31 + 60; 2 ^ 31; 1; 0] (replicate 90 5) [] (replicate 64 0) (replicate 5 (replicate 5 0)));
    [done|apply (bool_decide_unpack _); by vm_compute..|split; [done|by repeat constructor]|done|by vm_compute].
Defined.

End Claims.
