(* ===== verification/Token.v ===== *)
(** * Tokens of users

    Models src/src/ptp_global/TokenValidator.cpp: an MD5 of its own, the token of a
    user and an hour, and the check of a token, which accepts those of the hour
    before, the current and the next one.

    [localtime] is a parameter: the calendar fields of a time.  The theorems: [md5] is
    the MD5 of RFC 1321; a token is the hexadecimal digest with its bytes reversed;
    which tokens are valid, and for how long. *)

From S2P Require Import Prelude Words Sha2 Helpers.

Module TokenValidator.

(** ** MD5 *)

Definition k : list Z := Eval cbv in hex_words
    "d76aa478 e8c7b756 242070db c1bdceee f57c0faf 4787c62a a8304613 fd469501
     698098d8 8b44f7af ffff5bb1 895cd7be 6b901122 fd987193 a679438e 49b40821
     f61e2562 c040b340 265e5a51 e9b6c7aa d62f105d 02441453 d8a1e681 e7d3fbc8
     21e1cde6 c33707d6 f4d50d87 455a14ed a9e3e905 fcefa3f8 676f02d9 8d2a4c8a
     fffa3942 8771f681 6d9d6122 fde5380c a4beea44 4bdecfa9 f6bb4b60 bebfbc70
     289b7ec6 eaa127fa d4ef3085 04881d05 d9d4d039 e6db99e5 1fa27cf8 c4ac5665
     f4292244 432aff97 ab9423a7 fc93a039 655b59c3 8f0ccc92 ffeff47d 85845dd1
     6fa87e4f fe2ce6e0 a3014314 4e0811a1 f7537e82 bd3af235 2ad7d2bb eb86d391".

Definition r : list Z :=
  [7; 12; 17; 22; 7; 12; 17; 22; 7; 12; 17; 22; 7; 12; 17; 22;
   5;  9; 14; 20; 5;  9; 14; 20; 5;  9; 14; 20; 5;  9; 14; 20;
   4; 11; 16; 23; 4; 11; 16; 23; 4; 11; 16; 23; 4; 11; 16; 23;
   6; 10; 15; 21; 6; 10; 15; 21; 6; 10; 15; 21; 6; 10; 15; 21].

Definition LEFTROTATE (x c : Z) : Z := Z.lor (u32 (Z.shiftl x c)) (Z.shiftr x (32 - c)).

(** [to_bytes(val, bytes + off)] and [to_int32(bytes + off)]. *)
Definition to_bytes (val : Z) (bytes : list Z) (off : Z) : outcome (list Z) :=
  mem_write bytes off [u8 val; u8 (Z.shiftr val 8); u8 (Z.shiftr val 16); u8 (Z.shiftr val 24)].

Definition to_int32 (bytes : list Z) (off : Z) : outcome Z :=
  b0 ← mem_get bytes off;
  b1 ← mem_get bytes (off + 1);
  b2 ← mem_get bytes (off + 2);
  b3 ← mem_get bytes (off + 3);
  Ret (Z.lor (Z.lor (Z.lor b0 (Z.shiftl b1 8)) (Z.shiftl b2 16)) (Z.shiftl b3 24)).

(** [for (new_len = initial_len + 1; new_len % 64 != 56; new_len++)]; at most 63
    rounds. *)
Fixpoint pad_len (fuel : nat) (new_len : Z) : outcome Z :=
  if new_len mod 64 =? 56 then Ret new_len else
  match fuel with O => NoFuel | S fuel => pad_len fuel (u64 (new_len + 1)) end.

Fixpoint zero_fill (n : nat) (msg : list Z) (offset : Z) : outcome (list Z) :=
  match n with
  | O => Ret msg
  | S n => msg ← mem_write msg offset [0]; zero_fill n msg (offset + 1)
  end.

Fixpoint block_words (n : nat) (i : Z) (msg : list Z) (offset : Z) : outcome (list Z) :=
  match n with
  | O => Ret []
  | S n => x ← to_int32 msg (offset + i * 4); w ← block_words n (i + 1) msg offset; Ret (x :: w)
  end.

(** The registers a, b, c, d. *)
Record regs := mkR { ra : Z; rb : Z; rc : Z; rd : Z }.

Definition f_g (i : nat) (s : regs) : Z * nat :=
  let b := rb s in let c := rc s in let d := rd s in
  if (i <? 16)%nat then (Z.lor (Z.land b c) (Z.land (u32 (Z.lnot b)) d), i)
  else if (i <? 32)%nat then (Z.lor (Z.land d b) (Z.land (u32 (Z.lnot d)) c), ((5 * i + 1) mod 16)%nat)
  else if (i <? 48)%nat then (Z.lxor (Z.lxor b c) d, ((3 * i + 5) mod 16)%nat)
  else (Z.lxor c (Z.lor b (u32 (Z.lnot d))), ((7 * i) mod 16)%nat).

Definition round (i : nat) (w : list Z) (s : regs) : regs :=
  let '(f, g) := f_g i s in
  mkR (rd s) (u32 (rb s + LEFTROTATE (u32 (ra s + f + at_ k i + at_ w g)) (at_ r i))) (rb s) (rc s).

Fixpoint main_loop (n i : nat) (w : list Z) (s : regs) : regs :=
  match n with O => s | S n => main_loop n (S i) w (round i w s) end.

(** One block of sixteen words. *)
Definition block (h : regs) (w : list Z) : regs :=
  let s := main_loop 64 0 w h in
  mkR (u32 (ra h + ra s)) (u32 (rb h + rb s)) (u32 (rc h + rc s)) (u32 (rd h + rd s)).

Fixpoint chunk_loop (fuel : nat) (offset new_len : Z) (msg : list Z) (h : regs) : outcome regs :=
  if negb (offset <? new_len) then Ret h else
  match fuel with
  | O => NoFuel
  | S fuel => w ← block_words 16 0 msg offset; chunk_loop fuel (offset + 64) new_len msg (block h w)
  end.

Definition initial : regs := mkR 0x67452301 0xefcdab89 0x98badcfe 0x10325476.

(** [malloc] succeeds; [junk] fills the new memory. *)
Definition md5 (junk : nat -> Z) (initial_msg : list Z) (initial_len : Z) (digest : list Z) : outcome (list Z) :=
  new_len ← pad_len 64 (u64 (initial_len + 1));
  let msg := realloc junk [] (u64 (new_len + 8)) in
  bs ← mem_read initial_msg 0 initial_len;
  msg ← mem_write msg 0 bs;
  msg ← mem_write msg initial_len [0x80];
  msg ← zero_fill (Z.to_nat (new_len - (initial_len + 1))) msg (initial_len + 1);
  msg ← to_bytes (u32 (u64 (initial_len * 8))) msg new_len;
  msg ← to_bytes (u32 (Z.shiftr initial_len 29)) msg (new_len + 4);
  h ← chunk_loop (length msg) 0 new_len msg initial;
  digest ← to_bytes (ra h) digest 0;
  digest ← to_bytes (rb h) digest 4;
  digest ← to_bytes (rc h) digest 8;
  to_bytes (rd h) digest 12.

(** ** Tokens *)

(** The fields of [struct tm] that the token uses. *)
Record tm := mkTm { tm_year : Z; tm_mon : Z; tm_mday : Z; tm_hour : Z }.

Definition AUTH_ENCRYPT_KEY : list Z := bytes_of "z2M11gj!@#1LK23".

(** [%0<width>d] of an [int], and [snprintf] of a text into [size] bytes. *)
Definition zero_padded (width : Z) (n : Z) : list Z :=
  if 0 <=? n then replicate (Z.to_nat (width - zlen (Helpers.decimal n))) 48 ++ Helpers.decimal n
  else [45] ++ replicate (Z.to_nat (width - 1 - zlen (Helpers.decimal (- n)))) 48 ++ Helpers.decimal (- n).

Definition snprintf (buf : list Z) (size : Z) (text : list Z) : outcome (list Z) :=
  mem_write buf 0 (ztake (size - 1) text ++ [0]).

(** [for (i = 0; i < 16; i++) sprintf(md5_str_buf + 2 * i, "%02x", md5_buf\[i\])]. *)
Fixpoint print_hex (n : nat) (i : Z) (md5_buf buf : list Z) : outcome (list Z) :=
  match n with
  | O => Ret buf
  | S n =>
      b ← mem_get md5_buf i;
      buf ← mem_write buf (2 * i) (Helpers.hex_byte b ++ [0]);
      print_hex n (i + 1) md5_buf buf
  end.

(** [c = buf\[i\]; buf\[i\] = buf\[j\]; buf\[j\] = c]. *)
Definition swap (buf : list Z) (i j : Z) : outcome (list Z) :=
  c ← mem_get buf i;
  x ← mem_get buf j;
  buf ← mem_write buf i [x];
  mem_write buf j [c].

Fixpoint reverse_loop (n : nat) (i : Z) (buf : list Z) : outcome (list Z) :=
  match n with O => Ret buf | S n => buf ← swap buf i (31 - i); reverse_loop n (i + 1) buf end.

Fixpoint switch_loop (n : nat) (i : Z) (buf : list Z) : outcome (list Z) :=
  match n with O => Ret buf | S n => buf ← swap buf i (i + 1); switch_loop n (i + 2) buf end.

Section Token.
Variables (localtime : Z -> tm) (junk : nat -> Z).

Definition hour_text (t : tm) : list Z :=
  zero_padded 4 (i32 (tm_year t + 1900)) ++ bytes_of "-" ++ zero_padded 2 (i32 (tm_mon t + 1)) ++ bytes_of "-" ++
  zero_padded 2 (tm_mday t) ++ bytes_of "-" ++ zero_padded 2 (tm_hour t).

Definition token_source (uid : Z) (t_buf : list Z) : list Z :=
  AUTH_ENCRYPT_KEY ++ bytes_of "_" ++ Helpers.decimal uid ++ bytes_of "_" ++ t_buf ++ bytes_of "_" ++ AUTH_ENCRYPT_KEY.

(** [now] is what [time] gives; the return value is 0. *)
Definition genToken (uid now time_offset : Z) (md5_str_buf : list Z) : outcome (list Z) :=
  t_buf ← snprintf (realloc junk [] 128) 128 (hour_text (localtime (i64 (now + time_offset))));
  tmp_buf ← snprintf (realloc junk [] 256) 256 (token_source uid (c_str t_buf));
  md5_buf ← md5 junk tmp_buf (zlen (c_str tmp_buf)) (realloc junk [] 32);
  buf ← print_hex 16 0 md5_buf md5_str_buf;
  buf ← reverse_loop 16 0 buf;
  switch_loop 16 0 buf.

(** [time] is read for each of the three tokens. *)
Definition IsTokenValid (user_id now1 now2 now3 : Z) (token : list Z) : outcome bool :=
  token1 ← genToken user_id now1 (-3600) (realloc junk [] 64);
  token2 ← genToken user_id now2 0 (realloc junk [] 64);
  token3 ← genToken user_id now3 3600 (realloc junk [] 64);
  Ret (bool_decide (c_str token = c_str token1) || bool_decide (c_str token = c_str token2) || bool_decide (c_str token = c_str token3)).

End Token.
End TokenValidator.

(** ** The specification: RFC 1321 *)

Module rfc1321.

Definition lnot32 (x : Z) : Z := 2 ^ 32 - 1 - x.
Definition F (x y z : Z) : Z := Z.lor (Z.land x y) (Z.land (lnot32 x) z).
Definition G (x y z : Z) : Z := Z.lor (Z.land x z) (Z.land y (lnot32 z)).
Definition H (x y z : Z) : Z := Z.lxor (Z.lxor x y) z.
Definition I (x y z : Z) : Z := Z.lxor y (Z.lor x (lnot32 z)).

Definition rotl (x s : Z) : Z := (x * 2 ^ s) mod 2 ^ 32 + x / 2 ^ (32 - s).

(** The operations of the four rounds: the function, the word of the block and the
    shift of each. *)
Definition round_ops (f : Z -> Z -> Z -> Z) (words : list nat) (shifts : list Z) : list ((Z -> Z -> Z -> Z) * nat * Z) :=
  zip_with (fun kk s => (f, kk, s)) words (shifts ++ shifts ++ shifts ++ shifts).

Definition ops : list ((Z -> Z -> Z -> Z) * nat * Z) :=
  round_ops F [0; 1; 2; 3; 4; 5; 6; 7; 8; 9; 10; 11; 12; 13; 14; 15]%nat [7; 12; 17; 22] ++
  round_ops G [1; 6; 11; 0; 5; 10; 15; 4; 9; 14; 3; 8; 13; 2; 7; 12]%nat [5; 9; 14; 20] ++
  round_ops H [5; 8; 11; 14; 1; 4; 7; 10; 13; 0; 3; 6; 9; 12; 15; 2]%nat [4; 11; 16; 23] ++
  round_ops I [0; 7; 14; 5; 12; 3; 10; 1; 8; 15; 6; 13; 4; 11; 2; 9]%nat [6; 10; 15; 21].

(** [a = b + ((a + f(b,c,d) + X\[k\] + T\[i\]) <<< s)]; the next operation has the
    registers d, a, b, c. *)
Definition op (X : list Z) (q : Z * Z * Z * Z) (o : (Z -> Z -> Z -> Z) * nat * Z * Z) : Z * Z * Z * Z :=
  let '(a, b, c, d) := q in
  let '(f, kk, s, t) := o in
  (d, (b + rotl ((a + f b c d + nth kk X 0 + t) mod 2 ^ 32) s) mod 2 ^ 32, b, c).

Definition compress (q : Z * Z * Z * Z) (b : list Z) : Z * Z * Z * Z :=
  let '(a, b', c, d) := q in
  let '(a2, b2, c2, d2) := fold_left (op (map le_word (chunks 4 16 b))) (zip ops TokenValidator.k) q in
  ((a + a2) mod 2 ^ 32, (b' + b2) mod 2 ^ 32, (c + c2) mod 2 ^ 32, (d + d2) mod 2 ^ 32).

Definition pad (m : list Z) : list Z := m ++ [0x80] ++ replicate (Z.to_nat ((55 - zlen m) mod 64)) 0 ++ le_bytes 8 (8 * zlen m).

Definition md5 (m : list Z) : list Z :=
  let p := pad m in
  let '(a, b, c, d) := fold_left compress (chunks 64 (length p / 64) p) (0x67452301, 0xefcdab89, 0x98badcfe, 0x10325476) in
  le_bytes 4 a ++ le_bytes 4 b ++ le_bytes 4 c ++ le_bytes 4 d.

End rfc1321.


(** ** The rounds are those of the standard *)

Section Md5.
Import TokenValidator.

Definition quad (s : regs) : Z * Z * Z * Z := (ra s, rb s, rc s, rd s).
Definition regs_ok (s : regs) : Prop := is_u 32 (ra s) /\ is_u 32 (rb s) /\ is_u 32 (rc s) /\ is_u 32 (rd s).

Lemma lnot_word x : is_u 32 x -> u32 (Z.lnot x) = rfc1321.lnot32 x.
Proof.
  unfold is_u, rfc1321.lnot32, wrap_u. intros Hx. unfold Z.lnot. pow2.
  replace (Z.pred (- x)) with (4294967296 - 1 - x + (-1) * 4294967296) by lia. rewrite Z.mod_add by lia. by rewrite Z.mod_small by lia.
Qed.

Lemma rotate_word x s : is_u 32 x -> 0 <= s <= 32 -> LEFTROTATE x s = rfc1321.rotl x s.
Proof.
  intros Hx Hs. unfold is_u in Hx. unfold LEFTROTATE, rfc1321.rotl. rewrite Z.shiftr_div_pow2, Z.shiftl_mul_pow2 by lia. unfold wrap_u.
  assert (2 ^ 32 = 2 ^ (32 - s) * 2 ^ s) as E by (rewrite <- Z.pow_add_r by lia; f_equal; lia).
  rewrite E, Z.mul_mod_distr_r by lia. rewrite <- Z.shiftl_mul_pow2 by lia. rewrite lor_shiftl_add; [by rewrite Z.shiftl_mul_pow2 by lia|lia|].
  split; [apply Z.div_pos; lia|]. apply Z.div_lt_upper_bound; lia.
Qed.

(** The operations by their number. *)
Definition fn_of (i : nat) : Z -> Z -> Z -> Z :=
  if (i <? 16)%nat then rfc1321.F else if (i <? 32)%nat then rfc1321.G else if (i <? 48)%nat then rfc1321.H else rfc1321.I.
Definition word_of (i : nat) : nat :=
  if (i <? 16)%nat then i else if (i <? 32)%nat then ((5 * i + 1) mod 16)%nat else if (i <? 48)%nat then ((3 * i + 5) mod 16)%nat else ((7 * i) mod 16)%nat.

Lemma ops_numbered : zip rfc1321.ops k = map (fun i => (fn_of i, word_of i, at_ r i, at_ k i)) (seq 0 64).
Proof. reflexivity. Qed.

Lemma shift_bounds i : 0 <= at_ r i <= 32.
Proof.
  unfold at_. assert (Forall (fun x => 0 <= x <= 32) r) as H by (apply (bool_decide_unpack _); by vm_compute).
  rewrite nth_lookup. destruct (r !! i) as [x|] eqn:E; cbn; [|lia]. rewrite list.Forall_lookup in H. by apply (H i).
Qed.

Lemma f_g_spec i s : regs_ok s -> f_g i s = (fn_of i (rb s) (rc s) (rd s), word_of i).
Proof.
  intros (_ & Hb & _ & Hd). unfold f_g, fn_of, word_of. rewrite !lnot_word by done.
  destruct (i <? 16)%nat; [done|]. destruct (i <? 32)%nat; [|by destruct (i <? 48)%nat].
  unfold rfc1321.G. do 2 f_equal; by rewrite Z.land_comm.
Qed.

Lemma round_spec i w s : regs_ok s ->
  regs_ok (round i w s) /\ quad (round i w s) = rfc1321.op w (quad s) (fn_of i, word_of i, at_ r i, at_ k i).
Proof.
  intros Hs. unfold round. rewrite f_g_spec by done. destruct Hs as (Ha & Hb & Hc & Hd). split.
  - unfold regs_ok. cbn [ra rb rc rd]. split_and!; [done| |done..]. by apply wrap_u_range.
  - unfold quad, rfc1321.op. cbn [ra rb rc rd]. rewrite rotate_word by (apply shift_bounds || by apply wrap_u_range).
    rewrite <- !Z.add_assoc, (Z.add_comm (at_ k i)), !Z.add_assoc. done.
Qed.

Lemma main_loop_spec n : forall i w s, regs_ok s ->
  regs_ok (main_loop n i w s) /\
  quad (main_loop n i w s) = fold_left (rfc1321.op w) (map (fun i => (fn_of i, word_of i, at_ r i, at_ k i)) (seq i n)) (quad s).
Proof.
  induction n as [|n IH]; intros i w s Hs; [done|]. cbn [main_loop seq map fold_left].
  destruct (round_spec i w s Hs) as [H1 <-]. by apply IH.
Qed.

Lemma block_spec h b : regs_ok h ->
  regs_ok (block h (map le_word (chunks 4 16 b))) /\ quad (block h (map le_word (chunks 4 16 b))) = rfc1321.compress (quad h) b.
Proof.
  intros Hh. set (w := map le_word (chunks 4 16 b)). destruct (main_loop_spec 64 0 w h Hh) as [_ E]. unfold block. split.
  - unfold regs_ok. cbn [ra rb rc rd]. split_and!; by apply wrap_u_range.
  - unfold rfc1321.compress. rewrite ops_numbered. fold w. unfold quad at 2. rewrite <- E. unfold quad. done.
Qed.

(** ** The blocks of the message *)

Lemma pad_len_spec fuel : forall n, 0 <= n -> (56 - n) mod 64 <= Z.of_nat fuel -> n + (56 - n) mod 64 < 2 ^ 64 ->
  pad_len fuel n = Ret (n + (56 - n) mod 64).
Proof.
  induction fuel as [|fuel IH]; intros n Hn Hf Hl; cbn [pad_len]; destruct (Z.eqb_spec (n mod 64) 56) as [E|E];
    try (f_equal; assert ((56 - n) mod 64 = 0) by (Z.div_mod_to_equations; lia); lia).
  - exfalso. Z.div_mod_to_equations. lia.
  - assert ((56 - (n + 1)) mod 64 = (56 - n) mod 64 - 1) as Hm by (Z.div_mod_to_equations; lia).
    pose proof (Z.mod_pos_bound (56 - (n + 1)) 64). rewrite wrap_u_small by (unfold is_u; lia). rewrite IH by lia. f_equal. lia.
Qed.

Lemma zero_fill_spec n : forall msg offset, 0 <= offset -> offset + Z.of_nat n <= zlen msg ->
  zero_fill n msg offset = mem_write msg offset (replicate n 0).
Proof.
  induction n as [|n IH]; intros msg offset Ho Hl; cbn [zero_fill replicate].
  - rewrite mem_write_ok by (rewrite ?zlen_nil; lia). rewrite zlen_nil, Z.add_0_r. cbn [app]. by rewrite ztake_zdrop.
  - change (0 :: replicate n 0) with ([0] ++ replicate n 0). rewrite mem_write_seq by done. change (zlen [0]) with 1.
    destruct (mem_write msg offset [0]) eqn:E; try done. mstep. apply mem_write_len in E. apply IH; lia.
Qed.

Lemma word_bytes v : [u8 v; u8 (Z.shiftr v 8); u8 (Z.shiftr v 16); u8 (Z.shiftr v 24)] = le_bytes 4 v.
Proof. cbn [le_bytes]. by rewrite !Z.shiftr_shiftr by lia. Qed.

Lemma le_bytes_wrap n v : le_bytes n (wrap_u (8 * Z.of_nat n) v) = le_bytes n v.
Proof. rewrite <- le_word_bytes. rewrite <- (length_le_bytes n v) at 1. apply le_bytes_word, le_bytes_ok. Qed.

Lemma le_bytes_u32 v : le_bytes 4 (u32 v) = le_bytes 4 v.
Proof. exact (le_bytes_wrap 4 v). Qed.

Lemma length_bytes len : is_u 63 len -> le_bytes 4 (u32 (u64 (len * 8))) ++ le_bytes 4 (u32 (Z.shiftr len 29)) = le_bytes 8 (8 * len).
Proof.
  intros Hl. change (le_bytes 8 (8 * len)) with (le_bytes (4 + 4) (8 * len)). rewrite le_bytes_app. f_equal.
  - rewrite <- (le_bytes_u32 (8 * len)). f_equal. unfold wrap_u.
    rewrite Z.mod_mod_divide; [f_equal; lia|]. by exists (2 ^ 32).
  - rewrite le_bytes_u32. f_equal. change (8 * Z.of_nat 4) with 32. rewrite !Z.shiftr_div_pow2 by lia. change (2 ^ 32) with (2 ^ 29 * 8).
    rewrite (Z.mul_comm 8), Z.div_mul_cancel_r by lia. done.
Qed.

Lemma zlen_pad m : zlen (rfc1321.pad m) = zlen m + 1 + (55 - zlen m) mod 64 + 8.
Proof.
  unfold rfc1321.pad. rewrite !zlen_app, zlen_replicate. change (zlen [128]) with 1. unfold zlen at 3. rewrite length_le_bytes.
  pose proof (Z.mod_pos_bound (55 - zlen m) 64). lia.
Qed.

Lemma word_read pre b0 b1 b2 b3 post off : off = zlen pre ->
  to_int32 (pre ++ b0 :: b1 :: b2 :: b3 :: post) off = Ret (le_word [b0; b1; b2; b3]).
Proof.
  intros ->. unfold to_int32.
  assert (forall l b x o, l = pre ++ b -> o = zlen pre + zlen b -> mem_get (l ++ x :: drop (S (length b)) (b0 :: b1 :: b2 :: b3 :: post)) o = Ret x) as Hg
    by (intros l b x o -> ->; apply mem_get_app; zlia).
  pose proof (Hg _ [] b0 _ eq_refl eq_refl) as E0. pose proof (Hg _ [b0] b1 _ eq_refl eq_refl) as E1.
  pose proof (Hg _ [b0; b1] b2 _ eq_refl eq_refl) as E2. pose proof (Hg _ [b0; b1; b2] b3 _ eq_refl eq_refl) as E3.
  rewrite <- app_assoc in E0, E1, E2, E3. cbn [length drop app] in E0, E1, E2, E3. rewrite drop_0 in E3.
  change (zlen (@nil Z)) with 0 in E0. rewrite Z.add_0_r in E0. change (zlen [b0]) with 1 in E1. change (zlen [b0; b1]) with 2 in E2. change (zlen [b0; b1; b2]) with 3 in E3.
  rewrite E0, E1, E2, E3. mstep.
  f_equal. cbn [le_word]. rewrite !Z.shiftl_lor, !Z.shiftl_shiftl, Z.shiftl_0_l, Z.lor_0_r by lia. by rewrite !Z.lor_assoc.
Qed.

Lemma block_words_spec n : forall i pre b post offset,
  length b = (4 * n)%nat -> 0 <= i -> offset + i * 4 = zlen pre ->
  block_words n i (pre ++ b ++ post) offset = Ret (map le_word (chunks 4 n b)).
Proof.
  induction n as [|n IH]; intros i pre b post offset Hl Hi Ho; [done|].
  destruct b as [|b0 [|b1 [|b2 [|b3 b]]]]; try (cbn in Hl; lia). cbn [block_words app]. rewrite word_read by done. mstep.
  replace (pre ++ b0 :: b1 :: b2 :: b3 :: b ++ post) with ((pre ++ [b0; b1; b2; b3]) ++ b ++ post) by (by rewrite <- app_assoc).
  rewrite IH; [done|cbn in Hl; lia|lia|]. rewrite zlen_app. change (zlen [b0; b1; b2; b3]) with 4. lia.
Qed.

#[local] Opaque block rfc1321.compress.

Lemma chunks_cut {A} c n : forall l : list A, length l = (c * n)%nat ->
  concat (chunks c n l) = l /\ Forall (fun b => length b = c) (chunks c n l).
Proof.
  induction n as [|n IH]; intros l Hl; cbn [chunks concat].
  - destruct l; [|cbn in Hl; lia]. split; [done|constructor].
  - destruct (IH (drop c l)) as [E HF]; [rewrite length_drop; lia|]. split; [by rewrite E, take_drop|].
    constructor; [|done]. rewrite length_take. lia.
Qed.

Lemma fold_left_step {A B} (f : A -> B -> A) b l a : fold_left f (b :: l) a = fold_left f l (f a b).
Proof. done. Qed.

Lemma concat_step {A} (b : list A) bs : concat (b :: bs) = b ++ concat bs.
Proof. done. Qed.

Lemma chunk_loop_step fuel offset new_len msg h w :
  offset < new_len -> block_words 16 0 msg offset = Ret w ->
  chunk_loop (S fuel) offset new_len msg h = chunk_loop fuel (offset + 64) new_len msg (block h w).
Proof. intros Hl Hw. unfold chunk_loop at 1. fold chunk_loop. rewrite (proj2 (Z.ltb_lt _ _)) by done. by rewrite Hw. Qed.

Lemma chunk_loop_end fuel offset new_len msg h : new_len <= offset -> chunk_loop fuel offset new_len msg h = Ret h.
Proof. intros Hl. destruct fuel; cbn [chunk_loop]; by rewrite (proj2 (Z.ltb_ge _ _)). Qed.

Lemma chunk_loop_spec bs : forall fuel pre offset new_len h,
  Forall (fun b => length b = 64%nat) bs -> regs_ok h -> offset = zlen pre -> zlen pre + 64 * zlen bs = new_len + 8 -> (length bs <= fuel)%nat ->
  exists h', chunk_loop fuel offset new_len (pre ++ concat bs) h = Ret h' /\ regs_ok h' /\ quad h' = fold_left rfc1321.compress bs (quad h).
Proof.
  induction bs as [|b bs IH]; intros fuel pre offset new_len h HF Hh Ho Hn Hfu.
  - change (zlen (@nil (list Z))) with 0 in Hn. exists h. by rewrite chunk_loop_end by lia.
  - apply Forall_cons_1 in HF as [Hb HF]. rewrite zlen_cons in Hn. destruct fuel as [|fuel]; [cbn in Hfu; lia|].
    pose proof (zlen_nonneg bs). destruct (block_spec h b Hh) as [H1 E1]. assert (zlen b = 64) as Hb' by (unfold zlen; lia).
    set (w := map le_word (chunks 4 16 b)) in *. rewrite fold_left_step, concat_step, <- E1.
    rewrite (chunk_loop_step _ _ _ _ _ w); [|lia|apply block_words_spec; lia]. clear E1. set (h1 := block h w) in *. clearbody h1.
    destruct (IH fuel (pre ++ b) (offset + 64) new_len h1 HF H1) as (h' & E & H2 & E2); [zlia|zlia|cbn in Hfu; lia|].
    rewrite <- app_assoc in E. by exists h'.
Qed.

Lemma initial_ok : regs_ok initial.
Proof. unfold regs_ok, is_u. cbn. lia. Qed.

(** The next of a sequence of writes that ends well. *)
Ltac write_step W :=
  match type of W with (mem_write ?m ?o ?b ≫= _) = _ =>
    let m' := fresh "mm" in let E := fresh "E" in
    destruct (mem_write m o b) as [m'| | |] eqn:E; try done; rewrite bind_Ret in W; rewrite bind_Ret; apply mem_write_len in E
  end.

(** [md5] computes the digest of the standard, whatever the new memory holds. *)
Lemma md5_spec junk (m post digest : list Z) :
  is_u 62 (zlen m) -> 16 <= zlen digest ->
  md5 junk (m ++ post) (zlen m) digest = Ret (rfc1321.md5 m ++ zdrop 16 digest).
Proof.
  intros Hm Hd. unfold is_u in Hm. change (2 ^ 62) with 4611686018427387904 in Hm. pose proof (zlen_pad m) as Lp.
  set (z := (55 - zlen m) mod 64) in *. assert (0 <= z < 64) as Hz by (apply Z.mod_pos_bound; lia).
  unfold md5. rewrite (wrap_u_small 64 (zlen m + 1)) by (unfold is_u; pow2; lia).
  assert ((56 - (zlen m + 1)) mod 64 = z) as Ez by (unfold z; f_equal; lia).
  rewrite pad_len_spec by (rewrite ?Ez; pow2; lia). rewrite Ez. mstep. rewrite (wrap_u_small 64 (zlen m + 1 + z + 8)) by (unfold is_u; pow2; lia).
  rewrite mem_read_ok by zlia. mstep. rewrite zdrop_0, ztake_app_exact by done.
  set (mem := realloc junk [] _). assert (zlen mem = zlen m + 1 + z + 8) as Lm by (apply zlen_realloc; lia).
  assert (forall (f : list Z -> outcome (list Z)),
    (msg ← mem_write mem 0 m; msg ← mem_write msg (zlen m) [0x80];
     msg ← zero_fill (Z.to_nat (zlen m + 1 + z - (zlen m + 1))) msg (zlen m + 1);
     msg ← to_bytes (u32 (u64 (zlen m * 8))) msg (zlen m + 1 + z);
     msg ← to_bytes (u32 (Z.shiftr (zlen m) 29)) msg (zlen m + 1 + z + 4); f msg) = f (rfc1321.pad m)) as Hmsg.
  { intros f. pose proof (mem_write_here mem [] (rfc1321.pad m) ltac:(lia)) as W. rewrite !app_nil_r in W.
    unfold rfc1321.pad in W at 1. rewrite <- length_bytes in W by (unfold is_u; pow2; lia). fold z in W.
    pose proof (zlen_nonneg m). rewrite mem_write_seq in W by lia. write_step W. rewrite Z.add_0_l, mem_write_seq in W by lia. write_step W.
    change (zlen [128]) with 1 in W. rewrite mem_write_seq in W by lia.
    replace (zlen m + 1 + z - (zlen m + 1)) with z by lia. rewrite zero_fill_spec by lia. write_step W.
    rewrite zlen_replicate, Z2Nat.id, mem_write_seq in W by lia. unfold to_bytes. rewrite !word_bytes. write_step W.
    replace (zlen (le_bytes 4 _)) with 4 in W by (unfold zlen; by rewrite length_le_bytes). by rewrite W. }
  rewrite Hmsg. clear Hmsg.
  set (p := rfc1321.pad m) in *.
  assert (exists q, length p = (64 * q)%nat) as [q Hq].
  { exists (Z.to_nat (zlen p / 64)). assert (zlen p mod 64 = 0) by (rewrite Lp; unfold z; Z.div_mod_to_equations; lia).
    unfold zlen in *. Z.div_mod_to_equations. lia. }
  unfold rfc1321.md5. fold p.
  assert (length p / 64 = q)%nat as Eq by (rewrite Hq, Nat.mul_comm; apply Nat.div_mul; lia). rewrite Eq.
  assert (concat (chunks 64 q p) = p /\ Forall (fun b => length b = 64%nat) (chunks 64 q p)) as [Hc HF].
  { by apply chunks_cut. }
  destruct (chunk_loop_spec (chunks 64 q p) (length p) [] 0 (zlen m + 1 + z) initial HF initial_ok eq_refl) as (h & E & Hh & Eh).
  { rewrite zlen_nil. unfold zlen at 1. rewrite length_chunks. unfold zlen in Lp. unfold zlen. lia. }
  { rewrite length_chunks. lia. }
  cbn [app] in E. rewrite Hc in E. rewrite E. change (Ret h ≫= ?g) with (g h). cbn beta.
  change (0x67452301, 0xefcdab89, 0x98badcfe, 0x10325476) with (quad initial). rewrite <- Eh. unfold quad.
  destruct h as [a b c d]. cbn [ra rb rc rd]. unfold to_bytes. rewrite !word_bytes.
  pose proof (ztake_zdrop 16 digest) as Ed.
  pose proof (mem_write_here (ztake 16 digest) (zdrop 16 digest) (le_bytes 4 a ++ le_bytes 4 b ++ le_bytes 4 c ++ le_bytes 4 d)) as W.
  rewrite Ed in W. specialize (W ltac:(rewrite !zlen_app; unfold zlen at 1 2 3 4; rewrite !length_le_bytes; zlia)).
  assert (forall x, zlen (le_bytes 4 x) = 4) as L4 by (intros; unfold zlen; by rewrite length_le_bytes).
  rewrite mem_write_seq in W by lia. write_step W. rewrite Z.add_0_l, L4, mem_write_seq in W by lia. write_step W.
  rewrite L4, mem_write_seq in W by lia. change (4 + 4) with 8 in W. write_step W.
Qed.

End Md5.

(** ** Tokens *)

Section Tokens.
Import TokenValidator.

Lemma rfc_md5_len m : length (rfc1321.md5 m) = 16%nat /\ bytes_ok (rfc1321.md5 m).
Proof.
  unfold rfc1321.md5. destruct (fold_left _ _ _) as [[[a b] c] d]. split.
  - by rewrite !length_app, !length_le_bytes.
  - repeat (apply Forall_app; split); apply le_bytes_ok.
Qed.

Lemma hex_len (b : Z) : zlen (Helpers.hex_byte b) = 2.
Proof. done. Qed.

Lemma print_hex_spec d : forall pre i post pre' x rest,
  i = zlen pre -> zlen pre' = 2 * i -> zlen x = 2 * zlen d + 1 -> d <> [] ->
  print_hex (length d) i (pre ++ d ++ post) (pre' ++ x ++ rest) = Ret (pre' ++ concat (map Helpers.hex_byte d) ++ [0] ++ rest).
Proof.
  induction d as [|b d IH]; intros pre i post pre' x rest Hi Hp Hx Hd; [done|]. cbn [length print_hex app].
  rewrite mem_get_app by done. mstep. rewrite zlen_cons in Hx.
  assert (exists x1 x2, x = x1 ++ x2 /\ zlen x1 = 3) as (x1 & x2 & -> & H1).
  { exists (ztake 3 x), (zdrop 3 x). rewrite ztake_zdrop. split; [done|]. pose proof (zlen_nonneg d). zlia. }
  rewrite <- app_assoc, (mem_write_app pre' x1) by (rewrite ?zlen_app, ?hex_len; change (zlen [0]) with 1; lia). mstep.
  rewrite zlen_app in Hx. destruct d as [|b' d].
  - cbn [length print_hex map concat]. rewrite (zlen_0_nil x2) by (rewrite zlen_nil in Hx; lia). cbn [app]. by rewrite <- !app_assoc.
  - rewrite <- app_assoc. change (length (b' :: d)) with (length (b' :: d)). rewrite (app_assoc pre' (Helpers.hex_byte b)).
    replace (pre ++ b :: (b' :: d) ++ post) with ((pre ++ [b]) ++ (b' :: d) ++ post) by (by rewrite <- app_assoc).
    rewrite (app_assoc [0] x2 rest).
    rewrite IH; [|zlia|rewrite zlen_app, hex_len; lia|rewrite zlen_app; change (zlen [0]) with 1; lia|done].
    cbn [map concat]. by rewrite <- !app_assoc.
Qed.

(** Swapping two bytes. *)
Lemma swap_spec p a q b s i j : i = zlen p -> j = zlen p + 1 + zlen q ->
  swap (p ++ a :: q ++ b :: s) i j = Ret (p ++ b :: q ++ a :: s).
Proof.
  intros -> ->. unfold swap. rewrite (mem_get_app p a (q ++ b :: s) (zlen p)) by done.
  pose proof (mem_get_app (p ++ a :: q) b s (zlen p + 1 + zlen q)) as E. rewrite <- app_assoc in E. cbn [app] in E.
  rewrite E by (rewrite zlen_app, zlen_cons; lia). mstep.
  rewrite (mem_write_app p [a] (q ++ b :: s) [b]) by done. mstep. cbn [app].
  replace (p ++ b :: q ++ b :: s) with ((p ++ b :: q) ++ [b] ++ s) by (by rewrite <- app_assoc).
  rewrite mem_write_app by (rewrite ?zlen_app, ?zlen_cons; done || lia). by rewrite <- app_assoc.
Qed.

Lemma reverse_loop_spec n : forall i pre x post post',
  length x = (2 * n)%nat -> i = zlen pre -> 2 * i + 2 * Z.of_nat n = 32 ->
  reverse_loop n i (pre ++ x ++ post ++ post') = Ret (pre ++ rev x ++ post ++ post').
Proof.
  induction n as [|n IH]; intros i pre x post post' Hx Hi Hn; [destruct x; [done|cbn in Hx; lia]|].
  destruct x as [|a x]; [cbn in Hx; lia|]. destruct (exists_last (l := x)) as (y & b & ->).
  { intros ->. cbn in Hx. lia. }
  cbn [length] in Hx. rewrite length_app in Hx. cbn [length reverse_loop] in *.
  replace (pre ++ (a :: y ++ [b]) ++ post ++ post') with (pre ++ a :: y ++ b :: (post ++ post')) by (by rewrite <- !app_comm_cons, <- !app_assoc).
  rewrite swap_spec by (unfold zlen in *; lia). mstep.
  replace (pre ++ b :: y ++ a :: post ++ post') with ((pre ++ [b]) ++ y ++ ([a] ++ post) ++ post') by (by rewrite <- !app_assoc).
  rewrite IH by (unfold zlen in *; rewrite ?length_app; cbn [length]; lia). rewrite <- !app_assoc. cbn [rev]. rewrite rev_app_distr. cbn [rev app].
  by rewrite <- !app_assoc.
Qed.

(** Exchanging the characters of each pair turns the reversed digits into the digits
    of the reversed bytes. *)
Fixpoint flip_pairs (x : list Z) : list Z :=
  match x with a :: b :: x => b :: a :: flip_pairs x | _ => x end.

Lemma switch_loop_spec n : forall i pre x post,
  length x = (2 * n)%nat -> i = zlen pre -> switch_loop n i (pre ++ x ++ post) = Ret (pre ++ flip_pairs x ++ post).
Proof.
  induction n as [|n IH]; intros i pre x post Hx Hi; [destruct x; [done|cbn in Hx; lia]|].
  destruct x as [|a [|b x]]; try (cbn in Hx; lia). cbn [switch_loop flip_pairs app].
  pose proof (swap_spec pre a [] b (x ++ post) i (i + 1) Hi ltac:(rewrite zlen_nil; lia)) as E. cbn [app] in E. rewrite E. mstep.
  replace (pre ++ b :: a :: x ++ post) with ((pre ++ [b; a]) ++ x ++ post) by (by rewrite <- app_assoc).
  rewrite IH by (rewrite ?zlen_app; change (zlen [b; a]) with 2; cbn in Hx; lia). by rewrite <- !app_assoc.
Qed.

Lemma flip_pairs_app x : forall y n, length x = (2 * n)%nat -> flip_pairs (x ++ y) = flip_pairs x ++ flip_pairs y.
Proof.
  intros y n. revert x. induction n as [|n IH]; intros x Hx; [by destruct x|]. destruct x as [|a [|b x]]; try (cbn in Hx; lia).
  cbn [app flip_pairs]. rewrite IH by (cbn in Hx; lia). done.
Qed.

Lemma flip_rev_hex d : flip_pairs (rev (concat (map Helpers.hex_byte d))) = concat (map Helpers.hex_byte (rev d)).
Proof.
  induction d as [|b d IH]; [done|]. cbn [map concat]. rewrite rev_app_distr. cbn [rev]. rewrite map_app, concat_app, <- IH.
  rewrite (flip_pairs_app _ _ (length d)); [done|]. rewrite length_rev, (length_concat_chunks 2), length_map; [done|].
  apply Forall_map, Forall_forall. done.
Qed.

Definition token_of (m : list Z) : list Z := concat (map Helpers.hex_byte (rev (rfc1321.md5 m))).

Lemma token_of_len m : length (token_of m) = 32%nat.
Proof.
  unfold token_of. rewrite (length_concat_chunks 2), length_map, length_rev, (proj1 (rfc_md5_len m)); [done|]. apply Forall_map, Forall_forall. done.
Qed.

(** *** Texts *)

Definition char_ok (c : Z) : Prop := c <> 0 /\ c <> 95.

Lemma is_digit_ok c : Helpers.is_digit c -> char_ok c.
Proof. unfold Helpers.is_digit, char_ok. lia. Qed.

Lemma zero_padded_spec w n : is_s 32 n -> 0 <= w <= 4 -> Forall char_ok (zero_padded w n) /\ zlen (zero_padded w n) <= 11.
Proof.
  intros Hn Hw. unfold is_s in Hn. cbn in Hn. unfold zero_padded. destruct (Z.leb_spec 0 n).
  - destruct (Helpers.decimal_spec n) as (Hd & _ & Hl); [lia|]. split.
    + apply Forall_app. split; [apply Forall_replicate; unfold char_ok; lia|]. eapply Forall_impl; [|exact Hd]. apply is_digit_ok.
    + zlia.
  - destruct (Helpers.decimal_spec (- n)) as (Hd & _ & Hl); [lia|]. split.
    + constructor; [unfold char_ok; lia|]. apply Forall_app. split; [apply Forall_replicate; unfold char_ok; lia|].
      eapply Forall_impl; [|exact Hd]. apply is_digit_ok.
    + rewrite zlen_app, zlen_app, zlen_replicate. change (zlen [45]) with 1. lia.
Qed.

(** The fields of a calendar time are machine integers. *)
Definition tm_ok (t : tm) : Prop := is_s 32 (tm_mday t) /\ is_s 32 (tm_hour t).

Lemma hour_text_ok t : tm_ok t -> Forall char_ok (hour_text t) /\ zlen (hour_text t) <= 47.
Proof.
  intros [Hd Hh]. unfold hour_text.
  destruct (zero_padded_spec 4 (i32 (tm_year t + 1900))) as [A1 A2]; [by apply wrap_s_range|lia|].
  destruct (zero_padded_spec 2 (i32 (tm_mon t + 1))) as [B1 B2]; [by apply wrap_s_range|lia|].
  destruct (zero_padded_spec 2 (tm_mday t)) as [C1 C2]; [done|lia|]. destruct (zero_padded_spec 2 (tm_hour t)) as [D1 D2]; [done|lia|].
  assert (Forall char_ok (bytes_of "-")) as Hm by (constructor; [by unfold char_ok|constructor]).
  split; [by repeat (apply Forall_app; split)|]. rewrite !zlen_app. change (zlen (bytes_of "-")) with 1. lia.
Qed.

Lemma nonzero_chars l : Forall char_ok l -> Forall (fun c => c <> 0) l.
Proof. intros H. eapply Forall_impl; [|exact H]. by intros c [? _]. Qed.

Lemma token_source_ok uid t : is_u 32 uid -> Forall char_ok t -> zlen t <= 47 ->
  Forall (fun c => c <> 0) (token_source uid t) /\ zlen (token_source uid t) <= 100.
Proof.
  intros Hu Ht Hl. unfold is_u in Hu. pow2. destruct (Helpers.decimal_spec uid) as (Hd & _ & Hdl); [lia|]. unfold token_source. split.
  - assert (Forall (fun c => c <> 0) AUTH_ENCRYPT_KEY) as Hk by (apply (bool_decide_unpack _); by vm_compute).
    assert (Forall (fun c => c <> 0) (bytes_of "_")) as Hs by (apply (bool_decide_unpack _); by vm_compute).
    assert (Forall (fun c => c <> 0) (Helpers.decimal uid)) by (apply nonzero_chars; eapply Forall_impl; [|exact Hd]; apply is_digit_ok).
    apply nonzero_chars in Ht. by repeat (apply Forall_app; split).
  - rewrite !zlen_app. change (zlen AUTH_ENCRYPT_KEY) with 15. change (zlen (bytes_of "_")) with 1. lia.
Qed.

Lemma snprintf_text buf size text : zlen buf = size -> zlen text < size ->
  Forall (fun c => c <> 0) text -> exists rest, snprintf buf size text = Ret (text ++ 0 :: rest).
Proof.
  intros Hb Ht Hz. unfold snprintf. rewrite ztake_all by lia. pose proof (zlen_nonneg text).
  rewrite mem_write_ok by (rewrite ?zlen_app; change (zlen [0]) with 1; lia). rewrite ztake_0. cbn [app].
  eexists. by rewrite <- app_assoc.
Qed.

(** The token that the functions write for a user and an hour. *)
Definition token_at (localtime : Z -> tm) (uid t : Z) : list Z := token_of (token_source uid (hour_text (localtime (i64 t)))).

Lemma genToken_spec localtime junk uid now off buf :
  (forall t, tm_ok (localtime t)) -> is_u 32 uid -> 33 <= zlen buf ->
  genToken localtime junk uid now off buf = Ret (token_at localtime uid (now + off) ++ [0] ++ zdrop 33 buf).
Proof.
  intros Ht Hu Hb. unfold genToken, token_at. set (h := hour_text (localtime (i64 (now + off)))).
  destruct (hour_text_ok _ (Ht (i64 (now + off)))) as [H1 H2]. fold h in H1, H2.
  destruct (snprintf_text (realloc junk [] 128) 128 h) as [rest ->]; [by apply zlen_realloc|lia|by apply nonzero_chars|]. mstep.
  rewrite c_str_app by (by apply nonzero_chars). destruct (token_source_ok uid h Hu H1 H2) as [S1 S2]. set (src := token_source uid h) in *.
  destruct (snprintf_text (realloc junk [] 256) 256 src) as [rest2 ->]; [by apply zlen_realloc|lia|done|]. mstep.
  rewrite c_str_app by done. pose proof (zlen_nonneg src).
  rewrite md5_spec; [|unfold is_u; pow2; lia|rewrite zlen_realloc; lia]. mstep.
  destruct (rfc_md5_len src) as [L16 _]. unfold token_of. set (d := rfc1321.md5 src) in *. clearbody d.
  pose proof (print_hex_spec d [] 0 (zdrop 16 (realloc junk [] 32)) [] (ztake 33 buf) (zdrop 33 buf) eq_refl eq_refl) as P.
  cbn [app] in P. rewrite L16, ztake_zdrop in P. rewrite P; [|unfold zlen at 2; zlia|by intros ->]. mstep.
  assert (length (concat (map Helpers.hex_byte d)) = 32%nat) as L32.
  { rewrite (length_concat_chunks 2), length_map, L16; [done|]. apply Forall_map, Forall_forall. done. }
  pose proof (reverse_loop_spec 16 0 [] (concat (map Helpers.hex_byte d)) [0] (zdrop 33 buf) L32 eq_refl eq_refl) as R. cbn [app] in R.
  cbn [app]. rewrite R. mstep.
  pose proof (switch_loop_spec 16 0 [] (rev (concat (map Helpers.hex_byte d))) (0 :: zdrop 33 buf)) as W. cbn [app] in W.
  rewrite W by (rewrite ?length_rev; done). by rewrite flip_rev_hex.
Qed.

Lemma hexdigit_nz x : 0 <= x < 16 -> Helpers.hexdigit x <> 0.
Proof. intros. unfold Helpers.hexdigit. case_match; lia. Qed.

Lemma token_of_nz m : Forall (fun c => c <> 0) (token_of m).
Proof.
  unfold token_of. apply Forall_concat, Forall_map. destruct (rfc_md5_len m) as [_ Hok].
  apply Forall_rev in Hok. eapply Forall_impl; [|exact Hok]. unfold is_u. cbn. intros b Hb.
  repeat constructor; apply hexdigit_nz; Z.div_mod_to_equations; lia.
Qed.

Lemma hexdigit_inj x y : 0 <= x < 16 -> 0 <= y < 16 -> Helpers.hexdigit x = Helpers.hexdigit y -> x = y.
Proof. intros. unfold Helpers.hexdigit in *. repeat case_match; lia. Qed.

Lemma token_of_inj m m' : token_of m = token_of m' -> rfc1321.md5 m = rfc1321.md5 m'.
Proof.
  unfold token_of. destruct (rfc_md5_len m) as [L1 B1], (rfc_md5_len m') as [L2 B2]. intros E.
  assert (forall a b, length a = length b -> bytes_ok a -> bytes_ok b -> concat (map Helpers.hex_byte a) = concat (map Helpers.hex_byte b) -> a = b) as Hinj.
  { clear. induction a as [|x a IH]; intros [|y b] Hl Ha Hb E; try done. apply Forall_cons_1 in Ha as [Hx Ha]. apply Forall_cons_1 in Hb as [Hy Hb].
    cbn in E. injection E as E1 E2 E3. unfold is_u in Hx, Hy. f_equal; [|apply IH; [by injection Hl|done|done|done]].
    apply hexdigit_inj in E1; [|Z.div_mod_to_equations; lia..]. apply hexdigit_inj in E2; [|Z.div_mod_to_equations; lia..]. Z.div_mod_to_equations. lia. }
  apply Hinj in E; [|by rewrite !length_rev, L1, L2|by apply Forall_rev..]. apply (f_equal (@rev Z)) in E. by rewrite !rev_involutive in E.
Qed.

Lemma first_bar a : forall b x y, Forall (fun c => c <> 95) a -> Forall (fun c => c <> 95) b -> a ++ 95 :: x = b ++ 95 :: y -> a = b /\ x = y.
Proof.
  induction a as [|c a IH]; intros [|d b] x y Ha Hb E; cbn in E.
  - by injection E.
  - injection E as <- _. by apply Forall_cons_1 in Hb as [? _].
  - injection E as -> _. by apply Forall_cons_1 in Ha as [? _].
  - injection E as <- E. apply Forall_cons_1 in Ha as [_ Ha]. apply Forall_cons_1 in Hb as [_ Hb].
    by destruct (IH b x y Ha Hb E) as [-> ->].
Qed.

Lemma token_source_inj uid uid' t t' : is_u 32 uid -> is_u 32 uid' -> token_source uid t = token_source uid' t' -> uid = uid' /\ t = t'.
Proof.
  intros Hu Hu' E. unfold is_u in Hu, Hu'. pow2. unfold token_source in E. apply app_inv_head, app_inv_head in E.
  destruct (Helpers.decimal_spec uid) as (D1 & V1 & _); [lia|]. destruct (Helpers.decimal_spec uid') as (D2 & V2 & _); [lia|].
  change (bytes_of "_") with [95] in E. apply first_bar in E as [Ed E].
  - split; [by rewrite <- V1, <- V2, Ed|]. by apply app_inv_tail in E.
  - eapply Forall_impl; [|exact D1]. intros c Hc. by apply is_digit_ok in Hc as [_ ?].
  - eapply Forall_impl; [|exact D2]. intros c Hc. by apply is_digit_ok in Hc as [_ ?].
Qed.

(** The hours whose tokens are accepted at the times [n1], [n2], [n3]. *)
Definition window (localtime : Z -> tm) (n1 n2 n3 : Z) : list (list Z) :=
  map (fun t => hour_text (localtime (i64 t))) [n1 - 3600; n2; n3 + 3600].

Lemma one_of_three (c x y z : list Z) : bool_decide (c = x) || bool_decide (c = y) || bool_decide (c = z) = bool_decide (c ∈ [x; y; z]).
Proof. repeat case_bool_decide; cbn [orb]; (done || set_solver). Qed.

Lemma IsTokenValid_spec localtime junk uid n1 n2 n3 token :
  (forall t, tm_ok (localtime t)) -> is_u 32 uid ->
  IsTokenValid localtime junk uid n1 n2 n3 token =
  Ret (bool_decide (c_str token ∈ map (fun h => token_of (token_source uid h)) (window localtime n1 n2 n3))).
Proof.
  intros Ht Hu. unfold IsTokenValid.
  assert (forall now off, genToken localtime junk uid now off (realloc junk [] 64) =
    Ret (token_at localtime uid (now + off) ++ [0] ++ zdrop 33 (realloc junk [] 64))) as G
    by (intros; apply genToken_spec; [done|done|rewrite zlen_realloc; lia]).
  rewrite !G. mstep. cbn [app]. rewrite !c_str_app by apply token_of_nz. f_equal. unfold window, token_at. cbn [map].
  replace (n1 + -3600) with (n1 - 3600) by lia. rewrite Z.add_0_r.
  apply one_of_three.
Qed.

(** ** Theorems *)

(** C18. [md5] is the MD5 of RFC 1321: for every message of at most 2^62 bytes, whatever
    the memory from [malloc] holds, it writes the digest of the standard (padding,
    blocks of sixteen words, four rounds of sixteen operations) into the first sixteen
    bytes and leaves the rest. *)
Theorem md5_is_rfc1321 (junk : nat -> Z) (m post digest : list Z) :
  zlen m < 2 ^ 62 -> 16 <= zlen digest ->
  md5 junk (m ++ post) (zlen m) digest = Ret (rfc1321.md5 m ++ zdrop 16 digest).
Proof. intros Hm Hd. apply md5_spec; [|done]. split; [apply zlen_nonneg|done]. Qed.

(** C28. A token says who it is for and when: [IsTokenValid] always answers, and when it
    accepts for user [uid'] what [genToken] wrote for user [uid] at time [t], then the
    users are the same and the hour of [t] is the hour before, the current or the next
    one, unless the two different texts that were hashed have the same MD5. *)
Theorem token_binds_user_and_hour (localtime : Z -> tm) (junk : nat -> Z) (uid uid' t n1 n2 n3 : Z) (buf : list Z) :
  (forall t, tm_ok (localtime t)) -> is_u 32 uid -> is_u 32 uid' -> 33 <= zlen buf ->
  exists token ok, genToken localtime junk uid t 0 buf = Ret token /\
    IsTokenValid localtime junk uid' n1 n2 n3 token = Ret ok /\
    let h := hour_text (localtime (i64 t)) in
    (uid = uid' -> h ∈ window localtime n1 n2 n3 -> ok = true) /\
    (ok = true -> (uid = uid' /\ h ∈ window localtime n1 n2 n3) \/
      exists h', h' ∈ window localtime n1 n2 n3 /\ token_source uid h <> token_source uid' h' /\
        rfc1321.md5 (token_source uid h) = rfc1321.md5 (token_source uid' h')).
Proof.
  intros Ht Hu Hu' Hb. rewrite genToken_spec, Z.add_0_r by done. do 2 eexists. split; [done|]. split; [by apply IsTokenValid_spec|].
  unfold token_at. cbn [app]. rewrite c_str_app by apply token_of_nz. cbv zeta. split.
  - intros <- Hw. apply bool_decide_eq_true_2. by apply (list_elem_of_fmap_2 (fun h => token_of (token_source uid h))).
  - intros Hok%bool_decide_eq_true_1. apply list_elem_of_fmap in Hok as (h' & E%token_of_inj & Hw).
    destruct (decide (token_source uid (hour_text (localtime (i64 t))) = token_source uid' h')) as [Es|Ns].
    + apply token_source_inj in Es as [-> ->]; [|done..]. by left.
    + right. by exists h'.
Qed.

(** The life of a token: in a zone where the calendar fields follow the hours of the
    clock, a token is accepted for at least an hour before and after it was made. *)
Theorem token_lives_an_hour (localtime : Z -> tm) (hours : Z -> tm) (zone : Z) (junk : nat -> Z) (uid t now : Z) (buf : list Z) :
  (forall t, tm_ok (localtime t)) -> (forall t, localtime t = hours ((t + zone) / 3600)) ->
  is_u 32 uid -> 33 <= zlen buf -> is_s 62 t -> is_s 62 now -> Z.abs (now - t) <= 3600 ->
  exists token, genToken localtime junk uid t 0 buf = Ret token /\ IsTokenValid localtime junk uid now now now token = Ret true.
Proof.
  intros Ht Hz Hu Hb Hst Hsn Hn. rewrite genToken_spec, Z.add_0_r by done. eexists. split; [done|]. rewrite IsTokenValid_spec by done.
  f_equal. apply bool_decide_eq_true_2. unfold token_at. cbn [app]. rewrite c_str_app by apply token_of_nz.
  apply (list_elem_of_fmap_2 (fun h => token_of (token_source uid h))). unfold window. cbn [map].
  unfold is_s in *. change (2 ^ (62 - 1)) with 2305843009213693952 in *.
  rewrite !(wrap_s_small 64) by (unfold is_s; change (2 ^ (64 - 1)) with 9223372036854775808; lia).
  rewrite !Hz. assert ((t + zone) / 3600 = (now - 3600 + zone) / 3600 \/ (t + zone) / 3600 = (now + zone) / 3600 \/ (t + zone) / 3600 = (now + 3600 + zone) / 3600) as H
    by (Z.div_mod_to_equations; lia).
  destruct H as [->|[->| ->]]; set_solver.
Qed.

(** Digests of the test suite of RFC 1321. *)
Lemma md5_vectors :
  rfc1321.md5 [] = hex_words "d4 1d 8c d9 8f 00 b2 04 e9 80 09 98 ec f8 42 7e" /\
  rfc1321.md5 (bytes_of "message digest") = hex_words "f9 6b 69 7d 7c b7 93 8d 52 5a 2f 31 aa f1 61 d0".
Proof. split; by vm_compute. Qed.

(** A clock that shows the hours of one day. *)
Definition day_hours (h : Z) : tm := mkTm 124 0 1 (h mod 24).
Definition day_clock (t : Z) : tm := day_hours ((t + 0) / 3600).

Lemma day_clock_ok t : tm_ok (day_clock t).
Proof.
  unfold tm_ok, is_s. cbn [day_clock day_hours tm_mday tm_hour]. change (2 ^ (32 - 1)) with 2147483648.
  pose proof (Z.mod_pos_bound ((t + 0) / 3600) 24). lia.
Qed.

Lemma md5_is_rfc1321_witness :
  md5 (fun _ => 7) (bytes_of "abc" ++ [0]) 3 (replicate 16 0) = Ret (rfc1321.md5 (bytes_of "abc") ++ []).
Proof. exact (md5_is_rfc1321 (fun _ => 7) (bytes_of "abc") [0] (replicate 16 0) eq_refl ltac:(done)). Defined.

Lemma token_binds_user_and_hour_witness :
  exists token ok, genToken day_clock (fun _ => 0) 7 3600 0 (replicate 64 0) = Ret token /\
    IsTokenValid day_clock (fun _ => 0) 7 3600 3600 3600 token = Ret ok /\ ok = true.
Proof.
  destruct (token_binds_user_and_hour day_clock (fun _ => 0) 7 7 3600 3600 3600 3600 (replicate 64 0) day_clock_ok ltac:(by unfold is_u) ltac:(by unfold is_u) ltac:(done))
    as (token & ok & E1 & E2 & E3 & _).
  exists token, ok. split; [exact E1|]. split; [exact E2|]. apply E3; [reflexivity|]. apply list_elem_of_further, list_elem_of_here.
Defined.

Lemma token_lives_an_hour_witness :
  exists token, genToken day_clock (fun _ => 0) 7 3600 0 (replicate 64 0) = Ret token /\
    IsTokenValid day_clock (fun _ => 0) 7 7200 7200 7200 token = Ret true.
Proof.
  apply (token_lives_an_hour day_clock day_hours 0 (fun _ => 0) 7 3600 7200 (replicate 64 0)); try (done || (by unfold is_u) || (by unfold is_s)).
  exact day_clock_ok.
Defined.

End Tokens.
