(* ===== verification/Signing.v ===== *)
(** * Signed messages of an account

    Models the part of src/src/ptp_net/AccountManager.cpp that turns the secret of an
    account into keys: the address of an account, signatures of messages and of messages
    to groups, the recovery of the address of a signature, and shared keys.  It composes
    the mnemonics of [Bip39], the keys of [HDKey] and the signatures of [CryptoHelpers].

    The hypothesis on libsecp256k1 is that it signs with every private key between 0 and
    the order and that its public keys are the points of the curve.  The theorems: the
    server recovers from a signature the address of the account that made it, which is
    what the login compares; a signature for a group recovers to the group's own
    address. *)

From S2P Require Import Prelude Words Hash Sha2 Hmac Helpers WordList WordLists Bip39 AccountManager Base58 Bignum BignumMod Ecdsa Secp256k1 EcPoints EcMultiply EcSign Keccak CryptoHelpers BytesData Strings HDKey.

Module Signing.
Import MnemonicHelper HDKeyEncoder.

Definition PTP_HD_PATH : list Z := bytes_of "m/44'/60'/0'/1/0".
Definition PTP_GROUP_HD_PATH : list Z := bytes_of "m/44'/60'/0'/1/1".

Section Signing.
Context `{libsecp256k1}.
Variables (fuel : nat) (garbage : ctx).
(** The uninitialised memory of the mnemonic, the seed, the hash, the public key and the
    signature. *)
Variables (mjunk : nat -> Z) (sjunk : list Z) (kjunk : list (list Z)) (unset : list Z) (unset_sig : sig_t).

Definition format_sign_msg_data (message : list Z) (signMsgType : secp256k1_helpers.SignMsgType) : list Z :=
  match signMsgType with
  | secp256k1_helpers.SignMsgType_ptp =>
      [0x19] ++ secp256k1_helpers.PTP_Signed_Message ++ secp256k1_helpers.size_text (zlen message) ++ message
  | secp256k1_helpers.SignMsgType_ptp_group =>
      [0x19] ++ secp256k1_helpers.PTP_GROUP_Signed_Message ++ secp256k1_helpers.size_text (zlen message) ++ message
  | secp256k1_helpers.SignMsgType_eth => secp256k1_helpers.format_eth_msg_data message
  end.

(** [rnd] are the random words to come. *)
Definition getAddressByEntropy (rnd entropy : list Z) : outcome (list Z * list Z) :=
  mnemonicResult ← entropyHexToMnemonic mjunk true entropy (bytes_of "en");
  hdKey ← makeEthRootKey_mnemonic fuel sjunk true (raw mnemonicResult);
  '(hdKey, rnd) ← makeEthExtendedKey fuel rnd hdKey PTP_HD_PATH;
  getEthAddress kjunk unset rnd hdKey.

(** The key of the entropy at a path. *)
Definition key_at (rnd entropy path : list Z) : outcome (HDKey * list Z) :=
  mnemonicRes ← entropyHexToMnemonic mjunk true entropy (bytes_of "en");
  '(hdKey, rnd) ← makeBip32RootKey_mnemonic fuel garbage sjunk true rnd (raw mnemonicRes) MainNet;
  makeExtendedKey fuel garbage rnd hdKey path.

Definition signMessage (rnd entropy message signOut65 : list Z) : outcome (list Z * list Z) :=
  '(hdKey, rnd) ← key_at rnd entropy PTP_HD_PATH;
  let msg_data := format_sign_msg_data message secp256k1_helpers.SignMsgType_ptp in
  '(_, rnd) ← getEthAddress kjunk unset rnd hdKey;
  sig ← secp256k1_helpers.ecdsa_sign_recoverable kjunk unset_sig msg_data (privateKey hdKey) signOut65;
  Ret (sig, rnd).

Definition signGroupMessage (rnd entropy message : list Z) (groupIdx : Z) (signOut65 : list Z) : outcome (list Z * list Z) :=
  let groupIdxStr := Helpers.int2string groupIdx in
  '(hdKey, rnd) ← key_at rnd entropy (PTP_GROUP_HD_PATH ++ groupIdxStr);
  let msg_data := format_sign_msg_data (groupIdxStr ++ message) secp256k1_helpers.SignMsgType_ptp_group in
  '(_, rnd) ← getEthAddress kjunk unset rnd hdKey;
  sig ← secp256k1_helpers.ecdsa_sign_recoverable kjunk unset_sig msg_data (privateKey hdKey) signOut65;
  Ret (sig, rnd).

Definition createShareKey (rnd entropy : list Z) (pub_key : pubkey_t) : outcome (option (list Z) * list Z) :=
  '(hdKey, rnd) ← key_at rnd entropy PTP_HD_PATH;
  '(_, rnd) ← getEthAddress kjunk unset rnd hdKey;
  ret ← secp256k1_helpers.ecdh_create_share_key pub_key (privateKey hdKey);
  Ret (ret, rnd).

Definition verifyMessageRecoverAddress (sig_65 message : list Z) : outcome (list Z) :=
  let msg_data := format_sign_msg_data message secp256k1_helpers.SignMsgType_ptp in
  sig_64 ← mem_read sig_65 0 64;
  rec_id ← mem_get sig_65 64;
  pub_key_rec ← secp256k1_helpers.recover_pub_key_from_sig_64 kjunk sig_64 rec_id msg_data;
  address1 ← secp256k1_helpers.pub_key_to_address kjunk pub_key_rec;
  secp256k1_helpers.address_to_hex address1.

End Signing.
End Signing.

(** ** From the secret to a key *)

Section Facts.
Import word_list mnemonic bip39 toolbox_data MnemonicHelper HDKeyEncoder Signing.

Local Abbreviation N := (value (ecdsa.order secp256k1.secp256k1)).

(** The private key and chain code that BIP39 and BIP32 give words and a path. *)
Definition wallet_key (fuel : nat) (words path : list Z) : option (Z * list Z) :=
  '(k, c) ← master fuel (rfc_pbkdf2 mac512 words (bytes_of "mnemonic") 2048);
  ckd_path fuel k c path.

Lemma english_bytes : Forall bytes_ok (indices en_list_of).
Proof. apply (bool_decide_unpack _). by vm_compute. Qed.

(** The words of an account are text. *)
Lemma words_text j e words : bytes_ok e -> zlen e = 16 -> bip39_mnemonic_from_bytes j true (Some en_list_of) e 16 = Ret (MINTER_OK, Some words) ->
  bytes_ok words /\ Forall (fun x => x <> 0) words.
Proof.
  intros He Hl E. destruct (get_wordlist_facts (Some (bytes_of "en"))) as (Hw & Hb & _).
  destruct (bip39_there_and_back j en_list_of e [] (replicate 16 0) 16 Hw Hb He) as (xs & E' & _ & _ & Hin & _); [rewrite Hl; by left|lia|by rewrite Hl|].
  rewrite Hl, app_nil_r, E in E'. injection E' as ->. split; apply join_chars; try done.
  - eapply Forall_impl, Hin. intros x Hx. exact (proj1 (list.Forall_forall _ _) english_bytes x Hx).
  - eapply Forall_impl, Hin. intros x Hx. exact (proj2 (proj1 (list.Forall_forall _ _) (ok_chars _ Hw) x Hx)).
Qed.

Lemma public_set key p : publicKey (set_publicKey key p) = p /\ net (set_publicKey key p) = net key.
Proof. by destruct key. Qed.

(** Writing an extended key changes nothing else. *)
Lemma serialize_holds g key k c fp public : holds key k c -> net key = MainNet -> publicKey key = pub33 k \/ public = false ->
  exists key', serialize g key fp (if public then fst (bip32 (net key)) else snd (bip32 (net key))) public = Ret key' /\ holds key' k c /\
    net key' = MainNet /\ publicKey key' = publicKey key /\ fingerprint key' = fingerprint key.
Proof.
  intros Hh Hn Hp.
  destruct (serialize_spec g key k c fp (if public then fst (bip32 (net key)) else snd (bip32 (net key))) (if public then bytes_of "xpub" else bytes_of "xprv")
    public (replicate 32 0) (replicate 78 0) Hh Hp) as (s & E & Ls & _); [rewrite Hn; destruct public; set_solver|done|done|].
  rewrite E. eexists. split; [reflexivity|]. clear E Hp. destruct Hh as [H1 H2 H3 H4 H5 [H6 H7] H8 H9].
  assert (zlen (s ++ [0]) = 112) as L by (rewrite zlen_app, Ls; done).
  destruct public; (split; [|split_and!; [exact Hn|reflexivity|reflexivity]]); (constructor; [exact H1|exact H2|exact H3|exact H4|exact H5| |exact H8|exact H9]); split; first [exact L|assumption].
Qed.

Section Keys.
Context (fuel : nat) (g : ctx) (sjunk : list Z) (Hsj : length sjunk = 128%nat) (Hsjo : bytes_ok sjunk).

Lemma root_spec words rnd rnd' : bytes_ok words -> Forall (fun x => x <> 0) words -> draws 1 rnd = Ret rnd' ->
  match master fuel (rfc_pbkdf2 mac512 words (bytes_of "mnemonic") 2048) with
  | Some (k, c) => exists key, makeBip32RootKey_mnemonic fuel g sjunk true rnd words MainNet = Ret (key, rnd') /\ holds key k c /\ net key = MainNet
  | None => makeBip32RootKey_mnemonic fuel g sjunk true rnd words MainNet = NoFuel
  end.
Proof.
  intros Hw Hnz Hd. unfold makeBip32RootKey_mnemonic. rewrite makeBip39Seed_spec, bind_Ret by done.
  pose proof (rfc_pbkdf2_ok words (bytes_of "mnemonic") 2048) as Hs. set (seed := rfc_pbkdf2 mac512 words (bytes_of "mnemonic") 2048) in *. clearbody seed.
  unfold makeBip32RootKey. rewrite fromSeed_spec by done. destruct (master fuel seed) as [[k c]|] eqn:Em; [|done]. rewrite bind_Ret. cbv zeta.
  pose proof (root_holds fuel seed k c Em) as Hh. change (set_net (assign_key new_key (root_key k c)) MainNet) with (root_key k c).
  destruct (serialize_holds g (root_key k c) k c 0 false Hh eq_refl (or_intror eq_refl)) as (k1 & E1 & H1 & N1 & _). cbv iota in E1. rewrite E1, bind_Ret.
  destruct (fillPublicKey_holds k1 k c rnd rnd' H1 Hd) as (E2 & H2 & _). rewrite E2, bind_Ret.
  destruct (public_set k1 (pub33 k)) as [P1 P2]. rewrite N1 in P2.
  destruct (serialize_holds g _ k c 0 true H2 P2 (or_introl P1)) as (k3 & E3 & H3 & N3 & _). cbv iota in E3. rewrite E3, bind_Ret.
  exists k3. split; [reflexivity|]. split; assumption.
Qed.

Lemma extended_spec key k c path rnd rnd' : holds key k c -> net key = MainNet -> Forall (is_u 32) path -> draws (path_draws path + 2) rnd = Ret rnd' ->
  match ckd_path fuel k c path with
  | Some (k', c') => exists key', makeExtendedKey fuel g rnd key (path_text path) = Ret (key', rnd') /\ holds key' k' c'
  | None => makeExtendedKey fuel g rnd key (path_text path) = NoFuel
  end.
Proof.
  intros Hh Hn Hp Hd. destruct (draws_add _ _ _ _ Hd) as (r1 & D1 & D2). destruct (draws_S _ _ _ D2) as (r2 & D3 & D4). unfold makeExtendedKey.
  pose proof (derivePath_spec fuel path rnd r1 key k c Hh Hp D1) as P. destruct (ckd_path fuel k c path) as [[k' c']|]; [|by rewrite P].
  destruct P as (key' & -> & H1 & _ & N1). rewrite Hn in N1. rewrite bind_Ret.
  destruct (serialize_holds g key' k' c' (fingerprint key') false H1 N1 (or_intror eq_refl)) as (k2 & E2 & H2 & N2 & _). cbv iota in E2. rewrite E2, bind_Ret.
  destruct (fillPublicKey_holds k2 k' c' r1 r2 H2 D3) as (E3 & H3 & _). rewrite E3, bind_Ret.
  destruct (public_set k2 (pub33 k')) as [P1 P2]. rewrite N2 in P2.
  destruct (serialize_holds g _ k' c' (fingerprint (set_publicKey k2 (pub33 k'))) true H3 P2 (or_introl P1)) as (k4 & E4 & H4 & N4 & _). cbv iota in E4. rewrite E4, bind_Ret.
  destruct (fillPublicKey_holds k4 k' c' r2 rnd' H4 D4) as (E5 & H5 & _). rewrite E5. eexists. split; [reflexivity|exact H5].
Qed.

Lemma key_at_spec mjunk entropy r path rnd rnd' : entropyHexToMnemonic mjunk true entropy (bytes_of "en") = Ret r ->
  bytes_ok (raw r) -> Forall (fun x => x <> 0) (raw r) -> Forall (is_u 32) path -> draws (S (path_draws path + 2)) rnd = Ret rnd' ->
  match wallet_key fuel (raw r) path with
  | Some (k, c) => exists key, key_at fuel g mjunk sjunk rnd entropy (path_text path) = Ret (key, rnd') /\ holds key k c
  | None => key_at fuel g mjunk sjunk rnd entropy (path_text path) = NoFuel
  end.
Proof.
  intros Er Hw Hnz Hp Hd. destruct (draws_S _ _ _ Hd) as (r1 & D1 & D2). unfold key_at, wallet_key. rewrite Er, bind_Ret.
  pose proof (root_spec (raw r) rnd r1 Hw Hnz D1) as Hr. destruct (master fuel _) as [[k c]|]; [|by rewrite Hr]. cbn [mbind option_bind].
  destruct Hr as (key & -> & Hh & Hn). rewrite bind_Ret. by apply extended_spec.
Qed.
End Keys.

(** ** Signatures *)

(** libsecp256k1 works with the same curve. *)
Class SameCurve `{libsecp256k1} := {
  lib_signs h k : 0 < k < N -> is_Some (ecdsa_sign_recoverable_ h (be_bytes 32 k));
  lib_public_key k : 0 < k < N -> exists pk, ec_pubkey_create (be_bytes 32 k) = Some pk /\ ec_pubkey_uncompressed pk = 4 :: pub64 k;
}.

Lemma address_text_of kjunk k : shape kjunk -> address_text kjunk (pub64 k) = eth_address k.
Proof. intros Hj. unfold address_text, address_of, eth_address. by rewrite keccak_eq by (done || apply pub64_ok). Qed.

Lemma zdrop_one {A} (a : A) l : zdrop 1 (a :: l) = l.
Proof. done. Qed.

(** What is signed with a key recovers to its address. *)
Lemma signed_address `{SameCurve} kjunk unset_sig key k c msg out : shape kjunk -> holds key k c -> zlen out = 65 ->
  exists sig pk, secp256k1_helpers.ecdsa_sign_recoverable kjunk unset_sig msg (privateKey key) out = Ret sig /\
    ec_pubkey_create (be_bytes 32 k) = Some pk /\
    secp256k1_helpers.recover_pub_key_and_address_from_sig kjunk sig msg = Ret (Some (ec_pubkey_compressed pk, eth_address k)) /\
    (sig_64 ← mem_read sig 0 64; rec_id ← mem_get sig 64;
     pub_key_rec ← secp256k1_helpers.recover_pub_key_from_sig_64 kjunk sig_64 rec_id msg;
     address1 ← secp256k1_helpers.pub_key_to_address kjunk pub_key_rec;
     secp256k1_helpers.address_to_hex address1) = Ret (eth_address k).
Proof.
  intros Hj Hh Ho. rewrite (holds_priv _ _ _ Hh). pose proof (holds_range _ _ _ Hh) as Hk. pose proof (address_text_of kjunk k Hj) as Ha. pose proof (zlen_pub64 k) as Lp.
  destruct (lib_signs (Keccak256.getHash kjunk msg) k Hk) as [s Es]. destruct (lib_public_key k Hk) as (pk & Epk & Eun).
  set (p := pub64 k) in *. clearbody p. set (a := eth_address k) in *. clearbody a. clear Hh.
  assert (zlen (be_bytes 32 k) = 32) as Lb by (unfold zlen; by rewrite length_be_bytes).
  destruct (sign_recovers kjunk unset_sig msg (be_bytes 32 k) out s pk Lb Ho Es Epk) as (sig & E & L & (sig64 & recid & Esig & L64 & Hr & Ev & Hparse) & R).
  exists sig, pk. split; [exact E|]. split; [exact Epk|]. rewrite Eun, zdrop_one, Ha in R.
  split; [exact R|]. assert (zlen sig64 = 64) as Lz by (unfold zlen; lia). rewrite Esig, mem_read_ok by zlia. rewrite bind_Ret, zdrop_0, ztake_app_exact by lia.
  rewrite (mem_get_app sig64 recid []) by lia. rewrite bind_Ret. unfold secp256k1_helpers.recover_pub_key_from_sig_64. rewrite mem_read_ok, bind_Ret, zdrop_0, ztake_all by lia.
  rewrite Ev, parse_compact_ok, bind_Ret, Hparse by exact Hr. unfold secp256k1_helpers.keccak_256_hash. rewrite (recover_signed _ _ _ Es), Epk, Eun.
  rewrite substr_ok by (rewrite zlen_cons; lia). rewrite bind_Ret, zdrop_one.
  rewrite pub_key_to_address_spec, bind_Ret by exact Lp. unfold secp256k1_helpers.address_to_hex. destruct (address_form kjunk p) as [_ B].
  rewrite (proj1 (hex_there_and_back _ B)). f_equal. exact Ha.
Qed.

Lemma format_agrees message signMsgType : format_sign_msg_data message signMsgType = secp256k1_helpers.format_sign_msg_data message signMsgType.
Proof. by destruct signMsgType. Qed.

Lemma hd_path : PTP_HD_PATH = path_text [2 ^ 31 + 44; 2 ^ 31 + 60; 2 ^ 31; 1; 0].
Proof. symmetry. exact ptp_hd_path. Qed.

End Facts.

(** ** Theorems *)

Section Claims.
Import word_list mnemonic bip39 toolbox_data MnemonicHelper HDKeyEncoder Signing.
Context `{SameCurve}.

(** The memory and the secret of an account, and the random words its key takes. *)
Record account_ok (sjunk : list Z) (kjunk : list (list Z)) (unset e entropy : list Z) : Prop := {
  ok_seed : length sjunk = 128%nat /\ bytes_ok sjunk;
  ok_hash : shape kjunk;
  ok_unset : zlen unset = 64;
  ok_secret : bytes_ok e /\ zlen e = 16 /\ bytes_to_hex e 16 = Ret entropy;
}.

Definition account_path : list Z := [2 ^ 31 + 44; 2 ^ 31 + 60; 2 ^ 31; 1; 0].

Lemma account_path_ok : Forall (is_u 32) account_path.
Proof. apply (bool_decide_unpack _). by vm_compute. Qed.

(** The words of an account, as it shows them. *)
Lemma account_words mjunk e entropy : bytes_ok e -> zlen e = 16 -> bytes_to_hex e 16 = Ret entropy ->
  exists r, entropyHexToMnemonic mjunk true entropy (bytes_of "en") = Ret r /\ bytes_ok (raw r) /\ Forall (fun x => x <> 0) (raw r).
Proof.
  intros He Hl Hx. destruct (shown_words id mjunk e (bytes_of "en") He Hl) as (hex & r & Eh & _ & _ & Er & _ & Ef & _). rewrite Hx in Eh. injection Eh as <-.
  exists r. split; [exact Er|]. apply (words_text mjunk (0 :: ztake 15 e)); [constructor; [by vm_compute|by apply Forall_take]|zlia|exact Ef].
Qed.

(** What an account signs, and its address. *)
Lemma account_signs fuel g mjunk sjunk kjunk unset unset_sig e entropy message out rnd rnd' rnd2 rnd2' :
  account_ok sjunk kjunk unset e entropy -> zlen out = 65 ->
  draws (path_draws account_path + 4) rnd = Ret rnd' -> draws (path_draws account_path + 3) rnd2 = Ret rnd2' ->
  exists r, entropyHexToMnemonic mjunk true entropy (bytes_of "en") = Ret r /\
  match wallet_key fuel (raw r) account_path with
  | Some (k, _) => exists sig pk,
      signMessage fuel g mjunk sjunk kjunk unset unset_sig rnd entropy message out = Ret (sig, rnd') /\
      getAddressByEntropy fuel mjunk sjunk kjunk unset rnd2 entropy = Ret (eth_address k, rnd2') /\
      secp256k1_helpers.recover_pub_key_and_address_from_sig kjunk sig
        (secp256k1_helpers.format_sign_msg_data message secp256k1_helpers.SignMsgType_ptp) = Ret (Some (ec_pubkey_compressed pk, eth_address k)) /\
      verifyMessageRecoverAddress kjunk sig message = Ret (eth_address k)
  | None => signMessage fuel g mjunk sjunk kjunk unset unset_sig rnd entropy message out = NoFuel /\
      getAddressByEntropy fuel mjunk sjunk kjunk unset rnd2 entropy = NoFuel
  end.
Proof.
  intros [[Hsj Hsjo] Hj Hu (He & Hl & Hx)] Ho Hd Hd2.
  destruct (account_words mjunk e entropy He Hl Hx) as (r & Er & Hw & Hnz). exists r. split; [exact Er|].
  pose proof account_path_ok as Hp.
  rewrite (Nat.add_comm _ 4) in Hd. change (4 + path_draws account_path)%nat with (S (3 + path_draws account_path)) in Hd.
  assert (draws ((S (path_draws account_path + 2)) + 1) rnd = Ret rnd') as Hd' by (rewrite <- Hd; f_equal; lia).
  destruct (draws_add _ _ _ _ Hd') as (r1 & D1 & D2).
  pose proof (key_at_spec fuel g sjunk Hsj Hsjo mjunk entropy r account_path rnd r1 Er Hw Hnz Hp D1) as K.
  pose proof (address_of_mnemonic fuel sjunk (raw r) account_path rnd2 rnd2' unset kjunk Hsj Hsjo Hw Hnz Hp Hj Hu Hd2) as A.
  unfold signMessage, getAddressByEntropy, verifyMessageRecoverAddress. rewrite Er, bind_Ret, hd_path. fold account_path. unfold wallet_key in *.
  destruct (_ ≫= _) as [[k c]|].
  - destruct K as (key & -> & Hh). rewrite bind_Ret. rewrite (getEthAddress_spec kjunk unset r1 rnd' key k c Hj Hu Hh D2), bind_Ret.
    destruct (signed_address kjunk unset_sig key k c (format_sign_msg_data message secp256k1_helpers.SignMsgType_ptp) out Hj Hh Ho) as (sig & pk & Es & _ & Rs & Vs).
    exists sig, pk. rewrite Es, bind_Ret. split; [reflexivity|]. split; [exact A|]. rewrite <- format_agrees. split; [exact Rs|exact Vs].
  - rewrite K. split; [reflexivity|exact A].
Qed.

(** The key that an account shares with the owner of a public key. *)
Lemma account_shares fuel g mjunk sjunk kjunk unset e entropy pub rnd rnd' :
  account_ok sjunk kjunk unset e entropy -> draws (path_draws account_path + 4) rnd = Ret rnd' ->
  exists r, entropyHexToMnemonic mjunk true entropy (bytes_of "en") = Ret r /\
  match wallet_key fuel (raw r) account_path with
  | Some (k, _) => createShareKey fuel g mjunk sjunk kjunk unset rnd entropy pub = Ret (ecdh pub (be_bytes 32 k), rnd')
  | None => createShareKey fuel g mjunk sjunk kjunk unset rnd entropy pub = NoFuel
  end.
Proof.
  intros [[Hsj Hsjo] Hj Hu (He & Hl & Hx)] Hd.
  destruct (account_words mjunk e entropy He Hl Hx) as (r & Er & Hw & Hnz). exists r. split; [exact Er|].
  assert (draws ((S (path_draws account_path + 2)) + 1) rnd = Ret rnd') as Hd' by (rewrite <- Hd; f_equal; lia).
  destruct (draws_add _ _ _ _ Hd') as (r1 & D1 & D2).
  pose proof (key_at_spec fuel g sjunk Hsj Hsjo mjunk entropy r account_path rnd r1 Er Hw Hnz account_path_ok D1) as K.
  unfold createShareKey. rewrite hd_path. fold account_path. destruct (wallet_key fuel (raw r) account_path) as [[k c]|].
  - destruct K as (key & -> & Hh). rewrite bind_Ret. rewrite (getEthAddress_spec kjunk unset r1 rnd' key k c Hj Hu Hh D2), bind_Ret.
    unfold secp256k1_helpers.ecdh_create_share_key. rewrite (holds_priv _ _ _ Hh).
    assert (zlen (be_bytes 32 k) = 32) as Lb by (unfold zlen; by rewrite length_be_bytes). rewrite mem_read_ok, !bind_Ret, zdrop_0, ztake_all by lia. reflexivity.
  - rewrite K. reflexivity.
Qed.

(** C3. A signed captcha passes the check of the login: for an account with a secret of
    sixteen bytes, the signature of a message recovers, from the text the server formats
    for it, to the address of the account, which is the address of the key that BIP39 and
    BIP32 give for the words of the account.  Fuel bounds the attempts to find valid
    keys. *)
Theorem signature_recovers_account fuel g mjunk sjunk kjunk unset unset_sig e entropy message out rnd rnd' rnd2 rnd2' :
  account_ok sjunk kjunk unset e entropy -> zlen out = 65 ->
  draws (path_draws account_path + 4) rnd = Ret rnd' -> draws (path_draws account_path + 3) rnd2 = Ret rnd2' ->
  exists r, entropyHexToMnemonic mjunk true entropy (bytes_of "en") = Ret r /\
  match wallet_key fuel (raw r) account_path with
  | Some (k, _) => exists sig pk,
      signMessage fuel g mjunk sjunk kjunk unset unset_sig rnd entropy message out = Ret (sig, rnd') /\
      getAddressByEntropy fuel mjunk sjunk kjunk unset rnd2 entropy = Ret (eth_address k, rnd2') /\
      secp256k1_helpers.recover_pub_key_and_address_from_sig kjunk sig
        (secp256k1_helpers.format_sign_msg_data message secp256k1_helpers.SignMsgType_ptp) = Ret (Some (ec_pubkey_compressed pk, eth_address k)) /\
      verifyMessageRecoverAddress kjunk sig message = Ret (eth_address k)
  | None => signMessage fuel g mjunk sjunk kjunk unset unset_sig rnd entropy message out = NoFuel /\
      getAddressByEntropy fuel mjunk sjunk kjunk unset rnd2 entropy = NoFuel
  end.
Proof. apply account_signs. Qed.

(** A signature for a group recovers to the address of the key of the group, at its
    own path, over the group's number and the message. *)
Theorem group_signature_recovers fuel g mjunk sjunk kjunk unset unset_sig e entropy message groupIdx path out rnd rnd' :
  account_ok sjunk kjunk unset e entropy -> zlen out = 65 -> Forall (is_u 32) path ->
  path_text path = PTP_GROUP_HD_PATH ++ Helpers.int2string groupIdx -> draws (path_draws path + 4) rnd = Ret rnd' ->
  exists r, entropyHexToMnemonic mjunk true entropy (bytes_of "en") = Ret r /\
  match wallet_key fuel (raw r) path with
  | Some (k, _) => exists sig pk,
      signGroupMessage fuel g mjunk sjunk kjunk unset unset_sig rnd entropy message groupIdx out = Ret (sig, rnd') /\
      secp256k1_helpers.recover_pub_key_and_address_from_sig kjunk sig
        (secp256k1_helpers.format_sign_msg_data (Helpers.int2string groupIdx ++ message) secp256k1_helpers.SignMsgType_ptp_group) =
        Ret (Some (ec_pubkey_compressed pk, eth_address k))
  | None => signGroupMessage fuel g mjunk sjunk kjunk unset unset_sig rnd entropy message groupIdx out = NoFuel
  end.
Proof.
  intros [[Hsj Hsjo] Hj Hu (He & Hl & Hx)] Ho Hp Et Hd.
  destruct (account_words mjunk e entropy He Hl Hx) as (r & Er & Hw & Hnz). exists r. split; [exact Er|].
  assert (draws ((S (path_draws path + 2)) + 1) rnd = Ret rnd') as Hd' by (rewrite <- Hd; f_equal; lia).
  destruct (draws_add _ _ _ _ Hd') as (r1 & D1 & D2).
  pose proof (key_at_spec fuel g sjunk Hsj Hsjo mjunk entropy r path rnd r1 Er Hw Hnz Hp D1) as K.
  unfold signGroupMessage. rewrite <- Et. destruct (wallet_key fuel (raw r) path) as [[k c]|].
  - destruct K as (key & -> & Hh). rewrite bind_Ret. rewrite (getEthAddress_spec kjunk unset r1 rnd' key k c Hj Hu Hh D2), bind_Ret.
    destruct (signed_address kjunk unset_sig key k c (format_sign_msg_data (Helpers.int2string groupIdx ++ message) secp256k1_helpers.SignMsgType_ptp_group) out Hj Hh Ho)
      as (sig & pk & Es & _ & Rs & _).
    exists sig, pk. rewrite Es, bind_Ret. split; [reflexivity|]. rewrite <- format_agrees. exact Rs.
  - rewrite K. reflexivity.
Qed.
End Claims.

(** The number of a group is appended to the last index of the path: one of ten digits
    makes an index that is not accepted. *)
Lemma long_group_number : wallet_utils.str_to_uint32_t (bytes_of "1" ++ Helpers.int2string 1000000000) = Throw (out_of_range "str_to_uint32_t").
Proof. by vm_compute. Qed.

(** ** Witnesses: a library whose signatures are the key *)

Module ToySigner.
Import word_list mnemonic bip39 toolbox_data MnemonicHelper HDKeyEncoder Signing.

Definition compact (l : list Z) : Prop := length l = 64%nat /\ bytes_ok l.

#[local] Instance compact_dec l : Decision (compact l).
Proof. unfold compact. apply _. Defined.

Definition private (l : list Z) : Prop := length l = 32%nat /\ bytes_ok l.

#[local] Instance private_dec l : Decision (private l).
Proof. unfold private. apply _. Defined.

Lemma compact_of key : private key -> compact (key ++ replicate 32 0).
Proof. intros [L B]. split; [by rewrite length_app, L|]. apply Forall_app. split; [done|]. apply (bool_decide_unpack _). by vm_compute. Qed.

Definition sign (key : list Z) : option (dsig compact) :=
  match decide (private key) with left p => Some (dexist _ (compact_of key p)) | right _ => None end.

Definition create (key : list Z) : option Z := if decide (private key) then Some (be_word key) else None.

Lemma prefixed_form p : zlen p = 64 -> bytes_ok p -> length (4 :: p) = 65%nat /\ bytes_ok (4 :: p).
Proof. intros L B. split; [cbn [length]; unfold zlen in L; lia|]. constructor; [by vm_compute|done]. Qed.

Lemma coordinates_form k : length (4 :: pub64 k) = 65%nat /\ bytes_ok (4 :: pub64 k).
Proof. exact (prefixed_form (pub64 k) (zlen_pub64 k) (pub64_ok k)). Qed.

#[local] Instance toy_library : libsecp256k1.
Proof.
  refine {|
    pubkey_t := Z; sig_t := dsig compact;
    ecdsa_recoverable_signature_parse_compact l _ := match decide (compact l) with left p => Some (dexist l p) | right _ => None end;
    ecdsa_recoverable_signature_serialize_compact s := (`s, 0);
    ecdsa_sign_recoverable_ _ key := sign key;
    ecdsa_recover s _ := create (take 32 (`s));
    ec_pubkey_create key := create key;
    ec_pubkey_uncompressed k := 4 :: pub64 k;
    ec_pubkey_compressed k := pub33 k;
    ecdh _ k := Some k |}.
  - exact coordinates_form.
  - intros s. pose proof (proj2_dsig s) as [L B]. split_and!; [done|done|lia|lia|]. destruct (decide (compact (`s))) as [p|p]; [|by destruct p].
    f_equal. by apply dsig_eq.
  - intros h k s. unfold sign, create. destruct (decide (private k)) as [p|p]; [|done]. intros [= <-]. cbn [proj1_sig dexist].
    destruct p as [L B]. rewrite take_app_length' by done. by rewrite decide_True.
Defined.

Lemma private_key k : private (be_bytes 32 k).
Proof. split; [apply length_be_bytes|apply be_bytes_ok]. Qed.

Lemma toy_signs k : is_Some (sign (be_bytes 32 k)).
Proof. unfold sign. destruct (decide (private (be_bytes 32 k))) as [p|p]; [by eexists|]. destruct p. apply private_key. Qed.

Lemma toy_creates k : 0 < k < value (ecdsa.order secp256k1.secp256k1) -> create (be_bytes 32 k) = Some k.
Proof. intros Hk. unfold create. rewrite decide_True by apply private_key. f_equal. by apply key_word. Qed.

#[local] Instance toy_curve : SameCurve.
Proof.
  split.
  - intros h k _. exact (toy_signs k).
  - intros k Hk. exists k. split; [exact (toy_creates k Hk)|reflexivity].
Qed.

Definition secret : list Z := replicate 16 1.
Definition secret_text : list Z := Eval vm_compute in match bytes_to_hex (replicate 16 1) 16 with Ret s => s | _ => [] end.
Definition hash_junk : list (list Z) := replicate 5 (replicate 5 0).
Lemma zeros_compact : compact (replicate 64 0).
Proof. split; [done|]. apply (bool_decide_unpack _). by vm_compute. Qed.

Definition no_sig : sig_t := dexist (replicate 64 0) zeros_compact.

Lemma secret_ok : account_ok (replicate 128 7) hash_junk (replicate 64 0) secret secret_text.
Proof.
  split; [split; [done|apply (bool_decide_unpack _); by vm_compute]|split; [done|by repeat constructor]|done|].
  split; [apply (bool_decide_unpack _); by vm_compute|]. split; [done|by vm_compute].
Qed.

Lemma signature_recovers_account_witness :
  exists r, entropyHexToMnemonic (fun _ => 0) true secret_text (bytes_of "en") = Ret r /\
  match wallet_key 1 (raw r) account_path with
  | Some (k, _) => exists sig pk,
      signMessage 1 sha256_Init (fun _ => 0) (replicate 128 7) hash_junk (replicate 64 0) no_sig (replicate 99 5) secret_text [104; 105] (replicate 65 0) = Ret (sig, []) /\
      getAddressByEntropy 1 (fun _ => 0) (replicate 128 7) hash_junk (replicate 64 0) (replicate 90 5) secret_text = Ret (eth_address k, []) /\
      secp256k1_helpers.recover_pub_key_and_address_from_sig hash_junk sig
        (secp256k1_helpers.format_sign_msg_data [104; 105] secp256k1_helpers.SignMsgType_ptp) = Ret (Some (ec_pubkey_compressed pk, eth_address k)) /\
      verifyMessageRecoverAddress hash_junk sig [104; 105] = Ret (eth_address k)
  | None => signMessage 1 sha256_Init (fun _ => 0) (replicate 128 7) hash_junk (replicate 64 0) no_sig (replicate 99 5) secret_text [104; 105] (replicate 65 0) = NoFuel /\
      getAddressByEntropy 1 (fun _ => 0) (replicate 128 7) hash_junk (replicate 64 0) (replicate 90 5) secret_text = NoFuel
  end.
Proof.
  apply (signature_recovers_account 1 sha256_Init (fun _ => 0) (replicate 128 7) hash_junk (replicate 64 0) no_sig secret secret_text [104; 105] (replicate 65 0)
    (replicate 99 5) [] (replicate 90 5) []); [exact secret_ok|reflexivity|by vm_compute|by vm_compute].
Defined.

End ToySigner.
